(* ===== verification/_CoqProject ===== *)
-Q . S2P
Prelude.v
AptString.v
TextStream.v
TextValues.v
HeaderField.v
TextMessage.v
StartLine.v
MrcpHeader.v
GenericHeader.v
Message.v
FloatValue.v
SynthHeader.v
RecorderHeader.v
VerifierHeader.v
RecogHeader.v
StateMachine.v
SynthStateMachine.v
RecorderStateMachine.v
VerifierStateMachine.v
RecogStateMachine.v
CyclicQueue.v
TimerQueue.v
AprHash.v
MessageParser.v
Transport.v
ResourceFactory.v
MrcpStream.v
FieldsParse.v
StreamRoundtrip.v
ParserProgress.v
ServerAgent.v
ServerAgentSafety.v
ServerStream.v
ClientAgent.v
ClientRequests.v
ClientStream.v
CodecDescriptor.v
G711.v
Codec.v
MediaBuffer.v
ActivityDetector.v
JitterBuffer.v
MediaDescriptor.v
Engine.v
SessionMachines.v
ServerSession.v
ServerSessionRaces.v
ServerSessionRuns.v
ServerOffer.v
RtspStartLine.v
RtspHeader.v
RtspStream.v
RtspServer.v
RtspServerSend.v
RtspServerSafety.v
RtspServerStream.v
