(* ===== verification/Prelude.v ===== *)
(** * A verification development of the core of UniMRCP

    UniMRCP ([src/trunk]) is an implementation of the Media Resource Control Protocol in C: a
    server owns speech engines, a client controls them with MRCP requests and receives responses
    and events.  This library models the part of it that carries the protocol itself.  All file
    names below are relative to [src/trunk/libs].

    ** The parts and how they interact

    Text travels through [apr-toolkit]: strings with a length ([apt_string.h]), tables of names
    ([apt_string_table.c]), a text stream that is read and written through a moving position
    ([apt_text_stream.c]), header fields kept in a ring and in an array indexed by identifier
    ([apt_header_field.c]), and the text of header sections ([apt_text_message.c]).  On top of it
    [mrcp/message] has the start line, the header with its two accessors (generic fields and
    fields of a resource, each behind a virtual table), channel identifiers and messages.
    [mrcp/resources] gives the virtual tables of the four resources.  [mrcp-engine] runs one
    state machine per channel between a session (the owner) and an engine: the owner updates the
    machine with every request of the client and with every response and event of the engine, and
    the machine dispatches messages back to the owner through callbacks.  [mrcp/control] makes
    messages out of a stream and back: a staged parser and generator ([apt_text_message.c]) with
    handlers for MRCP ([mrcp_stream.c]) that find the resource of a message in a factory
    ([mrcp_resource_factory.c]).  [mrcpv2-transport] runs them over the connections of the server
    and of the client, which carry the messages of many control channels each; the agent of the
    client keeps the request under way of every channel and a timer for it in the queue of its task
    ([apt_timer_queue.c]).  [mpf] moves the media: two sides agree on codecs by the intersection of
    their lists of descriptors, frames of samples are encoded by a codec, packets of the network
    are put in order by a jitter buffer, and an engine reads frames through buffers and a detector
    of voice activity.  [mrcp-server] ties them together: a session gets an offer from the signaling
    agent, makes a channel for every resource in it, asks the connection agent for a control channel,
    the engine for an engine channel and the media engine for terminations and their topology, and
    answers when all of them did; it then passes the messages of the control channels to the state
    machines and is their owner.  MRCPv1 travels inside of RTSP: [uni-rtsp] has its messages over the
    text streams and the staged parser of the toolkit.

    ** The files

    - [Prelude]: bytes, the C character and number functions the code calls, machine integers,
      programs over a state that may be undefined ([prog]) and a small calculus of postconditions
      for them ([wp]), record update, shared lemmas.
    - [AptString]: [apt_str_t] as memory and length; string tables; pairs.
    - [TextStream]: [apt_text_stream_t]; every reader is a function on streams, every inserter a
      [prog] that is undefined when it stores outside the memory of the stream.  The Apache
      Portable Runtime is the class [Apr] (bounded print, fresh memory), its documented behaviour
      the class [AprLaws], with the instance [apr_reference].  [TextValues] has the round trips
      of values written and read through streams.
    - [HeaderField]: [apt_header_section_t] as a ring of addressed fields and an array of
      addresses; [section_wf] is the invariant that ties them.  [TextMessage]: parsing, folding and
      generation of a section.
    - [StartLine]: [mrcp_start_line.c], both versions of the protocol.
    - [MrcpHeader], [GenericHeader], [Message]: [mrcp_header.c], [mrcp_header_accessor.c],
      [mrcp_generic_header.c], [mrcp_message.c].  A virtual table is the record
      [mrcp_header_vtable_t], a resource the record [mrcp_resource_t].
    - [FloatValue], [SynthHeader], [RecorderHeader], [VerifierHeader], [RecogHeader]: the values
      and headers of the resources ([mrcp_*_header.c]) and the resources themselves
      ([mrcp_*_resource.c]).  Floats of the C library are the class [CFloat].
    - [StateMachine]: what the machines share: the owner as the class [Dispatcher] with its laws,
      runs and reachable states, and the removal of queued requests.
    - [SynthStateMachine], [RecorderStateMachine], [VerifierStateMachine], [RecogStateMachine]:
      [mrcp_*_state_machine.c]; the record of a machine has the fields of the C structure, each
      handler is a [prog] over the machine and the world of its owner, composed by the method
      tables and the update and deactivate operations as in the source.

    - [CyclicQueue]: [apt_cyclic_queue.c], an array with two indices that grows, and the FIFO list
      it implements.  [TimerQueue]: [apt_timer_queue.c], the ring of timers in a store; the advance
      of time takes the procedures of the timers, which act on the state of the owner of the queue,
      as an argument.

    - [AprHash]: hash tables of the runtime as a class with laws.  [MessageParser]: the staged
      parser and generator over any context of a message.  [ResourceFactory]:
      [mrcp_resource_factory.c] and [mrcp_resource_loader.c].  [MrcpStream]: [mrcp_stream.c].
      [FieldsParse] has what parsing makes of the fields of a whole header, [StreamRoundtrip] the
      round trip of whole messages, [ParserProgress] that a staged parser consumes what it is given.
    - [Transport]: what both agents share: [mrcp_control_descriptor.c], the receive step of a stream
      and the choice of an agent ([mrcp_ca_factory.c]).
    - [ServerAgent]: [mrcp_connection.c] and [mrcp_server_connection.c]; connections and channels are objects in a store, the calls to
      the owner and to the network a list of events in the state.  [ServerAgentSafety] has the
      invariant of the store and the operations, [ServerStream] the messages sent and received.
    - [ClientAgent]: [mrcp_connection.c] and [mrcp_client_connection.c], the state with the queue of
      timers.  [ClientRequests] has its invariant and accounts for every request, [ClientStream] the
      messages received.
    - [CodecDescriptor]: [mpf_codec_descriptor.c], [mpf_named_event.c] and the frames of
      [mpf_frame.h].  [G711]: the companding of samples ([g711.h], [g711.c]).  [Codec]: codecs as
      records of methods, the G.711 and linear codecs and the manager that registers them
      ([mpf_codec.h], [mpf_codec_g711.c], [mpf_codec_linear.c], [mpf_codec_manager.c]).
    - [MediaBuffer]: [mpf_frame_buffer.c] and [mpf_buffer.c].  [ActivityDetector]:
      [mpf_activity_detector.c].  [JitterBuffer]: [mpf_jitter_buffer.c].
    - [MediaDescriptor]: descriptors of streams, RTP media and terminations and of sessions
      ([mpf_stream_descriptor.h], [mpf_stream.c], [mpf_rtp_descriptor.h], [mrcp_session_descriptor.h]).
      [Engine]: [mrcp_engine_iface.c], [mrcp_engine_impl.c], [mrcp_engine_factory.c], and the class
      [StateMachines] of the machines an engine may create, with its laws; [SessionMachines] has its
      instances for the four machines.
    - [ServerSession]: [mrcp_server_session.c], the messages of the task ([mrcp_server.c]) and those
      the session collects for the media engine ([mpf_engine.c]).  A session is one record; what it
      tells the others is a list of events in it; a machine runs apart from the session and its
      callbacks run the handlers of the session ([reenter], [with_machine]), which may dispatch the next
      request from inside of the machine.  [ServerOffer] has the account of offers, [ServerSessionRuns]
      the order of requests, [ServerSessionRaces] what goes wrong when messages cross.
    - [RtspStartLine]: [rtsp_start_line.c].  [RtspHeader]: [rtsp_header.c], transports and the fields of
      the header.  [RtspStream]: [rtsp_message.c] and [rtsp_stream.c], the second client of
      [MessageParser], with the round trip of messages.
    - [RtspServer]: [rtsp_server.c], connections and sessions in stores, the calls of the owner and of the
      network a list of events.  [RtspServerSend] has the pieces of a message that is sent, as programs
      that stay inside of a stream, [RtspServerSafety] the invariant and the order of requests,
      [RtspServerStream] the loop of a receive.

    ** How the model corresponds to the code

    Pointers into a buffer are offsets into its memory; a read past a NUL-terminated buffer yields
    NUL, a store outside a buffer and a dereference of NULL make the result [None].  A function
    that returns a boolean and writes through a pointer returns both.  Sizes are [nat] where they
    only count memory and [Z] with their wrap-around where arithmetic on them matters.  The host is
    little-endian where samples are stored.  Log calls
    are left out.  Memory pools never fail.  A message passed to a machine is a value: the code
    never keeps two owners of one message that both change it, except that the internal STOP
    request of a deactivation shares the header of the request it stops; the machine does not
    change that header afterwards.

    ** What the theorems show

    - A message that is generated is recovered by the parser from its text, with what follows it
      left unread ([mrcp_message_roundtrip]); a body that arrives in any pieces is put together
      ([parser_feed_body]); the connection agent of the server sends messages as a whole in
      pieces its buffer takes ([server_message_sent]) and hands those that arrive to the channels
      they are for, in order, attaching the pending channels they name ([server_messages_received]); its receive loop ends
      ([receive_loop_terminates]).
    - Every request given to the agent of the client is answered once, in order, by a response, at a
      disconnect or when its time is over ([client_requests_answered], [client_response_received],
      [client_requests_time_out]), as long as the clock is not advanced to 65535 ms over a timer that is past due;
      its receive loop ends ([client_receive_loop_terminates]).
    - In every state the agent of the server can reach no pointer dangles and no connection is left
      behind ([server_agent_safe]); the resource factory refines a partial map.
    - Every offer to a session of the server, also one that waits while another is served, is answered once, as
      soon as everything the session asked for was answered and not before, whatever the order of the answers
      ([session_offers_answered], about runs of offers and their answers).
      Requests are dispatched in the order they arrive ([session_requests_in_order]), and the nesting of
      dispatches inside of machines ends: whatever were done beyond the bound of the nesting is never done
      ([dispatch_nesting_ends]).
    - The recorder, verifier and recognizer machines implement abstract machines of a few lines,
      for every message and in every state ([recorder_refines_spec], [verifier_refines_spec],
      [recog_refines_spec]).  For the
      synthesizer, whose code has races, the invariant of reachable states ([synth_machine_invariant]), the exact
      condition under which an update is undefined ([synth_update_undefined_iff]), the order of the SPEAK queue
      ([synth_queue_fifo]), STOP and deactivation.
    - Start lines, header sections ([apt_header_section_roundtrip]), header fields, channel identifiers, pairs, numbers, speech
      lengths and completion causes are recovered by parsing what was generated.
    - The queue of timers refines a list of times left, for the advances of time it can count; the cyclic queue
      refines a list, except that its test for emptiness answers the opposite
      ([timer_queue_refines], [cyclic_queue_refines_fifo]).
    - The codec a session uses is the first one enabled on both sides
      ([codec_lists_intersect_correct]).  Every codec carries a frame to the other side, L16 exactly,
      G.711 with an error of about a thirty-second of the sample ([codecs_carry_frames], [g711_companding]), and octets
      survive transcoding ([g711_octets_survive]).
    - The media buffer is a stream of octets, the frame buffer a bounded list of frames
      ([media_buffer_streams], [frame_buffer_refines]) until 2^64 frames were offered to it.  A jitter buffer that
      does not adapt nor look for a clock skew plays packets in the places their time stamps give, if none is more than a whole
      buffer ahead ([jitter_buffer_refines]); two of them may change their order inside of a talkspurt
      ([jitter_buffer_order_irrelevant]).  The detector reports what the history of frames shows
      ([activity_detector_correct]).
    - RTSP messages are recovered from their text ([rtsp_message_roundtrip]), descriptions of
      transports too, but for the ports of the server ([rtsp_transport_roundtrip]); the response to
      a request reaches its sender with the sequence number of the request ([rtsp_response_answers]).
    - In every state the server of RTSP can reach the next operation is defined and connections, tables
      and sessions agree ([rtsp_server_safe]); the requests of a session are put to the owner one at a time
      in the order they arrive, each after the response to the one before was sent ([rtsp_request_waits],
      [rtsp_response_serves_next], but for the requests that end the session); its receive loop ends
      ([rtsp_receive_loop_terminates]).
    - Header sections keep their invariant; inherit, set and get of header fields are specified by
      lookup; every field of every header is a lens (parsing one leaves the others alone).
    - The table search with its key characters equals a plain search; inserters never leave their
      buffer; the message length is a fixed point; lists of request identifiers never overflow.
    - Some theorems record defects of the code: an event that overtakes a response crashes the
      synthesizer machine, a SPEAK request can be lost, generated identifier lists contain
      uninitialised bytes, a body that starts with white space loses its first line, a response that is
      not expected blocks its connection, a timer past due can be lost, a queue of one object stores
      outside of its memory, a packet far ahead of the reader overwrites frames of the jitter buffer
      that wait, a new segment of a long event is dropped, a session loses a request that crosses the
      answers of the engine (the run [session_stop_race]), is stopped for good by a message for a resource it does
      not have ([session_stuck]), and takes the position of a channel for that of its medium
      (the run [session_channel_positions]); the server of RTSP uses a session that was destroyed after its owner
      refused the first request ([rtsp_first_request_refused]).

    ** Bounds and fuel

    Loops over a stream take the number of remaining bytes as fuel, which is enough because each
    iteration consumes one at least; printing of numbers takes the number of bits.  A message is
    sent in at most as many pieces as its body has bytes, and two; a receive runs the parser at
    most once per byte, and once more.  The jitter buffer takes frames off a packet with one unit of fuel
    for each octet of it, the media buffer reads at most one chunk for each that it holds, and one.
    A session dispatches at most once per request in its queue inside of a dispatch, and once.
    No theorem is conditional on fuel.

    ** Not modelled

    Threads, sockets, polling, logging and memory pools are those of the platform: what a socket
    does is an argument of the operations of the agents.  The set-up of the server
    (registration of agents, engines and profiles) only fills tables.  Sessions of the client
    and the client of RTSP are of the same make as their servers and are left to later work, as are multipart
    documents and, of the media framework, the contexts, terminations, mixers, DTMF and RTP streams, which run on
    the clock of the media task.  Plugins, applications and the SIP library
    glue only call the parts above; shared objects are loaded by the platform.  [src/branches], [src/tags] and [src/solutions] hold copies of older versions and
    programs that use the libraries. *)

From stdpp Require Export base option list gmap strings numbers.
From Stdlib Require Export ZArith Lia Ascii.

#[global] Open Scope Z_scope.
#[global] Open Scope list_scope.

(** * Bytes and C string memory

    A [char] is an [ascii]; a region of memory is the list of bytes from a
    pointer to the end of the allocation the pointer lies in.  Every text
    buffer of the toolkit is followed by a NUL byte, so a read past the end of
    such a list yields NUL. *)

Abbreviation char := ascii.
Abbreviation bytes := (list ascii).
(** The address of an object in a store. *)
Abbreviation addr := nat.

Definition NUL : char := "000"%char.
Definition TAB : char := "009"%char.
Definition LF : char := "010"%char.
Definition CR : char := "013"%char.
Definition SP : char := " "%char.

(** The bytes of a C string literal, without its terminator. *)
Definition lit (s : string) : bytes := String.list_ascii_of_string s.

(** The byte a pointer points at. *)
Definition deref (s : bytes) : char := match s with [] => NUL | c :: _ => c end.

Definition code (c : char) : Z := Z.of_N (N_of_ascii c).
Definition char_of (z : Z) : char := ascii_of_N (Z.to_N z).

Definition in_range (lo c hi : Z) : bool := (lo <=? c) && (c <=? hi).

(** libc [tolower] of the C locale. *)
Definition tolower (c : char) : char :=
  if in_range 65 (code c) 90 then char_of (code c + 32) else c.

(** libc [isdigit] and [isspace] of the C locale. *)
Definition isdigit (c : char) : bool := in_range 48 (code c) 57.
Definition isspace (c : char) : bool :=
  in_range 9 (code c) 13 || (code c =? 32).

Definition char_eqb (a b : char) : bool := bool_decide (a = b).

(** libc [strncasecmp(s1,s2,n) == 0]. *)
Fixpoint strncasecmp_eq (s1 s2 : bytes) (n : nat) : bool :=
  match n with
  | O => true
  | S n' =>
      if char_eqb (tolower (deref s1)) (tolower (deref s2)) then
        if char_eqb (deref s1) NUL then true
        else strncasecmp_eq (tail s1) (tail s2) n'
      else false
  end.

(** libc [strchr]: offset of the first occurrence of [c] before the
    terminating NUL. *)
Fixpoint strchr (s : bytes) (c : char) : option nat :=
  match s with
  | [] => if char_eqb c NUL then Some 0%nat else None
  | x :: s' =>
      if char_eqb x c then Some 0%nat
      else if char_eqb x NUL then None
      else S <$> strchr s' c
  end.

(** libc [strlen]. *)
Fixpoint strlen (s : bytes) : nat :=
  match s with
  | [] => 0
  | c :: s' => if char_eqb c NUL then 0%nat else S (strlen s')
  end.

(** The string a pointer to its memory means. *)
Definition c_string (m : bytes) : bytes := take (strlen m) m.

(** The test [s == strstr(s,pat)]: does [pat] (a literal, free of NUL) occur
    at the very start of [s]? *)
Fixpoint starts_with (s pat : bytes) : bool :=
  match pat with
  | [] => true
  | p :: pat' => char_eqb (deref s) p && starts_with (tail s) pat'
  end.

(** The longest prefix of bytes satisfying [p], and what follows it. *)
Fixpoint span (p : char -> bool) (s : bytes) : bytes * bytes :=
  match s with
  | [] => ([], [])
  | c :: s' =>
      if p c then let '(a, b) := span p s' in (c :: a, b) else ([], s)
  end.

(** * Machine integers *)

Definition u32 (z : Z) : Z := z mod 2 ^ 32.
Definition u64 (z : Z) : Z := z mod 2 ^ 64.
(** Reinterpretation of a 32-bit pattern as [int]. *)
Definition s32 (z : Z) : Z :=
  let w := z mod 2 ^ 32 in if w <? 2 ^ 31 then w else w - 2 ^ 32.

(** * Decimal conversion *)

Definition digit_char (d : Z) : char := char_of (48 + d).
Definition digit_val (c : char) : Z := code c - 48.

Fixpoint dec_aux (fuel : nat) (n : Z) : bytes :=
  match fuel with
  | O => []
  | S f => (if n <? 10 then [] else dec_aux f (n / 10)) ++ [digit_char (n mod 10)]
  end.

(** What [printf] writes for a non-negative integer under [%u]/[%lu]; one unit
    of fuel per binary digit is more than one per decimal digit. *)
Definition dec (n : Z) : bytes := dec_aux (S (Z.to_nat (Z.log2 n))) n.

(** What [printf] writes under [%d]. *)
Definition dec_signed (n : Z) : bytes :=
  if n <? 0 then "-"%char :: dec (- n) else dec n.

Definition undec_step (acc : Z) (c : char) : Z := 10 * acc + digit_val c.
Definition undec (l : bytes) : Z := fold_left undec_step l 0.

Definition clamp (lo hi z : Z) : Z := Z.max lo (Z.min hi z).

(** libc [atol] on a 64-bit [long]: white space, an optional sign, digits up to
    the first non-digit, saturating like [strtol]. *)
Definition atol (s : bytes) : Z :=
  let s := snd (span isspace s) in
  let '(neg, s) :=
    match s with
    | "-"%char :: s' => (true, s')
    | "+"%char :: s' => (false, s')
    | _ => (false, s)
    end in
  let v := undec (fst (span isdigit s)) in
  clamp (- 2 ^ 63) (2 ^ 63 - 1) (if neg then - v else v).

(** * The undefined-behaviour monad

    A definition that models code which dereferences a pointer that may be NULL
    or writes through an unchecked pointer returns an [option]; [None] stands
    for the undefined behaviour.  Stateful code is a function of type
    [prog S A]: from a state to a result and the next state, or [None]. *)

Definition prog (S A : Type) : Type := S -> option (A * S).

Definition ret {S A} (a : A) : prog S A := fun s => Some (a, s).
Definition crash {S A} : prog S A := fun _ => None.
Definition bind {S A B} (m : prog S A) (k : A -> prog S B) : prog S B :=
  fun s => match m s with Some (a, s') => k a s' | None => None end.
Definition gets {S A} (f : S -> A) : prog S A := fun s => Some (f s, s).
Definition modify {S} (f : S -> S) : prog S unit := fun s => Some (tt, f s).
(** [*p] for a pointer that may be NULL. *)
Definition deref_ptr {S A} (p : option A) : prog S A :=
  match p with Some a => ret a | None => crash end.

Declare Scope prog_scope.
Delimit Scope prog_scope with prog.
Notation "'let*' x ':=' m 'in' k" := (bind m (fun x => k))
  (at level 10, x pattern, m at level 100, k at level 200) : prog_scope.
Notation "m ';;;' k" := (bind m (fun _ => k))
  (at level 60, right associativity) : prog_scope.

(** [option] programs without state. *)
Notation "'let?' x ':=' m 'in' k" := (match m with Some x => k | None => None end)
  (at level 10, x pattern, m at level 100, k at level 200) : prog_scope.

#[global] Open Scope prog_scope.

(** * Enumerations

    A C enumeration is an inductive type with the list of its enumerators in
    order; its numbers are the positions in that list. *)

Definition enum_num {A} `{EqDecision A} (l : list A) (x : A) : Z :=
  match list_find (fun y => y = x) l with
  | Some (k, _) => Z.of_nat k
  | None => Z.of_nat (length l)
  end.

(** The enumerator of a number; [None] is the default of a [switch]. *)
Definition enum_of {A} (l : list A) (z : Z) : option A :=
  if z <? 0 then None else l !! Z.to_nat z.

(** * Record update

    [s <| f := v |>] is the record [s] with field [f] set to [v], for any record
    with an [Eta] instance: the setter is computed from the eta-expansion. *)

Class Eta (R : Type) := eta : R -> R.
Class Setter {R T} (proj : R -> T) := field_set : T -> R -> R.

Ltac build_setter :=
  lazymatch goal with
  | |- @Setter ?R ?T ?proj =>
      exact (fun (v : T) (s : R) => ltac:(
        let e := eval cbv beta delta [eta] in (@eta R _ s) in
        let e := eval hnf in e in
        lazymatch eval pattern (proj s) in e with
        | ?k _ => let r := eval cbv beta in (k v) in exact r
        end))
  end.

#[export] Hint Extern 0 (Setter _) => build_setter : typeclass_instances.
Arguments field_set {R T} proj {_} v s /.
Notation "x '<|' f ':=' v '|>'" := (field_set f v x)
  (at level 1, f at level 100, v at level 200, left associativity).

(** * Tactics and hint databases *)

Create HintDb mrcp discriminated.
Create Rewrite HintDb mrcp.

(** Case analysis on every [if] and [match] scrutinee of the goal. *)
Ltac split_cases :=
  repeat (case_match; simplify_eq/=; try done).

(** Reflect boolean comparisons in the context and finish with [lia]. *)
Ltac zify_bools :=
  rewrite ?andb_true_iff, ?orb_true_iff, ?andb_false_iff, ?orb_false_iff,
    ?Z.ltb_lt, ?Z.leb_le, ?Z.eqb_eq, ?Z.ltb_ge, ?Z.leb_gt, ?Z.eqb_neq,
    ?Nat.ltb_lt, ?Nat.leb_le, ?Nat.eqb_eq, ?Nat.ltb_ge, ?Nat.leb_gt, ?Nat.eqb_neq in *.

Ltac blia := zify_bools; lia.

(** Evaluate a closed decidable proposition. *)
Ltac decide_now :=
  match goal with |- ?P => refine (bool_decide_unpack P _); vm_compute; exact I end.

(** * A program calculus

    [wp c m s Q]: run from [s] the program [m] returns with a result and a state that satisfy
    [Q], or is undefined and [c] holds.  With [c = False] this is total correctness, with
    [c = True] partial correctness. *)
Section Calculus.
Context {S : Type} (c : Prop).

Definition wp {A} (m : prog S A) (s : S) (Q : A -> S -> Prop) : Prop :=
  match m s with Some (a, s') => Q a s' | None => c end.

Lemma wp_bind {A B} (m : prog S A) (k : A -> prog S B) s Q :
  wp m s (fun a s' => wp (k a) s' Q) -> wp (bind m k) s Q.
Proof. unfold wp, bind. by destruct (m s) as [[a s']|]. Qed.
Lemma wp_ret {A} (a : A) s (Q : A -> S -> Prop) : Q a s -> wp (ret a) s Q.
Proof. done. Qed.
Lemma wp_gets {A} (f : S -> A) s (Q : A -> S -> Prop) : Q (f s) s -> wp (gets f) s Q.
Proof. done. Qed.
Lemma wp_modify (f : S -> S) s (Q : unit -> S -> Prop) : Q tt (f s) -> wp (modify f) s Q.
Proof. done. Qed.
Lemma wp_deref {A} (p : option A) s (Q : A -> S -> Prop) :
  match p with Some a => Q a s | None => c end -> wp (deref_ptr p) s Q.
Proof. by destruct p. Qed.
Lemma wp_weaken {A} (m : prog S A) s (Q Q' : A -> S -> Prop) :
  wp m s Q -> (forall a s', Q a s' -> Q' a s') -> wp m s Q'.
Proof. unfold wp. intros HQ HI. destruct (m s) as [[a s']|]; auto. Qed.
End Calculus.

Lemma wp_total {S A} (m : prog S A) s Q :
  wp False m s Q -> exists a s', m s = Some (a, s') /\ Q a s'.
Proof. unfold wp. intros HQ. destruct (m s) as [[a s']|]; [eauto|done]. Qed.
Lemma wp_partial {S A} (m : prog S A) s Q a s' : wp True m s Q -> m s = Some (a, s') -> Q a s'.
Proof. unfold wp. intros HQ E. by rewrite E in HQ. Qed.

(** * Lemmas on bytes *)

Lemma char_eqb_spec (a b : char) : reflect (a = b) (char_eqb a b).
Proof. apply bool_decide_reflect. Qed.

Lemma char_eqb_refl (a : char) : char_eqb a a = true.
Proof. by apply bool_decide_eq_true. Qed.

Lemma char_eqb_ne (a b : char) : a <> b -> char_eqb a b = false.
Proof. intros H. by apply bool_decide_eq_false. Qed.

Lemma code_char_of (z : Z) : 0 <= z < 256 -> code (char_of z) = z.
Proof.
  intros H. unfold code, char_of. rewrite N_ascii_embedding by lia. lia.
Qed.

Lemma code_range (c : char) : 0 <= code c < 256.
Proof. unfold code. pose proof (N_ascii_bounded c). lia. Qed.

Lemma char_of_code (c : char) : char_of (code c) = c.
Proof. unfold char_of, code. by rewrite N2Z.id, ascii_N_embedding. Qed.

Lemma code_inj (a b : char) : code a = code b -> a = b.
Proof. intros H. by rewrite <-(char_of_code a), <-(char_of_code b), H. Qed.

Lemma tolower_idem (c : char) : tolower (tolower c) = tolower c.
Proof.
  unfold tolower at 2 3. destruct (in_range 65 (code c) 90) eqn:E; unfold tolower.
  - unfold in_range in *. pose proof (code_range c).
    rewrite code_char_of by blia.
    destruct ((65 <=? code c + 32) && (code c + 32 <=? 90)) eqn:E2; [blia|done].
  - by rewrite E.
Qed.

(** * Lemmas on [span] *)

Lemma span_app (p : char -> bool) (s : bytes) : fst (span p s) ++ snd (span p s) = s.
Proof.
  induction s as [|c s IH]; simpl; [done|].
  destruct (p c); [|done]. destruct (span p s); simpl in *. by rewrite IH.
Qed.

Lemma span_spec (p : char -> bool) (a b : bytes) :
  Forall (fun c => p c = true) a ->
  (forall c b', b = c :: b' -> p c = false) ->
  span p (a ++ b) = (a, b).
Proof.
  intros Ha Hb. induction Ha as [|c a Hc Ha IH]; simpl.
  - destruct b as [|c b]; [done|]. simpl. by rewrite (Hb c b).
  - by rewrite Hc, IH.
Qed.

Lemma span_fst_Forall (p : char -> bool) (s : bytes) :
  Forall (fun c => p c = true) (fst (span p s)).
Proof.
  induction s as [|c s IH]; simpl; [constructor|].
  destruct (p c) eqn:E; [|constructor].
  destruct (span p s); simpl in *. by constructor.
Qed.

Lemma span_snd_head (p : char -> bool) (s : bytes) c r :
  snd (span p s) = c :: r -> p c = false.
Proof.
  induction s as [|x s IH]; simpl; [done|].
  destruct (p x) eqn:E; [destruct (span p s); simpl in *; auto|].
  intros [= -> ->]. done.
Qed.

(** * Lemmas on decimal conversion *)

Lemma digit_char_val (d : Z) : 0 <= d < 10 -> digit_val (digit_char d) = d.
Proof. intros H. unfold digit_val, digit_char. rewrite code_char_of; lia. Qed.

Lemma digit_char_isdigit (d : Z) : 0 <= d < 10 -> isdigit (digit_char d) = true.
Proof.
  intros H. unfold isdigit, digit_char, in_range. rewrite code_char_of by lia. blia.
Qed.

Lemma undec_snoc (l : bytes) (c : char) : undec (l ++ [c]) = 10 * undec l + digit_val c.
Proof. unfold undec. by rewrite fold_left_app. Qed.

Lemma undec_dec_aux (f : nat) (n : Z) :
  0 <= n < 10 ^ Z.of_nat f -> undec (dec_aux f n) = n.
Proof.
  revert n. induction f as [|f IH]; intros n Hn; simpl.
  - cbn in *. lia.
  - rewrite undec_snoc, digit_char_val by (apply Z.mod_pos_bound; lia).
    destruct (Z.ltb_spec n 10).
    + cbn. rewrite Z.mod_small; lia.
    + rewrite IH.
      * pose proof (Z.div_mod n 10). lia.
      * rewrite Nat2Z.inj_succ, Z.pow_succ_r in Hn by lia.
        split; [apply Z.div_pos; lia|apply Z.div_lt_upper_bound; lia].
Qed.

Lemma dec_fuel_enough (n : Z) :
  0 <= n -> n < 10 ^ Z.of_nat (S (Z.to_nat (Z.log2 n))).
Proof.
  intros Hn. pose proof (Z.log2_nonneg n).
  destruct (Z.eq_dec n 0) as [->|]; [vm_compute; done|].
  pose proof (Z.log2_spec n ltac:(lia)) as [_ Hub].
  eapply Z.lt_le_trans; [exact Hub|].
  replace (Z.of_nat (S (Z.to_nat (Z.log2 n)))) with (Z.succ (Z.log2 n)) by lia.
  apply Z.pow_le_mono_l. lia.
Qed.

(** Printing then reading back the digits of a number gives the number. *)
Lemma undec_dec (n : Z) : 0 <= n -> undec (dec n) = n.
Proof. intros Hn. apply undec_dec_aux. split; [done|by apply dec_fuel_enough]. Qed.

Lemma dec_aux_digits (f : nat) (n : Z) :
  0 <= n -> Forall (fun c => isdigit c = true) (dec_aux f n).
Proof.
  revert n. induction f as [|f IH]; intros n Hn; simpl; [constructor|].
  apply Forall_app. split.
  - destruct (n <? 10); [constructor|]. apply IH. apply Z.div_pos; lia.
  - constructor; [|constructor]. apply digit_char_isdigit, Z.mod_pos_bound. lia.
Qed.

Lemma dec_digits (n : Z) : 0 <= n -> Forall (fun c => isdigit c = true) (dec n).
Proof. apply dec_aux_digits. Qed.

Lemma dec_nonempty (n : Z) : dec n <> [].
Proof. unfold dec. simpl. intros [_ ?]%app_eq_nil. done. Qed.

(** The number of digits written for [n]. *)
Lemma dec_aux_length (f : nat) (n : Z) :
  0 <= n < 10 ^ Z.of_nat f -> (0 < f)%nat ->
  let l := Z.of_nat (length (dec_aux f n)) in
  1 <= l /\ n < 10 ^ l /\ (n = 0 \/ 10 ^ (l - 1) <= n).
Proof.
  revert n. induction f as [|f IH]; intros n Hn Hf; [lia|].
  cbn [dec_aux]. rewrite length_app. cbn [length].
  destruct (Z.ltb_spec n 10) as [Hlt|Hge].
  - cbn. lia.
  - rewrite Nat2Z.inj_succ, Z.pow_succ_r in Hn by lia.
    assert (Hd : 0 < n / 10 < 10 ^ Z.of_nat f).
    { split; [apply Z.div_str_pos; lia|apply Z.div_lt_upper_bound; lia]. }
    assert (Hf' : (0 < f)%nat) by (destruct f; [cbn in Hd; lia|lia]).
    destruct (IH (n / 10) ltac:(lia) Hf') as (H1 & H2 & H3).
    set (l := Z.of_nat (length (dec_aux f (n / 10)))) in *.
    replace (Z.of_nat _) with (l + 1) by lia.
    rewrite Z.pow_add_r, Z.pow_1_r by lia.
    replace (l + 1 - 1) with ((l - 1) + 1) by lia.
    rewrite (Z.pow_add_r 10 (l - 1)), Z.pow_1_r by lia.
    pose proof (Z.div_mod n 10). pose proof (Z.mod_pos_bound n 10).
    split; [lia|]. split; [lia|]. right. destruct H3; lia.
Qed.

Lemma dec_length (n : Z) :
  0 <= n ->
  let l := Z.of_nat (length (dec n)) in
  1 <= l /\ n < 10 ^ l /\ (n = 0 \/ 10 ^ (l - 1) <= n).
Proof.
  intros Hn. apply dec_aux_length; [|lia]. split; [done|by apply dec_fuel_enough].
Qed.

(** The digit count is determined by the decade the number lies in. *)
Lemma dec_length_unique (n k : Z) :
  0 <= n -> 1 <= k -> n < 10 ^ k -> (k = 1 \/ 10 ^ (k - 1) <= n) ->
  Z.of_nat (length (dec n)) = k.
Proof.
  intros Hn Hk Hub Hlb. destruct (dec_length n Hn) as (H1 & H2 & H3).
  set (l := Z.of_nat (length (dec n))) in *.
  destruct (Z.lt_trichotomy l k) as [Hlt|[->|Hgt]]; [|done|].
  - exfalso. destruct Hlb as [->|Hlb]; [lia|].
    pose proof (Z.pow_le_mono_r 10 l (k - 1)). lia.
  - exfalso. destruct H3 as [->|H3].
    + subst l. cbn in *. lia.
    + pose proof (Z.pow_le_mono_r 10 k (l - 1)). lia.
Qed.

(** The byte after a decimal number stops the reader. *)
Definition stops (rest : bytes) : Prop := isdigit (deref rest) = false.

Lemma span_digits (n : Z) (rest : bytes) :
  0 <= n -> stops rest -> span isdigit (dec n ++ rest) = (dec n, rest).
Proof.
  intros Hn Hs. apply span_spec; [by apply dec_digits|].
  intros c b' ->. exact Hs.
Qed.

Lemma isdigit_not_space (c : char) : isdigit c = true -> isspace c = false.
Proof. unfold isdigit, isspace, in_range. intros. blia. Qed.

Lemma dec_head (n : Z) : 0 <= n -> exists c r, dec n = c :: r /\ isdigit c = true.
Proof.
  intros Hn. pose proof (dec_digits n Hn) as Hd. pose proof (dec_nonempty n).
  destruct (dec n) as [|c r]; [done|]. exists c, r. by inversion Hd.
Qed.

Lemma skip_space_dec (n : Z) (rest : bytes) :
  0 <= n -> snd (span isspace (dec n ++ rest)) = dec n ++ rest.
Proof.
  intros Hn. destruct (dec_head n Hn) as (c & r & -> & Hc).
  simpl. by rewrite (isdigit_not_space c Hc).
Qed.

(** [atol] reads back what [%lu] wrote, whatever non-digit follows. *)
Lemma atol_dec (n : Z) (rest : bytes) :
  0 <= n < 2 ^ 63 -> stops rest -> atol (dec n ++ rest) = n.
Proof.
  intros Hn Hs. unfold atol. rewrite skip_space_dec by lia.
  assert (Hm : match dec n ++ rest with
               | "-"%char :: s' => (true, s')
               | "+"%char :: s' => (false, s')
               | _ => (false, dec n ++ rest)
               end = (false, dec n ++ rest)).
  { destruct (dec_head n ltac:(lia)) as (c & r & -> & Hc). simpl.
    destruct c as [[] [] [] [] [] [] [] []]; try done; vm_compute in Hc; done. }
  rewrite Hm, span_digits by (done || lia). simpl.
  rewrite undec_dec by lia. unfold clamp. lia.
Qed.

(** [atol] reads back what [%d] wrote. *)
Lemma atol_dec_signed (n : Z) (rest : bytes) :
  - 2 ^ 63 < n < 2 ^ 63 -> stops rest -> atol (dec_signed n ++ rest) = n.
Proof.
  intros Hn Hs. unfold dec_signed. destruct (Z.ltb_spec n 0).
  - unfold atol. simpl.
    rewrite span_digits by (done || lia). simpl.
    rewrite undec_dec by lia. unfold clamp. lia.
  - apply atol_dec; [lia|done].
Qed.

Lemma u32_small (z : Z) : 0 <= z < 2 ^ 32 -> u32 z = z.
Proof. intros. unfold u32. by rewrite Z.mod_small. Qed.

Lemma u64_small (z : Z) : 0 <= z < 2 ^ 64 -> u64 z = z.
Proof. intros. unfold u64. by rewrite Z.mod_small. Qed.

Lemma u32_range (z : Z) : 0 <= u32 z < 2 ^ 32.
Proof. apply Z.mod_pos_bound. lia. Qed.

(** Reinterpreting as [int] and truncating back to 32 bits is the identity. *)
Lemma u32_s32 (z : Z) : 0 <= z < 2 ^ 32 -> u32 (s32 z) = z.
Proof.
  intros Hz. unfold s32. rewrite Z.mod_small by done.
  destruct (Z.ltb_spec z (2 ^ 31)); [by apply u32_small|].
  unfold u32. replace (z - 2 ^ 32) with (z + (-1) * 2 ^ 32) by lia.
  rewrite Z.mod_add by lia. by apply Z.mod_small.
Qed.

Lemma s32_range (z : Z) : - 2 ^ 31 <= s32 z < 2 ^ 31.
Proof.
  unfold s32. pose proof (Z.mod_pos_bound z (2 ^ 32)).
  destruct (Z.ltb_spec (z mod 2 ^ 32) (2 ^ 31)); lia.
Qed.

(** * Lemmas on lists *)

Lemma Forall_take_drop {A} (P : A -> Prop) (n : nat) (l : list A) :
  Forall P l -> Forall P (take n l) /\ Forall P (drop n l).
Proof. intros. split; [by apply Forall_take|by apply Forall_drop]. Qed.

(** Overwriting [d] at offset [i] of a memory region (a [memcpy] that stays
    inside the region). *)
Definition overwrite (m : bytes) (i : nat) (d : bytes) : bytes :=
  take i m ++ d ++ drop (i + length d) m.

Lemma overwrite_length (m d : bytes) (i : nat) :
  (i + length d <= length m)%nat -> length (overwrite m i d) = length m.
Proof.
  intros H. unfold overwrite. rewrite !length_app, length_take, length_drop. lia.
Qed.

Lemma overwrite_take (m d : bytes) (i : nat) :
  (i + length d <= length m)%nat ->
  take (i + length d) (overwrite m i d) = take i m ++ d.
Proof.
  intros H. unfold overwrite. rewrite app_assoc, take_app_length'; [done|].
  rewrite length_app, length_take. lia.
Qed.

Lemma overwrite_drop (m d : bytes) (i : nat) :
  (i + length d <= length m)%nat ->
  drop (i + length d) (overwrite m i d) = drop (i + length d) m.
Proof.
  intros H. unfold overwrite. rewrite app_assoc, drop_app_length'; [done|].
  rewrite length_app, length_take. lia.
Qed.

(** * Lemmas on enumerations *)

Lemma enum_of_num {A} `{EqDecision A} (l : list A) (z : Z) (x : A) :
  NoDup l -> enum_of l z = Some x -> z = enum_num l x.
Proof.
  unfold enum_of, enum_num. intros Hd. destruct (Z.ltb_spec z 0); [done|]. intros Hx.
  assert (Hf : exists k, list_find (fun y => y = x) l = Some (k, x)).
  { destruct (list_find_elem_of (fun y => y = x) l x) as [[k y] Hk];
      [by apply list_elem_of_lookup_2 with (Z.to_nat z)|done|].
    exists k. by destruct (proj1 (list_find_Some _ _ _ _) Hk) as (_ & -> & _). }
  destruct Hf as (k & Hk). rewrite Hk. apply list_find_Some in Hk as (Hl & _ & _).
  rewrite (NoDup_lookup _ _ _ _ Hd Hl Hx). lia.
Qed.
