(* ===== verification/AptString.v ===== *)
(** Strings, string tables and name-value pairs of the toolkit
    ([libs/apr-toolkit/include/apt_string.h], [src/apt_string_table.c],
    [src/apt_pair.c]).

    An [apt_str_t] is a pointer and a length: the pointer is the memory visible
    through it ([None] is NULL), which may extend beyond the length, so that
    code which ignores the length ([atol(str->buf)], [strncasecmp(str->buf,..)])
    reads what the C code reads. *)

From S2P Require Import Prelude.

(** * apt_str_t *)

Record apt_str_t := mk_str { str_buf : option bytes; str_len : nat }.

(** The memory behind the pointer; NULL has none. *)
Definition str_mem (s : apt_str_t) : bytes :=
  match str_buf s with Some m => m | None => [] end.
(** The bytes the string denotes. *)
Definition str_text (s : apt_str_t) : bytes := take (str_len s) (str_mem s).

Definition apt_string_reset : apt_str_t := mk_str None 0.

Definition apt_string_is_empty (s : apt_str_t) : bool := (str_len s =? 0)%nat.

(** A C literal or a NUL-terminated string stored by pointer. *)
Definition apt_string_set (src : option bytes) : apt_str_t :=
  mk_str src (match src with Some m => strlen m | None => 0%nat end).

(** [apr_pstrmemdup]: a fresh NUL-terminated copy of [n] bytes. *)
Definition apr_pstrmemdup (m : bytes) (n : nat) : bytes := take n m.

Definition apt_string_assign_n (src : bytes) (n : nat) : apt_str_t :=
  mk_str (if (n =? 0)%nat then None else Some (apr_pstrmemdup src n)) n.

Definition apt_string_assign (src : option bytes) : apt_str_t :=
  match src with
  | Some m => apt_string_assign_n m (strlen m)
  | None => mk_str None 0
  end.

Definition apt_string_copy (src : apt_str_t) : apt_str_t :=
  apt_string_assign_n (str_mem src) (str_len src).

(** Case-insensitive comparison; two empty strings do not compare equal. *)
Definition apt_string_compare (s1 s2 : apt_str_t) : bool :=
  if negb (str_len s1 =? str_len s2)%nat || (str_len s1 =? 0)%nat then false
  else strncasecmp_eq (str_mem s1) (str_mem s2) (str_len s1).

(** A string over a literal, as the static tables build them. *)
Definition str_lit (s : string) : apt_str_t :=
  mk_str (Some (lit s)) (length (lit s)).

(** A string stored by value: exactly the given bytes. *)
Definition str_of (b : bytes) : apt_str_t := mk_str (Some b) (length b).

(** * String tables *)

Record apt_str_table_item_t := mk_item { item_value : apt_str_t; item_key : nat }.

(** An initialiser [{{"name",len},key}] of a static table. *)
Definition item (s : string) (len key : nat) : apt_str_table_item_t :=
  mk_item (mk_str (Some (lit s)) len) key.

Definition apt_string_table_str_get (table : list apt_str_table_item_t)
    (size id : Z) : option apt_str_t :=
  if id <? size then item_value <$> table !! Z.to_nat id else None.

Definition byte_at (m : bytes) (i : nat) : char := default NUL (m !! i).

(** The body of the search loop: does this item match? *)
Definition table_item_match (it : apt_str_table_item_t) (value : apt_str_t) : bool :=
  if negb (str_len (item_value it) =? str_len value)%nat then false
  else if (item_key it <? str_len value)%nat then
    if (str_len value =? str_len (item_value it))%nat &&
       char_eqb (tolower (byte_at (str_mem (item_value it)) (item_key it)))
                (tolower (byte_at (str_mem value) (item_key it)))
    then apt_string_compare (item_value it) value
    else false
  else apt_string_compare (item_value it) value.

Fixpoint table_search (items : list apt_str_table_item_t) (i size : Z)
    (value : apt_str_t) : Z :=
  match items with
  | [] => size
  | it :: items' =>
      if table_item_match it value then i else table_search items' (i + 1) size value
  end.

Definition apt_string_table_id_find (table : list apt_str_table_item_t) (size : Z)
    (value : apt_str_t) : Z :=
  table_search (take (Z.to_nat size) table) 0 size value.

(** * Name-value pairs *)

Record apt_pair_t := mk_pair { pair_name : apt_str_t; pair_value : apt_str_t }.

Definition apt_pair_init : apt_pair_t := mk_pair apt_string_reset apt_string_reset.

Definition apt_pair_copy (p : apt_pair_t) : apt_pair_t :=
  mk_pair (apt_string_copy (pair_name p)) (apt_string_copy (pair_value p)).

(** [apr_array_copy] followed by a deep copy of each element. *)
Definition apt_pair_array_copy (arr : option (list apt_pair_t)) : option (list apt_pair_t) :=
  match arr with Some a => Some (map apt_pair_copy a) | None => None end.

Definition apt_pair_array_append (arr : list apt_pair_t)
    (name value : option apt_str_t) : list apt_pair_t :=
  arr ++ [mk_pair (match name with Some n => apt_string_copy n | None => apt_string_reset end)
                  (match value with Some v => apt_string_copy v | None => apt_string_reset end)].

Fixpoint apt_pair_array_find (arr : list apt_pair_t) (name : apt_str_t) : option apt_pair_t :=
  match arr with
  | [] => None
  | p :: arr' =>
      if apt_string_compare (pair_name p) name then Some p
      else apt_pair_array_find arr' name
  end.

(** The array is indexed by an [int]; a negative index is not guarded against. *)
Definition apt_pair_array_get (arr : list apt_pair_t) (id : nat) : option apt_pair_t :=
  if (id <? length arr)%nat then arr !! id else None.

(** * Properties *)

(** A string whose length stays within the memory behind it. *)
Definition str_wf (s : apt_str_t) : Prop := length (str_text s) = str_len s.
(** A string without embedded NUL bytes. *)
Definition nul_free (b : bytes) : Prop := NUL ∉ b.

(** Equality up to the case of ASCII letters. *)
Definition str_ieq (a b : bytes) : Prop := map tolower a = map tolower b.

#[global] Instance str_ieq_dec (a b : bytes) : Decision (str_ieq a b).
Proof. unfold str_ieq. apply _. Defined.

#[global] Instance str_ieq_equiv : Equivalence str_ieq.
Proof.
  split; unfold str_ieq; [by intros ?|by intros ???|intros ??? -> ->; done].
Qed.

Lemma tolower_NUL (c : char) : tolower c = NUL <-> c = NUL.
Proof.
  split; [|by intros ->].
  intros H%(f_equal code). apply code_inj. unfold tolower in H.
  destruct (in_range 65 (code c) 90) eqn:E; [|done].
  unfold in_range in E. rewrite code_char_of in H by (pose proof (code_range c); blia).
  change (code NUL) with 0 in *. blia.
Qed.

(** On NUL-free text of length [n], [strncasecmp] is case-insensitive equality
    of the first [n] bytes. *)
Lemma strncasecmp_eq_spec (n : nat) (s1 s2 : bytes) :
  nul_free (take n s1) -> length (take n s1) = n -> length (take n s2) = n ->
  strncasecmp_eq s1 s2 n = true <-> str_ieq (take n s1) (take n s2).
Proof.
  unfold nul_free, str_ieq. revert s1 s2.
  induction n as [|n IH]; intros s1 s2 Hn H1 H2; [done|].
  destruct s1 as [|c1 s1]; [done|]. destruct s2 as [|c2 s2]; [done|].
  simpl in *. apply not_elem_of_cons in Hn as [Hc Hn].
  destruct (char_eqb_spec (tolower c1) (tolower c2)) as [E|E].
  - rewrite (char_eqb_ne c1 NUL) by congruence.
    rewrite IH by (done || lia). split; [intros ->; by rewrite E|by intros [=]].
  - split; [done|]. intros [=]. done.
Qed.

Lemma strncasecmp_eq_refl (n : nat) (s : bytes) : strncasecmp_eq s s n = true.
Proof.
  revert s. induction n as [|n IH]; intros s; [done|]. simpl.
  rewrite char_eqb_refl. by destruct (char_eqb _ _).
Qed.

Lemma str_ieq_length (a b : bytes) : str_ieq a b -> length a = length b.
Proof. unfold str_ieq. intros H%(f_equal length). by rewrite !length_map in H. Qed.

Lemma apt_string_compare_spec (s1 s2 : apt_str_t) :
  str_wf s1 -> str_wf s2 -> nul_free (str_text s1) ->
  apt_string_compare s1 s2 = true <->
  str_text s1 <> [] /\ str_ieq (str_text s1) (str_text s2).
Proof.
  unfold str_wf, apt_string_compare. intros W1 W2 Hn.
  assert (Hnil : str_text s1 <> [] <-> str_len s1 <> 0%nat).
  { rewrite <-W1. destruct (str_text s1); simpl; split; congruence. }
  destruct (Nat.eqb_spec (str_len s1) (str_len s2)) as [E|E]; simpl.
  - destruct (Nat.eqb_spec (str_len s1) 0) as [E0|E0].
    + split; [done|]. intros [? _]. tauto.
    + unfold str_text in *. rewrite <-E in *.
      rewrite strncasecmp_eq_spec by done. tauto.
  - split; [done|]. intros [_ H%str_ieq_length]. congruence.
Qed.

Lemma apt_string_copy_text (s : apt_str_t) : str_text (apt_string_copy s) = str_text s.
Proof.
  unfold str_text, apt_string_copy, apt_string_assign_n, str_mem. simpl.
  destruct (Nat.eqb_spec (str_len s) 0) as [->|]; simpl; [done|].
  unfold apr_pstrmemdup. by rewrite take_take, Nat.min_id.
Qed.

Lemma apt_string_copy_len (s : apt_str_t) : str_len (apt_string_copy s) = str_len s.
Proof. done. Qed.

Lemma apt_string_copy_wf (s : apt_str_t) : str_wf s -> str_wf (apt_string_copy s).
Proof. unfold str_wf. by rewrite apt_string_copy_text. Qed.

Lemma str_of_text (b : bytes) : str_text (str_of b) = b.
Proof. unfold str_text. simpl. apply take_ge. lia. Qed.

Lemma str_of_wf (b : bytes) : str_wf (str_of b).
Proof. unfold str_wf. by rewrite str_of_text. Qed.

#[export] Hint Resolve str_of_wf apt_string_copy_wf : mrcp.
#[export] Hint Rewrite str_of_text apt_string_copy_text apt_string_copy_len : mrcp.

(** A static table entry: declared length right, not empty, no NUL inside. *)
Definition item_ok (it : apt_str_table_item_t) : bool :=
  (length (str_text (item_value it)) =? str_len (item_value it))%nat
  && negb (str_len (item_value it) =? 0)%nat
  && bool_decide (NUL ∉ str_text (item_value it)).

Definition table_ok (t : list apt_str_table_item_t) (size : Z) : bool :=
  (Z.of_nat (length t) =? size) && forallb item_ok t.

(** The key character only prunes: an item matches exactly when the whole
    strings are equal up to case. *)
Lemma table_item_match_spec (it : apt_str_table_item_t) (v : apt_str_t) :
  item_ok it = true -> str_wf v ->
  table_item_match it v = true <-> str_ieq (str_text (item_value it)) (str_text v).
Proof.
  intros Hok Wv. unfold item_ok in Hok.
  apply andb_true_iff in Hok as [[W%Nat.eqb_eq Hz]%andb_true_iff Hn%bool_decide_eq_true].
  assert (Hne : str_text (item_value it) <> []).
  { intros E. rewrite E in W. rewrite <-W in Hz. done. }
  pose proof (apt_string_compare_spec (item_value it) v W Wv Hn) as Hc.
  unfold table_item_match.
  destruct (Nat.eqb_spec (str_len (item_value it)) (str_len v)) as [El|El]; simpl.
  2:{ split; [done|]. intros H%str_ieq_length. unfold str_wf in Wv. congruence. }
  destruct (Nat.ltb_spec (item_key it) (str_len v)) as [Hk|Hk]; [|tauto].
  rewrite El, Nat.eqb_refl. simpl.
  destruct (char_eqb_spec (tolower (byte_at (str_mem (item_value it)) (item_key it)))
                          (tolower (byte_at (str_mem v) (item_key it)))) as [E|E]; [tauto|].
  split; [done|]. intros H. exfalso. apply E. unfold str_ieq, str_text in H.
  apply (f_equal (fun l => l !! item_key it)) in H.
  rewrite !list_lookup_fmap, !lookup_take_lt in H by lia.
  unfold byte_at. revert H. rewrite El in *.
  assert (H1 : is_Some (str_mem (item_value it) !! item_key it)).
  { apply lookup_lt_is_Some. unfold str_text in W. rewrite length_take in W. lia. }
  assert (H2 : is_Some (str_mem v !! item_key it)).
  { apply lookup_lt_is_Some. unfold str_wf, str_text in Wv. rewrite length_take in Wv. lia. }
  destruct H1 as [? ->], H2 as [? ->]. by intros [=].
Qed.

(** The first index of a list whose element satisfies a decidable predicate. *)
Definition first_index {A} (P : A -> Prop) `{!forall x, Decision (P x)}
    (l : list A) (none : Z) : Z :=
  match list_find P l with Some (i, _) => Z.of_nat i | None => none end.

Lemma table_search_spec (items : list apt_str_table_item_t) (i size : Z) (v : apt_str_t) :
  forallb item_ok items = true -> str_wf v ->
  table_search items i size v =
  match list_find (fun it => str_ieq (str_text (item_value it)) (str_text v)) items with
  | Some (k, _) => i + Z.of_nat k
  | None => size
  end.
Proof.
  intros Hok Wv. revert i. induction items as [|it items IH]; intros i; [done|].
  simpl in *. apply andb_true_iff in Hok as [Hit Hok].
  pose proof (table_item_match_spec it v Hit Wv) as Hm.
  destruct (table_item_match it v); case_decide as Hd.
  - simpl. lia.
  - exfalso. by apply Hd, Hm.
  - exfalso. by apply Hm in Hd.
  - rewrite (IH Hok). destruct (list_find _ items) as [[k x]|]; simpl; [lia|done].
Qed.

Lemma table_ok_take (t : list apt_str_table_item_t) (size : Z) :
  table_ok t size = true -> take (Z.to_nat size) t = t /\ forallb item_ok t = true.
Proof.
  unfold table_ok. intros [H ?]%andb_true_iff. split; [|done].
  apply take_ge. blia.
Qed.

Lemma id_find_first_index (t : list apt_str_table_item_t) (size : Z) (v : apt_str_t) :
  table_ok t size = true -> str_wf v ->
  apt_string_table_id_find t size v =
  first_index (fun it => str_ieq (str_text (item_value it)) (str_text v)) t size.
Proof.
  intros Hok Wv. destruct (table_ok_take t size Hok) as [Ht Hit].
  unfold apt_string_table_id_find, first_index. rewrite Ht, table_search_spec by done.
  by destruct (list_find _ _) as [[??]|].
Qed.

(** No two names of a table are equal up to case. *)
Definition table_distinct (t : list apt_str_table_item_t) : bool :=
  bool_decide (NoDup (map (fun it => map tolower (str_text (item_value it))) t)).

Lemma first_index_distinct (t : list apt_str_table_item_t) (size : Z) (i : nat) it :
  table_distinct t = true -> t !! i = Some it ->
  first_index (fun it' => str_ieq (str_text (item_value it')) (str_text (item_value it))) t size
  = Z.of_nat i.
Proof.
  intros Hd%bool_decide_eq_true Hi. unfold first_index.
  destruct (list_find _ t) as [[k it']|] eqn:E.
  - apply list_find_Some in E as (Hk & Heq & _). f_equal.
    eapply NoDup_lookup; [exact Hd|rewrite list_lookup_fmap, Hk; done|].
    rewrite list_lookup_fmap, Hi. simpl. f_equal. by symmetry.
  - apply list_find_None in E. exfalso.
    apply list_elem_of_lookup_2 in Hi. rewrite Forall_forall in E.
    exact (E it (proj1 (list_elem_of_In _ _) Hi) (reflexivity _)).
Qed.

(** Looking a name of a table up by its identifier and the identifier up by
    that name are inverse to each other. *)
Lemma table_roundtrip (t : list apt_str_table_item_t) (size id : Z) :
  table_ok t size = true -> table_distinct t = true -> 0 <= id < size ->
  exists name, apt_string_table_str_get t size id = Some name /\
               apt_string_table_id_find t size name = id.
Proof.
  intros Hok Hd Hid. unfold apt_string_table_str_get.
  destruct (Z.ltb_spec id size); [|lia].
  assert (Hlen : Z.of_nat (length t) = size) by (unfold table_ok in Hok; blia).
  destruct (lookup_lt_is_Some_2 t (Z.to_nat id)) as [it Hit]; [lia|].
  rewrite Hit. simpl. eexists; split; [done|].
  assert (Hw : item_ok it = true).
  { apply table_ok_take in Hok as [_ Hall]. rewrite forallb_forall in Hall.
    apply Hall, list_elem_of_In. by eapply list_elem_of_lookup_2. }
  rewrite id_find_first_index; [|done|].
  - rewrite (first_index_distinct t size _ it Hd Hit). lia.
  - unfold item_ok in Hw. unfold str_wf. blia.
Qed.

(** The table search, which first compares lengths and a precomputed key
    character, returns exactly the first index whose name equals the value up to
    case, and the table size when there is none: the key is an optimisation that
    never changes the result. *)
Theorem apt_string_table_id_find_correct (t : list apt_str_table_item_t) (size : Z)
    (v : apt_str_t) :
  table_ok t size = true -> str_wf v ->
  apt_string_table_id_find t size v =
  first_index (fun it => str_ieq (str_text (item_value it)) (str_text v)) t size.
Proof. apply id_find_first_index. Qed.

Definition sample_table : list apt_str_table_item_t :=
  [item "COMPLETE" 8 0; item "IN-PROGRESS" 11 0; item "PENDING" 7 0].

Lemma apt_string_table_id_find_correct_witness :
  apt_string_table_id_find sample_table 3 (str_lit "in-Progress") = 1
  /\ apt_string_table_id_find sample_table 3 (str_lit "in-Progress") =
     first_index (fun it => str_ieq (str_text (item_value it)) (str_text (str_lit "in-Progress")))
       sample_table 3.
Proof.
  split; [reflexivity|].
  apply (apt_string_table_id_find_correct sample_table 3 (str_lit "in-Progress")); reflexivity.
Defined.
