(* ===== verification/TextStream.v ===== *)
(** The text stream every message is parsed from and generated into
    ([libs/apr-toolkit/include/apt_text_stream.h], [src/apt_text_stream.c]).

    A stream is a buffer with a current position and an end, all of them
    offsets into one allocation [st_mem]; reading is bounded by [st_end] while
    writes that the C code does not bound are bounded by the allocation only
    and are undefined ([None]) beyond it. *)

From S2P Require Import Prelude AptString.

(** * APR services used for text

    The Apache Portable Runtime is not part of the repository.  Its formatted
    printing and the contents of freshly allocated memory are parameters; what
    the code relies on is stated as the laws of [AprLaws], after the APR
    documentation: [apr_snprintf] stores at most [len - 1] bytes and a
    terminating NUL and returns the number of bytes stored before the NUL; with
    no room at all it stores nothing and returns the length of the output. *)

Class Apr := {
  (** Contents of an uninitialised allocation of the given size. *)
  apr_palloc : nat -> bytes;
  (** Value of an integer member that was not initialised. *)
  apr_uninit : Z;
  (** [apr_snprintf(buf,len,..)] for the given formatted output: the bytes it
      stores at [buf], terminator included, and its return value. *)
  apr_snprintf : Z -> bytes -> bytes * Z;
  (** [apr_psprintf]: the string allocated for the given formatted output. *)
  apr_psprintf : bytes -> bytes
}.

Class AprLaws (A : Apr) : Prop := {
  apr_palloc_length : forall n, length (apr_palloc n) = n;
  apr_snprintf_stored : forall len out, 0 < len ->
    apr_snprintf len out =
    (take (Z.to_nat (len - 1)) out ++ [NUL],
     Z.of_nat (length (take (Z.to_nat (len - 1)) out)));
  apr_snprintf_zero : forall out, apr_snprintf 0 out = ([], Z.of_nat (length out));
  apr_psprintf_output : forall out, apr_psprintf out = out
}.

(** A concrete runtime, for evaluation. *)
Definition apr_reference : Apr := {|
  apr_palloc n := replicate n "?"%char;
  apr_uninit := 77;
  apr_snprintf len out :=
    if len <=? 0 then ([], Z.of_nat (length out))
    else (take (Z.to_nat (len - 1)) out ++ [NUL],
          Z.of_nat (length (take (Z.to_nat (len - 1)) out)));
  apr_psprintf out := out
|}.

Lemma apr_reference_laws : AprLaws apr_reference.
Proof.
  split; intros; simpl.
  - by rewrite length_replicate.
  - destruct (Z.leb_spec len 0); [lia|done].
  - done.
  - done.
Qed.

(** * The stream *)

Record apt_text_stream_t := mk_stream {
  st_mem : bytes;      (** the allocation the text lies in *)
  st_base : nat;       (** text.buf *)
  st_text_len : nat;   (** text.length *)
  st_pos : nat;
  st_end : nat;
  st_eos : bool
}.

Definition set_pos (p : nat) (st : apt_text_stream_t) : apt_text_stream_t :=
  mk_stream (st_mem st) (st_base st) (st_text_len st) p (st_end st) (st_eos st).
Definition set_eos (b : bool) (st : apt_text_stream_t) : apt_text_stream_t :=
  mk_stream (st_mem st) (st_base st) (st_text_len st) (st_pos st) (st_end st) b.
Definition set_mem (m : bytes) (st : apt_text_stream_t) : apt_text_stream_t :=
  mk_stream m (st_base st) (st_text_len st) (st_pos st) (st_end st) (st_eos st).

Definition apt_text_stream_reset (st : apt_text_stream_t) : apt_text_stream_t :=
  mk_stream (st_mem st) (st_base st) (st_text_len st)
    (st_base st) (st_base st + st_text_len st) false.

(** A stream over a whole allocation. *)
Definition apt_text_stream_init (buffer : bytes) (size : nat) : apt_text_stream_t :=
  apt_text_stream_reset (mk_stream buffer 0 size 0 0 false).

(** [stream.text = *str; apt_text_stream_reset(&stream)]. *)
Definition stream_of_str (s : apt_str_t) : apt_text_stream_t :=
  apt_text_stream_init (str_mem s) (str_len s).

(** Memory from a pointer on, and the part of it before the end of stream. *)
Definition from_pos (st : apt_text_stream_t) : bytes := drop (st_pos st) (st_mem st).
Definition window (st : apt_text_stream_t) : bytes :=
  take (st_end st - st_pos st) (from_pos st).

(** The string of length [n] that starts [off] bytes after the position. *)
Definition sub_str (st : apt_text_stream_t) (off n : nat) : apt_str_t :=
  mk_str (Some (drop off (from_pos st))) n.

Definition apt_text_is_wsp (c : char) : bool := char_eqb c SP || char_eqb c TAB.

Definition apt_text_is_eos (st : apt_text_stream_t) : bool :=
  (st_end st <=? st_pos st)%nat || st_eos st.

(** * Reading *)

(** Advance over the longest run of bytes satisfying [p] before the end. *)
Definition skip_while (p : char -> bool) (st : apt_text_stream_t) : apt_text_stream_t :=
  set_pos (st_pos st + length (fst (span p (window st)))) st.

Definition apt_text_spaces_skip := skip_while (fun c => char_eqb c SP).
Definition apt_text_white_spaces_skip := skip_while apt_text_is_wsp.
Definition apt_text_chars_skip (ch : char) := skip_while (fun c => char_eqb c ch).
Definition apt_text_skip_to_char (ch : char) := skip_while (fun c => negb (char_eqb c ch)).

Definition apt_text_char_skip (ch : char) (st : apt_text_stream_t) : apt_text_stream_t :=
  match window st with
  | c :: _ => if char_eqb c ch then set_pos (st_pos st + 1) st else st
  | [] => st
  end.

(** The loop of [apt_text_line_read]: length of the line and number of bytes
    to advance, or [None] at the end of the stream. *)
Fixpoint line_scan (w : bytes) (n : nat) : option (nat * nat) :=
  match w with
  | [] => None
  | c :: w' =>
      if char_eqb c CR then
        Some (n, match w' with
                 | c' :: _ => if char_eqb c' LF then n + 2 else n + 1
                 | [] => n + 1
                 end)%nat
      else if char_eqb c LF then Some (n, n + 1)%nat
      else line_scan w' (n + 1)
  end.

Definition apt_text_line_read (st : apt_text_stream_t)
    : bool * apt_str_t * apt_text_stream_t :=
  match line_scan (window st) 0 with
  | Some (n, adv) => (true, sub_str st 0 n, set_pos (st_pos st + adv) st)
  | None => (false, sub_str st 0 (length (window st)), set_eos true st)
  end.

(** The loop of [apt_text_header_read].  [nb]/[vb] are [name.buf]/[value.buf]
    as offsets from the position, [nl] is [name.length]; the result adds
    [value.length] and, when an end of line was met, the bytes to advance. *)
Fixpoint header_scan (w : bytes) (p : nat) (nb : option nat) (nl : nat) (vb : option nat)
    : option nat * nat * option nat * nat * option nat :=
  let vlen := match vb with Some b => (p - b)%nat | None => 0%nat end in
  match w with
  | [] => (nb, nl, vb, 0%nat, None)
  | c :: w' =>
      if char_eqb c CR then
        (nb, nl, vb, vlen,
         Some (match w' with
               | c' :: _ => if char_eqb c' LF then p + 2 else p + 1
               | [] => p + 1
               end)%nat)
      else if char_eqb c LF then (nb, nl, vb, vlen, Some (p + 1)%nat)
      else if (nl =? 0)%nat then
        let nb' := match nb with
                   | None => if apt_text_is_wsp c then None else Some p
                   | Some b => Some b
                   end in
        let nl' := if char_eqb c ":"%char
                   then match nb' with Some b => (p - b)%nat | None => 0%nat end
                   else nl in
        header_scan w' (p + 1) nb' nl' vb
      else
        let vb' := match vb with
                   | None => if apt_text_is_wsp c then None else Some p
                   | Some b => Some b
                   end in
        header_scan w' (p + 1) nb nl vb'
  end.

Definition off_str (st : apt_text_stream_t) (b : option nat) (n : nat) : apt_str_t :=
  match b with Some off => sub_str st off n | None => mk_str None n end.

Definition apt_text_header_read (st : apt_text_stream_t)
    : bool * apt_pair_t * apt_text_stream_t :=
  let '(nb, nl, vb, vl, adv) := header_scan (window st) 0 None 0 None in
  let pair := mk_pair (off_str st nb nl) (off_str st vb vl) in
  match adv with
  | Some a =>
      let malformed := (nl =? 0)%nat && match nb with Some _ => true | None => false end in
      (negb malformed, pair, set_pos (st_pos st + a) st)
  | None => (false, pair, set_eos true st)
  end.

(** Read the field up to [separator] or the end of the stream. *)
Definition apt_text_field_read (st : apt_text_stream_t) (separator : char)
    (skip_spaces : bool) : bool * apt_str_t * apt_text_stream_t :=
  let st1 := if skip_spaces then apt_text_spaces_skip st else st in
  let st2 := skip_while (fun c => negb (char_eqb c separator)) st1 in
  let n := (st_pos st2 - st_pos st1)%nat in
  let pos := if (st_pos st2 <? st_end st2)%nat then (st_pos st2 + 1)%nat else st_pos st2 in
  (negb (n =? 0)%nat, sub_str st1 0 n, set_pos pos st2).

(** * Writing *)

(** [n] bytes read through a pointer. *)
Definition mread (m : bytes) (n : nat) : bytes := take n (m ++ replicate n NUL).
(** The bytes [memcpy(dst,str->buf,str->length)] copies. *)
Definition str_data (s : apt_str_t) : bytes := mread (str_mem s) (str_len s).

(** Store at the position without advancing; undefined outside the allocation. *)
Definition store (d : bytes) : prog apt_text_stream_t unit := fun st =>
  if (st_pos st + length d <=? length (st_mem st))%nat
  then Some (tt, set_mem (overwrite (st_mem st) (st_pos st) d) st)
  else None.

Definition advance (n : nat) : prog apt_text_stream_t unit :=
  modify (fun st => set_pos (st_pos st + n) st).

(** [memcpy(pos,d,n); pos += n;] or [*pos++ = c]: no bound is checked here. *)
Definition put (d : bytes) : prog apt_text_stream_t unit := store d ;;; advance (length d).

(** [pos + n >= end]. *)
Definition no_room (n : nat) (st : apt_text_stream_t) : bool :=
  (st_end st <=? st_pos st + n)%nat.

Definition apt_text_eol_insert : prog apt_text_stream_t bool :=
  let* full := gets (no_room 2) in
  if full then ret false else put [CR; LF] ;;; ret true.

Definition apt_text_char_insert (ch : char) : prog apt_text_stream_t bool :=
  let* full := gets (no_room 1) in
  if full then ret false else put [ch] ;;; ret true.

Definition apt_text_space_insert : prog apt_text_stream_t bool := apt_text_char_insert SP.
Definition apt_text_htab_insert : prog apt_text_stream_t bool := apt_text_char_insert TAB.

Definition apt_text_string_insert (s : apt_str_t) : prog apt_text_stream_t bool :=
  let* full := gets (no_room (str_len s)) in
  if full then ret false
  else if (str_len s =? 0)%nat then ret true
  else put (str_data s) ;;; ret true.

Definition apt_text_name_value_insert (name value : apt_str_t) : prog apt_text_stream_t bool :=
  let* full := gets (no_room (str_len name + str_len value + 2)) in
  if full then ret false
  else
    put (str_data name) ;;;
    put [":"%char] ;;;
    put [SP] ;;;
    (if apt_string_is_empty value then ret tt else put (str_data value)) ;;;
    apt_text_eol_insert.

Definition apt_text_header_name_insert (name : apt_str_t) : prog apt_text_stream_t bool :=
  let* full := gets (no_room (str_len name + 2)) in
  if full then ret false
  else put (str_data name) ;;; put [":"%char] ;;; put [SP] ;;; ret true.

(** [apr_snprintf(stream->pos, stream->end - stream->pos, ..)]; a position past
    the end makes the size wrap around. *)
Definition snprintf_insert `{Apr} (out : bytes) : prog apt_text_stream_t bool :=
  let* len := gets (fun st => u64 (Z.of_nat (st_end st) - Z.of_nat (st_pos st))) in
  let '(stored, r) := apr_snprintf len out in
  store stored ;;;
  if r <=? 0 then ret false else advance (Z.to_nat r) ;;; ret true.

Definition apt_text_size_value_insert `{Apr} (value : Z) : prog apt_text_stream_t bool :=
  snprintf_insert (dec value).

(** Move the unread tail of the text to the front of the buffer. *)
Definition apt_text_stream_scroll : prog apt_text_stream_t bool :=
  let* st := gets (fun st => st) in
  if (st_pos st =? st_end st)%nat then
    modify (set_pos (st_base st)) ;;; store [NUL] ;;; ret true
  else
    let remaining := (st_base st + st_text_len st - st_pos st)%nat in
    if (remaining =? 0)%nat || (remaining =? st_text_len st)%nat then
      modify (set_pos (st_base st + remaining)) ;;; ret false
    else
      modify (fun st => mk_stream
        (overwrite (st_mem st) (st_base st) (mread (from_pos st) remaining))
        (st_base st) remaining (st_base st + remaining) (st_end st) (st_eos st)) ;;;
      store [NUL] ;;; ret true.

(** * Reading: lemmas and properties *)

Definition stream_wf (st : apt_text_stream_t) : Prop :=
  (st_pos st <= st_end st <= length (st_mem st))%nat.

Lemma window_advance (st : apt_text_stream_t) (n : nat) :
  window (set_pos (st_pos st + n) st) = drop n (window st).
Proof.
  unfold window, from_pos. simpl. rewrite skipn_firstn_comm, drop_drop.
  f_equal. lia.
Qed.

Lemma window_length (st : apt_text_stream_t) :
  stream_wf st -> length (window st) = (st_end st - st_pos st)%nat.
Proof.
  intros [? ?]. unfold window, from_pos. rewrite length_take, length_drop. lia.
Qed.

Lemma window_length_le (st : apt_text_stream_t) :
  (length (window st) <= st_end st - st_pos st)%nat.
Proof. unfold window. rewrite length_take. lia. Qed.

Lemma stream_wf_advance (st : apt_text_stream_t) (n : nat) :
  stream_wf st -> (n <= length (window st))%nat ->
  stream_wf (set_pos (st_pos st + n) st).
Proof. intros H ?. rewrite window_length in * by done. unfold stream_wf in *. simpl. lia. Qed.

Lemma sub_str_text (st : apt_text_stream_t) (off n : nat) :
  (off + n <= length (window st))%nat ->
  str_text (sub_str st off n) = take n (drop off (window st)).
Proof.
  intros H. unfold str_text, sub_str, str_mem, window in *. simpl in *.
  rewrite skipn_firstn_comm, take_take. f_equal.
  rewrite length_take in H. lia.
Qed.

Lemma sub_str_wf (st : apt_text_stream_t) (off n : nat) :
  (off + n <= length (window st))%nat -> str_wf (sub_str st off n).
Proof.
  intros H. unfold str_wf. rewrite sub_str_text by done.
  rewrite length_take, length_drop. simpl. lia.
Qed.

Lemma stream_of_str_wf (s : apt_str_t) : str_wf s -> stream_wf (stream_of_str s).
Proof.
  unfold str_wf, stream_wf, str_text. rewrite length_take. simpl. lia.
Qed.

Lemma stream_of_str_window (s : apt_str_t) : window (stream_of_str s) = str_text s.
Proof. unfold window, from_pos. simpl. by rewrite Nat.sub_0_r. Qed.

#[export] Hint Resolve stream_of_str_wf stream_wf_advance sub_str_wf : mrcp.
#[export] Hint Rewrite window_advance stream_of_str_window : mrcp.

(** No end-of-line byte. *)
Definition no_eol (l : bytes) : Prop := (CR ∉ l) /\ (LF ∉ l).

(** The end-of-line markers, given what follows them. *)
Definition eol_marker (eol rest : bytes) : Prop :=
  eol = [CR; LF] \/ eol = [LF] \/ (eol = [CR] /\ deref rest <> LF).

Lemma line_scan_spec (w : bytes) (n : nat) :
  match line_scan w n with
  | Some (k, adv) =>
      exists l eol rest, w = l ++ eol ++ rest /\ no_eol l /\ eol_marker eol rest /\
        k = (n + length l)%nat /\ adv = (k + length eol)%nat
  | None => no_eol w
  end.
Proof.
  revert n. induction w as [|c w IH]; intros n; simpl.
  - split; apply not_elem_of_nil.
  - destruct (char_eqb_spec c CR) as [->|Hcr].
    + destruct w as [|c' w].
      * exists [], [CR], []. split_and!; try done; [split; apply not_elem_of_nil| |simpl; lia..].
        right. right. done.
      * destruct (char_eqb_spec c' LF) as [->|Hlf].
        -- exists [], [CR; LF], w. split_and!; try done; [split; apply not_elem_of_nil|by left|simpl; lia..].
        -- exists [], [CR], (c' :: w). split_and!; try done; [split; apply not_elem_of_nil| |simpl; lia..].
           right. right. done.
    + destruct (char_eqb_spec c LF) as [->|Hlf].
      * exists [], [LF], w. split_and!; try done; [split; apply not_elem_of_nil| |simpl; lia..].
        right. by left.
      * specialize (IH (n + 1)%nat). destruct (line_scan w (n + 1)) as [[k adv]|].
        -- destruct IH as (l & eol & rest & -> & [H1 H2] & He & -> & ->).
           exists (c :: l), eol, rest. split_and!; try done; [|simpl; lia..].
           split; apply not_elem_of_cons; split; (congruence || done).
        -- destruct IH as [H1 H2]. split; apply not_elem_of_cons; split; (congruence || done).
Qed.

Lemma eol_marker_not_nil (eol rest : bytes) : eol_marker eol rest -> (0 < length eol)%nat.
Proof. by intros [->|[->|[-> _]]]; simpl; lia. Qed.

Lemma apt_text_line_read_spec (st : apt_text_stream_t) :
  let '(ok, line, st') := apt_text_line_read st in
  if ok then
    exists eol, window st = str_text line ++ eol ++ window st' /\
      no_eol (str_text line) /\ eol_marker eol (window st') /\ st_eos st' = st_eos st
  else str_text line = window st /\ no_eol (window st) /\
       st_pos st' = st_pos st /\ st_eos st' = true.
Proof.
  unfold apt_text_line_read. pose proof (line_scan_spec (window st) 0) as H.
  destruct (line_scan (window st) 0) as [[k adv]|].
  - destruct H as (l & eol & rest & Hw & Hl & He & -> & ->). simpl.
    rewrite window_advance, sub_str_text
      by (rewrite Hw, !length_app; lia).
    rewrite Hw, drop_0, take_app_length.
    rewrite drop_app_add', drop_app_length by done.
    exists eol. done.
  - rewrite sub_str_text by (simpl; lia). simpl.
    rewrite drop_0, take_ge by lia. done.
Qed.

(** Memory after the end of the stream. *)
Definition beyond (st : apt_text_stream_t) : bytes := drop (st_end st) (st_mem st).

Lemma from_pos_split (st : apt_text_stream_t) :
  stream_wf st -> from_pos st = window st ++ beyond st.
Proof.
  intros [H1 H2]. unfold window, beyond.
  rewrite <-(take_drop (st_end st - st_pos st) (from_pos st)) at 1.
  f_equal. unfold from_pos. rewrite drop_drop. f_equal. lia.
Qed.

Lemma skip_while_eq (p : char -> bool) (st : apt_text_stream_t) (a b : bytes) :
  window st = a ++ b -> Forall (fun c => p c = true) a ->
  (forall c b', b = c :: b' -> p c = false) ->
  skip_while p st = set_pos (st_pos st + length a) st.
Proof. intros Hw Ha Hb. unfold skip_while. by rewrite Hw, (span_spec p a b). Qed.

Lemma Forall_SP (l : bytes) : Forall (fun c => c = SP) l -> Forall (fun c => char_eqb c SP = true) l.
Proof. apply Forall_impl. intros c ->. apply char_eqb_refl. Qed.

(** What [apt_text_field_read] does on a window of the form
    [spaces ++ field ++ rest]. *)
Lemma apt_text_field_read_eq (st : apt_text_stream_t) (sep : char) (sps fld rest : bytes) :
  stream_wf st -> window st = sps ++ fld ++ rest ->
  Forall (fun c => c = SP) sps ->
  (forall c r, fld ++ rest = c :: r -> c <> SP) ->
  sep ∉ fld -> (forall c r, rest = c :: r -> c = sep) ->
  exists f st',
    apt_text_field_read st sep true = (negb (length fld =? 0)%nat, f, st') /\
    str_text f = fld /\ str_wf f /\ str_buf f = Some (fld ++ rest ++ beyond st) /\
    window st' = tail rest /\ stream_wf st' /\ beyond st' = beyond st /\
    st_mem st' = st_mem st.
Proof.
  intros Hwf Hw Hsps Hhd Hsep Hrest.
  set (st1 := set_pos (st_pos st + length sps) st).
  assert (Hs1 : apt_text_spaces_skip st = st1).
  { apply skip_while_eq with (b := fld ++ rest); [done|by apply Forall_SP|].
    intros c b' Hb. apply char_eqb_ne. by eapply Hhd. }
  assert (Hw1 : window st1 = fld ++ rest).
  { unfold st1. by rewrite window_advance, Hw, drop_app_length. }
  assert (Hwf1 : stream_wf st1).
  { apply stream_wf_advance; [done|]. rewrite Hw, length_app. lia. }
  assert (Hs2 : skip_while (fun c => negb (char_eqb c sep)) st1 =
                set_pos (st_pos st1 + length fld) st1).
  { apply skip_while_eq with (b := rest); [done| |].
    - apply Forall_forall. intros c Hc%list_elem_of_In.
      rewrite char_eqb_ne; [done|]. by intros ->.
    - intros c b' ->. by rewrite (Hrest c b' eq_refl), char_eqb_refl. }
  unfold apt_text_field_read. rewrite Hs1, Hs2. cbn [st_pos set_pos st_end].
  replace (st_pos st1 + length fld - st_pos st1)%nat with (length fld) by lia.
  eexists _, _. split; [reflexivity|].
  assert (Hn : (0 + length fld <= length (window st1))%nat) by (rewrite Hw1, length_app; lia).
  split_and!.
  - rewrite sub_str_text, Hw1, drop_0 by done. apply take_app_length.
  - by apply sub_str_wf.
  - unfold sub_str. simpl. rewrite drop_0, (from_pos_split st1) by done.
    rewrite Hw1, <-app_assoc. done.
  - pose proof (window_length st1 Hwf1) as Hl. rewrite Hw1, length_app in Hl.
    destruct rest as [|c r]; simpl in *.
    + destruct (Nat.ltb_spec (st_pos st + length sps + length fld) (st_end st)); [lia|].
      change (window (set_pos (st_pos st1 + length fld) st1) = []).
      by rewrite window_advance, Hw1, drop_app_length.
    + destruct (Nat.ltb_spec (st_pos st + length sps + length fld) (st_end st)); [|lia].
      change (window (set_pos (st_pos st1 + length fld + 1) st1) = r).
      rewrite <-Nat.add_assoc, window_advance, Hw1, drop_app_add'; done.
  - pose proof (window_length st1 Hwf1) as Hl. rewrite Hw1, length_app in Hl.
    unfold stream_wf in *. simpl in *.
    destruct (Nat.ltb_spec (st_pos st + length sps + length fld) (st_end st)); unfold st1 in *; simpl in *; lia.
  - done.
  - done.
Qed.

(** * Writing: lemmas and properties *)

Lemma mread_length (m : bytes) (n : nat) : length (mread m n) = n.
Proof. unfold mread. rewrite length_take, length_app, length_replicate. lia. Qed.

Lemma str_data_length (s : apt_str_t) : length (str_data s) = str_len s.
Proof. apply mread_length. Qed.

Lemma str_data_text (s : apt_str_t) : str_wf s -> str_data s = str_text s.
Proof.
  unfold str_wf, str_data, mread, str_text. rewrite length_take. intros H.
  apply take_app_le. lia.
Qed.

#[export] Hint Rewrite mread_length str_data_length : mrcp.

(** What a write between the position and the end leaves alone. *)
Definition frame (st st' : apt_text_stream_t) : Prop :=
  stream_wf st' /\ st_base st' = st_base st /\ st_text_len st' = st_text_len st /\
  st_end st' = st_end st /\ st_eos st' = st_eos st /\
  length (st_mem st') = length (st_mem st) /\ (st_pos st <= st_pos st')%nat /\
  take (st_pos st) (st_mem st') = take (st_pos st) (st_mem st) /\
  beyond st' = beyond st.

Lemma frame_refl (st : apt_text_stream_t) : stream_wf st -> frame st st.
Proof. intros. unfold frame, stream_wf in *. split_and!; (done || lia). Qed.

Lemma frame_trans (s1 s2 s3 : apt_text_stream_t) :
  frame s1 s2 -> frame s2 s3 -> frame s1 s3.
Proof.
  unfold frame. intros (W2 & B2 & L2 & E2 & O2 & M2 & P2 & T2 & Y2)
    (W3 & B3 & L3 & E3 & O3 & M3 & P3 & T3 & Y3).
  split; [done|]. split_and!; try congruence; [lia|].
  rewrite <-T2. apply (f_equal (take (st_pos s1))) in T3.
  rewrite !take_take, Nat.min_l in T3 by lia. done.
Qed.

(** [d] was appended to the text before the position. *)
Definition emits (d : bytes) (st st' : apt_text_stream_t) : Prop :=
  frame st st' /\ st_pos st' = (st_pos st + length d)%nat /\
  take (st_pos st') (st_mem st') = take (st_pos st) (st_mem st) ++ d.

Lemma emits_nil (st : apt_text_stream_t) : stream_wf st -> emits [] st st.
Proof.
  intros W. split_and!; [by apply frame_refl|simpl; lia|by rewrite app_nil_r].
Qed.

Lemma emits_app (d1 d2 : bytes) (s1 s2 s3 : apt_text_stream_t) :
  emits d1 s1 s2 -> emits d2 s2 s3 -> emits (d1 ++ d2) s1 s3.
Proof.
  intros (F1 & P1 & T1) (F2 & P2 & T2). split_and!.
  - by eapply frame_trans.
  - rewrite length_app. lia.
  - by rewrite T2, T1, app_assoc.
Qed.

Lemma take_overwrite_le (m d : bytes) (i j : nat) :
  (j <= i <= length m)%nat -> take j (overwrite m i d) = take j m.
Proof.
  intros H. unfold overwrite. rewrite take_app_le by (rewrite length_take; lia).
  rewrite take_take. f_equal. lia.
Qed.

Lemma drop_overwrite_ge (m d : bytes) (i j : nat) :
  (i + length d <= j)%nat -> (i + length d <= length m)%nat ->
  drop j (overwrite m i d) = drop j m.
Proof.
  intros H Hm. replace j with ((i + length d) + (j - (i + length d)))%nat by lia.
  rewrite <-(drop_drop (overwrite m i d)), <-(drop_drop m). by rewrite overwrite_drop.
Qed.

(** Storing [d], of which the first [k] bytes are then skipped over. *)
Lemma store_advance_emits (d : bytes) (k : nat) (st : apt_text_stream_t) :
  stream_wf st -> (k <= length d)%nat -> (st_pos st + length d <= st_end st)%nat ->
  exists st', (store d ;;; advance k) st = Some (tt, st') /\ emits (take k d) st st'.
Proof.
  intros [W1 W2] Hk Hd. unfold bind, store, advance, modify.
  destruct (Nat.leb_spec (st_pos st + length d) (length (st_mem st))); [|lia].
  eexists; split; [done|]. unfold emits, frame, stream_wf, beyond. simpl.
  rewrite overwrite_length, length_take, drop_overwrite_ge by lia.
  split_and!; try done; try lia.
  - apply take_overwrite_le. lia.
  - pose proof (overwrite_take (st_mem st) d (st_pos st) ltac:(lia)) as H1.
    apply (f_equal (take (st_pos st + k))) in H1.
    rewrite take_take, Nat.min_l in H1 by lia. rewrite H1.
    rewrite take_app_ge by (rewrite length_take; lia). f_equal. f_equal.
    rewrite length_take. lia.
Qed.

Lemma put_emits (d : bytes) (st : apt_text_stream_t) :
  stream_wf st -> (st_pos st + length d <= st_end st)%nat ->
  exists st', put d st = Some (tt, st') /\ emits d st st'.
Proof.
  intros W H. destruct (store_advance_emits d (length d) st) as (st' & E & Hem); [done|lia..|].
  exists st'. rewrite firstn_all in Hem. done.
Qed.

Lemma no_room_false (n : nat) (st : apt_text_stream_t) :
  no_room n st = false <-> (st_pos st + n < st_end st)%nat.
Proof. unfold no_room. by rewrite Nat.leb_gt. Qed.

Lemma emits_wf (d : bytes) (st st' : apt_text_stream_t) : emits d st st' -> stream_wf st'.
Proof. by intros [[? _] _]. Qed.
Lemma emits_pos (d : bytes) (st st' : apt_text_stream_t) :
  emits d st st' -> st_pos st' = (st_pos st + length d)%nat.
Proof. by intros (_ & ? & _). Qed.
Lemma emits_end (d : bytes) (st st' : apt_text_stream_t) : emits d st st' -> st_end st' = st_end st.
Proof. by intros ((_ & _ & _ & ? & _) & _). Qed.
Lemma emits_frame (d : bytes) (st st' : apt_text_stream_t) : emits d st st' -> frame st st'.
Proof. by intros [? _]. Qed.

#[export] Hint Resolve emits_wf emits_frame frame_refl emits_nil : mrcp.

(** Side conditions on positions after a chain of [emits]. *)
Ltac emit_lia :=
  repeat match goal with
  | H : emits ?d ?s ?s' |- _ =>
      lazymatch goal with
      | _ : st_pos s' = _ |- _ => fail
      | _ => pose proof (emits_pos d s s' H); pose proof (emits_end d s s' H);
             pose proof (emits_wf d s s' H)
      end
  end;
  unfold stream_wf in *; autorewrite with mrcp in *; simpl in *; lia.

(** Execute one [put] at the head of the goal. *)
Ltac step_put st' Hem :=
  match goal with
  | |- context [bind (put ?d) ?k ?s] =>
      let E := fresh "E" in
      destruct (put_emits d s) as (st' & E & Hem);
      [by eauto with mrcp|by emit_lia|
       unfold bind at 1; rewrite E; clear E; cbv beta]
  end.

Lemma apt_text_eol_insert_room (st : apt_text_stream_t) :
  stream_wf st -> (st_pos st + 2 < st_end st)%nat ->
  exists st', apt_text_eol_insert st = Some (true, st') /\ emits [CR; LF] st st'.
Proof.
  intros W H. unfold apt_text_eol_insert, gets, bind at 1.
  rewrite (proj2 (no_room_false 2 st) H). step_put s1 H1. by exists s1.
Qed.

Lemma apt_text_eol_insert_full (st : apt_text_stream_t) :
  (st_end st <= st_pos st + 2)%nat -> apt_text_eol_insert st = Some (false, st).
Proof.
  intros H. unfold apt_text_eol_insert, gets, bind at 1, no_room.
  destruct (Nat.leb_spec (st_end st) (st_pos st + 2)); [done|lia].
Qed.

(** A program that, from a well-formed stream, never writes outside the space
    between the position and the end. *)
Definition in_bounds {A} (m : prog apt_text_stream_t A) : Prop :=
  forall st, stream_wf st -> exists a st', m st = Some (a, st') /\ frame st st'.

Lemma apt_text_eol_insert_bounds : in_bounds apt_text_eol_insert.
Proof.
  intros st W. destruct (le_lt_dec (st_end st) (st_pos st + 2)).
  - exists false, st. split; [by apply apt_text_eol_insert_full|auto with mrcp].
  - destruct (apt_text_eol_insert_room st) as (st' & E & H); [done..|].
    exists true, st'. eauto with mrcp.
Qed.

Lemma apt_text_char_insert_bounds (c : char) : in_bounds (apt_text_char_insert c).
Proof.
  intros st W. unfold apt_text_char_insert, gets, bind at 1.
  destruct (no_room 1 st) eqn:E; [by exists false, st; auto with mrcp|].
  apply no_room_false in E. step_put s1 H1. exists true, s1. eauto with mrcp.
Qed.

Lemma apt_text_string_insert_bounds (s : apt_str_t) : in_bounds (apt_text_string_insert s).
Proof.
  intros st W. unfold apt_text_string_insert, gets, bind at 1.
  destruct (no_room (str_len s) st) eqn:E; [by exists false, st; auto with mrcp|].
  apply no_room_false in E.
  destruct (str_len s =? 0)%nat; [by exists true, st; auto with mrcp|].
  step_put s1 H1. exists true, s1. eauto with mrcp.
Qed.

Lemma apt_text_header_name_insert_bounds (s : apt_str_t) :
  in_bounds (apt_text_header_name_insert s).
Proof.
  intros st W. unfold apt_text_header_name_insert, gets, bind at 1.
  destruct (no_room (str_len s + 2) st) eqn:E; [by exists false, st; auto with mrcp|].
  apply no_room_false in E.
  step_put s1 H1. step_put s2 H2. step_put s3 H3.
  exists true, s3. split; [done|]. eapply emits_frame.
  eapply emits_app; [exact H1|]. by eapply emits_app.
Qed.

(** The line [apt_text_name_value_insert] writes, without its end of line. *)
Definition header_line (name value : apt_str_t) : bytes :=
  str_data name ++ [":"%char] ++ [SP] ++ str_data value.

Lemma apt_text_name_value_insert_head (name value : apt_str_t) (st : apt_text_stream_t) :
  stream_wf st -> no_room (str_len name + str_len value + 2) st = false ->
  exists st1, apt_text_name_value_insert name value st = apt_text_eol_insert st1 /\
              emits (header_line name value) st st1.
Proof.
  intros W E. unfold apt_text_name_value_insert, gets, bind at 1. rewrite E.
  apply no_room_false in E.
  step_put s1 H1. step_put s2 H2. step_put s3 H3.
  unfold header_line. unfold apt_string_is_empty.
  destruct (Nat.eqb_spec (str_len value) 0) as [Ev|Ev].
  - unfold bind at 1, ret. exists s3. split; [done|].
    eapply emits_app; [done|]. eapply emits_app; [done|].
    replace (str_data value) with (@nil char); [by rewrite app_nil_r|].
    symmetry. apply nil_length_inv. by rewrite str_data_length.
  - step_put s4 H4. exists s4. split; [done|].
    eapply emits_app; [done|]. eapply emits_app; [done|]. by eapply emits_app.
Qed.

Lemma apt_text_name_value_insert_room (name value : apt_str_t) (st : apt_text_stream_t) :
  stream_wf st -> (st_pos st + str_len name + str_len value + 4 < st_end st)%nat ->
  exists st', apt_text_name_value_insert name value st = Some (true, st') /\
              emits (header_line name value ++ [CR; LF]) st st'.
Proof.
  intros W H.
  destruct (apt_text_name_value_insert_head name value st W) as (s1 & -> & H1).
  { apply no_room_false. lia. }
  pose proof (emits_pos _ _ _ H1) as Hp. unfold header_line in Hp.
  rewrite !length_app, !str_data_length in Hp. simpl in Hp.
  destruct (apt_text_eol_insert_room s1) as (s2 & -> & H2).
  - eauto with mrcp.
  - rewrite (emits_end _ _ _ H1). lia.
  - exists s2. split; [done|]. by eapply emits_app.
Qed.

Lemma apt_text_name_value_insert_bounds (name value : apt_str_t) :
  in_bounds (apt_text_name_value_insert name value).
Proof.
  intros st W. destruct (no_room (str_len name + str_len value + 2) st) eqn:E.
  - exists false, st. unfold apt_text_name_value_insert, gets, bind at 1. rewrite E.
    split; [done|auto with mrcp].
  - destruct (apt_text_name_value_insert_head name value st W E) as (s1 & -> & H1).
    destruct (apt_text_eol_insert_bounds s1) as (b & s2 & -> & H2); [eauto with mrcp|].
    exists b, s2. split; [done|]. eapply frame_trans; [by eapply emits_frame|done].
Qed.

(** Buffers are addressable: their sizes fit the 64-bit size type. *)
Definition addressable (st : apt_text_stream_t) : Prop :=
  Z.of_nat (length (st_mem st)) < 2 ^ 64.

Lemma frame_addressable (st st' : apt_text_stream_t) :
  frame st st' -> addressable st -> addressable st'.
Proof. unfold addressable. by intros (_ & _ & _ & _ & _ & -> & _). Qed.

#[export] Hint Resolve frame_addressable : mrcp.

Section Snprintf.
Context `{L : AprLaws}.

Lemma snprintf_len (st : apt_text_stream_t) :
  stream_wf st -> addressable st ->
  u64 (Z.of_nat (st_end st) - Z.of_nat (st_pos st)) = Z.of_nat (st_end st - st_pos st).
Proof. unfold stream_wf, addressable. intros. rewrite u64_small; lia. Qed.

Lemma snprintf_insert_room (out : bytes) (st : apt_text_stream_t) :
  stream_wf st -> addressable st -> out <> [] ->
  (st_pos st + length out < st_end st)%nat ->
  exists st', snprintf_insert out st = Some (true, st') /\ emits out st st'.
Proof.
  intros W Ad Hne H. unfold snprintf_insert, gets, bind at 1.
  rewrite snprintf_len by done.
  rewrite apr_snprintf_stored by lia.
  rewrite (take_ge out) by lia.
  assert (Hpos : (0 < length out)%nat) by (destruct out; [done|simpl; lia]).
  destruct (store_advance_emits (out ++ [NUL]) (length out) st) as (st' & E & Hem);
    [done|rewrite length_app; simpl; lia..|].
  rewrite take_app_length in Hem. exists st'. split; [|done].
  unfold bind in *. destruct (store (out ++ [NUL]) st) as [[[] s1]|]; [|done].
  destruct (Z.leb_spec (Z.of_nat (length out)) 0); [lia|].
  rewrite Nat2Z.id, E. done.
Qed.

Lemma snprintf_insert_bounds (out : bytes) (st : apt_text_stream_t) :
  stream_wf st -> addressable st -> (st_pos st < st_end st)%nat ->
  exists b st', snprintf_insert out st = Some (b, st') /\ frame st st'.
Proof.
  intros W Ad Hlt. unfold snprintf_insert, gets, bind at 1. rewrite snprintf_len by done.
  set (len := Z.of_nat (st_end st - st_pos st)).
  rewrite apr_snprintf_stored by lia.
  set (t := take _ out).
  assert (Ht : (length t < st_end st - st_pos st)%nat) by (unfold t; rewrite length_take; lia).
  set (d := t ++ [NUL]). set (r := Z.of_nat (length t)).
  assert (Hd : length d = S (length t)) by (unfold d; rewrite length_app; simpl; lia).
  destruct (store_advance_emits d 0 st) as (s0 & E0 & H0); [done|lia|unfold stream_wf in W; lia|].
  unfold bind in *. destruct (store d st) as [[[] s1]|] eqn:Es; [|done].
  destruct (Z.leb_spec r 0).
  - exists false, s1. split; [done|]. unfold store in Es.
    destruct (_ <=? _)%nat; [|done]. injection Es as <-.
    unfold advance, modify in E0. injection E0 as <-.
    rewrite Nat.add_0_r in H0. by destruct H0.
  - destruct (store_advance_emits d (Z.to_nat r) st) as (s2 & E2 & H2);
      [done|lia|unfold stream_wf in W; lia|].
    unfold bind in E2. rewrite Es in E2. rewrite E2. exists true, s2. eauto with mrcp.
Qed.

(** Without room the position moves past the end of the stream. *)
Lemma snprintf_insert_full (out : bytes) (st : apt_text_stream_t) :
  st_pos st = st_end st -> out <> [] -> (st_end st <= length (st_mem st))%nat ->
  exists st', snprintf_insert out st = Some (true, st') /\
              st_pos st' = (st_end st + length out)%nat.
Proof.
  intros E Hne Hl. unfold snprintf_insert, gets, bind at 1. rewrite E, Z.sub_diag.
  change (u64 0) with 0. rewrite apr_snprintf_zero.
  unfold bind, store. rewrite Nat.add_0_r, E. rewrite (proj2 (Nat.leb_le _ _)) by done.
  destruct out as [|c out]; [done|].
  destruct (Z.leb_spec (Z.of_nat (length (c :: out))) 0); [simpl in *; lia|].
  eexists. split; [reflexivity|]. rewrite Nat2Z.id. simpl. lia.
Qed.
End Snprintf.

(** * Header fields: what is written is read back *)

Definition header_name_ok (n : bytes) : Prop :=
  n <> [] /\ no_eol n /\ (":"%char ∉ n) /\ apt_text_is_wsp (deref n) = false.
Definition header_value_ok (v : bytes) : Prop :=
  no_eol v /\ (forall c r, v = c :: r -> apt_text_is_wsp c = false).

Lemma no_eol_cons (c : char) (l : bytes) : no_eol (c :: l) <-> c <> CR /\ c <> LF /\ no_eol l.
Proof.
  unfold no_eol. rewrite !not_elem_of_cons. split; intros; destruct_and!; split_and!; congruence.
Qed.

Lemma header_scan_name (n w : bytes) (p b : nat) (vb : option nat) :
  no_eol n -> ":"%char ∉ n ->
  header_scan (n ++ w) p (Some b) 0 vb = header_scan w (p + length n) (Some b) 0 vb.
Proof.
  revert p. induction n as [|c n IH]; intros p Hn Hc; simpl; [by rewrite Nat.add_0_r|].
  apply no_eol_cons in Hn as (? & ? & ?). apply not_elem_of_cons in Hc as [? ?].
  rewrite !char_eqb_ne by congruence. rewrite IH by done. f_equal. lia.
Qed.

Lemma header_scan_colon (w : bytes) (p b : nat) (vb : option nat) :
  header_scan (":"%char :: w) p (Some b) 0 vb = header_scan w (p + 1) (Some b) (p - b) vb.
Proof. done. Qed.

Lemma header_scan_wsp (w : bytes) (p nl : nat) (nb : option nat) :
  header_scan (SP :: w) p nb (S nl) None = header_scan w (p + 1) nb (S nl) None.
Proof. done. Qed.

Lemma header_scan_value (v w : bytes) (p nl b : nat) (nb : option nat) :
  no_eol v ->
  header_scan (v ++ w) p nb (S nl) (Some b) = header_scan w (p + length v) nb (S nl) (Some b).
Proof.
  revert p. induction v as [|c v IH]; intros p Hv; simpl; [by rewrite Nat.add_0_r|].
  apply no_eol_cons in Hv as (? & ? & ?).
  rewrite !char_eqb_ne by congruence. rewrite IH by done. f_equal. lia.
Qed.

Lemma header_scan_crlf (w : bytes) (p nl : nat) (nb vb : option nat) :
  header_scan (CR :: LF :: w) p nb nl vb =
  (nb, nl, vb, match vb with Some b => (p - b)%nat | None => 0%nat end, Some (p + 2)%nat).
Proof. done. Qed.

Lemma header_scan_line (n v rest : bytes) :
  header_name_ok n -> header_value_ok v ->
  header_scan (n ++ [":"%char] ++ [SP] ++ v ++ CR :: LF :: rest) 0 None 0 None =
  (Some 0%nat, length n,
   (if (length v =? 0)%nat then None else Some (length n + 2)%nat), length v,
   Some (length n + 2 + length v + 2)%nat).
Proof.
  intros (Hne & Heol & Hcol & Hw) (Veol & Vw).
  destruct n as [|c n]; [done|]. simpl in Hw.
  apply no_eol_cons in Heol as (Hc1 & Hc2 & Heol). apply not_elem_of_cons in Hcol as [Hc3 Hcol].
  cbn [app header_scan]. rewrite !(char_eqb_ne c) by congruence.
  cbn [Nat.eqb]. rewrite Hw.
  rewrite header_scan_name, header_scan_colon by done.
  replace (0 + 1 + length n - 0)%nat with (S (length n)) by lia.
  rewrite header_scan_wsp. destruct v as [|d v].
  - cbn [app]. rewrite header_scan_crlf. simpl. repeat first [lia | f_equal].
  - apply no_eol_cons in Veol as (Hd1 & Hd2 & Veol). specialize (Vw d v eq_refl).
    cbn [app header_scan]. rewrite !(char_eqb_ne d) by congruence.
    cbn [Nat.eqb]. rewrite Vw, header_scan_value, header_scan_crlf by done.
    simpl. repeat first [lia | f_equal].
Qed.

Lemma off_str_text (st : apt_text_stream_t) (b n : nat) :
  (b + n <= length (window st))%nat ->
  str_text (off_str st (Some b) n) = take n (drop b (window st)).
Proof. apply sub_str_text. Qed.

Lemma apt_text_header_read_line (st : apt_text_stream_t) (n v rest : bytes) :
  header_name_ok n -> header_value_ok v ->
  window st = n ++ [":"%char] ++ [SP] ++ v ++ [CR; LF] ++ rest ->
  exists pair st', apt_text_header_read st = (true, pair, st') /\
    str_text (pair_name pair) = n /\ str_text (pair_value pair) = v /\ window st' = rest /\
    str_wf (pair_name pair) /\ str_wf (pair_value pair) /\ st_eos st' = st_eos st.
Proof.
  intros Hn Hv Hw. unfold apt_text_header_read. rewrite Hw.
  change ([CR; LF] ++ rest) with (CR :: LF :: rest). rewrite header_scan_line by done.
  assert (Hlen : length (window st) = (length n + 2 + length v + 2 + length rest)%nat).
  { rewrite Hw, !length_app. simpl. lia. }
  assert (Hnz : (length n =? 0)%nat = false).
  { destruct Hn as (Hne & _). destruct n; [done|done]. }
  rewrite Hnz. simpl. eexists _, _. split; [done|]. simpl. split_and!.
  - rewrite sub_str_text, Hw by lia. by rewrite drop_0, take_app_length.
  - destruct (Nat.eqb_spec (length v) 0) as [E|E].
    + apply nil_length_inv in E as ->. done.
    + rewrite off_str_text by lia. rewrite Hw.
      rewrite drop_app_add' by done. cbn [app drop]. by rewrite drop_0, take_app_length.
  - rewrite window_advance, Hw.
    replace (length n + 2 + length v + 2)%nat
      with (length (n ++ [":"%char] ++ [SP] ++ v ++ [CR; LF])).
    2:{ rewrite !length_app. simpl. lia. }
    replace (n ++ [":"%char] ++ [SP] ++ v ++ [CR; LF] ++ rest)
      with ((n ++ [":"%char] ++ [SP] ++ v ++ [CR; LF]) ++ rest) by (by rewrite <-!app_assoc).
    apply drop_app_length.
  - apply sub_str_wf. lia.
  - destruct (Nat.eqb_spec (length v) 0) as [E|E]; [by rewrite E|]. apply sub_str_wf. lia.
  - done.
Qed.

(** The text a writer added between two states of the stream. *)
Definition emitted (st st' : apt_text_stream_t) : bytes :=
  drop (st_pos st) (take (st_pos st') (st_mem st')).

Lemma emits_emitted (d : bytes) (st st' : apt_text_stream_t) :
  stream_wf st -> emits d st st' -> emitted st st' = d.
Proof.
  intros [W1 W2] (_ & _ & T). unfold emitted. rewrite T.
  apply drop_app_length'. rewrite length_take. lia.
Qed.

(** A header field written by [apt_text_name_value_insert] into a stream with
    room for it is read back by [apt_text_header_read] with the same name and value,
    and the reader stops right after its end of line.  The name may not be empty,
    start with white space or contain [':'], CR or LF; the value may not contain CR
    or LF nor start with white space. *)
Theorem apt_text_header_roundtrip (st rd : apt_text_stream_t) (name value : apt_str_t)
    (rest : bytes) :
  stream_wf st -> str_wf name -> str_wf value ->
  header_name_ok (str_text name) -> header_value_ok (str_text value) ->
  (st_pos st + str_len name + str_len value + 4 < st_end st)%nat ->
  exists st', apt_text_name_value_insert name value st = Some (true, st') /\
    (window rd = emitted st st' ++ rest ->
     exists pair rd', apt_text_header_read rd = (true, pair, rd') /\
       str_text (pair_name pair) = str_text name /\
       str_text (pair_value pair) = str_text value /\ window rd' = rest).
Proof.
  intros W Wn Wv Hn Hv Hroom.
  destruct (apt_text_name_value_insert_room name value st W Hroom) as (st' & E & Hem).
  exists st'. split; [done|]. intros Hrd.
  rewrite (emits_emitted _ _ _ W Hem) in Hrd. unfold header_line in Hrd.
  rewrite !str_data_text in Hrd by done. rewrite <-!app_assoc in Hrd.
  destruct (apt_text_header_read_line rd _ _ rest Hn Hv Hrd) as (p & rd' & H1 & H2 & H3 & H4 & _).
  by exists p, rd'.
Qed.

Definition sample_stream : apt_text_stream_t :=
  apt_text_stream_init (replicate 64 NUL) 64.

Lemma apt_text_header_roundtrip_witness :
  exists st', apt_text_name_value_insert (str_lit "Voice-Age") (str_lit "25") sample_stream
              = Some (true, st') /\
    (window (stream_of_str (str_of (lit "Voice-Age: 25" ++ [CR; LF] ++ lit "x")))
       = emitted sample_stream st' ++ lit "x" ->
     exists pair rd',
       apt_text_header_read (stream_of_str (str_of (lit "Voice-Age: 25" ++ [CR; LF] ++ lit "x")))
         = (true, pair, rd') /\
       str_text (pair_name pair) = lit "Voice-Age" /\
       str_text (pair_value pair) = lit "25" /\ window rd' = lit "x").
Proof.
  apply (apt_text_header_roundtrip sample_stream _ (str_lit "Voice-Age") (str_lit "25") (lit "x"));
    [unfold stream_wf; simpl; lia | reflexivity | reflexivity | | | simpl; lia].
  - unfold header_name_ok, no_eol. split_and!;
      first [by vm_compute | decide_now | reflexivity].
  - unfold header_value_ok, no_eol. split_and!;
      [decide_now | decide_now | ].
    intros c r [= <- <-]. reflexivity.
Defined.

(** The bounded insertions of the text stream (end of line, character, string,
    header field, header name and decimal value), started from a well-formed stream,
    always return and never write outside the space between the position and the end:
    the position stays within the end, everything before the old position and from the
    end on is unchanged.  The decimal value, which is printed without a check, needs one
    byte of room; the others are safe on a full stream too. *)
Theorem apt_text_inserts_in_bounds `{L : AprLaws} (st : apt_text_stream_t) (c : char)
    (s name value : apt_str_t) (n : Z) :
  stream_wf st -> addressable st ->
  Forall (fun m : prog apt_text_stream_t bool =>
            exists b st', m st = Some (b, st') /\ frame st st')
    [apt_text_eol_insert; apt_text_char_insert c; apt_text_space_insert;
     apt_text_htab_insert; apt_text_string_insert s;
     apt_text_name_value_insert name value; apt_text_header_name_insert name] /\
  ((st_pos st < st_end st)%nat ->
   exists b st', apt_text_size_value_insert n st = Some (b, st') /\ frame st st').
Proof.
  intros W Ad. split; [repeat apply Forall_cons; [..|apply Forall_nil]|].
  - by apply apt_text_eol_insert_bounds.
  - by apply apt_text_char_insert_bounds.
  - by apply apt_text_char_insert_bounds.
  - by apply apt_text_char_insert_bounds.
  - by apply apt_text_string_insert_bounds.
  - by apply apt_text_name_value_insert_bounds.
  - by apply apt_text_header_name_insert_bounds.
  - by apply snprintf_insert_bounds.
Qed.

Lemma apt_text_inserts_in_bounds_witness :
  exists b st', @apt_text_size_value_insert apr_reference 120 sample_stream = Some (b, st')
                /\ frame sample_stream st'.
Proof.
  pose proof (@apt_text_inserts_in_bounds apr_reference apr_reference_laws sample_stream SP
    (str_lit "a") (str_lit "n") (str_lit "v") 120) as H.
  assert (W : stream_wf sample_stream) by (unfold stream_wf; simpl; lia).
  assert (Ad : addressable sample_stream) by (unfold addressable; simpl; lia).
  apply (proj2 (H W Ad)). simpl. lia.
Defined.

(** * A calculus of writers

    [writes m a d n]: from a well-formed stream with more than [n] bytes of room,
    [m] returns [a] and appends exactly [d]. *)

Definition writes {A} (m : prog apt_text_stream_t A) (a : A) (d : bytes) (n : nat) : Prop :=
  forall st, stream_wf st -> addressable st -> (st_pos st + n < st_end st)%nat ->
  exists st', m st = Some (a, st') /\ emits d st st'.

Lemma writes_ret {A} (a : A) (n : nat) : writes (ret a) a [] n.
Proof. intros st W _ _. exists st. split; [done|by apply emits_nil]. Qed.

Lemma writes_put (d : bytes) (n : nat) : (length d <= n)%nat -> writes (put d) tt d n.
Proof. intros H st W _ Hr. apply put_emits; [done|lia]. Qed.

Lemma writes_bind {A B} (m : prog apt_text_stream_t A) (k : A -> prog apt_text_stream_t B)
    (a : A) (b : B) (d1 d2 : bytes) (n : nat) :
  writes m a d1 n -> (length d1 <= n)%nat -> writes (k a) b d2 (n - length d1) ->
  writes (bind m k) b (d1 ++ d2) n.
Proof.
  intros H1 Hn H2 st W Ad Hr. destruct (H1 st W Ad Hr) as (s1 & E1 & Em1).
  destruct (H2 s1) as (s2 & E2 & Em2).
  - by eapply emits_wf.
  - eapply frame_addressable; [by eapply emits_frame|done].
  - rewrite (emits_pos _ _ _ Em1), (emits_end _ _ _ Em1). lia.
  - exists s2. unfold bind. rewrite E1. split; [done|]. by eapply emits_app.
Qed.

(** Reading a part of the state decides nothing when its value is known. *)
Lemma writes_gets_room {B} (k : bool -> prog apt_text_stream_t B) (b : B) (d : bytes) (i n : nat) :
  (i <= n)%nat -> writes (k false) b d n -> writes (bind (gets (no_room i)) k) b d n.
Proof.
  intros Hi Hk st W Ad Hr. unfold bind, gets.
  rewrite (proj2 (no_room_false i st)) by lia. by apply Hk.
Qed.

Lemma writes_snprintf `{L : AprLaws} (out : bytes) (n : nat) :
  out <> [] -> (length out <= n)%nat -> writes (snprintf_insert out) true out n.
Proof. intros Hne Hn st W Ad Hr. apply snprintf_insert_room; [done..|lia]. Qed.

Lemma writes_eol (n : nat) : (2 <= n)%nat -> writes apt_text_eol_insert true [CR; LF] n.
Proof. intros Hn st W _ Hr. apply apt_text_eol_insert_room; [done|lia]. Qed.

Lemma writes_text {A} (m : prog apt_text_stream_t A) (a : A) (d d' : bytes) (n : nat) :
  writes m a d' n -> d' = d -> writes m a d n.
Proof. by intros ? ->. Qed.

#[export] Hint Resolve writes_ret writes_put writes_snprintf writes_eol : mrcp.

(** Lengths of the texts of writers. *)
Ltac text_length := autorewrite with mrcp; rewrite ?length_app; autorewrite with mrcp;
  cbn [length]; try lia.

(** Follow the structure of a writer; [leaf] proves the writers it calls. *)
Ltac writes_go leaf :=
  lazymatch goal with
  | |- writes (ret _) _ _ _ => apply writes_ret
  | |- writes (put _) _ _ _ => apply writes_put; text_length
  | |- writes (bind (gets (no_room _)) _) _ _ _ =>
      apply writes_gets_room; [try lia|cbv beta iota; writes_go leaf]
  | |- writes (bind _ _) _ _ _ =>
      eapply writes_bind; [writes_go leaf|text_length|cbn [negb]; cbv beta iota; writes_go leaf]
  | |- writes _ _ _ _ => leaf
  end.
Ltac writes_with leaf :=
  eapply writes_text; [writes_go leaf|rewrite ?app_nil_r, <-?app_assoc; try reflexivity].
