(* ===== verification/TextValues.v ===== *)
(** Round trips of the values written to and read from text streams:
    identifiers with a resource name, vendor-specific name-value pairs, sizes,
    booleans ([libs/apr-toolkit/src/apt_text_stream.c]). *)

From S2P Require Import Prelude AptString TextStream.

(** * Values *)

(** Split ["id<sep>resource"]; the search for the separator runs up to the
    terminating NUL, not up to the length of the string. *)
Definition apt_id_resource_parse (str : apt_str_t) (separator : char)
    : option (apt_str_t * apt_str_t) :=
  match strchr (str_mem str) separator with
  | None => None
  | Some k =>
      if (str_len str <=? k)%nat then None
      else Some (apt_string_copy (mk_str (str_buf str) k),
                 apt_string_copy (mk_str (Some (drop (k + 1) (str_mem str)))
                                         (str_len str - (k + 1))))
  end.

Definition apt_id_resource_generate (id resource : apt_str_t) (separator : char) : apt_str_t :=
  mk_str (Some (str_data id ++ [separator] ++ str_data resource ++ [NUL]))
    (str_len id + str_len resource + 1).

(** [name=value]: the pair is left as it was when the name is empty. *)
Definition apt_pair_parse (field : apt_str_t) : option apt_pair_t :=
  let '(ok, name, st) := apt_text_field_read (stream_of_str field) "="%char true in
  if ok then
    let '(_, value, _) := apt_text_field_read st ";"%char true in
    Some (mk_pair (apt_string_copy name) (apt_string_copy value))
  else None.

(** One iteration per field; [fuel] bounds the number of fields, which is at
    most the number of bytes of the text. *)
Fixpoint pair_fields (fuel : nat) (st : apt_text_stream_t) (arr : list apt_pair_t)
    : list apt_pair_t :=
  match fuel with
  | O => arr
  | S f =>
      let '(ok, field, st') := apt_text_field_read st ";"%char true in
      if ok then pair_fields f st' (arr ++ [default apt_pair_init (apt_pair_parse field)])
      else arr
  end.

Definition apt_pair_array_parse (arr : option (list apt_pair_t)) (value : apt_str_t)
    : bool * option (list apt_pair_t) :=
  match arr with
  | None => (false, None)
  | Some a =>
      let st := stream_of_str value in
      (true, Some (pair_fields (S (length (window st))) st a))
  end.

(** The text written for one pair; a value without a name is not written. *)
Definition pair_text (p : apt_pair_t) : bytes :=
  if (str_len (pair_name p) =? 0)%nat then []
  else str_data (pair_name p) ++
       (if (str_len (pair_value p) =? 0)%nat then []
        else "="%char :: str_data (pair_value p)).

(** The length accounted for one pair, whether or not its name is empty. *)
Definition pair_length (p : apt_pair_t) : nat :=
  (str_len (pair_name p) +
   (if (str_len (pair_value p) =? 0)%nat then 0 else 1 + str_len (pair_value p)))%nat.

Fixpoint pairs_text (arr : list apt_pair_t) : bytes :=
  match arr with
  | [] => []
  | [p] => pair_text p
  | p :: arr' => pair_text p ++ ";"%char :: pairs_text arr'
  end.

Fixpoint pairs_length (arr : list apt_pair_t) : nat :=
  match arr with
  | [] => 0
  | [p] => pair_length p
  | p :: arr' => (pair_length p + 1 + pairs_length arr')%nat
  end.

(** The string has the computed length; the bytes of the allocation that no
    pair was written to keep their initial contents. *)
Definition apt_pair_array_generate `{Apr} (arr : option (list apt_pair_t))
    : option apt_str_t :=
  match arr with
  | None => None
  | Some a =>
      Some (mk_str (Some (overwrite (apr_palloc (pairs_length a + 1)) 0 (pairs_text a ++ [NUL])))
                   (pairs_length a))
  end.

Definition TOKEN_TRUE : bytes := lit "true".
Definition TOKEN_FALSE : bytes := lit "false".

(** [None]: the parse failed and the destination keeps its value. *)
Definition apt_boolean_value_parse (str : apt_str_t) : option bool :=
  match str_buf str with
  | None => None
  | Some m =>
      if strncasecmp_eq m TOKEN_TRUE (length TOKEN_TRUE) then Some true
      else if strncasecmp_eq m TOKEN_FALSE (length TOKEN_FALSE) then Some false
      else None
  end.

Definition apt_boolean_value_generate (value : bool) : apt_str_t :=
  str_of (if value then TOKEN_TRUE else TOKEN_FALSE).

(** [atol] converted to the unsigned size type. *)
Definition apt_size_value_parse (str : apt_str_t) : Z :=
  match str_buf str with Some m => u64 (atol m) | None => 0 end.

Definition apt_size_value_generate `{Apr} (value : Z) : apt_str_t :=
  let m := apr_psprintf (dec value) in mk_str (Some m) (strlen m).

(** [do { count++; temp /= 10; } while(temp)]; at most one iteration per bit. *)
Fixpoint count_digits (fuel : nat) (count temp : Z) : Z :=
  match fuel with
  | O => count
  | S f =>
      let count := count + 1 in
      let temp := temp / 10 in
      if temp =? 0 then count else count_digits f count temp
  end.

(** [do { bounds *= 10; temp--; } while(temp)] on the 64-bit size type. *)
Fixpoint pow10_loop (n : nat) (bounds : Z) : Z :=
  match n with
  | O => bounds
  | S n' => pow10_loop n' (u64 (bounds * 10))
  end.

(** The value including its own digits: status, new value and the bytes stored
    through [str->buf] by [sprintf]. *)
Definition apt_var_length_value_generate (value max_count : Z) : bool * Z * bytes :=
  let count := count_digits 64 0 value in
  let bounds := pow10_loop (Z.to_nat count) 1 in
  let count := if u64 (bounds - count) <=? value then count + 1 else count in
  let value' := u64 (value + count) in
  if max_count <? count then (false, value', [])
  else (true, value', dec value').

(** ["%03lu "] followed by the name of the cause; [None] when the destination is
    not set (the second test cannot fail, tables being shorter than 1000). *)
Definition dec3 (n : Z) : bytes :=
  replicate (3 - length (dec n)) "0"%char ++ dec n.

Definition apt_completion_cause_generate (table : list apt_str_table_item_t)
    (size cause : Z) : option apt_str_t :=
  match apt_string_table_str_get table size cause with
  | None => None
  | Some name =>
      if (length (dec3 cause ++ [SP]) =? 4)%nat
      then Some (mk_str (Some (dec3 cause ++ [SP] ++ str_data name ++ [NUL]))
                        (4 + str_len name))
      else None
  end.

Definition hex_digit (n : Z) : char :=
  if n <? 10 then char_of (48 + n) else char_of (87 + n).

(** The identifier printed from the bytes of a fresh UUID; an odd length leaves
    its last byte as allocated. *)
Definition apt_unique_id_generate `{Apr} (uuid : bytes) (len : nat) : apt_str_t :=
  let count := Nat.min (len / 2) (length uuid) in
  let hex := concat (map (fun c => [hex_digit (code c / 16); hex_digit (code c mod 16)])
                         (take count uuid)) in
  let m := apr_palloc (len + 1) in
  let m := if (count =? 0)%nat then m else overwrite m 0 (hex ++ [NUL]) in
  mk_str (Some (overwrite m len [NUL])) len.

Lemma strchr_app (a b : bytes) (c : char) :
  c ∉ a -> NUL ∉ a -> strchr (a ++ c :: b) c = Some (length a).
Proof.
  induction a as [|x a IH]; intros Hc Hn; simpl; [by rewrite char_eqb_refl|].
  apply not_elem_of_cons in Hc as [? ?]. apply not_elem_of_cons in Hn as [? ?].
  rewrite !char_eqb_ne by congruence. by rewrite IH.
Qed.

Lemma str_text_prefix (m rest : bytes) : str_text (mk_str (Some (m ++ rest)) (length m)) = m.
Proof. apply take_app_length. Qed.

Lemma apt_id_resource_parse_split (id res tl : bytes) (sep : char) :
  sep ∉ id -> nul_free id ->
  exists id' res',
    apt_id_resource_parse
      (mk_str (Some (id ++ sep :: res ++ tl)) (length id + length res + 1)) sep = Some (id', res') /\
    str_text id' = id /\ str_text res' = res.
Proof.
  intros Hsep Hnul. unfold apt_id_resource_parse, str_mem. cbn [str_buf str_len].
  rewrite strchr_app by done.
  destruct (Nat.leb_spec (length id + length res + 1) (length id)); [lia|].
  eexists _, _. split; [done|]. rewrite !apt_string_copy_text. split; [apply str_text_prefix|].
  replace (length id + length res + 1 - (length id + 1))%nat with (length res) by lia.
  rewrite drop_app_add' by done. cbn [drop]. rewrite drop_0. apply str_text_prefix.
Qed.

(** An identifier and a resource name joined by a separator are recovered by
    splitting at the separator, provided the identifier contains neither the separator
    nor a NUL byte. *)
Theorem apt_id_resource_roundtrip (id resource : apt_str_t) (sep : char) :
  str_wf id -> str_wf resource -> sep ∉ str_text id -> nul_free (str_text id) ->
  exists id' resource',
    apt_id_resource_parse (apt_id_resource_generate id resource sep) sep = Some (id', resource') /\
    str_text id' = str_text id /\ str_text resource' = str_text resource.
Proof.
  intros Wi Wr Hsep Hnul. unfold apt_id_resource_generate. rewrite !str_data_text by done.
  rewrite <-Wi, <-Wr. by apply (apt_id_resource_parse_split _ _ [NUL]).
Qed.

Lemma apt_id_resource_roundtrip_witness :
  exists id' resource',
    apt_id_resource_parse
      (apt_id_resource_generate (str_lit "32AECB23") (str_lit "speechsynth") "@"%char) "@"%char
      = Some (id', resource') /\
    str_text id' = lit "32AECB23" /\ str_text resource' = lit "speechsynth".
Proof.
  apply (apt_id_resource_roundtrip (str_lit "32AECB23") (str_lit "speechsynth") "@"%char);
    [reflexivity | reflexivity | decide_now | unfold nul_free; decide_now].
Defined.

(** * Name-value pairs *)

Definition pair_texts (p : apt_pair_t) : bytes * bytes :=
  (str_text (pair_name p), str_text (pair_value p)).

(** A name and a value that the separators cannot split. *)
Definition pair_ok (p : apt_pair_t) : Prop :=
  str_wf (pair_name p) /\ str_wf (pair_value p) /\
  str_text (pair_name p) <> [] /\
  (";"%char ∉ str_text (pair_name p)) /\ ("="%char ∉ str_text (pair_name p)) /\
  deref (str_text (pair_name p)) <> SP /\
  (";"%char ∉ str_text (pair_value p)) /\ deref (str_text (pair_value p)) <> SP.

(** What follows the name of a pair. *)
Definition value_part (v : bytes) : bytes := match v with [] => [] | _ => "="%char :: v end.

Lemma value_part_tail (v : bytes) : tail (value_part v) = v.
Proof. by destruct v. Qed.

Lemma pair_text_eq (p : apt_pair_t) :
  pair_ok p -> pair_text p = str_text (pair_name p) ++ value_part (str_text (pair_value p)).
Proof.
  intros (Wn & Wv & Hne & _). unfold pair_text. unfold str_wf in *.
  destruct (Nat.eqb_spec (str_len (pair_name p)) 0) as [E|E].
  - rewrite E in Wn. by apply nil_length_inv in Wn.
  - rewrite !str_data_text by done. f_equal.
    destruct (Nat.eqb_spec (str_len (pair_value p)) 0) as [E'|E'].
    + rewrite E' in Wv. by apply nil_length_inv in Wv as ->.
    + destruct (str_text (pair_value p)); [simpl in Wv; lia|done].
Qed.

Lemma apt_pair_parse_text (f : apt_str_t) (p : apt_pair_t) :
  pair_ok p -> str_wf f -> str_text f = pair_text p ->
  exists q, apt_pair_parse f = Some q /\ pair_texts q = pair_texts p.
Proof.
  intros Hok Wf Hf. rewrite pair_text_eq in Hf by done.
  destruct Hok as (Wn & Wv & Hne & Hn1 & Hn2 & Hn3 & Hv1 & Hv2).
  destruct (apt_text_field_read_eq (stream_of_str f) "="%char [] (str_text (pair_name p))
    (value_part (str_text (pair_value p)))) as (n & s1 & E1 & T1 & _ & _ & W1 & F1 & _).
  { by apply stream_of_str_wf. }
  { by rewrite stream_of_str_window. }
  { constructor. }
  { destruct (str_text (pair_name p)); [done|]. intros c r [= -> _]. done. }
  { done. }
  { intros c r. by destruct (str_text (pair_value p)); intros [=]. }
  rewrite value_part_tail in W1.
  destruct (apt_text_field_read_eq s1 ";"%char [] (str_text (pair_value p)) [])
    as (v & s2 & E2 & T2 & _); try done.
  { by rewrite app_nil_r. }
  { rewrite app_nil_r. intros c r E. by rewrite E in Hv2. }
  unfold apt_pair_parse. rewrite E1, E2.
  destruct (Nat.eqb_spec (length (str_text (pair_name p))) 0) as [E|E].
  { by apply nil_length_inv in E. }
  simpl. eexists. split; [done|]. unfold pair_texts. simpl.
  by rewrite !apt_string_copy_text, T1, T2.
Qed.

Lemma pair_text_facts (p : apt_pair_t) :
  pair_ok p -> pair_text p <> [] /\ (";"%char ∉ pair_text p) /\ deref (pair_text p) <> SP.
Proof.
  intros Hok. rewrite pair_text_eq by done.
  destruct Hok as (_ & _ & Hne & Hn1 & _ & Hn3 & Hv1 & _).
  destruct (str_text (pair_name p)) as [|c n]; [done|]. split_and!; [done| |done].
  rewrite not_elem_of_app. split; [done|].
  destruct (str_text (pair_value p)); simpl; [apply not_elem_of_nil|].
  apply not_elem_of_cons. done.
Qed.

(** The text after the first pair of a list. *)
Definition pairs_rest (ps : list apt_pair_t) : bytes :=
  match ps with [] => [] | _ => ";"%char :: pairs_text ps end.

Lemma pairs_text_cons (p : apt_pair_t) (ps : list apt_pair_t) :
  pairs_text (p :: ps) = pair_text p ++ pairs_rest ps.
Proof. destruct ps; simpl; [by rewrite app_nil_r|done]. Qed.

Lemma pair_fields_spec (ps : list apt_pair_t) (fuel : nat) (st : apt_text_stream_t) arr :
  Forall pair_ok ps -> stream_wf st -> window st = pairs_text ps ->
  (length ps < fuel)%nat ->
  map pair_texts (pair_fields fuel st arr) = map pair_texts arr ++ map pair_texts ps.
Proof.
  intros Hps. revert fuel st arr. induction Hps as [|p ps Hp Hps IH]; intros fuel st arr W Hw Hf;
    (destruct fuel as [|f]; [simpl in Hf; lia|]); cbn [pair_fields].
  - destruct (apt_text_field_read_eq st ";"%char [] [] []) as (fl & s' & -> & _); try done.
    { apply not_elem_of_nil. }
    simpl. by rewrite app_nil_r.
  - rewrite pairs_text_cons in Hw. destruct (pair_text_facts p Hp) as (Hne & Hsc & Hsp).
    destruct (apt_text_field_read_eq st ";"%char [] (pair_text p) (pairs_rest ps))
      as (fl & s' & -> & Tf & Wfl & _ & Ws & Wst & _); try done.
    { destruct (pair_text p); [done|]. intros c r [= -> _]. done. }
    { intros c r. destruct ps; simpl; [done|]. by intros [= <- _]. }
    destruct (Nat.eqb_spec (length (pair_text p)) 0) as [E|E];
      [by apply nil_length_inv in E|].
    destruct (apt_pair_parse_text fl p Hp Wfl Tf) as (q & -> & Hq). simpl.
    rewrite IH; [|done| |simpl in Hf; lia].
    + rewrite map_app. simpl. rewrite Hq, <-app_assoc. done.
    + rewrite Ws. by destruct ps.
Qed.

Lemma pairs_text_length (ps : list apt_pair_t) :
  Forall pair_ok ps -> length (pairs_text ps) = pairs_length ps /\
                       (length ps <= pairs_length ps)%nat.
Proof.
  assert (H1 : forall p, pair_ok p -> length (pair_text p) = pair_length p /\
                                      (1 <= pair_length p)%nat).
  { intros p Hp. destruct (pair_text_facts p Hp) as (Hne & _).
    assert (length (pair_text p) = pair_length p) as H.
    { unfold pair_text, pair_length in *. destruct (str_len (pair_name p) =? 0)%nat; [done|].
      rewrite length_app, str_data_length.
      destruct (str_len (pair_value p) =? 0)%nat; simpl; [lia|]. rewrite str_data_length. lia. }
    split; [done|]. destruct (pair_text p); [done|]. cbn [length] in H. lia. }
  induction 1 as [|p ps Hp Hps [IH1 IH2]]; [done|].
  destruct (H1 p Hp) as [E1 E2]. destruct ps as [|q ps]; [cbn [pairs_text pairs_length length]; lia|].
  rewrite pairs_text_cons, length_app.
  change (pairs_length (p :: q :: ps)) with (pair_length p + 1 + pairs_length (q :: ps))%nat.
  change (length (pairs_rest (q :: ps))) with (S (length (pairs_text (q :: ps)))).
  change (length (p :: q :: ps)) with (S (length (q :: ps))). lia.
Qed.

(** An array of name-value pairs generated as [name=value;..] text and parsed
    again (appending to any array) gives back the same names and values in the same
    order, whatever the allocator left in the buffer. *)
Theorem apt_pair_array_roundtrip `{L : AprLaws} (ps arr : list apt_pair_t) :
  Forall pair_ok ps ->
  exists str arr',
    apt_pair_array_generate (Some ps) = Some str /\
    apt_pair_array_parse (Some arr) str = (true, Some arr') /\
    map pair_texts arr' = map pair_texts arr ++ map pair_texts ps.
Proof.
  intros Hps. destruct (pairs_text_length ps Hps) as [Hl Hn].
  set (str := mk_str (Some (overwrite (apr_palloc (pairs_length ps + 1)) 0 (pairs_text ps ++ [NUL])))
                     (pairs_length ps)).
  assert (Ht : str_text str = pairs_text ps).
  { unfold str, str_text, str_mem. simpl. unfold overwrite. simpl.
    rewrite <-Hl, <-app_assoc. apply take_app_length. }
  exists str. eexists. split; [done|]. split; [done|].
  apply pair_fields_spec; [done| | |].
  - apply stream_of_str_wf. unfold str_wf. by rewrite Ht.
  - by rewrite stream_of_str_window.
  - rewrite stream_of_str_window, Ht. lia.
Qed.

Definition sample_pairs : list apt_pair_t :=
  [mk_pair (str_lit "com.vendor.a") (str_lit "1"); mk_pair (str_lit "com.vendor.b") (str_lit "x y")].

Lemma apt_pair_array_roundtrip_witness :
  exists str arr',
    @apt_pair_array_generate apr_reference (Some sample_pairs) = Some str /\
    apt_pair_array_parse (Some []) str = (true, Some arr') /\
    map pair_texts arr' = [] ++ map pair_texts sample_pairs.
Proof.
  apply (@apt_pair_array_roundtrip apr_reference apr_reference_laws sample_pairs []).
  repeat constructor; first [reflexivity | by vm_compute | decide_now].
Defined.

(** * Sizes and booleans *)

Lemma strlen_nul_free (m : bytes) : nul_free m -> strlen m = length m.
Proof.
  unfold nul_free. induction m as [|c m IH]; [done|]. intros [? ?]%not_elem_of_cons.
  simpl. rewrite char_eqb_ne by congruence. by rewrite IH.
Qed.

Lemma dec_nul_free (n : Z) : 0 <= n -> nul_free (dec n).
Proof.
  intros Hn Hin. pose proof (dec_digits n Hn) as Hd. rewrite List.Forall_forall in Hd.
  apply list_elem_of_In in Hin. by apply Hd in Hin.
Qed.

(** Decimal sizes below 2^63 and booleans survive generation and parsing; the
    generated size is exactly its decimal digits. *)
Theorem apt_scalar_values_roundtrip `{L : AprLaws} (n : Z) (b : bool) :
  0 <= n < 2 ^ 63 ->
  str_text (apt_size_value_generate n) = dec n /\
  apt_size_value_parse (apt_size_value_generate n) = n /\
  apt_boolean_value_parse (apt_boolean_value_generate b) = Some b.
Proof.
  intros Hn. unfold apt_size_value_generate. rewrite apr_psprintf_output.
  rewrite strlen_nul_free by (apply dec_nul_free; lia).
  split_and!; [apply str_of_text| |by destruct b].
  unfold apt_size_value_parse. simpl.
  rewrite <-(app_nil_r (dec n)), atol_dec by done. apply u64_small. lia.
Qed.

Lemma apt_scalar_values_roundtrip_witness :
  str_text (@apt_size_value_generate apr_reference 4096) = dec 4096 /\
  apt_size_value_parse (@apt_size_value_generate apr_reference 4096) = 4096 /\
  apt_boolean_value_parse (apt_boolean_value_generate true) = Some true.
Proof.
  apply (@apt_scalar_values_roundtrip apr_reference apr_reference_laws 4096 true). lia.
Defined.

(** * The length of a message that contains its own length *)

Lemma dec_length_small (n : Z) : 0 <= n < 10 -> length (dec n) = 1%nat.
Proof.
  intros H. enough (Z.of_nat (length (dec n)) = 1) by lia.
  apply dec_length_unique; cbn; lia.
Qed.

Lemma dec_length_div (n : Z) : 10 <= n -> length (dec n) = S (length (dec (n / 10))).
Proof.
  intros H. pose proof (Z.div_mod n 10). pose proof (Z.mod_pos_bound n 10).
  destruct (dec_length (n / 10) ltac:(lia)) as (L1 & L2 & L3).
  set (l := Z.of_nat (length (dec (n / 10)))) in *.
  enough (Z.of_nat (length (dec n)) = l + 1) by lia.
  apply dec_length_unique; [lia|lia| |].
  - rewrite Z.pow_add_r, Z.pow_1_r by lia. lia.
  - right. replace (l + 1 - 1) with ((l - 1) + 1) by lia.
    rewrite Z.pow_add_r, Z.pow_1_r by lia. destruct L3; lia.
Qed.

Lemma count_digits_spec (f : nat) (c t : Z) :
  0 <= t < 10 ^ Z.of_nat f -> (0 < f)%nat ->
  count_digits f c t = c + Z.of_nat (length (dec t)).
Proof.
  revert c t. induction f as [|f IH]; intros c t Ht Hf; [lia|]. cbn [count_digits].
  destruct (Z.lt_ge_cases t 10) as [Hlt|Hge].
  - rewrite Z.div_small, dec_length_small by lia. done.
  - assert (Hd : 0 < t / 10) by (apply Z.div_str_pos; lia).
    destruct (Z.eqb_spec (t / 10) 0); [lia|].
    rewrite Nat2Z.inj_succ, Z.pow_succ_r in Ht by lia.
    assert (Ht' : 0 <= t / 10 < 10 ^ Z.of_nat f).
    { split; [lia|]. apply Z.div_lt_upper_bound; lia. }
    rewrite IH; [|done|destruct f; [cbn in Ht'; lia|lia]].
    rewrite (dec_length_div t) by lia. lia.
Qed.

Lemma pow10_loop_spec (n : nat) (b : Z) :
  0 <= b -> b * 10 ^ Z.of_nat n < 2 ^ 64 -> pow10_loop n b = b * 10 ^ Z.of_nat n.
Proof.
  revert b. induction n as [|n IH]; intros b Hb Hlt; cbn [pow10_loop].
  - cbn. lia.
  - rewrite Nat2Z.inj_succ, Z.pow_succ_r in * by lia.
    assert (0 < 10 ^ Z.of_nat n) by (apply Z.pow_pos_nonneg; lia).
    rewrite u64_small by nia. rewrite IH by nia. lia.
Qed.

(** The number of digits of values below [10^18] is at most 18. *)
Lemma dec_length_le (n k : Z) : 0 <= n < 10 ^ k -> 1 <= k -> Z.of_nat (length (dec n)) <= k.
Proof.
  intros Hn Hk. destruct (dec_length n ltac:(lia)) as (H1 & H2 & H3).
  destruct (Z.le_gt_cases (Z.of_nat (length (dec n))) k); [done|].
  destruct H3 as [->|H3]; [cbn in *; lia|].
  pose proof (Z.pow_le_mono_r 10 k (Z.of_nat (length (dec n)) - 1)). lia.
Qed.

Lemma pow10_ge (l : Z) : 1 <= l -> l + 1 <= 9 * 10 ^ l.
Proof.
  intros H. assert (l < 10 ^ l) by (apply Z.pow_gt_lin_r; lia). lia.
Qed.

Lemma apt_var_length_value_spec (value max : Z) :
  0 <= value < 10 ^ 18 ->
  exists value',
    value' = value + Z.of_nat (length (dec value')) /\
    apt_var_length_value_generate value max =
      if max <? Z.of_nat (length (dec value')) then (false, value', [])
      else (true, value', dec value').
Proof.
  intros Hv. unfold apt_var_length_value_generate.
  rewrite count_digits_spec by lia. rewrite Z.add_0_l.
  pose proof (dec_length_le value 18 Hv ltac:(lia)) as Hl18.
  destruct (dec_length value ltac:(lia)) as (H1 & H2 & H3).
  set (l := Z.of_nat (length (dec value))) in *.
  assert (Hp : 10 ^ l <= 10 ^ 18) by (apply Z.pow_le_mono_r; lia).
  rewrite pow10_loop_spec by (rewrite ?Z2Nat.id by lia; lia).
  rewrite Z2Nat.id, Z.mul_1_l by lia.
  pose proof (pow10_ge l H1) as Hg.
  assert (l < 10 ^ l) by (apply Z.pow_gt_lin_r; lia).
  rewrite (u64_small (10 ^ l - l)) by lia.
  destruct (Z.leb_spec (10 ^ l - l) value) as [Hge|Hlt].
  - exists (value + (l + 1)). rewrite u64_small by lia.
    rewrite (dec_length_unique (value + (l + 1)) (l + 1)); [done|lia|lia| |].
    + rewrite Z.pow_add_r, Z.pow_1_r by lia. lia.
    + right. replace (l + 1 - 1) with l by lia. lia.
  - exists (value + l). rewrite u64_small by lia.
    rewrite (dec_length_unique (value + l) l); [done|lia|lia|lia|].
    destruct H3 as [->|H3]; [left; done|right; lia].
Qed.

(** The message-length generator finds the fixed point: for every value below
    10^18 the number it reports equals the value plus the number of digits of that very
    number, and it succeeds exactly when those digits fit the limit. *)
Theorem apt_var_length_value_fixpoint (value max : Z) :
  0 <= value < 10 ^ 18 ->
  exists value',
    value' = value + Z.of_nat (length (dec value')) /\
    apt_var_length_value_generate value max =
      if max <? Z.of_nat (length (dec value')) then (false, value', [])
      else (true, value', dec value').
Proof. apply apt_var_length_value_spec. Qed.

Lemma apt_var_length_value_fixpoint_witness :
  exists value', value' = 998 + Z.of_nat (length (dec value')) /\
    apt_var_length_value_generate 998 6 =
      if 6 <? Z.of_nat (length (dec value')) then (false, value', [])
      else (true, value', dec value').
Proof. apply (apt_var_length_value_fixpoint 998 6). lia. Defined.


(** ** Completion causes *)

Lemma undec_zeros (z : nat) (l : bytes) : undec (replicate z "0"%char ++ l) = undec l.
Proof. induction z as [|z IH]; [done|]. simpl. exact IH. Qed.

(** [atol] on digits followed by something else. *)
Lemma atol_digits (l rest : bytes) :
  l <> [] -> Forall (fun c => isdigit c = true) l -> stops rest -> 0 <= undec l < 2 ^ 63 ->
  atol (l ++ rest) = undec l.
Proof.
  intros Hne Hd Hs Hv. unfold atol.
  destruct l as [|c l]; [done|]. inversion Hd as [|?? Hc _]; subst.
  assert (Hsp : snd (span isspace ((c :: l) ++ rest)) = (c :: l) ++ rest)
    by (simpl; by rewrite (isdigit_not_space c Hc)).
  rewrite Hsp.
  assert (Hm : match (c :: l) ++ rest with
               | "-"%char :: s' => (true, s')
               | "+"%char :: s' => (false, s')
               | _ => (false, (c :: l) ++ rest)
               end = (false, (c :: l) ++ rest)).
  { simpl. destruct c as [[] [] [] [] [] [] [] []]; try done; vm_compute in Hc; done. }
  rewrite Hm, (span_spec isdigit (c :: l) rest); [|done|by intros d b' ->].
  cbn [fst]. unfold clamp. lia.
Qed.

(** The completion cause generated for a cause of a table (three digits and its name)
    is parsed back to the same cause. *)
Theorem completion_cause_roundtrip (table : list apt_str_table_item_t) (size cause : Z) :
  table_ok table size = true -> size <= 1000 -> 0 <= cause < size ->
  exists s, apt_completion_cause_generate table size cause = Some s /\
            apt_size_value_parse s = cause.
Proof.
  intros Hok Hsz Hc. unfold apt_completion_cause_generate.
  assert (Hn : exists n, apt_string_table_str_get table size cause = Some n).
  { unfold apt_string_table_str_get. destruct (Z.ltb_spec cause size); [|lia].
    assert (Hlen : Z.of_nat (length table) = size) by (unfold table_ok in Hok; blia).
    destruct (lookup_lt_is_Some_2 table (Z.to_nat cause)) as [it ->]; [lia|]. by eexists. }
  destruct Hn as [n ->].
  pose proof (dec_length_le cause 3 ltac:(lia) ltac:(lia)) as H3.
  assert (Hl : length (dec3 cause ++ [SP]) = 4%nat).
  { unfold dec3. rewrite !length_app, length_replicate. simpl. lia. }
  rewrite Hl. cbn [Nat.eqb]. eexists. split; [reflexivity|].
  unfold apt_size_value_parse. cbn [str_buf].
  assert (Hu : undec (dec3 cause) = cause).
  { unfold dec3. rewrite undec_zeros. apply undec_dec. lia. }
  rewrite atol_digits; rewrite ?Hu; [apply u64_small; lia| | |done|lia].
  - unfold dec3. intros [_ E]%app_eq_nil. by apply dec_nonempty in E.
  - unfold dec3. apply Forall_app. split; [|apply dec_digits; lia].
    by apply Forall_replicate.
Qed.

Lemma completion_cause_roundtrip_witness :
  exists s, apt_completion_cause_generate sample_table 3 2 = Some s /\ apt_size_value_parse s = 2.
Proof. apply (completion_cause_roundtrip sample_table 3); first [reflexivity | lia]. Defined.
