(* ===== verification/HeaderField.v ===== *)
(** Header fields and header sections
    ([libs/apr-toolkit/include/apt_header_field.h], [src/apt_header_field.c]).

    A section keeps its fields on a ring, in message order, and an array of
    pointers indexed by the numeric identifier of a field.  The array and the
    ring share the fields, so fields have addresses here: the ring lists
    addresses with the fields stored there, the array holds addresses. *)

From Stdlib Require Import Sorted.
From S2P Require Import Prelude AptString TextStream.

(** * Header fields *)

Record apt_header_field_t := mk_field {
  hf_name : apt_str_t;
  hf_value : apt_str_t;
  hf_id : Z
}.

(** [(apr_size_t)-1]. *)
Definition UNKNOWN_HEADER_FIELD_ID : Z := 2 ^ 64 - 1.

Definition apt_header_field_alloc : apt_header_field_t :=
  mk_field apt_string_reset apt_string_reset UNKNOWN_HEADER_FIELD_ID.

Definition apt_header_field_create (name value : option apt_str_t) : option apt_header_field_t :=
  match name, value with
  | Some n, Some v =>
      Some (mk_field (apt_string_copy n) (apt_string_copy v) UNKNOWN_HEADER_FIELD_ID)
  | _, _ => None
  end.

Definition apt_header_field_create_c (name value : option bytes) : option apt_header_field_t :=
  match name, value with
  | Some n, Some v =>
      Some (mk_field (apt_string_assign (Some n)) (apt_string_assign (Some v))
                     UNKNOWN_HEADER_FIELD_ID)
  | _, _ => None
  end.

(** A separator of 0 for the value means: up to the end of the line. *)
Definition apt_header_field_create_from_line (line : option apt_str_t) (separator : char)
    : option apt_header_field_t :=
  match line with
  | None => None
  | Some l =>
      let '(ok, name, st) := apt_text_field_read (stream_of_str l) separator true in
      if ok then
        let '(_, value, _) := apt_text_field_read st NUL true in
        Some (mk_field (apt_string_copy name) (apt_string_copy value) UNKNOWN_HEADER_FIELD_ID)
      else None
  end.

Definition apt_header_field_copy (f : apt_header_field_t) : apt_header_field_t :=
  mk_field (apt_string_copy (hf_name f)) (apt_string_copy (hf_value f)) (hf_id f).

Definition set_hf_id (i : Z) (f : apt_header_field_t) : apt_header_field_t :=
  mk_field (hf_name f) (hf_value f) i.
Definition set_hf_value (v : apt_str_t) (f : apt_header_field_t) : apt_header_field_t :=
  mk_field (hf_name f) v (hf_id f).

(** * Header sections *)

Record apt_header_section_t := mk_section {
  sec_ring : list (addr * apt_header_field_t);
  sec_arr : list (option addr);
  sec_next : addr                     (** the next free address *)
}.

Definition apt_header_section_init : apt_header_section_t := mk_section [] [] 0.

Definition arr_size (h : apt_header_section_t) : Z := Z.of_nat (length (sec_arr h)).

Definition arr_at (h : apt_header_section_t) (i : Z) : option addr :=
  match sec_arr h !! Z.to_nat i with Some (Some a) => Some a | _ => None end.

Definition set_arr (h : apt_header_section_t) (i : Z) (a : option addr) : apt_header_section_t :=
  mk_section (sec_ring h) (<[Z.to_nat i := a]> (sec_arr h)) (sec_next h).

Definition apt_header_section_array_alloc (h : apt_header_section_t) (max_field_count : Z)
    : bool * apt_header_section_t :=
  if max_field_count =? 0 then (false, h)
  else (true, mk_section (sec_ring h) (replicate (Z.to_nat max_field_count) None) (sec_next h)).

(** The field stored at an address of the ring. *)
Definition field_at (h : apt_header_section_t) (a : addr) : option apt_header_field_t :=
  snd <$> List.find (fun p : addr * apt_header_field_t => (fst p =? a)%nat) (sec_ring h).

(** Assignment through a pointer to a field of the ring. *)
Definition field_update (h : apt_header_section_t) (a : addr)
    (g : apt_header_field_t -> apt_header_field_t) : apt_header_section_t :=
  mk_section (map (fun p => if (fst p =? a)%nat then (fst p, g (snd p)) else p) (sec_ring h))
             (sec_arr h) (sec_next h).

(** [APR_RING_INSERT_TAIL] of a new field. *)
Definition ring_insert_tail (h : apt_header_section_t) (f : apt_header_field_t)
    : apt_header_section_t :=
  mk_section (sec_ring h ++ [(sec_next h, f)]) (sec_arr h) (S (sec_next h)).

Definition apt_header_section_field_add (h : apt_header_section_t) (f : apt_header_field_t)
    : bool * apt_header_section_t :=
  if hf_id f <? arr_size h then
    match arr_at h (hf_id f) with
    | Some _ => (false, h)
    | None => (true, ring_insert_tail (set_arr h (hf_id f) (Some (sec_next h))) f)
    end
  else (true, ring_insert_tail h f).

(** The loop: insert before the first field with a larger identifier, else at
    the tail. *)
Fixpoint ring_insert_ordered (ring : list (addr * apt_header_field_t)) (a : addr)
    (f : apt_header_field_t) : list (addr * apt_header_field_t) :=
  match ring with
  | [] => [(a, f)]
  | it :: ring' =>
      if hf_id f <? hf_id (snd it) then (a, f) :: ring
      else it :: ring_insert_ordered ring' a f
  end.

Definition apt_header_section_field_insert (h : apt_header_section_t) (f : apt_header_field_t)
    : bool * apt_header_section_t :=
  if hf_id f <? arr_size h then
    match arr_at h (hf_id f) with
    | Some _ => (false, h)
    | None =>
        let h' := set_arr h (hf_id f) (Some (sec_next h)) in
        (true, mk_section (ring_insert_ordered (sec_ring h') (sec_next h) f)
                          (sec_arr h') (S (sec_next h)))
    end
  else (true, ring_insert_tail h f).

(** The field is already on the ring, at address [a]. *)
Definition apt_header_section_field_set (h : apt_header_section_t) (a : addr)
    (f : apt_header_field_t) : bool * apt_header_section_t :=
  if arr_size h <=? hf_id f then (false, h)
  else match arr_at h (hf_id f) with
       | Some _ => (false, h)
       | None => (true, set_arr h (hf_id f) (Some a))
       end.

Definition apt_header_section_field_remove (h : apt_header_section_t) (a : addr)
    (f : apt_header_field_t) : bool * apt_header_section_t :=
  let h' := if hf_id f <? arr_size h then set_arr h (hf_id f) None else h in
  (true, mk_section (List.filter (fun p => negb (fst p =? a)%nat) (sec_ring h'))
                    (sec_arr h') (sec_next h')).

Definition apt_header_section_field_check (h : apt_header_section_t) (i : Z) : bool :=
  if i <? arr_size h then match arr_at h i with Some _ => true | None => false end
  else false.

Definition apt_header_section_field_get (h : apt_header_section_t) (i : Z) : option addr :=
  if i <? arr_size h then arr_at h i else None.

(** The fields in message order. *)
Definition sec_fields (h : apt_header_section_t) : list apt_header_field_t :=
  map snd (sec_ring h).

(** * Well-formedness *)

Definition id_ok (f : apt_header_field_t) : Prop := 0 <= hf_id f < 2 ^ 64.

(** Addresses are unique and already allocated, identifiers are sizes, and an
    array entry points to a field of the ring with that identifier. *)
Record section_wf (h : apt_header_section_t) : Prop := {
  wf_nodup : NoDup (map fst (sec_ring h));
  wf_fresh : forall a f, (a, f) ∈ sec_ring h -> (a < sec_next h)%nat;
  wf_ids : forall a f, (a, f) ∈ sec_ring h -> id_ok f;
  wf_arr : forall i a, sec_arr h !! i = Some (Some a) ->
           exists f, (a, f) ∈ sec_ring h /\ hf_id f = Z.of_nat i
}.

(** Conversely, every field of the ring whose identifier has an array slot is
    the field in that slot: no two fields of a section share an identifier. *)
Definition section_indexed (h : apt_header_section_t) : Prop :=
  forall a f, (a, f) ∈ sec_ring h -> hf_id f < arr_size h -> arr_at h (hf_id f) = Some a.

(** Message order follows identifiers (unknown identifiers last). *)
Definition section_sorted (h : apt_header_section_t) : Prop :=
  StronglySorted (fun p q => hf_id (snd p) <= hf_id (snd q)) (sec_ring h).

Lemma arr_at_Some (h : apt_header_section_t) (i : Z) (a : addr) :
  arr_at h i = Some a <-> sec_arr h !! Z.to_nat i = Some (Some a).
Proof. unfold arr_at. destruct (sec_arr h !! Z.to_nat i) as [[]|]; split; congruence. Qed.

Lemma arr_size_set_arr (h : apt_header_section_t) (i : Z) (a : option addr) :
  arr_size (set_arr h i a) = arr_size h.
Proof. unfold arr_size. simpl. by rewrite length_insert. Qed.

Lemma arr_at_set_arr_eq (h : apt_header_section_t) (i : Z) (a : option addr) :
  0 <= i < arr_size h -> arr_at (set_arr h i a) i = a.
Proof.
  unfold arr_size, arr_at. intros H. simpl.
  rewrite list_lookup_insert_eq by lia. by destruct a.
Qed.

Lemma arr_at_set_arr_ne (h : apt_header_section_t) (i j : Z) (a : option addr) :
  0 <= i -> 0 <= j -> i <> j -> arr_at (set_arr h i a) j = arr_at h j.
Proof.
  unfold arr_at. intros H1 H2 H3. simpl. by rewrite list_lookup_insert_ne by lia.
Qed.

Lemma section_init_wf : section_wf apt_header_section_init.
Proof.
  split; simpl; [constructor|by intros ?? ?%elem_of_nil|by intros ?? ?%elem_of_nil|].
  intros i a H. by rewrite lookup_nil in H.
Qed.

Lemma section_alloc_wf (h : apt_header_section_t) (n : Z) :
  section_wf h -> section_wf (snd (apt_header_section_array_alloc h n)).
Proof.
  unfold apt_header_section_array_alloc. intros [H1 H2 H3 H4].
  destruct (n =? 0); [done|]. split; simpl; [done..|].
  intros i a [??]%lookup_replicate. congruence.
Qed.

(** Linking a new field [f] into a ring [r'] that permutes the old ring and the
    new field, with the array entry set when the identifier has a slot. *)
Lemma section_link_wf (h : apt_header_section_t) (f : apt_header_field_t) r' :
  section_wf h -> id_ok f -> r' ≡ₚ (sec_next h, f) :: sec_ring h ->
  section_wf (mk_section r' (sec_arr (if hf_id f <? arr_size h
                                      then set_arr h (hf_id f) (Some (sec_next h)) else h))
                         (S (sec_next h))).
Proof.
  intros [H1 H2 H3 H4] Hid Hp. split; simpl.
  - rewrite (Permutation_map fst Hp). simpl. constructor; [|done].
    intros ([a f'] & E & Hin)%list_elem_of_fmap. simpl in E.
    apply H2 in Hin. lia.
  - intros a f'. rewrite Hp, elem_of_cons. intros [[= -> ->]|Hin]; [lia|].
    apply H2 in Hin. lia.
  - intros a f'. rewrite Hp, elem_of_cons. intros [[= -> ->]|Hin]; [done|]. by eapply H3.
  - intros i a Hi. destruct (Z.ltb_spec (hf_id f) (arr_size h)) as [Hlt|Hge]; simpl in Hi.
    + apply list_lookup_insert_Some in Hi as [(<- & [= <-] & _)|(Hne & Hi)].
      * exists f. rewrite Hp, elem_of_cons. split; [by left|]. unfold id_ok in Hid. lia.
      * destruct (H4 i a Hi) as (f' & Hin & E). exists f'. by rewrite Hp, elem_of_cons; auto.
    + destruct (H4 i a Hi) as (f' & Hin & E). exists f'. by rewrite Hp, elem_of_cons; auto.
Qed.

Lemma section_link_indexed (h : apt_header_section_t) (f : apt_header_field_t) r' :
  section_wf h -> section_indexed h -> id_ok f -> arr_at h (hf_id f) = None ->
  r' ≡ₚ (sec_next h, f) :: sec_ring h ->
  section_indexed (mk_section r' (sec_arr (if hf_id f <? arr_size h
                                      then set_arr h (hf_id f) (Some (sec_next h)) else h))
                              (S (sec_next h))).
Proof.
  intros W Hix Hid Hfree Hp a f' Hin. simpl in Hin.
  rewrite Hp, elem_of_cons in Hin. revert Hin.
  unfold id_ok in Hid. destruct (Z.ltb_spec (hf_id f) (arr_size h)) as [Hlt|Hge].
  - change (arr_size _) with (arr_size (set_arr h (hf_id f) (Some (sec_next h)))).
    change (arr_at (mk_section _ _ _) ?i)
      with (arr_at (set_arr h (hf_id f) (Some (sec_next h))) i).
    rewrite arr_size_set_arr. intros [[= -> ->]|Hin] Hlt'.
    + apply arr_at_set_arr_eq. lia.
    + pose proof (wf_ids h W a f' Hin) as [? _]. pose proof (Hix a f' Hin Hlt') as Hat.
      rewrite arr_at_set_arr_ne; [done|lia|done|]. intros E. rewrite E in Hfree. congruence.
  - change (arr_size _) with (arr_size h).
    change (arr_at (mk_section _ _ _) ?i) with (arr_at h i).
    intros [[= -> ->]|Hin] Hlt'; [lia|]. by apply Hix.
Qed.

Lemma ring_insert_ordered_perm ring (a : addr) (f : apt_header_field_t) :
  ring_insert_ordered ring a f ≡ₚ (a, f) :: ring.
Proof.
  induction ring as [|it ring IH]; simpl; [done|].
  destruct (_ <? _); [done|]. rewrite IH. apply Permutation_swap.
Qed.

Lemma ring_snoc_perm (h : apt_header_section_t) (f : apt_header_field_t) :
  sec_ring h ++ [(sec_next h, f)] ≡ₚ (sec_next h, f) :: sec_ring h.
Proof. by rewrite Permutation_app_comm. Qed.

(** The two outcomes of adding or inserting a field. *)
Lemma field_add_cases (h : apt_header_section_t) (f : apt_header_field_t) :
  apt_header_section_field_add h f =
  if (hf_id f <? arr_size h) && bool_decide (is_Some (arr_at h (hf_id f))) then (false, h)
  else (true, mk_section (sec_ring h ++ [(sec_next h, f)])
                (sec_arr (if hf_id f <? arr_size h
                          then set_arr h (hf_id f) (Some (sec_next h)) else h))
                (S (sec_next h))).
Proof.
  unfold apt_header_section_field_add, ring_insert_tail.
  destruct (hf_id f <? arr_size h); simpl; [|done].
  destruct (arr_at h (hf_id f)); [by rewrite bool_decide_eq_true_2|].
  rewrite bool_decide_eq_false_2; [done|]. by intros [? ?].
Qed.

Lemma field_insert_cases (h : apt_header_section_t) (f : apt_header_field_t) :
  exists ring', ring' ≡ₚ (sec_next h, f) :: sec_ring h /\
  apt_header_section_field_insert h f =
  if (hf_id f <? arr_size h) && bool_decide (is_Some (arr_at h (hf_id f))) then (false, h)
  else (true, mk_section ring'
                (sec_arr (if hf_id f <? arr_size h
                          then set_arr h (hf_id f) (Some (sec_next h)) else h))
                (S (sec_next h))).
Proof.
  unfold apt_header_section_field_insert, ring_insert_tail.
  destruct (hf_id f <? arr_size h); simpl.
  - exists (ring_insert_ordered (sec_ring h) (sec_next h) f).
    split; [apply ring_insert_ordered_perm|].
    destruct (arr_at h (hf_id f)); [by rewrite bool_decide_eq_true_2|].
    rewrite bool_decide_eq_false_2; [done|]. by intros [? ?].
  - exists (sec_ring h ++ [(sec_next h, f)]). split; [apply ring_snoc_perm|done].
Qed.

Lemma arr_at_beyond (h : apt_header_section_t) (i : Z) :
  0 <= i -> arr_size h <= i -> arr_at h i = None.
Proof.
  unfold arr_size, arr_at. intros H1 H2.
  by rewrite lookup_ge_None_2 by lia.
Qed.

(** What the guard of [field_add] means when it does not refuse. *)
Lemma guard_free (h : apt_header_section_t) (f : apt_header_field_t) :
  id_ok f ->
  (hf_id f <? arr_size h) && bool_decide (is_Some (arr_at h (hf_id f))) = false ->
  arr_at h (hf_id f) = None.
Proof.
  intros Hid H. destruct (Z.ltb_spec (hf_id f) (arr_size h)); simpl in H.
  - apply bool_decide_eq_false in H. destruct (arr_at h (hf_id f)); [|done].
    exfalso. by apply H.
  - apply arr_at_beyond; [by destruct Hid|done].
Qed.

Lemma section_add_wf (h : apt_header_section_t) (f : apt_header_field_t) :
  section_wf h -> id_ok f -> section_wf (snd (apt_header_section_field_add h f)).
Proof.
  intros W Hid. rewrite field_add_cases. destruct (_ && _); [done|].
  apply section_link_wf; [done..|apply ring_snoc_perm].
Qed.

Lemma section_add_indexed (h : apt_header_section_t) (f : apt_header_field_t) :
  section_wf h -> section_indexed h -> id_ok f ->
  section_indexed (snd (apt_header_section_field_add h f)).
Proof.
  intros W Hix Hid. rewrite field_add_cases. destruct (_ && _) eqn:E; [done|].
  apply section_link_indexed; [done..| |apply ring_snoc_perm]. by apply guard_free.
Qed.

Lemma section_insert_wf (h : apt_header_section_t) (f : apt_header_field_t) :
  section_wf h -> id_ok f -> section_wf (snd (apt_header_section_field_insert h f)).
Proof.
  intros W Hid. destruct (field_insert_cases h f) as (r & Hp & ->).
  destruct (_ && _); [done|]. by apply section_link_wf.
Qed.

Lemma section_insert_indexed (h : apt_header_section_t) (f : apt_header_field_t) :
  section_wf h -> section_indexed h -> id_ok f ->
  section_indexed (snd (apt_header_section_field_insert h f)).
Proof.
  intros W Hix Hid. destruct (field_insert_cases h f) as (r & Hp & ->).
  destruct (_ && _) eqn:E; [done|]. apply section_link_indexed; [done..| |done].
  by apply guard_free.
Qed.

Abbreviation ring_le := (fun p q : addr * apt_header_field_t => hf_id (snd p) <= hf_id (snd q)).

Lemma ring_insert_ordered_sorted ring (a : addr) (f : apt_header_field_t) :
  StronglySorted ring_le ring -> StronglySorted ring_le (ring_insert_ordered ring a f).
Proof.
  induction 1 as [|it ring Hs IH Hall]; simpl.
  - repeat constructor.
  - destruct (Z.ltb_spec (hf_id f) (hf_id (snd it))) as [Hlt|Hge].
    + constructor; [by constructor|]. constructor; [simpl; lia|].
      eapply List.Forall_impl; [|exact Hall]. simpl. intros. lia.
    + constructor; [done|]. rewrite ring_insert_ordered_perm. constructor; [simpl; lia|done].
Qed.

Lemma ring_snoc_sorted ring (a : addr) (f : apt_header_field_t) :
  StronglySorted ring_le ring -> Forall (fun p => hf_id (snd p) <= hf_id f) ring ->
  StronglySorted ring_le (ring ++ [(a, f)]).
Proof.
  induction 1 as [|it ring Hs IH Hall]; intros Hle; simpl; [repeat constructor|].
  inversion Hle; subst. constructor; [auto|].
  apply Forall_app. split; [done|]. by repeat constructor.
Qed.

(** Fields inserted by identifier keep the order of identifiers; a field
    without a slot must be of unknown identifier. *)
Lemma section_insert_sorted (h : apt_header_section_t) (f : apt_header_field_t) :
  section_wf h -> section_sorted h ->
  (arr_size h <= hf_id f -> hf_id f = UNKNOWN_HEADER_FIELD_ID) ->
  section_sorted (snd (apt_header_section_field_insert h f)).
Proof.
  intros W Hs Hu. unfold apt_header_section_field_insert, section_sorted.
  destruct (Z.ltb_spec (hf_id f) (arr_size h)) as [Hlt|Hge].
  - destruct (arr_at h (hf_id f)); [done|]. simpl. by apply ring_insert_ordered_sorted.
  - simpl. apply ring_snoc_sorted; [done|]. apply List.Forall_forall.
    intros [a g] Hin%list_elem_of_In. apply (wf_ids h W) in Hin as [_ ?]. simpl.
    rewrite Hu by done. unfold UNKNOWN_HEADER_FIELD_ID. lia.
Qed.

Lemma section_set_wf (h : apt_header_section_t) (a : addr) (f : apt_header_field_t) :
  section_wf h -> (a, f) ∈ sec_ring h ->
  section_wf (snd (apt_header_section_field_set h a f)).
Proof.
  intros W Hin. pose proof (wf_ids h W a f Hin) as Hid. unfold apt_header_section_field_set.
  destruct (Z.leb_spec (arr_size h) (hf_id f)); [done|].
  destruct (arr_at h (hf_id f)); [done|]. destruct W as [H1 H2 H3 H4]. split; simpl; [done..|].
  intros i b [(<- & [= <-] & _)|(_ & Hi)]%list_lookup_insert_Some; [|eauto].
  exists f. unfold id_ok in Hid. split; [done|lia].
Qed.

Lemma elem_of_ring_remove (ring : list (addr * apt_header_field_t)) (a b : addr) g :
  (b, g) ∈ List.filter (fun p => negb (fst p =? a)%nat) ring <-> (b, g) ∈ ring /\ b <> a.
Proof.
  rewrite !list_elem_of_In, filter_In. simpl. rewrite negb_true_iff, Nat.eqb_neq. done.
Qed.

Lemma NoDup_fst_unique {A B} (l : list (A * B)) (a : A) (b c : B) :
  NoDup (map fst l) -> (a, b) ∈ l -> (a, c) ∈ l -> b = c.
Proof.
  induction l as [|[x y] l IH]; intros Hnd Hb Hc; [by apply elem_of_nil in Hb|].
  inversion Hnd as [|?? Hni Hnd']; subst. simpl in Hni.
  apply elem_of_cons in Hb as [[= -> ->]|Hb]; apply elem_of_cons in Hc as [Ec|Hc].
  - congruence.
  - exfalso. apply Hni, list_elem_of_fmap. by exists (x, c).
  - injection Ec as -> ->. exfalso. apply Hni, list_elem_of_fmap. by exists (x, b).
  - by apply IH.
Qed.

Lemma section_remove_wf (h : apt_header_section_t) (a : addr) (f : apt_header_field_t) :
  section_wf h -> (a, f) ∈ sec_ring h ->
  section_wf (snd (apt_header_section_field_remove h a f)).
Proof.
  intros W Hin. pose proof (wf_ids h W a f Hin) as Hid. destruct W as [H1 H2 H3 H4].
  assert (Hr : sec_ring (if hf_id f <? arr_size h then set_arr h (hf_id f) None else h) = sec_ring h)
    by (by destruct (_ <? _)).
  assert (Hn : sec_next (if hf_id f <? arr_size h then set_arr h (hf_id f) None else h) = sec_next h)
    by (by destruct (_ <? _)).
  split; simpl; rewrite ?Hr, ?Hn.
  - clear -H1. induction (sec_ring h) as [|[b g] r IH]; simpl; [constructor|].
    inversion H1 as [|?? Hni Hnd]; subst.
    destruct (negb (b =? a)%nat); simpl; [|auto]. constructor; [|auto].
    intros ([c g'] & E & Hc)%list_elem_of_fmap. apply elem_of_ring_remove in Hc as [Hc _].
    apply Hni, list_elem_of_fmap. by exists (c, g').
  - intros b g [Hb _]%elem_of_ring_remove. by eapply H2.
  - intros b g [Hb _]%elem_of_ring_remove. by eapply H3.
  - intros i b Hi. unfold id_ok in Hid.
    assert (Hold : sec_arr h !! i = Some (Some b) /\ (hf_id f < arr_size h -> Z.to_nat (hf_id f) <> i)).
    { destruct (Z.ltb_spec (hf_id f) (arr_size h)) as [Hlt|Hge]; simpl in Hi; [|split; [done|lia]].
      by apply list_lookup_insert_Some in Hi as [(_ & ? & _)|[? ?]]. }
    destruct Hold as [Hold Hne]. destruct (H4 i b Hold) as (g & Hg & E).
    exists g. split; [|done]. apply elem_of_ring_remove. split; [done|]. intros ->.
    assert (g = f) as -> by (clear -H1 Hg Hin; by eapply (NoDup_fst_unique (sec_ring h))).
    apply lookup_lt_Some in Hold. unfold arr_size in Hne. lia.
Qed.

Lemma field_at_in (h : apt_header_section_t) (a : addr) (f : apt_header_field_t) :
  section_wf h -> (a, f) ∈ sec_ring h -> field_at h a = Some f.
Proof.
  intros W Hin. unfold field_at.
  destruct (List.find _ (sec_ring h)) as [[b g]|] eqn:E; simpl.
  - apply find_some in E as [Hb Hab]. simpl in Hab. apply Nat.eqb_eq in Hab as ->.
    f_equal. eapply NoDup_fst_unique; [apply (wf_nodup h W)|by apply list_elem_of_In|done].
  - eapply find_none in E; [|by apply list_elem_of_In]. simpl in E.
    by rewrite Nat.eqb_refl in E.
Qed.

(** An entry found by identifier is a field of the ring with that identifier. *)
Lemma field_get_spec (h : apt_header_section_t) (i : Z) (a : addr) :
  section_wf h -> 0 <= i -> apt_header_section_field_get h i = Some a ->
  exists f, (a, f) ∈ sec_ring h /\ field_at h a = Some f /\ hf_id f = i.
Proof.
  unfold apt_header_section_field_get. intros W Hi.
  destruct (i <? arr_size h); [|done]. intros Ha%arr_at_Some.
  destruct (wf_arr h W _ _ Ha) as (f & Hin & E). exists f.
  split_and!; [done|by apply field_at_in|lia].
Qed.

Lemma field_add_success (h : apt_header_section_t) (f : apt_header_field_t) h' :
  section_wf h -> id_ok f -> apt_header_section_field_add h f = (true, h') ->
  sec_fields h' = sec_fields h ++ [f] /\ arr_size h' = arr_size h /\
  (hf_id f < arr_size h -> apt_header_section_field_get h' (hf_id f) = Some (sec_next h) /\
                           field_at h' (sec_next h) = Some f) /\
  (forall i, 0 <= i -> i <> hf_id f ->
     apt_header_section_field_get h' i = apt_header_section_field_get h i).
Proof.
  intros W Hid E. pose proof (section_add_wf h f W Hid) as W'. rewrite E in W'. simpl in W'.
  rewrite field_add_cases in E. destruct (_ && _); [done|]. injection E as <-.
  assert (Hsz : forall r n, arr_size (mk_section r (sec_arr (if hf_id f <? arr_size h
     then set_arr h (hf_id f) (Some (sec_next h)) else h)) n) = arr_size h).
  { intros r n. destruct (_ <? _); [apply arr_size_set_arr|done]. }
  unfold id_ok in Hid. split_and!.
  - unfold sec_fields. simpl. by rewrite map_app.
  - apply Hsz.
  - intros Hlt. split.
    + unfold apt_header_section_field_get. rewrite Hsz. destruct (Z.ltb_spec (hf_id f) (arr_size h)); [|lia].
      apply (arr_at_set_arr_eq h (hf_id f)). lia.
    + apply field_at_in; [done|]. simpl. apply elem_of_app. right. by apply list_elem_of_singleton.
  - intros i Hi Hne. unfold apt_header_section_field_get. rewrite Hsz.
    destruct (i <? arr_size h); [|done].
    destruct (hf_id f <? arr_size h); [|done].
    apply (arr_at_set_arr_ne h (hf_id f) i); [lia|done|congruence].
Qed.

(** C32: the header section invariant (unique addresses, array entries pointing to ring
    fields of that identifier) is preserved by every operation on a section; adding and
    inserting never create two indexed fields of one identifier, and insertion keeps the
    ring ordered by identifier. *)
Theorem header_section_invariant (h : apt_header_section_t) (f : apt_header_field_t)
    (a : addr) (g : apt_header_field_t) (n : Z) :
  section_wf h -> id_ok f -> (a, g) ∈ sec_ring h ->
  section_wf (snd (apt_header_section_array_alloc h n)) /\
  section_wf (snd (apt_header_section_field_add h f)) /\
  section_wf (snd (apt_header_section_field_insert h f)) /\
  section_wf (snd (apt_header_section_field_set h a g)) /\
  section_wf (snd (apt_header_section_field_remove h a g)) /\
  (section_indexed h -> section_indexed (snd (apt_header_section_field_add h f)) /\
                        section_indexed (snd (apt_header_section_field_insert h f))) /\
  (section_sorted h -> (arr_size h <= hf_id f -> hf_id f = UNKNOWN_HEADER_FIELD_ID) ->
   section_sorted (snd (apt_header_section_field_insert h f))).
Proof.
  intros W Hid Hin. split_and!.
  - by apply section_alloc_wf.
  - by apply section_add_wf.
  - by apply section_insert_wf.
  - by apply section_set_wf.
  - by apply section_remove_wf.
  - intros. split; [by apply section_add_indexed|by apply section_insert_indexed].
  - intros. by apply section_insert_sorted.
Qed.

(** A section with four slots and the fields 2 and 0. *)
Definition sample_section : apt_header_section_t :=
  snd (apt_header_section_field_add
        (snd (apt_header_section_field_add
               (snd (apt_header_section_array_alloc apt_header_section_init 4))
               (mk_field (str_lit "Voice-Name") (str_lit "a") 2)))
        (mk_field (str_lit "Voice-Age") (str_lit "1") 0)).

Lemma sample_section_wf : section_wf sample_section /\ section_indexed sample_section.
Proof.
  assert (W0 : section_wf (snd (apt_header_section_array_alloc apt_header_section_init 4)))
    by apply section_alloc_wf, section_init_wf.
  assert (I0 : section_indexed (snd (apt_header_section_array_alloc apt_header_section_init 4)))
    by (intros a f H; simpl in H; by apply elem_of_nil in H).
  assert (Hid1 : id_ok (mk_field (str_lit "Voice-Name") (str_lit "a") 2)) by (unfold id_ok; simpl; lia).
  assert (Hid2 : id_ok (mk_field (str_lit "Voice-Age") (str_lit "1") 0)) by (unfold id_ok; simpl; lia).
  split.
  - by repeat apply section_add_wf.
  - apply section_add_indexed; [by apply section_add_wf| |done]. by apply section_add_indexed.
Qed.

Lemma header_section_invariant_witness :
  section_wf (snd (apt_header_section_field_insert sample_section
                     (mk_field (str_lit "Fetch") (str_lit "x") 1))) /\
  section_wf (snd (apt_header_section_field_remove sample_section 0
                     (mk_field (str_lit "Voice-Name") (str_lit "a") 2))).
Proof.
  destruct (header_section_invariant sample_section (mk_field (str_lit "Fetch") (str_lit "x") 1)
    0%nat (mk_field (str_lit "Voice-Name") (str_lit "a") 2) 4) as (_ & _ & H1 & _ & H2 & _).
  - apply sample_section_wf.
  - unfold id_ok. simpl. lia.
  - unfold sample_section. simpl. apply elem_of_cons. left. reflexivity.
  - split; [exact H1 | exact H2].
Defined.

(** Adding a field is refused, leaving the section as it was, exactly when the slot
    of its identifier is taken; otherwise the field goes to the end of the section, is
    found under its identifier when it has a slot, and no other lookup changes. *)
Theorem header_section_add_get (h : apt_header_section_t) (f : apt_header_field_t) :
  section_wf h -> id_ok f ->
  let '(ok, h') := apt_header_section_field_add h f in
  (ok = false <-> is_Some (apt_header_section_field_get h (hf_id f))) /\
  (ok = false -> h' = h) /\
  (ok = true ->
     sec_fields h' = sec_fields h ++ [f] /\
     (hf_id f < arr_size h ->
        exists a, apt_header_section_field_get h' (hf_id f) = Some a /\ field_at h' a = Some f) /\
     (forall i, 0 <= i -> i <> hf_id f ->
        apt_header_section_field_get h' i = apt_header_section_field_get h i)).
Proof.
  intros W Hid. destruct (apt_header_section_field_add h f) as [ok h'] eqn:E.
  pose proof E as E'. rewrite field_add_cases in E'. unfold apt_header_section_field_get at 1.
  destruct (hf_id f <? arr_size h) eqn:Elt; simpl in E'.
  - destruct (bool_decide _) eqn:Eb; injection E' as <- <-.
    + apply bool_decide_eq_true in Eb. done.
    + apply bool_decide_eq_false in Eb. split_and!; [done|done|]. intros _.
      destruct (field_add_success h f _ W Hid E) as (H1 & _ & H3 & H4). split_and!; eauto.
  - injection E' as <- <-. split_and!; [|done|].
    + split; [done|]. by intros [? ?].
    + intros _. destruct (field_add_success h f _ W Hid E) as (H1 & _ & H3 & H4). split_and!; eauto.
Qed.

Lemma header_section_add_get_witness :
  fst (apt_header_section_field_add sample_section (mk_field (str_lit "N") (str_lit "b") 2)) = false /\
  let '(ok, h') := apt_header_section_field_add sample_section (mk_field (str_lit "N") (str_lit "b") 2) in
  (ok = false <-> is_Some (apt_header_section_field_get sample_section 2)) /\
  (ok = false -> h' = sample_section).
Proof.
  split; [reflexivity|].
  pose proof (header_section_add_get sample_section (mk_field (str_lit "N") (str_lit "b") 2)
    (proj1 sample_section_wf) ltac:(unfold id_ok; simpl; lia)) as H.
  destruct (apt_header_section_field_add _ _) as [ok h']. destruct H as (H1 & H2 & _).
  split; [exact H1 | exact H2].
Defined.
