(* ===== verification/TextMessage.v ===== *)
(** Header sections as text ([libs/apr-toolkit/src/apt_text_message.c]): header
    fields are parsed from and generated into a text stream, one line each (a
    value may be folded over several lines), up to an empty line. *)

From S2P Require Import Prelude AptString TextStream HeaderField.

(** * Parsing *)

(** The loop over folded lines: a line that starts with white space continues the
    value.  Every iteration consumes a byte, so the bytes left bound them. *)
Fixpoint folded_lines (fuel : nat) (st : apt_text_stream_t) : list apt_str_t * apt_text_stream_t :=
  match fuel with
  | O => ([], st)
  | S f =>
      match window st with
      | c :: _ =>
          if apt_text_is_wsp c then
            let st := apt_text_white_spaces_skip (set_pos (st_pos st + 1) st) in
            let '(_, line, st) := apt_text_line_read st in
            let '(lines, st) := folded_lines f st in
            (line :: lines, st)
          else ([], st)
      | [] => ([], st)
      end
  end.

(** A fresh NUL-terminated buffer holding the given bytes. *)
Definition str_alloc (b : bytes) : apt_str_t := mk_str (Some (b ++ [NUL])) (length b).

Definition apt_header_field_parse (st : apt_text_stream_t)
    : option apt_header_field_t * apt_text_stream_t :=
  let '(ok, p, st) := apt_text_header_read st in
  if negb ok then (None, st)
  else
    let '(lines, st) := folded_lines (length (window st)) st in
    (Some (mk_field (str_alloc (str_data (pair_name p)))
                    (str_alloc (str_data (pair_value p) ++ concat (map str_data lines)))
                    UNKNOWN_HEADER_FIELD_ID), st).

(** [do .. while(is_eos == FALSE)]; each iteration reads a line or meets the end of
    the stream. *)
Fixpoint section_parse_loop (fuel : nat) (h : apt_header_section_t) (st : apt_text_stream_t)
    : bool * apt_header_section_t * apt_text_stream_t :=
  match fuel with
  | O => (false, h, st)
  | S n =>
      let '(field, st) := apt_header_field_parse st in
      match field with
      | Some f =>
          if apt_string_is_empty (hf_name f) then (true, h, st)
          else
            let h := snd (apt_header_section_field_add h f) in
            if apt_text_is_eos st then (false, h, st) else section_parse_loop n h st
      | None => if apt_text_is_eos st then (false, h, st) else section_parse_loop n h st
      end
  end.

Definition apt_header_section_parse (h : apt_header_section_t) (st : apt_text_stream_t)
    : bool * apt_header_section_t * apt_text_stream_t :=
  section_parse_loop (S (length (window st))) h st.

(** * Generation *)

Definition apt_header_field_generate (f : apt_header_field_t) : prog apt_text_stream_t bool :=
  apt_text_name_value_insert (hf_name f) (hf_value f).

(** A field that does not fit is left out. *)
Fixpoint fields_generate (l : list apt_header_field_t) : prog apt_text_stream_t unit :=
  match l with
  | [] => ret tt
  | f :: l' => apt_header_field_generate f ;;; fields_generate l'
  end.

Definition apt_header_section_generate (h : apt_header_section_t) : prog apt_text_stream_t bool :=
  fields_generate (sec_fields h) ;;; apt_text_eol_insert.

(** * Folding loop: enough fuel *)

(** A stream with no line that continues the value. *)
Lemma folded_lines_none (n : nat) (st : apt_text_stream_t) :
  apt_text_is_wsp (deref (window st)) = false -> folded_lines n st = ([], st).
Proof.
  intros H. destruct n as [|n]; [done|]. simpl.
  destruct (window st) as [|c w]; [done|]. simpl in H. by rewrite H.
Qed.

(** * What is generated is parsed back *)

Definition field_texts (f : apt_header_field_t) : bytes * bytes :=
  (str_text (hf_name f), str_text (hf_value f)).

Definition field_ok (f : apt_header_field_t) : Prop :=
  str_wf (hf_name f) /\ str_wf (hf_value f) /\
  header_name_ok (str_text (hf_name f)) /\ header_value_ok (str_text (hf_value f)).

Definition field_line (f : apt_header_field_t) : bytes :=
  header_line (hf_name f) (hf_value f) ++ [CR; LF].

Definition fields_text (l : list apt_header_field_t) : bytes := concat (map field_line l).

Lemma field_line_length (f : apt_header_field_t) :
  length (field_line f) = (str_len (hf_name f) + str_len (hf_value f) + 4)%nat.
Proof. unfold field_line, header_line. rewrite !length_app, !str_data_length. simpl. lia. Qed.

Lemma field_generate_writes (f : apt_header_field_t) (n : nat) :
  (length (field_line f) <= n)%nat -> writes (apt_header_field_generate f) true (field_line f) n.
Proof.
  intros Hn st W Ad Hr. rewrite field_line_length in Hn.
  apply apt_text_name_value_insert_room; [done|lia].
Qed.

Lemma fields_generate_writes (l : list apt_header_field_t) (n : nat) :
  (length (fields_text l) <= n)%nat -> writes (fields_generate l) tt (fields_text l) n.
Proof.
  revert n. induction l as [|f l IH]; intros n Hn; simpl; [apply writes_ret|].
  unfold fields_text in *. simpl in *. rewrite length_app in Hn.
  eapply writes_bind; [apply field_generate_writes; lia|lia|]. apply IH. lia.
Qed.

Lemma section_generate_writes (h : apt_header_section_t) (n : nat) :
  (length (fields_text (sec_fields h)) + 2 <= n)%nat ->
  writes (apt_header_section_generate h) true (fields_text (sec_fields h) ++ [CR; LF]) n.
Proof.
  intros Hn. eapply writes_bind; [apply fields_generate_writes; lia|lia|].
  apply writes_eol. lia.
Qed.

Lemma str_alloc_text (b : bytes) : str_text (str_alloc b) = b.
Proof. apply take_app_length. Qed.

Lemma str_alloc_wf (b : bytes) : str_wf (str_alloc b).
Proof. unfold str_wf. by rewrite str_alloc_text. Qed.

(** A field just parsed: not identified yet, stored in memory of its own. *)
Definition fresh_field (g : apt_header_field_t) : Prop :=
  g = mk_field (str_alloc (str_text (hf_name g))) (str_alloc (str_text (hf_value g)))
               UNKNOWN_HEADER_FIELD_ID.

Lemma field_parse_line (st : apt_text_stream_t) (f : apt_header_field_t) (rest : bytes) :
  field_ok f -> window st = field_line f ++ rest -> apt_text_is_wsp (deref rest) = false ->
  exists g st', apt_header_field_parse st = (Some g, st') /\ field_texts g = field_texts f /\
    fresh_field g /\ window st' = rest /\ st_eos st' = st_eos st.
Proof.
  intros (Wn & Wv & Hn & Hv) Hw Hwsp. unfold field_line, header_line in Hw.
  rewrite !str_data_text, <-!app_assoc in Hw by done.
  destruct (apt_text_header_read_line st _ _ rest Hn Hv Hw)
    as (p & st' & E & Tn & Tv & Hw' & Wpn & Wpv & He).
  unfold apt_header_field_parse. rewrite E. cbn [negb].
  rewrite folded_lines_none by (by rewrite Hw'). cbn [map concat].
  eexists _, st'. split_and!; [reflexivity| | |done|done].
  - unfold field_texts. cbn [hf_name hf_value].
    by rewrite app_nil_r, !str_alloc_text, !str_data_text, Tn, Tv.
  - unfold fresh_field. cbn [hf_name hf_value]. by rewrite !str_alloc_text.
Qed.

Lemma header_read_blank (st : apt_text_stream_t) (rest : bytes) :
  window st = CR :: LF :: rest ->
  apt_text_header_read st = (true, mk_pair (mk_str None 0) (mk_str None 0), set_pos (st_pos st + 2) st).
Proof. intros Hw. unfold apt_text_header_read. by rewrite Hw. Qed.

Lemma field_parse_blank (st : apt_text_stream_t) (rest : bytes) :
  window st = CR :: LF :: rest -> apt_text_is_wsp (deref rest) = false ->
  exists g st', apt_header_field_parse st = (Some g, st') /\ str_len (hf_name g) = 0%nat /\
    window st' = rest /\ st_eos st' = st_eos st.
Proof.
  intros Hw Hwsp. unfold apt_header_field_parse. rewrite (header_read_blank st rest Hw). cbn [negb].
  assert (Hw' : window (set_pos (st_pos st + 2) st) = rest) by (by rewrite window_advance, Hw).
  rewrite folded_lines_none by (by rewrite Hw'). eexists _, _. split_and!; [reflexivity|done|done|done].
Qed.

Lemma not_eos_window (st : apt_text_stream_t) :
  st_eos st = false -> window st <> [] -> apt_text_is_eos st = false.
Proof.
  intros He Hw. unfold apt_text_is_eos. rewrite He, orb_false_r.
  destruct (Nat.leb_spec (st_end st) (st_pos st)) as [H|]; [|done].
  exfalso. apply Hw. unfold window. by replace (st_end st - st_pos st)%nat with 0%nat by lia.
Qed.

Lemma add_unknown (h : apt_header_section_t) (g : apt_header_field_t) :
  hf_id g = UNKNOWN_HEADER_FIELD_ID -> arr_size h <= UNKNOWN_HEADER_FIELD_ID ->
  apt_header_section_field_add h g = (true, ring_insert_tail h g).
Proof.
  intros Hid Hsz. unfold apt_header_section_field_add. rewrite Hid.
  by destruct (Z.ltb_spec UNKNOWN_HEADER_FIELD_ID (arr_size h)); [lia|].
Qed.

Lemma fields_text_wsp (l : list apt_header_field_t) (rest : bytes) :
  Forall field_ok l -> apt_text_is_wsp (deref (fields_text l ++ CR :: LF :: rest)) = false.
Proof.
  intros H. destruct H as [|f l (Wn & _ & (Hne & _ & _ & Hw) & _) _]; [done|].
  unfold fields_text, field_line, header_line. cbn [map concat].
  rewrite str_data_text by done.
  by destruct (str_text (hf_name f)).
Qed.

Lemma section_parse_fields (l : list apt_header_field_t) (rest : bytes) (fuel : nat)
    (h : apt_header_section_t) (st : apt_text_stream_t) :
  Forall field_ok l -> (length l < fuel)%nat ->
  window st = fields_text l ++ CR :: LF :: rest -> apt_text_is_wsp (deref rest) = false ->
  st_eos st = false -> arr_size h <= UNKNOWN_HEADER_FIELD_ID ->
  exists gs h' st', section_parse_loop fuel h st = (true, h', st') /\
    sec_fields h' = sec_fields h ++ gs /\ sec_arr h' = sec_arr h /\
    map field_texts gs = map field_texts l /\ Forall fresh_field gs /\ window st' = rest /\
    st_eos st' = false.
Proof.
  intros Hl. revert fuel h st.
  induction Hl as [|f l Hf Hl IH]; intros [|fuel] h st Hfuel Hw Hwsp He Hsz;
    try (exfalso; simpl in Hfuel; lia); cbn [section_parse_loop].
  - destruct (field_parse_blank st rest Hw Hwsp) as (g & st' & -> & Hn & Hw' & He').
    unfold apt_string_is_empty. rewrite Hn. simpl.
    exists [], h, st'. rewrite app_nil_r. split_and!; (done || congruence).
  - unfold fields_text in Hw. cbn [map concat] in Hw. rewrite <-app_assoc in Hw.
    destruct (field_parse_line st f _ Hf Hw (fields_text_wsp l rest Hl))
      as (g & st1 & -> & Htx & Hfresh & Hw1 & He1).
    assert (Hid : hf_id g = UNKNOWN_HEADER_FIELD_ID) by (by rewrite Hfresh).
    assert (Wgn : str_wf (hf_name g)) by (rewrite Hfresh; apply str_alloc_wf).
    assert (Hne : apt_string_is_empty (hf_name g) = false).
    { unfold apt_string_is_empty. apply Nat.eqb_neq. rewrite <-Wgn.
      injection Htx as -> _. destruct Hf as (_ & _ & (Hne & _) & _). by destruct (str_text _). }
    rewrite Hne, add_unknown by done. cbn [snd].
    rewrite not_eos_window by (first [congruence | rewrite Hw1; unfold fields_text; by destruct (concat _)]).
    destruct (IH fuel (ring_insert_tail h g) st1) as (gs & h' & st' & E & Hs & Ha & Hm & Hfr & Hr & He');
      [simpl in Hfuel; lia|done|done|congruence|done|].
    exists (g :: gs), h', st'. split_and!; [done| |done| | |done|done].
    + rewrite Hs. unfold sec_fields, ring_insert_tail. simpl. by rewrite map_app, <-app_assoc.
    + cbn [map]. by rewrite Htx, Hm.
    + by constructor.
Qed.

(** C36: a header section generated into a stream with room for it is parsed back field
    by field: the fields appended to the section the parser fills have, in order, the
    names and values of the generated ones, and the reader stops right after the empty
    line.  Names and values are such that a single line can hold them, and the text after
    the section does not start with a space or a tab. *)
Theorem apt_header_section_roundtrip (h h0 : apt_header_section_t) (st rd : apt_text_stream_t)
    (rest : bytes) :
  Forall field_ok (sec_fields h) -> arr_size h0 <= UNKNOWN_HEADER_FIELD_ID ->
  stream_wf st -> addressable st ->
  (st_pos st + (length (fields_text (sec_fields h)) + 2) < st_end st)%nat ->
  exists st', apt_header_section_generate h st = Some (true, st') /\
    (window rd = emitted st st' ++ rest -> apt_text_is_wsp (deref rest) = false ->
     st_eos rd = false ->
     exists gs h' rd', apt_header_section_parse h0 rd = (true, h', rd') /\
       sec_fields h' = sec_fields h0 ++ gs /\
       map field_texts gs = map field_texts (sec_fields h) /\ window rd' = rest).
Proof.
  intros Hok Hsz W Ad Hroom.
  destruct (section_generate_writes h _ (le_n _) st W Ad Hroom) as (st' & E & Hem).
  exists st'. split; [done|]. intros Hrd Hwsp He.
  rewrite (emits_emitted _ _ _ W Hem), <-app_assoc in Hrd.
  destruct (section_parse_fields (sec_fields h) rest (S (length (window rd))) h0 rd)
    as (gs & h' & rd' & Ep & Hs & _ & Hm & _ & Hr & _); try done.
  - rewrite Hrd, length_app. simpl.
    enough (length (sec_fields h) <= length (fields_text (sec_fields h)))%nat by lia.
    clear. induction (sec_fields h) as [|f l IH]; [done|]. unfold fields_text in *. simpl.
    rewrite length_app, field_line_length. lia.
  - exists gs, h', rd'. done.
Qed.

Lemma sample_section_fields_ok : Forall field_ok (sec_fields sample_section).
Proof.
  repeat constructor; try done; try decide_now; intros c r [= <- <-]; done.
Qed.

Lemma apt_header_section_roundtrip_witness :
  exists st', apt_header_section_generate sample_section sample_stream = Some (true, st') /\
    let rd := stream_of_str (str_of (emitted sample_stream st' ++ lit "body")) in
    exists gs h' rd', apt_header_section_parse apt_header_section_init rd = (true, h', rd') /\
       sec_fields h' = gs /\
       map field_texts gs = map field_texts (sec_fields sample_section) /\ window rd' = lit "body".
Proof.
  destruct (apt_header_section_generate sample_section sample_stream) as [[b st']|] eqn:E;
    [|vm_compute in E; discriminate E].
  destruct (apt_header_section_roundtrip sample_section apt_header_section_init sample_stream
     (stream_of_str (str_of (emitted sample_stream st' ++ lit "body"))) (lit "body")
     sample_section_fields_ok) as (st2 & E2 & H).
  - vm_compute. intros H. discriminate H.
  - unfold stream_wf. simpl. lia.
  - unfold addressable. simpl. lia.
  - vm_compute. lia.
  - rewrite E in E2. injection E2 as -> ->. exists st2. split; [reflexivity|].
    apply H; [|reflexivity|reflexivity].
    unfold stream_of_str, window, from_pos. simpl.
    rewrite Nat.sub_0_r. apply take_ge. lia.
Defined.

Lemma line_scan_crlf (l rest : bytes) (n : nat) :
  no_eol l -> line_scan (l ++ CR :: LF :: rest) n = Some (n + length l, n + length l + 2)%nat.
Proof.
  revert n. induction l as [|c l IH]; intros n Hl; simpl.
  - by rewrite Nat.add_0_r.
  - apply no_eol_cons in Hl as (H1 & H2 & Hl). rewrite !char_eqb_ne by done.
    rewrite IH by done. by rewrite <-!Nat.add_assoc.
Qed.

(** One folded line. *)
Lemma folded_line (n : nat) (st : apt_text_stream_t) (l rest : bytes) :
  window st = SP :: l ++ CR :: LF :: rest -> no_eol l ->
  apt_text_is_wsp (deref (l ++ [CR])) = false -> apt_text_is_wsp (deref rest) = false ->
  exists line st', folded_lines (S n) st = ([line], st') /\ str_text line = l /\
    window st' = rest /\ st_eos st' = st_eos st.
Proof.
  intros Hw Hl Hwl Hwr. cbn [folded_lines]. rewrite Hw. cbn [apt_text_is_wsp].
  change (apt_text_is_wsp SP) with true. cbv iota.
  set (st1 := set_pos (st_pos st + 1) st).
  assert (Hw1 : window st1 = l ++ CR :: LF :: rest) by (unfold st1; by rewrite window_advance, Hw).
  assert (He1 : st_eos st1 = st_eos st) by done. clearbody st1.
  assert (Hskip : apt_text_white_spaces_skip st1 = set_pos (st_pos st1 + length (@nil char)) st1).
  { apply skip_while_eq with (b := l ++ CR :: LF :: rest); [done|by constructor|].
    intros c b' E. destruct l as [|d l]; simpl in *; injection E as <- _; done. }
  rewrite Hskip. cbn [length]. rewrite Nat.add_0_r.
  replace (set_pos (st_pos st1) st1) with st1 by (by destruct st1).
  unfold apt_text_line_read. rewrite Hw1, line_scan_crlf, !Nat.add_0_l by done.
  rewrite folded_lines_none.
  - eexists _, _. split_and!; [reflexivity| | |done].
    + rewrite sub_str_text by (rewrite Hw1, length_app; lia).
      rewrite Hw1, drop_0. apply take_app_length.
    + rewrite window_advance, Hw1, drop_app_add' by done. done.
  - rewrite window_advance, Hw1, drop_app_add' by done. done.
Qed.

(** The empty line that ends a header section is read like a field whose value may be
    folded: when the text after it starts with a space, its first line is taken for a
    folded value and lost, and the reader stops one line too late. *)
Theorem header_section_swallows_folded_body (h : apt_header_section_t) (l rest : bytes)
    (rd : apt_text_stream_t) :
  window rd = [CR; LF] ++ SP :: l ++ [CR; LF] ++ rest -> no_eol l ->
  apt_text_is_wsp (deref (l ++ [CR])) = false -> apt_text_is_wsp (deref rest) = false ->
  exists rd', apt_header_section_parse h rd = (true, h, rd') /\ window rd' = rest.
Proof.
  intros Hw Hl Hwl Hwr. unfold apt_header_section_parse. cbn [section_parse_loop].
  unfold apt_header_field_parse. rewrite (header_read_blank rd _ Hw). cbn [negb].
  assert (Hw2 : window (set_pos (st_pos rd + 2) rd) = SP :: l ++ CR :: LF :: rest)
    by (by rewrite window_advance, Hw).
  rewrite Hw2. cbn [length].
  destruct (folded_line (length (l ++ CR :: LF :: rest)) _ l rest Hw2 Hl Hwl Hwr)
    as (line & st' & -> & _ & Hw' & _).
  by exists st'.
Qed.

Lemma header_section_swallows_folded_body_witness :
  exists rd', apt_header_section_parse apt_header_section_init
                (stream_of_str (str_of ([CR; LF] ++ SP :: lit "one" ++ [CR; LF] ++ lit "two")))
              = (true, apt_header_section_init, rd') /\ window rd' = lit "two".
Proof.
  apply (header_section_swallows_folded_body apt_header_section_init (lit "one") (lit "two"));
    [reflexivity | split; decide_now | reflexivity | reflexivity].
Defined.

(** * Readers only advance *)

(** The text stays as it is and the position moves forward. *)
Definition advances (st st' : apt_text_stream_t) : Prop :=
  st_mem st' = st_mem st /\ st_base st' = st_base st /\ st_text_len st' = st_text_len st /\
  st_end st' = st_end st /\ (st_pos st <= st_pos st')%nat /\ (stream_wf st -> stream_wf st').

#[global] Instance advances_preorder : PreOrder advances.
Proof.
  split; [intros st; by split_and!|].
  intros s1 s2 s3 (M1 & B1 & L1 & E1 & P1 & W1) (M2 & B2 & L2 & E2 & P2 & W2).
  unfold advances. split_and!; congruence || lia || auto.
Qed.

Lemma advances_set_pos (n : nat) (st : apt_text_stream_t) :
  (n <= length (window st))%nat -> advances st (set_pos (st_pos st + n) st).
Proof. intros. split_and!; simpl; try done; [lia|]. intros. by apply stream_wf_advance. Qed.

Lemma span_length (p : char -> bool) (w : bytes) : (length (fst (span p w)) <= length w)%nat.
Proof.
  induction w as [|c w IH]; [done|]. cbn [span]. destruct (p c); [|simpl; lia].
  destruct (span p w). simpl in *. lia.
Qed.

Lemma skip_while_advances (p : char -> bool) (st : apt_text_stream_t) : advances st (skip_while p st).
Proof. apply advances_set_pos, span_length. Qed.

Lemma header_scan_length (w : bytes) (p : nat) nb (nl : nat) vb nb' nl' vb' vl (k : nat) :
  header_scan w p nb nl vb = (nb', nl', vb', vl, Some k) -> (k <= p + length w)%nat.
Proof.
  revert p nb nl vb. induction w as [|c w IH]; intros p nb nl vb; [done|]. cbn [header_scan length].
  destruct (char_eqb c CR).
  { destruct w as [|c' w']; [intros [= _ _ _ _ <-]; simpl; lia|].
    destruct (char_eqb c' LF); intros [= _ _ _ _ <-]; simpl; lia. }
  destruct (char_eqb c LF); [intros [= _ _ _ _ <-]; lia|].
  destruct (nl =? 0)%nat; intros H%IH; lia.
Qed.

Lemma line_read_advances (st : apt_text_stream_t) : advances st (snd (apt_text_line_read st)).
Proof.
  unfold apt_text_line_read. pose proof (line_scan_spec (window st) 0) as H.
  destruct (line_scan _ _) as [[n k]|]; [|by split_and!]. apply advances_set_pos.
  destruct H as (l & eol & rest & -> & _ & _ & -> & ->). rewrite !length_app. lia.
Qed.

Lemma header_read_advances (st : apt_text_stream_t) : advances st (snd (apt_text_header_read st)).
Proof.
  unfold apt_text_header_read.
  destruct (header_scan _ _ _ _ _) as [[[[nb nl] vb] vl] [k|]] eqn:E; [|by split_and!].
  apply advances_set_pos. by apply header_scan_length in E.
Qed.

Lemma folded_lines_advances (n : nat) (st : apt_text_stream_t) :
  advances st (snd (folded_lines n st)).
Proof.
  revert st. induction n as [|n IH]; intros st; [done|]. cbn [folded_lines].
  destruct (window st) as [|c w] eqn:Ew; [done|]. destruct (apt_text_is_wsp c); [|done].
  set (st1 := apt_text_white_spaces_skip _).
  assert (H1 : advances st st1).
  { etrans; [apply (advances_set_pos 1); rewrite Ew; simpl; lia|apply skip_while_advances]. }
  pose proof (line_read_advances st1) as H2.
  destruct (apt_text_line_read st1) as [[ok l] st2]. specialize (IH st2).
  destruct (folded_lines n st2) as [ls st3]. cbn [snd] in *. by rewrite H1, H2.
Qed.

Lemma field_parse_advances (st : apt_text_stream_t) : advances st (snd (apt_header_field_parse st)).
Proof.
  unfold apt_header_field_parse. pose proof (header_read_advances st) as H1.
  destruct (apt_text_header_read st) as [[[] p] st1]; cbn [negb snd] in *; [|done].
  pose proof (folded_lines_advances (length (window st1)) st1) as H2.
  destruct (folded_lines _ st1) as [ls st2]. cbn [snd] in *. by rewrite H1.
Qed.

Lemma section_loop_advances (fuel : nat) (h : apt_header_section_t) (st : apt_text_stream_t) :
  advances st (snd (section_parse_loop fuel h st)).
Proof.
  revert h st. induction fuel as [|n IH]; intros h st; [done|]. cbn [section_parse_loop].
  pose proof (field_parse_advances st) as H1. destruct (apt_header_field_parse st) as [[f|] st1];
    cbn [snd] in H1.
  - destruct (apt_string_is_empty _); [done|]. destruct (apt_text_is_eos st1); [done|].
    by rewrite H1, <-IH.
  - destruct (apt_text_is_eos st1); [done|]. by rewrite H1, <-IH.
Qed.

Lemma section_loop_wf (fuel : nat) (h : apt_header_section_t) (st : apt_text_stream_t) :
  section_wf h -> section_wf (snd (fst (section_parse_loop fuel h st))).
Proof.
  revert h st. induction fuel as [|n IH]; intros h st W; [done|]. cbn [section_parse_loop].
  destruct (apt_header_field_parse st) as [[f|] st1] eqn:E.
  - destruct (apt_string_is_empty _); [done|].
    assert (W1 : section_wf (snd (apt_header_section_field_add h f))).
    { apply section_add_wf; [done|]. revert E. unfold apt_header_field_parse.
      destruct (apt_text_header_read st) as [[[] p] st2]; [|done]. cbn [negb].
      destruct (folded_lines _ st2) as [ls st3]. intros [= <- _]. split; done. }
    destruct (apt_text_is_eos st1); [done|]. by apply IH.
  - destruct (apt_text_is_eos st1); [done|]. by apply IH.
Qed.

(** A reader that consumed something is past the start of the memory. *)
Lemma advances_pos (st st' : apt_text_stream_t) :
  advances st st' -> (length (window st') < length (window st))%nat -> (0 < st_pos st')%nat.
Proof.
  intros (M & _ & _ & E & P & _) Hl. destruct (st_pos st') eqn:Ep; [|lia].
  assert (st_pos st = 0%nat) by lia. unfold window, from_pos in Hl. rewrite M, E, Ep in Hl.
  rewrite H in Hl. lia.
Qed.
