(* ===== verification/StartLine.v ===== *)
(** The start line of MRCP messages
    ([libs/mrcp/message/include/mrcp_start_line.h], [src/mrcp_start_line.c]):
    request, response and event lines of MRCPv1 and MRCPv2, parsed from and
    generated into text streams, and the message length of MRCPv2, which is
    written into the start line once the whole message has been generated. *)

From S2P Require Import Prelude AptString TextStream TextValues.

(** * Data *)

Inductive mrcp_version_e := MRCP_VERSION_UNKNOWN | MRCP_VERSION_1 | MRCP_VERSION_2.

Inductive mrcp_request_state_e :=
| MRCP_REQUEST_STATE_COMPLETE
| MRCP_REQUEST_STATE_INPROGRESS
| MRCP_REQUEST_STATE_PENDING
| MRCP_REQUEST_STATE_UNKNOWN.

Inductive mrcp_message_type_e :=
| MRCP_MESSAGE_TYPE_UNKNOWN
| MRCP_MESSAGE_TYPE_REQUEST
| MRCP_MESSAGE_TYPE_RESPONSE
| MRCP_MESSAGE_TYPE_EVENT.

#[global] Instance mrcp_version_eq_dec : EqDecision mrcp_version_e.
Proof. solve_decision. Defined.
#[global] Instance mrcp_request_state_eq_dec : EqDecision mrcp_request_state_e.
Proof. solve_decision. Defined.
#[global] Instance mrcp_message_type_eq_dec : EqDecision mrcp_message_type_e.
Proof. solve_decision. Defined.

(** Status codes are parsed from any number, so they are the values of the
    underlying unsigned type. *)
Definition MRCP_STATUS_CODE_UNKNOWN : Z := 0.
Definition MRCP_STATUS_CODE_SUCCESS : Z := 200.
Definition MRCP_STATUS_CODE_SUCCESS_WITH_IGNORE : Z := 201.
Definition MRCP_STATUS_CODE_METHOD_NOT_ALLOWED : Z := 401.
Definition MRCP_STATUS_CODE_METHOD_NOT_VALID : Z := 402.
Definition MRCP_STATUS_CODE_UNSUPPORTED_PARAM : Z := 403.
Definition MRCP_STATUS_CODE_MISSING_PARAM : Z := 406.
Definition MRCP_STATUS_CODE_METHOD_FAILED : Z := 407.
Definition MRCP_STATUS_CODE_UNRECOGNIZED_MESSAGE : Z := 408.

Definition version_number (v : mrcp_version_e) : Z :=
  match v with MRCP_VERSION_UNKNOWN => 0 | MRCP_VERSION_1 => 1 | MRCP_VERSION_2 => 2 end.

Definition request_state_id (s : mrcp_request_state_e) : Z :=
  match s with
  | MRCP_REQUEST_STATE_COMPLETE => 0
  | MRCP_REQUEST_STATE_INPROGRESS => 1
  | MRCP_REQUEST_STATE_PENDING => 2
  | MRCP_REQUEST_STATE_UNKNOWN => 3
  end.
Definition request_state_of_id (z : Z) : mrcp_request_state_e :=
  if z =? 0 then MRCP_REQUEST_STATE_COMPLETE
  else if z =? 1 then MRCP_REQUEST_STATE_INPROGRESS
  else if z =? 2 then MRCP_REQUEST_STATE_PENDING
  else MRCP_REQUEST_STATE_UNKNOWN.
Definition MRCP_REQUEST_STATE_COUNT : Z := 3.

Record mrcp_start_line_t := mk_start_line {
  message_type : mrcp_message_type_e;
  version : mrcp_version_e;
  length_ : Z;                      (** message length; an offset while generating *)
  request_id : Z;
  method_name : apt_str_t;
  method_id : Z;
  status_code : Z;
  request_state : mrcp_request_state_e
}.

#[global] Instance eta_start_line : Eta mrcp_start_line_t := fun s =>
  mk_start_line (message_type s) (version s) (length_ s) (request_id s) (method_name s)
    (method_id s) (status_code s) (request_state s).

Definition MRCP_NAME : bytes := lit "MRCP".
Definition MAX_DIGIT_COUNT : nat := 6.

Definition mrcp_request_state_string_table : list apt_str_table_item_t :=
  [ item "COMPLETE" 8 0; item "IN-PROGRESS" 11 0; item "PENDING" 7 0 ].

(** * Parsing *)

(** Reads two bytes after the protocol name, whatever the length of the field. *)
Definition mrcp_version_parse (field : apt_str_t) : mrcp_version_e :=
  if (str_len field <=? length MRCP_NAME)%nat
     || negb (strncasecmp_eq (str_mem field) MRCP_NAME (length MRCP_NAME))
  then MRCP_VERSION_UNKNOWN
  else
    let pos := drop (length MRCP_NAME) (str_mem field) in
    if char_eqb (deref pos) "/"%char then
      if char_eqb (deref (tail pos)) "1"%char then MRCP_VERSION_1
      else if char_eqb (deref (tail pos)) "2"%char then MRCP_VERSION_2
      else MRCP_VERSION_UNKNOWN
    else MRCP_VERSION_UNKNOWN.

Definition mrcp_request_state_parse (field : apt_str_t) : mrcp_request_state_e :=
  request_state_of_id
    (apt_string_table_id_find mrcp_request_state_string_table MRCP_REQUEST_STATE_COUNT field).

Definition mrcp_status_code_parse (field : apt_str_t) : Z := u32 (apt_size_value_parse field).

(** [atol] converted to the 32-bit request identifier. *)
Definition mrcp_request_id_parse (field : apt_str_t) : Z :=
  match str_buf field with Some m => u32 (atol m) | None => 0 end.

(** The next field separated by spaces. *)
Definition field_sp (st : apt_text_stream_t) : bool * apt_str_t * apt_text_stream_t :=
  apt_text_field_read st SP true.

Definition mrcp_request_line_parse (sl : mrcp_start_line_t) (st : apt_text_stream_t)
    : bool * mrcp_start_line_t :=
  let '(ok, field, st) := field_sp st in
  if negb ok then (false, sl) else
  let sl := sl <| request_id := mrcp_request_id_parse field |> in
  let '(ok, field, st) := field_sp st in
  if negb ok then (false, sl) else
  let sl := sl <| request_state := mrcp_request_state_parse field |> in
  let '(ok, field, sl) :=
    if decide (request_state sl = MRCP_REQUEST_STATE_UNKNOWN) then
      (true, field, sl <| message_type := MRCP_MESSAGE_TYPE_REQUEST |>)
    else
      let sl := sl <| message_type := MRCP_MESSAGE_TYPE_EVENT |> in
      let '(ok, field, _) := field_sp st in (ok, field, sl) in
  if negb ok then (false, sl) else
  let sl := sl <| version := mrcp_version_parse field |> in
  (negb (bool_decide (version sl = MRCP_VERSION_UNKNOWN)), sl).

Definition mrcp_response_line_parse (sl : mrcp_start_line_t) (st : apt_text_stream_t)
    : bool * mrcp_start_line_t :=
  let sl := sl <| length_ := 0 |> in
  let '(ok, sl, st) :=
    if decide (version sl = MRCP_VERSION_2) then
      let '(ok, field, st) := field_sp st in
      if ok then (true, sl <| length_ := apt_size_value_parse field |>, st)
      else (false, sl, st)
    else (true, sl, st) in
  if negb ok then (false, sl) else
  let '(ok, field, st) := field_sp st in
  if negb ok then (false, sl) else
  let sl := sl <| request_id := mrcp_request_id_parse field |> in
  let '(ok, field, st) := field_sp st in
  if negb ok then (false, sl) else
  let sl := sl <| status_code := mrcp_status_code_parse field |> in
  let '(ok, field, st) := field_sp st in
  if negb ok then (false, sl) else
  (true, sl <| request_state := mrcp_request_state_parse field |>).

(** A second field that is not a number makes the line a request or an event. *)
Definition mrcp_v2_start_line_parse (sl : mrcp_start_line_t) (st : apt_text_stream_t)
    : bool * mrcp_start_line_t :=
  let '(ok, field, st) := field_sp st in
  if negb ok then (false, sl) else
  let sl := sl <| length_ := apt_size_value_parse field |> in
  let '(ok, field, st) := field_sp st in
  if negb ok then (false, sl) else
  let sl := sl <| request_id := mrcp_request_id_parse field |> in
  if (request_id sl =? 0) && negb (char_eqb (deref (str_mem field)) "0"%char) then
    let sl := sl <| message_type := MRCP_MESSAGE_TYPE_REQUEST |>
                 <| method_name := apt_string_copy field |> in
    let '(ok, field, st) := field_sp st in
    if negb ok then (false, sl) else
    let sl := sl <| request_id := mrcp_request_id_parse field |> in
    let '(ok, field, st) := field_sp st in
    if ok then
      (true, sl <| request_state := mrcp_request_state_parse field |>
                <| message_type := MRCP_MESSAGE_TYPE_EVENT |>)
    else (true, sl)
  else
    let sl := sl <| message_type := MRCP_MESSAGE_TYPE_RESPONSE |> in
    let '(ok, field, st) := field_sp st in
    if negb ok then (false, sl) else
    let sl := sl <| status_code := mrcp_status_code_parse field |> in
    let '(ok, field, st) := field_sp st in
    if negb ok then (false, sl) else
    (true, sl <| request_state := mrcp_request_state_parse field |>).

(** [method_id] is not initialised. *)
Definition mrcp_start_line_init (sl : mrcp_start_line_t) : mrcp_start_line_t :=
  sl <| message_type := MRCP_MESSAGE_TYPE_UNKNOWN |>
     <| version := MRCP_VERSION_UNKNOWN |>
     <| length_ := 0 |>
     <| request_id := 0 |>
     <| method_name := apt_string_reset |>
     <| status_code := MRCP_STATUS_CODE_UNKNOWN |>
     <| request_state := MRCP_REQUEST_STATE_UNKNOWN |>.

Definition mrcp_start_line_parse (sl : mrcp_start_line_t) (str : apt_str_t)
    : bool * mrcp_start_line_t :=
  let sl := sl <| message_type := MRCP_MESSAGE_TYPE_UNKNOWN |> in
  let '(ok, field, line) := field_sp (stream_of_str str) in
  if negb ok then (false, sl) else
  if starts_with (str_mem field) MRCP_NAME then
    let sl := sl <| version := mrcp_version_parse field |> in
    match version sl with
    | MRCP_VERSION_1 =>
        mrcp_response_line_parse (sl <| message_type := MRCP_MESSAGE_TYPE_RESPONSE |>) line
    | MRCP_VERSION_2 => mrcp_v2_start_line_parse sl line
    | MRCP_VERSION_UNKNOWN => (false, sl)
    end
  else
    mrcp_request_line_parse (sl <| method_name := apt_string_copy field |>) line.

(** * Generation *)

Section Generate.
Context `{Apr}.

Definition mrcp_request_id_generate (id : Z) : prog apt_text_stream_t bool :=
  snprintf_insert (dec_signed (s32 id)).

Definition mrcp_version_generate (v : mrcp_version_e) : prog apt_text_stream_t bool :=
  let* full := gets (no_room (length MRCP_NAME + 1)) in
  if full then ret false else
  put MRCP_NAME ;;;
  put ["/"%char] ;;;
  let* ok := apt_text_size_value_insert (version_number v) in
  if negb ok then ret false else
  let* full := gets (no_room 2) in
  if full then ret false else
  put ["."%char] ;;; put ["0"%char] ;;; ret true.

(** No bound is checked; a state outside the table writes nothing. *)
Definition mrcp_request_state_generate (s : mrcp_request_state_e)
    : prog apt_text_stream_t bool :=
  let name := apt_string_table_str_get mrcp_request_state_string_table
                MRCP_REQUEST_STATE_COUNT (request_state_id s) in
  if request_state_id s <? MRCP_REQUEST_STATE_COUNT then
    let* n := deref_ptr name in put (str_data n) ;;; ret true
  else ret true.

Definition mrcp_status_code_generate (code : Z) : prog apt_text_stream_t bool :=
  apt_text_size_value_insert code.

Definition mrcp_request_line_generate (sl : mrcp_start_line_t) : prog apt_text_stream_t bool :=
  put (str_data (method_name sl)) ;;;
  put [SP] ;;;
  mrcp_request_id_generate (request_id sl) ;;;
  put [SP] ;;;
  (match message_type sl with
   | MRCP_MESSAGE_TYPE_REQUEST =>
       if status_code sl =? MRCP_STATUS_CODE_UNKNOWN then ret tt
       else mrcp_status_code_generate (status_code sl) ;;; put [SP]
   | MRCP_MESSAGE_TYPE_EVENT =>
       mrcp_request_state_generate (request_state sl) ;;; put [SP]
   | _ => ret tt
   end) ;;;
  mrcp_version_generate (version sl) ;;;
  ret true.

Definition mrcp_response_line_generate (sl : mrcp_start_line_t) : prog apt_text_stream_t bool :=
  mrcp_version_generate (version sl) ;;;
  put [SP] ;;;
  mrcp_request_id_generate (request_id sl) ;;;
  put [SP] ;;;
  mrcp_status_code_generate (status_code sl) ;;;
  put [SP] ;;;
  mrcp_request_state_generate (request_state sl) ;;;
  ret true.

(** What follows the message length in an MRCPv2 start line. *)
Definition v2_tail_generate (sl : mrcp_start_line_t) : prog apt_text_stream_t unit :=
  if decide (message_type sl = MRCP_MESSAGE_TYPE_RESPONSE) then
    mrcp_request_id_generate (request_id sl) ;;;
    put [SP] ;;;
    mrcp_status_code_generate (status_code sl) ;;;
    put [SP] ;;;
    mrcp_request_state_generate (request_state sl) ;;;
    ret tt
  else
    put (str_data (method_name sl)) ;;;
    put [SP] ;;;
    mrcp_request_id_generate (request_id sl) ;;;
    if decide (message_type sl = MRCP_MESSAGE_TYPE_EVENT) then
      put [SP] ;;; mrcp_request_state_generate (request_state sl) ;;; ret tt
    else ret tt.

(** Room for the message length is reserved; its offset is kept in [length]. *)
Definition mrcp_v2_start_line_generate (sl : mrcp_start_line_t)
    : prog apt_text_stream_t (bool * mrcp_start_line_t) :=
  let* pos := gets st_pos in
  mrcp_version_generate (version sl) ;;;
  put [SP] ;;;
  let* now := gets st_pos in
  let sl := sl <| length_ := Z.of_nat now - Z.of_nat pos |> in
  put (replicate (MAX_DIGIT_COUNT + 1) SP) ;;;
  v2_tail_generate sl ;;;
  ret (true, sl).

Definition mrcp_start_line_generate (sl : mrcp_start_line_t)
    : prog apt_text_stream_t (bool * mrcp_start_line_t) :=
  let* r :=
    match version sl with
    | MRCP_VERSION_1 =>
        match message_type sl with
        | MRCP_MESSAGE_TYPE_REQUEST =>
            let* b := mrcp_request_line_generate sl in ret (b, sl)
        | MRCP_MESSAGE_TYPE_RESPONSE =>
            let* b := mrcp_response_line_generate sl in ret (b, sl)
        | MRCP_MESSAGE_TYPE_EVENT =>
            let* b := mrcp_request_line_generate sl in ret (b, sl)
        | MRCP_MESSAGE_TYPE_UNKNOWN => ret (false, sl)
        end
    | MRCP_VERSION_2 => mrcp_v2_start_line_generate sl
    | MRCP_VERSION_UNKNOWN => ret (false, sl)
    end in
  let '(status, sl) := r in
  if status then let* b := apt_text_eol_insert in ret (b, sl)
  else ret (false, sl).

End Generate.

(** Store at an absolute offset of the allocation, undefined outside of it. *)
Definition store_at (off : Z) (d : bytes) : prog apt_text_stream_t unit := fun st =>
  if (0 <=? off) && (off + Z.of_nat (length d) <=? Z.of_nat (length (st_mem st)))
  then Some (tt, set_mem (overwrite (st_mem st) (Z.to_nat off) d) st)
  else None.

(** [n] bytes of the allocation from an absolute offset. *)
Definition load_at (off n : Z) (st : apt_text_stream_t) : bytes :=
  mread (drop (Z.to_nat off) (st_mem st)) (Z.to_nat n).

(** [memmove] of the first [len] bytes of the text by [n], where the text then
    starts. *)
Definition move_text_start (base n len : Z) : prog apt_text_stream_t unit :=
  let* st := gets (fun st => st) in
  store_at (base + n) (load_at base len st) ;;;
  modify (fun st => mk_stream (st_mem st) (Z.to_nat (base + n))
    (Z.to_nat (u64 (Z.of_nat (st_text_len st) - n)))
    (st_pos st) (st_end st) (st_eos st)).

(** Writes the length of the whole message into the space reserved for it and
    moves what precedes it up, so that the message starts a few bytes later. *)
Definition mrcp_start_line_finalize (sl : mrcp_start_line_t) (content_length : Z)
    : prog apt_text_stream_t (bool * mrcp_start_line_t) :=
  let* st := gets (fun st => st) in
  let base := Z.of_nat (st_base st) in
  let length := u64 (Z.of_nat (st_pos st) - base + content_length) in
  if decide (version sl = MRCP_VERSION_2) then
    let field := base + length_ sl in
    let length := u64 (length - Z.of_nat MAX_DIGIT_COUNT) in
    let '(ok, length, digits) :=
      apt_var_length_value_generate length (Z.of_nat MAX_DIGIT_COUNT) in
    if negb ok then ret (false, sl) else
    let field_length := Z.of_nat (List.length digits) in
    store_at field (digits ++ [NUL]) ;;;
    store_at (field + field_length) [SP] ;;;
    let sl := sl <| length_ := u64 (length_ sl + field_length) |> in
    let field_length := Z.of_nat MAX_DIGIT_COUNT - field_length in
    (if field_length =? 0 then ret tt
     else move_text_start base field_length (length_ sl)) ;;;
    ret (true, sl <| length_ := length |>)
  else ret (true, sl <| length_ := length |>).

(** * The text of start lines *)

Definition version_text (v : mrcp_version_e) : bytes :=
  MRCP_NAME ++ ["/"%char] ++ dec (version_number v) ++ ["."%char] ++ ["0"%char].
Definition request_id_text (id : Z) : bytes := dec_signed (s32 id).
Definition request_state_text (s : mrcp_request_state_e) : bytes :=
  match s with
  | MRCP_REQUEST_STATE_COMPLETE => lit "COMPLETE"
  | MRCP_REQUEST_STATE_INPROGRESS => lit "IN-PROGRESS"
  | MRCP_REQUEST_STATE_PENDING => lit "PENDING"
  | MRCP_REQUEST_STATE_UNKNOWN => []
  end.

Section Writers.
Context `{L : AprLaws}.

Lemma dec_signed_nonempty (n : Z) : dec_signed n <> [].
Proof. unfold dec_signed. destruct (n <? 0); [done|apply dec_nonempty]. Qed.


Lemma version_text_length v : length (version_text v) = 8%nat.
Proof. by destruct v. Qed.
#[local] Hint Rewrite version_text_length : mrcp.

Lemma version_generate_writes (v : mrcp_version_e) (n : nat) :
  (8 <= n)%nat -> writes (mrcp_version_generate v) true (version_text v) n.
Proof.
  intros Hn. assert (Hd : length (dec (version_number v)) = 1%nat) by (by destruct v).
  unfold mrcp_version_generate, apt_text_size_value_insert.
  writes_with ltac:(apply writes_snprintf; [apply dec_nonempty|]).
  all: rewrite ?Hd; simpl; lia.
Qed.

Lemma request_id_generate_writes (id : Z) (n : nat) :
  (length (request_id_text id) <= n)%nat ->
  writes (mrcp_request_id_generate id) true (request_id_text id) n.
Proof. intros. apply writes_snprintf; [apply dec_signed_nonempty|done]. Qed.

Lemma status_code_generate_writes (c : Z) (n : nat) :
  (length (dec c) <= n)%nat -> writes (mrcp_status_code_generate c) true (dec c) n.
Proof. intros. apply writes_snprintf; [apply dec_nonempty|done]. Qed.

Lemma request_state_generate_writes (s : mrcp_request_state_e) (n : nat) :
  (length (request_state_text s) <= n)%nat ->
  writes (mrcp_request_state_generate s) true (request_state_text s) n.
Proof.
  intros H.
  assert (E : s = MRCP_REQUEST_STATE_UNKNOWN \/
              mrcp_request_state_generate s = (put (request_state_text s) ;;; ret true))
    by (by destruct s; auto).
  destruct E as [->| ->]; [apply writes_ret|].
  by writes_with ltac:(fail).
Qed.

(** The start line as generated, without its end of line; the message length of
    MRCPv2 is still blank. *)
Definition v2_tail_text (sl : mrcp_start_line_t) : bytes :=
  if decide (message_type sl = MRCP_MESSAGE_TYPE_RESPONSE) then
    request_id_text (request_id sl) ++ [SP] ++ dec (status_code sl) ++ [SP] ++
    request_state_text (request_state sl)
  else
    str_data (method_name sl) ++ [SP] ++ request_id_text (request_id sl) ++
    (if decide (message_type sl = MRCP_MESSAGE_TYPE_EVENT)
     then [SP] ++ request_state_text (request_state sl) else []).

Definition v1_request_text (sl : mrcp_start_line_t) : bytes :=
  str_data (method_name sl) ++ [SP] ++ request_id_text (request_id sl) ++ [SP] ++
  (match message_type sl with
   | MRCP_MESSAGE_TYPE_REQUEST =>
       if status_code sl =? MRCP_STATUS_CODE_UNKNOWN then []
       else dec (status_code sl) ++ [SP]
   | MRCP_MESSAGE_TYPE_EVENT => request_state_text (request_state sl) ++ [SP]
   | _ => []
   end) ++ version_text (version sl).

Definition v1_response_text (sl : mrcp_start_line_t) : bytes :=
  version_text (version sl) ++ [SP] ++ request_id_text (request_id sl) ++ [SP] ++
  dec (status_code sl) ++ [SP] ++ request_state_text (request_state sl).

Definition v2_head_text : bytes := version_text MRCP_VERSION_2 ++ [SP].

Definition start_line_text (sl : mrcp_start_line_t) : bytes :=
  match version sl with
  | MRCP_VERSION_2 => v2_head_text ++ replicate (MAX_DIGIT_COUNT + 1) SP ++ v2_tail_text sl
  | _ => if decide (message_type sl = MRCP_MESSAGE_TYPE_RESPONSE)
         then v1_response_text sl else v1_request_text sl
  end.

Ltac line_leaf :=
  first [ apply version_generate_writes | apply request_id_generate_writes
        | apply status_code_generate_writes | apply request_state_generate_writes
        | apply writes_eol ]; text_length.

Lemma request_line_writes (sl : mrcp_start_line_t) (n : nat) :
  (length (v1_request_text sl) <= n)%nat ->
  writes (mrcp_request_line_generate sl) true (v1_request_text sl) n.
Proof.
  unfold v1_request_text, mrcp_request_line_generate. intros H.
  rewrite !length_app, version_text_length, str_data_length in H. simpl in H.
  destruct (message_type sl); [|destruct (status_code sl =? _)| |]; rewrite ?length_app in H; simpl in H.
  all: writes_with line_leaf.
Qed.

Lemma response_line_writes (sl : mrcp_start_line_t) (n : nat) :
  (length (v1_response_text sl) <= n)%nat ->
  writes (mrcp_response_line_generate sl) true (v1_response_text sl) n.
Proof.
  unfold v1_response_text, mrcp_response_line_generate. intros H.
  rewrite !length_app, version_text_length in H. simpl in H.
  writes_with line_leaf.
Qed.

(** The part of the MRCPv2 line after the reserved message length. *)
Lemma v2_tail_writes (sl : mrcp_start_line_t) (n : nat) :
  (length (v2_tail_text sl) <= n)%nat ->
  writes (v2_tail_generate sl) tt (v2_tail_text sl) n.
Proof.
  unfold v2_tail_text, v2_tail_generate. intros H. destruct (decide (message_type sl = MRCP_MESSAGE_TYPE_RESPONSE)).
  - rewrite !length_app in H. simpl in H. writes_with line_leaf.
  - destruct (decide (message_type sl = MRCP_MESSAGE_TYPE_EVENT));
      rewrite !length_app, str_data_length in H; simpl in H; writes_with line_leaf.
Qed.

Lemma v2_start_line_writes (sl : mrcp_start_line_t) (n : nat) :
  version sl = MRCP_VERSION_2 -> (length (start_line_text sl) <= n)%nat ->
  writes (mrcp_v2_start_line_generate sl) (true, sl <| length_ := 9 |>) (start_line_text sl) n.
Proof.
  unfold start_line_text. intros Hv Hn. rewrite Hv in *. intros st W Ad Hr.
  rewrite !length_app in Hn. simpl in Hn.
  set (sl9 := sl <| length_ := 9 |>).
  assert (Hk : writes (mrcp_version_generate (version sl) ;;; put [SP]) tt v2_head_text n).
  { rewrite Hv. writes_with line_leaf. }
  destruct (Hk st W Ad Hr) as (s1 & E1 & M1).
  assert (Ht : writes (put (replicate (MAX_DIGIT_COUNT + 1) SP) ;;; v2_tail_generate sl9 ;;; ret (true, sl9))
                 (true, sl9) (replicate (MAX_DIGIT_COUNT + 1) SP ++ v2_tail_text sl) (n - 9)).
  { writes_with ltac:(first [apply (v2_tail_writes sl9)|line_leaf]); simpl; try lia. all: change (v2_tail_text sl9) with (v2_tail_text sl); lia. }
  destruct (Ht s1) as (s2 & E2 & M2).
  - eauto with mrcp.
  - eauto with mrcp.
  - rewrite (emits_pos _ _ _ M1), (emits_end _ _ _ M1). simpl. lia.
  - exists s2. split; [|by eapply emits_app].
    unfold mrcp_v2_start_line_generate. unfold bind in *. unfold gets at 1.
    destruct (mrcp_version_generate (version sl) st) as [[? s0]|]; [|done].
    rewrite E1. unfold gets.
    replace (Z.of_nat (st_pos s1) - Z.of_nat (st_pos st)) with 9.
    2:{ rewrite (emits_pos _ _ _ M1). simpl. lia. }
    exact E2.
Qed.

Lemma start_line_writes (sl : mrcp_start_line_t) (n : nat) :
  version sl <> MRCP_VERSION_UNKNOWN -> message_type sl <> MRCP_MESSAGE_TYPE_UNKNOWN ->
  (length (start_line_text sl) + 2 <= n)%nat ->
  writes (mrcp_start_line_generate sl)
    (true, if decide (version sl = MRCP_VERSION_2) then sl <| length_ := 9 |> else sl)
    (start_line_text sl ++ [CR; LF]) n.
Proof.
  intros Hv Ht Hn. unfold mrcp_start_line_generate.
  eapply writes_bind with (a := (true, if decide (version sl = MRCP_VERSION_2)
                                       then sl <| length_ := 9 |> else sl)); [|lia|].
  - destruct (version sl) eqn:Ev; [done| |].
    + rewrite decide_False by done. unfold start_line_text in *. rewrite Ev in *.
      destruct (message_type sl) eqn:Em; [done|..]; (destruct (decide _); [done||idtac|done||idtac]);
        (eapply writes_text; [|apply app_nil_r]);
        (eapply writes_bind; [first [apply request_line_writes|apply response_line_writes]; lia
                             |lia|apply writes_ret]).
    + rewrite decide_True by done. apply v2_start_line_writes; [done|lia].
  - cbv beta iota. writes_with line_leaf.
Qed.
End Writers.

(** * The message length of MRCPv2 *)

Lemma overwrite_mid (a x c d : bytes) (i : nat) :
  i = length a -> length x = length d -> overwrite (a ++ x ++ c) i d = a ++ d ++ c.
Proof.
  intros -> E. unfold overwrite. rewrite take_app_length. f_equal. f_equal.
  rewrite drop_app_add', <-E, drop_app_length; done.
Qed.

Lemma store_at_mid (a x c d : bytes) (off : Z) (st : apt_text_stream_t) :
  st_mem st = a ++ x ++ c -> off = Z.of_nat (length a) -> length x = length d ->
  store_at off d st = Some (tt, set_mem (a ++ d ++ c) st).
Proof.
  intros Hm -> Hl. unfold store_at. rewrite Hm, !length_app.
  destruct (_ && _) eqn:E; [|blia]. by rewrite Nat2Z.id, (overwrite_mid a x c d).
Qed.

Lemma load_at_mid (a x c : bytes) (off n : Z) (st : apt_text_stream_t) :
  st_mem st = a ++ x ++ c -> off = Z.of_nat (length a) -> n = Z.of_nat (length x) ->
  load_at off n st = x.
Proof.
  intros Hm -> ->. unfold load_at, mread. rewrite Hm, !Nat2Z.id, drop_app_length.
  rewrite <-app_assoc. apply take_app_length.
Qed.

(** The message text of a stream. *)
Definition message_text (st : apt_text_stream_t) : bytes :=
  drop (st_base st) (take (st_pos st) (st_mem st)).

Lemma message_text_eq (st : apt_text_stream_t) (pre txt post : bytes) :
  st_mem st = pre ++ txt ++ post -> st_base st = length pre ->
  st_pos st = (length pre + length txt)%nat -> message_text st = txt.
Proof.
  intros Hm Hb Hp. unfold message_text. rewrite Hm, Hp, app_assoc.
  rewrite take_app_length' by (by rewrite length_app). by rewrite Hb, drop_app_length.
Qed.

(** Moving the [Y] in front of [j] spaces up over them. *)
Lemma shift_up (s2 : apt_text_stream_t) (pre Y tl : bytes) (j : nat) (len : Z) :
  st_mem s2 = pre ++ Y ++ [SP] ++ replicate j SP ++ tl -> len = Z.of_nat (length Y) ->
  (j <= length Y)%nat ->
  exists junk, length junk = j /\ move_text_start (Z.of_nat (length pre)) (Z.of_nat j) len s2
  = Some (tt, mk_stream ((pre ++ junk) ++ Y ++ [SP] ++ tl) (length pre + j)
      (Z.to_nat (u64 (Z.of_nat (st_text_len s2) - Z.of_nat j)))
      (st_pos s2) (st_end s2) (st_eos s2)).
Proof.
  intros Hm -> Hj. set (Z0 := Y ++ replicate j SP).
  assert (HZ : length Z0 = (length Y + j)%nat)
    by (unfold Z0; rewrite length_app, length_replicate; lia).
  exists (take j Z0). split; [rewrite length_take; lia|].
  unfold move_text_start, bind, gets, modify. rewrite (load_at_mid pre Y _ _ _ _ Hm) by done.
  assert (HsZ : st_mem s2 = (pre ++ take j Z0) ++ drop j Z0 ++ [SP] ++ tl).
  { rewrite Hm, <-(app_assoc pre), (app_assoc (take j Z0)), take_drop. unfold Z0.
    rewrite <-!app_assoc. f_equal. f_equal. cbn [app].
    rewrite (app_comm_cons _ _ SP), <-replicate_S, replicate_S_end, <-app_assoc. done. }
  rewrite (store_at_mid _ _ _ _ _ _ HsZ); cycle 1.
  { rewrite length_app, length_take. lia. }
  { rewrite length_drop. lia. }
  simpl. by replace (Z.to_nat (Z.of_nat (length pre) + Z.of_nat j)) with (length pre + j)%nat by lia.
Qed.

Lemma finalize_v2 (st : apt_text_stream_t) (sl : mrcp_start_line_t) (pre body post : bytes) (c : Z) :
  version sl = MRCP_VERSION_2 -> length_ sl = 9 ->
  st_mem st = pre ++ (v2_head_text ++ replicate (MAX_DIGIT_COUNT + 1) SP ++ body) ++ post ->
  st_base st = length pre -> st_pos st = (length pre + 16 + length body)%nat ->
  0 <= c -> Z.of_nat (length body) + 10 + c < 10 ^ 18 ->
  exists n,
    n = Z.of_nat (length (v2_head_text ++ dec n ++ [SP] ++ body)) + c /\
    if Z.of_nat MAX_DIGIT_COUNT <? Z.of_nat (length (dec n)) then
      mrcp_start_line_finalize sl c st = Some (false, sl, st)
    else
      exists st', mrcp_start_line_finalize sl c st = Some (true, sl <| length_ := n |>, st') /\
        message_text st' = v2_head_text ++ dec n ++ [SP] ++ body /\
        st_pos st' = st_pos st /\ st_end st' = st_end st /\ st_eos st' = st_eos st /\
        length (st_mem st') = length (st_mem st) /\
        (Z.of_nat MAX_DIGIT_COUNT <= Z.of_nat (st_text_len st) < 2 ^ 64 ->
         (st_base st' + st_text_len st' = st_base st + st_text_len st)%nat).
Proof.
  intros Hv Hl Hm Hb Hp Hc Hlt.
  destruct (apt_var_length_value_spec (Z.of_nat (length body) + 10 + c) 6) as (n & Hn & E); [lia|].
  exists n. split.
  { rewrite !length_app. simpl. lia. }
  assert (Hg : u64 (u64 (Z.of_nat (st_pos st) - Z.of_nat (st_base st) + c) - 6) =
               Z.of_nat (length body) + 10 + c).
  { rewrite (u64_small (Z.of_nat (st_pos st) - _ + c)) by lia. rewrite u64_small; lia. }
  unfold mrcp_start_line_finalize. change (Z.of_nat MAX_DIGIT_COUNT) with 6.
  destruct (Z.ltb_spec 6 (Z.of_nat (length (dec n)))) as [Hgt|Hle];
    unfold bind at 1, gets at 1; cbv beta iota; rewrite decide_True, Hg, E by done; [done|].
  cbn [negb]. cbv beta iota. cbn [length_]. rewrite Hl, Hb.
  set (k := length (dec n)) in *.
  assert (Hk1 : (1 <= k)%nat) by (destruct (dec_length n ltac:(lia)) as (Hd & _); fold k in Hd; lia).
  assert (Hsp : replicate (MAX_DIGIT_COUNT + 1) SP = replicate (k + 1) SP ++ replicate (6 - k) SP).
  { rewrite <-replicate_add. f_equal. unfold MAX_DIGIT_COUNT. lia. }
  unfold bind at 1. rewrite (store_at_mid (pre ++ v2_head_text) (replicate (k + 1) SP)
    (replicate (6 - k) SP ++ body ++ post)); cycle 1.
  { by rewrite Hm, Hsp, <-!app_assoc. }
  { rewrite length_app. simpl. lia. }
  { rewrite length_app, length_replicate. done. }
  unfold bind at 1. rewrite (store_at_mid (pre ++ v2_head_text ++ dec n) [NUL]
    (replicate (6 - k) SP ++ body ++ post)); cycle 1.
  { simpl. by rewrite <-!app_assoc. }
  { rewrite !length_app. simpl. lia. }
  { done. }
  set (s2 := set_mem _ _). set (Y := v2_head_text ++ dec n).
  assert (HY : length Y = (9 + k)%nat) by (unfold Y; rewrite length_app; done).
  assert (HY2 : v2_head_text ++ dec n ++ [SP] ++ body = Y ++ [SP] ++ body)
    by (unfold Y; by rewrite <-!app_assoc).
  assert (Hs2 : st_mem s2 = pre ++ (Y ++ SP :: replicate (6 - k) SP) ++ body ++ post).
  { simpl. by rewrite <-!app_assoc. }
  rewrite HY2. clearbody Y.
  destruct (Z.eqb_spec (6 - Z.of_nat k) 0) as [H6|H6].
  - exists s2. unfold bind, ret. split_and!; [done| |done..| |simpl; lia].
    + apply (message_text_eq s2 pre _ post); [|done|].
      * rewrite Hs2. replace (6 - k)%nat with 0%nat by lia. by rewrite <-!app_assoc.
      * simpl. rewrite Hp, !length_app. simpl. lia.
    + rewrite Hs2, Hm, !length_app. simpl. rewrite length_replicate. lia.
  - set (j := (6 - k)%nat) in *.
    assert (Hj : 6 - Z.of_nat k = Z.of_nat j) by lia. rewrite Hj.
    destruct (shift_up s2 pre Y (body ++ post) j (u64 (9 + Z.of_nat k))) as (junk & Hjunk & Esh).
    { rewrite Hs2. by rewrite <-!app_assoc. }
    { rewrite u64_small; lia. }
    { lia. }
    cbn [length_ field_set] in Esh |- *. unfold bind at 1. rewrite Esh.
    eexists. split; [reflexivity|]. split_and!; [|done..| |].
    + apply (message_text_eq _ (pre ++ junk) _ post); simpl.
      * by rewrite <-!app_assoc.
      * by rewrite length_app, Hjunk.
      * rewrite Hp, !length_app, Hjunk, HY. simpl. lia.
    + rewrite Hm. cbn [st_mem]. repeat rewrite ?length_app, ?HY, ?Hjunk, ?length_cons, ?length_replicate.
      change (length v2_head_text) with 9%nat. simpl. lia.
    + cbn [st_base st_text_len set_mem s2]. unfold MAX_DIGIT_COUNT. intros Htl.
      rewrite u64_small by lia. lia.
Qed.

(** * Reading the words of a start line *)

Definition token (w : bytes) : Prop := w <> [] /\ SP ∉ w.

(** Words separated by single spaces. *)
Fixpoint join (ws : list bytes) : bytes :=
  match ws with [] => [] | [w] => w | w :: ws' => w ++ SP :: join ws' end.

(** The stream has the words [ws] left to read, and what follows the line in
    memory does not continue a number. *)
Record reads (st : apt_text_stream_t) (ws : list bytes) : Prop := {
  reads_wf : stream_wf st;
  reads_window : window st = join ws;
  reads_tokens : Forall token ws;
  reads_stops : stops (beyond st)
}.

Lemma reads_nil (st : apt_text_stream_t) :
  reads st [] -> exists f st', field_sp st = (false, f, st').
Proof.
  intros [W Hw _ _].
  destruct (apt_text_field_read_eq st SP [] [] []) as (f & st' & E & _); try done.
  - by apply not_elem_of_nil.
  - by exists f, st'.
Qed.

Lemma reads_cons (st : apt_text_stream_t) (w : bytes) (ws : list bytes) :
  reads st (w :: ws) ->
  exists f st' follow, field_sp st = (true, f, st') /\ str_text f = w /\ str_wf f /\
    str_buf f = Some (w ++ follow) /\ stops follow /\ (ws <> [] -> deref follow = SP) /\
    reads st' ws.
Proof.
  intros [W Hw Ht Hs]. inversion Ht as [|?? [Hne Hsp] Ht']; subst.
  set (rest := match ws with [] => [] | _ => SP :: join ws end).
  assert (Hw' : window st = [] ++ w ++ rest).
  { rewrite Hw. unfold rest. destruct ws; simpl; [by rewrite app_nil_r|done]. }
  assert (Hrest : forall c r, rest = c :: r -> c = SP).
  { unfold rest. destruct ws; [done|]. by intros c r [= -> _]. }
  destruct (apt_text_field_read_eq st SP [] w rest) as (f & st' & E & Hf & Wf & Hb & Hw2 & W2 & Hby & _);
    try done.
  { intros c r Hc ->. destruct w as [|d w]; [done|]. injection Hc as -> _.
    apply Hsp. by left. }
  exists f, st', (rest ++ beyond st). split_and!; try done.
  - rewrite (proj2 (Nat.eqb_neq (length w) 0)) in E; [done|by destruct w].
  - unfold rest. by destruct ws.
  - unfold rest. by destruct ws.
  - split; [done| |done|by rewrite Hby]. rewrite Hw2. unfold rest. by destruct ws.
Qed.

(** One field of a line. *)
Ltac read_word H f Ht Wf Hb Hs Hsp :=
  let st' := fresh "st" in let fl := fresh "follow" in let E := fresh "E" in
  let H' := fresh "Hr" in
  apply reads_cons in H as (f & st' & fl & E & Ht & Wf & Hb & Hs & Hsp & H');
  rewrite E; clear E; cbn [negb]; rename H' into H.

(** ** What the fields mean *)

Lemma request_id_parse_text (f : apt_str_t) (id : Z) (follow : bytes) :
  0 <= id < 2 ^ 32 -> str_buf f = Some (request_id_text id ++ follow) -> stops follow ->
  mrcp_request_id_parse f = id.
Proof.
  intros Hid Hb Hs. unfold mrcp_request_id_parse, request_id_text in *. rewrite Hb.
  pose proof (s32_range id). rewrite atol_dec_signed by (done || lia). by apply u32_s32.
Qed.

Lemma size_parse_text (f : apt_str_t) (n : Z) (follow : bytes) :
  0 <= n < 2 ^ 63 -> str_buf f = Some (dec n ++ follow) -> stops follow ->
  apt_size_value_parse f = n.
Proof.
  intros Hn Hb Hs. unfold apt_size_value_parse. rewrite Hb, atol_dec, u64_small; (done || lia).
Qed.

Lemma status_code_parse_text (f : apt_str_t) (c : Z) (follow : bytes) :
  0 <= c < 2 ^ 32 -> str_buf f = Some (dec c ++ follow) -> stops follow ->
  mrcp_status_code_parse f = c.
Proof.
  intros Hn Hb Hs. unfold mrcp_status_code_parse.
  rewrite (size_parse_text f c follow), u32_small; (done || lia).
Qed.

Lemma request_state_table_ok :
  table_ok mrcp_request_state_string_table MRCP_REQUEST_STATE_COUNT = true.
Proof. by vm_compute. Qed.

Lemma request_state_parse_text (f : apt_str_t) (s : mrcp_request_state_e) :
  str_wf f -> s <> MRCP_REQUEST_STATE_UNKNOWN -> str_text f = request_state_text s ->
  mrcp_request_state_parse f = s.
Proof.
  intros Wf Hs Hf. unfold mrcp_request_state_parse.
  rewrite id_find_first_index by (done || apply request_state_table_ok).
  unfold first_index. rewrite Hf. by destruct s.
Qed.

Lemma request_state_parse_version (f : apt_str_t) (v : mrcp_version_e) :
  str_wf f -> str_text f = version_text v ->
  mrcp_request_state_parse f = MRCP_REQUEST_STATE_UNKNOWN.
Proof.
  intros Wf Hf. unfold mrcp_request_state_parse.
  rewrite id_find_first_index by (done || apply request_state_table_ok).
  unfold first_index. rewrite Hf. by destruct v.
Qed.

Lemma version_parse_text (f : apt_str_t) (v : mrcp_version_e) (follow : bytes) :
  str_wf f -> str_text f = version_text v -> str_buf f = Some (version_text v ++ follow) ->
  mrcp_version_parse f = v.
Proof.
  intros Wf Hf Hb. unfold mrcp_version_parse, str_mem. rewrite Hb.
  unfold str_wf in Wf. rewrite <-Wf, Hf. by destruct v.
Qed.

Lemma starts_with_token (m r pat : bytes) :
  SP ∉ pat -> starts_with (m ++ SP :: r) pat = true -> starts_with m pat = true.
Proof.
  revert m. induction pat as [|p pat IH]; intros m Hp; [done|].
  apply not_elem_of_cons in Hp as [Hne Hp]. simpl.
  destruct m as [|c m]; simpl.
  - by rewrite char_eqb_ne by congruence.
  - intros [-> H]%andb_true_iff. by rewrite IH.
Qed.

(** A method name starts with a byte that is neither a digit, a sign nor space. *)
Definition method_head (c : char) : bool :=
  negb (isspace c || isdigit c || char_eqb c "-"%char || char_eqb c "+"%char).

Lemma atol_method (c : char) (r : bytes) : method_head c = true -> atol (c :: r) = 0.
Proof.
  unfold method_head. rewrite negb_true_iff, !orb_false_iff. intros [[[H1 H2] H3] H4].
  unfold atol. simpl. rewrite H1. simpl.
  destruct (char_eqb_spec c "-"%char); [done|]. destruct (char_eqb_spec c "+"%char); [done|].
  assert (E : (match c :: r with
               | "-"%char :: s' => (true, s') | "+"%char :: s' => (false, s')
               | _ => (false, c :: r) end) = (false, c :: r)).
  { destruct c as [[] [] [] [] [] [] [] []]; done. }
  rewrite E. simpl. rewrite H2. done.
Qed.

(** * Start lines: what is generated is parsed back *)

Definition method_ok (m : apt_str_t) : Prop :=
  str_wf m /\ token (str_text m) /\ method_head (deref (str_text m)) = true /\
  starts_with (str_text m) MRCP_NAME = false.

(** A start line that can be put on the wire. *)
Record start_line_ok (sl : mrcp_start_line_t) : Prop := {
  ok_request_id : 0 <= request_id sl < 2 ^ 32;
  ok_status_code : 0 <= status_code sl < 2 ^ 32;
  ok_version : version sl <> MRCP_VERSION_UNKNOWN;
  ok_type : message_type sl <> MRCP_MESSAGE_TYPE_UNKNOWN;
  ok_method : message_type sl <> MRCP_MESSAGE_TYPE_RESPONSE -> method_ok (method_name sl);
  ok_state : message_type sl <> MRCP_MESSAGE_TYPE_REQUEST ->
             request_state sl <> MRCP_REQUEST_STATE_UNKNOWN;
  ok_v1_request : version sl = MRCP_VERSION_1 -> message_type sl = MRCP_MESSAGE_TYPE_REQUEST ->
                  status_code sl = MRCP_STATUS_CODE_UNKNOWN
}.

(** The words of the line on the wire, with message length [n] in MRCPv2. *)
Definition start_line_words (sl : mrcp_start_line_t) (n : Z) : list bytes :=
  let id := request_id_text (request_id sl) in
  let code := dec (status_code sl) in
  let st := request_state_text (request_state sl) in
  let m := str_text (method_name sl) in
  let v := version_text (version sl) in
  match version sl, message_type sl with
  | MRCP_VERSION_2, MRCP_MESSAGE_TYPE_RESPONSE => [v; dec n; id; code; st]
  | MRCP_VERSION_2, MRCP_MESSAGE_TYPE_EVENT => [v; dec n; m; id; st]
  | MRCP_VERSION_2, _ => [v; dec n; m; id]
  | _, MRCP_MESSAGE_TYPE_RESPONSE => [v; id; code; st]
  | _, MRCP_MESSAGE_TYPE_EVENT => [m; id; st; v]
  | _, _ => [m; id; v]
  end.

(** Equality of what a start line of the given type carries. *)
Definition start_line_same (a b : mrcp_start_line_t) : Prop :=
  message_type a = message_type b /\ version a = version b /\ request_id a = request_id b /\
  (message_type a <> MRCP_MESSAGE_TYPE_RESPONSE ->
     str_text (method_name a) = str_text (method_name b)) /\
  (message_type a = MRCP_MESSAGE_TYPE_RESPONSE -> status_code a = status_code b) /\
  (message_type a <> MRCP_MESSAGE_TYPE_REQUEST -> request_state a = request_state b).

Lemma starts_with_app (pat r : bytes) : starts_with (pat ++ r) pat = true.
Proof. induction pat as [|p pat IH]; simpl; [done|]. by rewrite char_eqb_refl, IH. Qed.

Lemma version_starts (v : mrcp_version_e) (r : bytes) :
  starts_with (version_text v ++ r) MRCP_NAME = true.
Proof. apply (starts_with_app MRCP_NAME). Qed.

Lemma method_not_mrcp (m : apt_str_t) (follow : bytes) :
  method_ok m -> deref follow = SP -> starts_with (str_text m ++ follow) MRCP_NAME = false.
Proof.
  intros (_ & _ & _ & Hm) Hf. destruct follow as [|c r]; [discriminate Hf|]. simpl in Hf. subst c.
  apply not_true_is_false. intros E.
  rewrite (starts_with_token _ _ MRCP_NAME ltac:(decide_now) E) in Hm. done.
Qed.

Lemma method_not_number (m : apt_str_t) (f : apt_str_t) (follow : bytes) :
  method_ok m -> str_buf f = Some (str_text m ++ follow) ->
  mrcp_request_id_parse f = 0 /\ deref (str_mem f) <> "0"%char.
Proof.
  intros (_ & [Hne _] & Hm & _) Hb. unfold mrcp_request_id_parse, str_mem. rewrite Hb.
  destruct (str_text m) as [|c r]; [done|]. simpl in *. rewrite atol_method by done.
  split; [done|]. by intros ->.
Qed.

Lemma number_not_method (f : apt_str_t) (id : Z) (follow : bytes) :
  0 <= id < 2 ^ 32 -> str_buf f = Some (request_id_text id ++ follow) ->
  mrcp_request_id_parse f = id ->
  (mrcp_request_id_parse f =? 0) && negb (char_eqb (deref (str_mem f)) "0"%char) = false.
Proof.
  intros Hid Hb ->. destruct (Z.eqb_spec id 0) as [->|]; [|done].
  unfold str_mem. by rewrite Hb.
Qed.

(** Evaluate updates and fields of start lines. *)
Ltac sl_cbv :=
  cbv beta iota zeta delta [field_set message_type version length_ request_id method_name
    method_id status_code request_state].

Section Parse.
#[local] Opaque field_sp.
Variables (sl : mrcp_start_line_t) (str : apt_str_t) (n : Z).
Hypothesis Hok : start_line_ok sl.
Hypothesis Hn : 0 <= n < 2 ^ 63.
Hypothesis Hr : reads (stream_of_str str) (start_line_words sl n).

Definition line_agrees (sl' : mrcp_start_line_t) : Prop :=
  start_line_same sl sl' /\ (version sl = MRCP_VERSION_2 -> length_ sl' = n) /\
  (message_type sl <> MRCP_MESSAGE_TYPE_RESPONSE -> str_wf (method_name sl')).
Definition parsed (sl0 : mrcp_start_line_t) : Prop :=
  exists sl', mrcp_start_line_parse sl0 str = (true, sl') /\ line_agrees sl'.

(** The parsed line carries what the line was made of. *)
Ltac parsed_line :=
  eexists; split; [reflexivity|]; unfold line_agrees, start_line_same; simpl;
  rewrite ?apt_string_copy_text; split_and!; intros;
  first [done|congruence|by apply apt_string_copy_wf].

Lemma parse_v1_request :
  version sl = MRCP_VERSION_1 -> message_type sl <> MRCP_MESSAGE_TYPE_RESPONSE -> forall sl0, parsed sl0.
Proof.
  intros Ev Et [t0 v0 l0 i0 m0 mi0 c0 s0]. unfold start_line_words in Hr. pose proof (ok_method sl Hok Et) as Hm.
  pose proof (ok_request_id sl Hok) as Hid.
  unfold parsed, mrcp_start_line_parse. rewrite Ev in Hr.
  destruct (message_type sl) eqn:Em; [by destruct (ok_type sl Hok)| |done|].
  - read_word Hr f1 T1 W1 B1 S1 P1. unfold str_mem.
    rewrite B1, method_not_mrcp by (done || by apply P1). unfold mrcp_request_line_parse.
    read_word Hr f2 T2 W2 B2 S2 P2. read_word Hr f3 T3 W3 B3 S3 P3. sl_cbv.
    rewrite (request_id_parse_text f2 _ _ Hid B2 S2).
    rewrite (request_state_parse_version f3 _ W3 T3). simpl.
    rewrite (version_parse_text f3 _ _ W3 T3 B3). parsed_line.
  - assert (Hs : request_state sl <> MRCP_REQUEST_STATE_UNKNOWN)
      by (apply (ok_state sl Hok); congruence).
    read_word Hr f1 T1 W1 B1 S1 P1. unfold str_mem.
    rewrite B1, method_not_mrcp by (done || by apply P1). unfold mrcp_request_line_parse.
    read_word Hr f2 T2 W2 B2 S2 P2. read_word Hr f3 T3 W3 B3 S3 P3.
    read_word Hr f4 T4 W4 B4 S4 P4. sl_cbv.
    rewrite (request_id_parse_text f2 _ _ Hid B2 S2).
    rewrite (request_state_parse_text f3 _ W3 Hs T3). rewrite decide_False by done.
    rewrite (version_parse_text f4 _ _ W4 T4 B4). parsed_line.
Qed.

Lemma parse_v1_response :
  version sl = MRCP_VERSION_1 -> message_type sl = MRCP_MESSAGE_TYPE_RESPONSE -> forall sl0, parsed sl0.
Proof.
  intros Ev Em [t0 v0 l0 i0 m0 mi0 c0 s0]. unfold start_line_words in Hr. rewrite Ev, Em in Hr.
  unfold parsed, mrcp_start_line_parse.
  read_word Hr f1 T1 W1 B1 S1 P1. unfold str_mem. rewrite B1, version_starts.
  rewrite (version_parse_text f1 _ _ W1 T1 B1).
  unfold mrcp_response_line_parse. sl_cbv. rewrite decide_False by done. cbn [negb].
  read_word Hr f2 T2 W2 B2 S2 P2. read_word Hr f3 T3 W3 B3 S3 P3. read_word Hr f4 T4 W4 B4 S4 P4.
  rewrite (request_id_parse_text f2 _ _ (ok_request_id sl Hok) B2 S2).
  rewrite (status_code_parse_text f3 _ _ (ok_status_code sl Hok) B3 S3).
  rewrite (request_state_parse_text f4 (request_state sl) W4); [|apply (ok_state sl Hok); congruence|done].
  parsed_line.
Qed.

Lemma parse_v2_response :
  version sl = MRCP_VERSION_2 -> message_type sl = MRCP_MESSAGE_TYPE_RESPONSE -> forall sl0, parsed sl0.
Proof.
  intros Ev Em [t0 v0 l0 i0 m0 mi0 c0 s0]. unfold start_line_words in Hr. rewrite Ev, Em in Hr.
  unfold parsed, mrcp_start_line_parse.
  read_word Hr f1 T1 W1 B1 S1 P1. unfold str_mem. rewrite B1, version_starts.
  rewrite (version_parse_text f1 _ _ W1 T1 B1).
  unfold mrcp_v2_start_line_parse. sl_cbv.
  read_word Hr f2 T2 W2 B2 S2 P2. read_word Hr f3 T3 W3 B3 S3 P3.
  pose proof (request_id_parse_text f3 _ _ (ok_request_id sl Hok) B3 S3) as Hid.
  rewrite (number_not_method f3 _ _ (ok_request_id sl Hok) B3 Hid).
  read_word Hr f4 T4 W4 B4 S4 P4. read_word Hr f5 T5 W5 B5 S5 P5.
  rewrite (size_parse_text f2 _ _ Hn B2 S2), Hid.
  rewrite (status_code_parse_text f4 _ _ (ok_status_code sl Hok) B4 S4).
  rewrite (request_state_parse_text f5 (request_state sl) W5); [|apply (ok_state sl Hok); congruence|done].
  parsed_line.
Qed.

Lemma parse_v2_request :
  version sl = MRCP_VERSION_2 -> message_type sl <> MRCP_MESSAGE_TYPE_RESPONSE -> forall sl0, parsed sl0.
Proof.
  intros Ev Et [t0 v0 l0 i0 m0 mi0 c0 s0]. unfold start_line_words in Hr. rewrite Ev in Hr.
  pose proof (ok_method sl Hok Et) as Hm. unfold parsed, mrcp_start_line_parse.
  destruct (message_type sl) eqn:Em; [by destruct (ok_type sl Hok)| |done|].
  all: read_word Hr f1 T1 W1 B1 S1 P1; unfold str_mem; rewrite B1, version_starts;
    rewrite (version_parse_text f1 _ _ W1 T1 B1);
    unfold mrcp_v2_start_line_parse; sl_cbv;
    read_word Hr f2 T2 W2 B2 S2 P2; read_word Hr f3 T3 W3 B3 S3 P3;
    destruct (method_not_number _ f3 _ Hm B3) as [Hz H0];
    rewrite Hz, (char_eqb_ne _ _ H0); cbn [Z.eqb andb negb];
    read_word Hr f4 T4 W4 B4 S4 P4;
    rewrite (size_parse_text f2 _ _ Hn B2 S2);
    rewrite (request_id_parse_text f4 _ _ (ok_request_id sl Hok) B4 S4).
  - apply reads_nil in Hr as (f5 & st5 & ->). parsed_line.
  - read_word Hr f5 T5 W5 B5 S5 P5.
    rewrite (request_state_parse_text f5 (request_state sl) W5); [|apply (ok_state sl Hok); congruence|done].
    parsed_line.
Qed.

Lemma start_line_parse_words (sl0 : mrcp_start_line_t) : parsed sl0.
Proof.
  destruct (version sl) eqn:Ev; [by destruct (ok_version sl Hok)|..];
    destruct (decide (message_type sl = MRCP_MESSAGE_TYPE_RESPONSE)).
  - by apply parse_v1_response.
  - by apply parse_v1_request.
  - by apply parse_v2_response.
  - by apply parse_v2_request.
Qed.
End Parse.


(** The generated text is made of these words. *)
Lemma start_line_text_v1 (sl : mrcp_start_line_t) (n : Z) :
  start_line_ok sl -> version sl = MRCP_VERSION_1 ->
  start_line_text sl = join (start_line_words sl n).
Proof.
  intros Hok Ev. unfold start_line_text, start_line_words, v1_response_text, v1_request_text.
  rewrite Ev. destruct (message_type sl) eqn:Em; [by destruct (ok_type sl Hok)|..]; simpl.
  - rewrite (ok_v1_request sl Hok Ev Em). simpl.
    rewrite str_data_text by (apply (ok_method sl Hok); congruence). done.
  - done.
  - rewrite str_data_text by (apply (ok_method sl Hok); congruence).
    by rewrite <-!app_assoc.
Qed.

Lemma start_line_text_v2 (sl : mrcp_start_line_t) (n : Z) :
  start_line_ok sl -> version sl = MRCP_VERSION_2 ->
  v2_head_text ++ dec n ++ [SP] ++ v2_tail_text sl = join (start_line_words sl n).
Proof.
  intros Hok Ev. unfold v2_head_text, v2_tail_text, start_line_words. rewrite Ev.
  destruct (message_type sl) eqn:Em; [by destruct (ok_type sl Hok)|..];
    rewrite ?decide_True, ?decide_False by done; cbn [join]; rewrite <-!app_assoc.
  - rewrite str_data_text by (apply (ok_method sl Hok); congruence).
    by rewrite app_nil_r.
  - done.
  - by rewrite str_data_text by (apply (ok_method sl Hok); congruence).
Qed.

Lemma digits_no_space (l : bytes) : Forall (fun c => isdigit c = true) l -> SP ∉ l.
Proof. intros H Hin%list_elem_of_In. rewrite Forall_forall in H. apply H in Hin. done. Qed.

Lemma dec_token (n : Z) : 0 <= n -> token (dec n).
Proof. intros. split; [apply dec_nonempty|by apply digits_no_space, dec_digits]. Qed.

Lemma request_id_token (id : Z) : token (request_id_text id).
Proof.
  unfold request_id_text, dec_signed. destruct (Z.ltb_spec (s32 id) 0); [|apply dec_token; lia].
  split; [done|]. apply not_elem_of_cons. split; [done|].
  apply digits_no_space, dec_digits. lia.
Qed.

Lemma version_token (v : mrcp_version_e) : token (version_text v).
Proof. destruct v; (split; [done|decide_now]). Qed.

Lemma request_state_token (s : mrcp_request_state_e) :
  s <> MRCP_REQUEST_STATE_UNKNOWN -> token (request_state_text s).
Proof. destruct s; intros; (done || (split; [done|decide_now])). Qed.

Lemma start_line_tokens (sl : mrcp_start_line_t) (n : Z) :
  start_line_ok sl -> 0 <= n -> Forall token (start_line_words sl n).
Proof.
  intros Hok Hn. pose proof (ok_status_code sl Hok). unfold start_line_words.
  pose proof (ok_method sl Hok) as Hm. pose proof (ok_state sl Hok) as Hs.
  destruct (version sl); destruct (message_type sl);
    repeat apply Forall_cons; try apply Forall_nil;
    first [ apply version_token | apply request_id_token | apply dec_token; lia
          | by apply request_state_token, Hs | by apply Hm ].
Qed.

Lemma start_line_reads (sl : mrcp_start_line_t) (n : Z) (rest : bytes) :
  start_line_ok sl -> 0 <= n -> stops rest ->
  reads (stream_of_str (mk_str (Some (join (start_line_words sl n) ++ rest))
                               (length (join (start_line_words sl n)))))
        (start_line_words sl n).
Proof.
  intros Hok Hn Hs. set (l := join _). split.
  - apply stream_of_str_wf. unfold str_wf, str_text, str_mem. cbn [str_buf str_len]. by rewrite take_app_length.
  - rewrite stream_of_str_window. unfold str_text, str_mem. cbn [str_buf str_len]. apply take_app_length.
  - by apply start_line_tokens.
  - unfold beyond. cbn -[l]. by rewrite drop_app_length.
Qed.

(** An MRCPv1 request, response or event line generated into a stream with room
    for it, and the end of line after it, is parsed back to the same message type,
    version, request identifier, method name, status code and request state, whatever
    the start line the parser is given to fill. *)
Theorem start_line_v1_roundtrip `{L : AprLaws} (sl sl0 : mrcp_start_line_t)
    (st : apt_text_stream_t) :
  start_line_ok sl -> version sl = MRCP_VERSION_1 ->
  stream_wf st -> addressable st ->
  (st_pos st + (length (start_line_text sl) + 2) < st_end st)%nat ->
  exists st' line, mrcp_start_line_generate sl st = Some (true, sl, st') /\
    emitted st st' = line ++ [CR; LF] /\
    forall rest, exists sl',
      mrcp_start_line_parse sl0 (mk_str (Some (line ++ [CR; LF] ++ rest)) (length line)) = (true, sl') /\
      start_line_same sl sl'.
Proof.
  intros Hok Ev W Ad Hroom.
  destruct (start_line_writes sl _ (ok_version sl Hok) (ok_type sl Hok) (le_n _) st W Ad Hroom)
    as (st' & E & Hem).
  rewrite decide_False in E by (by rewrite Ev).
  exists st', (start_line_text sl). split_and!; [done|by apply emits_emitted|].
  intros rest. rewrite (start_line_text_v1 sl 0 Hok Ev).
  destruct (start_line_parse_words sl _ 0 Hok ltac:(lia)
    (start_line_reads sl 0 ([CR; LF] ++ rest) Hok ltac:(lia) eq_refl) sl0) as (sl' & Ep & Hsame & _).
  by exists sl'.
Qed.

(** A request line for the witness. *)
Definition sample_request : mrcp_start_line_t :=
  mk_start_line MRCP_MESSAGE_TYPE_REQUEST MRCP_VERSION_1 0 4000000000 (str_lit "SPEAK") 3 0
    MRCP_REQUEST_STATE_UNKNOWN.

Lemma method_ok_speak : method_ok (str_lit "SPEAK").
Proof. unfold method_ok, token. split_and!; try done. decide_now. Qed.

Lemma sample_request_ok : start_line_ok sample_request.
Proof. split; simpl; try done; try lia. intros _. apply method_ok_speak. Qed.

Lemma start_line_v1_roundtrip_witness :
  exists st' line, @mrcp_start_line_generate apr_reference sample_request sample_stream
                   = Some (true, sample_request, st') /\
    emitted sample_stream st' = line ++ [CR; LF] /\
    forall rest, exists sl',
      mrcp_start_line_parse sample_request (mk_str (Some (line ++ [CR; LF] ++ rest)) (length line))
        = (true, sl') /\
      start_line_same sample_request sl'.
Proof.
  apply (@start_line_v1_roundtrip apr_reference apr_reference_laws sample_request sample_request
    sample_stream sample_request_ok).
  - reflexivity.
  - unfold stream_wf. simpl. lia.
  - unfold addressable. simpl. lia.
  - vm_compute. lia.
Defined.

Lemma digits_fit (x n : Z) :
  0 <= x < 999993 -> n = x + Z.of_nat (length (dec n)) -> Z.of_nat (length (dec n)) <= 6.
Proof.
  intros Hx Hn. destruct (dec_length n ltac:(lia)) as (H1 & H2 & H3).
  set (l := Z.of_nat (length (dec n))) in *.
  destruct (Z.le_gt_cases l 6) as [|Hgt]; [done|]. exfalso.
  destruct (Z.eq_dec l 7) as [E|Hne].
  - rewrite E in H3. simpl in H3. lia.
  - assert (Hp : 10 ^ (l - 1) = 10 * 10 ^ (l - 2)).
    { rewrite <-Z.pow_succ_r by lia. f_equal. lia. }
    assert (10 ^ 6 <= 10 ^ (l - 2)) by (apply Z.pow_le_mono_r; lia).
    assert (l - 2 < 10 ^ (l - 2)) by (apply Z.pow_gt_lin_r; lia). lia.
Qed.

(** The state of the stream and the start line between the generation of the start
    line and its finalisation: the rest of the message has been written after it. *)
Lemma v2_finalize_generated `{L : AprLaws} (sl : mrcp_start_line_t) (st st2 : apt_text_stream_t)
    (more : bytes) (c : Z) :
  version sl = MRCP_VERSION_2 -> stream_wf st -> st_base st = st_pos st ->
  emits ((start_line_text sl ++ [CR; LF]) ++ more) st st2 -> 0 <= c ->
  Z.of_nat (length (start_line_text sl ++ [CR; LF] ++ more)) + c < 999999 ->
  exists n st3, 0 <= n < 2 ^ 63 /\
    mrcp_start_line_finalize (sl <| length_ := 9 |>) c st2
      = Some (true, sl <| length_ := n |>, st3) /\
    message_text st3 = v2_head_text ++ dec n ++ [SP] ++ v2_tail_text sl ++ [CR; LF] ++ more /\
    n = Z.of_nat (length (message_text st3)) + c /\
    st_pos st3 = st_pos st2 /\ st_end st3 = st_end st2 /\ st_eos st3 = st_eos st2 /\
    length (st_mem st3) = length (st_mem st2) /\
    (Z.of_nat MAX_DIGIT_COUNT <= Z.of_nat (st_text_len st2) < 2 ^ 64 ->
     (st_base st3 + st_text_len st3 = st_base st2 + st_text_len st2)%nat).
Proof.
  intros Ev W Hb Hem Hc Hlt. unfold start_line_text in *. rewrite Ev in *.
  rewrite !length_app, length_replicate in Hlt. change (length v2_head_text) with 9%nat in Hlt.
  set (body := v2_tail_text sl ++ [CR; LF] ++ more).
  assert (Hbody : length body = (length (v2_tail_text sl) + (2 + length more))%nat).
  { unfold body. by rewrite !length_app. }
  destruct (finalize_v2 st2 (sl <| length_ := 9 |>) (take (st_pos st) (st_mem st)) body
              (drop (st_pos st2) (st_mem st2)) c) as (n & Hn & Hf); try done.
  - rewrite <-(take_drop (st_pos st2) (st_mem st2)) at 1.
    destruct Hem as (_ & _ & ->). unfold body. by rewrite <-!app_assoc.
  - destruct Hem as ((_ & -> & _) & _). rewrite length_take. unfold stream_wf in W. lia.
  - rewrite (emits_pos _ _ _ Hem), length_take, Hbody.
    rewrite !length_app, length_replicate. change (length v2_head_text) with 9%nat.
    unfold stream_wf in W. simpl. lia.
  - unfold MAX_DIGIT_COUNT in *. simpl in Hlt. lia.
  - assert (Hn' : n = (Z.of_nat (length body) + 10 + c) + Z.of_nat (length (dec n))).
    { rewrite Hn at 1. rewrite !length_app. simpl. lia. }
    assert (Hx : 0 <= Z.of_nat (length body) + 10 + c < 999993)
      by (unfold MAX_DIGIT_COUNT in *; simpl in Hlt; lia).
    pose proof (digits_fit _ _ Hx Hn') as H6.
    destruct (Z.ltb_spec (Z.of_nat MAX_DIGIT_COUNT) (Z.of_nat (length (dec n))));
      [unfold MAX_DIGIT_COUNT in *; lia|].
    destruct Hf as (st3 & E & Ht & Hrest). exists n, st3.
    split; [unfold MAX_DIGIT_COUNT in *; simpl in Hlt; lia|].
    split; [exact E|]. split; [done|]. split; [by rewrite Ht|exact Hrest].
Qed.

(** The MRCPv2 message length is right.  A start line is generated at the start of a
    message with its length left blank, the rest of the message ([more]) is written after
    it, and the start line is finalised with the length of the content to follow; then the
    message text begins with a line whose length field is exactly the number of bytes of
    the message text plus the content length, and parsing that line gives back the start
    line together with this length. *)
Theorem start_line_v2_roundtrip `{L : AprLaws} (sl sl0 : mrcp_start_line_t)
    (st : apt_text_stream_t) :
  start_line_ok sl -> version sl = MRCP_VERSION_2 ->
  stream_wf st -> addressable st -> st_base st = st_pos st ->
  (st_pos st + (length (start_line_text sl) + 2) < st_end st)%nat ->
  exists sl1 st1, mrcp_start_line_generate sl st = Some (true, sl1, st1) /\
    forall more st2 c, emits more st1 st2 -> 0 <= c ->
    Z.of_nat (length (start_line_text sl ++ [CR; LF] ++ more)) + c < 999999 ->
    exists n st3 line,
      mrcp_start_line_finalize sl1 c st2 = Some (true, sl1 <| length_ := n |>, st3) /\
      message_text st3 = line ++ [CR; LF] ++ more /\
      n = Z.of_nat (length (message_text st3)) + c /\
      exists sl', mrcp_start_line_parse sl0 (mk_str (Some (message_text st3)) (length line)) = (true, sl') /\
        start_line_same sl sl' /\ length_ sl' = n.
Proof.
  intros Hok Ev W Ad Hb Hroom.
  destruct (start_line_writes sl _ (ok_version sl Hok) (ok_type sl Hok) (le_n _) st W Ad Hroom)
    as (st1 & E & Hem1).
  rewrite decide_True in E by done. eexists _, st1. split; [exact E|].
  intros more st2 c Hem2 Hc Hlt.
  destruct (v2_finalize_generated sl st st2 more c) as (n & st3 & Hn & Ef & Ht & Hlen & _); try done.
  { by eapply emits_app. }
  rewrite (app_assoc (dec n)), (app_assoc _ (v2_tail_text sl)), (app_assoc v2_head_text) in Ht.
  rewrite <-(app_assoc (dec n)), start_line_text_v2 in Ht by done.
  exists n, st3, (join (start_line_words sl n)). split_and!; [exact Ef|done|done|].
  rewrite Ht. destruct (start_line_parse_words sl _ n Hok Hn
    (start_line_reads sl n ([CR; LF] ++ more) Hok ltac:(lia) eq_refl) sl0) as (sl' & Ep & Hsame & Hl & _).
  exists sl'. auto.
Qed.

Definition sample_event : mrcp_start_line_t :=
  mk_start_line MRCP_MESSAGE_TYPE_EVENT MRCP_VERSION_2 0 7 (str_lit "SPEAK-COMPLETE") 2 0
    MRCP_REQUEST_STATE_COMPLETE.

Lemma start_line_v2_roundtrip_witness :
  exists sl1 st1,
    @mrcp_start_line_generate apr_reference sample_event sample_stream = Some (true, sl1, st1) /\
    exists n st3 line,
      mrcp_start_line_finalize sl1 20 st1 = Some (true, sl1 <| length_ := n |>, st3) /\
      message_text st3 = line ++ [CR; LF] ++ [] /\
      n = Z.of_nat (length (message_text st3)) + 20.
Proof.
  destruct (@start_line_v2_roundtrip apr_reference apr_reference_laws sample_event sample_event
    sample_stream) as (sl1 & st1 & E & H).
  - split; simpl; try done; try lia. intros _. unfold method_ok, token. split_and!; try done. decide_now.
  - reflexivity.
  - unfold stream_wf. simpl. lia.
  - unfold addressable. simpl. lia.
  - reflexivity.
  - vm_compute. lia.
  - exists sl1, st1. split; [exact E|].
    assert (W : stream_wf st1).
    { assert (W : match @mrcp_start_line_generate apr_reference sample_event sample_stream with
                  | Some (_, s) => stream_wf s | None => False end) by (vm_compute; lia).
      rewrite E in W. exact W. }
    destruct (H [] st1 20 (emits_nil st1 W) ltac:(lia) ltac:(vm_compute; reflexivity))
      as (n & st3 & line & H1 & H2 & H3 & _).
    exists n, st3, line. auto.
Defined.
