(* ===== verification/MrcpHeader.v ===== *)
(** Message headers: accessors, the generic interface of header data, and the
    operations on whole headers
    ([libs/mrcp/message/include/mrcp_header_accessor.h], [mrcp_header.h],
    [src/mrcp_header_accessor.c], [src/mrcp_header.c]).

    A message header pairs a header section (the fields as text) with two
    accessors (the generic header and the header of the resource, as data); a
    field that is added, set or inherited is kept in both. *)

From S2P Require Import Prelude AptString TextStream TextValues HeaderField TextMessage.

(** * Accessors *)

(** The operations on header data of type [D]; the pool and the accessor around
    the data are left out of the signatures.  A generator that writes outside of the
    buffer it allocated has no result. *)
Record mrcp_header_vtable_t (D : Type) := mk_vtable {
  allocate : D;
  parse_field : D -> Z -> apt_str_t -> bool * D;
  generate_field : D -> Z -> apt_str_t -> option (bool * apt_str_t);
  duplicate_field : D -> D -> Z -> apt_str_t -> bool * D;
  field_table : list apt_str_table_item_t;
  field_count : Z
}.
Arguments mk_vtable {D}.
Arguments allocate {D}.
Arguments parse_field {D}.
Arguments generate_field {D}.
Arguments duplicate_field {D}.
Arguments field_table {D}.
Arguments field_count {D}.

Record mrcp_header_accessor_t (D : Type) := mk_accessor {
  data : option D;
  vtable : option (mrcp_header_vtable_t D)
}.
Arguments mk_accessor {D}.
Arguments data {D}.
Arguments vtable {D}.

#[global] Instance eta_accessor (D : Type) : Eta (mrcp_header_accessor_t D) :=
  fun s => mk_accessor (data s) (vtable s).

Section Accessor.
Context {D : Type}.

Definition mrcp_header_accessor_init : mrcp_header_accessor_t D := mk_accessor None None.

Definition mrcp_header_allocate (acc : mrcp_header_accessor_t D) : mrcp_header_accessor_t D :=
  match data acc, vtable acc with
  | Some _, _ | _, None => acc
  | None, Some vt => acc <| data := Some (allocate vt) |>
  end.

(** The identifier of the field is set before its value is parsed and stays set
    when the value is refused.  Parsing into data that was not allocated is a
    NULL dereference. *)
Definition mrcp_header_field_value_parse (acc : mrcp_header_accessor_t D)
    (f : apt_header_field_t) : option (bool * mrcp_header_accessor_t D * apt_header_field_t) :=
  match vtable acc with
  | None => Some (false, acc, f)
  | Some vt =>
      let id := apt_string_table_id_find (field_table vt) (field_count vt) (hf_name f) in
      if field_count vt <=? id then Some (false, acc, f)
      else
        let f := set_hf_id id f in
        if (str_len (hf_value f) =? 0)%nat then Some (true, acc, f)
        else
          match data acc with
          | None => None
          | Some d =>
              let '(ok, d') := parse_field vt d (hf_id f) (hf_value f) in
              Some (ok, acc <| data := Some d' |>, f)
          end
  end.

Definition mrcp_header_field_value_generate (acc : mrcp_header_accessor_t D) (id : Z)
    (empty_value : bool) : option (option apt_header_field_t) :=
  match vtable acc with
  | None => Some None
  | Some vt =>
      let f := apt_header_field_alloc in
      let f := match apt_string_table_str_get (field_table vt) (field_count vt) id with
               | Some name => mk_field name (hf_value f) (hf_id f)
               | None => f
               end in
      if empty_value then Some (Some f)
      else
        match data acc with
        | None => None
        | Some d =>
            let? (ok, v) := generate_field vt d id (hf_value f) in
            Some (if ok : bool then Some (set_hf_value v f) else None)
        end
  end.

(** The duplicate operations refuse data that was not allocated. *)
Definition mrcp_header_field_value_duplicate (acc src : mrcp_header_accessor_t D) (id : Z)
    (value : apt_str_t) : bool * mrcp_header_accessor_t D :=
  match vtable acc with
  | None => (false, acc)
  | Some vt =>
      if (str_len value =? 0)%nat then (true, acc)
      else
        match data acc, data src with
        | Some d, Some s =>
            let '(ok, d') := duplicate_field vt d s id value in
            (ok, acc <| data := Some d' |>)
        | _, _ => (false, acc)
        end
  end.
End Accessor.

(** * Message headers *)

(** [GENERIC_HEADER_COUNT]: resource fields are numbered after the generic ones. *)
Definition GENERIC_HEADER_COUNT : Z := 16.

Record mrcp_message_header_t (G R : Type) := mk_message_header {
  generic_header_accessor : mrcp_header_accessor_t G;
  resource_header_accessor : mrcp_header_accessor_t R;
  header_section : apt_header_section_t
}.
Arguments mk_message_header {G R}.
Arguments generic_header_accessor {G R}.
Arguments resource_header_accessor {G R}.
Arguments header_section {G R}.

#[global] Instance eta_message_header (G R : Type) : Eta (mrcp_message_header_t G R) :=
  fun s => mk_message_header (generic_header_accessor s) (resource_header_accessor s)
             (header_section s).

Record mrcp_channel_id := mk_channel_id {
  session_id : apt_str_t;
  resource_name : apt_str_t
}.

(** The pointer found by identifier and the field it points to. *)
Definition section_lookup (sec : apt_header_section_t) (i : Z)
    : option (addr * apt_header_field_t) :=
  match apt_header_section_field_get sec i with
  | Some a => pair a <$> field_at sec a
  | None => None
  end.

Section Header.
Context {G R : Type}.

Definition mrcp_message_header_init : mrcp_message_header_t G R :=
  mk_message_header mrcp_header_accessor_init mrcp_header_accessor_init apt_header_section_init.

Definition mrcp_message_header_data_alloc (h : mrcp_message_header_t G R)
    (gvt : option (mrcp_header_vtable_t G)) (rvt : option (mrcp_header_vtable_t R))
    : bool * mrcp_message_header_t G R :=
  match gvt, rvt with
  | Some g, Some r =>
      (true, mk_message_header
         (mrcp_header_allocate (mk_accessor None (Some g)))
         (mrcp_header_allocate (mk_accessor None (Some r)))
         (snd (apt_header_section_array_alloc (header_section h) (field_count g + field_count r))))
  | _, _ => (false, h)
  end.

Definition mrcp_message_header_create (gvt : option (mrcp_header_vtable_t G))
    (rvt : option (mrcp_header_vtable_t R)) : mrcp_message_header_t G R :=
  snd (mrcp_message_header_data_alloc mrcp_message_header_init gvt rvt).

(** Parse the value as a resource field, else as a generic one; the identifier is
    that of the last table the name was found in. *)
Definition header_value_parse (h : mrcp_message_header_t G R) (f : apt_header_field_t)
    : option (bool * bool * mrcp_message_header_t G R * apt_header_field_t) :=
  let? (rok, racc, f) := mrcp_header_field_value_parse (resource_header_accessor h) f in
  let h := h <| resource_header_accessor := racc |> in
  if rok : bool then Some (true, false, h, set_hf_id (hf_id f + GENERIC_HEADER_COUNT) f)
  else
    let? (gok, gacc, f) := mrcp_header_field_value_parse (generic_header_accessor h) f in
    Some (false, gok, h <| generic_header_accessor := gacc |>, f).

(** A generic field is added to the section twice; the second result is returned. *)
Definition mrcp_header_field_add (h : mrcp_message_header_t G R) (f : apt_header_field_t)
    : option (bool * mrcp_message_header_t G R) :=
  if apt_string_is_empty (hf_name f) then Some (false, h)
  else
    let? (_, gok, h, f) := header_value_parse h f in
    let h := if gok : bool
             then h <| header_section := snd (apt_header_section_field_add (header_section h) f) |>
             else h in
    let '(status, sec) := apt_header_section_field_add (header_section h) f in
    Some (status, h <| header_section := sec |>).

(** One iteration, for the field at address [a] of the section itself. *)
Definition header_field_parse_at (h : mrcp_message_header_t G R) (a : addr)
    : option (mrcp_message_header_t G R) :=
  match field_at (header_section h) a with
  | None => None
  | Some f =>
      let? (rok, gok, h, f) := header_value_parse h f in
      let sec := field_update (header_section h) a (fun _ => f) in
      let sec := if (rok || gok)%bool then snd (apt_header_section_field_set sec a f) else sec in
      Some (h <| header_section := sec |>)
  end.

Fixpoint header_fields_parse_from (h : mrcp_message_header_t G R) (ring : list addr)
    : option (mrcp_message_header_t G R) :=
  match ring with
  | [] => Some h
  | a :: ring' =>
      let? h := header_field_parse_at h a in header_fields_parse_from h ring'
  end.

Definition mrcp_header_fields_parse (h : mrcp_message_header_t G R)
    : option (bool * mrcp_message_header_t G R) :=
  let? h := header_fields_parse_from h (map fst (sec_ring (header_section h))) in
  Some (true, h).

Definition mrcp_header_accessor_value_duplicate (h : mrcp_message_header_t G R)
    (f : apt_header_field_t) (src : mrcp_message_header_t G R)
    : bool * mrcp_message_header_t G R :=
  if hf_id f <? GENERIC_HEADER_COUNT then
    let '(ok, acc) := mrcp_header_field_value_duplicate (generic_header_accessor h)
                        (generic_header_accessor src) (hf_id f) (hf_value f) in
    (ok, h <| generic_header_accessor := acc |>)
  else
    let '(ok, acc) := mrcp_header_field_value_duplicate (resource_header_accessor h)
                        (resource_header_accessor src) (hf_id f - GENERIC_HEADER_COUNT)
                        (hf_value f) in
    (ok, h <| resource_header_accessor := acc |>).

Definition header_field_set (src h : mrcp_message_header_t G R) (sf : apt_header_field_t)
    : mrcp_message_header_t G R :=
  match section_lookup (header_section h) (hf_id sf) with
  | Some (a, f) =>
      let f := set_hf_value (apt_string_copy (hf_value sf)) f in
      let h := h <| header_section := field_update (header_section h) a (fun _ => f) |> in
      snd (mrcp_header_accessor_value_duplicate h f src)
  | None =>
      let f := apt_header_field_copy sf in
      let h := h <| header_section := snd (apt_header_section_field_add (header_section h) f) |> in
      snd (mrcp_header_accessor_value_duplicate h f src)
  end.

Definition mrcp_header_fields_set (h src : mrcp_message_header_t G R)
    : bool * mrcp_message_header_t G R :=
  (true, fold_left (header_field_set src) (sec_fields (header_section src)) h).

(** A masked field that the source does not have is copied from the mask. *)
Definition header_field_get (src h : mrcp_message_header_t G R) (mf : apt_header_field_t)
    : mrcp_message_header_t G R :=
  match section_lookup (header_section h) (hf_id mf) with
  | Some _ => h
  | None =>
      let '(h, f) :=
        match section_lookup (header_section src) (hf_id mf) with
        | Some (_, sf) =>
            let f := apt_header_field_copy sf in
            (snd (mrcp_header_accessor_value_duplicate h f src), f)
        | None => (h, apt_header_field_copy mf)
        end in
      h <| header_section := snd (apt_header_section_field_add (header_section h) f) |>
  end.

Definition mrcp_header_fields_get (h src mask : mrcp_message_header_t G R)
    : bool * mrcp_message_header_t G R :=
  (true, fold_left (header_field_get src) (sec_fields (header_section mask)) h).

Definition header_field_inherit (src h : mrcp_message_header_t G R) (sf : apt_header_field_t)
    : mrcp_message_header_t G R :=
  match section_lookup (header_section h) (hf_id sf) with
  | Some _ => h
  | None =>
      let f := apt_header_field_copy sf in
      let h := snd (mrcp_header_accessor_value_duplicate h f src) in
      h <| header_section := snd (apt_header_section_field_add (header_section h) f) |>
  end.

Definition mrcp_header_fields_inherit (h src : mrcp_message_header_t G R)
    : bool * mrcp_message_header_t G R :=
  (true, fold_left (header_field_inherit src) (sec_fields (header_section src)) h).

(** * Channel identifiers *)

Definition MRCP_CHANNEL_ID : bytes := lit "Channel-Identifier".

Definition mrcp_channel_id_init : mrcp_channel_id :=
  mk_channel_id apt_string_reset apt_string_reset.

(** The first field named so that has a value. *)
Fixpoint channel_id_search (ring : list (addr * apt_header_field_t))
    : option (option (addr * apt_header_field_t)) :=
  match ring with
  | [] => Some None
  | (a, f) :: ring' =>
      if (str_len (hf_value f) =? 0)%nat then channel_id_search ring'
      else
        match str_buf (hf_name f) with
        | None => None
        | Some m =>
            if strncasecmp_eq m MRCP_CHANNEL_ID (length MRCP_CHANNEL_ID) then Some (Some (a, f))
            else channel_id_search ring'
        end
  end.

(** The field is taken out of the section. *)
Definition mrcp_channel_id_parse (cid : mrcp_channel_id) (h : mrcp_message_header_t G R)
    : option (bool * mrcp_channel_id * mrcp_message_header_t G R) :=
  match channel_id_search (sec_ring (header_section h)) with
  | None => None
  | Some None => Some (false, cid, h)
  | Some (Some (a, f)) =>
      let cid := match apt_id_resource_parse (hf_value f) "@"%char with
                 | Some (id, res) => mk_channel_id id res
                 | None => cid
                 end in
      Some (true, cid,
            h <| header_section := snd (apt_header_section_field_remove (header_section h) a f) |>)
  end.

End Header.

(** The bytes are stored through a local pointer; the position is set at the end. *)
Definition mrcp_channel_id_generate (cid : mrcp_channel_id) : prog apt_text_stream_t bool :=
  let* full := gets (no_room (length MRCP_CHANNEL_ID + 2 + str_len (session_id cid) + 1
                              + str_len (resource_name cid))) in
  if full then ret false
  else
    put MRCP_CHANNEL_ID ;;;
    put [":"%char] ;;;
    put [SP] ;;;
    put (str_data (session_id cid)) ;;;
    put ["@"%char] ;;;
    put (str_data (resource_name cid)) ;;;
    apt_text_eol_insert.

(** * Sections as finite maps from identifiers to fields *)

Definition sec_get (sec : apt_header_section_t) (i : Z) : option apt_header_field_t :=
  snd <$> section_lookup sec i.

Lemma section_lookup_None (sec : apt_header_section_t) (i : Z) :
  section_lookup sec i = None <-> sec_get sec i = None.
Proof. unfold sec_get. by destruct (section_lookup sec i). Qed.

Lemma section_lookup_get (sec : apt_header_section_t) (i : Z) :
  section_wf sec -> 0 <= i ->
  match apt_header_section_field_get sec i with
  | Some a => exists f, section_lookup sec i = Some (a, f) /\ (a, f) ∈ sec_ring sec /\
                        field_at sec a = Some f /\ hf_id f = i
  | None => section_lookup sec i = None
  end.
Proof.
  intros W Hi. unfold section_lookup.
  destruct (apt_header_section_field_get sec i) as [a|] eqn:E; [|done].
  destruct (field_get_spec sec i a W Hi E) as (f & Hin & Hf & Hid).
  exists f. rewrite Hf. done.
Qed.

Lemma sec_get_Some (sec : apt_header_section_t) (i : Z) (f : apt_header_field_t) :
  section_wf sec -> 0 <= i -> sec_get sec i = Some f ->
  hf_id f = i /\ i < arr_size sec /\ exists a, section_lookup sec i = Some (a, f).
Proof.
  intros W Hi. unfold sec_get. pose proof (section_lookup_get sec i W Hi) as H.
  destruct (apt_header_section_field_get sec i) as [a|] eqn:E.
  - destruct H as (g & -> & _ & _ & Hid). intros [= <-]. split_and!; [done| |by exists a].
    unfold apt_header_section_field_get in E. destruct (Z.ltb_spec i (arr_size sec)); [done|done].
  - by rewrite H.
Qed.

Lemma sec_get_beyond (sec : apt_header_section_t) (i : Z) :
  arr_size sec <= i -> sec_get sec i = None.
Proof.
  intros H. unfold sec_get, section_lookup, apt_header_section_field_get.
  by destruct (Z.ltb_spec i (arr_size sec)); [lia|].
Qed.

Lemma sec_get_None_get (sec : apt_header_section_t) (i : Z) :
  section_wf sec -> 0 <= i -> sec_get sec i = None -> apt_header_section_field_get sec i = None.
Proof.
  intros W Hi H. pose proof (section_lookup_get sec i W Hi) as Hl.
  destruct (apt_header_section_field_get sec i); [|done].
  destruct Hl as (f & Hf & _). unfold sec_get in H. by rewrite Hf in H.
Qed.

(** The ring of a section after an addition at its end keeps what was found. *)
Lemma sec_get_add (sec : apt_header_section_t) (f : apt_header_field_t) (i : Z) :
  section_wf sec -> id_ok f -> 0 <= i -> sec_get sec (hf_id f) = None ->
  let sec' := snd (apt_header_section_field_add sec f) in
  section_wf sec' /\ arr_size sec' = arr_size sec /\
  sec_fields sec' = sec_fields sec ++ [f] /\
  sec_get sec' i = if bool_decide (i = hf_id f) && (i <? arr_size sec) then Some f
                   else sec_get sec i.
Proof.
  intros W Hid Hi Hn. cbv zeta. pose proof (section_add_wf sec f W Hid) as W'.
  apply sec_get_None_get in Hn; [|done|by destruct Hid].
  destruct (apt_header_section_field_add sec f) as [ok s] eqn:E.
  assert (ok = true) as ->.
  { unfold apt_header_section_field_add, apt_header_section_field_get in *.
    destruct (hf_id f <? arr_size sec); [|congruence]. rewrite Hn in E. congruence. }
  destruct (field_add_success sec f s W Hid E) as (H1 & H2 & H3 & H4). simpl in *.
  split_and!; [done..|]. unfold sec_get, section_lookup.
  destruct (bool_decide_reflect (i = hf_id f)) as [->|Hne]; simpl.
  - destruct (Z.ltb_spec (hf_id f) (arr_size sec)) as [Hlt|Hge].
    + destruct (H3 Hlt) as [-> ->]. done.
    + rewrite Hn. unfold apt_header_section_field_get.
      destruct (Z.ltb_spec (hf_id f) (arr_size s)); [lia|done].
  - rewrite H4 by done. destruct (apt_header_section_field_get sec i) as [a|] eqn:Ea; [|done].
    destruct (field_get_spec sec i a W Hi Ea) as (g & Hin & -> & _).
    rewrite (field_at_in s a g W'); [done|].
    rewrite field_add_cases in E. destruct (_ && _); [done|]. injection E as <-. simpl.
    apply elem_of_app. by left.
Qed.

(** ** Adding fields that are missing *)

Definition add_missing (pick : apt_header_field_t -> apt_header_field_t)
    (sec : apt_header_section_t) (f : apt_header_field_t) : apt_header_section_t :=
  match section_lookup sec (hf_id f) with
  | Some _ => sec
  | None => snd (apt_header_section_field_add sec (pick f))
  end.

Definition find_id (i : Z) (l : list apt_header_field_t) : option apt_header_field_t :=
  List.find (fun f => hf_id f =? i) l.

(** What a section [sec'] adds to [sec]: fields at the end, found by the
    identifiers [fill] gives a field for and [sec] does not. *)
Definition extends (sec sec' : apt_header_section_t) (fill : Z -> option apt_header_field_t)
    : Prop :=
  section_wf sec' /\ arr_size sec' = arr_size sec /\
  (exists added, sec_fields sec' = sec_fields sec ++ added) /\
  forall i, 0 <= i < arr_size sec ->
    sec_get sec' i = match sec_get sec i with Some g => Some g | None => fill i end.

Lemma add_missing_step (pick : apt_header_field_t -> apt_header_field_t)
    (sec : apt_header_section_t) (f : apt_header_field_t) :
  section_wf sec -> id_ok f -> hf_id (pick f) = hf_id f ->
  extends sec (add_missing pick sec f) (fun i => if hf_id f =? i then Some (pick f) else None).
Proof.
  intros W Hf Hpf. unfold add_missing.
  destruct (section_lookup sec (hf_id f)) as [[a g]|] eqn:E.
  - split_and!; [done|done|exists []; by rewrite app_nil_r|]. intros i Hi.
    destruct (Z.eqb_spec (hf_id f) i) as [<-|]; [|by destruct (sec_get sec i)].
    unfold sec_get. by rewrite E.
  - apply section_lookup_None in E. rewrite <-Hpf in E.
    assert (Hid : id_ok (pick f)) by (unfold id_ok in *; by rewrite Hpf).
    destruct (sec_get_add sec (pick f) 0 W Hid ltac:(lia) E) as (W' & A' & L' & _).
    split_and!; [done|done|by exists [pick f]|]. intros i Hi.
    destruct (sec_get_add sec (pick f) i W Hid ltac:(lia) E) as (_ & _ & _ & ->).
    destruct (bool_decide_reflect (i = hf_id (pick f))) as [->|Hne]; simpl.
    + destruct (Z.ltb_spec (hf_id (pick f)) (arr_size sec)); [|lia].
      rewrite E, Hpf, Z.eqb_refl. done.
    + rewrite Hpf in Hne. destruct (Z.eqb_spec (hf_id f) i); [congruence|].
      by destruct (sec_get sec i).
Qed.

Lemma add_missing_fold (pick : apt_header_field_t -> apt_header_field_t)
    (l : list apt_header_field_t) (sec : apt_header_section_t) :
  section_wf sec -> Forall id_ok l -> Forall (fun f => hf_id (pick f) = hf_id f) l ->
  extends sec (fold_left (add_missing pick) l sec) (fun i => pick <$> find_id i l).
Proof.
  intros W Hl Hp. revert sec W.
  induction Hl as [|f l Hf Hl IH]; intros sec W; simpl.
  - split_and!; [done|done|exists []; by rewrite app_nil_r|].
    intros i _. by destruct (sec_get sec i).
  - inversion Hp as [|?? Hpf Hp']; subst.
    destruct (add_missing_step pick sec f W Hf Hpf) as (W1 & A1 & (l1 & L1) & G1).
    destruct (IH Hp' _ W1) as (W2 & A2 & (l2 & L2) & G2).
    split_and!; [done|congruence|exists (l1 ++ l2); by rewrite L2, L1, app_assoc|].
    intros i Hi. rewrite G2 by (rewrite A1; done). rewrite G1 by done.
    destruct (sec_get sec i); [done|]. simpl. by destruct (hf_id f =? i).
Qed.

(** The fields of a section whose ring and array agree are found by identifier. *)
Lemma find_id_sec_get (sec : apt_header_section_t) (i : Z) :
  section_wf sec -> section_indexed sec -> 0 <= i < arr_size sec ->
  find_id i (sec_fields sec) = sec_get sec i.
Proof.
  intros W Hix Hi. unfold find_id.
  destruct (List.find _ _) as [f|] eqn:E.
  - apply find_some in E as [Hin%list_elem_of_In Hid%Z.eqb_eq].
    apply list_elem_of_fmap in Hin as ([a f'] & -> & Hin). simpl in *. subst i.
    unfold sec_get, section_lookup, apt_header_section_field_get.
    destruct (Z.ltb_spec (hf_id f') (arr_size sec)); [|lia].
    rewrite (Hix a f' Hin) by done. by rewrite (field_at_in sec a f').
  - destruct (sec_get sec i) as [f|] eqn:Eg; [|done].
    pose proof (section_lookup_get sec i W ltac:(lia)) as H.
    destruct (sec_get_Some sec i f W ltac:(lia) Eg) as (Hid & _ & a & Hl).
    destruct (apt_header_section_field_get sec i); [|congruence].
    destruct H as (f' & Hl' & Hin & _). rewrite Hl in Hl'. injection Hl' as <- <-.
    eapply find_none with (x := f) in E; [by rewrite Hid, Z.eqb_refl in E|].
    apply list_elem_of_In, list_elem_of_fmap. by exists (a, f).
Qed.

Lemma sec_fields_ids (sec : apt_header_section_t) : section_wf sec -> Forall id_ok (sec_fields sec).
Proof.
  intros W. apply Forall_forall. intros f Hf%list_elem_of_In.
  apply list_elem_of_fmap in Hf as ([a g] & -> & Hin). by apply (wf_ids sec W a g).
Qed.

(** ** Setting fields *)

Definition set_field (sec : apt_header_section_t) (sf : apt_header_field_t) : apt_header_section_t :=
  match section_lookup sec (hf_id sf) with
  | Some (a, f) => field_update sec a (fun _ => set_hf_value (apt_string_copy (hf_value sf)) f)
  | None => snd (apt_header_section_field_add sec (apt_header_field_copy sf))
  end.

Lemma field_update_at (sec : apt_header_section_t) (a b : addr) (g : apt_header_field_t) :
  field_at (field_update sec a (fun _ => g)) b =
  if (b =? a)%nat then (fun _ => g) <$> field_at sec b else field_at sec b.
Proof.
  unfold field_at, field_update. simpl. induction (sec_ring sec) as [|[x f] r IH]; simpl.
  - by destruct (b =? a)%nat.
  - destruct (Nat.eqb_spec x a) as [->|Hx]; simpl.
    + destruct (Nat.eqb_spec a b) as [->|]; [by rewrite Nat.eqb_refl|exact IH].
    + destruct (Nat.eqb_spec x b) as [->|]; [|exact IH].
      by rewrite (proj2 (Nat.eqb_neq b a) Hx).
Qed.

Lemma field_update_wf (sec : apt_header_section_t) (a : addr) (f g : apt_header_field_t) :
  section_wf sec -> (a, f) ∈ sec_ring sec -> hf_id g = hf_id f ->
  section_wf (field_update sec a (fun _ => g)).
Proof.
  intros [H1 H2 H3 H4] Hin Hid.
  assert (Hback : forall b k, (b, k) ∈ sec_ring (field_update sec a (fun _ => g)) ->
            exists k', (b, k') ∈ sec_ring sec /\ hf_id k = hf_id k').
  { intros b k ([x y] & E & Hxy)%list_elem_of_fmap. simpl in E.
    destruct (Nat.eqb_spec x a) as [->|]; injection E as -> ->; [|by exists y].
    exists f. done. }
  split; simpl.
  - rewrite map_map. erewrite map_ext; [exact H1|]. intros [x y]. by destruct (_ =? _)%nat.
  - intros b k (k' & Hk & _)%Hback. by eapply H2.
  - intros b k (k' & Hk & E)%Hback. unfold id_ok. rewrite E. by apply (H3 b k').
  - intros i b Hi. destruct (H4 i b Hi) as (k & Hk & E).
    exists (if (b =? a)%nat then g else k). split.
    + apply list_elem_of_fmap. exists (b, k). simpl. by destruct (b =? a)%nat.
    + destruct (Nat.eqb_spec b a) as [->|]; [|done].
      rewrite Hid. by rewrite (NoDup_fst_unique _ a f k H1 Hin Hk).
Qed.

Lemma set_field_spec (sec : apt_header_section_t) (sf : apt_header_field_t) :
  section_wf sec -> id_ok sf ->
  let sec' := set_field sec sf in
  section_wf sec' /\ arr_size sec' = arr_size sec /\
  forall i, 0 <= i < arr_size sec -> sec_get sec' i =
    if hf_id sf =? i then
      Some (match sec_get sec i with
            | Some g => set_hf_value (apt_string_copy (hf_value sf)) g
            | None => apt_header_field_copy sf
            end)
    else sec_get sec i.
Proof.
  intros W Hid. unfold set_field. cbv zeta.
  pose proof (section_lookup_get sec (hf_id sf) W ltac:(by destruct Hid)) as Hl.
  destruct (apt_header_section_field_get sec (hf_id sf)) as [a|] eqn:Ea.
  - destruct Hl as (f & -> & Hin & Hat & Hf).
    set (g := set_hf_value (apt_string_copy (hf_value sf)) f).
    split_and!; [by apply (field_update_wf sec a f)|done|]. intros i Hi.
    unfold sec_get, section_lookup.
    change (apt_header_section_field_get (field_update sec a (fun _ => g)) i)
      with (apt_header_section_field_get sec i).
    destruct (Z.eqb_spec (hf_id sf) i) as [<-|Hne].
    + rewrite Ea, field_update_at, Nat.eqb_refl, Hat. done.
    + pose proof (section_lookup_get sec i W ltac:(lia)) as Hli.
      destruct (apt_header_section_field_get sec i) as [b|] eqn:Eb; [|done].
      destruct Hli as (k & _ & Hkin & Hbk & Hkid). rewrite field_update_at, Hbk.
      destruct (Nat.eqb_spec b a) as [->|]; [|done]. rewrite Hat in Hbk. congruence.
  - rewrite Hl. apply section_lookup_None in Hl.
    assert (Hc : id_ok (apt_header_field_copy sf)) by done.
    destruct (sec_get_add sec (apt_header_field_copy sf) 0 W Hc ltac:(lia) Hl) as (W' & A' & _).
    split_and!; [done|done|]. intros i Hi.
    destruct (sec_get_add sec (apt_header_field_copy sf) i W Hc ltac:(lia) Hl) as (_ & _ & _ & ->).
    simpl. destruct (bool_decide_reflect (i = hf_id sf)) as [->|Hne]; simpl.
    + destruct (Z.ltb_spec (hf_id sf) (arr_size sec)); [|lia]. by rewrite Z.eqb_refl, Hl.
    + by destruct (Z.eqb_spec (hf_id sf) i); [congruence|].
Qed.

(** No later field of the list has the identifier of an earlier one with a slot. *)
Fixpoint ids_unique (n : Z) (l : list apt_header_field_t) : Prop :=
  match l with
  | [] => True
  | f :: l' => (hf_id f < n -> find_id (hf_id f) l' = None) /\ ids_unique n l'
  end.

Lemma sec_fields_unique (sec : apt_header_section_t) :
  section_wf sec -> section_indexed sec -> ids_unique (arr_size sec) (sec_fields sec).
Proof.
  intros W Hix. unfold sec_fields, section_indexed in *.
  pose proof (wf_nodup sec W) as Hnd.
  assert (Hix' : forall a f, (a, f) ∈ sec_ring sec -> hf_id f < arr_size sec ->
                 arr_at sec (hf_id f) = Some a) by exact Hix.
  clear Hix. induction (sec_ring sec) as [|[a f] r IH]; simpl; [done|].
  inversion Hnd as [|?? Hni Hnd']; subst. simpl in Hni. split.
  - intros Hlt. unfold find_id. destruct (List.find _ _) as [g|] eqn:E; [|done].
    apply find_some in E as [Hin%list_elem_of_In Hid%Z.eqb_eq].
    apply list_elem_of_fmap in Hin as ([b g'] & -> & Hin). simpl in *.
    pose proof (Hix' a f ltac:(by left) Hlt) as H1.
    pose proof (Hix' b g' ltac:(by right) ltac:(lia)) as H2. rewrite Hid, H1 in H2.
    injection H2 as <-. exfalso. apply Hni, list_elem_of_fmap. by exists (a, g').
  - apply IH; [done|]. intros b g Hin. apply Hix'. by right.
Qed.

Lemma set_field_fold (l : list apt_header_field_t) (sec : apt_header_section_t) :
  section_wf sec -> Forall id_ok l -> ids_unique (arr_size sec) l ->
  let sec' := fold_left set_field l sec in
  section_wf sec' /\ arr_size sec' = arr_size sec /\
  forall i, 0 <= i < arr_size sec -> sec_get sec' i =
    match find_id i l with
    | Some sf => Some (match sec_get sec i with
                       | Some g => set_hf_value (apt_string_copy (hf_value sf)) g
                       | None => apt_header_field_copy sf
                       end)
    | None => sec_get sec i
    end.
Proof.
  intros W Hl. revert sec W. induction Hl as [|f l Hf Hl IH]; intros sec W Hu; [done|]. simpl.
  destruct Hu as [Hfu Hu]. destruct (set_field_spec sec f W Hf) as (W1 & A1 & G1).
  rewrite <-A1 in Hu. destruct (IH _ W1 Hu) as (W2 & A2 & G2). rewrite A1 in *.
  split_and!; [done|done|]. intros i Hi. rewrite G2, G1 by done.
  destruct (Z.eqb_spec (hf_id f) i) as [<-|Hne]; [|done].
  by rewrite Hfu by lia.
Qed.

(** ** The operations on headers, seen on their sections *)

Section HeaderSections.
Context {G R : Type}.

Lemma value_duplicate_section (h src : mrcp_message_header_t G R) (f : apt_header_field_t) :
  header_section (snd (mrcp_header_accessor_value_duplicate h f src)) = header_section h.
Proof.
  unfold mrcp_header_accessor_value_duplicate. destruct (_ <? _).
  - by destruct (mrcp_header_field_value_duplicate _ _ _ _).
  - by destruct (mrcp_header_field_value_duplicate _ _ _ _).
Qed.

(** A fold whose steps act on the section as [g] does. *)
Lemma fold_section (step : mrcp_message_header_t G R -> apt_header_field_t -> mrcp_message_header_t G R)
    (g : apt_header_section_t -> apt_header_field_t -> apt_header_section_t) l h :
  (forall h f, header_section (step h f) = g (header_section h) f) ->
  header_section (fold_left step l h) = fold_left g l (header_section h).
Proof.
  intros Hg. revert h. induction l as [|f l IH]; intros h; simpl; [done|]. by rewrite IH, Hg.
Qed.

Lemma inherit_section (h src : mrcp_message_header_t G R) :
  header_section (snd (mrcp_header_fields_inherit h src)) =
  fold_left (add_missing apt_header_field_copy) (sec_fields (header_section src)) (header_section h).
Proof.
  apply fold_section. intros k f. unfold header_field_inherit, add_missing.
  destruct (section_lookup _ _); [done|]. simpl. by rewrite value_duplicate_section.
Qed.

Lemma set_section (h src : mrcp_message_header_t G R) :
  header_section (snd (mrcp_header_fields_set h src)) =
  fold_left set_field (sec_fields (header_section src)) (header_section h).
Proof.
  apply fold_section. intros k f. unfold header_field_set, set_field.
  destruct (section_lookup _ _) as [[a g]|]; by rewrite value_duplicate_section.
Qed.

(** The field a masked field is copied from. *)
Definition masked (src : mrcp_message_header_t G R) (mf : apt_header_field_t) : apt_header_field_t :=
  apt_header_field_copy (default mf (sec_get (header_section src) (hf_id mf))).

Lemma get_section (h src mask : mrcp_message_header_t G R) :
  header_section (snd (mrcp_header_fields_get h src mask)) =
  fold_left (add_missing (masked src)) (sec_fields (header_section mask)) (header_section h).
Proof.
  apply fold_section. intros k f. unfold header_field_get, add_missing, masked, sec_get.
  destruct (section_lookup (header_section k) _); [done|].
  destruct (section_lookup (header_section src) _) as [[a g]|]; simpl; [|done].
  by rewrite value_duplicate_section.
Qed.
End HeaderSections.

(** Inheriting header fields keeps every field the header already has, in place, and
    adds a copy of each field of the source that is missing: looking up an identifier
    afterwards gives the header's own field if it had one and otherwise a copy of the
    source's. *)
Theorem mrcp_header_fields_inherit_correct {G R} (h src : mrcp_message_header_t G R) :
  section_wf (header_section h) -> section_wf (header_section src) ->
  section_indexed (header_section src) ->
  arr_size (header_section src) = arr_size (header_section h) ->
  let h' := snd (mrcp_header_fields_inherit h src) in
  section_wf (header_section h') /\
  (exists added, sec_fields (header_section h') = sec_fields (header_section h) ++ added) /\
  forall i, 0 <= i -> sec_get (header_section h') i =
    match sec_get (header_section h) i with
    | Some f => Some f
    | None => apt_header_field_copy <$> sec_get (header_section src) i
    end.
Proof.
  intros Wh Ws Hix Hsz. cbv zeta. rewrite inherit_section.
  destruct (add_missing_fold apt_header_field_copy (sec_fields (header_section src))
              (header_section h) Wh (sec_fields_ids _ Ws)) as (W & A & L & Hget).
  { by apply Forall_true. }
  split_and!; [done|done|]. intros i Hi.
  destruct (Z.lt_ge_cases i (arr_size (header_section h))) as [Hlt|Hge].
  - rewrite Hget, find_id_sec_get by (done || lia). done.
  - rewrite !sec_get_beyond by lia. done.
Qed.

(** Setting header fields overrides: afterwards every identifier the source has a
    field for carries a copy of the source's value (in the header's own field when it had
    one, else in a copy of the source's field), and the others are as they were. *)
Theorem mrcp_header_fields_set_correct {G R} (h src : mrcp_message_header_t G R) :
  section_wf (header_section h) -> section_wf (header_section src) ->
  section_indexed (header_section src) ->
  arr_size (header_section src) = arr_size (header_section h) ->
  let h' := snd (mrcp_header_fields_set h src) in
  section_wf (header_section h') /\
  forall i, 0 <= i -> sec_get (header_section h') i =
    match sec_get (header_section src) i with
    | Some sf => Some (match sec_get (header_section h) i with
                       | Some f => set_hf_value (apt_string_copy (hf_value sf)) f
                       | None => apt_header_field_copy sf
                       end)
    | None => sec_get (header_section h) i
    end.
Proof.
  intros Wh Ws Hix Hsz. cbv zeta. rewrite set_section.
  destruct (set_field_fold (sec_fields (header_section src)) (header_section h) Wh
              (sec_fields_ids _ Ws)) as (W & A & Hget).
  { rewrite <-Hsz. by apply sec_fields_unique. }
  split; [done|]. intros i Hi.
  destruct (Z.lt_ge_cases i (arr_size (header_section h))) as [Hlt|Hge].
  - rewrite Hget, find_id_sec_get by (done || lia). done.
  - rewrite !sec_get_beyond by lia. done.
Qed.

(** Getting header fields fills in what a mask asks for: fields already present stay,
    a masked identifier gets a copy of the source's field, or of the mask's own field when
    the source has none, and identifiers outside the mask get nothing. *)
Theorem mrcp_header_fields_get_correct {G R} (h src mask : mrcp_message_header_t G R) :
  section_wf (header_section h) -> section_wf (header_section src) ->
  section_wf (header_section mask) -> section_indexed (header_section mask) ->
  arr_size (header_section mask) = arr_size (header_section h) ->
  let h' := snd (mrcp_header_fields_get h src mask) in
  section_wf (header_section h') /\
  (exists added, sec_fields (header_section h') = sec_fields (header_section h) ++ added) /\
  forall i, 0 <= i -> sec_get (header_section h') i =
    match sec_get (header_section h) i, sec_get (header_section mask) i with
    | Some f, _ => Some f
    | None, Some mf => Some (apt_header_field_copy (default mf (sec_get (header_section src) i)))
    | None, None => None
    end.
Proof.
  intros Wh Ws Wm Hix Hsz. cbv zeta. rewrite get_section.
  destruct (add_missing_fold (masked src) (sec_fields (header_section mask))
              (header_section h) Wh (sec_fields_ids _ Wm)) as (W & A & L & Hget).
  { apply List.Forall_impl with (P := id_ok); [|by apply sec_fields_ids]. intros f [Hf _].
    unfold masked. simpl. destruct (sec_get _ _) as [g|] eqn:E; [|done].
    apply sec_get_Some in E as (E & _); done. }
  split_and!; [done|done|]. intros i Hi.
  destruct (Z.lt_ge_cases i (arr_size (header_section h))) as [Hlt|Hge].
  - rewrite Hget, find_id_sec_get by (done || lia).
    destruct (sec_get (header_section h) i); [done|].
    destruct (sec_get (header_section mask) i) as [mf|] eqn:E; [|done].
    simpl. unfold masked. by apply sec_get_Some in E as (-> & _).
  - rewrite (sec_get_beyond _ i) by lia. rewrite !(sec_get_beyond _ i) by lia. done.
Qed.

(** Headers over the sample sections, with no data behind the accessors. *)
Definition sample_header (sec : apt_header_section_t) : mrcp_message_header_t unit unit :=
  mk_message_header mrcp_header_accessor_init mrcp_header_accessor_init sec.

Definition empty_section : apt_header_section_t :=
  snd (apt_header_section_array_alloc apt_header_section_init 4).

Lemma empty_section_wf : section_wf empty_section.
Proof. apply section_alloc_wf, section_init_wf. Qed.

Lemma mrcp_header_fields_inherit_correct_witness :
  sec_get (header_section (snd (mrcp_header_fields_inherit (sample_header empty_section)
                                  (sample_header sample_section)))) 2 =
  match sec_get empty_section 2 with
  | Some f => Some f
  | None => apt_header_field_copy <$> sec_get sample_section 2
  end.
Proof.
  destruct (mrcp_header_fields_inherit_correct (sample_header empty_section)
    (sample_header sample_section)) as (_ & _ & H).
  - exact empty_section_wf.
  - exact (proj1 sample_section_wf).
  - exact (proj2 sample_section_wf).
  - reflexivity.
  - apply H. lia.
Defined.

Lemma mrcp_header_fields_set_correct_witness :
  sec_get (header_section (snd (mrcp_header_fields_set (sample_header empty_section)
                                  (sample_header sample_section)))) 2 =
  match sec_get sample_section 2 with
  | Some sf => Some (match sec_get empty_section 2 with
                     | Some f => set_hf_value (apt_string_copy (hf_value sf)) f
                     | None => apt_header_field_copy sf
                     end)
  | None => sec_get empty_section 2
  end.
Proof.
  destruct (mrcp_header_fields_set_correct (sample_header empty_section)
    (sample_header sample_section)) as (_ & H).
  - exact empty_section_wf.
  - exact (proj1 sample_section_wf).
  - exact (proj2 sample_section_wf).
  - reflexivity.
  - apply H. lia.
Defined.

Lemma mrcp_header_fields_get_correct_witness :
  sec_get (header_section (snd (mrcp_header_fields_get (sample_header empty_section)
     (sample_header empty_section) (sample_header sample_section)))) 2 =
  match sec_get empty_section 2, sec_get sample_section 2 with
  | Some f, _ => Some f
  | None, Some mf => Some (apt_header_field_copy (default mf (sec_get empty_section 2)))
  | None, None => None
  end.
Proof.
  destruct (mrcp_header_fields_get_correct (sample_header empty_section)
    (sample_header empty_section) (sample_header sample_section)) as (_ & _ & H).
  - exact empty_section_wf.
  - exact empty_section_wf.
  - exact (proj1 sample_section_wf).
  - exact (proj2 sample_section_wf).
  - reflexivity.
  - apply H. lia.
Defined.

(** * Channel identifiers: what is generated is parsed back *)

Definition channel_id_value (cid : mrcp_channel_id) : bytes :=
  str_text (session_id cid) ++ ["@"%char] ++ str_text (resource_name cid).

Definition channel_id_line (cid : mrcp_channel_id) : bytes :=
  MRCP_CHANNEL_ID ++ [":"%char] ++ [SP] ++ channel_id_value cid ++ [CR; LF].

Record channel_id_ok (cid : mrcp_channel_id) : Prop := {
  cid_session_wf : str_wf (session_id cid);
  cid_resource_wf : str_wf (resource_name cid);
  cid_no_at : "@"%char ∉ str_text (session_id cid);
  cid_nul_free : nul_free (str_text (session_id cid));
  cid_value_ok : header_value_ok (channel_id_value cid)
}.

Lemma channel_id_generate_writes (cid : mrcp_channel_id) (n : nat) :
  channel_id_ok cid -> (length (channel_id_line cid) <= n)%nat ->
  writes (mrcp_channel_id_generate cid) true (channel_id_line cid) n.
Proof.
  intros [Ws Wr _ _ _] Hn. unfold channel_id_line, channel_id_value in *.
  rewrite !length_app, Ws, Wr in Hn. simpl in Hn. unfold mrcp_channel_id_generate.
  writes_with ltac:(apply writes_eol); rewrite ?str_data_length; simpl; try lia.
  by rewrite !str_data_text.
Qed.

Lemma channel_id_search_app (ring : list (addr * apt_header_field_t)) (a : addr) f :
  channel_id_search ring = Some None ->
  channel_id_search (ring ++ [(a, f)]) = channel_id_search [(a, f)].
Proof.
  induction ring as [|[b g] ring IH]; [done|]. rewrite <-app_comm_cons.
  set (r := channel_id_search [(a, f)]) in *. clearbody r. cbn [channel_id_search].
  destruct (str_len (hf_value g) =? 0)%nat; [done|]. destruct (str_buf (hf_name g)); [|done].
  by destruct (strncasecmp_eq _ _ _).
Qed.

Lemma strncasecmp_eq_app (s r : bytes) : strncasecmp_eq (s ++ r) s (length s) = true.
Proof.
  induction s as [|c s IH]; [done|]. simpl. rewrite char_eqb_refl.
  by destruct (char_eqb c NUL).
Qed.

Lemma remove_tail (h : apt_header_section_t) (g : apt_header_field_t) :
  section_wf h -> hf_id g = UNKNOWN_HEADER_FIELD_ID -> arr_size h <= UNKNOWN_HEADER_FIELD_ID ->
  let h' := snd (apt_header_section_field_remove (ring_insert_tail h g) (sec_next h) g) in
  sec_ring h' = sec_ring h /\ sec_arr h' = sec_arr h.
Proof.
  intros W Hid Hsz. cbv zeta. unfold apt_header_section_field_remove.
  change (arr_size (ring_insert_tail h g)) with (arr_size h). rewrite Hid.
  destruct (Z.ltb_spec UNKNOWN_HEADER_FIELD_ID (arr_size h)); [lia|]. simpl. split; [|done].
  rewrite List.filter_app. simpl. rewrite Nat.eqb_refl. simpl. rewrite app_nil_r.
  apply List.forallb_filter_id, forallb_forall. intros [b k] Hin%list_elem_of_In. simpl.
  pose proof (wf_fresh h W b k Hin). apply negb_true_iff, Nat.eqb_neq. lia.
Qed.

(** The channel identifier field, as parsed and added at the end of the section. *)
Definition channel_id_field (cid : mrcp_channel_id) : apt_header_field_t :=
  mk_field (str_alloc MRCP_CHANNEL_ID) (str_alloc (channel_id_value cid)) UNKNOWN_HEADER_FIELD_ID.

Lemma channel_id_found (cid : mrcp_channel_id) (a : addr) :
  channel_id_search [(a, channel_id_field cid)] = Some (Some (a, channel_id_field cid)).
Proof.
  unfold channel_id_search, channel_id_field, str_alloc. cbn [hf_value hf_name str_len str_buf].
  unfold channel_id_value. rewrite !length_app. cbn [length].
  destruct (Nat.eqb_spec (length (str_text (session_id cid)) +
    (1 + length (str_text (resource_name cid)))) 0); [lia|]. by rewrite strncasecmp_eq_app.
Qed.

Lemma channel_id_parse_tail {G R} (h : mrcp_message_header_t G R) (cid cid0 : mrcp_channel_id) :
  channel_id_ok cid -> section_wf (header_section h) ->
  arr_size (header_section h) <= UNKNOWN_HEADER_FIELD_ID ->
  channel_id_search (sec_ring (header_section h)) = Some None ->
  exists cid' h',
    mrcp_channel_id_parse cid0
      (h <| header_section := ring_insert_tail (header_section h) (channel_id_field cid) |>)
      = Some (true, cid', h') /\
    str_text (session_id cid') = str_text (session_id cid) /\
    str_text (resource_name cid') = str_text (resource_name cid) /\
    sec_ring (header_section h') = sec_ring (header_section h) /\
    sec_arr (header_section h') = sec_arr (header_section h).
Proof.
  intros Hok Wh Hsz Hnone.
  destruct (apt_id_resource_parse_split (str_text (session_id cid)) (str_text (resource_name cid))
    [NUL] "@"%char (cid_no_at cid Hok) (cid_nul_free cid Hok)) as (id' & res' & Eid & Hid' & Hres').
  destruct (remove_tail (header_section h) (channel_id_field cid) Wh eq_refl Hsz) as [Hr1 Hr2].
  exists (mk_channel_id id' res'). eexists.
  unfold mrcp_channel_id_parse. cbn [field_set header_section ring_insert_tail sec_ring].
  rewrite channel_id_search_app, channel_id_found by done.
  replace (hf_value (channel_id_field cid)) with
    (mk_str (Some (str_text (session_id cid) ++ "@"%char :: str_text (resource_name cid) ++ [NUL]))
       (length (str_text (session_id cid)) + length (str_text (resource_name cid)) + 1)).
  2:{ unfold channel_id_field, str_alloc, channel_id_value. cbn [hf_value].
      rewrite !length_app, <-!app_assoc. cbn [length app]. f_equal. lia. }
  rewrite Eid. split_and!; [reflexivity|done..].
Qed.

(** The channel identifier written into the header of a message is recovered from the
    parsed header: the session and resource names are those written, and the header
    section is left without the channel identifier, as it was before the field was
    parsed. *)
Theorem mrcp_channel_id_roundtrip {G R} (cid cid0 : mrcp_channel_id)
    (h : mrcp_message_header_t G R) (st rd : apt_text_stream_t) (rest : bytes) :
  channel_id_ok cid -> stream_wf st -> addressable st ->
  (st_pos st + length (channel_id_line cid) < st_end st)%nat ->
  section_wf (header_section h) -> arr_size (header_section h) <= UNKNOWN_HEADER_FIELD_ID ->
  channel_id_search (sec_ring (header_section h)) = Some None ->
  exists st', mrcp_channel_id_generate cid st = Some (true, st') /\
    (window rd = emitted st st' ++ rest -> apt_text_is_wsp (deref rest) = false ->
     exists f rd' cid' h', apt_header_field_parse rd = (Some f, rd') /\ window rd' = rest /\
       let hf := h <| header_section := snd (apt_header_section_field_add (header_section h) f) |> in
       mrcp_channel_id_parse cid0 hf = Some (true, cid', h') /\
       str_text (session_id cid') = str_text (session_id cid) /\
       str_text (resource_name cid') = str_text (resource_name cid) /\
       sec_ring (header_section h') = sec_ring (header_section h) /\
       sec_arr (header_section h') = sec_arr (header_section h)).
Proof.
  intros Hok W Ad Hroom Wh Hsz Hnone.
  destruct (channel_id_generate_writes cid _ Hok (le_n _) st W Ad Hroom) as (st' & E & Hem).
  exists st'. split; [done|]. intros Hrd Hwsp. rewrite (emits_emitted _ _ _ W Hem) in Hrd.
  set (f0 := mk_field (str_of MRCP_CHANNEL_ID) (str_of (channel_id_value cid)) 0).
  assert (Hf0 : field_ok f0).
  { unfold field_ok, f0. cbn [hf_name hf_value]. rewrite !str_of_text.
    split_and!; [apply str_of_wf..| |apply (cid_value_ok cid Hok)].
    unfold header_name_ok, no_eol. split_and!; first [done|decide_now]. }
  destruct (field_parse_line rd f0 rest Hf0) as (g & rd' & Ep & Htx & Hfresh & Hw & _); [|done|].
  { rewrite Hrd. unfold channel_id_line, field_line, header_line, f0. cbn [hf_name hf_value].
    rewrite !str_data_text, !str_of_text by apply str_of_wf. by rewrite <-!app_assoc. }
  unfold field_texts, f0 in Htx. cbn [hf_name hf_value] in Htx. rewrite !str_of_text in Htx.
  injection Htx as Hn Hv. unfold fresh_field in Hfresh. rewrite Hn, Hv in Hfresh.
  rewrite Hfresh in *. fold (channel_id_field cid) in *.
  destruct (channel_id_parse_tail h cid cid0 Hok Wh Hsz Hnone) as (cid' & h' & H).
  exists (channel_id_field cid), rd', cid', h'. cbv zeta. rewrite add_unknown by done. done.
Qed.

Definition sample_channel : mrcp_channel_id :=
  mk_channel_id (str_lit "32AECB23") (str_lit "speechsynth").

Lemma mrcp_channel_id_roundtrip_witness :
  exists st', mrcp_channel_id_generate sample_channel sample_stream = Some (true, st') /\
    (window (stream_of_str (str_of (emitted sample_stream st'))) = emitted sample_stream st' ++ [] ->
     exists f rd' cid' h',
       apt_header_field_parse (stream_of_str (str_of (emitted sample_stream st'))) = (Some f, rd') /\
       mrcp_channel_id_parse mrcp_channel_id_init
         (sample_header (snd (apt_header_section_field_add empty_section f))) = Some (true, cid', h') /\
       str_text (session_id cid') = lit "32AECB23").
Proof.
  destruct (mrcp_channel_id_generate sample_channel sample_stream) as [[b st1]|] eqn:E1;
    [|vm_compute in E1; discriminate E1].
  destruct (mrcp_channel_id_roundtrip sample_channel mrcp_channel_id_init (sample_header empty_section)
    sample_stream (stream_of_str (str_of (emitted sample_stream st1))) []) as (st' & E & H).
  - split; [reflexivity|reflexivity|decide_now|unfold nul_free; decide_now|].
    split; [split; decide_now|]. intros c r [= <- _]. reflexivity.
  - unfold stream_wf. simpl. lia.
  - unfold addressable. simpl. lia.
  - vm_compute. lia.
  - exact empty_section_wf.
  - vm_compute. intros H. discriminate H.
  - reflexivity.
  - rewrite E1 in E. injection E as -> ->. exists st'. split; [reflexivity|]. intros Hw.
    destruct (H Hw eq_refl) as (f & rd' & cid' & h' & H1 & _ & H2 & H3 & _).
    exists f, rd', cid', h'. split; [exact H1|]. split; [exact H2|exact H3].
Defined.

(** * Adding and parsing fields *)

Section AddParse.
Context {G R : Type}.

Lemma value_parse_id {D} (acc : mrcp_header_accessor_t D) f ok acc' f' :
  mrcp_header_field_value_parse acc f = Some (ok, acc', f') ->
  vtable acc' = vtable acc /\ hf_name f' = hf_name f /\ hf_value f' = hf_value f /\
  (ok = true -> exists vt, vtable acc = Some vt /\ hf_id f' < field_count vt /\
     hf_id f' = apt_string_table_id_find (field_table vt) (field_count vt) (hf_name f)).
Proof.
  unfold mrcp_header_field_value_parse. destruct (vtable acc) as [vt|] eqn:Ev.
  2:{ intros [= <- <- <-]. done. }
  set (id := apt_string_table_id_find _ _ _).
  destruct (Z.leb_spec (field_count vt) id) as [|Hlt]; [by intros [= <- <- <-]|].
  destruct (_ =? _)%nat.
  - intros [= <- <- <-]. split_and!; [done..|]. intros _. by exists vt.
  - destruct (data acc); [|done]. destruct (parse_field vt _ _ _) as [b d'].
    intros [= <- <- <-]. split_and!; [done..|]. intros _. by exists vt.
Qed.

Lemma header_value_parse_section (h : mrcp_message_header_t G R) f rok gok h' f' :
  header_value_parse h f = Some (rok, gok, h', f') -> header_section h' = header_section h.
Proof.
  unfold header_value_parse.
  destruct (mrcp_header_field_value_parse _ f) as [[[[] racc] f1]|]; [|destruct (mrcp_header_field_value_parse _ f1) as [[[? gacc] f2]|]|];
    intros; simplify_eq; done.
Qed.
End AddParse.

(** A generic header field whose value parses is stored in the section under its
    identifier, but because it is added twice the function reports failure. *)
Theorem mrcp_header_field_add_generic_status {G R} (h h1 : mrcp_message_header_t G R)
    (f f1 : apt_header_field_t) :
  section_wf (header_section h) -> apt_string_is_empty (hf_name f) = false ->
  header_value_parse h f = Some (false, true, h1, f1) ->
  0 <= hf_id f1 < arr_size (header_section h) -> hf_id f1 < 2 ^ 64 ->
  sec_get (header_section h) (hf_id f1) = None ->
  exists h', mrcp_header_field_add h f = Some (false, h') /\
    sec_get (header_section h') (hf_id f1) = Some f1.
Proof.
  intros W Hne Hp Hid Hid2 Hnone. unfold mrcp_header_field_add. rewrite Hne, Hp.
  pose proof (header_value_parse_section h f _ _ _ _ Hp) as Hs. cbn [field_set header_section].
  rewrite Hs.
  destruct (sec_get_add (header_section h) f1 (hf_id f1) W) as (W1 & A1 & _ & Hg); [split; lia|lia|done|].
  rewrite bool_decide_true in Hg by done.
  destruct (Z.ltb_spec (hf_id f1) (arr_size (header_section h))); [|lia]. simpl in Hg.
  set (s1 := snd (apt_header_section_field_add (header_section h) f1)) in *.
  assert (E : apt_header_section_field_add s1 f1 = (false, s1)).
  { unfold apt_header_section_field_add. rewrite A1.
    destruct (Z.ltb_spec (hf_id f1) (arr_size (header_section h))); [|lia].
    unfold sec_get, section_lookup, apt_header_section_field_get in Hg. rewrite A1 in Hg.
    destruct (Z.ltb_spec (hf_id f1) (arr_size (header_section h))); [|lia].
    by destruct (arr_at s1 (hf_id f1)). }
  rewrite E. eexists. split; [reflexivity|]. exact Hg.
Qed.

(** A header with one generic field and no resource field. *)
Definition one_field_vtable : mrcp_header_vtable_t unit :=
  mk_vtable tt (fun _ _ _ => (true, tt)) (fun _ _ v => Some (true, v)) (fun _ _ _ _ => (true, tt))
    [item "Proxy-Sync-Id" 13 0] 1.

Definition one_field_header : mrcp_message_header_t unit unit :=
  mk_message_header (mrcp_header_allocate (mk_accessor None (Some one_field_vtable)))
    mrcp_header_accessor_init empty_section.

Lemma mrcp_header_field_add_generic_status_witness :
  exists h', mrcp_header_field_add one_field_header
               (mk_field (str_lit "proxy-sync-id") (str_lit "12") UNKNOWN_HEADER_FIELD_ID)
             = Some (false, h') /\
    sec_get (header_section h') 0 = Some (mk_field (str_lit "proxy-sync-id") (str_lit "12") 0).
Proof.
  apply (mrcp_header_field_add_generic_status one_field_header one_field_header
    (mk_field (str_lit "proxy-sync-id") (str_lit "12") UNKNOWN_HEADER_FIELD_ID)
    (mk_field (str_lit "proxy-sync-id") (str_lit "12") 0));
    [exact empty_section_wf | reflexivity | reflexivity | vm_compute; split; [discriminate|reflexivity]
    | vm_compute; reflexivity | reflexivity].
Defined.
