(* ===== verification/GenericHeader.v ===== *)
(** The generic header of MRCP messages
    ([libs/mrcp/message/include/mrcp_generic_header.h], [src/mrcp_generic_header.c]):
    its sixteen fields, the table of their names, and the parse, generate and
    duplicate operations behind the accessor interface. *)

From S2P Require Import Prelude AptString TextStream TextValues HeaderField TextMessage StartLine MrcpHeader.

(** * Data *)

Inductive mrcp_generic_header_id :=
| GENERIC_HEADER_ACTIVE_REQUEST_ID_LIST
| GENERIC_HEADER_PROXY_SYNC_ID
| GENERIC_HEADER_ACCEPT_CHARSET
| GENERIC_HEADER_CONTENT_TYPE
| GENERIC_HEADER_CONTENT_ID
| GENERIC_HEADER_CONTENT_BASE
| GENERIC_HEADER_CONTENT_ENCODING
| GENERIC_HEADER_CONTENT_LOCATION
| GENERIC_HEADER_CONTENT_LENGTH
| GENERIC_HEADER_CACHE_CONTROL
| GENERIC_HEADER_LOGGING_TAG
| GENERIC_HEADER_VENDOR_SPECIFIC_PARAMS
| GENERIC_HEADER_ACCEPT
| GENERIC_HEADER_FETCH_TIMEOUT
| GENERIC_HEADER_SET_COOKIE
| GENERIC_HEADER_SET_COOKIE2.

#[global] Instance mrcp_generic_header_id_eq_dec : EqDecision mrcp_generic_header_id.
Proof. solve_decision. Defined.

(** The enumeration in order; its length is [GENERIC_HEADER_COUNT]. *)
Definition generic_header_ids : list mrcp_generic_header_id :=
  [ GENERIC_HEADER_ACTIVE_REQUEST_ID_LIST; GENERIC_HEADER_PROXY_SYNC_ID;
    GENERIC_HEADER_ACCEPT_CHARSET; GENERIC_HEADER_CONTENT_TYPE; GENERIC_HEADER_CONTENT_ID;
    GENERIC_HEADER_CONTENT_BASE; GENERIC_HEADER_CONTENT_ENCODING;
    GENERIC_HEADER_CONTENT_LOCATION; GENERIC_HEADER_CONTENT_LENGTH;
    GENERIC_HEADER_CACHE_CONTROL; GENERIC_HEADER_LOGGING_TAG;
    GENERIC_HEADER_VENDOR_SPECIFIC_PARAMS; GENERIC_HEADER_ACCEPT;
    GENERIC_HEADER_FETCH_TIMEOUT; GENERIC_HEADER_SET_COOKIE; GENERIC_HEADER_SET_COOKIE2 ].

Definition generic_header_id_num : mrcp_generic_header_id -> Z := enum_num generic_header_ids.
Definition generic_header_id_of : Z -> option mrcp_generic_header_id := enum_of generic_header_ids.

Definition MAX_ACTIVE_REQUEST_ID_COUNT : nat := 5.

(** The list of request identifiers is the used part of an array of
    [MAX_ACTIVE_REQUEST_ID_COUNT] entries. *)
Record mrcp_generic_header_t := mk_generic_header {
  active_request_id_list : list Z;
  proxy_sync_id : apt_str_t;
  accept_charset : apt_str_t;
  content_type : apt_str_t;
  content_id : apt_str_t;
  content_base : apt_str_t;
  content_encoding : apt_str_t;
  content_location : apt_str_t;
  content_length : Z;
  cache_control : apt_str_t;
  logging_tag : apt_str_t;
  vendor_specific_params : option (list apt_pair_t);
  accept : apt_str_t;
  fetch_timeout : Z;
  set_cookie : apt_str_t;
  set_cookie2 : apt_str_t
}.

#[global] Instance eta_generic_header : Eta mrcp_generic_header_t := fun s =>
  mk_generic_header (active_request_id_list s) (proxy_sync_id s) (accept_charset s)
    (content_type s) (content_id s) (content_base s) (content_encoding s) (content_location s)
    (content_length s) (cache_control s) (logging_tag s) (vendor_specific_params s) (accept s)
    (fetch_timeout s) (set_cookie s) (set_cookie2 s).

Definition generic_header_string_table : list apt_str_table_item_t :=
  [ item "Active-Request-Id-List" 22 3;
    item "Proxy-Sync-Id" 13 0;
    item "Accept-Charset" 14 7;
    item "Content-Type" 12 9;
    item "Content-Id" 10 9;
    item "Content-Base" 12 8;
    item "Content-Encoding" 16 9;
    item "Content-Location" 16 9;
    item "Content-Length" 14 10;
    item "Cache-Control" 13 1;
    item "Logging-Tag" 11 0;
    item "Vendor-Specific-Parameters" 26 0;
    item "Accept" 6 6;
    item "Fetch-Timeout" 13 0;
    item "Set-Cookie" 10 10;
    item "Set-Cookie2" 11 10 ].

(** * Lists of request identifiers *)

(** The loop: at most the remaining capacity of the array. *)
Fixpoint request_ids_parse (room : nat) (st : apt_text_stream_t) : list Z :=
  match room with
  | O => []
  | S n =>
      let '(ok, field, st) := apt_text_field_read st ","%char true in
      if ok then mrcp_request_id_parse field :: request_ids_parse n st else []
  end.

Definition mrcp_request_id_list_parse (value : apt_str_t) : list Z :=
  request_ids_parse MAX_ACTIVE_REQUEST_ID_COUNT (stream_of_str value).

Section Runtime.
Context `{Apr}.

(** The loop over the identifiers: [m] is the buffer, [pos] the offset of the write
    pointer, [len] the length of the string.  Writes outside the buffer are
    undefined. *)
Fixpoint request_ids_generate (ids : list Z) (first : bool) (len : nat) (m : bytes) (pos : nat)
    : option (bool * bytes) :=
  match ids with
  | [] => if (pos <? length m)%nat then Some (true, overwrite m pos [NUL]) else None
  | id :: ids' =>
      let sep := if first then [] else [","%char] in
      let pos1 := (pos + length sep)%nat in
      let '(stored, r) := apr_snprintf (u64 (Z.of_nat len - Z.of_nat pos1)) (dec_signed (s32 id)) in
      if (pos1 + length stored <=? length m)%nat then
        let m := overwrite (overwrite m pos sep) pos1 stored in
        if r <? 0 then Some (false, m)
        else request_ids_generate ids' false len m (pos1 + Z.to_nat r)
      else None
  end.

(** Ten bytes are reserved per identifier, and the length of the string stays the
    reserved one. *)
Definition mrcp_request_id_list_generate (ids : list Z) : option (bool * apt_str_t) :=
  let count := length ids in
  let len := (10 * count + (if (1 <? count)%nat then count - 1 else 0))%nat in
  let? (ok, m) := request_ids_generate ids true len (apr_palloc (len + 1)) 0 in
  Some (ok, mk_str (Some m) len).

(** * The operations of the generic header *)

Definition mrcp_generic_header_init : mrcp_generic_header_t :=
  let e := apt_string_reset in
  mk_generic_header [] e e e e e e e 0 e e None e 0 e e.

Definition mrcp_generic_header_parse (g : mrcp_generic_header_t) (id : Z) (value : apt_str_t)
    : bool * mrcp_generic_header_t :=
  match generic_header_id_of id with
  | None => (false, g)
  | Some i =>
      (true,
       match i with
       | GENERIC_HEADER_ACTIVE_REQUEST_ID_LIST =>
           g <| active_request_id_list := mrcp_request_id_list_parse value |>
       | GENERIC_HEADER_PROXY_SYNC_ID => g <| proxy_sync_id := value |>
       | GENERIC_HEADER_ACCEPT_CHARSET => g <| accept_charset := value |>
       | GENERIC_HEADER_CONTENT_TYPE => g <| content_type := value |>
       | GENERIC_HEADER_CONTENT_ID => g <| content_id := value |>
       | GENERIC_HEADER_CONTENT_BASE => g <| content_base := value |>
       | GENERIC_HEADER_CONTENT_ENCODING => g <| content_encoding := value |>
       | GENERIC_HEADER_CONTENT_LOCATION => g <| content_location := value |>
       | GENERIC_HEADER_CONTENT_LENGTH => g <| content_length := apt_size_value_parse value |>
       | GENERIC_HEADER_CACHE_CONTROL => g <| cache_control := value |>
       | GENERIC_HEADER_LOGGING_TAG => g <| logging_tag := value |>
       | GENERIC_HEADER_VENDOR_SPECIFIC_PARAMS =>
           let arr := Some (default [] (vendor_specific_params g)) in
           g <| vendor_specific_params := snd (apt_pair_array_parse arr value) |>
       | GENERIC_HEADER_ACCEPT => g <| accept := value |>
       | GENERIC_HEADER_FETCH_TIMEOUT => g <| fetch_timeout := apt_size_value_parse value |>
       | GENERIC_HEADER_SET_COOKIE => g <| set_cookie := value |>
       | GENERIC_HEADER_SET_COOKIE2 => g <| set_cookie2 := value |>
       end)
  end.

(** The results of the generators are ignored; a list of pairs that is not there leaves
    the value as it is. *)
Definition mrcp_generic_header_generate (g : mrcp_generic_header_t) (id : Z) (value : apt_str_t)
    : option (bool * apt_str_t) :=
  match generic_header_id_of id with
  | None => Some (true, value)
  | Some i =>
      match i with
      | GENERIC_HEADER_ACTIVE_REQUEST_ID_LIST =>
          let? (_, s) := mrcp_request_id_list_generate (active_request_id_list g) in
          Some (true, s)
      | GENERIC_HEADER_PROXY_SYNC_ID => Some (true, proxy_sync_id g)
      | GENERIC_HEADER_ACCEPT_CHARSET => Some (true, accept_charset g)
      | GENERIC_HEADER_CONTENT_TYPE => Some (true, content_type g)
      | GENERIC_HEADER_CONTENT_ID => Some (true, content_id g)
      | GENERIC_HEADER_CONTENT_BASE => Some (true, content_base g)
      | GENERIC_HEADER_CONTENT_ENCODING => Some (true, content_encoding g)
      | GENERIC_HEADER_CONTENT_LOCATION => Some (true, content_location g)
      | GENERIC_HEADER_CONTENT_LENGTH => Some (true, apt_size_value_generate (content_length g))
      | GENERIC_HEADER_CACHE_CONTROL => Some (true, cache_control g)
      | GENERIC_HEADER_LOGGING_TAG => Some (true, logging_tag g)
      | GENERIC_HEADER_VENDOR_SPECIFIC_PARAMS =>
          Some (true, default value (apt_pair_array_generate (vendor_specific_params g)))
      | GENERIC_HEADER_ACCEPT => Some (true, accept g)
      | GENERIC_HEADER_FETCH_TIMEOUT => Some (true, apt_size_value_generate (fetch_timeout g))
      | GENERIC_HEADER_SET_COOKIE => Some (true, set_cookie g)
      | GENERIC_HEADER_SET_COOKIE2 => Some (true, set_cookie2 g)
      end
  end.

Definition mrcp_generic_header_duplicate (g src : mrcp_generic_header_t) (id : Z)
    (value : apt_str_t) : bool * mrcp_generic_header_t :=
  match generic_header_id_of id with
  | None => (false, g)
  | Some i =>
      (true,
       match i with
       | GENERIC_HEADER_ACTIVE_REQUEST_ID_LIST => g
       | GENERIC_HEADER_PROXY_SYNC_ID => g <| proxy_sync_id := value |>
       | GENERIC_HEADER_ACCEPT_CHARSET => g <| accept_charset := value |>
       | GENERIC_HEADER_CONTENT_TYPE => g <| content_type := value |>
       | GENERIC_HEADER_CONTENT_ID => g <| content_id := value |>
       | GENERIC_HEADER_CONTENT_BASE => g <| content_base := value |>
       | GENERIC_HEADER_CONTENT_ENCODING => g <| content_encoding := value |>
       | GENERIC_HEADER_CONTENT_LOCATION => g <| content_location := value |>
       | GENERIC_HEADER_CONTENT_LENGTH => g <| content_length := content_length src |>
       | GENERIC_HEADER_CACHE_CONTROL => g <| cache_control := value |>
       | GENERIC_HEADER_LOGGING_TAG => g <| logging_tag := value |>
       | GENERIC_HEADER_VENDOR_SPECIFIC_PARAMS =>
           g <| vendor_specific_params := apt_pair_array_copy (vendor_specific_params src) |>
       | GENERIC_HEADER_ACCEPT => g <| accept := value |>
       | GENERIC_HEADER_FETCH_TIMEOUT => g <| fetch_timeout := fetch_timeout src |>
       | GENERIC_HEADER_SET_COOKIE => g <| set_cookie := value |>
       | GENERIC_HEADER_SET_COOKIE2 => g <| set_cookie2 := value |>
       end)
  end.

(** The same table for every version of the protocol. *)
Definition mrcp_generic_header_vtable_get (v : mrcp_version_e)
    : mrcp_header_vtable_t mrcp_generic_header_t :=
  mk_vtable mrcp_generic_header_init mrcp_generic_header_parse mrcp_generic_header_generate
    mrcp_generic_header_duplicate generic_header_string_table GENERIC_HEADER_COUNT.

End Runtime.

Definition active_request_id_list_append (g : mrcp_generic_header_t) (id : Z)
    : bool * mrcp_generic_header_t :=
  if (MAX_ACTIVE_REQUEST_ID_COUNT <=? length (active_request_id_list g))%nat then (false, g)
  else (true, g <| active_request_id_list := active_request_id_list g ++ [id] |>).

Definition active_request_id_list_find (g : mrcp_generic_header_t) (id : Z) : bool :=
  existsb (fun i => i =? id) (active_request_id_list g).

(** * The numbering of the fields *)

Lemma generic_header_ids_all (i : mrcp_generic_header_id) :
  generic_header_id_of (generic_header_id_num i) = Some i.
Proof. by destruct i. Qed.

Lemma generic_header_num_inj (i j : mrcp_generic_header_id) :
  generic_header_id_num i = generic_header_id_num j -> i = j.
Proof.
  intros E%(f_equal generic_header_id_of). rewrite !generic_header_ids_all in E. by injection E.
Qed.

Lemma generic_header_table_ok :
  table_ok generic_header_string_table GENERIC_HEADER_COUNT = true /\
  table_distinct generic_header_string_table = true.
Proof. by vm_compute. Qed.

(** Fields kept as the text of their value. *)
Definition is_text_field (i : mrcp_generic_header_id) : bool :=
  match i with
  | GENERIC_HEADER_ACTIVE_REQUEST_ID_LIST | GENERIC_HEADER_CONTENT_LENGTH
  | GENERIC_HEADER_VENDOR_SPECIFIC_PARAMS | GENERIC_HEADER_FETCH_TIMEOUT => false
  | _ => true
  end.
Definition is_size_field (i : mrcp_generic_header_id) : bool :=
  match i with GENERIC_HEADER_CONTENT_LENGTH | GENERIC_HEADER_FETCH_TIMEOUT => true | _ => false end.

(** The fields of the generic header are independent.  Parsing a value into one field
    leaves what every other field generates unchanged; a textual field then generates
    exactly the parsed value, and a numeric field generates the same number.  Duplicating
    a textual field has the same effect as parsing its value. *)
Theorem generic_header_field_lens `{A : Apr} (g src : mrcp_generic_header_t)
    (i : mrcp_generic_header_id) (v w : apt_str_t) :
  let g' := snd (mrcp_generic_header_parse g (generic_header_id_num i) v) in
  fst (mrcp_generic_header_parse g (generic_header_id_num i) v) = true /\
  (forall j, j <> i -> mrcp_generic_header_generate g' (generic_header_id_num j) w =
                       mrcp_generic_header_generate g (generic_header_id_num j) w) /\
  (is_text_field i = true ->
     mrcp_generic_header_generate g' (generic_header_id_num i) w = Some (true, v) /\
     mrcp_generic_header_duplicate g src (generic_header_id_num i) v = (true, g')) /\
  (is_size_field i = true -> forall n follow, 0 <= n < 2 ^ 63 ->
     str_buf v = Some (dec n ++ follow) -> stops follow ->
     mrcp_generic_header_generate g' (generic_header_id_num i) w
       = Some (true, apt_size_value_generate n)).
Proof.
  cbv zeta. unfold mrcp_generic_header_parse, mrcp_generic_header_generate,
    mrcp_generic_header_duplicate. rewrite !generic_header_ids_all.
  split_and!; [done| | |].
  - intros j Hj. rewrite generic_header_ids_all. by destruct i, j.
  - by destruct i.
  - intros Hi n follow Hn Hv Hs. destruct i; try done; simpl; by rewrite (size_parse_text v n follow).
Qed.

(** * Lists of request identifiers *)

Definition request_ids_ok (g : mrcp_generic_header_t) : Prop :=
  (length (active_request_id_list g) <= MAX_ACTIVE_REQUEST_ID_COUNT)%nat.

Lemma request_ids_parse_length (n : nat) (st : apt_text_stream_t) :
  (length (request_ids_parse n st) <= n)%nat.
Proof.
  revert st. induction n as [|n IH]; intros st; [done|]; cbn [request_ids_parse].
  destruct (apt_text_field_read st ","%char true) as [[[] f] st']; cbn [length]; [|lia].
  specialize (IH st'). lia.
Qed.

(** The array of active request identifiers never overflows: whatever the value parsed
    it holds at most five identifiers, appending refuses (changing nothing) exactly when it
    is full and otherwise puts the identifier last, and the search finds exactly the
    identifiers the list holds. *)
Theorem active_request_id_list_bounded (g : mrcp_generic_header_t) (id id' : Z) (v : apt_str_t) :
  request_ids_ok g ->
  request_ids_ok (snd (mrcp_generic_header_parse g
                         (generic_header_id_num GENERIC_HEADER_ACTIVE_REQUEST_ID_LIST) v)) /\
  let '(ok, g') := active_request_id_list_append g id in
  request_ids_ok g' /\
  (ok = false <-> length (active_request_id_list g) = MAX_ACTIVE_REQUEST_ID_COUNT) /\
  (ok = false -> g' = g) /\
  (ok = true -> active_request_id_list g' = active_request_id_list g ++ [id]) /\
  (active_request_id_list_find g' id' = true <-> id' ∈ active_request_id_list g').
Proof.
  unfold request_ids_ok, active_request_id_list_append, active_request_id_list_find,
    MAX_ACTIVE_REQUEST_ID_COUNT. intros Hg.
  split; [apply request_ids_parse_length|].
  assert (Hfind : forall l, existsb (fun i => i =? id') l = true <-> id' ∈ l).
  { intros l. rewrite existsb_exists, list_elem_of_In. split.
    - intros (x & Hx & ->%Z.eqb_eq). done.
    - intros Hx. exists id'. by rewrite Z.eqb_refl. }
  destruct (Nat.leb_spec 5 (length (active_request_id_list g))).
  - split_and!; [done|split; [lia|done]|done|done|apply Hfind].
  - simpl. rewrite length_app. simpl. split_and!; [lia|split; [done|lia]|done|done|apply Hfind].
Qed.

Lemma active_request_id_list_bounded_witness :
  request_ids_ok (snd (mrcp_generic_header_parse mrcp_generic_header_init
    (generic_header_id_num GENERIC_HEADER_ACTIVE_REQUEST_ID_LIST) (str_lit "1,2,3,4,5,6,7"))).
Proof.
  apply (active_request_id_list_bounded mrcp_generic_header_init 1 1 (str_lit "1,2,3,4,5,6,7")).
  vm_compute. lia.
Defined.

(** The value generated for a list of one request identifier of fewer than ten digits
    is ten bytes long whatever the number of its digits: after the number and its
    terminating NUL the value carries bytes of the allocation that were never written. *)
Theorem request_id_list_generate_length `{L : AprLaws} (id : Z) :
  0 <= id < 10 ^ 9 ->
  exists s, mrcp_request_id_list_generate [id] = Some (true, s) /\ str_len s = 10%nat /\
    str_text s = dec id ++ [NUL] ++ take (9 - length (dec id))
                                     (drop (length (dec id) + 1) (apr_palloc 11)).
Proof.
  intros Hid. unfold mrcp_request_id_list_generate. simpl length. cbn [Nat.mul Nat.ltb Nat.leb Nat.add].
  pose proof (dec_length_le id 9 Hid ltac:(lia)) as Hl.
  pose proof (dec_length id ltac:(lia)) as Hl1. cbv zeta in Hl1.
  assert (Hs : dec_signed (s32 id) = dec id).
  { unfold dec_signed, s32. rewrite Z.mod_small by lia.
    destruct (Z.ltb_spec id (2 ^ 31)); [|lia]. destruct (Z.ltb_spec id 0); [lia|done]. }
  cbn [request_ids_generate]. rewrite Hs. cbn [length Nat.add].
  rewrite u64_small, apr_snprintf_stored by lia.
  rewrite take_ge by lia. rewrite length_app, apr_palloc_length. cbn [length].
  destruct (Nat.leb_spec (length (dec id) + 1) 11); [|lia].
  destruct (Z.ltb_spec (Z.of_nat (length (dec id))) 0); [lia|].
  change (overwrite (apr_palloc 11) 0 []) with (apr_palloc 11). rewrite Nat2Z.id.
  rewrite !overwrite_length; rewrite ?length_app, ?apr_palloc_length; cbn [length]; [|lia].
  destruct (Nat.ltb_spec (length (dec id)) 11); [|lia].
  eexists. split; [reflexivity|]. split; [done|].
  unfold str_text, str_mem. cbn [str_buf str_len]. unfold overwrite at 2. cbn [take app].
  rewrite take_0, app_nil_l, <-app_assoc.
  rewrite (overwrite_mid (dec id) [NUL] _ [NUL]) by done.
  rewrite take_app_ge by lia. f_equal. rewrite length_app. cbn [length Nat.add].
  rewrite take_app_ge by (simpl; lia). cbn [length]. do 2 f_equal. lia.
Qed.

Lemma request_id_list_generate_length_witness :
  exists s, @mrcp_request_id_list_generate apr_reference [42] = Some (true, s) /\
    str_len s = 10%nat /\ str_text s = lit "42" ++ [NUL] ++ lit "???????".
Proof.
  destruct (@request_id_list_generate_length apr_reference apr_reference_laws 42 ltac:(lia))
    as (s & H1 & H2 & H3).
  exists s. split; [exact H1|]. split; [exact H2|]. rewrite H3. reflexivity.
Defined.

Section ListsInBounds.
Context `{L : AprLaws}.

Lemma dec_signed_length (id : Z) : (1 <= length (dec_signed (s32 id)) <= 11)%nat.
Proof.
  unfold dec_signed. pose proof (s32_range id).
  destruct (Z.ltb_spec (s32 id) 0); cbn [length].
  - pose proof (dec_length_le (- s32 id) 10 ltac:(lia) ltac:(lia)). lia.
  - pose proof (dec_length_le (s32 id) 10 ltac:(lia) ltac:(lia)).
    pose proof (dec_length (s32 id) ltac:(lia)) as []. lia.
Qed.

(** The loop stays in the buffer as long as an identifier always finds a byte of room. *)
Lemma request_ids_generate_defined (ids : list Z) (first : bool) (len : nat) (m : bytes) (pos : nat) :
  length m = (len + 1)%nat -> (pos <= len)%nat -> Z.of_nat len < 2 ^ 64 ->
  (ids <> [] -> (pos + (if first then 0 else 1) + 12 * (length ids - 1) < len)%nat) ->
  exists m', request_ids_generate ids first len m pos = Some (true, m').
Proof.
  revert first m pos. induction ids as [|id ids IH]; intros first m pos Hm Hp Hl Hroom.
  - cbn [request_ids_generate]. rewrite (proj2 (Nat.ltb_lt _ _)) by lia. eauto.
  - specialize (Hroom ltac:(done)). cbn [request_ids_generate].
    set (sep := if first then [] else _).
    assert (Hsep : length sep = if first then 0%nat else 1%nat) by (by destruct first).
    rewrite Hsep. cbn [length] in Hroom.
    pose proof (dec_signed_length id) as Hd. set (t := dec_signed (s32 id)) in *.
    set (pos1 := (pos + _)%nat) in *.
    rewrite u64_small, apr_snprintf_stored by lia.
    set (k := Z.to_nat _). set (stored := take k t).
    assert (Hst : (length stored <= 11 /\ length stored <= len - pos1 - 1)%nat)
      by (unfold stored, k; rewrite length_take; lia).
    rewrite length_app. cbn [length].
    rewrite (proj2 (Nat.leb_le _ _)) by lia.
    destruct (Z.ltb_spec (Z.of_nat (length stored)) 0); [lia|]. rewrite Nat2Z.id.
    apply IH; [|lia|done|].
    + assert (Ho : length (overwrite m pos sep) = length m) by (apply overwrite_length; lia).
      rewrite overwrite_length, Ho; [done|]. rewrite Ho, length_app. cbn [length]. lia.
    + intros Hne. destruct ids; [done|]. cbn [length] in *. lia.
Qed.

Lemma request_id_list_generate_defined (ids : list Z) :
  (length ids <= MAX_ACTIVE_REQUEST_ID_COUNT)%nat ->
  exists s, mrcp_request_id_list_generate ids = Some (true, s).
Proof.
  unfold MAX_ACTIVE_REQUEST_ID_COUNT. intros H. unfold mrcp_request_id_list_generate.
  set (len := (_ + _)%nat).
  assert (Hlen : (len <= 54 /\ (ids <> [] -> 12 * (length ids - 1) < len))%nat).
  { unfold len. destruct ids as [|i [|j ids]]; cbn [length] in *; [split; [simpl; lia|done]|simpl; lia|].
    rewrite (proj2 (Nat.ltb_lt _ _)) by lia. lia. }
  destruct (request_ids_generate_defined ids true len (apr_palloc (len + 1)) 0) as [m' E];
    [by rewrite apr_palloc_length|lia|lia|intros Hne; destruct Hlen as [_ Hl]; specialize (Hl Hne); cbn [Nat.add]; lia|].
  rewrite E. eauto.
Qed.
End ListsInBounds.

Lemma request_ids_append_ok (g : mrcp_generic_header_t) (id : Z) :
  request_ids_ok g -> request_ids_ok (snd (active_request_id_list_append g id)).
Proof.
  unfold request_ids_ok, active_request_id_list_append, MAX_ACTIVE_REQUEST_ID_COUNT. intros H.
  destruct (Nat.leb_spec 5 (length (active_request_id_list g))); simpl; [done|].
  rewrite length_app. simpl. lia.
Qed.
