(* ===== verification/Message.v ===== *)
(** MRCP messages ([libs/mrcp/message/include/mrcp_message.h], [src/mrcp_message.c]) and
    the resource they belong to ([libs/mrcp/control/include/mrcp_resource.h]).

    The resource header is a type parameter [R]: messages of one resource carry one type
    of resource header. *)

From S2P Require Import Prelude AptString TextStream TextValues HeaderField TextMessage StartLine MrcpHeader GenericHeader.

(** * Resources *)

Record mrcp_resource_t (R : Type) := mk_resource {
  resource_id : Z;
  name : apt_str_t;
  get_method_str_table : mrcp_version_e -> list apt_str_table_item_t;
  method_count : Z;
  get_event_str_table : mrcp_version_e -> list apt_str_table_item_t;
  event_count : Z;
  get_resource_header_vtable : mrcp_version_e -> option (mrcp_header_vtable_t R)
}.
Arguments mk_resource {R}.
Arguments resource_id {R}.
Arguments name {R}.
Arguments get_method_str_table {R}.
Arguments method_count {R}.
Arguments get_event_str_table {R}.
Arguments event_count {R}.
Arguments get_resource_header_vtable {R}.

(** * Messages *)

Record mrcp_message_t (R : Type) := mk_message {
  start_line : mrcp_start_line_t;
  channel_id : mrcp_channel_id;
  header : mrcp_message_header_t mrcp_generic_header_t R;
  body : apt_str_t;
  resource : option (mrcp_resource_t R)
}.
Arguments mk_message {R}.
Arguments start_line {R}.
Arguments channel_id {R}.
Arguments header {R}.
Arguments body {R}.
Arguments resource {R}.

#[global] Instance eta_message (R : Type) : Eta (mrcp_message_t R) :=
  fun s => mk_message (start_line s) (channel_id s) (header s) (body s) (resource s).
#[global] Instance eta_channel_id : Eta mrcp_channel_id :=
  fun s => mk_channel_id (session_id s) (resource_name s).

Section Message.
Context `{Apr} {R : Type}.

Definition set_start_line (f : mrcp_start_line_t -> mrcp_start_line_t) (m : mrcp_message_t R)
    : mrcp_message_t R := m <| start_line := f (start_line m) |>.

(** Header data is allocated anew and the header array with it. *)
Definition message_header_alloc (m : mrcp_message_t R) (r : mrcp_resource_t R) : mrcp_message_t R :=
  let v := version (start_line m) in
  m <| header := snd (mrcp_message_header_data_alloc (header m)
         (Some (mrcp_generic_header_vtable_get v)) (get_resource_header_vtable r v)) |>.

(** The method or event name is taken from the table of the resource. *)
Definition mrcp_message_resource_set_by_id (m : mrcp_message_t R)
    (res : option (mrcp_resource_t R)) : bool * mrcp_message_t R :=
  match res with
  | None => (false, m)
  | Some r =>
      let m := m <| resource := Some r |> in
      let m := m <| channel_id := (channel_id m) <| resource_name := name r |> |> in
      let m := message_header_alloc m r in
      let sl := start_line m in
      let lookup table count :=
        match apt_string_table_str_get table count (method_id sl) with
        | None => (false, m)
        | Some n => (true, set_start_line (fun sl => sl <| method_name := n |>) m)
        end in
      match message_type sl with
      | MRCP_MESSAGE_TYPE_REQUEST =>
          lookup (get_method_str_table r (version sl)) (method_count r)
      | MRCP_MESSAGE_TYPE_EVENT =>
          lookup (get_event_str_table r (version sl)) (event_count r)
      | _ => (true, m)
      end
  end.

(** The method or event identifier is found by the name. *)
Definition mrcp_message_resource_set (m : mrcp_message_t R)
    (res : option (mrcp_resource_t R)) : bool * mrcp_message_t R :=
  match res with
  | None => (false, m)
  | Some r =>
      let m := message_header_alloc (m <| resource := Some r |>) r in
      let sl := start_line m in
      let find table count :=
        let id := apt_string_table_id_find table count (method_name sl) in
        (negb (count <=? id), set_start_line (fun sl => sl <| method_id := id |>) m) in
      match message_type sl with
      | MRCP_MESSAGE_TYPE_REQUEST =>
          find (get_method_str_table r (version sl)) (method_count r)
      | MRCP_MESSAGE_TYPE_EVENT =>
          find (get_event_str_table r (version sl)) (event_count r)
      | _ => (true, m)
      end
  end.

(** The start line before initialisation: memory just allocated. *)
Definition start_line_uninit : mrcp_start_line_t :=
  mk_start_line MRCP_MESSAGE_TYPE_UNKNOWN MRCP_VERSION_UNKNOWN apr_uninit apr_uninit
    apt_string_reset apr_uninit apr_uninit MRCP_REQUEST_STATE_UNKNOWN.

Definition mrcp_message_create : mrcp_message_t R :=
  mk_message (mrcp_start_line_init start_line_uninit) mrcp_channel_id_init
    mrcp_message_header_init apt_string_reset None.

Definition mrcp_request_create (res : option (mrcp_resource_t R)) (v : mrcp_version_e) (id : Z)
    : mrcp_message_t R :=
  let m := set_start_line (fun sl =>
             sl <| message_type := MRCP_MESSAGE_TYPE_REQUEST |>
                <| version := v |> <| method_id := id |>) mrcp_message_create in
  snd (mrcp_message_resource_set_by_id m res).

Definition mrcp_response_create (request : option (mrcp_message_t R)) : mrcp_message_t R :=
  let m := set_start_line (fun sl =>
             sl <| message_type := MRCP_MESSAGE_TYPE_RESPONSE |>
                <| request_state := MRCP_REQUEST_STATE_COMPLETE |>
                <| status_code := MRCP_STATUS_CODE_SUCCESS |>) mrcp_message_create in
  match request with
  | None => m
  | Some req =>
      let m := m <| channel_id := channel_id req |> in
      let m := set_start_line (fun sl =>
                 sl <| request_id := request_id (start_line req) |>
                    <| version := version (start_line req) |>
                    <| method_id := method_id (start_line req) |>
                    <| method_name := method_name (start_line req) |>) m in
      snd (mrcp_message_resource_set_by_id m (resource req))
  end.

Definition mrcp_event_create (request : option (mrcp_message_t R)) (event_id : Z)
    : mrcp_message_t R :=
  let m := set_start_line (fun sl =>
             sl <| message_type := MRCP_MESSAGE_TYPE_EVENT |>
                <| method_id := event_id |>) mrcp_message_create in
  match request with
  | None => m
  | Some req =>
      let m := m <| channel_id := channel_id req |> in
      let m := set_start_line (fun sl =>
                 sl <| request_id := request_id (start_line req) |>
                    <| version := version (start_line req) |>) m in
      snd (mrcp_message_resource_set_by_id m (resource req))
  end.

(** * Header properties *)

Definition mrcp_generic_header_get (m : mrcp_message_t R) : option mrcp_generic_header_t :=
  data (generic_header_accessor (header m)).

Definition mrcp_generic_header_prepare (m : mrcp_message_t R)
    : option mrcp_generic_header_t * mrcp_message_t R :=
  let acc := mrcp_header_allocate (generic_header_accessor (header m)) in
  (data acc, m <| header := (header m) <| generic_header_accessor := acc |> |>).

Definition mrcp_resource_header_get (m : mrcp_message_t R) : option R :=
  data (resource_header_accessor (header m)).

Definition mrcp_resource_header_prepare (m : mrcp_message_t R) : option R * mrcp_message_t R :=
  let acc := mrcp_header_allocate (resource_header_accessor (header m)) in
  (data acc, m <| header := (header m) <| resource_header_accessor := acc |> |>).

(** Assignment through the pointer to the generic header. *)
Definition set_generic_header (g : mrcp_generic_header_t) (m : mrcp_message_t R)
    : mrcp_message_t R :=
  m <| header := (header m) <| generic_header_accessor :=
         (generic_header_accessor (header m)) <| data := Some g |> |> |>.
(** Assignment through the pointer to the resource header. *)
Definition set_resource_header (r : R) (m : mrcp_message_t R) : mrcp_message_t R :=
  m <| header := (header m) <| resource_header_accessor :=
         (resource_header_accessor (header m)) <| data := Some r |> |> |>.

(** Add a generated field, numbered [num], to the section. *)
Definition property_add (f : option (option apt_header_field_t)) (num : Z) (m : mrcp_message_t R)
    : option (bool * mrcp_message_t R) :=
  let? field := f in
  match field with
  | None => Some (false, m)
  | Some hf =>
      let '(ok, sec) := apt_header_section_field_add (header_section (header m)) (set_hf_id num hf) in
      Some (ok, m <| header := (header m) <| header_section := sec |> |>)
  end.

Definition mrcp_generic_header_property_add (m : mrcp_message_t R) (id : Z)
    : option (bool * mrcp_message_t R) :=
  property_add (mrcp_header_field_value_generate (generic_header_accessor (header m)) id false) id m.

Definition mrcp_generic_header_name_property_add (m : mrcp_message_t R) (id : Z)
    : option (bool * mrcp_message_t R) :=
  property_add (mrcp_header_field_value_generate (generic_header_accessor (header m)) id true) id m.

Definition mrcp_resource_header_property_add (m : mrcp_message_t R) (id : Z)
    : option (bool * mrcp_message_t R) :=
  property_add (mrcp_header_field_value_generate (resource_header_accessor (header m)) id false)
    (id + GENERIC_HEADER_COUNT) m.

Definition mrcp_resource_header_name_property_add (m : mrcp_message_t R) (id : Z)
    : option (bool * mrcp_message_t R) :=
  property_add (mrcp_header_field_value_generate (resource_header_accessor (header m)) id true)
    (id + GENERIC_HEADER_COUNT) m.

Definition property_remove (m : mrcp_message_t R) (num : Z) : bool * mrcp_message_t R :=
  match section_lookup (header_section (header m)) num with
  | Some (a, f) =>
      let '(ok, sec) := apt_header_section_field_remove (header_section (header m)) a f in
      (ok, m <| header := (header m) <| header_section := sec |> |>)
  | None => (false, m)
  end.

Definition mrcp_generic_header_property_remove (m : mrcp_message_t R) (id : Z) :=
  property_remove m id.
Definition mrcp_resource_header_property_remove (m : mrcp_message_t R) (id : Z) :=
  property_remove m (id + GENERIC_HEADER_COUNT).

Definition mrcp_generic_header_property_check (m : mrcp_message_t R) (id : Z) : bool :=
  apt_header_section_field_check (header_section (header m)) id.
Definition mrcp_resource_header_property_check (m : mrcp_message_t R) (id : Z) : bool :=
  apt_header_section_field_check (header_section (header m)) (id + GENERIC_HEADER_COUNT).

Definition mrcp_message_header_field_add (m : mrcp_message_t R) (f : apt_header_field_t)
    : option (bool * mrcp_message_t R) :=
  let? (ok, h) := mrcp_header_field_add (header m) f in Some (ok, m <| header := h |>).

(** The content length must be there for a message with a body. *)
Definition mrcp_message_validate (m : mrcp_message_t R) : option (bool * mrcp_message_t R) :=
  if (str_len (body m) =? 0)%nat then Some (true, m)
  else
    let '(g, m) := mrcp_generic_header_prepare m in
    match g with
    | None => Some (false, m)
    | Some g =>
        let cl := generic_header_id_num GENERIC_HEADER_CONTENT_LENGTH in
        if negb (mrcp_generic_header_property_check m cl) || (content_length g =? 0) then
          let m := set_generic_header (g <| content_length := Z.of_nat (str_len (body m)) |>) m in
          let? (_, m) := mrcp_generic_header_property_add m cl in
          Some (true, m)
        else Some (true, m)
    end.

End Message.

(** * Properties *)

(** Reduce projections of updated records. *)
Ltac msg_cbv :=
  cbv beta iota zeta delta [field_set set_start_line message_type version length_ request_id
    method_name method_id status_code request_state start_line channel_id header body resource
    session_id resource_name generic_header_accessor resource_header_accessor header_section
    data vtable fst snd].

Section Properties.
Context `{Apr} {R : Type}.
Implicit Types (m : mrcp_message_t R) (r : mrcp_resource_t R).

(** A resource whose tables are in order, for one version. *)
Record resource_ok r (v : mrcp_version_e) : Prop := {
  methods_ok : table_ok (get_method_str_table r v) (method_count r) = true /\
               table_distinct (get_method_str_table r v) = true;
  events_ok : table_ok (get_event_str_table r v) (event_count r) = true /\
              table_distinct (get_event_str_table r v) = true;
  header_ok : exists vt, get_resource_header_vtable r v = Some vt /\ 0 <= field_count vt
}.

(** A header as it is allocated: initial data, no field, room for every known field. *)
Definition fresh_header (h : mrcp_message_header_t mrcp_generic_header_t R) (v : mrcp_version_e)
    (vt : mrcp_header_vtable_t R) : Prop :=
  generic_header_accessor h =
    mk_accessor (Some mrcp_generic_header_init) (Some (mrcp_generic_header_vtable_get v)) /\
  resource_header_accessor h = mk_accessor (Some (allocate vt)) (Some vt) /\
  header_section h = mk_section [] (replicate (Z.to_nat (16 + field_count vt)) None) 0.

Lemma data_alloc_fresh (h : mrcp_message_header_t mrcp_generic_header_t R) r
    (v : mrcp_version_e) (vt : mrcp_header_vtable_t R) :
  get_resource_header_vtable r v = Some vt -> 0 <= field_count vt ->
  header_section h = apt_header_section_init ->
  fresh_header (snd (mrcp_message_header_data_alloc h (Some (mrcp_generic_header_vtable_get v))
                       (get_resource_header_vtable r v))) v vt.
Proof.
  intros Hv Hc Hs. unfold mrcp_message_header_data_alloc. rewrite Hv, Hs.
  unfold apt_header_section_array_alloc. cbn [mrcp_generic_header_vtable_get field_count].
  unfold GENERIC_HEADER_COUNT. by destruct (Z.eqb_spec (16 + field_count vt) 0); [lia|].
Qed.

(** The start line of a response to [req]. *)
Definition response_line (req : mrcp_start_line_t) : mrcp_start_line_t :=
  mk_start_line MRCP_MESSAGE_TYPE_RESPONSE (version req) 0 (request_id req) (method_name req)
    (method_id req) MRCP_STATUS_CODE_SUCCESS MRCP_REQUEST_STATE_COMPLETE.

Lemma response_create_start_line (req : mrcp_message_t R) :
  start_line (mrcp_response_create (Some req)) = response_line (start_line req).
Proof.
  unfold mrcp_response_create, mrcp_message_resource_set_by_id, response_line, message_header_alloc,
    mrcp_message_create, mrcp_start_line_init.
  destruct (resource req) as [r|]; by msg_cbv.
Qed.

(** The line of an event that [req] gave rise to. *)
Definition event_line (req : mrcp_start_line_t) (id : Z) (n : apt_str_t) : mrcp_start_line_t :=
  mk_start_line MRCP_MESSAGE_TYPE_EVENT (version req) 0 (request_id req) n id
    MRCP_STATUS_CODE_UNKNOWN MRCP_REQUEST_STATE_UNKNOWN.

(** What a message created for [req] takes over from it besides the start line. *)
Definition created_for (req m : mrcp_message_t R) r : Prop :=
  session_id (channel_id m) = session_id (channel_id req) /\
  resource_name (channel_id m) = name r /\ resource m = Some r /\ body m = apt_string_reset /\
  exists vt, get_resource_header_vtable r (version (start_line req)) = Some vt /\
             fresh_header (header m) (version (start_line req)) vt.

Lemma response_created_for (req : mrcp_message_t R) r :
  resource req = Some r -> resource_ok r (version (start_line req)) ->
  created_for req (mrcp_response_create (Some req)) r.
Proof.
  intros Hr [_ _ (vt & Hv & Hc)]. unfold mrcp_response_create, mrcp_message_resource_set_by_id.
  rewrite Hr. split_and!; try done. exists vt. split; [done|]. by apply data_alloc_fresh.
Qed.

Lemma event_created_for (req : mrcp_message_t R) r (id : Z) :
  resource req = Some r -> resource_ok r (version (start_line req)) -> 0 <= id < event_count r ->
  exists n, apt_string_table_str_get (get_event_str_table r (version (start_line req)))
              (event_count r) id = Some n /\
    start_line (mrcp_event_create (Some req) id) = event_line (start_line req) id n /\
    created_for req (mrcp_event_create (Some req) id) r.
Proof.
  destruct req as [[ty ver len0 rid nm mid sc rs] cid h b res].
  cbn [resource start_line version]. intros -> Hok Hid.
  destruct Hok as [_ [Ht Hd] (vt & Hv & Hc)].
  destruct (table_roundtrip _ _ id Ht Hd Hid) as (n & Hn & _). exists n. split; [done|].
  unfold mrcp_event_create, mrcp_message_resource_set_by_id, message_header_alloc,
    mrcp_message_create, mrcp_start_line_init, start_line_uninit, event_line.
  msg_cbv. rewrite Hn. msg_cbv. split; [done|].
  split_and!; try done. exists vt. split; [done|]. by apply data_alloc_fresh.
Qed.

(** A response created for a request, and an event raised for it, carry what correlates
    them: the version and the request identifier of the request, its session and the name of
    its resource; the response repeats the method and is a complete success, the event has its
    own name from the table of the resource.  Both start with an empty body and a header with
    no fields. *)
Theorem created_messages_correlate (req : mrcp_message_t R) r (id : Z) :
  resource req = Some r -> resource_ok r (version (start_line req)) -> 0 <= id < event_count r ->
  (start_line (mrcp_response_create (Some req)) = response_line (start_line req) /\
   created_for req (mrcp_response_create (Some req)) r) /\
  exists n, apt_string_table_str_get (get_event_str_table r (version (start_line req)))
              (event_count r) id = Some n /\
    start_line (mrcp_event_create (Some req) id) = event_line (start_line req) id n /\
    created_for req (mrcp_event_create (Some req) id) r.
Proof.
  intros Hr Hok Hid. split; [|by apply event_created_for].
  split; [apply response_create_start_line|by apply response_created_for].
Qed.

(** ** Names and identifiers of methods *)

Definition table_of r (ty : mrcp_message_type_e) (v : mrcp_version_e) : list apt_str_table_item_t * Z :=
  match ty with
  | MRCP_MESSAGE_TYPE_REQUEST => (get_method_str_table r v, method_count r)
  | MRCP_MESSAGE_TYPE_EVENT => (get_event_str_table r v, event_count r)
  | _ => ([], 0)
  end.

(** Naming a message by its method or event identifier and finding the identifier by
    the name are inverse: a message completed by [mrcp_message_resource_set_by_id] gets a name
    for which [mrcp_message_resource_set] recovers the identifier in any message of the same
    type and version that carries it. *)
Theorem resource_set_roundtrip m m' r :
  let sl := start_line m in
  resource_ok r (version sl) -> 0 <= method_id sl < snd (table_of r (message_type sl) (version sl)) ->
  let '(ok, named) := mrcp_message_resource_set_by_id m (Some r) in
  ok = true /\
  (message_type (start_line m') = message_type sl -> version (start_line m') = version sl ->
   method_name (start_line m') = method_name (start_line named) ->
   let '(ok', found) := mrcp_message_resource_set m' (Some r) in
   ok' = true /\ method_id (start_line found) = method_id sl /\ resource found = Some r).
Proof.
  destruct m as [[ty ver len0 rid nm mid sc rs] cid h b res],
    m' as [[ty' ver' len0' rid' nm' mid' sc' rs'] cid' h' b' res'].
  cbv zeta. cbn [start_line message_type version method_id]. intros [[Mt Md] [Et Ed] _] Hid.
  destruct ty; cbn [table_of snd] in Hid; [lia| |lia| ];
    (edestruct table_roundtrip as (n & Hn & Hf); [| |exact Hid|]; [eassumption..|];
     unfold mrcp_message_resource_set_by_id, message_header_alloc; msg_cbv;
     rewrite Hn; msg_cbv; split; [done|]; intros -> -> ->;
     unfold mrcp_message_resource_set, message_header_alloc; msg_cbv; rewrite Hf;
     split_and!; [|done..]; apply negb_true_iff, Z.leb_gt; lia).
Qed.

(** ** Content length *)

(** The generic header of the library, with data or not yet. *)
Definition generic_ok m : Prop :=
  exists v d, generic_header_accessor (header m) = mk_accessor d (Some (mrcp_generic_header_vtable_get v)) /\
    match d with Some g => request_ids_ok g | None => True end.

Lemma generic_prepare m :
  generic_ok m ->
  exists v g, request_ids_ok g /\
    g = default mrcp_generic_header_init (data (generic_header_accessor (header m))) /\
    mrcp_generic_header_prepare m =
    (Some g, m <| header := (header m) <| generic_header_accessor :=
               mk_accessor (Some g) (Some (mrcp_generic_header_vtable_get v)) |> |>).
Proof.
  intros (v & d & E & Hd). unfold mrcp_generic_header_prepare, mrcp_header_allocate. rewrite E.
  destruct d as [g|]; [by exists v, g|].
  exists v, mrcp_generic_header_init. split_and!; [vm_compute; lia|done..].
Qed.

(** The field added for a generic property with data [g]. *)
Lemma generic_property_add m (i : mrcp_generic_header_id) (v : mrcp_version_e) g s :
  generic_header_accessor (header m) = mk_accessor (Some g) (Some (mrcp_generic_header_vtable_get v)) ->
  mrcp_generic_header_generate g (generic_header_id_num i) apt_string_reset = Some (true, s) ->
  exists n, apt_string_table_str_get generic_header_string_table GENERIC_HEADER_COUNT
              (generic_header_id_num i) = Some n /\
    mrcp_generic_header_property_add m (generic_header_id_num i) =
    let '(ok, sec) := apt_header_section_field_add (header_section (header m))
                        (mk_field n s (generic_header_id_num i)) in
    Some (ok, m <| header := (header m) <| header_section := sec |> |>).
Proof.
  intros E Hs. unfold mrcp_generic_header_property_add, mrcp_header_field_value_generate. rewrite E.
  cbn [vtable data mrcp_generic_header_vtable_get field_table field_count generate_field].
  destruct (table_roundtrip generic_header_string_table GENERIC_HEADER_COUNT
              (generic_header_id_num i)) as (n & Hn & _);
    [by apply generic_header_table_ok..|by destruct i|].
  exists n. split; [done|]. rewrite Hn. cbn [hf_value hf_id apt_header_field_alloc]. by rewrite Hs.
Qed.

(** A message with a body and no Content-Length field is validated by adding one: the
    section is extended by exactly this field, whose value is the length of the body, the
    generic header records it, and the rest of the message is unchanged. *)
Theorem mrcp_message_validate_content_length m :
  generic_ok m -> section_wf (header_section (header m)) ->
  GENERIC_HEADER_COUNT <= arr_size (header_section (header m)) ->
  str_len (body m) <> 0%nat ->
  let cl := generic_header_id_num GENERIC_HEADER_CONTENT_LENGTH in
  sec_get (header_section (header m)) cl = None ->
  exists m' n, mrcp_message_validate m = Some (true, m') /\
    apt_string_table_str_get generic_header_string_table GENERIC_HEADER_COUNT cl = Some n /\
    (let f := mk_field n (apt_size_value_generate (Z.of_nat (str_len (body m)))) cl in
     sec_fields (header_section (header m')) = sec_fields (header_section (header m)) ++ [f] /\
     sec_get (header_section (header m')) cl = Some f) /\
    (exists g, mrcp_generic_header_get m' = Some g /\ content_length g = Z.of_nat (str_len (body m))) /\
    start_line m' = start_line m /\ channel_id m' = channel_id m /\ body m' = body m.
Proof.
  intros Hg W Hsz Hb cl Hn. unfold mrcp_message_validate.
  rewrite (proj2 (Nat.eqb_neq _ _)) by done.
  destruct (generic_prepare m Hg) as (v & g & _ & _ & ->). fold cl.
  set (m1 := m <| header := _ |>).
  assert (Hchk : mrcp_generic_header_property_check m1 cl = false).
  { apply sec_get_None_get in Hn; [|done|done].
    unfold mrcp_generic_header_property_check, apt_header_section_field_check,
      apt_header_section_field_get in *.
    change (header_section (header m1)) with (header_section (header m)).
    destruct (cl <? _); [by rewrite Hn|done]. }
  rewrite Hchk. cbn [negb orb].
  set (g' := g <| content_length := _ |>). set (m2 := set_generic_header g' m1).
  destruct (generic_property_add m2 GENERIC_HEADER_CONTENT_LENGTH v g'
              (apt_size_value_generate (Z.of_nat (str_len (body m))))) as (n & Ht & Ha); [done..|].
  fold cl in Ht, Ha. rewrite Ha.
  set (f := mk_field n _ cl).
  destruct (sec_get_add (header_section (header m)) f cl W) as (_ & _ & Hf & Hgt);
    [done|done|done|].
  rewrite (bool_decide_true _ eq_refl), (proj2 (Z.ltb_lt _ _)) in Hgt
    by (change cl with 8; unfold GENERIC_HEADER_COUNT in Hsz; lia).
  change (header_section (header m2)) with (header_section (header m)).
  destruct (apt_header_section_field_add _ f) as [ok sec] eqn:Ea. cbn [snd] in Hf, Hgt.
  eexists _, n. split; [reflexivity|]. split; [done|]. split; [split; [exact Hf|exact Hgt]|].
  split; [exists g'; done|done].
Qed.
End Properties.

(** A resource of one method and one event without header fields. *)
Definition sample_resource : mrcp_resource_t unit :=
  mk_resource 0 (str_lit "sample") (fun _ => [item "SPEAK" 5 0]) 1
    (fun _ => [item "SPEAK-COMPLETE" 14 0]) 1
    (fun _ => Some (mk_vtable tt (fun d _ _ => (false, d)) (fun _ _ v => Some (false, v))
                      (fun d _ _ _ => (false, d)) [] 0)).

Lemma sample_resource_ok (v : mrcp_version_e) : resource_ok sample_resource v.
Proof.
  split; [split; vm_compute; reflexivity..|]. eexists. split; [reflexivity|]. cbn [field_count]. lia.
Qed.

Definition sample_request : mrcp_message_t unit :=
  @mrcp_request_create apr_reference unit (Some sample_resource) MRCP_VERSION_2 0.

Lemma created_messages_correlate_witness :
  start_line (@mrcp_response_create apr_reference unit (Some sample_request))
  = response_line (start_line sample_request).
Proof.
  apply (@created_messages_correlate apr_reference unit sample_request sample_resource 0);
    [reflexivity|apply sample_resource_ok|cbn [event_count sample_resource]; lia].
Defined.

Lemma resource_set_roundtrip_witness :
  fst (@mrcp_message_resource_set_by_id apr_reference unit sample_request (Some sample_resource))
  = true.
Proof.
  pose proof (@resource_set_roundtrip apr_reference unit sample_request sample_request sample_resource
                (sample_resource_ok _) ltac:(vm_compute; split; congruence)) as Hw.
  destruct (@mrcp_message_resource_set_by_id apr_reference unit sample_request (Some sample_resource))
    as [ok nm].
  exact (proj1 Hw).
Defined.

Definition sample_with_body : mrcp_message_t unit :=
  sample_request <| body := str_lit "hello" |>.

Lemma sample_with_body_section :
  header_section (header sample_with_body) = mk_section [] (replicate 16 None) 0.
Proof. reflexivity. Qed.

Lemma mrcp_message_validate_content_length_witness :
  exists m', mrcp_message_validate sample_with_body = Some (true, m') /\
    exists f, sec_get (header_section (header m'))
                (generic_header_id_num GENERIC_HEADER_CONTENT_LENGTH) = Some f /\
              str_text (hf_value f) = lit "5".
Proof.
  destruct (@mrcp_message_validate_content_length apr_reference unit sample_with_body)
    as (m' & n & H1 & _ & [_ H2] & _).
  - exists MRCP_VERSION_2, (Some mrcp_generic_header_init).
    split; [reflexivity|unfold request_ids_ok; simpl; lia].
  - rewrite sample_with_body_section.
    apply (section_alloc_wf apt_header_section_init 16), section_init_wf.
  - rewrite sample_with_body_section. vm_compute. congruence.
  - vm_compute. congruence.
  - rewrite sample_with_body_section. vm_compute. reflexivity.
  - exists m'. split; [exact H1|]. eexists. split; [exact H2|]. vm_compute. reflexivity.
Defined.
