(* ===== verification/FloatValue.v ===== *)
(** Decimal fractions in header fields
    ([apt_float_value_parse], [apt_float_value_generate] and
    [apt_text_float_value_insert] of [libs/apr-toolkit/src/apt_text_stream.c]).

    The conversions between [float] and text are those of the C library ([atof]) and of
    the Apache Portable Runtime ([%f]); they are parameters, and the code around them, which
    trims the zeros [%f] leaves at the end, is modelled. *)

From S2P Require Import Prelude AptString TextStream TextValues.

Class CFloat := {
  float32 : Type;
  (** [(float)atof(s)]. *)
  float_of_text : bytes -> float32;
  (** What [%f] prints. *)
  float_text : float32 -> bytes;
  (** A [float] member that was not initialised, or of an integer's bits. *)
  float_uninit : float32;
  (** The constant 0. *)
  float_zero : float32;
  (** [(float)n / 100]. *)
  float_of_percent : Z -> float32;
  (** [(apr_size_t)((value + 0.001f) * 100)]. *)
  percent_of_float : float32 -> Z
}.

(** The documented form of [%f]: an optional sign, digits, a point and six digits (an
    infinity or a number that is not one prints letters). *)
Definition fixed_text (s : bytes) : Prop :=
  exists i f, s = i ++ ["."%char] ++ f /\ length f = 6%nat /\ ("."%char ∉ f).

Section Float.
Context `{CFloat}.

Definition apt_float_value_parse (str : apt_str_t) : float32 :=
  match str_buf str with Some m => float_of_text m | None => float_zero end.

(** The loop that moves [end] back over zeros, while the byte before is not the point; the
    argument is the text in reverse, from [end] down to the start. *)
Fixpoint trim_zeros (r : bytes) : bytes :=
  match r with
  | c :: (d :: _) as r' =>
      if char_eqb c "0"%char && negb (char_eqb d "."%char) then trim_zeros r' else r
  | _ => r
  end.

Definition trimmed_length (s : bytes) : nat := length (trim_zeros (reverse s)).

(** The buffer keeps the zeros; the length leaves them out. *)
Definition apt_float_value_generate `{Apr} (value : float32) : apt_str_t :=
  let m := apr_psprintf (float_text value) in
  mk_str (Some m) (trimmed_length (take (strlen m) m)).

Definition apt_text_float_value_insert `{Apr} (value : float32) : prog apt_text_stream_t bool :=
  let* len := gets (fun st => u64 (Z.of_nat (st_end st) - Z.of_nat (st_pos st))) in
  let '(stored, r) := apr_snprintf len (float_text value) in
  store stored ;;;
  if r <=? 0 then ret false
  else advance (trimmed_length (take (Z.to_nat r) stored)) ;;; ret true.

End Float.

Lemma trim_zeros_spec (r : bytes) :
  exists n, r = replicate n "0"%char ++ trim_zeros r.
Proof.
  induction r as [|c r IH]; [by exists 0%nat|]. destruct r as [|d r]; [by exists 0%nat|].
  cbn [trim_zeros]. destruct (char_eqb_spec c "0"%char) as [->|]; simpl; [|by exists 0%nat].
  destruct (negb _); [|by exists 0%nat]. destruct IH as [n IH]. exists (S n).
  simpl. f_equal. exact IH.
Qed.

(** Of a fraction (in reverse) the zeros at its end go, but for one digit. *)
Lemma trim_zeros_point (f i : bytes) :
  f <> [] -> "."%char ∉ f ->
  exists f', trim_zeros (f ++ "."%char :: i) = f' ++ "."%char :: i /\ f' <> [] /\
    (exists n, f = replicate n "0"%char ++ f') /\ (deref f' = "0"%char -> length f' = 1%nat).
Proof.
  induction f as [|c f IH]; intros Hne Hp; [done|].
  apply not_elem_of_cons in Hp as [Hc Hp].
  destruct f as [|d f].
  - cbn [app trim_zeros]. exists [c]. rewrite char_eqb_refl, andb_false_r. split_and!; [done|done|by exists 0%nat|done].
  - pose proof Hp as Hp'. apply not_elem_of_cons in Hp' as [Hd _]. cbn [app trim_zeros].
    rewrite (char_eqb_ne d "."%char) by congruence. rewrite andb_true_r.
    destruct (char_eqb_spec c "0"%char) as [->|Hc0].
    + destruct IH as (f' & E & Hne' & [n Hn] & H0); [done|done|].
      exists f'. split_and!; [exact E|done| |done]. exists (S n). simpl. by rewrite <-Hn.
    + exists (c :: d :: f). split_and!; [done|done|by exists 0%nat|done].
Qed.

(** A printed fraction loses exactly the zeros at its end: at least one digit stays
    after the point, what stays is a prefix of the printed text with only zeros after it,
    and it does not end in a zero unless that is its only fraction digit. *)
Theorem float_value_trim_correct (s : bytes) :
  fixed_text s ->
  exists i f', take (trimmed_length s) s = i ++ ["."%char] ++ f' /\ f' <> [] /\
    (exists n, s = take (trimmed_length s) s ++ replicate n "0"%char) /\
    (forall l, f' = l ++ ["0"%char] -> l = []).
Proof.
  intros (i & f & -> & Hlen & Hp). unfold trimmed_length.
  rewrite !reverse_app, <-app_assoc.
  destruct (trim_zeros_point (reverse f) (reverse i)) as (f' & E & Hne & [n Hn] & H0).
  - intros E%(f_equal length). rewrite length_reverse, Hlen in E. done.
  - by rewrite elem_of_reverse.
  - change (reverse ["."%char]) with ["."%char]. cbn [app]. rewrite E.
    apply (f_equal reverse) in Hn. rewrite reverse_involutive, reverse_app, reverse_replicate in Hn.
    subst f. rewrite !length_app, length_cons, length_reverse.
    set (g := reverse f') in *.
    assert (Hg : length f' = length g) by (unfold g; by rewrite length_reverse).
    assert (Ht : take (length f' + S (length i)) (i ++ "."%char :: g ++ replicate n "0"%char)
                 = i ++ "."%char :: g).
    { rewrite take_app_ge by lia. f_equal.
      replace (length f' + S (length i) - length i)%nat with (S (length g)) by lia. simpl.
      f_equal. apply take_app_length. }
    exists i, g. change (["."%char] ++ ?x) with ("."%char :: x). rewrite Ht. split_and!; [done| | |].
    + unfold g. intros E0%(f_equal reverse). by rewrite reverse_involutive in E0.
    + exists n. by rewrite <-app_assoc.
    + intros l Hl. unfold g in Hl. apply (f_equal reverse) in Hl.
      rewrite reverse_involutive, reverse_app in Hl. subst f'. specialize (H0 eq_refl).
      change (reverse ["0"%char]) with ["0"%char] in H0. rewrite length_app in H0. cbn [length] in H0.
      rewrite length_reverse in H0. apply nil_length_inv. lia.
Qed.

Lemma float_value_trim_correct_witness :
  exists i f', take (trimmed_length (lit "-1.500000")) (lit "-1.500000") = i ++ ["."%char] ++ f' /\
    f' <> [].
Proof.
  destruct (float_value_trim_correct (lit "-1.500000")) as (i & f' & H1 & H2 & _).
  - exists (lit "-1"), (lit "500000"). split; [reflexivity|]. split; [reflexivity|decide_now].
  - exists i, f'. split; [exact H1|exact H2].
Defined.

(** Integers as the values of [float], for evaluation. *)
Definition float_integers : CFloat := {|
  float32 := Z;
  float_of_text := atol;
  float_text n := dec_signed n ++ lit ".000000";
  float_uninit := 0;
  float_zero := 0;
  float_of_percent n := n / 100;
  percent_of_float v := u64 (v * 100)
|}.
