(* ===== verification/SynthHeader.v ===== *)
(** The synthesizer resource and its header
    ([libs/mrcp/resources/include/mrcp_synth_header.h], [src/mrcp_synth_header.c],
    [mrcp_synth_resource.h], [src/mrcp_synth_resource.c]): the twenty-one fields, their string
    tables, and the parse, generate and duplicate operations behind the accessor interface.

    Enumerated values are kept as the numbers the code stores: a table index, or the size of
    the table for a name that is not in it.  A [union] holds the member last stored; reading
    another member yields an uninitialised value. *)

From S2P Require Import Prelude AptString TextStream TextValues HeaderField TextMessage StartLine MrcpHeader GenericHeader Message FloatValue.

(** * Identifiers and tables *)

Inductive mrcp_synthesizer_header_id :=
| SYNTHESIZER_HEADER_JUMP_SIZE
| SYNTHESIZER_HEADER_KILL_ON_BARGE_IN
| SYNTHESIZER_HEADER_SPEAKER_PROFILE
| SYNTHESIZER_HEADER_COMPLETION_CAUSE
| SYNTHESIZER_HEADER_COMPLETION_REASON
| SYNTHESIZER_HEADER_VOICE_GENDER
| SYNTHESIZER_HEADER_VOICE_AGE
| SYNTHESIZER_HEADER_VOICE_VARIANT
| SYNTHESIZER_HEADER_VOICE_NAME
| SYNTHESIZER_HEADER_PROSODY_VOLUME
| SYNTHESIZER_HEADER_PROSODY_RATE
| SYNTHESIZER_HEADER_SPEECH_MARKER
| SYNTHESIZER_HEADER_SPEECH_LANGUAGE
| SYNTHESIZER_HEADER_FETCH_HINT
| SYNTHESIZER_HEADER_AUDIO_FETCH_HINT
| SYNTHESIZER_HEADER_FAILED_URI
| SYNTHESIZER_HEADER_FAILED_URI_CAUSE
| SYNTHESIZER_HEADER_SPEAK_RESTART
| SYNTHESIZER_HEADER_SPEAK_LENGTH
| SYNTHESIZER_HEADER_LOAD_LEXICON
| SYNTHESIZER_HEADER_LEXICON_SEARCH_ORDER.

#[global] Instance mrcp_synthesizer_header_id_eq_dec : EqDecision mrcp_synthesizer_header_id.
Proof. solve_decision. Defined.

Definition synthesizer_header_ids : list mrcp_synthesizer_header_id :=
  [ SYNTHESIZER_HEADER_JUMP_SIZE; SYNTHESIZER_HEADER_KILL_ON_BARGE_IN;
    SYNTHESIZER_HEADER_SPEAKER_PROFILE; SYNTHESIZER_HEADER_COMPLETION_CAUSE;
    SYNTHESIZER_HEADER_COMPLETION_REASON; SYNTHESIZER_HEADER_VOICE_GENDER;
    SYNTHESIZER_HEADER_VOICE_AGE; SYNTHESIZER_HEADER_VOICE_VARIANT;
    SYNTHESIZER_HEADER_VOICE_NAME; SYNTHESIZER_HEADER_PROSODY_VOLUME;
    SYNTHESIZER_HEADER_PROSODY_RATE; SYNTHESIZER_HEADER_SPEECH_MARKER;
    SYNTHESIZER_HEADER_SPEECH_LANGUAGE; SYNTHESIZER_HEADER_FETCH_HINT;
    SYNTHESIZER_HEADER_AUDIO_FETCH_HINT; SYNTHESIZER_HEADER_FAILED_URI;
    SYNTHESIZER_HEADER_FAILED_URI_CAUSE; SYNTHESIZER_HEADER_SPEAK_RESTART;
    SYNTHESIZER_HEADER_SPEAK_LENGTH; SYNTHESIZER_HEADER_LOAD_LEXICON;
    SYNTHESIZER_HEADER_LEXICON_SEARCH_ORDER ].

Definition synthesizer_header_id_num : mrcp_synthesizer_header_id -> Z :=
  enum_num synthesizer_header_ids.
Definition SYNTHESIZER_HEADER_COUNT : Z := 21.

Definition synth_header_string_table : list apt_str_table_item_t :=
  [ item "Jump-Size" 9 0;
    item "Kill-On-Barge-In" 16 0;
    item "Speaker-Profile" 15 8;
    item "Completion-Cause" 16 16;
    item "Completion-Reason" 17 13;
    item "Voice-Gender" 12 6;
    item "Voice-Age" 9 6;
    item "Voice-Variant" 13 6;
    item "Voice-Name" 10 8;
    item "Prosody-Volume" 14 8;
    item "Prosody-Rate" 12 12;
    item "Speech-Marker" 13 7;
    item "Speech-Language" 15 7;
    item "Fetch-Hint" 10 2;
    item "Audio-Fetch-Hint" 16 0;
    item "Failed-Uri" 10 10;
    item "Failed-Uri_Cause" 16 10;
    item "Speak-Restart" 13 13;
    item "Speak-Length" 12 6;
    item "Load-Lexicon" 12 2;
    item "Lexicon-Search-Order" 20 2 ].

Definition speech_unit_string_table : list apt_str_table_item_t :=
  [ item "Second" 6 2; item "Word" 4 0; item "Sentence" 8 2; item "Paragraph" 9 0 ].
Definition SPEECH_UNIT_COUNT : Z := 4.

Definition voice_gender_string_table : list apt_str_table_item_t :=
  [ item "male" 4 0; item "female" 6 0; item "neutral" 7 0 ].
Definition VOICE_GENDER_COUNT : Z := 3.
Definition VOICE_GENDER_UNKNOWN : Z := VOICE_GENDER_COUNT.

Definition prosody_volume_string_table : list apt_str_table_item_t :=
  [ item "silent" 6 1; item "x-soft" 6 2; item "soft" 4 3; item "medium" 6 0;
    item "loud" 4 0; item "x-loud" 6 5; item "default" 7 0 ].
Definition PROSODY_VOLUME_COUNT : Z := 7.

Definition prosody_rate_string_table : list apt_str_table_item_t :=
  [ item "x-slow" 6 3; item "slow" 4 0; item "medium" 6 0; item "fast" 4 0;
    item "x-fast" 6 4; item "default" 7 0 ].
Definition PROSODY_RATE_COUNT : Z := 6.

Definition completion_cause_string_table : list apt_str_table_item_t :=
  [ item "normal" 6 0; item "barge-in" 8 0; item "parse-failure" 13 0;
    item "uri-failure" 11 0; item "error" 5 0; item "language-unsupported" 20 4;
    item "lexicon-load-failure" 20 1; item "cancelled" 9 0 ].
Definition SYNTHESIZER_COMPLETION_CAUSE_NORMAL : Z := 0.
Definition SYNTHESIZER_COMPLETION_CAUSE_COUNT : Z := 8.
Definition SYNTHESIZER_COMPLETION_CAUSE_UNKNOWN : Z := SYNTHESIZER_COMPLETION_CAUSE_COUNT.

(** * Data *)

Inductive mrcp_speech_length_type_e :=
| SPEECH_LENGTH_TYPE_TEXT
| SPEECH_LENGTH_TYPE_NUMERIC_POSITIVE
| SPEECH_LENGTH_TYPE_NUMERIC_NEGATIVE
| SPEECH_LENGTH_TYPE_UNKNOWN.

Inductive mrcp_prosody_volume_type_e :=
| PROSODY_VOLUME_TYPE_LABEL
| PROSODY_VOLUME_TYPE_NUMERIC
| PROSODY_VOLUME_TYPE_RELATIVE_CHANGE
| PROSODY_VOLUME_TYPE_UNKNOWN.

Inductive mrcp_prosody_rate_type_e :=
| PROSODY_RATE_TYPE_LABEL
| PROSODY_RATE_TYPE_RELATIVE_CHANGE
| PROSODY_RATE_TYPE_UNKNOWN.

(** The union of a speech length: a text tag or a number with its unit. *)
Inductive speech_length_union :=
| SL_NONE
| SL_TAG (tag : apt_str_t)
| SL_NUMERIC (len unit : Z).

Record mrcp_speech_length_value_t := mk_speech_length {
  sl_type : mrcp_speech_length_type_e;
  sl_value : speech_length_union
}.

Record mrcp_voice_param_t := mk_voice_param {
  gender : Z;
  age : Z;
  variant : Z;
  voice_name : apt_str_t
}.

Section Data.
Context `{CFloat}.

(** The union of a prosody value: a label or a number. *)
Inductive prosody_union :=
| PROSODY_NONE
| PROSODY_LABEL (label : Z)
| PROSODY_NUMBER (value : float32).

Record mrcp_prosody_volume_t := mk_prosody_volume {
  volume_type : mrcp_prosody_volume_type_e;
  volume_value : prosody_union
}.
Record mrcp_prosody_rate_t := mk_prosody_rate {
  rate_type : mrcp_prosody_rate_type_e;
  rate_value : prosody_union
}.

Record mrcp_synth_header_t := mk_synth_header {
  jump_size : mrcp_speech_length_value_t;
  kill_on_barge_in : bool;
  speaker_profile : apt_str_t;
  completion_cause : Z;
  completion_reason : apt_str_t;
  voice_param : mrcp_voice_param_t;
  prosody_volume : mrcp_prosody_volume_t;
  prosody_rate : mrcp_prosody_rate_t;
  speech_marker : apt_str_t;
  speech_language : apt_str_t;
  fetch_hint : apt_str_t;
  audio_fetch_hint : apt_str_t;
  failed_uri : apt_str_t;
  failed_uri_cause : apt_str_t;
  speak_restart : bool;
  speak_length : mrcp_speech_length_value_t;
  load_lexicon : bool;
  lexicon_search_order : apt_str_t
}.
End Data.

#[global] Instance eta_voice_param : Eta mrcp_voice_param_t := fun s =>
  mk_voice_param (gender s) (age s) (variant s) (voice_name s).
#[global] Instance eta_synth_header `{CFloat} : Eta mrcp_synth_header_t := fun s =>
  mk_synth_header (jump_size s) (kill_on_barge_in s) (speaker_profile s) (completion_cause s)
    (completion_reason s) (voice_param s) (prosody_volume s) (prosody_rate s) (speech_marker s)
    (speech_language s) (fetch_hint s) (audio_fetch_hint s) (failed_uri s) (failed_uri_cause s)
    (speak_restart s) (speak_length s) (load_lexicon s) (lexicon_search_order s).

(** * Values *)

Section Values.
Context `{Apr} `{CFloat}.

Definition apt_string_table_value_parse := apt_string_table_id_find.

(** A name that is not in the table leaves the string as it is. *)
Definition apt_string_table_value_pgenerate (table : list apt_str_table_item_t) (count id : Z)
    (str : apt_str_t) : bool * apt_str_t :=
  match apt_string_table_str_get table count id with
  | None => (false, str)
  | Some n => (true, apt_string_copy n)
  end.

Definition first_byte (v : apt_str_t) : char := deref (str_mem v).

Definition mrcp_prosody_param_rate_parse (r : mrcp_prosody_rate_t) (value : apt_str_t)
    : bool * mrcp_prosody_rate_t :=
  if (str_len value =? 0)%nat then (false, r)
  else if isdigit (first_byte value) then
    (true, mk_prosody_rate PROSODY_RATE_TYPE_RELATIVE_CHANGE
             (PROSODY_NUMBER (apt_float_value_parse value)))
  else
    (true, mk_prosody_rate PROSODY_RATE_TYPE_LABEL
             (PROSODY_LABEL (apt_string_table_value_parse prosody_rate_string_table
                               PROSODY_RATE_COUNT value))).

Definition union_label (u : prosody_union) : Z :=
  match u with PROSODY_LABEL l => l | _ => apr_uninit end.
Definition union_number (u : prosody_union) : float32 :=
  match u with PROSODY_NUMBER f => f | _ => float_uninit end.

Definition mrcp_prosody_rate_generate (r : mrcp_prosody_rate_t) (str : apt_str_t) : apt_str_t :=
  match rate_type r with
  | PROSODY_RATE_TYPE_LABEL =>
      snd (apt_string_table_value_pgenerate prosody_rate_string_table PROSODY_RATE_COUNT
             (union_label (rate_value r)) str)
  | _ => apt_float_value_generate (union_number (rate_value r))
  end.

Definition mrcp_prosody_param_volume_parse (v : mrcp_prosody_volume_t) (value : apt_str_t)
    : bool * mrcp_prosody_volume_t :=
  if (str_len value =? 0)%nat then (false, v)
  else if char_eqb (first_byte value) "+"%char || char_eqb (first_byte value) "-"%char then
    (true, mk_prosody_volume PROSODY_VOLUME_TYPE_RELATIVE_CHANGE
             (PROSODY_NUMBER (apt_float_value_parse value)))
  else if isdigit (first_byte value) then
    (true, mk_prosody_volume PROSODY_VOLUME_TYPE_NUMERIC
             (PROSODY_NUMBER (apt_float_value_parse value)))
  else
    (true, mk_prosody_volume PROSODY_VOLUME_TYPE_LABEL
             (PROSODY_LABEL (apt_string_table_value_parse prosody_volume_string_table
                               PROSODY_VOLUME_COUNT value))).

Definition mrcp_prosody_volume_generate (v : mrcp_prosody_volume_t) (str : apt_str_t)
    : apt_str_t :=
  match volume_type v with
  | PROSODY_VOLUME_TYPE_LABEL =>
      snd (apt_string_table_value_pgenerate prosody_volume_string_table PROSODY_VOLUME_COUNT
             (union_label (volume_value v)) str)
  | _ => apt_float_value_generate (union_number (volume_value v))
  end.

Definition union_unit (u : speech_length_union) : Z :=
  match u with SL_NUMERIC _ unit => unit | _ => apr_uninit end.
Definition union_length (u : speech_length_union) : Z :=
  match u with SL_NUMERIC len _ => len | _ => apr_uninit end.

(** The type is set first; a missing number or unit leaves the rest of the union. *)
Definition mrcp_speech_length_value_parse (l : mrcp_speech_length_value_t) (value : apt_str_t)
    : bool * mrcp_speech_length_value_t :=
  if (str_len value =? 0)%nat then (false, l)
  else
    let ty := if char_eqb (first_byte value) "+"%char then SPEECH_LENGTH_TYPE_NUMERIC_POSITIVE
              else if char_eqb (first_byte value) "-"%char then SPEECH_LENGTH_TYPE_NUMERIC_NEGATIVE
              else SPEECH_LENGTH_TYPE_TEXT in
    match ty with
    | SPEECH_LENGTH_TYPE_TEXT => (true, mk_speech_length ty (SL_TAG (apt_string_copy value)))
    | _ =>
        let st := set_pos (st_pos (stream_of_str value) + 1) (stream_of_str value) in
        let '(ok, str, st) := apt_text_field_read st SP true in
        if negb ok then (false, mk_speech_length ty (sl_value l))
        else
          let len := apt_size_value_parse str in
          let '(ok, str, _) := apt_text_field_read st SP true in
          if negb ok then
            (false, mk_speech_length ty (SL_NUMERIC len (union_unit (sl_value l))))
          else
            (true, mk_speech_length ty
               (SL_NUMERIC len (apt_string_table_value_parse speech_unit_string_table
                                  SPEECH_UNIT_COUNT str)))
    end.

Definition mrcp_speech_length_generate (l : mrcp_speech_length_value_t) (str : apt_str_t)
    : bool * apt_str_t :=
  match sl_type l with
  | SPEECH_LENGTH_TYPE_TEXT =>
      let tag := match sl_value l with SL_TAG t => t | _ => apt_string_reset end in
      (true, if (str_len tag =? 0)%nat then str else apt_string_copy tag)
  | ty =>
      match apt_string_table_str_get speech_unit_string_table SPEECH_UNIT_COUNT
              (union_unit (sl_value l)) with
      | None => (false, str)
      | Some unit_name =>
          let sign := match ty with
                      | SPEECH_LENGTH_TYPE_NUMERIC_POSITIVE => "+"%char
                      | _ => "-"%char
                      end in
          let m := apr_psprintf ([sign] ++ dec (union_length (sl_value l)) ++ [SP]
                                 ++ c_string (str_mem unit_name)) in
          (true, mk_str (Some m) (strlen m))
      end
  end.

(** * The operations of the header *)

Definition mrcp_synth_header_init : mrcp_synth_header_t :=
  let e := apt_string_reset in
  mk_synth_header
    (mk_speech_length SPEECH_LENGTH_TYPE_UNKNOWN SL_NONE) false e
    SYNTHESIZER_COMPLETION_CAUSE_UNKNOWN e
    (mk_voice_param VOICE_GENDER_UNKNOWN 0 0 e)
    (mk_prosody_volume PROSODY_VOLUME_TYPE_UNKNOWN PROSODY_NONE)
    (mk_prosody_rate PROSODY_RATE_TYPE_UNKNOWN PROSODY_NONE)
    e e e e e e false (mk_speech_length SPEECH_LENGTH_TYPE_UNKNOWN SL_NONE) false e.

Definition mrcp_synth_header_parse (h : mrcp_synth_header_t) (id : Z) (value : apt_str_t)
    : bool * mrcp_synth_header_t :=
  match enum_of synthesizer_header_ids id with
  | None => (false, h)
  | Some i =>
      (true,
       match i with
       | SYNTHESIZER_HEADER_JUMP_SIZE =>
           h <| jump_size := snd (mrcp_speech_length_value_parse (jump_size h) value) |>
       | SYNTHESIZER_HEADER_KILL_ON_BARGE_IN =>
           h <| kill_on_barge_in := default (kill_on_barge_in h) (apt_boolean_value_parse value) |>
       | SYNTHESIZER_HEADER_SPEAKER_PROFILE => h <| speaker_profile := value |>
       | SYNTHESIZER_HEADER_COMPLETION_CAUSE =>
           h <| completion_cause := u32 (apt_size_value_parse value) |>
       | SYNTHESIZER_HEADER_COMPLETION_REASON => h <| completion_reason := value |>
       | SYNTHESIZER_HEADER_VOICE_GENDER =>
           h <| voice_param := (voice_param h) <| gender :=
             apt_string_table_value_parse voice_gender_string_table VOICE_GENDER_COUNT value |> |>
       | SYNTHESIZER_HEADER_VOICE_AGE =>
           h <| voice_param := (voice_param h) <| age := apt_size_value_parse value |> |>
       | SYNTHESIZER_HEADER_VOICE_VARIANT =>
           h <| voice_param := (voice_param h) <| variant := apt_size_value_parse value |> |>
       | SYNTHESIZER_HEADER_VOICE_NAME =>
           h <| voice_param := (voice_param h) <| voice_name := value |> |>
       | SYNTHESIZER_HEADER_PROSODY_VOLUME =>
           h <| prosody_volume := snd (mrcp_prosody_param_volume_parse (prosody_volume h) value) |>
       | SYNTHESIZER_HEADER_PROSODY_RATE =>
           h <| prosody_rate := snd (mrcp_prosody_param_rate_parse (prosody_rate h) value) |>
       | SYNTHESIZER_HEADER_SPEECH_MARKER => h <| speech_marker := value |>
       | SYNTHESIZER_HEADER_SPEECH_LANGUAGE => h <| speech_language := value |>
       | SYNTHESIZER_HEADER_FETCH_HINT => h <| fetch_hint := value |>
       | SYNTHESIZER_HEADER_AUDIO_FETCH_HINT => h <| audio_fetch_hint := value |>
       | SYNTHESIZER_HEADER_FAILED_URI => h <| failed_uri := value |>
       | SYNTHESIZER_HEADER_FAILED_URI_CAUSE => h <| failed_uri_cause := value |>
       | SYNTHESIZER_HEADER_SPEAK_RESTART =>
           h <| speak_restart := default (speak_restart h) (apt_boolean_value_parse value) |>
       | SYNTHESIZER_HEADER_SPEAK_LENGTH =>
           h <| speak_length := snd (mrcp_speech_length_value_parse (speak_length h) value) |>
       | SYNTHESIZER_HEADER_LOAD_LEXICON =>
           h <| load_lexicon := default (load_lexicon h) (apt_boolean_value_parse value) |>
       | SYNTHESIZER_HEADER_LEXICON_SEARCH_ORDER => h <| lexicon_search_order := value |>
       end)
  end.

(** A value that cannot be generated is left as it is. *)
Definition mrcp_synth_header_generate (h : mrcp_synth_header_t) (id : Z) (value : apt_str_t)
    : option (bool * apt_str_t) :=
  Some (true,
    match enum_of synthesizer_header_ids id with
    | None => value
    | Some i =>
       match i with
       | SYNTHESIZER_HEADER_JUMP_SIZE =>
           snd (mrcp_speech_length_generate (jump_size h) value)
       | SYNTHESIZER_HEADER_KILL_ON_BARGE_IN =>
           apt_boolean_value_generate (kill_on_barge_in h)
       | SYNTHESIZER_HEADER_SPEAKER_PROFILE => speaker_profile h
       | SYNTHESIZER_HEADER_COMPLETION_CAUSE =>
           default value (apt_completion_cause_generate completion_cause_string_table
                           SYNTHESIZER_COMPLETION_CAUSE_COUNT (completion_cause h))
       | SYNTHESIZER_HEADER_COMPLETION_REASON => completion_reason h
       | SYNTHESIZER_HEADER_VOICE_GENDER =>
           snd (apt_string_table_value_pgenerate voice_gender_string_table VOICE_GENDER_COUNT
                (gender (voice_param h)) value)
       | SYNTHESIZER_HEADER_VOICE_AGE => apt_size_value_generate (age (voice_param h))
       | SYNTHESIZER_HEADER_VOICE_VARIANT =>
           apt_size_value_generate (variant (voice_param h))
       | SYNTHESIZER_HEADER_VOICE_NAME => voice_name (voice_param h)
       | SYNTHESIZER_HEADER_PROSODY_VOLUME =>
           mrcp_prosody_volume_generate (prosody_volume h) value
       | SYNTHESIZER_HEADER_PROSODY_RATE =>
           mrcp_prosody_rate_generate (prosody_rate h) value
       | SYNTHESIZER_HEADER_SPEECH_MARKER => speech_marker h
       | SYNTHESIZER_HEADER_SPEECH_LANGUAGE => speech_language h
       | SYNTHESIZER_HEADER_FETCH_HINT => fetch_hint h
       | SYNTHESIZER_HEADER_AUDIO_FETCH_HINT => audio_fetch_hint h
       | SYNTHESIZER_HEADER_FAILED_URI => failed_uri h
       | SYNTHESIZER_HEADER_FAILED_URI_CAUSE => failed_uri_cause h
       | SYNTHESIZER_HEADER_SPEAK_RESTART =>
           apt_boolean_value_generate (speak_restart h)
       | SYNTHESIZER_HEADER_SPEAK_LENGTH =>
           snd (mrcp_speech_length_generate (speak_length h) value)
       | SYNTHESIZER_HEADER_LOAD_LEXICON => apt_boolean_value_generate (load_lexicon h)
       | SYNTHESIZER_HEADER_LEXICON_SEARCH_ORDER => lexicon_search_order h
       end
    end).

Definition mrcp_synth_header_duplicate (h src : mrcp_synth_header_t) (id : Z)
    (value : apt_str_t) : bool * mrcp_synth_header_t :=
  match enum_of synthesizer_header_ids id with
  | None => (false, h)
  | Some i =>
      (true,
       match i with
       | SYNTHESIZER_HEADER_JUMP_SIZE => h <| jump_size := jump_size src |>
       | SYNTHESIZER_HEADER_KILL_ON_BARGE_IN => h <| kill_on_barge_in := kill_on_barge_in src |>
       | SYNTHESIZER_HEADER_SPEAKER_PROFILE => h <| speaker_profile := value |>
       | SYNTHESIZER_HEADER_COMPLETION_CAUSE => h <| completion_cause := completion_cause src |>
       | SYNTHESIZER_HEADER_COMPLETION_REASON => h <| completion_reason := value |>
       | SYNTHESIZER_HEADER_VOICE_GENDER =>
           h <| voice_param := (voice_param h) <| gender := gender (voice_param src) |> |>
       | SYNTHESIZER_HEADER_VOICE_AGE =>
           h <| voice_param := (voice_param h) <| age := age (voice_param src) |> |>
       | SYNTHESIZER_HEADER_VOICE_VARIANT =>
           h <| voice_param := (voice_param h) <| variant := variant (voice_param src) |> |>
       | SYNTHESIZER_HEADER_VOICE_NAME =>
           h <| voice_param := (voice_param h) <| voice_name := value |> |>
       | SYNTHESIZER_HEADER_PROSODY_VOLUME => h <| prosody_volume := prosody_volume src |>
       | SYNTHESIZER_HEADER_PROSODY_RATE => h <| prosody_rate := prosody_rate src |>
       | SYNTHESIZER_HEADER_SPEECH_MARKER => h <| speech_marker := value |>
       | SYNTHESIZER_HEADER_SPEECH_LANGUAGE => h <| speech_language := value |>
       | SYNTHESIZER_HEADER_FETCH_HINT => h <| fetch_hint := value |>
       | SYNTHESIZER_HEADER_AUDIO_FETCH_HINT => h <| audio_fetch_hint := value |>
       | SYNTHESIZER_HEADER_FAILED_URI => h <| failed_uri := value |>
       | SYNTHESIZER_HEADER_FAILED_URI_CAUSE => h <| failed_uri_cause := value |>
       | SYNTHESIZER_HEADER_SPEAK_RESTART => h <| speak_restart := speak_restart src |>
       | SYNTHESIZER_HEADER_SPEAK_LENGTH => h <| speak_length := speak_length src |>
       | SYNTHESIZER_HEADER_LOAD_LEXICON => h <| load_lexicon := load_lexicon src |>
       | SYNTHESIZER_HEADER_LEXICON_SEARCH_ORDER => h <| lexicon_search_order := value |>
       end)
  end.

Definition mrcp_synth_header_vtable_get (v : mrcp_version_e)
    : option (mrcp_header_vtable_t mrcp_synth_header_t) :=
  Some (mk_vtable mrcp_synth_header_init mrcp_synth_header_parse mrcp_synth_header_generate
          mrcp_synth_header_duplicate synth_header_string_table SYNTHESIZER_HEADER_COUNT).

Definition mrcp_synth_completion_cause_get (cause : Z) (v : mrcp_version_e) : option apt_str_t :=
  apt_string_table_str_get completion_cause_string_table SYNTHESIZER_COMPLETION_CAUSE_COUNT cause.

End Values.

(** * The resource *)

Inductive mrcp_synthesizer_method_id :=
| SYNTHESIZER_SET_PARAMS
| SYNTHESIZER_GET_PARAMS
| SYNTHESIZER_SPEAK
| SYNTHESIZER_STOP
| SYNTHESIZER_PAUSE
| SYNTHESIZER_RESUME
| SYNTHESIZER_BARGE_IN_OCCURRED
| SYNTHESIZER_CONTROL
| SYNTHESIZER_DEFINE_LEXICON.

Inductive mrcp_synthesizer_event_id :=
| SYNTHESIZER_SPEECH_MARKER
| SYNTHESIZER_SPEAK_COMPLETE.

#[global] Instance mrcp_synthesizer_method_id_eq_dec : EqDecision mrcp_synthesizer_method_id.
Proof. solve_decision. Defined.
#[global] Instance mrcp_synthesizer_event_id_eq_dec : EqDecision mrcp_synthesizer_event_id.
Proof. solve_decision. Defined.

Definition synthesizer_methods : list mrcp_synthesizer_method_id :=
  [ SYNTHESIZER_SET_PARAMS; SYNTHESIZER_GET_PARAMS; SYNTHESIZER_SPEAK; SYNTHESIZER_STOP;
    SYNTHESIZER_PAUSE; SYNTHESIZER_RESUME; SYNTHESIZER_BARGE_IN_OCCURRED; SYNTHESIZER_CONTROL;
    SYNTHESIZER_DEFINE_LEXICON ].
Definition synthesizer_events : list mrcp_synthesizer_event_id :=
  [ SYNTHESIZER_SPEECH_MARKER; SYNTHESIZER_SPEAK_COMPLETE ].

Definition SYNTHESIZER_METHOD_COUNT : Z := 9.
Definition SYNTHESIZER_EVENT_COUNT : Z := 2.

Definition synth_method_string_table : list apt_str_table_item_t :=
  [ item "SET-PARAMS" 10 10; item "GET-PARAMS" 10 0; item "SPEAK" 5 1; item "STOP" 4 1;
    item "PAUSE" 5 0; item "RESUME" 6 0; item "BARGE-IN-OCCURRED" 17 0; item "CONTROL" 7 0;
    item "DEFINE-LEXICON" 14 0 ].
Definition synth_event_string_table : list apt_str_table_item_t :=
  [ item "SPEECH-MARKER" 13 3; item "SPEAK-COMPLETE" 14 3 ].

Definition synth_method_string_table_get (v : mrcp_version_e) := synth_method_string_table.
Definition synth_event_string_table_get (v : mrcp_version_e) := synth_event_string_table.

(** The identifier and the name are set by the resource factory. *)
Definition mrcp_synth_resource_create `{Apr} `{CFloat} : mrcp_resource_t mrcp_synth_header_t :=
  mk_resource 0 apt_string_reset synth_method_string_table_get SYNTHESIZER_METHOD_COUNT
    synth_event_string_table_get SYNTHESIZER_EVENT_COUNT mrcp_synth_header_vtable_get.

(** * Properties of the header *)

Lemma synthesizer_header_ids_all (i : mrcp_synthesizer_header_id) :
  enum_of synthesizer_header_ids (synthesizer_header_id_num i) = Some i.
Proof. by destruct i. Qed.

(** Fields kept as the text of their value. *)
Definition synth_text_field (i : mrcp_synthesizer_header_id) : bool :=
  match i with
  | SYNTHESIZER_HEADER_SPEAKER_PROFILE | SYNTHESIZER_HEADER_COMPLETION_REASON
  | SYNTHESIZER_HEADER_VOICE_NAME | SYNTHESIZER_HEADER_SPEECH_MARKER
  | SYNTHESIZER_HEADER_SPEECH_LANGUAGE | SYNTHESIZER_HEADER_FETCH_HINT
  | SYNTHESIZER_HEADER_AUDIO_FETCH_HINT | SYNTHESIZER_HEADER_FAILED_URI
  | SYNTHESIZER_HEADER_FAILED_URI_CAUSE | SYNTHESIZER_HEADER_LEXICON_SEARCH_ORDER => true
  | _ => false
  end.
Definition synth_bool_field (i : mrcp_synthesizer_header_id) : bool :=
  match i with
  | SYNTHESIZER_HEADER_KILL_ON_BARGE_IN | SYNTHESIZER_HEADER_SPEAK_RESTART
  | SYNTHESIZER_HEADER_LOAD_LEXICON => true
  | _ => false
  end.

(** The fields of the synthesizer header are independent.  Parsing a value into one
    field leaves what every other field generates unchanged; a textual field then generates
    the parsed value and a boolean field the parsed truth value; duplicating a field that
    the source generates a value for makes the header generate the same value. *)
Theorem synth_header_field_lens `{Apr} `{CFloat} (h src : mrcp_synth_header_t)
    (i : mrcp_synthesizer_header_id) (v w : apt_str_t) :
  let num := synthesizer_header_id_num in
  let h' := snd (mrcp_synth_header_parse h (num i) v) in
  fst (mrcp_synth_header_parse h (num i) v) = true /\
  (forall j, j <> i -> mrcp_synth_header_generate h' (num j) w = mrcp_synth_header_generate h (num j) w) /\
  (synth_text_field i = true -> mrcp_synth_header_generate h' (num i) w = Some (true, v)) /\
  (synth_bool_field i = true -> forall b, apt_boolean_value_parse v = Some b ->
     mrcp_synth_header_generate h' (num i) w = Some (true, apt_boolean_value_generate b)) /\
  (mrcp_synth_header_generate src (num i) w = Some (true, v) ->
   mrcp_synth_header_generate (snd (mrcp_synth_header_duplicate h src (num i) v)) (num i) w
     = Some (true, v)).
Proof.
  cbv zeta. unfold mrcp_synth_header_parse, mrcp_synth_header_generate, mrcp_synth_header_duplicate.
  rewrite !synthesizer_header_ids_all. split_and!; [done| | | |].
  - intros j Hj. rewrite synthesizer_header_ids_all. by destruct i, j.
  - by destruct i.
  - intros Hb b Hv. destruct i; try done; simpl; by rewrite Hv.
  - by destruct i.
Qed.

(** ** Speech lengths *)

Definition speech_length_ok (l : mrcp_speech_length_value_t) : Prop :=
  match sl_type l, sl_value l with
  | SPEECH_LENGTH_TYPE_NUMERIC_POSITIVE, SL_NUMERIC n u
  | SPEECH_LENGTH_TYPE_NUMERIC_NEGATIVE, SL_NUMERIC n u =>
      0 <= n < 2 ^ 63 /\ 0 <= u < SPEECH_UNIT_COUNT
  | _, _ => False
  end.

Definition speech_unit_text (u : Z) : bytes :=
  if u =? 0 then lit "Second" else if u =? 1 then lit "Word"
  else if u =? 2 then lit "Sentence" else lit "Paragraph".

Lemma speech_unit_cases (u : Z) : 0 <= u < SPEECH_UNIT_COUNT -> u = 0 \/ u = 1 \/ u = 2 \/ u = 3.
Proof. unfold SPEECH_UNIT_COUNT. lia. Qed.

Lemma speech_unit_get (u : Z) :
  0 <= u < SPEECH_UNIT_COUNT ->
  exists s, apt_string_table_str_get speech_unit_string_table SPEECH_UNIT_COUNT u = Some s /\
            c_string (str_mem s) = speech_unit_text u.
Proof. intros [->|[->|[->| ->]]]%speech_unit_cases; eexists; split; reflexivity. Qed.

Lemma speech_unit_find (f : apt_str_t) (u : Z) :
  0 <= u < SPEECH_UNIT_COUNT -> str_wf f -> str_text f = speech_unit_text u ->
  apt_string_table_value_parse speech_unit_string_table SPEECH_UNIT_COUNT f = u.
Proof.
  intros Hu Wf Hf. unfold apt_string_table_value_parse.
  rewrite id_find_first_index by (done || by vm_compute).
  unfold first_index. rewrite Hf. by destruct (speech_unit_cases u Hu) as [->|[->|[->| ->]]].
Qed.

Lemma digits_nul_free (n : Z) : 0 <= n -> nul_free (dec n).
Proof.
  intros Hn Hin%list_elem_of_In. pose proof (dec_digits n Hn) as Hd.
  rewrite Forall_forall in Hd. by apply Hd in Hin.
Qed.

Lemma speech_unit_token (u : Z) : 0 <= u < SPEECH_UNIT_COUNT -> token (speech_unit_text u).
Proof.
  intros [->|[->|[->| ->]]]%speech_unit_cases; (split; [done|decide_now]).
Qed.

Lemma speech_length_parse_text `{Apr} (l0 : mrcp_speech_length_value_t) (sign : char) (n k : Z) ty :
  0 <= n < 2 ^ 63 -> 0 <= k < SPEECH_UNIT_COUNT ->
  (sign = "+"%char /\ ty = SPEECH_LENGTH_TYPE_NUMERIC_POSITIVE \/
   sign = "-"%char /\ ty = SPEECH_LENGTH_TYPE_NUMERIC_NEGATIVE) ->
  let txt := [sign] ++ dec n ++ [SP] ++ speech_unit_text k in
  mrcp_speech_length_value_parse l0 (mk_str (Some txt) (length txt))
    = (true, mk_speech_length ty (SL_NUMERIC n k)).
Proof.
  intros Hn Hk Hsign txt. unfold mrcp_speech_length_value_parse. cbn [str_len].
  destruct (Nat.eqb_spec (length txt) 0) as [E|_]; [done|].
  set (st := stream_of_str (mk_str (Some txt) (length txt))).
  assert (Wst : stream_wf st).
  { apply stream_of_str_wf. unfold str_wf, str_text, str_mem. cbn [str_buf str_len].
    by rewrite firstn_all. }
  assert (Hw : window st = txt).
  { unfold st. rewrite stream_of_str_window. apply firstn_all. }
  assert (Hr : reads (set_pos (st_pos st + 1) st) [dec n; speech_unit_text k]).
  { split.
    - apply stream_wf_advance; [done|]. rewrite Hw. simpl. lia.
    - by rewrite window_advance, Hw.
    - repeat constructor; first [apply dec_token; lia|by apply speech_unit_token].
    - unfold beyond, st. simpl. by rewrite drop_all. }
  fold (field_sp (set_pos (st_pos st + 1) st)).
  read_word Hr f1 T1 W1 B1 S1 P1. fold (field_sp st0). read_word Hr f2 T2 W2 B2 S2 P2.
  rewrite (size_parse_text f1 n _ Hn B1 S1), (speech_unit_find f2 k Hk W2 T2).
  unfold first_byte, str_mem. cbn [str_buf]. by destruct Hsign as [[-> ->]|[-> ->]].
Qed.

(** A numeric speech length (jump size or speak length) is generated as a sign, the
    number and the name of its unit, and parsing this text gives back the direction, the
    number and the unit. *)
Theorem speech_length_roundtrip `{L : AprLaws} (l l0 : mrcp_speech_length_value_t) (w : apt_str_t) :
  speech_length_ok l ->
  exists s, mrcp_speech_length_generate l w = (true, s) /\
            mrcp_speech_length_value_parse l0 s = (true, l).
Proof.
  destruct l as [ty u]. unfold speech_length_ok. cbn [sl_type sl_value].
  intros Hok.
  assert (H : exists n k sign, u = SL_NUMERIC n k /\ 0 <= n < 2 ^ 63 /\ 0 <= k < SPEECH_UNIT_COUNT /\
     (sign = "+"%char /\ ty = SPEECH_LENGTH_TYPE_NUMERIC_POSITIVE \/
      sign = "-"%char /\ ty = SPEECH_LENGTH_TYPE_NUMERIC_NEGATIVE)).
  { destruct ty; try done; destruct u; try done; destruct Hok;
      [exists len, unit, "+"%char|exists len, unit, "-"%char]; auto 10. }
  clear Hok. destruct H as (n & k & sign & -> & Hn & Hk & Hsign).
  destruct (speech_unit_get k Hk) as (us & Eu & Hus).
  set (txt := [sign] ++ dec n ++ [SP] ++ speech_unit_text k).
  assert (Hnul : nul_free txt).
  { unfold txt, nul_free. rewrite !not_elem_of_app. split_and!.
    - apply not_elem_of_cons. split; [|apply not_elem_of_nil].
      destruct Hsign as [[-> _]|[-> _]]; discriminate.
    - apply digits_nul_free; lia.
    - decide_now.
    - destruct (speech_unit_cases k Hk) as [->|[->|[->| ->]]]; decide_now. }
  exists (mk_str (Some txt) (length txt)). split.
  - unfold mrcp_speech_length_generate. cbn [sl_type sl_value union_unit union_length].
    destruct Hsign as [[-> ->]|[-> ->]]; rewrite Eu, Hus, apr_psprintf_output;
      fold txt; by rewrite (strlen_nul_free txt Hnul).
  - by apply speech_length_parse_text.
Qed.

Lemma speech_length_roundtrip_witness :
  let l := mk_speech_length SPEECH_LENGTH_TYPE_NUMERIC_NEGATIVE (SL_NUMERIC 15 2) in
  exists s, @mrcp_speech_length_generate apr_reference l apt_string_reset = (true, s) /\
            @mrcp_speech_length_value_parse apr_reference l s = (true, l).
Proof.
  apply (@speech_length_roundtrip apr_reference apr_reference_laws
    (mk_speech_length SPEECH_LENGTH_TYPE_NUMERIC_NEGATIVE (SL_NUMERIC 15 2))).
  unfold speech_length_ok, SPEECH_UNIT_COUNT. simpl. lia.
Defined.

(** * String tables *)

(** The static tables, with their declared sizes. *)
Definition static_tables : list (list apt_str_table_item_t * Z) :=
  [ (mrcp_request_state_string_table, MRCP_REQUEST_STATE_COUNT);
    (generic_header_string_table, GENERIC_HEADER_COUNT);
    (synth_header_string_table, SYNTHESIZER_HEADER_COUNT);
    (speech_unit_string_table, SPEECH_UNIT_COUNT);
    (voice_gender_string_table, VOICE_GENDER_COUNT);
    (prosody_volume_string_table, PROSODY_VOLUME_COUNT);
    (prosody_rate_string_table, PROSODY_RATE_COUNT);
    (completion_cause_string_table, SYNTHESIZER_COMPLETION_CAUSE_COUNT);
    (synth_method_string_table, SYNTHESIZER_METHOD_COUNT);
    (synth_event_string_table, SYNTHESIZER_EVENT_COUNT) ].

Lemma static_tables_ok :
  forallb (fun p => table_ok (fst p) (snd p) && table_distinct (fst p)) static_tables = true.
Proof. by vm_compute. Qed.

(** In each static table of request states, generic and synthesizer header names, speech
    units, voice genders, prosody labels, completion causes, methods and events, every
    identifier below the declared size names a string, and this string is found under exactly
    this identifier. *)
Theorem static_tables_roundtrip (t : list apt_str_table_item_t) (size id : Z) :
  (t, size) ∈ static_tables -> 0 <= id < size ->
  exists n, apt_string_table_str_get t size id = Some n /\
            apt_string_table_id_find t size n = id.
Proof.
  intros Hin%list_elem_of_In Hid. pose proof static_tables_ok as H.
  rewrite forallb_forall in H. apply H, andb_true_iff in Hin as [H1 H2].
  by apply table_roundtrip.
Qed.

Lemma static_tables_roundtrip_witness :
  exists n, apt_string_table_str_get synth_event_string_table SYNTHESIZER_EVENT_COUNT 1 = Some n /\
            apt_string_table_id_find synth_event_string_table SYNTHESIZER_EVENT_COUNT n = 1.
Proof.
  apply (static_tables_roundtrip synth_event_string_table SYNTHESIZER_EVENT_COUNT 1).
  - unfold static_tables. repeat (apply elem_of_cons; first [left; reflexivity | right]).
  - unfold SYNTHESIZER_EVENT_COUNT. lia.
Defined.
