(* ===== verification/RecorderHeader.v ===== *)
(** The recorder resource and its header
    ([libs/mrcp/resources/include/mrcp_recorder_header.h], [src/mrcp_recorder_header.c],
    [mrcp_recorder_resource.h], [src/mrcp_recorder_resource.c]): the fifteen fields, their string
    tables, and the parse, generate and duplicate operations behind the accessor interface. *)

From S2P Require Import Prelude AptString TextStream TextValues HeaderField TextMessage StartLine MrcpHeader GenericHeader Message FloatValue.

(** * Identifiers and tables *)

Inductive mrcp_recorder_header_id :=
| RECORDER_HEADER_SENSITIVITY_LEVEL
| RECORDER_HEADER_NO_INPUT_TIMEOUT
| RECORDER_HEADER_COMPLETION_CAUSE
| RECORDER_HEADER_COMPLETION_REASON
| RECORDER_HEADER_FAILED_URI
| RECORDER_HEADER_FAILED_URI_CAUSE
| RECORDER_HEADER_RECORD_URI
| RECORDER_HEADER_MEDIA_TYPE
| RECORDER_HEADER_MAX_TIME
| RECORDER_HEADER_TRIM_LENGTH
| RECORDER_HEADER_FINAL_SILENCE
| RECORDER_HEADER_CAPTURE_ON_SPEECH
| RECORDER_HEADER_VER_BUFFER_UTTERANCE
| RECORDER_HEADER_START_INPUT_TIMERS
| RECORDER_HEADER_NEW_AUDIO_CHANNEL.

#[global] Instance mrcp_recorder_header_id_eq_dec : EqDecision mrcp_recorder_header_id.
Proof. solve_decision. Defined.

Definition recorder_header_ids : list mrcp_recorder_header_id :=
  [ RECORDER_HEADER_SENSITIVITY_LEVEL; RECORDER_HEADER_NO_INPUT_TIMEOUT;
    RECORDER_HEADER_COMPLETION_CAUSE; RECORDER_HEADER_COMPLETION_REASON;
    RECORDER_HEADER_FAILED_URI; RECORDER_HEADER_FAILED_URI_CAUSE; RECORDER_HEADER_RECORD_URI;
    RECORDER_HEADER_MEDIA_TYPE; RECORDER_HEADER_MAX_TIME; RECORDER_HEADER_TRIM_LENGTH;
    RECORDER_HEADER_FINAL_SILENCE; RECORDER_HEADER_CAPTURE_ON_SPEECH;
    RECORDER_HEADER_VER_BUFFER_UTTERANCE; RECORDER_HEADER_START_INPUT_TIMERS;
    RECORDER_HEADER_NEW_AUDIO_CHANNEL ].

Definition recorder_header_id_num : mrcp_recorder_header_id -> Z :=
  enum_num recorder_header_ids.
Definition RECORDER_HEADER_COUNT : Z := 15.

Definition recorder_header_string_table : list apt_str_table_item_t :=
  [ item "Sensitivity-Level" 17 3; item "No-Input-Timeout" 16 2; item "Completion-Cause" 16 16;
    item "Completion-Reason" 17 11; item "Failed-Uri" 10 10; item "Failed-Uri-Cause" 16 16;
    item "Record-Uri" 10 0; item "Media-Type" 10 2; item "Max-Time" 8 2;
    item "Trim-Length" 11 0; item "Final-Silence" 13 1; item "Capture-On-Speech" 17 2;
    item "Ver-Buffer-Utterance" 20 0; item "Start-Input-Timers" 18 1;
    item "New-Audio-Channel" 17 2 ].

Definition completion_cause_string_table : list apt_str_table_item_t :=
  [ item "success-silence" 15 8; item "success-maxtime" 15 8; item "no-input-timeout" 16 0;
    item "uri-failure" 11 0; item "error" 5 0 ].

Definition RECORDER_COMPLETION_CAUSE_SUCCESS_SILENCE : Z := 0.
Definition RECORDER_COMPLETION_CAUSE_SUCCESS_MAXTIME : Z := 1.
Definition RECORDER_COMPLETION_CAUSE_NO_INPUT_TIMEOUT : Z := 2.
Definition RECORDER_COMPLETION_CAUSE_URI_FAILURE : Z := 3.
Definition RECORDER_COMPLETION_CAUSE_ERROR : Z := 4.
Definition RECORDER_COMPLETION_CAUSE_COUNT : Z := 5.
Definition RECORDER_COMPLETION_CAUSE_UNKNOWN : Z := RECORDER_COMPLETION_CAUSE_COUNT.

(** * Data *)

Section Data.
Context `{CFloat}.

Record mrcp_recorder_header_t := mk_recorder_header {
  sensitivity_level : float32;
  no_input_timeout : Z;
  completion_cause : Z;
  completion_reason : apt_str_t;
  failed_uri : apt_str_t;
  failed_uri_cause : apt_str_t;
  record_uri : apt_str_t;
  media_type : apt_str_t;
  max_time : Z;
  trim_length : Z;
  final_silence : Z;
  capture_on_speech : bool;
  ver_buffer_utterance : bool;
  start_input_timers : bool;
  new_audio_channel : bool
}.
End Data.

#[global] Instance eta_recorder_header `{CFloat} : Eta mrcp_recorder_header_t := fun s =>
  mk_recorder_header (sensitivity_level s) (no_input_timeout s) (completion_cause s) (completion_reason s)
    (failed_uri s) (failed_uri_cause s) (record_uri s) (media_type s) (max_time s)
    (trim_length s) (final_silence s) (capture_on_speech s) (ver_buffer_utterance s)
    (start_input_timers s) (new_audio_channel s).

(** * The operations of the header *)

Section Operations.
Context `{Apr} `{CFloat}.

Definition mrcp_recorder_header_init : mrcp_recorder_header_t :=
  let e := apt_string_reset in
  mk_recorder_header float_zero 0 RECORDER_COMPLETION_CAUSE_COUNT e e e e e 0 0 0 false false false false.

Definition mrcp_recorder_header_parse (h : mrcp_recorder_header_t) (id : Z) (value : apt_str_t)
    : bool * mrcp_recorder_header_t :=
  match enum_of recorder_header_ids id with
  | None => (false, h)
  | Some i =>
      (true,
       match i with
       | RECORDER_HEADER_SENSITIVITY_LEVEL =>
           h <| sensitivity_level := apt_float_value_parse value |>
       | RECORDER_HEADER_NO_INPUT_TIMEOUT =>
           h <| no_input_timeout := apt_size_value_parse value |>
       | RECORDER_HEADER_COMPLETION_CAUSE =>
           h <| completion_cause := u32 (apt_size_value_parse value) |>
       | RECORDER_HEADER_COMPLETION_REASON => h <| completion_reason := value |>
       | RECORDER_HEADER_FAILED_URI => h <| failed_uri := value |>
       | RECORDER_HEADER_FAILED_URI_CAUSE => h <| failed_uri_cause := value |>
       | RECORDER_HEADER_RECORD_URI => h <| record_uri := value |>
       | RECORDER_HEADER_MEDIA_TYPE => h <| media_type := value |>
       | RECORDER_HEADER_MAX_TIME => h <| max_time := apt_size_value_parse value |>
       | RECORDER_HEADER_TRIM_LENGTH => h <| trim_length := apt_size_value_parse value |>
       | RECORDER_HEADER_FINAL_SILENCE => h <| final_silence := apt_size_value_parse value |>
       | RECORDER_HEADER_CAPTURE_ON_SPEECH =>
           h <| capture_on_speech := default (capture_on_speech h) (apt_boolean_value_parse value) |>
       | RECORDER_HEADER_VER_BUFFER_UTTERANCE =>
           h <| ver_buffer_utterance := default (ver_buffer_utterance h) (apt_boolean_value_parse value) |>
       | RECORDER_HEADER_START_INPUT_TIMERS =>
           h <| start_input_timers := default (start_input_timers h) (apt_boolean_value_parse value) |>
       | RECORDER_HEADER_NEW_AUDIO_CHANNEL =>
           h <| new_audio_channel := default (new_audio_channel h) (apt_boolean_value_parse value) |>
       end)
  end.

(** A value that cannot be generated is left as it is. *)
Definition mrcp_recorder_header_generate (h : mrcp_recorder_header_t) (id : Z) (value : apt_str_t)
    : option (bool * apt_str_t) :=
  Some (true,
    match enum_of recorder_header_ids id with
    | None => value
    | Some i =>
       match i with
       | RECORDER_HEADER_SENSITIVITY_LEVEL => apt_float_value_generate (sensitivity_level h)
       | RECORDER_HEADER_NO_INPUT_TIMEOUT => apt_size_value_generate (no_input_timeout h)
       | RECORDER_HEADER_COMPLETION_CAUSE =>
           default value (apt_completion_cause_generate completion_cause_string_table
                           RECORDER_COMPLETION_CAUSE_COUNT (completion_cause h))
       | RECORDER_HEADER_COMPLETION_REASON => completion_reason h
       | RECORDER_HEADER_FAILED_URI => failed_uri h
       | RECORDER_HEADER_FAILED_URI_CAUSE => failed_uri_cause h
       | RECORDER_HEADER_RECORD_URI => record_uri h
       | RECORDER_HEADER_MEDIA_TYPE => media_type h
       | RECORDER_HEADER_MAX_TIME => apt_size_value_generate (max_time h)
       | RECORDER_HEADER_TRIM_LENGTH => apt_size_value_generate (trim_length h)
       | RECORDER_HEADER_FINAL_SILENCE => apt_size_value_generate (final_silence h)
       | RECORDER_HEADER_CAPTURE_ON_SPEECH => apt_boolean_value_generate (capture_on_speech h)
       | RECORDER_HEADER_VER_BUFFER_UTTERANCE =>
           apt_boolean_value_generate (ver_buffer_utterance h)
       | RECORDER_HEADER_START_INPUT_TIMERS => apt_boolean_value_generate (start_input_timers h)
       | RECORDER_HEADER_NEW_AUDIO_CHANNEL => apt_boolean_value_generate (new_audio_channel h)
       end
    end).

Definition mrcp_recorder_header_duplicate (h src : mrcp_recorder_header_t) (id : Z)
    (value : apt_str_t) : bool * mrcp_recorder_header_t :=
  match enum_of recorder_header_ids id with
  | None => (false, h)
  | Some i =>
      (true,
       match i with
       | RECORDER_HEADER_SENSITIVITY_LEVEL => h <| sensitivity_level := sensitivity_level src |>
       | RECORDER_HEADER_NO_INPUT_TIMEOUT => h <| no_input_timeout := no_input_timeout src |>
       | RECORDER_HEADER_COMPLETION_CAUSE => h <| completion_cause := completion_cause src |>
       | RECORDER_HEADER_COMPLETION_REASON => h <| completion_reason := value |>
       | RECORDER_HEADER_FAILED_URI => h <| failed_uri := value |>
       | RECORDER_HEADER_FAILED_URI_CAUSE => h <| failed_uri_cause := value |>
       | RECORDER_HEADER_RECORD_URI => h <| record_uri := value |>
       | RECORDER_HEADER_MEDIA_TYPE => h <| media_type := value |>
       | RECORDER_HEADER_MAX_TIME => h <| max_time := max_time src |>
       | RECORDER_HEADER_TRIM_LENGTH => h <| trim_length := trim_length src |>
       | RECORDER_HEADER_FINAL_SILENCE => h <| final_silence := final_silence src |>
       | RECORDER_HEADER_CAPTURE_ON_SPEECH => h <| capture_on_speech := capture_on_speech src |>
       | RECORDER_HEADER_VER_BUFFER_UTTERANCE =>
           h <| ver_buffer_utterance := ver_buffer_utterance src |>
       | RECORDER_HEADER_START_INPUT_TIMERS =>
           h <| start_input_timers := start_input_timers src |>
       | RECORDER_HEADER_NEW_AUDIO_CHANNEL => h <| new_audio_channel := new_audio_channel src |>
       end)
  end.

Definition mrcp_recorder_header_vtable_get (v : mrcp_version_e)
    : option (mrcp_header_vtable_t mrcp_recorder_header_t) :=
  Some (mk_vtable mrcp_recorder_header_init mrcp_recorder_header_parse mrcp_recorder_header_generate
          mrcp_recorder_header_duplicate recorder_header_string_table RECORDER_HEADER_COUNT).

Definition mrcp_recorder_completion_cause_get (cause : Z) (v : mrcp_version_e) : option apt_str_t :=
  apt_string_table_str_get completion_cause_string_table RECORDER_COMPLETION_CAUSE_COUNT cause.

End Operations.

(** * The resource *)

Inductive mrcp_recorder_method_id :=
| RECORDER_SET_PARAMS
| RECORDER_GET_PARAMS
| RECORDER_RECORD
| RECORDER_STOP
| RECORDER_START_INPUT_TIMERS.

Inductive mrcp_recorder_event_id :=
| RECORDER_START_OF_INPUT
| RECORDER_RECORD_COMPLETE.

#[global] Instance mrcp_recorder_method_id_eq_dec : EqDecision mrcp_recorder_method_id.
Proof. solve_decision. Defined.
#[global] Instance mrcp_recorder_event_id_eq_dec : EqDecision mrcp_recorder_event_id.
Proof. solve_decision. Defined.

Definition recorder_methods : list mrcp_recorder_method_id :=
  [ RECORDER_SET_PARAMS; RECORDER_GET_PARAMS; RECORDER_RECORD; RECORDER_STOP;
    RECORDER_START_INPUT_TIMERS ].
Definition recorder_events : list mrcp_recorder_event_id :=
  [ RECORDER_START_OF_INPUT; RECORDER_RECORD_COMPLETE ].

Definition RECORDER_METHOD_COUNT : Z := 5.
Definition RECORDER_EVENT_COUNT : Z := 2.

Definition recorder_method_string_table : list apt_str_table_item_t :=
  [ item "SET-PARAMS" 10 10; item "GET-PARAMS" 10 0; item "RECORD" 6 0; item "STOP" 4 2;
    item "START-INPUT-TIMERS" 18 2 ].
Definition recorder_method_string_table_get (v : mrcp_version_e) := recorder_method_string_table.

Definition recorder_event_string_table : list apt_str_table_item_t :=
  [ item "START-OF-INPUT" 14 0; item "RECORD-COMPLETE" 15 0 ].
Definition recorder_event_string_table_get (v : mrcp_version_e) := recorder_event_string_table.

(** The identifier and the name are set by the resource factory. *)
Definition mrcp_recorder_resource_create `{Apr} `{CFloat} : mrcp_resource_t mrcp_recorder_header_t :=
  mk_resource 0 apt_string_reset recorder_method_string_table_get RECORDER_METHOD_COUNT
    recorder_event_string_table_get RECORDER_EVENT_COUNT mrcp_recorder_header_vtable_get.

(** * Properties of the header *)

Lemma recorder_header_ids_all (i : mrcp_recorder_header_id) :
  enum_of recorder_header_ids (recorder_header_id_num i) = Some i.
Proof. by destruct i. Qed.

(** Fields kept as the text of their value, truth values, and numbers. *)
Definition recorder_text_field (i : mrcp_recorder_header_id) : bool :=
  match i with
  | RECORDER_HEADER_COMPLETION_REASON | RECORDER_HEADER_FAILED_URI
  | RECORDER_HEADER_FAILED_URI_CAUSE | RECORDER_HEADER_RECORD_URI | RECORDER_HEADER_MEDIA_TYPE => true
  | _ => false
  end.
Definition recorder_bool_field (i : mrcp_recorder_header_id) : bool :=
  match i with
  | RECORDER_HEADER_CAPTURE_ON_SPEECH | RECORDER_HEADER_VER_BUFFER_UTTERANCE
  | RECORDER_HEADER_START_INPUT_TIMERS | RECORDER_HEADER_NEW_AUDIO_CHANNEL => true
  | _ => false
  end.
Definition recorder_size_field (i : mrcp_recorder_header_id) : bool :=
  match i with
  | RECORDER_HEADER_NO_INPUT_TIMEOUT | RECORDER_HEADER_MAX_TIME | RECORDER_HEADER_TRIM_LENGTH
  | RECORDER_HEADER_FINAL_SILENCE => true
  | _ => false
  end.

(** The fields of the recorder header are independent.  Parsing a value into one
    field leaves what every other field generates unchanged; a textual field then generates
    the parsed value, a boolean field the parsed truth value and a numeric field the same
    number; duplicating a field that the source generates a value for makes the header
    generate the same value. *)
Theorem recorder_header_field_lens `{Apr} `{CFloat} (h src : mrcp_recorder_header_t)
    (i : mrcp_recorder_header_id) (v w : apt_str_t) :
  let num := recorder_header_id_num in
  let h' := snd (mrcp_recorder_header_parse h (num i) v) in
  fst (mrcp_recorder_header_parse h (num i) v) = true /\
  (forall j, j <> i -> mrcp_recorder_header_generate h' (num j) w = mrcp_recorder_header_generate h (num j) w) /\
  (recorder_text_field i = true -> mrcp_recorder_header_generate h' (num i) w = Some (true, v)) /\
  (recorder_bool_field i = true -> forall b, apt_boolean_value_parse v = Some b ->
     mrcp_recorder_header_generate h' (num i) w = Some (true, apt_boolean_value_generate b)) /\
  (recorder_size_field i = true -> forall n follow, 0 <= n < 2 ^ 63 ->
     str_buf v = Some (dec n ++ follow) -> stops follow ->
     mrcp_recorder_header_generate h' (num i) w = Some (true, apt_size_value_generate n)) /\
  (mrcp_recorder_header_generate src (num i) w = Some (true, v) ->
   mrcp_recorder_header_generate (snd (mrcp_recorder_header_duplicate h src (num i) v)) (num i) w = Some (true, v)).
Proof.
  cbv zeta. unfold mrcp_recorder_header_parse, mrcp_recorder_header_generate, mrcp_recorder_header_duplicate.
  rewrite !recorder_header_ids_all. split_and!; [done| | | | |].
  - intros j Hj. rewrite recorder_header_ids_all. by destruct i, j.
  - by destruct i.
  - intros Hb b Hv. destruct i; try done; simpl; by rewrite Hv.
  - intros Hi n follow Hn Hv Hs. destruct i; try done; simpl; by rewrite (size_parse_text v n follow).
  - by destruct i.
Qed.
