(* ===== verification/VerifierHeader.v ===== *)
(** The verifier resource and its header
    ([libs/mrcp/resources/include/mrcp_verifier_header.h], [src/mrcp_verifier_header.c],
    [mrcp_verifier_resource.h], [src/mrcp_verifier_resource.c]): the twenty-one fields, their string
    tables, and the parse, generate and duplicate operations behind the accessor interface. *)

From S2P Require Import Prelude AptString TextStream TextValues HeaderField TextMessage StartLine MrcpHeader GenericHeader Message FloatValue.

(** * Identifiers and tables *)

Inductive mrcp_verifier_header_id :=
| VERIFIER_HEADER_REPOSITORY_URI
| VERIFIER_HEADER_VOICEPRINT_IDENTIFIER
| VERIFIER_HEADER_VERIFICATION_MODE
| VERIFIER_HEADER_ADAPT_MODEL
| VERIFIER_HEADER_ABORT_MODEL
| VERIFIER_HEADER_MIN_VERIFICATION_SCORE
| VERIFIER_HEADER_NUM_MIN_VERIFICATION_PHRASES
| VERIFIER_HEADER_NUM_MAX_VERIFICATION_PHRASES
| VERIFIER_HEADER_NO_INPUT_TIMEOUT
| VERIFIER_HEADER_SAVE_WAVEFORM
| VERIFIER_HEADER_MEDIA_TYPE
| VERIFIER_HEADER_WAVEFORM_URI
| VERIFIER_HEADER_VOICEPRINT_EXISTS
| VERIFIER_HEADER_VER_BUFFER_UTTERANCE
| VERIFIER_HEADER_INPUT_WAVEFORM_URI
| VERIFIER_HEADER_COMPLETION_CAUSE
| VERIFIER_HEADER_COMPLETION_REASON
| VERIFIER_HEADER_SPEECH_COMPLETE_TIMEOUT
| VERIFIER_HEADER_NEW_AUDIO_CHANNEL
| VERIFIER_HEADER_ABORT_VERIFICATION
| VERIFIER_HEADER_START_INPUT_TIMERS.

#[global] Instance mrcp_verifier_header_id_eq_dec : EqDecision mrcp_verifier_header_id.
Proof. solve_decision. Defined.

Definition verifier_header_ids : list mrcp_verifier_header_id :=
  [ VERIFIER_HEADER_REPOSITORY_URI; VERIFIER_HEADER_VOICEPRINT_IDENTIFIER;
    VERIFIER_HEADER_VERIFICATION_MODE; VERIFIER_HEADER_ADAPT_MODEL;
    VERIFIER_HEADER_ABORT_MODEL; VERIFIER_HEADER_MIN_VERIFICATION_SCORE;
    VERIFIER_HEADER_NUM_MIN_VERIFICATION_PHRASES; VERIFIER_HEADER_NUM_MAX_VERIFICATION_PHRASES;
    VERIFIER_HEADER_NO_INPUT_TIMEOUT; VERIFIER_HEADER_SAVE_WAVEFORM;
    VERIFIER_HEADER_MEDIA_TYPE; VERIFIER_HEADER_WAVEFORM_URI;
    VERIFIER_HEADER_VOICEPRINT_EXISTS; VERIFIER_HEADER_VER_BUFFER_UTTERANCE;
    VERIFIER_HEADER_INPUT_WAVEFORM_URI; VERIFIER_HEADER_COMPLETION_CAUSE;
    VERIFIER_HEADER_COMPLETION_REASON; VERIFIER_HEADER_SPEECH_COMPLETE_TIMEOUT;
    VERIFIER_HEADER_NEW_AUDIO_CHANNEL; VERIFIER_HEADER_ABORT_VERIFICATION;
    VERIFIER_HEADER_START_INPUT_TIMERS ].

Definition verifier_header_id_num : mrcp_verifier_header_id -> Z :=
  enum_num verifier_header_ids.
Definition VERIFIER_HEADER_COUNT : Z := 21.

Definition verifier_header_string_table : list apt_str_table_item_t :=
  [ item "Repository-URI" 14 0; item "Voiceprint-Identifier" 21 12;
    item "Verification-Mode" 17 6; item "Adapt-Model" 11 1; item "Abort-Model" 11 11;
    item "Min-Verification-Score" 22 1; item "Num-Min-Verification-Phrases" 28 6;
    item "Num-Max-Verification-Phrases" 28 5; item "No-Input-Timeout" 16 2;
    item "Save-Waveform" 13 4; item "Media-Type" 10 2; item "Waveform-URI" 12 0;
    item "Voiceprint-Exists" 17 11; item "Ver-Buffer-Utterance" 20 4;
    item "Input-Waveform-URI" 18 0; item "Completion-Cause" 16 11;
    item "Completion-Reason" 17 15; item "Speech-Complete-Timeout" 23 1;
    item "New-Audio-Channel" 17 2; item "Abort-Verification" 18 6;
    item "Start-Input-Timers" 18 1 ].

Definition completion_cause_string_table : list apt_str_table_item_t :=
  [ item "success" 7 2; item "error" 5 0; item "no-input-timeout" 16 0;
    item "too-much-speech-timeout" 23 0; item "speech-too-early" 16 9;
    item "buffer-empty" 12 0; item "out-of-sequence" 15 0; item "repository-uri-failure" 22 15;
    item "repository-uri-missing" 22 15; item "voiceprint-id-missing" 21 14;
    item "voiceprint-id-not-exist" 23 14; item "speech-not-usable" 17 7 ].

Definition VERIFIER_COMPLETION_CAUSE_SUCCESS : Z := 0.
Definition VERIFIER_COMPLETION_CAUSE_ERROR : Z := 1.
Definition VERIFIER_COMPLETION_CAUSE_NO_INPUT_TIMEOUT : Z := 2.
Definition VERIFIER_COMPLETION_CAUSE_TOO_MUCH_SPEECH_TIMEOUT : Z := 3.
Definition VERIFIER_COMPLETION_CAUSE_SPEECH_TOO_EARLY : Z := 4.
Definition VERIFIER_COMPLETION_CAUSE_BUFFER_EMPTY : Z := 5.
Definition VERIFIER_COMPLETION_CAUSE_OUT_OF_SEQUENCE : Z := 6.
Definition VERIFIER_COMPLETION_CAUSE_REPOSITORY_URI_FAILURE : Z := 7.
Definition VERIFIER_COMPLETION_CAUSE_REPOSITORY_URI_MISSING : Z := 8.
Definition VERIFIER_COMPLETION_CAUSE_VOICEPRINT_ID_MISSING : Z := 9.
Definition VERIFIER_COMPLETION_CAUSE_VOICEPRINT_ID_NOT_EXIST : Z := 10.
Definition VERIFIER_COMPLETION_CAUSE_SPEECH_NOT_USABLE : Z := 11.
Definition VERIFIER_COMPLETION_CAUSE_COUNT : Z := 12.
Definition VERIFIER_COMPLETION_CAUSE_UNKNOWN : Z := VERIFIER_COMPLETION_CAUSE_COUNT.

(** * Data *)

Section Data.
Context `{CFloat}.

Record mrcp_verifier_header_t := mk_verifier_header {
  repository_uri : apt_str_t;
  voiceprint_identifier : apt_str_t;
  verification_mode : apt_str_t;
  adapt_model : bool;
  abort_model : bool;
  min_verification_score : float32;
  num_min_verification_phrases : Z;
  num_max_verification_phrases : Z;
  no_input_timeout : Z;
  save_waveform : bool;
  media_type : apt_str_t;
  waveform_uri : apt_str_t;
  voiceprint_exists : bool;
  ver_buffer_utterance : bool;
  input_waveform_uri : apt_str_t;
  completion_cause : Z;
  completion_reason : apt_str_t;
  speech_complete_timeout : Z;
  new_audio_channel : bool;
  abort_verification : bool;
  start_input_timers : bool
}.
End Data.

#[global] Instance eta_verifier_header `{CFloat} : Eta mrcp_verifier_header_t := fun s =>
  mk_verifier_header (repository_uri s) (voiceprint_identifier s) (verification_mode s) (adapt_model s)
    (abort_model s) (min_verification_score s) (num_min_verification_phrases s)
    (num_max_verification_phrases s) (no_input_timeout s) (save_waveform s) (media_type s)
    (waveform_uri s) (voiceprint_exists s) (ver_buffer_utterance s) (input_waveform_uri s)
    (completion_cause s) (completion_reason s) (speech_complete_timeout s)
    (new_audio_channel s) (abort_verification s) (start_input_timers s).

(** * The operations of the header *)

Section Operations.
Context `{Apr} `{CFloat}.

Definition mrcp_verifier_header_init : mrcp_verifier_header_t :=
  let e := apt_string_reset in
  mk_verifier_header e e e false false float_zero 0 0 0 false e e false false e
    VERIFIER_COMPLETION_CAUSE_UNKNOWN e 0 false false false.

Definition mrcp_verifier_header_parse (h : mrcp_verifier_header_t) (id : Z) (value : apt_str_t)
    : bool * mrcp_verifier_header_t :=
  match enum_of verifier_header_ids id with
  | None => (false, h)
  | Some i =>
      (true,
       match i with
       | VERIFIER_HEADER_REPOSITORY_URI => h <| repository_uri := value |>
       | VERIFIER_HEADER_VOICEPRINT_IDENTIFIER => h <| voiceprint_identifier := value |>
       | VERIFIER_HEADER_VERIFICATION_MODE => h <| verification_mode := value |>
       | VERIFIER_HEADER_ADAPT_MODEL =>
           h <| adapt_model := default (adapt_model h) (apt_boolean_value_parse value) |>
       | VERIFIER_HEADER_ABORT_MODEL =>
           h <| abort_model := default (abort_model h) (apt_boolean_value_parse value) |>
       | VERIFIER_HEADER_MIN_VERIFICATION_SCORE =>
           h <| min_verification_score := apt_float_value_parse value |>
       | VERIFIER_HEADER_NUM_MIN_VERIFICATION_PHRASES =>
           h <| num_min_verification_phrases := apt_size_value_parse value |>
       | VERIFIER_HEADER_NUM_MAX_VERIFICATION_PHRASES =>
           h <| num_max_verification_phrases := apt_size_value_parse value |>
       | VERIFIER_HEADER_NO_INPUT_TIMEOUT =>
           h <| no_input_timeout := apt_size_value_parse value |>
       | VERIFIER_HEADER_SAVE_WAVEFORM =>
           h <| save_waveform := default (save_waveform h) (apt_boolean_value_parse value) |>
       | VERIFIER_HEADER_MEDIA_TYPE => h <| media_type := value |>
       | VERIFIER_HEADER_WAVEFORM_URI => h <| waveform_uri := value |>
       | VERIFIER_HEADER_VOICEPRINT_EXISTS =>
           h <| voiceprint_exists := default (voiceprint_exists h) (apt_boolean_value_parse value) |>
       | VERIFIER_HEADER_VER_BUFFER_UTTERANCE =>
           h <| ver_buffer_utterance := default (ver_buffer_utterance h) (apt_boolean_value_parse value) |>
       | VERIFIER_HEADER_INPUT_WAVEFORM_URI => h <| input_waveform_uri := value |>
       | VERIFIER_HEADER_COMPLETION_CAUSE =>
           h <| completion_cause := u32 (apt_size_value_parse value) |>
       | VERIFIER_HEADER_COMPLETION_REASON => h <| completion_reason := value |>
       | VERIFIER_HEADER_SPEECH_COMPLETE_TIMEOUT =>
           h <| speech_complete_timeout := apt_size_value_parse value |>
       | VERIFIER_HEADER_NEW_AUDIO_CHANNEL =>
           h <| new_audio_channel := default (new_audio_channel h) (apt_boolean_value_parse value) |>
       | VERIFIER_HEADER_ABORT_VERIFICATION =>
           h <| abort_verification := default (abort_verification h) (apt_boolean_value_parse value) |>
       | VERIFIER_HEADER_START_INPUT_TIMERS =>
           h <| start_input_timers := default (start_input_timers h) (apt_boolean_value_parse value) |>
       end)
  end.

(** A value that cannot be generated is left as it is. *)
Definition mrcp_verifier_header_generate (h : mrcp_verifier_header_t) (id : Z) (value : apt_str_t)
    : option (bool * apt_str_t) :=
  Some (true,
    match enum_of verifier_header_ids id with
    | None => value
    | Some i =>
       match i with
       | VERIFIER_HEADER_REPOSITORY_URI => repository_uri h
       | VERIFIER_HEADER_VOICEPRINT_IDENTIFIER => voiceprint_identifier h
       | VERIFIER_HEADER_VERIFICATION_MODE => verification_mode h
       | VERIFIER_HEADER_ADAPT_MODEL => apt_boolean_value_generate (adapt_model h)
       | VERIFIER_HEADER_ABORT_MODEL => apt_boolean_value_generate (abort_model h)
       | VERIFIER_HEADER_MIN_VERIFICATION_SCORE =>
           apt_float_value_generate (min_verification_score h)
       | VERIFIER_HEADER_NUM_MIN_VERIFICATION_PHRASES =>
           apt_size_value_generate (num_min_verification_phrases h)
       | VERIFIER_HEADER_NUM_MAX_VERIFICATION_PHRASES =>
           apt_size_value_generate (num_max_verification_phrases h)
       | VERIFIER_HEADER_NO_INPUT_TIMEOUT => apt_size_value_generate (no_input_timeout h)
       | VERIFIER_HEADER_SAVE_WAVEFORM => apt_boolean_value_generate (save_waveform h)
       | VERIFIER_HEADER_MEDIA_TYPE => media_type h
       | VERIFIER_HEADER_WAVEFORM_URI => waveform_uri h
       | VERIFIER_HEADER_VOICEPRINT_EXISTS => apt_boolean_value_generate (voiceprint_exists h)
       | VERIFIER_HEADER_VER_BUFFER_UTTERANCE =>
           apt_boolean_value_generate (ver_buffer_utterance h)
       | VERIFIER_HEADER_INPUT_WAVEFORM_URI => input_waveform_uri h
       | VERIFIER_HEADER_COMPLETION_CAUSE =>
           default value (apt_completion_cause_generate completion_cause_string_table
                           VERIFIER_COMPLETION_CAUSE_COUNT (completion_cause h))
       | VERIFIER_HEADER_COMPLETION_REASON => completion_reason h
       | VERIFIER_HEADER_SPEECH_COMPLETE_TIMEOUT =>
           apt_size_value_generate (speech_complete_timeout h)
       | VERIFIER_HEADER_NEW_AUDIO_CHANNEL => apt_boolean_value_generate (new_audio_channel h)
       | VERIFIER_HEADER_ABORT_VERIFICATION => apt_boolean_value_generate (abort_verification h)
       | VERIFIER_HEADER_START_INPUT_TIMERS => apt_boolean_value_generate (start_input_timers h)
       end
    end).

Definition mrcp_verifier_header_duplicate (h src : mrcp_verifier_header_t) (id : Z)
    (value : apt_str_t) : bool * mrcp_verifier_header_t :=
  match enum_of verifier_header_ids id with
  | None => (false, h)
  | Some i =>
      (true,
       match i with
       | VERIFIER_HEADER_REPOSITORY_URI => h <| repository_uri := value |>
       | VERIFIER_HEADER_VOICEPRINT_IDENTIFIER => h <| voiceprint_identifier := value |>
       | VERIFIER_HEADER_VERIFICATION_MODE => h <| verification_mode := value |>
       | VERIFIER_HEADER_ADAPT_MODEL => h <| adapt_model := adapt_model src |>
       | VERIFIER_HEADER_ABORT_MODEL => h <| abort_model := abort_model src |>
       | VERIFIER_HEADER_MIN_VERIFICATION_SCORE =>
           h <| min_verification_score := min_verification_score src |>
       | VERIFIER_HEADER_NUM_MIN_VERIFICATION_PHRASES =>
           h <| num_min_verification_phrases := num_min_verification_phrases src |>
       | VERIFIER_HEADER_NUM_MAX_VERIFICATION_PHRASES =>
           h <| num_max_verification_phrases := num_max_verification_phrases src |>
       | VERIFIER_HEADER_NO_INPUT_TIMEOUT => h <| no_input_timeout := no_input_timeout src |>
       | VERIFIER_HEADER_SAVE_WAVEFORM => h <| save_waveform := save_waveform src |>
       | VERIFIER_HEADER_MEDIA_TYPE => h <| media_type := value |>
       | VERIFIER_HEADER_WAVEFORM_URI => h <| waveform_uri := value |>
       | VERIFIER_HEADER_VOICEPRINT_EXISTS => h <| voiceprint_exists := voiceprint_exists src |>
       | VERIFIER_HEADER_VER_BUFFER_UTTERANCE =>
           h <| ver_buffer_utterance := ver_buffer_utterance src |>
       | VERIFIER_HEADER_INPUT_WAVEFORM_URI => h <| input_waveform_uri := value |>
       | VERIFIER_HEADER_COMPLETION_CAUSE => h <| completion_cause := completion_cause src |>
       | VERIFIER_HEADER_COMPLETION_REASON => h <| completion_reason := value |>
       | VERIFIER_HEADER_SPEECH_COMPLETE_TIMEOUT =>
           h <| speech_complete_timeout := speech_complete_timeout src |>
       | VERIFIER_HEADER_NEW_AUDIO_CHANNEL => h <| new_audio_channel := new_audio_channel src |>
       | VERIFIER_HEADER_ABORT_VERIFICATION =>
           h <| abort_verification := abort_verification src |>
       | VERIFIER_HEADER_START_INPUT_TIMERS =>
           h <| start_input_timers := start_input_timers src |>
       end)
  end.

Definition mrcp_verifier_header_vtable_get (v : mrcp_version_e)
    : option (mrcp_header_vtable_t mrcp_verifier_header_t) :=
  Some (mk_vtable mrcp_verifier_header_init mrcp_verifier_header_parse mrcp_verifier_header_generate
          mrcp_verifier_header_duplicate verifier_header_string_table VERIFIER_HEADER_COUNT).

Definition mrcp_verifier_completion_cause_get (cause : Z) (v : mrcp_version_e) : option apt_str_t :=
  apt_string_table_str_get completion_cause_string_table VERIFIER_COMPLETION_CAUSE_COUNT cause.

End Operations.

(** * The resource *)

Inductive mrcp_verifier_method_id :=
| VERIFIER_SET_PARAMS
| VERIFIER_GET_PARAMS
| VERIFIER_START_SESSION
| VERIFIER_END_SESSION
| VERIFIER_QUERY_VOICEPRINT
| VERIFIER_DELETE_VOICEPRINT
| VERIFIER_VERIFY
| VERIFIER_VERIFY_FROM_BUFFER
| VERIFIER_VERIFY_ROLLBACK
| VERIFIER_STOP
| VERIFIER_CLEAR_BUFFER
| VERIFIER_START_INPUT_TIMERS
| VERIFIER_GET_INTERMIDIATE_RESULT.

Inductive mrcp_verifier_event_id :=
| VERIFIER_START_OF_INPUT
| VERIFIER_VERIFICATION_COMPLETE.

#[global] Instance mrcp_verifier_method_id_eq_dec : EqDecision mrcp_verifier_method_id.
Proof. solve_decision. Defined.
#[global] Instance mrcp_verifier_event_id_eq_dec : EqDecision mrcp_verifier_event_id.
Proof. solve_decision. Defined.

Definition verifier_methods : list mrcp_verifier_method_id :=
  [ VERIFIER_SET_PARAMS; VERIFIER_GET_PARAMS; VERIFIER_START_SESSION; VERIFIER_END_SESSION;
    VERIFIER_QUERY_VOICEPRINT; VERIFIER_DELETE_VOICEPRINT; VERIFIER_VERIFY;
    VERIFIER_VERIFY_FROM_BUFFER; VERIFIER_VERIFY_ROLLBACK; VERIFIER_STOP;
    VERIFIER_CLEAR_BUFFER; VERIFIER_START_INPUT_TIMERS; VERIFIER_GET_INTERMIDIATE_RESULT ].
Definition verifier_events : list mrcp_verifier_event_id :=
  [ VERIFIER_START_OF_INPUT; VERIFIER_VERIFICATION_COMPLETE ].

Definition VERIFIER_METHOD_COUNT : Z := 13.
Definition VERIFIER_EVENT_COUNT : Z := 2.

Definition verifier_method_string_table : list apt_str_table_item_t :=
  [ item "SET-PARAMS" 10 10; item "GET-PARAMS" 10 10; item "START-SESSION" 13 8;
    item "END-SESSION" 11 0; item "QUERY-VOICEPRINT" 16 0; item "DELETE-VOICEPRINT" 17 0;
    item "VERIFY" 6 6; item "VERIFY-FROM-BUFFER" 18 7; item "VERIFY-ROLLBACK" 15 7;
    item "STOP" 4 2; item "CLEAR-BUFFER" 12 0; item "START-INPUT-TIMERS" 18 6;
    item "GET-INTERMEDIATE-RESULT" 23 4 ].
Definition verifier_method_string_table_get (v : mrcp_version_e) := verifier_method_string_table.

Definition verifier_event_string_table : list apt_str_table_item_t :=
  [ item "START-OF-INPUT" 14 0; item "VERIFICATION-COMPLETE" 21 0 ].
Definition verifier_event_string_table_get (v : mrcp_version_e) := verifier_event_string_table.

(** The identifier and the name are set by the resource factory. *)
Definition mrcp_verifier_resource_create `{Apr} `{CFloat} : mrcp_resource_t mrcp_verifier_header_t :=
  mk_resource 0 apt_string_reset verifier_method_string_table_get VERIFIER_METHOD_COUNT
    verifier_event_string_table_get VERIFIER_EVENT_COUNT mrcp_verifier_header_vtable_get.

(** * Properties of the header *)

Lemma verifier_header_ids_all (i : mrcp_verifier_header_id) :
  enum_of verifier_header_ids (verifier_header_id_num i) = Some i.
Proof. by destruct i. Qed.

(** Fields kept as the text of their value, truth values, and numbers. *)
Definition verifier_text_field (i : mrcp_verifier_header_id) : bool :=
  match i with
  | VERIFIER_HEADER_REPOSITORY_URI | VERIFIER_HEADER_VOICEPRINT_IDENTIFIER
  | VERIFIER_HEADER_VERIFICATION_MODE | VERIFIER_HEADER_MEDIA_TYPE
  | VERIFIER_HEADER_WAVEFORM_URI | VERIFIER_HEADER_INPUT_WAVEFORM_URI
  | VERIFIER_HEADER_COMPLETION_REASON => true
  | _ => false
  end.
Definition verifier_bool_field (i : mrcp_verifier_header_id) : bool :=
  match i with
  | VERIFIER_HEADER_ADAPT_MODEL | VERIFIER_HEADER_ABORT_MODEL | VERIFIER_HEADER_SAVE_WAVEFORM
  | VERIFIER_HEADER_VOICEPRINT_EXISTS | VERIFIER_HEADER_VER_BUFFER_UTTERANCE
  | VERIFIER_HEADER_NEW_AUDIO_CHANNEL | VERIFIER_HEADER_ABORT_VERIFICATION
  | VERIFIER_HEADER_START_INPUT_TIMERS => true
  | _ => false
  end.
Definition verifier_size_field (i : mrcp_verifier_header_id) : bool :=
  match i with
  | VERIFIER_HEADER_NUM_MIN_VERIFICATION_PHRASES | VERIFIER_HEADER_NUM_MAX_VERIFICATION_PHRASES
  | VERIFIER_HEADER_NO_INPUT_TIMEOUT | VERIFIER_HEADER_SPEECH_COMPLETE_TIMEOUT => true
  | _ => false
  end.

(** The fields of the verifier header are independent.  Parsing a value into one
    field leaves what every other field generates unchanged; a textual field then generates
    the parsed value, a boolean field the parsed truth value and a numeric field the same
    number; duplicating a field that the source generates a value for makes the header
    generate the same value. *)
Theorem verifier_header_field_lens `{Apr} `{CFloat} (h src : mrcp_verifier_header_t)
    (i : mrcp_verifier_header_id) (v w : apt_str_t) :
  let num := verifier_header_id_num in
  let h' := snd (mrcp_verifier_header_parse h (num i) v) in
  fst (mrcp_verifier_header_parse h (num i) v) = true /\
  (forall j, j <> i -> mrcp_verifier_header_generate h' (num j) w = mrcp_verifier_header_generate h (num j) w) /\
  (verifier_text_field i = true -> mrcp_verifier_header_generate h' (num i) w = Some (true, v)) /\
  (verifier_bool_field i = true -> forall b, apt_boolean_value_parse v = Some b ->
     mrcp_verifier_header_generate h' (num i) w = Some (true, apt_boolean_value_generate b)) /\
  (verifier_size_field i = true -> forall n follow, 0 <= n < 2 ^ 63 ->
     str_buf v = Some (dec n ++ follow) -> stops follow ->
     mrcp_verifier_header_generate h' (num i) w = Some (true, apt_size_value_generate n)) /\
  (mrcp_verifier_header_generate src (num i) w = Some (true, v) ->
   mrcp_verifier_header_generate (snd (mrcp_verifier_header_duplicate h src (num i) v)) (num i) w = Some (true, v)).
Proof.
  cbv zeta. unfold mrcp_verifier_header_parse, mrcp_verifier_header_generate, mrcp_verifier_header_duplicate.
  rewrite !verifier_header_ids_all. split_and!; [done| | | | |].
  - intros j Hj. rewrite verifier_header_ids_all. by destruct i, j.
  - by destruct i.
  - intros Hb b Hv. destruct i; try done; simpl; by rewrite Hv.
  - intros Hi n follow Hn Hv Hs. destruct i; try done; simpl; by rewrite (size_parse_text v n follow).
  - by destruct i.
Qed.
