(* ===== verification/RecogHeader.v ===== *)
(** The recognizer resource and its header
    ([libs/mrcp/resources/include/mrcp_recog_header.h], [src/mrcp_recog_header.c],
    [mrcp_recog_resource.h], [src/mrcp_recog_resource.c]): the forty-five fields, their string
    tables, and the parse, generate and duplicate operations behind the accessor interface. The
    names of some fields, and the form of three of them, depend on the version of the protocol. *)

From S2P Require Import Prelude AptString TextStream TextValues HeaderField TextMessage StartLine MrcpHeader GenericHeader Message FloatValue.

(** * Identifiers and tables *)

Inductive mrcp_recognizer_header_id :=
| RECOGNIZER_HEADER_CONFIDENCE_THRESHOLD
| RECOGNIZER_HEADER_SENSITIVITY_LEVEL
| RECOGNIZER_HEADER_SPEED_VS_ACCURACY
| RECOGNIZER_HEADER_N_BEST_LIST_LENGTH
| RECOGNIZER_HEADER_NO_INPUT_TIMEOUT
| RECOGNIZER_HEADER_RECOGNITION_TIMEOUT
| RECOGNIZER_HEADER_WAVEFORM_URI
| RECOGNIZER_HEADER_COMPLETION_CAUSE
| RECOGNIZER_HEADER_RECOGNIZER_CONTEXT_BLOCK
| RECOGNIZER_HEADER_START_INPUT_TIMERS
| RECOGNIZER_HEADER_SPEECH_COMPLETE_TIMEOUT
| RECOGNIZER_HEADER_SPEECH_INCOMPLETE_TIMEOUT
| RECOGNIZER_HEADER_DTMF_INTERDIGIT_TIMEOUT
| RECOGNIZER_HEADER_DTMF_TERM_TIMEOUT
| RECOGNIZER_HEADER_DTMF_TERM_CHAR
| RECOGNIZER_HEADER_FAILED_URI
| RECOGNIZER_HEADER_FAILED_URI_CAUSE
| RECOGNIZER_HEADER_SAVE_WAVEFORM
| RECOGNIZER_HEADER_NEW_AUDIO_CHANNEL
| RECOGNIZER_HEADER_SPEECH_LANGUAGE
| RECOGNIZER_HEADER_INPUT_TYPE
| RECOGNIZER_HEADER_INPUT_WAVEFORM_URI
| RECOGNIZER_HEADER_COMPLETION_REASON
| RECOGNIZER_HEADER_MEDIA_TYPE
| RECOGNIZER_HEADER_VER_BUFFER_UTTERANCE
| RECOGNIZER_HEADER_RECOGNITION_MODE
| RECOGNIZER_HEADER_CANCEL_IF_QUEUE
| RECOGNIZER_HEADER_HOTWORD_MAX_DURATION
| RECOGNIZER_HEADER_HOTWORD_MIN_DURATION
| RECOGNIZER_HEADER_INTERPRET_TEXT
| RECOGNIZER_HEADER_DTMF_BUFFER_TIME
| RECOGNIZER_HEADER_CLEAR_DTMF_BUFFER
| RECOGNIZER_HEADER_EARLY_NO_MATCH
| RECOGNIZER_HEADER_NUM_MIN_CONSISTENT_PRONUNCIATIONS
| RECOGNIZER_HEADER_CONSISTENCY_THRESHOLD
| RECOGNIZER_HEADER_CLASH_THRESHOLD
| RECOGNIZER_HEADER_PERSONAL_GRAMMAR_URI
| RECOGNIZER_HEADER_ENROLL_UTTERANCE
| RECOGNIZER_HEADER_PHRASE_ID
| RECOGNIZER_HEADER_PHRASE_NL
| RECOGNIZER_HEADER_WEIGHT
| RECOGNIZER_HEADER_SAVE_BEST_WAVEFORM
| RECOGNIZER_HEADER_NEW_PHRASE_ID
| RECOGNIZER_HEADER_CONFUSABLE_PHRASES_URI
| RECOGNIZER_HEADER_ABORT_PHRASE_ENROLLMENT.

#[global] Instance mrcp_recognizer_header_id_eq_dec : EqDecision mrcp_recognizer_header_id.
Proof. solve_decision. Defined.

Definition recognizer_header_ids : list mrcp_recognizer_header_id :=
  [ RECOGNIZER_HEADER_CONFIDENCE_THRESHOLD; RECOGNIZER_HEADER_SENSITIVITY_LEVEL;
    RECOGNIZER_HEADER_SPEED_VS_ACCURACY; RECOGNIZER_HEADER_N_BEST_LIST_LENGTH;
    RECOGNIZER_HEADER_NO_INPUT_TIMEOUT; RECOGNIZER_HEADER_RECOGNITION_TIMEOUT;
    RECOGNIZER_HEADER_WAVEFORM_URI; RECOGNIZER_HEADER_COMPLETION_CAUSE;
    RECOGNIZER_HEADER_RECOGNIZER_CONTEXT_BLOCK; RECOGNIZER_HEADER_START_INPUT_TIMERS;
    RECOGNIZER_HEADER_SPEECH_COMPLETE_TIMEOUT; RECOGNIZER_HEADER_SPEECH_INCOMPLETE_TIMEOUT;
    RECOGNIZER_HEADER_DTMF_INTERDIGIT_TIMEOUT; RECOGNIZER_HEADER_DTMF_TERM_TIMEOUT;
    RECOGNIZER_HEADER_DTMF_TERM_CHAR; RECOGNIZER_HEADER_FAILED_URI;
    RECOGNIZER_HEADER_FAILED_URI_CAUSE; RECOGNIZER_HEADER_SAVE_WAVEFORM;
    RECOGNIZER_HEADER_NEW_AUDIO_CHANNEL; RECOGNIZER_HEADER_SPEECH_LANGUAGE;
    RECOGNIZER_HEADER_INPUT_TYPE; RECOGNIZER_HEADER_INPUT_WAVEFORM_URI;
    RECOGNIZER_HEADER_COMPLETION_REASON; RECOGNIZER_HEADER_MEDIA_TYPE;
    RECOGNIZER_HEADER_VER_BUFFER_UTTERANCE; RECOGNIZER_HEADER_RECOGNITION_MODE;
    RECOGNIZER_HEADER_CANCEL_IF_QUEUE; RECOGNIZER_HEADER_HOTWORD_MAX_DURATION;
    RECOGNIZER_HEADER_HOTWORD_MIN_DURATION; RECOGNIZER_HEADER_INTERPRET_TEXT;
    RECOGNIZER_HEADER_DTMF_BUFFER_TIME; RECOGNIZER_HEADER_CLEAR_DTMF_BUFFER;
    RECOGNIZER_HEADER_EARLY_NO_MATCH; RECOGNIZER_HEADER_NUM_MIN_CONSISTENT_PRONUNCIATIONS;
    RECOGNIZER_HEADER_CONSISTENCY_THRESHOLD; RECOGNIZER_HEADER_CLASH_THRESHOLD;
    RECOGNIZER_HEADER_PERSONAL_GRAMMAR_URI; RECOGNIZER_HEADER_ENROLL_UTTERANCE;
    RECOGNIZER_HEADER_PHRASE_ID; RECOGNIZER_HEADER_PHRASE_NL; RECOGNIZER_HEADER_WEIGHT;
    RECOGNIZER_HEADER_SAVE_BEST_WAVEFORM; RECOGNIZER_HEADER_NEW_PHRASE_ID;
    RECOGNIZER_HEADER_CONFUSABLE_PHRASES_URI; RECOGNIZER_HEADER_ABORT_PHRASE_ENROLLMENT ].

Definition recognizer_header_id_num : mrcp_recognizer_header_id -> Z :=
  enum_num recognizer_header_ids.
Definition RECOGNIZER_HEADER_COUNT : Z := 45.

Definition v1_recog_header_string_table : list apt_str_table_item_t :=
  [ item "Confidence-Threshold" 20 16; item "Sensitivity-Level" 17 14;
    item "Speed-Vs-Accuracy" 17 4; item "N-Best-List-Length" 18 1;
    item "No-Input-Timeout" 16 2; item "Recognition-Timeout" 19 19; item "Waveform-Url" 12 4;
    item "Completion-Cause" 16 16; item "Recognizer-Context-Block" 24 16;
    item "Recognizer-Start-Timers" 23 18; item "Speech-Complete-Timeout" 23 7;
    item "Speech-Incomplete-Timeout" 25 12; item "DTMF-Interdigit-Timeout" 23 10;
    item "DTMF-Term-Timeout" 17 14; item "DTMF-Term-Char" 14 14; item "Failed-Uri" 10 10;
    item "Failed-Uri-Cause" 16 16; item "Save-Waveform" 13 5; item "New-Audio-Channel" 17 17;
    item "Speech-Language" 15 8; item "Input-Type" 10 10; item "Input-Waveform-Uri" 18 6;
    item "Completion-Reason" 17 17; item "Media-Type" 10 0; item "Ver-Buffer-Utterance" 20 0;
    item "Recognition-Mode" 16 16; item "Cancel-If-Queue" 15 3;
    item "Hotword-Max-Duration" 20 10; item "Hotword-Min-Duration" 20 20;
    item "Interpret-Text" 14 12; item "DTMF-Buffer-Time" 16 16; item "Clear-DTMF-Buffer" 17 11;
    item "Early-No-Match" 14 4; item "Num-Min-Consistent-Pronunciations" 33 1;
    item "Consistency-Threshold" 21 16; item "Clash-Threshold" 15 2;
    item "Personal-Grammar-URI" 20 9; item "Enroll-Utterance" 16 10; item "Phrase-ID" 9 8;
    item "Phrase-NL" 9 9; item "Weight" 6 3; item "Save-Best-Waveform" 18 10;
    item "New-Phrase-ID" 13 4; item "Confusable-Phrases-URI" 22 4;
    item "Abort-Phrase-Enrollment" 23 0 ].

Definition v2_recog_header_string_table : list apt_str_table_item_t :=
  [ item "Confidence-Threshold" 20 16; item "Sensitivity-Level" 17 14;
    item "Speed-Vs-Accuracy" 17 4; item "N-Best-List-Length" 18 1;
    item "No-Input-Timeout" 16 2; item "Recognition-Timeout" 19 19; item "Waveform-Uri" 12 4;
    item "Completion-Cause" 16 16; item "Recognizer-Context-Block" 24 7;
    item "Start-Input-Timers" 18 18; item "Speech-Complete-Timeout" 23 7;
    item "Speech-Incomplete-Timeout" 25 12; item "DTMF-Interdigit-Timeout" 23 10;
    item "DTMF-Term-Timeout" 17 14; item "DTMF-Term-Char" 14 14; item "Failed-Uri" 10 10;
    item "Failed-Uri-Cause" 16 16; item "Save-Waveform" 13 5; item "New-Audio-Channel" 17 17;
    item "Speech-Language" 15 8; item "Input-Type" 10 10; item "Input-Waveform-Uri" 18 6;
    item "Completion-Reason" 17 13; item "Media-Type" 10 0; item "Ver-Buffer-Utterance" 20 0;
    item "Recognition-Mode" 16 16; item "Cancel-If-Queue" 15 3;
    item "Hotword-Max-Duration" 20 10; item "Hotword-Min-Duration" 20 20;
    item "Interpret-Text" 14 12; item "DTMF-Buffer-Time" 16 16; item "Clear-DTMF-Buffer" 17 11;
    item "Early-No-Match" 14 4; item "Num-Min-Consistent-Pronunciations" 33 1;
    item "Consistency-Threshold" 21 16; item "Clash-Threshold" 15 15;
    item "Personal-Grammar-URI" 20 9; item "Enroll-Utterance" 16 10; item "Phrase-ID" 9 8;
    item "Phrase-NL" 9 9; item "Weight" 6 3; item "Save-Best-Waveform" 18 10;
    item "New-Phrase-ID" 13 4; item "Confusable-Phrases-URI" 22 4;
    item "Abort-Phrase-Enrollment" 23 0 ].

Definition v1_completion_cause_string_table : list apt_str_table_item_t :=
  [ item "success" 7 1; item "no-match" 8 8; item "no-input-timeout" 16 3;
    item "recognition-timeout" 19 0; item "gram-load-failure" 17 7;
    item "gram-comp-failure" 17 5; item "error" 5 0; item "speech-too-early" 16 1;
    item "too-much-speech-timeout" 23 0; item "uri-failure" 11 0;
    item "language-unsupported" 20 0; item "cancelled" 9 0; item "semantics-failure" 17 2;
    item "partial-match" 13 13; item "partial-match-maxtime" 21 13;
    item "no-match-maxtime" 16 9; item "gram-definition-failure" 23 5 ].

Definition v2_completion_cause_string_table : list apt_str_table_item_t :=
  [ item "success" 7 7; item "no-match" 8 4; item "no-input-timeout" 16 3;
    item "hotword-maxtime" 15 0; item "grammar-load-failure" 20 8;
    item "grammar-compilation-failure" 27 8; item "recognizer-error" 16 0;
    item "speech-too-early" 16 1; item "success-maxtime" 15 15; item "uri-failure" 11 0;
    item "language-unsupported" 20 0; item "cancelled" 9 0; item "semantics-failure" 17 2;
    item "partial-match" 13 13; item "partial-match-maxtime" 21 13;
    item "no-match-maxtime" 16 9; item "grammar-definition-failure" 26 9 ].

Definition RECOGNIZER_COMPLETION_CAUSE_SUCCESS : Z := 0.
Definition RECOGNIZER_COMPLETION_CAUSE_NO_MATCH : Z := 1.
Definition RECOGNIZER_COMPLETION_CAUSE_NO_INPUT_TIMEOUT : Z := 2.
Definition RECOGNIZER_COMPLETION_CAUSE_RECOGNITION_TIMEOUT : Z := 3.
Definition RECOGNIZER_COMPLETION_CAUSE_GRAM_LOAD_FAILURE : Z := 4.
Definition RECOGNIZER_COMPLETION_CAUSE_GRAM_COMP_FAILURE : Z := 5.
Definition RECOGNIZER_COMPLETION_CAUSE_ERROR : Z := 6.
Definition RECOGNIZER_COMPLETION_CAUSE_SPEECH_TOO_EARLY : Z := 7.
Definition RECOGNIZER_COMPLETION_CAUSE_TOO_MUCH_SPEECH_TIMEOUT : Z := 8.
Definition RECOGNIZER_COMPLETION_CAUSE_URI_FAILURE : Z := 9.
Definition RECOGNIZER_COMPLETION_CAUSE_LANGUAGE_UNSUPPORTED : Z := 10.
Definition RECOGNIZER_COMPLETION_CAUSE_CANCELLED : Z := 11.
Definition RECOGNIZER_COMPLETION_CAUSE_SEMANTICS_FAILURE : Z := 12.
Definition RECOGNIZER_COMPLETION_CAUSE_PARTIAL_MATCH : Z := 13.
Definition RECOGNIZER_COMPLETION_CAUSE_PARTIAL_MATCH_MAXTIME : Z := 14.
Definition RECOGNIZER_COMPLETION_CAUSE_NO_MATCH_MAXTIME : Z := 15.
Definition RECOGNIZER_COMPLETION_CAUSE_GRAM_DEFINITION_FAILURE : Z := 16.
Definition RECOGNIZER_COMPLETION_CAUSE_COUNT : Z := 17.
Definition RECOGNIZER_COMPLETION_CAUSE_UNKNOWN : Z := RECOGNIZER_COMPLETION_CAUSE_COUNT.

(** * Data *)

Section Data.
Context `{CFloat}.

Record mrcp_recog_header_t := mk_recog_header {
  confidence_threshold : float32;
  sensitivity_level : float32;
  speed_vs_accuracy : float32;
  n_best_list_length : Z;
  no_input_timeout : Z;
  recognition_timeout : Z;
  waveform_uri : apt_str_t;
  completion_cause : Z;
  recognizer_context_block : apt_str_t;
  start_input_timers : bool;
  speech_complete_timeout : Z;
  speech_incomplete_timeout : Z;
  dtmf_interdigit_timeout : Z;
  dtmf_term_timeout : Z;
  dtmf_term_char : char;
  failed_uri : apt_str_t;
  failed_uri_cause : apt_str_t;
  save_waveform : bool;
  new_audio_channel : bool;
  speech_language : apt_str_t;
  input_type : apt_str_t;
  input_waveform_uri : apt_str_t;
  completion_reason : apt_str_t;
  media_type : apt_str_t;
  ver_buffer_utterance : bool;
  recognition_mode : apt_str_t;
  cancel_if_queue : bool;
  hotword_max_duration : Z;
  hotword_min_duration : Z;
  interpret_text : apt_str_t;
  dtmf_buffer_time : Z;
  clear_dtmf_buffer : bool;
  early_no_match : bool;
  num_min_consistent_pronunciations : Z;
  consistency_threshold : float32;
  clash_threshold : float32;
  personal_grammar_uri : apt_str_t;
  enroll_utterance : bool;
  phrase_id : apt_str_t;
  phrase_nl : apt_str_t;
  weight : float32;
  save_best_waveform : bool;
  new_phrase_id : apt_str_t;
  confusable_phrases_uri : apt_str_t;
  abort_phrase_enrollment : bool
}.
End Data.

#[global] Instance eta_recog_header `{CFloat} : Eta mrcp_recog_header_t := fun s =>
  mk_recog_header (confidence_threshold s) (sensitivity_level s) (speed_vs_accuracy s) (n_best_list_length s)
    (no_input_timeout s) (recognition_timeout s) (waveform_uri s) (completion_cause s)
    (recognizer_context_block s) (start_input_timers s) (speech_complete_timeout s)
    (speech_incomplete_timeout s) (dtmf_interdigit_timeout s) (dtmf_term_timeout s)
    (dtmf_term_char s) (failed_uri s) (failed_uri_cause s) (save_waveform s)
    (new_audio_channel s) (speech_language s) (input_type s) (input_waveform_uri s)
    (completion_reason s) (media_type s) (ver_buffer_utterance s) (recognition_mode s)
    (cancel_if_queue s) (hotword_max_duration s) (hotword_min_duration s) (interpret_text s)
    (dtmf_buffer_time s) (clear_dtmf_buffer s) (early_no_match s)
    (num_min_consistent_pronunciations s) (consistency_threshold s) (clash_threshold s)
    (personal_grammar_uri s) (enroll_utterance s) (phrase_id s) (phrase_nl s) (weight s)
    (save_best_waveform s) (new_phrase_id s) (confusable_phrases_uri s)
    (abort_phrase_enrollment s).

(** * The operations of the header *)

Section Operations.
Context `{Apr} `{CFloat}.

Definition mrcp_recog_header_init : mrcp_recog_header_t :=
  let e := apt_string_reset in
  mk_recog_header float_zero float_zero float_zero 0 0 0 e RECOGNIZER_COMPLETION_CAUSE_COUNT e false 0 0 0 0
    NUL e e false false e e e e e false e false 0 0 e 0 false false 0 float_zero float_zero e
    false e e float_zero false e e false.

Definition mrcp_recog_header_parse (h : mrcp_recog_header_t) (id : Z) (value : apt_str_t)
    : bool * mrcp_recog_header_t :=
  match enum_of recognizer_header_ids id with
  | None => (false, h)
  | Some i =>
      match i with
       | RECOGNIZER_HEADER_N_BEST_LIST_LENGTH =>
           (true, h <| n_best_list_length := apt_size_value_parse value |>)
       | RECOGNIZER_HEADER_NO_INPUT_TIMEOUT =>
           (true, h <| no_input_timeout := apt_size_value_parse value |>)
       | RECOGNIZER_HEADER_RECOGNITION_TIMEOUT =>
           (true, h <| recognition_timeout := apt_size_value_parse value |>)
       | RECOGNIZER_HEADER_WAVEFORM_URI => (true, h <| waveform_uri := value |>)
       | RECOGNIZER_HEADER_COMPLETION_CAUSE =>
           (true, h <| completion_cause := u32 (apt_size_value_parse value) |>)
       | RECOGNIZER_HEADER_RECOGNIZER_CONTEXT_BLOCK => (true, h <| recognizer_context_block := value |>)
       | RECOGNIZER_HEADER_START_INPUT_TIMERS =>
           (true, h <| start_input_timers := default (start_input_timers h) (apt_boolean_value_parse value) |>)
       | RECOGNIZER_HEADER_SPEECH_COMPLETE_TIMEOUT =>
           (true, h <| speech_complete_timeout := apt_size_value_parse value |>)
       | RECOGNIZER_HEADER_SPEECH_INCOMPLETE_TIMEOUT =>
           (true, h <| speech_incomplete_timeout := apt_size_value_parse value |>)
       | RECOGNIZER_HEADER_DTMF_INTERDIGIT_TIMEOUT =>
           (true, h <| dtmf_interdigit_timeout := apt_size_value_parse value |>)
       | RECOGNIZER_HEADER_DTMF_TERM_TIMEOUT =>
           (true, h <| dtmf_term_timeout := apt_size_value_parse value |>)
       | RECOGNIZER_HEADER_DTMF_TERM_CHAR => (true, h <| dtmf_term_char := deref (str_mem value) |>)
       | RECOGNIZER_HEADER_FAILED_URI => (true, h <| failed_uri := value |>)
       | RECOGNIZER_HEADER_FAILED_URI_CAUSE => (true, h <| failed_uri_cause := value |>)
       | RECOGNIZER_HEADER_SAVE_WAVEFORM =>
           (true, h <| save_waveform := default (save_waveform h) (apt_boolean_value_parse value) |>)
       | RECOGNIZER_HEADER_NEW_AUDIO_CHANNEL =>
           (true, h <| new_audio_channel := default (new_audio_channel h) (apt_boolean_value_parse value) |>)
       | RECOGNIZER_HEADER_SPEECH_LANGUAGE => (true, h <| speech_language := value |>)
       | RECOGNIZER_HEADER_INPUT_TYPE => (true, h <| input_type := value |>)
       | RECOGNIZER_HEADER_INPUT_WAVEFORM_URI => (true, h <| input_waveform_uri := value |>)
       | RECOGNIZER_HEADER_COMPLETION_REASON => (true, h <| completion_reason := value |>)
       | RECOGNIZER_HEADER_MEDIA_TYPE => (true, h <| media_type := value |>)
       | RECOGNIZER_HEADER_VER_BUFFER_UTTERANCE =>
           (true, h <| ver_buffer_utterance := default (ver_buffer_utterance h) (apt_boolean_value_parse value) |>)
       | RECOGNIZER_HEADER_RECOGNITION_MODE => (true, h <| recognition_mode := value |>)
       | RECOGNIZER_HEADER_CANCEL_IF_QUEUE =>
           (true, h <| cancel_if_queue := default (cancel_if_queue h) (apt_boolean_value_parse value) |>)
       | RECOGNIZER_HEADER_HOTWORD_MAX_DURATION =>
           (true, h <| hotword_max_duration := apt_size_value_parse value |>)
       | RECOGNIZER_HEADER_HOTWORD_MIN_DURATION =>
           (true, h <| hotword_min_duration := apt_size_value_parse value |>)
       | RECOGNIZER_HEADER_INTERPRET_TEXT => (true, h <| interpret_text := value |>)
       | RECOGNIZER_HEADER_DTMF_BUFFER_TIME =>
           (true, h <| dtmf_buffer_time := apt_size_value_parse value |>)
       | RECOGNIZER_HEADER_CLEAR_DTMF_BUFFER =>
           (true, h <| clear_dtmf_buffer := default (clear_dtmf_buffer h) (apt_boolean_value_parse value) |>)
       | RECOGNIZER_HEADER_EARLY_NO_MATCH =>
           (true, h <| early_no_match := default (early_no_match h) (apt_boolean_value_parse value) |>)
       | RECOGNIZER_HEADER_NUM_MIN_CONSISTENT_PRONUNCIATIONS =>
           (true, h <| num_min_consistent_pronunciations := apt_size_value_parse value |>)
       | RECOGNIZER_HEADER_CONSISTENCY_THRESHOLD =>
           (true, h <| consistency_threshold := apt_float_value_parse value |>)
       | RECOGNIZER_HEADER_CLASH_THRESHOLD =>
           (true, h <| clash_threshold := apt_float_value_parse value |>)
       | RECOGNIZER_HEADER_PERSONAL_GRAMMAR_URI => (true, h <| personal_grammar_uri := value |>)
       | RECOGNIZER_HEADER_ENROLL_UTTERANCE =>
           (true, h <| enroll_utterance := default (enroll_utterance h) (apt_boolean_value_parse value) |>)
       | RECOGNIZER_HEADER_PHRASE_ID => (true, h <| phrase_id := value |>)
       | RECOGNIZER_HEADER_PHRASE_NL => (true, h <| phrase_nl := value |>)
       | RECOGNIZER_HEADER_WEIGHT => (true, h <| weight := apt_float_value_parse value |>)
       | RECOGNIZER_HEADER_SAVE_BEST_WAVEFORM =>
           (true, h <| save_best_waveform := default (save_best_waveform h) (apt_boolean_value_parse value) |>)
       | RECOGNIZER_HEADER_NEW_PHRASE_ID => (true, h <| new_phrase_id := value |>)
       | RECOGNIZER_HEADER_CONFUSABLE_PHRASES_URI => (true, h <| confusable_phrases_uri := value |>)
       | RECOGNIZER_HEADER_ABORT_PHRASE_ENROLLMENT =>
           (true, h <| abort_phrase_enrollment := default (abort_phrase_enrollment h) (apt_boolean_value_parse value) |>)
       | _ => (false, h)
       end
  end.

(** Version 1 of the protocol writes the thresholds as percentages. *)
Definition apt_size_value_parse_as_float (value : apt_str_t) : float32 :=
  float_of_percent (apt_size_value_parse value).
Definition apt_size_value_generate_from_float (value : float32) : apt_str_t :=
  apt_size_value_generate (percent_of_float value).

Definition mrcp_v1_recog_header_parse (h : mrcp_recog_header_t) (id : Z) (value : apt_str_t)
    : bool * mrcp_recog_header_t :=
  let num := recognizer_header_id_num in
  if id =? num RECOGNIZER_HEADER_CONFIDENCE_THRESHOLD then
    (true, h <| confidence_threshold := apt_size_value_parse_as_float value |>)
  else if id =? num RECOGNIZER_HEADER_SENSITIVITY_LEVEL then
    (true, h <| sensitivity_level := apt_size_value_parse_as_float value |>)
  else if id =? num RECOGNIZER_HEADER_SPEED_VS_ACCURACY then
    (true, h <| speed_vs_accuracy := apt_size_value_parse_as_float value |>)
  else  mrcp_recog_header_parse h id value.

Definition mrcp_v2_recog_header_parse (h : mrcp_recog_header_t) (id : Z) (value : apt_str_t)
    : bool * mrcp_recog_header_t :=
  let num := recognizer_header_id_num in
  if id =? num RECOGNIZER_HEADER_CONFIDENCE_THRESHOLD then
    (true, h <| confidence_threshold := apt_float_value_parse value |>)
  else if id =? num RECOGNIZER_HEADER_SENSITIVITY_LEVEL then
    (true, h <| sensitivity_level := apt_float_value_parse value |>)
  else if id =? num RECOGNIZER_HEADER_SPEED_VS_ACCURACY then
    (true, h <| speed_vs_accuracy := apt_float_value_parse value |>)
  else  mrcp_recog_header_parse h id value.

(** A value that cannot be generated is left as it is. *)
Definition mrcp_recog_header_generate (h : mrcp_recog_header_t) (id : Z) (value : apt_str_t)
    : option (bool * apt_str_t) :=
  Some (true,
    match enum_of recognizer_header_ids id with
    | None => value
    | Some i =>
       match i with
       | RECOGNIZER_HEADER_N_BEST_LIST_LENGTH => apt_size_value_generate (n_best_list_length h)
       | RECOGNIZER_HEADER_NO_INPUT_TIMEOUT => apt_size_value_generate (no_input_timeout h)
       | RECOGNIZER_HEADER_RECOGNITION_TIMEOUT => apt_size_value_generate (recognition_timeout h)
       | RECOGNIZER_HEADER_WAVEFORM_URI => waveform_uri h
       | RECOGNIZER_HEADER_RECOGNIZER_CONTEXT_BLOCK => recognizer_context_block h
       | RECOGNIZER_HEADER_START_INPUT_TIMERS => apt_boolean_value_generate (start_input_timers h)
       | RECOGNIZER_HEADER_SPEECH_COMPLETE_TIMEOUT =>
           apt_size_value_generate (speech_complete_timeout h)
       | RECOGNIZER_HEADER_SPEECH_INCOMPLETE_TIMEOUT =>
           apt_size_value_generate (speech_incomplete_timeout h)
       | RECOGNIZER_HEADER_DTMF_INTERDIGIT_TIMEOUT =>
           apt_size_value_generate (dtmf_interdigit_timeout h)
       | RECOGNIZER_HEADER_DTMF_TERM_TIMEOUT => apt_size_value_generate (dtmf_term_timeout h)
       | RECOGNIZER_HEADER_DTMF_TERM_CHAR => mk_str (Some [dtmf_term_char h]) 1
       | RECOGNIZER_HEADER_FAILED_URI => failed_uri h
       | RECOGNIZER_HEADER_FAILED_URI_CAUSE => failed_uri_cause h
       | RECOGNIZER_HEADER_SAVE_WAVEFORM => apt_boolean_value_generate (save_waveform h)
       | RECOGNIZER_HEADER_NEW_AUDIO_CHANNEL => apt_boolean_value_generate (new_audio_channel h)
       | RECOGNIZER_HEADER_SPEECH_LANGUAGE => speech_language h
       | RECOGNIZER_HEADER_INPUT_TYPE => input_type h
       | RECOGNIZER_HEADER_INPUT_WAVEFORM_URI => input_waveform_uri h
       | RECOGNIZER_HEADER_COMPLETION_REASON => completion_reason h
       | RECOGNIZER_HEADER_MEDIA_TYPE => media_type h
       | RECOGNIZER_HEADER_VER_BUFFER_UTTERANCE =>
           apt_boolean_value_generate (ver_buffer_utterance h)
       | RECOGNIZER_HEADER_RECOGNITION_MODE => recognition_mode h
       | RECOGNIZER_HEADER_CANCEL_IF_QUEUE => apt_boolean_value_generate (cancel_if_queue h)
       | RECOGNIZER_HEADER_HOTWORD_MAX_DURATION =>
           apt_size_value_generate (hotword_max_duration h)
       | RECOGNIZER_HEADER_HOTWORD_MIN_DURATION =>
           apt_size_value_generate (hotword_min_duration h)
       | RECOGNIZER_HEADER_INTERPRET_TEXT => interpret_text h
       | RECOGNIZER_HEADER_DTMF_BUFFER_TIME => apt_size_value_generate (dtmf_buffer_time h)
       | RECOGNIZER_HEADER_CLEAR_DTMF_BUFFER => apt_boolean_value_generate (clear_dtmf_buffer h)
       | RECOGNIZER_HEADER_EARLY_NO_MATCH => apt_boolean_value_generate (early_no_match h)
       | RECOGNIZER_HEADER_NUM_MIN_CONSISTENT_PRONUNCIATIONS =>
           apt_size_value_generate (num_min_consistent_pronunciations h)
       | RECOGNIZER_HEADER_CONSISTENCY_THRESHOLD =>
           apt_float_value_generate (consistency_threshold h)
       | RECOGNIZER_HEADER_CLASH_THRESHOLD => apt_float_value_generate (clash_threshold h)
       | RECOGNIZER_HEADER_PERSONAL_GRAMMAR_URI => personal_grammar_uri h
       | RECOGNIZER_HEADER_ENROLL_UTTERANCE => apt_boolean_value_generate (enroll_utterance h)
       | RECOGNIZER_HEADER_PHRASE_ID => phrase_id h
       | RECOGNIZER_HEADER_PHRASE_NL => phrase_nl h
       | RECOGNIZER_HEADER_WEIGHT => apt_float_value_generate (weight h)
       | RECOGNIZER_HEADER_SAVE_BEST_WAVEFORM => apt_boolean_value_generate (save_best_waveform h)
       | RECOGNIZER_HEADER_NEW_PHRASE_ID => new_phrase_id h
       | RECOGNIZER_HEADER_CONFUSABLE_PHRASES_URI => confusable_phrases_uri h
       | RECOGNIZER_HEADER_ABORT_PHRASE_ENROLLMENT =>
           apt_boolean_value_generate (abort_phrase_enrollment h)
       | _ => value
       end
    end).

Definition mrcp_v1_recog_header_generate (h : mrcp_recog_header_t) (id : Z) (value : apt_str_t)
    : option (bool * apt_str_t) :=
  let num := recognizer_header_id_num in
  if id =? num RECOGNIZER_HEADER_CONFIDENCE_THRESHOLD then
    Some (true, apt_size_value_generate_from_float (confidence_threshold h))
  else if id =? num RECOGNIZER_HEADER_SENSITIVITY_LEVEL then
    Some (true, apt_size_value_generate_from_float (sensitivity_level h))
  else if id =? num RECOGNIZER_HEADER_SPEED_VS_ACCURACY then
    Some (true, apt_size_value_generate_from_float (speed_vs_accuracy h))
  else if id =? num RECOGNIZER_HEADER_COMPLETION_CAUSE then
    Some (match apt_completion_cause_generate v1_completion_cause_string_table
                  RECOGNIZER_COMPLETION_CAUSE_COUNT (completion_cause h) with
          | Some s => (true, s)
          | None => (false, value)
          end)
  else mrcp_recog_header_generate h id value.

Definition mrcp_v2_recog_header_generate (h : mrcp_recog_header_t) (id : Z) (value : apt_str_t)
    : option (bool * apt_str_t) :=
  let num := recognizer_header_id_num in
  if id =? num RECOGNIZER_HEADER_CONFIDENCE_THRESHOLD then
    Some (true, apt_float_value_generate (confidence_threshold h))
  else if id =? num RECOGNIZER_HEADER_SENSITIVITY_LEVEL then
    Some (true, apt_float_value_generate (sensitivity_level h))
  else if id =? num RECOGNIZER_HEADER_SPEED_VS_ACCURACY then
    Some (true, apt_float_value_generate (speed_vs_accuracy h))
  else if id =? num RECOGNIZER_HEADER_COMPLETION_CAUSE then
    Some (match apt_completion_cause_generate v2_completion_cause_string_table
                  RECOGNIZER_COMPLETION_CAUSE_COUNT (completion_cause h) with
          | Some s => (true, s)
          | None => (false, value)
          end)
  else mrcp_recog_header_generate h id value.

Definition mrcp_recog_header_duplicate (h src : mrcp_recog_header_t) (id : Z)
    (value : apt_str_t) : bool * mrcp_recog_header_t :=
  match enum_of recognizer_header_ids id with
  | None => (false, h)
  | Some i =>
      (true,
       match i with
       | RECOGNIZER_HEADER_CONFIDENCE_THRESHOLD =>
           h <| confidence_threshold := confidence_threshold src |>
       | RECOGNIZER_HEADER_SENSITIVITY_LEVEL => h <| sensitivity_level := sensitivity_level src |>
       | RECOGNIZER_HEADER_SPEED_VS_ACCURACY => h <| speed_vs_accuracy := speed_vs_accuracy src |>
       | RECOGNIZER_HEADER_N_BEST_LIST_LENGTH =>
           h <| n_best_list_length := n_best_list_length src |>
       | RECOGNIZER_HEADER_NO_INPUT_TIMEOUT => h <| no_input_timeout := no_input_timeout src |>
       | RECOGNIZER_HEADER_RECOGNITION_TIMEOUT =>
           h <| recognition_timeout := recognition_timeout src |>
       | RECOGNIZER_HEADER_WAVEFORM_URI => h <| waveform_uri := value |>
       | RECOGNIZER_HEADER_COMPLETION_CAUSE => h <| completion_cause := completion_cause src |>
       | RECOGNIZER_HEADER_RECOGNIZER_CONTEXT_BLOCK => h <| recognizer_context_block := value |>
       | RECOGNIZER_HEADER_START_INPUT_TIMERS =>
           h <| start_input_timers := start_input_timers src |>
       | RECOGNIZER_HEADER_SPEECH_COMPLETE_TIMEOUT =>
           h <| speech_complete_timeout := speech_complete_timeout src |>
       | RECOGNIZER_HEADER_SPEECH_INCOMPLETE_TIMEOUT =>
           h <| speech_incomplete_timeout := speech_incomplete_timeout src |>
       | RECOGNIZER_HEADER_DTMF_INTERDIGIT_TIMEOUT =>
           h <| dtmf_interdigit_timeout := dtmf_interdigit_timeout src |>
       | RECOGNIZER_HEADER_DTMF_TERM_TIMEOUT => h <| dtmf_term_timeout := dtmf_term_timeout src |>
       | RECOGNIZER_HEADER_DTMF_TERM_CHAR => h <| dtmf_term_char := dtmf_term_char src |>
       | RECOGNIZER_HEADER_FAILED_URI => h <| failed_uri := value |>
       | RECOGNIZER_HEADER_FAILED_URI_CAUSE => h <| failed_uri_cause := value |>
       | RECOGNIZER_HEADER_SAVE_WAVEFORM => h <| save_waveform := save_waveform src |>
       | RECOGNIZER_HEADER_NEW_AUDIO_CHANNEL => h <| new_audio_channel := new_audio_channel src |>
       | RECOGNIZER_HEADER_SPEECH_LANGUAGE => h <| speech_language := value |>
       | RECOGNIZER_HEADER_INPUT_TYPE => h <| input_type := value |>
       | RECOGNIZER_HEADER_INPUT_WAVEFORM_URI => h <| input_waveform_uri := value |>
       | RECOGNIZER_HEADER_COMPLETION_REASON => h <| completion_reason := value |>
       | RECOGNIZER_HEADER_MEDIA_TYPE => h <| media_type := value |>
       | RECOGNIZER_HEADER_VER_BUFFER_UTTERANCE =>
           h <| ver_buffer_utterance := ver_buffer_utterance src |>
       | RECOGNIZER_HEADER_RECOGNITION_MODE => h <| recognition_mode := value |>
       | RECOGNIZER_HEADER_CANCEL_IF_QUEUE => h <| cancel_if_queue := cancel_if_queue src |>
       | RECOGNIZER_HEADER_HOTWORD_MAX_DURATION =>
           h <| hotword_max_duration := hotword_max_duration src |>
       | RECOGNIZER_HEADER_HOTWORD_MIN_DURATION =>
           h <| hotword_min_duration := hotword_min_duration src |>
       | RECOGNIZER_HEADER_INTERPRET_TEXT => h <| interpret_text := value |>
       | RECOGNIZER_HEADER_DTMF_BUFFER_TIME => h <| dtmf_buffer_time := dtmf_buffer_time src |>
       | RECOGNIZER_HEADER_CLEAR_DTMF_BUFFER => h <| clear_dtmf_buffer := clear_dtmf_buffer src |>
       | RECOGNIZER_HEADER_EARLY_NO_MATCH => h <| early_no_match := early_no_match src |>
       | RECOGNIZER_HEADER_NUM_MIN_CONSISTENT_PRONUNCIATIONS =>
           h <| num_min_consistent_pronunciations := num_min_consistent_pronunciations src |>
       | RECOGNIZER_HEADER_CONSISTENCY_THRESHOLD =>
           h <| consistency_threshold := consistency_threshold src |>
       | RECOGNIZER_HEADER_CLASH_THRESHOLD => h <| clash_threshold := clash_threshold src |>
       | RECOGNIZER_HEADER_PERSONAL_GRAMMAR_URI => h <| personal_grammar_uri := value |>
       | RECOGNIZER_HEADER_ENROLL_UTTERANCE => h <| enroll_utterance := enroll_utterance src |>
       | RECOGNIZER_HEADER_PHRASE_ID => h <| phrase_id := value |>
       | RECOGNIZER_HEADER_PHRASE_NL => h <| phrase_nl := value |>
       | RECOGNIZER_HEADER_WEIGHT => h <| weight := weight src |>
       | RECOGNIZER_HEADER_SAVE_BEST_WAVEFORM =>
           h <| save_best_waveform := save_best_waveform src |>
       | RECOGNIZER_HEADER_NEW_PHRASE_ID => h <| new_phrase_id := value |>
       | RECOGNIZER_HEADER_CONFUSABLE_PHRASES_URI => h <| confusable_phrases_uri := value |>
       | RECOGNIZER_HEADER_ABORT_PHRASE_ENROLLMENT =>
           h <| abort_phrase_enrollment := abort_phrase_enrollment src |>
       end)
  end.

Definition mrcp_recog_header_vtable_get (v : mrcp_version_e)
    : option (mrcp_header_vtable_t mrcp_recog_header_t) :=
  Some (match v with
        | MRCP_VERSION_1 =>
            mk_vtable mrcp_recog_header_init mrcp_v1_recog_header_parse mrcp_v1_recog_header_generate
              mrcp_recog_header_duplicate v1_recog_header_string_table RECOGNIZER_HEADER_COUNT
        | _ =>
            mk_vtable mrcp_recog_header_init mrcp_v2_recog_header_parse mrcp_v2_recog_header_generate
              mrcp_recog_header_duplicate v2_recog_header_string_table RECOGNIZER_HEADER_COUNT
        end).

Definition mrcp_recog_completion_cause_get (cause : Z) (v : mrcp_version_e) : option apt_str_t :=
  apt_string_table_str_get
    match v with
    | MRCP_VERSION_1 => v1_completion_cause_string_table
    | _ => v2_completion_cause_string_table
    end RECOGNIZER_COMPLETION_CAUSE_COUNT cause.

End Operations.

(** * The resource *)

Inductive mrcp_recognizer_method_id :=
| RECOGNIZER_SET_PARAMS
| RECOGNIZER_GET_PARAMS
| RECOGNIZER_DEFINE_GRAMMAR
| RECOGNIZER_RECOGNIZE
| RECOGNIZER_INTERPRET
| RECOGNIZER_GET_RESULT
| RECOGNIZER_START_INPUT_TIMERS
| RECOGNIZER_STOP
| RECOGNIZER_START_PHRASE_ENROLLMENT
| RECOGNIZER_ENROLLMENT_ROLLBACK
| RECOGNIZER_END_PHRASE_ENROLLMENT
| RECOGNIZER_MODIFY_PHRASE
| RECOGNIZER_DELETE_PHRASE.

Inductive mrcp_recognizer_event_id :=
| RECOGNIZER_START_OF_INPUT
| RECOGNIZER_RECOGNITION_COMPLETE
| RECOGNIZER_INTERPRETATION_COMPLETE.

#[global] Instance mrcp_recognizer_method_id_eq_dec : EqDecision mrcp_recognizer_method_id.
Proof. solve_decision. Defined.
#[global] Instance mrcp_recognizer_event_id_eq_dec : EqDecision mrcp_recognizer_event_id.
Proof. solve_decision. Defined.

Definition recognizer_methods : list mrcp_recognizer_method_id :=
  [ RECOGNIZER_SET_PARAMS; RECOGNIZER_GET_PARAMS; RECOGNIZER_DEFINE_GRAMMAR;
    RECOGNIZER_RECOGNIZE; RECOGNIZER_INTERPRET; RECOGNIZER_GET_RESULT;
    RECOGNIZER_START_INPUT_TIMERS; RECOGNIZER_STOP; RECOGNIZER_START_PHRASE_ENROLLMENT;
    RECOGNIZER_ENROLLMENT_ROLLBACK; RECOGNIZER_END_PHRASE_ENROLLMENT; RECOGNIZER_MODIFY_PHRASE;
    RECOGNIZER_DELETE_PHRASE ].
Definition recognizer_events : list mrcp_recognizer_event_id :=
  [ RECOGNIZER_START_OF_INPUT; RECOGNIZER_RECOGNITION_COMPLETE;
    RECOGNIZER_INTERPRETATION_COMPLETE ].

Definition RECOGNIZER_METHOD_COUNT : Z := 13.
Definition RECOGNIZER_EVENT_COUNT : Z := 3.

Definition v1_recog_method_string_table : list apt_str_table_item_t :=
  [ item "SET-PARAMS" 10 10; item "GET-PARAMS" 10 10; item "DEFINE-GRAMMAR" 14 2;
    item "RECOGNIZE" 9 7; item "INTERPRET" 9 0; item "GET-RESULT" 10 6;
    item "RECOGNITION-START-TIMERS" 24 7; item "STOP" 4 2; item "START-PHRASE-ENROLLMENT" 23 2;
    item "ENROLLMENT-ROLLBACK" 19 2; item "END-PHRASE-ENROLLMENT" 21 5;
    item "MODIFY-PHRASE" 13 0; item "DELETE-PHRASE" 13 2 ].

Definition v2_recog_method_string_table : list apt_str_table_item_t :=
  [ item "SET-PARAMS" 10 10; item "GET-PARAMS" 10 10; item "DEFINE-GRAMMAR" 14 2;
    item "RECOGNIZE" 9 0; item "INTERPRET" 9 0; item "GET-RESULT" 10 6;
    item "START-INPUT-TIMERS" 18 7; item "STOP" 4 2; item "START-PHRASE-ENROLLMENT" 23 6;
    item "ENROLLMENT-ROLLBACK" 19 2; item "END-PHRASE-ENROLLMENT" 21 5;
    item "MODIFY-PHRASE" 13 0; item "DELETE-PHRASE" 13 2 ].

Definition recog_method_string_table_get (v : mrcp_version_e) :=
  match v with MRCP_VERSION_1 => v1_recog_method_string_table | _ => v2_recog_method_string_table end.

Definition v1_recog_event_string_table : list apt_str_table_item_t :=
  [ item "START-OF-SPEECH" 15 0; item "RECOGNITION-COMPLETE" 20 0;
    item "INTERPRETATION-COMPLETE" 23 0 ].

Definition v2_recog_event_string_table : list apt_str_table_item_t :=
  [ item "START-OF-INPUT" 14 0; item "RECOGNITION-COMPLETE" 20 0;
    item "INTERPRETATION-COMPLETE" 23 0 ].

Definition recog_event_string_table_get (v : mrcp_version_e) :=
  match v with MRCP_VERSION_1 => v1_recog_event_string_table | _ => v2_recog_event_string_table end.

(** The identifier and the name are set by the resource factory. *)
Definition mrcp_recog_resource_create `{Apr} `{CFloat} : mrcp_resource_t mrcp_recog_header_t :=
  mk_resource 0 apt_string_reset recog_method_string_table_get RECOGNIZER_METHOD_COUNT
    recog_event_string_table_get RECOGNIZER_EVENT_COUNT mrcp_recog_header_vtable_get.

(** * Properties of the header *)

Lemma recognizer_header_ids_all (i : mrcp_recognizer_header_id) :
  enum_of recognizer_header_ids (recognizer_header_id_num i) = Some i.
Proof. by destruct i. Qed.

(** Fields kept as the text of their value, truth values, and numbers. *)
Definition recog_text_field (i : mrcp_recognizer_header_id) : bool :=
  match i with
  | RECOGNIZER_HEADER_WAVEFORM_URI | RECOGNIZER_HEADER_RECOGNIZER_CONTEXT_BLOCK
  | RECOGNIZER_HEADER_FAILED_URI | RECOGNIZER_HEADER_FAILED_URI_CAUSE
  | RECOGNIZER_HEADER_SPEECH_LANGUAGE | RECOGNIZER_HEADER_INPUT_TYPE
  | RECOGNIZER_HEADER_INPUT_WAVEFORM_URI | RECOGNIZER_HEADER_COMPLETION_REASON
  | RECOGNIZER_HEADER_MEDIA_TYPE | RECOGNIZER_HEADER_RECOGNITION_MODE
  | RECOGNIZER_HEADER_INTERPRET_TEXT | RECOGNIZER_HEADER_PERSONAL_GRAMMAR_URI
  | RECOGNIZER_HEADER_PHRASE_ID | RECOGNIZER_HEADER_PHRASE_NL | RECOGNIZER_HEADER_NEW_PHRASE_ID
  | RECOGNIZER_HEADER_CONFUSABLE_PHRASES_URI => true
  | _ => false
  end.
Definition recog_bool_field (i : mrcp_recognizer_header_id) : bool :=
  match i with
  | RECOGNIZER_HEADER_START_INPUT_TIMERS | RECOGNIZER_HEADER_SAVE_WAVEFORM
  | RECOGNIZER_HEADER_NEW_AUDIO_CHANNEL | RECOGNIZER_HEADER_VER_BUFFER_UTTERANCE
  | RECOGNIZER_HEADER_CANCEL_IF_QUEUE | RECOGNIZER_HEADER_CLEAR_DTMF_BUFFER
  | RECOGNIZER_HEADER_EARLY_NO_MATCH | RECOGNIZER_HEADER_ENROLL_UTTERANCE
  | RECOGNIZER_HEADER_SAVE_BEST_WAVEFORM | RECOGNIZER_HEADER_ABORT_PHRASE_ENROLLMENT => true
  | _ => false
  end.
Definition recog_size_field (i : mrcp_recognizer_header_id) : bool :=
  match i with
  | RECOGNIZER_HEADER_N_BEST_LIST_LENGTH | RECOGNIZER_HEADER_NO_INPUT_TIMEOUT
  | RECOGNIZER_HEADER_RECOGNITION_TIMEOUT | RECOGNIZER_HEADER_SPEECH_COMPLETE_TIMEOUT
  | RECOGNIZER_HEADER_SPEECH_INCOMPLETE_TIMEOUT | RECOGNIZER_HEADER_DTMF_INTERDIGIT_TIMEOUT
  | RECOGNIZER_HEADER_DTMF_TERM_TIMEOUT | RECOGNIZER_HEADER_HOTWORD_MAX_DURATION
  | RECOGNIZER_HEADER_HOTWORD_MIN_DURATION | RECOGNIZER_HEADER_DTMF_BUFFER_TIME
  | RECOGNIZER_HEADER_NUM_MIN_CONSISTENT_PRONUNCIATIONS => true
  | _ => false
  end.

(** The operations of the version. *)
Definition recog_parse `{Apr} `{CFloat} (v : mrcp_version_e) :=
  match v with MRCP_VERSION_1 => mrcp_v1_recog_header_parse | _ => mrcp_v2_recog_header_parse end.
Definition recog_generate `{Apr} `{CFloat} (v : mrcp_version_e) :=
  match v with MRCP_VERSION_1 => mrcp_v1_recog_header_generate | _ => mrcp_v2_recog_header_generate end.

(** The fields of the recognizer header are independent, in either version of the protocol.  Parsing a value into one
    field leaves what every other field generates unchanged; a textual field then generates
    the parsed value, a boolean field the parsed truth value and a numeric field the same
    number; duplicating a field that the source generates a value for makes the header
    generate the same value. *)
Theorem recog_header_field_lens `{Apr} `{CFloat} (ver : mrcp_version_e) (h src : mrcp_recog_header_t)
    (i : mrcp_recognizer_header_id) (v w : apt_str_t) :
  let num := recognizer_header_id_num in
  let h' := snd (recog_parse ver h (num i) v) in
  fst (recog_parse ver h (num i) v) = true /\
  (forall j, j <> i -> recog_generate ver h' (num j) w = recog_generate ver h (num j) w) /\
  (recog_text_field i = true -> recog_generate ver h' (num i) w = Some (true, v)) /\
  (recog_bool_field i = true -> forall b, apt_boolean_value_parse v = Some b ->
     recog_generate ver h' (num i) w = Some (true, apt_boolean_value_generate b)) /\
  (recog_size_field i = true -> forall n follow, 0 <= n < 2 ^ 63 ->
     str_buf v = Some (dec n ++ follow) -> stops follow ->
     recog_generate ver h' (num i) w = Some (true, apt_size_value_generate n)) /\
  (recog_generate ver src (num i) w = Some (true, v) ->
   recog_generate ver (snd (mrcp_recog_header_duplicate h src (num i) v)) (num i) w = Some (true, v)).
Proof.
  cbv zeta. split_and!.
  - by destruct ver, i.
  - intros j Hj. destruct ver, i, j; first [reflexivity | exfalso; exact (Hj eq_refl)].
  - by destruct ver, i.
  - intros Hb b Hv. destruct i; try discriminate Hb; destruct ver; simpl; by rewrite Hv.
  - intros Hi n follow Hn Hv Hs. destruct i; try discriminate Hi; destruct ver; simpl; by rewrite (size_parse_text v n follow).
  - by destruct ver, i.
Qed.
