(* ===== verification/StateMachine.v ===== *)
(** The base of the resource state machines ([libs/mrcp/include/mrcp_state_machine.h]).

    A state machine sits between a session and a resource engine.  It calls back into its
    owner to pass on messages ([on_dispatch]) and to report that it has been deactivated
    ([on_deactivate]).  The callbacks are programs over the whole state, the machine and the
    world of its owner, so that an owner that calls the state machine again from a callback
    can be expressed; [DispatcherLaws] is the contract of an owner that does not. *)

From S2P Require Import Prelude AptString TextStream TextValues HeaderField TextMessage StartLine MrcpHeader GenericHeader Message.

(** The machine of type [SM] and the world [W] of its owner. *)
Class Dispatcher (SM W M : Type) := {
  on_dispatch : M -> prog (SM * W) bool;
  on_deactivate : prog (SM * W) bool
}.

(** The owner returns and leaves the machine alone. *)
Class DispatcherLaws {SM W M} (D : Dispatcher SM W M) : Prop := {
  on_dispatch_frame : forall m sm w, exists b w', on_dispatch m (sm, w) = Some (b, (sm, w'));
  on_deactivate_frame : forall sm w, exists b w', on_deactivate (sm, w) = Some (b, (sm, w'))
}.

(** ** The observable behaviour: what the owner is told, in order *)

Inductive output (M : Type) :=
| Dispatched (m : M)
| Deactivated.
Arguments Dispatched {M}.
Arguments Deactivated {M}.

(** An owner that records what it is told. *)
Definition recording {SM M : Type} : Dispatcher SM (list (output M)) M := {|
  on_dispatch m := fun '(sm, w) => Some (true, (sm, w ++ [Dispatched m]));
  on_deactivate := fun '(sm, w) => Some (true, (sm, w ++ [Deactivated]))
|}.

Lemma recording_laws {SM M} : DispatcherLaws (@recording SM M).
Proof. split; intros; by eexists _, _. Qed.

(** * Programs over a machine *)

Section Programs.
Context {SM W : Type}.

Definition get_sm {A} (f : SM -> A) : prog (SM * W) A := gets (fun s => f (fst s)).
Definition set_sm (f : SM -> SM) : prog (SM * W) unit := modify (fun '(sm, w) => (f sm, w)).
(** The result of an operation that may be undefined. *)
Definition lift {A} (o : option A) : prog (SM * W) A :=
  match o with Some a => ret a | None => crash end.
End Programs.

(** * Queues of messages ([libs/apr-toolkit/src/apt_obj_list.c]) *)

Definition apt_list_push_back {A} (l : list A) (x : A) : list A := l ++ [x].
Definition apt_list_pop_front {A} (l : list A) : option A * list A :=
  match l with [] => (None, []) | x :: l' => (Some x, l') end.

(** [active] and the virtual methods of the base. *)
Section Base.
Context {SM W : Type} (get_active : SM -> bool) (set_active : bool -> SM -> SM).

(** A machine always has its update and deactivate methods set. *)
Definition mrcp_state_machine_update {M} (update : M -> prog (SM * W) bool) (m : M)
    : prog (SM * W) bool := update m.

Definition mrcp_state_machine_deactivate (deactivate : prog (SM * W) bool) : prog (SM * W) bool :=
  set_sm (set_active false) ;;; deactivate.
End Base.

(** * Messages of a state machine *)

Section Messages.
Context `{Apr} {R SM W : Type}.

(** [active_request_id_list_append(generic_header_prepare(m),id)] followed by
    [property_add(m,ACTIVE_REQUEST_ID_LIST)], whose result is ignored. *)
Definition active_request_id_add (id : Z) (m : mrcp_message_t R) : option (mrcp_message_t R) :=
  let '(g, m) := mrcp_generic_header_prepare m in
  match g with
  | None => None
  | Some g =>
      let m := set_generic_header (snd (active_request_id_list_append g id)) m in
      let? (_, m) := mrcp_generic_header_property_add m
                       (generic_header_id_num GENERIC_HEADER_ACTIVE_REQUEST_ID_LIST) in
      Some m
  end.

(** The list of a selective request: present as a field and not empty. *)
Definition selective_ids (m : mrcp_message_t R) : option mrcp_generic_header_t :=
  match mrcp_generic_header_get m with
  | Some g =>
      if mrcp_generic_header_property_check m
           (generic_header_id_num GENERIC_HEADER_ACTIVE_REQUEST_ID_LIST)
         && negb (bool_decide (active_request_id_list g = []))
      then Some g else None
  | None => None
  end.

(** [!request_id_list || find(generic_header,id)]. *)
Definition selects (sel : option mrcp_generic_header_t) (id : Z) : bool :=
  match sel with None => true | Some g => active_request_id_list_find g id end.

(** The loop of [*_pending_requests_remove]: selected requests leave the queue and their
    identifiers are appended to the list of the response. *)
Fixpoint pending_remove (sel : option mrcp_generic_header_t) (queue : list (mrcp_message_t R))
    (g : mrcp_generic_header_t) : list (mrcp_message_t R) * mrcp_generic_header_t :=
  match queue with
  | [] => ([], g)
  | m :: queue' =>
      let id := request_id (start_line m) in
      if selects sel id then
        pending_remove sel queue' (snd (active_request_id_list_append g id))
      else let '(q, g) := pending_remove sel queue' g in (m :: q, g)
  end.

(** The queue and the response after the removal. *)
Definition pending_requests_remove (request response : mrcp_message_t R)
    (queue : list (mrcp_message_t R)) : option (list (mrcp_message_t R) * mrcp_message_t R) :=
  let '(g, response) := mrcp_generic_header_prepare response in
  match g with
  | None => None
  | Some g =>
      let '(queue, g) := pending_remove (selective_ids request) queue g in
      let response := set_generic_header g response in
      if bool_decide (active_request_id_list g = []) then Some (queue, response)
      else
        let? (_, response) := mrcp_generic_header_property_add response
                                (generic_header_id_num GENERIC_HEADER_ACTIVE_REQUEST_ID_LIST) in
        Some (queue, response)
  end.

Definition with_state (s : mrcp_request_state_e) (m : mrcp_message_t R) : mrcp_message_t R :=
  set_start_line (fun sl => sl <| request_state := s |>) m.
Definition with_status (c : Z) (m : mrcp_message_t R) : mrcp_message_t R :=
  set_start_line (fun sl => sl <| status_code := c |>) m.

(** The internal request a state machine sends to its engine when it is deactivated: a
    request of the given method numbered after [source], with its channel and header. *)
Definition deactivation_request (source : mrcp_message_t R) (method : Z) : mrcp_message_t R :=
  let m := mrcp_request_create (resource source) (version (start_line source)) method in
  let m := m <| channel_id := channel_id source |> in
  let m := set_start_line (fun sl =>
             sl <| request_id := u32 (request_id (start_line source) + 1) |>
                <| method_name := apt_string_set (Some (lit "DEACTIVATE")) |>) m in
  m <| header := header source |>.

End Messages.

(** Operations on messages stay folded while a program over a machine is simplified. *)
#[global] Arguments active_request_id_add : simpl never.
#[global] Arguments pending_requests_remove : simpl never.
#[global] Arguments deactivation_request : simpl never.
#[global] Arguments mrcp_response_create : simpl never.
#[global] Arguments mrcp_event_create : simpl never.
#[global] Arguments apt_list_pop_front : simpl never.

(** * Runs *)

(** What a session does with its machine. *)
Inductive sm_input (M : Type) :=
| Update (m : M)
| Deactivate.
Arguments Update {M}.
Arguments Deactivate {M}.

Section Runs.
Context {SM W M : Type} (update : M -> prog (SM * W) bool) (deactivate : prog (SM * W) bool).

Definition sm_step (i : sm_input M) : prog (SM * W) bool :=
  match i with Update m => update m | Deactivate => deactivate end.

Fixpoint sm_run (l : list (sm_input M)) : prog (SM * W) unit :=
  match l with
  | [] => ret tt
  | i :: l' => sm_step i ;;; sm_run l'
  end.

(** States reached from [s0] by any sequence of inputs, all of which return. *)
Inductive reachable (s0 : SM) : SM -> Prop :=
| reach_init : reachable s0 s0
| reach_step (s s' : SM) (w w' : W) (i : sm_input M) (b : bool) :
    reachable s0 s -> sm_step i (s, w) = Some (b, (s', w')) -> reachable s0 s'.

Lemma reachable_ind_inv (I : SM -> Prop) (s0 : SM) :
  I s0 ->
  (forall s s' w w' i b, I s -> sm_step i (s, w) = Some (b, (s', w')) -> I s') ->
  forall s, reachable s0 s -> I s.
Proof. intros H0 Hs s. induction 1; eauto. Qed.

Lemma sm_run_app (l1 l2 : list (sm_input M)) s :
  sm_run (l1 ++ l2) s = match sm_run l1 s with Some (_, s') => sm_run l2 s' | None => None end.
Proof.
  revert s. induction l1 as [|i l1 IH]; intros s; [done|]. simpl. unfold bind.
  destruct (sm_step i s) as [[b s']|]; [apply IH|done].
Qed.
End Runs.

(** ** Rules of the calculus for the machines *)

Section Rules.
Context {SM W M : Type} `{L : DispatcherLaws SM W M} (c : Prop).

Lemma wp_get {A} (f : SM -> A) s (w : W) (Q : A -> SM * W -> Prop) :
  Q (f s) (s, w) -> wp c (get_sm f) (s, w) Q.
Proof. done. Qed.
Lemma wp_set (f : SM -> SM) s (w : W) (Q : unit -> SM * W -> Prop) :
  Q tt (f s, w) -> wp c (set_sm f) (s, w) Q.
Proof. done. Qed.
Lemma wp_lift {A} (o : option A) (s : SM * W) (Q : A -> SM * W -> Prop) :
  match o with Some a => Q a s | None => c end -> wp c (lift o) s Q.
Proof. by destruct o. Qed.
Lemma wp_dispatch (m : M) s w (Q : bool -> SM * W -> Prop) :
  (forall b w', Q b (s, w')) -> wp c (on_dispatch m) (s, w) Q.
Proof. intros HQ. unfold wp. destruct (on_dispatch_frame m s w) as (b & w' & ->). auto. Qed.
Lemma wp_on_deactivate s w (Q : bool -> SM * W -> Prop) :
  (forall b w', Q b (s, w')) -> wp c on_deactivate (s, w) Q.
Proof. intros HQ. unfold wp. destruct (on_deactivate_frame s w) as (b & w' & ->). auto. Qed.
End Rules.

(** Walk through a program; [leaf] handles what is not a basic step. *)
Ltac wp_step :=
  lazymatch goal with
  | |- wp _ (bind _ _) _ _ => apply wp_bind
  | |- wp _ (ret _) _ _ => apply wp_ret
  | |- wp _ (get_sm _) _ _ => apply wp_get
  | |- wp _ (set_sm _) _ _ => apply wp_set
  | |- wp _ (on_dispatch _) _ _ => apply wp_dispatch; intros ? ?
  | |- wp _ on_deactivate _ _ => apply wp_on_deactivate; intros ? ?
  end.
Ltac wp_with leaf := repeat (first [wp_step | leaf]; cbv beta).

(** ** Requests leaving the queue *)

Section Pending.
Context `{Apr} {R : Type}.

(** The list after appending identifiers: those that fit. *)
Definition ids_append (g : mrcp_generic_header_t) (ids : list Z) : mrcp_generic_header_t :=
  g <| active_request_id_list := take (Nat.max (length (active_request_id_list g)) MAX_ACTIVE_REQUEST_ID_COUNT)
         (active_request_id_list g ++ ids) |>.

Definition pending_ids (sel : option mrcp_generic_header_t) (q : list (mrcp_message_t R)) : list Z :=
  map (fun m => request_id (start_line m))
    (List.filter (fun m => selects sel (request_id (start_line m))) q).

Definition pending_rest (sel : option mrcp_generic_header_t) (q : list (mrcp_message_t R)) :=
  List.filter (fun m => negb (selects sel (request_id (start_line m)))) q.

Lemma ids_append_nil g : ids_append g [] = g.
Proof.
  unfold ids_append. rewrite app_nil_r, take_ge by lia. by destruct g.
Qed.

Lemma ids_append_cons g id ids :
  ids_append g (id :: ids) = ids_append (snd (active_request_id_list_append g id)) ids.
Proof.
  unfold ids_append, active_request_id_list_append, MAX_ACTIVE_REQUEST_ID_COUNT.
  destruct (Nat.leb_spec 5 (length (active_request_id_list g))) as [Hl|Hl]; cbn [snd].
  - rewrite !take_app_ge by lia. by rewrite !Nat.max_l, !Nat.sub_diag, !take_0 by done.
  - destruct g as [ids0 ]; unfold field_set; cbn [active_request_id_list] in *. f_equal.
    rewrite <-app_assoc. cbn [app]. f_equal. rewrite length_app. cbn [length]. lia.
Qed.

(** The loop filters the queue, keeping the order, and records what it removed. *)
Lemma pending_remove_spec sel (q : list (mrcp_message_t R)) g :
  pending_remove sel q g = (pending_rest sel q, ids_append g (pending_ids sel q)).
Proof.
  revert g. induction q as [|m q IH]; intros g; simpl; [by rewrite ids_append_nil|].
  unfold pending_rest, pending_ids. cbn [List.filter].
  destruct (selects sel (request_id (start_line m))); cbn [negb map].
  - rewrite IH, ids_append_cons. done.
  - rewrite IH. done.
Qed.

Lemma pending_rest_Forall (P : mrcp_message_t R -> Prop) sel q :
  Forall P q -> Forall P (pending_rest sel q).
Proof.
  unfold pending_rest. rewrite !List.Forall_forall. intros HF x Hx. apply filter_In in Hx. apply HF. tauto.
Qed.

Lemma pending_requests_remove_queue (request response : mrcp_message_t R) q q' m' :
  pending_requests_remove request response q = Some (q', m') ->
  q' = pending_rest (selective_ids request) q.
Proof.
  unfold pending_requests_remove. destruct (mrcp_generic_header_prepare response) as [[g|] r]; [|done].
  rewrite pending_remove_spec. destruct (bool_decide _); [by intros [= <- _]|].
  destruct (mrcp_generic_header_property_add _ _) as [[b r']|]; [by intros [= <- _]|done].
Qed.

Lemma pending_requests_remove_Forall (P : mrcp_message_t R -> Prop) request response q q' m' :
  Forall P q -> pending_requests_remove request response q = Some (q', m') -> Forall P q'.
Proof. intros HF ->%pending_requests_remove_queue. by apply pending_rest_Forall. Qed.

Lemma pop_front_spec {T} (q q' : list T) x :
  apt_list_pop_front q = (x, q') -> match x with Some a => q = a :: q' | None => q = [] /\ q' = [] end.
Proof. by destruct q; intros [= <- <-]. Qed.

Lemma ids_append_ok g ids : request_ids_ok g -> request_ids_ok (ids_append g ids).
Proof.
  unfold request_ids_ok, ids_append. intros Hg. unfold field_set. cbn [active_request_id_list].
  rewrite length_take. lia.
Qed.
End Pending.

(** ** The list of active requests of a response *)

Section ActiveRequests.
Context `{L : AprLaws} {R : Type}.
Implicit Types (m : mrcp_message_t R).

(** Only the generic header and the section differ. *)
Definition generic_frame m m' : Prop :=
  start_line m' = start_line m /\ channel_id m' = channel_id m /\ body m' = body m /\
  resource m' = resource m /\
  resource_header_accessor (header m') = resource_header_accessor (header m).

Abbreviation ARIL := (generic_header_id_num GENERIC_HEADER_ACTIVE_REQUEST_ID_LIST).

Lemma active_id_property_add m (v : mrcp_version_e) g :
  generic_header_accessor (header m) = mk_accessor (Some g) (Some (mrcp_generic_header_vtable_get v)) ->
  request_ids_ok g ->
  exists ok sec, mrcp_generic_header_property_add m ARIL
                 = Some (ok, m <| header := (header m) <| header_section := sec |> |>).
Proof.
  intros E Hg. destruct (request_id_list_generate_defined _ Hg) as [s Hs].
  destruct (generic_property_add m GENERIC_HEADER_ACTIVE_REQUEST_ID_LIST v g s E) as (n & _ & ->).
  - unfold mrcp_generic_header_generate. rewrite generic_header_ids_all. by rewrite Hs.
  - destruct (apt_header_section_field_add _ _) as [ok sec]. eauto.
Qed.

Lemma active_request_id_add_defined (id : Z) m :
  generic_ok m ->
  exists m', active_request_id_add id m = Some m' /\ generic_ok m' /\ generic_frame m m' /\
    exists g, mrcp_generic_header_get m' = Some g /\
      active_request_id_list g = active_request_id_list (ids_append
        (default mrcp_generic_header_init (mrcp_generic_header_get m)) [id]).
Proof.
  intros Hg. unfold active_request_id_add.
  destruct (generic_prepare m Hg) as (v & g & Hids & Eg & ->).
  set (g' := snd (active_request_id_list_append g id)).
  assert (Hg' : request_ids_ok g') by (by apply request_ids_append_ok).
  destruct (active_id_property_add (set_generic_header g' (m <| header := (header m) <|
     generic_header_accessor := mk_accessor (Some g) (Some (mrcp_generic_header_vtable_get v)) |> |>))
     v g') as (ok & sec & ->); [reflexivity|done|].
  eexists. split; [reflexivity|]. split; [by exists v, (Some g')|]. split; [done|].
  exists g'. split; [done|]. unfold mrcp_generic_header_get. rewrite <-Eg, ids_append_cons, ids_append_nil.
  done.
Qed.

Lemma pending_requests_remove_defined (request response : mrcp_message_t R) q :
  generic_ok response ->
  exists m', pending_requests_remove request response q
             = Some (pending_rest (selective_ids request) q, m') /\
    generic_ok m' /\ generic_frame response m' /\
    exists g, mrcp_generic_header_get m' = Some g /\
      active_request_id_list g = active_request_id_list (ids_append
        (default mrcp_generic_header_init (mrcp_generic_header_get response))
        (pending_ids (selective_ids request) q)).
Proof.
  intros Hg. unfold pending_requests_remove.
  destruct (generic_prepare response Hg) as (v & g & Hids & Eg & ->).
  rewrite pending_remove_spec.
  set (g' := ids_append g _).
  assert (Hg' : request_ids_ok g') by (by apply ids_append_ok).
  unfold mrcp_generic_header_get at 2. rewrite <-Eg. fold g'.
  destruct (bool_decide_reflect (active_request_id_list g' = [])).
  - eexists. split; [reflexivity|]. split; [by exists v, (Some g')|]. split; [done|]. by exists g'.
  - destruct (active_id_property_add (set_generic_header g' (response <| header := (header response) <|
     generic_header_accessor := mk_accessor (Some g) (Some (mrcp_generic_header_vtable_get v)) |> |>))
     v g') as (ok & sec & ->); [reflexivity|done|].
    eexists. split; [reflexivity|]. split; [by exists v, (Some g')|]. split; [done|]. by exists g'.
Qed.
End ActiveRequests.

(** ** Messages without their headers, for abstract specifications *)

Record brief_t := mk_brief {
  b_type : mrcp_message_type_e;
  b_method : Z;
  b_id : Z;
  b_state : mrcp_request_state_e;
  b_status : Z
}.

Inductive told := Told (b : brief_t) | Closed.

Definition brief_of {R} (m : mrcp_message_t R) : brief_t :=
  let sl := start_line m in
  mk_brief (message_type sl) (method_id sl) (request_id sl) (request_state sl) (status_code sl).

Definition told_of {R} (o : output (mrcp_message_t R)) : told :=
  match o with Dispatched m => Told (brief_of m) | Deactivated => Closed end.

(** The brief of an immediate answer. *)
Definition answer_brief (status : Z) (b : brief_t) : brief_t :=
  mk_brief MRCP_MESSAGE_TYPE_RESPONSE (b_method b) (b_id b) MRCP_REQUEST_STATE_COMPLETE status.

Lemma response_brief `{Apr} {R} (m : mrcp_message_t R) :
  brief_of (mrcp_response_create (Some m)) = answer_brief MRCP_STATUS_CODE_SUCCESS (brief_of m).
Proof. unfold brief_of. by rewrite response_create_start_line. Qed.

Lemma with_status_brief {R} (c : Z) (m : mrcp_message_t R) :
  brief_of (with_status c m) =
  mk_brief (b_type (brief_of m)) (b_method (brief_of m)) (b_id (brief_of m)) (b_state (brief_of m)) c.
Proof. done. Qed.

Lemma with_state_brief {R} (st : mrcp_request_state_e) (m : mrcp_message_t R) :
  brief_of (with_state st m) =
  mk_brief (b_type (brief_of m)) (b_method (brief_of m)) (b_id (brief_of m)) st (b_status (brief_of m)).
Proof. done. Qed.

Lemma deactivation_brief `{Apr} {R} (r : mrcp_message_t R) (method : Z) :
  brief_of (deactivation_request r method) =
  mk_brief MRCP_MESSAGE_TYPE_REQUEST method (u32 (request_id (start_line r) + 1))
    MRCP_REQUEST_STATE_UNKNOWN MRCP_STATUS_CODE_UNKNOWN.
Proof.
  unfold deactivation_request, mrcp_request_create, mrcp_message_resource_set_by_id.
  destruct (resource r) as [x|]; [|done].
  unfold message_header_alloc. msg_cbv. by destruct (apt_string_table_str_get _ _ _).
Qed.

(** What a machine is waiting for: the identifier and the method of the active request. *)
Definition waiting_of {R} (r : option (mrcp_message_t R)) : option (Z * Z) :=
  (fun m => (request_id (start_line m), method_id (start_line m))) <$> r.
(** The identifier of the request in progress. *)
Definition progress_of {R} (r : option (mrcp_message_t R)) : option Z :=
  (fun m => request_id (start_line m)) <$> r.

Lemma active_request_id_add_brief `{L : AprLaws} {R} (id : Z) (m : mrcp_message_t R) :
  generic_ok m -> exists m', active_request_id_add id m = Some m' /\ brief_of m' = brief_of m.
Proof.
  intros Hm. destruct (active_request_id_add_defined id m Hm) as (m' & E & _ & (Hl & _) & _).
  exists m'. split; [done|]. unfold brief_of. by rewrite Hl.
Qed.

(** ** Programs of a machine whose owner records *)
Section Recording.
Context {SM M : Type} (c : Prop).

Lemma wp_recording_dispatch (m : M) (s : SM) w (Q : bool -> SM * list (output M) -> Prop) :
  Q true (s, w ++ [Dispatched m]) -> wp c (@on_dispatch _ _ _ recording m) (s, w) Q.
Proof. done. Qed.
Lemma wp_recording_deactivate (s : SM) w (Q : bool -> SM * list (output M) -> Prop) :
  Q true (s, w ++ [Deactivated]) -> wp c (@on_deactivate _ _ _ recording) (s, w) Q.
Proof. done. Qed.
End Recording.

(** The response that lists the removed requests keeps its start line. *)
Lemma pending_requests_remove_brief `{L : AprLaws} {R} (request response : mrcp_message_t R) q :
  generic_ok response ->
  exists m', pending_requests_remove request response q
             = Some (pending_rest (selective_ids request) q, m') /\
    generic_ok m' /\ brief_of m' = brief_of response.
Proof.
  intros Hg. destruct (pending_requests_remove_defined request response q Hg)
    as (m' & E & Hg' & (Hl & _) & _).
  exists m'. split_and!; [done..|]. unfold brief_of. by rewrite Hl.
Qed.

Lemma active_request_id_add_ok `{L : AprLaws} {R} (id : Z) (m : mrcp_message_t R) :
  generic_ok m ->
  exists m', active_request_id_add id m = Some m' /\ generic_ok m' /\ brief_of m' = brief_of m.
Proof.
  intros Hm. destruct (active_request_id_add_defined id m Hm) as (m' & E & Hg & (Hl & _) & _).
  exists m'. split_and!; [done..|]. unfold brief_of. by rewrite Hl.
Qed.

(** A response of a known resource carries the generic header of the library. *)
Lemma response_generic_ok `{Apr} {R} (m : mrcp_message_t R) (r : mrcp_resource_t R) :
  resource m = Some r -> resource_ok r (version (start_line m)) ->
  generic_ok (mrcp_response_create (Some m)).
Proof.
  intros Hr Hok. destruct (response_created_for m _ Hr Hok) as (_ & _ & _ & _ & vt & _ & Hg & _).
  exists (version (start_line m)), (Some mrcp_generic_header_init). split; [done|].
  unfold request_ids_ok; simpl; lia.
Qed.

Lemma pending_rest_brief {R} sel (q : list (mrcp_message_t R)) :
  map brief_of (pending_rest sel q) =
  List.filter (fun b => negb (selects sel (b_id b))) (map brief_of q).
Proof.
  unfold pending_rest. induction q as [|m q IH]; [done|]. cbn [map List.filter b_id brief_of].
  destruct (selects sel (request_id (start_line m))); cbn [negb map]; by rewrite IH.
Qed.
