(* ===== verification/SynthStateMachine.v ===== *)
(** The synthesizer state machine of the server
    ([libs/mrcp/resources/src/mrcp_synth_state_machine.c]): every request from the client and
    every response and event from the engine goes through it.  It answers what can be
    answered at once, queues SPEAK requests while one is in progress, and passes the rest
    on. *)

From S2P Require Import Prelude AptString TextStream TextValues HeaderField TextMessage StartLine MrcpHeader GenericHeader Message FloatValue SynthHeader StateMachine.

(** * State *)

Inductive mrcp_synth_state_e :=
| SYNTHESIZER_STATE_IDLE
| SYNTHESIZER_STATE_SPEAKING
| SYNTHESIZER_STATE_PAUSED.

#[global] Instance mrcp_synth_state_eq_dec : EqDecision mrcp_synth_state_e.
Proof. solve_decision. Defined.

Abbreviation synth_message := (mrcp_message_t mrcp_synth_header_t).
Abbreviation synth_properties := (mrcp_message_header_t mrcp_generic_header_t mrcp_synth_header_t).

Section State.
Context `{CFloat}.

Record mrcp_synth_state_machine_t := mk_synth {
  active : bool;                          (** of the base *)
  state : mrcp_synth_state_e;
  is_pending : bool;                      (** active_request comes from the queue *)
  active_request : option synth_message;  (** sent to the engine, response expected *)
  speaker : option synth_message;         (** SPEAK request in progress *)
  queue : list synth_message;             (** pending SPEAK requests *)
  properties : synth_properties           (** set by SET-PARAMS *)
}.
End State.

#[global] Instance eta_synth `{CFloat} : Eta mrcp_synth_state_machine_t := fun s =>
  mk_synth (active s) (state s) (is_pending s) (active_request s) (speaker s) (queue s)
    (properties s).

(** Numbers of the methods, events and header fields the machine names. *)
Definition method_num : mrcp_synthesizer_method_id -> Z := enum_num synthesizer_methods.
Definition event_num : mrcp_synthesizer_event_id -> Z := enum_num synthesizer_events.

Section Machine.
Context `{Apr} `{CFloat} {W : Type} `{D : Dispatcher mrcp_synth_state_machine_t W synth_message}.

Abbreviation handler := (prog (mrcp_synth_state_machine_t * W)).

(** * Dispatching *)

Definition synth_request_dispatch (m : synth_message) : handler bool :=
  set_sm (fun s => s <| active_request := Some m |>) ;;;
  on_dispatch m.

(** A response in a deactivating machine answers the deactivation. *)
Definition synth_response_dispatch (m : synth_message) : handler bool :=
  set_sm (fun s => s <| active_request := None |>) ;;;
  let* a := get_sm active in
  if a then on_dispatch m else on_deactivate.

Definition synth_event_dispatch (m : synth_message) : handler bool :=
  let* a := get_sm active in
  if a then on_dispatch m else ret false.

Definition synth_state_change (st : mrcp_synth_state_e) : handler unit :=
  set_sm (fun s => s <| state := st |>) ;;;
  if decide (st = SYNTHESIZER_STATE_IDLE) then set_sm (fun s => s <| speaker := None |>)
  else ret tt.

(** The request identifier of the SPEAK request in progress; none is a NULL dereference. *)
Definition speaker_id : handler Z :=
  let* sp := get_sm speaker in
  let* sp := deref_ptr sp in
  ret (request_id (start_line sp)).

(** * Requests of the client and responses of the engine *)

Definition synth_request_set_params (m : synth_message) : handler bool :=
  set_sm (fun s => s <| properties := snd (mrcp_header_fields_set (properties s) (header m)) |>) ;;;
  synth_request_dispatch m.

Definition synth_response_set_params (m : synth_message) : handler bool :=
  synth_response_dispatch m.

Definition synth_request_get_params (m : synth_message) : handler bool :=
  synth_request_dispatch m.

Definition synth_response_get_params (m : synth_message) : handler bool :=
  let* props := get_sm properties in
  let* req := get_sm active_request in
  let* req := deref_ptr req in
  let m := m <| header := snd (mrcp_header_fields_get (header m) props (header req)) |> in
  synth_response_dispatch m.

Definition synth_request_speak (m : synth_message) : handler bool :=
  let* props := get_sm properties in
  let m := m <| header := snd (mrcp_header_fields_inherit (header m) props) |> in
  let* sp := get_sm speaker in
  match sp with
  | Some _ =>
      let m := with_state MRCP_REQUEST_STATE_PENDING m in
      set_sm (fun s => s <| queue := apt_list_push_back (queue s) m |>) ;;;
      synth_response_dispatch (with_state MRCP_REQUEST_STATE_PENDING (mrcp_response_create (Some m)))
  | None => synth_request_dispatch m
  end.

(** The response to a SPEAK request taken from the queue is not sent: the client was already
    told it is pending, and is now told by an event that it is in progress. *)
Definition synth_response_speak (m : synth_message) : handler bool :=
  (if decide (request_state (start_line m) = MRCP_REQUEST_STATE_INPROGRESS) then
     set_sm (fun s => s <| speaker := active_request s |>) ;;;
     synth_state_change SYNTHESIZER_STATE_SPEAKING
   else ret tt) ;;;
  let* p := get_sm is_pending in
  if p then
    let* req := get_sm active_request in
    let* req := deref_ptr req in
    let ev := with_state MRCP_REQUEST_STATE_INPROGRESS
                (mrcp_event_create (Some req) (event_num SYNTHESIZER_SPEECH_MARKER)) in
    set_sm (fun s => s <| is_pending := false |>) ;;;
    synth_event_dispatch ev
  else synth_response_dispatch m.

Definition synth_pending_requests_remove (request response : synth_message)
    : handler synth_message :=
  let* q := get_sm queue in
  let* r := lift (pending_requests_remove request response q) in
  let '(q, response) := r in
  set_sm (fun s => s <| queue := q |>) ;;;
  ret response.

Definition synth_request_stop (m : synth_message) : handler bool :=
  let* sp := get_sm speaker in
  if match sp with
     | Some sp => selects (selective_ids m) (request_id (start_line sp))
     | None => false
     end
  then synth_request_dispatch m
  else
    let* r := synth_pending_requests_remove m (mrcp_response_create (Some m)) in
    synth_response_dispatch r.

Definition synth_response_stop (m : synth_message) : handler bool :=
  let* id := speaker_id in
  let* m := lift (active_request_id_add id m) in
  let* req := get_sm active_request in
  let* req := deref_ptr req in
  let* m := synth_pending_requests_remove req m in
  synth_state_change SYNTHESIZER_STATE_IDLE ;;;
  let* q := get_sm queue in
  let '(pending, q) := apt_list_pop_front q in
  set_sm (fun s => s <| queue := q |>) ;;;
  synth_response_dispatch m ;;;
  match pending with
  | Some p =>
      set_sm (fun s => s <| is_pending := true |>) ;;;
      synth_request_dispatch p ;;;
      ret true
  | None => ret true
  end.

(** The immediate answer to a PAUSE or RESUME request when nothing is in progress. *)
Definition synth_not_valid (m : synth_message) : handler bool :=
  synth_response_dispatch
    (with_status MRCP_STATUS_CODE_METHOD_NOT_VALID (mrcp_response_create (Some m))).

Definition synth_request_pause (m : synth_message) : handler bool :=
  let* sp := get_sm speaker in
  let* st := get_sm state in
  match sp with
  | Some _ =>
      if decide (st = SYNTHESIZER_STATE_SPEAKING) then synth_request_dispatch m ;;; ret true
      else synth_response_dispatch (mrcp_response_create (Some m)) ;;; ret true
  | None => synth_not_valid m ;;; ret true
  end.

Definition synth_response_pause (m : synth_message) : handler bool :=
  (if status_code (start_line m) =? MRCP_STATUS_CODE_SUCCESS then
     let* id := speaker_id in
     let* m := lift (active_request_id_add id m) in
     synth_state_change SYNTHESIZER_STATE_PAUSED ;;;
     synth_response_dispatch m
   else synth_response_dispatch m) ;;;
  ret true.

Definition synth_request_resume (m : synth_message) : handler bool :=
  let* sp := get_sm speaker in
  let* st := get_sm state in
  match sp with
  | Some _ =>
      if decide (st = SYNTHESIZER_STATE_PAUSED) then synth_request_dispatch m ;;; ret true
      else synth_response_dispatch (mrcp_response_create (Some m)) ;;; ret true
  | None => synth_not_valid m ;;; ret true
  end.

Definition synth_response_resume (m : synth_message) : handler bool :=
  (if status_code (start_line m) =? MRCP_STATUS_CODE_SUCCESS then
     let* id := speaker_id in
     let* m := lift (active_request_id_add id m) in
     synth_state_change SYNTHESIZER_STATE_SPEAKING ;;;
     synth_response_dispatch m
   else synth_response_dispatch m) ;;;
  ret true.

(** Barge-in stops the SPEAK request in progress unless the header of the barge-in request
    says otherwise. *)
Definition synth_request_barge_in_occurred (m : synth_message) : handler bool :=
  let* sp := get_sm speaker in
  let kill :=
    match mrcp_resource_header_get m with
    | Some h =>
        if mrcp_resource_header_property_check m
             (synthesizer_header_id_num SYNTHESIZER_HEADER_KILL_ON_BARGE_IN)
        then kill_on_barge_in h else true
    | None => true
    end in
  if match sp with Some _ => kill | None => false end
  then synth_request_dispatch m
  else synth_response_dispatch (mrcp_response_create (Some m)).

Definition synth_response_barge_in_occurred (m : synth_message) : handler bool :=
  let* id := speaker_id in
  let* m := lift (active_request_id_add id m) in
  let* req := get_sm active_request in
  let* req := deref_ptr req in
  let* m := synth_pending_requests_remove req m in
  synth_state_change SYNTHESIZER_STATE_IDLE ;;;
  synth_response_dispatch m.

Definition synth_request_control (m : synth_message) : handler bool :=
  let* st := get_sm state in
  if decide (st = SYNTHESIZER_STATE_SPEAKING) then synth_request_dispatch m
  else synth_response_dispatch (mrcp_response_create (Some m)).

Definition synth_response_control (m : synth_message) : handler bool :=
  let* id := speaker_id in
  let* m := lift (active_request_id_add id m) in
  synth_response_dispatch m.

Definition synth_request_define_lexicon (m : synth_message) : handler bool :=
  let* st := get_sm state in
  if decide (st = SYNTHESIZER_STATE_IDLE) then synth_request_dispatch m
  else synth_not_valid m.

Definition synth_response_define_lexicon (m : synth_message) : handler bool :=
  synth_response_dispatch m.

(** * Events of the engine *)

Definition synth_event_speech_marker (m : synth_message) : handler bool :=
  let* sp := get_sm speaker in
  match sp with
  | None => ret false
  | Some sp =>
      if negb (request_id (start_line sp) =? request_id (start_line m)) then ret false
      else synth_event_dispatch (with_state MRCP_REQUEST_STATE_INPROGRESS m)
  end.

(** A SPEAK-COMPLETE event without a completion cause completes normally. *)
Definition completion_cause_ensure (m : synth_message) : option synth_message :=
  let cc := synthesizer_header_id_num SYNTHESIZER_HEADER_COMPLETION_CAUSE in
  if mrcp_resource_header_property_check m cc then Some m
  else
    let '(h, m) := mrcp_resource_header_prepare m in
    match h with
    | None => None
    | Some h =>
        let m := set_resource_header
                   (h <| completion_cause := SYNTHESIZER_COMPLETION_CAUSE_NORMAL |>) m in
        let? (_, m) := mrcp_resource_header_property_add m cc in Some m
    end.

Definition synth_event_speak_complete (m : synth_message) : handler bool :=
  let* sp := get_sm speaker in
  match sp with
  | None => ret false
  | Some sp =>
      if negb (request_id (start_line sp) =? request_id (start_line m)) then ret false
      else
        let* req := get_sm active_request in
        if match req with
           | Some r => method_id (start_line r) =? method_num SYNTHESIZER_STOP
           | None => false
           end
        then ret false
        else
          let* m := lift (completion_cause_ensure m) in
          synth_state_change SYNTHESIZER_STATE_IDLE ;;;
          synth_event_dispatch m ;;;
          let* q := get_sm queue in
          let '(pending, q) := apt_list_pop_front q in
          set_sm (fun s => s <| queue := q |>) ;;;
          match pending with
          | Some p =>
              set_sm (fun s => s <| is_pending := true |>) ;;;
              synth_request_dispatch p ;;;
              ret true
          | None => ret true
          end
  end.

(** * Update *)

Definition synth_request_method (i : mrcp_synthesizer_method_id) : synth_message -> handler bool :=
  match i with
  | SYNTHESIZER_SET_PARAMS => synth_request_set_params
  | SYNTHESIZER_GET_PARAMS => synth_request_get_params
  | SYNTHESIZER_SPEAK => synth_request_speak
  | SYNTHESIZER_STOP => synth_request_stop
  | SYNTHESIZER_PAUSE => synth_request_pause
  | SYNTHESIZER_RESUME => synth_request_resume
  | SYNTHESIZER_BARGE_IN_OCCURRED => synth_request_barge_in_occurred
  | SYNTHESIZER_CONTROL => synth_request_control
  | SYNTHESIZER_DEFINE_LEXICON => synth_request_define_lexicon
  end.

Definition synth_response_method (i : mrcp_synthesizer_method_id) : synth_message -> handler bool :=
  match i with
  | SYNTHESIZER_SET_PARAMS => synth_response_set_params
  | SYNTHESIZER_GET_PARAMS => synth_response_get_params
  | SYNTHESIZER_SPEAK => synth_response_speak
  | SYNTHESIZER_STOP => synth_response_stop
  | SYNTHESIZER_PAUSE => synth_response_pause
  | SYNTHESIZER_RESUME => synth_response_resume
  | SYNTHESIZER_BARGE_IN_OCCURRED => synth_response_barge_in_occurred
  | SYNTHESIZER_CONTROL => synth_response_control
  | SYNTHESIZER_DEFINE_LEXICON => synth_response_define_lexicon
  end.

Definition synth_event_method (i : mrcp_synthesizer_event_id) : synth_message -> handler bool :=
  match i with
  | SYNTHESIZER_SPEECH_MARKER => synth_event_speech_marker
  | SYNTHESIZER_SPEAK_COMPLETE => synth_event_speak_complete
  end.

Definition synth_request_state_update (m : synth_message) : handler bool :=
  match enum_of synthesizer_methods (method_id (start_line m)) with
  | None => ret false
  | Some i => synth_request_method i m
  end.

(** A response is expected for the active request only. *)
Definition synth_response_state_update (m : synth_message) : handler bool :=
  let* req := get_sm active_request in
  match req with
  | None => ret false
  | Some r =>
      if negb (request_id (start_line r) =? request_id (start_line m)) then ret false
      else
        match enum_of synthesizer_methods (method_id (start_line m)) with
        | None => ret false
        | Some i => synth_response_method i m
        end
  end.

Definition synth_event_state_update (m : synth_message) : handler bool :=
  match enum_of synthesizer_events (method_id (start_line m)) with
  | None => ret false
  | Some i => synth_event_method i m
  end.

Definition synth_state_update (m : synth_message) : handler bool :=
  match message_type (start_line m) with
  | MRCP_MESSAGE_TYPE_REQUEST => synth_request_state_update m
  | MRCP_MESSAGE_TYPE_RESPONSE => synth_response_state_update m
  | MRCP_MESSAGE_TYPE_EVENT => synth_event_state_update m
  | MRCP_MESSAGE_TYPE_UNKNOWN => ret false
  end.

(** Deactivation stops the SPEAK request in progress with a request of the machine's own. *)
Definition synth_state_deactivate : handler bool :=
  let* sp := get_sm speaker in
  match sp with
  | None => ret false
  | Some source =>
      synth_request_dispatch (deactivation_request source (method_num SYNTHESIZER_STOP))
  end.

Definition mrcp_synth_state_machine_create (v : mrcp_version_e) : mrcp_synth_state_machine_t :=
  mk_synth true SYNTHESIZER_STATE_IDLE false None None []
    (mrcp_message_header_create (Some (mrcp_generic_header_vtable_get v))
       (mrcp_synth_header_vtable_get v)).

(** The operations of the base, for this machine. *)
Definition synth_update (m : synth_message) : handler bool :=
  mrcp_state_machine_update synth_state_update m.
Definition synth_deactivate : handler bool :=
  mrcp_state_machine_deactivate (fun b s => s <| active := b |>) synth_state_deactivate.

End Machine.

#[local] Arguments completion_cause_ensure : simpl never.

(** * The invariant of the machine *)

Section Invariant.
Context `{A : Apr} `{F : CFloat} {W : Type}
  `{L : DispatcherLaws mrcp_synth_state_machine_t W synth_message}.

(** The machine is idle exactly when no SPEAK request is in progress; a STOP request waits for
    the engine only while one is; what waits in the queue are SPEAK requests. *)
Record synth_inv (s : mrcp_synth_state_machine_t) : Prop := {
  inv_idle : state s = SYNTHESIZER_STATE_IDLE <-> speaker s = None;
  inv_stop : forall r, active_request s = Some r ->
    method_id (start_line r) = method_num SYNTHESIZER_STOP -> speaker s <> None;
  inv_queue : Forall (fun r => method_id (start_line r) = method_num SYNTHESIZER_SPEAK) (queue s)
}.

Lemma request_dispatch_wp c (m : synth_message) s w (Q : bool -> _ -> Prop) :
  (forall b w', Q b (s <| active_request := Some m |>, w')) ->
  wp c (synth_request_dispatch m) (s, w) Q.
Proof. intros HQ. unfold synth_request_dispatch. wp_with fail. done. Qed.

Lemma response_dispatch_wp c (m : synth_message) s w (Q : bool -> _ -> Prop) :
  (forall b w', Q b (s <| active_request := None |>, w')) ->
  wp c (synth_response_dispatch m) (s, w) Q.
Proof.
  intros HQ. unfold synth_response_dispatch. wp_with fail.
  destruct (active _); wp_with fail; done.
Qed.

Lemma event_dispatch_wp c (m : synth_message) s w (Q : bool -> _ -> Prop) :
  (forall b w', Q b (s, w')) -> wp c (synth_event_dispatch m) (s, w) Q.
Proof.
  intros HQ. unfold synth_event_dispatch. wp_with fail.
  destruct (active _); wp_with fail; done.
Qed.

Definition state_changed (st : mrcp_synth_state_e) (s : mrcp_synth_state_machine_t)
    : mrcp_synth_state_machine_t :=
  match st with
  | SYNTHESIZER_STATE_IDLE => s <| state := st |> <| speaker := None |>
  | _ => s <| state := st |>
  end.

Lemma synth_state_change_wp c st s w (Q : unit -> _ -> Prop) :
  Q tt (state_changed st s, w) ->
  wp c (synth_state_change st : prog (mrcp_synth_state_machine_t * W) unit) (s, w) Q.
Proof.
  intros HQ. unfold synth_state_change. wp_with fail. by destruct st; wp_with fail.
Qed.

Lemma speaker_id_wp c s w (Q : Z -> _ -> Prop) :
  match speaker s with Some sp => Q (request_id (start_line sp)) (s, w) | None => c end ->
  wp c (speaker_id : prog (mrcp_synth_state_machine_t * W) Z) (s, w) Q.
Proof.
  intros HQ. unfold speaker_id. wp_with fail. apply wp_deref. destruct (speaker s); [|done].
  by wp_with fail.
Qed.

(** What a handler leaves behind if it returns. *)
Definition keeps (m : prog (mrcp_synth_state_machine_t * W) bool) : Prop :=
  forall s w, synth_inv s -> wp True m (s, w) (fun _ s' => synth_inv (fst s')).

End Invariant.

(** One step through a handler of the machine. *)
Ltac synth_leaf :=
  idtac; lazymatch goal with
  | |- wp _ (synth_request_dispatch _) _ _ => apply request_dispatch_wp; intros ? ?
  | |- wp _ (synth_response_dispatch _) _ _ => apply response_dispatch_wp; intros ? ?
  | |- wp _ (synth_event_dispatch _) _ _ => apply event_dispatch_wp; intros ? ?
  | |- wp _ (synth_state_change _) _ _ => apply synth_state_change_wp
  | |- wp _ speaker_id _ _ => apply speaker_id_wp; cbn
  | |- wp _ (deref_ptr _) _ _ => apply wp_deref; cbn
  | |- wp _ (lift _) _ _ => apply wp_lift
  | |- wp _ (if ?b then _ else _) _ _ => destruct b eqn:?
  | |- wp _ (match ?x with _ => _ end) _ _ => destruct x eqn:?
  | |- match ?x with _ => _ end => destruct x eqn:?
  end.
Ltac synth_go := wp_with synth_leaf.

(** Settle the invariant of a final state; [Hm] gives the method of the message. *)
Ltac inv_done Hm :=
  first [exact I |
  repeat match goal with
    | H : apt_list_pop_front _ = _ |- _ => apply pop_front_spec in H; cbn in H; subst
    | H : pending_requests_remove _ _ _ = Some _, HF : Forall _ _ |- _ =>
        apply (pending_requests_remove_Forall _ _ _ _ _ _ HF) in H
    | H : Forall _ (_ :: _) |- _ => pose proof (List.Forall_inv H); apply List.Forall_inv_tail in H; cbv beta in *
    | H : _ /\ _ |- _ => destruct H; subst
    end;
  split; cbn;
  [ first [assumption | split; congruence]
  | intros r Hr Hs;
    first [ discriminate Hr
          | injection Hr as <-; cbn in Hs; first [rewrite Hm in Hs; discriminate Hs
                 | match goal with HS : method_id _ = method_num SYNTHESIZER_SPEAK |- _ =>
                     rewrite HS in Hs; discriminate Hs end
                 | intros ->; cbn in *; congruence | congruence]
          | subst; cbn in *;
            match goal with Hb : (_ =? _) = false |- _ => rewrite Hs in Hb; discriminate Hb end
          | eauto; congruence ]
  | first [assumption | constructor
          | apply Forall_app; split; [assumption|apply Forall_singleton; cbn; exact Hm]] ] ].

Section InvariantProof.
Context `{A : Apr} `{F : CFloat} {W : Type}
  `{L : DispatcherLaws mrcp_synth_state_machine_t W synth_message}.

Lemma request_method_keeps i m :
  method_id (start_line m) = method_num i -> keeps (synth_request_method i m).
Proof.
  intros Hm [ac st ip ar sp q pr] w [H1 H2 H3]. cbn in H1, H2, H3.
  destruct i; cbn [synth_request_method];
    [unfold synth_request_set_params | unfold synth_request_get_params
    |unfold synth_request_speak |unfold synth_request_stop, synth_pending_requests_remove
    |unfold synth_request_pause, synth_not_valid |unfold synth_request_resume, synth_not_valid
    |unfold synth_request_barge_in_occurred |unfold synth_request_control
    |unfold synth_request_define_lexicon, synth_not_valid ]; synth_go.
  all: inv_done Hm.
Qed.

Lemma response_method_keeps i m s w :
  synth_inv s -> active_request s <> None ->
  wp True (synth_response_method i m) (s, w) (fun _ s' => synth_inv (fst s')).
Proof.
  destruct s as [ac st ip ar sp q pr]. intros [H1 H2 H3] Ha. cbn in H1, H2, H3, Ha.
  destruct i; cbn [synth_response_method];
    [unfold synth_response_set_params | unfold synth_response_get_params
    |unfold synth_response_speak |unfold synth_response_stop, synth_pending_requests_remove
    |unfold synth_response_pause |unfold synth_response_resume
    |unfold synth_response_barge_in_occurred, synth_pending_requests_remove
    |unfold synth_response_control|unfold synth_response_define_lexicon]; synth_go.
  all: inv_done H3.
Qed.

Lemma event_method_keeps i m : keeps (synth_event_method i m).
Proof.
  intros [ac st ip ar sp q pr] w [H1 H2 H3]. cbn in H1, H2, H3.
  destruct i; cbn [synth_event_method];
    [unfold synth_event_speech_marker|unfold synth_event_speak_complete]; synth_go.
  all: inv_done H3.
Qed.

Lemma synth_method_of_num (z : Z) i : enum_of synthesizer_methods z = Some i -> z = method_num i.
Proof. apply enum_of_num. decide_now. Qed.

Lemma synth_update_keeps m : keeps (synth_update m).
Proof.
  intros s w Hs. unfold synth_update, mrcp_state_machine_update, synth_state_update.
  destruct (message_type (start_line m)); [done| | |].
  - unfold synth_request_state_update. destruct (enum_of _ _) as [i|] eqn:E; [|done].
    by apply request_method_keeps; [apply synth_method_of_num|].
  - unfold synth_response_state_update. wp_with fail. destruct (active_request s) as [r|] eqn:Er; [|done].
    destruct (negb _); [done|]. destruct (enum_of _ _) as [i|]; [|done].
    apply response_method_keeps; congruence.
  - unfold synth_event_state_update. destruct (enum_of _ _) as [i|]; [|done].
    by apply event_method_keeps.
Qed.

Lemma synth_deactivate_keeps : keeps synth_deactivate.
Proof.
  intros [ac st ip ar sp q pr] w [H1 H2 H3]. cbn in H1, H2, H3.
  unfold synth_deactivate, mrcp_state_machine_deactivate, synth_state_deactivate.
  wp_with fail. cbn. destruct sp as [sp|]; synth_go; cbn; by split.
Qed.

(** C17: in every state the synthesizer state machine reaches, whatever requests, responses and
    events it is updated with and whenever it is deactivated, the machine is idle exactly when
    no SPEAK request is in progress, a STOP request awaits its response only while a SPEAK
    request is in progress, and only SPEAK requests wait in the queue. *)
Theorem synth_machine_invariant (v : mrcp_version_e) s :
  reachable synth_update synth_deactivate (mrcp_synth_state_machine_create v) s -> synth_inv s.
Proof.
  apply reachable_ind_inv.
  - split; cbn; [done|done|constructor].
  - intros s1 s2 w w' i b H1 E. destruct i as [m|]; cbn [sm_step] in E.
    + exact (wp_partial _ _ _ _ _ (synth_update_keeps m s1 w H1) E).
    + exact (wp_partial _ _ _ _ _ (synth_deactivate_keeps s1 w H1) E).
Qed.
End InvariantProof.

(** * Where an update is undefined *)

Section Definedness.
Context `{A : Apr} {LA : AprLaws A} `{F : CFloat} {W : Type}
  `{L : DispatcherLaws mrcp_synth_state_machine_t W synth_message}.

(** A message as the library builds it: it belongs to the synthesizer, and its headers are those
    of the library, allocated or not. *)
Record synth_message_ok (m : synth_message) : Prop := {
  ok_generic : generic_ok m;
  ok_resource : resource m = Some mrcp_synth_resource_create;
  ok_header : exists d, resource_header_accessor (header m)
                        = mk_accessor d (mrcp_synth_header_vtable_get (version (start_line m)))
}.

Lemma synth_resource_ok (v : mrcp_version_e) : resource_ok mrcp_synth_resource_create v.
Proof.
  split; [split; vm_compute; reflexivity..|]. eexists. split; [reflexivity|]. simpl.
  unfold SYNTHESIZER_HEADER_COUNT. lia.
Qed.

Lemma completion_cause_ensure_defined (m : synth_message) :
  synth_message_ok m -> completion_cause_ensure m <> None.
Proof.
  intros [_ _ (d & Hd)]. unfold completion_cause_ensure.
  destruct (mrcp_resource_header_property_check _ _); [done|].
  unfold mrcp_resource_header_prepare, mrcp_header_allocate. rewrite Hd.
  destruct d as [h|]; cbn; by destruct (apt_header_section_field_add _ _).
Qed.

Lemma removal_defined (request m : synth_message) q :
  generic_ok m -> pending_requests_remove request m q <> None.
Proof. intros Hm. by destruct (pending_requests_remove_defined request m q Hm) as (m' & -> & _). Qed.

Lemma id_added (id : Z) (m : synth_message) :
  generic_ok m -> exists m', active_request_id_add id m = Some m' /\ generic_ok m'.
Proof. intros Hm. destruct (active_request_id_add_defined id m Hm) as (m' & H & Hg & _). eauto. Qed.

(** Responses that are handled with the SPEAK request in progress. *)
Definition needs_speaker (i : mrcp_synthesizer_method_id) (status : Z) : bool :=
  match i with
  | SYNTHESIZER_STOP | SYNTHESIZER_BARGE_IN_OCCURRED | SYNTHESIZER_CONTROL => true
  | SYNTHESIZER_PAUSE | SYNTHESIZER_RESUME => status =? MRCP_STATUS_CODE_SUCCESS
  | _ => false
  end.

Abbreviation returns m := (fun s w => wp False (m : prog (mrcp_synth_state_machine_t * W) bool) (s, w) (fun _ _ => True)).

Lemma request_method_returns i m s w : synth_message_ok m -> returns (synth_request_method i m) s w.
Proof.
  intros Hm. destruct s as [ac st ip ar sp q pr].
  destruct i; cbn [synth_request_method];
    [unfold synth_request_set_params | unfold synth_request_get_params
    |unfold synth_request_speak |unfold synth_request_stop, synth_pending_requests_remove
    |unfold synth_request_pause, synth_not_valid |unfold synth_request_resume, synth_not_valid
    |unfold synth_request_barge_in_occurred |unfold synth_request_control
    |unfold synth_request_define_lexicon, synth_not_valid ]; synth_go; try exact I.
  match goal with H : pending_requests_remove _ _ _ = None |- _ =>
    by apply removal_defined in H; [|apply (response_generic_ok m _ (ok_resource m Hm)), synth_resource_ok] end.
Qed.

Lemma event_method_returns i m s w : synth_message_ok m -> returns (synth_event_method i m) s w.
Proof.
  intros Hm. destruct s as [ac st ip ar sp q pr].
  destruct i; cbn [synth_event_method];
    [unfold synth_event_speech_marker|unfold synth_event_speak_complete]; synth_go; try exact I.
  match goal with H : completion_cause_ensure _ = None |- _ =>
    by apply completion_cause_ensure_defined in H end.
Qed.

Lemma response_method_returns i m s w :
  generic_ok m -> active_request s <> None ->
  (needs_speaker i (status_code (start_line m)) = true -> speaker s <> None) ->
  returns (synth_response_method i m) s w.
Proof.
  intros Hm Ha Hsp. destruct s as [ac st ip ar sp q pr]. cbn in Ha, Hsp.
  destruct i; cbn [synth_response_method]; cbn [needs_speaker] in Hsp;
    [unfold synth_response_set_params | unfold synth_response_get_params
    |unfold synth_response_speak |unfold synth_response_stop, synth_pending_requests_remove
    |unfold synth_response_pause |unfold synth_response_resume
    |unfold synth_response_barge_in_occurred, synth_pending_requests_remove
    |unfold synth_response_control|unfold synth_response_define_lexicon]; synth_go; try exact I.
  all: repeat match goal with
    | H : active_request_id_add ?id ?x = _, G : generic_ok ?x |- _ =>
        let E := fresh in
        destruct (id_added id x G) as (? & E & ?); rewrite E in H; clear E
    | H : Some _ = Some _ |- _ => injection H as <-
    end; try congruence.
  all: try match goal with
    | H : pending_requests_remove _ _ _ = None |- _ => by apply removal_defined in H
    end.
  all: subst; by apply Hsp.
Qed.

(** The active request is answered with a response to its own method. *)
Definition answers (s : mrcp_synth_state_machine_t) (m : synth_message) : Prop :=
  message_type (start_line m) = MRCP_MESSAGE_TYPE_RESPONSE /\
  exists r, active_request s = Some r /\ request_id (start_line r) = request_id (start_line m).

(** A success of PAUSE or RESUME, or an answer to BARGE-IN-OCCURRED or CONTROL, comes when the
    SPEAK request it was meant for is over. *)
Definition answers_too_late (s : mrcp_synth_state_machine_t) (m : synth_message) : Prop :=
  answers s m /\ speaker s = None /\
  exists i, method_id (start_line m) = method_num i /\ i <> SYNTHESIZER_STOP /\
            needs_speaker i (status_code (start_line m)) = true.

Lemma returns_some (p : prog (mrcp_synth_state_machine_t * W) bool) s w :
  returns p s w -> p (s, w) <> None.
Proof. unfold wp. by destruct (p (s, w)) as [[??]|]. Qed.

Lemma synth_methods_all i : enum_of synthesizer_methods (method_num i) = Some i.
Proof. by destruct i. Qed.

Lemma late_answer_undefined i m s (w : W) :
  speaker s = None -> needs_speaker i (status_code (start_line m)) = true ->
  synth_response_method i m (s, w) = None.
Proof.
  intros Hs Hn. destruct i; cbn [needs_speaker] in Hn; try done; cbn [synth_response_method];
    [unfold synth_response_stop|unfold synth_response_pause; rewrite Hn
    |unfold synth_response_resume; rewrite Hn|unfold synth_response_barge_in_occurred
    |unfold synth_response_control];
    unfold speaker_id, bind, get_sm, gets, deref_ptr; cbn [fst]; by rewrite Hs.
Qed.

(** C39: where updating the synthesizer state machine is undefined.  In a state that keeps the invariant of the
    machine, with messages built by the library and responses that repeat the method of the active request, an update fails in
    exactly one way: the engine answers PAUSE or RESUME with a success, or BARGE-IN-OCCURRED or
    CONTROL with anything, when the SPEAK request in progress is already over, and the handler
    dereferences the missing request.  Every other update, those with a STOP response included,
    returns. *)
Theorem synth_update_undefined_iff s w m :
  synth_inv s -> synth_message_ok m ->
  (answers s m -> forall r, active_request s = Some r ->
     method_id (start_line r) = method_id (start_line m)) ->
  (synth_update m : prog (mrcp_synth_state_machine_t * W) bool) (s, w) = None <->
  answers_too_late s m.
Proof.
  intros HI Hm Hrep. unfold synth_update, mrcp_state_machine_update, synth_state_update.
  split.
  - unfold answers_too_late, answers in *.
    destruct (message_type (start_line m)) eqn:Ety; [done| | |].
    + unfold synth_request_state_update. destruct (enum_of _ _) as [i|]; [|done].
      intros E. by destruct (returns_some _ _ _ (request_method_returns i m s w Hm)).
    + unfold synth_response_state_update, bind, get_sm, gets. cbn [fst].
      destruct (active_request s) as [r|] eqn:Er; [|done].
      destruct (Z.eqb_spec (request_id (start_line r)) (request_id (start_line m))) as [Ei|]; [|done].
      cbn [negb]. destruct (enum_of _ _) as [i|] eqn:En; [|done]. apply synth_method_of_num in En.
      specialize (Hrep (conj eq_refl (ex_intro _ r (conj eq_refl Ei))) r eq_refl).
      intros E. destruct (speaker s) as [sp|] eqn:Es;
        [|destruct (needs_speaker i (status_code (start_line m))) eqn:Ens].
      * destruct (returns_some _ _ _ (response_method_returns i m s w (ok_generic m Hm)
          ltac:(congruence) ltac:(congruence))). done.
      * split; [split; [done|by exists r]|]. split; [done|]. exists i. split_and!; [done| |done].
        intros ->. apply (inv_stop s HI r Er); congruence.
      * destruct (returns_some _ _ _ (response_method_returns i m s w (ok_generic m Hm)
          ltac:(congruence) ltac:(congruence))). done.
    + unfold synth_event_state_update. destruct (enum_of _ _) as [i|]; [|done].
      intros E. by destruct (returns_some _ _ _ (event_method_returns i m s w Hm)).
  - intros ((Hty & r & Hr & Hi) & Hs & i & Hmi & _ & Hn). rewrite Hty.
    unfold synth_response_state_update, bind, get_sm, gets. cbn [fst]. rewrite Hr, Hi, Z.eqb_refl.
    cbn [negb]. rewrite Hmi, synth_methods_all. by apply late_answer_undefined.
Qed.
End Definedness.

(** * The queue of SPEAK requests *)

(** What a message says, without its headers. *)
Definition brief `{CFloat} (o : output synth_message) : option (mrcp_message_type_e * Z * Z * mrcp_request_state_e) :=
  match o with
  | Dispatched m =>
      let sl := start_line m in Some (message_type sl, method_id sl, request_id sl, request_state sl)
  | Deactivated => None
  end.

Section Queue.
Context `{A : Apr} {LA : AprLaws A} `{F : CFloat}.

Abbreviation world := (list (output synth_message)).
#[local] Instance recorder : Dispatcher mrcp_synth_state_machine_t world synth_message := recording.
Abbreviation run := (sm_run (W := world) synth_update synth_deactivate).

(** The engine: the response that a SPEAK request is in progress, the event that it is done. *)
Definition engine_started (r : synth_message) : synth_message :=
  with_state MRCP_REQUEST_STATE_INPROGRESS (mrcp_response_create (Some r)).
Definition engine_completed (r : synth_message) : synth_message :=
  with_state MRCP_REQUEST_STATE_COMPLETE
    (mrcp_event_create (Some r) (event_num SYNTHESIZER_SPEAK_COMPLETE)).

Definition speak_ok (r : synth_message) : Prop :=
  resource r = Some mrcp_synth_resource_create /\
  method_id (start_line r) = method_num SYNTHESIZER_SPEAK.

Lemma with_state_line (st : mrcp_request_state_e) (m : synth_message) :
  start_line (with_state st m) = (start_line m) <| request_state := st |>.
Proof. done. Qed.

Lemma with_state_ok (st : mrcp_request_state_e) (m : synth_message) :
  synth_message_ok m -> synth_message_ok (with_state st m).
Proof. intros [? ? ?]. by split. Qed.

Lemma event_message_ok r (i : mrcp_synthesizer_event_id) :
  resource r = Some mrcp_synth_resource_create ->
  exists n, start_line (mrcp_event_create (Some r) (event_num i))
            = event_line (start_line r) (event_num i) n /\
    synth_message_ok (mrcp_event_create (Some r) (event_num i)).
Proof.
  intros Hr. destruct (event_created_for r _ (event_num i) Hr
    (synth_resource_ok _)) as (n & _ & Hl & _ & _ & Hres & _ & vt & Hv & Hg & Hh & _);
    [destruct i; vm_compute; split; congruence|].
  exists n. split; [exact Hl|]. split; [|done|].
  - exists (version (start_line r)), (Some mrcp_generic_header_init). split; [exact Hg|].
    unfold request_ids_ok; simpl; lia.
  - rewrite Hl. exists (Some (allocate vt)). cbn [version event_line].
    change (get_resource_header_vtable mrcp_synth_resource_create (version (start_line r)))
      with (mrcp_synth_header_vtable_get (version (start_line r))) in Hv.
    by rewrite Hh, Hv.
Qed.

Lemma completion_cause_ensure_line m m' :
  completion_cause_ensure m = Some m' -> start_line m' = start_line m.
Proof.
  unfold completion_cause_ensure. destruct (mrcp_resource_header_property_check _ _); [by intros [= <-]|].
  unfold mrcp_resource_header_prepare, mrcp_resource_header_property_add, property_add.
  destruct (data _); [|done]. destruct (mrcp_header_field_value_generate _ _ _) as [[f|]|]; [| |done].
  - destruct (apt_header_section_field_add _ _). by intros [= <-].
  - by intros [= <-].
Qed.

(** What the owner is told of a SPEAK request: it is queued, goes to the engine, is in progress
    and is complete. *)
Definition pending_brief (p : synth_message) :=
  Some (MRCP_MESSAGE_TYPE_RESPONSE, method_num SYNTHESIZER_SPEAK, request_id (start_line p),
        MRCP_REQUEST_STATE_PENDING).
Definition sent_brief (p : synth_message) :=
  Some (MRCP_MESSAGE_TYPE_REQUEST, method_num SYNTHESIZER_SPEAK, request_id (start_line p),
        MRCP_REQUEST_STATE_PENDING).
Definition started_brief (p : synth_message) :=
  Some (MRCP_MESSAGE_TYPE_EVENT, event_num SYNTHESIZER_SPEECH_MARKER, request_id (start_line p),
        MRCP_REQUEST_STATE_INPROGRESS).
Definition completed_brief (p : synth_message) :=
  Some (MRCP_MESSAGE_TYPE_EVENT, event_num SYNTHESIZER_SPEAK_COMPLETE, request_id (start_line p),
        MRCP_REQUEST_STATE_COMPLETE).
Definition spoken_brief (p : synth_message) := [sent_brief p; started_brief p; completed_brief p].

(** The machine while [r] is spoken, and while the engine has been sent [p] from the queue. *)
Definition speaking (a : option synth_message) (r : synth_message) (q : list synth_message)
    (pr : synth_properties) : mrcp_synth_state_machine_t :=
  mk_synth true SYNTHESIZER_STATE_SPEAKING false a (Some r) q pr.
Definition between (p : synth_message) (q : list synth_message) (pr : synth_properties)
    : mrcp_synth_state_machine_t :=
  mk_synth true SYNTHESIZER_STATE_IDLE true (Some p) None q pr.

Definition not_stopping (a : option synth_message) : Prop :=
  forall r, a = Some r -> method_id (start_line r) <> method_num SYNTHESIZER_STOP.

Lemma complete_step a r q pr (w : world) :
  speak_ok r -> not_stopping a ->
  exists b m, synth_update (engine_completed r) (speaking a r q pr, w) =
    Some (b, match q with
             | [] => (mk_synth true SYNTHESIZER_STATE_IDLE false a None [] pr, w ++ [Dispatched m])
             | p :: q' => (between p q' pr, (w ++ [Dispatched m]) ++ [Dispatched p])
             end) /\
    brief (Dispatched m) = completed_brief r.
Proof.
  intros [Hr Hm] Ha. destruct (event_message_ok r SYNTHESIZER_SPEAK_COMPLETE Hr) as (n & Hl & Hok).
  apply (with_state_ok MRCP_REQUEST_STATE_COMPLETE) in Hok. fold (engine_completed r) in Hok.
  assert (Hc : start_line (engine_completed r) =
    (event_line (start_line r) (event_num SYNTHESIZER_SPEAK_COMPLETE) n)
      <| request_state := MRCP_REQUEST_STATE_COMPLETE |>)
    by (unfold engine_completed; by rewrite with_state_line, Hl).
  destruct (completion_cause_ensure (engine_completed r)) as [m|] eqn:Ec;
    [|by destruct (completion_cause_ensure_defined _ Hok)].
  exists true, m. pose proof (completion_cause_ensure_line _ _ Ec) as Hml.
  split; [|unfold brief; rewrite Hml, Hc; done].
  unfold synth_update, mrcp_state_machine_update, synth_state_update. rewrite Hc. cbn [message_type event_line field_set].
  unfold synth_event_state_update. rewrite Hc. cbn.
  change (enum_of _ _) with (Some SYNTHESIZER_SPEAK_COMPLETE). cbn [synth_event_method].
  unfold synth_event_speak_complete, bind, get_sm, gets, speaking. cbn [fst speaker].
  rewrite Hc. cbn [request_id event_line field_set]. cbn. rewrite Z.eqb_refl. cbn [negb active_request].
  assert (Hs : match a with Some r0 => method_id (start_line r0) =? method_num SYNTHESIZER_STOP
               | None => false end = false).
  { destruct a as [r0|]; [|done]. apply Z.eqb_neq. by apply Ha. }
  cbn. rewrite Hs, Ec. cbn. destruct q as [|p q']; reflexivity.
Qed.

(** A SPEAK request as it waits in the queue. *)
Definition queued (pr : synth_properties) (m : synth_message) : synth_message :=
  with_state MRCP_REQUEST_STATE_PENDING
    (m <| header := snd (mrcp_header_fields_inherit (header m) pr) |>).

Lemma speak_step a r q pr m (w : world) :
  speak_ok m -> message_type (start_line m) = MRCP_MESSAGE_TYPE_REQUEST ->
  exists b m', synth_update m (speaking a r q pr, w)
    = Some (b, (speaking None r (q ++ [queued pr m]) pr, w ++ [Dispatched m'])) /\
    brief (Dispatched m') = pending_brief m.
Proof.
  intros [Hr Hm] Hty.
  exists true, (with_state MRCP_REQUEST_STATE_PENDING (mrcp_response_create (Some (queued pr m)))).
  split.
  - unfold synth_update, mrcp_state_machine_update, synth_state_update. rewrite Hty.
    unfold synth_request_state_update. rewrite Hm.
    change (enum_of _ _) with (Some SYNTHESIZER_SPEAK). cbn [synth_request_method]. reflexivity.
  - unfold brief. rewrite with_state_line, response_create_start_line. cbn. by rewrite Hm.
Qed.

Lemma started_step p q pr (w : world) :
  speak_ok p ->
  exists b m, synth_update (engine_started p) (between p q pr, w)
    = Some (b, (speaking (Some p) p q pr, w ++ [Dispatched m])) /\
    brief (Dispatched m) = started_brief p.
Proof.
  intros [Hr Hm]. destruct (event_message_ok p SYNTHESIZER_SPEECH_MARKER Hr) as (n & Hl & _).
  eexists _, (with_state MRCP_REQUEST_STATE_INPROGRESS
                (mrcp_event_create (Some p) (event_num SYNTHESIZER_SPEECH_MARKER))).
  split; [|unfold brief; rewrite with_state_line, Hl; done].
  assert (Hs : start_line (engine_started p) =
    mk_start_line MRCP_MESSAGE_TYPE_RESPONSE (version (start_line p)) 0 (request_id (start_line p))
      (method_name (start_line p)) (method_id (start_line p)) MRCP_STATUS_CODE_SUCCESS
      MRCP_REQUEST_STATE_INPROGRESS)
    by (unfold engine_started; by rewrite with_state_line, response_create_start_line).
  unfold synth_update, mrcp_state_machine_update, synth_state_update. rewrite Hs. cbn [message_type].
  unfold synth_response_state_update, bind, get_sm, gets, between. cbn [fst active_request].
  rewrite Hs. cbn [request_id method_id]. rewrite Z.eqb_refl, Hm. cbn [negb].
  change (enum_of _ _) with (Some SYNTHESIZER_SPEAK). cbn [synth_response_method].
  unfold synth_response_speak, bind. rewrite Hs. cbn. reflexivity.
Qed.

(** The engine speaks what it is given and completes it, one request after the other. *)
Fixpoint drain (r : synth_message) (q : list synth_message) : list (sm_input synth_message) :=
  Update (engine_completed r) ::
  match q with
  | [] => []
  | p :: q' => Update (engine_started p) :: drain p q'
  end.

Lemma speak_not_stopping p : speak_ok p -> not_stopping (Some p).
Proof. intros [_ Hp] r [= <-]. by rewrite Hp. Qed.

Lemma drain_run a r pr (ms : list synth_message) (w : world) :
  speak_ok r -> Forall (fun m => speak_ok m /\ message_type (start_line m) = MRCP_MESSAGE_TYPE_REQUEST) ms ->
  not_stopping a ->
  let q := map (queued pr) ms in
  exists a' w', run (drain r q) (speaking a r q pr, w) =
    Some (tt, (mk_synth true SYNTHESIZER_STATE_IDLE false a' None [] pr, w ++ w')) /\
    map brief w' = completed_brief r :: concat (map spoken_brief ms).
Proof.
  revert a r w. induction ms as [|m0 ms IH]; intros a r w Hr Hq Ha; cbv zeta; cbn [map].
  - destruct (complete_step a r [] pr w Hr Ha) as (b & m & E & Hb).
    cbn [drain sm_run sm_step]; unfold bind at 1; rewrite E.
    exists a, [Dispatched m]. split; [done|]. cbn [map]. by rewrite Hb.
  - set (p := queued pr m0) in *. set (q := map (queued pr) ms) in *.
    destruct (complete_step a r (p :: q) pr w Hr Ha) as (b & m & E & Hb).
    cbn [drain sm_run sm_step]; unfold bind at 1; rewrite E; clear E.
    pose proof (List.Forall_inv Hq) as [Hp0 Ht]. apply List.Forall_inv_tail in Hq.
    assert (Hp : speak_ok p) by (by destruct Hp0).
    destruct (started_step p q pr ((w ++ [Dispatched m]) ++ [Dispatched p]) Hp) as (b' & m' & E & Hb').
    cbn [sm_run sm_step]. unfold bind at 1. rewrite E. clear E.
    destruct (IH (Some p) p (((w ++ [Dispatched m]) ++ [Dispatched p]) ++ [Dispatched m']) Hp Hq
                (speak_not_stopping p Hp)) as (a' & w' & E & Hw').
    exists a', ([Dispatched m; Dispatched p; Dispatched m'] ++ w'). split.
    + fold q in E. rewrite E. by rewrite <-!app_assoc.
    + rewrite map_app, Hw'. cbn [map app concat]. rewrite Hb, Hb'.
      unfold spoken_brief at 2. cbn [app]. do 2 f_equal. destruct Hp0 as [_ Hm0].
      unfold brief, sent_brief. rewrite <-Hm0, <-Ht. done.
Qed.

Lemma enqueue_run r pr (ms : list synth_message) q a (w : world) :
  Forall (fun m => speak_ok m /\ message_type (start_line m) = MRCP_MESSAGE_TYPE_REQUEST) ms ->
  not_stopping a ->
  exists a' w', run (map Update ms) (speaking a r q pr, w) =
    Some (tt, (speaking a' r (q ++ map (queued pr) ms) pr, w ++ w')) /\
    not_stopping a' /\ map brief w' = map pending_brief ms.
Proof.
  revert q a w. induction ms as [|m ms IH]; intros q a w Hms Ha; cbn [map sm_run sm_step].
  - exists a, []. by rewrite !app_nil_r.
  - pose proof (List.Forall_inv Hms) as [Hm Ht]. apply List.Forall_inv_tail in Hms.
    destruct (speak_step a r q pr m w Hm Ht) as (b & m' & E & Hb).
    unfold bind at 1. rewrite E. clear E.
    destruct (IH (q ++ [queued pr m]) None (w ++ [Dispatched m']) Hms ltac:(done)) as (a' & w' & E & Ha' & Hw').
    exists a', (Dispatched m' :: w'). rewrite E, <-!app_assoc. split; [done|]. split; [done|].
    cbn [map]. by rewrite Hb, Hw'.
Qed.

(** C6: SPEAK requests are answered and spoken in the order they arrive.  SPEAK requests that
    come while one is in progress are each answered at once with a PENDING response.  When the
    engine then completes the request in progress and, one after the other, starts and completes
    what it is sent, the owner is told exactly: the request in progress is complete, and for
    every queued request, in order, that it goes to the engine, that it is in progress (by a
    SPEECH-MARKER event) and that it is complete.  The machine ends idle with an empty queue. *)
Theorem synth_queue_fifo r pr (ms : list synth_message) (w : world) :
  speak_ok r ->
  Forall (fun m => speak_ok m /\ message_type (start_line m) = MRCP_MESSAGE_TYPE_REQUEST) ms ->
  exists a' w', run (map Update ms ++ drain r (map (queued pr) ms)) (speaking None r [] pr, w) =
    Some (tt, (mk_synth true SYNTHESIZER_STATE_IDLE false a' None [] pr, w ++ w')) /\
    map brief w' = map pending_brief ms ++ completed_brief r :: concat (map spoken_brief ms).
Proof.
  intros Hr Hms. rewrite sm_run_app.
  destruct (enqueue_run r pr ms [] None w Hms ltac:(done)) as (a1 & w1 & -> & Ha1 & Hw1).
  destruct (drain_run a1 r pr ms (w ++ w1) Hr Hms Ha1) as (a2 & w2 & E & Hw2).
  exists a2, (w1 ++ w2). cbn [app]. rewrite E, app_assoc. split; [done|].
  by rewrite map_app, Hw1, Hw2.
Qed.
End Queue.

(** * STOP and deactivation *)

Section Stop.
Context `{A : Apr} {LA : AprLaws A} `{F : CFloat}.

Abbreviation world := (list (output synth_message)).
#[local] Existing Instance recorder.
Abbreviation run := (sm_run (W := world) synth_update synth_deactivate).

(** A STOP request that does not select the SPEAK request in progress is answered at once:
    with or without a list of request identifiers it removes exactly the selected requests from
    the queue, keeping the order of the others, and the success response lists the identifiers
    of the removed requests, the first five of them. *)
Theorem synth_stop_pending s m (w : world) :
  active s = true -> synth_message_ok m ->
  message_type (start_line m) = MRCP_MESSAGE_TYPE_REQUEST ->
  method_id (start_line m) = method_num SYNTHESIZER_STOP ->
  (forall r, speaker s = Some r -> selects (selective_ids m) (request_id (start_line r)) = false) ->
  exists b m', synth_update m (s, w) =
    Some (b, (s <| queue := pending_rest (selective_ids m) (queue s) |> <| active_request := None |>,
              w ++ [Dispatched m'])) /\
    start_line m' = response_line (start_line m) /\
    exists g, mrcp_generic_header_get m' = Some g /\
      active_request_id_list g =
        take MAX_ACTIVE_REQUEST_ID_COUNT (pending_ids (selective_ids m) (queue s)).
Proof.
  intros Hact Hm Hty Hme Hsel.
  destruct (pending_requests_remove_defined m (mrcp_response_create (Some m)) (queue s)
    (response_generic_ok m _ (ok_resource m Hm) (synth_resource_ok _))) as (m' & E & Hg & (Hl & _) & g & Hget & Hids).
  exists true, m'. split; [|split].
  - unfold synth_update, mrcp_state_machine_update, synth_state_update. rewrite Hty.
    unfold synth_request_state_update. rewrite Hme.
    change (enum_of _ _) with (Some SYNTHESIZER_STOP). cbn [synth_request_method].
    destruct s as [ac st ip ar sp q pr]. cbn in Hact, Hsel, E. subst ac.
    unfold synth_request_stop, synth_pending_requests_remove, bind, get_sm, gets. cbn.
    assert (Hs : match sp with Some sp => selects (selective_ids m) (request_id (start_line sp))
                 | None => false end = false) by (destruct sp; [by apply Hsel|done]).
    rewrite Hs. cbn. rewrite E. cbn. reflexivity.
  - by rewrite Hl, response_create_start_line.
  - exists g. split; [exact Hget|]. rewrite Hids. unfold ids_append.
    destruct (response_created_for m _ (ok_resource m Hm) (synth_resource_ok _))
      as (_ & _ & _ & _ & vt & _ & Hgen & _).
    unfold mrcp_generic_header_get. rewrite Hgen. done.
Qed.

Lemma deactivate_step a r q pr (w : world) :
  synth_deactivate (speaking a r q pr, w) =
  let stop := deactivation_request r (method_num SYNTHESIZER_STOP) in
  Some (true, (mk_synth false SYNTHESIZER_STATE_SPEAKING false (Some stop) (Some r) q pr,
               w ++ [Dispatched stop])).
Proof. reflexivity. Qed.

Lemma deactivation_request_line r : resource r = Some mrcp_synth_resource_create ->
  let stop := deactivation_request r (method_num SYNTHESIZER_STOP) in
  resource stop = Some mrcp_synth_resource_create /\
  brief (Dispatched stop) = Some (MRCP_MESSAGE_TYPE_REQUEST, method_num SYNTHESIZER_STOP,
    u32 (request_id (start_line r) + 1), MRCP_REQUEST_STATE_UNKNOWN) /\
  channel_id stop = channel_id r /\ header stop = header r.
Proof.
  intros Hr. unfold deactivation_request. rewrite Hr.
  destruct (start_line r) as [ty ver len0 rid nm mid sc rs] eqn:El. cbn [version request_id].
  by destruct ver.
Qed.

(** The machine that waits for the engine to stop [r]. *)
Definition stopping (stop r : synth_message) (q : list synth_message) (pr : synth_properties)
    : mrcp_synth_state_machine_t :=
  mk_synth false SYNTHESIZER_STATE_SPEAKING false (Some stop) (Some r) q pr.

Lemma stopping_event stop r q pr e (w : world) :
  method_id (start_line stop) = method_num SYNTHESIZER_STOP ->
  message_type (start_line e) = MRCP_MESSAGE_TYPE_EVENT ->
  exists b, synth_update e (stopping stop r q pr, w) = Some (b, (stopping stop r q pr, w)).
Proof.
  intros Hs Ht. exists false. unfold synth_update, mrcp_state_machine_update, synth_state_update.
  rewrite Ht. unfold synth_event_state_update. destruct (enum_of _ _) as [[]|]; [| |done];
    cbn [synth_event_method].
  - unfold synth_event_speech_marker, bind. cbn. by destruct (negb _).
  - unfold synth_event_speak_complete, bind. cbn. destruct (negb _); [done|]. cbn.
    by rewrite Hs, Z.eqb_refl.
Qed.

Lemma stopping_events stop r q pr (es : list synth_message) (w : world) :
  method_id (start_line stop) = method_num SYNTHESIZER_STOP ->
  Forall (fun e => message_type (start_line e) = MRCP_MESSAGE_TYPE_EVENT) es ->
  run (map Update es) (stopping stop r q pr, w) = Some (tt, (stopping stop r q pr, w)).
Proof.
  intros Hs. induction 1 as [|e es He _ IH]; [done|]. cbn [map sm_run sm_step].
  destruct (stopping_event stop r q pr e w Hs He) as [b E]. unfold bind at 1. by rewrite E.
Qed.

Lemma pending_rest_all (q : list synth_message) : pending_rest None q = [].
Proof. by induction q. Qed.

Lemma stopped_step stop r q pr (w : world) :
  resource stop = Some mrcp_synth_resource_create ->
  method_id (start_line stop) = method_num SYNTHESIZER_STOP -> selective_ids stop = None ->
  exists b, synth_update (mrcp_response_create (Some stop)) (stopping stop r q pr, w) =
    Some (b, (mk_synth false SYNTHESIZER_STATE_IDLE false None None [] pr, w ++ [Deactivated])).
Proof.
  intros Hr Hs Hsel. set (resp := mrcp_response_create (Some stop)).
  assert (Hl : start_line resp = response_line (start_line stop)) by apply response_create_start_line.
  destruct (id_added (request_id (start_line r)) resp (response_generic_ok stop _ Hr (synth_resource_ok _))) as (m1 & E1 & Hg1).
  destruct (pending_requests_remove_defined stop m1 q Hg1) as (m2 & E2 & _).
  rewrite Hsel, pending_rest_all in E2.
  exists true. unfold synth_update, mrcp_state_machine_update, synth_state_update.
  rewrite Hl. cbn [message_type response_line].
  unfold synth_response_state_update, bind, get_sm, gets, stopping. cbn [fst active_request].
  rewrite Hl. cbn [request_id method_id response_line]. rewrite Z.eqb_refl, Hs. cbn [negb].
  change (enum_of _ _) with (Some SYNTHESIZER_STOP). cbn [synth_response_method].
  unfold synth_response_stop, speaker_id, synth_pending_requests_remove, bind. cbn.
  rewrite E1. cbn. rewrite E2. cbn. reflexivity.
Qed.

(** Deactivation while a SPEAK request is in progress.  The engine is sent a STOP request of
    the machine's own, numbered after the SPEAK request, on its channel; whatever events the
    engine still raises stay inside the machine, and its response to the STOP request is not
    passed on either: the owner is told once that the machine is deactivated, which is then
    idle with an empty queue. *)
Theorem synth_deactivation a r q pr (es : list synth_message) (w : world) :
  let stop := deactivation_request r (method_num SYNTHESIZER_STOP) in
  resource r = Some mrcp_synth_resource_create -> selective_ids stop = None ->
  Forall (fun e => message_type (start_line e) = MRCP_MESSAGE_TYPE_EVENT) es ->
  run (Deactivate :: map Update es ++ [Update (mrcp_response_create (Some stop))])
      (speaking a r q pr, w) =
    Some (tt, (mk_synth false SYNTHESIZER_STATE_IDLE false None None [] pr,
               w ++ [Dispatched stop; Deactivated])) /\
  brief (Dispatched stop) = Some (MRCP_MESSAGE_TYPE_REQUEST, method_num SYNTHESIZER_STOP,
    u32 (request_id (start_line r) + 1), MRCP_REQUEST_STATE_UNKNOWN) /\
  channel_id stop = channel_id r.
Proof.
  intros stop Hr Hsel Hes. destruct (deactivation_request_line r Hr) as (Hres & Hb & Hc & _).
  fold stop in Hres, Hb, Hc. split; [|done].
  assert (Hs : method_id (start_line stop) = method_num SYNTHESIZER_STOP).
  { unfold brief in Hb. congruence. }
  cbn [sm_run sm_step]. unfold bind at 1. rewrite deactivate_step. cbv beta iota zeta. fold stop.
  rewrite sm_run_app. fold (stopping stop r q pr). rewrite stopping_events by done.
  cbn [sm_run sm_step]. unfold bind at 1.
  destruct (stopped_step stop r q pr (w ++ [Dispatched stop]) Hres Hs Hsel) as [b E].
  rewrite E. unfold ret. by rewrite <-app_assoc.
Qed.
End Stop.

(** * Runs of the machine *)

Section Runs.
#[local] Existing Instance apr_reference.
#[local] Existing Instance apr_reference_laws.
#[local] Existing Instance float_integers.
#[local] Instance recorder' : Dispatcher mrcp_synth_state_machine_t (list (output synth_message)) synth_message := recording.
#[local] Instance recorder_laws' : DispatcherLaws recorder' := recording_laws.

Definition sample_synth_request (i : mrcp_synthesizer_method_id) (id : Z) : synth_message :=
  set_start_line (fun sl => sl <| request_id := id |>)
    (mrcp_request_create (Some mrcp_synth_resource_create) MRCP_VERSION_2 (method_num i)).

Definition fresh_synth : mrcp_synth_state_machine_t := mrcp_synth_state_machine_create MRCP_VERSION_2.

(** The machine runs from its creation; what the owner is told. *)
Definition synth_outputs (l : list (sm_input synth_message))
    : option (list (option (mrcp_message_type_e * Z * Z * mrcp_request_state_e))) :=
  match sm_run synth_update synth_deactivate l (fresh_synth, []) with
  | Some (_, (_, w)) => Some (map brief w)
  | None => None
  end.

Abbreviation speak := (sample_synth_request SYNTHESIZER_SPEAK).
Abbreviation pause := (sample_synth_request SYNTHESIZER_PAUSE).

(** A PAUSE request that races with the end of the speech is fatal: the request is sent to
    the engine while SPEAK is in progress, the SPEAK-COMPLETE event of the engine comes first,
    and its success response to PAUSE then dereferences the SPEAK request that is gone. *)
Example synth_pause_race :
  synth_outputs [Update (speak 1); Update (engine_started (speak 1)); Update (pause 2);
                 Update (engine_completed (speak 1))] =
    Some [Some (MRCP_MESSAGE_TYPE_REQUEST, method_num SYNTHESIZER_SPEAK, 1, MRCP_REQUEST_STATE_UNKNOWN);
          Some (MRCP_MESSAGE_TYPE_RESPONSE, method_num SYNTHESIZER_SPEAK, 1, MRCP_REQUEST_STATE_INPROGRESS);
          Some (MRCP_MESSAGE_TYPE_REQUEST, method_num SYNTHESIZER_PAUSE, 2, MRCP_REQUEST_STATE_UNKNOWN);
          completed_brief (speak 1)] /\
  synth_outputs [Update (speak 1); Update (engine_started (speak 1)); Update (pause 2);
                 Update (engine_completed (speak 1));
                 Update (mrcp_response_create (Some (pause 2)))] = None.
Proof. by vm_compute. Qed.

Abbreviation inprogress_brief r := (Some (MRCP_MESSAGE_TYPE_RESPONSE, method_num SYNTHESIZER_SPEAK,
  request_id (start_line r), MRCP_REQUEST_STATE_INPROGRESS)).

(** A SPEAK request that arrives while the engine has not yet answered one taken from the
    queue takes its place.  Request 2 waits in the queue and goes to the engine when request 1
    is complete; request 3 arrives before the answer and, nothing being in progress, goes to the
    engine too.  The answer to request 2 is then dropped and the answer to request 3 is told
    as the start of a queued request: the client never gets a response to request 3, and is
    never told that request 2 started or ended. *)
Theorem synth_pending_speak_race :
  exists sent, synth_outputs
    [Update (speak 1); Update (engine_started (speak 1)); Update (speak 2);
     Update (engine_completed (speak 1)); Update (speak 3);
     Update (engine_started (speak 2)); Update (engine_started (speak 3));
     Update (engine_completed (speak 2))] =
    Some (sent ++ [inprogress_brief (speak 1); pending_brief (speak 2); completed_brief (speak 1);
                   sent_brief (speak 2);
                   Some (MRCP_MESSAGE_TYPE_REQUEST, method_num SYNTHESIZER_SPEAK, 3,
                         MRCP_REQUEST_STATE_UNKNOWN);
                   started_brief (speak 3)]) /\ length sent = 1%nat.
Proof. eexists [_]. split; [vm_compute; reflexivity|reflexivity]. Qed.

(** The response to STOP that the owner is told last: the list of its generic header and the
    list a peer parses from its header field. *)
Definition stop_lists (l : list (sm_input synth_message)) : option (list Z * list Z) :=
  match sm_run synth_update synth_deactivate l (fresh_synth, []) with
  | Some (_, (_, w)) =>
      match reverse w with
      | Dispatched m :: _ =>
          let? g := mrcp_generic_header_get m in
          let? f := sec_get (header_section (header m))
                      (generic_header_id_num GENERIC_HEADER_ACTIVE_REQUEST_ID_LIST) in
          Some (active_request_id_list g, mrcp_request_id_list_parse (hf_value f))
      | _ => None
      end
  | None => None
  end.

(** The success response to a STOP request that stops the SPEAK request in progress and
    removes another from the queue records both identifiers in its generic header, but the
    header field that is sent lists only the first: it is generated before the second is
    appended, and adding it again is refused. *)
Theorem synth_stop_response_list :
  stop_lists [Update (speak 1); Update (engine_started (speak 1)); Update (speak 2);
              Update (sample_synth_request SYNTHESIZER_STOP 3);
              Update (mrcp_response_create (Some (sample_synth_request SYNTHESIZER_STOP 3)))]
  = Some ([1; 2], [1]).
Proof. by vm_compute. Qed.

(** ** The theorems at concrete inputs *)

Lemma synth_sample_request_ok (i : mrcp_synthesizer_method_id) (id : Z) :
  synth_message_ok (sample_synth_request i id).
Proof.
  split; [|by destruct i|].
  - exists MRCP_VERSION_2, (Some mrcp_generic_header_init).
    split; [destruct i; reflexivity|unfold request_ids_ok; simpl; lia].
  - eexists. destruct i; reflexivity.
Qed.

Lemma sample_speak_ok (id : Z) : speak_ok (speak id).
Proof. split; reflexivity. Qed.

Definition sample_speaking : mrcp_synth_state_machine_t :=
  speaking None (speak 1) [] (properties fresh_synth).

Lemma synth_machine_invariant_witness :
  exists s, reachable synth_update synth_deactivate fresh_synth s /\
            active_request s = Some (speak 1) /\ synth_inv s.
Proof.
  assert (E : sm_step synth_update synth_deactivate (Update (speak 1)) (fresh_synth, []) =
    Some (true, (fresh_synth <| active_request := Some (speak 1) |>, [Dispatched (speak 1)])))
    by reflexivity.
  pose proof (reach_step _ _ _ _ _ _ _ _ _ (reach_init synth_update synth_deactivate fresh_synth) E) as Hr.
  eexists. split; [exact Hr|]. split; [reflexivity|].
  exact (synth_machine_invariant MRCP_VERSION_2 _ Hr).
Defined.

Lemma synth_update_undefined_iff_witness :
  synth_update (mrcp_response_create (Some (pause 2)))
    (fresh_synth <| active_request := Some (pause 2) |>, []) = None.
Proof.
  apply (synth_update_undefined_iff
           (fresh_synth <| active_request := Some (pause 2) |>) []
           (mrcp_response_create (Some (pause 2)))).
  - split; [split; reflexivity| |constructor].
    intros r [= <-] E. vm_compute in E. discriminate E.
  - split; [by apply (response_generic_ok _ mrcp_synth_resource_create), synth_resource_ok|reflexivity|eexists; reflexivity].
  - intros _ r [= <-]. reflexivity.
  - split; [split; [reflexivity|exists (pause 2); split; reflexivity]|].
    split; [reflexivity|]. exists SYNTHESIZER_PAUSE. split; [reflexivity|]. split; [congruence|reflexivity].
Defined.

Lemma synth_queue_fifo_witness :
  exists a' w', sm_run synth_update synth_deactivate
      (map Update [speak 2; speak 3] ++
       drain (speak 1) (map (queued (properties fresh_synth)) [speak 2; speak 3]))
      (sample_speaking, []) =
    Some (tt, (mk_synth true SYNTHESIZER_STATE_IDLE false a' None [] (properties fresh_synth), [] ++ w')) /\
    map brief w' = [pending_brief (speak 2); pending_brief (speak 3); completed_brief (speak 1);
                    sent_brief (speak 2); started_brief (speak 2); completed_brief (speak 2);
                    sent_brief (speak 3); started_brief (speak 3); completed_brief (speak 3)].
Proof.
  apply (synth_queue_fifo (speak 1) (properties fresh_synth) [speak 2; speak 3] []
           (sample_speak_ok 1)).
  repeat (apply List.Forall_cons; [split; [apply sample_speak_ok|reflexivity]|]). apply List.Forall_nil.
Defined.

Lemma synth_stop_pending_witness :
  exists b m', synth_update (sample_synth_request SYNTHESIZER_STOP 9)
      (fresh_synth <| queue := [speak 2; speak 3] |>, []) =
    Some (b, (fresh_synth, [] ++ [Dispatched m'])) /\
    exists g, mrcp_generic_header_get m' = Some g /\ active_request_id_list g = [2; 3].
Proof.
  destruct (synth_stop_pending (fresh_synth <| queue := [speak 2; speak 3] |>)
    (sample_synth_request SYNTHESIZER_STOP 9) []) as (b & m' & E & _ & g & Hg & Hl);
    [reflexivity|apply synth_sample_request_ok|reflexivity|reflexivity|discriminate|].
  exists b, m'. split; [exact E|]. exists g. split; [exact Hg|]. rewrite Hl. reflexivity.
Defined.

Lemma synth_deactivation_witness :
  let stop := deactivation_request (speak 1) (method_num SYNTHESIZER_STOP) in
  sm_run synth_update synth_deactivate
      (Deactivate :: map Update [engine_completed (speak 1)] ++
       [Update (mrcp_response_create (Some stop))]) (sample_speaking, []) =
    Some (tt, (mk_synth false SYNTHESIZER_STATE_IDLE false None None [] (properties fresh_synth),
               [] ++ [Dispatched stop; Deactivated])).
Proof.
  assert (Hes : Forall (fun e : synth_message => message_type (start_line e) = MRCP_MESSAGE_TYPE_EVENT)
                  [engine_completed (speak 1)])
    by (apply List.Forall_cons; [reflexivity|apply List.Forall_nil]).
  intros stop.
  exact (proj1 (synth_deactivation None (speak 1) [] (properties fresh_synth)
                  [engine_completed (speak 1)] [] eq_refl eq_refl Hes)).
Defined.
End Runs.
