(* ===== verification/RecorderStateMachine.v ===== *)
(** The recorder state machine of the server
    ([libs/mrcp-engine/src/mrcp_recorder_state_machine.c]): one RECORD request at a time goes to
    the engine, a second one is rejected, and STOP and START-INPUT-TIMERS are answered at once
    when nothing is being recorded. *)

From S2P Require Import Prelude AptString TextStream TextValues HeaderField TextMessage StartLine MrcpHeader GenericHeader Message FloatValue RecorderHeader StateMachine.

(** * State *)

Inductive mrcp_recorder_state_e :=
| RECORDER_STATE_IDLE
| RECORDER_STATE_RECORDING.

#[global] Instance mrcp_recorder_state_eq_dec : EqDecision mrcp_recorder_state_e.
Proof. solve_decision. Defined.

Abbreviation recorder_message := (mrcp_message_t mrcp_recorder_header_t).
Abbreviation recorder_properties := (mrcp_message_header_t mrcp_generic_header_t mrcp_recorder_header_t).

Section State.
Context `{CFloat}.

Record mrcp_recorder_state_machine_t := mk_recorder {
  active : bool;                             (** of the base *)
  state : mrcp_recorder_state_e;
  active_request : option recorder_message;  (** sent to the engine, response expected *)
  record : option recorder_message;          (** RECORD request in progress *)
  properties : recorder_properties           (** set by SET-PARAMS *)
}.
End State.

#[global] Instance eta_recorder `{CFloat} : Eta mrcp_recorder_state_machine_t := fun s =>
  mk_recorder (active s) (state s) (active_request s) (record s) (properties s).

Definition method_num : mrcp_recorder_method_id -> Z := enum_num recorder_methods.
Definition event_num : mrcp_recorder_event_id -> Z := enum_num recorder_events.

Section Machine.
Context `{Apr} `{CFloat} {W : Type}
  `{D : Dispatcher mrcp_recorder_state_machine_t W recorder_message}.

Abbreviation handler := (prog (mrcp_recorder_state_machine_t * W)).

(** * Dispatching *)

Definition recorder_request_dispatch (m : recorder_message) : handler bool :=
  set_sm (fun s => s <| active_request := Some m |>) ;;;
  on_dispatch m.

Definition recorder_response_dispatch (m : recorder_message) : handler bool :=
  set_sm (fun s => s <| active_request := None |>) ;;;
  let* a := get_sm active in
  if a then on_dispatch m else on_deactivate.

Definition recorder_event_dispatch (m : recorder_message) : handler bool :=
  let* a := get_sm active in
  if a then on_dispatch m else ret false.

Definition recorder_state_change (st : mrcp_recorder_state_e) : handler unit :=
  set_sm (fun s => s <| state := st |>) ;;;
  if decide (st = RECORDER_STATE_IDLE) then set_sm (fun s => s <| record := None |>)
  else ret tt.

(** * Requests of the client and responses of the engine *)

Definition recorder_request_set_params (m : recorder_message) : handler bool :=
  set_sm (fun s => s <| properties := snd (mrcp_header_fields_set (properties s) (header m)) |>) ;;;
  recorder_request_dispatch m.

Definition recorder_response_set_params (m : recorder_message) : handler bool :=
  recorder_response_dispatch m.

Definition recorder_request_get_params (m : recorder_message) : handler bool :=
  recorder_request_dispatch m.

Definition recorder_response_get_params (m : recorder_message) : handler bool :=
  let* props := get_sm properties in
  let* req := get_sm active_request in
  let* req := deref_ptr req in
  let m := m <| header := snd (mrcp_header_fields_get (header m) props (header req)) |> in
  recorder_response_dispatch m.

(** The immediate answer to a request that is not valid now. *)
Definition recorder_not_valid (m : recorder_message) : handler bool :=
  recorder_response_dispatch
    (with_status MRCP_STATUS_CODE_METHOD_NOT_VALID (mrcp_response_create (Some m))).

Definition recorder_request_record (m : recorder_message) : handler bool :=
  let* props := get_sm properties in
  let m := m <| header := snd (mrcp_header_fields_inherit (header m) props) |> in
  let* st := get_sm state in
  if decide (st = RECORDER_STATE_RECORDING) then recorder_not_valid m
  else recorder_request_dispatch m.

Definition recorder_response_record (m : recorder_message) : handler bool :=
  (if decide (request_state (start_line m) = MRCP_REQUEST_STATE_INPROGRESS) then
     set_sm (fun s => s <| record := active_request s |>) ;;;
     recorder_state_change RECORDER_STATE_RECORDING
   else ret tt) ;;;
  recorder_response_dispatch m.

Definition recorder_request_stop (m : recorder_message) : handler bool :=
  let* st := get_sm state in
  if decide (st = RECORDER_STATE_RECORDING) then recorder_request_dispatch m
  else recorder_response_dispatch (mrcp_response_create (Some m)).

Definition recorder_response_stop (m : recorder_message) : handler bool :=
  let* rec := get_sm record in
  let* rec := deref_ptr rec in
  let* m := lift (active_request_id_add (request_id (start_line rec)) m) in
  recorder_state_change RECORDER_STATE_IDLE ;;;
  recorder_response_dispatch m.

Definition recorder_request_start_timers (m : recorder_message) : handler bool :=
  let* st := get_sm state in
  if decide (st = RECORDER_STATE_RECORDING) then recorder_request_dispatch m
  else recorder_not_valid m.

Definition recorder_response_start_timers (m : recorder_message) : handler bool :=
  recorder_response_dispatch m.

(** * Events of the engine *)

Definition recorder_event_start_of_input (m : recorder_message) : handler bool :=
  let* rec := get_sm record in
  match rec with
  | None => ret false
  | Some rec =>
      if negb (request_id (start_line rec) =? request_id (start_line m)) then ret false
      else recorder_event_dispatch (with_state MRCP_REQUEST_STATE_INPROGRESS m)
  end.

(** A RECORD-COMPLETE event without a completion cause ends by silence. *)
Definition completion_cause_ensure (m : recorder_message) : option recorder_message :=
  let cc := recorder_header_id_num RECORDER_HEADER_COMPLETION_CAUSE in
  if mrcp_resource_header_property_check m cc then Some m
  else
    let '(h, m) := mrcp_resource_header_prepare m in
    match h with
    | None => None
    | Some h =>
        let m := set_resource_header
                   (h <| completion_cause := RECORDER_COMPLETION_CAUSE_SUCCESS_SILENCE |>) m in
        let? (_, m) := mrcp_resource_header_property_add m cc in Some m
    end.

Definition recorder_event_record_complete (m : recorder_message) : handler bool :=
  let* rec := get_sm record in
  match rec with
  | None => ret false
  | Some rec =>
      if negb (request_id (start_line rec) =? request_id (start_line m)) then ret false
      else
        let* req := get_sm active_request in
        if match req with
           | Some r => method_id (start_line r) =? method_num RECORDER_STOP
           | None => false
           end
        then ret false
        else
          let* m := lift (completion_cause_ensure m) in
          recorder_state_change RECORDER_STATE_IDLE ;;;
          recorder_event_dispatch m
  end.

(** * Update *)

Definition recorder_request_method (i : mrcp_recorder_method_id) : recorder_message -> handler bool :=
  match i with
  | RECORDER_SET_PARAMS => recorder_request_set_params
  | RECORDER_GET_PARAMS => recorder_request_get_params
  | RECORDER_RECORD => recorder_request_record
  | RECORDER_STOP => recorder_request_stop
  | RECORDER_START_INPUT_TIMERS => recorder_request_start_timers
  end.

Definition recorder_response_method (i : mrcp_recorder_method_id) : recorder_message -> handler bool :=
  match i with
  | RECORDER_SET_PARAMS => recorder_response_set_params
  | RECORDER_GET_PARAMS => recorder_response_get_params
  | RECORDER_RECORD => recorder_response_record
  | RECORDER_STOP => recorder_response_stop
  | RECORDER_START_INPUT_TIMERS => recorder_response_start_timers
  end.

Definition recorder_event_method (i : mrcp_recorder_event_id) : recorder_message -> handler bool :=
  match i with
  | RECORDER_START_OF_INPUT => recorder_event_start_of_input
  | RECORDER_RECORD_COMPLETE => recorder_event_record_complete
  end.

Definition recorder_request_state_update (m : recorder_message) : handler bool :=
  match enum_of recorder_methods (method_id (start_line m)) with
  | None => ret false
  | Some i => recorder_request_method i m
  end.

(** A response is expected for the active request only. *)
Definition recorder_response_state_update (m : recorder_message) : handler bool :=
  let* req := get_sm active_request in
  match req with
  | None => ret false
  | Some r =>
      if negb (request_id (start_line r) =? request_id (start_line m)) then ret false
      else
        match enum_of recorder_methods (method_id (start_line m)) with
        | None => ret false
        | Some i => recorder_response_method i m
        end
  end.

Definition recorder_event_state_update (m : recorder_message) : handler bool :=
  match enum_of recorder_events (method_id (start_line m)) with
  | None => ret false
  | Some i => recorder_event_method i m
  end.

Definition recorder_state_update (m : recorder_message) : handler bool :=
  match message_type (start_line m) with
  | MRCP_MESSAGE_TYPE_REQUEST => recorder_request_state_update m
  | MRCP_MESSAGE_TYPE_RESPONSE => recorder_response_state_update m
  | MRCP_MESSAGE_TYPE_EVENT => recorder_event_state_update m
  | MRCP_MESSAGE_TYPE_UNKNOWN => ret false
  end.

(** Deactivation stops the RECORD request in progress with a request of the machine's own. *)
Definition recorder_state_deactivate : handler bool :=
  let* st := get_sm state in
  if decide (st = RECORDER_STATE_RECORDING) then
    let* rec := get_sm record in
    match rec with
    | None => ret false
    | Some source =>
        recorder_request_dispatch (deactivation_request source (method_num RECORDER_STOP))
    end
  else ret false.

Definition mrcp_recorder_state_machine_create (v : mrcp_version_e) : mrcp_recorder_state_machine_t :=
  mk_recorder true RECORDER_STATE_IDLE None None
    (mrcp_message_header_create (Some (mrcp_generic_header_vtable_get v))
       (mrcp_recorder_header_vtable_get v)).

(** The operations of the base, for this machine. *)
Definition recorder_update (m : recorder_message) : handler bool :=
  mrcp_state_machine_update recorder_state_update m.
Definition recorder_deactivate : handler bool :=
  mrcp_state_machine_deactivate (fun b s => s <| active := b |>) recorder_state_deactivate.

End Machine.

#[local] Arguments completion_cause_ensure : simpl never.

(** * What the recorder promises *)

(** An abstract recorder: whether it is active, the recording in progress and the request that
    awaits an answer, with no headers. *)
Record recorder_spec := mk_spec {
  sp_active : bool;
  sp_recording : option Z;
  sp_waiting : option (Z * Z)
}.
#[global] Instance eta_recorder_spec : Eta recorder_spec := fun s =>
  mk_spec (sp_active s) (sp_recording s) (sp_waiting s).

(** Pass a request on; pass on or make a response; pass on an event. *)
Definition spec_forward (p : recorder_spec) (m : brief_t) : recorder_spec * list told :=
  (p <| sp_waiting := Some (b_id m, b_method m) |>, [Told m]).
Definition spec_respond (p : recorder_spec) (m : brief_t) : recorder_spec * list told :=
  (p <| sp_waiting := None |>, [if sp_active p then Told m else Closed]).
Definition spec_event (p : recorder_spec) (m : brief_t) : recorder_spec * list told :=
  (p, if sp_active p then [Told m] else []).

Definition recorder_spec_update (p : recorder_spec) (m : brief_t) : recorder_spec * list told :=
  let not_valid := spec_respond p (answer_brief MRCP_STATUS_CODE_METHOD_NOT_VALID m) in
  match b_type m with
  | MRCP_MESSAGE_TYPE_UNKNOWN => (p, [])
  | MRCP_MESSAGE_TYPE_REQUEST =>
      match enum_of recorder_methods (b_method m), sp_recording p with
      | None, _ => (p, [])
      | Some RECORDER_RECORD, Some _ => not_valid
      | Some RECORDER_STOP, None => spec_respond p (answer_brief MRCP_STATUS_CODE_SUCCESS m)
      | Some RECORDER_START_INPUT_TIMERS, None => not_valid
      | Some _, _ => spec_forward p m
      end
  | MRCP_MESSAGE_TYPE_RESPONSE =>
      match sp_waiting p, enum_of recorder_methods (b_method m) with
      | Some (id, _), Some i =>
          if negb (id =? b_id m) then (p, [])
          else
            let p := match i with
                     | RECORDER_RECORD =>
                         if decide (b_state m = MRCP_REQUEST_STATE_INPROGRESS)
                         then p <| sp_recording := Some (b_id m) |> else p
                     | RECORDER_STOP => p <| sp_recording := None |>
                     | _ => p
                     end in
            spec_respond p m
      | _, _ => (p, [])
      end
  | MRCP_MESSAGE_TYPE_EVENT =>
      match enum_of recorder_events (b_method m), sp_recording p with
      | Some i, Some id =>
          if negb (id =? b_id m) then (p, [])
          else
            match i with
            | RECORDER_START_OF_INPUT =>
                spec_event p (mk_brief (b_type m) (b_method m) (b_id m)
                                MRCP_REQUEST_STATE_INPROGRESS (b_status m))
            | RECORDER_RECORD_COMPLETE =>
                if match sp_waiting p with
                   | Some (_, me) => me =? method_num RECORDER_STOP
                   | None => false
                   end
                then (p, [])
                else spec_event (p <| sp_recording := None |>) m
            end
      | _, _ => (p, [])
      end
  end.

Definition recorder_spec_deactivate (p : recorder_spec) : recorder_spec * list told :=
  let p := p <| sp_active := false |> in
  match sp_recording p with
  | None => (p, [])
  | Some id =>
      spec_forward p (mk_brief MRCP_MESSAGE_TYPE_REQUEST (method_num RECORDER_STOP) (u32 (id + 1))
                        MRCP_REQUEST_STATE_UNKNOWN MRCP_STATUS_CODE_UNKNOWN)
  end.

Section Refinement.
Context `{A : Apr} {LA : AprLaws A} `{F : CFloat}.

Abbreviation world := (list (output recorder_message)).
#[global] Instance recorder_owner : Dispatcher mrcp_recorder_state_machine_t world recorder_message :=
  recording.

Definition spec_of (s : mrcp_recorder_state_machine_t) : recorder_spec :=
  mk_spec (active s) (progress_of (record s)) (waiting_of (active_request s)).

Record recorder_inv (s : mrcp_recorder_state_machine_t) : Prop := {
  inv_idle : state s = RECORDER_STATE_IDLE <-> record s = None;
  inv_stop : forall r, active_request s = Some r ->
    method_id (start_line r) = method_num RECORDER_STOP -> record s <> None
}.

(** A message as the library builds it. *)
Record recorder_message_ok (m : recorder_message) : Prop := {
  ok_generic : generic_ok m;
  ok_resource : resource m = Some mrcp_recorder_resource_create;
  ok_header : exists d, resource_header_accessor (header m)
                        = mk_accessor d (mrcp_recorder_header_vtable_get (version (start_line m)))
}.

(** A response repeats the method of the request it answers. *)
Definition repeats_method (s : mrcp_recorder_state_machine_t) (m : recorder_message) : Prop :=
  message_type (start_line m) = MRCP_MESSAGE_TYPE_RESPONSE ->
  forall r, active_request s = Some r -> request_id (start_line r) = request_id (start_line m) ->
  method_id (start_line r) = method_id (start_line m).

Lemma recorder_completion_cause_ensure_brief m :
  recorder_message_ok m ->
  exists m', completion_cause_ensure m = Some m' /\ brief_of m' = brief_of m.
Proof.
  intros [_ _ (d & Hd)]. unfold completion_cause_ensure.
  destruct (mrcp_resource_header_property_check _ _); [by exists m|].
  unfold mrcp_resource_header_prepare, mrcp_header_allocate. rewrite Hd.
  destruct d as [h|]; cbn; destruct (apt_header_section_field_add _ _); by eexists.
Qed.

(** What a step of the machine must do: return, keep the invariant, and follow the
    specification. *)
Definition follows (w : world) (p : recorder_spec * list told)
    (b : bool) (sw : mrcp_recorder_state_machine_t * world) : Prop :=
  recorder_inv (fst sw) /\ exists outs, snd sw = w ++ outs /\ (spec_of (fst sw), map told_of outs) = p.

Abbreviation runs m s w Q := (wp False (m : prog (mrcp_recorder_state_machine_t * world) bool) (s, w) Q).

Lemma recorder_state_change_wp c st s (w : world) (Q : unit -> mrcp_recorder_state_machine_t * world -> Prop) :
  Q tt (match st with
        | RECORDER_STATE_IDLE => s <| state := st |> <| record := None |>
        | RECORDER_STATE_RECORDING => s <| state := st |>
        end, w) ->
  wp c (recorder_state_change st) (s, w) Q.
Proof. intros HQ. unfold recorder_state_change. wp_with fail. by destruct st; wp_with fail. Qed.

End Refinement.

(** One step through a handler of the machine. *)
Ltac recorder_leaf :=
  idtac; lazymatch goal with
  | |- wp _ (on_dispatch _) _ _ => apply wp_recording_dispatch
  | |- wp _ on_deactivate _ _ => apply wp_recording_deactivate
  | |- wp _ (recorder_request_dispatch _) _ _ => unfold recorder_request_dispatch
  | |- wp _ (recorder_response_dispatch _) _ _ => unfold recorder_response_dispatch
  | |- wp _ (recorder_event_dispatch _) _ _ => unfold recorder_event_dispatch
  | |- wp _ (recorder_not_valid _) _ _ => unfold recorder_not_valid
  | |- wp _ (recorder_state_change _) _ _ => apply recorder_state_change_wp
  | |- wp _ (deref_ptr _) _ _ => apply wp_deref; cbn
  | |- wp _ (lift _) _ _ => apply wp_lift
  | |- wp _ (if decide (?a = ?b) then _ else _) _ _ =>
      let e := fresh in destruct (decide (a = b)) as [e|e]; cbn in e; try discriminate e; try by destruct e
  | |- wp _ (if ?b then _ else _) _ _ =>
      let e := fresh in destruct b eqn:e; cbn in e; try discriminate e
  | |- wp _ (match ?x with _ => _ end) _ _ =>
      let e := fresh in destruct x eqn:e; cbn in e; try discriminate e
  | |- match ?x with _ => _ end =>
      let e := fresh in destruct x eqn:e; cbn in e; try discriminate e
  end.
Ltac recorder_go := repeat (first [recorder_leaf | wp_step]; cbv beta).

(** Settle a final state: the invariant, then the outputs and the abstract state. *)
Ltac recorder_done :=
  repeat match goal with H : Some _ = Some _ |- _ => injection H as H; subst end;
  try match goal with H : ?x = Some _, E : ?x = Some _ |- _ => rewrite E in H; injection H as <- end;
  first
  [ exfalso; congruence
  | split;
    [ split; cbn;
      [ first [done | split; congruence]
      | intros ? Hr' Hs; first
        [ congruence
        | solve [eauto]
        | injection Hr' as <-; cbn in Hs;
          match goal with
          | Hm : method_id (start_line _) = _ |- _ => rewrite Hm in Hs; discriminate Hs
          | Hb : (_ =? _) = false |- _ => rewrite Hs in Hb; discriminate Hb
          end ] ]
    | first [ eexists; split; [reflexivity|] | exists []; split; [by rewrite app_nil_r|] ];
      unfold spec_of, spec_forward, spec_respond, spec_event; cbn;
      rewrite ?with_status_brief, ?with_state_brief, ?response_brief; cbn;
      repeat match goal with
        | H : brief_of ?x = brief_of _ |- context [brief_of ?x] => rewrite H
        | H : message_type ?x = _ |- context [message_type ?x] => rewrite H
        | H : request_id ?x = _ |- context [request_id ?x] => rewrite H
        | H : ?x = true |- context [?x] => rewrite H
        | H : ?x = false |- context [?x] => rewrite H
        end; cbn;
      try reflexivity; try congruence ] ].

Section RefinementProof.
Context `{A : Apr} {LA : AprLaws A} `{F : CFloat}.

Lemma recorder_methods_all i : enum_of recorder_methods (method_num i) = Some i.
Proof. by destruct i. Qed.
Lemma recorder_events_all i : enum_of recorder_events (event_num i) = Some i.
Proof. by destruct i. Qed.

(** The machine is idle, or there is a recording. *)
Lemma recorder_cases s : recorder_inv s ->
  (state s = RECORDER_STATE_IDLE /\ record s = None) \/
  (state s = RECORDER_STATE_RECORDING /\ exists r, record s = Some r).
Proof.
  intros [[H1 H2] _]. destruct (state s); [by left; auto|]. right. split; [done|].
  destruct (record s) as [r|]; [by exists r|]. by specialize (H2 eq_refl).
Qed.

Lemma recorder_request_follows i m s w :
  recorder_inv s -> recorder_message_ok m -> message_type (start_line m) = MRCP_MESSAGE_TYPE_REQUEST ->
  method_id (start_line m) = method_num i ->
  wp False (recorder_request_method i m) (s, w)
    (follows w (recorder_spec_update (spec_of s) (brief_of m))).
Proof.
  intros Hi [_ Hr _] Hty Hme. pose proof (recorder_cases s Hi) as Hc.
  destruct s as [ac st ar rc pr], Hi as [H1 H4]. cbn in H1, H4, Hc.
  assert (Ht : b_type (brief_of m) = MRCP_MESSAGE_TYPE_REQUEST) by done.
  assert (He : enum_of recorder_methods (b_method (brief_of m)) = Some i)
    by (unfold brief_of; cbn; by rewrite Hme, recorder_methods_all).
  unfold recorder_spec_update. rewrite Ht, He.
  destruct Hc as [[-> ->]|[-> [r ->]]], ac, i; cbn [recorder_request_method];
    unfold recorder_request_set_params, recorder_request_get_params, recorder_request_record,
      recorder_request_stop, recorder_request_start_timers; recorder_go.
  all: recorder_done.
Qed.

Lemma recorder_event_follows i m s w :
  recorder_inv s -> recorder_message_ok m -> message_type (start_line m) = MRCP_MESSAGE_TYPE_EVENT ->
  method_id (start_line m) = event_num i ->
  wp False (recorder_event_method i m) (s, w)
    (follows w (recorder_spec_update (spec_of s) (brief_of m))).
Proof.
  intros Hi Hm Hty Hme. pose proof (recorder_cases s Hi) as Hc.
  destruct (recorder_completion_cause_ensure_brief m Hm) as (mc & Ec & Hb).
  destruct s as [ac st ar rc pr], Hi as [H1 H4]. cbn in H1, H4, Hc.
  assert (Ht : b_type (brief_of m) = MRCP_MESSAGE_TYPE_EVENT) by done.
  assert (He : enum_of recorder_events (b_method (brief_of m)) = Some i)
    by (unfold brief_of; cbn; by rewrite Hme, recorder_events_all).
  unfold recorder_spec_update. rewrite Ht, He.
  destruct Hc as [[-> ->]|[-> [r ->]]], ac, ar as [a|], i; cbn [recorder_event_method];
    unfold recorder_event_start_of_input, recorder_event_record_complete; recorder_go.
  all: recorder_done.
Qed.

Lemma recorder_response_follows i m s w r :
  recorder_inv s -> recorder_message_ok m -> message_type (start_line m) = MRCP_MESSAGE_TYPE_RESPONSE ->
  active_request s = Some r -> request_id (start_line r) = request_id (start_line m) ->
  method_id (start_line r) = method_num i -> method_id (start_line m) = method_num i ->
  wp False (recorder_response_method i m) (s, w)
    (follows w (recorder_spec_update (spec_of s) (brief_of m))).
Proof.
  intros Hi Hm Hty Har Hid Hmr Hme. pose proof (recorder_cases s Hi) as Hc.
  assert (Hadd : forall id, exists m', active_request_id_add id m = Some m' /\ brief_of m' = brief_of m)
    by (intros id; apply active_request_id_add_brief, (ok_generic m Hm)).
  destruct s as [ac st ar rc pr], Hi as [H1 H4]. cbn in H1, H4, Hc, Har. subst ar.
  assert (Ht : b_type (brief_of m) = MRCP_MESSAGE_TYPE_RESPONSE) by done.
  assert (He : enum_of recorder_methods (b_method (brief_of m)) = Some i)
    by (unfold brief_of; cbn; by rewrite Hme, recorder_methods_all).
  unfold recorder_spec_update. rewrite Ht, He. cbn [sp_waiting spec_of waiting_of fmap option_fmap option_map active_request].
  cbn [b_id brief_of]. rewrite Hid, Z.eqb_refl. cbn [negb].
  cbn [b_state brief_of].
  destruct Hc as [[-> ->]|[-> [rec ->]]], ac, i; try (by destruct (H4 r eq_refl Hmr));
    cbn [recorder_response_method];
    unfold recorder_response_set_params, recorder_response_get_params, recorder_response_record,
      recorder_response_stop, recorder_response_start_timers;
    destruct (decide (request_state (start_line m) = MRCP_REQUEST_STATE_INPROGRESS)) as [Hp|Hp];
    recorder_go.
  all: try match goal with H : active_request_id_add ?id _ = _ |- _ =>
         let E := fresh in destruct (Hadd id) as (? & E & ?); rewrite E in H; try discriminate H end.
  all: recorder_done.
Qed.

Lemma recorder_method_of_num (z : Z) i : enum_of recorder_methods z = Some i -> z = method_num i.
Proof. apply enum_of_num. decide_now. Qed.
Lemma recorder_event_of_num (z : Z) i : enum_of recorder_events z = Some i -> z = event_num i.
Proof. apply enum_of_num. decide_now. Qed.

Lemma recorder_follows_same s w b : recorder_inv s -> follows w (spec_of s, []) b (s, w).
Proof. intros Hi. split; [done|]. exists []. by rewrite app_nil_r. Qed.

Lemma recorder_update_follows m s w :
  recorder_inv s -> recorder_message_ok m -> repeats_method s m ->
  wp False (recorder_update m) (s, w) (follows w (recorder_spec_update (spec_of s) (brief_of m))).
Proof.
  intros Hi Hm Hrep. unfold recorder_update, mrcp_state_machine_update, recorder_state_update.
  destruct (message_type (start_line m)) eqn:Hty.
  - unfold recorder_spec_update. cbn [b_type brief_of]. rewrite Hty. by apply recorder_follows_same.
  - unfold recorder_request_state_update. destruct (enum_of _ _) as [i|] eqn:En.
    + apply recorder_request_follows; [done..|]. by apply recorder_method_of_num.
    + unfold recorder_spec_update. cbn [b_type b_method brief_of]. rewrite Hty, En. by apply recorder_follows_same.
  - unfold recorder_response_state_update. apply wp_bind, wp_get.
    unfold recorder_spec_update at 1. cbn [b_type b_method b_id brief_of sp_waiting spec_of]. rewrite Hty.
    destruct (active_request s) as [r|] eqn:Ear; [|by apply recorder_follows_same].
    cbn [waiting_of fmap option_fmap option_map].
    destruct (enum_of _ _) as [i|] eqn:En; [|destruct (negb _); by apply recorder_follows_same].
    destruct (Z.eqb_spec (request_id (start_line r)) (request_id (start_line m))) as [Hid|Hid];
      cbn [negb]; [|by apply recorder_follows_same].
    apply recorder_method_of_num in En. specialize (Hrep Hty r Ear Hid).
    pose proof (recorder_response_follows i m s w r Hi Hm Hty Ear Hid ltac:(congruence) En) as HF.
    unfold recorder_spec_update in HF. cbn [b_type b_method b_id brief_of sp_waiting spec_of] in HF.
    rewrite Hty, Ear, En, recorder_methods_all in HF. cbn [waiting_of fmap option_fmap option_map] in HF.
    rewrite Hid, Z.eqb_refl in HF. exact HF.
  - unfold recorder_event_state_update. destruct (enum_of _ _) as [i|] eqn:En.
    + apply recorder_event_follows; [done..|]. by apply recorder_event_of_num.
    + unfold recorder_spec_update. cbn [b_type b_method brief_of]. rewrite Hty, En. by apply recorder_follows_same.
Qed.

Lemma recorder_deactivate_follows s w :
  recorder_inv s ->
  wp False recorder_deactivate (s, w) (follows w (recorder_spec_deactivate (spec_of s))).
Proof.
  intros Hi. pose proof (recorder_cases s Hi) as Hc.
  destruct s as [ac st ar rc pr], Hi as [H1 H4]. cbn in H1, H4, Hc.
  unfold recorder_deactivate, mrcp_state_machine_deactivate, recorder_state_deactivate,
    recorder_spec_deactivate.
  destruct Hc as [[-> ->]|[-> [r ->]]]; recorder_go.
  - recorder_done.
  - injection H0 as <-. pose proof (deactivation_brief r (method_num RECORDER_STOP)) as Hb.
    set (stop := deactivation_request r (method_num RECORDER_STOP)) in *. clearbody stop.
    split; [split; cbn; [split; congruence|intros; congruence]|].
    eexists. split; [reflexivity|]. unfold spec_of, spec_forward. cbn. rewrite Hb.
    unfold brief_of in Hb. by injection Hb as _ -> -> _ _.
Qed.

Lemma recorder_run_follows {B} (m : prog (mrcp_recorder_state_machine_t * list (output recorder_message)) B) s w p :
  wp False m (s, w) (fun _ sw => recorder_inv (fst sw) /\
      exists outs, snd sw = w ++ outs /\ (spec_of (fst sw), map told_of outs) = p) ->
  exists b s' outs, m (s, w) = Some (b, (s', w ++ outs)) /\ recorder_inv s' /\
                    (spec_of s', map told_of outs) = p.
Proof.
  intros (b & [s' w'] & E & HI & outs & Hw & Hp)%wp_total. cbn in *. subst w'.
  by exists b, s', outs.
Qed.

(** C15: the recorder state machine implements its specification.  Updated with any message
    built by the library, a response repeating the method of the request it answers, and when
    it is deactivated, the machine returns, and the recording in progress, the request awaiting
    an answer and the messages and notices its owner is told are those of the abstract recorder:
    RECORD is rejected while a recording is in progress, STOP and START-INPUT-TIMERS reach the
    engine only then, a recording starts with the in-progress response to RECORD and ends with
    the response to STOP or with the RECORD-COMPLETE event for its identifier, unless STOP is
    under way.  The deactivation sends a STOP of its own when a recording is in progress, and nothing otherwise.
    From then on no event reaches the owner, and for each response, of the engine or of the machine, it is
    given the notice of the deactivation in its place; requests are still passed on. *)
Theorem recorder_refines_spec s w :
  recorder_inv s ->
  (forall m, recorder_message_ok m -> repeats_method s m ->
   exists b s' outs, recorder_update m (s, w) = Some (b, (s', w ++ outs)) /\ recorder_inv s' /\
     (spec_of s', map told_of outs) = recorder_spec_update (spec_of s) (brief_of m)) /\
  exists b s' outs, recorder_deactivate (s, w) = Some (b, (s', w ++ outs)) /\ recorder_inv s' /\
     (spec_of s', map told_of outs) = recorder_spec_deactivate (spec_of s).
Proof.
  intros Hi. split; [intros m Hm Hr|]; apply recorder_run_follows;
    [by apply recorder_update_follows|by apply recorder_deactivate_follows].
Qed.
End RefinementProof.

(** * At concrete inputs *)

Section Samples.
#[local] Existing Instance apr_reference.
#[local] Existing Instance apr_reference_laws.
#[local] Existing Instance float_integers.

Definition sample_recorder_request (i : mrcp_recorder_method_id) (id : Z) : recorder_message :=
  set_start_line (fun sl => sl <| request_id := id |>)
    (mrcp_request_create (Some mrcp_recorder_resource_create) MRCP_VERSION_2 (method_num i)).

Lemma sample_recorder_request_ok (i : mrcp_recorder_method_id) (id : Z) :
  recorder_message_ok (sample_recorder_request i id).
Proof.
  split; [|by destruct i|].
  - exists MRCP_VERSION_2, (Some mrcp_generic_header_init).
    split; [destruct i; reflexivity|unfold request_ids_ok; simpl; lia].
  - eexists. destruct i; reflexivity.
Qed.

Definition fresh_recorder : mrcp_recorder_state_machine_t :=
  mrcp_recorder_state_machine_create MRCP_VERSION_2.

Lemma recorder_refines_spec_witness :
  exists b s' outs,
    recorder_update (sample_recorder_request RECORDER_START_INPUT_TIMERS 7) (fresh_recorder, [])
      = Some (b, (s', [] ++ outs)) /\ recorder_inv s' /\
    (spec_of s', map told_of outs) =
    (mk_spec true None None,
     [Told (mk_brief MRCP_MESSAGE_TYPE_RESPONSE (method_num RECORDER_START_INPUT_TIMERS) 7
              MRCP_REQUEST_STATE_COMPLETE MRCP_STATUS_CODE_METHOD_NOT_VALID)]).
Proof.
  assert (Hi : recorder_inv fresh_recorder) by (split; [split; reflexivity|intros; discriminate]).
  apply (proj1 (recorder_refines_spec fresh_recorder [] Hi)
           (sample_recorder_request RECORDER_START_INPUT_TIMERS 7)
           (sample_recorder_request_ok _ _)).
  intros E. discriminate E.
Defined.
End Samples.
