(* ===== verification/VerifierStateMachine.v ===== *)
(** The verifier state machine of the server
    ([libs/mrcp-engine/src/mrcp_verifier_state_machine.c]): a verification session is opened and
    closed, and one VERIFY or VERIFY-FROM-BUFFER request at a time is in progress in it. *)

From S2P Require Import Prelude AptString TextStream TextValues HeaderField TextMessage StartLine MrcpHeader GenericHeader Message FloatValue VerifierHeader StateMachine.

(** * State *)

Inductive mrcp_verifier_state_e :=
| VERIFIER_STATE_IDLE
| VERIFIER_STATE_OPENED
| VERIFIER_STATE_VERIFYING.

#[global] Instance mrcp_verifier_state_eq_dec : EqDecision mrcp_verifier_state_e.
Proof. solve_decision. Defined.

Abbreviation verifier_message := (mrcp_message_t mrcp_verifier_header_t).
Abbreviation verifier_properties := (mrcp_message_header_t mrcp_generic_header_t mrcp_verifier_header_t).

Section State.
Context `{CFloat}.

Record mrcp_verifier_state_machine_t := mk_verifier {
  active : bool;                             (** of the base *)
  state : mrcp_verifier_state_e;
  active_request : option verifier_message;  (** sent to the engine, response expected *)
  verify : option verifier_message;          (** VERIFY request sent last in the session *)
  properties : verifier_properties           (** set by SET-PARAMS *)
}.
End State.

#[global] Instance eta_verifier `{CFloat} : Eta mrcp_verifier_state_machine_t := fun s =>
  mk_verifier (active s) (state s) (active_request s) (verify s) (properties s).

Definition method_num : mrcp_verifier_method_id -> Z := enum_num verifier_methods.
Definition event_num : mrcp_verifier_event_id -> Z := enum_num verifier_events.

Section Machine.
Context `{Apr} `{CFloat} {W : Type}
  `{D : Dispatcher mrcp_verifier_state_machine_t W verifier_message}.

Abbreviation handler := (prog (mrcp_verifier_state_machine_t * W)).

(** * Dispatching *)

Definition verifier_request_dispatch (m : verifier_message) : handler bool :=
  set_sm (fun s => s <| active_request := Some m |>) ;;;
  on_dispatch m.

Definition verifier_response_dispatch (m : verifier_message) : handler bool :=
  set_sm (fun s => s <| active_request := None |>) ;;;
  let* a := get_sm active in
  if a then on_dispatch m else on_deactivate.

Definition verifier_event_dispatch (m : verifier_message) : handler bool :=
  let* a := get_sm active in
  if a then on_dispatch m else ret false.

Definition verifier_state_change (st : mrcp_verifier_state_e) : handler unit :=
  set_sm (fun s => s <| state := st |>) ;;;
  if decide (st = VERIFIER_STATE_IDLE) then set_sm (fun s => s <| verify := None |>)
  else ret tt.

(** * Requests of the client and responses of the engine *)

Definition verifier_request_set_params (m : verifier_message) : handler bool :=
  set_sm (fun s => s <| properties := snd (mrcp_header_fields_set (properties s) (header m)) |>) ;;;
  verifier_request_dispatch m.

Definition verifier_response_set_params (m : verifier_message) : handler bool :=
  verifier_response_dispatch m.

Definition verifier_request_get_params (m : verifier_message) : handler bool :=
  verifier_request_dispatch m.

Definition verifier_response_get_params (m : verifier_message) : handler bool :=
  let* props := get_sm properties in
  let* req := get_sm active_request in
  let* req := deref_ptr req in
  let m := m <| header := snd (mrcp_header_fields_get (header m) props (header req)) |> in
  verifier_response_dispatch m.

(** The immediate answer to a request that is not valid now. *)
Definition verifier_not_valid (m : verifier_message) : handler bool :=
  verifier_response_dispatch
    (with_status MRCP_STATUS_CODE_METHOD_NOT_VALID (mrcp_response_create (Some m))).

Definition verifier_request_start_session (m : verifier_message) : handler bool :=
  let* st := get_sm state in
  match st with
  | VERIFIER_STATE_VERIFYING => verifier_not_valid m
  | _ => verifier_request_dispatch m
  end.

Definition verifier_response_start_session (m : verifier_message) : handler bool :=
  verifier_state_change VERIFIER_STATE_OPENED ;;;
  verifier_response_dispatch m.

Definition verifier_request_end_session (m : verifier_message) : handler bool :=
  let* st := get_sm state in
  match st with
  | VERIFIER_STATE_IDLE => verifier_not_valid m
  | _ => verifier_request_dispatch m
  end.

Definition verifier_response_end_session (m : verifier_message) : handler bool :=
  verifier_state_change VERIFIER_STATE_IDLE ;;;
  verifier_response_dispatch m.

Definition verifier_request_query_voiceprint (m : verifier_message) : handler bool :=
  let* st := get_sm state in
  match st with
  | VERIFIER_STATE_IDLE => verifier_not_valid m
  | _ => verifier_request_dispatch m
  end.

Definition verifier_response_query_voiceprint (m : verifier_message) : handler bool :=
  verifier_response_dispatch m.

Definition verifier_request_delete_voiceprint (m : verifier_message) : handler bool :=
  let* st := get_sm state in
  match st with
  | VERIFIER_STATE_IDLE => verifier_not_valid m
  | _ => verifier_request_dispatch m
  end.

Definition verifier_response_delete_voiceprint (m : verifier_message) : handler bool :=
  verifier_response_dispatch m.

(** The request is recorded as in progress before the engine answers. *)
Definition verifier_request_verify (m : verifier_message) : handler bool :=
  let* st := get_sm state in
  match st with
  | VERIFIER_STATE_IDLE | VERIFIER_STATE_VERIFYING => verifier_not_valid m
  | _ =>
      set_sm (fun s => s <| verify := Some m |>) ;;;
      verifier_request_dispatch m
  end.

Definition verifier_response_verify (m : verifier_message) : handler bool :=
  verifier_state_change VERIFIER_STATE_VERIFYING ;;;
  verifier_response_dispatch m.

Definition verifier_request_verify_from_buffer (m : verifier_message) : handler bool :=
  let* st := get_sm state in
  match st with
  | VERIFIER_STATE_IDLE | VERIFIER_STATE_VERIFYING => verifier_not_valid m
  | _ =>
      set_sm (fun s => s <| verify := Some m |>) ;;;
      verifier_request_dispatch m
  end.

Definition verifier_response_verify_from_buffer (m : verifier_message) : handler bool :=
  verifier_state_change VERIFIER_STATE_VERIFYING ;;;
  verifier_response_dispatch m.

Definition verifier_request_verify_rollback (m : verifier_message) : handler bool :=
  verifier_request_dispatch m.

Definition verifier_response_verify_rollback (m : verifier_message) : handler bool :=
  verifier_response_dispatch m.

Definition verifier_request_stop (m : verifier_message) : handler bool :=
  let* st := get_sm state in
  match st with
  | VERIFIER_STATE_IDLE => verifier_not_valid m
  | VERIFIER_STATE_OPENED => verifier_response_dispatch (mrcp_response_create (Some m))
  | _ => verifier_request_dispatch m
  end.

Definition verifier_response_stop (m : verifier_message) : handler bool :=
  let* v := get_sm verify in
  let* v := deref_ptr v in
  let* m := lift (active_request_id_add (request_id (start_line v)) m) in
  verifier_state_change VERIFIER_STATE_OPENED ;;;
  verifier_response_dispatch m.

Definition verifier_request_clear_buffer (m : verifier_message) : handler bool :=
  verifier_request_dispatch m.

Definition verifier_response_clear_buffer (m : verifier_message) : handler bool :=
  verifier_response_dispatch m.

Definition verifier_request_start_input_timers (m : verifier_message) : handler bool :=
  let* st := get_sm state in
  match st with
  | VERIFIER_STATE_IDLE | VERIFIER_STATE_VERIFYING => verifier_not_valid m
  | _ => verifier_request_dispatch m
  end.

Definition verifier_response_start_input_timers (m : verifier_message) : handler bool :=
  verifier_response_dispatch m.

Definition verifier_request_get_intermidiate_result (m : verifier_message) : handler bool :=
  let* st := get_sm state in
  match st with
  | VERIFIER_STATE_VERIFYING => verifier_request_dispatch m
  | _ => verifier_not_valid m
  end.

Definition verifier_response_get_intermidiate_result (m : verifier_message) : handler bool :=
  verifier_response_dispatch m.

(** * Events of the engine *)

Definition verifier_event_start_of_input (m : verifier_message) : handler bool :=
  let* v := get_sm verify in
  match v with
  | None => ret false
  | Some v =>
      if negb (request_id (start_line v) =? request_id (start_line m)) then ret false
      else verifier_event_dispatch (with_state MRCP_REQUEST_STATE_INPROGRESS m)
  end.

(** A VERIFICATION-COMPLETE event without a completion cause is a success. *)
Definition completion_cause_ensure (m : verifier_message) : option verifier_message :=
  let cc := verifier_header_id_num VERIFIER_HEADER_COMPLETION_CAUSE in
  if mrcp_resource_header_property_check m cc then Some m
  else
    let '(h, m) := mrcp_resource_header_prepare m in
    match h with
    | None => None
    | Some h =>
        let m := set_resource_header
                   (h <| completion_cause := VERIFIER_COMPLETION_CAUSE_SUCCESS |>) m in
        let? (_, m) := mrcp_resource_header_property_add m cc in Some m
    end.

Definition verifier_event_verification_complete (m : verifier_message) : handler bool :=
  let* v := get_sm verify in
  match v with
  | None => ret false
  | Some v =>
      if negb (request_id (start_line v) =? request_id (start_line m)) then ret false
      else
        let* req := get_sm active_request in
        if match req with
           | Some r => method_id (start_line r) =? method_num VERIFIER_STOP
           | None => false
           end
        then ret false
        else
          let* m := lift (completion_cause_ensure m) in
          verifier_state_change VERIFIER_STATE_OPENED ;;;
          verifier_event_dispatch m
  end.

(** * Update *)

Definition verifier_request_method (i : mrcp_verifier_method_id) : verifier_message -> handler bool :=
  match i with
  | VERIFIER_SET_PARAMS => verifier_request_set_params
  | VERIFIER_GET_PARAMS => verifier_request_get_params
  | VERIFIER_START_SESSION => verifier_request_start_session
  | VERIFIER_END_SESSION => verifier_request_end_session
  | VERIFIER_QUERY_VOICEPRINT => verifier_request_query_voiceprint
  | VERIFIER_DELETE_VOICEPRINT => verifier_request_delete_voiceprint
  | VERIFIER_VERIFY => verifier_request_verify
  | VERIFIER_VERIFY_FROM_BUFFER => verifier_request_verify_from_buffer
  | VERIFIER_VERIFY_ROLLBACK => verifier_request_verify_rollback
  | VERIFIER_STOP => verifier_request_stop
  | VERIFIER_CLEAR_BUFFER => verifier_request_clear_buffer
  | VERIFIER_START_INPUT_TIMERS => verifier_request_start_input_timers
  | VERIFIER_GET_INTERMIDIATE_RESULT => verifier_request_get_intermidiate_result
  end.

Definition verifier_response_method (i : mrcp_verifier_method_id) : verifier_message -> handler bool :=
  match i with
  | VERIFIER_SET_PARAMS => verifier_response_set_params
  | VERIFIER_GET_PARAMS => verifier_response_get_params
  | VERIFIER_START_SESSION => verifier_response_start_session
  | VERIFIER_END_SESSION => verifier_response_end_session
  | VERIFIER_QUERY_VOICEPRINT => verifier_response_query_voiceprint
  | VERIFIER_DELETE_VOICEPRINT => verifier_response_delete_voiceprint
  | VERIFIER_VERIFY => verifier_response_verify
  | VERIFIER_VERIFY_FROM_BUFFER => verifier_response_verify_from_buffer
  | VERIFIER_VERIFY_ROLLBACK => verifier_response_verify_rollback
  | VERIFIER_STOP => verifier_response_stop
  | VERIFIER_CLEAR_BUFFER => verifier_response_clear_buffer
  | VERIFIER_START_INPUT_TIMERS => verifier_response_start_input_timers
  | VERIFIER_GET_INTERMIDIATE_RESULT => verifier_response_get_intermidiate_result
  end.

Definition verifier_event_method (i : mrcp_verifier_event_id) : verifier_message -> handler bool :=
  match i with
  | VERIFIER_START_OF_INPUT => verifier_event_start_of_input
  | VERIFIER_VERIFICATION_COMPLETE => verifier_event_verification_complete
  end.

Definition verifier_request_state_update (m : verifier_message) : handler bool :=
  match enum_of verifier_methods (method_id (start_line m)) with
  | None => ret false
  | Some i => verifier_request_method i m
  end.

(** A response is expected for the active request only. *)
Definition verifier_response_state_update (m : verifier_message) : handler bool :=
  let* req := get_sm active_request in
  match req with
  | None => ret false
  | Some r =>
      if negb (request_id (start_line r) =? request_id (start_line m)) then ret false
      else
        match enum_of verifier_methods (method_id (start_line m)) with
        | None => ret false
        | Some i => verifier_response_method i m
        end
  end.

Definition verifier_event_state_update (m : verifier_message) : handler bool :=
  match enum_of verifier_events (method_id (start_line m)) with
  | None => ret false
  | Some i => verifier_event_method i m
  end.

Definition verifier_state_update (m : verifier_message) : handler bool :=
  match message_type (start_line m) with
  | MRCP_MESSAGE_TYPE_REQUEST => verifier_request_state_update m
  | MRCP_MESSAGE_TYPE_RESPONSE => verifier_response_state_update m
  | MRCP_MESSAGE_TYPE_EVENT => verifier_event_state_update m
  | MRCP_MESSAGE_TYPE_UNKNOWN => ret false
  end.

(** Deactivation stops the VERIFY request in progress with a request of the machine's own. *)
Definition verifier_state_deactivate : handler bool :=
  let* st := get_sm state in
  match st with
  | VERIFIER_STATE_VERIFYING =>
      let* v := get_sm verify in
      match v with
      | None => ret false
      | Some source =>
          verifier_request_dispatch (deactivation_request source (method_num VERIFIER_STOP))
      end
  | _ => ret false
  end.

Definition mrcp_verifier_state_machine_create (v : mrcp_version_e) : mrcp_verifier_state_machine_t :=
  mk_verifier true VERIFIER_STATE_IDLE None None
    (mrcp_message_header_create (Some (mrcp_generic_header_vtable_get v))
       (mrcp_verifier_header_vtable_get v)).

(** The operations of the base, for this machine. *)
Definition verifier_update (m : verifier_message) : handler bool :=
  mrcp_state_machine_update verifier_state_update m.
Definition verifier_deactivate : handler bool :=
  mrcp_state_machine_deactivate (fun b s => s <| active := b |>) verifier_state_deactivate.

End Machine.

#[local] Arguments completion_cause_ensure : simpl never.

(** * What the verifier promises *)

(** An abstract verifier: whether it is active, its state, the VERIFY request of the session and
    the request that awaits an answer, with no headers. *)
Record verifier_spec := mk_spec {
  sp_active : bool;
  sp_state : mrcp_verifier_state_e;
  sp_verify : option Z;
  sp_waiting : option (Z * Z)
}.
#[global] Instance eta_verifier_spec : Eta verifier_spec := fun s =>
  mk_spec (sp_active s) (sp_state s) (sp_verify s) (sp_waiting s).

(** Pass a request on; pass on or make a response; pass on an event. *)
Definition spec_forward (p : verifier_spec) (m : brief_t) : verifier_spec * list told :=
  (p <| sp_waiting := Some (b_id m, b_method m) |>, [Told m]).
Definition spec_respond (p : verifier_spec) (m : brief_t) : verifier_spec * list told :=
  (p <| sp_waiting := None |>, [if sp_active p then Told m else Closed]).
Definition spec_event (p : verifier_spec) (m : brief_t) : verifier_spec * list told :=
  (p, if sp_active p then [Told m] else []).

(** What becomes of a request: to the engine, or answered at once with a status. *)
Inductive rule := Forward | Answer (status : Z).

Definition request_rule (i : mrcp_verifier_method_id) (st : mrcp_verifier_state_e) : rule :=
  match i, st with
  | VERIFIER_START_SESSION, VERIFIER_STATE_VERIFYING
  | VERIFIER_END_SESSION, VERIFIER_STATE_IDLE
  | VERIFIER_QUERY_VOICEPRINT, VERIFIER_STATE_IDLE
  | VERIFIER_DELETE_VOICEPRINT, VERIFIER_STATE_IDLE
  | VERIFIER_VERIFY, (VERIFIER_STATE_IDLE | VERIFIER_STATE_VERIFYING)
  | VERIFIER_VERIFY_FROM_BUFFER, (VERIFIER_STATE_IDLE | VERIFIER_STATE_VERIFYING)
  | VERIFIER_STOP, VERIFIER_STATE_IDLE
  | VERIFIER_START_INPUT_TIMERS, (VERIFIER_STATE_IDLE | VERIFIER_STATE_VERIFYING)
  | VERIFIER_GET_INTERMIDIATE_RESULT, (VERIFIER_STATE_IDLE | VERIFIER_STATE_OPENED) =>
      Answer MRCP_STATUS_CODE_METHOD_NOT_VALID
  | VERIFIER_STOP, VERIFIER_STATE_OPENED => Answer MRCP_STATUS_CODE_SUCCESS
  | _, _ => Forward
  end.

(** The state after the engine has answered a request. *)
Definition response_state (i : mrcp_verifier_method_id) (st : mrcp_verifier_state_e)
    : mrcp_verifier_state_e :=
  match i with
  | VERIFIER_START_SESSION | VERIFIER_STOP => VERIFIER_STATE_OPENED
  | VERIFIER_END_SESSION => VERIFIER_STATE_IDLE
  | VERIFIER_VERIFY | VERIFIER_VERIFY_FROM_BUFFER => VERIFIER_STATE_VERIFYING
  | _ => st
  end.

Definition verifier_spec_update (p : verifier_spec) (m : brief_t) : verifier_spec * list told :=
  match b_type m with
  | MRCP_MESSAGE_TYPE_UNKNOWN => (p, [])
  | MRCP_MESSAGE_TYPE_REQUEST =>
      match enum_of verifier_methods (b_method m) with
      | None => (p, [])
      | Some i =>
          match request_rule i (sp_state p) with
          | Answer status => spec_respond p (answer_brief status m)
          | Forward =>
              match i with
              | VERIFIER_VERIFY | VERIFIER_VERIFY_FROM_BUFFER =>
                  spec_forward (p <| sp_verify := Some (b_id m) |>) m
              | _ => spec_forward p m
              end
          end
      end
  | MRCP_MESSAGE_TYPE_RESPONSE =>
      match sp_waiting p, enum_of verifier_methods (b_method m) with
      | Some (id, _), Some i =>
          if negb (id =? b_id m) then (p, [])
          else
            let p := p <| sp_state := response_state i (sp_state p) |> in
            let p := match i with
                     | VERIFIER_END_SESSION => p <| sp_verify := None |>
                     | _ => p
                     end in
            spec_respond p m
      | _, _ => (p, [])
      end
  | MRCP_MESSAGE_TYPE_EVENT =>
      match enum_of verifier_events (b_method m), sp_verify p with
      | Some i, Some id =>
          if negb (id =? b_id m) then (p, [])
          else
            match i with
            | VERIFIER_START_OF_INPUT =>
                spec_event p (mk_brief (b_type m) (b_method m) (b_id m)
                                MRCP_REQUEST_STATE_INPROGRESS (b_status m))
            | VERIFIER_VERIFICATION_COMPLETE =>
                if match sp_waiting p with
                   | Some (_, me) => me =? method_num VERIFIER_STOP
                   | None => false
                   end
                then (p, [])
                else spec_event (p <| sp_state := VERIFIER_STATE_OPENED |>) m
            end
      | _, _ => (p, [])
      end
  end.

Definition verifier_spec_deactivate (p : verifier_spec) : verifier_spec * list told :=
  let p := p <| sp_active := false |> in
  match sp_state p, sp_verify p with
  | VERIFIER_STATE_VERIFYING, Some id =>
      spec_forward p (mk_brief MRCP_MESSAGE_TYPE_REQUEST (method_num VERIFIER_STOP) (u32 (id + 1))
                        MRCP_REQUEST_STATE_UNKNOWN MRCP_STATUS_CODE_UNKNOWN)
  | _, _ => (p, [])
  end.

Section Refinement.
Context `{A : Apr} {LA : AprLaws A} `{F : CFloat}.

Abbreviation world := (list (output verifier_message)).
#[global] Instance verifier_owner : Dispatcher mrcp_verifier_state_machine_t world verifier_message :=
  recording.

Definition spec_of (s : mrcp_verifier_state_machine_t) : verifier_spec :=
  mk_spec (active s) (state s) (progress_of (verify s)) (waiting_of (active_request s)).

Record verifier_inv (s : mrcp_verifier_state_machine_t) : Prop := {
  inv_verifying : state s = VERIFIER_STATE_VERIFYING -> verify s <> None;
  inv_active : forall r i, active_request s = Some r -> method_id (start_line r) = method_num i ->
    i = VERIFIER_VERIFY \/ i = VERIFIER_VERIFY_FROM_BUFFER \/ i = VERIFIER_STOP -> verify s <> None
}.

(** A message as the library builds it. *)
Record verifier_message_ok (m : verifier_message) : Prop := {
  ok_generic : generic_ok m;
  ok_resource : resource m = Some mrcp_verifier_resource_create;
  ok_header : exists d, resource_header_accessor (header m)
                        = mk_accessor d (mrcp_verifier_header_vtable_get (version (start_line m)))
}.

(** A response repeats the method of the request it answers. *)
Definition repeats_method (s : mrcp_verifier_state_machine_t) (m : verifier_message) : Prop :=
  message_type (start_line m) = MRCP_MESSAGE_TYPE_RESPONSE ->
  forall r, active_request s = Some r -> request_id (start_line r) = request_id (start_line m) ->
  method_id (start_line r) = method_id (start_line m).

Lemma verifier_completion_cause_ensure_brief m :
  verifier_message_ok m ->
  exists m', completion_cause_ensure m = Some m' /\ brief_of m' = brief_of m.
Proof.
  intros [_ _ (d & Hd)]. unfold completion_cause_ensure.
  destruct (mrcp_resource_header_property_check _ _); [by exists m|].
  unfold mrcp_resource_header_prepare, mrcp_header_allocate. rewrite Hd.
  destruct d as [h|]; cbn; destruct (apt_header_section_field_add _ _); by eexists.
Qed.

(** What a step of the machine must do: return, keep the invariant, and follow the
    specification. *)
Definition follows (w : world) (p : verifier_spec * list told)
    (b : bool) (sw : mrcp_verifier_state_machine_t * world) : Prop :=
  verifier_inv (fst sw) /\ exists outs, snd sw = w ++ outs /\ (spec_of (fst sw), map told_of outs) = p.

Abbreviation runs m s w Q := (wp False (m : prog (mrcp_verifier_state_machine_t * world) bool) (s, w) Q).

Lemma verifier_state_change_wp c st s (w : world) (Q : unit -> mrcp_verifier_state_machine_t * world -> Prop) :
  Q tt (match st with
        | VERIFIER_STATE_IDLE => s <| state := st |> <| verify := None |>
        | _ => s <| state := st |>
        end, w) ->
  wp c (verifier_state_change st) (s, w) Q.
Proof. intros HQ. unfold verifier_state_change. wp_with fail. by destruct st; wp_with fail. Qed.

End Refinement.

(** One step through a handler of the machine. *)
Ltac verifier_leaf :=
  idtac; lazymatch goal with
  | |- wp _ (on_dispatch _) _ _ => apply wp_recording_dispatch
  | |- wp _ on_deactivate _ _ => apply wp_recording_deactivate
  | |- wp _ (verifier_request_dispatch _) _ _ => unfold verifier_request_dispatch
  | |- wp _ (verifier_response_dispatch _) _ _ => unfold verifier_response_dispatch
  | |- wp _ (verifier_event_dispatch _) _ _ => unfold verifier_event_dispatch
  | |- wp _ (verifier_not_valid _) _ _ => unfold verifier_not_valid
  | |- wp _ (verifier_state_change _) _ _ => apply verifier_state_change_wp
  | |- wp _ (deref_ptr _) _ _ => apply wp_deref; cbn
  | |- wp _ (lift _) _ _ => apply wp_lift
  | |- wp _ (if decide (?a = ?b) then _ else _) _ _ =>
      let e := fresh in destruct (decide (a = b)) as [e|e]; cbn in e; try discriminate e; try by destruct e
  | |- wp _ (if ?b then _ else _) _ _ =>
      let e := fresh in destruct b eqn:e; cbn in e; try discriminate e
  | |- wp _ (match ?x with _ => _ end) _ _ =>
      let e := fresh in destruct x eqn:e; cbn in e; try discriminate e
  | |- match ?x with _ => _ end =>
      let e := fresh in destruct x eqn:e; cbn in e; try discriminate e
  end.
Ltac verifier_go := repeat (first [verifier_leaf | wp_step]; cbv beta).

(** Settle a final state: the invariant, then the outputs and the abstract state. *)
Ltac verifier_done :=
  repeat match goal with H : Some _ = Some _ |- _ => injection H as H; subst end;
  try match goal with H : ?x = Some _, E : ?x = Some _ |- _ => rewrite E in H; injection H as <- end;
  first
  [ exfalso; congruence
  | split;
    [ split; cbn;
      [ first [congruence | assumption]
      | intros ? ? Hr' Hs Hor; first
        [ congruence
        | solve [eauto]
        | injection Hr' as <-; cbn in Hs;
          match goal with
          | Hm : method_id (start_line _) = _ |- _ =>
              rewrite Hm in Hs; destruct Hor as [-> | [-> | ->]]; discriminate Hs
          end ] ]
    | first [ eexists; split; [reflexivity|] | exists []; split; [by rewrite app_nil_r|] ];
      unfold spec_of, spec_forward, spec_respond, spec_event; cbn;
      rewrite ?with_status_brief, ?with_state_brief, ?response_brief; cbn;
      repeat match goal with
        | H : brief_of ?x = brief_of _ |- context [brief_of ?x] => rewrite H
        | H : message_type ?x = _ |- context [message_type ?x] => rewrite H
        | H : request_id ?x = _ |- context [request_id ?x] => rewrite H
        | H : ?x = true |- context [?x] => rewrite H
        | H : ?x = false |- context [?x] => rewrite H
        end; cbn;
      try reflexivity; try congruence ] ].

Section RefinementProof.
Context `{A : Apr} {LA : AprLaws A} `{F : CFloat}.

Lemma verifier_methods_all i : enum_of verifier_methods (method_num i) = Some i.
Proof. by destruct i. Qed.
Lemma verifier_events_all i : enum_of verifier_events (event_num i) = Some i.
Proof. by destruct i. Qed.

Lemma verifier_request_follows i m s w :
  verifier_inv s -> message_type (start_line m) = MRCP_MESSAGE_TYPE_REQUEST ->
  method_id (start_line m) = method_num i ->
  wp False (verifier_request_method i m) (s, w)
    (follows w (verifier_spec_update (spec_of s) (brief_of m))).
Proof.
  intros Hi Hty Hme. destruct s as [ac st ar v pr], Hi as [H1 H4]. cbn in H1, H4.
  assert (Ht : b_type (brief_of m) = MRCP_MESSAGE_TYPE_REQUEST) by done.
  assert (He : enum_of verifier_methods (b_method (brief_of m)) = Some i)
    by (unfold brief_of; cbn; by rewrite Hme, verifier_methods_all).
  unfold verifier_spec_update. rewrite Ht, He. cbn [sp_state spec_of state].
  destruct v as [v|], st, ac, i; try (by destruct (H1 eq_refl)); cbn [verifier_request_method request_rule];
    unfold verifier_request_set_params, verifier_request_get_params,
      verifier_request_start_session, verifier_request_end_session,
      verifier_request_query_voiceprint, verifier_request_delete_voiceprint,
      verifier_request_verify, verifier_request_verify_from_buffer,
      verifier_request_verify_rollback, verifier_request_stop,
      verifier_request_clear_buffer, verifier_request_start_input_timers,
      verifier_request_get_intermidiate_result; verifier_go.
  all: verifier_done.
Qed.

Lemma verifier_event_follows i m s w :
  verifier_inv s -> verifier_message_ok m -> message_type (start_line m) = MRCP_MESSAGE_TYPE_EVENT ->
  method_id (start_line m) = event_num i ->
  wp False (verifier_event_method i m) (s, w)
    (follows w (verifier_spec_update (spec_of s) (brief_of m))).
Proof.
  intros Hi Hm Hty Hme. destruct (verifier_completion_cause_ensure_brief m Hm) as (mc & Ec & Hb).
  destruct s as [ac st ar v pr], Hi as [H1 H4]. cbn in H1, H4.
  assert (Ht : b_type (brief_of m) = MRCP_MESSAGE_TYPE_EVENT) by done.
  assert (He : enum_of verifier_events (b_method (brief_of m)) = Some i)
    by (unfold brief_of; cbn; by rewrite Hme, verifier_events_all).
  unfold verifier_spec_update. rewrite Ht, He. cbn [sp_state spec_of state].
  destruct v as [v|], ar as [a|], ac, i; cbn [verifier_event_method];
    unfold verifier_event_start_of_input, verifier_event_verification_complete; verifier_go.
  all: verifier_done.
Qed.

Lemma verifier_response_follows i m s w r :
  verifier_inv s -> verifier_message_ok m -> message_type (start_line m) = MRCP_MESSAGE_TYPE_RESPONSE ->
  active_request s = Some r -> request_id (start_line r) = request_id (start_line m) ->
  method_id (start_line r) = method_num i -> method_id (start_line m) = method_num i ->
  wp False (verifier_response_method i m) (s, w)
    (follows w (verifier_spec_update (spec_of s) (brief_of m))).
Proof.
  intros Hi Hm Hty Har Hid Hmr Hme.
  assert (Hadd : forall id, exists m', active_request_id_add id m = Some m' /\ brief_of m' = brief_of m)
    by (intros id; apply active_request_id_add_brief, (ok_generic m Hm)).
  destruct s as [ac st ar v pr], Hi as [H1 H4]. cbn in H1, H4, Har. subst ar.
  specialize (H4 r i eq_refl Hmr).
  assert (Ht : b_type (brief_of m) = MRCP_MESSAGE_TYPE_RESPONSE) by done.
  assert (He : enum_of verifier_methods (b_method (brief_of m)) = Some i)
    by (unfold brief_of; cbn; by rewrite Hme, verifier_methods_all).
  unfold verifier_spec_update. rewrite Ht, He. cbn [sp_waiting spec_of waiting_of fmap option_fmap option_map active_request].
  cbn [b_id brief_of]. rewrite Hid, Z.eqb_refl. cbn [negb].
  destruct v as [v|], ac, i; try (by destruct H4; auto); cbn [verifier_response_method];
    unfold verifier_response_set_params, verifier_response_get_params,
      verifier_response_start_session, verifier_response_end_session,
      verifier_response_query_voiceprint, verifier_response_delete_voiceprint,
      verifier_response_verify, verifier_response_verify_from_buffer,
      verifier_response_verify_rollback, verifier_response_stop,
      verifier_response_clear_buffer, verifier_response_start_input_timers,
      verifier_response_get_intermidiate_result; verifier_go.
  all: try match goal with H : active_request_id_add ?id _ = _ |- _ =>
         let E := fresh in destruct (Hadd id) as (? & E & ?); rewrite E in H; try discriminate H end.
  all: verifier_done.
Qed.

Lemma verifier_method_of_num (z : Z) i : enum_of verifier_methods z = Some i -> z = method_num i.
Proof. apply enum_of_num. decide_now. Qed.
Lemma verifier_event_of_num (z : Z) i : enum_of verifier_events z = Some i -> z = event_num i.
Proof. apply enum_of_num. decide_now. Qed.

Lemma verifier_follows_same s w b : verifier_inv s -> follows w (spec_of s, []) b (s, w).
Proof. intros Hi. split; [done|]. exists []. by rewrite app_nil_r. Qed.

Lemma verifier_update_follows m s w :
  verifier_inv s -> verifier_message_ok m -> repeats_method s m ->
  wp False (verifier_update m) (s, w) (follows w (verifier_spec_update (spec_of s) (brief_of m))).
Proof.
  intros Hi Hm Hrep. unfold verifier_update, mrcp_state_machine_update, verifier_state_update.
  destruct (message_type (start_line m)) eqn:Hty.
  - unfold verifier_spec_update. cbn [b_type brief_of]. rewrite Hty. by apply verifier_follows_same.
  - unfold verifier_request_state_update. destruct (enum_of _ _) as [i|] eqn:En.
    + apply verifier_request_follows; [done..|]. by apply verifier_method_of_num.
    + unfold verifier_spec_update. cbn [b_type b_method brief_of]. rewrite Hty, En. by apply verifier_follows_same.
  - unfold verifier_response_state_update. apply wp_bind, wp_get.
    unfold verifier_spec_update at 1. cbn [b_type b_method b_id brief_of sp_waiting spec_of]. rewrite Hty.
    destruct (active_request s) as [r|] eqn:Ear; [|by apply verifier_follows_same].
    cbn [waiting_of fmap option_fmap option_map].
    destruct (enum_of _ _) as [i|] eqn:En; [|destruct (negb _); by apply verifier_follows_same].
    destruct (Z.eqb_spec (request_id (start_line r)) (request_id (start_line m))) as [Hid|Hid];
      cbn [negb]; [|by apply verifier_follows_same].
    apply verifier_method_of_num in En. specialize (Hrep Hty r Ear Hid).
    pose proof (verifier_response_follows i m s w r Hi Hm Hty Ear Hid ltac:(congruence) En) as HF.
    unfold verifier_spec_update in HF. cbn [b_type b_method b_id brief_of sp_waiting spec_of] in HF.
    rewrite Hty, Ear, En, verifier_methods_all in HF. cbn [waiting_of fmap option_fmap option_map] in HF.
    rewrite Hid, Z.eqb_refl in HF. exact HF.
  - unfold verifier_event_state_update. destruct (enum_of _ _) as [i|] eqn:En.
    + apply verifier_event_follows; [done..|]. by apply verifier_event_of_num.
    + unfold verifier_spec_update. cbn [b_type b_method brief_of]. rewrite Hty, En. by apply verifier_follows_same.
Qed.

Lemma verifier_deactivate_follows s w :
  verifier_inv s ->
  wp False verifier_deactivate (s, w) (follows w (verifier_spec_deactivate (spec_of s))).
Proof.
  intros Hi. destruct s as [ac st ar v pr], Hi as [H1 H4]. cbn in H1, H4.
  unfold verifier_deactivate, mrcp_state_machine_deactivate, verifier_state_deactivate,
    verifier_spec_deactivate.
  destruct v as [v|], st; try (by destruct (H1 eq_refl)); verifier_go; try verifier_done.
  pose proof (deactivation_brief m (method_num VERIFIER_STOP)) as Hb.
  set (stop := deactivation_request m (method_num VERIFIER_STOP)) in *. clearbody stop.
  rewrite Hb. unfold brief_of in Hb. by injection Hb as _ -> -> _ _.
Qed.

Lemma verifier_run_follows {B} (m : prog (mrcp_verifier_state_machine_t * list (output verifier_message)) B) s w p :
  wp False m (s, w) (fun _ sw => verifier_inv (fst sw) /\
      exists outs, snd sw = w ++ outs /\ (spec_of (fst sw), map told_of outs) = p) ->
  exists b s' outs, m (s, w) = Some (b, (s', w ++ outs)) /\ verifier_inv s' /\
                    (spec_of s', map told_of outs) = p.
Proof.
  intros (b & [s' w'] & E & HI & outs & Hw & Hp)%wp_total. cbn in *. subst w'.
  by exists b, s', outs.
Qed.

(** C16: the verifier state machine implements its specification.  Updated with any message
    built by the library, a response repeating the method of the request it answers, and when
    it is deactivated, the machine returns, and its state, the VERIFY request of the session,
    the request awaiting an answer and the messages and notices its owner is told are those of
    the abstract verifier: the table [request_rule] says which requests reach the engine in
    which state and how the others are answered at once, [response_state] where the responses
    of the engine lead, and VERIFICATION-COMPLETE for the identifier of the VERIFY request
    returns to the opened session unless STOP is under way. *)
Theorem verifier_refines_spec s w :
  verifier_inv s ->
  (forall m, verifier_message_ok m -> repeats_method s m ->
   exists b s' outs, verifier_update m (s, w) = Some (b, (s', w ++ outs)) /\ verifier_inv s' /\
     (spec_of s', map told_of outs) = verifier_spec_update (spec_of s) (brief_of m)) /\
  exists b s' outs, verifier_deactivate (s, w) = Some (b, (s', w ++ outs)) /\ verifier_inv s' /\
     (spec_of s', map told_of outs) = verifier_spec_deactivate (spec_of s).
Proof.
  intros Hi. split; [intros m Hm Hr|]; apply verifier_run_follows;
    [by apply verifier_update_follows|by apply verifier_deactivate_follows].
Qed.
End RefinementProof.

(** * At concrete inputs *)

Section Samples.
#[local] Existing Instance apr_reference.
#[local] Existing Instance apr_reference_laws.
#[local] Existing Instance float_integers.

Definition sample_verifier_request (i : mrcp_verifier_method_id) (id : Z) : verifier_message :=
  set_start_line (fun sl => sl <| request_id := id |>)
    (mrcp_request_create (Some mrcp_verifier_resource_create) MRCP_VERSION_2 (method_num i)).

Lemma sample_verifier_request_ok (i : mrcp_verifier_method_id) (id : Z) :
  verifier_message_ok (sample_verifier_request i id).
Proof.
  split; [|by destruct i|].
  - exists MRCP_VERSION_2, (Some mrcp_generic_header_init).
    split; [destruct i; reflexivity|unfold request_ids_ok; simpl; lia].
  - eexists. destruct i; reflexivity.
Qed.

Definition fresh_verifier : mrcp_verifier_state_machine_t :=
  mrcp_verifier_state_machine_create MRCP_VERSION_2.

Lemma verifier_refines_spec_witness :
  exists b s' outs,
    verifier_update (sample_verifier_request VERIFIER_START_INPUT_TIMERS 7)
      (fresh_verifier <| state := VERIFIER_STATE_VERIFYING |> <| verify :=
         Some (sample_verifier_request VERIFIER_VERIFY 6) |>, [])
      = Some (b, (s', [] ++ outs)) /\ verifier_inv s' /\
    (spec_of s', map told_of outs) =
    (mk_spec true VERIFIER_STATE_VERIFYING (Some 6) None,
     [Told (mk_brief MRCP_MESSAGE_TYPE_RESPONSE (method_num VERIFIER_START_INPUT_TIMERS) 7
              MRCP_REQUEST_STATE_COMPLETE MRCP_STATUS_CODE_METHOD_NOT_VALID)]).
Proof.
  set (s := fresh_verifier <| state := _ |> <| verify := _ |>).
  assert (Hi : verifier_inv s) by (split; [discriminate|intros; discriminate]).
  apply (proj1 (verifier_refines_spec s [] Hi)
           (sample_verifier_request VERIFIER_START_INPUT_TIMERS 7)
           (sample_verifier_request_ok _ _)).
  intros E. discriminate E.
Defined.

(** The guard of START-INPUT-TIMERS is the reverse of the recorder's and the recognizer's: it is
    rejected while a verification is in progress and goes to the engine when none is. *)
Lemma verifier_start_input_timers_rule :
  request_rule VERIFIER_START_INPUT_TIMERS VERIFIER_STATE_VERIFYING
    = Answer MRCP_STATUS_CODE_METHOD_NOT_VALID /\
  request_rule VERIFIER_START_INPUT_TIMERS VERIFIER_STATE_OPENED = Forward.
Proof. done. Qed.
End Samples.
