(* ===== verification/RecogStateMachine.v ===== *)
(** The recognizer state machine of the server
    ([libs/mrcp-engine/src/mrcp_recog_state_machine.c]): one RECOGNIZE request is in progress at
    a time and others wait in a queue; a finished recognition leaves its result available until
    a grammar is defined or STOP is called. *)

From S2P Require Import Prelude AptString TextStream TextValues HeaderField TextMessage StartLine MrcpHeader GenericHeader Message FloatValue RecogHeader StateMachine.

(** * State *)

Inductive mrcp_recog_state_e :=
| RECOGNIZER_STATE_IDLE
| RECOGNIZER_STATE_RECOGNIZING
| RECOGNIZER_STATE_RECOGNIZED.

#[global] Instance mrcp_recog_state_eq_dec : EqDecision mrcp_recog_state_e.
Proof. solve_decision. Defined.

Abbreviation recog_message := (mrcp_message_t mrcp_recog_header_t).
Abbreviation recog_properties := (mrcp_message_header_t mrcp_generic_header_t mrcp_recog_header_t).

Section State.
Context `{CFloat}.

Record mrcp_recog_state_machine_t := mk_recog {
  active : bool;                          (** of the base *)
  state : mrcp_recog_state_e;
  is_pending : bool;                      (** active_request comes from the queue *)
  active_request : option recog_message;  (** sent to the engine, response expected *)
  recog : option recog_message;           (** RECOGNIZE request in progress or recognized *)
  queue : list recog_message;             (** pending RECOGNIZE requests *)
  properties : recog_properties           (** set by SET-PARAMS *)
}.
End State.

#[global] Instance eta_recog `{CFloat} : Eta mrcp_recog_state_machine_t := fun s =>
  mk_recog (active s) (state s) (is_pending s) (active_request s) (recog s) (queue s)
    (properties s).

Definition method_num : mrcp_recognizer_method_id -> Z := enum_num recognizer_methods.
Definition event_num : mrcp_recognizer_event_id -> Z := enum_num recognizer_events.

Section Machine.
Context `{Apr} `{CFloat} {W : Type}
  `{D : Dispatcher mrcp_recog_state_machine_t W recog_message}.

Abbreviation handler := (prog (mrcp_recog_state_machine_t * W)).

(** * Dispatching *)

Definition recog_request_dispatch (m : recog_message) : handler bool :=
  set_sm (fun s => s <| active_request := Some m |>) ;;;
  on_dispatch m.

Definition recog_response_dispatch (m : recog_message) : handler bool :=
  set_sm (fun s => s <| active_request := None |>) ;;;
  let* a := get_sm active in
  if a then on_dispatch m else on_deactivate.

Definition recog_event_dispatch (m : recog_message) : handler bool :=
  let* a := get_sm active in
  if a then on_dispatch m else ret false.

Definition recog_state_change (st : mrcp_recog_state_e) : handler unit :=
  set_sm (fun s => s <| state := st |>) ;;;
  if decide (st = RECOGNIZER_STATE_IDLE) then set_sm (fun s => s <| recog := None |>)
  else ret tt.

(** * Requests of the client and responses of the engine *)

Definition recog_request_set_params (m : recog_message) : handler bool :=
  set_sm (fun s => s <| properties := snd (mrcp_header_fields_set (properties s) (header m)) |>) ;;;
  recog_request_dispatch m.

Definition recog_response_set_params (m : recog_message) : handler bool :=
  recog_response_dispatch m.

Definition recog_request_get_params (m : recog_message) : handler bool :=
  recog_request_dispatch m.

Definition recog_response_get_params (m : recog_message) : handler bool :=
  let* props := get_sm properties in
  let* req := get_sm active_request in
  let* req := deref_ptr req in
  let m := m <| header := snd (mrcp_header_fields_get (header m) props (header req)) |> in
  recog_response_dispatch m.

(** The immediate answer to a request that is not valid now. *)
Definition recog_not_valid (m : recog_message) : handler bool :=
  recog_response_dispatch
    (with_status MRCP_STATUS_CODE_METHOD_NOT_VALID (mrcp_response_create (Some m))).

(** A message without a completion cause is a success. *)
Definition completion_cause_ensure (m : recog_message) : option recog_message :=
  let cc := recognizer_header_id_num RECOGNIZER_HEADER_COMPLETION_CAUSE in
  if mrcp_resource_header_property_check m cc then Some m
  else
    let '(h, m) := mrcp_resource_header_prepare m in
    match h with
    | None => None
    | Some h =>
        let m := set_resource_header
                   (h <| completion_cause := RECOGNIZER_COMPLETION_CAUSE_SUCCESS |>) m in
        let? (_, m) := mrcp_resource_header_property_add m cc in Some m
    end.

Definition recog_request_define_grammar (m : recog_message) : handler bool :=
  let* st := get_sm state in
  match st with
  | RECOGNIZER_STATE_RECOGNIZING => recog_not_valid m
  | RECOGNIZER_STATE_RECOGNIZED =>
      recog_state_change RECOGNIZER_STATE_IDLE ;;;
      recog_request_dispatch m
  | RECOGNIZER_STATE_IDLE => recog_request_dispatch m
  end.

Definition recog_response_define_grammar (m : recog_message) : handler bool :=
  let* m := lift (completion_cause_ensure m) in
  recog_response_dispatch m.

Definition recog_request_recognize (m : recog_message) : handler bool :=
  let* props := get_sm properties in
  let m := m <| header := snd (mrcp_header_fields_inherit (header m) props) |> in
  let* st := get_sm state in
  match st with
  | RECOGNIZER_STATE_RECOGNIZING =>
      let m := with_state MRCP_REQUEST_STATE_PENDING m in
      set_sm (fun s => s <| queue := apt_list_push_back (queue s) m |>) ;;;
      recog_response_dispatch (with_state MRCP_REQUEST_STATE_PENDING (mrcp_response_create (Some m)))
  | _ => recog_request_dispatch m
  end.

(** The response to a RECOGNIZE request taken from the queue is not sent. *)
Definition recog_response_recognize (m : recog_message) : handler bool :=
  (if decide (request_state (start_line m) = MRCP_REQUEST_STATE_INPROGRESS) then
     set_sm (fun s => s <| recog := active_request s |>) ;;;
     recog_state_change RECOGNIZER_STATE_RECOGNIZING
   else ret tt) ;;;
  let* p := get_sm is_pending in
  if p then set_sm (fun s => s <| is_pending := false |>) ;;; ret true
  else recog_response_dispatch m.

Definition recog_request_interpret (m : recog_message) : handler bool :=
  let* props := get_sm properties in
  let m := m <| header := snd (mrcp_header_fields_inherit (header m) props) |> in
  recog_request_dispatch m.

Definition recog_response_interpret (m : recog_message) : handler bool :=
  recog_response_dispatch m.

Definition recog_request_get_result (m : recog_message) : handler bool :=
  let* st := get_sm state in
  match st with
  | RECOGNIZER_STATE_RECOGNIZED => recog_request_dispatch m
  | _ => recog_not_valid m
  end.

Definition recog_response_get_result (m : recog_message) : handler bool :=
  recog_response_dispatch m.

Definition recog_request_recognition_start_timers (m : recog_message) : handler bool :=
  let* st := get_sm state in
  match st with
  | RECOGNIZER_STATE_RECOGNIZING => recog_request_dispatch m
  | _ => recog_not_valid m
  end.

Definition recog_response_recognition_start_timers (m : recog_message) : handler bool :=
  recog_response_dispatch m.

Definition recog_pending_requests_remove (request response : recog_message)
    : handler recog_message :=
  let* q := get_sm queue in
  let* r := lift (pending_requests_remove request response q) in
  let '(q, response) := r in
  set_sm (fun s => s <| queue := q |>) ;;;
  ret response.

(** STOP when no selected RECOGNIZE request is in progress. *)
Definition recog_stop_pending (m : recog_message) : handler bool :=
  let* r := recog_pending_requests_remove m (mrcp_response_create (Some m)) in
  recog_response_dispatch r.

Definition recog_request_stop (m : recog_message) : handler bool :=
  let* st := get_sm state in
  match st with
  | RECOGNIZER_STATE_RECOGNIZING =>
      let sel := selective_ids m in
      let* r := get_sm recog in
      let* stop := match sel with
                   | None => ret true
                   | Some _ => let* r := deref_ptr r in ret (selects sel (request_id (start_line r)))
                   end in
      if (stop : bool) then recog_request_dispatch m else recog_stop_pending m
  | RECOGNIZER_STATE_RECOGNIZED =>
      recog_state_change RECOGNIZER_STATE_IDLE ;;;
      recog_stop_pending m
  | RECOGNIZER_STATE_IDLE => recog_stop_pending m
  end.

Definition recog_response_stop (m : recog_message) : handler bool :=
  let* r := get_sm recog in
  let* r := deref_ptr r in
  let* m := lift (active_request_id_add (request_id (start_line r)) m) in
  let* req := get_sm active_request in
  let* req := deref_ptr req in
  let* m := recog_pending_requests_remove req m in
  recog_state_change RECOGNIZER_STATE_IDLE ;;;
  let* q := get_sm queue in
  let '(pending, q) := apt_list_pop_front q in
  set_sm (fun s => s <| queue := q |>) ;;;
  recog_response_dispatch m ;;;
  match pending with
  | Some p =>
      set_sm (fun s => s <| is_pending := true |>) ;;;
      recog_request_dispatch p ;;;
      ret true
  | None => ret true
  end.

(** * Events of the engine *)

Definition recog_event_start_of_input (m : recog_message) : handler bool :=
  let* r := get_sm recog in
  match r with
  | None => ret false
  | Some r =>
      if negb (request_id (start_line r) =? request_id (start_line m)) then ret false
      else recog_event_dispatch (with_state MRCP_REQUEST_STATE_INPROGRESS m)
  end.

Definition recog_event_recognition_complete (m : recog_message) : handler bool :=
  let* r := get_sm recog in
  match r with
  | None => ret false
  | Some r =>
      if negb (request_id (start_line r) =? request_id (start_line m)) then ret false
      else
        let* req := get_sm active_request in
        if match req with
           | Some r => method_id (start_line r) =? method_num RECOGNIZER_STOP
           | None => false
           end
        then ret false
        else
          let* m := lift (completion_cause_ensure m) in
          recog_state_change RECOGNIZER_STATE_RECOGNIZED ;;;
          recog_event_dispatch m ;;;
          let* q := get_sm queue in
          let '(pending, q) := apt_list_pop_front q in
          set_sm (fun s => s <| queue := q |>) ;;;
          match pending with
          | Some p =>
              set_sm (fun s => s <| is_pending := true |>) ;;;
              recog_request_dispatch p ;;;
              ret true
          | None => ret true
          end
  end.

Definition recog_event_interpretation_complete (m : recog_message) : handler bool :=
  let* m := lift (completion_cause_ensure m) in
  recog_event_dispatch m.

(** * Update *)

(** Methods without a handler of their own are passed on. *)
Definition recog_request_method (i : mrcp_recognizer_method_id) : recog_message -> handler bool :=
  match i with
  | RECOGNIZER_SET_PARAMS => recog_request_set_params
  | RECOGNIZER_GET_PARAMS => recog_request_get_params
  | RECOGNIZER_DEFINE_GRAMMAR => recog_request_define_grammar
  | RECOGNIZER_RECOGNIZE => recog_request_recognize
  | RECOGNIZER_INTERPRET => recog_request_interpret
  | RECOGNIZER_GET_RESULT => recog_request_get_result
  | RECOGNIZER_START_INPUT_TIMERS => recog_request_recognition_start_timers
  | RECOGNIZER_STOP => recog_request_stop
  | _ => recog_request_dispatch
  end.

Definition recog_response_method (i : mrcp_recognizer_method_id) : recog_message -> handler bool :=
  match i with
  | RECOGNIZER_SET_PARAMS => recog_response_set_params
  | RECOGNIZER_GET_PARAMS => recog_response_get_params
  | RECOGNIZER_DEFINE_GRAMMAR => recog_response_define_grammar
  | RECOGNIZER_RECOGNIZE => recog_response_recognize
  | RECOGNIZER_INTERPRET => recog_response_interpret
  | RECOGNIZER_GET_RESULT => recog_response_get_result
  | RECOGNIZER_START_INPUT_TIMERS => recog_response_recognition_start_timers
  | RECOGNIZER_STOP => recog_response_stop
  | _ => recog_response_dispatch
  end.

Definition recog_event_method (i : mrcp_recognizer_event_id) : recog_message -> handler bool :=
  match i with
  | RECOGNIZER_START_OF_INPUT => recog_event_start_of_input
  | RECOGNIZER_RECOGNITION_COMPLETE => recog_event_recognition_complete
  | RECOGNIZER_INTERPRETATION_COMPLETE => recog_event_interpretation_complete
  end.

Definition recog_request_state_update (m : recog_message) : handler bool :=
  match enum_of recognizer_methods (method_id (start_line m)) with
  | None => ret false
  | Some i => recog_request_method i m
  end.

(** A response is expected for the active request only. *)
Definition recog_response_state_update (m : recog_message) : handler bool :=
  let* req := get_sm active_request in
  match req with
  | None => ret false
  | Some r =>
      if negb (request_id (start_line r) =? request_id (start_line m)) then ret false
      else
        match enum_of recognizer_methods (method_id (start_line m)) with
        | None => ret false
        | Some i => recog_response_method i m
        end
  end.

Definition recog_event_state_update (m : recog_message) : handler bool :=
  match enum_of recognizer_events (method_id (start_line m)) with
  | None => ret false
  | Some i => recog_event_method i m
  end.

Definition recog_state_update (m : recog_message) : handler bool :=
  match message_type (start_line m) with
  | MRCP_MESSAGE_TYPE_REQUEST => recog_request_state_update m
  | MRCP_MESSAGE_TYPE_RESPONSE => recog_response_state_update m
  | MRCP_MESSAGE_TYPE_EVENT => recog_event_state_update m
  | MRCP_MESSAGE_TYPE_UNKNOWN => ret false
  end.

(** Deactivation stops the RECOGNIZE request in progress with a request of the machine's own. *)
Definition recog_state_deactivate : handler bool :=
  let* st := get_sm state in
  match st with
  | RECOGNIZER_STATE_RECOGNIZING =>
      let* r := get_sm recog in
      match r with
      | None => ret false
      | Some source =>
          recog_request_dispatch (deactivation_request source (method_num RECOGNIZER_STOP))
      end
  | _ => ret false
  end.

Definition mrcp_recog_state_machine_create (v : mrcp_version_e) : mrcp_recog_state_machine_t :=
  mk_recog true RECOGNIZER_STATE_IDLE false None None []
    (mrcp_message_header_create (Some (mrcp_generic_header_vtable_get v))
       (mrcp_recog_header_vtable_get v)).

(** The operations of the base, for this machine. *)
Definition recog_update (m : recog_message) : handler bool :=
  mrcp_state_machine_update recog_state_update m.
Definition recog_deactivate : handler bool :=
  mrcp_state_machine_deactivate (fun b s => s <| active := b |>) recog_state_deactivate.

End Machine.

#[local] Arguments completion_cause_ensure : simpl never.

(** * What the recognizer promises *)

(** An abstract recognizer, with no headers: whether it is active, its state, the recognition in
    progress or recognized, the request that awaits an answer with the requests it selects if it
    is STOP, whether it comes from the queue, and the queue. *)
Record recog_spec := mk_spec {
  sp_active : bool;
  sp_state : mrcp_recog_state_e;
  sp_pending : bool;
  sp_waiting : option (Z * Z * (Z -> bool));
  sp_recog : option Z;
  sp_queue : list brief_t
}.
#[global] Instance eta_recog_spec : Eta recog_spec := fun s =>
  mk_spec (sp_active s) (sp_state s) (sp_pending s) (sp_waiting s) (sp_recog s) (sp_queue s).

Definition select_all : Z -> bool := fun _ => true.

(** Pass a request on; pass on or make a response; pass on an event. *)
Definition spec_forward (p : recog_spec) (m : brief_t) (sel : Z -> bool) : recog_spec * list told :=
  (p <| sp_waiting := Some (b_id m, b_method m, sel) |>, [Told m]).
Definition spec_respond (p : recog_spec) (m : brief_t) : recog_spec * list told :=
  (p <| sp_waiting := None |>, [if sp_active p then Told m else Closed]).
Definition spec_event (p : recog_spec) (m : brief_t) : recog_spec * list told :=
  (p, if sp_active p then [Told m] else []).

(** One output after the other. *)
Definition spec_then (r : recog_spec * list told) (k : recog_spec -> recog_spec * list told)
    : recog_spec * list told :=
  let '(p, o) := r in let '(p, o') := k p in (p, o ++ o').

(** The first request of the queue goes to the engine. *)
Definition spec_next (p : recog_spec) : recog_spec * list told :=
  match sp_queue p with
  | [] => (p, [])
  | b :: q => spec_forward (p <| sp_queue := q |> <| sp_pending := true |>) b select_all
  end.

Definition spec_remove (sel : Z -> bool) (p : recog_spec) : recog_spec :=
  p <| sp_queue := List.filter (fun b => negb (sel (b_id b))) (sp_queue p) |>.

Definition spec_idle (p : recog_spec) : recog_spec :=
  p <| sp_state := RECOGNIZER_STATE_IDLE |> <| sp_recog := None |>.

Definition pending_brief (b : brief_t) : brief_t :=
  mk_brief (b_type b) (b_method b) (b_id b) MRCP_REQUEST_STATE_PENDING (b_status b).

Definition recog_spec_request (p : recog_spec) (i : mrcp_recognizer_method_id) (m : brief_t)
    (sel : Z -> bool) : recog_spec * list told :=
  let not_valid := spec_respond p (answer_brief MRCP_STATUS_CODE_METHOD_NOT_VALID m) in
  let success p := spec_respond p (answer_brief MRCP_STATUS_CODE_SUCCESS m) in
  match i, sp_state p with
  | RECOGNIZER_DEFINE_GRAMMAR, RECOGNIZER_STATE_RECOGNIZING => not_valid
  | RECOGNIZER_DEFINE_GRAMMAR, RECOGNIZER_STATE_RECOGNIZED => spec_forward (spec_idle p) m sel
  | RECOGNIZER_RECOGNIZE, RECOGNIZER_STATE_RECOGNIZING =>
      spec_respond (p <| sp_queue := sp_queue p ++ [pending_brief m] |>)
        (pending_brief (answer_brief MRCP_STATUS_CODE_SUCCESS m))
  | RECOGNIZER_GET_RESULT, (RECOGNIZER_STATE_IDLE | RECOGNIZER_STATE_RECOGNIZING) => not_valid
  | RECOGNIZER_START_INPUT_TIMERS, (RECOGNIZER_STATE_IDLE | RECOGNIZER_STATE_RECOGNIZED) => not_valid
  | RECOGNIZER_STOP, RECOGNIZER_STATE_RECOGNIZING =>
      if match sp_recog p with Some id => sel id | None => false end then spec_forward p m sel
      else success (spec_remove sel p)
  | RECOGNIZER_STOP, RECOGNIZER_STATE_RECOGNIZED => success (spec_remove sel (spec_idle p))
  | RECOGNIZER_STOP, RECOGNIZER_STATE_IDLE => success (spec_remove sel p)
  | _, _ => spec_forward p m sel
  end.

Definition recog_spec_response (p : recog_spec) (i : mrcp_recognizer_method_id) (m : brief_t)
    (sel : Z -> bool) : recog_spec * list told :=
  match i with
  | RECOGNIZER_RECOGNIZE =>
      let p := if decide (b_state m = MRCP_REQUEST_STATE_INPROGRESS)
               then p <| sp_recog := Some (b_id m) |> <| sp_state := RECOGNIZER_STATE_RECOGNIZING |>
               else p in
      if sp_pending p then (p <| sp_pending := false |>, []) else spec_respond p m
  | RECOGNIZER_STOP => spec_then (spec_respond (spec_idle (spec_remove sel p)) m) spec_next
  | _ => spec_respond p m
  end.

Definition recog_spec_event (p : recog_spec) (i : mrcp_recognizer_event_id) (m : brief_t)
    : recog_spec * list told :=
  match i, sp_recog p with
  | RECOGNIZER_INTERPRETATION_COMPLETE, _ => spec_event p m
  | _, None => (p, [])
  | RECOGNIZER_START_OF_INPUT, Some id =>
      if negb (id =? b_id m) then (p, [])
      else spec_event p (mk_brief (b_type m) (b_method m) (b_id m)
                           MRCP_REQUEST_STATE_INPROGRESS (b_status m))
  | RECOGNIZER_RECOGNITION_COMPLETE, Some id =>
      if negb (id =? b_id m) then (p, [])
      else if match sp_waiting p with
              | Some (_, me, _) => me =? method_num RECOGNIZER_STOP
              | None => false
              end
      then (p, [])
      else spec_then (spec_event (p <| sp_state := RECOGNIZER_STATE_RECOGNIZED |>) m) spec_next
  end.

Definition recog_spec_update (p : recog_spec) (m : brief_t) (sel : Z -> bool)
    : recog_spec * list told :=
  match b_type m with
  | MRCP_MESSAGE_TYPE_UNKNOWN => (p, [])
  | MRCP_MESSAGE_TYPE_REQUEST =>
      match enum_of recognizer_methods (b_method m) with
      | None => (p, [])
      | Some i => recog_spec_request p i m sel
      end
  | MRCP_MESSAGE_TYPE_RESPONSE =>
      match sp_waiting p, enum_of recognizer_methods (b_method m) with
      | Some (id, _, sel), Some i =>
          if negb (id =? b_id m) then (p, []) else recog_spec_response p i m sel
      | _, _ => (p, [])
      end
  | MRCP_MESSAGE_TYPE_EVENT =>
      match enum_of recognizer_events (b_method m) with
      | None => (p, [])
      | Some i => recog_spec_event p i m
      end
  end.

(** [sel]: the requests selected by the header of the recognition in progress, which the
    request of the machine's own takes over. *)
Definition recog_spec_deactivate (p : recog_spec) (sel : Z -> bool) : recog_spec * list told :=
  let p := p <| sp_active := false |> in
  match sp_state p, sp_recog p with
  | RECOGNIZER_STATE_RECOGNIZING, Some id =>
      spec_forward p (mk_brief MRCP_MESSAGE_TYPE_REQUEST (method_num RECOGNIZER_STOP) (u32 (id + 1))
                        MRCP_REQUEST_STATE_UNKNOWN MRCP_STATUS_CODE_UNKNOWN) sel
  | _, _ => (p, [])
  end.

(** * The recognizer implements it *)

Section Refinement.
Context `{A : Apr} {LA : AprLaws A} `{F : CFloat}.

Abbreviation world := (list (output recog_message)).
#[global] Instance recog_owner : Dispatcher mrcp_recog_state_machine_t world recog_message :=
  recording.

(** The queued requests a request selects when it is STOP. *)
Definition selection (m : recog_message) : Z -> bool :=
  if decide (method_id (start_line m) = method_num RECOGNIZER_STOP)
  then selects (selective_ids m) else select_all.

Definition spec_of (s : mrcp_recog_state_machine_t) : recog_spec :=
  mk_spec (active s) (state s) (is_pending s)
    ((fun m => (request_id (start_line m), method_id (start_line m), selection m)) <$> active_request s)
    (progress_of (recog s)) (map brief_of (queue s)).

Record recog_inv (s : mrcp_recog_state_machine_t) : Prop := {
  inv_recognizing : state s = RECOGNIZER_STATE_RECOGNIZING -> recog s <> None;
  inv_stop : forall r, active_request s = Some r ->
    method_id (start_line r) = method_num RECOGNIZER_STOP -> recog s <> None;
  inv_queue : Forall (fun r => method_id (start_line r) = method_num RECOGNIZER_RECOGNIZE) (queue s)
}.

(** A message as the library builds it. *)
Record recog_message_ok (m : recog_message) : Prop := {
  ok_generic : generic_ok m;
  ok_resource : resource m = Some mrcp_recog_resource_create;
  ok_header : exists d, resource_header_accessor (header m)
                        = mk_accessor d (mrcp_recog_header_vtable_get (version (start_line m)))
}.

(** A response repeats the method of the request it answers. *)
Definition repeats_method (s : mrcp_recog_state_machine_t) (m : recog_message) : Prop :=
  message_type (start_line m) = MRCP_MESSAGE_TYPE_RESPONSE ->
  forall r, active_request s = Some r -> request_id (start_line r) = request_id (start_line m) ->
  method_id (start_line r) = method_id (start_line m).

Lemma recog_resource_ok (v : mrcp_version_e) : resource_ok mrcp_recog_resource_create v.
Proof.
  split; [by destruct v; split; vm_compute..|]. 
  eexists. split; [reflexivity|]. by destruct v; vm_compute.
Qed.

Lemma recog_completion_cause_ensure_brief m :
  recog_message_ok m ->
  exists m', completion_cause_ensure m = Some m' /\ brief_of m' = brief_of m.
Proof.
  intros [_ _ (d & Hd)]. unfold completion_cause_ensure.
  destruct (mrcp_resource_header_property_check _ _); [by exists m|].
  unfold mrcp_resource_header_prepare, mrcp_header_allocate. rewrite Hd. clear Hd.
  unfold mrcp_resource_header_property_add, property_add.
  destruct (version (start_line m)), d as [h|]; cbn -[mrcp_header_field_value_generate].
  all: lazymatch goal with |- context [mrcp_header_field_value_generate ?a ?i ?b] =>
         let E := fresh in destruct (mrcp_header_field_value_generate a i b) as [[hf|]|] eqn:E; [..|discriminate E] end.
  all: try destruct (apt_header_section_field_add _ _);
    first [discriminate | eexists; split; reflexivity].
Qed.

(** What a step of the machine must do: return, keep the invariant, and follow the
    specification. *)
Definition follows (w : world) (p : recog_spec * list told)
    (b : bool) (sw : mrcp_recog_state_machine_t * world) : Prop :=
  recog_inv (fst sw) /\ exists outs, snd sw = w ++ outs /\ (spec_of (fst sw), map told_of outs) = p.

Lemma recog_state_change_wp c st s (w : world) (Q : unit -> mrcp_recog_state_machine_t * world -> Prop) :
  Q tt (match st with
        | RECOGNIZER_STATE_IDLE => s <| state := st |> <| recog := None |>
        | _ => s <| state := st |>
        end, w) ->
  wp c (recog_state_change st) (s, w) Q.
Proof. intros HQ. unfold recog_state_change. wp_with fail. by destruct st; wp_with fail. Qed.

(** The removal of the selected requests of the queue, as a step. *)
Lemma recog_remove_wp req resp s (w : world) (Q : recog_message -> mrcp_recog_state_machine_t * world -> Prop) :
  generic_ok resp ->
  (forall m', brief_of m' = brief_of resp ->
    Q m' (s <| queue := pending_rest (selective_ids req) (queue s) |>, w)) ->
  wp False (recog_pending_requests_remove req resp) (s, w) Q.
Proof.
  intros Hg HQ. unfold recog_pending_requests_remove. wp_with fail. apply wp_lift.
  destruct (pending_requests_remove_brief req resp (queue s) Hg) as (m' & E & _ & Hb). rewrite E.
  wp_with fail. by apply HQ.
Qed.

Lemma selection_stop m : method_id (start_line m) = method_num RECOGNIZER_STOP ->
  selection m = selects (selective_ids m).
Proof. intros E. unfold selection. by rewrite decide_True. Qed.

Lemma selection_other m i : method_id (start_line m) = method_num i -> i <> RECOGNIZER_STOP ->
  selection m = select_all.
Proof. intros E Hi. unfold selection. rewrite decide_False; [done|]. rewrite E. by destruct i. Qed.

End Refinement.

#[local] Arguments pending_rest : simpl never.

(** One step through a handler of the machine. *)
Ltac recog_leaf :=
  idtac; lazymatch goal with
  | |- wp _ (on_dispatch _) _ _ => apply wp_recording_dispatch
  | |- wp _ on_deactivate _ _ => apply wp_recording_deactivate
  | |- wp _ (recog_request_dispatch _) _ _ => unfold recog_request_dispatch
  | |- wp _ (recog_response_dispatch _) _ _ => unfold recog_response_dispatch
  | |- wp _ (recog_event_dispatch _) _ _ => unfold recog_event_dispatch
  | |- wp _ (recog_not_valid _) _ _ => unfold recog_not_valid
  | |- wp _ (recog_stop_pending _) _ _ => unfold recog_stop_pending
  | |- wp _ (recog_pending_requests_remove _ _) _ _ =>
      apply recog_remove_wp; [first [assumption | by eauto using response_generic_ok, recog_resource_ok]|];
      let m := fresh "m" in let H := fresh "Hb" in intros m H
  | |- wp _ (recog_state_change _) _ _ => apply recog_state_change_wp
  | |- wp _ (let '(_, _) := apt_list_pop_front ?x in _) _ _ =>
      let q := eval cbn in x in
      lazymatch q with
      | [] => change (apt_list_pop_front x) with (@None recog_message, @nil recog_message)
      | ?a :: ?l => change (apt_list_pop_front x) with (Some a, l)
      | _ => let e := fresh "Hrest" in change x with q; destruct q eqn:e
      end; cbv beta iota
  | |- wp _ (deref_ptr _) _ _ => apply wp_deref; cbn
  | |- wp _ (lift _) _ _ => apply wp_lift
  | |- wp _ (if decide (?a = ?b) then _ else _) _ _ =>
      let e := fresh in destruct (decide (a = b)) as [e|e]; cbn in e; try discriminate e; try by destruct e
  | |- wp _ (if ?b then _ else _) _ _ =>
      let e := fresh in destruct b eqn:e; cbn in e; try discriminate e
  | |- wp _ (match ?x with _ => _ end) _ _ =>
      let e := fresh in destruct x eqn:e; cbn in e; try discriminate e
  | |- match ?x with _ => _ end =>
      let e := fresh in destruct x eqn:e; cbn in e; try discriminate e
  end.
Ltac recog_go := repeat (first [recog_leaf | wp_step]; cbv beta).

(** The abstract state of a final state. *)
Ltac recog_brief :=
  unfold spec_of, spec_forward, spec_respond, spec_event, spec_remove, spec_idle, pending_brief; cbn;
  rewrite ?with_status_brief, ?with_state_brief, ?response_brief, ?pending_rest_brief, ?map_app; cbn;
  repeat (match goal with
    | H : brief_of ?x = _ |- context [brief_of ?x] => rewrite H
    | H : message_type ?x = _ |- context [message_type ?x] => rewrite H
    | H : request_id ?x = _ |- context [request_id ?x] => rewrite H
    | H : selection ?x = _ |- context [selection ?x] => rewrite H
    | H : selective_ids ?x = Some _ |- context [selective_ids ?x] => rewrite H
    | H : method_id (start_line _) = method_num ?i |- context [selection ?x] =>
        rewrite (selection_other x i H) by discriminate
    | H : ?x = true |- context [?x] => rewrite H
    | H : ?x = false |- context [?x] => rewrite H
    end; rewrite ?response_brief; cbn);
  first [reflexivity | congruence | unfold brief_of; cbn; congruence | idtac].

(** The invariant of a final state. *)
Ltac recog_inv_done :=
  split; cbn;
  [ first [congruence | assumption]
  | intros ? Hr' Hs; first
    [ congruence
    | solve [eauto]
    | injection Hr' as <-; cbn in Hs;
      match goal with
      | Hm : method_id (start_line _) = _ |- _ => rewrite Hm in Hs; discriminate Hs
      end ]
  | first [ assumption
          | by apply pending_rest_Forall
          | apply Forall_app; split; [assumption|by repeat constructor]
          | by eapply List.Forall_inv_tail ] ].

Ltac recog_done :=
  repeat match goal with H : Some _ = Some _ |- _ => injection H as H; subst end;
  try match goal with H : ?x = Some _, E : ?x = Some _ |- _ => rewrite E in H; injection H as <- end;
  first
  [ exfalso; congruence
  | split;
    [ recog_inv_done
    | first [ eexists; split; [by rewrite <-?app_assoc|] | exists []; split; [by rewrite app_nil_r|] ]; recog_brief ] ].

Section RefinementProof.
Context `{A : Apr} {LA : AprLaws A} `{F : CFloat}.

Lemma recog_methods_all i : enum_of recognizer_methods (method_num i) = Some i.
Proof. by destruct i. Qed.
Lemma recog_events_all i : enum_of recognizer_events (event_num i) = Some i.
Proof. by destruct i. Qed.

Lemma recog_request_follows i m s w :
  recog_inv s -> recog_message_ok m -> message_type (start_line m) = MRCP_MESSAGE_TYPE_REQUEST ->
  method_id (start_line m) = method_num i ->
  wp False (recog_request_method i m) (s, w)
    (follows w (recog_spec_update (spec_of s) (brief_of m) (selection m))).
Proof.
  intros Hi Hm Hty Hme. destruct s as [ac st ip ar r q pr], Hi as [H1 H4 H5]. cbn in H1, H4, H5.
  pose proof (ok_resource m Hm) as Hres.
  assert (Ht : b_type (brief_of m) = MRCP_MESSAGE_TYPE_REQUEST) by done.
  assert (He : enum_of recognizer_methods (b_method (brief_of m)) = Some i)
    by (unfold brief_of; cbn; by rewrite Hme, recog_methods_all).
  assert (Hsel : selection m = if decide (i = RECOGNIZER_STOP) then selects (selective_ids m) else select_all)
    by (case_decide; [subst i; by apply selection_stop|by eapply selection_other]).
  unfold recog_spec_update. rewrite Ht, He. unfold recog_spec_request. cbn [sp_state spec_of state].
  destruct r as [r|], st, ac, i; try (by destruct (H1 eq_refl)); cbn [recog_request_method];
    first [rewrite decide_True in Hsel by done | rewrite decide_False in Hsel by discriminate];
    unfold recog_request_set_params, recog_request_get_params, recog_request_define_grammar,
      recog_request_recognize, recog_request_interpret, recog_request_get_result,
      recog_request_recognition_start_timers, recog_request_stop; recog_go.
  all: recog_done.
Qed.

Lemma recog_event_follows i m s w sel :
  recog_inv s -> recog_message_ok m -> message_type (start_line m) = MRCP_MESSAGE_TYPE_EVENT ->
  method_id (start_line m) = event_num i ->
  wp False (recog_event_method i m) (s, w)
    (follows w (recog_spec_update (spec_of s) (brief_of m) sel)).
Proof.
  intros Hi Hm Hty Hme. destruct (recog_completion_cause_ensure_brief m Hm) as (mc & Ec & Hb).
  destruct s as [ac st ip ar r q pr], Hi as [H1 H4 H5]. cbn in H1, H4, H5.
  assert (Ht : b_type (brief_of m) = MRCP_MESSAGE_TYPE_EVENT) by done.
  assert (He : enum_of recognizer_events (b_method (brief_of m)) = Some i)
    by (unfold brief_of; cbn; by rewrite Hme, recog_events_all).
  unfold recog_spec_update. rewrite Ht, He. unfold recog_spec_event, spec_then, spec_next.
  cbn [sp_state sp_recog spec_of state].
  destruct r as [r|], ar as [a|], ac, q as [|p q], i; cbn [recog_event_method];
    try (pose proof (List.Forall_inv H5) as Hp; pose proof (List.Forall_inv_tail H5) as Hq; cbn in Hp);
    unfold recog_event_start_of_input, recog_event_recognition_complete,
      recog_event_interpretation_complete; recog_go.
  all: recog_done.
Qed.

Lemma recog_response_stop_follows m s w r :
  recog_inv s -> generic_ok m -> active_request s = Some r ->
  method_id (start_line r) = method_num RECOGNIZER_STOP ->
  wp False (recog_response_stop m) (s, w)
    (follows w (spec_then (spec_respond (spec_idle (spec_remove (selection r) (spec_of s))) (brief_of m))
                  spec_next)).
Proof.
  intros Hi Hg Har Hme. destruct s as [ac st ip ar rg q pr], Hi as [H1 H4 H5].
  cbn in H1, H4, H5, Har. subst ar. rewrite (selection_stop r Hme).
  destruct rg as [rg|]; [|by destruct (H4 r eq_refl)].
  destruct (active_request_id_add_ok (request_id (start_line rg)) m Hg) as (ma & Ea & Hga & Hba).
  assert (HF := pending_rest_Forall _ (selective_ids r) q H5).
  unfold recog_response_stop. wp_with fail. apply wp_deref. cbn. wp_with fail. apply wp_lift.
  rewrite Ea. wp_with fail. apply wp_deref. cbn. wp_with fail.
  apply recog_remove_wp; [done|]. cbn [queue]. intros mr Hbr. wp_with fail. apply recog_state_change_wp.
  wp_with fail. unfold spec_then, spec_next, spec_respond, spec_idle, spec_remove, spec_of. cbn.
  rewrite <-pending_rest_brief. destruct (pending_rest (selective_ids r) q) as [|p q'];
    [|pose proof (List.Forall_inv HF) as Hp; pose proof (List.Forall_inv_tail HF) as Hq; cbn in Hp];
    destruct ac; cbn [map]; recog_go; recog_done.
Qed.

Lemma recog_response_follows i m s w r sel :
  recog_inv s -> recog_message_ok m -> message_type (start_line m) = MRCP_MESSAGE_TYPE_RESPONSE ->
  active_request s = Some r -> request_id (start_line r) = request_id (start_line m) ->
  method_id (start_line r) = method_num i -> method_id (start_line m) = method_num i ->
  wp False (recog_response_method i m) (s, w)
    (follows w (recog_spec_update (spec_of s) (brief_of m) sel)).
Proof.
  intros Hi Hm Hty Har Hid Hmr Hme.
  destruct (recog_completion_cause_ensure_brief m Hm) as (mc & Ec & Hb).
  assert (Hadd : forall id, exists m', active_request_id_add id m = Some m' /\ generic_ok m' /\ brief_of m' = brief_of m)
    by (intros id; apply active_request_id_add_ok, (ok_generic m Hm)).
  destruct s as [ac st ip ar rg q pr], Hi as [H1 H4 H5]. cbn in H1, H4, H5, Har. subst ar.
  specialize (H4 r eq_refl). rewrite Hmr in H4.
  assert (Ht : b_type (brief_of m) = MRCP_MESSAGE_TYPE_RESPONSE) by done.
  assert (He : enum_of recognizer_methods (b_method (brief_of m)) = Some i)
    by (unfold brief_of; cbn; by rewrite Hme, recog_methods_all).
  assert (Hsel : selection r = if decide (i = RECOGNIZER_STOP) then selects (selective_ids r) else select_all)
    by (case_decide; [subst i; by apply selection_stop|by eapply selection_other]).
  unfold recog_spec_update. rewrite Ht, He.
  cbn [sp_waiting spec_of fmap option_fmap option_map active_request].
  cbn [b_id brief_of]. rewrite Hid, Z.eqb_refl. cbn [negb].
  unfold recog_spec_response, spec_then, spec_next.
  destruct rg as [rg|], ac, i; try (by destruct H4; auto); cbn [recog_response_method];
    first [rewrite decide_True in Hsel by done | rewrite decide_False in Hsel by discriminate];
    unfold recog_response_set_params, recog_response_get_params, recog_response_define_grammar,
      recog_response_recognize, recog_response_interpret, recog_response_get_result,
      recog_response_recognition_start_timers;
    lazymatch goal with
    | |- wp _ (recog_response_stop _) _ _ =>
        apply recog_response_stop_follows; [by split; cbn; rewrite ?Hmr; eauto|apply (ok_generic m Hm)|done..]
    | |- _ =>
        cbn [b_state brief_of];
        try destruct (decide (request_state (start_line m) = MRCP_REQUEST_STATE_INPROGRESS));
        recog_go; recog_done
    end.
Qed.

Lemma recog_method_of_num (z : Z) i : enum_of recognizer_methods z = Some i -> z = method_num i.
Proof. apply enum_of_num. decide_now. Qed.
Lemma recog_event_of_num (z : Z) i : enum_of recognizer_events z = Some i -> z = event_num i.
Proof. apply enum_of_num. decide_now. Qed.

Lemma recog_follows_same s w b : recog_inv s -> follows w (spec_of s, []) b (s, w).
Proof. intros Hi. split; [done|]. exists []. by rewrite app_nil_r. Qed.

Lemma recog_update_follows m s w :
  recog_inv s -> recog_message_ok m -> repeats_method s m ->
  wp False (recog_update m) (s, w)
    (follows w (recog_spec_update (spec_of s) (brief_of m) (selection m))).
Proof.
  intros Hi Hm Hrep. unfold recog_update, mrcp_state_machine_update, recog_state_update.
  destruct (message_type (start_line m)) eqn:Hty.
  - unfold recog_spec_update. cbn [b_type brief_of]. rewrite Hty. by apply recog_follows_same.
  - unfold recog_request_state_update. destruct (enum_of _ _) as [i|] eqn:En.
    + apply recog_request_follows; [done..|]. by apply recog_method_of_num.
    + unfold recog_spec_update. cbn [b_type b_method brief_of]. rewrite Hty, En. by apply recog_follows_same.
  - unfold recog_response_state_update. apply wp_bind, wp_get.
    unfold recog_spec_update at 1. cbn [b_type b_method b_id brief_of sp_waiting spec_of]. rewrite Hty.
    destruct (active_request s) as [r|] eqn:Ear; [|by apply recog_follows_same].
    cbn [fmap option_fmap option_map].
    destruct (enum_of _ _) as [i|] eqn:En; [|destruct (negb _); by apply recog_follows_same].
    destruct (Z.eqb_spec (request_id (start_line r)) (request_id (start_line m))) as [Hid|Hid];
      cbn [negb]; [|by apply recog_follows_same].
    apply recog_method_of_num in En. specialize (Hrep Hty r Ear Hid).
    pose proof (recog_response_follows i m s w r (selection m) Hi Hm Hty Ear Hid ltac:(congruence) En) as HF.
    unfold recog_spec_update in HF. cbn [b_type b_method b_id brief_of sp_waiting spec_of] in HF.
    rewrite Hty, Ear, En, recog_methods_all in HF. cbn [fmap option_fmap option_map] in HF.
    rewrite Hid, Z.eqb_refl in HF. exact HF.
  - unfold recog_event_state_update. destruct (enum_of _ _) as [i|] eqn:En.
    + apply recog_event_follows; [done..|]. by apply recog_event_of_num.
    + unfold recog_spec_update. cbn [b_type b_method brief_of]. rewrite Hty, En. by apply recog_follows_same.
Qed.

(** The requests selected by the STOP request a deactivation makes. *)
Definition deactivation_selection (s : mrcp_recog_state_machine_t) : Z -> bool :=
  match recog s with
  | Some r => selection (deactivation_request r (method_num RECOGNIZER_STOP))
  | None => select_all
  end.

Lemma recog_deactivate_follows s w :
  recog_inv s ->
  wp False recog_deactivate (s, w)
    (follows w (recog_spec_deactivate (spec_of s) (deactivation_selection s))).
Proof.
  intros Hi. destruct s as [ac st ip ar r q pr], Hi as [H1 H4 H5]. cbn in H1, H4, H5.
  unfold recog_deactivate, mrcp_state_machine_deactivate, recog_state_deactivate,
    recog_spec_deactivate, deactivation_selection.
  destruct r as [r|], st; try (by destruct (H1 eq_refl)); cbn [recog]; recog_go; try recog_done.
  pose proof (deactivation_brief m (method_num RECOGNIZER_STOP)) as Hb.
  set (stop := deactivation_request m (method_num RECOGNIZER_STOP)) in *. clearbody stop.
  rewrite Hb. unfold brief_of in Hb. by injection Hb as _ -> -> _ _.
Qed.

Lemma recog_run_follows {B} (m : prog (mrcp_recog_state_machine_t * list (output recog_message)) B) s w p :
  wp False m (s, w) (fun _ sw => recog_inv (fst sw) /\
      exists outs, snd sw = w ++ outs /\ (spec_of (fst sw), map told_of outs) = p) ->
  exists b s' outs, m (s, w) = Some (b, (s', w ++ outs)) /\ recog_inv s' /\
                    (spec_of s', map told_of outs) = p.
Proof.
  intros (b & [s' w'] & E & HI & outs & Hw & Hp)%wp_total. cbn in *. subst w'.
  by exists b, s', outs.
Qed.

(** C14: the recognizer state machine implements its specification.  Updated with any message
    built by the library, a response repeating the method of the request it answers, and when
    it is deactivated, the machine returns, and its state, the recognition in progress, the
    queue, the request awaiting an answer and the messages and notices its owner is told are
    those of the abstract recognizer: RECOGNIZE is queued while a recognition is in progress,
    STOP reaches the engine only if it selects the recognition in progress and otherwise
    removes the queued requests it selects, the response to STOP and RECOGNITION-COMPLETE let
    the next queued request through, and the answer to a queued request is not passed on. *)
Theorem recog_refines_spec s w :
  recog_inv s ->
  (forall m, recog_message_ok m -> repeats_method s m ->
   exists b s' outs, recog_update m (s, w) = Some (b, (s', w ++ outs)) /\ recog_inv s' /\
     (spec_of s', map told_of outs) = recog_spec_update (spec_of s) (brief_of m) (selection m)) /\
  exists b s' outs, recog_deactivate (s, w) = Some (b, (s', w ++ outs)) /\ recog_inv s' /\
     (spec_of s', map told_of outs) = recog_spec_deactivate (spec_of s) (deactivation_selection s).
Proof.
  intros Hi. split; [intros m Hm Hr|]; apply recog_run_follows;
    [by apply recog_update_follows|by apply recog_deactivate_follows].
Qed.
End RefinementProof.

(** * At concrete inputs *)

Section Samples.
#[local] Existing Instance apr_reference.
#[local] Existing Instance apr_reference_laws.
#[local] Existing Instance float_integers.

Definition sample_recog_request (i : mrcp_recognizer_method_id) (id : Z) : recog_message :=
  set_start_line (fun sl => sl <| request_id := id |>)
    (mrcp_request_create (Some mrcp_recog_resource_create) MRCP_VERSION_2 (method_num i)).

Lemma sample_recog_request_ok (i : mrcp_recognizer_method_id) (id : Z) :
  recog_message_ok (sample_recog_request i id).
Proof.
  split; [|by destruct i|].
  - exists MRCP_VERSION_2, (Some mrcp_generic_header_init).
    split; [destruct i; reflexivity|unfold request_ids_ok; simpl; lia].
  - eexists. destruct i; reflexivity.
Qed.

Definition fresh_recog : mrcp_recog_state_machine_t :=
  mrcp_recog_state_machine_create MRCP_VERSION_2.

Lemma fresh_recog_inv : recog_inv fresh_recog.
Proof. split; [discriminate|discriminate|constructor]. Qed.

(** A RECOGNIZE request that arrives while another is in progress is queued and answered so. *)
Lemma recog_refines_spec_witness :
  exists b s' outs,
    recog_update (sample_recog_request RECOGNIZER_RECOGNIZE 7)
      (fresh_recog <| state := RECOGNIZER_STATE_RECOGNIZING |> <| recog :=
         Some (sample_recog_request RECOGNIZER_RECOGNIZE 6) |>, [])
      = Some (b, (s', [] ++ outs)) /\ recog_inv s' /\
    (spec_of s', map told_of outs) =
    (mk_spec true RECOGNIZER_STATE_RECOGNIZING false None (Some 6)
       [mk_brief MRCP_MESSAGE_TYPE_REQUEST (method_num RECOGNIZER_RECOGNIZE) 7
          MRCP_REQUEST_STATE_PENDING MRCP_STATUS_CODE_UNKNOWN],
     [Told (mk_brief MRCP_MESSAGE_TYPE_RESPONSE (method_num RECOGNIZER_RECOGNIZE) 7
              MRCP_REQUEST_STATE_PENDING MRCP_STATUS_CODE_SUCCESS)]).
Proof.
  destruct (recog_refines_spec (fresh_recog <| state := RECOGNIZER_STATE_RECOGNIZING |> <| recog :=
         Some (sample_recog_request RECOGNIZER_RECOGNIZE 6) |>) []) as [H _].
  - split; [discriminate|discriminate|constructor].
  - destruct (H (sample_recog_request RECOGNIZER_RECOGNIZE 7)) as (b & s' & outs & E & Hi & Hs).
    + apply sample_recog_request_ok.
    + intros Hty. discriminate Hty.
    + exists b, s', outs. split; [exact E|]. split; [exact Hi|]. exact Hs.
Defined.
End Samples.
