(* ===== verification/CyclicQueue.v ===== *)
(** The cyclic queue of the toolkit ([apr-toolkit/src/apt_cyclic_queue.c]), which the tasks and the
    media engine queue their messages in: a ring in memory that grows by half when it is full. *)

From S2P Require Import Prelude.

(** * The code *)

Section CyclicQueue.
Context {A : Type}.

(** Memory that was never written holds [None]; the value stored there may not be relied on. *)
Record apt_cyclic_queue_t := mk_queue {
  qdata : list (option A);
  max_size : nat;
  actual_size : nat;
  head : nat;
  tail : nat
}.
#[global] Instance eta_queue : Eta apt_cyclic_queue_t := fun q =>
  mk_queue (qdata q) (max_size q) (actual_size q) (head q) (tail q).
Abbreviation queue := apt_cyclic_queue_t.

Definition CYCLIC_QUEUE_DEFAULT_SIZE : nat := 100.

Definition apt_cyclic_queue_create (size : nat) : queue :=
  mk_queue (replicate size None) size 0 0 0.

(** The tail of the old memory from [head] on, then what comes before [head]. *)
Definition apt_cyclic_queue_resize (q : queue) : queue :=
  let new_size := (max_size q + max_size q / 2)%nat in
  let copied := drop (head q) (qdata q) ++ take (head q) (qdata q) in
  mk_queue (copied ++ replicate (new_size - length copied) None) new_size (actual_size q)
    (max_size q) 0.

(** A store outside of the memory and a division by zero are undefined. *)
Definition apt_cyclic_queue_push (q : queue) (obj : A) : option (bool * queue) :=
  let q := if (max_size q <=? actual_size q)%nat then apt_cyclic_queue_resize q else q in
  if (head q <? length (qdata q))%nat then
    Some (true, q <| qdata := <[head q := Some obj]> (qdata q) |>
                  <| head := ((head q + 1) mod max_size q)%nat |>
                  <| actual_size := S (actual_size q) |>)
  else None.

(** [None] for NULL; the inner option is what the memory holds. *)
Definition apt_cyclic_queue_pop (q : queue) : option (option A * queue) :=
  if (actual_size q =? 0)%nat then Some (None, q)
  else
    let? obj := qdata q !! tail q in
    Some (obj, q <| tail := ((tail q + 1) mod max_size q)%nat |> <| actual_size := pred (actual_size q) |>).

Definition apt_cyclic_queue_clear (q : queue) : queue :=
  q <| actual_size := 0%nat |> <| head := 0%nat |> <| tail := 0%nat |>.

Definition apt_cyclic_queue_is_empty (q : queue) : bool := negb (actual_size q =? 0)%nat.

(** * What it holds *)

(** Object [i] of the queue is [i] places after its tail. *)
Record holds (q : queue) (l : list A) : Prop := {
  h_length : length (qdata q) = max_size q;
  h_actual : actual_size q = length l;
  h_fits : (length l <= max_size q)%nat;
  h_tail : (tail q < max_size q)%nat;
  h_head : head q = ((tail q + length l) mod max_size q)%nat;
  h_object : forall i x, l !! i = Some x -> qdata q !! ((tail q + i) mod max_size q)%nat = Some (Some x)
}.

Lemma create_holds (size : nat) : (0 < size)%nat -> holds (apt_cyclic_queue_create size) [].
Proof.
  intros Hs. split; try done; cbn.
  - apply length_replicate.
  - lia.
  - by rewrite Nat.mod_small.
Qed.

Lemma mod_cases (a n : nat) : (a < 2 * n)%nat -> (a mod n = if a <? n then a else a - n)%nat.
Proof.
  intros Ha. destruct (Nat.ltb_spec a n); [by apply Nat.mod_small|].
  rewrite <-(Nat.mod_small (a - n) n) by lia. replace a with (a - n + 1 * n)%nat at 1 by lia.
  apply Nat.Div0.mod_add.
Qed.

Lemma resize_holds (q : queue) (l : list A) :
  holds q l -> length l = max_size q -> (2 <= max_size q)%nat ->
  holds (apt_cyclic_queue_resize q) l /\ (max_size q < max_size (apt_cyclic_queue_resize q))%nat.
Proof.
  intros [Hl Ha Hf Ht Hh Ho] Hfull Hm.
  assert (Hhalf : (1 <= max_size q / 2)%nat) by (apply Nat.div_le_lower_bound; lia).
  assert (Hht : head q = tail q).
  { rewrite Hh, mod_cases by lia. destruct (Nat.ltb_spec (tail q + length l) (max_size q)); lia. }
  assert (Hcl : length (drop (head q) (qdata q) ++ take (head q) (qdata q)) = max_size q).
  { rewrite length_app, length_drop, length_take. lia. }
  unfold apt_cyclic_queue_resize. cbn [max_size]. split; [|lia].
  split; cbn [qdata max_size actual_size head tail].
  - rewrite length_app, length_replicate, Hcl. lia.
  - done.
  - lia.
  - lia.
  - rewrite Hfull, Nat.mod_small by lia. lia.
  - intros i x Hi. assert (Hil : (i < length l)%nat) by (by eapply lookup_lt_Some).
    rewrite Nat.add_0_l, Nat.mod_small by lia. rewrite lookup_app_l by lia.
    specialize (Ho i x Hi). rewrite mod_cases in Ho by lia. rewrite Hht.
    destruct (Nat.ltb_spec (tail q + i) (max_size q)) as [Hlt|Hge].
    + rewrite lookup_app_l by (rewrite length_drop; lia). by rewrite lookup_drop.
    + rewrite lookup_app_r by (rewrite length_drop; lia). rewrite length_drop, lookup_take_lt by lia.
      rewrite <-Ho. f_equal. lia.
Qed.

Lemma store_holds (q : queue) (l : list A) (x : A) :
  holds q l -> (length l < max_size q)%nat ->
  (head q < length (qdata q))%nat /\
  holds (q <| qdata := <[head q := Some x]> (qdata q) |> <| head := ((head q + 1) mod max_size q)%nat |>
           <| actual_size := S (actual_size q) |>) (l ++ [x]).
Proof.
  intros [Hl Ha Hf Ht Hh Ho] Hlt.
  assert (Hhead : (head q < max_size q)%nat) by (rewrite Hh; apply Nat.mod_upper_bound; lia).
  split; [lia|]. split; cbn [field_set qdata max_size actual_size head tail]; rewrite ?length_app; cbn [length].
  - rewrite length_insert. done.
  - lia.
  - lia.
  - done.
  - rewrite Hh. rewrite Nat.Div0.add_mod_idemp_l. f_equal. lia.
  - intros i y Hi. destruct (decide (i = length l)) as [->|D].
    + rewrite lookup_app_r, Nat.sub_diag in Hi by lia. injection Hi as <-.
      rewrite <-Hh. apply list_lookup_insert_eq. lia.
    + assert (i < length l)%nat by (apply lookup_lt_Some in Hi; rewrite length_app in Hi; simpl in Hi; lia).
      rewrite lookup_app_l in Hi by lia. rewrite list_lookup_insert_ne; [by apply Ho|].
      rewrite Hh, !mod_cases by lia.
      destruct (Nat.ltb_spec (tail q + length l) (max_size q)), (Nat.ltb_spec (tail q + i) (max_size q)); lia.
Qed.

(** A push is defined unless the queue is full and cannot grow. *)
Lemma push_holds (q : queue) (l : list A) (x : A) :
  holds q l -> (length l < max_size q)%nat \/ (2 <= max_size q)%nat ->
  exists q', apt_cyclic_queue_push q x = Some (true, q') /\ holds q' (l ++ [x]) /\
    (max_size q <= max_size q')%nat.
Proof.
  intros Hq Hroom. pose proof (h_actual q l Hq) as Ha. pose proof (h_fits q l Hq) as Hf.
  unfold apt_cyclic_queue_push. destruct (Nat.leb_spec (max_size q) (actual_size q)) as [Hfull|Hnot].
  - destruct (resize_holds q l Hq) as [Hr Hm]; [lia|lia|].
    destruct (store_holds _ l x Hr) as [Hh Hs]; [lia|]. rewrite (proj2 (Nat.ltb_lt _ _) Hh).
    eexists. split; [reflexivity|]. split; [exact Hs|]. cbn [field_set max_size]. lia.
  - destruct (store_holds q l x Hq) as [Hh Hs]; [lia|]. rewrite (proj2 (Nat.ltb_lt _ _) Hh).
    eexists. split; [reflexivity|]. by split.
Qed.

Lemma pop_holds (q : queue) (l : list A) (x : A) :
  holds q (x :: l) -> exists q', apt_cyclic_queue_pop q = Some (Some x, q') /\ holds q' l /\ max_size q' = max_size q.
Proof.
  intros [Hl Ha Hf Ht Hh Ho]. unfold apt_cyclic_queue_pop. rewrite Ha. cbn [length Nat.eqb] in *.
  pose proof (Ho 0%nat x eq_refl) as H0. rewrite Nat.add_0_r, Nat.mod_small in H0 by lia. rewrite H0.
  eexists. split; [reflexivity|]. split; [|done].
  split; cbn [field_set qdata max_size actual_size head tail]; try done; try lia.
  - apply Nat.mod_upper_bound. lia.
  - rewrite Hh, Nat.Div0.add_mod_idemp_l. f_equal. lia.
  - intros i y Hi. rewrite Nat.Div0.add_mod_idemp_l, <-Nat.add_assoc. by apply (Ho (S i)).
Qed.

Lemma pop_empty (q : queue) : holds q [] -> apt_cyclic_queue_pop q = Some (None, q).
Proof. intros Hq. unfold apt_cyclic_queue_pop. by rewrite (h_actual q [] Hq). Qed.

Lemma clear_holds (q : queue) (l : list A) : holds q l -> holds (apt_cyclic_queue_clear q) [].
Proof.
  intros [Hl Ha Hf Ht Hh Ho]. split; cbn [apt_cyclic_queue_clear field_set qdata max_size actual_size head tail length];
    try done; try lia. by rewrite Nat.mod_small by lia.
Qed.

(** * The abstract queue *)

Inductive queue_op := PUSH (x : A) | POP | CLEAR | IS_EMPTY.
Inductive queue_answer := PUSHED (b : bool) | POPPED (x : option A) | CLEARED | EMPTY (b : bool).

Definition queue_exec (op : queue_op) (q : queue) : option (queue_answer * queue) :=
  match op with
  | PUSH x => let? (b, q) := apt_cyclic_queue_push q x in Some (PUSHED b, q)
  | POP => let? (r, q) := apt_cyclic_queue_pop q in Some (POPPED r, q)
  | CLEAR => Some (CLEARED, apt_cyclic_queue_clear q)
  | IS_EMPTY => Some (EMPTY (apt_cyclic_queue_is_empty q), q)
  end.

Fixpoint queue_run (ops : list queue_op) (q : queue) : option (list queue_answer * queue) :=
  match ops with
  | [] => Some ([], q)
  | op :: ops =>
      let? (r, q) := queue_exec op q in
      let? (out, q) := queue_run ops q in Some (r :: out, q)
  end.

(** The list of the objects, and what the queue answers.  The test for emptiness is that of the code, which is
    positive when there are objects, and not that of its comment. *)
Definition fifo_exec (op : queue_op) (l : list A) : queue_answer * list A :=
  match op with
  | PUSH x => (PUSHED true, l ++ [x])
  | POP => (POPPED (List.hd_error l), List.tl l)
  | CLEAR => (CLEARED, [])
  | IS_EMPTY => (EMPTY (negb (length l =? 0)%nat), l)
  end.

Fixpoint fifo_run (ops : list queue_op) (l : list A) : list queue_answer * list A :=
  match ops with
  | [] => ([], l)
  | op :: ops =>
      let '(r, l) := fifo_exec op l in
      let '(out, l) := fifo_run ops l in (r :: out, l)
  end.

Lemma queue_exec_holds (op : queue_op) (q : queue) (l : list A) :
  holds q l -> (2 <= max_size q)%nat ->
  exists q', queue_exec op q = Some (fst (fifo_exec op l), q') /\ holds q' (snd (fifo_exec op l)) /\
    (max_size q <= max_size q')%nat.
Proof.
  intros Hq Hm. destruct op as [x| | |]; cbn [queue_exec fifo_exec fst snd].
  - destruct (push_holds q l x Hq) as (q1 & -> & Hq1 & Hm1); [by right|]. by exists q1.
  - destruct l as [|x l]; cbn [List.tl List.hd_error].
    + rewrite (pop_empty q Hq). by exists q.
    + destruct (pop_holds q l x Hq) as (q1 & -> & Hq1 & Hm1). exists q1. split; [done|]. split; [done|lia].
  - eexists. split; [done|]. split; [by eapply clear_holds|cbn; lia].
  - exists q. unfold apt_cyclic_queue_is_empty. rewrite (h_actual q l Hq). by split.
Qed.

Lemma queue_run_holds (ops : list queue_op) : forall q l,
  holds q l -> (2 <= max_size q)%nat ->
  exists q', queue_run ops q = Some (fst (fifo_run ops l), q') /\ holds q' (snd (fifo_run ops l)).
Proof.
  induction ops as [|op ops IH]; intros q l Hq Hm; cbn [queue_run fifo_run]; [by exists q|].
  destruct (queue_exec_holds op q l Hq Hm) as (q1 & -> & Hq1 & Hm1). destruct (fifo_exec op l) as [r l1]. cbn [fst snd] in *.
  destruct (IH q1 l1 Hq1 ltac:(lia)) as (q' & E & Hq'). rewrite E. destruct (fifo_run ops l1). by exists q'.
Qed.

End CyclicQueue.
Arguments apt_cyclic_queue_t : clear implicits.
Arguments queue_op : clear implicits.

(** * Properties *)

(** C33: the queue is a FIFO queue: any sequence of pushes, pops, clears and tests for emptiness on a queue
    created with room for two objects at least is defined and answers as the list of its objects does, with one
    exception: the test for emptiness answers that the queue holds objects, which is the opposite of what its comment
    promises. *)
Theorem cyclic_queue_refines_fifo {A : Type} (size : nat) (ops : list (queue_op A)) :
  (2 <= size)%nat ->
  exists q, queue_run ops (apt_cyclic_queue_create size) = Some (fst (fifo_run ops []), q) /\
    holds q (snd (fifo_run ops [])).
Proof. intros Hs. apply queue_run_holds; [apply create_holds; lia|done]. Qed.

Lemma cyclic_queue_refines_fifo_witness :
  exists q, queue_run [IS_EMPTY; PUSH 1; PUSH 2; POP; PUSH 3; PUSH 4; PUSH 5; POP; IS_EMPTY; POP] (apt_cyclic_queue_create 2)
    = Some ([EMPTY false; PUSHED true; PUSHED true; POPPED (Some 1); PUSHED true; PUSHED true; PUSHED true; POPPED (Some 2);
             EMPTY true; POPPED (Some 3)], q) /\ holds q [4; 5].
Proof.
  apply (cyclic_queue_refines_fifo 2 [IS_EMPTY; PUSH 1; PUSH 2; POP; PUSH 3; PUSH 4; PUSH 5; POP; IS_EMPTY; POP]). lia.
Defined.

(** A queue of one object does not grow: when it is full the next push stores outside of its
    memory; and the test for emptiness answers the opposite. *)
Theorem cyclic_queue_defects {A : Type} (q : apt_cyclic_queue_t A) (l : list A) (x : A) :
  holds q l ->
  (apt_cyclic_queue_push q x = None <-> length l = max_size q /\ max_size q = 1%nat) /\
  (apt_cyclic_queue_is_empty q = true <-> l <> []).
Proof.
  intros Hq. pose proof (h_fits q l Hq) as Hf. pose proof (h_tail q l Hq) as Ht.
  pose proof (h_actual q l Hq) as Ha. split.
  - split.
    + intros E. destruct (decide (length l < max_size q \/ 2 <= max_size q)%nat) as [Hd|Hd]; [|lia].
      destruct (push_holds q l x Hq Hd) as (q' & E' & _). congruence.
    + intros [Hl Hm]. unfold apt_cyclic_queue_push. rewrite Ha, Hl, Hm, Nat.leb_refl.
      unfold apt_cyclic_queue_resize. cbn [head qdata]. rewrite Hm.
      rewrite (proj2 (Nat.ltb_ge _ _)); [done|]. pose proof (h_length q l Hq) as Hd.
      rewrite !length_app, length_replicate, length_drop, length_take. cbn. lia.
  - unfold apt_cyclic_queue_is_empty. rewrite Ha. by destruct l.
Qed.

Lemma cyclic_queue_defects_witness :
  exists q, apt_cyclic_queue_push (apt_cyclic_queue_create 1) 7 = Some (true, q) /\
    apt_cyclic_queue_push q 8 = None.
Proof.
  eexists. split; [reflexivity|].
  apply (cyclic_queue_defects _ [7] 8); [|done].
  split; try done; [cbn; lia..|]. intros [|i] x; [by intros [= <-]|done].
Defined.
