(* ===== verification/TimerQueue.v ===== *)
(** The timer queue of the toolkit ([apr-toolkit/src/apt_timer_queue.c]), which the poller tasks drive
    and the client agent sets its request timers in: the timers that are set in the order of their
    times, in milliseconds since the queue was last empty.  The timers are a store indexed by their
    addresses, the ring is the list of the addresses it links. *)

From S2P Require Import Prelude.
From Stdlib Require Import Sorting.Sorted.

(** * The code *)

(** [has_proc]: the timer has a procedure to be called. *)
Record apt_timer_t := mk_timer { scheduled_time : Z; has_proc : bool }.
#[global] Instance eta_timer : Eta apt_timer_t := fun t => mk_timer (scheduled_time t) (has_proc t).

(** The ring links the timers that are set, by address; [fired] are the timers whose procedures
    were called, in order. *)
Record apt_timer_queue_t := mk_timer_queue {
  ring : list addr;
  elapsed_time : Z;
  timers : gmap addr apt_timer_t;
  next_timer : addr;
  fired : list addr
}.
#[global] Instance eta_timer_queue : Eta apt_timer_queue_t := fun q =>
  mk_timer_queue (ring q) (elapsed_time q) (timers q) (next_timer q) (fired q).
Abbreviation act := (prog apt_timer_queue_t).

Definition apt_timer_queue_create : apt_timer_queue_t := mk_timer_queue [] 0 empty 0 [].

Definition apt_timer_queue_is_empty (q : apt_timer_queue_t) : bool :=
  match ring q with [] => true | _ => false end.

Definition get_timer (a : addr) : act apt_timer_t :=
  let* q := gets (fun q => q) in deref_ptr (timers q !! a).

Definition set_time (a : addr) (time : Z) : act unit :=
  let* t := get_timer a in
  modify (fun q => q <| timers := <[a := t <| scheduled_time := time |>]> (timers q) |>).

(** The time the first timer is due in. *)
Definition apt_timer_queue_timeout_get : act (option Z) :=
  let* q := gets (fun q => q) in
  match ring q with
  | [] => ret None
  | a :: _ => let* t := get_timer a in ret (Some (u32 (scheduled_time t - elapsed_time q)))
  end.

Definition apt_timer_create (proc : bool) : act addr :=
  let* a := gets next_timer in
  modify (fun q => q <| next_timer := S a |> <| timers := <[a := mk_timer 0 proc]> (timers q) |>) ;;;
  ret a.

Definition sched (q : apt_timer_queue_t) (a : addr) : Z :=
  match timers q !! a with Some t => scheduled_time t | None => 0 end.

(** From the last timer back to the first that is not later: the list is in the order of the walk. *)
Fixpoint timer_walk (time : addr -> Z) (a : addr) (l : list addr) : list addr :=
  match l with
  | [] => [a]
  | it :: l' => if time it <=? time a then a :: l else it :: timer_walk time a l'
  end.

(** A timer that is linked twice breaks the ring. *)
Definition apt_timer_insert (a : addr) : act bool :=
  let* q := gets (fun q => q) in
  if decide (a ∈ ring q) then crash
  else
    modify (fun q => q <| ring := rev (timer_walk (sched q) a (rev (ring q))) |>) ;;; ret true.

Definition apt_timer_set (a : addr) (timeout : Z) : act bool :=
  let* t := get_timer a in
  if (timeout <=? 0) || negb (has_proc t) then ret false
  else
    let* e := gets elapsed_time in
    set_time a (u32 (e + timeout)) ;;; apt_timer_insert a.

(** A timer that is not in the ring cannot be taken off it. *)
Definition ring_remove (a : addr) : act unit :=
  let* q := gets (fun q => q) in
  if decide (a ∈ ring q) then
    modify (fun q => q <| ring := List.filter (fun b => negb (b =? a)%nat) (ring q) |>)
  else crash.

Definition apt_timer_kill (a : addr) : act bool :=
  let* t := get_timer a in
  if scheduled_time t =? 0 then ret false
  else
    ring_remove a ;;;
    set_time a 0 ;;;
    modify (fun q => match ring q with [] => q <| elapsed_time := 0 |> | _ => q end) ;;;
    ret true.

(** The timers of the ring, from the last to the first. *)
Definition apt_timers_reschedule (q : apt_timer_queue_t) : apt_timer_queue_t :=
  q <| timers := foldr (fun a m => alter (fun t =>
                   t <| scheduled_time := u32 (scheduled_time t - elapsed_time q) |>) a m)
                   (timers q) (ring q) |>
    <| elapsed_time := 0 |>.

Section Advance.
(** The procedures of the timers act on the state of the owner of the queue, the queue included. *)
Context {S : Type} (queue_of : S -> apt_timer_queue_t) (queue_set : apt_timer_queue_t -> S -> S).
Context (timer_proc : addr -> prog S unit).

Definition on_queue {A} (m : act A) : prog S A := fun s =>
  let? (x, q) := m (queue_of s) in Some (x, queue_set q s).

Fixpoint timers_process (fuel : nat) : prog S unit :=
  match fuel with
  | O => crash
  | Datatypes.S fuel =>
      let* q := gets queue_of in
      match ring q with
      | [] => ret tt
      | a :: rest =>
          let* t := deref_ptr (timers q !! a) in
          if elapsed_time q <? scheduled_time t then ret tt
          else
            on_queue (modify (fun q => q <| ring := rest |>)) ;;;
            on_queue (set_time a 0) ;;;
            on_queue (modify (fun q => q <| fired := fired q ++ [a] |>)) ;;;
            timer_proc a ;;;
            let* q := gets queue_of in
            match ring q with [] => ret tt | _ => timers_process fuel end
      end
  end.

(** One pass per timer of the ring, and a last one. *)
Definition apt_timer_queue_advance (elapsed : Z) : prog S unit :=
  let* q := gets queue_of in
  match ring q with
  | [] => ret tt
  | _ =>
      let e := u32 (elapsed_time q + elapsed) in
      on_queue (modify (fun q => q <| elapsed_time := e |>)) ;;;
      (if 0xFFFF <=? e then on_queue (modify apt_timers_reschedule) else ret tt) ;;;
      timers_process (Datatypes.S (length (ring q)))
  end.
End Advance.

(** The queue on its own, with procedures that do nothing. *)
Definition passive_process : nat -> act unit :=
  timers_process (fun q => q) (fun q _ => q) (fun _ => ret tt).
Definition passive_advance : Z -> act unit :=
  apt_timer_queue_advance (fun q => q) (fun q _ => q) (fun _ => ret tt).

(** * The invariant *)

(** Between operations: the timers that are set are in the ring, in the order of their times, all
    to come. *)
Record timers_wf (q : apt_timer_queue_t) : Prop := {
  tw_nodup : NoDup (ring q);
  tw_sorted : StronglySorted Z.le (map (sched q) (ring q));
  tw_linked : forall a, a ∈ ring q <-> sched q a <> 0;
  tw_range : forall a, 0 <= sched q a < 2 ^ 32;
  tw_ahead : forall a, a ∈ ring q -> elapsed_time q < sched q a;
  tw_elapsed : 0 <= elapsed_time q < 0xFFFF;
  tw_fresh : forall a, (next_timer q <= a)%nat -> timers q !! a = None
}.

(** The timers that are set, with the time left. *)
Definition timeouts (q : apt_timer_queue_t) : list (addr * Z) :=
  map (fun a => (a, sched q a - elapsed_time q)) (ring q).

Lemma create_wf_timers : timers_wf apt_timer_queue_create.
Proof.
  assert (Hs : forall a, sched apt_timer_queue_create a = 0).
  { intros a. unfold sched. change (timers apt_timer_queue_create) with (@empty (gmap addr apt_timer_t) _).
    by rewrite lookup_empty. }
  split; try done.
  - constructor.
  - constructor.
  - intros a. rewrite Hs. split; [by intros ?%list.not_elem_of_nil|done].
  - intros a Ha. by apply list.not_elem_of_nil in Ha.
Qed.

Lemma set_time_eq q a t time :
  timers q !! a = Some t ->
  set_time a time q
  = Some (tt, q <| timers := <[a := t <| scheduled_time := time |>]> (timers q) |>).
Proof. intros E. unfold set_time, get_timer, bind, gets, deref_ptr. by rewrite E. Qed.

Lemma get_timer_eq q a t : timers q !! a = Some t -> get_timer a q = Some (t, q).
Proof. intros E. unfold get_timer, bind, gets, deref_ptr. by rewrite E. Qed.

Lemma sched_set q a t time b :
  sched (q <| timers := <[a := t <| scheduled_time := time |>]> (timers q) |>) b
  = if decide (b = a) then time else sched q b.
Proof.
  unfold sched. cbn [field_set timers]. case_decide; [subst; by rewrite lookup_insert_eq|].
  by rewrite lookup_insert_ne.
Qed.

(** The place of a new timer: behind all that are not later. *)
Lemma timer_walk_place time a l :
  exists l1 l2, l = l1 ++ l2 /\ rev (timer_walk time a (rev l)) = l1 ++ a :: l2 /\
    Forall (fun b => time a < time b) l2 /\
    match List.rev l1 with [] => True | b :: _ => time b <= time a end.
Proof.
  induction l as [|b l IH] using rev_ind.
  - exists [], []. by split_and!.
  - rewrite rev_app_distr. cbn [rev app timer_walk].
    destruct (Z.leb_spec (time b) (time a)) as [Hle|Hlt].
    + exists (l ++ [b]), []. rewrite app_nil_r. split; [done|]. cbn [rev]. rewrite rev_involutive.
      split; [by rewrite <-app_assoc|]. split; [constructor|]. by rewrite rev_app_distr.
    + destruct IH as (l1 & l2 & -> & E & Hf & Hl). exists l1, (l2 ++ [b]).
      split; [by rewrite app_assoc|]. cbn [rev]. rewrite E. split; [by rewrite <-app_assoc|].
      split; [|done]. apply Forall_app. split; [done|]. by constructor.
Qed.

Lemma sorted_app_inv (l1 l2 : list Z) :
  StronglySorted Z.le (l1 ++ l2) <->
  StronglySorted Z.le l1 /\ StronglySorted Z.le l2 /\
  forall x y, x ∈ l1 -> y ∈ l2 -> x <= y.
Proof.
  induction l1 as [|x l1 IH]; cbn [app].
  - split; [intros H; split_and!; [constructor|done|by intros x y ?%list.not_elem_of_nil]|by intros (_ & H & _)].
  - split.
    + intros [H Hx]%StronglySorted_inv. apply IH in H as (H1 & H2 & H3).
      apply Forall_app in Hx as [Hx1 Hx2]. split_and!; [by constructor|done|].
      intros z y [->|Hz]%list.elem_of_cons Hy; [|by apply H3]. rewrite list.Forall_forall in Hx2. by apply Hx2.
    + intros ([H1 Hx]%StronglySorted_inv & H2 & H3). constructor.
      * apply IH. split_and!; [done|done|]. intros z y Hz. apply H3. by apply list_elem_of_further.
      * apply Forall_app. split; [done|]. apply list.Forall_forall. intros y Hy. apply H3; [|done].
        apply list_elem_of_here.
Qed.

(** ** Setting a timer *)

Lemma timer_set_place q a t timeout :
  timers_wf q -> timers q !! a = Some t -> has_proc t = true -> scheduled_time t = 0 ->
  0 < timeout -> elapsed_time q + timeout < 2 ^ 32 ->
  exists q' l1 l2, apt_timer_set a timeout q = Some (true, q') /\ timers_wf q' /\
    timeouts q = l1 ++ l2 /\ timeouts q' = l1 ++ (a, timeout) :: l2 /\
    Forall (fun p => snd p <= timeout) l1 /\ Forall (fun p => timeout < snd p) l2 /\
    fired q' = fired q.
Proof.
  intros W E Hp Hz Ht Hlim. assert (W' := W). destruct W' as [W1 W2 W3 W4 W5 W6 W7].
  assert (Hs : sched q a = 0) by (unfold sched; by rewrite E).
  assert (Hna : a ∉ ring q) by (rewrite W3; lia).
  set (time := elapsed_time q + timeout).
  set (q1 := q <| timers := <[a := t <| scheduled_time := time |>]> (timers q) |>).
  assert (Hs1 : forall b, sched q1 b = if decide (b = a) then time else sched q b) by apply sched_set.
  assert (Hsame : forall b, b ∈ ring q -> sched q1 b = sched q b).
  { intros b Hb. rewrite Hs1. case_decide; [by subst|done]. }
  destruct (timer_walk_place (sched q1) a (ring q)) as (l1 & l2 & Er & Ew & Hl2 & Hl1).
  set (q2 := q1 <| ring := l1 ++ a :: l2 |>).
  exists q2, (map (fun b => (b, sched q b - elapsed_time q)) l1), (map (fun b => (b, sched q b - elapsed_time q)) l2).
  assert (Hta : sched q1 a = time) by (rewrite Hs1; by case_decide).
  assert (Hsort : StronglySorted Z.le (map (sched q) l1 ++ map (sched q) l2)).
  { rewrite <-map_app, <-Er. exact W2. }
  apply sorted_app_inv in Hsort as (S1 & S2 & S12).
  assert (Hin1 : forall b, b ∈ l1 -> b ∈ ring q) by (intros b Hb; rewrite Er; apply list.elem_of_app; by left).
  assert (Hin2 : forall b, b ∈ l2 -> b ∈ ring q) by (intros b Hb; rewrite Er; apply list.elem_of_app; by right).
  assert (Hle1 : forall b, b ∈ l1 -> sched q b <= time).
  { intros b Hb. destruct l1 as [|c l1 _] using rev_ind; [by apply list.not_elem_of_nil in Hb|].
    rewrite rev_app_distr in Hl1. cbn [rev app] in Hl1. rewrite Hta, Hsame in Hl1 by (apply Hin1, list.elem_of_app; right; apply list_elem_of_here).
    apply list.elem_of_app in Hb as [Hb|Hb%list_elem_of_singleton]; [|by subst].
    rewrite map_app in S1. apply sorted_app_inv in S1 as (_ & _ & S1). cbn in S1.
    etrans; [|exact Hl1]. apply S1; [by apply list_elem_of_In, in_map, list_elem_of_In|apply list_elem_of_here]. }
  assert (Hgt2 : forall b, b ∈ l2 -> time < sched q b).
  { intros b Hb. rewrite list.Forall_forall in Hl2. specialize (Hl2 b Hb). rewrite Hta, Hsame in Hl2; [done|by apply Hin2]. }
  split; [|split; [|split; [|split; [|split; [|split]]]]].
  - unfold apt_timer_set. unfold bind at 1. rewrite (get_timer_eq q a t E), Hp.
    rewrite (proj2 (Z.leb_gt _ _)) by lia. cbn [negb orb]. unfold bind at 1, gets at 1.
    unfold bind at 1. rewrite u32_small by lia. rewrite (set_time_eq q a t _ E).
    unfold apt_timer_insert, bind, gets. rewrite decide_False by done.
    unfold q2. by rewrite <-Ew.
  - assert (Hs2 : forall b, sched q2 b = if decide (b = a) then time else sched q b) by exact Hs1.
    assert (Hm1 : map (sched q2) l1 = map (sched q) l1).
    { apply map_ext_in. intros b Hb%list_elem_of_In. rewrite Hs2. case_decide; [|done]. subst. by destruct Hna; apply Hin1. }
    assert (Hm2 : map (sched q2) l2 = map (sched q) l2).
    { apply map_ext_in. intros b Hb%list_elem_of_In. rewrite Hs2. case_decide; [|done]. subst. by destruct Hna; apply Hin2. }
    split; change (ring q2) with (l1 ++ a :: l2); change (elapsed_time q2) with (elapsed_time q).
    + rewrite Er in W1, Hna. apply list.NoDup_app in W1 as (N1 & N2 & N3). apply list.not_elem_of_app in Hna as [Ha1 Ha2].
      apply list.NoDup_app. split_and!; [done| |].
      * intros b Hb [->|Hb']%list.elem_of_cons; [done|by apply (N2 b)].
      * apply list.NoDup_cons. by split.
    + rewrite map_app. cbn [map]. rewrite Hm1, Hm2, Hs2, decide_True by done.
      apply sorted_app_inv. split_and!; [done| |].
      * constructor; [done|]. apply List.Forall_map, list.Forall_forall. intros b Hb. specialize (Hgt2 b Hb). lia.
      * intros x y Hx [->|Hy]%list.elem_of_cons; [|by apply S12].
        apply list_elem_of_In, in_map_iff in Hx as (b & <- & Hb). by apply Hle1, list_elem_of_In.
    + intros b. rewrite Hs2. case_decide as D.
      * subst b. split; [lia|]. intros _. apply list.elem_of_app. right. apply list_elem_of_here.
      * rewrite <-W3, Er, !list.elem_of_app, list.elem_of_cons. tauto.
    + intros b. rewrite Hs2. case_decide; [lia|apply W4].
    + intros b Hb. rewrite Hs2. case_decide; [lia|]. apply W5. rewrite Er.
      apply list.elem_of_app in Hb as [Hb|[?|Hb]%list.elem_of_cons]; [|done|]; apply list.elem_of_app; [by left|by right].
    + done.
    + intros b Hb. change (next_timer q2) with (next_timer q) in Hb. specialize (W7 b Hb).
      apply lookup_insert_None. split; [done|]. intros ->. congruence.
  - unfold timeouts. rewrite Er at 1. apply map_app.
  - unfold timeouts. change (ring q2) with (l1 ++ a :: l2). change (elapsed_time q2) with (elapsed_time q).
    rewrite map_app. cbn [map].
    assert (Hs2 : forall b, sched q2 b = if decide (b = a) then time else sched q b) by exact Hs1.
    f_equal; [|f_equal].
    + apply map_ext_in. intros b Hb%list_elem_of_In. rewrite Hs2. case_decide; [|done]. subst. by destruct Hna; apply Hin1.
    + rewrite Hs2, decide_True by done. f_equal. unfold time. lia.
    + apply map_ext_in. intros b Hb%list_elem_of_In. rewrite Hs2. case_decide; [|done]. subst. by destruct Hna; apply Hin2.
  - apply List.Forall_map, list.Forall_forall. intros b Hb. cbn. specialize (Hle1 b Hb). lia.
  - apply List.Forall_map, list.Forall_forall. intros b Hb. cbn. specialize (Hgt2 b Hb). lia.
  - done.
Qed.

(** ** Killing a timer *)

Lemma filter_id_in {B} (f : B -> bool) (l : list B) :
  (forall x, x ∈ l -> f x = true) -> List.filter f l = l.
Proof.
  induction l as [|x l IH]; intros H; [done|]. cbn. rewrite H by apply list_elem_of_here.
  f_equal. apply IH. intros y Hy. by apply H, list_elem_of_further.
Qed.

Lemma map_filter_swap {B C} (f : B -> C) (p : C -> bool) (l : list B) :
  map f (List.filter (fun x => p (f x)) l) = List.filter p (map f l).
Proof. induction l as [|x l IH]; [done|]. cbn. destruct (p (f x)); cbn; by rewrite IH. Qed.

Lemma sorted_filter (f : addr -> Z) (p : addr -> bool) (l : list addr) :
  StronglySorted Z.le (map f l) -> StronglySorted Z.le (map f (List.filter p l)).
Proof.
  induction l as [|a l IH]; [done|]. cbn [map List.filter]. intros [H Ha]%StronglySorted_inv.
  destruct (p a); [|by apply IH]. cbn [map]. constructor; [by apply IH|].
  apply List.Forall_map, List.Forall_forall. intros b [Hb _]%filter_In.
  rewrite List.Forall_forall in Ha. by apply Ha, in_map.
Qed.

Lemma timer_kill_place q a t :
  timers_wf q -> timers q !! a = Some t ->
  exists q', apt_timer_kill a q = Some (negb (scheduled_time t =? 0), q') /\ timers_wf q' /\
    timeouts q' = List.filter (fun p => negb (fst p =? a)%nat) (timeouts q) /\ fired q' = fired q /\
    sched q' a = 0.
Proof.
  intros W E. assert (W' := W). destruct W' as [W1 W2 W3 W4 W5 W6 W7].
  assert (Hs : sched q a = scheduled_time t) by (unfold sched; by rewrite E).
  unfold apt_timer_kill. unfold bind at 1. rewrite (get_timer_eq q a t E).
  destruct (Z.eqb_spec (scheduled_time t) 0) as [Hz|Hz]; cbn [negb].
  { exists q. split_and!; try done; [|congruence]. symmetry. apply filter_id_in. intros p Hp.
    apply list_elem_of_In, in_map_iff in Hp as (b & <- & Hb%list_elem_of_In). cbn. apply negb_true_iff, Nat.eqb_neq.
    intros ->. apply W3 in Hb. congruence. }
  assert (Hin : a ∈ ring q) by (apply W3; congruence).
  set (l := List.filter (fun b => negb (b =? a)%nat) (ring q)).
  set (q0 := q <| ring := l |>).
  set (q1 := q0 <| timers := <[a := t <| scheduled_time := 0 |>]> (timers q0) |>).
  set (q2 := match l with [] => q1 <| elapsed_time := 0 |> | _ => q1 end).
  assert (Hmem : forall b, b ∈ l <-> b ∈ ring q /\ b <> a).
  { intros b. unfold l. rewrite list_elem_of_In, filter_In, <-list_elem_of_In.
    rewrite negb_true_iff, Nat.eqb_neq. done. }
  assert (Hs1 : forall b, sched q1 b = if decide (b = a) then 0 else sched q b) by (intros b; exact (sched_set q0 a t 0 b)).
  assert (Hq2 : ring q2 = l /\ timers q2 = timers q1 /\ next_timer q2 = next_timer q /\ fired q2 = fired q /\
                (elapsed_time q2 = elapsed_time q \/ l = [] /\ elapsed_time q2 = 0)).
  { unfold q2. destruct l; split_and!; try done; [by right|by left]. }
  destruct Hq2 as (Hr & Htm & Hnx & Hfd & Hel).
  assert (Hs2 : forall b, sched q2 b = if decide (b = a) then 0 else sched q b).
  { intros b. unfold sched at 1. rewrite Htm. apply Hs1. }
  exists q2. split_and!.
  - unfold ring_remove. unfold bind at 1, bind at 1, gets at 1. rewrite decide_True by done.
    unfold modify at 1. unfold bind at 1. rewrite (set_time_eq _ a t) by done.
    unfold bind, modify, ret. fold l. by destruct l.
  - split; rewrite ?Hr, ?Hnx.
    + apply NoDup_ListNoDup, List.NoDup_filter. by apply NoDup_ListNoDup.
    + replace (map (sched q2) l) with (map (sched q) l).
      * by apply sorted_filter.
      * apply map_ext_in. intros b Hb%list_elem_of_In. rewrite Hs2. case_decide; [|done]. by apply Hmem in Hb as [_ ?].
    + intros b. rewrite Hmem, W3, Hs2. case_decide; [lia|]. split; [by intros []|by split].
    + intros b. rewrite Hs2. case_decide; [lia|apply W4].
    + intros b Hb. rewrite Hs2. assert (Hb' := Hb). apply Hmem in Hb' as [Hb1 Hb2]. case_decide; [done|].
      destruct Hel as [->|[Hl _]]; [by apply W5|]. rewrite Hl in Hb. by apply list.not_elem_of_nil in Hb.
    + destruct Hel as [->|[_ ->]]; lia.
    + intros b Hb. rewrite Htm. apply lookup_insert_None. specialize (W7 b Hb). split; [done|]. intros ->. congruence.
  - unfold timeouts. rewrite Hr. rewrite <-(map_filter_swap (fun a => (a, sched q a - elapsed_time q))). cbn [fst].
    fold l. destruct Hel as [->|[-> _]]; [|done]. apply map_ext_in. intros b Hb%list_elem_of_In.
    rewrite Hs2. case_decide; [|done]. by apply Hmem in Hb as [_ ?].
  - done.
  - rewrite Hs2. by case_decide.
Qed.

(** ** Advancing the queue *)

Lemma filter_none {B} (f : B -> bool) (l : list B) :
  (forall x, x ∈ l -> f x = false) -> List.filter f l = [].
Proof.
  induction l as [|x l IH]; intros H; [done|]. cbn. rewrite H by apply list_elem_of_here.
  apply IH. intros y Hy. by apply H, list_elem_of_further.
Qed.

Lemma sched_present q a : sched q a <> 0 -> exists t, timers q !! a = Some t.
Proof. unfold sched. destruct (timers q !! a) as [t|]; [by exists t|done]. Qed.

(** The times that are due are in front. *)
Lemma timers_due_front q e :
  StronglySorted Z.le (map (sched q) (ring q)) ->
  match ring q with [] => True | a :: _ => e < sched q a end ->
  forall b, b ∈ ring q -> e < sched q b.
Proof.
  destruct (ring q) as [|a l]; intros H Ha b Hb; [by apply list.not_elem_of_nil in Hb|].
  cbn [map] in H. apply StronglySorted_inv in H as [_ H]. apply list.elem_of_cons in Hb as [->|Hb]; [done|].
  rewrite List.Forall_forall in H. specialize (H (sched q b) (in_map _ _ _ (proj1 (list_elem_of_In _ _) Hb))). lia.
Qed.

(** What the loop leaves, with procedures that leave the queue alone. *)
Record processed (q q' : apt_timer_queue_t) : Prop := {
  pr_ring : ring q' = List.filter (fun b => elapsed_time q <? sched q b) (ring q);
  pr_fired : fired q' = fired q ++ List.filter (fun b => sched q b <=? elapsed_time q) (ring q);
  pr_elapsed : elapsed_time q' = elapsed_time q;
  pr_next : next_timer q' = next_timer q;
  pr_sched : forall b, sched q' b = if decide (b ∈ ring q /\ sched q b <= elapsed_time q) then 0 else sched q b;
  pr_dom : forall b, timers q !! b = None -> timers q' !! b = None
}.

Lemma processed_ahead q :
  (forall b, b ∈ ring q -> elapsed_time q < sched q b) -> processed q q.
Proof.
  intros H. split; try done.
  - symmetry. apply filter_id_in. intros b Hb. by apply Z.ltb_lt, H.
  - rewrite filter_none; [by rewrite app_nil_r|]. intros b Hb. apply Z.leb_gt. by apply H.
  - intros b. case_decide as Hd; [|done]. destruct Hd as [Hb Hle]. specialize (H b Hb). lia.
Qed.

Lemma timers_process_due n q :
  (length (ring q) < n)%nat -> NoDup (ring q) -> StronglySorted Z.le (map (sched q) (ring q)) ->
  (forall b, b ∈ ring q -> exists t, timers q !! b = Some t) ->
  exists q', passive_process n q = Some (tt, q') /\ processed q q'.
Proof.
  revert q. induction n as [|n IH]; intros q Hn Hnd Hs Ht; [lia|].
  unfold passive_process in *. cbn [timers_process]. unfold bind at 1, gets at 1.
  destruct (ring q) as [|a rest] eqn:Er.
  { exists q. split; [done|]. apply processed_ahead. rewrite Er. by intros b ?%list.not_elem_of_nil. }
  destruct (Ht a (list_elem_of_here _ _)) as [t E]. rewrite E. unfold bind at 1. cbn [deref_ptr]. unfold ret at 1.
  assert (Hst : sched q a = scheduled_time t) by (unfold sched; by rewrite E).
  destruct (Z.ltb_spec (elapsed_time q) (scheduled_time t)) as [Hlt|Hge].
  { exists q. split; [done|]. apply processed_ahead. apply timers_due_front; rewrite Er; [done|]. by rewrite Hst. }
  set (q0 := q <| ring := rest |>).
  set (q1 := q0 <| timers := <[a := t <| scheduled_time := 0 |>]> (timers q0) |>).
  set (q2 := q1 <| fired := fired q ++ [a] |>).
  assert (Hs2 : forall b, sched q2 b = if decide (b = a) then 0 else sched q b)
    by (intros b; exact (sched_set q0 a t 0 b)).
  apply list.NoDup_cons in Hnd as [Ha Hnd]. cbn [map] in Hs. apply StronglySorted_inv in Hs as [Hs _].
  assert (Hne : forall b, b ∈ rest -> b <> a) by (intros b Hb ->; done).
  assert (Hrest : forall f : Z -> bool, List.filter (fun b => f (sched q2 b)) rest = List.filter (fun b => f (sched q b)) rest).
  { intros f. apply filter_ext_in. intros b Hb%list_elem_of_In. rewrite Hs2. rewrite decide_False by by apply Hne. done. }
  destruct (IH q2) as (q' & Hrun & P).
  { change (ring q2) with rest. cbn [length] in Hn. lia. }
  { done. }
  { change (ring q2) with rest. replace (map (sched q2) rest) with (map (sched q) rest); [done|].
    apply map_ext_in. intros b Hb%list_elem_of_In. by rewrite Hs2, decide_False by by apply Hne. }
  { intros b Hb. change (ring q2) with rest in Hb. destruct (Ht b (list_elem_of_further _ _ _ Hb)) as [tb Eb]. exists tb.
    change (timers q2) with (<[a := t <| scheduled_time := 0 |>]> (timers q)). rewrite lookup_insert_ne; [done|].
    intros ->. by apply (Hne b). }
  exists q'. split.
  - unfold bind at 1, on_queue at 1, modify at 1. fold q0.
    unfold bind at 1, on_queue at 1. rewrite (set_time_eq q0 a t 0) by done. fold q1.
    unfold bind at 1, on_queue at 1, modify at 1. change (q1 <| fired := fired q1 ++ [a] |>) with q2.
    unfold bind at 1, ret at 1, bind at 1, gets at 1. change (ring q2) with rest.
    destruct rest as [|c rest'] eqn:Erest; [|exact Hrun].
    destruct n; [by inversion Hrun|]. cbn in Hrun. exact Hrun.
  - destruct P as [P1 P2 P3 P4 P5 P6]. change (ring q2) with rest in *. change (elapsed_time q2) with (elapsed_time q) in *.
    split.
    + rewrite P1, (Hrest (fun z => elapsed_time q <? z)), Er. cbn [List.filter]. rewrite Hst.
      by rewrite (proj2 (Z.ltb_ge _ _) Hge).
    + rewrite P2, (Hrest (fun z => z <=? elapsed_time q)), Er. cbn [List.filter]. rewrite Hst, (proj2 (Z.leb_le _ _) Hge).
      change (fired q2) with (fired q ++ [a]). by rewrite <-app_assoc.
    + done.
    + done.
    + intros b. rewrite P5, Hs2, Er. destruct (decide (b = a)) as [->|Hb].
      * rewrite (decide_True (P := a ∈ a :: rest /\ _)); [by case_decide|].
        split; [apply list_elem_of_here|lia].
      * apply decide_ext. rewrite list.elem_of_cons. tauto.
    + intros b Hb. apply P6. change (timers q2) with (<[a := t <| scheduled_time := 0 |>]> (timers q)).
      apply lookup_insert_None. split; [done|]. intros ->. congruence.
Qed.

Lemma reschedule_timers_lookup (e : Z) l (m : gmap addr apt_timer_t) b :
  NoDup l ->
  foldr (fun a m => alter (fun t => t <| scheduled_time := u32 (scheduled_time t - e) |>) a m) m l !! b
  = if decide (b ∈ l) then (fun t => t <| scheduled_time := u32 (scheduled_time t - e) |>) <$> m !! b
    else m !! b.
Proof.
  induction l as [|a l IH]; intros Hnd; [by rewrite decide_False by apply list.not_elem_of_nil|].
  apply list.NoDup_cons in Hnd as [Ha Hnd]. cbn [foldr]. destruct (decide (b = a)) as [->|Hb].
  - rewrite lookup_alter_eq, IH by done. rewrite (decide_False (P := a ∈ l)) by done.
    by rewrite decide_True by apply list_elem_of_here.
  - rewrite lookup_alter_ne, IH by done. apply decide_ext. rewrite list.elem_of_cons. tauto.
Qed.

Lemma reschedule_lookup q b :
  NoDup (ring q) ->
  timers (apt_timers_reschedule q) !! b
  = if decide (b ∈ ring q)
    then (fun t => t <| scheduled_time := u32 (scheduled_time t - elapsed_time q) |>) <$> timers q !! b
    else timers q !! b.
Proof. apply reschedule_timers_lookup. Qed.

Lemma reschedule_sched q b :
  NoDup (ring q) -> (b ∈ ring q -> sched q b <> 0) ->
  sched (apt_timers_reschedule q) b
  = if decide (b ∈ ring q) then u32 (sched q b - elapsed_time q) else sched q b.
Proof.
  intros Hnd Hb. unfold sched at 1. rewrite reschedule_lookup by done. case_decide as Hin; [|done].
  destruct (sched_present q b (Hb Hin)) as [t E]. unfold sched. by rewrite E.
Qed.

(** The queue when its time was moved, before the timers are processed. *)
Record time_moved (q : apt_timer_queue_t) (elapsed : Z) (q1 : apt_timer_queue_t) : Prop := {
  tm_ring : ring q1 = ring q;
  tm_fired : fired q1 = fired q;
  tm_elapsed : 0 <= elapsed_time q1 < 0xFFFF;
  tm_left : forall b, b ∈ ring q ->
    0 <= sched q1 b < 2 ^ 32 /\ sched q1 b - elapsed_time q1 = sched q b - elapsed_time q - elapsed;
  tm_out : forall b, b ∉ ring q -> sched q1 b = 0;
  tm_dom : forall b, timers q !! b = None -> timers q1 !! b = None;
  tm_present : forall b, b ∈ ring q -> exists t, timers q1 !! b = Some t;
  tm_next : next_timer q1 = next_timer q
}.

Lemma time_moved_sorted q elapsed q1 :
  timers_wf q -> time_moved q elapsed q1 -> StronglySorted Z.le (map (sched q1) (ring q1)).
Proof.
  intros W [M1 _ _ M4 _ _ _ _]. rewrite M1. pose proof (tw_sorted q W) as Hs.
  assert (H : forall l, (forall b, b ∈ l -> b ∈ ring q) -> StronglySorted Z.le (map (sched q) l) ->
    StronglySorted Z.le (map (sched q1) l)); [|by apply H].
  induction l as [|a l IH]; intros Hin H; [constructor|]. cbn [map] in *. apply StronglySorted_inv in H as [H Ha].
  constructor; [apply IH; [|done]; intros b Hb; by apply Hin, list_elem_of_further|].
  apply List.Forall_map, List.Forall_forall. intros b Hb. rewrite List.Forall_forall in Ha.
  specialize (Ha (sched q b) (in_map _ _ _ Hb)).
  destruct (M4 a (Hin a (list_elem_of_here _ _))) as [_ Ea].
  destruct (M4 b (Hin b (list_elem_of_further _ _ _ (proj2 (list_elem_of_In _ _) Hb)))) as [_ Eb]. lia.
Qed.

Lemma time_moved_processed q elapsed q1 q' :
  timers_wf q -> time_moved q elapsed q1 -> processed q1 q' ->
  timers_wf q' /\
  fired q' = fired q ++ map fst (List.filter (fun p => snd p <=? elapsed) (timeouts q)) /\
  timeouts q' = map (fun p => (fst p, snd p - elapsed)) (List.filter (fun p => elapsed <? snd p) (timeouts q)).
Proof.
  intros W M [P1 P2 P3 P4 P5 P6]. pose proof (time_moved_sorted q elapsed q1 W M) as Hsort.
  destruct M as [M1 M2 M3 M4 M5 M6 M7 M8]. rewrite M1 in *.
  assert (Hring' : forall b, b ∈ ring q' <-> b ∈ ring q /\ elapsed_time q1 < sched q1 b).
  { intros b. by rewrite P1, list_elem_of_In, filter_In, <-list_elem_of_In, Z.ltb_lt. }
  assert (Hsched' : forall b, b ∈ ring q' -> sched q' b = sched q1 b).
  { intros b [Hb Hlt]%Hring'. rewrite P5. case_decide as Hd; [lia|done]. }
  split; [|split].
  - split.
    + rewrite P1. apply NoDup_ListNoDup, List.NoDup_filter, NoDup_ListNoDup, W.
    + replace (map (sched q') (ring q')) with (map (sched q1) (ring q')).
      * rewrite P1. by apply sorted_filter.
      * apply map_ext_in. intros b Hb%list_elem_of_In. by rewrite Hsched'.
    + intros b. rewrite Hring', P5. case_decide as Hd; [lia|].
      destruct (decide (b ∈ ring q)) as [Hb|Hb]; [|rewrite M5 by done; tauto].
      split; [lia|]. intros _. split; [done|]. destruct (Z.lt_ge_cases (elapsed_time q1) (sched q1 b)); [done|tauto].
    + intros b. rewrite P5. case_decide; [lia|].
      destruct (decide (b ∈ ring q)) as [Hb|Hb]; [by apply M4|]. rewrite M5 by done. lia.
    + intros b Hb. rewrite Hsched', P3 by done. by apply Hring'.
    + by rewrite P3.
    + intros b Hb. apply P6, M6. apply (tw_fresh q W). by rewrite <-M8, <-P4.
  - rewrite P2, M2. f_equal. unfold timeouts. rewrite <-(map_filter_swap (fun a => (a, sched q a - elapsed_time q))).
    rewrite map_map. cbn [fst snd]. rewrite map_id. apply filter_ext_in. intros b Hb%list_elem_of_In.
    destruct (M4 b Hb) as [_ Eb]. destruct (Z.leb_spec (sched q1 b) (elapsed_time q1)), (Z.leb_spec (sched q b - elapsed_time q) elapsed); lia.
  - unfold timeouts. rewrite <-(map_filter_swap (fun a => (a, sched q a - elapsed_time q))). rewrite map_map. cbn [fst snd].
    rewrite P1. transitivity (map (fun a => (a, sched q a - elapsed_time q - elapsed)) (List.filter (fun b => elapsed_time q1 <? sched q1 b) (ring q))).
    + apply map_ext_in. intros b Hb%list_elem_of_In. rewrite <-P1 in Hb. rewrite Hsched', P3 by done.
      apply Hring' in Hb as [Hb _]. destruct (M4 b Hb) as [_ ->]. done.
    + f_equal. apply filter_ext_in. intros b Hb%list_elem_of_In. destruct (M4 b Hb) as [_ Eb].
      destruct (Z.ltb_spec (elapsed_time q1) (sched q1 b)), (Z.ltb_spec elapsed (sched q b - elapsed_time q)); lia.
Qed.

Definition advance_ok (q : apt_timer_queue_t) (elapsed : Z) : Prop :=
  elapsed_time q + elapsed < 0xFFFF \/
  elapsed_time q + elapsed < 2 ^ 32 /\ Forall (fun p => elapsed <= snd p) (timeouts q).

Lemma timers_left_le q elapsed :
  Forall (fun p => elapsed <= snd p) (timeouts q) ->
  forall b, b ∈ ring q -> elapsed <= sched q b - elapsed_time q.
Proof.
  intros H b Hb. rewrite list.Forall_forall in H. apply (H (b, sched q b - elapsed_time q)).
  unfold timeouts. by apply list_elem_of_In, (in_map (fun a => (a, sched q a - elapsed_time q))), list_elem_of_In.
Qed.

Lemma advance_time_moved q elapsed :
  timers_wf q -> 0 <= elapsed -> advance_ok q elapsed ->
  let q0 := q <| elapsed_time := u32 (elapsed_time q + elapsed) |> in
  time_moved q elapsed (if 0xFFFF <=? elapsed_time q0 then apt_timers_reschedule q0 else q0).
Proof.
  intros W Hel Hok. pose proof (tw_elapsed q W) as He.
  assert (Hlim : elapsed_time q + elapsed < 2 ^ 32) by (destruct Hok as [?|[? _]]; lia).
  rewrite u32_small by lia. intros q0. change (elapsed_time q0) with (elapsed_time q + elapsed).
  destruct (Z.leb_spec 0xFFFF (elapsed_time q + elapsed)) as [Hbig|Hsmall].
  - destruct Hok as [?|[_ Hf]]; [lia|]. pose proof (timers_left_le q elapsed Hf) as Hleft.
    assert (Hs : forall b, sched (apt_timers_reschedule q0) b
                 = if decide (b ∈ ring q) then u32 (sched q b - (elapsed_time q + elapsed)) else sched q b).
    { intros b. apply (reschedule_sched q0 b); [apply W|]. apply (tw_linked q W b). }
    pose proof (fun b => reschedule_lookup q0 b (tw_nodup q W)) as Ht. change (ring q0) with (ring q) in Ht.
    split; try done.
    + intros b Hb. rewrite Hs, decide_True by done. specialize (Hleft b Hb). pose proof (tw_range q W b).
      rewrite u32_small by lia. change (elapsed_time (apt_timers_reschedule q0)) with 0. lia.
    + intros b Hb. rewrite Hs, decide_False by done. destruct (decide (sched q b = 0)); [done|]. by apply W in n.
    + intros b Hb. rewrite Ht. case_decide; [|done]. change (timers q0) with (timers q). by rewrite Hb.
    + intros b Hb. rewrite Ht, decide_True by done. apply (tw_linked q W), sched_present in Hb as [t E].
      change (timers q0) with (timers q). rewrite E. by eexists.
  - split; try done.
    + change (elapsed_time q0) with (elapsed_time q + elapsed). lia.
    + intros b Hb. change (sched q0 b) with (sched q b). change (elapsed_time q0) with (elapsed_time q + elapsed).
      pose proof (tw_range q W b). lia.
    + intros b Hb. change (sched q0 b) with (sched q b). destruct (decide (sched q b = 0)); [done|]. by apply W in n.
    + intros b Hb. change (timers q0) with (timers q). by apply sched_present, W.
Qed.

Lemma timer_advance_place q elapsed :
  timers_wf q -> 0 <= elapsed -> advance_ok q elapsed ->
  exists q', passive_advance elapsed q = Some (tt, q') /\ timers_wf q' /\
    fired q' = fired q ++ map fst (List.filter (fun p => snd p <=? elapsed) (timeouts q)) /\
    timeouts q' = map (fun p => (fst p, snd p - elapsed)) (List.filter (fun p => elapsed <? snd p) (timeouts q)).
Proof.
  intros W Hel Hok. unfold passive_advance, apt_timer_queue_advance. unfold bind at 1, gets at 1.
  destruct (ring q) as [|a rest] eqn:Er.
  { exists q. split; [done|]. unfold timeouts. rewrite Er. cbn. by rewrite app_nil_r. }
  pose proof (advance_time_moved q elapsed W Hel Hok) as M. cbv zeta in M.
  set (q0 := q <| elapsed_time := u32 (elapsed_time q + elapsed) |>) in *.
  set (q1 := if 0xFFFF <=? elapsed_time q0 then apt_timers_reschedule q0 else q0) in *.
  destruct (timers_process_due (S (length (ring q))) q1) as (q' & Hrun & P).
  - rewrite (tm_ring _ _ _ M). lia.
  - rewrite (tm_ring _ _ _ M). apply W.
  - by apply (time_moved_sorted q elapsed).
  - rewrite (tm_ring _ _ _ M). apply M.
  - exists q'. split; [|by apply (time_moved_processed q elapsed q1)].
    rewrite Er in Hrun. unfold bind at 1, on_queue at 1, modify at 1. fold q0. unfold bind at 1.
    change (u32 (elapsed_time q + elapsed)) with (elapsed_time q0).
    unfold q1 in Hrun. destruct (0xFFFF <=? elapsed_time q0); exact Hrun.
Qed.

(** A new timer. *)
Lemma timer_create_ok q proc :
  timers_wf q ->
  exists q', apt_timer_create proc q = Some (next_timer q, q') /\ timers_wf q' /\ ring q' = ring q /\
    timers q' = <[next_timer q := mk_timer 0 proc]> (timers q) /\ elapsed_time q' = elapsed_time q.
Proof.
  intros W. eexists. split; [reflexivity|]. set (q' := _ <| timers := _ |>). assert (W' := W). destruct W' as [W1 W2 W3 W4 W5 W6 W7].
  assert (Hs : forall b, sched q' b = sched q b).
  { intros b. unfold sched. change (timers q') with (<[next_timer q := mk_timer 0 proc]> (timers q)).
    destruct (decide (b = next_timer q)) as [->|Hb]; [rewrite lookup_insert_eq, W7 by lia; done|by rewrite lookup_insert_ne]. }
  split; [|done]. split; try done.
  - change (ring q') with (ring q). by rewrite (map_ext _ _ Hs).
  - intros b. by rewrite Hs.
  - intros b. by rewrite Hs.
  - intros b. rewrite Hs. apply W5.
  - intros b Hb. change (next_timer q') with (S (next_timer q)) in Hb.
    change (timers q') with (<[next_timer q := mk_timer 0 proc]> (timers q)).
    rewrite lookup_insert_ne by lia. apply W7. lia.
Qed.

(** ** Procedures that leave the queue alone

    The owner's state is the queue and the rest, and the procedures act on the rest: the queue
    runs as it does on its own, the procedures of the timers that fire run on the rest. *)

Section Procs.
Context {St : Type} (queue_of : St -> apt_timer_queue_t) (queue_set : apt_timer_queue_t -> St -> St).
Context (timer_proc : addr -> prog St unit).
Hypothesis queue_get_set : forall q s, queue_of (queue_set q s) = q.
Hypothesis queue_set_set : forall q q' s, queue_set q (queue_set q' s) = queue_set q s.
Hypothesis proc_apart : forall a q s,
  timer_proc a (queue_set q s) = (let? (_, s') := timer_proc a s in Some (tt, queue_set q s')).

Fixpoint procs_run (l : list addr) : prog St unit :=
  match l with [] => ret tt | a :: l => timer_proc a ;;; procs_run l end.

Lemma on_queue_set {A} (m : act A) q s x q' :
  m q = Some (x, q') -> on_queue queue_of queue_set m (queue_set q s) = Some (x, queue_set q' s).
Proof. intros E. unfold on_queue. by rewrite queue_get_set, E, queue_set_set. Qed.

Lemma process_procs n : forall q s q',
  passive_process n q = Some (tt, q') ->
  exists l, fired q' = fired q ++ l /\
    timers_process queue_of queue_set timer_proc n (queue_set q s)
    = (let? (_, s') := procs_run l s in Some (tt, queue_set q' s')).
Proof.
  induction n as [|n IH]; intros q s q' E; [done|].
  unfold passive_process in *. cbn [timers_process] in E |- *.
  unfold bind at 1, gets at 1 in E. unfold bind at 1, gets at 1. rewrite queue_get_set.
  destruct (ring q) as [|a rest] eqn:Er.
  { injection E as <-. exists []. by rewrite app_nil_r. }
  unfold bind at 1 in E. unfold bind at 1. destruct (timers q !! a) as [t|] eqn:Et; [|done].
  cbn [deref_ptr] in *. unfold ret at 1 in E. unfold ret at 1.
  destruct (elapsed_time q <? scheduled_time t).
  { injection E as <-. exists []. by rewrite app_nil_r. }
  set (q1 := q <| ring := rest |>) in *.
  unfold bind at 1, on_queue at 1, modify at 1 in E. fold q1 in E.
  unfold bind at 1. rewrite (on_queue_set (modify (fun q => q <| ring := rest |>)) q s tt q1) by done.
  unfold bind at 1, on_queue at 1 in E. rewrite (set_time_eq q1 a t 0) in E by done.
  set (q2 := q1 <| timers := <[a := t <| scheduled_time := 0 |>]> (timers q1) |>) in *.
  unfold bind at 1. rewrite (on_queue_set _ q1 s tt q2 (set_time_eq q1 a t 0 Et)).
  set (q3 := q2 <| fired := fired q2 ++ [a] |>) in *.
  unfold bind at 1, on_queue at 1, modify at 1 in E. fold q3 in E.
  unfold bind at 1. rewrite (on_queue_set (modify (fun q => q <| fired := fired q ++ [a] |>)) q2 s tt q3) by done.
  unfold bind at 1, ret at 1, bind at 1, gets at 1 in E.
  unfold bind at 1. rewrite proc_apart. change (ring q3) with rest in E.
  assert (Hrest : exists l, fired q' = fired q3 ++ l /\ forall s1,
    (let* q := gets queue_of in
     match ring q with [] => ret tt | _ => timers_process queue_of queue_set timer_proc n end) (queue_set q3 s1)
    = (let? (_, s') := procs_run l s1 in Some (tt, queue_set q' s'))).
  { destruct rest as [|b rest].
    - injection E as <-. exists []. rewrite app_nil_r. split; [done|]. intros s1.
      unfold bind, gets. by rewrite queue_get_set.
    - destruct (IH q3 s q' E) as (l & Hf & _). exists l. split; [done|]. intros s1.
      destruct (IH q3 s1 q' E) as (l' & Hf' & Hrun). rewrite Hf in Hf'. apply app_inv_head in Hf' as <-.
      unfold bind at 1, gets at 1. rewrite queue_get_set. change (ring q3) with (b :: rest). exact Hrun. }
  destruct Hrest as (l & Hf & Hrun). exists (a :: l). change (fired q3) with (fired q ++ [a]) in Hf.
  split; [by rewrite Hf, <-app_assoc|]. cbn [procs_run]. unfold bind at 2.
  destruct (timer_proc a s) as [[[] s1]|]; [|done]. apply Hrun.
Qed.

Lemma advance_procs elapsed q s q' :
  passive_advance elapsed q = Some (tt, q') ->
  exists l, fired q' = fired q ++ l /\
    apt_timer_queue_advance queue_of queue_set timer_proc elapsed (queue_set q s)
    = (let? (_, s') := procs_run l s in Some (tt, queue_set q' s')).
Proof.
  unfold passive_advance, apt_timer_queue_advance. intros E.
  unfold bind at 1, gets at 1 in E. unfold bind at 1, gets at 1. rewrite queue_get_set.
  destruct (ring q) as [|a rest].
  { injection E as <-. exists []. by rewrite app_nil_r. }
  set (e := u32 (elapsed_time q + elapsed)) in *. set (q0 := q <| elapsed_time := e |>).
  unfold bind at 1, on_queue at 1, modify at 1 in E. fold q0 in E.
  unfold bind at 1. rewrite (on_queue_set (modify (fun q => q <| elapsed_time := e |>)) q s tt q0) by done.
  unfold bind at 1 in E. unfold bind at 1. destruct (0xFFFF <=? e).
  - unfold on_queue at 1, modify at 1 in E. rewrite (on_queue_set (modify apt_timers_reschedule) q0 s tt (apt_timers_reschedule q0)) by done.
    destruct (process_procs _ _ s q' E) as (l & Hf & Hrun). exists l. by split.
  - unfold ret at 1 in E. unfold ret at 1. destruct (process_procs _ _ s q' E) as (l & Hf & Hrun). exists l. by split.
Qed.
End Procs.

(** * The specification: what a client of the queue counts on *)

Inductive timer_op := TimerSet (a : addr) (timeout : Z) | TimerKill (a : addr) | TimerAdvance (elapsed : Z).

Definition timer_exec (op : timer_op) : act bool :=
  match op with
  | TimerSet a timeout => apt_timer_set a timeout
  | TimerKill a => apt_timer_kill a
  | TimerAdvance elapsed => passive_advance elapsed ;;; ret true
  end.

(** Behind all that are due before it or with it. *)
Fixpoint due_insert (p : addr * Z) (l : list (addr * Z)) : list (addr * Z) :=
  match l with
  | [] => [p]
  | x :: l' => if snd p <? snd x then p :: l else x :: due_insert p l'
  end.

(** The pending timers with the time left, and the timers that fired. *)
Definition timer_spec (op : timer_op) (s : list (addr * Z) * list addr) : bool * (list (addr * Z) * list addr) :=
  let '(pending, done) := s in
  match op with
  | TimerSet a timeout => (true, (due_insert (a, timeout) pending, done))
  | TimerKill a =>
      (existsb (fun p => (fst p =? a)%nat) pending,
       (List.filter (fun p => negb (fst p =? a)%nat) pending, done))
  | TimerAdvance elapsed =>
      (true,
       (map (fun p => (fst p, snd p - elapsed)) (List.filter (fun p => elapsed <? snd p) pending),
        done ++ map fst (List.filter (fun p => snd p <=? elapsed) pending)))
  end.

(** What the callers see to: a timer is set once, has a procedure, and the clock does not wrap. *)
Definition timer_op_ok (q : apt_timer_queue_t) (op : timer_op) : Prop :=
  match op with
  | TimerSet a timeout =>
      (exists t, timers q !! a = Some t /\ has_proc t = true) /\ ~ (a ∈ ring q) /\
      0 < timeout /\ elapsed_time q + timeout < 2 ^ 32
  | TimerKill a => exists t, timers q !! a = Some t
  | TimerAdvance elapsed => 0 <= elapsed /\ advance_ok q elapsed
  end.

Lemma due_insert_place p l1 l2 :
  Forall (fun x => snd x <= snd p) l1 -> Forall (fun x => snd p < snd x) l2 ->
  due_insert p (l1 ++ l2) = l1 ++ p :: l2.
Proof.
  intros H1 H2. induction H1 as [|x l1 Hx _ IH]; cbn [app due_insert].
  - destruct H2 as [|x l2 Hx _]; [done|]. cbn [due_insert]. by rewrite (proj2 (Z.ltb_lt _ _) Hx).
  - rewrite (proj2 (Z.ltb_ge _ _) Hx). by rewrite IH.
Qed.

Lemma timer_pending q a t :
  timers_wf q -> timers q !! a = Some t ->
  existsb (fun p => (fst p =? a)%nat) (timeouts q) = negb (scheduled_time t =? 0).
Proof.
  intros W E. apply eq_true_iff_eq. rewrite negb_true_iff, Z.eqb_neq, existsb_exists.
  assert (Hs : sched q a = scheduled_time t) by (unfold sched; by rewrite E). rewrite <-Hs, <-(tw_linked q W). split.
  - intros ([b z] & Hb & Hba%Nat.eqb_eq). cbn in Hba. subst b. apply in_map_iff in Hb as (c & Ec & Hc). injection Ec as -> _.
    by apply list_elem_of_In.
  - intros Ha. exists (a, sched q a - elapsed_time q). split; [|apply Nat.eqb_refl].
    by apply (in_map (fun a => (a, sched q a - elapsed_time q))), list_elem_of_In.
Qed.

Lemma timer_exec_refines q op :
  timers_wf q -> timer_op_ok q op ->
  exists q', timer_exec op q = Some (fst (timer_spec op (timeouts q, fired q)), q') /\ timers_wf q' /\
    (timeouts q', fired q') = snd (timer_spec op (timeouts q, fired q)).
Proof.
  intros W. destruct op as [a timeout|a|elapsed]; cbn [timer_op_ok timer_exec timer_spec fst snd].
  - intros ((t & E & Hp) & Ha & Ht & Hlim).
    assert (Hz : scheduled_time t = 0).
    { destruct (decide (sched q a = 0)) as [Hz|Hz]; [unfold sched in Hz; by rewrite E in Hz|].
      by apply (tw_linked q W) in Hz. }
    destruct (timer_set_place q a t timeout W E Hp Hz Ht Hlim) as (q' & l1 & l2 & Hrun & W' & E1 & E2 & H1 & H2 & Hf).
    exists q'. split; [done|]. split; [done|]. by rewrite E2, E1, Hf, (due_insert_place (a, timeout)).
  - intros [t E]. destruct (timer_kill_place q a t W E) as (q' & Hrun & W' & Ht & Hf & _).
    exists q'. rewrite (timer_pending q a t W E). split; [done|]. split; [done|]. by rewrite Ht, Hf.
  - intros [Hel Hok]. destruct (timer_advance_place q elapsed W Hel Hok) as (q' & Hrun & W' & Hf & Ht).
    exists q'. unfold bind. rewrite Hrun. split; [done|]. split; [done|]. by rewrite Ht, Hf.
Qed.

(** No operation makes or frees a timer. *)
Definition same_timers (q q' : apt_timer_queue_t) : Prop :=
  has_proc <$> timers q' = has_proc <$> timers q /\ next_timer q' = next_timer q.

#[global] Instance same_timers_preorder : PreOrder same_timers.
Proof. split; [by intros q|]. intros q1 q2 q3 [H1 H2] [H3 H4]. split; congruence. Qed.

Lemma same_timers_some q q' a t :
  same_timers q q' -> timers q !! a = Some t -> exists t', timers q' !! a = Some t' /\ has_proc t' = has_proc t.
Proof.
  intros [Hm _] E. assert (Hl : (has_proc <$> timers q') !! a = Some (has_proc t)) by by rewrite Hm, lookup_fmap, E.
  rewrite lookup_fmap in Hl. destruct (timers q' !! a) as [t'|]; [|done]. exists t'. split; [done|]. by injection Hl.
Qed.

Lemma set_time_same a time q q' : set_time a time q = Some (tt, q') -> same_timers q q'.
Proof.
  unfold set_time, get_timer, bind, gets, deref_ptr, modify. destruct (timers q !! a) as [t|] eqn:E; [|done].
  intros [= <-]. split; [|done]. cbn [field_set timers]. rewrite fmap_insert. apply insert_id.
  cbn [field_set has_proc]. by rewrite lookup_fmap, E.
Qed.

Lemma reschedule_same q : same_timers q (apt_timers_reschedule q).
Proof.
  split; [|done]. unfold apt_timers_reschedule. cbn [field_set timers].
  induction (ring q) as [|a l IH]; [done|]. cbn [foldr].
  etrans; [|exact IH]. apply map_eq. intros b. rewrite !lookup_fmap.
  destruct (decide (b = a)) as [->|Hb]; [rewrite lookup_alter_eq|by rewrite lookup_alter_ne].
  by destruct (foldr _ _ _ !! a).
Qed.

Lemma passive_process_same n : forall q q', passive_process n q = Some (tt, q') -> same_timers q q'.
Proof.
  induction n as [|n IH]; intros q q'; [done|]. unfold passive_process in *. cbn [timers_process].
  unfold bind at 1, gets at 1. destruct (ring q) as [|a rest] eqn:Er; [by intros [= <-]|].
  unfold bind at 1. destruct (timers q !! a) as [t|] eqn:E; [|done]. cbn [deref_ptr]. unfold ret at 1.
  destruct (_ <? _); [by intros [= <-]|]. unfold bind at 1, on_queue at 1, modify at 1.
  set (q1 := q <| ring := rest |>). unfold bind at 1, on_queue at 1. rewrite (set_time_eq q1 a t 0) by done.
  set (q2 := q1 <| timers := _ |>). unfold bind at 1, on_queue at 1, modify at 1.
  set (q3 := q2 <| fired := _ |>). unfold bind at 1, ret at 1, bind at 1, gets at 1. change (ring q3) with rest.
  assert (H2 : same_timers q q3) by (apply (set_time_same a 0 q1 q2), set_time_eq, E).
  destruct rest; [by intros [= <-]|]. intros Hrun. etrans; [exact H2|]. by apply IH.
Qed.

Lemma timer_exec_same op q b q' : timer_exec op q = Some (b, q') -> same_timers q q'.
Proof.
  destruct op as [a timeout|a|elapsed]; cbn [timer_exec].
  - unfold apt_timer_set. unfold bind at 1. destruct (get_timer a q) as [[t q0]|] eqn:Eg; [|done].
    assert (q0 = q) as -> by (revert Eg; unfold get_timer, bind, gets, deref_ptr; destruct (_ !! _); [by intros [=]|done]).
    destruct (_ || _); [by intros [= _ <-]|]. unfold bind at 1, gets at 1. unfold bind at 1.
    destruct (set_time a _ q) as [[[] q1]|] eqn:Es; [|done]. apply set_time_same in Es.
    unfold apt_timer_insert, bind, gets. case_decide; [done|]. by intros [= _ <-].
  - unfold apt_timer_kill. unfold bind at 1. destruct (get_timer a q) as [[t q0]|] eqn:Eg; [|done].
    assert (q0 = q) as -> by (revert Eg; unfold get_timer, bind, gets, deref_ptr; destruct (_ !! _); [by intros [=]|done]).
    destruct (_ =? _); [by intros [= _ <-]|]. unfold ring_remove. unfold bind at 1, bind at 1, gets at 1.
    case_decide; [|done]. unfold modify at 1. unfold bind at 1.
    set (q1 := q <| ring := _ |>). destruct (set_time a 0 q1) as [[[] q2]|] eqn:Es; [|done]. apply set_time_same in Es.
    unfold bind, modify, ret. intros [= _ <-]. etrans; [exact Es|]. by destruct (ring q2).
  - unfold bind. destruct (passive_advance elapsed q) as [[[] q1]|] eqn:Ea; [|done]. intros [= _ <-].
    revert Ea. unfold passive_advance, apt_timer_queue_advance. unfold bind at 1, gets at 1.
    destruct (ring q) as [|a rest]; [by intros [= <-]|]. cbv zeta.
    unfold bind at 1, on_queue at 1, modify at 1. set (q0 := q <| elapsed_time := _ |>). unfold bind at 1.
    destruct (_ <=? _); [unfold on_queue at 1, modify at 1|unfold ret at 1]; intros Hp; apply passive_process_same in Hp.
    + etrans; [apply (reschedule_same q0)|exact Hp].
    + exact Hp.
Qed.

Lemma timeouts_ring q : map fst (timeouts q) = ring q.
Proof. unfold timeouts. rewrite map_map. apply map_id. Qed.

Lemma due_insert_in p l x : x ∈ map fst (due_insert p l) <-> x = fst p \/ x ∈ map fst l.
Proof.
  induction l as [|y l IH]; cbn [due_insert map].
  - by rewrite list.elem_of_cons.
  - destruct (_ <? _); cbn [map]; rewrite !list.elem_of_cons; [done|]. rewrite IH. tauto.
Qed.

(** The operations of an owner, with what becomes of the ring. *)
Lemma timer_set_ok q a t timeout :
  timers_wf q -> timers q !! a = Some t -> has_proc t = true -> ~ (a ∈ ring q) ->
  0 < timeout -> elapsed_time q + timeout < 2 ^ 32 ->
  exists q', apt_timer_set a timeout q = Some (true, q') /\ timers_wf q' /\ same_timers q q' /\
    forall b, b ∈ ring q' <-> b = a \/ b ∈ ring q.
Proof.
  intros W E Hp Ha Ht Hlim.
  destruct (timer_exec_refines q (TimerSet a timeout) W) as (q' & Hrun & W' & Hs).
  { cbn [timer_op_ok]. split_and!; try done. by exists t. }
  exists q'. split; [done|]. split; [done|]. split; [by apply timer_exec_same in Hrun|].
  injection Hs as Hs _. intros b. rewrite <-!timeouts_ring, Hs. apply due_insert_in.
Qed.

Lemma timer_kill_ok q a t :
  timers_wf q -> timers q !! a = Some t ->
  exists b q', apt_timer_kill a q = Some (b, q') /\ timers_wf q' /\ same_timers q q' /\
    forall b, b ∈ ring q' <-> b <> a /\ b ∈ ring q.
Proof.
  intros W E. destruct (timer_exec_refines q (TimerKill a) W) as (q' & Hrun & W' & Hs); [by exists t|].
  eexists _, q'. split; [exact Hrun|]. split; [done|]. split; [by apply timer_exec_same in Hrun|].
  injection Hs as Hs _. intros b. rewrite <-!timeouts_ring, Hs.
  rewrite (map_filter_swap fst (fun x => negb (x =? a)%nat)), list_elem_of_In, filter_In, <-list_elem_of_In.
  rewrite negb_true_iff, Nat.eqb_neq. tauto.
Qed.

Lemma timer_advance_ok q elapsed :
  timers_wf q -> 0 <= elapsed -> advance_ok q elapsed ->
  exists q' l, passive_advance elapsed q = Some (tt, q') /\ timers_wf q' /\ same_timers q q' /\
    fired q' = fired q ++ l /\ l = map fst (List.filter (fun p => snd p <=? elapsed) (timeouts q)) /\
    NoDup l /\ (forall b, b ∈ ring q <-> b ∈ l \/ b ∈ ring q') /\ (forall b, b ∈ l -> ~ (b ∈ ring q')).
Proof.
  intros W Hel Hok. destruct (timer_exec_refines q (TimerAdvance elapsed) W) as (q' & Hrun & W' & Hs); [done|].
  assert (Hsame := timer_exec_same _ _ _ _ Hrun). cbn [timer_exec timer_spec fst snd] in *.
  unfold bind in Hrun. destruct (passive_advance elapsed q) as [[[] q1]|]; [|done].
  injection Hrun as ->. injection Hs as Ht Hf.
  assert (Hsplit : forall b, (b ∈ map fst (List.filter (fun p => snd p <=? elapsed) (timeouts q))
                             <-> exists z, z <= elapsed /\ (b, z) ∈ timeouts q) /\
                           (b ∈ ring q' <-> exists z, elapsed < z /\ (b, z) ∈ timeouts q)).
  { intros b. split.
    - rewrite list_elem_of_In, in_map_iff. setoid_rewrite filter_In. setoid_rewrite <-list_elem_of_In. split.
      + intros ([c z] & <- & H & ?%Z.leb_le). by exists z.
      + intros (z & ? & H). exists (b, z). split_and!; [done|done|by apply Z.leb_le].
    - rewrite <-timeouts_ring, Ht, map_map. cbn [fst]. rewrite list_elem_of_In, in_map_iff. setoid_rewrite filter_In.
      setoid_rewrite <-list_elem_of_In. split.
      + intros ([c z] & <- & H & ?%Z.ltb_lt). by exists z.
      + intros (z & ? & H). exists (b, z). split_and!; [done|done|by apply Z.ltb_lt]. }
  assert (Huniq : forall b z z', (b, z) ∈ timeouts q -> (b, z') ∈ timeouts q -> z = z').
  { unfold timeouts. intros b z z'. rewrite !list_elem_of_In, !in_map_iff. intros (c & [= -> <-] & _) (c' & [= -> <-] & _). done. }
  exists q', (map fst (List.filter (fun p => snd p <=? elapsed) (timeouts q))). split_and!; try done.
  - unfold timeouts. rewrite <-(map_filter_swap (fun a => (a, sched q a - elapsed_time q))), map_map. cbn [fst]. rewrite map_id.
    apply NoDup_ListNoDup, List.NoDup_filter, NoDup_ListNoDup, W.
  - intros b. destruct (Hsplit b) as [H1 H2]. rewrite H1, H2. unfold timeouts. split.
    + intros Hb. assert (Hin : (b, sched q b - elapsed_time q) ∈ map (fun a => (a, sched q a - elapsed_time q)) (ring q)).
      { by apply list_elem_of_In, (in_map (fun a => (a, sched q a - elapsed_time q))), list_elem_of_In. }
      destruct (Z.le_gt_cases (sched q b - elapsed_time q) elapsed); [left|right]; eauto.
    + intros [(z & _ & Hz)|(z & _ & Hz)]; rewrite <-timeouts_ring; apply list_elem_of_In, (in_map fst _ (b, z)), list_elem_of_In, Hz.
  - intros b (z & Hz & Hb)%Hsplit (z' & Hz' & Hb')%Hsplit. specialize (Huniq b z z' Hb Hb'). lia.
Qed.

(** C13: the timer queue keeps what its clients count on, as long as they keep to [timer_op_ok]: a timer that
    is set fires when its time has passed and not before, in the order of the times, timers of the same time in the
    order they were set; a killed timer does not fire; the time left of the others counts down.  They set a timer with
    a procedure that is not pending, for a time that is not zero and does not take the clock of the queue to 2^32 ms;
    and they advance the clock only so that the time counted stays below 65535 ms, or that no timer is past due and
    it stays below 2^32 ms: an advance that reaches 65535 ms while a timer is past due loses time
    (theorem [timer_advance_lost]). *)
Theorem timer_queue_refines q op :
  timers_wf q -> timer_op_ok q op ->
  exists q', timer_exec op q = Some (fst (timer_spec op (timeouts q, fired q)), q') /\ timers_wf q' /\
    (timeouts q', fired q') = snd (timer_spec op (timeouts q, fired q)).
Proof. apply timer_exec_refines. Qed.

(** Two timers, of 50 and of 20 ms, set on an empty queue. *)
Definition two_timers : apt_timer_queue_t :=
  match (let* a := apt_timer_create true in
         let* b := apt_timer_create true in
         apt_timer_set a 50 ;;; apt_timer_set b 20) apt_timer_queue_create with
  | Some (_, q) => q
  | None => apt_timer_queue_create
  end.

Lemma two_timers_wf : timers_wf two_timers.
Proof.
  assert (Hs : forall a, sched two_timers a = match a with 0%nat => 50 | 1%nat => 20 | _ => 0 end).
  { intros [|[|a]]; [reflexivity|reflexivity|]. unfold sched.
    assert (E : timers two_timers !! S (S a) = None); [change (timers two_timers) with
      (<[1%nat := mk_timer 20 true]> (<[0%nat := mk_timer 50 true]> (<[1%nat := mk_timer 0 true]> (<[0%nat := mk_timer 0 true]> (empty : gmap addr apt_timer_t)))));
      by rewrite !lookup_insert_ne by lia|]. by rewrite E. }
  assert (Hr : ring two_timers = [1%nat; 0%nat]) by reflexivity.
  split; rewrite ?Hr.
  - by apply (bool_decide_eq_true_1 _).
  - cbn [map]. rewrite !Hs. repeat (constructor; [|repeat constructor; lia]). constructor.
  - intros a. rewrite Hs. rewrite !list.elem_of_cons. destruct a as [|[|a]]; split; intros H; auto; try lia.
    all: destruct H as [?|[?|?%list.not_elem_of_nil]]; done.
  - intros [|[|a]]; rewrite Hs; lia.
  - intros a Ha. rewrite Hs. change (elapsed_time two_timers) with 0. rewrite !list.elem_of_cons in Ha.
    destruct Ha as [->|[->|?%list.not_elem_of_nil]]; done || lia.
  - change (elapsed_time two_timers) with 0. lia.
  - intros a Ha. change (next_timer two_timers) with 2%nat in Ha. change (timers two_timers) with
      (<[1%nat := mk_timer 20 true]> (<[0%nat := mk_timer 50 true]> (<[1%nat := mk_timer 0 true]> (<[0%nat := mk_timer 0 true]> (empty : gmap addr apt_timer_t))))).
    by rewrite !lookup_insert_ne by lia.
Qed.

Lemma timer_queue_refines_witness :
  exists q', timer_exec (TimerAdvance 30) two_timers = Some (true, q') /\ timers_wf q' /\
    (timeouts q', fired q') = ([(0%nat, 20)], [1%nat]).
Proof. apply (timer_queue_refines two_timers (TimerAdvance 30) two_timers_wf). split; [lia|]. left. reflexivity. Defined.

Lemma reschedule_lost q a rest elapsed :
  timers_wf q -> ring q = a :: rest -> 0 <= elapsed -> 0xFFFF <= elapsed_time q + elapsed < 2 ^ 32 ->
  sched q a - elapsed_time q < elapsed ->
  exists t, timers (apt_timers_reschedule (q <| elapsed_time := elapsed_time q + elapsed |>)) !! a = Some t /\
    scheduled_time t = 2 ^ 32 - (elapsed - (sched q a - elapsed_time q)).
Proof.
  intros W Er Hel Hbig Hlate. set (q0 := q <| elapsed_time := elapsed_time q + elapsed |>).
  set (q1 := apt_timers_reschedule q0).
  assert (Hin : a ∈ ring q) by (rewrite Er; apply list_elem_of_here).
  pose proof (proj1 (tw_linked q W a) Hin) as Hnz. pose proof (tw_range q W a) as Hr. pose proof (tw_ahead q W a Hin) as Ha.
  pose proof (tw_elapsed q W) as He.
  assert (Hs : sched q1 a = 2 ^ 32 - (elapsed - (sched q a - elapsed_time q))).
  { unfold q1. rewrite (reschedule_sched q0 a (tw_nodup q W)) by done. change (ring q0) with (ring q). rewrite decide_True by done.
    change (sched q0 a) with (sched q a). change (elapsed_time q0) with (elapsed_time q + elapsed).
    unfold u32. rewrite <-(Z.mod_add _ 1) by lia. rewrite Z.mod_small by lia. lia. }
  destruct (sched_present q1 a) as [t E]; [rewrite Hs; lia|].
  exists t. split; [done|]. rewrite <-Hs. unfold sched. by rewrite E.
Qed.

(** When the elapsed time reaches 65535 ms with the first timer past due, the times are made
    relative to now in unsigned arithmetic: the timer that should fire at once is moved about 49
    days ahead, no procedure is called, and [apt_timer_queue_timeout_get] reports the wrapped
    time. *)
Theorem timer_advance_lost {St} (queue_of : St -> apt_timer_queue_t) (queue_set : apt_timer_queue_t -> St -> St)
    (timer_proc : addr -> prog St unit) (s : St) a rest elapsed :
  (forall q s, queue_of (queue_set q s) = q) -> timers_wf (queue_of s) -> ring (queue_of s) = a :: rest ->
  0 <= elapsed -> 0xFFFF <= elapsed_time (queue_of s) + elapsed < 2 ^ 32 ->
  sched (queue_of s) a - elapsed_time (queue_of s) < elapsed ->
  exists q', apt_timer_queue_advance queue_of queue_set timer_proc elapsed s
      = Some (tt, queue_set q' (queue_set ((queue_of s) <| elapsed_time := elapsed_time (queue_of s) + elapsed |>) s)) /\
    ring q' = ring (queue_of s) /\ fired q' = fired (queue_of s) /\
    apt_timer_queue_timeout_get q'
      = Some (Some (2 ^ 32 - (elapsed - (sched (queue_of s) a - elapsed_time (queue_of s)))), q').
Proof.
  intros Hget W Er Hel Hbig Hlate. set (q := queue_of s) in *.
  set (q0 := q <| elapsed_time := elapsed_time q + elapsed |>).
  set (q1 := apt_timers_reschedule q0).
  destruct (reschedule_lost q a rest elapsed W Er Hel Hbig Hlate) as (t & E & Hst). fold q0 in E. fold q1 in E.
  assert (Hin : a ∈ ring q) by (rewrite Er; apply list_elem_of_here).
  pose proof (tw_ahead q W a Hin) as Ha. pose proof (tw_elapsed q W) as He.
  exists q1. split; [|split; [done|split; [done|]]].
  - unfold apt_timer_queue_advance. unfold bind at 1, gets at 1. fold q. rewrite Er. rewrite u32_small by lia.
    unfold bind at 1, on_queue at 1, modify at 1. fold q q0. rewrite (proj2 (Z.leb_le _ _)) by lia.
    unfold bind at 1, on_queue at 1, modify at 1. rewrite Hget. fold q1.
    cbn [length timers_process]. unfold bind at 1, gets at 1. rewrite Hget. change (ring q1) with (ring q). rewrite Er, E.
    unfold bind at 1. cbn [deref_ptr]. unfold ret at 1. change (elapsed_time q1) with 0. rewrite Hst.
    rewrite (proj2 (Z.ltb_lt _ _)) by lia. done.
  - unfold apt_timer_queue_timeout_get. unfold bind at 1, gets at 1. change (ring q1) with (ring q). rewrite Er.
    unfold bind at 1. rewrite (get_timer_eq q1 a t E). change (elapsed_time q1) with 0. unfold ret.
    rewrite Z.sub_0_r, Hst, u32_small by lia. done.
Qed.

(** A timer of 5 seconds is set 62 seconds after the first one of the queue, and the time is
    moved by 5001 ms. *)
Definition late_queue : apt_timer_queue_t :=
  mk_timer_queue [0%nat] 62000 {[ 0%nat := mk_timer 67000 true ]} 1 [].

Lemma late_queue_wf : timers_wf late_queue.
Proof.
  assert (Hs : forall a, sched late_queue a = match a with 0%nat => 67000 | _ => 0 end).
  { intros [|a]; [reflexivity|]. unfold sched. change (timers late_queue) with ({[ 0%nat := mk_timer 67000 true ]} : gmap addr apt_timer_t).
    by rewrite lookup_singleton_ne. }
  split; cbn [late_queue ring elapsed_time next_timer].
  - apply list.NoDup_singleton.
  - repeat constructor.
  - intros a. rewrite Hs, list_elem_of_singleton. by destruct a.
  - intros [|a]; rewrite Hs; lia.
  - intros a ->%list_elem_of_singleton. by rewrite Hs.
  - lia.
  - intros a Ha. change (timers late_queue) with ({[ 0%nat := mk_timer 67000 true ]} : gmap addr apt_timer_t).
    apply lookup_singleton_ne. lia.
Qed.

Lemma timer_advance_lost_witness :
  exists q', passive_advance 5001 late_queue = Some (tt, q') /\
    ring q' = [0%nat] /\ fired q' = [] /\
    apt_timer_queue_timeout_get q' = Some (Some (2 ^ 32 - 1), q').
Proof.
  apply (timer_advance_lost (fun q => q) (fun q _ => q) (fun _ => ret tt) late_queue 0%nat [] 5001 (fun _ _ => eq_refl) late_queue_wf);
    [reflexivity|lia| |].
  - change (elapsed_time late_queue) with 62000. lia.
  - reflexivity.
Defined.
