(* ===== verification/AprHash.v ===== *)
(** The hash tables of the Apache Portable Runtime ([apr_hash.h]) with byte strings as keys, as a
    class: the operations the code calls and, in a second class, the documented behaviour it
    relies on; finite maps are an instance. *)

From S2P Require Import Prelude.

(** [apr_hash_set] of NULL removes the key: it is [apr_hash_unset] here; the values are in the order
    of [apr_hash_first] and [apr_hash_next]. *)
Class AprHash (V : Type) := {
  apr_hash_t : Type;
  apr_hash_make : apr_hash_t;
  apr_hash_set : apr_hash_t -> bytes -> V -> apr_hash_t;
  apr_hash_unset : apr_hash_t -> bytes -> apr_hash_t;
  apr_hash_get : apr_hash_t -> bytes -> option V;
  apr_hash_count : apr_hash_t -> Z;
  apr_hash_values : apr_hash_t -> list V
}.

Class AprHashLaws {V} (A : AprHash V) : Prop := {
  apr_hash_get_make : forall k, apr_hash_get apr_hash_make k = None;
  apr_hash_get_set : forall h k v k',
    apr_hash_get (apr_hash_set h k v) k' = if decide (k' = k) then Some v else apr_hash_get h k';
  apr_hash_get_unset : forall h k k',
    apr_hash_get (apr_hash_unset h k) k' = if decide (k' = k) then None else apr_hash_get h k';
  apr_hash_count_set : forall h k v,
    apr_hash_count (apr_hash_set h k v)
    = apr_hash_count h + match apr_hash_get h k with Some _ => 0 | None => 1 end;
  apr_hash_count_unset : forall h k,
    apr_hash_count (apr_hash_unset h k)
    = apr_hash_count h - match apr_hash_get h k with Some _ => 1 | None => 0 end;
  apr_hash_count_nonneg : forall h, 0 <= apr_hash_count h;
  apr_hash_count_zero : forall h, apr_hash_count h = 0 <-> forall k, apr_hash_get h k = None;
  apr_hash_values_entries : forall h, exists ks, NoDup ks /\
    Forall2 (fun k v => apr_hash_get h k = Some v) ks (apr_hash_values h) /\
    forall k, is_Some (apr_hash_get h k) -> k ∈ ks
}.

(** An implementation by finite maps. *)
Definition apr_hash_reference (V : Type) : AprHash V := {|
  apr_hash_t := gmap bytes V;
  apr_hash_make := empty;
  apr_hash_set h k v := <[k := v]> h;
  apr_hash_unset h k := delete k h;
  apr_hash_get h k := h !! k;
  apr_hash_count h := Z.of_nat (size h);
  apr_hash_values h := map snd (map_to_list h)
|}.

Lemma apr_hash_reference_laws (V : Type) : AprHashLaws (apr_hash_reference V).
Proof.
  split; simpl.
  - intros. apply lookup_empty.
  - intros h k v k'. case_decide as E; [subst; apply lookup_insert_eq|by apply lookup_insert_ne].
  - intros h k k'. case_decide as E; [subst; apply lookup_delete_eq|by apply lookup_delete_ne].
  - intros h k v. destruct (h !! k) eqn:E; [rewrite map_size_insert_Some by eauto; lia|].
    rewrite map_size_insert_None by done. lia.
  - intros h k. destruct (h !! k) as [v|] eqn:E.
    + rewrite map_size_delete_Some by eauto. assert (size h <> 0%nat); [|lia].
      intros Hs%map_size_empty_inv. subst. by rewrite lookup_empty in E.
    + rewrite delete_id by done. lia.
  - intros. lia.
  - intros h. split.
    + intros Hs. assert (size h = 0%nat) as ->%map_size_empty_inv by lia. apply lookup_empty.
    + intros Hn. apply map_empty in Hn as ->. by rewrite map_size_empty.
  - intros h. exists (map fst (map_to_list h)). split; [apply NoDup_fst_map_to_list|]. split.
    + apply Forall2_fmap, Forall_Forall2_diag, list.Forall_forall. intros [k v] H%elem_of_map_to_list. done.
    + intros k [v Hv]. apply list_elem_of_fmap. exists (k, v). split; [done|]. by apply elem_of_map_to_list.
Qed.
