(* ===== verification/MessageParser.v ===== *)
(** The staged parser and generator of text messages
    ([libs/apr-toolkit/src/apt_text_message.c], second half; header sections are in
    [TextMessage]).  A message of any protocol is parsed and generated through a virtual table
    of handlers and a context that points at its header section and its body. *)

From S2P Require Import Prelude AptString TextStream HeaderField TextMessage.

Inductive apt_message_status_e :=
| APT_MESSAGE_STATUS_COMPLETE
| APT_MESSAGE_STATUS_INCOMPLETE
| APT_MESSAGE_STATUS_INVALID.

Inductive apt_message_stage_e :=
| APT_MESSAGE_STAGE_START_LINE
| APT_MESSAGE_STAGE_HEADER
| APT_MESSAGE_STAGE_BODY.

(** The pointers of a context into the message it is associated with. *)
Class MessageContext (M : Type) := {
  ctx_header : M -> apt_header_section_t;
  set_ctx_header : apt_header_section_t -> M -> M;
  ctx_body : M -> apt_str_t;
  set_ctx_body : apt_str_t -> M -> M
}.

(** Each pointer reaches a part of its own. *)
Class MessageContextLaws {M} (C : MessageContext M) : Prop := {
  header_set_header : forall h m, ctx_header (set_ctx_header h m) = h;
  header_set_body : forall b m, ctx_header (set_ctx_body b m) = ctx_header m;
  body_set_body : forall b m, ctx_body (set_ctx_body b m) = b;
  body_set_header : forall h m, ctx_body (set_ctx_header h m) = ctx_body m;
  set_body_body : forall b b' m, set_ctx_body b (set_ctx_body b' m) = set_ctx_body b m
}.

(** * Parser *)

(** [on_start] returns the new message it associates with the context, [None] when it fails;
    a handler that is not set is [None].  The object of the parser is what the handlers close
    over. *)
Record apt_message_parser_vtable_t (M : Type) := mk_parser_vtable {
  on_start : apt_text_stream_t -> option (option M * apt_text_stream_t);
  on_header_complete : option (M -> option (bool * M));
  on_body_complete : option (M -> option (bool * M))
}.
Arguments mk_parser_vtable {M}.
Arguments on_start {M}.
Arguments on_header_complete {M}.
Arguments on_body_complete {M}.

Record apt_message_parser_t (M : Type) := mk_parser {
  parser_vtable : apt_message_parser_vtable_t M;
  parser_context : option M;
  parser_content_length : nat;
  parser_stage : apt_message_stage_e;
  skip_lf : bool
}.
Arguments mk_parser {M}.
Arguments parser_vtable {M}.
Arguments parser_context {M}.
Arguments parser_content_length {M}.
Arguments parser_stage {M}.
Arguments skip_lf {M}.
#[global] Instance eta_parser (M : Type) : Eta (apt_message_parser_t M) := fun s =>
  mk_parser (parser_vtable s) (parser_context s) (parser_content_length s) (parser_stage s)
    (skip_lf s).

Definition apt_message_parser_create {M} (vt : apt_message_parser_vtable_t M)
    : apt_message_parser_t M :=
  mk_parser vt None 0 APT_MESSAGE_STAGE_START_LINE false.

(** [stream->text.length - (stream->pos - stream->text.buf)], of the size type. *)
Definition text_left (st : apt_text_stream_t) : nat :=
  Z.to_nat (u64 (Z.of_nat (st_base st + st_text_len st) - Z.of_nat (st_pos st))).

(** Copy into the body what is there of what it lacks; a copy past the end of the body is
    undefined.  [false]: the body is not complete yet. *)
Definition apt_message_body_read (content_length : nat) (body : apt_str_t) (st : apt_text_stream_t)
    : option (bool * apt_str_t * apt_text_stream_t) :=
  match str_buf body with
  | None => Some (true, body, st)
  | Some m =>
      let required := Z.to_nat (u64 (Z.of_nat content_length - Z.of_nat (str_len body))) in
      let '(status, required) :=
        if (text_left st <? required)%nat then (false, text_left st) else (true, required) in
      if (str_len body + required <=? length m)%nat then
        Some (status,
              mk_str (Some (overwrite m (str_len body) (mread (from_pos st) required)))
                     (str_len body + required),
              set_pos (st_pos st + required) st)
      else None
  end.

(** [*(stream->pos-1)] is read when nothing is left, even at the start of the memory. *)
Definition apt_crlf_segmentation_test (skip : bool) (st : apt_text_stream_t) : option bool :=
  if (st_pos st =? st_end st)%nat then
    match st_pos st with
    | O => None
    | S p => Some (char_eqb (byte_at (st_mem st) p) CR || skip)%bool
    end
  else Some skip.

(** The body of a message whose length was found in the header: allocated with room for a
    terminating NUL, the size being of the size type. *)
Definition message_body_alloc `{Apr} (body : apt_str_t) : option apt_str_t :=
  let m := apr_palloc (Z.to_nat (u64 (Z.of_nat (str_len body) + 1))) in
  if (str_len body <? length m)%nat
  then Some (mk_str (Some (overwrite m (str_len body) [NUL])) 0)
  else None.

Section Parser.
Context `{Apr} {M : Type} {C : MessageContext M}.

Abbreviation parser := (apt_message_parser_t M).
(** Status, message if complete, parser and stream. *)
Abbreviation parse_result := (apt_message_status_e * option M * parser * apt_text_stream_t)%type.

(** The result of a complete message. *)
Definition parser_complete (p : parser) (st : apt_text_stream_t) : parse_result :=
  (APT_MESSAGE_STATUS_COMPLETE, parser_context p,
   p <| parser_stage := APT_MESSAGE_STAGE_START_LINE |>, st).

(** A context that is not associated is a NULL pointer. *)
Definition parser_run_body (p : parser) (st : apt_text_stream_t) : option parse_result :=
  let? m := parser_context p in
  let? (ok, body, st) := apt_message_body_read (parser_content_length p) (ctx_body m) st in
  let m := set_ctx_body body m in
  if negb ok then Some (APT_MESSAGE_STATUS_INCOMPLETE, None, p <| parser_context := Some m |>, st)
  else
    let? m := match on_body_complete (parser_vtable p) with
              | None => Some m
              | Some f => let? (_, m) := f m in Some m
              end in
    Some (parser_complete (p <| parser_context := Some m |>) st).

Definition parser_run_header (p : parser) (st : apt_text_stream_t) : option parse_result :=
  let? m := parser_context p in
  let '(res, h, st) := apt_header_section_parse (ctx_header m) st in
  let m := set_ctx_header h m in
  let? skip := apt_crlf_segmentation_test (skip_lf p) st in
  let p := p <| parser_context := Some m |> <| skip_lf := skip |> in
  if negb res then Some (APT_MESSAGE_STATUS_INCOMPLETE, None, p, st)
  else
    let? (ok, m) := match on_header_complete (parser_vtable p) with
                    | None => Some (true, m)
                    | Some f => f m
                    end in
    let p := p <| parser_context := Some m |> in
    if negb ok then Some (APT_MESSAGE_STATUS_INVALID, None, p, st)
    else if (str_len (ctx_body m) =? 0)%nat then Some (parser_complete p st)
    else
      let? body := message_body_alloc (ctx_body m) in
      parser_run_body
        (p <| parser_content_length := str_len (ctx_body m) |>
           <| parser_context := Some (set_ctx_body body m) |>
           <| parser_stage := APT_MESSAGE_STAGE_BODY |>) st.

(** The loop of the source leaves in its first iteration whatever the stage. *)
Definition apt_message_parser_run (p : parser) (st : apt_text_stream_t) : option parse_result :=
  let st := if skip_lf p then apt_text_char_skip LF st else st in
  let p := p <| skip_lf := false |> in
  match parser_stage p with
  | APT_MESSAGE_STAGE_START_LINE =>
      let? (r, st) := on_start (parser_vtable p) st in
      match r with
      | None =>
          Some (if apt_text_is_eos st then APT_MESSAGE_STATUS_INCOMPLETE
                else APT_MESSAGE_STATUS_INVALID, None, p, st)
      | Some m =>
          let? skip := apt_crlf_segmentation_test (skip_lf p) st in
          parser_run_header
            (p <| parser_context := Some m |> <| skip_lf := skip |>
               <| parser_stage := APT_MESSAGE_STAGE_HEADER |>) st
      end
  | APT_MESSAGE_STAGE_HEADER => parser_run_header p st
  | APT_MESSAGE_STAGE_BODY => parser_run_body p st
  end.

End Parser.

(** * Generator *)

Record apt_message_generator_vtable_t (M : Type) := mk_generator_vtable {
  gen_on_start : M -> prog apt_text_stream_t (bool * M);
  gen_on_header_complete : option (M -> prog apt_text_stream_t (bool * M))
}.
Arguments mk_generator_vtable {M}.
Arguments gen_on_start {M}.
Arguments gen_on_header_complete {M}.

(** The message of the context is known by its address. *)
Record apt_message_generator_t (M : Type) := mk_generator {
  generator_vtable : apt_message_generator_vtable_t M;
  generator_message : option addr;
  generator_content_length : nat;
  generator_stage : apt_message_stage_e
}.
Arguments mk_generator {M}.
Arguments generator_vtable {M}.
Arguments generator_message {M}.
Arguments generator_content_length {M}.
Arguments generator_stage {M}.
#[global] Instance eta_generator (M : Type) : Eta (apt_message_generator_t M) := fun s =>
  mk_generator (generator_vtable s) (generator_message s) (generator_content_length s)
    (generator_stage s).

Definition apt_message_generator_create {M} (vt : apt_message_generator_vtable_t M)
    : apt_message_generator_t M :=
  mk_generator vt None 0 APT_MESSAGE_STAGE_START_LINE.

Definition apt_message_generator_break (st : apt_text_stream_t) : apt_message_status_e :=
  if apt_text_is_eos st then APT_MESSAGE_STATUS_INCOMPLETE else APT_MESSAGE_STATUS_INVALID.

(** Write what fits of what is not written yet. *)
Definition apt_message_body_write (content_length : nat) (body : apt_str_t)
    : prog apt_text_stream_t (bool * apt_str_t) :=
  if (str_len body <? content_length)%nat then
    let* room := gets text_left in
    let required := (content_length - str_len body)%nat in
    let '(status, required) :=
      if (room <? required)%nat then (false, room) else (true, required) in
    put (mread (drop (str_len body) (str_mem body)) required) ;;;
    ret (status, mk_str (str_buf body) (str_len body + required))
  else ret (true, body).

Section Generator.
Context {M : Type} {C : MessageContext M}.
Abbreviation generator := (apt_message_generator_t M).
(** Status, generator and message. *)
Abbreviation generate_result := (apt_message_status_e * generator * M)%type.

Definition generator_break (g : generator) (m : M) : prog apt_text_stream_t generate_result :=
  let* s := gets apt_message_generator_break in ret (s, g, m).

Definition generator_run_body (g : generator) (m : M) : prog apt_text_stream_t generate_result :=
  let* r := apt_message_body_write (generator_content_length g) (ctx_body m) in
  let '(ok, body) := r in
  let m := set_ctx_body body m in
  if negb ok then generator_break g m
  else ret (APT_MESSAGE_STATUS_COMPLETE,
            g <| generator_stage := APT_MESSAGE_STAGE_START_LINE |>, m).

(** [on_start] associates header section and body when it succeeds; what
    [on_header_complete] returns is ignored. *)
Definition generator_run_start (g : generator) (m : M) : prog apt_text_stream_t generate_result :=
  let* r := gen_on_start (generator_vtable g) m in
  let '(ok, m) := r in
  if negb ok then generator_break g m
  else
    let* ok := apt_header_section_generate (ctx_header m) in
    if negb ok then generator_break g m
    else
      let* r := match gen_on_header_complete (generator_vtable g) with
                | None => ret (true, m)
                | Some f => f m
                end in
      let m := snd r in
      let n := str_len (ctx_body m) in
      let g := g <| generator_stage := APT_MESSAGE_STAGE_START_LINE |>
                 <| generator_content_length := n |> in
      if (n =? 0)%nat then ret (APT_MESSAGE_STATUS_COMPLETE, g, m)
      else
        generator_run_body (g <| generator_stage := APT_MESSAGE_STAGE_BODY |>)
          (set_ctx_body (mk_str (str_buf (ctx_body m)) 0) m).

Definition apt_message_generator_run (g : generator) (a : addr) (m : M)
    : prog apt_text_stream_t generate_result :=
  let g := if decide (generator_message g = Some a) then g
           else g <| generator_stage := APT_MESSAGE_STAGE_START_LINE |>
                  <| generator_message := Some a |> in
  match generator_stage g with
  | APT_MESSAGE_STAGE_START_LINE => generator_run_start g m
  | APT_MESSAGE_STAGE_BODY => generator_run_body g m
  | APT_MESSAGE_STAGE_HEADER => ret (APT_MESSAGE_STATUS_COMPLETE, g, m)
  end.

End Generator.

(** * Properties *)

(** A stream that holds exactly its text, as [apt_text_stream_reset] leaves it. *)
Record reader_ok (rd : apt_text_stream_t) : Prop := {
  rd_wf : stream_wf rd;
  rd_addressable : addressable rd;
  rd_end : st_end rd = (st_base rd + st_text_len rd)%nat
}.

Lemma reader_advances (rd rd' : apt_text_stream_t) :
  reader_ok rd -> advances rd rd' -> reader_ok rd'.
Proof.
  intros [W Ad He] (M & B & L & E & P & Hw). split; [by apply Hw| |congruence].
  unfold addressable in *. by rewrite M.
Qed.

Lemma text_left_window (rd : apt_text_stream_t) : reader_ok rd -> text_left rd = length (window rd).
Proof.
  intros [W Ad He]. rewrite window_length by done. unfold text_left, stream_wf, addressable in *.
  rewrite <-He, u64_small by lia. lia.
Qed.

(** The memory of a body of which [done] has been read. *)
Definition body_filled (body : apt_str_t) (have : bytes) (n : nat) : Prop :=
  exists m, body = mk_str (Some m) (length have) /\ take (length have) m = have /\
    (n <= length m)%nat.

Lemma body_read_step (n : nat) (body : apt_str_t) (have : bytes) (rd : apt_text_stream_t) :
  body_filled body have n -> (length have <= n)%nat -> Z.of_nat n < 2 ^ 64 -> reader_ok rd ->
  let k := (n - length have)%nat in
  exists body', apt_message_body_read n body rd
    = Some ((k <=? length (window rd))%nat, body',
            set_pos (st_pos rd + length (take k (window rd))) rd) /\
    body_filled body' (have ++ take k (window rd)) n.
Proof.
  intros (m & -> & Hm & Hlm) Hn Hlim Hrd k. unfold apt_message_body_read. cbn [str_buf str_len].
  rewrite (text_left_window rd Hrd).
  assert (Hk : Z.to_nat (u64 (Z.of_nat n - Z.of_nat (length have))) = k).
  { rewrite u64_small by lia. unfold k. lia. }
  rewrite Hk. set (w := window rd) in *.
  assert (Hreq : forall q, (q <= length w)%nat -> mread (from_pos rd) q = take q w).
  { intros q Hq. rewrite from_pos_split by apply Hrd. fold w. unfold mread. rewrite <-app_assoc.
    by rewrite take_app_le. }
  assert (Hgo : forall q, (q <= length w)%nat -> (q <= k)%nat ->
    (length have + q <= length m)%nat /\
    body_filled (mk_str (Some (overwrite m (length have) (mread (from_pos rd) q))) (length have + q))
      (have ++ take q w) n).
  { intros q Hq Hqk. split; [lia|]. rewrite Hreq by done.
    exists (overwrite m (length have) (take q w)).
    assert (Htq : length (take q w) = q) by (rewrite length_take; lia).
    rewrite length_app, Htq. split; [done|]. split.
    - pose proof (overwrite_take m (take q w) (length have) ltac:(rewrite Htq; lia)) as Ho.
      rewrite Htq, Hm in Ho. exact Ho.
    - rewrite overwrite_length; rewrite ?Htq; lia. }
  destruct (Nat.ltb_spec (length w) k) as [Hlt|Hge].
  - destruct (Hgo (length w) (le_n _) ltac:(lia)) as [H1 H2]. rewrite (proj2 (Nat.leb_le _ _) H1).
    rewrite (proj2 (Nat.leb_gt _ _) Hlt), (take_ge w k) by lia. rewrite take_ge in H2 by done. eauto.
  - destruct (Hgo k ltac:(lia) (le_n _)) as [H1 H2]. rewrite (proj2 (Nat.leb_le _ _) H1).
    rewrite (proj2 (Nat.leb_le k _)) by lia. rewrite length_take, (Nat.min_l k) by lia. eauto.
Qed.

Lemma body_filled_text (body : apt_str_t) (have : bytes) (n : nat) :
  body_filled body have n -> str_text body = have.
Proof. intros (m & -> & Hm & _). unfold str_text, str_mem. cbn [str_buf str_len]. exact Hm. Qed.

Section Segments.
Context `{Apr} {M : Type} {C : MessageContext M} {CL : MessageContextLaws C}.

(** The parser given one stream after another until the message is complete. *)
Fixpoint parser_feed (p : apt_message_parser_t M) (rds : list apt_text_stream_t)
    : option (apt_message_status_e * option M * apt_message_parser_t M * list apt_text_stream_t) :=
  match rds with
  | [] => Some (APT_MESSAGE_STATUS_INCOMPLETE, None, p, [])
  | rd :: rds' =>
      let? (status, m, p, rd) := apt_message_parser_run p rd in
      match status with
      | APT_MESSAGE_STATUS_INCOMPLETE => parser_feed p rds'
      | _ => Some (status, m, p, rd :: rds')
      end
  end.

(** A parser in the middle of the body of [m], with [have] already read. *)
Record in_body (p : apt_message_parser_t M) (m : M) (have : bytes) : Prop := {
  ib_stage : parser_stage p = APT_MESSAGE_STAGE_BODY;
  ib_handler : on_body_complete (parser_vtable p) = None;
  ib_skip : skip_lf p = false;
  ib_context : parser_context p = Some m;
  ib_filled : body_filled (ctx_body m) have (parser_content_length p);
  ib_length : (length have <= parser_content_length p)%nat;
  ib_limit : Z.of_nat (parser_content_length p) < 2 ^ 64
}.

Lemma in_body_run (p : apt_message_parser_t M) (m : M) (have : bytes) (rd : apt_text_stream_t) :
  in_body p m have -> reader_ok rd ->
  let k := (parser_content_length p - length have)%nat in
  let got := take k (window rd) in
  exists body', body_filled body' (have ++ got) (parser_content_length p) /\
    let m' := set_ctx_body body' m in
    let rd' := set_pos (st_pos rd + length got) rd in
    apt_message_parser_run p rd =
    if (k <=? length (window rd))%nat then
      Some (APT_MESSAGE_STATUS_COMPLETE, Some m',
            mk_parser (parser_vtable p) (Some m') (parser_content_length p)
              APT_MESSAGE_STAGE_START_LINE false, rd')
    else Some (APT_MESSAGE_STATUS_INCOMPLETE, None,
            mk_parser (parser_vtable p) (Some m') (parser_content_length p)
              APT_MESSAGE_STAGE_BODY false, rd').
Proof.
  intros [Hst Hh Hsk Hc Hf Hl Hlim] Hrd k got.
  destruct (body_read_step _ _ have rd Hf Hl Hlim Hrd) as (body' & E & Hf'). fold k in E, Hf'.
  exists body'. split; [exact Hf'|]. cbv zeta.
  unfold apt_message_parser_run. destruct p as [vt ctx n stg sk].
  cbn [parser_stage parser_vtable parser_context parser_content_length skip_lf field_set] in *. subst.
  unfold parser_run_body. cbn [parser_context parser_content_length parser_vtable].
  rewrite E. destruct (k <=? length (window rd))%nat; cbn [negb]; [by rewrite Hh|done].
Qed.

(** A body that arrives in pieces is put together: whatever the boundaries of the streams the
    rest of the body comes in, the parser completes exactly when the last byte is there, with
    the whole body in the message, and what follows the body is left unread. *)
Theorem parser_feed_body (p : apt_message_parser_t M) (m : M) (have need rest : bytes)
    (rds : list apt_text_stream_t) :
  in_body p m have -> (length have + length need = parser_content_length p)%nat -> need <> [] ->
  Forall reader_ok rds -> concat (map window rds) = need ++ rest ->
  exists body p' rds', parser_feed p rds
      = Some (APT_MESSAGE_STATUS_COMPLETE, Some (set_ctx_body body m), p', rds') /\
    str_text body = have ++ need /\ parser_stage p' = APT_MESSAGE_STAGE_START_LINE /\
    concat (map window rds') = rest.
Proof.
  intros Hin Hlen Hne Hok Hw. revert p m have need Hin Hlen Hne Hw.
  induction Hok as [|rd rds Hrd Hok IH]; intros p m have need Hin Hlen Hne Hw.
  { cbn in Hw. by destruct need. }
  cbn [map concat parser_feed] in *.
  destruct (in_body_run p m have rd Hin Hrd) as (body & Hf & E). cbv zeta in E. rewrite E. clear E.
  replace (parser_content_length p - length have)%nat with (length need) in * by lia.
  destruct (Nat.leb_spec (length need) (length (window rd))) as [Hle|Hgt].
  - assert (Ht : take (length need) (window rd) = need).
    { rewrite <-(take_app_le (window rd) (concat (map window rds))) by lia.
      rewrite Hw. apply take_app_length. }
    eexists body, _, _. split; [reflexivity|]. rewrite Ht in *.
    split; [by eapply body_filled_text|]. split; [done|]. cbn [map concat].
    rewrite window_advance. apply (f_equal (drop (length need))) in Hw.
    rewrite drop_app_length, drop_app_le in Hw by lia. exact Hw.
  - rewrite take_ge in Hf by lia.
    assert (Hw' : need = window rd ++ drop (length (window rd)) need).
    { apply (f_equal (take (length (window rd)))) in Hw.
      rewrite take_app_length, take_app_le in Hw by lia. rewrite Hw at 1. by rewrite take_drop. }
    set (need' := drop (length (window rd)) need) in *.
    assert (Hl' : length need' = (length need - length (window rd))%nat)
      by (unfold need'; by rewrite length_drop).
    edestruct (IH (mk_parser (parser_vtable p) (Some (set_ctx_body body m)) (parser_content_length p)
      APT_MESSAGE_STAGE_BODY false) (set_ctx_body body m) (have ++ window rd) need')
      as (body' & p' & rds' & E & Ht & Hst & Hr).
    + destruct Hin. split; try done; cbn [parser_content_length].
      * by rewrite body_set_body.
      * rewrite length_app. lia.
    + rewrite length_app. cbn [parser_content_length]. lia.
    + intros En. rewrite En in Hl'. simpl in Hl'. lia.
    + rewrite Hw', <-app_assoc in Hw. by apply app_inv_head in Hw.
    + exists body', p', rds'. rewrite set_body_body in E. split; [exact E|].
      rewrite Ht, Hw' at 1. by rewrite <-app_assoc.
Qed.

End Segments.

Section BodyAlloc.
Context `{LA : AprLaws}.

(** The body of every length is allocated with room for its terminating NUL, except the largest
    one, for which the size of the allocation wraps around to zero and the NUL is stored
    outside of it. *)
Theorem message_body_alloc_defined (body : apt_str_t) :
  Z.of_nat (str_len body) < 2 ^ 64 ->
  (message_body_alloc body = None <-> Z.of_nat (str_len body) = 2 ^ 64 - 1) /\
  (forall b, message_body_alloc body = Some b ->
   str_len b = 0%nat /\ exists m, str_buf b = Some m /\ length m = (str_len body + 1)%nat /\
   drop (str_len body) m = [NUL]).
Proof.
  intros Hl. unfold message_body_alloc.
  destruct (decide (Z.of_nat (str_len body) = 2 ^ 64 - 1)) as [E|E].
  - assert (Hz : u64 (Z.of_nat (str_len body) + 1) = 0) by (rewrite E; reflexivity).
    rewrite Hz, apr_palloc_length. cbn [Z.to_nat].
    destruct (Nat.ltb_spec (str_len body) 0); [lia|]. split; [done|]. done.
  - rewrite u64_small, apr_palloc_length by lia.
    destruct (Nat.ltb_spec (str_len body) (Z.to_nat (Z.of_nat (str_len body) + 1))); [|lia].
    split; [split; [done|lia]|]. intros b [= <-]. split; [done|]. eexists. split; [reflexivity|].
    rewrite overwrite_length; rewrite apr_palloc_length; [|simpl; lia]. split; [lia|].
    unfold overwrite. rewrite drop_app_length'; [|rewrite length_take, apr_palloc_length; lia].
    rewrite drop_ge; [done|]. rewrite apr_palloc_length. simpl. lia.
Qed.

End BodyAlloc.

(** A message that is only a header section and a body. *)
Definition pair_context : MessageContext (apt_header_section_t * apt_str_t) := {|
  ctx_header := fst; set_ctx_header h m := (h, snd m);
  ctx_body := snd; set_ctx_body b m := (fst m, b)
|}.

Lemma pair_context_laws : MessageContextLaws pair_context.
Proof. by split. Qed.

(** "hello" in two pieces, followed by the start of the next message. *)
Lemma parser_feed_body_witness :
  exists body p' rds',
    @parser_feed apr_reference _ pair_context
      (mk_parser (mk_parser_vtable (fun st => None) None None)
         (Some (apt_header_section_init, mk_str (Some (replicate 6 NUL)) 0)) 5
         APT_MESSAGE_STAGE_BODY false)
      [stream_of_str (str_of (lit "hel")); stream_of_str (str_of (lit "loMRCP"))]
    = Some (APT_MESSAGE_STATUS_COMPLETE, Some (apt_header_section_init, body), p', rds') /\
    str_text body = lit "hello".
Proof.
  destruct (@parser_feed_body apr_reference _ pair_context pair_context_laws
    (mk_parser (mk_parser_vtable (fun st => None) None None)
       (Some (apt_header_section_init, mk_str (Some (replicate 6 NUL)) 0)) 5
       APT_MESSAGE_STAGE_BODY false)
    (apt_header_section_init, mk_str (Some (replicate 6 NUL)) 0) [] (lit "hello") (lit "MRCP")
    [stream_of_str (str_of (lit "hel")); stream_of_str (str_of (lit "loMRCP"))])
    as (body & p' & rds' & E & Ht & _).
  - split; try reflexivity; [|simpl; lia].
    exists (replicate 6 NUL). split; [reflexivity|]. split; [reflexivity|simpl; lia].
  - reflexivity.
  - discriminate.
  - repeat apply Forall_cons; [..|apply Forall_nil];
      (split; [unfold stream_wf; simpl; lia|unfold addressable; simpl; lia|reflexivity]).
  - reflexivity.
  - exists body, p', rds'. split; [exact E|exact Ht].
Defined.

Lemma message_body_alloc_defined_witness :
  @message_body_alloc apr_reference (str_of (lit "abc")) <> None.
Proof.
  intros E. apply (@message_body_alloc_defined apr_reference apr_reference_laws
    (str_of (lit "abc")) ltac:(simpl; lia)) in E. simpl in E. lia.
Defined.
