(* ===== verification/Transport.v ===== *)
(** What the two sides of the MRCPv2 transport share ([libs/mrcpv2-transport]): control descriptors
    ([mrcp_control_descriptor.c]), the requests of the owners to the tasks of the agents, the text
    streams over the buffers of a connection, and the factory that shares out the agents
    ([mrcp_ca_factory.c]). *)

From S2P Require Import Prelude AptString TextStream StartLine MessageParser.

(** * Control descriptors *)

Definition TCP_DISCARD_PORT : Z := 9.

Inductive mrcp_proto_type_e := MRCP_PROTO_TCP | MRCP_PROTO_TLS | MRCP_PROTO_UNKNOWN.
Inductive mrcp_setup_type_e := MRCP_SETUP_TYPE_ACTIVE | MRCP_SETUP_TYPE_PASSIVE | MRCP_SETUP_TYPE_UNKNOWN.
Inductive mrcp_connection_type_e :=
| MRCP_CONNECTION_TYPE_NEW
| MRCP_CONNECTION_TYPE_EXISTING
| MRCP_CONNECTION_TYPE_UNKNOWN.

#[global] Instance mrcp_connection_type_e_eq_dec : EqDecision mrcp_connection_type_e.
Proof. solve_decision. Defined.

Definition mrcp_proto_type_table : list apt_str_table_item_t :=
  [item "TCP/MRCPv2" 10 4; item "TCP/TLS/MRCPv2" 14 4].
Definition mrcp_attrib_table : list apt_str_table_item_t :=
  [item "setup" 5 0; item "connection" 10 1; item "resource" 8 0; item "channel" 7 1; item "cmid" 4 1].
Definition mrcp_setup_value_table : list apt_str_table_item_t := [item "active" 6 0; item "passive" 7 0].
Definition mrcp_connection_value_table : list apt_str_table_item_t :=
  [item "new" 3 0; item "existing" 8 0].

Definition mrcp_proto_get (proto : Z) := apt_string_table_str_get mrcp_proto_type_table 2 proto.
Definition mrcp_proto_find (a : apt_str_t) := apt_string_table_id_find mrcp_proto_type_table 2 a.
Definition mrcp_attrib_str_get (id : Z) := apt_string_table_str_get mrcp_attrib_table 5 id.
Definition mrcp_attrib_id_find (a : apt_str_t) := apt_string_table_id_find mrcp_attrib_table 5 a.
Definition mrcp_setup_type_get (t : Z) := apt_string_table_str_get mrcp_setup_value_table 2 t.
Definition mrcp_setup_type_find (a : apt_str_t) := apt_string_table_id_find mrcp_setup_value_table 2 a.
Definition mrcp_connection_type_get (t : Z) := apt_string_table_str_get mrcp_connection_value_table 2 t.
Definition mrcp_connection_type_find (a : apt_str_t) :=
  apt_string_table_id_find mrcp_connection_value_table 2 a.

Record mrcp_control_descriptor_t := mk_descriptor {
  ip : apt_str_t;
  port : Z;
  proto : mrcp_proto_type_e;
  setup_type : mrcp_setup_type_e;
  connection_type : mrcp_connection_type_e;
  desc_resource_name : apt_str_t;
  desc_session_id : apt_str_t;
  cmid_arr : list Z;
  desc_id : Z
}.
#[global] Instance eta_descriptor : Eta mrcp_control_descriptor_t := fun s =>
  mk_descriptor (ip s) (port s) (proto s) (setup_type s) (connection_type s)
    (desc_resource_name s) (desc_session_id s) (cmid_arr s) (desc_id s).

Definition mrcp_control_descriptor_create : mrcp_control_descriptor_t :=
  mk_descriptor apt_string_reset 0 MRCP_PROTO_UNKNOWN MRCP_SETUP_TYPE_UNKNOWN
    MRCP_CONNECTION_TYPE_UNKNOWN apt_string_reset apt_string_reset [] 0.

Definition mrcp_control_offer_create : mrcp_control_descriptor_t :=
  mrcp_control_descriptor_create <| proto := MRCP_PROTO_TCP |> <| port := TCP_DISCARD_PORT |>
    <| setup_type := MRCP_SETUP_TYPE_ACTIVE |> <| connection_type := MRCP_CONNECTION_TYPE_EXISTING |>.

Definition mrcp_control_answer_create (offer : option mrcp_control_descriptor_t)
    : mrcp_control_descriptor_t :=
  (default mrcp_control_descriptor_create offer) <| setup_type := MRCP_SETUP_TYPE_PASSIVE |>.

Definition mrcp_cmid_add (arr : list Z) (cmid : Z) : list Z := arr ++ [cmid].
Definition mrcp_cmid_find (arr : list Z) (cmid : Z) : bool := existsb (fun c => c =? cmid) arr.

(** * Agents and streams *)

Definition MRCP_STREAM_BUFFER_SIZE : nat := 1024.

Inductive connection_task_msg_type_e :=
| CONNECTION_TASK_MSG_ADD_CHANNEL
| CONNECTION_TASK_MSG_MODIFY_CHANNEL
| CONNECTION_TASK_MSG_REMOVE_CHANNEL
| CONNECTION_TASK_MSG_SEND_MESSAGE.

(** The text that a generator stored in the buffer. *)
Definition stream_text (st : apt_text_stream_t) : bytes :=
  mread (drop (st_base st) (st_mem st)) (st_pos st - st_base st).

(** What a receive leaves of the stream: the bytes and a terminating NUL at the position. *)
Definition stream_receive (data : bytes) (st : apt_text_stream_t) : option apt_text_stream_t :=
  let? (_, st') := store (data ++ [NUL]) st in
  Some (mk_stream (st_mem st') (st_base st) (st_pos st - st_base st + length data)
          (st_pos st) (st_end st) (st_eos st)).


(** * The factory of connection agents ([mrcp_ca_factory.c]) *)

Section AgentFactory.
Context {A : Type}.

Record mrcp_ca_factory_t := mk_ca_factory { agent_arr : list A; index : nat }.
#[global] Instance eta_ca_factory : Eta mrcp_ca_factory_t := fun s => mk_ca_factory (agent_arr s) (index s).

Definition mrcp_ca_factory_create : mrcp_ca_factory_t := mk_ca_factory [] 0.
Definition mrcp_ca_factory_agent_add (f : mrcp_ca_factory_t) (agent : option A) : bool * mrcp_ca_factory_t :=
  match agent with
  | None => (false, f)
  | Some a => (true, f <| agent_arr := agent_arr f ++ [a] |>)
  end.
Definition mrcp_ca_factory_is_empty (f : mrcp_ca_factory_t) : bool :=
  match agent_arr f with [] => true | _ => false end.

(** Selection from an empty factory reads outside of the array. *)
Definition mrcp_ca_factory_agent_select : prog mrcp_ca_factory_t A :=
  let* f := gets (fun f => f) in
  let* a := deref_ptr (agent_arr f !! index f) in
  modify (fun f => f <| index := if (S (index f) =? length (agent_arr f))%nat then 0%nat else S (index f) |>) ;;;
  ret a.

Fixpoint agents_select (n : nat) : prog mrcp_ca_factory_t (list A) :=
  match n with
  | O => ret []
  | S n => let* a := mrcp_ca_factory_agent_select in let* l := agents_select n in ret (a :: l)
  end.

(** Agents are selected in turn. *)
Lemma agents_selected_in_turn (n : nat) : forall f,
  (index f < length (agent_arr f))%nat ->
  exists l f', agents_select n f = Some (l, f') /\ agent_arr f' = agent_arr f /\
    index f' = ((index f + n) mod length (agent_arr f))%nat /\
    forall i, (i < n)%nat -> l !! i = agent_arr f !! ((index f + i) mod length (agent_arr f))%nat.
Proof.
  induction n as [|n IH]; intros f Hi.
  - exists [], f. rewrite Nat.add_0_r, Nat.mod_small by done. split_and!; [done|done|done|lia].
  - destruct (lookup_lt_is_Some_2 (agent_arr f) (index f) Hi) as [a Ea].
    set (f1 := f <| index := if (S (index f) =? length (agent_arr f))%nat then 0%nat else S (index f) |>).
    assert (Hi1 : index f1 = (S (index f) mod length (agent_arr f))%nat).
    { change (index f1) with (if (S (index f) =? length (agent_arr f))%nat then 0%nat else S (index f)).
      destruct (Nat.eqb_spec (S (index f)) (length (agent_arr f))) as [He|He]; [by rewrite He, Nat.Div0.mod_same|].
      rewrite Nat.mod_small; lia. }
    assert (Hs : forall j, ((index f1 + j) mod length (agent_arr f) = (index f + S j) mod length (agent_arr f))%nat).
    { intros j. rewrite Hi1, Nat.Div0.add_mod_idemp_l. f_equal. lia. }
    destruct (IH f1) as (l & f' & E & Ha & Hx & Hl).
    { change (agent_arr f1) with (agent_arr f). rewrite Hi1. apply Nat.mod_upper_bound. lia. }
    change (agent_arr f1) with (agent_arr f) in *. exists (a :: l), f'. split_and!; try done.
    + cbn [agents_select]. unfold mrcp_ca_factory_agent_select. unfold bind at 1, bind at 1, gets at 1.
      rewrite Ea. unfold bind at 1. cbn [deref_ptr]. unfold ret at 1, bind at 1, modify at 1. fold f1. unfold ret at 1, bind.
      by rewrite E.
    + by rewrite Hx, Hs.
    + intros [|i] Hin; cbn [lookup list_lookup].
      * rewrite Nat.add_0_r, Nat.mod_small by done. by rewrite Ea.
      * rewrite <-Hs. apply Hl. lia.
Qed.
End AgentFactory.
Arguments mrcp_ca_factory_t : clear implicits.

(** * Lemmas on the streams of a connection *)

(** The receive stream over its buffer, with what the last receive left of it in front. *)
Record rx_buffer (size : nat) (st : apt_text_stream_t) : Prop := {
  rxb_base : st_base st = 0%nat;
  rxb_mem : length (st_mem st) = S size;
  rxb_pos : (st_pos st <= size)%nat;
  rxb_size : Z.of_nat (S size) < 2 ^ 64
}.

(** What is received is read after what was left. *)
Lemma stream_receive_at size st data :
  rx_buffer size st -> (st_pos st + length data <= size)%nat ->
  exists st1, stream_receive data st = Some st1 /\
    let st' := apt_text_stream_reset st1 in
    reader_ok st' /\ window st' = take (st_pos st) (st_mem st) ++ data /\ st_eos st' = false /\
    rx_buffer size st' /\ length (st_mem st') = length (st_mem st).
Proof.
  intros [Hb Hm Hp Hlim] Hd. unfold stream_receive, store. rewrite Hb, length_app. cbn [length].
  rewrite (proj2 (Nat.leb_le _ _)) by lia. eexists. split; [reflexivity|]. cbv zeta.
  cbn [apt_text_stream_reset set_mem st_mem st_base st_text_len st_pos st_end st_eos].
  set (mem := overwrite _ _ _).
  assert (Hl : length mem = S size).
  { unfold mem. rewrite overwrite_length; rewrite ?length_app; simpl; lia. }
  split_and!; try done.
  - split; unfold stream_wf, addressable; cbn; [lia|rewrite Hl; lia|lia].
  - unfold window, from_pos. cbn. rewrite !Nat.sub_0_r. unfold mem, overwrite.
    rewrite <-(app_assoc data), (app_assoc _ data).
    apply take_app_length'. rewrite length_app, length_take. lia.
  - split; cbn; lia.
  - by rewrite Hl.
Qed.

(** The stream keeps the bytes in front of what is received. *)
Lemma stream_receive_front size st data st1 :
  rx_buffer size st -> (st_pos st + length data <= size)%nat -> stream_receive data st = Some st1 ->
  take (st_pos st + length data) (st_mem st1) = take (st_pos st) (st_mem st) ++ data.
Proof.
  intros [Hb Hm Hp Hlim] Hd. unfold stream_receive, store. rewrite length_app. cbn [length].
  rewrite (proj2 (Nat.leb_le _ _)) by lia. intros [= <-]. cbn [set_mem st_mem]. unfold overwrite.
  rewrite <-(app_assoc data), (app_assoc _ data). apply take_app_length'. rewrite length_app, length_take. lia.
Qed.

(** The scroll of a stream that was read to its end. *)
Lemma scroll_read_out (st : apt_text_stream_t) :
  reader_ok st -> window st = [] -> (st_base st < length (st_mem st))%nat ->
  exists st', apt_text_stream_scroll st = Some (true, st') /\ st_base st' = st_base st /\
    st_pos st' = st_base st /\ length (st_mem st') = length (st_mem st).
Proof.
  intros Hrd Hw Hb. assert (Hpe : st_pos st = st_end st).
  { assert (Hl : length (window st) = 0%nat) by by rewrite Hw. destruct Hrd as [W _ _].
    rewrite window_length in Hl by done. unfold stream_wf in W. lia. }
  unfold apt_text_stream_scroll, bind, gets. rewrite Hpe, Nat.eqb_refl. unfold modify, store. cbn [length].
  cbn [set_pos st_pos st_mem]. rewrite (proj2 (Nat.leb_le _ _)) by lia.
  eexists. split; [reflexivity|]. cbn. split_and!; try done. rewrite overwrite_length; simpl; lia.
Qed.

(** A generator stores its text and the terminating NUL. *)
Lemma stream_text_stored (st : apt_text_stream_t) :
  (st_base st <= st_pos st < length (st_mem st))%nat ->
  exists st', store [NUL] st = Some (tt, st') /\ stream_text st' = message_text st /\
    length (st_mem st') = length (st_mem st).
Proof.
  intros Hp. unfold store. cbn [length]. rewrite (proj2 (Nat.leb_le _ _)) by lia.
  eexists. split; [done|]. unfold stream_text, message_text. cbn [set_mem st_mem st_base st_pos].
  assert (Hl : length (overwrite (st_mem st) (st_pos st) [NUL]) = length (st_mem st)).
  { apply overwrite_length. simpl. lia. }
  split; [|done]. unfold mread. rewrite take_app_le by (rewrite length_drop; lia).
  rewrite take_drop_commute. replace (st_base st + (st_pos st - st_base st))%nat with (st_pos st) by lia.
  f_equal. unfold overwrite. apply take_app_length'. rewrite length_take. lia.
Qed.
