(* ===== verification/ResourceFactory.v ===== *)
(** The factory of MRCP resources and the loader that fills it
    ([libs/mrcp/control/src/mrcp_resource_factory.c], [mrcp_resource_loader.c],
    [libs/mrcp/control/include/mrcp_resource.h]).  The hash table is that of the Apache Portable
    Runtime, of which only the documented behaviour is used. *)

From S2P Require Import Prelude AprHash AptString TextStream TextValues HeaderField TextMessage StartLine MrcpHeader GenericHeader Message FloatValue SynthHeader RecogHeader RecorderHeader VerifierHeader.

(** * Factory *)

Definition mrcp_resource_create {R} (methods events : mrcp_version_e -> list apt_str_table_item_t)
    (vt : mrcp_version_e -> option (mrcp_header_vtable_t R)) : mrcp_resource_t R :=
  mk_resource 0 apt_string_reset methods 0 events 0 vt.

(** A resource of the model always has its functions set. *)
Definition mrcp_resource_validate {R} (r : mrcp_resource_t R) : bool :=
  negb (method_count r =? 0) && negb (event_count r =? 0) &&
  bool_decide (is_Some (str_buf (name r))) && negb (str_len (name r) =? 0)%nat.

Section Factory.
Context {R : Type} {H : AprHash (mrcp_resource_t R)}.

(** The number of resources is the size of the array. *)
Record mrcp_resource_factory_t := mk_factory {
  resource_array : list (option (mrcp_resource_t R));
  resource_hash : apr_hash_t
}.

Definition resource_count (f : mrcp_resource_factory_t) : Z := Z.of_nat (length (resource_array f)).

Definition mrcp_resource_factory_create (count : Z) : option mrcp_resource_factory_t :=
  if count =? 0 then None
  else Some (mk_factory (replicate (Z.to_nat count) None) apr_hash_make).

(** The array is given up and the count reset; the hash stays. *)
Definition mrcp_resource_factory_destroy (f : mrcp_resource_factory_t) : mrcp_resource_factory_t :=
  mk_factory [] (resource_hash f).

(** Get by identifier. *)
Definition mrcp_resource_get (f : mrcp_resource_factory_t) (id : Z) : option (mrcp_resource_t R) :=
  if resource_count f <=? id then None
  else match resource_array f !! Z.to_nat id with Some r => r | None => None end.

(** Find by name. *)
Definition mrcp_resource_find (f : mrcp_resource_factory_t) (n : apt_str_t)
    : option (mrcp_resource_t R) :=
  match str_buf n with
  | None => None
  | Some _ => if (str_len n =? 0)%nat then None else apr_hash_get (resource_hash f) (str_data n)
  end.

Definition mrcp_resource_register (f : mrcp_resource_factory_t) (res : option (mrcp_resource_t R))
    : bool * mrcp_resource_factory_t :=
  match res with
  | None => (false, f)
  | Some r =>
      if resource_count f <=? resource_id r then (false, f)
      else if bool_decide (is_Some (mrcp_resource_get f (resource_id r))) then (false, f)
      else if negb (mrcp_resource_validate r) then (false, f)
      else (true, mk_factory (<[Z.to_nat (resource_id r) := Some r]> (resource_array f))
                    (apr_hash_set (resource_hash f) (str_data (name r)) r))
  end.

End Factory.
Arguments mrcp_resource_factory_t : clear implicits.
Arguments mrcp_resource_factory_t R {H}.

(** * Loader *)

(** The header of any resource behind a [void] pointer, and the virtual table of one resource
    at that type: data of another resource is never passed to it, because accessors get their
    table and their data together. *)
Section Loader.
Context `{Apr} `{CFloat}.

Inductive resource_header :=
| SYNTH_HEADER (h : mrcp_synth_header_t)
| RECOG_HEADER (h : mrcp_recog_header_t)
| RECORDER_HEADER (h : mrcp_recorder_header_t)
| VERIFIER_HEADER (h : mrcp_verifier_header_t).

Definition any_vtable {D} (inj : D -> resource_header) (proj : resource_header -> option D)
    (vt : mrcp_header_vtable_t D) : mrcp_header_vtable_t resource_header :=
  mk_vtable (inj (allocate vt))
    (fun v id s => match proj v with
                   | Some d => let '(ok, d) := parse_field vt d id s in (ok, inj d)
                   | None => (false, v)
                   end)
    (fun v id s => match proj v with Some d => generate_field vt d id s | None => None end)
    (fun v w id s => match proj v, proj w with
                     | Some d, Some e => let '(ok, d) := duplicate_field vt d e id s in (ok, inj d)
                     | _, _ => (false, v)
                     end)
    (field_table vt) (field_count vt).

Definition any_resource {D} (inj : D -> resource_header) (proj : resource_header -> option D)
    (r : mrcp_resource_t D) : mrcp_resource_t resource_header :=
  mk_resource (resource_id r) (name r) (get_method_str_table r) (method_count r)
    (get_event_str_table r) (event_count r)
    (fun v => any_vtable inj proj <$> get_resource_header_vtable r v).

Definition MRCP_RESOURCE_TYPE_COUNT : Z := 4.
Definition mrcp_resource_string_table : list apt_str_table_item_t :=
  [ item "speechsynth" 11 6; item "speechrecog" 11 6; item "recorder" 8 0; item "speakverify" 11 3 ].

(** Assignment to the identifier and to the name of a resource just created. *)
Definition resource_identify {D} (id : Z) (n : apt_str_t) (r : mrcp_resource_t D) : mrcp_resource_t D :=
  mk_resource id n (get_method_str_table r) (method_count r) (get_event_str_table r)
    (event_count r) (get_resource_header_vtable r).

Definition mrcp_resource_create_by_id (id : Z) : option (mrcp_resource_t resource_header) :=
  let resource :=
    if id =? 0 then
      Some (any_resource SYNTH_HEADER (fun v => match v with SYNTH_HEADER h => Some h | _ => None end)
              mrcp_synth_resource_create)
    else if id =? 1 then
      Some (any_resource RECOG_HEADER (fun v => match v with RECOG_HEADER h => Some h | _ => None end)
              mrcp_recog_resource_create)
    else if id =? 2 then
      Some (any_resource RECORDER_HEADER
              (fun v => match v with RECORDER_HEADER h => Some h | _ => None end)
              mrcp_recorder_resource_create)
    else if id =? 3 then
      Some (any_resource VERIFIER_HEADER
              (fun v => match v with VERIFIER_HEADER h => Some h | _ => None end)
              mrcp_verifier_resource_create)
    else None in
  (fun r => resource_identify id (name r) r) <$> resource.

Context {Hash : AprHash (mrcp_resource_t resource_header)}.
Abbreviation factory := (mrcp_resource_factory_t resource_header).

Definition mrcp_resource_load (f : factory) (n : apt_str_t) : bool * factory :=
  let id := apt_string_table_id_find mrcp_resource_string_table MRCP_RESOURCE_TYPE_COUNT n in
  match mrcp_resource_create_by_id id with
  | None => (false, f)
  | Some r => mrcp_resource_register f (Some (resource_identify (resource_id r) (apt_string_copy n) r))
  end.

Definition mrcp_resource_load_by_id (f : factory) (id : Z) : bool * factory :=
  match mrcp_resource_create_by_id id,
        apt_string_table_str_get mrcp_resource_string_table MRCP_RESOURCE_TYPE_COUNT id with
  | Some r, Some n => mrcp_resource_register f (Some (resource_identify (resource_id r) n r))
  | _, _ => (false, f)
  end.

Definition mrcp_resources_load (f : factory) : bool * factory :=
  (true, fold_left (fun f id => snd (mrcp_resource_load_by_id f id)) [0; 1; 2; 3] f).

Definition mrcp_resource_loader_create (load_all_resources : bool) : option factory :=
  let? f := mrcp_resource_factory_create MRCP_RESOURCE_TYPE_COUNT in
  Some (if load_all_resources then snd (mrcp_resources_load f) else f).

End Loader.

(** * Properties *)

Section FactoryProperties.
Context {R : Type} {H : AprHash (mrcp_resource_t R)} {L : AprHashLaws H}.
Implicit Types (f : mrcp_resource_factory_t R) (r : mrcp_resource_t R) (n : apt_str_t).

(** Both indexes hold the same resources: what the array has at an identifier has that
    identifier and is valid; what the hash has at a name has that name and is in the array. *)
Record factory_wf f : Prop := {
  array_own : forall id r, 0 <= id -> mrcp_resource_get f id = Some r ->
    resource_id r = id /\ mrcp_resource_validate r = true;
  hash_own : forall n r, mrcp_resource_find f n = Some r ->
    str_data (name r) = str_data n /\ 0 <= resource_id r /\
    mrcp_resource_get f (resource_id r) = Some r
}.

Lemma factory_get_create (count id : Z) f :
  mrcp_resource_factory_create count = Some f -> mrcp_resource_get f id = None.
Proof.
  unfold mrcp_resource_factory_create. destruct (count =? 0); [done|]. intros [= <-].
  unfold mrcp_resource_get. cbn [resource_array]. destruct (_ <=? id); [done|].
  destruct (replicate _ None !! Z.to_nat id) eqn:E; [|done]. by apply lookup_replicate in E as [-> _].
Qed.

Lemma factory_find_create (count : Z) f n :
  mrcp_resource_factory_create count = Some f -> mrcp_resource_find f n = None.
Proof.
  unfold mrcp_resource_factory_create. destruct (count =? 0); [done|]. intros [= <-].
  unfold mrcp_resource_find. destruct (str_buf n); [|done]. destruct (_ =? _)%nat; [done|].
  apply apr_hash_get_make.
Qed.

Lemma factory_create_wf (count : Z) f :
  mrcp_resource_factory_create count = Some f -> factory_wf f.
Proof.
  intros Hc. split.
  - intros id r _. by rewrite (factory_get_create count id f Hc).
  - intros n r. by rewrite (factory_find_create count f n Hc).
Qed.

Lemma factory_count_create (count : Z) f :
  0 <= count -> mrcp_resource_factory_create count = Some f -> resource_count f = count.
Proof.
  unfold mrcp_resource_factory_create. destruct (count =? 0); [done|]. intros Hc [= <-].
  unfold resource_count. cbn [resource_array]. rewrite length_replicate. lia.
Qed.

(** When a resource is accepted. *)
Definition registrable f r : Prop :=
  resource_id r < resource_count f /\ mrcp_resource_get f (resource_id r) = None /\
  mrcp_resource_validate r = true.

Lemma register_refused f r :
  ~ registrable f r -> mrcp_resource_register f (Some r) = (false, f).
Proof.
  intros Hn. unfold mrcp_resource_register. destruct (Z.leb_spec (resource_count f) (resource_id r)); [done|].
  case_bool_decide as Hs; [done|]. destruct (mrcp_resource_validate r) eqn:Ev; [|done].
  exfalso. apply Hn. split_and!; [done|by apply eq_None_not_Some|done].
Qed.

(** The factory with [r] in both indexes. *)
Definition registered f r : mrcp_resource_factory_t R :=
  mk_factory (<[Z.to_nat (resource_id r) := Some r]> (resource_array f))
    (apr_hash_set (resource_hash f) (str_data (name r)) r).

Lemma register_accepted f r :
  registrable f r -> mrcp_resource_register f (Some r) = (true, registered f r).
Proof.
  intros (H1 & H2 & H3). unfold mrcp_resource_register.
  rewrite (proj2 (Z.leb_gt _ _)), H2, H3 by done. by case_bool_decide as Hs; [destruct Hs|].
Qed.

Lemma registered_get f r (id : Z) :
  0 <= resource_id r < resource_count f -> 0 <= id ->
  mrcp_resource_get (registered f r) id
  = if decide (id = resource_id r) then Some r else mrcp_resource_get f id.
Proof.
  unfold mrcp_resource_get, registered, resource_count. cbn [resource_array].
  rewrite length_insert. intros Hr Hid. case_decide as E.
  - subst id. rewrite (proj2 (Z.leb_gt _ _)) by lia. rewrite list_lookup_insert_eq; [done|lia].
  - destruct (_ <=? id); [done|]. rewrite list_lookup_insert_ne; [done|lia].
Qed.

Lemma registered_find f r n :
  str_buf n <> None -> str_len n <> 0%nat ->
  mrcp_resource_find (registered f r) n
  = if decide (str_data n = str_data (name r)) then Some r else mrcp_resource_find f n.
Proof.
  intros Hb Hl. unfold mrcp_resource_find, registered. cbn [resource_hash].
  destruct (str_buf n) eqn:Eb; [|done]. rewrite (proj2 (Nat.eqb_neq _ _)) by done.
  by rewrite apr_hash_get_set.
Qed.

Lemma find_some_name f n r : mrcp_resource_find f n = Some r -> str_buf n <> None /\ str_len n <> 0%nat.
Proof.
  unfold mrcp_resource_find. destruct (str_buf n); [|done].
  by destruct (Nat.eqb_spec (str_len n) 0).
Qed.

Lemma registered_wf f r :
  0 <= resource_id r -> factory_wf f -> registrable f r -> factory_wf (registered f r).
Proof.
  intros H0 [Wa Wh] (H1 & H2 & H3). split.
  - intros id r' Hid. rewrite registered_get by lia. case_decide as E; [|by apply Wa].
    intros [= <-]. done.
  - intros n r' Hf. destruct (find_some_name _ _ _ Hf) as [Hb Hl].
    rewrite registered_find in Hf by done. case_decide as E.
    + injection Hf as <-. split_and!; [done|done|]. rewrite registered_get by lia. by case_decide.
    + destruct (Wh n r' Hf) as (E1 & E2 & E3). split_and!; [done|done|].
      rewrite registered_get by lia. case_decide as Ei; [|done]. rewrite Ei in E3. congruence.
Qed.

(** A resource is registered exactly when its identifier is in range and free and it is valid;
    it is then what is found by its identifier and by its name, every other identifier and name
    finds what it found before, and the two indexes stay consistent.  A resource that is refused
    leaves the factory as it is. *)
Theorem mrcp_resource_register_correct f r :
  0 <= resource_id r -> factory_wf f ->
  let '(ok, f') := mrcp_resource_register f (Some r) in
  (ok = true <-> registrable f r) /\ factory_wf f' /\ (ok = false -> f' = f) /\
  (ok = true ->
   (forall id, 0 <= id -> mrcp_resource_get f' id
      = if decide (id = resource_id r) then Some r else mrcp_resource_get f id) /\
   (forall n, str_buf n <> None -> str_len n <> 0%nat -> mrcp_resource_find f' n
      = if decide (str_data n = str_data (name r)) then Some r else mrcp_resource_find f n)).
Proof.
  intros H0 W. destruct (decide (resource_id r < resource_count f)) as [H1|H1];
    [destruct (decide (mrcp_resource_get f (resource_id r) = None)) as [H2|H2];
     [destruct (mrcp_resource_validate r) eqn:H3|]|].
  - assert (Hr : registrable f r) by done. rewrite register_accepted by done.
    split_and!; [done|by apply registered_wf|done|]. intros _.
    split; [intros id Hid; apply registered_get; lia|intros n; apply registered_find].
  - assert (Hr : ~ registrable f r) by (intros (_ & _ & E); congruence).
    by rewrite register_refused.
  - assert (Hr : ~ registrable f r) by (intros (_ & E & _); congruence).
    by rewrite register_refused.
  - assert (Hr : ~ registrable f r) by (intros (E & _); done).
    by rewrite register_refused.
Qed.

End FactoryProperties.

Section LoaderProperties.
Context `{Apr} `{CFloat} {Hash : AprHash (mrcp_resource_t resource_header)} {L : AprHashLaws Hash}.
Implicit Types (f : mrcp_resource_factory_t resource_header) (r : mrcp_resource_t resource_header).

(** The resource that an identifier stands for, with its identifier and name. *)
Definition loaded (id : Z) : option (mrcp_resource_t resource_header) :=
  let? res := mrcp_resource_create_by_id id in
  let? nm := apt_string_table_str_get mrcp_resource_string_table MRCP_RESOURCE_TYPE_COUNT id in
  Some (resource_identify (resource_id res) nm res).

Lemma load_by_id_loaded f (id : Z) :
  mrcp_resource_load_by_id f id
  = match loaded id with Some r => mrcp_resource_register f (Some r) | None => (false, f) end.
Proof.
  unfold mrcp_resource_load_by_id, loaded. destruct (mrcp_resource_create_by_id id); [|done].
  by destruct (apt_string_table_str_get _ _ id).
Qed.

Lemma ids_cases (id : Z) : 0 <= id < MRCP_RESOURCE_TYPE_COUNT -> In id [0; 1; 2; 3].
Proof. unfold MRCP_RESOURCE_TYPE_COUNT. simpl. lia. Qed.

Lemma loaded_some (id : Z) :
  0 <= id < MRCP_RESOURCE_TYPE_COUNT ->
  exists r, loaded id = Some r /\ resource_id r = id /\ mrcp_resource_validate r = true /\
    apt_string_table_str_get mrcp_resource_string_table MRCP_RESOURCE_TYPE_COUNT id = Some (name r).
Proof.
  intros Hid. apply ids_cases in Hid. repeat destruct Hid as [<-|Hid]; try done;
    (eexists; split; [reflexivity|]; split_and!; reflexivity).
Qed.

Lemma loaded_names_distinct (i j : Z) r r' :
  0 <= i < MRCP_RESOURCE_TYPE_COUNT -> 0 <= j < MRCP_RESOURCE_TYPE_COUNT ->
  loaded i = Some r -> loaded j = Some r' -> str_data (name r) = str_data (name r') -> i = j.
Proof.
  intros Hi%ids_cases Hj%ids_cases Er Er'.
  repeat destruct Hi as [<-|Hi]; try done; repeat destruct Hj as [<-|Hj]; try done;
    injection Er as <-; injection Er' as <-; intros E; vm_compute in E; discriminate.
Qed.

(** The first [k] resources are there, under their identifiers and names, and no other. *)
Record loaded_upto (k : Z) f : Prop := {
  upto_count : resource_count f = MRCP_RESOURCE_TYPE_COUNT;
  upto_wf : factory_wf f;
  upto_get : forall id, 0 <= id -> mrcp_resource_get f id = if id <? k then loaded id else None;
  upto_find : forall id r (n : apt_str_t), 0 <= id < k -> loaded id = Some r ->
    str_buf n <> None -> str_data n = str_data (name r) -> mrcp_resource_find f n = Some r
}.

Lemma loaded_name_length (id : Z) r :
  0 <= id < MRCP_RESOURCE_TYPE_COUNT -> loaded id = Some r -> length (str_data (name r)) <> 0%nat.
Proof.
  intros Hi%ids_cases Er. repeat destruct Hi as [<-|Hi]; try done; injection Er as <-; vm_compute; lia.
Qed.

Lemma loaded_step (k : Z) f :
  0 <= k < MRCP_RESOURCE_TYPE_COUNT -> loaded_upto k f ->
  loaded_upto (k + 1) (snd (mrcp_resource_load_by_id f k)).
Proof.
  intros Hk [C W G F]. destruct (loaded_some k Hk) as (r & E & Ei & Ev & _).
  assert (Hr : registrable f r).
  { split_and!; [lia| |done]. rewrite Ei, (G k) by lia. by rewrite Z.ltb_irrefl. }
  rewrite load_by_id_loaded, E, register_accepted by done. cbn [snd]. split.
  - unfold resource_count, registered in *. cbn [resource_array]. by rewrite length_insert.
  - by apply registered_wf; [lia| |].
  - intros id Hid. rewrite registered_get by lia. case_decide as Eq.
    + rewrite Eq, Ei, (proj2 (Z.ltb_lt _ _)) by lia. congruence.
    + rewrite G by done. destruct (Z.ltb_spec id k), (Z.ltb_spec id (k + 1)); done || lia.
  - intros id r' n Hid Er Hb Hn.
    assert (Hl : str_len n <> 0%nat).
    { rewrite <- str_data_length, Hn. apply (loaded_name_length id); [lia|done]. }
    rewrite registered_find by done. case_decide as Ed.
    + assert (id = k) as -> by (apply (loaded_names_distinct id k r' r); [lia|lia|done|done|congruence]).
      congruence.
    + apply (F id); [|done..]. destruct (decide (id = k)) as [->|]; [|lia]. congruence.
Qed.

(** Loading all resources gives a factory in which each of the four resources is found by its
    identifier and by its name of the table, and nothing else is found. *)
Theorem mrcp_resource_loader_create_all :
  exists f, mrcp_resource_loader_create true = Some f /\ factory_wf f /\
    (forall id, 0 <= id < MRCP_RESOURCE_TYPE_COUNT ->
     exists r, loaded id = Some r /\ resource_id r = id /\
       apt_string_table_str_get mrcp_resource_string_table MRCP_RESOURCE_TYPE_COUNT id
       = Some (name r) /\
       mrcp_resource_get f id = Some r /\ mrcp_resource_find f (name r) = Some r) /\
    (forall id, MRCP_RESOURCE_TYPE_COUNT <= id -> mrcp_resource_get f id = None) /\
    (forall n r, mrcp_resource_find f n = Some r -> loaded (resource_id r) = Some r).
Proof.
  unfold mrcp_resource_loader_create, mrcp_resources_load.
  destruct (mrcp_resource_factory_create MRCP_RESOURCE_TYPE_COUNT) as [f0|] eqn:E0; [|done].
  assert (U : loaded_upto 0 f0).
  { split; [by apply factory_count_create in E0|by eapply factory_create_wf| |lia].
    intros id Hid. rewrite (proj2 (Z.ltb_ge id 0)) by done. by eapply factory_get_create. }
  cbn [fold_left snd]. do 4 (apply loaded_step in U; [|done]). cbn [Z.add] in U.
  set (f := snd _) in *. destruct U as [C W G F]. exists f. split_and!; [done|done| | |].
  - intros id Hid. destruct (loaded_some id Hid) as (r & E & Ei & _ & En). exists r.
    split_and!; [done..| |].
    + rewrite G by lia. unfold MRCP_RESOURCE_TYPE_COUNT in Hid.
      by rewrite (proj2 (Z.ltb_lt _ _)) by (cbn; lia).
    + apply (F id); [exact Hid|done| |done]. clear - E Hid. apply ids_cases in Hid.
      repeat destruct Hid as [<-|Hid]; try done; by injection E as <-.
  - intros id Hid. rewrite G by (unfold MRCP_RESOURCE_TYPE_COUNT in Hid; lia).
    unfold MRCP_RESOURCE_TYPE_COUNT in Hid. by rewrite (proj2 (Z.ltb_ge _ _)) by (cbn; lia).
  - intros n r Hf. destruct W as [_ Wh]. destruct (Wh n r Hf) as (_ & Hz & Hg).
    rewrite G in Hg by done. by destruct (_ <? _).
Qed.

(** Names are looked up in the table without regard to case, but the resource keeps the
    spelling it was asked for, and is found under this spelling only. *)
Definition mixed_case_name : apt_str_t := str_lit "SpeechSynth".

Theorem mrcp_resource_load_keeps_spelling f :
  mrcp_resource_factory_create MRCP_RESOURCE_TYPE_COUNT = Some f ->
  let '(ok, f') := mrcp_resource_load f mixed_case_name in
  ok = true /\ (exists r, mrcp_resource_find f' mixed_case_name = Some r /\
                          mrcp_resource_get f' 0 = Some r) /\
  mrcp_resource_find f' (str_lit "speechsynth") = None.
Proof.
  intros Hc. unfold mrcp_resource_load.
  change (apt_string_table_id_find _ _ mixed_case_name) with 0.
  destruct (mrcp_resource_create_by_id 0) as [r|] eqn:Er; [|done].
  set (r' := resource_identify _ _ r).
  assert (Hi : resource_id r' = 0) by (by injection Er as <-).
  assert (Hn : name r' = apt_string_copy mixed_case_name) by done.
  assert (Hr : registrable f r').
  { split_and!; [|by eapply factory_get_create|by injection Er as <-].
    rewrite Hi. apply factory_count_create in Hc; [|done]. by rewrite Hc. }
  rewrite register_accepted by done. split; [done|]. split.
  - exists r'. split.
    + rewrite registered_find by done. by rewrite Hn, decide_True by (vm_compute; reflexivity).
    + rewrite registered_get; [by rewrite Hi, decide_True|rewrite Hi|lia].
      apply factory_count_create in Hc; [|done]. by rewrite Hc.
  - rewrite registered_find by done. rewrite Hn, decide_False by (vm_compute; discriminate).
    by eapply factory_find_create.
Qed.

End LoaderProperties.

Lemma mrcp_resource_loader_create_all_witness :
  exists f, @mrcp_resource_loader_create apr_reference float_integers (apr_hash_reference _) true = Some f /\
    @mrcp_resource_get resource_header (apr_hash_reference _) f MRCP_RESOURCE_TYPE_COUNT = None.
Proof.
  destruct (@mrcp_resource_loader_create_all apr_reference float_integers (apr_hash_reference _)
              (apr_hash_reference_laws _)) as (f & E & _ & _ & Hn & _).
  exists f. split; [exact E|]. apply Hn. discriminate.
Defined.

#[local] Existing Instance apr_hash_reference.

Lemma mrcp_resource_register_correct_witness :
  exists f f', @mrcp_resource_factory_create unit (apr_hash_reference _) 2 = Some f /\
    mrcp_resource_register f (Some sample_resource) = (true, f') /\
    mrcp_resource_find f' (str_lit "sample") = Some sample_resource.
Proof.
  destruct (@mrcp_resource_factory_create unit (apr_hash_reference _) 2) as [f|] eqn:E; [|discriminate].
  destruct (mrcp_resource_register f (Some sample_resource)) as [ok f'] eqn:Er.
  pose proof (@mrcp_resource_register_correct unit _ (apr_hash_reference_laws _) f sample_resource
    ltac:(simpl; lia) (factory_create_wf (L := apr_hash_reference_laws _) 2 f E)) as Hw.
  rewrite Er in Hw. destruct Hw as (Hi & _ & _ & Hok).
  assert (ok = true) as ->.
  { apply Hi. injection E as <-. split_and!; [vm_compute; reflexivity..|reflexivity]. }
  exists f, f'. split; [reflexivity|]. split; [exact Er|].
  rewrite (proj2 (Hok eq_refl)) by (vm_compute; congruence). by rewrite decide_True by reflexivity.
Defined.

Lemma mrcp_resource_load_keeps_spelling_witness :
  exists f, @mrcp_resource_factory_create resource_header (apr_hash_reference _)
              MRCP_RESOURCE_TYPE_COUNT = Some f /\
    mrcp_resource_find (snd (@mrcp_resource_load apr_reference float_integers _ f mixed_case_name))
      (str_lit "speechsynth") = None.
Proof.
  destruct (@mrcp_resource_factory_create resource_header (apr_hash_reference _)
              MRCP_RESOURCE_TYPE_COUNT) as [f|] eqn:E; [|discriminate].
  exists f. split; [reflexivity|].
  pose proof (@mrcp_resource_load_keeps_spelling apr_reference float_integers (apr_hash_reference _)
                (apr_hash_reference_laws _) f E) as Hw.
  destruct (@mrcp_resource_load apr_reference float_integers _ f mixed_case_name) as [ok f'].
  apply Hw.
Defined.
