(* ===== verification/MrcpStream.v ===== *)
(** The stream of MRCP messages ([libs/mrcp/control/src/mrcp_stream.c]): the handlers that make
    the staged parser and generator of [MessageParser] parse and generate MRCP messages.  The
    header section and the body of the context are those of the message. *)

From S2P Require Import Prelude AprHash AptString TextStream TextValues HeaderField TextMessage StartLine MrcpHeader GenericHeader Message MessageParser ResourceFactory.

#[global] Instance mrcp_message_context (R : Type) : MessageContext (mrcp_message_t R) := {
  ctx_header m := header_section (header m);
  set_ctx_header h m := m <| header := (header m) <| header_section := h |> |>;
  ctx_body := body;
  set_ctx_body b m := m <| body := b |>
}.

#[global] Instance mrcp_message_context_laws (R : Type) :
  MessageContextLaws (mrcp_message_context R).
Proof. by split. Qed.

Section MrcpStream.
Context `{Apr} {R : Type} {Hash : AprHash (mrcp_resource_t R)}.
Abbreviation factory := (mrcp_resource_factory_t R).
Abbreviation message := (mrcp_message_t R).

(** * Parser *)

(** [parser_resource] is the resource of MRCPv1 messages. *)
Record mrcp_parser_t := mk_mrcp_parser {
  parser_base : apt_message_parser_t message;
  parser_factory : factory;
  parser_resource : option (mrcp_resource_t R)
}.
#[global] Instance eta_mrcp_parser : Eta mrcp_parser_t := fun s =>
  mk_mrcp_parser (parser_base s) (parser_factory s) (parser_resource s).

(** A new message is made from the start line; one of MRCPv1 gets its resource here. *)
Definition mrcp_parser_on_start (res : option (mrcp_resource_t R)) (st : apt_text_stream_t)
    : option (option message * apt_text_stream_t) :=
  let '(ok, line, st) := apt_text_line_read st in
  if negb ok then Some (None, st)
  else
    let m := mrcp_message_create in
    let '(ok, sl) := mrcp_start_line_parse (start_line m) line in
    if negb ok then Some (None, st)
    else
      let m := m <| start_line := sl |> in
      if decide (version sl = MRCP_VERSION_1) then
        match res with
        | None => Some (None, st)
        | Some r =>
            let m := m <| channel_id :=
                       (channel_id m) <| resource_name := apt_string_copy (name r) |> |> in
            let '(ok, m) := mrcp_message_resource_set m (Some r) in
            Some (if ok then Some m else None, st)
        end
      else Some (Some m, st).

(** The resource of a message of MRCPv2 is the one its channel identifier names. *)
Definition parser_resource_find (f : factory) (m : message) : option (bool * message) :=
  if decide (version (start_line m) = MRCP_VERSION_2) then
    let? (ok, cid, h) := mrcp_channel_id_parse (channel_id m) (header m) in
    let m := m <| channel_id := cid |> <| header := h |> in
    if negb ok then Some (false, m)
    else
      match mrcp_resource_find f (resource_name cid) with
      | None => Some (false, m)
      | Some r => Some (mrcp_message_resource_set m (Some r))
      end
  else Some (true, m).

(** The length of the body is set from the header, before there is a body. *)
Definition parser_body_length (m : message) : message :=
  if mrcp_generic_header_property_check m (generic_header_id_num GENERIC_HEADER_CONTENT_LENGTH) then
    match mrcp_generic_header_get m with
    | Some g =>
        if content_length g =? 0 then m
        else m <| body := mk_str (str_buf (body m)) (Z.to_nat (content_length g)) |>
    | None => m
    end
  else m.

Definition mrcp_parser_on_header_complete (f : factory) (m : message) : option (bool * message) :=
  let? (ok, m) := parser_resource_find f m in
  if negb ok then Some (false, m)
  else
    let? (ok, h) := mrcp_header_fields_parse (header m) in
    let m := m <| header := h |> in
    if negb ok then Some (false, m) else Some (true, parser_body_length m).

(** The handlers reach the parser through the object of the base parser. *)
Definition mrcp_parser_vtable (f : factory) (res : option (mrcp_resource_t R))
    : apt_message_parser_vtable_t message :=
  mk_parser_vtable (mrcp_parser_on_start res) (Some (mrcp_parser_on_header_complete f)) None.

Definition mrcp_parser_create (f : factory) : mrcp_parser_t :=
  mk_mrcp_parser (apt_message_parser_create (mrcp_parser_vtable f None)) f None.

Definition mrcp_parser_resource_set (p : mrcp_parser_t) (resource_name : option apt_str_t)
    : mrcp_parser_t :=
  match resource_name with
  | None => p
  | Some n =>
      let res := mrcp_resource_find (parser_factory p) n in
      p <| parser_resource := res |>
        <| parser_base := (parser_base p) <| parser_vtable := mrcp_parser_vtable (parser_factory p) res |> |>
  end.

Definition mrcp_parser_run (p : mrcp_parser_t) (st : apt_text_stream_t)
    : option (apt_message_status_e * option message * mrcp_parser_t * apt_text_stream_t) :=
  let? (status, m, base, st) := apt_message_parser_run (parser_base p) st in
  Some (status, m, p <| parser_base := base |>, st).

(** * Generator *)

(** An operation on the message that may be undefined. *)
Definition on_message {A} (r : option A) : prog apt_text_stream_t A :=
  fun st => let? a := r in Some (a, st).

(** The start line and, in MRCPv2, the channel identifier of a message that validates. *)
Definition message_start_generate (m : message) : prog apt_text_stream_t (bool * message) :=
  let* r := on_message (mrcp_message_validate m) in
  let '(ok, m) := r in
  if negb ok then ret (false, m)
  else
    let* r := mrcp_start_line_generate (start_line m) in
    let '(ok, sl) := r in
    let m := m <| start_line := sl |> in
    if negb ok then ret (false, m)
    else if decide (version (start_line m) = MRCP_VERSION_2) then
      mrcp_channel_id_generate (channel_id m) ;;; ret (true, m)
    else ret (true, m).

Definition mrcp_generator_on_start (m : message) : prog apt_text_stream_t (bool * message) :=
  message_start_generate m.

Definition mrcp_generator_on_header_complete (m : message)
    : prog apt_text_stream_t (bool * message) :=
  let* r := mrcp_start_line_finalize (start_line m) (Z.of_nat (str_len (body m))) in
  let '(ok, sl) := r in
  ret (ok, m <| start_line := sl |>).

Definition mrcp_generator_vtable : apt_message_generator_vtable_t message :=
  mk_generator_vtable mrcp_generator_on_start (Some mrcp_generator_on_header_complete).

Record mrcp_generator_t := mk_mrcp_generator {
  generator_base : apt_message_generator_t message;
  generator_factory : factory
}.

Definition mrcp_generator_create (f : factory) : mrcp_generator_t :=
  mk_mrcp_generator (apt_message_generator_create mrcp_generator_vtable) f.

Definition mrcp_generator_run (g : mrcp_generator_t) (a : addr) (m : message)
    : prog apt_text_stream_t (apt_message_status_e * mrcp_generator_t * message) :=
  let* r := apt_message_generator_run (generator_base g) a m in
  let '(status, base, m) := r in
  ret (status, mk_mrcp_generator base (generator_factory g), m).

(** The message without its body, in one go. *)
Definition mrcp_message_generate (m : message) : prog apt_text_stream_t (bool * message) :=
  let* r := message_start_generate m in
  let '(ok, m) := r in
  if negb ok then ret (false, m)
  else
    let* ok := apt_header_section_generate (header_section (header m)) in
    if negb ok then ret (false, m)
    else mrcp_generator_on_header_complete m.

End MrcpStream.

(** * Properties *)

(** C40: a message whose header announces a body of length -1 makes the parser store outside of what
    it allocated: the value is read as the largest size, and the room for the body and its
    terminating NUL wraps around to nothing. *)
Theorem content_length_minus_one_undefined `{LA : AprLaws} {R : Type} (m : mrcp_message_t R)
    (g : mrcp_generic_header_t) :
  mrcp_generic_header_property_check m (generic_header_id_num GENERIC_HEADER_CONTENT_LENGTH) = true ->
  mrcp_generic_header_get m = Some g -> content_length g = apt_size_value_parse (str_lit "-1") ->
  message_body_alloc (body (parser_body_length m)) = None.
Proof.
  intros Hc Hg Hl. unfold parser_body_length. rewrite Hc, Hg, Hl.
  change (apt_size_value_parse (str_lit "-1")) with (2 ^ 64 - 1).
  change (2 ^ 64 - 1 =? 0) with false. cbv iota. cbn [field_set body].
  apply message_body_alloc_defined; cbn [str_len]; rewrite Z2Nat.id; lia.
Qed.

Lemma content_length_minus_one_undefined_witness :
  exists m : mrcp_message_t unit, @message_body_alloc apr_reference (body (parser_body_length m)) = None.
Proof.
  set (m := mk_message (@start_line_uninit apr_reference) mrcp_channel_id_init
    (mk_message_header
       (mk_accessor (Some (mrcp_generic_header_init <| content_length := 2 ^ 64 - 1 |>))
          (Some (@mrcp_generic_header_vtable_get apr_reference MRCP_VERSION_2)))
       mrcp_header_accessor_init
       (snd (apt_header_section_field_add
               (snd (apt_header_section_array_alloc apt_header_section_init 16))
               (mk_field (str_lit "Content-Length") (str_lit "-1") 8))))
    apt_string_reset (@None (mrcp_resource_t unit))).
  exists m.
  apply (@content_length_minus_one_undefined apr_reference apr_reference_laws unit m
           (mrcp_generic_header_init <| content_length := 2 ^ 64 - 1 |>));
    reflexivity.
Defined.
