(* ===== verification/FieldsParse.v ===== *)
(** Parsing all fields of a message header: it is defined whatever the fields, keeps their
    names and values and, for the generic header of MRCP, records the value of the
    Content-Length field. *)

From S2P Require Import Prelude AptString TextStream TextValues HeaderField TextMessage StartLine MrcpHeader GenericHeader.

(** * Parsing the fields of a whole header *)

Section FieldsParse.
Context {G R : Type} (gvt : mrcp_header_vtable_t G) (rvt : mrcp_header_vtable_t R).

(** A value parsed into data that is there: never undefined. *)
Definition value_parsed {D} (vt : mrcp_header_vtable_t D) (d : D) (f : apt_header_field_t)
    : bool * D * apt_header_field_t :=
  let id := apt_string_table_id_find (field_table vt) (field_count vt) (hf_name f) in
  if field_count vt <=? id then (false, d, f)
  else if (str_len (hf_value f) =? 0)%nat then (true, d, set_hf_id id f)
  else let '(ok, d') := parse_field vt d id (hf_value f) in (ok, d', set_hf_id id f).

Lemma value_parsed_eq {D} (vt : mrcp_header_vtable_t D) (d : D) (f : apt_header_field_t) :
  mrcp_header_field_value_parse (mk_accessor (Some d) (Some vt)) f
  = let '(ok, d', f') := value_parsed vt d f in
    Some (ok, mk_accessor (Some d') (Some vt), f').
Proof.
  unfold mrcp_header_field_value_parse, value_parsed. cbn [vtable data].
  set (id := apt_string_table_id_find _ _ _). destruct (_ <=? id); [done|].
  change (hf_value (set_hf_id id f)) with (hf_value f). change (hf_id (set_hf_id id f)) with id.
  destruct (_ =? _)%nat; [done|]. by destruct (parse_field vt d id (hf_value f)).
Qed.

Lemma value_parsed_texts {D} (vt : mrcp_header_vtable_t D) (d : D) (f : apt_header_field_t) :
  hf_name (snd (value_parsed vt d f)) = hf_name f /\
  hf_value (snd (value_parsed vt d f)) = hf_value f.
Proof.
  unfold value_parsed. destruct (_ <=? _); [done|]. destruct (_ =? _)%nat; [done|].
  by destruct (parse_field vt d _ _).
Qed.

(** A header whose accessors both have data. *)
Definition full_header (g : G) (r : R) (sec : apt_header_section_t) : mrcp_message_header_t G R :=
  mk_message_header (mk_accessor (Some g) (Some gvt)) (mk_accessor (Some r) (Some rvt)) sec.

(** Both data after a field, the field with its identifier, and whether it has one. *)
Definition field_parsed (g : G) (r : R) (f : apt_header_field_t)
    : bool * G * R * apt_header_field_t :=
  let '(rok, r', f1) := value_parsed rvt r f in
  if rok : bool then (true, g, r', set_hf_id (hf_id f1 + GENERIC_HEADER_COUNT) f1)
  else let '(gok, g', f2) := value_parsed gvt g f1 in (gok, g', r', f2).

Lemma header_value_parsed (g : G) (r : R) (sec : apt_header_section_t) (f : apt_header_field_t) :
  let '(ok, g', r', f') := field_parsed g r f in
  exists rok gok, header_value_parse (full_header g r sec) f
                  = Some (rok, gok, full_header g' r' sec, f') /\ (rok || gok)%bool = ok.
Proof.
  unfold header_value_parse, field_parsed, full_header.
  cbn [resource_header_accessor generic_header_accessor]. rewrite value_parsed_eq.
  destruct (value_parsed rvt r f) as [[[] r'] f1]; [by exists true, false|].
  cbn [field_set generic_header_accessor]. rewrite value_parsed_eq.
  destruct (value_parsed gvt g f1) as [[gok g'] f2]. by exists false, gok.
Qed.

Lemma field_parsed_texts (g : G) (r : R) (f : apt_header_field_t) :
  hf_name (snd (field_parsed g r f)) = hf_name f /\
  hf_value (snd (field_parsed g r f)) = hf_value f.
Proof.
  unfold field_parsed. pose proof (value_parsed_texts rvt r f) as H1.
  destruct (value_parsed rvt r f) as [[[] r'] f1]; cbn [snd] in H1; [done|].
  pose proof (value_parsed_texts gvt g f1) as H2.
  destruct (value_parsed gvt g f1) as [[gok g'] f2]. cbn [snd] in *. intuition congruence.
Qed.

(** The section with the field at [a] replaced and, if it is identified, indexed. *)
Definition section_stored (sec : apt_header_section_t) ring (ok : bool) (a : addr)
    (f : apt_header_field_t) : apt_header_section_t :=
  let sec := mk_section ring (sec_arr sec) (sec_next sec) in
  if ok then snd (apt_header_section_field_set sec a f) else sec.

Lemma ring_split (front back : list (addr * apt_header_field_t)) (a : addr) f g :
  NoDup (map fst (front ++ (a, f) :: back)) ->
  List.find (fun p : addr * apt_header_field_t => (fst p =? a)%nat) (front ++ (a, f) :: back)
  = Some (a, f) /\
  map (fun p : addr * apt_header_field_t => if (fst p =? a)%nat then (fst p, g (snd p)) else p)
      (front ++ (a, f) :: back) = front ++ (a, g f) :: back.
Proof.
  rewrite map_app. cbn [map fst]. intros [_ [Hfr [Ha _]%list.NoDup_cons]]%list.NoDup_app.
  assert (Hb : forall l, a ∉ map fst l ->
    map (fun p : addr * apt_header_field_t => if (fst p =? a)%nat then (fst p, g (snd p)) else p) l = l).
  { clear. induction l as [|[b k] l IH]; [done|]. cbn [map fst]. rewrite not_elem_of_cons.
    intros [Hne Hl]. rewrite (proj2 (Nat.eqb_neq b a)), (IH Hl) by congruence. done. }
  assert (Hf : a ∉ map fst front).
  { intros Hin. apply (Hfr a Hin). by left. }
  split.
  - clear Ha Hb Hfr. induction front as [|[b k] front IH]; cbn [app List.find fst].
    + by rewrite Nat.eqb_refl.
    + cbn [map fst] in Hf. apply not_elem_of_cons in Hf as [Hne Hf].
      rewrite (proj2 (Nat.eqb_neq b a)) by congruence. by apply IH.
  - rewrite map_app. cbn [map fst snd]. by rewrite Nat.eqb_refl, !Hb.
Qed.

Lemma field_parse_step (g : G) (r : R) (sec : apt_header_section_t) front (a : addr) f back :
  sec_ring sec = front ++ (a, f) :: back -> NoDup (map fst (sec_ring sec)) ->
  let '(ok, g', r', f') := field_parsed g r f in
  header_field_parse_at (full_header g r sec) a
  = Some (full_header g' r' (section_stored sec (front ++ (a, f') :: back) ok a f')).
Proof.
  intros Hr Hnd. rewrite Hr in Hnd. unfold header_field_parse_at, field_at.
  cbn [full_header header_section]. rewrite Hr.
  rewrite (proj1 (ring_split front back a f id Hnd)). cbn [fmap option_fmap option_map snd].
  pose proof (header_value_parsed g r sec f) as Hp.
  destruct (field_parsed g r f) as [[[ok g'] r'] f'].
  destruct Hp as (rok & gok & -> & ->). cbn [full_header header_section field_set]. unfold field_update.
  rewrite Hr, (proj2 (ring_split front back a f (fun _ => f') Hnd)). reflexivity.
Qed.

Lemma section_stored_ring (sec : apt_header_section_t) ring (ok : bool) (a : addr) f :
  sec_ring (section_stored sec ring ok a f) = ring.
Proof.
  unfold section_stored. destruct ok; [|done]. unfold apt_header_section_field_set.
  destruct (_ <=? _); [done|]. by destruct (arr_at _ _).
Qed.

Lemma section_stored_size (sec : apt_header_section_t) ring (ok : bool) (a : addr) f :
  arr_size (section_stored sec ring ok a f) = arr_size sec.
Proof.
  unfold section_stored. destruct ok; [|done]. unfold apt_header_section_field_set.
  destruct (_ <=? _); [done|]. destruct (arr_at _ _); [done|]. cbn [snd]. by rewrite arr_size_set_arr.
Qed.

(** What the fields of a list do to the generic data and the array, field by field. *)
Definition field_keeps (J : G -> apt_header_section_t -> Prop) (f : apt_header_field_t) : Prop :=
  forall g r sec ring a, J g sec ->
    let '(ok, g', r', f') := field_parsed g r f in J g' (section_stored sec ring ok a f').

Lemma fields_parse_loop (J : G -> apt_header_section_t -> Prop) back front rest (g : G) (r : R) sec :
  sec_ring sec = front ++ back ++ rest -> NoDup (map fst (sec_ring sec)) ->
  Forall (field_keeps J) (map snd back) -> J g sec ->
  exists g' r' sec' back',
    header_fields_parse_from (full_header g r sec) (map fst back) = Some (full_header g' r' sec') /\
    sec_ring sec' = front ++ back' ++ rest /\ map fst back' = map fst back /\
    map (fun p => field_texts (snd p)) back' = map (fun p => field_texts (snd p)) back /\
    arr_size sec' = arr_size sec /\ J g' sec'.
Proof.
  revert front g r sec. induction back as [|[a f] back IH]; intros front g r sec Hr Hnd HJ Hj.
  { exists g, r, sec, []. done. }
  cbn [map snd] in HJ. apply Forall_cons_iff in HJ as [Hf HJ].
  pose proof (field_parse_step g r sec front a f (back ++ rest) Hr Hnd) as Hs.
  pose proof (field_parsed_texts g r f) as [Ht1 Ht2].
  pose proof (Hf g r sec) as Hk.
  destruct (field_parsed g r f) as [[[ok g1] r1] f1]. cbn [snd] in Ht1, Ht2.
  set (ring := front ++ (a, f1) :: back ++ rest) in *. set (sec1 := section_stored sec ring ok a f1) in *.
  assert (Hr1 : sec_ring sec1 = (front ++ [(a, f1)]) ++ back ++ rest).
  { unfold sec1. rewrite section_stored_ring. unfold ring. by rewrite <-app_assoc. }
  assert (Hfst : map fst (sec_ring sec1) = map fst (sec_ring sec)).
  { rewrite Hr1, Hr, <-app_assoc, !map_app. done. }
  destruct (IH (front ++ [(a, f1)]) g1 r1 sec1 Hr1) as (g' & r' & sec' & back' & E & Er & Ea & Et & Es & Ej).
  { by rewrite Hfst. }
  { done. }
  { by apply Hk. }
  exists g', r', sec', ((a, f1) :: back'). split_and!.
  - cbn [map fst header_fields_parse_from]. rewrite Hs. exact E.
  - by rewrite Er, <-app_assoc.
  - cbn [map fst]. by rewrite Ea.
  - cbn [map snd]. rewrite Et. unfold field_texts. by rewrite Ht1, Ht2.
  - rewrite Es. apply section_stored_size.
  - done.
Qed.

Lemma fields_parse_app (h : mrcp_message_header_t G R) (l l' : list addr) :
  header_fields_parse_from h (l ++ l')
  = let? h1 := header_fields_parse_from h l in header_fields_parse_from h1 l'.
Proof.
  revert h. induction l as [|a l IH]; intros h; [done|]. cbn [app header_fields_parse_from].
  destruct (header_field_parse_at h a) as [h1|]; [apply IH|done].
Qed.

End FieldsParse.

(** * The Content-Length field *)

Definition CONTENT_LENGTH : bytes := lit "Content-Length".
Definition is_content_length (f : apt_header_field_t) : Prop :=
  str_ieq (str_text (hf_name f)) CONTENT_LENGTH.

Lemma content_length_id (v : apt_str_t) :
  str_wf v ->
  apt_string_table_id_find generic_header_string_table GENERIC_HEADER_COUNT v
    = generic_header_id_num GENERIC_HEADER_CONTENT_LENGTH <-> str_ieq (str_text v) CONTENT_LENGTH.
Proof.
  intros Wv. rewrite id_find_first_index by (done || apply generic_header_table_ok).
  unfold first_index. split.
  - destruct (list_find _ generic_header_string_table) as [[k it]|] eqn:E; [|done].
    apply list_find_Some in E as (Hk & Heq & _). intros Hk8.
    assert (k = 8%nat) as -> by (change (generic_header_id_num _) with 8 in Hk8; lia).
    injection Hk as <-. by symmetry.
  - unfold str_ieq, str_ieq_dec. generalize (map tolower (str_text v)). intros w ->.
    vm_compute. reflexivity.
Qed.

Lemma id_find_nonneg (t : list apt_str_table_item_t) (size : Z) (v : apt_str_t) :
  0 <= size -> 0 <= apt_string_table_id_find t size v.
Proof.
  intros Hs. unfold apt_string_table_id_find.
  assert (H : forall i, 0 <= i -> 0 <= table_search (take (Z.to_nat size) t) i size v).
  { induction (take (Z.to_nat size) t) as [|it l IH]; intros i Hi; [done|]. cbn [table_search].
    destruct (table_item_match it v); [done|]. apply IH. lia. }
  by apply H.
Qed.

Section ContentLength.
Context `{Apr} {R : Type} (v : mrcp_version_e) (rvt : mrcp_header_vtable_t R).
Abbreviation gvt := (mrcp_generic_header_vtable_get v).
Abbreviation cl := (generic_header_id_num GENERIC_HEADER_CONTENT_LENGTH).

(** The resource has fields, and none of the name of the generic Content-Length. *)
Record resource_fields_ok : Prop := {
  fields_table_ok : table_ok (field_table rvt) (field_count rvt) = true;
  fields_no_length : Forall (fun it => ~ str_ieq (str_text (item_value it)) CONTENT_LENGTH)
                            (field_table rvt)
}.
Context (Hok : resource_fields_ok).

Lemma field_count_nonneg : 0 <= field_count rvt.
Proof. destruct Hok as [Ht _]. unfold table_ok in Ht. blia. Qed.

Lemma resource_ignores_length (r : R) (f : apt_header_field_t) :
  str_wf (hf_name f) -> is_content_length f -> value_parsed rvt r f = (false, r, f).
Proof.
  intros Wf Hf. destruct Hok as [Ht Hn]. unfold value_parsed.
  rewrite id_find_first_index by done. unfold first_index.
  destruct (list_find _ (field_table rvt)) as [[k it]|] eqn:E.
  - apply list_find_Some in E as (Hk & Heq & _). exfalso. apply list_elem_of_lookup_2 in Hk.
    rewrite Forall_forall in Hn. apply (Hn it (proj1 (list_elem_of_In _ _) Hk)). by rewrite Heq.
  - by rewrite Z.leb_refl.
Qed.

(** Any other field leaves the length alone. *)
Lemma generic_parse_keeps_length g (i : Z) (s : apt_str_t) :
  i <> cl -> content_length (snd (mrcp_generic_header_parse g i s)) = content_length g.
Proof.
  intros Hi. unfold mrcp_generic_header_parse.
  destruct (generic_header_id_of i) as [k|] eqn:E; [|done].
  assert (k <> GENERIC_HEADER_CONTENT_LENGTH).
  { intros ->. apply Hi. unfold generic_header_id_of, enum_of in E.
    destruct (Z.ltb_spec i 0); [done|]. unfold generic_header_ids in E.
    destruct (Z.to_nat i) as [|[|[|[|[|[|[|[|[|n]]]]]]]]] eqn:En; try done.
    - change cl with 8. lia.
    - do 8 (destruct n as [|n]; [done|]). done. }
  by destruct k.
Qed.

(** [J n x]: the length is [n] and the entry of the array for it is [x]. *)
Definition length_is (n : Z) (x : option addr) (size : Z) (g : mrcp_generic_header_t)
    (sec : apt_header_section_t) : Prop :=
  content_length g = n /\ arr_at sec cl = x /\ arr_size sec = size.

Lemma stored_keeps_length n x size g g' sec ring (ok : bool) (a : addr) f :
  content_length g' = content_length g -> (ok = true -> 0 <= hf_id f /\ hf_id f <> cl) ->
  length_is n x size g sec -> length_is n x size g' (section_stored sec ring ok a f).
Proof.
  intros Hg Hf (H1 & H2 & H3). split; [congruence|]. rewrite section_stored_size.
  split; [|done]. unfold section_stored. destruct ok; [|done].
  unfold apt_header_section_field_set. destruct (_ <=? _); [done|].
  destruct (arr_at _ (hf_id f)); [done|]. cbn [snd]. destruct Hf as [Hf0 Hf]; [done|].
  rewrite arr_at_set_arr_ne by (done || lia). exact H2.
Qed.

Lemma other_field_keeps n x size (f : apt_header_field_t) :
  str_wf (hf_name f) -> ~ is_content_length f ->
  field_keeps gvt rvt (length_is n x size) f.
Proof.
  intros Wf Hnot g r sec ring a J. unfold field_parsed.
  pose proof (id_find_nonneg (field_table rvt) (field_count rvt) (hf_name f) field_count_nonneg) as Hrid.
  pose proof (value_parsed_texts rvt r f) as [Hn _].
  destruct (value_parsed rvt r f) as [[rok r'] f1] eqn:Er. cbn [snd] in Hn. destruct rok.
  - apply (stored_keeps_length n x size g); [done| |done]. intros _. cbn [hf_id set_hf_id].
    assert (0 <= hf_id f1).
    { revert Er. unfold value_parsed. destruct (_ <=? _); [done|].
      destruct (_ =? _)%nat; [by intros [= <- <-]|].
      destruct (parse_field rvt r _ _) as [b ?]. by intros [= -> <- <-]. }
    change cl with 8. unfold GENERIC_HEADER_COUNT. lia.
  - assert (Hid : apt_string_table_id_find generic_header_string_table GENERIC_HEADER_COUNT
                    (hf_name f1) <> cl).
    { rewrite Hn. by rewrite content_length_id. }
    pose proof (id_find_nonneg generic_header_string_table GENERIC_HEADER_COUNT (hf_name f1)
                  ltac:(done)) as Hpos.
    unfold value_parsed. cbn [mrcp_generic_header_vtable_get field_table field_count parse_field].
    set (id := apt_string_table_id_find generic_header_string_table _ _) in *.
    destruct (_ <=? id); [by apply (stored_keeps_length n x size g)|].
    destruct (_ =? _)%nat; [by apply (stored_keeps_length n x size g)|].
    pose proof (generic_parse_keeps_length g id (hf_value f1) Hid) as Hk.
    destruct (mrcp_generic_header_parse g id (hf_value f1)) as [gok g'].
    by apply (stored_keeps_length n x size g).
Qed.

Lemma length_field_sets n x size (f : apt_header_field_t) g (r : R) sec ring (a : addr) m follow :
  str_wf (hf_name f) -> is_content_length f -> cl < size ->
  str_buf (hf_value f) = Some (dec m ++ follow) -> stops follow -> str_len (hf_value f) <> 0%nat ->
  0 <= m < 2 ^ 63 -> length_is n x size g sec ->
  let '(ok, g', r', f') := field_parsed gvt rvt g r f in
  exists b, length_is m (Some b) size g' (section_stored sec ring ok a f').
Proof.
  intros Wf Hf Hsz Hb Hst Hl Hm (H1 & H2 & H3). unfold field_parsed.
  rewrite resource_ignores_length by done. unfold value_parsed.
  cbn [mrcp_generic_header_vtable_get field_table field_count parse_field].
  rewrite (proj2 (content_length_id (hf_name f) Wf)) by done.
  change (GENERIC_HEADER_COUNT <=? cl) with false. cbv iota.
  rewrite (proj2 (Nat.eqb_neq _ _)) by done.
  unfold mrcp_generic_header_parse. rewrite generic_header_ids_all.
  rewrite (size_parse_text (hf_value f) m follow) by done.
  unfold section_stored, apt_header_section_field_set. cbn [hf_id set_hf_id].
  change (arr_size (mk_section ring (sec_arr sec) (sec_next sec))) with (arr_size sec).
  rewrite H3, (proj2 (Z.leb_gt _ _)) by done.
  change (arr_at (mk_section ring (sec_arr sec) (sec_next sec)) cl) with (arr_at sec cl).
  destruct (arr_at sec cl) as [b|] eqn:Eb.
  - exists b. split; [done|]. split; [exact Eb|done].
  - exists a. split; [done|]. cbn [snd]. rewrite arr_at_set_arr_eq, arr_size_set_arr; [done|].
    change (0 <= cl < arr_size sec). rewrite H3. split; [done|done].
Qed.

End ContentLength.

Lemma texts_fields (sec : apt_header_section_t) :
  map (fun p : addr * apt_header_field_t => field_texts (snd p)) (sec_ring sec)
  = map field_texts (sec_fields sec).
Proof. unfold sec_fields. by rewrite map_map. Qed.

(** The fields of a header are always parsed, and keep their names and values. *)
Lemma header_fields_parse_keeps {G R} (gvt : mrcp_header_vtable_t G) (rvt : mrcp_header_vtable_t R)
    (J : G -> apt_header_section_t -> Prop) (g : G) (r : R) sec :
  NoDup (map fst (sec_ring sec)) -> Forall (field_keeps gvt rvt J) (sec_fields sec) -> J g sec ->
  exists g' r' sec', mrcp_header_fields_parse (full_header gvt rvt g r sec)
    = Some (true, full_header gvt rvt g' r' sec') /\
    map field_texts (sec_fields sec') = map field_texts (sec_fields sec) /\ J g' sec'.
Proof.
  intros Hnd HJ Hj. unfold mrcp_header_fields_parse. cbn [full_header header_section].
  destruct (fields_parse_loop gvt rvt J (sec_ring sec) [] [] g r sec
    ltac:(by rewrite app_nil_r) Hnd HJ Hj)
    as (g' & r' & sec' & back' & E & Er & _ & Et & _ & Ej).
  exists g', r', sec'. rewrite E. split_and!; [done| |done].
  by rewrite <-!texts_fields, Er, app_nil_r.
Qed.

Section BodyLength.
Context `{Apr} {R : Type} (v : mrcp_version_e) (rvt : mrcp_header_vtable_t R).
Context (Hok : resource_fields_ok rvt).
Abbreviation gvt := (mrcp_generic_header_vtable_get v).
Abbreviation cl := (generic_header_id_num GENERIC_HEADER_CONTENT_LENGTH).

(** The fields that are not Content-Length. *)
Definition other_fields (l : list apt_header_field_t) : Prop :=
  Forall (fun f => str_wf (hf_name f) /\ ~ is_content_length f) l.

Lemma other_fields_keep n x size l :
  other_fields l -> Forall (field_keeps gvt rvt (length_is n x size)) l.
Proof.
  intros Hl. eapply List.Forall_impl; [|exact Hl]. intros f [Wf Hf]. by apply other_field_keeps.
Qed.

(** Without a Content-Length no length is recorded. *)
Lemma header_fields_parse_no_length g (r : R) sec n x :
  NoDup (map fst (sec_ring sec)) -> other_fields (sec_fields sec) ->
  length_is n x (arr_size sec) g sec ->
  exists g' r' sec', mrcp_header_fields_parse (full_header gvt rvt g r sec)
    = Some (true, full_header gvt rvt g' r' sec') /\
    map field_texts (sec_fields sec') = map field_texts (sec_fields sec) /\
    length_is n x (arr_size sec) g' sec'.
Proof. intros Hnd Hl HJ. apply header_fields_parse_keeps; [done|by apply other_fields_keep|done]. Qed.

(** One Content-Length among the fields is recorded. *)
Lemma header_fields_parse_length g (r : R) sec l1 f l2 m follow n x :
  NoDup (map fst (sec_ring sec)) -> sec_fields sec = l1 ++ f :: l2 ->
  other_fields l1 -> other_fields l2 -> str_wf (hf_name f) -> is_content_length f ->
  str_buf (hf_value f) = Some (dec m ++ follow) -> stops follow -> str_len (hf_value f) <> 0%nat ->
  0 <= m < 2 ^ 63 -> cl < arr_size sec -> length_is n x (arr_size sec) g sec ->
  exists g' r' sec' b, mrcp_header_fields_parse (full_header gvt rvt g r sec)
    = Some (true, full_header gvt rvt g' r' sec') /\
    map field_texts (sec_fields sec') = map field_texts (sec_fields sec) /\
    length_is m (Some b) (arr_size sec) g' sec'.
Proof.
  intros Hnd Hl H1 H2 Wf Hf Hb Hst Hlen Hm Hcl HJ. unfold mrcp_header_fields_parse.
  cbn [full_header header_section].
  unfold sec_fields in Hl. apply map_eq_app in Hl as (b1 & b2 & Hr & Eb1 & Eb2).
  destruct b2 as [|[a f'] b2]; [done|]. cbn [map snd] in Eb2. injection Eb2 as -> Eb2.
  assert (H1' : other_fields (map snd b1)) by (by rewrite Eb1).
  assert (H2' : other_fields (map snd b2)) by (by rewrite Eb2).
  rewrite Hr, map_app, fields_parse_app.
  destruct (fields_parse_loop gvt rvt (length_is n x (arr_size sec)) b1 [] ((a, f) :: b2) g r sec Hr
    Hnd (other_fields_keep _ _ _ _ H1') HJ) as (g1 & r1 & s1 & b1' & E1 & Er1 & Ea1 & Et1 & _ & J1).
  rewrite E1. cbn [map fst header_fields_parse_from].
  assert (Hnd1 : NoDup (map fst (sec_ring s1))).
  { rewrite Er1. cbn [app]. by rewrite map_app, Ea1, <-map_app, <-Hr. }
  pose proof (field_parse_step gvt rvt g1 r1 s1 b1' a f b2 Er1 Hnd1) as Hs.
  pose proof (length_field_sets v rvt Hok n x (arr_size sec) f g1 r1 s1) as Hk.
  pose proof (field_parsed_texts gvt rvt g1 r1 f) as [Ht1 Ht2].
  specialize (fun ring => Hk ring a m follow Wf Hf Hcl Hb Hst Hlen Hm J1).
  destruct (field_parsed gvt rvt g1 r1 f) as [[[ok g2] r2] f2]. cbn [snd] in Ht1, Ht2.
  destruct (Hk (b1' ++ (a, f2) :: b2)) as (b & J2). rewrite Hs.
  set (s2 := section_stored s1 _ _ _ _) in *.
  assert (Er2 : sec_ring s2 = (b1' ++ [(a, f2)]) ++ b2 ++ []).
  { unfold s2. by rewrite section_stored_ring, app_nil_r, <-app_assoc. }
  destruct (fields_parse_loop gvt rvt (length_is m (Some b) (arr_size sec)) b2 (b1' ++ [(a, f2)]) []
    g2 r2 s2 Er2) as (g' & r' & sec' & b2' & E & Er & _ & Et & _ & Ej);
    [|by apply other_fields_keep|done|].
  { rewrite Er2, app_nil_r, <-app_assoc. rewrite Er1 in Hnd1. by rewrite !map_app in *. }
  exists g', r', sec', b. rewrite E. split_and!; [done| |done].
  rewrite <-!texts_fields, Er, Hr, app_nil_r, !map_app, Et, Et1. cbn [map snd].
  unfold field_texts at 2. rewrite Ht1, Ht2. by rewrite <-app_assoc.
Qed.

End BodyLength.
