(* ===== verification/StreamRoundtrip.v ===== *)
(** A message of MRCPv2 that is generated into a stream is parsed back: the start line, the
    channel identifier, the header fields and the body are those of the message, and the parser
    stops right after it.  The proof composes the round trips of the parts. *)

From S2P Require Import Prelude AprHash AptString TextStream TextValues HeaderField TextMessage StartLine MrcpHeader GenericHeader FieldsParse Message MessageParser ResourceFactory MrcpStream.

(** * Parsing: the start line *)

Lemma no_eol_app (a b : bytes) : no_eol (a ++ b) <-> no_eol a /\ no_eol b.
Proof. unfold no_eol. rewrite !not_elem_of_app. tauto. Qed.

Lemma digits_no_eol (l : bytes) : Forall (fun c => isdigit c = true) l -> no_eol l.
Proof.
  intros H. rewrite Forall_forall in H. split; intros Hin%list_elem_of_In; by apply H in Hin.
Qed.

Lemma request_id_no_eol (id : Z) : no_eol (request_id_text id).
Proof.
  unfold request_id_text, dec_signed. destruct (Z.ltb_spec (s32 id) 0);
    [|by apply digits_no_eol, dec_digits].
  apply no_eol_cons. split_and!; [done|done|]. apply digits_no_eol, dec_digits. lia.
Qed.

Lemma join_no_eol (ws : list bytes) : Forall no_eol ws -> no_eol (join ws).
Proof.
  induction ws as [|w ws IH]; [by split; apply not_elem_of_nil|]. intros [Hw Hws]%Forall_cons_iff.
  destruct ws as [|w' ws]; [done|]. cbn [join]. apply no_eol_app. split; [done|].
  apply no_eol_cons. split_and!; [done|done|by apply IH].
Qed.

(** The method or event name does not break the line. *)
Definition method_no_eol (sl : mrcp_start_line_t) : Prop :=
  message_type sl <> MRCP_MESSAGE_TYPE_RESPONSE -> no_eol (str_text (method_name sl)).

Lemma words_no_eol (sl : mrcp_start_line_t) (n : Z) :
  start_line_ok sl -> method_no_eol sl -> 0 <= n -> no_eol (join (start_line_words sl n)).
Proof.
  intros Hok Hm Hn. apply join_no_eol. pose proof (ok_status_code sl Hok).
  assert (Hv : forall v, no_eol (version_text v)) by (intros []; split; decide_now).
  assert (Hs : no_eol (request_state_text (request_state sl)))
    by (destruct (request_state sl); split; decide_now).
  assert (Hd : forall z, 0 <= z -> no_eol (dec z)) by (intros; by apply digits_no_eol, dec_digits).
  unfold method_no_eol in Hm. unfold start_line_words.
  destruct (version sl), (message_type sl); repeat apply Forall_cons; try apply Forall_nil;
    first [apply Hv|exact Hs|apply request_id_no_eol|by apply Hm|apply Hd; lia].
Qed.

(** ** The handler of the start line *)

Section OnStart.
Context `{LA : AprLaws} {R : Type} {Hash : AprHash (mrcp_resource_t R)}.

Lemma line_read_crlf (rd : apt_text_stream_t) (l rest : bytes) :
  no_eol l -> window rd = l ++ [CR; LF] ++ rest ->
  exists rd', apt_text_line_read rd
    = (true, mk_str (Some (l ++ [CR; LF] ++ rest ++ drop (length (window rd)) (from_pos rd))) (length l), rd') /\
    window rd' = rest /\ st_eos rd' = st_eos rd /\ advances rd rd'.
Proof.
  intros Hl Hw. unfold apt_text_line_read. rewrite Hw. cbn [app].
  rewrite line_scan_crlf by done. cbn [Nat.add].
  exists (set_pos (st_pos rd + (length l + 2)) rd). split; [|split; [|split; [reflexivity|apply advances_set_pos; rewrite Hw, length_app; simpl; lia]]].
  - unfold sub_str. rewrite drop_0. f_equal. f_equal. f_equal. f_equal.
    rewrite <-(take_drop (length (l ++ CR :: LF :: rest)) (from_pos rd)) at 1.
    assert (Ht : take (length (l ++ CR :: LF :: rest)) (from_pos rd) = l ++ CR :: LF :: rest).
    { cbn [app] in Hw. rewrite <-Hw. unfold window. rewrite length_take.
      destruct (Nat.le_ge_cases (st_end rd - st_pos rd) (length (from_pos rd))).
      - f_equal. lia.
      - rewrite !take_ge; [done|lia..]. }
    rewrite Ht, <-app_assoc. done.
  - rewrite window_advance, Hw.
    replace (length l + 2)%nat with (length (l ++ [CR; LF])) by (rewrite length_app; done).
    change (l ++ [CR; LF] ++ rest) with (l ++ ([CR; LF] ++ rest)).
    rewrite app_assoc. apply drop_app_length.
Qed.

Lemma parser_on_start_line (res : option (mrcp_resource_t R)) (sl : mrcp_start_line_t) (n : Z)
    (rd : apt_text_stream_t) (rest : bytes) :
  start_line_ok sl -> version sl = MRCP_VERSION_2 -> method_no_eol sl -> 0 <= n < 2 ^ 63 ->
  window rd = join (start_line_words sl n) ++ [CR; LF] ++ rest ->
  exists sl' rd', mrcp_parser_on_start res rd
      = Some (Some (mrcp_message_create <| start_line := sl' |>), rd') /\
    start_line_same sl sl' /\ length_ sl' = n /\
    (message_type sl <> MRCP_MESSAGE_TYPE_RESPONSE -> str_wf (method_name sl')) /\
    window rd' = rest /\ st_eos rd' = st_eos rd /\ advances rd rd'.
Proof.
  intros Hok Hv Hm Hn Hw. unfold mrcp_parser_on_start.
  destruct (line_read_crlf rd _ rest (words_no_eol sl n Hok Hm ltac:(lia)) Hw)
    as (rd' & -> & Hw' & He & Ha). cbn [negb].
  destruct (start_line_parse_words sl _ n Hok Hn
    (start_line_reads sl n ([CR; LF] ++ rest ++ drop (length (window rd)) (from_pos rd)) Hok
       ltac:(lia) eq_refl) (start_line (@mrcp_message_create _ R)))
    as (sl' & -> & Hsame & Hlen & Hwf).
  cbn [negb]. rewrite decide_False.
  - exists sl', rd'. split_and!; auto.
  - destruct Hsame as (_ & <- & _). congruence.
Qed.

End OnStart.

(** * Parsing: the header *)

Definition channel_field (cid : mrcp_channel_id) : apt_header_field_t :=
  mk_field (str_of MRCP_CHANNEL_ID) (str_of (channel_id_value cid)) 0.

Lemma channel_field_line (cid : mrcp_channel_id) : field_line (channel_field cid) = channel_id_line cid.
Proof.
  unfold field_line, header_line, channel_id_line, channel_field. cbn [hf_name hf_value].
  rewrite !str_data_text, !str_of_text by apply str_of_wf. by rewrite <-!app_assoc.
Qed.

Lemma channel_field_ok (cid : mrcp_channel_id) : channel_id_ok cid -> field_ok (channel_field cid).
Proof.
  intros Hok. unfold field_ok, channel_field. cbn [hf_name hf_value]. rewrite !str_of_text.
  split_and!; [apply str_of_wf..| |apply (cid_value_ok cid Hok)].
  unfold header_name_ok, no_eol. split_and!; first [done|decide_now].
Qed.

Lemma fields_text_length (l : list apt_header_field_t) : (length l <= length (fields_text l))%nat.
Proof.
  induction l as [|f l IH]; [done|]. unfold fields_text in *. cbn [map concat length].
  rewrite length_app, field_line_length. lia.
Qed.

(** The fields of a message with a channel identifier, read into an empty section. *)
Lemma message_header_parse (cid : mrcp_channel_id) fs (rd : apt_text_stream_t) (rest : bytes) :
  channel_id_ok cid -> Forall field_ok fs -> st_eos rd = false ->
  window rd = channel_id_line cid ++ fields_text fs ++ [CR; LF] ++ rest ->
  apt_text_is_wsp (deref rest) = false ->
  exists a ring sec rd', apt_header_section_parse apt_header_section_init rd = (true, sec, rd') /\
    sec_ring sec = (a, channel_id_field cid) :: ring /\ sec_arr sec = [] /\ section_wf sec /\
    map (fun p : addr * apt_header_field_t => field_texts (snd p)) ring = map field_texts fs /\
    Forall fresh_field (map snd ring) /\ window rd' = rest /\ advances rd rd' /\
    st_eos rd' = false.
Proof.
  intros Hc Hf He Hw Hwsp.
  assert (Hw' : window rd = fields_text (channel_field cid :: fs) ++ CR :: LF :: rest).
  { rewrite Hw. unfold fields_text. cbn [map concat]. by rewrite channel_field_line, <-app_assoc. }
  pose proof (fields_text_length (channel_field cid :: fs)) as Hlen.
  destruct (section_parse_fields (channel_field cid :: fs) rest (S (length (window rd)))
    apt_header_section_init rd) as (gs & sec & rd' & E & Hs & Ha & Ht & Hfr & Hr & He'); try done.
  { apply Forall_cons_iff. split; [by apply channel_field_ok|done]. }
  { rewrite Hw', length_app. lia. }
  unfold apt_header_section_parse. rewrite E.
  assert (W : section_wf sec).
  { pose proof (section_loop_wf (S (length (window rd))) apt_header_section_init rd section_init_wf) as W.
    by rewrite E in W. }
  pose proof (section_loop_advances (S (length (window rd))) apt_header_section_init rd) as Hadv.
  rewrite E in Hadv. change (sec_fields apt_header_section_init ++ gs) with gs in Hs.
  destruct gs as [|g gs]; [done|]. cbn [map] in Ht. injection Ht as Hn Hv Ht.
  apply Forall_cons_iff in Hfr as [Hg Hfr].
  assert (g = channel_id_field cid) as ->.
  { unfold fresh_field in Hg. rewrite Hg, Hn, Hv. unfold channel_field, channel_id_field.
    cbn [hf_name hf_value]. by rewrite !str_of_text. }
  unfold sec_fields in Hs. destruct (sec_ring sec) as [|[a f] ring] eqn:Er; [done|].
  cbn [map snd] in Hs. injection Hs as -> Hs.
  exists a, ring, sec, rd'. split_and!; try done.
  - rewrite <-Ht, <-Hs, map_map. done.
  - by rewrite Hs.
Qed.

(** ** The channel identifier *)

Lemma id_resource_parse_wf (s id res : apt_str_t) (sep : char) :
  str_wf s -> apt_id_resource_parse s sep = Some (id, res) -> str_wf id /\ str_wf res.
Proof.
  unfold apt_id_resource_parse. intros Ws. destruct (strchr _ _) as [k|]; [|done].
  destruct (Nat.leb_spec (str_len s) k); [done|]. intros [= <- <-].
  split; apply apt_string_copy_wf; unfold str_wf, str_text, str_mem in *; cbn [str_buf str_len];
    rewrite length_take in *; rewrite ?length_drop; lia.
Qed.

Lemma channel_id_parse_head {G R} (h : mrcp_message_header_t G R) (cid cid0 : mrcp_channel_id)
    (a : addr) ring :
  channel_id_ok cid -> sec_ring (header_section h) = (a, channel_id_field cid) :: ring ->
  sec_arr (header_section h) = [] -> NoDup (map fst (sec_ring (header_section h))) ->
  exists cid', mrcp_channel_id_parse cid0 h
      = Some (true, cid',
              h <| header_section := mk_section ring [] (sec_next (header_section h)) |>) /\
    str_text (session_id cid') = str_text (session_id cid) /\
    str_text (resource_name cid') = str_text (resource_name cid) /\
    str_wf (session_id cid') /\ str_wf (resource_name cid').
Proof.
  intros Hok Hr Ha Hnd. rewrite Hr in Hnd. cbn [map fst] in Hnd.
  apply list.NoDup_cons in Hnd as [Hna _].
  destruct (apt_id_resource_parse_split (str_text (session_id cid)) (str_text (resource_name cid))
    [NUL] "@"%char (cid_no_at cid Hok) (cid_nul_free cid Hok)) as (id' & res' & Eid & Hid' & Hres').
  exists (mk_channel_id id' res').
  assert (Ev : hf_value (channel_id_field cid) =
    mk_str (Some (str_text (session_id cid) ++ "@"%char :: str_text (resource_name cid) ++ [NUL]))
       (length (str_text (session_id cid)) + length (str_text (resource_name cid)) + 1)).
  { unfold channel_id_field, str_alloc, channel_id_value. cbn [hf_value].
    rewrite !length_app, <-!app_assoc. cbn [length app]. f_equal. lia. }
  unfold mrcp_channel_id_parse. rewrite Hr.
  assert (Es : channel_id_search ((a, channel_id_field cid) :: ring)
               = Some (Some (a, channel_id_field cid))).
  { pose proof (channel_id_found cid a) as Hf. cbn [channel_id_search] in Hf |- *.
    destruct (_ =? _)%nat; [done|]. destruct (str_buf _); [|done]. by destruct (strncasecmp_eq _ _ _). }
  rewrite Es. rewrite <-Ev in Eid. rewrite Eid. split_and!; [|done|done| |].
  - unfold apt_header_section_field_remove.
    assert (Hsz : arr_size (header_section h) = 0) by (unfold arr_size; by rewrite Ha).
    rewrite Hsz. change (hf_id (channel_id_field cid) <? 0) with false. cbn [snd].
    rewrite Ha, Hr. cbn [List.filter fst]. rewrite Nat.eqb_refl. cbn [negb].
    rewrite List.forallb_filter_id; [done|]. apply forallb_forall. intros [b k] Hin. cbn [fst].
    apply negb_true_iff, Nat.eqb_neq. intros ->. apply Hna, list_elem_of_In.
    apply (in_map fst _ _ Hin).
  - refine (proj1 (id_resource_parse_wf _ _ _ _ _ Eid)). apply str_alloc_wf.
  - refine (proj2 (id_resource_parse_wf _ _ _ _ _ Eid)). apply str_alloc_wf.
Qed.

Lemma resource_find_text {R} {Hash : AprHash (mrcp_resource_t R)} (f : mrcp_resource_factory_t R)
    (a b : apt_str_t) r :
  str_wf a -> str_wf b -> str_text b = str_text a ->
  mrcp_resource_find f a = Some r -> mrcp_resource_find f b = Some r.
Proof.
  intros Wa Wb E Hf. destruct (find_some_name f a r Hf) as [_ Hl].
  unfold mrcp_resource_find in *. destruct (str_buf a); [|done].
  destruct (_ =? _)%nat in Hf; [done|]. rewrite !str_data_text in * by done.
  assert (Hlb : str_len b = str_len a) by (unfold str_wf in *; congruence).
  destruct (str_buf b) eqn:Eb.
  - rewrite (proj2 (Nat.eqb_neq _ _)) by congruence. by rewrite E.
  - exfalso. unfold str_wf, str_text, str_mem in Wb. rewrite Eb in Wb. destruct (str_len b); [|done].
    congruence.
Qed.

(** * What a message must be like *)

Section Sendable.
Context `{LA : AprLaws} {R : Type} {Hash : AprHash (mrcp_resource_t R)}.
Abbreviation message := (mrcp_message_t R).
Implicit Types (m : message).

Definition message_fields m : list apt_header_field_t := sec_fields (header_section (header m)).

(** The Content-Length field says how long the body is; there is none without a body. *)
Definition length_announced m : Prop :=
  if (str_len (body m) =? 0)%nat then Forall (fun f => ~ is_content_length f) (message_fields m)
  else exists l1 f l2, message_fields m = l1 ++ f :: l2 /\
    Forall (fun f => ~ is_content_length f) l1 /\ Forall (fun f => ~ is_content_length f) l2 /\
    is_content_length f /\ str_text (hf_value f) = dec (Z.of_nat (str_len (body m))).

(** The method or event is one of the resource. *)
Definition method_known (sl : mrcp_start_line_t) (r : mrcp_resource_t R) : Prop :=
  let '(table, count) := table_of r (message_type sl) (version sl) in
  message_type sl = MRCP_MESSAGE_TYPE_RESPONSE \/
  (table_ok table count = true /\ apt_string_table_id_find table count (method_name sl) < count).

(** A message of MRCPv2 that can be put on the wire, of the resource [r] of a factory. *)
Record sendable (f : mrcp_resource_factory_t R) m (r : mrcp_resource_t R) : Prop := {
  send_line : start_line_ok (start_line m);
  send_version : version (start_line m) = MRCP_VERSION_2;
  send_method : method_no_eol (start_line m);
  send_known : method_known (start_line m) r;
  send_channel : channel_id_ok (channel_id m);
  send_fields : Forall field_ok (message_fields m);
  send_length : length_announced m;
  send_body : str_wf (body m);
  send_body_size : Z.of_nat (str_len (body m)) < 2 ^ 63;
  send_found : mrcp_resource_find f (resource_name (channel_id m)) = Some r;
  send_vtable : exists vt, get_resource_header_vtable r MRCP_VERSION_2 = Some vt /\
                           resource_fields_ok vt
}.

(** What is recovered of a message. *)
Record message_same m m' : Prop := {
  same_line : start_line_same (start_line m) (start_line m');
  same_session : str_text (session_id (channel_id m')) = str_text (session_id (channel_id m));
  same_resource : str_text (resource_name (channel_id m')) = str_text (resource_name (channel_id m));
  same_fields : map field_texts (message_fields m') = map field_texts (message_fields m);
  same_channel_wf : str_wf (session_id (channel_id m')) /\ str_wf (resource_name (channel_id m'))
}.

Lemma first_index_text (t : list apt_str_table_item_t) (size : Z) (a b : apt_str_t) :
  table_ok t size = true -> str_wf a -> str_wf b -> str_text a = str_text b ->
  apt_string_table_id_find t size a = apt_string_table_id_find t size b.
Proof. intros Ht Wa Wb E. rewrite !id_find_first_index by done. by rewrite E. Qed.

(** The message as [mrcp_message_resource_set] leaves it. *)
Lemma resource_set_known m (r : mrcp_resource_t R) (vt : mrcp_header_vtable_t R) sl0 :
  version (start_line m) = MRCP_VERSION_2 ->
  get_resource_header_vtable r MRCP_VERSION_2 = Some vt -> 0 <= field_count vt ->
  start_line_ok sl0 -> start_line_same sl0 (start_line m) -> method_known sl0 r ->
  (message_type sl0 <> MRCP_MESSAGE_TYPE_RESPONSE -> str_wf (method_name (start_line m))) ->
  exists m', mrcp_message_resource_set m (Some r) = (true, m') /\
    start_line_same sl0 (start_line m') /\ length_ (start_line m') = length_ (start_line m) /\
    version (start_line m') = version (start_line m) /\
    channel_id m' = channel_id m /\ body m' = body m /\ resource m' = Some r /\
    header m' = full_header (mrcp_generic_header_vtable_get MRCP_VERSION_2) vt
      mrcp_generic_header_init (allocate vt)
      (mk_section (sec_ring (header_section (header m)))
         (replicate (Z.to_nat (16 + field_count vt)) None) (sec_next (header_section (header m)))).
Proof.
  intros Hv Hvt Hc Hok (Et & Ev & Ei & Em & Ec & Es) Hk Hwf.
  unfold mrcp_message_resource_set, message_header_alloc, mrcp_message_header_data_alloc.
  destruct m as [[ty ver len rid nm mid sc rs] cid h b res]. cbn [start_line version method_name
    message_type request_id status_code request_state] in *. subst ver. rewrite Et in *.
  cbv beta iota zeta delta [field_set set_start_line start_line channel_id header body resource fst snd
    version message_type method_name header_section].
  rewrite Hvt. cbn [mrcp_generic_header_vtable_get field_count]. unfold GENERIC_HEADER_COUNT.
  unfold apt_header_section_array_alloc. rewrite (proj2 (Z.eqb_neq _ _)) by lia.
  cbn [snd]. pose proof (ok_type sl0 Hok) as Hty.
  unfold method_known, table_of in Hk. rewrite Et, ?Ev in Hk.
  destruct ty; [done| | |].
  2:{ eexists. split; [reflexivity|]. unfold start_line_same. cbn [start_line version method_name
        message_type request_id status_code request_state length_]. rewrite ?Et. by split_and!. }
  all: destruct Hk as [|[Htab Hlt]]; [done|];
    rewrite (first_index_text _ _ (method_name sl0) nm) in Hlt
      by (done || (by apply (ok_method sl0 Hok); congruence) || (by apply Hwf) || by apply Em);
    rewrite (proj2 (Z.leb_gt _ _)) by done;
    eexists; (split; [reflexivity|]); unfold start_line_same;
    cbn [start_line version method_name message_type request_id status_code request_state length_];
    rewrite ?Et, ?Ev; by split_and!.
Qed.

End Sendable.

(** * Parsing: the whole header *)

Lemma texts_no_length (l l' : list apt_header_field_t) :
  map field_texts l' = map field_texts l ->
  Forall (fun f => ~ is_content_length f) l -> Forall fresh_field l' -> other_fields l'.
Proof.
  intros E Hl Hfr. unfold other_fields. rewrite Forall_forall in *. intros g Hg.
  split; [rewrite (Hfr g Hg); apply str_alloc_wf|].
  pose proof (in_map field_texts _ _ Hg) as Hin. rewrite E in Hin.
  apply in_map_iff in Hin as (g0 & [= En _] & Hg0). unfold is_content_length. rewrite <-En.
  exact (Hl g0 Hg0).
Qed.

Section HeaderComplete.
Context `{LA : AprLaws} {R : Type} {Hash : AprHash (mrcp_resource_t R)}.
Context (f : mrcp_resource_factory_t R) (m : mrcp_message_t R) (r : mrcp_resource_t R).
Context (Hm : sendable f m r).
Abbreviation cl := (generic_header_id_num GENERIC_HEADER_CONTENT_LENGTH).
Abbreviation gvt := (mrcp_generic_header_vtable_get MRCP_VERSION_2).

(** All fields of the header are parsed and the length of the body is recorded. *)
Lemma sendable_fields_parse (vt : mrcp_header_vtable_t R) (sec : apt_header_section_t) :
  resource_fields_ok vt -> NoDup (map fst (sec_ring sec)) ->
  map field_texts (sec_fields sec) = map field_texts (message_fields m) ->
  Forall fresh_field (sec_fields sec) ->
  sec_arr sec = replicate (Z.to_nat (16 + field_count vt)) None ->
  exists g' r' sec' x,
    mrcp_header_fields_parse (full_header gvt vt mrcp_generic_header_init (allocate vt) sec)
      = Some (true, full_header gvt vt g' r' sec') /\
    map field_texts (sec_fields sec') = map field_texts (message_fields m) /\
    length_is (Z.of_nat (str_len (body m))) x (arr_size sec) g' sec' /\
    (x = None <-> str_len (body m) = 0%nat) /\ cl < arr_size sec.
Proof.
  intros Hvt Hnd Ht Hfr Harr. pose proof (field_count_nonneg vt Hvt) as Hc.
  assert (Hsz : cl < arr_size sec).
  { unfold arr_size. rewrite Harr, length_replicate. change cl with 8. lia. }
  assert (H0 : length_is 0 None (arr_size sec) mrcp_generic_header_init sec).
  { split; [done|]. split; [|done]. unfold arr_at. rewrite Harr.
    destruct (replicate _ None !! Z.to_nat cl) eqn:E; [|done]. by apply lookup_replicate in E as [-> _]. }
  pose proof (send_length f m r Hm) as Hl. unfold length_announced in Hl.
  destruct (Nat.eqb_spec (str_len (body m)) 0) as [Hz|Hnz].
  - destruct (header_fields_parse_no_length MRCP_VERSION_2 vt Hvt mrcp_generic_header_init (allocate vt)
      sec 0 None Hnd) as (g' & r' & sec' & E & Et & Hlen); [by eapply texts_no_length|done|].
    exists g', r', sec', None. rewrite Hz. split_and!; try done. by rewrite Et.
  - destruct Hl as (l1 & fl & l2 & El & H1 & H2 & Hcl & Hval).
    rewrite El, map_app in Ht. apply map_eq_app in Ht as (g1 & g2 & Es & E1 & E2).
    destruct g2 as [|g g2]; [done|]. cbn [map] in E2. injection E2 as En Ev E2.
    rewrite Es in Hfr. apply Forall_app in Hfr as [Hf1 [Hg Hf2]%Forall_cons_iff].
    pose proof (dec_length (Z.of_nat (str_len (body m))) ltac:(lia)) as (Hd & _).
    destruct (header_fields_parse_length MRCP_VERSION_2 vt Hvt mrcp_generic_header_init (allocate vt)
      sec g1 g g2 (Z.of_nat (str_len (body m))) [NUL] 0 None Hnd Es)
      as (g' & r' & sec' & b & E & Et & Hlen); try done.
    + by eapply texts_no_length.
    + by eapply texts_no_length.
    + rewrite Hg. apply str_alloc_wf.
    + unfold is_content_length. by rewrite En.
    + rewrite Hg, Ev, Hval. done.
    + rewrite Hg, Ev, Hval. cbn [hf_value str_alloc str_len]. lia.
    + pose proof (send_body_size f m r Hm). lia.
    + exists g', r', sec', (Some b). split_and!; try done.
      by rewrite Et, Es, El, !map_app, E1; cbn [map]; rewrite E2; unfold field_texts at 2; rewrite En, Ev.
Qed.

Lemma header_complete_correct (m0 : mrcp_message_t R) (a : addr) ring :
  start_line_same (start_line m) (start_line m0) ->
  (message_type (start_line m) <> MRCP_MESSAGE_TYPE_RESPONSE -> str_wf (method_name (start_line m0))) ->
  sec_ring (header_section (header m0)) = (a, channel_id_field (channel_id m)) :: ring ->
  sec_arr (header_section (header m0)) = [] -> section_wf (header_section (header m0)) ->
  map (fun p : addr * apt_header_field_t => field_texts (snd p)) ring
    = map field_texts (message_fields m) ->
  Forall fresh_field (map snd ring) -> body m0 = apt_string_reset ->
  exists m', mrcp_parser_on_header_complete f m0 = Some (true, m') /\ message_same m m' /\
    length_ (start_line m') = length_ (start_line m0) /\ resource m' = Some r /\
    body m' = mk_str None (str_len (body m)).
Proof.
  intros Hsame Hwf Hr Harr W Ht Hfr Hb.
  destruct (channel_id_parse_head (header m0) (channel_id m) (channel_id m0) a ring
    (send_channel f m r Hm) Hr Harr (wf_nodup _ W)) as (cid' & Ec & Hs1 & Hs2 & Ws & Wc).
  assert (Hv : version (start_line m0) = MRCP_VERSION_2).
  { destruct Hsame as (_ & <- & _). apply (send_version f m r Hm). }
  unfold mrcp_parser_on_header_complete, parser_resource_find. rewrite decide_True, Ec by done.
  cbn [negb]. rewrite (resource_find_text f (resource_name (channel_id m)) (resource_name cid') r)
    by (done || apply (cid_resource_wf _ (send_channel f m r Hm)) || apply (send_found f m r Hm)).
  destruct (send_vtable f m r Hm) as (vt & Hvt & Hvok).
  set (m1 := m0 <| channel_id := cid' |> <| header := _ |>).
  destruct (resource_set_known m1 r vt (start_line m)) as
    (m2 & -> & Hl2 & Hn2 & Hv2 & Hc2 & Hb2 & Hr2 & Hh2); try done.
  { by apply field_count_nonneg. }
  { apply (send_line f m r Hm). }
  { apply (send_known f m r Hm). }
  cbn [negb]. rewrite Hh2. unfold m1. cbn [field_set header header_section sec_ring sec_next].
  set (sec := mk_section ring _ _).
  assert (Hnd : NoDup (map fst ring)).
  { pose proof (wf_nodup _ W) as Hnd. rewrite Hr in Hnd. by apply list.NoDup_cons in Hnd as [_ ?]. }
  destruct (sendable_fields_parse vt sec) as (g' & r' & sec' & x & -> & Et & Hlen & Hx & Hcl); try done.
  { unfold sec_fields, sec. cbn [sec_ring]. by rewrite map_map, Ht. }
  cbn [negb]. eexists. split; [reflexivity|].
  destruct Hlen as (Hg & Ha & Hs). unfold parser_body_length, mrcp_generic_header_property_check,
    apt_header_section_field_check, mrcp_generic_header_get.
  cbn [field_set header full_header header_section generic_header_accessor data].
  rewrite Hs, (proj2 (Z.ltb_lt _ _)), Ha, Hg by done.
  assert (Hb2' : body m2 = mk_str None 0) by (rewrite Hb2; unfold m1; by cbn [field_set body]).
  assert (Hid : forall m', start_line m' = start_line m2 -> channel_id m' = channel_id m2 ->
    header_section (header m') = sec' -> message_same m m').
  { intros m' E1 E2 E3. split; [by rewrite E1|by rewrite E2, Hc2|by rewrite E2, Hc2| |by rewrite E2, Hc2].
    unfold message_fields. by rewrite E3. }
  destruct x as [b|].
  - destruct (Z.eqb_spec (Z.of_nat (str_len (body m))) 0) as [Hz|Hz].
    + assert (Some b = None) by (apply Hx; lia). done.
    + split; [by apply Hid|]. split_and!; [done|done|]. cbn [field_set body]. by rewrite Hb2', Nat2Z.id.
  - split; [by apply Hid|]. split_and!; [done|done|]. cbn [field_set body].
    rewrite Hb2'. f_equal. symmetry. by apply Hx.
Qed.

End HeaderComplete.

(** * Parsing: the body and the whole message *)

(** A body that is in the stream is read in one go. *)
Lemma body_read_all (b : bytes) (m : bytes) (rd : apt_text_stream_t) (rest : bytes) :
  reader_ok rd -> window rd = b ++ rest -> (length b <= length m)%nat ->
  exists body, apt_message_body_read (length b) (mk_str (Some m) 0) rd
    = Some (true, body, set_pos (st_pos rd + length b) rd) /\
    str_text body = b /\ str_len body = length b.
Proof.
  intros Hrd Hw Hl. unfold apt_message_body_read. cbn [str_buf str_len].
  assert (Hb : (length b <= length (window rd))%nat) by (rewrite Hw, length_app; lia).
  pose proof (text_left_window rd Hrd) as Htl. destruct Hrd as [W Ad He].
  pose proof (window_length rd W) as Hwl. unfold stream_wf, addressable in *.
  rewrite Z.sub_0_r, u64_small, Nat2Z.id by lia.
  destruct (Nat.ltb_spec (text_left rd) (length b)); [lia|].
  destruct (Nat.leb_spec (0 + length b) (length m)); [|lia]. cbn [Nat.add].
  assert (Hread : mread (from_pos rd) (length b) = b).
  { rewrite from_pos_split by done. rewrite Hw. unfold mread. rewrite <-!app_assoc. apply take_app_length. }
  rewrite Hread. eexists. split; [reflexivity|]. split; [|done].
  unfold str_text, str_mem. cbn [str_buf str_len].
  pose proof (overwrite_take m b 0 ltac:(lia)) as Ho. cbn [Nat.add take app] in Ho. exact Ho.
Qed.

Lemma crlf_test_defined (skip : bool) (st : apt_text_stream_t) :
  (0 < st_pos st)%nat -> exists b, apt_crlf_segmentation_test skip st = Some b.
Proof.
  intros Hp. unfold apt_crlf_segmentation_test. destruct (_ =? _)%nat; [|by eexists].
  destruct (st_pos st); [lia|]. by eexists.
Qed.

Section ParserRun.
Context `{LA : AprLaws} {R : Type} {Hash : AprHash (mrcp_resource_t R)}.
Context (f : mrcp_resource_factory_t R) (m : mrcp_message_t R) (r : mrcp_resource_t R).
Context (Hm : sendable f m r).

(** The text of a message whose length is [n]. *)
Definition message_wire (n : Z) : bytes :=
  join (start_line_words (start_line m) n) ++ [CR; LF] ++ channel_id_line (channel_id m) ++
  fields_text (message_fields m) ++ [CR; LF] ++ str_text (body m).

(** A parser between two messages. *)
Definition parser_idle (p : mrcp_parser_t) : Prop :=
  exists res, parser_vtable (parser_base p) = mrcp_parser_vtable f res /\
    parser_stage (parser_base p) = APT_MESSAGE_STAGE_START_LINE.

Lemma wire_skips_lf (n : Z) (rd : apt_text_stream_t) (rest : bytes) :
  window rd = message_wire n ++ rest -> apt_text_char_skip LF rd = rd.
Proof.
  intros Hw. unfold apt_text_char_skip. rewrite Hw. unfold message_wire, start_line_words.
  by rewrite (send_version f m r Hm); destruct (message_type (start_line m)).
Qed.

(** The body of a message whose header is complete. *)
Lemma body_alloc_read (p : apt_message_parser_t (mrcp_message_t R)) res (m' : mrcp_message_t R)
    (rd : apt_text_stream_t) (rest : bytes) :
  parser_vtable p = mrcp_parser_vtable f res -> reader_ok rd ->
  window rd = str_text (body m) ++ rest -> body m' = mk_str None (str_len (body m)) ->
  exists b body', message_body_alloc (body m') = Some b /\
    (let m'' := m' <| body := b |> in
     parser_run_body (p <| parser_content_length := str_len (body m) |>
                        <| parser_context := Some m'' |>
                        <| parser_stage := APT_MESSAGE_STAGE_BODY |>) rd
     = Some (parser_complete (p <| parser_content_length := str_len (body m) |>
                        <| parser_context := Some (m' <| body := body' |>) |>
                        <| parser_stage := APT_MESSAGE_STAGE_BODY |>)
               (set_pos (st_pos rd + str_len (body m)) rd))) /\
    str_text body' = str_text (body m).
Proof.
  intros Hvt Hrd Hw Hb. pose proof (send_body_size f m r Hm) as Hsz.
  unfold message_body_alloc. rewrite Hb. cbn [str_len].
  rewrite u64_small, apr_palloc_length by lia.
  destruct (Nat.ltb_spec (str_len (body m)) (Z.to_nat (Z.of_nat (str_len (body m)) + 1))); [|lia].
  set (mem := overwrite _ _ _).
  pose proof (send_body f m r Hm) as Wb. unfold str_wf in Wb.
  destruct (body_read_all (str_text (body m)) mem rd rest Hrd Hw) as (body' & E & Ht & Hl).
  { unfold mem. rewrite overwrite_length; rewrite apr_palloc_length; simpl; lia. }
  exists (mk_str (Some mem) 0), body'. split; [done|]. split; [|done]. cbv zeta.
  unfold parser_run_body. cbn [field_set parser_context parser_content_length parser_vtable].
  match goal with |- context [ctx_body ?x] => change (ctx_body x) with (mk_str (Some mem) 0) end.
  rewrite Wb in E. rewrite E. cbn [negb]. rewrite Hvt. reflexivity.
Qed.

(** The text of a message after any text that has been read is parsed to the same message. *)
Lemma parser_run_message (p : mrcp_parser_t) (n : Z) (rd : apt_text_stream_t) (rest : bytes) :
  parser_idle p -> reader_ok rd -> st_eos rd = false -> 0 <= n < 2 ^ 63 ->
  window rd = message_wire n ++ rest ->
  apt_text_is_wsp (deref (str_text (body m) ++ rest)) = false ->
  exists m' p' rd',
    mrcp_parser_run p rd = Some (APT_MESSAGE_STATUS_COMPLETE, Some m', p', rd') /\
    message_same m m' /\ length_ (start_line m') = n /\ resource m' = Some r /\
    str_text (body m') = str_text (body m) /\ parser_idle p' /\
    window rd' = rest /\ reader_ok rd' /\ st_eos rd' = false.
Proof.
  intros (res & Hvt & Hst) Hrd He Hn Hw Hwsp. unfold mrcp_parser_run, apt_message_parser_run.
  replace (if skip_lf (parser_base p) then apt_text_char_skip LF rd else rd) with rd
    by (rewrite (wire_skips_lf n rd rest Hw); by destruct (skip_lf _)).
  cbn [field_set parser_stage parser_vtable]. rewrite Hst, Hvt. cbn [on_start mrcp_parser_vtable].
  unfold message_wire in Hw. rewrite <-!app_assoc in Hw.
  destruct (parser_on_start_line res (start_line m) n rd _ (send_line f m r Hm) (send_version f m r Hm)
    (send_method f m r Hm) Hn Hw) as (sl' & rd1 & -> & Hsame & Hlen & Hwf & Hw1 & He1 & Ha1).
  assert (Hp1 : (0 < st_pos rd1)%nat).
  { apply (advances_pos rd rd1 Ha1). rewrite Hw, Hw1, !length_app. simpl. lia. }
  destruct (crlf_test_defined false rd1 Hp1) as [b1 Eb1].
  cbn [field_set skip_lf]. rewrite Eb1. unfold parser_run_header. cbn [parser_context].
  destruct (message_header_parse (channel_id m) (message_fields m) rd1 (str_text (body m) ++ rest)
    (send_channel f m r Hm) (send_fields f m r Hm) ltac:(congruence) Hw1 Hwsp)
    as (a & ring & sec & rd2 & Es & Hr & Harr & W & Ht & Hfr & Hw2 & Ha2 & He2).
  match goal with |- context [ctx_header ?x] =>
    change (ctx_header x) with apt_header_section_init end.
  rewrite Es. cbn [negb field_set skip_lf parser_vtable on_header_complete mrcp_parser_vtable].
  assert (Ha : advances rd rd2) by (by etrans).
  destruct (crlf_test_defined b1 rd2) as [b2 ->].
  { apply (advances_pos rd rd2 Ha). rewrite Hw, Hw2, !length_app. simpl. lia. }
  set (m0 := set_ctx_header sec _).
  destruct (header_complete_correct f m r Hm m0 a ring) as (m' & -> & Hs' & Hl' & Hr' & Hb'); try done.
  assert (Hrd2 : reader_ok rd2) by (by eapply reader_advances).
  set (p1 := mk_parser _ _ _ _ _).
  cbn [parser_context]. change (ctx_body m') with (body m'). rewrite Hb'. cbn [str_len].
  assert (Hlen' : length_ (start_line m') = n) by (by rewrite Hl').
  destruct (Nat.eqb_spec (str_len (body m)) 0) as [Hz|Hnz].
  - assert (Hnil : str_text (body m) = []).
    { apply nil_length_inv. by rewrite (send_body f m r Hm). }
    eexists m', _, rd2. split; [reflexivity|]. rewrite Hb', Hnil, Hz. rewrite Hnil in Hw2.
    split_and!; try done. by exists res.
  - destruct (body_alloc_read p1 res m' rd2 rest) as (b & body' & Eb & Er & Ebt); try done.
    rewrite Hb' in Eb. rewrite Eb. cbv zeta in Er.
    match type of Er with ?l = _ => match goal with |- context [parser_run_body ?x ?s] =>
      change (parser_run_body x s) with l end end. rewrite Er.
    eexists _, _, _. split; [reflexivity|].
    pose proof (send_body f m r Hm) as Wb. unfold str_wf in Wb.
    split_and!; try done; [by destruct Hs'; split|by exists res| |].
    + rewrite window_advance, Hw2, <-Wb. apply drop_app_length.
    + eapply reader_advances; [exact Hrd2|]. apply advances_set_pos.
      rewrite Hw2, length_app, Wb. lia.
Qed.

End ParserRun.

(** * Generation *)

Section GeneratorRun.
Context `{LA : AprLaws} {R : Type} {Hash : AprHash (mrcp_resource_t R)}.
Context (f : mrcp_resource_factory_t R) (m m1 : mrcp_message_t R) (r : mrcp_resource_t R).
Context (Hval : mrcp_message_validate m = Some (true, m1)) (Hm : sendable f m1 r).

(** The message with the offset of its length in the start line, as the generation leaves it. *)
Definition line_started : mrcp_message_t R := m1 <| start_line := (start_line m1) <| length_ := 9 |> |>.

(** What follows the start line up to the body. *)
Definition header_wire : bytes :=
  channel_id_line (channel_id m1) ++ fields_text (message_fields m1) ++ [CR; LF].
(** The room the message needs. *)
Definition wire_room : nat :=
  (length (start_line_text (start_line m1) ++ [CR; LF] ++ header_wire) + str_len (body m1))%nat.

Lemma start_generate_writes (n : nat) :
  (length (start_line_text (start_line m1)) + 2 + length (channel_id_line (channel_id m1)) <= n)%nat ->
  writes (message_start_generate m) (true, line_started)
    ((start_line_text (start_line m1) ++ [CR; LF]) ++ channel_id_line (channel_id m1)) n.
Proof.
  intros Hn st W Ad Hr. unfold message_start_generate, bind at 1, on_message. rewrite Hval.
  cbn [negb]. revert st W Ad Hr.
  pose proof (send_line f m1 r Hm) as Hl. pose proof (send_version f m1 r Hm) as Hv.
  change (writes (let* r := mrcp_start_line_generate (start_line m1) in
    let '(ok, sl) := r in
    let m := m1 <| start_line := sl |> in
    if negb ok then ret (false, m)
    else if decide (version (start_line m) = MRCP_VERSION_2) then
      mrcp_channel_id_generate (channel_id m) ;;; ret (true, m)
    else ret (true, m)) (true, line_started)
    ((start_line_text (start_line m1) ++ [CR; LF]) ++ channel_id_line (channel_id m1)) n).
  pose proof (start_line_writes (start_line m1) n (ok_version _ Hl) (ok_type _ Hl) ltac:(lia)) as Hw.
  rewrite decide_True in Hw by done.
  eapply writes_bind; [exact Hw|rewrite length_app; simpl; lia|]. cbv beta iota zeta. cbn [negb].
  rewrite decide_True by done. eapply writes_text; [|apply app_nil_r].
  eapply writes_bind; [apply channel_id_generate_writes; [apply (send_channel f m1 r Hm)|]| |apply writes_ret];
    rewrite ?length_app; cbn [length]; lia.
Qed.

(** The header up to the empty line, with the message length still blank. *)
Lemma header_generate_emits (st : apt_text_stream_t) :
  stream_wf st -> addressable st ->
  (st_pos st + length (start_line_text (start_line m1) ++ [CR; LF] ++ header_wire) < st_end st)%nat ->
  exists st1 st2, message_start_generate m st = Some ((true, line_started), st1) /\
    apt_header_section_generate (header_section (header line_started)) st1 = Some (true, st2) /\
    emits ((start_line_text (start_line m1) ++ [CR; LF]) ++ header_wire) st st2.
Proof.
  intros W Ad Hr. unfold header_wire in *. rewrite !length_app in Hr. cbn [length] in Hr.
  destruct (start_generate_writes (length (start_line_text (start_line m1)) + 2
    + length (channel_id_line (channel_id m1))) ltac:(lia) st W Ad ltac:(lia)) as (st1 & E1 & M1).
  destruct (section_generate_writes (header_section (header line_started))
    (length (fields_text (message_fields m1)) + 2) (le_n _) st1) as (st2 & E2 & M2).
  - eauto with mrcp.
  - eauto with mrcp.
  - rewrite (emits_pos _ _ _ M1), (emits_end _ _ _ M1), !length_app. cbn [length]. lia.
  - exists st1, st2. split; [done|]. split; [done|].
    pose proof (emits_app _ _ _ _ _ M1 M2) as M. rewrite <-app_assoc in M. exact M.
Qed.

(** A generator that is not in the middle of this message. *)
Definition generator_idle (g : mrcp_generator_t) (a : addr) : Prop :=
  generator_vtable (generator_base g) = mrcp_generator_vtable /\
  (generator_message (generator_base g) <> Some a \/
   generator_stage (generator_base g) = APT_MESSAGE_STAGE_START_LINE).

(** What fits of what is left of a body. *)
Lemma body_write_piece (st : apt_text_stream_t) (b : apt_str_t) (j : nat) :
  stream_wf st -> addressable st -> str_wf b -> (st_base st <= st_pos st)%nat ->
  st_end st = (st_base st + st_text_len st)%nat -> (j < str_len b)%nat ->
  let room := (st_end st - st_pos st)%nat in
  let d := take room (drop j (str_text b)) in
  exists st', apt_message_body_write (str_len b) (mk_str (str_buf b) j) st
      = Some (((str_len b - j <=? room)%nat, mk_str (str_buf b) (j + length d)), st') /\
    emits d st st'.
Proof.
  intros W Ad Wb Hbp He Hj room d. unfold str_wf in Wb.
  unfold apt_message_body_write. cbn [str_len str_buf]. rewrite (proj2 (Nat.ltb_lt _ _) Hj).
  assert (Htl : text_left st = room).
  { unfold text_left, room, stream_wf, addressable in *. rewrite <-He, u64_small by lia. lia. }
  unfold bind at 1, gets at 1. rewrite Htl.
  set (q := Nat.min room (str_len b - j)).
  assert (Hd : d = mread (drop j (str_mem b)) q).
  { unfold d, mread, str_text, q in *. rewrite length_take in Wb.
    rewrite take_app_le by (rewrite length_drop; lia).
    replace (str_len b) with (j + (str_len b - j))%nat at 1 by lia.
    by rewrite <-take_drop_commute, take_take. }
  assert (Hq : length d = q) by (rewrite Hd; apply mread_length).
  destruct (put_emits d st W) as (st' & E & M).
  { unfold room, q in *. unfold stream_wf in W. lia. }
  exists st'. split; [|done]. rewrite Hq. change (str_mem (mk_str (str_buf b) j)) with (str_mem b).
  unfold bind. destruct (Nat.ltb_spec room (str_len b - j)) as [Hlt|Hge].
  - assert (Eq : q = room) by (unfold q; lia). rewrite Eq in Hd. rewrite <-Hd, E, Eq.
    rewrite (proj2 (Nat.leb_gt _ _)) by lia. done.
  - assert (Eq : q = (str_len b - j)%nat) by (unfold q; lia). rewrite Eq in Hd. rewrite <-Hd, E, Eq.
    rewrite (proj2 (Nat.leb_le _ _)) by lia. done.
Qed.

Lemma emits_message_text (st st' : apt_text_stream_t) (d : bytes) :
  emits d st st' -> stream_wf st -> (st_base st <= st_pos st)%nat ->
  message_text st' = message_text st ++ d.
Proof.
  intros ((_ & B & _) & P & T) W Hb. unfold message_text. rewrite T, B.
  rewrite drop_app_le; [done|]. rewrite length_take. unfold stream_wf in W. lia.
Qed.

(** A generator that starts a message runs up to the body when there is room for the header. *)
Lemma generator_run_header (g : mrcp_generator_t) (a : addr) (st : apt_text_stream_t) :
  generator_idle g a -> stream_wf st -> addressable st -> st_base st = st_pos st ->
  st_end st = (st_base st + st_text_len st)%nat ->
  (st_pos st + wire_room < st_end st + str_len (body m1))%nat -> Z.of_nat wire_room < 999999 ->
  exists n g' m2 st',
    (mrcp_generator_run g a m st =
     if (str_len (body m1) =? 0)%nat then Some ((APT_MESSAGE_STATUS_COMPLETE, g', m2), st')
     else (let* r := generator_run_body ((generator_base g') <| generator_stage := APT_MESSAGE_STAGE_BODY |>)
                       (m2 <| body := mk_str (str_buf (body m1)) 0 |>) in
           let '(status, base, m) := r in
           ret (status, mk_mrcp_generator base (generator_factory g'), m)) st') /\
    0 <= n < 2 ^ 63 /\ message_text st' ++ str_text (body m1) = message_wire m1 n /\
    n = Z.of_nat (length (message_text st') + str_len (body m1)) /\
    generator_vtable (generator_base g') = mrcp_generator_vtable /\
    generator_message (generator_base g') = Some a /\
    generator_content_length (generator_base g') = str_len (body m1) /\
    generator_stage (generator_base g') = APT_MESSAGE_STAGE_START_LINE /\
    stream_wf st' /\ addressable st' /\ (st_base st' <= st_pos st')%nat /\
    st_end st' = (st_base st' + st_text_len st')%nat /\
    st_end st' = st_end st /\
    length (st_mem st') = length (st_mem st) /\
    (st_pos st' + str_len (body m1) <= st_pos st + wire_room)%nat.
Proof.
  intros [Hvt Hidle] W Ad Hb He Hroom Hlim. unfold wire_room in *.
  destruct (header_generate_emits st W Ad ltac:(lia)) as (st1 & st2 & E1 & E2 & M).
  pose proof (send_line f m1 r Hm) as Hl. pose proof (send_version f m1 r Hm) as Hv.
  destruct (v2_finalize_generated (start_line m1) st st2 header_wire (Z.of_nat (str_len (body m1))))
    as (n & st3 & Hn & E3 & T3 & N3 & P3 & En3 & Bs3 & L3 & B3); try done; [lia|lia|].
  set (sl' := (start_line m1) <| length_ := n |>).
  set (m2 := m1 <| start_line := sl' |>).
  assert (Hrun : forall gb, generator_vtable gb = mrcp_generator_vtable ->
    generator_run_start gb m st =
    let g' := gb <| generator_stage := APT_MESSAGE_STAGE_START_LINE |>
                 <| generator_content_length := str_len (body m1) |> in
    if (str_len (body m1) =? 0)%nat then Some ((APT_MESSAGE_STATUS_COMPLETE, g', m2), st3)
    else generator_run_body (g' <| generator_stage := APT_MESSAGE_STAGE_BODY |>)
           (m2 <| body := mk_str (str_buf (body m1)) 0 |>) st3).
  { intros gb Hgb. unfold generator_run_start. rewrite Hgb. cbn [gen_on_start gen_on_header_complete mrcp_generator_vtable].
    unfold mrcp_generator_on_start, bind at 1. rewrite E1. cbn [negb].
    unfold bind at 1. change (ctx_header line_started) with (header_section (header line_started)).
    rewrite E2. cbn [negb]. unfold mrcp_generator_on_header_complete, bind at 1.
    change (start_line line_started) with ((start_line m1) <| length_ := 9 |>).
    change (body line_started) with (body m1). unfold bind at 1. rewrite E3.
    unfold ret. cbv beta iota zeta. cbn [snd].
    repeat match goal with |- context [ctx_body ?x] => change (ctx_body x) with (body m1) end.
    by destruct (str_len (body m1) =? 0)%nat. }
  assert (Htxt : message_text st3 ++ str_text (body m1) = message_wire m1 n).
  { rewrite T3. unfold message_wire. rewrite <-(start_line_text_v2 _ n Hl Hv).
    unfold header_wire. by rewrite <-!app_assoc. }
  assert (Hwire : length (message_wire m1 n) = (length (message_text st3) + str_len (body m1))%nat).
  { by rewrite <-Htxt, length_app, (send_body f m1 r Hm : length _ = _). }
  set (gb := if decide (generator_message (generator_base g) = Some a) then generator_base g
             else (generator_base g) <| generator_stage := APT_MESSAGE_STAGE_START_LINE |>
                    <| generator_message := Some a |>).
  assert (Hgb : generator_vtable gb = mrcp_generator_vtable /\
                generator_stage gb = APT_MESSAGE_STAGE_START_LINE /\ generator_message gb = Some a).
  { unfold gb. case_decide; [|done]. by destruct Hidle. }
  destruct Hgb as (Hgv & Hgs & Hgm).
  assert (Hmem : length (st_mem st3) = length (st_mem st)).
  { rewrite L3. by destruct M as ((_ & _ & _ & _ & _ & Mm & _) & _). }
  exists n, (mk_mrcp_generator (gb <| generator_stage := APT_MESSAGE_STAGE_START_LINE |>
    <| generator_content_length := str_len (body m1) |>) (generator_factory g)), m2, st3.
  split.
  { unfold mrcp_generator_run, apt_message_generator_run. cbv zeta. fold gb. rewrite Hgs.
    unfold bind at 1. rewrite (Hrun gb Hgv). cbv zeta. clear Hrun.
    by destruct (Nat.eqb_spec (str_len (body m1)) 0). }
  assert (Hpos : (st_pos st2 = st_pos st
      + length (start_line_text (start_line m1) ++ [CR; LF] ++ header_wire))%nat).
  { destruct M as [_ [Mp _]]. rewrite Mp, !length_app. lia. }
  destruct M as ((Mw & Mb & Ml & Me & _ & Mm & _) & Mp & _).
  assert (He3 : st_end st3 = (st_base st3 + st_text_len st3)%nat).
  { rewrite B3; [by rewrite En3, Me, Mb, Ml|]. rewrite Ml. unfold stream_wf, addressable in *.
    rewrite !length_app in Hroom. unfold start_line_text in Hroom. rewrite Hv in Hroom.
    rewrite !length_app, length_replicate in Hroom. unfold MAX_DIGIT_COUNT in *. lia. }
  split_and!; try done; try lia.
  all: try (unfold stream_wf, addressable in *; rewrite ?P3, ?En3, ?L3; lia).
assert (Hne : (0 < length (message_text st3))%nat) by (rewrite T3, length_app; simpl; lia).
  unfold message_text in Hne. rewrite length_drop, length_take in Hne. lia.
Qed.

(** A validated message is generated in one go when there is room for it. *)
Lemma generator_run_message (g : mrcp_generator_t) (a : addr) (st : apt_text_stream_t) :
  generator_idle g a -> stream_wf st -> addressable st -> st_base st = st_pos st ->
  st_end st = (st_base st + st_text_len st)%nat -> (st_pos st + wire_room < st_end st)%nat ->
  Z.of_nat wire_room < 999999 ->
  exists n g' m2 st', mrcp_generator_run g a m st
      = Some ((APT_MESSAGE_STATUS_COMPLETE, g', m2), st') /\
    0 <= n < 2 ^ 63 /\ message_text st' = message_wire m1 n /\
    n = Z.of_nat (length (message_text st')) /\ generator_idle g' a.
Proof.
  intros Hidle W Ad Hb He Hroom Hlim.
  destruct (generator_run_header g a st Hidle W Ad Hb He ltac:(lia) Hlim)
    as (n & g' & m2 & st3 & E & Hn & Htxt & Hlen & Hgv & Hgm & Hgc & Hgs & W3 & Ad3 & Hbp & He3 & Een & Hml & Hfit).
  rewrite E. pose proof (send_body f m1 r Hm) as Wb.
  destruct (Nat.eqb_spec (str_len (body m1)) 0) as [Hz|Hz].
  - assert (Hnil : str_text (body m1) = []) by (apply nil_length_inv; by rewrite (Wb : length _ = _)).
    rewrite Hnil, app_nil_r in Htxt. exists n, g', m2, st3.
    split_and!; [done|lia|lia|done|lia|split; [done|by right]].
  - destruct (body_write_piece st3 (body m1) 0 W3 Ad3 Wb Hbp He3 ltac:(lia)) as (st4 & E4 & M4).
    rewrite drop_0 in E4, M4. rewrite (take_ge (str_text _)) in E4, M4 by (rewrite (Wb : length _ = _); lia).
    unfold generator_run_body. cbn [field_set generator_content_length]. rewrite Hgc.
    match goal with |- context [ctx_body ?x] => change (ctx_body x)
      with (mk_str (str_buf (body m1)) 0) end.
    unfold bind. rewrite E4, (proj2 (Nat.leb_le _ _)) by lia. cbn [negb].
    pose proof (emits_message_text _ _ _ M4 W3 Hbp) as Ht4.
    eexists n, _, _, st4. split; [reflexivity|]. rewrite Ht4, Htxt.
    assert (Hw : length (message_wire m1 n) = (length (message_text st3) + str_len (body m1))%nat).
    { by rewrite <-Htxt, length_app, (Wb : length _ = _). }
    split_and!; [lia|lia|done|lia|split; [done|by right]].
Qed.

End GeneratorRun.

(** * The round trip *)

(** C1: a message of MRCPv2 is generated in one go into a stream with room for it: its text has the
    length its start line tells, and a parser between two messages that is given this text,
    followed by anything that does not look like a continuation of the header, completes
    with a message of the same start line, channel identifier, header fields and body, bound to
    the resource its channel identifier names, and leaves the rest of the stream unread; both
    are then ready for the next message. *)
Theorem mrcp_message_roundtrip `{LA : AprLaws} {R : Type} {Hash : AprHash (mrcp_resource_t R)}
    (f : mrcp_resource_factory_t R) (m m1 : mrcp_message_t R) (r : mrcp_resource_t R)
    (g : mrcp_generator_t) (a : addr) (st : apt_text_stream_t) :
  mrcp_message_validate m = Some (true, m1) -> sendable f m1 r -> generator_idle g a ->
  stream_wf st -> addressable st -> st_base st = st_pos st ->
  st_end st = (st_base st + st_text_len st)%nat ->
  (st_pos st + wire_room m1 < st_end st)%nat -> Z.of_nat (wire_room m1) < 999999 ->
  exists g' m2 st', mrcp_generator_run g a m st
      = Some ((APT_MESSAGE_STATUS_COMPLETE, g', m2), st') /\ generator_idle g' a /\
    forall p rd rest, parser_idle f p -> reader_ok rd -> st_eos rd = false ->
    window rd = message_text st' ++ rest ->
    apt_text_is_wsp (deref (str_text (body m1) ++ rest)) = false ->
    exists m' p' rd', mrcp_parser_run p rd
        = Some (APT_MESSAGE_STATUS_COMPLETE, Some m', p', rd') /\
      message_same m1 m' /\ str_text (body m') = str_text (body m1) /\ resource m' = Some r /\
      length_ (start_line m') = Z.of_nat (length (message_text st')) /\
      parser_idle f p' /\ reader_ok rd' /\ st_eos rd' = false /\ window rd' = rest.
Proof.
  intros Hval Hm Hg W Ad Hb He Hroom Hlim.
  destruct (generator_run_message f m m1 r Hval Hm g a st) as (n & g' & m2 & st' & E & Hn & Ht & Hl & Hi);
    [done..|].
  exists g', m2, st'. split; [done|]. split; [done|]. intros p rd rest Hp Hrd Heos Hw Hwsp.
  rewrite Ht in Hw. destruct (parser_run_message f m1 r Hm p n rd rest Hp Hrd Heos Hn Hw Hwsp)
    as (m' & p' & rd' & Ep & Hs & Hlen & Hr & Hbt & Hp' & Hw' & Hrd' & Heos').
  exists m', p', rd'. rewrite <-Hl. auto 15.
Qed.

(** ** A request with a body *)

#[local] Existing Instance apr_reference.
#[local] Existing Instance apr_hash_reference.

Definition sample_factory : mrcp_resource_factory_t unit :=
  registered (mk_factory (replicate 2 None) apr_hash_make) sample_resource.

Definition sample_sent : mrcp_message_t unit :=
  (mrcp_request_create (Some sample_resource) MRCP_VERSION_2 0)
    <| channel_id := mk_channel_id (str_lit "32AECB23") (str_lit "sample") |>
    <| body := str_lit "hello" |>.

Definition sample_validated : mrcp_message_t unit :=
  match mrcp_message_validate sample_sent with Some (_, m) => m | None => sample_sent end.

Lemma sample_validated_eq : mrcp_message_validate sample_sent = Some (true, sample_validated).
Proof. reflexivity. Qed.

Lemma sample_sendable : sendable sample_factory sample_validated sample_resource.
Proof.
  assert (Ef : message_fields sample_validated =
    [mk_field (str_lit "Content-Length") (mk_str (Some (dec 5)) 1) 8]) by reflexivity.
  split.
  - split; try done. intros _. unfold method_ok, token. split_and!; try done. decide_now.
  - done.
  - intros _. split; decide_now.
  - right. done.
  - split; [done|done|decide_now|unfold nul_free; decide_now|].
    split; [split; decide_now|]. intros c r [= <- _]. done.
  - rewrite Ef. apply Forall_cons; [|apply Forall_nil]. unfold field_ok, header_name_ok, header_value_ok, no_eol.
    split_and!; try done; try decide_now. intros c r [= <- _]. done.
  - unfold length_announced. rewrite Ef. exists [], (mk_field (str_lit "Content-Length") (mk_str (Some (dec 5)) 1) 8), [].
    done.
  - done.
  - done.
  - done.
  - eexists. split; [reflexivity|]. split; [done|apply Forall_nil].
Qed.

Definition sample_wire_stream : apt_text_stream_t := apt_text_stream_init (replicate 256 NUL) 256.

Lemma mrcp_message_roundtrip_witness :
  exists g' m2 st', mrcp_generator_run (mrcp_generator_create sample_factory) 0%nat sample_sent
      sample_wire_stream = Some ((APT_MESSAGE_STATUS_COMPLETE, g', m2), st') /\
    forall rd, reader_ok rd -> st_eos rd = false -> window rd = message_text st' ++ [] ->
    exists m' p' rd', mrcp_parser_run (mrcp_parser_create sample_factory) rd
        = Some (APT_MESSAGE_STATUS_COMPLETE, Some m', p', rd') /\ str_text (body m') = lit "hello".
Proof.
  destruct (@mrcp_message_roundtrip apr_reference apr_reference_laws unit (apr_hash_reference _)
    sample_factory sample_sent sample_validated sample_resource
    (mrcp_generator_create sample_factory) 0%nat sample_wire_stream)
    as (g' & m2 & st' & E & _ & H).
  - exact sample_validated_eq.
  - exact sample_sendable.
  - split; [reflexivity|]. left. discriminate.
  - unfold stream_wf. vm_compute. lia.
  - unfold addressable. vm_compute. reflexivity.
  - reflexivity.
  - reflexivity.
  - vm_compute. lia.
  - vm_compute. reflexivity.
  - exists g', m2, st'. split; [exact E|]. intros rd Hrd He Hw.
    destruct (H (mrcp_parser_create sample_factory) rd []) as (m' & p' & rd' & E' & _ & Hb & _).
    + exists None. split; reflexivity.
    + exact Hrd.
    + exact He.
    + exact Hw.
    + reflexivity.
    + exists m', p', rd'. split; [exact E'|exact Hb].
Defined.
