(* ===== verification/ParserProgress.v ===== *)
(** The parser of messages consumes what it is given ([MessageParser] and [MrcpStream]): each run
    meets the end of the stream or leaves less of it to read, so that the loop of a receiver
    comes to its end; a message is handed out only when it is complete. *)

From S2P Require Import Prelude AprHash AptString TextStream TextValues HeaderField TextMessage StartLine MrcpHeader GenericHeader Message MessageParser ResourceFactory MrcpStream FieldsParse StreamRoundtrip.

(** * Readers consume what they read *)

(** [st'] is where a reader that makes progress may be after [st]: it has met the end of the stream
    or there is less to read. *)
Definition progress (st st' : apt_text_stream_t) : Prop :=
  advances st st' /\ (apt_text_is_eos st' = true \/ (length (window st') < length (window st))%nat).

Lemma advances_window (st st' : apt_text_stream_t) :
  advances st st' -> (length (window st') <= length (window st))%nat.
Proof.
  intros (M & _ & _ & E & P & _). unfold window, from_pos. rewrite !length_take, !length_drop, M, E. lia.
Qed.

Lemma progress_advances (s1 s2 s3 : apt_text_stream_t) :
  progress s1 s2 -> apt_text_is_eos s2 = false -> advances s2 s3 -> progress s1 s3.
Proof.
  intros [A1 [H|H]] He A2; [congruence|]. split; [by etrans|]. right. apply advances_window in A2. lia.
Qed.

Lemma advances_progress (s1 s2 s3 : apt_text_stream_t) :
  advances s1 s2 -> progress s2 s3 -> progress s1 s3.
Proof. intros A1 [A2 H]. split; [by etrans|]. apply advances_window in A1. destruct H; [by left|right; lia]. Qed.

Lemma set_pos_shorter (st : apt_text_stream_t) (n : nat) :
  (0 < n <= length (window st))%nat ->
  (length (window (set_pos (st_pos st + n) st)) < length (window st))%nat.
Proof. intros Hn. rewrite window_advance, length_drop. lia. Qed.

Lemma set_pos_progress (st : apt_text_stream_t) (n : nat) :
  (0 < n <= length (window st))%nat -> progress st (set_pos (st_pos st + n) st).
Proof.
  intros Hn. split; [apply advances_set_pos; lia|]. right. by apply set_pos_shorter.
Qed.

Lemma line_read_progress (st : apt_text_stream_t) : progress st (snd (apt_text_line_read st)).
Proof.
  unfold apt_text_line_read. pose proof (line_scan_spec (window st) 0) as H.
  destruct (line_scan _ _) as [[n k]|].
  - destruct H as (l & eol & rest & Hw & _ & Hm & -> & ->). apply set_pos_progress.
    apply eol_marker_not_nil in Hm. rewrite Hw, !length_app. lia.
  - split; [by split_and!|]. left. unfold apt_text_is_eos. cbn. apply orb_true_r.
Qed.

Lemma header_scan_pos (w : bytes) (p : nat) nb (nl : nat) vb nb' nl' vb' vl (k : nat) :
  header_scan w p nb nl vb = (nb', nl', vb', vl, Some k) -> (p < k)%nat.
Proof.
  revert p nb nl vb. induction w as [|c w IH]; intros p nb nl vb; [done|]. cbn [header_scan].
  destruct (char_eqb c CR).
  { destruct w as [|c' w']; [intros [= _ _ _ _ <-]; lia|].
    destruct (char_eqb c' LF); intros [= _ _ _ _ <-]; lia. }
  destruct (char_eqb c LF); [intros [= _ _ _ _ <-]; lia|].
  destruct (nl =? 0)%nat; intros H%IH; lia.
Qed.

Lemma field_parse_progress (st : apt_text_stream_t) : progress st (snd (apt_header_field_parse st)).
Proof.
  unfold apt_header_field_parse, apt_text_header_read.
  destruct (header_scan _ _ _ _ _) as [[[[nb nl] vb] vl] [k|]] eqn:E.
  - assert (Hk : (0 < k <= length (window st))%nat).
    { pose proof (header_scan_pos _ _ _ _ _ _ _ _ _ _ E). apply header_scan_length in E. lia. }
    pose proof (set_pos_progress st k Hk) as Hp. pose proof (set_pos_shorter st k Hk) as Hl.
    set (st1 := set_pos _ st) in *. destruct (negb _); cbn [negb snd]; [exact Hp|].
    pose proof (folded_lines_advances (length (window st1)) st1) as Hf.
    destruct (folded_lines _ st1) as [ls st2]. cbn [snd] in *.
    split; [transitivity st1; [exact (proj1 Hp)|exact Hf]|]. right. apply advances_window in Hf. lia.
  - cbn [negb snd]. split; [by split_and!|]. left. unfold apt_text_is_eos. cbn. apply orb_true_r.
Qed.

Lemma section_loop_progress (fuel : nat) (h : apt_header_section_t) (st : apt_text_stream_t) :
  progress st (snd (section_parse_loop (S fuel) h st)).
Proof.
  cbn [section_parse_loop]. pose proof (field_parse_progress st) as Hp.
  destruct (apt_header_field_parse st) as [[f|] st1]; cbn [snd] in Hp.
  - destruct (apt_string_is_empty _); [done|]. destruct (apt_text_is_eos st1) eqn:He; [done|].
    eapply progress_advances; [done..|apply section_loop_advances].
  - destruct (apt_text_is_eos st1) eqn:He; [done|].
    eapply progress_advances; [done..|apply section_loop_advances].
Qed.

Lemma char_skip_advances (ch : char) (st : apt_text_stream_t) : advances st (apt_text_char_skip ch st).
Proof.
  unfold apt_text_char_skip. destruct (window st) as [|c w] eqn:Ew; [done|].
  destruct (char_eqb c ch); [|done]. apply advances_set_pos. rewrite Ew. simpl. lia.
Qed.

Lemma eos_of_window (st : apt_text_stream_t) :
  stream_wf st -> window st = [] -> apt_text_is_eos st = true.
Proof.
  intros W Hw. unfold apt_text_is_eos. apply orb_true_iff. left. apply Nat.leb_le.
  assert (Hl : length (window st) = 0%nat) by by rewrite Hw.
  rewrite window_length in Hl by done. unfold stream_wf in W. lia.
Qed.

(** * A staged parser consumes what it is given

    This holds for every context of messages and every method table whose [on_start] consumes. *)

Section StagedProgress.
Context `{LA : AprLaws} {M : Type} {C : MessageContext M} {CL : MessageContextLaws C} (vt : apt_message_parser_vtable_t M).
Context (start_progress : forall st r st', on_start vt st = Some (r, st') -> progress st st').
Abbreviation parser := (apt_message_parser_t M).

(** A parser in the middle of a body still lacks some of it, and has room for it. *)
Record staged_fit (p : parser) : Prop := {
  pf_vtable : parser_vtable p = vt;
  pf_body : parser_stage p = APT_MESSAGE_STAGE_BODY ->
    exists m mem, parser_context p = Some m /\ str_buf (ctx_body m) = Some mem /\
      (str_len (ctx_body m) < parser_content_length p)%nat /\ Z.of_nat (parser_content_length p) < 2 ^ 64
}.

Lemma body_run_progress (p : parser) (m : M) mem st r :
  parser_vtable p = vt -> parser_context p = Some m ->
  str_buf (ctx_body m) = Some mem -> (str_len (ctx_body m) < parser_content_length p)%nat ->
  Z.of_nat (parser_content_length p) < 2 ^ 64 -> reader_ok st ->
  parser_run_body p st = Some r ->
  exists status m' p' q, r = (status, m', p', set_pos (st_pos st + q) st) /\
    (q <= length (window st))%nat /\ (window st <> [] -> (0 < q)%nat) /\
    (parser_stage p = APT_MESSAGE_STAGE_BODY -> staged_fit p').
Proof.
  intros Hv Hc Hm Hl Hlim Hrd. unfold parser_run_body. rewrite Hc.
  unfold apt_message_body_read. rewrite Hm, (text_left_window st Hrd).
  rewrite u64_small by lia.
  set (req := Z.to_nat _). assert (Hreq : req = (parser_content_length p - str_len (ctx_body m))%nat) by (unfold req; lia).
  clearbody req. subst req. set (q := (parser_content_length p - str_len (ctx_body m))%nat) in *.
  destruct (Nat.ltb_spec (length (window st)) q) as [Hlt|Hge].
  - destruct (_ <=? _)%nat; [|done]. cbn [negb]. intros [= <-].
    eexists _, _, _, _. split; [reflexivity|]. split; [lia|]. split.
    + intros Hw. destruct (window st); [done|simpl; lia].
    + intros _. split; [done|]. intros _. cbn [field_set parser_context parser_content_length].
      eexists _, _. split; [done|]. rewrite body_set_body. cbn [str_buf str_len].
      split; [done|]. split; [|done]. unfold q in Hlt. lia.
  - destruct (_ <=? _)%nat; [|done]. cbn [negb]. rewrite Hv.
    destruct (match on_body_complete vt with None => _ | Some f => _ end) as [m1|]; [|done].
    intros [= <-]. unfold parser_complete. eexists _, _, _, _. split; [reflexivity|].
    split; [lia|]. split; [intros _; unfold q in *; lia|]. intros _. by split.
Qed.

Lemma eos_set_pos st (q : nat) :
  apt_text_is_eos st = true -> apt_text_is_eos (set_pos (st_pos st + q) st) = true.
Proof.
  unfold apt_text_is_eos. cbn. intros [H|H]%orb_true_iff; apply orb_true_iff; [left|by right].
  apply Nat.leb_le in H. apply Nat.leb_le. lia.
Qed.

Lemma progress_set_pos s1 s2 (q : nat) :
  progress s1 s2 -> (q <= length (window s2))%nat -> progress s1 (set_pos (st_pos s2 + q) s2).
Proof.
  intros Hp Hq. pose proof (advances_set_pos q s2 Hq) as Ha. split; [etrans; [apply Hp|done]|].
  destruct Hp as [_ [H|H]]; [left; by apply eos_set_pos|right]. apply advances_window in Ha. lia.
Qed.

Lemma body_alloc_facts (b b' : apt_str_t) :
  message_body_alloc b = Some b' ->
  exists mem, b' = mk_str (Some mem) 0 /\ Z.of_nat (str_len b) < 2 ^ 64.
Proof.
  unfold message_body_alloc. rewrite apr_palloc_length.
  destruct (Nat.ltb_spec (str_len b) (Z.to_nat (u64 (Z.of_nat (str_len b) + 1)))) as [Hl|]; [|done].
  intros [= <-]. eexists. split; [done|]. pose proof (Z.mod_pos_bound (Z.of_nat (str_len b) + 1) (2 ^ 64) ltac:(lia)). unfold u64 in Hl. lia.
Qed.

Lemma header_run_progress (p : parser) st r :
  parser_vtable p = vt -> parser_stage p = APT_MESSAGE_STAGE_HEADER ->
  reader_ok st -> parser_run_header p st = Some r ->
  exists status m' p' st', r = (status, m', p', st') /\ progress st st' /\ staged_fit p'.
Proof.
  intros Hv Hs Hrd. unfold parser_run_header. destruct (parser_context p) as [m|]; [|done].
  unfold apt_header_section_parse.
  pose proof (section_loop_progress (length (window st)) (ctx_header m) st) as Hp.
  destruct (section_parse_loop _ _ st) as [[ok h] st1]. cbn [snd] in Hp.
  destruct (apt_crlf_segmentation_test _ _) as [skip|]; [|done]. cbv zeta.
  destruct ok; cbn [negb].
  2: { intros [= <-]. eexists _, _, _, _. split; [reflexivity|]. split; [done|].
       split; [done|]. cbn. congruence. }
  cbn [field_set parser_vtable]. destruct (match on_header_complete _ with None => _ | Some f => _ end) as [[[] m1]|]; [| |done]; cbn [negb].
  2: { intros [= <-]. eexists _, _, _, _. split; [reflexivity|]. split; [done|].
       split; [done|]. cbn. congruence. }
  destruct (Nat.eqb_spec (str_len (ctx_body m1)) 0) as [Hz|Hz].
  { intros [= <-]. eexists _, _, _, _. split; [reflexivity|]. split; [done|]. by split. }
  destruct (message_body_alloc (ctx_body m1)) as [b|] eqn:Eb; [|done].
  apply body_alloc_facts in Eb as (mem & -> & Hlim). intros Hr.
  eapply body_run_progress with (mem := mem) in Hr; try done; [| | |].
  - destruct Hr as (status & m' & p' & q & -> & Hq & _ & Hf). eexists _, _, _, _. split; [reflexivity|].
    split; [by apply progress_set_pos|by apply Hf].
  - by rewrite body_set_body.
  - rewrite body_set_body. cbn. lia.
  - eapply reader_advances; [done|apply Hp].
Qed.

(** Every run of a parser that is given something to read meets the end of the stream or leaves
    less of it to read. *)
Lemma staged_run_progress p st status m p' st' :
  staged_fit p -> reader_ok st -> window st <> [] ->
  apt_message_parser_run p st = Some (status, m, p', st') -> progress st st' /\ staged_fit p'.
Proof.
  intros [Hv Hb] Hrd Hw. unfold apt_message_parser_run. cbv zeta.
  set (st0 := if skip_lf p then apt_text_char_skip LF st else st).
  assert (H0 : advances st st0) by (unfold st0; destruct (skip_lf _); [apply char_skip_advances|done]).
  assert (Hskip : st0 = st \/ (length (window st0) < length (window st))%nat).
  { unfold st0. destruct (skip_lf _); [|by left]. unfold apt_text_char_skip.
    destruct (window st) as [|c w] eqn:Ew; [done|]. destruct (char_eqb c LF); [right|by left].
    rewrite <-Ew. apply set_pos_shorter. rewrite Ew. simpl. lia. }
  assert (Hrd0 : reader_ok st0) by by eapply reader_advances.
  clearbody st0. cbn [field_set parser_stage parser_vtable]. destruct (parser_stage p) eqn:Es.
  - rewrite Hv. destruct (on_start vt st0) as [[r st1]|] eqn:E1; [|done]. apply start_progress in E1.
    destruct r as [m0|].
    + destruct (apt_crlf_segmentation_test _ st1) as [skip|]; [|done].
      intros Er. assert (Hrd1 : reader_ok st1) by (eapply reader_advances; [done|apply E1]).
      eapply header_run_progress in Er; [|done..].
      destruct Er as (status' & m' & p1 & st2 & [= -> -> -> ->] & Hp & Hf).
      split; [|done]. eapply advances_progress; [|done]. etrans; [done|apply E1].
    + intros [= _ _ <- <-]. split; [by eapply advances_progress|]. split; [done|]. cbn. congruence.
  - intros Er. eapply header_run_progress in Er; [|done..].
    destruct Er as (status' & m' & p1 & st2 & [= -> -> -> ->] & Hp & Hf).
    split; [by eapply advances_progress|done].
  - destruct (Hb eq_refl) as (m0 & mem & Hc & Hm & Hl & Hlim). intros Er.
    eapply body_run_progress with (mem := mem) (m := m0) in Er; [|done..].
    destruct Er as (status' & m' & p1 & q & [= -> -> -> ->] & Hq & Hqp & Hf).
    split; [|by apply Hf]. pose proof (advances_set_pos q st0 Hq) as Ha. split; [by etrans|].
    apply advances_window in Ha as Hle. destruct Hskip as [->|Hs]; [|right; lia].
    right. apply set_pos_shorter. specialize (Hqp Hw). lia.
Qed.

(** A message comes only with a complete status. *)
Lemma staged_run_status p p' st st' status (m : option M) :
  apt_message_parser_run p st = Some (status, m, p', st') -> status = APT_MESSAGE_STATUS_COMPLETE \/ m = None.
Proof.
  assert (Hb : forall p st r, parser_run_body (M := M) p st = Some r ->
    fst (fst (fst r)) = APT_MESSAGE_STATUS_COMPLETE \/ snd (fst (fst r)) = None).
  { intros q s r. unfold parser_run_body, parser_complete.
    repeat case_match; intros; simplify_eq; auto. }
  assert (Hh : forall p st r, parser_run_header (M := M) p st = Some r ->
    fst (fst (fst r)) = APT_MESSAGE_STATUS_COMPLETE \/ snd (fst (fst r)) = None).
  { intros q s r. unfold parser_run_header. unfold parser_complete at 1.
    repeat case_match; intros; simplify_eq; auto; by eapply Hb. }
  unfold apt_message_parser_run. intros E.
  destruct (parser_stage p) eqn:Es; cbn [field_set parser_stage] in E; rewrite Es in E.
  - destruct (on_start _ _) as [[[m0|] st1]|]; [| |done].
    + destruct (apt_crlf_segmentation_test _ _); [|done]. by apply Hh in E.
    + injection E as _ <- _ _. by right.
  - by apply Hh in E.
  - by apply Hb in E.
Qed.
End StagedProgress.

(** * The parser of MRCP messages *)

Section ParserProgress.
Context `{LA : AprLaws} {R : Type} {Hash : AprHash (mrcp_resource_t R)}.
Context (f : mrcp_resource_factory_t R).

Definition parser_fit (p : apt_message_parser_t (mrcp_message_t R)) : Prop := exists res, staged_fit (mrcp_parser_vtable f res) p.

Lemma on_start_progress (res : option (mrcp_resource_t R)) st r st' :
  on_start (mrcp_parser_vtable f res) st = Some (r, st') -> progress st st'.
Proof.
  cbn [mrcp_parser_vtable on_start]. unfold mrcp_parser_on_start. pose proof (line_read_progress st) as Hp.
  destruct (apt_text_line_read st) as [[ok line] st1]. cbn [snd] in Hp.
  destruct ok; cbn [negb]; [|by intros [= _ <-]].
  destruct (mrcp_start_line_parse _ _) as [ok sl]. destruct ok; cbn [negb]; [|by intros [= _ <-]].
  case_decide; [|by intros [= _ <-]]. destruct res; [|by intros [= _ <-]].
  destruct (mrcp_message_resource_set _ _) as [ok1 m1]. by intros [= _ <-].
Qed.

Lemma parser_run_progress p st status m p' st' :
  parser_fit (parser_base p) -> reader_ok st -> window st <> [] ->
  mrcp_parser_run p st = Some (status, m, p', st') ->
  progress st st' /\ parser_fit (parser_base p').
Proof.
  intros [res Hf] Hrd Hw. unfold mrcp_parser_run.
  destruct (apt_message_parser_run _ st) as [[[[status1 m1] p1] st1]|] eqn:E; [|done]. intros [= <- <- <- <-].
  destruct (staged_run_progress _ (on_start_progress res) _ _ _ _ _ _ Hf Hrd Hw E) as [Hp Hf']. split; [done|by exists res].
Qed.

(** A parser between two messages. *)
Lemma idle_fit (p : mrcp_parser_t) : parser_idle f p -> parser_fit (parser_base p).
Proof. intros (res & Hv & Hs). exists res. split; [done|]. congruence. Qed.

End ParserProgress.

(** A message comes only with a complete status: the handler of the server, which answers a message
    that was not parsed, never gets to see one. *)
Lemma parser_run_status `{A : Apr} {R : Type} {Hash : AprHash (mrcp_resource_t R)}
    (p p' : mrcp_parser_t) (st st' : apt_text_stream_t) (status : apt_message_status_e)
    (m : option (mrcp_message_t R)) :
  mrcp_parser_run p st = Some (status, m, p', st') -> status = APT_MESSAGE_STATUS_COMPLETE \/ m = None.
Proof.
  unfold mrcp_parser_run. destruct (apt_message_parser_run _ st) as [[[[status1 m1] p1] st1]|] eqn:E; [|done].
  intros [= <- <- <- <-]. by eapply staged_run_status.
Qed.
