(* ===== verification/ServerAgent.v ===== *)
(** The MRCPv2 transport of the server ([libs/mrcpv2-transport]): connections with their table of
    control channels ([mrcp_connection.c]) and the connection agent
    ([mrcp_server_connection.c]).

    The agent owns a store of connections and of channels, which refer to each other by address;
    the use of an address whose object was destroyed is undefined.  What the agent tells its
    owner and the network, in order, is the list [agent_out] of its state. *)

From S2P Require Import Prelude AprHash AptString TextStream TextValues HeaderField TextMessage StartLine MrcpHeader GenericHeader Message MessageParser ResourceFactory MrcpStream Transport.

(** * Connections, channels and the agent *)

(** The outcome of accepting a socket: the remote address of the new connection and whether it
    was added to the poll set. *)
Inductive accept_outcome :=
| ACCEPT_FAILED
| ACCEPT_NO_ADDRESS
| ACCEPT_SOCKET (remote : apt_str_t) (polled : bool).

Section Agent.
Context `{Apr} {R : Type} {Hash : AprHash (mrcp_resource_t R)} {Table : AprHash addr}.
Abbreviation message := (mrcp_message_t R).

(** [it]: the connection has an element in the list of the agent.  The parser and generator
    are NULL in the container of pending channels. *)
Record mrcp_connection_t := mk_connection {
  sock : bool;
  remote_ip : apt_str_t;
  access_count : Z;
  it : bool;
  channel_table : @apr_hash_t _ Table;
  rx_stream : apt_text_stream_t;
  rx_buffer_size : nat;
  conn_parser : option mrcp_parser_t;
  tx_buffer : bytes;
  tx_buffer_size : nat;
  conn_generator : option mrcp_generator_t
}.
#[global] Instance eta_connection : Eta mrcp_connection_t := fun s =>
  mk_connection (sock s) (remote_ip s) (access_count s) (it s) (channel_table s) (rx_stream s)
    (rx_buffer_size s) (conn_parser s) (tx_buffer s) (tx_buffer_size s) (conn_generator s).

Record mrcp_control_channel_t := mk_channel {
  connection : option addr;
  removed : bool;
  identifier : apt_str_t
}.
#[global] Instance eta_channel : Eta mrcp_control_channel_t := fun s =>
  mk_channel (connection s) (removed s) (identifier s).

(** Calls of the owner's handlers and of the network. *)
Inductive agent_event :=
| ON_ADD (channel : addr) (descriptor : mrcp_control_descriptor_t) (status : bool)
| ON_MODIFY (channel : addr) (descriptor : mrcp_control_descriptor_t) (status : bool)
| ON_REMOVE (channel : addr) (status : bool)
| ON_RECEIVE (channel : addr) (m : message)
| SOCKET_SEND (connection : addr) (data : bytes)
| SOCKET_CLOSE (connection : addr)
| SOCKET_REJECT.

(** The message of a request to send is known by its address. *)
Record connection_task_msg_t := mk_task_msg {
  type : connection_task_msg_type_e;
  msg_channel : addr;
  msg_descriptor : mrcp_control_descriptor_t;
  msg_message : option (addr * message)
}.

Record mrcp_connection_agent_t := mk_agent {
  resource_factory : mrcp_resource_factory_t R;
  connection_list : option (list addr);
  null_connection : option addr;
  force_new_connection : bool;
  agent_tx_buffer_size : nat;
  agent_rx_buffer_size : nat;
  agent_port : Z;
  connections : gmap addr mrcp_connection_t;
  channels : gmap addr mrcp_control_channel_t;
  next_address : addr;
  task_queue : list connection_task_msg_t;
  agent_out : list agent_event
}.
#[global] Instance eta_agent : Eta mrcp_connection_agent_t := fun s =>
  mk_agent (resource_factory s) (connection_list s) (null_connection s) (force_new_connection s)
    (agent_tx_buffer_size s) (agent_rx_buffer_size s) (agent_port s) (connections s) (channels s)
    (next_address s) (task_queue s) (agent_out s).
Abbreviation agent := mrcp_connection_agent_t.
Abbreviation act := (prog agent).

Definition mrcp_server_connection_agent_create (f : mrcp_resource_factory_t R) (listen_port : Z)
    (force_new : bool) : agent :=
  mk_agent f None None force_new MRCP_STREAM_BUFFER_SIZE MRCP_STREAM_BUFFER_SIZE listen_port
    empty empty 0 [] [].

Definition mrcp_server_connection_rx_size_set (size : nat) (s : agent) : agent :=
  s <| agent_rx_buffer_size := if (size <? MRCP_STREAM_BUFFER_SIZE)%nat
                               then MRCP_STREAM_BUFFER_SIZE else size |>.
Definition mrcp_server_connection_tx_size_set (size : nat) (s : agent) : agent :=
  s <| agent_tx_buffer_size := if (size <? MRCP_STREAM_BUFFER_SIZE)%nat
                               then MRCP_STREAM_BUFFER_SIZE else size |>.

(** Access through a pointer to a connection or to a channel. *)
Definition get_conn (c : addr) : act mrcp_connection_t :=
  let* s := gets (fun s => s) in deref_ptr (connections s !! c).
Definition set_conn (c : addr) (f : mrcp_connection_t -> mrcp_connection_t) : act unit :=
  let* k := get_conn c in
  modify (fun s => s <| connections := <[c := f k]> (connections s) |>).
Definition get_chan (ch : addr) : act mrcp_control_channel_t :=
  let* s := gets (fun s => s) in deref_ptr (channels s !! ch).
Definition set_chan (ch : addr) (f : mrcp_control_channel_t -> mrcp_control_channel_t) : act unit :=
  let* k := get_chan ch in
  modify (fun s => s <| channels := <[ch := f k]> (channels s) |>).
Definition tell (e : agent_event) : act unit :=
  modify (fun s => s <| agent_out := agent_out s ++ [e] |>).

(** ** Connections *)

(** The receive stream is not set until the connection is accepted. *)
Definition mrcp_connection_create : act addr :=
  let* c := gets next_address in
  modify (fun s => s <| next_address := S c |>
    <| connections := <[c := mk_connection false apt_string_reset 0 false apr_hash_make
                               (apt_text_stream_init [] 0) 0 None [] 0 None]> (connections s) |>) ;;;
  ret c.

(** The memory of the connection is freed with its pool. *)
Definition mrcp_connection_destroy (c : addr) : act unit :=
  get_conn c ;;; modify (fun s => s <| connections := delete c (connections s) |>).

Definition mrcp_connection_channel_add (conn chan : option addr) : act bool :=
  match conn, chan with
  | Some c, Some ch =>
      let* k := get_chan ch in
      set_conn c (fun x => x <| channel_table :=
        apr_hash_set (channel_table x) (str_data (identifier k)) ch |>) ;;;
      set_chan ch (fun x => x <| connection := Some c |>) ;;;
      set_conn c (fun x => x <| access_count := u64 (access_count x + 1) |>) ;;;
      ret true
  | _, _ => ret false
  end.

Definition mrcp_connection_channel_find (conn : option addr) (id : apt_str_t) : act (option addr) :=
  match conn with
  | Some c => let* k := get_conn c in ret (apr_hash_get (channel_table k) (str_data id))
  | None => ret None
  end.

Definition mrcp_connection_channel_remove (conn chan : option addr) : act bool :=
  match conn, chan with
  | Some c, Some ch =>
      let* k := get_chan ch in
      set_conn c (fun x => x <| channel_table :=
        apr_hash_unset (channel_table x) (str_data (identifier k)) |>) ;;;
      set_chan ch (fun x => x <| connection := None |>) ;;;
      set_conn c (fun x => x <| access_count := u64 (access_count x - 1) |>) ;;;
      ret true
  | _, _ => ret false
  end.

(** ** Channels *)

Definition mrcp_server_control_channel_create : act addr :=
  let* ch := gets next_address in
  modify (fun s => s <| next_address := S ch |>
    <| channels := <[ch := mk_channel None false apt_string_reset]> (channels s) |>) ;;;
  ret ch.

(** The connection of a removed channel is destroyed; the channel itself is memory of its owner. *)
Definition mrcp_server_control_channel_destroy (chan : option addr) : act bool :=
  match chan with
  | None => ret true
  | Some ch =>
      let* k := get_chan ch in
      match connection k with
      | Some c =>
          if removed k then
            set_chan ch (fun x => x <| connection := None |>) ;;;
            mrcp_connection_destroy c ;;; ret true
          else ret true
      | None => ret true
      end
  end.

Definition mrcp_server_control_message_signal (msg : connection_task_msg_t) : act bool :=
  modify (fun s => s <| task_queue := task_queue s ++ [msg] |>) ;;; ret true.

Definition mrcp_server_control_channel_add (ch : addr) (d : mrcp_control_descriptor_t) : act bool :=
  mrcp_server_control_message_signal (mk_task_msg CONNECTION_TASK_MSG_ADD_CHANNEL ch d None).
Definition mrcp_server_control_channel_modify (ch : addr) (d : mrcp_control_descriptor_t) : act bool :=
  mrcp_server_control_message_signal (mk_task_msg CONNECTION_TASK_MSG_MODIFY_CHANNEL ch d None).
Definition mrcp_server_control_channel_remove (ch : addr) : act bool :=
  mrcp_server_control_message_signal
    (mk_task_msg CONNECTION_TASK_MSG_REMOVE_CHANNEL ch mrcp_control_descriptor_create None).
Definition mrcp_server_control_message_send (ch : addr) (a : addr) (m : message) : act bool :=
  mrcp_server_control_message_signal
    (mk_task_msg CONNECTION_TASK_MSG_SEND_MESSAGE ch mrcp_control_descriptor_create (Some (a, m))).

(** ** The agent *)

(** A pending channel is attached to the connection its first message comes from. *)
Definition mrcp_connection_channel_associate (c : addr) (m : message) : act (option addr) :=
  let id := apt_id_resource_generate (session_id (channel_id m)) (resource_name (channel_id m))
              "@"%char in
  let* channel := mrcp_connection_channel_find (Some c) id in
  match channel with
  | Some ch => ret (Some ch)
  | None =>
      let* null := gets null_connection in
      let* channel := mrcp_connection_channel_find null id in
      match channel with
      | Some ch =>
          mrcp_connection_channel_remove null (Some ch) ;;;
          mrcp_connection_channel_add (Some c) (Some ch) ;;;
          ret (Some ch)
      | None => ret None
      end
  end.

(** The walk over the list of connections. *)
Fixpoint connection_walk (l : list addr) (remote : apt_str_t) : act (option addr) :=
  match l with
  | [] => ret None
  | c :: l' =>
      let* k := get_conn c in
      if apt_string_compare (remote_ip k) remote then ret (Some c) else connection_walk l' remote
  end.

Definition mrcp_connection_find (remote : apt_str_t) : act (option addr) :=
  let* l := gets connection_list in
  match l with None => ret None | Some l => connection_walk l remote end.

(** The container of pending channels and the list, which lives in its pool, are given up. *)
Definition null_connection_destroy (c : addr) : act unit :=
  mrcp_connection_destroy c ;;;
  modify (fun s => s <| null_connection := None |> <| connection_list := None |>).

Definition mrcp_connection_remove (c : addr) : act bool :=
  let* k := get_conn c in
  (if it k then
     let* l := gets connection_list in
     let* l := deref_ptr l in
     modify (fun s => s <| connection_list := Some (List.filter (fun a => negb (a =? c)%nat) l) |>) ;;;
     set_conn c (fun x => x <| it := false |>)
   else ret tt) ;;;
  let* null := gets null_connection in
  match null with
  | None => ret true
  | Some n =>
      let* l := gets connection_list in
      let* l := deref_ptr l in
      match l with
      | [] =>
          let* nk := get_conn n in
          if apr_hash_count (channel_table nk) =? 0 then null_connection_destroy n ;;; ret true
          else ret true
      | _ => ret true
      end
  end.

Definition mrcp_server_agent_connection_accept (outcome : accept_outcome) : act bool :=
  let* null := gets null_connection in
  match null, outcome with
  | _, ACCEPT_FAILED => ret false
  | None, _ => tell SOCKET_REJECT ;;; ret false
  | Some _, ACCEPT_NO_ADDRESS =>
      let* c := mrcp_connection_create in
      set_conn c (fun x => x <| sock := true |>) ;;;
      tell (SOCKET_CLOSE c) ;;; mrcp_connection_destroy c ;;; ret false
  | Some _, ACCEPT_SOCKET remote polled =>
      let* c := mrcp_connection_create in
      set_conn c (fun x => x <| sock := true |> <| remote_ip := remote |>) ;;;
      if negb polled then tell (SOCKET_CLOSE c) ;;; mrcp_connection_destroy c ;;; ret false
      else
        let* l := gets connection_list in
        let* l := deref_ptr l in
        modify (fun s => s <| connection_list := Some (l ++ [c]) |>) ;;;
        let* s := gets (fun s => s) in
        set_conn c (fun x => x <| it := true |>
          <| conn_parser := Some (mrcp_parser_create (resource_factory s)) |>
          <| conn_generator := Some (mrcp_generator_create (resource_factory s)) |>
          <| tx_buffer_size := agent_tx_buffer_size s |>
          <| tx_buffer := apr_palloc (S (agent_tx_buffer_size s)) |>
          <| rx_buffer_size := agent_rx_buffer_size s |>
          <| rx_stream := apt_text_stream_init (apr_palloc (S (agent_rx_buffer_size s)))
                            (agent_rx_buffer_size s) |>) ;;;
        ret true
  end.

Definition mrcp_server_agent_connection_close (c : addr) : act bool :=
  get_conn c ;;;
  tell (SOCKET_CLOSE c) ;;;
  set_conn c (fun x => x <| sock := false |>) ;;;
  let* k := get_conn c in
  if access_count k =? 0 then
    mrcp_connection_remove c ;;; mrcp_connection_destroy c ;;; ret true
  else ret true.

(** The connection type of the answer to an offer. *)
Definition answer_connection_type (offer : mrcp_control_descriptor_t)
    (answer : mrcp_control_descriptor_t) : act mrcp_control_descriptor_t :=
  if decide (connection_type offer = MRCP_CONNECTION_TYPE_EXISTING) then
    let* force := gets force_new_connection in
    if force then ret (answer <| connection_type := MRCP_CONNECTION_TYPE_NEW |>)
    else
      let* c := mrcp_connection_find (ip offer) in
      match c with
      | None => ret (answer <| connection_type := MRCP_CONNECTION_TYPE_NEW |>)
      | Some _ => ret answer
      end
  else ret answer.

(** The answer names the port of the agent unless the offer has none. *)
Definition answer_port (offer answer : mrcp_control_descriptor_t) : act mrcp_control_descriptor_t :=
  if port offer =? 0 then ret answer
  else let* p := gets agent_port in ret (answer <| port := p |>).

(** The container of pending channels and the list of connections exist once they are needed. *)
Definition container_ensure : act unit :=
  let* null := gets null_connection in
  match null with
  | Some _ => ret tt
  | None =>
      let* c := mrcp_connection_create in
      modify (fun s => s <| null_connection := Some c |> <| connection_list := Some [] |>)
  end.

Definition mrcp_server_agent_channel_add (ch : addr) (offer : mrcp_control_descriptor_t) : act unit :=
  let answer := mrcp_control_answer_create (Some offer) in
  set_chan ch (fun x => x <| identifier :=
    apt_id_resource_generate (desc_session_id offer) (desc_resource_name offer) "@"%char |>) ;;;
  let* answer := answer_port offer answer in
  let* answer := answer_connection_type offer answer in
  container_ensure ;;;
  let* null := gets null_connection in
  mrcp_connection_channel_add null (Some ch) ;;;
  tell (ON_ADD ch answer true).

Definition mrcp_server_agent_channel_modify (ch : addr) (offer : mrcp_control_descriptor_t)
    : act unit :=
  let* answer := answer_port offer (mrcp_control_answer_create (Some offer)) in
  get_chan ch ;;;
  tell (ON_MODIFY ch answer true).

(** What becomes of connection [c] when channel [ch] was taken off it: the container may be given
    up; a connection that was closed is left to the channel to destroy. *)
Definition connection_release (ch c : addr) : act unit :=
  let* x := get_conn c in
  if access_count x =? 0 then
    let* null := gets null_connection in
    if decide (null = Some c) then
      let* l := gets connection_list in
      let* l := deref_ptr l in
      match l with [] => null_connection_destroy c | _ => ret tt end
    else if negb (sock x) then
      mrcp_connection_remove c ;;;
      set_chan ch (fun y => y <| connection := Some c |> <| removed := true |>)
    else ret tt
  else ret tt.

Definition mrcp_server_agent_channel_remove (ch : addr) : act unit :=
  let* k := get_chan ch in
  mrcp_connection_channel_remove (connection k) (Some ch) ;;;
  let* c := deref_ptr (connection k) in
  connection_release ch c ;;;
  tell (ON_REMOVE ch true).

(** ** Messages out *)

(** What the buffer of the connection takes of the message is generated and sent; the transport
    accepts piece [i] if [sent i].  The message is sent in pieces as long as it is incomplete;
    [fuel] bounds their number. *)
Fixpoint message_send_loop (fuel : nat) (sent : nat -> bool) (i : nat) (c a : addr) (m : message)
    (status : bool) : act (bool * message) :=
  match fuel with
  | O => fun _ => None
  | S fuel =>
      let* k := get_conn c in
      let* g := deref_ptr (conn_generator k) in
      let* r := deref_ptr (mrcp_generator_run g a m
                             (apt_text_stream_init (tx_buffer k) (tx_buffer_size k))) in
      let '((result, g, m), stream) := r in
      set_conn c (fun x => x <| conn_generator := Some g |> <| tx_buffer := st_mem stream |>) ;;;
      match result with
      | APT_MESSAGE_STATUS_INVALID => ret (status, m)
      | _ =>
          let* z := deref_ptr (store [NUL] stream) in
          set_conn c (fun x => x <| tx_buffer := st_mem (snd z) |>) ;;;
          tell (SOCKET_SEND c (stream_text (snd z))) ;;;
          let status := sent i || status in
          match result with
          | APT_MESSAGE_STATUS_INCOMPLETE => message_send_loop fuel sent (S i) c a m status
          | _ => ret (status, m)
          end
      end
  end.

(** Each piece but the first takes some of the body. *)
Definition mrcp_server_agent_messsage_send (sent : nat -> bool) (conn : option addr) (a : addr)
    (m : message) : act (bool * message) :=
  match conn with
  | None => ret (false, m)
  | Some c =>
      let* k := get_conn c in
      if negb (sock k) then ret (false, m)
      else message_send_loop (str_len (body m) + 2) sent 0 c a m false
  end.

(** ** Messages in *)

Definition mrcp_server_message_handler (sent : nat -> bool) (c : addr) (m : option message)
    (status : apt_message_status_e) : act bool :=
  match status with
  | APT_MESSAGE_STATUS_COMPLETE =>
      match m with
      | None => ret true
      | Some m =>
          let* channel := mrcp_connection_channel_associate c m in
          match channel with
          | Some ch => tell (ON_RECEIVE ch m) ;;; ret true
          | None => ret true
          end
      end
  | APT_MESSAGE_STATUS_INVALID =>
      match m with
      | None => ret true
      | Some m =>
          match resource m with
          | None => ret true
          | Some _ =>
              let response := set_start_line (fun sl =>
                sl <| status_code := MRCP_STATUS_CODE_UNRECOGNIZED_MESSAGE |>)
                (mrcp_response_create (Some m)) in
              let* a := gets next_address in
              modify (fun s => s <| next_address := S (next_address s) |>) ;;;
              mrcp_server_agent_messsage_send sent (Some c) a response ;;; ret true
          end
      end
  | APT_MESSAGE_STATUS_INCOMPLETE => ret true
  end.

(** The parser runs until the end of the stream; [false]: [fuel] was not enough. *)
Fixpoint message_receive_loop (fuel : nat) (sent : nat -> bool) (c : addr) : act bool :=
  match fuel with
  | O => ret false
  | S fuel =>
      let* k := get_conn c in
      let* p := deref_ptr (conn_parser k) in
      let* r := deref_ptr (mrcp_parser_run p (rx_stream k)) in
      let '(status, m, p, st) := r in
      set_conn c (fun x => x <| conn_parser := Some p |> <| rx_stream := st |>) ;;;
      mrcp_server_message_handler sent c m status ;;;
      let* k := get_conn c in
      if apt_text_is_eos (rx_stream k) then ret true else message_receive_loop fuel sent c
  end.

(** What arrived is put after what the last receive left; nothing is the end of the connection.
    [data] is what [apr_socket_recv] stores, of the length the buffer has left. *)
Definition mrcp_server_poller_signal_process (sent : nat -> bool) (c : addr) (data : bytes) : act bool :=
  let* k := get_conn c in
  if negb (sock k) then ret false
  else
    let st := rx_stream k in
    let available := (rx_buffer_size k - (st_pos st - st_base st))%nat in
    let data := take available data in
    if (length data =? 0)%nat then mrcp_server_agent_connection_close c
    else
      let* st := deref_ptr (stream_receive data st) in
      let st := apt_text_stream_reset st in
      set_conn c (fun x => x <| rx_stream := st |>) ;;;
      message_receive_loop (S (length (window st))) sent c ;;;
      let* k := get_conn c in
      let* r := deref_ptr (apt_text_stream_scroll (rx_stream k)) in
      set_conn c (fun x => x <| rx_stream := snd r |>) ;;;
      ret true.

(** ** The task of the agent *)

Definition mrcp_server_agent_msg_process (sent : nat -> bool) (msg : connection_task_msg_t) : act bool :=
  (match type msg with
   | CONNECTION_TASK_MSG_ADD_CHANNEL =>
       mrcp_server_agent_channel_add (msg_channel msg) (msg_descriptor msg)
   | CONNECTION_TASK_MSG_MODIFY_CHANNEL =>
       mrcp_server_agent_channel_modify (msg_channel msg) (msg_descriptor msg)
   | CONNECTION_TASK_MSG_REMOVE_CHANNEL => mrcp_server_agent_channel_remove (msg_channel msg)
   | CONNECTION_TASK_MSG_SEND_MESSAGE =>
       let* k := get_chan (msg_channel msg) in
       let* am := deref_ptr (msg_message msg) in
       mrcp_server_agent_messsage_send sent (connection k) (fst am) (snd am) ;;; ret tt
   end) ;;;
  ret true.

End Agent.
