(* ===== verification/ServerAgentSafety.v ===== *)
(** Memory safety of the connection agent of the server ([ServerAgent]): the invariant that ties the
    store of connections and channels together, that every operation keeps it and is defined, and
    that no reachable state has a dangling pointer or a connection left behind. *)

From S2P Require Import Prelude AprHash AptString TextStream TextValues HeaderField TextMessage StartLine MrcpHeader GenericHeader Message MessageParser ResourceFactory MrcpStream Transport ServerAgent.

Section Safety.
Context `{A : Apr} {R : Type} {Hash : AprHash (mrcp_resource_t R)} {Table : AprHash addr}
  {TL : AprHashLaws Table}.
Abbreviation agent := mrcp_connection_agent_t.
Implicit Types (s : agent) (c ch : addr) (k : mrcp_connection_t) (x : mrcp_control_channel_t).

(** * The invariant *)

(** Channel [ch], with data [x], is in the table of connection [c]. *)
Definition attached s c ch x : Prop :=
  channels s !! ch = Some x /\ connection x = Some c /\ removed x = false.

(** A removed channel keeps the connection it is to destroy. *)
Definition awaits s c ch : Prop :=
  exists x, channels s !! ch = Some x /\ connection x = Some c /\ removed x = true.

(** The connections a live connection may be forgotten by: all but [o], which the operation in
    progress still holds. *)
Record agent_wf_but (o : option addr) s : Prop := {
  wf_container : match null_connection s, connection_list s with
                 | None, None => True
                 | Some n, Some _ => exists k, connections s !! n = Some k /\ it k = false
                 | _, _ => False
                 end;
  wf_list : NoDup (default [] (connection_list s)) /\
            forall c, c ∈ default [] (connection_list s) <->
                      exists k, connections s !! c = Some k /\ it k = true;
  wf_live : forall ch x c, channels s !! ch = Some x -> connection x = Some c ->
            is_Some (connections s !! c);
  wf_table : forall c k, connections s !! c = Some k ->
             (access_count k = apr_hash_count (channel_table k) /\ access_count k < 2 ^ 64) /\
             forall id ch, apr_hash_get (channel_table k) id = Some ch <->
                           exists x, attached s c ch x /\ str_data (identifier x) = id;
  wf_awaits : forall c ch, awaits s c ch ->
              null_connection s <> Some c /\
              (forall k, connections s !! c = Some k -> it k = false /\ access_count k = 0) /\
              forall ch', awaits s c ch' -> ch' = ch;
  wf_owned : forall c k, connections s !! c = Some k ->
             it k = true \/ null_connection s = Some c \/ (exists ch, awaits s c ch) \/ o = Some c;
  wf_sock : forall c k, connections s !! c = Some k -> sock k = true -> it k = true;
  wf_used : forall c k, connections s !! c = Some k -> it k = true ->
            sock k = true \/ access_count k <> 0 \/ o = Some c;
  wf_fresh : forall a, (next_address s <= a)%nat -> connections s !! a = None /\ channels s !! a = None
}.
Definition agent_wf : agent -> Prop := agent_wf_but None.

(** * Steps as state transformers *)

Definition with_conn c k s : agent := s <| connections := <[c := k]> (connections s) |>.
Definition with_chan ch x s : agent := s <| channels := <[ch := x]> (channels s) |>.

Lemma get_conn_eq s c k : connections s !! c = Some k -> get_conn c s = Some (k, s).
Proof. intros E. unfold get_conn, bind, gets, deref_ptr. by rewrite E. Qed.
Lemma set_conn_eq s c k f :
  connections s !! c = Some k -> set_conn c f s = Some (tt, with_conn c (f k) s).
Proof. intros E. unfold set_conn, bind. by rewrite (get_conn_eq s c k E). Qed.
Lemma get_chan_eq s ch x : channels s !! ch = Some x -> get_chan ch s = Some (x, s).
Proof. intros E. unfold get_chan, bind, gets, deref_ptr. by rewrite E. Qed.
Lemma set_chan_eq s ch x f :
  channels s !! ch = Some x -> set_chan ch f s = Some (tt, with_chan ch (f x) s).
Proof. intros E. unfold set_chan, bind. by rewrite (get_chan_eq s ch x E). Qed.

(** The channel in and out of the table of a connection. *)
Definition attach s c k ch x : agent :=
  with_chan ch (x <| connection := Some c |>)
    (with_conn c (k <| channel_table := apr_hash_set (channel_table k) (str_data (identifier x)) ch |>
                    <| access_count := u64 (access_count k + 1) |>) s).
Definition detach s c k ch x : agent :=
  with_chan ch (x <| connection := None |>)
    (with_conn c (k <| channel_table := apr_hash_unset (channel_table k) (str_data (identifier x)) |>
                    <| access_count := u64 (access_count k - 1) |>) s).

Lemma channel_add_eq s c k ch x :
  connections s !! c = Some k -> channels s !! ch = Some x ->
  mrcp_connection_channel_add (Some c) (Some ch) s = Some (true, attach s c k ch x).
Proof.
  intros Ec Ex. unfold mrcp_connection_channel_add, bind at 1.
  rewrite (get_chan_eq s ch x Ex). unfold bind at 1. rewrite (set_conn_eq s c k) by done.
  unfold bind at 1. erewrite set_chan_eq by exact Ex.
  unfold bind at 1. erewrite set_conn_eq by (cbn; apply lookup_insert_eq).
  unfold ret, attach, with_conn, with_chan. cbn [field_set connections channels].
  rewrite insert_insert_eq. done.
Qed.

Lemma channel_remove_eq s c k ch x :
  connections s !! c = Some k -> channels s !! ch = Some x ->
  mrcp_connection_channel_remove (Some c) (Some ch) s = Some (true, detach s c k ch x).
Proof.
  intros Ec Ex. unfold mrcp_connection_channel_remove, bind at 1.
  rewrite (get_chan_eq s ch x Ex). unfold bind at 1. rewrite (set_conn_eq s c k) by done.
  unfold bind at 1. erewrite set_chan_eq by exact Ex.
  unfold bind at 1. erewrite set_conn_eq by (cbn; apply lookup_insert_eq).
  unfold ret, detach, with_conn, with_chan. cbn [field_set connections channels].
  rewrite insert_insert_eq. done.
Qed.

(** * The invariant is kept *)

Lemma conns_with s c k c' :
  connections (with_conn c k s) !! c' = if decide (c' = c) then Some k else connections s !! c'.
Proof.
  unfold with_conn. cbn [field_set connections].
  case_decide; [subst; apply lookup_insert_eq|by apply lookup_insert_ne].
Qed.
Lemma chans_with s ch x ch' :
  channels (with_chan ch x s) !! ch' = if decide (ch' = ch) then Some x else channels s !! ch'.
Proof.
  unfold with_chan. cbn [field_set channels].
  case_decide; [subst; apply lookup_insert_eq|by apply lookup_insert_ne].
Qed.

(** The same objects with the same roles, with other tables and other channels in them. *)
Lemma wf_transfer o s s' :
  agent_wf_but o s ->
  null_connection s' = null_connection s -> connection_list s' = connection_list s ->
  (forall c, match connections s !! c, connections s' !! c with
             | None, None => True
             | Some k, Some k' =>
                 it k' = it k /\ (sock k' = true -> sock k = true) /\
                 (access_count k' = apr_hash_count (channel_table k') /\ access_count k' < 2 ^ 64) /\
                 (forall id ch, apr_hash_get (channel_table k') id = Some ch <->
                                exists x, attached s' c ch x /\ str_data (identifier x) = id) /\
                 ((exists ch, awaits s c ch) -> access_count k' = access_count k) /\
                 (it k' = true -> sock k' = true \/ access_count k' <> 0 \/ o = Some c)
             | _, _ => False
             end) ->
  (forall c ch, awaits s' c ch <-> awaits s c ch) ->
  (forall ch x c, channels s' !! ch = Some x -> connection x = Some c -> is_Some (connections s !! c)) ->
  (forall a, (next_address s' <= a)%nat -> connections s' !! a = None /\ channels s' !! a = None) ->
  agent_wf_but o s'.
Proof.
  intros [W1 W2 W3 W4 W5 W6 W7 W8 W9] Hn Hl Hc Ha Hlive Hfresh.
  assert (Hto : forall c k, connections s !! c = Some k ->
                exists k', connections s' !! c = Some k' /\ it k' = it k).
  { intros c k E. specialize (Hc c). rewrite E in Hc. destruct (connections s' !! c) as [k'|]; [|done].
    exists k'. split; [done|apply Hc]. }
  assert (Hfrom : forall c k', connections s' !! c = Some k' -> exists k, connections s !! c = Some k).
  { intros c k' E. specialize (Hc c). rewrite E in Hc. destruct (connections s !! c) as [k|]; [|done].
    by exists k. }
  split.
  - rewrite Hn, Hl. destruct (null_connection s) as [n|], (connection_list s); try done.
    destruct W1 as (k & E & I). destruct (Hto n k E) as (k' & E' & I'). exists k'.
    split; [done|congruence].
  - rewrite Hl. destruct W2 as [Hnd Hin]. split; [done|]. intros c. rewrite Hin. split; intros (k & E & I).
    + destruct (Hto c k E) as (k' & E' & I'). exists k'. split; [done|congruence].
    + destruct (Hfrom c k E) as (k' & E'). destruct (Hto c k' E') as (k'' & E'' & I').
      exists k'. split; [done|congruence].
  - intros ch x c Ex Ec. destruct (Hlive ch x c Ex Ec) as [k E]. destruct (Hto c k E) as (k' & E' & _).
    by exists k'.
  - intros c k' E'. destruct (Hfrom c k' E') as (k & E). specialize (Hc c). rewrite E, E' in Hc.
    split; apply Hc.
  - intros c ch Hw%Ha. destruct (W5 c ch Hw) as (H1 & H2 & H3). rewrite Hn. split_and!; [done| |].
    + intros k' E'. destruct (Hfrom c k' E') as (k & E). specialize (Hc c). rewrite E, E' in Hc.
      destruct Hc as (Hi & _ & _ & _ & Hacc & _). rewrite Hi, Hacc by by exists ch. by apply H2.
    + intros ch' Hw'%Ha. by apply H3.
  - intros c k' E'. destruct (Hfrom c k' E') as (k & E). specialize (Hc c). rewrite E, E' in Hc.
    rewrite Hn. destruct (W6 c k E) as [|[|[(ch & Hw)|]]]; [left; by rewrite (proj1 Hc)|by right; left| |by do 3 right].
    right. right. left. exists ch. by apply Ha.
  - intros c k' E' Hs. destruct (Hfrom c k' E') as (k & E). specialize (Hc c). rewrite E, E' in Hc.
    rewrite (proj1 Hc). by apply (W7 c k E), (proj1 (proj2 Hc)).
  - intros c k' E'. destruct (Hfrom c k' E') as (k & E). specialize (Hc c). rewrite E, E' in Hc. apply Hc.
  - done.
Qed.

(** Changes outside connections and channels, and new addresses. *)
Lemma wf_same o s s' :
  agent_wf_but o s -> null_connection s' = null_connection s -> connection_list s' = connection_list s ->
  connections s' = connections s -> channels s' = channels s ->
  (next_address s <= next_address s')%nat -> agent_wf_but o s'.
Proof.
  intros W Hn Hl Hc Hch Hnext.
  assert (Ha : forall c ch, awaits s' c ch <-> awaits s c ch) by (intros; unfold awaits; by rewrite Hch).
  apply (wf_transfer o s); try done.
  - intros c. rewrite Hc. destruct (connections s !! c) as [k|] eqn:E; [|done].
    destruct (wf_table o s W c k E) as [[Hcnt Hlim] Ht]. split_and!; try done.
    + intros id ch. rewrite Ht. unfold attached. by rewrite Hch.
    + by apply (wf_used o s W).
  - rewrite Hch. apply (wf_live o s W).
  - intros a Hle. rewrite Hc, Hch. apply (wf_fresh o s W). lia.
Qed.

(** A connection replaced by one with the same role, and channel [ch] by [x']. *)
Lemma wf_but_replace o s c k k' ch x x' :
  agent_wf_but o s -> connections s !! c = Some k -> channels s !! ch = Some x ->
  it k' = it k -> (sock k' = true -> sock k = true) ->
  removed x = false -> removed x' = false ->
  (connection x' = None \/ connection x' = Some c) ->
  access_count k' = apr_hash_count (channel_table k') /\ access_count k' < 2 ^ 64 ->
  (forall id ch', apr_hash_get (channel_table k') id = Some ch' <->
     exists x0, attached (with_chan ch x' (with_conn c k' s)) c ch' x0 /\
                str_data (identifier x0) = id) ->
  (forall c', c' <> c -> connection x <> Some c' ) ->
  (forall ch', ~ awaits s c ch') ->
  (it k' = true -> sock k' = true \/ access_count k' <> 0 \/ o = Some c) ->
  agent_wf_but o (with_chan ch x' (with_conn c k' s)).
Proof.
  intros W Ec Ex Hit Hsock Hr Hr' Hcx' Hcnt Htab Hother Haw Hused.
  assert (Hconn : forall c0, connections (with_chan ch x' (with_conn c k' s)) !! c0
                  = if decide (c0 = c) then Some k' else connections s !! c0).
  { intros c0. apply conns_with. }
  apply (wf_transfer o s); try done.
  - intros c0. rewrite Hconn. case_decide as D; [subst c0; rewrite Ec|].
    { destruct Hcnt. split_and!; try done. intros (ch' & Hw). by destruct (Haw ch'). }
    destruct (connections s !! c0) as [k1|] eqn:E1; [|done].
    destruct (wf_table o s W c0 k1 E1) as [[Hc Hlim] Ht].
    split_and!; try done; [|by apply (wf_used o s W)]. intros id ch0. rewrite Ht.
    unfold attached. split; intros (y & (Hy & Hcy & Hry) & Hid); exists y; (split; [|done]); (split; [|done]).
    + rewrite chans_with. case_decide; [|done]. subst ch0. rewrite Ex in Hy. injection Hy as <-.
      by destruct (Hother c0 D).
    + rewrite chans_with in Hy. case_decide; [|done]. injection Hy as <-. destruct Hcx'; congruence.
  - intros c0 ch0. unfold awaits. split; intros (y & Hy & Hc & Hre).
    + rewrite chans_with in Hy. case_decide; [congruence|]. by exists y.
    + exists y. rewrite chans_with. case_decide; [congruence|done].
  - intros ch0 y c0 Hy Hc. rewrite chans_with in Hy. case_decide; [|by eapply (wf_live o s W)].
    injection Hy as <-. destruct Hcx' as [E'|E']; rewrite E' in Hc; [done|]. injection Hc as <-. by exists k.
  - intros a Hle. destruct (wf_fresh o s W a Hle) as [F1 F2]. rewrite Hconn, chans_with.
    split; (case_decide; [subst a; congruence|done]).
Qed.

Lemma attached_key s c k ch x o :
  agent_wf_but o s -> connections s !! c = Some k -> attached s c ch x ->
  apr_hash_get (channel_table k) (str_data (identifier x)) = Some ch.
Proof. intros W E Ha. destruct (wf_table o s W c k E) as [_ Ht]. apply Ht. by exists x. Qed.

Lemma attached_count s c k ch x o :
  agent_wf_but o s -> connections s !! c = Some k -> attached s c ch x -> access_count k <> 0.
Proof.
  intros W E Ha Hz. pose proof (attached_key s c k ch x o W E Ha) as Hk.
  destruct (wf_table o s W c k E) as [[Hc _] _]. rewrite Hc in Hz.
  rewrite (proj1 (apr_hash_count_zero _) Hz) in Hk. done.
Qed.

Lemma not_awaited s c k o :
  agent_wf_but o s -> connections s !! c = Some k -> it k = true \/ null_connection s = Some c ->
  forall ch, ~ awaits s c ch.
Proof.
  intros W E Hi ch Ha. destruct (wf_awaits o s W c ch Ha) as (H1 & H2 & _).
  destruct (H2 k E). destruct Hi; congruence.
Qed.

Lemma attach_wf o s c k ch x :
  agent_wf_but o s -> connections s !! c = Some k -> channels s !! ch = Some x ->
  connection x = None -> removed x = false -> it k = true \/ null_connection s = Some c ->
  apr_hash_get (channel_table k) (str_data (identifier x)) = None -> access_count k + 1 < 2 ^ 64 ->
  agent_wf_but o (attach s c k ch x).
Proof.
  intros W Ec Ex Hx Hr Hi Hfree Hlim. destruct (wf_table o s W c k Ec) as [[Hc Hb] Ht].
  pose proof (apr_hash_count_nonneg (channel_table k)).
  eapply wf_but_replace; try done.
  - by right.
  - cbn [field_set access_count channel_table]. rewrite apr_hash_count_set, Hfree, <-Hc.
    rewrite u64_small; lia.
  - intros id ch0. cbn [field_set channel_table]. rewrite apr_hash_get_set. unfold attached.
    setoid_rewrite chans_with. case_decide as D.
    + subst id. split.
      * intros [= <-]. exists (x <| connection := Some c |>). by case_decide.
      * intros (y & (Hy & Hcy & Hry) & Hid). case_decide as D0; [congruence|].
        assert (Ha : attached s c ch0 y) by done.
        pose proof (attached_key s c k ch0 y o W Ec Ha) as Hk. rewrite Hid in Hk. congruence.
    + rewrite Ht. unfold attached. split; intros (y & (Hy & Hcy & Hry) & Hid).
      * exists y. case_decide; [|done]. subst ch0. congruence.
      * case_decide; [|by exists y]. injection Hy as <-. by destruct D.
  - congruence.
  - by eapply not_awaited.
  - intros _. right. left. cbn [field_set access_count]. rewrite u64_small; lia.
Qed.

Lemma detach_wf o s c k ch x :
  agent_wf_but o s -> connections s !! c = Some k -> attached s c ch x -> it k = false \/ o = Some c ->
  agent_wf_but o (detach s c k ch x).
Proof.
  intros W Ec Ha Hused. destruct (wf_table o s W c k Ec) as [[Hc Hb] Ht].
  pose proof (attached_key s c k ch x o W Ec Ha) as Hkey.
  pose proof (apr_hash_count_nonneg (channel_table k)).
  pose proof (attached_count s c k ch x o W Ec Ha) as Hne.
  destruct Ha as (Ex & Hx & Hr).
  assert (Hcu : apr_hash_count (apr_hash_unset (channel_table k) (str_data (identifier x)))
                = access_count k - 1).
  { by rewrite apr_hash_count_unset, Hkey, <-Hc. }
  pose proof (apr_hash_count_nonneg (apr_hash_unset (channel_table k) (str_data (identifier x)))).
  eapply wf_but_replace; try done.
  - by left.
  - cbn [field_set access_count channel_table]. rewrite Hcu, u64_small; lia.
  - intros id ch0. cbn [field_set channel_table]. rewrite apr_hash_get_unset. unfold attached.
    setoid_rewrite chans_with. case_decide as D.
    + subst id. split; [done|]. intros (y & (Hy & Hcy & Hry) & Hid).
      case_decide as D0; [by injection Hy as <-|].
      assert (Ha : attached s c ch0 y) by done.
      pose proof (attached_key s c k ch0 y o W Ec Ha) as Hk. rewrite Hid in Hk. congruence.
    + rewrite Ht. unfold attached. split; intros (y & (Hy & Hcy & Hry) & Hid).
      * exists y. case_decide; [|done]. subst ch0. rewrite Ex in Hy. injection Hy as <-. by destruct D.
      * case_decide; [|by exists y]. by injection Hy as <-.
  - congruence.
  - intros ch0 Haw. destruct (wf_awaits o s W c ch0 Haw) as (_ & H2 & _). by destruct (H2 k Ec).
  - cbn [field_set it]. destruct Hused as [Hf|Hf]; [by rewrite Hf|by right; right].
Qed.

(** ** Objects that come and go *)

Lemma wf_weaken o s : agent_wf s -> agent_wf_but o s.
Proof.
  intros [W1 W2 W3 W4 W5 W6 W7 W8 W9]. split; try done.
  - intros c k E. destruct (W6 c k E) as [|[|[|]]]; [by left|by right; left|by right; right; left|done].
  - intros c k E I. destruct (W8 c k E I) as [|[|]]; [by left|by right; left|done].
Qed.

Lemma wf_settle s c :
  agent_wf_but (Some c) s ->
  (forall k, connections s !! c = Some k ->
     (it k = true \/ null_connection s = Some c \/ exists ch, awaits s c ch) /\
     (it k = true -> sock k = true \/ access_count k <> 0)) ->
  agent_wf s.
Proof.
  intros [W1 W2 W3 W4 W5 W6 W7 W8 W9] Hs. split; try done.
  - intros c0 k E. destruct (W6 c0 k E) as [|[|[|[= ->]]]]; [by left|by right; left|by right; right; left|].
    destruct (Hs k E) as [[|[|]] _]; [by left|by right; left|by right; right; left].
  - intros c0 k E I. destruct (W8 c0 k E I) as [|[|[= ->]]]; [by left|by right; left|].
    destruct (Hs k E) as [_ Hu]. destruct (Hu I); [by left|by right; left].
Qed.

(** A connection nothing refers to is freed; if it is the container, the list goes with it. *)
Lemma delete_wf o o' s s' c k :
  agent_wf_but o s -> connections s !! c = Some k -> it k = false ->
  (forall ch x, channels s !! ch = Some x -> connection x <> Some c) ->
  connections s' = delete c (connections s) -> channels s' = channels s ->
  next_address s' = next_address s -> o = o' \/ o = Some c ->
  (null_connection s <> Some c /\ null_connection s' = null_connection s /\
     connection_list s' = connection_list s) \/
  (null_connection s = Some c /\ connection_list s = Some [] /\
     null_connection s' = None /\ connection_list s' = None) ->
  agent_wf_but o' s'.
Proof.
  intros [W1 W2 W3 W4 W5 W6 W7 W8 W9] Ec Hit Hno Hc Hch Hnext Ho Hnull.
  assert (Ha : forall c ch, awaits s' c ch <-> awaits s c ch) by (intros; unfold awaits; by rewrite Hch).
  assert (Hat : forall c ch x, attached s' c ch x <-> attached s c ch x)
    by (intros; unfold attached; by rewrite Hch).
  assert (Hget : forall c0 k0, connections s' !! c0 = Some k0 <-> c0 <> c /\ connections s !! c0 = Some k0).
  { intros c0 k0. rewrite Hc, lookup_delete_Some. split; intros []; by split. }
  assert (Ho' : forall c0, c0 <> c -> o = Some c0 -> o' = Some c0) by (destruct Ho; congruence).
  assert (Hn' : forall c0, c0 <> c -> null_connection s' = Some c0 <-> null_connection s = Some c0).
  { intros c0 D. destruct Hnull as [(_ & -> & _)|(-> & _ & -> & _)]; [done|]. split; congruence. }
  split.
  - destruct Hnull as [(Hne & -> & ->)|(_ & _ & -> & ->)]; [|done].
    destruct (null_connection s) as [n|], (connection_list s); try done.
    destruct W1 as (k1 & E1 & I1). exists k1. split; [|done]. apply Hget. split; [congruence|done].
  - assert (Hl : default [] (connection_list s') = default [] (connection_list s)).
    { by destruct Hnull as [(_ & _ & ->)|(_ & -> & _ & ->)]. }
    rewrite Hl. destruct W2 as [Hnd Hin]. split; [done|]. intros c0. rewrite Hin.
    split; intros (k0 & E0 & I0); exists k0; (split; [|done]).
    + apply Hget. split; [|done]. intros ->. congruence.
    + by apply Hget in E0 as [_ E0].
  - intros ch x c0 Ex Ecx. rewrite Hch in Ex. destruct (W3 ch x c0 Ex Ecx) as [k0 E0]. exists k0.
    apply Hget. split; [|done]. intros ->. by apply (Hno ch x).
  - intros c0 k0 [D E0]%Hget. destruct (W4 c0 k0 E0) as [Hcnt Ht]. split; [done|].
    intros id ch. rewrite Ht. by setoid_rewrite Hat.
  - intros c0 ch Hw%Ha. destruct (W5 c0 ch Hw) as (H1 & H2 & H3). split_and!.
    + intros Hn. destruct Hnull as [(_ & Hs & _)|(_ & _ & Hs & _)]; congruence.
    + intros k0 [_ E0]%Hget. by apply H2.
    + intros ch' Hw'%Ha. by apply H3.
  - intros c0 k0 [D E0]%Hget. rewrite (Hn' c0 D).
    destruct (W6 c0 k0 E0) as [|[|[(ch & Hw)|]]]; [by left|by right; left| |by do 3 right; apply Ho'].
    right. right. left. exists ch. by apply Ha.
  - intros c0 k0 [_ E0]%Hget. by apply (W7 c0).
  - intros c0 k0 [D E0]%Hget I0. destruct (W8 c0 k0 E0 I0) as [|[|]]; [by left|by right; left|].
    do 2 right. by apply Ho'.
  - intros a Hle. rewrite Hnext in Hle. destruct (W9 a Hle) as [F1 F2]. rewrite Hch. split; [|done].
    rewrite Hc. apply lookup_delete_None. by right.
Qed.

(** A channel becomes or ceases to be the one that destroys connection [c]. *)
Lemma turn_wf s c k ch x x' :
  agent_wf_but (Some c) s -> connections s !! c = Some k -> it k = false -> access_count k = 0 ->
  null_connection s <> Some c -> channels s !! ch = Some x ->
  connection x = None \/ connection x = Some c /\ removed x = true ->
  connection x' = None \/ connection x' = Some c /\ removed x' = true ->
  (forall ch', awaits s c ch' -> ch' = ch) ->
  agent_wf_but (Some c) (with_chan ch x' s).
Proof.
  intros [W1 W2 W3 W4 W5 W6 W7 W8 W9] Ec Hit Hcnt Hn Ex Hx Hx' Hone.
  assert (Hat : forall c0 ch0 y, attached (with_chan ch x' s) c0 ch0 y <-> attached s c0 ch0 y).
  { intros c0 ch0 y. unfold attached. rewrite chans_with. case_decide as D; [|done]. rewrite D, Ex.
    split; intros ([= <-] & Hc & Hr); [destruct Hx' as [|[]]|destruct Hx as [|[]]]; congruence. }
  assert (Haw : forall c0 ch0, awaits (with_chan ch x' s) c0 ch0 -> c0 = c /\ ch0 = ch \/ awaits s c0 ch0).
  { intros c0 ch0 (y & Hy & Hcy & Hr). rewrite chans_with in Hy. case_decide as D.
    - injection Hy as <-. left. destruct Hx' as [|[]]; split; congruence.
    - right. by exists y. }
  assert (Hback : forall c0 ch0, c0 <> c -> awaits s c0 ch0 -> awaits (with_chan ch x' s) c0 ch0).
  { intros c0 ch0 D (y & Hy & Hcy & Hr). exists y. rewrite chans_with. case_decide as D0; [|done].
    rewrite D0 in Hy. destruct Hx as [|[]]; congruence. }
  split; try done.
  - intros ch0 y c0 Hy Hc. rewrite chans_with in Hy. case_decide; [|by eapply W3].
    injection Hy as <-. exists k. destruct Hx' as [|[]]; change (connections s !! c0 = Some k); congruence.
  - intros c0 k0 E0. destruct (W4 c0 k0 E0) as [Hc Ht]. split; [done|]. intros id ch0. rewrite Ht.
    by setoid_rewrite Hat.
  - intros c0 ch0 Hw. destruct (decide (c0 = c)) as [->|D].
    + split_and!; [done|by intros k0 E0; assert (k0 = k) as -> by (cbn in E0; congruence)|].
      assert (Hall : forall ch1, awaits (with_chan ch x' s) c ch1 -> ch1 = ch).
      { intros ch1 [[_ H]|H]%Haw; [done|by apply Hone]. }
      intros ch1 Hw1. by rewrite (Hall ch0 Hw), (Hall ch1 Hw1).
    + destruct (Haw c0 ch0 Hw) as [[]|Hw0]; [done|]. destruct (W5 c0 ch0 Hw0) as (H1 & H2 & H3).
      split_and!; [done|done|]. intros ch1 Hw1. destruct (Haw c0 ch1 Hw1) as [[]|]; [done|by apply H3].
  - intros c0 k0 E0. destruct (decide (c0 = c)) as [->|D]; [by do 3 right|].
    destruct (W6 c0 k0 E0) as [|[|[(ch0 & Hw)|]]]; [by left|by right; left| |by do 3 right].
    right. right. left. exists ch0. by apply Hback.
  - intros a Hle. destruct (W9 a Hle) as [F1 F2]. split; [done|]. rewrite chans_with.
    case_decide; [subst; congruence|done].
Qed.

(** A new connection, in the list or as the container with its list. *)
Lemma create_wf s s' k :
  agent_wf s ->
  connections s' = <[next_address s := k]> (connections s) -> channels s' = channels s ->
  next_address s' = S (next_address s) -> channel_table k = apr_hash_make -> access_count k = 0 ->
  it k = sock k ->
  (it k = true /\ null_connection s' = null_connection s /\
     exists l, connection_list s = Some l /\ connection_list s' = Some (l ++ [next_address s])) \/
  (it k = false /\ null_connection s = None /\ null_connection s' = Some (next_address s) /\
     connection_list s' = Some []) ->
  agent_wf s'.
Proof.
  intros [W1 W2 W3 W4 W5 W6 W7 W8 W9] Hc Hch Hnext Hk Hcnt Hsock Hnull.
  set (n := next_address s) in *.
  destruct (W9 n (le_n n)) as [Fc Fch].
  assert (Ha : forall c ch, awaits s' c ch <-> awaits s c ch) by (intros; unfold awaits; by rewrite Hch).
  assert (Hat : forall c ch x, attached s' c ch x <-> attached s c ch x)
    by (intros; unfold attached; by rewrite Hch).
  assert (Hno : forall ch x, channels s !! ch = Some x -> connection x <> Some n).
  { intros ch x Ex Hx. destruct (W3 ch x n Ex Hx) as [k0 E0]. congruence. }
  assert (Hget : forall c0 k0, connections s' !! c0 = Some k0 <->
                 c0 = n /\ k0 = k \/ c0 <> n /\ connections s !! c0 = Some k0).
  { intros c0 k0. rewrite Hc, lookup_insert_Some. split.
    - intros [[]|[]]; [by left|by right].
    - intros [[]|[]]; [by left|by right]. }
  assert (Hold : forall c0 k0, connections s !! c0 = Some k0 -> c0 <> n) by congruence.
  split.
  - destruct Hnull as [(Hi & -> & l & E1 & ->)|(Hi & _ & -> & ->)].
    + rewrite E1 in W1. destruct (null_connection s) as [m|]; [|done]. destruct W1 as (k1 & E & I).
      exists k1. split; [|done]. apply Hget. right. by split; [apply (Hold _ _ E)|].
    + exists k. split; [|done]. apply Hget. by left.
  - destruct W2 as [Hnd Hin]. destruct Hnull as [(Hi & Hn & l & E1 & ->)|(Hi & Hn0 & Hn & ->)].
    + rewrite E1 in Hnd, Hin. simpl in *. split.
      * apply list.NoDup_app. split_and!; [done| |apply NoDup_singleton].
        intros c0 Hc0 ->%list_elem_of_singleton. apply Hin in Hc0 as (k1 & E & _). congruence.
      * intros c0. rewrite list.elem_of_app, list_elem_of_singleton, Hin. split.
        -- intros [(k1 & E & I)| ->]; [exists k1|exists k]; (split; [apply Hget|done]); [right|by left].
           by split; [apply (Hold _ _ E)|].
        -- intros (k1 & Hg & I). apply Hget in Hg as [[-> ->]|[D E]]; [by right|left]. by exists k1.
    + assert (connection_list s = None) as E1 by (rewrite Hn0 in W1; by destruct (connection_list s)).
      rewrite E1 in Hin. simpl in *. split; [constructor|]. intros c0. split; [intros []%list.not_elem_of_nil|].
      intros (k1 & Hg & I). apply Hget in Hg as [[-> ->]|[D E]]; [congruence|]. apply Hin. by exists k1.
  - intros ch x c0 Ex Ecx. rewrite Hch in Ex. destruct (W3 ch x c0 Ex Ecx) as [k0 E0]. exists k0.
    apply Hget. right. by split; [apply (Hold _ _ E0)|].
  - intros c0 k0 Hg; apply Hget in Hg as [[-> ->]|[D E0]].
    + rewrite Hk, Hcnt. split; [split; [symmetry; apply apr_hash_count_zero; apply apr_hash_get_make|lia]|].
      intros id ch. rewrite apr_hash_get_make. split; [done|]. intros (x & Hx%Hat & _).
      destruct Hx as (Ex & Ecx & _). by destruct (Hno ch x Ex).
    + destruct (W4 c0 k0 E0) as [Hc0 Ht]. split; [done|]. intros id ch. rewrite Ht. by setoid_rewrite Hat.
  - intros c0 ch Hw%Ha. destruct (W5 c0 ch Hw) as (H1 & H2 & H3).
    assert (D : c0 <> n) by (intros ->; destruct Hw as (x & Ex & Hx & _); by destruct (Hno ch x Ex)).
    split_and!.
    + destruct Hnull as [(_ & -> & _)|(_ & _ & -> & _)]; congruence.
    + intros k0 [[? _]|[_ E0]]%Hget; [done|]. by apply H2.
    + intros ch' Hw'%Ha. by apply H3.
  - intros c0 k0 Hg; apply Hget in Hg as [[-> ->]|[D E0]].
    + destruct Hnull as [(Hi & _)|(_ & _ & Hn & _)]; [by left|by right; left].
    + destruct (W6 c0 k0 E0) as [|[H|[(ch & Hw)|]]]; [by left| | |done].
      * right. left. destruct Hnull as [(_ & -> & _)|(_ & Hn & _)]; congruence.
      * right. right. left. exists ch. by apply Ha.
  - intros c0 k0 Hg; apply Hget in Hg as [[-> ->]|[D E0]]; [congruence|by apply (W7 c0)].
  - intros c0 k0 Hg; apply Hget in Hg as [[-> ->]|[D E0]]; [left; congruence|by apply (W8 c0)].
  - intros a Hle. rewrite Hnext in Hle. destruct (W9 a ltac:(lia)) as [F1 F2]. rewrite Hch. split; [|done].
    rewrite Hc, lookup_insert_ne; [done|lia].
Qed.

(** A closed connection leaves the list. *)
Lemma unlist_wf s s' c k l :
  agent_wf_but (Some c) s -> connections s !! c = Some k -> it k = true -> sock k = false ->
  connection_list s = Some l ->
  connections s' = <[c := k <| it := false |>]> (connections s) -> channels s' = channels s ->
  next_address s' = next_address s -> null_connection s' = null_connection s ->
  connection_list s' = Some (List.filter (fun a => negb (a =? c)%nat) l) ->
  agent_wf_but (Some c) s'.
Proof.
  intros [W1 W2 W3 W4 W5 W6 W7 W8 W9] Ec Hit Hsock Hl Hc Hch Hnext Hn Hl'.
  assert (Ha : forall c ch, awaits s' c ch <-> awaits s c ch) by (intros; unfold awaits; by rewrite Hch).
  assert (Hat : forall c ch x, attached s' c ch x <-> attached s c ch x)
    by (intros; unfold attached; by rewrite Hch).
  assert (Hget : forall c0, connections s' !! c0
                 = if decide (c0 = c) then Some (k <| it := false |>) else connections s !! c0).
  { intros c0. rewrite Hc. case_decide; [subst; apply lookup_insert_eq|by apply lookup_insert_ne]. }
  split; try setoid_rewrite Hget; try setoid_rewrite Ha.
  - rewrite Hn, Hl'. rewrite Hl in W1. destruct (null_connection s) as [n|]; [|done].
    destruct W1 as (k1 & E & I). exists k1. rewrite Hget. case_decide; [congruence|done].
  - rewrite Hl', Hl in *. simpl in *. destruct W2 as [Hnd Hin]. split.
    + apply NoDup_ListNoDup, List.NoDup_filter. by apply NoDup_ListNoDup.
    + intros c0. rewrite list_elem_of_In, filter_In, <-list_elem_of_In, Hin.
      destruct (Nat.eqb_spec c0 c) as [->|D]; case_decide; try done; simpl.
      * split; [by intros [_ ?]|]. by intros (k0 & [= <-] & ?).
      * split; [by intros [? _]|by split].
  - rewrite Hch. intros ch x c0 Ex Ecx. destruct (W3 ch x c0 Ex Ecx) as [k0 E0].
    case_decide; [by eexists|by exists k0].
  - intros c0 k0 E0.
    assert (exists k1, connections s !! c0 = Some k1 /\ access_count k0 = access_count k1 /\
              channel_table k0 = channel_table k1) as (k1 & E1 & -> & ->).
    { case_decide; [injection E0 as <-; subst; by exists k|by exists k0]. }
    destruct (W4 c0 k1 E1) as [Hc0 Ht]. split; [done|]. intros id ch. rewrite Ht. by setoid_rewrite Hat.
  - intros c0 ch Hw. destruct (W5 c0 ch Hw) as (H1 & H2 & H3). rewrite Hn. split_and!; try done.
    intros k0 E0. case_decide; [subst c0; destruct (H2 k Ec); congruence|by apply H2].
  - intros c0 k0 E0. rewrite Hn. case_decide as D; [by do 3 right; f_equal|].
    by apply W6.
  - intros c0 k0 E0. case_decide; [|by apply (W7 c0)]. injection E0 as <-. simpl. congruence.
  - intros c0 k0 E0. case_decide; [by do 2 right; f_equal|by apply (W8 c0)].
  - rewrite Hnext, Hch. intros a Hle. destruct (W9 a Hle) as [F1 F2]. case_decide; [congruence|done].
Qed.

(** * The operations *)

(** The container of pending channels is there only as long as there is a use for it. *)
Definition container_used s : Prop :=
  forall n k, null_connection s = Some n -> connections s !! n = Some k ->
  connection_list s <> Some [] \/ access_count k <> 0.

Lemma bind_run {B C} (m : prog agent B) (f : B -> prog agent C) s b s' :
  m s = Some (b, s') -> bind m f s = f b s'.
Proof. intros E. unfold bind. by rewrite E. Qed.

Lemma channel_find_eq s c k id :
  connections s !! c = Some k ->
  mrcp_connection_channel_find (Some c) id s = Some (apr_hash_get (channel_table k) (str_data id), s).
Proof. intros E. unfold mrcp_connection_channel_find. by rewrite (bind_run _ _ _ _ _ (get_conn_eq s c k E)). Qed.

(** No channel is in the empty table of a connection no channel is to destroy. *)
Lemma unreferenced o s c k :
  agent_wf_but o s -> connections s !! c = Some k -> access_count k = 0 ->
  (forall ch, ~ awaits s c ch) -> forall ch x, channels s !! ch = Some x -> connection x <> Some c.
Proof.
  intros W E Hz Hno ch x Ex Ec. destruct (removed x) eqn:Hr; [apply (Hno ch); by exists x|].
  by apply (attached_count s c k ch x o W E).
Qed.

Lemma container_facts o s n :
  agent_wf_but o s -> null_connection s = Some n ->
  exists k l, connections s !! n = Some k /\ it k = false /\ connection_list s = Some l /\
    forall ch, ~ awaits s n ch.
Proof.
  intros W Hn. pose proof (wf_container o s W) as H. rewrite Hn in H.
  destruct (connection_list s) as [l|]; [|done]. destruct H as (k & E & I). exists k, l.
  split_and!; try done. intros ch Hw. by destruct (wf_awaits o s W n ch Hw).
Qed.

Lemma listed_facts o s c k :
  agent_wf_but o s -> connections s !! c = Some k -> it k = true ->
  exists n l, null_connection s = Some n /\ n <> c /\ connection_list s = Some l /\ c ∈ l.
Proof.
  intros W E I. destruct (wf_list o s W) as [_ Hin].
  assert (Hc : c ∈ default [] (connection_list s)) by (apply Hin; by exists k).
  pose proof (wf_container o s W) as H.
  destruct (connection_list s) as [l|]; [|by apply list.not_elem_of_nil in Hc].
  destruct (null_connection s) as [n|]; [|done]. destruct H as (k' & E' & I').
  exists n, l. split_and!; try done. congruence.
Qed.

Lemma container_destroy_ok s n k :
  connections s !! n = Some k ->
  null_connection_destroy n s
  = Some (tt, s <| connections := delete n (connections s) |> <| null_connection := None |>
                <| connection_list := None |>).
Proof.
  intros E. unfold null_connection_destroy, mrcp_connection_destroy, bind.
  by rewrite (get_conn_eq s n k E).
Qed.

Lemma container_destroy_wf o s n k :
  agent_wf_but o s -> null_connection s = Some n -> connections s !! n = Some k ->
  access_count k = 0 -> connection_list s = Some [] ->
  agent_wf_but o (s <| connections := delete n (connections s) |> <| null_connection := None |>
                    <| connection_list := None |>).
Proof.
  intros W Hn E Hz Hl. destruct (container_facts o s n W Hn) as (k' & l & E' & I & _ & Hno).
  assert (k' = k) as -> by congruence.
  apply (delete_wf o o s _ n k); try done; [by eapply unreferenced|by left|by right].
Qed.

(** A closed connection is taken off the list, perhaps together with the container. *)
Lemma connection_remove_ok s c k :
  agent_wf_but (Some c) s -> connections s !! c = Some k -> it k = true -> sock k = false ->
  exists s', mrcp_connection_remove c s = Some (true, s') /\ agent_wf_but (Some c) s' /\
    container_used s' /\ connections s' !! c = Some (k <| it := false |>) /\
    channels s' = channels s /\ null_connection s' <> Some c.
Proof.
  intros W E I Hs. destruct (listed_facts _ s c k W E I) as (n & l & Hn & Hnc & Hl & _).
  destruct (container_facts _ s n W Hn) as (nk & _ & En & In & _ & Hno).
  set (l' := List.filter (fun a => negb (a =? c)%nat) l).
  set (s1 := with_conn c (k <| it := false |>) (s <| connection_list := Some l' |>)).
  assert (W1 : agent_wf_but (Some c) s1) by by eapply (unlist_wf s s1 c k l).
  assert (Hn1 : null_connection s1 = Some n) by done.
  assert (E1 : connections s1 !! c = Some (k <| it := false |>)) by apply lookup_insert_eq.
  assert (En1 : connections s1 !! n = Some nk).
  { change (<[c := k <| it := false |>]> (connections s) !! n = Some nk). by rewrite lookup_insert_ne. }
  unfold mrcp_connection_remove. rewrite (bind_run _ _ _ _ _ (get_conn_eq s c k E)), I.
  erewrite (bind_run _ _ s tt s1).
  2: { do 3 (erewrite bind_run; [|by rewrite ?Hl]). by apply (set_conn_eq _ c k). }
  rewrite (bind_run _ _ s1 (null_connection s) s1) by done. rewrite Hn.
  rewrite (bind_run _ _ s1 (Some l') s1) by done. erewrite bind_run by done.
  destruct l' as [|c1 l1] eqn:Hl'.
  - rewrite (bind_run _ _ _ _ _ (get_conn_eq s1 n nk En1)).
    destruct (wf_table _ s1 W1 n nk En1) as [[Hcnt _] _]. rewrite <-Hcnt.
    destruct (Z.eqb_spec (access_count nk) 0) as [Hz|Hz].
    + rewrite (bind_run _ _ _ _ _ (container_destroy_ok s1 n nk En1)). eexists. split; [reflexivity|].
      split_and!; [|done| |done|done].
      * by apply (container_destroy_wf (Some c) s1 n nk).
      * change (delete n (connections s1) !! c = Some (k <| it := false |>)). by rewrite lookup_delete_ne.
    + exists s1. split_and!; try done; [|congruence]. intros m mk Hm Em. right. congruence.
  - exists s1. split_and!; try done; [by intros m mk Hm Em; left|congruence].
Qed.

Definition agent_ok s : Prop := agent_wf s /\ container_used s.

(** [m] runs from [s] without touching what is not there, and keeps the invariant. *)
Definition runs_ok {B} (m : prog agent B) s : Prop := exists b s', m s = Some (b, s') /\ agent_ok s'.

Lemma told_ok e s : agent_ok s -> agent_ok (s <| agent_out := agent_out s ++ [e] |>).
Proof. intros [W U]. split; [by apply (wf_same None s)|exact U]. Qed.

Lemma create_ok s : agent_ok s -> runs_ok mrcp_server_control_channel_create s.
Proof.
  intros [W U]. do 2 eexists. split; [reflexivity|]. split; [|exact U].
  set (n := next_address s). destruct (wf_fresh None s W n (le_n n)) as [Fc Fch].
  set (s' := s <| next_address := S n |> <| channels := <[n := mk_channel None false apt_string_reset]> (channels s) |>).
  assert (Hget : forall ch x c, channels s' !! ch = Some x /\ connection x = Some c <->
                                channels s !! ch = Some x /\ connection x = Some c).
  { intros ch x c. change (channels s') with (<[n := mk_channel None false apt_string_reset]> (channels s)).
    rewrite lookup_insert_Some. split.
    - by intros [[[<- <-]|[_ ?]] ?].
    - intros [E ?]. split; [right|done]. split; [congruence|done]. }
  assert (Hat : forall c ch x, attached s' c ch x <-> attached s c ch x).
  { intros c ch x. unfold attached. specialize (Hget ch x c). tauto. }
  apply (wf_transfer None s); try done.
  - intros c. change (connections s') with (connections s).
    destruct (connections s !! c) as [k|] eqn:E; [|done].
    destruct (wf_table None s W c k E) as [[Hcnt Hlim] Ht]. split_and!; try done.
    + intros id ch. rewrite Ht. by setoid_rewrite Hat.
    + by apply (wf_used None s W).
  - intros c ch. unfold awaits. split; intros (x & E & Ec & Hr); exists x; specialize (Hget ch x c); tauto.
  - intros ch x c E Ec. apply (wf_live None s W ch x c); [|done]. by apply (Hget ch x c).
  - intros a Hle. change (S n <= a)%nat in Hle. destruct (wf_fresh None s W a ltac:(lia)) as [F1 F2].
    split; [done|]. apply lookup_insert_None. split; [done|lia].
Qed.

Lemma walk_defined s l remote :
  Forall (fun c => is_Some (connections s !! c)) l ->
  exists r, connection_walk l remote s = Some (r, s).
Proof.
  intros H. induction H as [|c l [k E] H [r IH]]; [by exists None|]. simpl.
  rewrite (bind_run _ _ _ _ _ (get_conn_eq s c k E)). destruct (apt_string_compare _ _); eauto.
Qed.

Lemma find_defined o s remote :
  agent_wf_but o s -> exists r, mrcp_connection_find remote s = Some (r, s).
Proof.
  intros W. unfold mrcp_connection_find. erewrite bind_run by done.
  destruct (connection_list s) as [l|] eqn:El; [|by exists None]. apply walk_defined.
  apply list.Forall_forall. intros c Hc. destruct (wf_list o s W) as [_ Hin]. rewrite El in Hin.
  apply Hin in Hc as (k & E & _). by exists k.
Qed.

Lemma answer_port_eq offer answer s :
  answer_port offer answer s
  = Some (if port offer =? 0 then answer else answer <| port := agent_port s |>, s).
Proof. unfold answer_port. by destruct (port offer =? 0). Qed.

Lemma answer_type_defined o s offer answer :
  agent_wf_but o s -> exists d, answer_connection_type offer answer s = Some (d, s).
Proof.
  intros W. unfold answer_connection_type. case_decide; [|by exists answer].
  erewrite bind_run by done. destruct (force_new_connection s); [by eexists|].
  destruct (find_defined o s (ip offer) W) as [r E]. rewrite (bind_run _ _ _ _ _ E).
  destruct r; by eexists.
Qed.

Lemma modify_ok ch offer s :
  agent_ok s -> is_Some (channels s !! ch) -> runs_ok (mrcp_server_agent_channel_modify ch offer) s.
Proof.
  intros Hs [x E]. unfold runs_ok, mrcp_server_agent_channel_modify.
  rewrite (bind_run _ _ _ _ _ (answer_port_eq _ _ s)), (bind_run _ _ _ _ _ (get_chan_eq s ch x E)).
  do 2 eexists. split; [reflexivity|by apply told_ok].
Qed.

(** A channel is named before it is in a table. *)
Lemma rename_wf o s ch x id :
  agent_wf_but o s -> channels s !! ch = Some x -> connection x = None ->
  agent_wf_but o (with_chan ch (x <| identifier := id |>) s).
Proof.
  intros W Ex Hx.
  assert (Hat : forall c ch0 y, attached (with_chan ch (x <| identifier := id |>) s) c ch0 y <-> attached s c ch0 y).
  { intros c ch0 y. unfold attached. rewrite chans_with. case_decide as D; [|done]. rewrite D, Ex.
    split; intros ([= <-] & Hc & _); [change (connection x = Some c) in Hc|]; congruence. }
  apply (wf_transfer o s); try done.
  - intros c. change (connections (with_chan ch (x <| identifier := id |>) s)) with (connections s).
    destruct (connections s !! c) as [k|] eqn:E; [|done].
    destruct (wf_table o s W c k E) as [[Hcnt Hlim] Ht]. split_and!; try done.
    + intros id0 ch0. rewrite Ht. by setoid_rewrite Hat.
    + by apply (wf_used o s W).
  - intros c ch0. unfold awaits. setoid_rewrite chans_with. case_decide as D; [|done]. rewrite D, Ex.
    split; intros (y & [= <-] & Hc & _); [change (connection x = Some c) in Hc|]; congruence.
  - intros ch0 y c Hy Hc. rewrite chans_with in Hy. case_decide; [|by eapply (wf_live o s W)].
    injection Hy as <-. change (connection x = Some c) in Hc. congruence.
  - intros a Hle. destruct (wf_fresh o s W a Hle) as [F1 F2]. split; [done|]. rewrite chans_with.
    case_decide as D; [|done]. rewrite D in F2. congruence.
Qed.

Lemma container_ensure_ok s id :
  agent_wf s ->
  (forall n k, null_connection s = Some n -> connections s !! n = Some k ->
     apr_hash_get (channel_table k) id = None /\ access_count k + 1 < 2 ^ 64) ->
  exists n k s', container_ensure s = Some (tt, s') /\ agent_wf s' /\ null_connection s' = Some n /\
    connections s' !! n = Some k /\ channels s' = channels s /\
    apr_hash_get (channel_table k) id = None /\ access_count k + 1 < 2 ^ 64.
Proof.
  intros W Hfree. unfold container_ensure. rewrite (bind_run _ _ s (null_connection s) s) by done.
  destruct (null_connection s) as [n|] eqn:Hn.
  - destruct (container_facts None s n W Hn) as (k & _ & E & _). exists n, k, s.
    destruct (Hfree n k eq_refl E). by split_and!.
  - do 3 eexists. split; [reflexivity|]. split_and!; [|reflexivity|apply lookup_insert_eq|reflexivity| |].
    + eapply create_wf; try done. right. by split_and!.
    + apply apr_hash_get_make.
    + done.
Qed.

Definition channel_name (d : mrcp_control_descriptor_t) : apt_str_t :=
  apt_id_resource_generate (desc_session_id d) (desc_resource_name d) "@"%char.

Lemma add_ok ch offer s x :
  agent_ok s -> channels s !! ch = Some x -> connection x = None -> removed x = false ->
  (forall n k, null_connection s = Some n -> connections s !! n = Some k ->
     apr_hash_get (channel_table k) (str_data (channel_name offer)) = None /\
     access_count k + 1 < 2 ^ 64) ->
  runs_ok (mrcp_server_agent_channel_add ch offer) s.
Proof.
  intros [W U] Ex Hx Hr Hfree. unfold runs_ok, mrcp_server_agent_channel_add.
  fold (channel_name offer).
  erewrite bind_run by by apply set_chan_eq.
  set (s1 := with_chan ch (x <| identifier := channel_name offer |>) s).
  assert (W1 : agent_wf s1) by by apply rename_wf.
  rewrite (bind_run _ _ _ _ _ (answer_port_eq _ _ s1)).
  edestruct (answer_type_defined None s1 offer) as [d Ed]; [done|]. rewrite (bind_run _ _ _ _ _ Ed).
  destruct (container_ensure_ok s1 (str_data (channel_name offer)) W1 Hfree)
    as (n & k & s2 & E2 & W2 & Hn & En & Hch & Hg & Hlim).
  rewrite (bind_run _ _ _ _ _ E2). rewrite (bind_run _ _ s2 (Some n) s2) by (by rewrite <-Hn).
  assert (Ex2 : channels s2 !! ch = Some (x <| identifier := channel_name offer |>)).
  { rewrite Hch. apply lookup_insert_eq. }
  rewrite (bind_run _ _ _ _ _ (channel_add_eq s2 n k ch _ En Ex2)).
  do 2 eexists. split; [reflexivity|]. apply told_ok. split.
  - apply attach_wf; try done. by right.
  - intros m mk Hm Em. right. assert (m = n) as -> by (change (null_connection s2 = Some m) in Hm; congruence).
    unfold attach in Em. change (connections (with_conn n
      (k <| channel_table := apr_hash_set (channel_table k) (str_data (channel_name offer)) ch |>
         <| access_count := u64 (access_count k + 1) |>) s2) !! n = Some mk) in Em.
    rewrite conns_with in Em. case_decide; [|done]. injection Em as <-. cbn [field_set access_count].
    destruct (wf_table None s2 W2 n k En) as [[Hc _] _].
    pose proof (apr_hash_count_nonneg (channel_table k)). rewrite u64_small; lia.
Qed.

Lemma destroy_ok ch s x :
  agent_ok s -> channels s !! ch = Some x -> connection x = None \/ removed x = true ->
  runs_ok (mrcp_server_control_channel_destroy (Some ch)) s.
Proof.
  intros [W U] Ex Hx. unfold runs_ok, mrcp_server_control_channel_destroy.
  rewrite (bind_run _ _ _ _ _ (get_chan_eq s ch x Ex)).
  destruct (connection x) as [c|] eqn:Ec; [|by exists true, s].
  destruct Hx as [?|Hr]; [done|]. rewrite Hr.
  assert (Hw : awaits s c ch) by by exists x.
  destruct (wf_awaits None s W c ch Hw) as (Hn & Hk & Hone). destruct (wf_live None s W ch x c Ex Ec) as [k E].
  destruct (Hk k E) as [I Hz].
  erewrite bind_run by by apply set_chan_eq.
  set (s1 := with_chan ch (x <| connection := None |>) s).
  assert (W1 : agent_wf_but (Some c) s1).
  { apply (turn_wf s c k ch x); try done; [by apply wf_weaken|by right|by left]. }
  erewrite bind_run; [|unfold mrcp_connection_destroy; by rewrite (bind_run _ _ _ _ _ (get_conn_eq s1 c k E))].
  do 2 eexists. split; [reflexivity|]. split.
  - eapply (delete_wf (Some c) None s1 _ c k); try done; [|by right|by left].
    apply (unreferenced (Some c) s1 c k W1 E Hz). intros ch' (y & Hy & Hcy & Hry).
    unfold s1 in Hy. rewrite chans_with in Hy. case_decide as D; [injection Hy as <-; done|].
    apply D, Hone. by exists y.
  - intros m mk Hm Em. apply (U m mk Hm).
    change (delete c (connections s) !! m = Some mk) in Em. by apply lookup_delete_Some in Em as [_ Em].
Qed.

(** A connection's own state but for its channels, its socket and its place in the list. *)
Definition same_role k k' : Prop :=
  it k' = it k /\ access_count k' = access_count k /\ channel_table k' = channel_table k /\
  (sock k' = true -> sock k = true).

Lemma conn_update_wf o s c k k' :
  agent_wf_but o s -> connections s !! c = Some k -> same_role k k' ->
  o = Some c \/ sock k' = sock k -> agent_wf_but o (with_conn c k' s).
Proof.
  intros W E (Hi & Ha & Ht & Hs) Ho. apply (wf_transfer o s); try done.
  - intros c0. rewrite conns_with. destruct (connections s !! c0) as [k0|] eqn:E0.
    + destruct (wf_table o s W c0 k0 E0) as [[Hcnt Hlim] Htab].
      pose proof (wf_used o s W c0 k0 E0) as Hu.
      case_decide as D; [|by split_and!]. subst c0. assert (k0 = k) as -> by congruence.
      rewrite Ha, Ht, Hi. split_and!; try done. intros I. destruct (Hu I) as [|[|]]; [|by right; left|by right; right].
      destruct Ho as [|Hs']; [by right; right|left; congruence].
    + case_decide; [congruence|done].
  - apply (wf_live o s W).
  - intros a Hle. destruct (wf_fresh o s W a Hle) as [F1 F2]. rewrite conns_with. split; [|done].
    case_decide; congruence.
Qed.

Lemma with_conn_used s c k k' :
  container_used s -> connections s !! c = Some k -> access_count k' = access_count k ->
  container_used (with_conn c k' s).
Proof.
  intros U E Ha m mk Hm Em. rewrite conns_with in Em. case_decide as D; [|by apply (U m mk)].
  injection Em as <-. rewrite Ha. subst m. by apply (U c k).
Qed.

Lemma close_ok c s k :
  agent_ok s -> connections s !! c = Some k -> sock k = true ->
  runs_ok (mrcp_server_agent_connection_close c) s.
Proof.
  intros [W U] E Hs. unfold runs_ok, mrcp_server_agent_connection_close.
  rewrite (bind_run _ _ _ _ _ (get_conn_eq s c k E)). erewrite bind_run by done.
  set (s0 := s <| agent_out := agent_out s ++ [SOCKET_CLOSE c] |>).
  assert (E0 : connections s0 !! c = Some k) by done. erewrite bind_run by by apply (set_conn_eq s0 c k).
  set (k1 := k <| sock := false |>). set (s1 := with_conn c k1 s0).
  assert (Hrole : same_role k k1) by by split_and!.
  assert (W1 : agent_wf_but (Some c) s1).
  { apply (conn_update_wf _ s0 c k); try done; [|by left]. apply (wf_same (Some c) s); try done. by apply wf_weaken. }
  assert (E1 : connections s1 !! c = Some k1) by apply lookup_insert_eq.
  rewrite (bind_run _ _ _ _ _ (get_conn_eq s1 c k1 E1)). change (access_count k1) with (access_count k).
  assert (I : it k1 = true) by by apply (wf_sock None s W c k).
  destruct (Z.eqb_spec (access_count k) 0) as [Hz|Hz].
  - destruct (connection_remove_ok s1 c k1 W1 E1 I eq_refl) as (s2 & Er & W2 & U2 & E2 & Hch & Hn).
    rewrite (bind_run _ _ _ _ _ Er).
    erewrite bind_run; [|unfold mrcp_connection_destroy; by rewrite (bind_run _ _ _ _ _ (get_conn_eq s2 c _ E2))].
    do 2 eexists. split; [reflexivity|]. split.
    + eapply (delete_wf (Some c) None s2 _ c); try done; [|by right|by left].
      rewrite Hch. intros ch x Ex. apply (unreferenced (Some c) s1 c k1 W1 E1 Hz) with (ch := ch); [|done].
      eapply not_awaited; [exact W1|exact E1|by left].
    + intros m mk Hm Em. apply (U2 m mk Hm).
      change (delete c (connections s2) !! m = Some mk) in Em. by apply lookup_delete_Some in Em as [_ Em].
  - do 2 eexists. split; [reflexivity|]. split; [|by eapply with_conn_used].
    apply (wf_settle s1 c W1). intros k' E'. assert (k' = k1) as -> by congruence. split; [by left|by right].
Qed.

(** A connection that is given up as soon as it is accepted. *)
Lemma create_drop_eq f s :
  connections s !! next_address s = None ->
  (let* c := mrcp_connection_create in
   set_conn c f ;;; tell (SOCKET_CLOSE c) ;;; mrcp_connection_destroy c ;;; ret false) s
  = Some (false, s <| next_address := S (next_address s) |>
                   <| agent_out := agent_out s ++ [SOCKET_CLOSE (next_address s)] |>).
Proof.
  intros Fc. erewrite bind_run by reflexivity.
  erewrite bind_run by (apply set_conn_eq, lookup_insert_eq). erewrite bind_run by reflexivity.
  erewrite bind_run.
  2: { unfold mrcp_connection_destroy. erewrite bind_run by (apply get_conn_eq, lookup_insert_eq). reflexivity. }
  unfold ret, with_conn. destruct s. simpl in *. by rewrite insert_insert_eq, delete_insert_id.
Qed.

Lemma create_drop_ok f s :
  agent_ok s ->
  runs_ok (let* c := mrcp_connection_create in
           set_conn c f ;;; tell (SOCKET_CLOSE c) ;;; mrcp_connection_destroy c ;;; ret false) s.
Proof.
  intros [W U]. destruct (wf_fresh None s W (next_address s) (le_n _)) as [Fc _].
  do 2 eexists. split; [by apply create_drop_eq|].
  split; [apply (wf_same None s); try done; simpl; lia|exact U].
Qed.

(** The connection made of an accepted socket. *)
Definition accepted_conn s remote : mrcp_connection_t :=
  mk_connection true remote 0 true apr_hash_make
    (apt_text_stream_init (apr_palloc (S (agent_rx_buffer_size s))) (agent_rx_buffer_size s))
    (agent_rx_buffer_size s) (Some (mrcp_parser_create (resource_factory s)))
    (apr_palloc (S (agent_tx_buffer_size s))) (agent_tx_buffer_size s)
    (Some (mrcp_generator_create (resource_factory s))).
Definition accepted s remote l : agent :=
  s <| next_address := S (next_address s) |>
    <| connections := <[next_address s := accepted_conn s remote]> (connections s) |>
    <| connection_list := Some (l ++ [next_address s]) |>.

Lemma accept_eq remote s m l :
  null_connection s = Some m -> connection_list s = Some l ->
  mrcp_server_agent_connection_accept (ACCEPT_SOCKET remote true) s = Some (true, accepted s remote l).
Proof.
  intros Hm Hl. unfold mrcp_server_agent_connection_accept.
  rewrite (bind_run _ _ s (null_connection s) s) by done. rewrite Hm.
  erewrite bind_run by reflexivity. erewrite bind_run by (apply set_conn_eq, lookup_insert_eq).
  cbn [negb]. rewrite (bind_run _ _ _ (Some l) _) by (unfold gets; cbn; by rewrite <-Hl).
  erewrite bind_run by reflexivity. erewrite bind_run by reflexivity.
  rewrite (bind_run _ _ _ _ _ (eq_refl : gets (fun s => s) _ = Some (_, _))).
  erewrite bind_run by (apply set_conn_eq, lookup_insert_eq).
  destruct s. cbn in Hm, Hl. subst. unfold ret, with_conn, accepted. simpl.
  rewrite !insert_insert_eq. reflexivity.
Qed.

Lemma accepted_ok s remote m l :
  agent_wf s -> null_connection s = Some m -> connection_list s = Some l ->
  agent_ok (accepted s remote l).
Proof.
  intros W Hm Hl. split.
  - apply (create_wf s _ (accepted_conn s remote)); try reflexivity; [done|]. left.
    split_and!; [done|done|by exists l].
  - intros m' mk' Hm' Em'. left. change (Some (l ++ [next_address s]) <> Some []). by destruct l.
Qed.

Lemma accept_ok outcome s :
  agent_ok s -> runs_ok (mrcp_server_agent_connection_accept outcome) s.
Proof.
  intros Hs. assert (Hs' := Hs). destruct Hs' as [W U].
  destruct (null_connection s) as [m|] eqn:Hm; destruct outcome as [| |remote [|]].
  3: destruct (container_facts None s m W Hm) as (mk & l & Em & Im & Hl & _);
     exists true, (accepted s remote l); split; [by eapply accept_eq|].
  all: unfold runs_ok, mrcp_server_agent_connection_accept;
    rewrite ?(bind_run _ _ s (null_connection s) s), ?Hm by done.
  - by exists false, s.
  - by apply create_drop_ok.
  - by eapply accepted_ok.
  - by apply create_drop_ok.
  - by exists false, s.
  - do 2 eexists. split; [reflexivity|]. by apply told_ok.
  - do 2 eexists. split; [reflexivity|]. by apply told_ok.
  - do 2 eexists. split; [reflexivity|]. by apply told_ok.
Qed.

Lemma detach_conn s c k ch x :
  connections (detach s c k ch x) !! c
  = Some (k <| channel_table := apr_hash_unset (channel_table k) (str_data (identifier x)) |>
            <| access_count := u64 (access_count k - 1) |>).
Proof. apply lookup_insert_eq. Qed.

Lemma detach_chan s c k ch x : channels (detach s c k ch x) !! ch = Some (x <| connection := None |>).
Proof. apply lookup_insert_eq. Qed.

(** Taking a channel off a connection leaves the container as it is, but for its own channels. *)
Lemma detach_used s c k ch x :
  container_used s -> null_connection s <> Some c -> container_used (detach s c k ch x).
Proof.
  intros U Hn m mk Hm Em. apply (U m mk Hm).
  change (connections (with_conn c (k <| channel_table := apr_hash_unset (channel_table k) (str_data (identifier x)) |>
            <| access_count := u64 (access_count k - 1) |>) s) !! m = Some mk) in Em.
  rewrite conns_with in Em. case_decide; [|done]. subst m. by destruct Hn.
Qed.

(** An attached channel's connection is in the list or is the container. *)
Lemma attached_home s c k ch x :
  agent_wf s -> connections s !! c = Some k -> attached s c ch x ->
  it k = true \/ null_connection s = Some c.
Proof.
  intros W E Ha. pose proof (attached_count s c k ch x None W E Ha) as Hc.
  destruct (wf_owned None s W c k E) as [|[|[(ch' & Hw)|]]]; [by left|by right| |done].
  destruct (wf_awaits None s W c ch' Hw) as (_ & Hk & _). by destruct (Hk k E).
Qed.

Lemma release_ok ch c s k x :
  agent_ok s -> connections s !! c = Some k -> attached s c ch x ->
  runs_ok (connection_release ch c) (detach s c k ch x).
Proof.
  intros [W U] E Ha. pose proof (attached_home s c k ch x W E Ha) as Hhome.
  set (s1 := detach s c k ch x). pose proof (detach_conn s c k ch x) as E1. fold s1 in E1.
  set (k1 := _ <| access_count := _ |>) in E1.
  assert (W1 : agent_wf_but (Some c) s1) by (apply detach_wf; [by apply wf_weaken|done|done|by right]).
  assert (Hno : forall ch', ~ awaits s1 c ch') by by eapply not_awaited.
  assert (Hn1 : null_connection s1 = null_connection s) by done.
  assert (Hback : access_count k1 <> 0 \/ sock k = true \/ null_connection s = Some c -> agent_wf s1).
  { intros Hcase. apply (wf_settle s1 c W1). intros k' E'. assert (k' = k1) as -> by congruence.
    split; [destruct Hhome; [by left|by right; left]|]. intros I. change (it k = true) in I.
    destruct Hcase as [|[|Hn]]; [by right|by left|].
    destruct (container_facts None s c W Hn) as (k0 & _ & E0 & I0 & _). congruence. }
  unfold runs_ok, connection_release. rewrite (bind_run _ _ _ _ _ (get_conn_eq s1 c k1 E1)).
  destruct (Z.eqb_spec (access_count k1) 0) as [Hz|Hz].
  2: { exists tt, s1. split; [done|]. split; [apply Hback; by left|].
       destruct (decide (null_connection s = Some c)) as [Hn|Hn]; [|by apply detach_used].
       intros m mk Hm Em. right. congruence. }
  rewrite (bind_run _ _ s1 (null_connection s) s1) by done. case_decide as Hn.
  - destruct (container_facts None s c W Hn) as (k0 & l & E0 & I0 & Hl & _).
    assert (Hl1 : connection_list s1 = Some l) by done.
    rewrite (bind_run _ _ s1 (Some l) s1) by (by rewrite <-Hl1). erewrite bind_run by reflexivity.
    destruct l as [|c1 l].
    + do 2 eexists. split; [by eapply container_destroy_ok|]. split; [|done].
      apply (container_destroy_wf None s1 c k1); try done. apply Hback. by right; right.
    + exists tt, s1. split; [done|]. split; [apply Hback; by right; right|]. intros m mk Hm Em. left. by rewrite Hl1.
  - destruct (sock k) eqn:Hs; change (sock k1) with (sock k); rewrite Hs; cbn [negb].
    { exists tt, s1. split; [done|]. split; [apply Hback; by right; left|by apply detach_used]. }
    assert (I1 : it k1 = true) by by destruct Hhome.
    destruct (connection_remove_ok s1 c k1 W1 E1 I1 Hs) as (s2 & Er & W2 & U2 & E2 & Hch & Hn2).
    rewrite (bind_run _ _ _ _ _ Er).
    assert (Ex2 : channels s2 !! ch = Some (x <| connection := None |>)) by (rewrite Hch; apply detach_chan).
    do 2 eexists. split; [by eapply set_chan_eq|]. split; [|exact U2].
    set (x2 := _ <| removed := true |>).
    assert (Hno2 : forall ch', ~ awaits s2 c ch') by (intros ch'; unfold awaits; rewrite Hch; apply Hno).
    apply (wf_settle _ c).
    + eapply (turn_wf s2 c _ ch _ x2); try done; [by left|by right|]. intros ch' Hw. by destruct (Hno2 ch').
    + intros k' E'. change (connections s2 !! c = Some k') in E'. rewrite E2 in E'. injection E' as <-.
      split; [|done]. right. right. exists ch, x2. rewrite chans_with. by case_decide.
Qed.

Lemma remove_ok ch c s k x :
  agent_ok s -> connections s !! c = Some k -> attached s c ch x ->
  runs_ok (mrcp_server_agent_channel_remove ch) s.
Proof.
  intros Hs E Ha. assert (Ha' := Ha). destruct Ha' as (Ex & Ec & Hr).
  unfold runs_ok, mrcp_server_agent_channel_remove.
  rewrite (bind_run _ _ _ _ _ (get_chan_eq s ch x Ex)), Ec.
  rewrite (bind_run _ _ _ _ _ (channel_remove_eq s c k ch x E Ex)). erewrite bind_run by reflexivity.
  destruct (release_ok ch c s k x Hs E Ha) as ([] & s' & El & Hs').
  rewrite (bind_run _ _ _ _ _ El). do 2 eexists. split; [reflexivity|by apply told_ok].
Qed.

(** The channel of an identifier in the table of a connection. *)
Definition tabled s (o : option addr) (id : bytes) : option addr :=
  o ≫= fun c => connections s !! c ≫= fun k => apr_hash_get (channel_table k) id.

(** The channel a message on connection [c] is for: one of the connection, or a pending one. *)
Definition routed s c (id : bytes) : option addr :=
  match tabled s (Some c) id with Some ch => Some ch | None => tabled s (null_connection s) id end.

(** From [s] to [s'] the channels of the identifiers [ids] that were pending are taken from the container
    and put on connection [c]; the two tables are otherwise as they were. *)
Definition moved s c s' (ids : list bytes) : Prop := null_connection s' = null_connection s /\ forall id,
  tabled s' (Some c) id = (if decide (id ∈ ids) then routed s c id else tabled s (Some c) id) /\
  tabled s' (null_connection s') id =
    (if decide (id ∈ ids /\ tabled s (Some c) id = None) then None else tabled s (null_connection s) id).

Lemma moved_routed s c s' ids id : moved s c s' ids -> routed s' c id = routed s c id.
Proof.
  intros [_ H]. destruct (H id) as [Hc Hn]. unfold routed at 1. rewrite Hc, Hn. unfold routed.
  destruct (decide (id ∈ ids)) as [Hi|Hi], (tabled s (Some c) id) as [ch|] eqn:E; try done;
    repeat case_decide; try done; try tauto; destruct (tabled s (null_connection s) id); done.
Qed.

Lemma moved_trans s c s1 s2 ids1 ids2 : moved s c s1 ids1 -> moved s1 c s2 ids2 -> moved s c s2 (ids1 ++ ids2).
Proof.
  intros H1 [En2 H2]. assert (H1' := H1). destruct H1' as [En1 H1']. split; [congruence|]. intros id.
  destruct (H2 id) as [-> ->]. rewrite (moved_routed s c s1 ids1 id H1). destruct (H1' id) as [-> ->].
  unfold routed. pose proof (elem_of_app ids1 ids2 id).
  destruct (decide (id ∈ ids1)), (decide (id ∈ ids2)), (tabled s (Some c) id), (tabled s (null_connection s) id);
    split; repeat case_decide; solve [done | intuition congruence].
Qed.

Definition message_key (m : mrcp_message_t R) : bytes :=
  str_data (apt_id_resource_generate (session_id (channel_id m)) (resource_name (channel_id m)) "@"%char).

(** What the association of a message with a channel leaves as it was. *)
Definition associated c m s k s' k' : Prop :=
  agent_ok s' /\ connections s' !! c = Some k' /\ sock k' = sock k /\
  access_count k' <= access_count k + 1 /\ rx_stream k' = rx_stream k /\
  rx_buffer_size k' = rx_buffer_size k /\ conn_parser k' = conn_parser k /\
  agent_out s' = agent_out s /\ moved s c s' [message_key m].

Lemma associate_ok c m s k :
  agent_ok s -> connections s !! c = Some k -> sock k = true -> access_count k + 1 < 2 ^ 64 ->
  exists s' k', mrcp_connection_channel_associate c m s = Some (routed s c (message_key m), s') /\
    associated c m s k s' k'.
Proof.
  intros Hs E Hk Hlim. assert (Hs' := Hs). destruct Hs' as [W U].
  assert (I : it k = true) by by apply (wf_sock None s W c k).
  destruct (listed_facts None s c k W E I) as (n & l & Hn & Hnc & Hl & Hin).
  destruct (container_facts None s n W Hn) as (nk & _ & En & In & _ & Hno).
  assert (Htab : forall id, tabled s (Some c) id = apr_hash_get (channel_table k) id /\
                            tabled s (null_connection s) id = apr_hash_get (channel_table nk) id).
  { intros id. unfold tabled. rewrite Hn. cbn [mbind option_bind]. by rewrite E, En. }
  assert (Hroute : forall id, routed s c id = match apr_hash_get (channel_table k) id with
            | Some ch => Some ch | None => apr_hash_get (channel_table nk) id end).
  { intros id. unfold routed. by rewrite (proj1 (Htab id)), (proj2 (Htab id)). }
  assert (Hstay : (apr_hash_get (channel_table k) (message_key m) = None ->
                   apr_hash_get (channel_table nk) (message_key m) = None) -> associated c m s k s k).
  { intros Hno'. split_and!; try done; [lia|]. split; [done|]. intros id. rewrite Hroute. destruct (Htab id) as [-> ->].
    split; case_decide as D; try done.
    - apply list_elem_of_singleton in D as ->. destruct (apr_hash_get (channel_table k) _); [done|by rewrite Hno'].
    - destruct D as [->%list_elem_of_singleton Hk0]. auto. }
  unfold mrcp_connection_channel_associate. cbv zeta. unfold message_key.
  unfold message_key in Hstay. set (id := apt_id_resource_generate _ _ _) in *. rewrite Hroute.
  rewrite (bind_run _ _ _ _ _ (channel_find_eq s c k id E)).
  destruct (apr_hash_get (channel_table k) (str_data id)) as [ch|] eqn:Hg; [exists s, k; split; [done|by apply Hstay]|].
  rewrite (bind_run _ _ s (Some n) s) by (by rewrite <-Hn).
  rewrite (bind_run _ _ _ _ _ (channel_find_eq s n nk id En)).
  destruct (apr_hash_get (channel_table nk) (str_data id)) as [ch|] eqn:Hgn; [|exists s, k; split; [done|by apply Hstay]].
  destruct (wf_table None s W n nk En) as [_ Ht]. assert (Hgn' := Hgn). apply Ht in Hgn' as (x & Ha & Hid).
  assert (Ha' := Ha). destruct Ha' as (Ex & Ec & Hr).
  rewrite (bind_run _ _ _ _ _ (channel_remove_eq s n nk ch x En Ex)).
  set (s1 := detach s n nk ch x).
  assert (W1 : agent_wf s1) by (apply detach_wf; [done|done|done|by left]).
  assert (E1 : connections s1 !! c = Some k).
  { etransitivity; [apply conns_with|]. case_decide; congruence. }
  assert (Ex1 : channels s1 !! ch = Some (x <| connection := None |>)) by apply detach_chan.
  rewrite (bind_run _ _ _ _ _ (channel_add_eq s1 c k ch _ E1 Ex1)).
  set (k2 := k <| channel_table := apr_hash_set (channel_table k) (str_data (identifier x)) ch |>
               <| access_count := u64 (access_count k + 1) |>).
  set (nk2 := nk <| channel_table := apr_hash_unset (channel_table nk) (str_data (identifier x)) |>
               <| access_count := u64 (access_count nk - 1) |>).
  set (s2 := attach s1 c k ch (x <| connection := None |>)).
  assert (E2 : connections s2 !! c = Some k2) by apply lookup_insert_eq.
  assert (En2 : connections s2 !! n = Some nk2).
  { etransitivity; [apply (conns_with s1)|]. case_decide; [congruence|]. apply detach_conn. }
  exists s2, k2. split; [done|]. split_and!; try done; [split| |].
  - apply attach_wf; try done; [by left|]. change (apr_hash_get (channel_table k) (str_data (identifier x)) = None).
    by rewrite Hid.
  - intros m' mk Hm Em. left. change (connection_list s <> Some []). rewrite Hl. intros [= ->].
    by apply list.not_elem_of_nil in Hin.
  - cbn [field_set access_count].
    destruct (wf_table None s W c k E) as [[Hc _] _]. pose proof (apr_hash_count_nonneg (channel_table k)).
    unfold k2. cbn [field_set access_count]. rewrite u64_small; lia.
  - split; [done|]. intros id0. rewrite Hroute. destruct (Htab id0) as [-> ->]. unfold tabled.
    change (null_connection s2) with (null_connection s). rewrite Hn. cbn [mbind option_bind]. rewrite E2, En2.
    unfold k2, nk2. cbn [field_set channel_table mbind option_bind].
    rewrite apr_hash_get_set, apr_hash_get_unset, Hid. fold (message_key m).
    change (message_key m) with (str_data id).
    pose proof (list_elem_of_singleton id0 (str_data id)) as Hin0.
    destruct (decide (id0 = str_data id)) as [->|Dn]; rewrite ?Hg, ?Hgn; split; case_decide; solve [done | intuition congruence].
Qed.

(** ** Messages *)

(** Connection [c] is open and has room for [n] more channels. *)
Definition open_for (n : Z) c s : Prop :=
  exists k, connections s !! c = Some k /\ sock k = true /\ access_count k + n < 2 ^ 64.

(** [m] keeps the invariant and leaves [c] open, if it is defined. *)
Definition keeps {B} c (n n' : Z) (m : prog agent B) : Prop :=
  forall s b s', agent_ok s -> open_for n c s -> m s = Some (b, s') -> agent_ok s' /\ open_for n' c s'.

Lemma keeps_ret {B} c n (b : B) : keeps c n n (ret b).
Proof. intros s b' s' Hs Ho [= _ <-]. done. Qed.
Lemma keeps_bind {B C} c n n1 n2 (m : prog agent B) (f : B -> prog agent C) :
  keeps c n n1 m -> (forall b, keeps c n1 n2 (f b)) -> keeps c n n2 (bind m f).
Proof.
  intros H1 H2 s b s' Hs Ho E. unfold bind in E. destruct (m s) as [[b1 s1]|] eqn:E1; [|done].
  destruct (H1 s b1 s1 Hs Ho E1). by eapply H2.
Qed.
Lemma keeps_deref {B} c n (p : option B) : keeps c n n (deref_ptr p).
Proof. intros s b s' Hs Ho. unfold deref_ptr. destruct p; [|done]. by intros [= _ <-]. Qed.
Lemma keeps_gets {B} c n (f : agent -> B) : keeps c n n (gets f).
Proof. intros s b s' Hs Ho [= _ <-]. done. Qed.
Lemma keeps_tell c n e : keeps c n n (tell e).
Proof. intros s b s' Hs Ho [= _ <-]. split; [by apply told_ok|exact Ho]. Qed.
Lemma keeps_get_conn c n c' : keeps c n n (get_conn c').
Proof.
  intros s k s' Hs Ho. unfold get_conn, bind, gets, deref_ptr.
  destruct (connections s !! c'); [|done]. by intros [= _ <-].
Qed.
Lemma keeps_set_conn c n f :
  (forall k, same_role k (f k) /\ sock (f k) = sock k) -> keeps c n n (set_conn c f).
Proof.
  intros Hf s b s' [W U] (k & E & Hk & Hn). rewrite (set_conn_eq s c k f E). intros [= _ <-].
  destruct (Hf k) as [Hr Hs]. assert (Ha := proj1 (proj2 Hr)). split; [split|].
  - apply (conn_update_wf None s c k); try done. by right.
  - by apply (with_conn_used s c k).
  - exists (f k). rewrite conns_with, Hs, Ha. by case_decide.
Qed.
Lemma keeps_weaken {B} c n n1 n2 (m : prog agent B) : keeps c n n1 m -> n2 <= n1 -> keeps c n n2 m.
Proof.
  intros H Hle s b s' Hs Ho E. destruct (H s b s' Hs Ho E) as [Hs' (k & Ek & Hk & Hn)].
  split; [done|]. exists k. split_and!; [done|done|lia].
Qed.

Create HintDb keeps.
#[local] Hint Resolve keeps_ret keeps_deref keeps_gets keeps_tell keeps_get_conn : keeps.
Ltac keeps_step :=
  first [solve [eauto with keeps] | apply keeps_set_conn; intros ?; by split_and!].
Ltac keeps_bind := eapply keeps_bind; [keeps_step|intros ?].

Lemma keeps_send_loop fuel sent i c n a m b : keeps c n n (message_send_loop fuel sent i c a m b).
Proof.
  revert i m b. induction fuel as [|fuel IH]; intros i m b; [by intros s ? ? _ _|].
  cbn [message_send_loop]. do 3 keeps_bind. destruct b2 as [[[result g] m'] stream]. keeps_bind.
  destruct result; [do 3 keeps_bind|do 3 keeps_bind|]; eauto with keeps.
Qed.

Lemma keeps_send sent c n a m : keeps c n n (mrcp_server_agent_messsage_send sent (Some c) a m).
Proof.
  unfold mrcp_server_agent_messsage_send. keeps_bind. destruct (negb _); [eauto with keeps|apply keeps_send_loop].
Qed.

Lemma keeps_associate c n m : 1 < n -> keeps c n (n - 1) (mrcp_connection_channel_associate c m).
Proof.
  intros Hn s b s' Hs (k & E & Hk & Hlim) Hr.
  destruct (associate_ok c m s k Hs E Hk ltac:(lia)) as (s1 & k' & Er & Hs1 & E' & Hk' & Hle & _).
  rewrite Er in Hr. injection Hr as _ <-. split; [done|]. exists k'. split_and!; [done|congruence|lia].
Qed.

Lemma keeps_next c n : keeps c n n (modify (fun s : agent => s <| next_address := S (next_address s) |>)).
Proof.
  intros s b s' [W U] Ho [= _ <-]. split; [|exact Ho]. split; [|exact U].
  apply (wf_same None s); try done. simpl. lia.
Qed.

Lemma keeps_handler sent c n m status :
  1 < n -> keeps c n (n - 1) (mrcp_server_message_handler sent c m status).
Proof.
  intros Hn. assert (Hret : forall b : bool, keeps c n (n - 1) (ret b)).
  { intros r. by apply (keeps_weaken c n n); [apply keeps_ret|lia]. }
  destruct status, m as [m|]; cbn [mrcp_server_message_handler]; try apply Hret.
  - eapply keeps_bind; [by apply keeps_associate|intros [ch|]; [|eauto with keeps]].
    keeps_bind. eauto with keeps.
  - destruct (resource m); [|apply Hret]. apply (keeps_weaken c n n); [|lia].
    keeps_bind. eapply (keeps_bind c n n); [apply keeps_next|intros _].
    eapply keeps_bind; [apply keeps_send|intros ?; eauto with keeps].
Qed.

Lemma keeps_receive_loop fuel sent c n :
  Z.of_nat fuel < n -> keeps c n (n - Z.of_nat fuel) (message_receive_loop fuel sent c).
Proof.
  revert n. induction fuel as [|fuel IH]; intros n Hn.
  { apply (keeps_weaken c n n); [apply keeps_ret|lia]. }
  cbn [message_receive_loop]. do 3 keeps_bind. destruct b1 as [[[status m] p] st]. keeps_bind.
  eapply keeps_bind; [apply keeps_handler; lia|intros ?]. keeps_bind.
  destruct (apt_text_is_eos _).
  - eapply keeps_weaken; [apply keeps_ret|lia].
  - eapply keeps_weaken; [apply IH; lia|lia].
Qed.

Lemma close_keeps c s b s' :
  agent_ok s -> (exists k, connections s !! c = Some k /\ sock k = true) ->
  mrcp_server_agent_connection_close c s = Some (b, s') -> agent_ok s'.
Proof.
  intros Hs (k & E & Hk) Hr. destruct (close_ok c s k Hs E Hk) as (b0 & s0 & E0 & Hs0). congruence.
Qed.

(** A segment may hold one message per byte at most. *)
Lemma signal_keeps sent c data s b s' :
  agent_ok s -> (forall k, connections s !! c = Some k ->
    access_count k + Z.of_nat (S (S (rx_buffer_size k))) < 2 ^ 64) ->
  mrcp_server_poller_signal_process sent c data s = Some (b, s') -> agent_ok s'.
Proof.
  intros Hs Hroom. unfold mrcp_server_poller_signal_process.
  destruct (connections s !! c) as [k|] eqn:E.
  2: { unfold bind at 1, get_conn, bind, gets, deref_ptr. by rewrite E. }
  specialize (Hroom k eq_refl). rewrite (bind_run _ _ _ _ _ (get_conn_eq s c k E)).
  destruct (sock k) eqn:Hk; cbn [negb]; [|by intros [= _ <-]]. cbv zeta.
  set (d := take _ data). destruct (Nat.eqb_spec (length d) 0) as [Hd|Hd].
  { apply close_keeps; [done|by exists k]. }
  set (n := Z.of_nat (S (S (rx_buffer_size k)))) in *.
  unfold bind at 1, deref_ptr at 1. destruct (stream_receive d (rx_stream k)) as [st|] eqn:Est; [|done].
  assert (Hlen : (length (window (apt_text_stream_reset st)) <= rx_buffer_size k)%nat).
  { unfold window. rewrite length_take. unfold stream_receive in Est.
    destruct (store _ _) as [[u st1]|]; [|done]. injection Est as <-. cbn [apt_text_stream_reset st_end st_pos st_base st_text_len].
    assert (length d <= rx_buffer_size k - (st_pos (rx_stream k) - st_base (rx_stream k)))%nat
      by (unfold d; rewrite length_take; lia). lia. }
  intros Hr. eapply (keeps_bind c n n 0); [| |exact Hs|exists k; by split_and!|exact Hr];
    [apply keeps_set_conn; intros ?; by split_and!|intros ?].
  eapply keeps_bind; [eapply keeps_weaken; [apply keeps_receive_loop; unfold n; lia|apply Z.le_refl]|intros ?].
  apply (keeps_weaken c (n - Z.of_nat (S (length (window (apt_text_stream_reset st)))))
           (n - Z.of_nat (S (length (window (apt_text_stream_reset st)))))); [|unfold n; lia].
  do 3 keeps_bind. eauto with keeps.
Qed.

(** * The life of the agent *)

(** What the owner of the agent and its poller ask for. *)
Inductive agent_op :=
| OP_CREATE
| OP_DESTROY (ch : addr)
| OP_TASK (sent : nat -> bool) (msg : @connection_task_msg_t R)
| OP_ACCEPT (outcome : accept_outcome)
| OP_SIGNAL (sent : nat -> bool) (c : addr) (data : bytes).

Definition op_run (op : agent_op) : prog agent unit :=
  match op with
  | OP_CREATE => mrcp_server_control_channel_create ;;; ret tt
  | OP_DESTROY ch => mrcp_server_control_channel_destroy (Some ch) ;;; ret tt
  | OP_TASK sent msg => mrcp_server_agent_msg_process sent msg ;;; ret tt
  | OP_ACCEPT outcome => mrcp_server_agent_connection_accept outcome ;;; ret tt
  | OP_SIGNAL sent c data => mrcp_server_poller_signal_process sent c data ;;; ret tt
  end.

(** The name a channel is added by is not in use, and there is room for it. *)
Definition name_free s (offer : mrcp_control_descriptor_t) : Prop :=
  forall n k, null_connection s = Some n -> connections s !! n = Some k ->
    apr_hash_get (channel_table k) (str_data (channel_name offer)) = None /\
    access_count k + 1 < 2 ^ 64.

(** The owner adds a channel once, removes one it added, and destroys one that is not in use. *)
Definition op_allowed (op : agent_op) s : Prop :=
  match op with
  | OP_CREATE | OP_ACCEPT _ => True
  | OP_DESTROY ch =>
      exists x, channels s !! ch = Some x /\ (connection x = None \/ removed x = true)
  | OP_TASK _ msg =>
      match type msg with
      | CONNECTION_TASK_MSG_ADD_CHANNEL =>
          (exists x, channels s !! msg_channel msg = Some x /\ connection x = None /\ removed x = false) /\
          name_free s (msg_descriptor msg)
      | CONNECTION_TASK_MSG_MODIFY_CHANNEL => is_Some (channels s !! msg_channel msg)
      | CONNECTION_TASK_MSG_REMOVE_CHANNEL => exists c x, attached s c (msg_channel msg) x
      | CONNECTION_TASK_MSG_SEND_MESSAGE => True
      end
  | OP_SIGNAL _ c _ =>
      exists k, connections s !! c = Some k /\
        access_count k + Z.of_nat (S (S (rx_buffer_size k))) < 2 ^ 64
  end.

(** No message is parsed or generated. *)
Definition op_plain (op : agent_op) : Prop :=
  match op with
  | OP_TASK _ msg => type msg <> CONNECTION_TASK_MSG_SEND_MESSAGE
  | OP_SIGNAL _ _ data => data = []
  | _ => True
  end.

Inductive agent_reaches (f : mrcp_resource_factory_t R) (port : Z) (force : bool) : agent -> Prop :=
| reaches_start : agent_reaches f port force (mrcp_server_connection_agent_create f port force)
| reaches_step op s s' :
    agent_reaches f port force s -> op_allowed op s -> op_run op s = Some (tt, s') ->
    agent_reaches f port force s'.

Lemma run_drop {B} (m : prog agent B) s : runs_ok m s -> runs_ok (m ;;; ret tt) s.
Proof.
  intros (b & s' & E & Hs'). exists tt, s'. split; [|done]. by rewrite (bind_run _ _ _ _ _ E).
Qed.

Lemma task_plain_ok sent msg s :
  agent_ok s -> op_allowed (OP_TASK sent msg) s -> type msg <> CONNECTION_TASK_MSG_SEND_MESSAGE ->
  runs_ok (mrcp_server_agent_msg_process sent msg) s.
Proof.
  intros Hs Ha Ht. unfold mrcp_server_agent_msg_process. cbn [op_allowed] in Ha.
  assert (Hgo : forall m : prog agent unit, runs_ok m s -> runs_ok (m ;;; ret true) s).
  { intros m (b & s' & E & Hs'). exists true, s'. split; [|done]. by rewrite (bind_run _ _ _ _ _ E). }
  apply Hgo. destruct (type msg).
  - destruct Ha as ((x & Ex & Hx & Hr) & Hfree). by eapply add_ok.
  - by apply modify_ok.
  - destruct Ha as (c & x & Ha). assert (Ha' := Ha). destruct Ha' as (Ex & Ec & _).
    destruct (wf_live None s (proj1 Hs) _ x c Ex Ec) as [k E]. by eapply remove_ok.
  - done.
Qed.

Lemma op_plain_ok op s :
  agent_ok s -> op_allowed op s -> op_plain op -> runs_ok (op_run op) s.
Proof.
  intros Hs Ha Hp. destruct op as [|ch|sent msg|outcome|sent c data]; apply run_drop.
  - by apply create_ok.
  - destruct Ha as (x & Ex & Hx). by eapply destroy_ok.
  - by apply task_plain_ok.
  - by apply accept_ok.
  - destruct Ha as (k & E & _). cbn [op_plain] in Hp. subst data.
    unfold runs_ok, mrcp_server_poller_signal_process. rewrite (bind_run _ _ _ _ _ (get_conn_eq s c k E)).
    destruct (sock k) eqn:Hk; cbn [negb]; [|by exists false, s]. cbv zeta. rewrite take_nil. cbn [length].
    by eapply close_ok.
Qed.

Lemma send_keeps sent conn a m s b s' :
  agent_ok s -> mrcp_server_agent_messsage_send sent conn a m s = Some (b, s') -> agent_ok s'.
Proof.
  intros Hs E. destruct conn as [c|]; [|by injection E as _ <-].
  destruct (connections s !! c) as [k|] eqn:Ec.
  2: { unfold mrcp_server_agent_messsage_send, bind at 1, get_conn, bind, gets, deref_ptr in E.
       by rewrite Ec in E. }
  destruct (sock k) eqn:Hk.
  - destruct (wf_table None s (proj1 Hs) c k Ec) as [[_ Hlim] _].
    eapply (keeps_send sent c 0); [exact Hs| |exact E]. exists k. split_and!; [done|done|lia].
  - unfold mrcp_server_agent_messsage_send in E. rewrite (bind_run _ _ _ _ _ (get_conn_eq s c k Ec)), Hk in E.
    by injection E as _ <-.
Qed.

Lemma op_keeps op s s' :
  agent_ok s -> op_allowed op s -> op_run op s = Some (tt, s') -> agent_ok s'.
Proof.
  intros Hs Ha E.
  assert (Hplain : op_plain op -> agent_ok s').
  { intros Hp. destruct (op_plain_ok op s Hs Ha Hp) as ([] & s1 & E1 & Hs1). rewrite E in E1. by injection E1 as ->. }
  destruct op as [|ch|sent msg|outcome|sent c data]; try by apply Hplain.
  - destruct (type msg) eqn:Ht; try (apply Hplain; cbn [op_plain]; congruence).
    unfold op_run, mrcp_server_agent_msg_process in E. rewrite Ht in E. unfold bind in E.
    destruct (get_chan _ s) as [[x s1]|] eqn:Ex; [|done].
    assert (s1 = s) as ->.
    { unfold get_chan, bind, gets, deref_ptr in Ex. destruct (channels s !! _); [by injection Ex as _ ->|done]. }
    destruct (msg_message msg) as [[a m]|]; [|done]. unfold deref_ptr, ret at 1 in E. cbn [fst snd] in E.
    destruct (mrcp_server_agent_messsage_send sent (connection x) a m s) as [[r s2]|] eqn:Es; [|done].
    injection E as <-. by eapply send_keeps.
  - destruct Ha as (k & Ek & Hroom). unfold op_run, bind in E.
    destruct (mrcp_server_poller_signal_process sent c data s) as [[r s2]|] eqn:Es; [|done].
    injection E as <-. eapply signal_keeps; [exact Hs| |exact Es]. intros k' Ek'. congruence.
Qed.

Lemma start_ok f p force : agent_ok (mrcp_server_connection_agent_create f p force).
Proof.
  set (s := mrcp_server_connection_agent_create f p force).
  assert (Hc : forall c, connections s !! c = None) by (intros; apply lookup_empty).
  assert (Hch : forall ch, channels s !! ch = None) by (intros; apply lookup_empty).
  split; [|by intros n k [=]]. split.
  - done.
  - split; [constructor|]. intros c. split; [by intros ?%list.not_elem_of_nil|].
    intros (k & E & _). congruence.
  - intros ch x c E. congruence.
  - intros c k E. congruence.
  - intros c ch (x & E & _). congruence.
  - intros c k E. congruence.
  - intros c k E. congruence.
  - intros c k E. congruence.
  - done.
Qed.

Lemma reaches_ok f p force s : agent_reaches f p force s -> agent_ok s.
Proof. induction 1 as [|op s s' H IH Ha E]; [apply start_ok|by eapply op_keeps]. Qed.

End Safety.

(** * The property *)

(** C2: whatever channels are created, added, removed and destroyed, whatever sockets are accepted and
    closed and whatever messages arrive and are sent, in any order the owner may ask for: every
    request is carried out without the use of a connection or channel that was freed (parsing
    and generating messages apart); a channel refers to a live connection, whose table leads
    back to it; and no connection is left behind: each is in the list, open or with channels, or
    is the container, in use, or waits for exactly one channel that destroys it. *)
Theorem server_agent_safe `{Apr} {R : Type} {Hash : AprHash (mrcp_resource_t R)}
    {Table : AprHash addr} {TL : AprHashLaws Table} (f : mrcp_resource_factory_t R) (p : Z) (force : bool)
    (s : mrcp_connection_agent_t) :
  agent_reaches f p force s ->
  (forall op, op_allowed op s -> op_plain op -> exists s', op_run op s = Some (tt, s')) /\
  (forall ch x c, channels s !! ch = Some x -> connection x = Some c ->
     exists k, connections s !! c = Some k /\
       (removed x = false -> apr_hash_get (channel_table k) (str_data (identifier x)) = Some ch)) /\
  (forall c k, connections s !! c = Some k ->
     (it k = true /\ (sock k = true \/ access_count k <> 0)) \/
     (null_connection s = Some c /\ (connection_list s <> Some [] \/ access_count k <> 0)) \/
     exists ch, awaits s c ch /\ forall ch', awaits s c ch' -> ch' = ch).
Proof.
  intros Hr%reaches_ok. assert (Hr' := Hr). destruct Hr' as [W U]. split_and!.
  - intros op Ha Hp. destruct (op_plain_ok op s Hr Ha Hp) as ([] & s' & E & _). by exists s'.
  - intros ch x c Ex Ec. destruct (wf_live None s W ch x c Ex Ec) as [k E]. exists k. split; [done|].
    intros Hx. eapply attached_key; [exact W|exact E|done].
  - intros c k E. destruct (wf_owned None s W c k E) as [I|[Hn|[(ch & Hw)|]]]; [| | |done].
    + left. split; [done|]. destruct (wf_used None s W c k E I) as [|[|]]; [by left|by right|done].
    + right. left. split; [done|by apply (U c k)].
    + right. right. exists ch. split; [done|]. by apply (wf_awaits None s W c ch).
Qed.
Definition sample_offer : mrcp_control_descriptor_t :=
  mrcp_control_offer_create <| desc_session_id := str_lit "32AECB23" |>
    <| desc_resource_name := str_lit "speechsynth" |>.

(** A channel is created and added. *)
Lemma server_agent_safe_witness :
  exists s s' : @mrcp_connection_agent_t unit (apr_hash_reference _) (apr_hash_reference _),
    channels s !! 0%nat = Some (mk_channel None false apt_string_reset) /\
    @op_run apr_reference unit (apr_hash_reference _) (apr_hash_reference _)
      (OP_TASK (fun _ => true)
         (mk_task_msg CONNECTION_TASK_MSG_ADD_CHANNEL 0%nat sample_offer None)) s
    = Some (tt, s').
Proof.
  set (H1 := apr_hash_reference (mrcp_resource_t unit)). set (H2 := apr_hash_reference addr).
  set (s0 := @mrcp_server_connection_agent_create unit H1 H2
               (mk_factory [] (@apr_hash_make _ H1)) 0 false).
  set (s1 := match @op_run apr_reference unit H1 H2 OP_CREATE s0 with
             | Some (_, s) => s | None => s0 end).
  exists s1.
  destruct (@server_agent_safe apr_reference unit H1 H2 (apr_hash_reference_laws addr)
              (mk_factory [] (@apr_hash_make _ H1)) 0 false s1) as [H _].
  - apply (reaches_step _ _ _ OP_CREATE s0); [apply reaches_start|exact I|reflexivity].
  - destruct (H (OP_TASK (fun _ => true)
      (mk_task_msg CONNECTION_TASK_MSG_ADD_CHANNEL 0%nat sample_offer None))) as [s' E].
    + split; [|intros n k [=]]. eexists. split; [reflexivity|]. by split.
    + discriminate.
    + exists s'. split; [reflexivity|exact E].
Defined.
