(* ===== verification/ServerStream.v ===== *)
(** The messages of the connection agent ([ServerAgent]) on the wire: a message that is sent goes out
    as a whole, in pieces the transmit buffer takes; messages that arrive reach the owner in
    their order; the loops of both come to their end. *)

From S2P Require Import Prelude AprHash AptString TextStream TextValues HeaderField TextMessage StartLine MrcpHeader GenericHeader Message MessageParser ResourceFactory MrcpStream FieldsParse StreamRoundtrip ParserProgress Transport ServerAgent ServerAgentSafety.

(** * What goes out *)

Lemma validate_body {A : Apr} {R : Type} (m m1 : mrcp_message_t R) (ok : bool) :
  mrcp_message_validate m = Some (ok, m1) -> body m1 = body m.
Proof.
  unfold mrcp_message_validate. destruct (_ =? _)%nat; [by intros [= _ <-]|].
  destruct (mrcp_generic_header_prepare m) as [g m0] eqn:Ep.
  assert (Hb : body m0 = body m).
  { revert Ep. unfold mrcp_generic_header_prepare. intros E. injection E as _ <-. done. }
  destruct g as [g|]; [|by intros [= _ <-]].
  destruct (_ || _); [|by intros [= _ <-]].
  unfold mrcp_generic_header_property_add, property_add.
  repeat case_match; try done; intros; simplify_eq; done.
Qed.

Section Send.
Context `{LA : AprLaws} {R : Type} {Hash : AprHash (mrcp_resource_t R)} {Table : AprHash addr}.
Abbreviation agent := mrcp_connection_agent_t.
Implicit Types (s : agent) (k : mrcp_connection_t) (c : addr).

(** The transmit buffer as [mrcp_server_agent_connection_accept] makes it. *)
Definition tx_ready k : Prop :=
  length (tx_buffer k) = S (tx_buffer_size k) /\ Z.of_nat (S (tx_buffer_size k)) < 2 ^ 64 /\
  (0 < tx_buffer_size k)%nat.

(** What the transport made of the pieces from number [i] on: one that was accepted is enough. *)
Definition some_sent (sent : nat -> bool) (i n : nat) : bool := existsb sent (seq i n).

(** A generator in the middle of the body of the message at address [a]. *)
Definition generator_in_body (g : mrcp_generator_t) (a : addr) (n : nat) : Prop :=
  generator_vtable (generator_base g) = mrcp_generator_vtable /\
  generator_message (generator_base g) = Some a /\
  generator_content_length (generator_base g) = n /\
  generator_stage (generator_base g) = APT_MESSAGE_STAGE_BODY.

(** [d] goes out in pieces the buffer takes, whatever the transport makes of them. *)
Definition sends_all (sent : nat -> bool) (i : nat) c a (b : bool) (d : bytes) s
    (r : option (bool * mrcp_message_t R * agent)) : Prop :=
  exists pieces m' s', r = Some (some_sent sent i (length pieces) || b, m', s') /\
    concat pieces = d /\ pieces <> [] /\
    agent_out s' = agent_out s ++ map (SOCKET_SEND c) pieces /\
    exists k k' g', connections s !! c = Some k /\ connections s' !! c = Some k' /\
      conn_generator k' = Some g' /\ generator_idle g' a /\ tx_ready k' /\
      tx_buffer_size k' = tx_buffer_size k /\ sock k' = sock k /\
      Forall (fun p => length p <= tx_buffer_size k)%nat pieces.

(** One pass of the loop: what was generated is handed to the transport. *)
Lemma send_pass fuel sent i c a m b s k g result g' m' st :
  connections s !! c = Some k -> conn_generator k = Some g -> tx_ready k ->
  mrcp_generator_run g a m (apt_text_stream_init (tx_buffer k) (tx_buffer_size k))
    = Some ((result, g', m'), st) ->
  (st_base st <= st_pos st <= tx_buffer_size k)%nat -> length (st_mem st) = S (tx_buffer_size k) ->
  result <> APT_MESSAGE_STATUS_INVALID ->
  exists s' k', agent_out s' = agent_out s ++ [SOCKET_SEND c (message_text st)] /\
    connections s' !! c = Some k' /\ conn_generator k' = Some g' /\ tx_ready k' /\
    tx_buffer_size k' = tx_buffer_size k /\ sock k' = sock k /\
    message_send_loop (S fuel) sent i c a m b s =
    match result with
    | APT_MESSAGE_STATUS_INCOMPLETE => message_send_loop fuel sent (S i) c a m' (sent i || b) s'
    | _ => Some (sent i || b, m', s')
    end.
Proof.
  intros E Eg (Hl & Hlim & Hz) Er Hp Hm Hres.
  destruct (stream_text_stored st) as (st' & Est & Ht & Hl'); [lia|].
  set (k1 := k <| conn_generator := Some g' |> <| tx_buffer := st_mem st |>).
  set (k2 := k1 <| tx_buffer := st_mem st' |>).
  set (s2 := with_conn c k2 (with_conn c k1 s)).
  exists (s2 <| agent_out := agent_out s2 ++ [SOCKET_SEND c (message_text st)] |>), k2.
  split_and!; try done.
  - change (connections s2 !! c = Some k2). apply lookup_insert_eq.
  - split; [|done]. cbn. lia.
  - cbn [message_send_loop]. rewrite (bind_run _ _ _ _ _ (get_conn_eq s c k E)), Eg.
    erewrite bind_run by reflexivity. rewrite Er. erewrite bind_run by reflexivity. cbv beta iota zeta.
    erewrite bind_run by by apply set_conn_eq.
    destruct result; [| |done].
    all: rewrite Est; erewrite bind_run by reflexivity;
      erewrite bind_run by (apply (set_conn_eq _ c k1), lookup_insert_eq);
      erewrite bind_run by reflexivity; cbn [snd]; rewrite Ht; done.
Qed.
(** A piece of the body. *)
Lemma generator_run_piece (g : mrcp_generator_t) (a : addr) (m : mrcp_message_t R) (bd : apt_str_t)
    (j : nat) (st : apt_text_stream_t) :
  generator_in_body g a (str_len bd) -> body m = mk_str (str_buf bd) j -> str_wf bd ->
  (j < str_len bd)%nat -> stream_wf st -> addressable st -> (st_base st <= st_pos st)%nat ->
  st_end st = (st_base st + st_text_len st)%nat ->
  let room := (st_end st - st_pos st)%nat in
  let d := take room (drop j (str_text bd)) in
  let fits := (str_len bd - j <=? room)%nat in
  exists g' m' st',
    (let* r := generator_run_body (generator_base g) m in
     let '(status, base, m) := r in ret (status, mk_mrcp_generator base (generator_factory g), m)) st
    = Some ((if fits then APT_MESSAGE_STATUS_COMPLETE else APT_MESSAGE_STATUS_INCOMPLETE, g', m'), st') /\
    body m' = mk_str (str_buf bd) (j + length d) /\ emits d st st' /\
    if fits then generator_idle g' a else generator_in_body g' a (str_len bd).
Proof.
  intros (Hv & Hm & Hc & Hs) Hb Wb Hj W Ad Hbp He room d fits.
  destruct (body_write_piece st bd j W Ad Wb Hbp He Hj) as (st' & E & M).
  fold room in E, M. fold d in E, M. fold fits in E.
  unfold generator_run_body. rewrite Hc. change (ctx_body m) with (body m). rewrite Hb.
  unfold bind. rewrite E. cbv beta iota zeta. destruct fits eqn:Hf; unfold fits in Hf; cbn [negb].
  - eexists _, _, st'. split; [reflexivity|]. split; [done|]. split; [done|]. by split; [|right].
  - apply Nat.leb_gt in Hf. unfold generator_break, bind, gets, apt_message_generator_break.
    assert (Heos : apt_text_is_eos st' = true).
    { unfold apt_text_is_eos. rewrite (emits_pos _ _ _ M), (emits_end _ _ _ M).
      assert (length d = room). { unfold d. rewrite length_take, length_drop, (Wb : length _ = _). lia. }
      rewrite (proj2 (Nat.leb_le _ _)); [done|lia]. }
    rewrite Heos. eexists _, _, st'. split; [reflexivity|]. split; [done|]. split; [done|]. by split_and!.
Qed.

Lemma run_in_body (g : mrcp_generator_t) (a : addr) (m : mrcp_message_t R) (n : nat) st :
  generator_in_body g a n ->
  mrcp_generator_run g a m st
  = (let* r := generator_run_body (generator_base g) m in
     let '(status, base, m) := r in ret (status, mk_mrcp_generator base (generator_factory g), m)) st.
Proof.
  intros (_ & Hm & _ & Hs). unfold mrcp_generator_run, apt_message_generator_run.
  rewrite decide_True by done. by rewrite Hs.
Qed.

(** The stream over the empty buffer. *)
Lemma tx_stream_facts k :
  tx_ready k ->
  let st := apt_text_stream_init (tx_buffer k) (tx_buffer_size k) in
  stream_wf st /\ addressable st /\ st_base st = 0%nat /\ st_pos st = 0%nat /\
  st_end st = tx_buffer_size k /\ st_text_len st = tx_buffer_size k /\
  length (st_mem st) = S (tx_buffer_size k).
Proof.
  intros (Hl & Hlim & Hz) st. unfold stream_wf, addressable. cbn. split_and!; try done; lia.
Qed.

Lemma fresh_text (d : bytes) (st st' : apt_text_stream_t) :
  emits d st st' -> stream_wf st -> st_base st = 0%nat -> st_pos st = 0%nat ->
  message_text st' = d /\ st_base st' = 0%nat /\ st_pos st' = length d /\
  length (st_mem st') = length (st_mem st) /\ (length d <= st_end st)%nat.
Proof.
  intros M W Hb Hp. rewrite (emits_message_text _ _ _ M W) by lia.
  pose proof (emits_pos _ _ _ M) as P. pose proof (emits_end _ _ _ M) as En.
  pose proof (emits_wf _ _ _ M) as W'. destruct M as ((_ & B & _ & _ & _ & Mm & _) & _).
  unfold message_text. rewrite Hb, Hp. cbn [take drop app]. unfold stream_wf in W'.
  split_and!; lia || done.
Qed.

Lemma some_sent_cons sent i n b :
  some_sent sent (S i) n || (sent i || b) = some_sent sent i (S n) || b.
Proof. unfold some_sent. cbn [seq existsb]. by destruct (sent i), (existsb _ _). Qed.

(** A piece and then the rest. *)
Lemma sends_more sent i c a b p d s s' k k' g' r :
  connections s !! c = Some k -> connections s' !! c = Some k' ->
  agent_out s' = agent_out s ++ [SOCKET_SEND c p] -> (length p <= tx_buffer_size k)%nat ->
  tx_buffer_size k' = tx_buffer_size k -> sock k' = sock k -> conn_generator k' = Some g' ->
  sends_all sent (S i) c a (sent i || b) d s' r -> sends_all sent i c a b (p ++ d) s r.
Proof.
  intros E E' Ho Hp Hsz Hsk Hg (pieces & m' & s2 & -> & <- & _ & Ho2 & k1 & k2 & g2 & E1 & E2 & H).
  assert (k1 = k') as -> by congruence. exists (p :: pieces), m', s2.
  rewrite some_sent_cons. split; [done|]. split; [done|]. split; [done|].
  split; [by rewrite Ho2, Ho, <-app_assoc|]. exists k, k2, g2. rewrite Hsz, Hsk in H.
  destruct H as (? & ? & ? & ? & ? & ?). split_and!; try done. by constructor.
Qed.

Lemma sends_last sent i c a b p m' s s' k k' g' :
  connections s !! c = Some k -> connections s' !! c = Some k' ->
  agent_out s' = agent_out s ++ [SOCKET_SEND c p] -> (length p <= tx_buffer_size k)%nat ->
  tx_buffer_size k' = tx_buffer_size k -> sock k' = sock k -> conn_generator k' = Some g' ->
  generator_idle g' a -> tx_ready k' ->
  sends_all sent i c a b p s (Some (sent i || b, m', s')).
Proof.
  intros E E' Ho Hp Hsz Hsk Hg Hi Ht. exists [p], m', s'. unfold some_sent. cbn [length seq existsb].
  rewrite orb_false_r. split; [done|]. split; [apply app_nil_r|]. split; [done|]. split; [done|].
  exists k, k', g'. split_and!; try done. by constructor.
Qed.

Lemma send_body_loop fuel : forall sent i c a m b s k g bd j,
  connections s !! c = Some k -> conn_generator k = Some g -> tx_ready k ->
  generator_in_body g a (str_len bd) -> body m = mk_str (str_buf bd) j -> str_wf bd ->
  (j < str_len bd)%nat -> (str_len bd - j <= fuel)%nat ->
  sends_all sent i c a b (drop j (str_text bd)) s (message_send_loop fuel sent i c a m b s).
Proof.
  induction fuel as [|fuel IH]; intros sent i c a m b s k g bd j E Eg Hk Hg Hb Wb Hj Hf; [lia|].
  destruct (tx_stream_facts k Hk) as (W & Ad & Hb0 & Hp0 & He & Hl & Hm).
  set (st := apt_text_stream_init (tx_buffer k) (tx_buffer_size k)) in *.
  destruct (generator_run_piece g a m bd j st Hg Hb Wb Hj W Ad ltac:(lia) ltac:(lia))
    as (g' & m' & st' & Er & Hb' & M & Hg').
  rewrite <-(run_in_body g a m _ st Hg) in Er. rewrite He, Hp0, Nat.sub_0_r in Er, Hb', M, Hg'.
  set (d := take (tx_buffer_size k) (drop j (str_text bd))) in *.
  destruct (fresh_text d st st' M W Hb0 Hp0) as (Ht & Hb1 & Hp1 & Hm1 & Hd1).
  set (fits := (str_len bd - j <=? tx_buffer_size k)%nat) in *.
  assert (Hbp : (st_base st' <= st_pos st' <= tx_buffer_size k)%nat) by lia.
  destruct (send_pass fuel sent i c a m b s k g _ g' m' st' E Eg Hk Er Hbp)
    as (s' & k' & Ho & E' & Eg' & Hk' & Hsz & Hsk & Hrun); [lia|by destruct fits|].
  rewrite Ht in Ho. rewrite Hrun. clear Hrun Er.
  assert (Hld : length (drop j (str_text bd)) = (str_len bd - j)%nat).
  { by rewrite length_drop, (Wb : length _ = _). }
  destruct fits eqn:Hfit; unfold fits in Hfit.
  - apply Nat.leb_le in Hfit. assert (Hd : d = drop j (str_text bd)) by (apply take_ge; lia).
    rewrite <-Hd. eapply sends_last; done || lia.
  - apply Nat.leb_gt in Hfit. rewrite <-(take_drop (tx_buffer_size k) (drop j (str_text bd))). fold d.
    assert (Hdl : length d = tx_buffer_size k) by (unfold d; rewrite length_take; lia).
    destruct Hk as (_ & _ & Hz).
    eapply sends_more; try done. rewrite drop_drop, <-Hdl.
    eapply IH; try done; lia.
Qed.

(** A message of which there is room for the header is sent as a whole. *)
Lemma send_loop_message (f : mrcp_resource_factory_t R) m m1 r g a fuel sent c s k :
  mrcp_message_validate m = Some (true, m1) -> sendable f m1 r -> generator_idle g a ->
  connections s !! c = Some k -> conn_generator k = Some g -> tx_ready k ->
  (wire_room m1 < tx_buffer_size k + str_len (body m1))%nat -> Z.of_nat (wire_room m1) < 999999 ->
  (str_len (body m1) < fuel)%nat ->
  exists n, 0 <= n < 2 ^ 63 /\ n = Z.of_nat (length (message_wire m1 n)) /\
    sends_all sent 0 c a false (message_wire m1 n) s (message_send_loop fuel sent 0 c a m false s).
Proof.
  intros Hval Hm Hg E Eg Hk Hroom Hlim Hf.
  destruct (tx_stream_facts k Hk) as (W & Ad & Hb0 & Hp0 & He & Hl & Hmm).
  set (st := apt_text_stream_init (tx_buffer k) (tx_buffer_size k)) in *.
  destruct (generator_run_header f m m1 r Hval Hm g a st Hg W Ad) as
    (n & g1 & m2 & st1 & Er & Hn & Htxt & Hlen & Hgv & Hgm & Hgc & Hgs & W1 & Ad1 & Hbp & He1 & Een & Hml & Hfit);
    [lia..|].
  pose proof (send_body f m1 r Hm) as Wb. assert (Wl : length (str_text (body m1)) = str_len (body m1)) by exact Wb.
  exists n. split; [done|]. split; [by rewrite <-Htxt, length_app, Wl|].
  destruct fuel as [|fuel]; [lia|].
  destruct (Nat.eqb_spec (str_len (body m1)) 0) as [Hz|Hz].
  - assert (Hnil : str_text (body m1) = []) by (apply nil_length_inv; lia).
    rewrite Hnil, app_nil_r in Htxt.
    assert (Hbp' : (st_base st1 <= st_pos st1 <= tx_buffer_size k)%nat) by (unfold stream_wf in W1; lia).
    destruct (send_pass fuel sent 0 c a m false s k g _ g1 m2 st1 E Eg Hk Er Hbp')
      as (s' & k' & Ho & E' & Eg' & Hk' & Hsz & Hsk & Hrun); [lia|done|].
    rewrite Hrun. rewrite Htxt in Ho. eapply sends_last; try done; [|split; [done|by right]].
    rewrite <-Htxt. unfold message_text. rewrite length_drop, length_take. lia.
  - set (g2 := mk_mrcp_generator ((generator_base g1) <| generator_stage := APT_MESSAGE_STAGE_BODY |>)
                 (generator_factory g1)).
    destruct (generator_run_piece g2 a (m2 <| body := mk_str (str_buf (body m1)) 0 |>) (body m1) 0 st1)
      as (g' & m' & st' & Er' & Hb' & M & Hg'); try done; [lia|].
    change (generator_base g2) with ((generator_base g1) <| generator_stage := APT_MESSAGE_STAGE_BODY |>) in Er'.
    change (generator_factory g2) with (generator_factory g1) in Er'. rewrite <-Er in Er'. clear Er.
    rewrite drop_0, Nat.sub_0_r in *. cbn [Nat.add] in Hb'.
    set (room := (st_end st1 - st_pos st1)%nat) in *. set (d := take room (str_text (body m1))) in *.
    pose proof (emits_message_text _ _ _ M W1 Hbp) as Ht'.
    pose proof (emits_pos _ _ _ M) as P'. pose proof (emits_end _ _ _ M) as En'. pose proof (emits_wf _ _ _ M) as W'.
    destruct (emits_frame _ _ _ M) as (_ & B' & _ & _ & _ & Mm' & _).
    assert (Hbp' : (st_base st' <= st_pos st' <= tx_buffer_size k)%nat) by (unfold stream_wf in W'; lia).
    set (fits := (str_len (body m1) <=? room)%nat) in *.
    destruct (send_pass fuel sent 0 c a m false s k g _ g' m' st' E Eg Hk Er' Hbp')
      as (s' & k' & Ho & E' & Eg' & Hk' & Hsz & Hsk & Hrun); [lia|by destruct fits|].
    rewrite Hrun, Ht' in *. clear Hrun Er'.
    assert (Hdl : length d = Nat.min room (str_len (body m1))) by (unfold d; rewrite length_take; lia).
    assert (Hpl : (length (message_text st1 ++ d) <= tx_buffer_size k)%nat).
    { rewrite <-Ht'. unfold message_text. rewrite length_drop, length_take. lia. }
    destruct fits eqn:Hfits; unfold fits in Hfits.
    + apply Nat.leb_le in Hfits. rewrite <-Htxt.
      assert (Hd : d = str_text (body m1)) by (apply take_ge; lia). rewrite Hd in Ho, Hpl.
      eapply sends_last; done.
    + apply Nat.leb_gt in Hfits. rewrite <-Htxt, <-(take_drop room (str_text (body m1))), app_assoc. fold d.
      eapply sends_more; try done. assert (Hdr : room = length d) by lia. rewrite Hdr.
      eapply send_body_loop; try done; lia.
Qed.

End Send.

(** * What comes in *)

Section Receive.
Context `{LA : AprLaws} {R : Type} {Hash : AprHash (mrcp_resource_t R)} {Table : AprHash addr}
  {TL : AprHashLaws Table}.
Context (f : mrcp_resource_factory_t R).
Abbreviation agent := mrcp_connection_agent_t.
Implicit Types (s : agent) (k : mrcp_connection_t) (c : addr) (m : mrcp_message_t R).

(** A message that can be sent, with the length its start line tells; its body does not look like
    the continuation of its header. *)
Definition receivable (mn : mrcp_message_t R * Z) : Prop :=
  (exists r, sendable f (fst mn) r) /\ 0 <= snd mn < 2 ^ 63 /\
  apt_text_is_wsp (deref (str_text (body (fst mn)))) = false.

Definition wires (ms : list (mrcp_message_t R * Z)) : bytes :=
  concat (map (fun mn => message_wire (fst mn) (snd mn)) ms).

(** What the owner is told of messages on connection [c]: each for its channel, if there is one. *)
Definition received s c (ms : list (mrcp_message_t R)) : list agent_event :=
  concat (map (fun m => match routed s c (message_key m) with
                        | Some ch => [ON_RECEIVE ch m]
                        | None => []
                        end) ms).

Lemma wire_head m (n : Z) r : sendable f m r -> exists l, message_wire m n = "M"%char :: l.
Proof.
  intros Hm. unfold message_wire, start_line_words. rewrite (send_version f m r Hm).
  destruct (message_type (start_line m)); cbn; by eexists.
Qed.

Lemma wires_plain (b : bytes) ms :
  Forall receivable ms -> apt_text_is_wsp (deref b) = false ->
  apt_text_is_wsp (deref (b ++ wires ms)) = false.
Proof.
  intros Hms Hb. destruct b as [|ch b]; [|exact Hb]. cbn [app].
  destruct Hms as [|[m n] ms ((r & Hm) & _) Hms]; [done|].
  unfold wires. cbn [map concat fst snd]. destruct (wire_head m n r Hm) as [l ->]. done.
Qed.

(** A parsed message reaches the owner for its channel. *)
Lemma handler_complete sent c m s k :
  agent_ok s -> connections s !! c = Some k -> sock k = true -> access_count k + 1 < 2 ^ 64 ->
  exists s' k', mrcp_server_message_handler sent c (Some m) APT_MESSAGE_STATUS_COMPLETE s = Some (true, s') /\
    agent_ok s' /\ connections s' !! c = Some k' /\ sock k' = true /\
    access_count k' <= access_count k + 1 /\ rx_stream k' = rx_stream k /\
    rx_buffer_size k' = rx_buffer_size k /\ conn_parser k' = conn_parser k /\
    agent_out s' = agent_out s ++ received s c [m] /\ moved s c s' [message_key m].
Proof.
  intros Hs E Hk Hlim.
  destruct (associate_ok c m s k Hs E Hk Hlim) as (s1 & k1 & Ea & Hs1 & E1 & Hk1 & Hc1 & Hrx & Hsz & Hp & Ho & Hr).
  unfold mrcp_server_message_handler. rewrite (bind_run _ _ _ _ _ Ea).
  unfold received. cbn [map concat]. rewrite app_nil_r.
  destruct (routed s c (message_key m)) as [ch|].
  - exists (s1 <| agent_out := agent_out s1 ++ [ON_RECEIVE ch m] |>), k1. split; [reflexivity|].
    rewrite <-Ho. split_and!; try done; [by apply told_ok|congruence].
  - exists s1, k1. rewrite app_nil_r. by split_and!; try congruence.
Qed.

Lemma received_routed s s' c ms :
  (forall id, routed s' c id = routed s c id) -> received s' c ms = received s c ms.
Proof. intros H. unfold received. f_equal. apply map_ext. intros m. by rewrite H. Qed.

(** The rest of the connection does not matter to where the channels are. *)
Lemma set_conn_moved s c k k' :
  connections s !! c = Some k -> channel_table k' = channel_table k -> moved s c (with_conn c k' s) [].
Proof.
  intros E Ht. assert (Hsame : forall o id, tabled (with_conn c k' s) o id = tabled s o id).
  { intros [c0|] id; [|done]. unfold tabled. cbn [mbind option_bind]. rewrite conns_with.
    case_decide; [subst; by rewrite E; cbn [mbind option_bind]; rewrite Ht|done]. }
  split; [done|]. intros id. change (null_connection (with_conn c k' s)) with (null_connection s). rewrite !Hsame.
  split; case_decide as D; try done; [|destruct D as [D _]]; by apply list.not_elem_of_nil in D.
Qed.

(** The connection while its stream is read. *)
Record reading (s : agent) c k (rest : bytes) : Prop := {
  rg_ok : agent_ok s;
  rg_conn : connections s !! c = Some k;
  rg_sock : sock k = true;
  rg_parser : exists p, conn_parser k = Some p /\ parser_idle f p;
  rg_stream : reader_ok (rx_stream k);
  rg_eos : st_eos (rx_stream k) = false;
  rg_window : window (rx_stream k) = rest
}.

Lemma wires_length ms : Forall receivable ms -> (length ms <= length (wires ms))%nat.
Proof.
  intros Hms. induction Hms as [|[m n] ms ((r & Hm) & _) Hms IH]; [done|].
  unfold wires in *. cbn [map concat length fst snd]. destruct (wire_head m n r Hm) as [l ->].
  rewrite length_app. simpl. lia.
Qed.

(** [ms'] are what the receiver makes of the messages [ms] with the lengths their lines tell. *)
Definition recovered (mn : mrcp_message_t R * Z) (m' : mrcp_message_t R) : Prop :=
  message_same (fst mn) m' /\ str_text (body m') = str_text (body (fst mn)) /\
  length_ (start_line m') = snd mn.

Lemma receive_loop_messages sent c ms : forall fuel s k,
  reading s c k (wires ms) -> Forall receivable ms -> ms <> [] -> (length ms <= fuel)%nat ->
  access_count k + Z.of_nat (length ms) < 2 ^ 64 ->
  exists ms' s' k', message_receive_loop fuel sent c s = Some (true, s') /\
    Forall2 recovered ms ms' /\
    agent_out s' = agent_out s ++ received s c ms' /\ reading s' c k' [] /\
    advances (rx_stream k) (rx_stream k') /\ rx_buffer_size k' = rx_buffer_size k /\
    moved s c s' (map message_key ms').
Proof.
  induction ms as [|[m n] ms IH]; [done|]. intros fuel s k [Hs E Hk (p & Ep & Hp) Hrd Heos Hw] Hms _ Hf Hlim.
  apply Forall_cons_iff in Hms as [((r & Hm) & Hn & Hwsp) Hms]. cbn [fst snd] in *.
  destruct fuel as [|fuel]; [simpl in Hf; lia|]. cbn [message_receive_loop]. cbn [length] in Hlim, Hf.
  rewrite (bind_run _ _ _ _ _ (get_conn_eq s c k E)), Ep. erewrite bind_run by reflexivity.
  destruct (parser_run_message f m r Hm p n (rx_stream k) (wires ms) Hp Hrd Heos Hn Hw)
    as (m' & p' & rd' & Er & Hsame & Hlen & Hres & Hbody & Hp' & Hw' & Hrd' & Heos').
  { by apply wires_plain. }
  assert (Hne : window (rx_stream k) <> []).
  { rewrite Hw. unfold wires. cbn [map concat fst snd]. by destruct (wire_head m n r Hm) as [l ->]. }
  destruct (parser_run_progress f p _ _ _ _ _ (idle_fit f p Hp) Hrd Hne Er) as [[Hadv _] _].
  rewrite Er. erewrite bind_run by reflexivity. cbv beta iota zeta.
  set (k1 := k <| conn_parser := Some p' |> <| rx_stream := rd' |>).
  erewrite bind_run by by apply (set_conn_eq s c k). fold k1.
  assert (Hrole : same_role k k1) by by split_and!.
  assert (Hs1 : agent_ok (with_conn c k1 s)).
  { destruct Hs as [W U]. split; [|by apply (with_conn_used s c k)].
    by apply (conn_update_wf None s c k k1 W E Hrole); right. }
  assert (E1 : connections (with_conn c k1 s) !! c = Some k1) by apply lookup_insert_eq.
  destruct (handler_complete sent c m' _ k1 Hs1 E1 Hk) as (s2 & k2 & Eh & Hs2 & E2 & Hk2 & Hc2 & Hrx2 & Hsz2 & Hp2 & Ho2 & Hr2).
  { change (access_count k1) with (access_count k). lia. }
  rewrite (bind_run _ _ _ _ _ Eh), (bind_run _ _ _ _ _ (get_conn_eq s2 c k2 E2)), Hrx2.
  change (rx_stream k1) with rd' in *. change (conn_parser k1) with (Some p') in *.
  change (access_count k1) with (access_count k) in Hc2. change (rx_buffer_size k1) with (rx_buffer_size k) in Hsz2.
  assert (Hmv1 : moved s c (with_conn c k1 s) []) by by apply (set_conn_moved s c k k1).
  assert (Hmv : moved s c s2 [message_key m']) by apply (moved_trans _ _ _ _ [] [message_key m'] Hmv1 Hr2).
  assert (Hr1 := fun id => moved_routed _ _ _ _ id Hmv1). assert (Hr := fun id => moved_routed _ _ _ _ id Hmv).
  change (agent_out (with_conn c k1 s)) with (agent_out s) in Ho2.
  rewrite (received_routed s (with_conn c k1 s)) in Ho2 by done.
  destruct ms as [|mn ms].
  - change (wires []) with (@nil char) in Hw'.
    rewrite (eos_of_window rd') by (done || apply Hrd').
    exists [m'], s2, k2. split; [done|]. split; [by constructor|]. split; [done|].
    rewrite Hrx2. split_and!; [|done..]. split; try done; rewrite ?Hrx2; try done. by exists p'.
  - assert (Heos2 : apt_text_is_eos rd' = false).
    { unfold apt_text_is_eos. rewrite Heos', orb_false_r. apply Nat.leb_gt.
      assert (Hl : (0 < length (window rd'))%nat).
      { rewrite Hw'. pose proof (wires_length _ Hms). simpl in *. lia. }
      rewrite window_length in Hl by apply Hrd'. lia. }
    rewrite Heos2.
    destruct (IH fuel s2 k2) as (ms' & s' & k' & El & Hall & Ho & Hrg & Ha & Hsz & Hr'); try done.
    + split; try done; rewrite ?Hrx2; try done. by exists p'.
    + cbn [length] in *. lia.
    + cbn [length] in *. lia.
    + exists (m' :: ms'), s', k'. split; [done|]. split; [by constructor|].
      rewrite Ho, Ho2, (received_routed s s2) by done. split; [|split; [done|]].
      { rewrite <-app_assoc. f_equal. unfold received. cbn [map concat]. by rewrite app_nil_r. }
      rewrite Hrx2 in Ha. split_and!; [by etrans|congruence|]. by apply (moved_trans _ _ _ _ [message_key m'] (map message_key ms') Hmv).
Qed.

(** A receive stream with nothing left of the last receive, as a connection is accepted with. *)
Definition rx_ready k : Prop :=
  st_base (rx_stream k) = 0%nat /\ st_pos (rx_stream k) = 0%nat /\
  length (st_mem (rx_stream k)) = S (rx_buffer_size k) /\ Z.of_nat (S (rx_buffer_size k)) < 2 ^ 64.

Lemma stream_receive_ready k data :
  rx_ready k -> (length data <= rx_buffer_size k)%nat ->
  exists st, stream_receive data (rx_stream k) = Some st /\
    let st := apt_text_stream_reset st in
    reader_ok st /\ window st = data /\ st_eos st = false /\ st_base st = 0%nat /\
    length (st_mem st) = S (rx_buffer_size k).
Proof.
  intros (Hb & Hp & Hm & Hlim) Hd.
  destruct (stream_receive_at (rx_buffer_size k) (rx_stream k) data) as (st & E & Hrd & Hw & He & Hbuf & Hl);
    [split; lia|lia|].
  exists st. rewrite Hp in Hw. split; [done|]. split_and!; try done; [apply Hbuf|congruence].
Qed.

Lemma signal_messages sent c ms s k p :
  agent_ok s -> connections s !! c = Some k -> sock k = true ->
  conn_parser k = Some p -> parser_idle f p -> rx_ready k ->
  Forall receivable ms -> ms <> [] -> (length (wires ms) <= rx_buffer_size k)%nat ->
  access_count k + Z.of_nat (length ms) < 2 ^ 64 ->
  exists ms' s' k' p', mrcp_server_poller_signal_process sent c (wires ms) s = Some (true, s') /\
    Forall2 recovered ms ms' /\ agent_out s' = agent_out s ++ received s c ms' /\
    agent_ok s' /\ connections s' !! c = Some k' /\ sock k' = true /\ rx_ready k' /\
    conn_parser k' = Some p' /\ parser_idle f p' /\ moved s c s' (map message_key ms').
Proof.
  intros Hs E Hk Ep Hp Hrx Hms Hne Hfit Hlim. assert (Hrx' := Hrx). destruct Hrx' as (Hb & Hp0 & Hm & Hsz).
  unfold mrcp_server_poller_signal_process. rewrite (bind_run _ _ _ _ _ (get_conn_eq s c k E)), Hk.
  cbn [negb]. cbv zeta. rewrite Hb, Hp0, !Nat.sub_0_r, take_ge by done.
  pose proof (wires_length ms Hms) as Hwl.
  assert (Hpos : (0 < length ms)%nat) by (destruct ms; [done|simpl; lia]).
  destruct (Nat.eqb_spec (length (wires ms)) 0) as [Hz|_]; [lia|].
  destruct (stream_receive_ready k (wires ms) Hrx Hfit) as (st & Est & Hrd & Hw & He & Hb1 & Hm1).
  rewrite Est. erewrite bind_run by reflexivity. set (st1 := apt_text_stream_reset st) in *.
  set (k1 := k <| rx_stream := st1 |>). erewrite bind_run by by apply (set_conn_eq s c k). fold k1.
  assert (Hrole : same_role k k1) by by split_and!.
  assert (E1 : connections (with_conn c k1 s) !! c = Some k1) by apply lookup_insert_eq.
  assert (Hrg : reading (with_conn c k1 s) c k1 (wires ms)).
  { split; try done; [|by exists p]. destruct Hs as [W U]. split; [|by apply (with_conn_used s c k)].
    by apply (conn_update_wf None s c k k1 W E Hrole); right. }
  assert (Hmv1 : moved s c (with_conn c k1 s) []) by by apply (set_conn_moved s c k k1).
  assert (Hr1 := fun id => moved_routed _ _ _ _ id Hmv1).
  destruct (receive_loop_messages sent c ms (S (length (window st1))) _ k1 Hrg Hms Hne)
    as (ms' & s2 & k2 & El & Hall & Ho & Hrg2 & Ha & Hsz2 & Hr2); [rewrite Hw; lia|done|].
  rewrite (bind_run _ _ _ _ _ El). destruct Hrg2 as [Hs2 E2 Hk2 (p2 & Ep2 & Hp2) Hrd2 He2 Hw2].
  rewrite (bind_run _ _ _ _ _ (get_conn_eq s2 c k2 E2)).
  destruct Ha as (Am & Ab & _ & _ & _ & _). change (rx_stream k1) with st1 in *.
  destruct (scroll_read_out (rx_stream k2) Hrd2 Hw2) as (st3 & Es & Hb3 & Hp3 & Hm3); [rewrite Ab, Hb1, Am, Hm1; lia|].
  rewrite Es. erewrite bind_run by reflexivity. cbn [snd].
  set (k3 := k2 <| rx_stream := st3 |>). erewrite bind_run by by apply (set_conn_eq s2 c k2). fold k3.
  assert (Hrole3 : same_role k2 k3) by by split_and!.
  exists ms', (with_conn c k3 s2), k3, p2. split; [done|]. split; [done|].
  change (agent_out (with_conn c k3 s2)) with (agent_out s2). split.
  { rewrite Ho. by rewrite (received_routed s (with_conn c k1 s)). }
  split_and!; try done.
  - destruct Hs2 as [W2 U2]. split; [|by apply (with_conn_used s2 c k2)].
    by apply (conn_update_wf None s2 c k2 k3 W2 E2 Hrole3); right.
  - apply lookup_insert_eq.
  - unfold rx_ready, k3. cbn [field_set rx_stream rx_buffer_size]. change (rx_buffer_size k1) with (rx_buffer_size k) in Hsz2.
    split_and!; [congruence|congruence|congruence|by rewrite Hsz2].
  - assert (Hmv3 : moved s2 c (with_conn c k3 s2) []) by by apply (set_conn_moved s2 c k2 k3).
    pose proof (moved_trans _ _ _ _ _ _ Hmv1 (moved_trans _ _ _ _ _ _ Hr2 Hmv3)) as H. by rewrite app_nil_r in H.
Qed.

(** ** The loop comes to its end *)

Lemma handler_any sent c om status s k :
  status = APT_MESSAGE_STATUS_COMPLETE \/ om = None ->
  agent_ok s -> connections s !! c = Some k -> sock k = true -> access_count k + 1 < 2 ^ 64 ->
  exists s' k', mrcp_server_message_handler sent c om status s = Some (true, s') /\
    agent_ok s' /\ connections s' !! c = Some k' /\ sock k' = true /\
    access_count k' <= access_count k + 1 /\ rx_stream k' = rx_stream k /\ conn_parser k' = conn_parser k.
Proof.
  intros Hst Hs E Hk Hlim. destruct om as [m|].
  - destruct Hst as [->|]; [|done].
    destruct (handler_complete sent c m s k Hs E Hk Hlim) as (s' & k' & H & ? & ? & ? & ? & ? & _ & ? & _).
    exists s', k'. by split_and!.
  - exists s, k. split; [by destruct status|]. split_and!; done || lia.
Qed.

(** The connection with a segment to be read, in whatever stage its parser is. *)
Record segment_waiting (s : agent) c k : Prop := {
  sw_ok : agent_ok s;
  sw_conn : connections s !! c = Some k;
  sw_sock : sock k = true;
  sw_parser : exists p, conn_parser k = Some p /\ parser_fit f (parser_base p);
  sw_stream : reader_ok (rx_stream k);
  sw_bytes : window (rx_stream k) <> []
}.

Lemma receive_loop_ends sent c fuel : forall s k p b s',
  agent_ok s -> connections s !! c = Some k -> sock k = true -> conn_parser k = Some p ->
  parser_fit f (parser_base p) -> reader_ok (rx_stream k) -> window (rx_stream k) <> [] ->
  (length (window (rx_stream k)) < fuel)%nat -> access_count k + Z.of_nat fuel < 2 ^ 64 ->
  message_receive_loop fuel sent c s = Some (b, s') -> b = true.
Proof.
  induction fuel as [|fuel IH]; intros s k p b s' Hs E Hk Ep Hp Hrd Hne Hf Hlim; [lia|].
  cbn [message_receive_loop]. rewrite (bind_run _ _ _ _ _ (get_conn_eq s c k E)), Ep.
  erewrite bind_run by reflexivity.
  destruct (mrcp_parser_run p (rx_stream k)) as [[[[status m] p'] st']|] eqn:Er; [|done].
  erewrite bind_run by reflexivity. cbv beta iota zeta.
  destruct (parser_run_progress f p _ _ _ _ _ Hp Hrd Hne Er) as [[Hadv Hprog] Hp'].
  pose proof (parser_run_status _ _ _ _ _ _ Er) as Hst.
  set (k1 := k <| conn_parser := Some p' |> <| rx_stream := st' |>).
  erewrite bind_run by by apply (set_conn_eq s c k). fold k1.
  assert (Hrole : same_role k k1) by by split_and!.
  assert (Hs1 : agent_ok (with_conn c k1 s)).
  { destruct Hs as [W U]. split; [|by apply (with_conn_used s c k)].
    by apply (conn_update_wf None s c k k1 W E Hrole); right. }
  assert (E1 : connections (with_conn c k1 s) !! c = Some k1) by apply lookup_insert_eq.
  destruct (handler_any sent c m status _ k1 Hst Hs1 E1 Hk) as (s2 & k2 & Eh & Hs2 & E2 & Hk2 & Hc2 & Hrx2 & Hp2).
  { change (access_count k1) with (access_count k). lia. }
  rewrite (bind_run _ _ _ _ _ Eh), (bind_run _ _ _ _ _ (get_conn_eq s2 c k2 E2)), Hrx2.
  change (rx_stream k1) with st' in *. change (conn_parser k1) with (Some p') in *.
  change (access_count k1) with (access_count k) in Hc2.
  destruct (apt_text_is_eos st') eqn:He; [by intros [= <- _]|].
  assert (Hrd' : reader_ok st') by by eapply reader_advances.
  destruct Hprog as [|Hlt]; [done|].
  apply (IH s2 k2 p'); rewrite ?Hrx2; try done; try lia.
  intros Hw. by rewrite eos_of_window in He by (done || apply Hrd').
Qed.

End Receive.

(** * Properties *)

(** C8: a message of which the transmit buffer of an open connection takes the header is sent as it is
    on the wire, in one piece or in several which the buffer takes; the generator is then ready
    for the next message.  The answer is positive as soon as the transport accepted one of the
    pieces. *)
Theorem server_message_sent `{LA : AprLaws} {R : Type} {Hash : AprHash (mrcp_resource_t R)}
    {Table : AprHash addr} (f : mrcp_resource_factory_t R) (m m1 : mrcp_message_t R)
    (r : mrcp_resource_t R) (g : mrcp_generator_t) (a c : addr) (sent : nat -> bool)
    (s : mrcp_connection_agent_t) (k : mrcp_connection_t) :
  mrcp_message_validate m = Some (true, m1) -> sendable f m1 r ->
  connections s !! c = Some k -> sock k = true -> conn_generator k = Some g -> generator_idle g a ->
  tx_ready k -> (wire_room m1 < tx_buffer_size k + str_len (body m1))%nat ->
  Z.of_nat (wire_room m1) < 999999 ->
  exists n pieces m' s' k' g',
    mrcp_server_agent_messsage_send sent (Some c) a m s
      = Some ((some_sent sent 0 (length pieces), m'), s') /\
    concat pieces = message_wire m1 n /\ n = Z.of_nat (length (concat pieces)) /\
    agent_out s' = agent_out s ++ map (SOCKET_SEND c) pieces /\
    Forall (fun p => (length p <= tx_buffer_size k)%nat) pieces /\
    connections s' !! c = Some k' /\ conn_generator k' = Some g' /\ generator_idle g' a /\
    tx_ready k' /\ sock k' = true.
Proof.
  intros Hval Hm E Hk Eg Hg Ht Hroom Hlim. pose proof (validate_body _ _ _ Hval) as Hb.
  unfold mrcp_server_agent_messsage_send. rewrite (bind_run _ _ _ _ _ (get_conn_eq s c k E)), Hk. cbn [negb].
  destruct (send_loop_message f m m1 r g a (str_len (body m) + 2) sent c s k Hval Hm Hg E Eg Ht Hroom Hlim)
    as (n & _ & Hn & pieces & m' & s' & Er & Hc & _ & Ho & k1 & k' & g' & E1 & E' & Eg' & Hg' & Ht' & _ & Hk' & Hall);
    [rewrite Hb; lia|].
  assert (k1 = k) as -> by congruence. exists n, pieces, m', s', k', g'. rewrite Er, orb_false_r, Hc.
  by split_and!; try congruence.
Qed.

(** C7: messages that arrive together on an open connection reach the owner in their order, each
    once, recovered as [mrcp_message_roundtrip] says, for the channel their identifier names on
    the connection or among the pending channels; a message without a channel is dropped.  A pending
    channel named by a message is taken out of the container and put in the table of the connection,
    and is attached to the connection from then on; nothing else changes in the two tables.  The
    connection is then ready for the next receive. *)
Theorem server_messages_received `{LA : AprLaws} {R : Type} {Hash : AprHash (mrcp_resource_t R)}
    {Table : AprHash addr} {TL : AprHashLaws Table} (f : mrcp_resource_factory_t R)
    (sent : nat -> bool) (c : addr) (ms : list (mrcp_message_t R * Z))
    (s : mrcp_connection_agent_t) (k : mrcp_connection_t) (p : mrcp_parser_t) :
  agent_ok s -> connections s !! c = Some k -> sock k = true ->
  conn_parser k = Some p -> parser_idle f p -> rx_ready k ->
  Forall (receivable f) ms -> ms <> [] -> (length (wires ms) <= rx_buffer_size k)%nat ->
  access_count k + Z.of_nat (length ms) < 2 ^ 64 ->
  exists ms' s' k' p', mrcp_server_poller_signal_process sent c (wires ms) s = Some (true, s') /\
    Forall2 recovered ms ms' /\ agent_out s' = agent_out s ++ received s c ms' /\
    agent_ok s' /\ connections s' !! c = Some k' /\ sock k' = true /\ rx_ready k' /\
    conn_parser k' = Some p' /\ parser_idle f p' /\ moved s c s' (map message_key ms') /\
    forall m ch, m ∈ ms' -> routed s c (message_key m) = Some ch -> exists x, attached s' c ch x.
Proof.
  intros Hs E Hk Ep Hp Hrx Hms Hne Hfit Hlim.
  destruct (signal_messages f sent c ms s k p Hs E Hk Ep Hp Hrx Hms Hne Hfit Hlim)
    as (ms' & s' & k' & p' & Er & Hall & Ho & Hs' & E' & Hk' & Hrx' & Ep' & Hp' & Hmv).
  exists ms', s', k', p'. split_and!; try done. intros m ch Hm Hroute.
  destruct (wf_table None s' (proj1 Hs') c k' E') as [_ Ht], Hmv as [_ Hmv], (Hmv (message_key m)) as [Htab _].
  rewrite decide_True, Hroute in Htab by by apply list_elem_of_fmap_2.
  unfold tabled in Htab. cbn [mbind option_bind] in Htab. rewrite E' in Htab. apply Ht in Htab as (x & Ha & _). by exists x.
Qed.

(** C9: whatever arrives on an open connection, the loop that parses it comes to its end: as many runs
    of the parser as there are bytes, and one more, are enough. *)
Theorem receive_loop_terminates `{LA : AprLaws} {R : Type} {Hash : AprHash (mrcp_resource_t R)}
    {Table : AprHash addr} {TL : AprHashLaws Table} (f : mrcp_resource_factory_t R)
    (sent : nat -> bool) (c : addr) (s s' : mrcp_connection_agent_t) (k : mrcp_connection_t) (b : bool) :
  segment_waiting f s c k ->
  access_count k + Z.of_nat (S (length (window (rx_stream k)))) < 2 ^ 64 ->
  message_receive_loop (S (length (window (rx_stream k)))) sent c s = Some (b, s') -> b = true.
Proof.
  intros [Hs E Hk (p & Ep & Hp) Hrd Hw] Hlim. eapply receive_loop_ends; try done. lia.
Qed.


(** ** A connection of the sample factory *)

#[local] Existing Instance apr_reference.
#[local] Existing Instance apr_reference_laws.
#[local] Existing Instance apr_hash_reference.
#[local] Existing Instance apr_hash_reference_laws.

Definition sample_agent : mrcp_connection_agent_t :=
  mrcp_server_connection_agent_create sample_factory 1544 false.

(** An agent with an accepted connection, number 1, and the container, number 0. *)
Definition sample_connected : mrcp_connection_agent_t :=
  match container_ensure sample_agent with
  | Some (_, s) => accepted s (str_lit "10.0.0.1") []
  | None => sample_agent
  end.

Definition sample_conn : mrcp_connection_t := accepted_conn sample_agent (str_lit "10.0.0.1").

Lemma sample_connected_conn : connections sample_connected !! 1%nat = Some sample_conn.
Proof. apply lookup_insert_eq. Qed.

Lemma sample_connected_ok : agent_ok sample_connected.
Proof.
  destruct (container_ensure_ok sample_agent [] (proj1 (start_ok sample_factory 1544 false)))
    as (n & k & s & E & W & Hn & _); [done|].
  unfold sample_connected. rewrite E. injection E as <-. by eapply accepted_ok.
Qed.

Lemma sample_receivable : receivable sample_factory (sample_validated, 0).
Proof.
  split; [exists sample_resource; exact sample_sendable|]. split; [done|reflexivity].
Qed.

Lemma server_message_sent_witness :
  exists n pieces m' s',
    mrcp_server_agent_messsage_send (fun _ => true) (Some 1%nat) 7%nat sample_sent sample_connected
      = Some ((some_sent (fun _ => true) 0 (length pieces), m'), s') /\
    concat pieces = message_wire sample_validated n.
Proof.
  destruct (server_message_sent sample_factory sample_sent sample_validated sample_resource
    (mrcp_generator_create sample_factory) 7%nat 1%nat (fun _ => true) sample_connected sample_conn)
    as (n & pieces & m' & s' & k' & g' & E & Hc & _).
  - exact sample_validated_eq.
  - exact sample_sendable.
  - exact sample_connected_conn.
  - reflexivity.
  - reflexivity.
  - split; [reflexivity|by left].
  - split; [apply length_replicate|]. split; [vm_compute; reflexivity|vm_compute; lia].
  - vm_compute. lia.
  - vm_compute. reflexivity.
  - exists n, pieces, m', s'. split; [exact E|exact Hc].
Defined.

Lemma sample_rx_ready : rx_ready sample_conn.
Proof.
  split; [reflexivity|]. split; [reflexivity|]. split; [apply length_replicate|vm_compute; reflexivity].
Qed.

Definition sample_arrived : list (mrcp_message_t unit * Z) := [(sample_validated, 0)].

Lemma sample_wires_fit :
  (length (wires sample_arrived) <= rx_buffer_size sample_conn)%nat.
Proof. vm_compute. lia. Qed.

Definition sample_pending_offer : mrcp_control_descriptor_t :=
  mrcp_control_offer_create <| desc_session_id := str_lit "32AECB23" |> <| desc_resource_name := str_lit "sample" |>.

Definition state_of {A B} (r : option (A * B)) (d : B) : B := match r with Some (_, s) => s | None => d end.

(** An agent with the pending channel 0 of those messages, in the container 1, and the connection 2. *)
Definition sample_created : mrcp_connection_agent_t :=
  state_of (mrcp_server_control_channel_create sample_agent) sample_agent.
Definition sample_added : mrcp_connection_agent_t :=
  state_of (mrcp_server_agent_channel_add 0%nat sample_pending_offer sample_created) sample_created.
Definition sample_pending : mrcp_connection_agent_t := accepted sample_added (str_lit "10.0.0.1") [].

Lemma runs_state {B} (m : prog (mrcp_connection_agent_t (R := unit)) B) s d : runs_ok m s -> agent_ok (state_of (m s) d).
Proof. intros (? & ? & -> & H). exact H. Qed.

Lemma sample_pending_ok : agent_ok sample_pending.
Proof.
  assert (Hc : agent_ok sample_created) by exact (runs_state _ _ _ (create_ok _ (start_ok sample_factory 1544 false))).
  apply (accepted_ok _ _ 1%nat); [|vm_compute; reflexivity|vm_compute; reflexivity].
  apply (runs_state _ _ sample_created), (add_ok _ _ _ (mk_channel None false apt_string_reset)); try reflexivity; [done|discriminate].
Qed.

Lemma sample_pending_conn : connections sample_pending !! 2%nat = Some sample_conn.
Proof.
  assert (N : next_address sample_added = 2%nat) by (vm_compute; reflexivity).
  assert (F : resource_factory sample_added = resource_factory sample_agent /\
              agent_rx_buffer_size sample_added = agent_rx_buffer_size sample_agent /\
              agent_tx_buffer_size sample_added = agent_tx_buffer_size sample_agent)
    by (split; [|split]; vm_compute; reflexivity).
  destruct F as (F1 & F2 & F3). unfold sample_pending, accepted, accepted_conn. cbn [field_set connections].
  rewrite N, F1, F2, F3. apply lookup_insert_eq.
Qed.

Lemma server_messages_received_witness :
  exists ms' s', mrcp_server_poller_signal_process (fun _ => true) 2%nat
      (wires sample_arrived) sample_pending = Some (true, s') /\
    Forall2 recovered sample_arrived ms' /\ moved sample_pending 2%nat s' (map message_key ms').
Proof.
  destruct (server_messages_received sample_factory (fun _ => true) 2%nat sample_arrived
    sample_pending sample_conn (mrcp_parser_create sample_factory))
    as (ms' & s' & k' & p' & E & H & _ & _ & _ & _ & _ & _ & _ & Hmv & _).
  - exact sample_pending_ok.
  - exact sample_pending_conn.
  - reflexivity.
  - reflexivity.
  - exists None. split; reflexivity.
  - exact sample_rx_ready.
  - apply Forall_cons; [exact sample_receivable|apply Forall_nil].
  - discriminate.
  - exact sample_wires_fit.
  - reflexivity.
  - exists ms', s'. split; [exact E|]. split; [exact H|exact Hmv].
Defined.

(** The message of the sample names the pending channel. *)
Example sample_routed : map (fun mn => routed sample_pending 2%nat (message_key (fst mn))) sample_arrived = [Some 0%nat].
Proof. vm_compute. reflexivity. Qed.

(** The connection with one byte to read. *)
Definition sample_reading : mrcp_connection_t :=
  sample_conn <| rx_stream := apt_text_stream_init [CR; NUL] 1 |>.

Lemma sample_reading_ok : agent_ok (with_conn 1%nat sample_reading sample_connected).
Proof.
  destruct sample_connected_ok as [W U]. split.
  - apply (conn_update_wf None sample_connected 1%nat sample_conn sample_reading W sample_connected_conn);
      [by split_and!|by right].
  - by apply (with_conn_used sample_connected 1%nat sample_conn sample_reading U sample_connected_conn).
Qed.

Lemma sample_waiting :
  segment_waiting sample_factory (with_conn 1%nat sample_reading sample_connected) 1%nat sample_reading.
Proof.
  split.
  - exact sample_reading_ok.
  - apply lookup_insert_eq.
  - reflexivity.
  - exists (mrcp_parser_create sample_factory). split; [reflexivity|]. by exists None.
  - split; [vm_compute; lia|vm_compute; reflexivity|reflexivity].
  - discriminate.
Qed.

Lemma receive_loop_terminates_witness :
  exists b s', message_receive_loop 2 (fun _ => true) 1%nat
    (with_conn 1%nat sample_reading sample_connected) = Some (b, s') /\ b = true.
Proof.
  destruct (message_receive_loop 2 (fun _ => true) 1%nat
    (with_conn 1%nat sample_reading sample_connected)) as [[b s']|] eqn:E.
  - exists b, s'. split; [reflexivity|].
    apply (receive_loop_terminates sample_factory (fun _ => true) 1%nat _ s' sample_reading b
      sample_waiting); [reflexivity|exact E].
  - exfalso. revert E. unfold message_receive_loop.
    rewrite (bind_run _ _ _ _ _ (get_conn_eq _ 1%nat sample_reading (lookup_insert_eq _ _ _))).
    discriminate.
Defined.
