(* ===== verification/ClientAgent.v ===== *)
(** The MRCPv2 connection agent of the client ([mrcpv2-transport/src/mrcp_client_connection.c], over
    the connections of [mrcp_connection.c]).

    As on the server, the agent owns a store of connections and of channels, which refer to each
    other by address.  A channel has at most one request under way and a timer of the queue of
    the agent's task ([TimerQueue]) to give it up by.  What the agent tells its owner and the
    network, in order, is the list [agent_out] of its state. *)

From S2P Require Import Prelude AprHash AptString TextStream TextValues HeaderField TextMessage StartLine MrcpHeader GenericHeader Message MessageParser ResourceFactory MrcpStream Transport TimerQueue.

(** * Connections, channels and the agent *)

(** Addresses of the network layer: [apr_sockaddr_info_get] resolves the text of an address,
    [apr_sockaddr_equal] compares two addresses without their ports. *)
Class Sockaddr := {
  ip_address : Type;
  ip_address_eq_dec :: EqDecision ip_address;
  apr_sockaddr_info_get : apt_str_t -> option ip_address
}.

(** The outcome of connecting to a resolved address. *)
Inductive connect_outcome :=
| CONNECT_NO_SOCKET
| CONNECT_REFUSED
| CONNECT_NO_LOCAL_ADDRESS
| CONNECT_SOCKET (polled : bool).

Section Agent.
Context `{Apr} `{Sockaddr} {R : Type} {Hash : AprHash (mrcp_resource_t R)} {Table : AprHash addr}.
Abbreviation message := (mrcp_message_t R).

(** [it]: the connection has an element in the list of the agent. *)
Record mrcp_connection_t := mk_connection {
  sock : bool;
  r_sockaddr : option (ip_address * Z);
  access_count : Z;
  it : bool;
  channel_table : @apr_hash_t _ Table;
  rx_stream : apt_text_stream_t;
  rx_buffer_size : nat;
  conn_parser : option mrcp_parser_t;
  tx_buffer : bytes;
  tx_buffer_size : nat;
  conn_generator : option mrcp_generator_t
}.
#[global] Instance eta_connection : Eta mrcp_connection_t := fun s =>
  mk_connection (sock s) (r_sockaddr s) (access_count s) (it s) (channel_table s) (rx_stream s)
    (rx_buffer_size s) (conn_parser s) (tx_buffer s) (tx_buffer_size s) (conn_generator s).

Record mrcp_control_channel_t := mk_channel {
  connection : option addr;
  active_request : option message;
  request_timer : option addr;
  removed : bool;
  identifier : apt_str_t
}.
#[global] Instance eta_channel : Eta mrcp_control_channel_t := fun s =>
  mk_channel (connection s) (active_request s) (request_timer s) (removed s) (identifier s).

(** Calls of the owner's handlers and of the network. *)
Inductive agent_event :=
| ON_ADD (channel : addr) (descriptor : mrcp_control_descriptor_t) (status : bool)
| ON_MODIFY (channel : addr) (descriptor : mrcp_control_descriptor_t) (status : bool)
| ON_REMOVE (channel : addr) (status : bool)
| ON_RECEIVE (channel : addr) (m : message)
| ON_DISCONNECT (channel : addr)
| SOCKET_SEND (connection : addr) (data : bytes)
| SOCKET_CLOSE (connection : addr).

(** The message of a request to send is known by its address. *)
Record connection_task_msg_t := mk_task_msg {
  type : connection_task_msg_type_e;
  msg_channel : addr;
  msg_descriptor : mrcp_control_descriptor_t;
  msg_message : option (addr * message)
}.

(** [timer_obj] is the object of each timer: the channel it was created for. *)
Record mrcp_connection_agent_t := mk_agent {
  resource_factory : mrcp_resource_factory_t R;
  connection_list : list addr;
  request_timeout : Z;
  offer_new_connection : bool;
  agent_tx_buffer_size : nat;
  agent_rx_buffer_size : nat;
  connections : gmap addr mrcp_connection_t;
  channels : gmap addr mrcp_control_channel_t;
  next_address : addr;
  timer_queue : apt_timer_queue_t;
  timer_obj : gmap addr addr;
  task_queue : list connection_task_msg_t;
  agent_out : list agent_event
}.
#[global] Instance eta_agent : Eta mrcp_connection_agent_t := fun s =>
  mk_agent (resource_factory s) (connection_list s) (request_timeout s) (offer_new_connection s)
    (agent_tx_buffer_size s) (agent_rx_buffer_size s) (connections s) (channels s)
    (next_address s) (timer_queue s) (timer_obj s) (task_queue s) (agent_out s).
Abbreviation agent := mrcp_connection_agent_t.
Abbreviation act := (prog agent).

Definition mrcp_client_connection_agent_create (f : mrcp_resource_factory_t R) (offer_new : bool) : agent :=
  mk_agent f [] 0 offer_new MRCP_STREAM_BUFFER_SIZE MRCP_STREAM_BUFFER_SIZE empty empty 0
    apt_timer_queue_create empty [] [].

Definition mrcp_client_connection_rx_size_set (size : nat) (s : agent) : agent :=
  s <| agent_rx_buffer_size := if (size <? MRCP_STREAM_BUFFER_SIZE)%nat
                               then MRCP_STREAM_BUFFER_SIZE else size |>.
Definition mrcp_client_connection_tx_size_set (size : nat) (s : agent) : agent :=
  s <| agent_tx_buffer_size := if (size <? MRCP_STREAM_BUFFER_SIZE)%nat
                               then MRCP_STREAM_BUFFER_SIZE else size |>.
Definition mrcp_client_connection_timeout_set (timeout : Z) (s : agent) : agent :=
  s <| request_timeout := u32 timeout |>.

(** Access through a pointer to a connection or to a channel, and to the timers of the task. *)
Definition get_conn (c : addr) : act mrcp_connection_t :=
  let* s := gets (fun s => s) in deref_ptr (connections s !! c).
Definition set_conn (c : addr) (f : mrcp_connection_t -> mrcp_connection_t) : act unit :=
  let* k := get_conn c in
  modify (fun s => s <| connections := <[c := f k]> (connections s) |>).
Definition get_chan (ch : addr) : act mrcp_control_channel_t :=
  let* s := gets (fun s => s) in deref_ptr (channels s !! ch).
Definition set_chan (ch : addr) (f : mrcp_control_channel_t -> mrcp_control_channel_t) : act unit :=
  let* k := get_chan ch in
  modify (fun s => s <| channels := <[ch := f k]> (channels s) |>).
Definition tell (e : agent_event) : act unit :=
  modify (fun s => s <| agent_out := agent_out s ++ [e] |>).
Definition timer_queue_set (q : apt_timer_queue_t) (s : agent) : agent := s <| timer_queue := q |>.
Definition on_timers {B} (m : prog apt_timer_queue_t B) : act B := on_queue timer_queue timer_queue_set m.

(** ** Connections ([mrcp_connection.c]) *)

(** The receive stream is not set until the connection is established. *)
Definition mrcp_connection_create : act addr :=
  let* c := gets next_address in
  modify (fun s => s <| next_address := S c |>
    <| connections := <[c := mk_connection false None 0 false apr_hash_make
                               (apt_text_stream_init [] 0) 0 None [] 0 None]> (connections s) |>) ;;;
  ret c.

(** The memory of the connection is freed with its pool. *)
Definition mrcp_connection_destroy (c : addr) : act unit :=
  get_conn c ;;; modify (fun s => s <| connections := delete c (connections s) |>).

Definition mrcp_connection_channel_add (c ch : addr) : act bool :=
  let* k := get_chan ch in
  set_conn c (fun x => x <| channel_table :=
    apr_hash_set (channel_table x) (str_data (identifier k)) ch |>) ;;;
  set_chan ch (fun x => x <| connection := Some c |>) ;;;
  set_conn c (fun x => x <| access_count := u64 (access_count x + 1) |>) ;;;
  ret true.

Definition mrcp_connection_channel_find (c : addr) (id : apt_str_t) : act (option addr) :=
  let* k := get_conn c in ret (apr_hash_get (channel_table k) (str_data id)).

Definition mrcp_connection_channel_remove (c ch : addr) : act bool :=
  let* k := get_chan ch in
  set_conn c (fun x => x <| channel_table :=
    apr_hash_unset (channel_table x) (str_data (identifier k)) |>) ;;;
  set_chan ch (fun x => x <| connection := None |>) ;;;
  set_conn c (fun x => x <| access_count := u64 (access_count x - 1) |>) ;;;
  ret true.

(** No agent uses it: the client has a walk of its own. *)
Fixpoint disconnect_tell (l : list addr) : act unit :=
  match l with
  | [] => ret tt
  | ch :: l' => tell (ON_DISCONNECT ch) ;;; disconnect_tell l'
  end.
Definition mrcp_connection_disconnect_raise (c : addr) : act bool :=
  let* k := get_conn c in disconnect_tell (apr_hash_values (channel_table k)) ;;; ret true.

(** ** Channels *)

Definition mrcp_client_control_channel_create : act addr :=
  let* ch := gets next_address in
  modify (fun s => s <| next_address := S ch |>
    <| channels := <[ch := mk_channel None None None false apt_string_reset]> (channels s) |>) ;;;
  let* t := on_timers (apt_timer_create true) in
  modify (fun s => s <| timer_obj := <[t := ch]> (timer_obj s) |>) ;;;
  set_chan ch (fun x => x <| request_timer := Some t |>) ;;;
  ret ch.

(** The connection of a removed channel is destroyed; the channel itself is memory of its owner. *)
Definition mrcp_client_control_channel_destroy (chan : option addr) : act bool :=
  match chan with
  | None => ret true
  | Some ch =>
      let* k := get_chan ch in
      match connection k with
      | Some c =>
          if removed k then
            set_chan ch (fun x => x <| connection := None |>) ;;;
            mrcp_connection_destroy c ;;; ret true
          else ret true
      | None => ret true
      end
  end.

Definition mrcp_client_control_message_signal (msg : connection_task_msg_t) : act bool :=
  modify (fun s => s <| task_queue := task_queue s ++ [msg] |>) ;;; ret true.
Definition mrcp_client_control_channel_add (ch : addr) (d : mrcp_control_descriptor_t) : act bool :=
  mrcp_client_control_message_signal (mk_task_msg CONNECTION_TASK_MSG_ADD_CHANNEL ch d None).
Definition mrcp_client_control_channel_modify (ch : addr) (d : mrcp_control_descriptor_t) : act bool :=
  mrcp_client_control_message_signal (mk_task_msg CONNECTION_TASK_MSG_MODIFY_CHANNEL ch d None).
Definition mrcp_client_control_channel_remove (ch : addr) : act bool :=
  mrcp_client_control_message_signal
    (mk_task_msg CONNECTION_TASK_MSG_REMOVE_CHANNEL ch mrcp_control_descriptor_create None).
Definition mrcp_client_control_message_send (ch : addr) (a : addr) (m : message) : act bool :=
  mrcp_client_control_message_signal
    (mk_task_msg CONNECTION_TASK_MSG_SEND_MESSAGE ch mrcp_control_descriptor_create (Some (a, m))).

(** ** The agent *)

Definition mrcp_client_agent_connection_create (d : mrcp_control_descriptor_t) (outcome : connect_outcome)
    : act (option addr) :=
  let* c := mrcp_connection_create in
  match apr_sockaddr_info_get (ip d) with
  | None => mrcp_connection_destroy c ;;; ret None
  | Some a =>
      set_conn c (fun x => x <| r_sockaddr := Some (a, port d) |>) ;;;
      match outcome with
      | CONNECT_NO_SOCKET => mrcp_connection_destroy c ;;; ret None
      | CONNECT_REFUSED | CONNECT_NO_LOCAL_ADDRESS | CONNECT_SOCKET false =>
          tell (SOCKET_CLOSE c) ;;; mrcp_connection_destroy c ;;; ret None
      | CONNECT_SOCKET true =>
          modify (fun s => s <| connection_list := connection_list s ++ [c] |>) ;;;
          let* s := gets (fun s => s) in
          set_conn c (fun x => x <| sock := true |> <| it := true |>
            <| conn_parser := Some (mrcp_parser_create (resource_factory s)) |>
            <| conn_generator := Some (mrcp_generator_create (resource_factory s)) |>
            <| tx_buffer_size := agent_tx_buffer_size s |>
            <| tx_buffer := apr_palloc (S (agent_tx_buffer_size s)) |>
            <| rx_buffer_size := agent_rx_buffer_size s |>
            <| rx_stream := apt_text_stream_init (apr_palloc (S (agent_rx_buffer_size s)))
                              (agent_rx_buffer_size s) |>) ;;;
          ret (Some c)
      end
  end.

(** The walk through the list of connections. *)
Fixpoint connection_walk (l : list addr) (d : mrcp_control_descriptor_t) : act (option addr) :=
  match l with
  | [] => ret None
  | c :: l' =>
      let* k := get_conn c in
      match apr_sockaddr_info_get (ip d) with
      | Some a =>
          let* r := deref_ptr (r_sockaddr k) in
          if bool_decide (a = fst r) && (port d =? snd r) then ret (Some c) else connection_walk l' d
      | None => connection_walk l' d
      end
  end.

Definition mrcp_client_agent_connection_find (d : mrcp_control_descriptor_t) : act (option addr) :=
  let* l := gets connection_list in connection_walk l d.

Definition mrcp_client_agent_connection_remove (c : addr) : act bool :=
  let* k := get_conn c in
  (if it k then
     modify (fun s => s <| connection_list := List.filter (fun a => negb (a =? c)%nat) (connection_list s) |>) ;;;
     set_conn c (fun x => x <| it := false |>)
   else ret tt) ;;;
  (if sock k then tell (SOCKET_CLOSE c) ;;; set_conn c (fun x => x <| sock := false |>) else ret tt) ;;;
  ret true.

Definition mrcp_client_agent_channel_add (ch : addr) (d : mrcp_control_descriptor_t) : act unit :=
  let* s := gets (fun s => s) in
  let t := if offer_new_connection s then MRCP_CONNECTION_TYPE_NEW
           else match connection_list s with
                | [] => MRCP_CONNECTION_TYPE_NEW
                | _ => MRCP_CONNECTION_TYPE_EXISTING
                end in
  tell (ON_ADD ch (d <| connection_type := t |>) true).

(** A connection for the channel: an existing one if the answer asks for it and there is one. *)
Definition channel_connection_get (d : mrcp_control_descriptor_t) (outcome : connect_outcome)
    : act (option addr) :=
  let* found := (if decide (connection_type d = MRCP_CONNECTION_TYPE_EXISTING)
                 then mrcp_client_agent_connection_find d else ret None) in
  match found with
  | Some c => ret (Some c)
  | None => mrcp_client_agent_connection_create d outcome
  end.

Definition mrcp_client_agent_channel_modify (ch : addr) (d : mrcp_control_descriptor_t)
    (outcome : connect_outcome) : act unit :=
  let* k := get_chan ch in
  match connection k with
  | None =>
      if port d =? 0 then tell (ON_MODIFY ch d true)
      else
        set_chan ch (fun x => x <| identifier :=
          apt_id_resource_generate (desc_session_id d) (desc_resource_name d) "@"%char |>) ;;;
        let* conn := channel_connection_get d outcome in
        match conn with
        | Some c =>
            mrcp_connection_channel_add c ch ;;;
            let d := if decide (connection_type d = MRCP_CONNECTION_TYPE_NEW)
                     then d <| connection_type := MRCP_CONNECTION_TYPE_EXISTING |> else d in
            tell (ON_MODIFY ch d true)
        | None => tell (ON_MODIFY ch (d <| port := 0 |>) false)
        end
  | Some _ => tell (ON_MODIFY ch d true)
  end.

Definition mrcp_client_agent_channel_remove (ch : addr) : act unit :=
  let* k := get_chan ch in
  (match connection k with
   | Some c =>
       mrcp_connection_channel_remove c ch ;;;
       let* x := get_conn c in
       if access_count x =? 0 then
         mrcp_client_agent_connection_remove c ;;;
         set_chan ch (fun y => y <| connection := Some c |> <| removed := true |>)
       else ret tt
   | None => ret tt
   end) ;;;
  tell (ON_REMOVE ch true).

(** ** Requests that are given up *)

Definition cancel_response (m : message) : message :=
  set_start_line (fun sl => sl <| status_code := MRCP_STATUS_CODE_METHOD_FAILED |>)
    (mrcp_response_create (Some m)).

Definition mrcp_client_agent_request_cancel (ch : addr) (m : message) : act unit :=
  tell (ON_RECEIVE ch (cancel_response m)).

(** The timer of a channel, if it has one, is killed. *)
Definition request_timer_kill (x : mrcp_control_channel_t) : act unit :=
  match request_timer x with
  | Some t => on_timers (apt_timer_kill t) ;;; ret tt
  | None => ret tt
  end.

Definition channel_disconnect (ch : addr) : act unit :=
  let* x := get_chan ch in
  match active_request x with
  | Some m =>
      mrcp_client_agent_request_cancel ch m ;;;
      set_chan ch (fun y => y <| active_request := None |>) ;;;
      request_timer_kill x
  | None => tell (ON_DISCONNECT ch)
  end.

Fixpoint disconnect_walk (l : list addr) : act unit :=
  match l with
  | [] => ret tt
  | ch :: l' => channel_disconnect ch ;;; disconnect_walk l'
  end.

Definition mrcp_client_agent_disconnect_raise (c : addr) : act unit :=
  let* k := get_conn c in disconnect_walk (apr_hash_values (channel_table k)).

Definition mrcp_client_timer_proc (t : addr) : act unit :=
  let* obj := gets timer_obj in
  match obj !! t with
  | None => ret tt
  | Some ch =>
      let* x := get_chan ch in
      if decide (request_timer x = Some t) then
        match active_request x with
        | Some m =>
            mrcp_client_agent_request_cancel ch m ;;;
            set_chan ch (fun y => y <| active_request := None |>)
        | None => ret tt
        end
      else ret tt
  end.

(** The task moves the time of its timers. *)
Definition client_timers_advance (elapsed : Z) : act unit :=
  apt_timer_queue_advance timer_queue timer_queue_set mrcp_client_timer_proc elapsed.

(** ** Messages out *)

(** What the buffer of the connection takes of the message is generated and sent; the transport
    accepts piece [i] if [sent i].  [fuel] bounds the number of pieces. *)
Fixpoint message_send_loop (fuel : nat) (sent : nat -> bool) (i : nat) (c a : addr) (m : message)
    (status : bool) : act (bool * message) :=
  match fuel with
  | O => fun _ => None
  | S fuel =>
      let* k := get_conn c in
      let* g := deref_ptr (conn_generator k) in
      let* r := deref_ptr (mrcp_generator_run g a m
                             (apt_text_stream_init (tx_buffer k) (tx_buffer_size k))) in
      let '((result, g, m), stream) := r in
      set_conn c (fun x => x <| conn_generator := Some g |> <| tx_buffer := st_mem stream |>) ;;;
      match result with
      | APT_MESSAGE_STATUS_INVALID => ret (status, m)
      | _ =>
          let* z := deref_ptr (store [NUL] stream) in
          set_conn c (fun x => x <| tx_buffer := st_mem (snd z) |>) ;;;
          tell (SOCKET_SEND c (stream_text (snd z))) ;;;
          let status := sent i || status in
          match result with
          | APT_MESSAGE_STATUS_INCOMPLETE => message_send_loop fuel sent (S i) c a m status
          | _ => ret (status, m)
          end
      end
  end.

(** A request that was sent waits for its response until the timer of the channel, if one is set. *)
Definition request_activate (ch : addr) (m : message) : act unit :=
  let* x := get_chan ch in
  set_chan ch (fun y => y <| active_request := Some m |>) ;;;
  let* timeout := gets request_timeout in
  match request_timer x with
  | Some t => if timeout =? 0 then ret tt else on_timers (apt_timer_set t timeout) ;;; ret tt
  | None => ret tt
  end.

(** Each piece but the first takes some of the body. *)
Definition mrcp_client_agent_messsage_send (sent : nat -> bool) (ch a : addr) (m : message) : act bool :=
  let* x := get_chan ch in
  match connection x with
  | None => mrcp_client_agent_request_cancel ch m ;;; ret false
  | Some c =>
      let* k := get_conn c in
      if negb (sock k) then mrcp_client_agent_request_cancel ch m ;;; ret false
      else
        let* r := message_send_loop (str_len (body m) + 2) sent 0 c a m false in
        let '(status, m) := r in
        (if status then request_activate ch m else mrcp_client_agent_request_cancel ch m) ;;;
        ret status
  end.

(** ** Messages in *)

(** A response is only taken for the request under way. *)
Definition response_expected (x : mrcp_control_channel_t) (m : message) : bool :=
  match active_request x with
  | Some req => request_id (start_line req) =? request_id (start_line m)
  | None => false
  end.

Definition mrcp_client_message_handler (c : addr) (m : option message) (status : apt_message_status_e)
    : act bool :=
  match status with
  | APT_MESSAGE_STATUS_COMPLETE =>
      let* m := deref_ptr m in
      let id := apt_id_resource_generate (session_id (channel_id m)) (resource_name (channel_id m))
                  "@"%char in
      let* channel := mrcp_connection_channel_find c id in
      match channel with
      | None => ret true
      | Some ch =>
          let* x := get_chan ch in
          if decide (message_type (start_line m) = MRCP_MESSAGE_TYPE_RESPONSE) then
            if response_expected x m then
              request_timer_kill x ;;;
              set_chan ch (fun y => y <| active_request := None |>) ;;;
              tell (ON_RECEIVE ch m) ;;; ret true
            else ret false
          else tell (ON_RECEIVE ch m) ;;; ret true
      end
  | _ => ret true
  end.

(** The parser runs until the end of the stream, unless the handler refuses a message; [None]:
    [fuel] was not enough. *)
Fixpoint message_receive_loop (fuel : nat) (c : addr) : act (option bool) :=
  match fuel with
  | O => ret None
  | S fuel =>
      let* k := get_conn c in
      let* p := deref_ptr (conn_parser k) in
      let* r := deref_ptr (mrcp_parser_run p (rx_stream k)) in
      let '(status, m, p, st) := r in
      set_conn c (fun x => x <| conn_parser := Some p |> <| rx_stream := st |>) ;;;
      let* ok := mrcp_client_message_handler c m status in
      if negb ok then ret (Some false)
      else
        let* k := get_conn c in
        if apt_text_is_eos (rx_stream k) then ret (Some true) else message_receive_loop fuel c
  end.

(** What arrived is put after what the last receive left; nothing is the end of the connection.
    [data] is what [apr_socket_recv] stores, of the length the buffer has left. *)
Definition mrcp_client_poller_signal_process (c : addr) (data : bytes) : act bool :=
  let* k := get_conn c in
  if negb (sock k) then ret false
  else
    let st := rx_stream k in
    let available := (rx_buffer_size k - (st_pos st - st_base st))%nat in
    let data := take available data in
    if (length data =? 0)%nat then
      tell (SOCKET_CLOSE c) ;;;
      set_conn c (fun x => x <| sock := false |>) ;;;
      mrcp_client_agent_disconnect_raise c ;;; ret true
    else
      let* st := deref_ptr (stream_receive data st) in
      let st := apt_text_stream_reset st in
      set_conn c (fun x => x <| rx_stream := st |>) ;;;
      let* r := message_receive_loop (S (length (window st))) c in
      match r with
      | Some true =>
          let* k := get_conn c in
          let* r := deref_ptr (apt_text_stream_scroll (rx_stream k)) in
          set_conn c (fun x => x <| rx_stream := snd r |>) ;;; ret true
      | _ => ret false
      end.

(** ** The task of the agent *)

Definition mrcp_client_agent_msg_process (sent : nat -> bool) (outcome : connect_outcome)
    (msg : connection_task_msg_t) : act bool :=
  (match type msg with
   | CONNECTION_TASK_MSG_ADD_CHANNEL => mrcp_client_agent_channel_add (msg_channel msg) (msg_descriptor msg)
   | CONNECTION_TASK_MSG_MODIFY_CHANNEL =>
       mrcp_client_agent_channel_modify (msg_channel msg) (msg_descriptor msg) outcome
   | CONNECTION_TASK_MSG_REMOVE_CHANNEL => mrcp_client_agent_channel_remove (msg_channel msg)
   | CONNECTION_TASK_MSG_SEND_MESSAGE =>
       let* am := deref_ptr (msg_message msg) in
       mrcp_client_agent_messsage_send sent (msg_channel msg) (fst am) (snd am) ;;; ret tt
   end) ;;;
  ret true.

End Agent.
