(* ===== verification/ClientRequests.v ===== *)
(** Requests of the client agent ([ClientAgent]): the invariant that ties the requests under way to
    the timers of the task, and that every request is answered once, in order: by the response of
    the server, or by the agent when it cannot be sent, when the peer disconnects or when its
    time is over. *)

From S2P Require Import Prelude AprHash AptString TextStream TextValues HeaderField TextMessage StartLine MrcpHeader GenericHeader Message MessageParser ResourceFactory MrcpStream StreamRoundtrip Transport TimerQueue ClientAgent.

(** * What the generator leaves of a message *)

Section Generated.
Context `{A : Apr} {R : Type} {Hash : AprHash (mrcp_resource_t R)}.

Lemma validate_start_line (m m' : mrcp_message_t R) ok :
  mrcp_message_validate m = Some (ok, m') -> start_line m' = start_line m.
Proof.
  unfold mrcp_message_validate. destruct (_ =? _)%nat; [by intros [= _ <-]|].
  destruct (mrcp_generic_header_prepare m) as [g m0] eqn:Ep.
  assert (Hb : start_line m0 = start_line m).
  { revert Ep. unfold mrcp_generic_header_prepare. intros E. injection E as _ <-. done. }
  destruct g as [g|]; [|by intros [= _ <-]].
  destruct (_ || _); [|by intros [= _ <-]].
  unfold mrcp_generic_header_property_add, property_add.
  repeat case_match; try done; intros; simplify_eq; done.
Qed.

Lemma start_line_generate_id sl st ok sl' st' :
  mrcp_start_line_generate sl st = Some ((ok, sl'), st') -> request_id sl' = request_id sl.
Proof.
  unfold mrcp_start_line_generate, mrcp_v2_start_line_generate, v2_tail_generate, bind, ret.
  repeat case_match; try done; intros; simplify_eq; try done.
Qed.
Lemma start_line_finalize_id sl n st ok sl' st' :
  mrcp_start_line_finalize sl n st = Some ((ok, sl'), st') -> request_id sl' = request_id sl.
Proof.
  unfold mrcp_start_line_finalize, bind, ret, gets.
  repeat case_match; try done; intros; simplify_eq; try done.
Qed.

Definition mrcp_generator_ok (g : @mrcp_generator_t R Hash) : Prop :=
  generator_vtable (generator_base g) = mrcp_generator_vtable.

(** [r] keeps the handlers of [g] and the request identifier of [m]. *)
Definition generates_same (g : apt_message_generator_t (mrcp_message_t R)) (m : mrcp_message_t R)
    (r : option (apt_message_status_e * apt_message_generator_t (mrcp_message_t R) * mrcp_message_t R * apt_text_stream_t)) : Prop :=
  match r with
  | Some ((_, g', m'), _) =>
      generator_vtable g' = generator_vtable g /\ request_id (start_line m') = request_id (start_line m)
  | None => True
  end.

Lemma run_body_same g m st : generates_same g m (generator_run_body g m st).
Proof.
  unfold generator_run_body, bind. destruct (apt_message_body_write _ _ _) as [[[ok b] st1]|]; [|done].
  unfold generator_break, bind, gets, ret. by destruct ok.
Qed.

Lemma run_start_same g m st :
  generator_vtable g = mrcp_generator_vtable -> generates_same g m (generator_run_start g m st).
Proof.
  intros Hv. unfold generator_run_start. rewrite Hv. cbn [gen_on_start gen_on_header_complete mrcp_generator_vtable].
  unfold bind at 1. destruct (mrcp_generator_on_start m st) as [[[ok m1] st1]|] eqn:Es; [|done].
  assert (H1 : request_id (start_line m1) = request_id (start_line m)).
  { revert Es. unfold mrcp_generator_on_start, message_start_generate, on_message, bind, ret.
    destruct (mrcp_message_validate m) as [[[] m0]|] eqn:Ev; cbn [negb]; [| |done]; apply validate_start_line in Ev.
    - destruct (mrcp_start_line_generate (start_line m0) st) as [[[[] sl] st2]|] eqn:El; cbn [negb]; [| |done].
      all: apply start_line_generate_id in El; rewrite Ev in El; cbn [field_set start_line].
      + case_decide; [destruct (mrcp_channel_id_generate _ _) as [[u st3]|]; [|done]|]; by intros [= _ <- _].
      + by intros [= _ <- _].
    - intros [= _ <- _]. by rewrite Ev. }
  destruct ok; cbn [negb]; [|unfold generator_break, bind, gets, ret; done].
  unfold bind at 1. destruct (apt_header_section_generate _ _) as [[[] st2]|]; cbn [negb]; [| |done];
    [|unfold generator_break, bind, gets, ret; done].
  unfold bind at 1. destruct (mrcp_generator_on_header_complete m1 st2) as [[[ok m2] st3]|] eqn:Eh; [|done].
  assert (H2 : request_id (start_line m2) = request_id (start_line m)).
  { revert Eh. unfold mrcp_generator_on_header_complete, bind at 1.
    destruct (mrcp_start_line_finalize _ _ _) as [[[b sl] st4]|] eqn:Ef; [|done].
    apply start_line_finalize_id in Ef. unfold ret. intros [= _ <- _]. cbn [field_set start_line]. congruence. }
  cbn [snd]. destruct (_ =? _)%nat; [done|].
  set (g1 := _ <| generator_stage := APT_MESSAGE_STAGE_BODY |>). set (m3 := set_ctx_body _ m2).
  pose proof (run_body_same g1 m3 st3) as H. unfold generates_same in *.
  destruct (generator_run_body g1 m3 st3) as [[[[status g'] m'] st']|]; [|done].
  destruct H as [Hg Hm]. split; [done|]. rewrite Hm. exact H2.
Qed.

(** A run of the generator leaves the request identifier, and the generator its handlers. *)
Lemma generator_run_id (g g' : mrcp_generator_t) a (m m' : mrcp_message_t R) st st' r :
  mrcp_generator_ok g -> mrcp_generator_run g a m st = Some ((r, g', m'), st') ->
  mrcp_generator_ok g' /\ request_id (start_line m') = request_id (start_line m).
Proof.
  intros Hg. unfold mrcp_generator_run, bind at 1, apt_message_generator_run.
  set (g1 := if decide _ then _ else _).
  assert (Hv : generator_vtable g1 = mrcp_generator_vtable) by (unfold g1; case_decide; exact Hg).
  assert (H : generates_same g1 m (match generator_stage g1 with
      | APT_MESSAGE_STAGE_START_LINE => generator_run_start g1 m
      | APT_MESSAGE_STAGE_BODY => generator_run_body g1 m
      | APT_MESSAGE_STAGE_HEADER => ret (APT_MESSAGE_STATUS_COMPLETE, g1, m)
      end st)).
  { destruct (generator_stage g1); [by apply run_start_same|done|apply run_body_same]. }
  unfold generates_same in H. destruct (_ st) as [[[[status b] m1] st1]|]; [|done].
  unfold ret. intros [= <- <- <- <-]. destruct H as [H1 H2]. split; [|done]. unfold mrcp_generator_ok. cbn. congruence.
Qed.

End Generated.

(** * The invariant *)

Section Requests.
Context `{A : Apr} `{Sa : Sockaddr} {R : Type} {Hash : AprHash (mrcp_resource_t R)} {Table : AprHash addr}.
Abbreviation agent := (mrcp_connection_agent_t (R := R)).
Abbreviation message := (mrcp_message_t R).
Abbreviation channel := (mrcp_control_channel_t (R := R)).
Abbreviation conn := (mrcp_connection_t (R := R)).
Abbreviation event := (agent_event (R := R)).
Implicit Types (s : agent) (k : conn) (x : channel) (c ch t : addr).

(** The responses the owner of a channel was given, by the identifiers of their requests. *)
Definition response_id ch (e : event) : option Z :=
  match e with
  | ON_RECEIVE ch' m =>
      if decide (ch' = ch /\ message_type (start_line m) = MRCP_MESSAGE_TYPE_RESPONSE)
      then Some (request_id (start_line m)) else None
  | _ => None
  end.
Definition responses ch (out : list event) : list Z := omap (response_id ch) out.

(** The request of a channel that is under way. *)
Definition pending s ch : list Z :=
  match channels s !! ch with
  | Some x => match active_request x with Some m => [request_id (start_line m)] | None => [] end
  | None => []
  end.

(** The requests of a channel the agent answers for: answered ones and the one under way. *)
Definition accounted s ch : list Z := responses ch (agent_out s) ++ pending s ch.

(** Each channel has its own timer; the timers that run are those of channels with a request under
    way and, when requests have a time limit, all of them run. *)
Record client_ok s : Prop := {
  co_timers : timers_wf (timer_queue s);
  co_timer : forall ch x, channels s !! ch = Some x -> exists t d, request_timer x = Some t /\
    timer_obj s !! t = Some ch /\ timers (timer_queue s) !! t = Some d /\ has_proc d = true;
  co_running : forall t, t ∈ ring (timer_queue s) -> exists ch x m, timer_obj s !! t = Some ch /\
    channels s !! ch = Some x /\ request_timer x = Some t /\ active_request x = Some m;
  co_limited : request_timeout s <> 0 -> forall ch x m t, channels s !! ch = Some x ->
    active_request x = Some m -> request_timer x = Some t -> t ∈ ring (timer_queue s);
  co_generators : forall c k g, connections s !! c = Some k -> conn_generator k = Some g -> mrcp_generator_ok g;
  co_fresh : forall a, (next_address s <= a)%nat -> channels s !! a = None;
  co_timeout : 0 <= request_timeout s < 2 ^ 32 - 0xFFFF
}.

(** Since state [s0] the agent took no new requests. *)
Definition kept (s0 s : agent) : Prop := client_ok s /\ forall ch, accounted s ch = accounted s0 ch.
Definition keeps {B} (m : prog agent B) : Prop := forall s0 s, kept s0 s -> wp True m s (fun _ s' => kept s0 s').

(** States that differ in nothing the invariant is about. *)
Lemma kept_same s0 s s' :
  kept s0 s -> channels s' = channels s -> timer_queue s' = timer_queue s -> timer_obj s' = timer_obj s ->
  request_timeout s' = request_timeout s -> next_address s' = next_address s ->
  (forall c k g, connections s' !! c = Some k -> conn_generator k = Some g -> mrcp_generator_ok g) ->
  (forall ch, responses ch (agent_out s') = responses ch (agent_out s)) -> kept s0 s'.
Proof.
  intros [[C1 C2 C3 C4 C5 C6 C7] Ha] Hc Hq Ho Hr Hn Hg Hout. split.
  - split; rewrite ?Hc, ?Hq, ?Ho, ?Hr, ?Hn; done.
  - intros ch. rewrite <-Ha. unfold accounted, pending. by rewrite Hout, Hc.
Qed.

Lemma client_keeps_ret {B} (b : B) : keeps (ret b).
Proof. by intros s0 s H. Qed.
Lemma client_keeps_bind {B C} (m : prog agent B) (f : B -> prog agent C) :
  keeps m -> (forall b, keeps (f b)) -> keeps (bind m f).
Proof. intros Hm Hf s0 s H. apply wp_bind. eapply wp_weaken; [by apply Hm|]. intros b s' H'. by apply Hf. Qed.
Lemma client_keeps_deref {B} (p : option B) : keeps (deref_ptr p).
Proof. intros s0 s H. apply wp_deref. by destruct p. Qed.
Lemma client_keeps_gets {B} (f : agent -> B) : keeps (gets f).
Proof. by intros s0 s H. Qed.
Lemma keeps_crash {B} : keeps (crash : prog agent B).
Proof. by intros s0 s H. Qed.
Lemma client_keeps_get_conn c : keeps (get_conn c).
Proof. apply client_keeps_bind; [apply client_keeps_gets|intros s; apply client_keeps_deref]. Qed.
Lemma keeps_get_chan ch : keeps (get_chan ch).
Proof. apply client_keeps_bind; [apply client_keeps_gets|intros s; apply client_keeps_deref]. Qed.

Lemma keeps_modify (f : agent -> agent) :
  (forall s, channels (f s) = channels s /\ timer_queue (f s) = timer_queue s /\ timer_obj (f s) = timer_obj s /\
     request_timeout (f s) = request_timeout s /\ next_address (f s) = next_address s /\
     connections (f s) = connections s /\ agent_out (f s) = agent_out s) ->
  keeps (modify f).
Proof.
  intros Hf s0 s H. apply wp_modify. destruct (Hf s) as (? & ? & ? & ? & ? & Hc & Ho). apply (kept_same s0 s); try done.
  - intros c k g. rewrite Hc. apply (co_generators s (proj1 H)).
  - intros ch. by rewrite Ho.
Qed.

Lemma client_keeps_tell e : (forall ch, response_id ch e = None) -> keeps (tell e).
Proof.
  intros He s0 s H. apply wp_modify. apply (kept_same s0 s); try done.
  - apply (co_generators s (proj1 H)).
  - intros ch. cbn [field_set agent_out]. unfold responses. rewrite omap_app. cbn [omap list_omap]. by rewrite He, app_nil_r.
Qed.

Lemma get_conn_run s c :
  get_conn c s = match connections s !! c with Some k => Some (k, s) | None => None end.
Proof. unfold get_conn, bind, gets, deref_ptr. by destruct (connections s !! c). Qed.
Lemma get_chan_run s ch :
  get_chan ch s = match channels s !! ch with Some x => Some (x, s) | None => None end.
Proof. unfold get_chan, bind, gets, deref_ptr. by destruct (channels s !! ch). Qed.

Lemma client_keeps_set_conn c f :
  (forall k g, (forall g, conn_generator k = Some g -> mrcp_generator_ok g) ->
               conn_generator (f k) = Some g -> mrcp_generator_ok g) ->
  keeps (set_conn c f).
Proof.
  intros Hf s0 s H. unfold wp, set_conn, bind. rewrite get_conn_run. destruct (connections s !! c) as [k|] eqn:E; [|done].
  apply (kept_same s0 s); try done. intros c' k' g. cbn [field_set connections].
  destruct (decide (c' = c)) as [->|Hc].
  - rewrite lookup_insert_eq. intros [= <-]. apply Hf. intros g'. by apply (co_generators s (proj1 H) c).
  - rewrite lookup_insert_ne by done. by apply (co_generators s (proj1 H)).
Qed.

(** A channel replaced by one with the same request and timer. *)
Lemma keeps_set_chan ch f :
  (forall x, request_timer (f x) = request_timer x /\ active_request (f x) = active_request x) ->
  keeps (set_chan ch f).
Proof.
  intros Hf s0 s H. unfold wp, set_chan, bind. rewrite get_chan_run. destruct (channels s !! ch) as [x|] eqn:E; [|done].
  unfold modify. set (s' := s <| channels := _ |>).
  assert (Hl : forall ch', channels s' !! ch' = if decide (ch' = ch) then Some (f x) else channels s !! ch').
  { intros ch'. change (channels s') with (<[ch := f x]> (channels s)).
    case_decide; [subst; apply lookup_insert_eq|by apply lookup_insert_ne]. }
  destruct (Hf x) as [Ht Ha]. destruct H as [[C1 C2 C3 C4 C5 C6 C7] Hacc]. split.
  - split; try done.
    + intros ch' x'. rewrite Hl. case_decide; [|apply C2]. subst. intros [= <-]. rewrite Ht. by apply C2.
    + intros t (ch' & x' & m & Ho & Hx & Ht' & Hm)%C3. destruct (decide (ch' = ch)) as [->|Hne].
      * assert (x' = x) as -> by congruence. exists ch, (f x), m. rewrite Hl, decide_True by done. by rewrite Ht, Ha.
      * exists ch', x', m. rewrite Hl, decide_False by done. by split_and!.
    + intros Hr ch' x' m t. rewrite Hl. case_decide; [|by apply (C4 Hr ch')]. subst. intros [= <-]. rewrite Ha, Ht. by apply (C4 Hr ch).
    + intros a Hn. rewrite Hl. case_decide; [|by apply C6]. subst. by rewrite C6 in E.
  - intros ch'. rewrite <-Hacc. unfold accounted, pending. rewrite Hl. case_decide; [|done]. subst. by rewrite E, Ha.
Qed.

(** ** A request that is answered *)

Lemma response_mine ch m : message_type (start_line m) = MRCP_MESSAGE_TYPE_RESPONSE ->
  forall ch', responses ch' [ON_RECEIVE ch m] = if decide (ch' = ch) then [request_id (start_line m)] else [].
Proof.
  intros Hm ch'. unfold responses. cbn [omap list_omap response_id]. rewrite Hm. destruct (decide (ch' = ch)) as [->|Hne].
  - by rewrite decide_True.
  - rewrite decide_False; [done|]. by intros [? _].
Qed.

Lemma responses_app ch (l1 l2 : list event) : responses ch (l1 ++ l2) = responses ch l1 ++ responses ch l2.
Proof. apply omap_app. Qed.

(** The state after the request of channel [ch] is answered with [m'] and its timer killed. *)
Lemma answered_kept s0 s s' ch x m m' t b q' :
  kept s0 s -> channels s !! ch = Some x -> active_request x = Some m -> request_timer x = Some t ->
  apt_timer_kill t (timer_queue s) = Some (b, q') ->
  message_type (start_line m') = MRCP_MESSAGE_TYPE_RESPONSE ->
  request_id (start_line m') = request_id (start_line m) ->
  channels s' = <[ch := x <| active_request := None |>]> (channels s) -> timer_queue s' = q' ->
  timer_obj s' = timer_obj s -> request_timeout s' = request_timeout s -> next_address s' = next_address s ->
  connections s' = connections s -> agent_out s' = agent_out s ++ [ON_RECEIVE ch m'] -> kept s0 s'.
Proof.
  intros [[C1 C2 C3 C4 C5 C6 C7] Hacc] Ex Em Et Ek Hty Hid Hc Hq Ho Hr Hn Hco Hout.
  destruct (C2 ch x Ex) as (t1 & d & Et1 & Hobj & Ed & Hp). assert (t1 = t) as -> by congruence.
  destruct (timer_kill_ok (timer_queue s) t d C1 Ed) as (b1 & q1 & Ek1 & W1 & Hsame & Hring).
  rewrite Ek in Ek1. injection Ek1 as _ <-.
  assert (Hl : forall ch', channels s' !! ch' = if decide (ch' = ch) then Some (x <| active_request := None |>) else channels s !! ch').
  { intros ch'. rewrite Hc. case_decide; [subst; apply lookup_insert_eq|by apply lookup_insert_ne]. }
  split.
  - split; rewrite ?Hq, ?Ho, ?Hr, ?Hn, ?Hco; try done.
    + intros ch' x' Hx. assert (Hx' : exists x0, channels s !! ch' = Some x0 /\ request_timer x' = request_timer x0).
      { rewrite Hl in Hx. case_decide; [|by exists x']. subst. injection Hx as <-. by exists x. }
      destruct Hx' as (x0 & Hx0 & ->). destruct (C2 ch' x0 Hx0) as (t' & d' & Ht' & Hobj' & Ed' & Hp').
      destruct (same_timers_some _ _ _ _ Hsame Ed') as (d2 & Ed2 & Hp2). exists t', d2. split_and!; congruence.
    + intros t' [Hne Hin]%Hring. destruct (C3 t' Hin) as (ch' & x' & m0 & Ho' & Hx' & Ht' & Hm0).
      exists ch', x', m0. rewrite Hl. case_decide; [subst; congruence|done].
    + intros Hr0 ch' x' m0 t'. rewrite Hl. case_decide; [subst; by intros [= <-]|]. intros Hx Hm0 Ht'.
      apply Hring. split; [|by apply (C4 Hr0 ch' x' m0)]. intros ->.
      destruct (C2 ch' x' Hx) as (t2 & _ & Ht2 & Ho2 & _). congruence.
    + intros a Ha. rewrite Hl. case_decide; [|by apply C6]. subst. by rewrite C6 in Ex.
  - intros ch'. rewrite <-Hacc. unfold accounted, pending. rewrite Hout, responses_app, Hl, (response_mine ch m' Hty).
    case_decide; [|by rewrite app_nil_r]. subst. by rewrite Ex, Em, app_nil_r, Hid.
Qed.

Lemma cancel_response_facts (m : message) :
  message_type (start_line (cancel_response m)) = MRCP_MESSAGE_TYPE_RESPONSE /\
  request_id (start_line (cancel_response m)) = request_id (start_line m) /\
  status_code (start_line (cancel_response m)) = MRCP_STATUS_CODE_METHOD_FAILED.
Proof.
  unfold cancel_response, set_start_line. cbn [field_set start_line message_type request_id status_code].
  by rewrite response_create_start_line.
Qed.

(** ** The operations *)

Create HintDb client.
#[local] Hint Resolve client_keeps_ret client_keeps_deref client_keeps_gets keeps_crash client_keeps_get_conn keeps_get_chan : client.
Ltac client_step :=
  first [ solve [eauto with client]
        | apply client_keeps_tell; intros ?; reflexivity
        | apply keeps_set_chan; intros ?; by split
        | apply keeps_modify; intros ?; by split_and!
        | apply client_keeps_set_conn; intros ? ?; cbn [field_set conn_generator]; by auto ].
Ltac client_go :=
  repeat first [ client_step
               | lazymatch goal with |- keeps (bind _ _) => eapply client_keeps_bind; [|intros ?] end
               | case_match ].

Lemma keeps_connection_create : keeps mrcp_connection_create.
Proof.
  intros s0 s H. unfold mrcp_connection_create. apply wp_bind, wp_gets, wp_bind, wp_modify, wp_ret.
  set (s' := _ <| connections := _ |>).
  assert (Hg : forall c k g, connections s' !! c = Some k -> conn_generator k = Some g -> mrcp_generator_ok g).
  { intros c k g. change (connections s') with (<[next_address s := mk_connection false None 0 false apr_hash_make
      (apt_text_stream_init [] 0) 0 None [] 0 None]> (connections s)). destruct (decide (c = next_address s)) as [->|Hc].
    - rewrite lookup_insert_eq. by intros [= <-].
    - rewrite lookup_insert_ne by done. apply (co_generators s (proj1 H)). }
  destruct H as [[C1 C2 C3 C4 C5 C6 C7] Ha]. split; [|done]. split; try done.
  intros a Hn. apply C6. change (next_address s') with (S (next_address s)) in Hn. lia.
Qed.

Lemma keeps_connection_destroy c : keeps (mrcp_connection_destroy c).
Proof.
  unfold mrcp_connection_destroy. eapply client_keeps_bind; [apply client_keeps_get_conn|intros _].
  intros s0 s H. apply wp_modify. apply (kept_same s0 s); try done.
  intros c' k g. cbn [field_set connections]. rewrite lookup_delete_Some. intros [_ E]. by apply (co_generators s (proj1 H) c').
Qed.
#[local] Hint Resolve keeps_connection_create keeps_connection_destroy : client.

Lemma keeps_channel_add c ch : keeps (mrcp_connection_channel_add c ch).
Proof. unfold mrcp_connection_channel_add. client_go. Qed.
Lemma keeps_channel_remove c ch : keeps (mrcp_connection_channel_remove c ch).
Proof. unfold mrcp_connection_channel_remove. client_go. Qed.
Lemma keeps_channel_find c id : keeps (mrcp_connection_channel_find c id).
Proof. unfold mrcp_connection_channel_find. client_go. Qed.
#[local] Hint Resolve keeps_channel_add keeps_channel_remove keeps_channel_find : client.

Lemma keeps_channel_destroy chan : keeps (mrcp_client_control_channel_destroy chan).
Proof. unfold mrcp_client_control_channel_destroy. client_go. Qed.

Lemma keeps_agent_connection_create d o : keeps (mrcp_client_agent_connection_create d o).
Proof.
  unfold mrcp_client_agent_connection_create. client_go.
  apply client_keeps_set_conn. intros k g _. cbn [field_set conn_generator]. by intros [= <-].
Qed.
Lemma keeps_connection_walk l d : keeps (connection_walk l d).
Proof. induction l; cbn [connection_walk]; client_go. Qed.
#[local] Hint Resolve keeps_channel_destroy keeps_agent_connection_create keeps_connection_walk : client.

Lemma keeps_connection_remove c : keeps (mrcp_client_agent_connection_remove c).
Proof.
  unfold mrcp_client_agent_connection_remove. client_go.
Qed.
#[local] Hint Resolve keeps_connection_remove : client.

(** A channel that disconnects: its request is given up. *)
Lemma keeps_channel_disconnect ch : keeps (channel_disconnect ch).
Proof.
  intros s0 s H. unfold wp, channel_disconnect. unfold bind at 1. rewrite get_chan_run.
  destruct (channels s !! ch) as [x|] eqn:Ex; [|done].
  destruct (active_request x) as [m|] eqn:Em; [|by apply (client_keeps_tell (ON_DISCONNECT ch) (fun _ => eq_refl) s0 s)].
  destruct (co_timer s (proj1 H) ch x Ex) as (t & d & Et & Ho & Ed & Hp).
  destruct (timer_kill_ok (timer_queue s) t d (co_timers s (proj1 H)) Ed) as (b & q' & Ek & _).
  unfold mrcp_client_agent_request_cancel, tell. unfold bind at 1, modify at 1.
  set (s1 := s <| agent_out := _ |>). unfold set_chan. unfold bind at 1, bind at 1. rewrite get_chan_run.
  change (channels s1) with (channels s). rewrite Ex. unfold modify at 1. set (s2 := s1 <| channels := _ |>).
  unfold request_timer_kill. rewrite Et. unfold bind, on_timers, on_queue. change (timer_queue s2) with (timer_queue s). rewrite Ek.
  unfold ret. destruct (cancel_response_facts m) as (Hty & Hid & _).
  by apply (answered_kept s0 s _ ch x m (cancel_response m) t b q').
Qed.

Lemma keeps_disconnect_walk l : keeps (disconnect_walk l).
Proof. induction l; cbn [disconnect_walk]; [apply client_keeps_ret|]. eapply client_keeps_bind; [apply keeps_channel_disconnect|done]. Qed.
#[local] Hint Resolve keeps_disconnect_walk : client.

Lemma keeps_disconnect_raise c : keeps (mrcp_client_agent_disconnect_raise c).
Proof. unfold mrcp_client_agent_disconnect_raise. client_go. Qed.
#[local] Hint Resolve keeps_disconnect_raise : client.

(** A message that came in. *)
Lemma keeps_message_handler c om status : keeps (mrcp_client_message_handler c om status).
Proof.
  unfold mrcp_client_message_handler. destruct status; try apply client_keeps_ret.
  eapply client_keeps_bind; [apply client_keeps_deref|intros m]. eapply client_keeps_bind; [apply keeps_channel_find|intros [ch|]]; [|apply client_keeps_ret].
  intros s0 s H. apply wp_bind. unfold wp at 1. rewrite get_chan_run.
  destruct (channels s !! ch) as [x|] eqn:Ex; [|done]. case_decide as Hty.
  - unfold response_expected. destruct (active_request x) as [req|] eqn:Em; [|done].
    destruct (Z.eqb_spec (request_id (start_line req)) (request_id (start_line m))) as [Hid|]; [|done].
    destruct (co_timer s (proj1 H) ch x Ex) as (t & d & Et & Ho & Ed & Hp).
    destruct (timer_kill_ok (timer_queue s) t d (co_timers s (proj1 H)) Ed) as (b & q' & Ek & _).
    unfold wp, request_timer_kill. rewrite Et. unfold bind at 1, bind at 1, on_timers, on_queue. rewrite Ek.
    unfold ret at 1. set (s1 := timer_queue_set q' s). unfold set_chan. unfold bind at 1, bind at 1. rewrite get_chan_run.
    change (channels s1) with (channels s). rewrite Ex. unfold modify at 1. set (s2 := s1 <| channels := _ |>).
    unfold tell, bind, modify, ret. by apply (answered_kept s0 s _ ch x req m t b q').
  - revert s0 s H x Ex. enough (Hk : keeps (tell (ON_RECEIVE ch m) ;;; ret true)) by (intros s0 s H x _; by apply Hk).
    eapply client_keeps_bind; [apply client_keeps_tell|intros ?; apply client_keeps_ret]. intros ch'. cbn [response_id]. rewrite decide_False; [done|]. by intros [_ ?].
Qed.
#[local] Hint Resolve keeps_message_handler : client.

Lemma client_keeps_receive_loop fuel c : keeps (message_receive_loop fuel c).
Proof.
  induction fuel as [|fuel IH]; cbn [message_receive_loop]; [apply client_keeps_ret|].
  client_go; apply IH.
Qed.
#[local] Hint Resolve client_keeps_receive_loop : client.

Lemma keeps_signal c data : keeps (mrcp_client_poller_signal_process c data).
Proof. unfold mrcp_client_poller_signal_process. client_go. Qed.
#[local] Hint Resolve keeps_signal : client.

Lemma keeps_agent_channel_add ch d : keeps (mrcp_client_agent_channel_add ch d).
Proof. unfold mrcp_client_agent_channel_add. client_go. Qed.

Lemma keeps_agent_channel_modify ch d o : keeps (mrcp_client_agent_channel_modify ch d o).
Proof.
  unfold mrcp_client_agent_channel_modify, channel_connection_get, mrcp_client_agent_connection_find. client_go.
Qed.

Lemma keeps_agent_channel_remove ch : keeps (mrcp_client_agent_channel_remove ch).
Proof. unfold mrcp_client_agent_channel_remove. client_go. Qed.
#[local] Hint Resolve keeps_agent_channel_add keeps_agent_channel_modify keeps_agent_channel_remove : client.

Lemma keeps_control_channel_create : keeps mrcp_client_control_channel_create.
Proof.
  intros s0 s [[C1 C2 C3 C4 C5 C6 C7] Ha].
  destruct (timer_create_ok (timer_queue s) true C1) as (q' & Eq & W' & Hring & Htm & Hel).
  set (ch := next_address s). set (t := next_timer (timer_queue s)) in *.
  unfold wp, mrcp_client_control_channel_create. unfold bind at 1, gets at 1. fold ch.
  unfold bind at 1, modify at 1. set (s1 := _ <| channels := _ |>).
  unfold bind at 1, on_timers, on_queue. change (timer_queue s1) with (timer_queue s). rewrite Eq.
  unfold bind at 1, modify at 1. set (s2 := _ <| timer_obj := _ |>).
  unfold set_chan. unfold bind at 1, bind at 1. rewrite get_chan_run.
  change (channels s2) with (<[ch := mk_channel None None None false apt_string_reset]> (channels s)).
  rewrite lookup_insert_eq. unfold modify at 1, ret. set (s3 := s2 <| channels := _ |>).
  assert (Hl : forall ch', channels s3 !! ch' = if decide (ch' = ch) then Some (mk_channel None None (Some t) false apt_string_reset)
                           else channels s !! ch').
  { intros ch'. change (channels s3) with (<[ch := mk_channel None None (Some t) false apt_string_reset]>
      (<[ch := mk_channel None None None false apt_string_reset]> (channels s))).
    case_decide; [subst; apply lookup_insert_eq|by rewrite !lookup_insert_ne]. }
  assert (Hobj : forall t', timer_obj s3 !! t' = if decide (t' = t) then Some ch else timer_obj s !! t').
  { intros t'. change (timer_obj s3) with (<[t := ch]> (timer_obj s)).
    case_decide; [subst; apply lookup_insert_eq|by apply lookup_insert_ne]. }
  assert (Hnt : timers (timer_queue s) !! t = None) by (by apply (tw_fresh _ C1)).
  assert (Hnr : ~ (t ∈ ring (timer_queue s))).
  { intros Hin. apply (tw_linked _ C1), sched_present in Hin as [d Hd]. congruence. }
  split.
  - split; change (timer_queue s3) with q'; try done.
    + intros ch' x. rewrite Hl. case_decide as D.
      * intros [= <-]. exists t, (mk_timer 0 true). rewrite Hobj, decide_True, Htm by done. subst ch'. split_and!; try done. apply lookup_insert_eq.
      * intros Hx. destruct (C2 ch' x Hx) as (t' & d & Et & Eo & Ed & Hp). assert (t' <> t) by congruence.
        exists t', d. rewrite Hobj, decide_False, Htm, lookup_insert_ne by done. done.
    + intros t' Hin. rewrite Hring in Hin. destruct (C3 t' Hin) as (ch' & x & m & Eo & Ex & Et & Em).
      exists ch', x, m. rewrite Hobj, Hl. rewrite decide_False by (by intros ->). rewrite decide_False; [done|].
      intros ->. rewrite (C6 ch) in Ex by (unfold ch; lia). done.
    + intros Hr ch' x m t'. rewrite Hl, Hring. case_decide; [by intros [= <-]|]. by apply (C4 Hr ch').
    + intros a Hn. change (next_address s3) with (S ch) in Hn. rewrite Hl, decide_False by lia. apply C6. fold ch. lia.
  - intros ch'. rewrite <-Ha. unfold accounted, pending. change (agent_out s3) with (agent_out s). rewrite Hl.
    case_decide; [|done]. subst ch'. by rewrite (C6 ch) by (unfold ch; lia).
Qed.

(** ** A request that is sent *)

Lemma send_loop_keeps fuel : forall sent i c a m b,
  forall s0 s, kept s0 s ->
  wp True (message_send_loop fuel sent i c a m b) s (fun r s' => kept s0 s' /\
    request_id (start_line (snd r)) = request_id (start_line m) /\ channels s' = channels s /\
    timer_queue s' = timer_queue s).
Proof.
  induction fuel as [|fuel IH]; intros sent i c a m b s0 s H; [done|]. cbn [message_send_loop].
  apply wp_bind. unfold wp at 1. rewrite get_conn_run. destruct (connections s !! c) as [k|] eqn:Ek; [|done].
  apply wp_bind, wp_deref. destruct (conn_generator k) as [g|] eqn:Eg; [|done].
  apply wp_bind, wp_deref. destruct (mrcp_generator_run _ _ _ _) as [[[[result g'] m'] st]|] eqn:Er; [|done].
  apply generator_run_id in Er as [Hg' Hid]; [|by apply (co_generators s (proj1 H) c k)].
  assert (Hset : forall s1 (f : conn -> conn), kept s0 s1 -> channels s1 = channels s -> timer_queue s1 = timer_queue s ->
    (forall k', conn_generator (f k') = Some g' \/ conn_generator (f k') = conn_generator k') ->
    wp True (set_conn c f) s1 (fun _ s' => kept s0 s' /\ channels s' = channels s /\ timer_queue s' = timer_queue s)).
  { intros s1 f H1 Hc Hq Hf. pose proof (fun Hx => client_keeps_set_conn c f Hx s0 s1 H1) as Hw.
    unfold wp in *. unfold set_conn, bind in *. rewrite get_conn_run in *. destruct (connections s1 !! c); [|done].
    split; [|done]. apply Hw. intros k' g0 Hk'. destruct (Hf k') as [->| ->]; [by intros [= <-]|apply Hk']. }
  apply wp_bind. eapply wp_weaken; [apply (Hset s); try done; intros k'; by left|].
  intros _ s1 (H1 & Hc1 & Hq1).
  assert (Hpiece : forall (k : prog agent (bool * message)),
    (forall s2, kept s0 s2 -> channels s2 = channels s -> timer_queue s2 = timer_queue s ->
       wp True k s2 (fun r s' => kept s0 s' /\ request_id (start_line (snd r)) = request_id (start_line m) /\
         channels s' = channels s /\ timer_queue s' = timer_queue s)) ->
    wp True (let* z := deref_ptr (store [NUL] st) in
             set_conn c (fun y : conn => y <| tx_buffer := st_mem (snd z) |>) ;;;
             tell (SOCKET_SEND c (stream_text (snd z))) ;;; k) s1
      (fun r s' => kept s0 s' /\ request_id (start_line (snd r)) = request_id (start_line m) /\
         channels s' = channels s /\ timer_queue s' = timer_queue s)).
  { intros kk Hkk. apply wp_bind, wp_deref. destruct (store [NUL] st) as [z|]; [|done].
    apply wp_bind. eapply wp_weaken; [apply (Hset s1); try done; intros k'; by right|].
    intros _ s2 (H2 & Hc2 & Hq2). pose proof (client_keeps_tell (SOCKET_SEND c (stream_text (snd z))) (fun _ => eq_refl) s0 s2 H2) as Ht.
    apply wp_bind, wp_modify. by apply Hkk. }
  destruct result.
  - apply Hpiece. intros s2 H2 Hc2 Hq2. apply wp_ret. split_and!; try done.
  - apply Hpiece. intros s2 H2 Hc2 Hq2. eapply wp_weaken; [by apply IH|]. cbv beta.
    intros r s' (Hk & Hr & Hc' & Hq'). split_and!; try done; congruence.
  - apply wp_ret. by split_and!.
Qed.

(** The request becomes the one under way. *)
Lemma request_activate_ok s0 s ch x (m m0 : message) :
  kept s0 s -> channels s !! ch = Some x -> active_request x = None ->
  request_id (start_line m) = request_id (start_line m0) ->
  wp False (request_activate ch m) s (fun _ s' => client_ok s' /\ forall ch',
    accounted s' ch' = accounted s0 ch' ++ if decide (ch' = ch) then [request_id (start_line m0)] else []).
Proof.
  intros [[C1 C2 C3 C4 C5 C6 C7] Hacc] Ex Em Hid.
  destruct (C2 ch x Ex) as (t & d & Et & Ho & Ed & Hp).
  assert (Hnr : ~ (t ∈ ring (timer_queue s))).
  { intros (ch' & x' & m1 & Ho' & Hx' & _ & Hm1)%C3. assert (ch' = ch) as -> by congruence. congruence. }
  unfold wp, request_activate. unfold bind at 1. rewrite get_chan_run, Ex.
  unfold bind at 1, set_chan. unfold bind at 1. rewrite get_chan_run, Ex. unfold modify at 1.
  set (s1 := s <| channels := _ |>). unfold bind at 1, gets at 1. change (request_timeout s1) with (request_timeout s).
  rewrite Et.
  assert (Hl : forall ch', channels s1 !! ch' = if decide (ch' = ch) then Some (x <| active_request := Some m |>) else channels s !! ch').
  { intros ch'. change (channels s1) with (<[ch := x <| active_request := Some m |>]> (channels s)).
    case_decide; [subst; apply lookup_insert_eq|by apply lookup_insert_ne]. }
  assert (Hfin : forall q', timers_wf q' -> same_timers (timer_queue s) q' ->
    (forall b, b ∈ ring q' <-> (request_timeout s <> 0 /\ b = t) \/ b ∈ ring (timer_queue s)) ->
    client_ok (timer_queue_set q' s1) /\ forall ch',
    accounted (timer_queue_set q' s1) ch' = accounted s0 ch' ++ if decide (ch' = ch) then [request_id (start_line m0)] else []).
  { intros q' W' Hsame Hring. set (s2 := timer_queue_set q' s1).
    assert (Hl2 : forall ch', channels s2 !! ch' = if decide (ch' = ch) then Some (x <| active_request := Some m |>) else channels s !! ch') by exact Hl.
    split.
    - split; change (timer_queue s2) with q'; try done.
      + intros ch' x' Hx'. assert (Hx0 : exists x0, channels s !! ch' = Some x0 /\ request_timer x' = request_timer x0).
        { rewrite Hl2 in Hx'. case_decide; [|by exists x']. subst. injection Hx' as <-. by exists x. }
        destruct Hx0 as (x0 & Hx0 & ->). destruct (C2 ch' x0 Hx0) as (t' & d' & Ht' & Ho' & Ed' & Hp').
        destruct (same_timers_some _ _ _ _ Hsame Ed') as (d2 & Ed2 & Hp2). exists t', d2. split_and!; try done; congruence.
      + intros t' [[_ ->]|(ch' & x' & m1 & Ho' & Hx' & Ht' & Hm1)%C3]%Hring.
        * exists ch, (x <| active_request := Some m |>), m. rewrite Hl2, decide_True by done. done.
        * exists ch', x', m1. rewrite Hl2. case_decide; [|done]. subst. congruence.
      + intros Hr ch' x' m1 t'. rewrite Hl2. case_decide.
        * intros [= <-] _ Ht'. apply Hring. left. split; [done|]. cbn in Ht'. congruence.
        * intros Hx' Hm1 Ht'. apply Hring. right. by apply (C4 Hr ch' x' m1).
      + intros a Hn. rewrite Hl2. case_decide; [|by apply C6]. subst. by rewrite C6 in Ex.
    - intros ch'. rewrite <-Hacc. unfold accounted, pending. change (agent_out s2) with (agent_out s). rewrite Hl2.
      case_decide; [|by rewrite app_nil_r]. subst. rewrite Ex, Em, app_nil_r. cbn [field_set active_request]. by rewrite Hid. }
  destruct (Z.eqb_spec (request_timeout s) 0) as [Hz|Hz].
  - unfold ret. apply (Hfin (timer_queue s)); [done|done|]. intros b. tauto.
  - pose proof (tw_elapsed _ C1) as He.
    destruct (timer_set_ok (timer_queue s) t d (request_timeout s) C1 Ed Hp Hnr) as (q' & Eq & W' & Hsame & Hring); [lia|lia|].
    unfold bind, on_timers, on_queue. change (timer_queue s1) with (timer_queue s). rewrite Eq. unfold ret.
    apply Hfin; [done|done|]. intros b. rewrite Hring. tauto.
Qed.

(** A request that cannot be sent is answered by the agent. *)
Lemma request_refused_ok s0 s ch (m m0 : message) :
  kept s0 s -> pending s0 ch = [] -> pending s ch = [] -> request_id (start_line m) = request_id (start_line m0) ->
  wp False (mrcp_client_agent_request_cancel ch m) s (fun _ s' => client_ok s' /\ forall ch',
    accounted s' ch' = accounted s0 ch' ++ if decide (ch' = ch) then [request_id (start_line m0)] else []).
Proof.
  intros [[C1 C2 C3 C4 C5 C6 C7] Hacc] Hp0 Hp Hid. apply wp_modify. split; [by split|].
  intros ch'. rewrite <-Hacc. unfold accounted, pending. cbn [field_set agent_out channels]. rewrite responses_app.
  destruct (cancel_response_facts m) as (Hty & Hid' & _). rewrite (response_mine ch _ Hty), Hid', Hid.
  fold (pending s ch'). case_decide; [subst; by rewrite Hp, !app_nil_r|by rewrite !app_nil_r].
Qed.

Lemma send_ok s sent ch a (m : message) :
  client_ok s -> pending s ch = [] ->
  wp True (mrcp_client_agent_messsage_send sent ch a m) s (fun _ s' => client_ok s' /\ forall ch',
    accounted s' ch' = accounted s ch' ++ if decide (ch' = ch) then [request_id (start_line m)] else []).
Proof.
  intros Hok Hp. assert (H : kept s s) by by split.
  assert (Hcancel : forall s1 (m1 : message), kept s s1 -> pending s1 ch = [] -> request_id (start_line m1) = request_id (start_line m) ->
    wp True (mrcp_client_agent_request_cancel ch m1) s1 (fun _ s' => client_ok s' /\ forall ch',
    accounted s' ch' = accounted s ch' ++ if decide (ch' = ch) then [request_id (start_line m)] else [])).
  { intros s1 m1 H1 Hp1 Hid. pose proof (request_refused_ok s s1 ch m1 m H1 Hp Hp1 Hid) as Hw. unfold wp in *. by case_match. }
  unfold mrcp_client_agent_messsage_send. apply wp_bind. unfold wp at 1. rewrite get_chan_run.
  destruct (channels s !! ch) as [x|] eqn:Ex; [|done].
  assert (Em : active_request x = None).
  { unfold pending in Hp. rewrite Ex in Hp. by destruct (active_request x). }
  destruct (connection x) as [c|]; [|apply wp_bind; by apply Hcancel].
  apply wp_bind. unfold wp at 1. rewrite get_conn_run. destruct (connections s !! c) as [k|]; [|done].
  destruct (negb (sock k)); [apply wp_bind; by apply Hcancel|].
  apply wp_bind. eapply wp_weaken; [by apply send_loop_keeps|]. cbv beta.
  intros [status m1] s1 (H1 & Hid & Hc & Hq). cbn [snd] in Hid. apply wp_bind.
  assert (Ex1 : channels s1 !! ch = Some x) by by rewrite Hc.
  assert (Hp1 : pending s1 ch = []) by (unfold pending; by rewrite Ex1, Em).
  destruct status; [|by apply Hcancel].
  pose proof (request_activate_ok s s1 ch x m1 m H1 Ex1 Em Hid) as Hw. unfold wp in *. by case_match.
Qed.

(** ** Requests whose time is over *)

(** What timer [t] tells the owner when it fires. *)
Definition timeout_event s t : option event :=
  ch ← timer_obj s !! t; x ← channels s !! ch; m ← active_request x; Some (ON_RECEIVE ch (cancel_response m)).

(** The channel when the timers [l] have fired. *)
Definition settled (l : list addr) x : channel :=
  match request_timer x with
  | Some t => if decide (t ∈ l) then x <| active_request := None |> else x
  | None => x
  end.

Lemma settled_cons t l x :
  settled (t :: l) x = settled l (if decide (request_timer x = Some t) then x <| active_request := None |> else x).
Proof.
  unfold settled. destruct (decide (request_timer x = Some t)) as [Et|Hne].
  - change (request_timer (x <| active_request := None |>)) with (request_timer x). rewrite Et.
    rewrite decide_True by apply list_elem_of_here. by case_decide.
  - destruct (request_timer x) as [t'|]; [|done]. apply decide_ext. rewrite list.elem_of_cons. split; [|by right].
    intros [->|?]; done.
Qed.

Definition fires s t : Prop := exists ch x m, timer_obj s !! t = Some ch /\ channels s !! ch = Some x /\
  request_timer x = Some t /\ active_request x = Some m.

Lemma timer_proc_eq s t :
  mrcp_client_timer_proc t s =
  match timer_obj s !! t with
  | None => Some (tt, s)
  | Some ch =>
      match channels s !! ch with
      | None => None
      | Some x =>
          if decide (request_timer x = Some t) then
            match active_request x with
            | Some m => Some (tt, s <| agent_out := agent_out s ++ [ON_RECEIVE ch (cancel_response m)] |>
                                    <| channels := <[ch := x <| active_request := None |>]> (channels s) |>)
            | None => Some (tt, s)
            end
          else Some (tt, s)
      end
  end.
Proof.
  unfold mrcp_client_timer_proc, bind at 1, gets at 1. destruct (timer_obj s !! t) as [ch|]; [|done].
  unfold bind at 1. rewrite get_chan_run. destruct (channels s !! ch) as [x|] eqn:Ex; [|done]. case_decide; [|done].
  destruct (active_request x) as [m|]; [|done]. unfold mrcp_client_agent_request_cancel, tell. unfold bind at 1, modify at 1.
  unfold set_chan, bind. rewrite get_chan_run. cbn [field_set channels]. by rewrite Ex.
Qed.

Lemma procs_settle l : forall s, NoDup l -> (forall t, t ∈ l -> fires s t) ->
  (forall ch x t, channels s !! ch = Some x -> request_timer x = Some t -> timer_obj s !! t = Some ch) ->
  exists s', procs_run mrcp_client_timer_proc l s = Some (tt, s') /\
    s' = s <| channels := settled l <$> channels s |>
           <| agent_out := agent_out s ++ omap (timeout_event s) l |>.
Proof.
  induction l as [|t l IH]; intros s Hnd Hf Hown.
  - exists s. split; [done|]. cbn [omap list_omap]. rewrite app_nil_r.
    assert (Hid : settled [] <$> channels s = channels s).
    { apply map_eq. intros ch. rewrite lookup_fmap. destruct (channels s !! ch) as [x|]; [|done]. cbn [fmap option_fmap option_map].
      unfold settled. destruct (request_timer x); [|done]. by rewrite decide_False by apply list.not_elem_of_nil. }
    rewrite Hid. by destruct s.
  - apply list.NoDup_cons in Hnd as [Ht Hnd]. destruct (Hf t (list_elem_of_here _ _)) as (ch & x & m & Eo & Ex & Et & Em).
    cbn [procs_run]. unfold bind. rewrite timer_proc_eq, Eo, Ex, decide_True, Em by done. set (s1 := _ <| channels := _ |>).
    assert (Hl : forall ch', channels s1 !! ch' = if decide (ch' = ch) then Some (x <| active_request := None |>) else channels s !! ch').
    { intros ch'. change (channels s1) with (<[ch := x <| active_request := None |>]> (channels s)).
      case_decide; [subst; apply lookup_insert_eq|by apply lookup_insert_ne]. }
    assert (Hne : forall t', t' ∈ l -> fires s t' /\ timeout_event s1 t' = timeout_event s t' /\ fires s1 t').
    { intros t' Ht'. assert (Hf' := Hf t' (list_elem_of_further _ _ _ Ht')). split; [done|].
      destruct Hf' as (ch' & x' & m' & Eo' & Ex' & Et' & Em').
      assert (Hch : ch' <> ch). { intros ->. assert (t' = t) by congruence. by subst. }
      assert (Ex1 : channels s1 !! ch' = Some x') by (rewrite Hl, decide_False by done; done).
      split; [|by exists ch', x', m']. unfold timeout_event. change (timer_obj s1) with (timer_obj s). rewrite Eo'. cbn [mbind option_bind].
      by rewrite Ex1, Ex'. }
    destruct (IH s1 Hnd) as (s' & Hrun & ->).
    + intros t' Ht'. by apply Hne.
    + intros ch' x' t' Hx' Et'. change (timer_obj s1) with (timer_obj s). rewrite Hl in Hx'. case_decide.
      * subst. injection Hx' as <-. apply (Hown ch x t' Ex Et').
      * by eapply Hown.
    + eexists. split; [exact Hrun|].
      assert (Hch : settled l <$> channels s1 = settled (t :: l) <$> channels s).
      { apply map_eq. intros ch'. rewrite !lookup_fmap, Hl. case_decide as D.
        - subst. rewrite Ex. cbn [fmap option_fmap option_map]. rewrite settled_cons, decide_True by done. done.
        - destruct (channels s !! ch') as [x'|] eqn:Ex'; [|done]. cbn [fmap option_fmap option_map]. rewrite settled_cons.
          rewrite decide_False; [done|]. intros Et'. pose proof (Hown ch' x' t Ex' Et'). congruence. }
      assert (Hev : agent_out s1 ++ omap (timeout_event s1) l = agent_out s ++ omap (timeout_event s) (t :: l)).
      { change (agent_out s1) with (agent_out s ++ [ON_RECEIVE ch (cancel_response m)]). rewrite <-app_assoc. f_equal.
        cbn [omap list_omap]. unfold timeout_event at 2. rewrite Eo. cbn [mbind option_bind]. rewrite Ex. cbn [mbind option_bind]. rewrite Em.
        cbn [mbind option_bind app]. f_equal. clear -Hne. induction l as [|t' l IH]; [done|]. cbn [omap list_omap].
        destruct (Hne t' (list_elem_of_here _ _)) as (_ & -> & _). rewrite IH; [done|]. intros t2 H2. apply Hne. by apply list_elem_of_further. }
      rewrite <-Hch, <-Hev. done.
Qed.

Lemma timer_proc_apart t q s :
  mrcp_client_timer_proc t (timer_queue_set q s)
  = (let? (_, s') := mrcp_client_timer_proc t s in Some (tt, timer_queue_set q s')).
Proof.
  rewrite !timer_proc_eq. change (timer_obj (timer_queue_set q s)) with (timer_obj s).
  change (channels (timer_queue_set q s)) with (channels s). destruct (timer_obj s !! t) as [ch|]; [|done].
  destruct (channels s !! ch) as [x|]; [|done]. case_decide; [|done]. by destruct (active_request x).
Qed.

(** The requests whose time is over are answered by the agent, in the order of their times. *)
Lemma timers_advance_ok s elapsed :
  client_ok s -> 0 <= elapsed -> advance_ok (timer_queue s) elapsed ->
  let due := map fst (List.filter (fun p => snd p <=? elapsed) (timeouts (timer_queue s))) in
  exists q', client_timers_advance elapsed s = Some (tt, s <| channels := settled due <$> channels s |>
      <| agent_out := agent_out s ++ omap (timeout_event s) due |> <| timer_queue := q' |>) /\
    timers_wf q' /\ same_timers (timer_queue s) q' /\
    (forall t, t ∈ ring (timer_queue s) <-> t ∈ due \/ t ∈ ring q') /\ (forall t, t ∈ due -> ~ (t ∈ ring q')) /\ NoDup due.
Proof.
  intros [C1 C2 C3 C4 C5 C6 C7] Hel Hok due.
  destruct (timer_advance_ok (timer_queue s) elapsed C1 Hel Hok) as (q' & l & Hrun & W' & Hsame & Hf & Hl & Hnd & Hsplit & Hout).
  fold due in Hl. subst l. exists q'. split; [|done].
  destruct (advance_procs timer_queue timer_queue_set mrcp_client_timer_proc (fun _ _ => eq_refl) (fun _ _ _ => eq_refl)
    timer_proc_apart elapsed (timer_queue s) s q' Hrun) as (l & Hf' & Ha).
  rewrite Hf in Hf'. apply app_inv_head in Hf' as <-.
  destruct (procs_settle due s Hnd) as (s' & Hp & Es).
  - intros t Ht. apply C3, Hsplit. by left.
  - intros ch x t Ex Et. destruct (C2 ch x Ex) as (t' & d & Et' & Eo & _). congruence.
  - unfold client_timers_advance. assert (Hs : timer_queue_set (timer_queue s) s = s) by by destruct s.
    rewrite Hs, Hp in Ha. rewrite Ha, Es. done.
Qed.

Lemma responses_timeouts ch s l :
  responses ch (omap (timeout_event s) l) = omap (fun t => timeout_event s t ≫= response_id ch) l.
Proof.
  unfold responses. induction l as [|t l IH]; [done|]. cbn [omap list_omap].
  destruct (timeout_event s t) as [e|]; cbn [mbind option_bind omap list_omap]; [|exact IH].
  destruct (response_id ch e); by rewrite IH.
Qed.

(** What a channel is told: the answer to its request if its timer is among those that fired. *)
Lemma timeouts_of_channel s ch x t l :
  client_ok s -> channels s !! ch = Some x -> request_timer x = Some t -> NoDup l ->
  (forall t, t ∈ l -> fires s t) ->
  responses ch (omap (timeout_event s) l)
  = match active_request x with
    | Some m => if decide (t ∈ l) then [request_id (start_line m)] else []
    | None => []
    end.
Proof.
  intros Hok Ex Et Hnd Hf. rewrite responses_timeouts.
  assert (Hone : forall t', t' ∈ l -> timeout_event s t' ≫= response_id ch
            = if decide (t' = t) then (m ← active_request x; Some (request_id (start_line m))) else None).
  { intros t' Ht'. destruct (Hf t' Ht') as (ch' & x' & m & Eo & Ex' & Et' & Em). unfold timeout_event. rewrite Eo. cbn [mbind option_bind].
    rewrite Ex'. cbn [mbind option_bind]. rewrite Em. cbn [mbind option_bind response_id].
    destruct (cancel_response_facts m) as (Hty & Hid & _). rewrite Hty, Hid. destruct (decide (t' = t)) as [->|D].
    - assert (ch' = ch) as ->. { destruct (co_timer s Hok ch x Ex) as (t2 & d & Et2 & Eo2 & _). congruence. }
      assert (x' = x) as -> by congruence. rewrite Em. cbn [mbind option_bind]. by rewrite decide_True.
    - rewrite decide_False; [done|]. intros [-> _]. assert (x' = x) by congruence. congruence. }
  clear Hf. destruct (decide (t ∈ l)) as [Hin|Hout].
  - apply list_elem_of_split in Hin as (l1 & l2 & ->). apply list.NoDup_app in Hnd as (_ & Hd & Hnd).
    apply list.NoDup_cons in Hnd as [Hd2 _]. rewrite omap_app. cbn [omap list_omap].
    rewrite (Hone t) by (apply list.elem_of_app; right; apply list_elem_of_here). rewrite decide_True by done.
    assert (Hnil : forall l', (forall t', t' ∈ l' -> t' ∈ l1 ++ t :: l2 /\ t' <> t) -> omap (fun t => timeout_event s t ≫= response_id ch) l' = []).
    { induction l' as [|t' l' IH]; intros H; [done|]. cbn [omap list_omap]. destruct (H t' (list_elem_of_here _ _)) as [Hi Hn].
      rewrite (Hone t' Hi), decide_False by done. apply IH. intros t2 H2. apply H. by apply list_elem_of_further. }
    rewrite (Hnil l1), (Hnil l2).
    + by destruct (active_request x).
    + intros t' Ht'. split; [apply list.elem_of_app; right; by apply list_elem_of_further|by intros ->].
    + intros t' Ht'. split; [apply list.elem_of_app; by left|]. intros ->. apply (Hd t Ht'). apply list_elem_of_here.
  - replace (match active_request x with Some _ => [] | None => [] end) with (@nil Z) by by destruct (active_request x).
    induction l as [|t' l IH]; [done|]. cbn [omap list_omap]. rewrite Hone by apply list_elem_of_here.
    apply list.not_elem_of_cons in Hout as [Hne Hout]. rewrite decide_False by done. apply list.NoDup_cons in Hnd as [_ Hnd].
    apply IH; [done| |done]. intros t2 H2. apply Hone. by apply list_elem_of_further.
Qed.

Lemma settled_timer l x : request_timer (settled l x) = request_timer x.
Proof. unfold settled. destruct (request_timer x) as [t|] eqn:Et; [|done]. by case_decide. Qed.

Lemma advance_kept s elapsed :
  client_ok s -> 0 <= elapsed -> advance_ok (timer_queue s) elapsed ->
  wp False (client_timers_advance elapsed) s (fun _ s' => client_ok s' /\ forall ch, accounted s' ch = accounted s ch).
Proof.
  intros Hok Hel Hadv. destruct (timers_advance_ok s elapsed Hok Hel Hadv) as (q' & Hrun & W' & Hsame & Hsplit & Hout & Hnd).
  unfold wp. rewrite Hrun. set (due := map fst _) in *. set (s' := s <| channels := _ |> <| agent_out := _ |> <| timer_queue := _ |>).
  assert (Hl : forall ch, channels s' !! ch = settled due <$> channels s !! ch) by (intros ch; apply lookup_fmap).
  assert (Hfires : forall t, t ∈ due -> fires s t) by (intros t Ht; apply (co_running s Hok), Hsplit; by left).
  split.
  - destruct Hok as [C1 C2 C3 C4 C5 C6 C7]. split; try done; change (timer_queue s') with q'.
    + intros ch x. rewrite Hl. destruct (channels s !! ch) as [x0|] eqn:Ex; [|done]. intros [= <-]. rewrite settled_timer.
      destruct (C2 ch x0 Ex) as (t & d & Et & Eo & Ed & Hp). destruct (same_timers_some _ _ _ _ Hsame Ed) as (d2 & Ed2 & Hp2).
      exists t, d2. split_and!; try done; congruence.
    + intros t Ht. destruct (C3 t) as (ch & x & m & Eo & Ex & Et & Em); [apply Hsplit; by right|].
      exists ch, x, m. rewrite Hl, Ex. cbn [fmap option_fmap option_map]. unfold settled. rewrite Et, decide_False; [done|].
      intros Hd. by apply (Hout t Hd).
    + intros Hr ch x m t. rewrite Hl. destruct (channels s !! ch) as [x0|] eqn:Ex; [|done]. intros [= <-] Em Et.
      rewrite settled_timer in Et. unfold settled in Em. rewrite Et in Em. case_decide as D; [done|].
      destruct (proj1 (Hsplit t) (C4 Hr ch x0 m t Ex Em Et)); done.
    + intros a Ha. rewrite Hl, C6 by done. done.
  - intros ch. unfold accounted, pending. rewrite Hl. change (agent_out s') with (agent_out s ++ omap (timeout_event s) due).
    rewrite responses_app, <-app_assoc. f_equal. destruct (channels s !! ch) as [x|] eqn:Ex; cbn [fmap option_fmap option_map].
    + destruct (co_timer s Hok ch x Ex) as (t & d & Et & _). rewrite (timeouts_of_channel s ch x t due Hok Ex Et Hnd Hfires).
      unfold settled. rewrite Et. destruct (active_request x) as [m|] eqn:Em; case_decide; try (by rewrite ?Em); by cbn; rewrite ?Em.
    + rewrite app_nil_r, responses_timeouts. clear -Ex Hfires. induction due as [|t l IH]; [done|]. cbn [omap list_omap].
      destruct (Hfires t (list_elem_of_here _ _)) as (ch' & x & m & Eo & Ex' & Et & Em). unfold timeout_event. rewrite Eo. cbn [mbind option_bind].
      rewrite Ex'. cbn [mbind option_bind]. rewrite Em. cbn [mbind option_bind response_id]. rewrite decide_False by (intros [-> _]; congruence).
      apply IH. intros t2 H2. apply Hfires. by apply list_elem_of_further.
Qed.

(** * Runs of the agent *)

(** What the owner, the network and the clock do to the agent. *)
Inductive client_op :=
| CLIENT_CHANNEL_CREATE
| CLIENT_CHANNEL_DESTROY (ch : addr)
| CLIENT_TASK (sent : nat -> bool) (outcome : connect_outcome) (msg : connection_task_msg_t (R := R))
| CLIENT_SIGNAL (c : addr) (data : bytes)
| CLIENT_ADVANCE (elapsed : Z).

Definition client_exec (op : client_op) : prog agent unit :=
  match op with
  | CLIENT_CHANNEL_CREATE => mrcp_client_control_channel_create ;;; ret tt
  | CLIENT_CHANNEL_DESTROY ch => mrcp_client_control_channel_destroy (Some ch) ;;; ret tt
  | CLIENT_TASK sent outcome msg => mrcp_client_agent_msg_process sent outcome msg ;;; ret tt
  | CLIENT_SIGNAL c data => mrcp_client_poller_signal_process c data ;;; ret tt
  | CLIENT_ADVANCE elapsed => client_timers_advance elapsed
  end.

(** The requests an operation hands to the agent for a channel. *)
Definition op_requests (op : client_op) ch : list Z :=
  match op with
  | CLIENT_TASK _ _ msg =>
      match type msg, msg_message msg with
      | CONNECTION_TASK_MSG_SEND_MESSAGE, Some (_, m) =>
          if decide (ch = msg_channel msg) then [request_id (start_line m)] else []
      | _, _ => []
      end
  | _ => []
  end.

(** The owner sends one request at a time; the clock is that of the timer queue. *)
Definition client_op_ok s (op : client_op) : Prop :=
  match op with
  | CLIENT_TASK _ _ msg =>
      match type msg with
      | CONNECTION_TASK_MSG_SEND_MESSAGE => pending s (msg_channel msg) = []
      | _ => True
      end
  | CLIENT_ADVANCE elapsed => 0 <= elapsed /\ advance_ok (timer_queue s) elapsed
  | _ => True
  end.

Lemma keeps_exec (m : prog agent unit) s :
  keeps m -> client_ok s -> wp True m s (fun _ s' => client_ok s' /\ forall ch, accounted s' ch = accounted s ch ++ []).
Proof.
  intros Hm Hok. eapply wp_weaken; [by apply Hm; split|]. cbv beta. intros _ s' [H Ha]. split; [done|].
  intros ch. by rewrite app_nil_r.
Qed.

Lemma client_exec_ok op s :
  client_ok s -> client_op_ok s op ->
  wp True (client_exec op) s (fun _ s' => client_ok s' /\ forall ch, accounted s' ch = accounted s ch ++ op_requests op ch).
Proof.
  intros Hok Hop. destruct op as [|ch|sent outcome msg|c data|elapsed]; cbn [client_exec op_requests].
  - apply keeps_exec; [|done]. eapply client_keeps_bind; [apply keeps_control_channel_create|intros; apply client_keeps_ret].
  - apply keeps_exec; [|done]. eapply client_keeps_bind; [apply keeps_channel_destroy|intros; apply client_keeps_ret].
  - unfold mrcp_client_agent_msg_process. cbn [client_op_ok] in Hop. destruct (type msg).
    + apply keeps_exec; [|done]. eapply client_keeps_bind; [|intros; apply client_keeps_ret]. eapply client_keeps_bind; [apply keeps_agent_channel_add|intros; apply client_keeps_ret].
    + apply keeps_exec; [|done]. eapply client_keeps_bind; [|intros; apply client_keeps_ret]. eapply client_keeps_bind; [apply keeps_agent_channel_modify|intros; apply client_keeps_ret].
    + apply keeps_exec; [|done]. eapply client_keeps_bind; [|intros; apply client_keeps_ret]. eapply client_keeps_bind; [apply keeps_agent_channel_remove|intros; apply client_keeps_ret].
    + apply wp_bind, wp_bind, wp_bind, wp_deref. destruct (msg_message msg) as [[a m]|]; [|done]. apply wp_bind.
      eapply wp_weaken; [by apply send_ok|]. done.
  - apply keeps_exec; [|done]. eapply client_keeps_bind; [apply keeps_signal|intros; apply client_keeps_ret].
  - destruct Hop as [Hel Hadv]. pose proof (advance_kept s elapsed Hok Hel Hadv) as Hw. unfold wp in *.
    destruct (client_timers_advance elapsed s) as [[[] s']|]; [|done]. destruct Hw as [Hok' Ha]. split; [done|].
    intros ch. by rewrite app_nil_r.
Qed.

Fixpoint client_run (ops : list client_op) : prog agent unit :=
  match ops with [] => ret tt | op :: ops => client_exec op ;;; client_run ops end.

Fixpoint client_run_ok (ops : list client_op) s : Prop :=
  match ops with
  | [] => True
  | op :: ops => client_op_ok s op /\
      match client_exec op s with Some (_, s') => client_run_ok ops s' | None => True end
  end.

Definition run_requests (ops : list client_op) ch : list Z := concat (map (fun op => op_requests op ch) ops).

Lemma client_run_accounts ops : forall s s',
  client_ok s -> client_run_ok ops s -> client_run ops s = Some (tt, s') ->
  client_ok s' /\ forall ch, accounted s' ch = accounted s ch ++ run_requests ops ch.
Proof.
  induction ops as [|op ops IH]; intros s s' Hok Hops.
  - intros [= <-]. split; [done|]. intros ch. by rewrite app_nil_r.
  - destruct Hops as [Hop Hops]. cbn [client_run]. unfold bind. pose proof (client_exec_ok op s Hok Hop) as Hw. unfold wp in Hw.
    destruct (client_exec op s) as [[[] s1]|]; [|done]. destruct Hw as [Hok1 Ha1]. intros Hrun.
    destruct (IH s1 s' Hok1 Hops Hrun) as [Hok' Ha']. split; [done|]. intros ch. rewrite Ha', Ha1.
    unfold run_requests. cbn [map concat]. by rewrite app_assoc.
Qed.

Definition client_start (f : mrcp_resource_factory_t R) (offer_new : bool) (timeout : Z) : agent :=
  mrcp_client_connection_timeout_set timeout (mrcp_client_connection_agent_create f offer_new).

Lemma client_start_ok f offer_new timeout :
  0 <= timeout < 2 ^ 32 - 0xFFFF -> client_ok (client_start f offer_new timeout).
Proof.
  intros Ht. set (s := client_start f offer_new timeout).
  assert (Hc : forall ch, channels s !! ch = None) by (intros; apply lookup_empty).
  assert (Hk : forall c, connections s !! c = None) by (intros; apply lookup_empty).
  split.
  - apply create_wf_timers.
  - intros ch x. by rewrite Hc.
  - intros t Hin. by apply list.not_elem_of_nil in Hin.
  - intros _ ch x m t. by rewrite Hc.
  - intros c k g. by rewrite Hk.
  - intros; apply Hc.
  - unfold s, client_start, mrcp_client_connection_timeout_set. cbn [field_set request_timeout]. rewrite u32_small; lia.
Qed.
End Requests.

(** * Properties *)

(** C10: every request the owner hands to the agent, one at a time on each channel, is answered once, in
    the order of the requests: after any run of the agent from its start, whatever the network did
    and however often the clock moved, the responses the owner was given on a channel and the request
    under way there, if any, are the requests of the channel.  The time given to a request is below 2^32 - 65535 ms.  A run is one in which the owner hands over a
    request only when none is under way on its channel and the clock moves as the timer queue can count it
    ([advance_ok]): the time the queue has counted stays below 65535 ms, or no timer is past due and it stays
    below 2^32 ms.  An advance outside of that loses time (theorem [timer_advance_lost]). *)
Theorem client_requests_answered `{A : Apr} `{Sa : Sockaddr} {R : Type} {Hash : AprHash (mrcp_resource_t R)}
    {Table : AprHash addr} (f : mrcp_resource_factory_t R) (offer_new : bool) (timeout : Z)
    (ops : list client_op) (s : mrcp_connection_agent_t) :
  0 <= timeout < 2 ^ 32 - 0xFFFF -> client_run_ok ops (client_start f offer_new timeout) ->
  client_run ops (client_start f offer_new timeout) = Some (tt, s) ->
  forall ch, responses ch (agent_out s) ++ pending s ch = run_requests ops ch.
Proof.
  intros Ht Hops Hrun ch.
  destruct (client_run_accounts ops _ s (client_start_ok f offer_new timeout Ht) Hops Hrun) as [_ Ha].
  specialize (Ha ch). unfold accounted in Ha. rewrite Ha. unfold client_start, pending.
  change (channels _) with (empty : gmap addr (mrcp_control_channel_t (R := R))). by rewrite lookup_empty.
Qed.

(** C12: when the clock moves, as the timer queue can count it ([advance_ok]: the time it has counted stays
    below 65535 ms, or no timer is past due and it stays below 2^32 ms), the agent answers the requests whose time is
    over, in the order of their times, and takes them back; the others stay under way, and their timers run on. *)
Theorem client_requests_time_out `{A : Apr} `{Sa : Sockaddr} {R : Type} {Hash : AprHash (mrcp_resource_t R)}
    {Table : AprHash addr} (s : mrcp_connection_agent_t) (elapsed : Z) :
  client_ok s -> 0 <= elapsed -> advance_ok (timer_queue s) elapsed ->
  let due := map fst (List.filter (fun p => snd p <=? elapsed) (timeouts (timer_queue s))) in
  exists s', client_timers_advance elapsed s = Some (tt, s') /\ client_ok s' /\
    agent_out s' = agent_out s ++ omap (timeout_event s) due /\
    (forall ch, channels s' !! ch = settled due <$> channels s !! ch) /\
    (forall t, t ∈ ring (timer_queue s') <-> t ∈ ring (timer_queue s) /\ ~ (t ∈ due)).
Proof.
  intros Hok Hel Hadv due. pose proof (advance_kept s elapsed Hok Hel Hadv) as Hw. unfold wp in Hw.
  destruct (timers_advance_ok s elapsed Hok Hel Hadv) as (q' & Hrun & _ & _ & Hsplit & Hout & _).
  rewrite Hrun in Hw. destruct Hw as [Hok' _]. eexists. split; [exact Hrun|]. split; [done|]. split; [done|].
  split; [intros ch; apply lookup_fmap|]. intros t. fold due in Hsplit, Hout. specialize (Hsplit t). specialize (Hout t).
  change (t ∈ ring q' <-> t ∈ ring (timer_queue s) /\ ~ (t ∈ due)). tauto.
Qed.

(** ** A run with the sample factory *)

#[local] Existing Instance apr_reference.
#[local] Existing Instance apr_hash_reference.

Definition sockaddr_reference : Sockaddr :=
  {| ip_address := bytes; apr_sockaddr_info_get a := Some (str_data a) |}.
#[local] Existing Instance sockaddr_reference.

Definition client_sample_answer : mrcp_control_descriptor_t :=
  mrcp_control_offer_create <| ip := str_lit "10.0.0.2" |> <| port := 1544 |>
    <| connection_type := MRCP_CONNECTION_TYPE_NEW |>
    <| desc_session_id := str_lit "32AECB23" |> <| desc_resource_name := str_lit "sample" |>.

(** A channel, number 0, is connected and a request is sent. *)
Definition client_sample_ops : list client_op :=
  [CLIENT_CHANNEL_CREATE;
   CLIENT_TASK (fun _ => true) (CONNECT_SOCKET true)
     (mk_task_msg CONNECTION_TASK_MSG_MODIFY_CHANNEL 0%nat client_sample_answer None);
   CLIENT_TASK (fun _ => true) (CONNECT_SOCKET true)
     (mk_task_msg CONNECTION_TASK_MSG_SEND_MESSAGE 0%nat client_sample_answer (Some (7%nat, sample_sent)))].

Definition client_sample_state : mrcp_connection_agent_t :=
  match client_run client_sample_ops (client_start sample_factory true 3000) with
  | Some (_, s) => s
  | None => client_start sample_factory true 3000
  end.

Lemma client_sample_run :
  client_run client_sample_ops (client_start sample_factory true 3000) = Some (tt, client_sample_state).
Proof.
  unfold client_sample_state. destruct (client_run _ _) as [[[] s]|] eqn:E; [done|]. exfalso.
  assert (H : match client_run client_sample_ops (client_start sample_factory true 3000) with Some _ => true | None => false end = true)
    by (vm_compute; reflexivity). by rewrite E in H.
Qed.

Lemma client_sample_run_ok : client_run_ok client_sample_ops (client_start sample_factory true 3000).
Proof. vm_compute. repeat split. Qed.

Lemma client_sample_ok : client_ok client_sample_state.
Proof.
  eapply client_run_accounts; [|exact client_sample_run_ok|exact client_sample_run].
  apply client_start_ok. lia.
Qed.

Lemma client_requests_answered_witness :
  responses 0%nat (agent_out client_sample_state) ++ pending client_sample_state 0%nat = [0].
Proof.
  apply (client_requests_answered sample_factory true 3000 client_sample_ops client_sample_state).
  - lia.
  - exact client_sample_run_ok.
  - exact client_sample_run.
Defined.

Lemma client_requests_time_out_witness :
  exists s', client_timers_advance 3000 client_sample_state = Some (tt, s') /\
    responses 0%nat (agent_out s') = [0] /\ ring (timer_queue s') = [].
Proof.
  destruct (client_requests_time_out client_sample_state 3000 client_sample_ok) as (s' & E & _ & Ho & _ & Hr).
  - lia.
  - left. vm_compute. reflexivity.
  - exists s'. split; [exact E|]. split.
    + rewrite Ho. vm_compute. reflexivity.
    + destruct (ring (timer_queue s')) as [|t l]; [reflexivity|].
      exfalso. destruct (proj1 (Hr t) (list_elem_of_here _ _)) as [Hin Hout]. apply Hout.
      revert Hin. vm_compute. done.
Defined.
