(* ===== verification/ClientStream.v ===== *)
(** Messages that arrive at the client agent ([ClientAgent]): what the owner is given, that the
    loop comes to its end, and what becomes of a connection on which a response arrives that is
    not expected. *)

From S2P Require Import Prelude AprHash AptString TextStream TextValues HeaderField TextMessage StartLine MrcpHeader GenericHeader Message MessageParser ResourceFactory MrcpStream FieldsParse StreamRoundtrip ParserProgress Transport TimerQueue ClientAgent ClientRequests.

Section ClientStream.
Context `{LA : AprLaws} `{Sa : Sockaddr} {R : Type} {Hash : AprHash (mrcp_resource_t R)} {Table : AprHash addr}.
Context (f : mrcp_resource_factory_t R).
Abbreviation agent := (mrcp_connection_agent_t (R := R)).
Abbreviation message := (mrcp_message_t R).
Abbreviation channel := (mrcp_control_channel_t (R := R)).
Abbreviation conn := (mrcp_connection_t (R := R)).
Implicit Types (s : agent) (k : conn) (x : channel) (c ch t : addr).

Definition with_conn c k s : agent := s <| connections := <[c := k]> (connections s) |>.

Lemma get_conn_some s c k : connections s !! c = Some k -> get_conn c s = Some (k, s).
Proof. intros E. by rewrite get_conn_run, E. Qed.
Lemma set_conn_some s c k (g : conn -> conn) :
  connections s !! c = Some k -> set_conn c g s = Some (tt, with_conn c (g k) s).
Proof. intros E. unfold set_conn, bind. by rewrite get_conn_run, E. Qed.
Lemma bind_eq {St B C} (m : prog St B) (h : B -> prog St C) (s s' : St) b :
  m s = Some (b, s') -> bind m h s = h b s'.
Proof. intros E. unfold bind. by rewrite E. Qed.

Lemma bind_same {St B C} (m m' : prog St B) (h : B -> prog St C) (s s' : St) :
  m s = m' s' -> bind m h s = bind m' h s'.
Proof. intros E. unfold bind. by rewrite E. Qed.

(** ** The channel of a message *)

Definition client_key (m : message) : bytes :=
  str_data (apt_id_resource_generate (session_id (channel_id m)) (resource_name (channel_id m)) "@"%char).

Lemma id_generate_same (a b a' b' : apt_str_t) (sep : char) :
  str_wf a -> str_wf b -> str_wf a' -> str_wf b' -> str_text a' = str_text a -> str_text b' = str_text b ->
  apt_id_resource_generate a' b' sep = apt_id_resource_generate a b sep.
Proof.
  intros Wa Wb Wa' Wb' Ea Eb. unfold apt_id_resource_generate. rewrite !str_data_text by done.
  unfold str_wf in *. by rewrite <-Wa, <-Wb, <-Wa', <-Wb', Ea, Eb.
Qed.

Lemma client_key_same (m m' : message) :
  channel_id_ok (channel_id m) -> message_same m m' -> client_key m' = client_key m.
Proof.
  intros [W1 W2 _ _ _] [_ E1 E2 _ [W3 W4]]. unfold client_key. by rewrite (id_generate_same (session_id (channel_id m)) (resource_name (channel_id m))).
Qed.

(** A response on connection [c] that no request under way waits for. *)
Definition unexpected s k (m : message) : Prop :=
  exists ch x, apr_hash_get (channel_table k) (client_key m) = Some ch /\ channels s !! ch = Some x /\
    message_type (start_line m) = MRCP_MESSAGE_TYPE_RESPONSE /\ response_expected x m = false.

Lemma unexpected_same s k (m m' : message) :
  channel_id_ok (channel_id m) -> message_same m m' -> unexpected s k m -> unexpected s k m'.
Proof.
  intros Hc Hs (ch & x & Hk & Hx & Ht & He). exists ch, x. rewrite (client_key_same m m') by done.
  destruct (same_line m m' Hs) as (E1 & _ & E3 & _). split_and!; try done; [congruence|].
  unfold response_expected in *. destruct (active_request x); [|done]. congruence.
Qed.

Lemma handler_unexpected s c k (m : message) :
  connections s !! c = Some k -> unexpected s k m ->
  mrcp_client_message_handler c (Some m) APT_MESSAGE_STATUS_COMPLETE s = Some (false, s).
Proof.
  intros E (ch & x & Hk & Hx & Ht & He). unfold mrcp_client_message_handler. cbn [deref_ptr].
  erewrite bind_eq by reflexivity. cbv zeta. unfold mrcp_connection_channel_find.
  erewrite bind_eq by (erewrite bind_eq by (by apply get_conn_some); reflexivity).
  unfold client_key in Hk. rewrite Hk. erewrite bind_eq by (rewrite get_chan_run, Hx; reflexivity).
  by rewrite decide_True, He.
Qed.

(** ** The first message of a segment *)

(** The connection with what is left in its receive buffer. *)
Definition receiving s c k : Prop :=
  connections s !! c = Some k /\ sock k = true /\ rx_buffer (rx_buffer_size k) (rx_stream k) /\
  exists p, conn_parser k = Some p /\ parser_idle f p.

(** What was left of the last receive. *)
Definition left_over k : bytes := take (st_pos (rx_stream k)) (st_mem (rx_stream k)).

Lemma with_conn_twice s c k k' : with_conn c k' (with_conn c k s) = with_conn c k' s.
Proof. unfold with_conn. cbn [field_set connections]. by rewrite insert_insert_eq. Qed.
Lemma with_conn_lookup s c k : connections (with_conn c k s) !! c = Some k.
Proof. apply lookup_insert_eq. Qed.

(** The connection when the message was parsed and [rest] is left to parse. *)
Definition parsed_to k k2 (wire rest : bytes) : Prop :=
  sock k2 = true /\ channel_table k2 = channel_table k /\ rx_buffer_size k2 = rx_buffer_size k /\
  rx_buffer (rx_buffer_size k2) (rx_stream k2) /\ (exists p, conn_parser k2 = Some p /\ parser_idle f p) /\
  left_over k2 = wire /\ st_pos (rx_stream k2) = length wire /\ window (rx_stream k2) = rest /\
  reader_ok (rx_stream k2) /\ st_eos (rx_stream k2) = false /\ conn_generator k2 = conn_generator k /\
  r_sockaddr k2 = r_sockaddr k /\ access_count k2 = access_count k /\ it k2 = it k.

Lemma segment_first_message s c k (data rest : bytes) (m : message) (r : mrcp_resource_t R) (n : Z) :
  receiving s c k -> data <> [] -> (st_pos (rx_stream k) + length data <= rx_buffer_size k)%nat ->
  sendable f m r -> 0 <= n < 2 ^ 63 -> left_over k ++ data = message_wire m n ++ rest ->
  apt_text_is_wsp (deref (str_text (body m) ++ rest)) = false ->
  exists k2 m' fuel, message_same m m' /\ str_text (body m') = str_text (body m) /\
    parsed_to k k2 (message_wire m n) rest /\ (length rest < fuel)%nat /\
    mrcp_client_poller_signal_process c data s
    = (let* r := (let* ok := mrcp_client_message_handler c (Some m') APT_MESSAGE_STATUS_COMPLETE in
                  if negb ok then ret (Some false)
                  else
                    let* k := get_conn c in
                    if apt_text_is_eos (rx_stream k) then ret (Some true) else message_receive_loop fuel c) in
       match r with
       | Some true =>
           let* k := get_conn c in
           let* r := deref_ptr (apt_text_stream_scroll (rx_stream k)) in
           set_conn c (fun x : conn => x <| rx_stream := snd r |>) ;;; ret true
       | _ => ret false
       end) (with_conn c k2 s).
Proof.
  intros (E & Hk & Hbuf & p & Ep & Hp) Hd Hfit Hm Hn Hl Hwsp.
  pose proof (rxb_base _ _ Hbuf) as Hb0. pose proof (rxb_pos _ _ Hbuf) as Hpos.
  destruct (stream_receive_at (rx_buffer_size k) (rx_stream k) data Hbuf Hfit) as (st1 & Est & Hrd & Hw & He & Hbuf1 & Hlm).
  pose proof (stream_receive_front _ _ _ _ Hbuf Hfit Est) as Hfront. cbv zeta in *.
  set (st2 := apt_text_stream_reset st1) in *. rewrite (Hl : take _ _ ++ data = _) in Hw. unfold left_over in Hl. rewrite Hl in Hfront.
  set (k1 := k <| rx_stream := st2 |>).
  destruct (parser_run_message f m r Hm p n st2 rest Hp Hrd He Hn Hw Hwsp)
    as (m' & p' & rd & Er & Hsame & Hlen & Hres & Hbody & Hp' & Hw' & Hrd' & Heos').
  assert (Hne : window st2 <> []).
  { rewrite Hw. intros Hnil. apply (f_equal length) in Hnil. rewrite <-Hl, length_app in Hnil. destruct data; [done|simpl in Hnil; lia]. }
  destruct (parser_run_progress f p _ _ _ _ _ (idle_fit f p Hp) Hrd Hne Er) as [[(Am & Ab & Atl & Ae & Ap & _) _] _].
  set (k2 := k1 <| conn_parser := Some p' |> <| rx_stream := rd |>).
  assert (Hlw : length (window st2) = (st_end st2 - st_pos st2)%nat) by apply window_length, Hrd.
  assert (Hlw' : length (window rd) = (st_end rd - st_pos rd)%nat) by apply window_length, Hrd'.
  assert (Hp2 : st_pos st2 = 0%nat).
  { unfold st2, apt_text_stream_reset. cbn. apply (rxb_base _ _ Hbuf1). }
  assert (Hpr : st_pos rd = length (message_wire m n)).
  { destruct Hrd' as [W _ _]. unfold stream_wf in W. rewrite Hw, length_app in Hlw. rewrite Hw', Ae in Hlw'. rewrite Ae in W. lia. }
  exists k2, m', (length (window st2)). split; [done|]. split; [done|]. split.
  { split_and!; try done.
    - change (rx_buffer_size k2) with (rx_buffer_size k). change (rx_stream k2) with rd. destruct Hbuf1 as [B1 B2 B3 B4].
      split; try congruence. rewrite Hpr. apply (f_equal length) in Hl. rewrite !length_app, length_take in Hl. lia.
    - by exists p'.
    - unfold left_over. change (rx_stream k2) with rd. rewrite Hpr, Am.
      assert (Hmem : st_mem st2 = st_mem st1) by done. rewrite Hmem.
      apply (f_equal (take (length (message_wire m n)))) in Hfront. rewrite take_app_length, take_take in Hfront.
      apply (f_equal length) in Hl. rewrite !length_app, length_take in Hl. pose proof (rxb_mem _ _ Hbuf).
      by rewrite Nat.min_l in Hfront by lia. }
  split; [rewrite Hw, length_app; pose proof Hpr; destruct (message_wire m n) eqn:Ewire; [|simpl; lia]|].
  { exfalso. revert Ewire. unfold message_wire, start_line_words. rewrite (send_version f m r Hm). by destruct (message_type (start_line m)). }
  unfold mrcp_client_poller_signal_process. rewrite (bind_eq _ _ _ _ _ (get_conn_some s c k E)), Hk. cbn [negb]. cbv zeta.
  rewrite Hb0, Nat.sub_0_r, take_ge by lia.
  destruct (Nat.eqb_spec (length data) 0) as [Hz|_]; [by apply nil_length_inv in Hz|].
  rewrite Est. erewrite bind_eq by reflexivity. fold st2. erewrite bind_eq by by apply (set_conn_some s c k). fold k1.
  assert (Hloop : message_receive_loop (S (length (window st2))) c (with_conn c k1 s)
    = (let* ok := mrcp_client_message_handler c (Some m') APT_MESSAGE_STATUS_COMPLETE in
       if negb ok then ret (Some false)
       else
         let* k := get_conn c in
         if apt_text_is_eos (rx_stream k) then ret (Some true) else message_receive_loop (length (window st2)) c)
      (with_conn c k2 s)); [|by apply bind_same].
  cbn [message_receive_loop].
  rewrite (bind_eq _ _ _ _ _ (get_conn_some _ c k1 (with_conn_lookup s c k1))). change (conn_parser k1) with (conn_parser k). rewrite Ep.
  erewrite bind_eq by reflexivity. change (rx_stream k1) with st2. rewrite Er. erewrite bind_eq by reflexivity. cbv beta iota zeta.
  erewrite bind_eq by by apply (set_conn_some _ c k1), with_conn_lookup. fold k2. by rewrite with_conn_twice.
Qed.

(** ** A response that is not expected *)

(** What arrives on a connection, one receive after the other. *)
Fixpoint receives (c : addr) (l : list bytes) : prog agent (list bool) :=
  match l with
  | [] => ret []
  | d :: l => let* b := mrcp_client_poller_signal_process c d in let* bs := receives c l in ret (b :: bs)
  end.

(** Nothing that does not begin with a blank. *)
Definition plain (b : bytes) : Prop := apt_text_is_wsp (deref b) = false.

Lemma plain_body (m : message) (b : bytes) :
  plain (str_text (body m)) -> plain b -> plain (str_text (body m) ++ b).
Proof. unfold plain. by destruct (str_text (body m)). Qed.

Lemma receive_unexpected s c k (data rest : bytes) (m : message) (r : mrcp_resource_t R) (n : Z) :
  receiving s c k -> data <> [] -> (st_pos (rx_stream k) + length data <= rx_buffer_size k)%nat ->
  sendable f m r -> 0 <= n < 2 ^ 63 -> left_over k ++ data = message_wire m n ++ rest ->
  plain (str_text (body m)) -> plain rest -> unexpected s k m ->
  exists k2, mrcp_client_poller_signal_process c data s = Some (false, with_conn c k2 s) /\
    parsed_to k k2 (message_wire m n) rest.
Proof.
  intros H Hd Hfit Hm Hn Hl Hb Hr Hu.
  destruct (segment_first_message s c k data rest m r n H Hd Hfit Hm Hn Hl (plain_body m rest Hb Hr))
    as (k2 & m' & fuel & Hsame & _ & Hto & _ & Hrun).
  exists k2. split; [|done]. destruct Hto as (_ & Ht & _).
  assert (Hh : mrcp_client_message_handler c (Some m') APT_MESSAGE_STATUS_COMPLETE (with_conn c k2 s)
    = Some (false, with_conn c k2 s)).
  { apply (handler_unexpected _ c k2); [apply with_conn_lookup|].
    apply (unexpected_same _ k2 m); [apply (send_channel f m r Hm)|done|].
    destruct Hu as (ch & x & Hk & Hx & Hu). exists ch, x. by rewrite Ht. }
  rewrite Hrun. erewrite bind_eq by (by rewrite (bind_eq _ _ _ _ _ Hh)). done.
Qed.

Lemma receives_stuck c l : forall s k (m : message) r n,
  receiving s c k -> sendable f m r -> 0 <= n < 2 ^ 63 -> left_over k = message_wire m n ->
  st_pos (rx_stream k) = length (message_wire m n) -> plain (str_text (body m)) -> unexpected s k m ->
  Forall (fun d => d <> [] /\ plain d /\ (length (message_wire m n) + length d <= rx_buffer_size k)%nat) l ->
  exists k', receives c l s = Some (map (fun _ => false) l, with_conn c k' s) /\ sock k' = true.
Proof.
  induction l as [|d l IH]; intros s k m r n H Hm Hn Hl Hp Hb Hu Hall.
  - exists k. cbn. split; [|apply H]. unfold ret. do 2 f_equal. unfold with_conn.
    destruct H as [E _]. rewrite insert_id by done. by destruct s.
  - apply Forall_cons_iff in Hall as [(Hd & Hpl & Hfit) Hall]. cbn [receives].
    destruct (receive_unexpected s c k d d m r n) as (k2 & E & Hto); try done; [by rewrite Hp|by rewrite Hl|].
    rewrite (bind_eq _ _ _ _ _ E). destruct Hto as (Hs2 & Ht2 & Hsz2 & Hbuf2 & Hp2 & Hl2 & Hpos2 & _).
    destruct (IH (with_conn c k2 s) k2 m r n) as (k' & E' & Hk'); try done.
    + split; [apply with_conn_lookup|]. done.
    + destruct Hu as (ch & x & Hk & Hx & Hu). exists ch, x. by rewrite Ht2.
    + rewrite Hsz2. done.
    + rewrite (bind_eq _ _ _ _ _ E'). exists k'. by rewrite with_conn_twice.
Qed.

(** ** A response that is *)

Lemma handler_expected s c k ch x (req m : message) t :
  client_ok s -> connections s !! c = Some k -> apr_hash_get (channel_table k) (client_key m) = Some ch ->
  channels s !! ch = Some x -> message_type (start_line m) = MRCP_MESSAGE_TYPE_RESPONSE ->
  active_request x = Some req -> request_id (start_line req) = request_id (start_line m) -> request_timer x = Some t ->
  exists q', mrcp_client_message_handler c (Some m) APT_MESSAGE_STATUS_COMPLETE s
    = Some (true, s <| timer_queue := q' |> <| channels := <[ch := x <| active_request := None |>]> (channels s) |>
                    <| agent_out := agent_out s ++ [ON_RECEIVE ch m] |>) /\
    ~ (t ∈ ring q').
Proof.
  intros Hok E Hk Hx Hty Hreq Hid Ht. destruct (co_timer s Hok ch x Hx) as (t1 & d & Et & _ & Ed & _).
  assert (t1 = t) as -> by congruence.
  destruct (timer_kill_ok (timer_queue s) t d (co_timers s Hok) Ed) as (b & q' & Ek & _ & _ & Hring).
  exists q'. split; [|by intros [? _]%Hring].
  unfold mrcp_client_message_handler. cbn [deref_ptr]. erewrite bind_eq by reflexivity. cbv zeta.
  unfold mrcp_connection_channel_find. erewrite bind_eq by (erewrite bind_eq by (by apply get_conn_some); reflexivity).
  unfold client_key in Hk. rewrite Hk. erewrite bind_eq by (rewrite get_chan_run, Hx; reflexivity).
  rewrite decide_True by done. unfold response_expected. rewrite Hreq, Hid, Z.eqb_refl.
  unfold request_timer_kill. rewrite Ht.
  erewrite bind_eq by (erewrite bind_eq by (unfold on_timers, on_queue; rewrite Ek; reflexivity); reflexivity).
  unfold set_chan. erewrite bind_eq; [|erewrite bind_eq; [reflexivity|rewrite get_chan_run; cbn; by rewrite Hx]].
  done.
Qed.

(** The receive that brings one message that the handler takes. *)
Lemma signal_one_message s c k (m : message) r n :
  receiving s c k -> st_pos (rx_stream k) = 0%nat -> (length (message_wire m n) <= rx_buffer_size k)%nat ->
  sendable f m r -> 0 <= n < 2 ^ 63 -> plain (str_text (body m)) ->
  exists k2 m', message_same m m' /\ str_text (body m') = str_text (body m) /\ parsed_to k k2 (message_wire m n) [] /\
    forall s3, mrcp_client_message_handler c (Some m') APT_MESSAGE_STATUS_COMPLETE (with_conn c k2 s) = Some (true, s3) ->
      connections s3 !! c = Some k2 ->
      exists k3, mrcp_client_poller_signal_process c (message_wire m n) s = Some (true, with_conn c k3 s3) /\
        receiving (with_conn c k3 s3) c k3 /\ st_pos (rx_stream k3) = 0%nat /\ channel_table k3 = channel_table k.
Proof.
  intros H Hp0 Hfit Hm Hn Hb.
  assert (Hne : message_wire m n <> []).
  { unfold message_wire, start_line_words. rewrite (send_version f m r Hm). by destruct (message_type (start_line m)). }
  destruct (segment_first_message s c k (message_wire m n) [] m r n H Hne) as (k2 & m' & fuel & Hsame & Hbody & Hto & Hf & Hrun); try done.
  { lia. }
  { unfold left_over. by rewrite Hp0, app_nil_r. }
  { by rewrite app_nil_r. }
  exists k2, m'. split; [done|]. split; [done|]. split; [done|]. intros s3 Hh E3. rewrite Hrun.
  destruct Hto as (Hs2 & Ht2 & Hsz2 & Hbuf2 & (p & Ep & Hp) & Hl2 & Hpos2 & Hw2 & Hrd2 & He2 & _).
  assert (Heos : apt_text_is_eos (rx_stream k2) = true) by (apply eos_of_window; [apply Hrd2|done]).
  erewrite bind_eq by (rewrite (bind_eq _ _ _ _ _ Hh); cbn [negb]; rewrite (bind_eq _ _ _ _ _ (get_conn_some s3 c k2 E3)), Heos; reflexivity). cbv beta iota.
  rewrite (bind_eq _ _ _ _ _ (get_conn_some s3 c k2 E3)).
  destruct Hbuf2 as [B1 B2 B3 B4].
  destruct (scroll_read_out (rx_stream k2) Hrd2 Hw2) as (st3 & Es & Hb3 & Hp3 & Hm3); [lia|].
  rewrite Es. erewrite bind_eq by reflexivity. cbn [snd].
  set (k3 := k2 <| rx_stream := st3 |>). erewrite bind_eq by by apply (set_conn_some s3 c k2). fold k3.
  exists k3. split; [done|]. change (rx_stream k3) with st3. split; [|split; [congruence|done]].
  split; [apply with_conn_lookup|]. split; [done|]. split; [|by exists p].
  change (rx_stream k3) with st3. change (rx_buffer_size k3) with (rx_buffer_size k2). split; try congruence. lia.
Qed.

(** ** The loop comes to its end *)

Lemma handler_connections c om status s b s' :
  mrcp_client_message_handler c om status s = Some (b, s') -> connections s' = connections s.
Proof.
  unfold mrcp_client_message_handler. destruct status; try by intros [= _ <-].
  unfold deref_ptr. destruct om as [m|]; [|done]. erewrite bind_eq by reflexivity. cbv zeta.
  unfold mrcp_connection_channel_find. unfold bind at 1, bind at 1. rewrite get_conn_run.
  destruct (connections s !! c) as [k|]; [|done]. unfold ret at 1. destruct (apr_hash_get _ _) as [ch|]; [|by intros [= _ <-]].
  unfold bind at 1. rewrite get_chan_run. destruct (channels s !! ch) as [x|]; [|done]. case_decide.
  - destruct (response_expected x m); [|by intros [= _ <-]]. unfold request_timer_kill.
    unfold bind at 1. destruct (request_timer x) as [t|].
    + unfold bind at 1, on_timers, on_queue. destruct (apt_timer_kill t (timer_queue s)) as [[b1 q']|]; [|done]. unfold ret at 1.
      unfold bind at 1, set_chan. unfold bind at 1. rewrite get_chan_run. cbn [timer_queue_set field_set channels].
      destruct (channels s !! ch); [|done]. by intros [= _ <-].
    + unfold ret at 1. unfold bind at 1, set_chan. unfold bind at 1. rewrite get_chan_run.
      destruct (channels s !! ch); [|done]. by intros [= _ <-].
  - by intros [= _ <-].
Qed.

(** Bytes that wait in the buffer of a connection, and a parser in any stage. *)
Record segment_waiting s c k : Prop := Segment {
  sg_parser : mrcp_parser_t;
  sg_conn : connections s !! c = Some k;
  sg_parses : conn_parser k = Some sg_parser;
  sg_fit : parser_fit f (parser_base sg_parser);
  sg_reader : reader_ok (rx_stream k);
  sg_window : window (rx_stream k) <> []
}.

Lemma client_loop_ends c fuel : forall s k p b s',
  connections s !! c = Some k -> conn_parser k = Some p ->
  parser_fit f (parser_base p) -> reader_ok (rx_stream k) -> window (rx_stream k) <> [] ->
  (length (window (rx_stream k)) < fuel)%nat ->
  message_receive_loop fuel c s = Some (b, s') -> b <> None.
Proof.
  induction fuel as [|fuel IH]; intros s k p b s' E Ep Hp Hrd Hne Hf; [lia|].
  cbn [message_receive_loop]. rewrite (bind_eq _ _ _ _ _ (get_conn_some s c k E)), Ep.
  erewrite bind_eq by reflexivity.
  destruct (mrcp_parser_run p (rx_stream k)) as [[[[status m] p'] st']|] eqn:Er; [|done].
  erewrite bind_eq by reflexivity. cbv beta iota zeta.
  destruct (parser_run_progress f p _ _ _ _ _ Hp Hrd Hne Er) as [[Hadv Hprog] Hp'].
  set (k1 := k <| conn_parser := Some p' |> <| rx_stream := st' |>).
  erewrite bind_eq by by apply (set_conn_some s c k). fold k1.
  unfold bind at 1. destruct (mrcp_client_message_handler _ _ _ _) as [[ok s1]|] eqn:Eh; [|done].
  apply handler_connections in Eh. destruct ok; cbn [negb]; [|by intros [= <- _]].
  assert (E1 : connections s1 !! c = Some k1) by (rewrite Eh; apply with_conn_lookup).
  rewrite (bind_eq _ _ _ _ _ (get_conn_some s1 c k1 E1)). change (rx_stream k1) with st'.
  destruct (apt_text_is_eos st') eqn:He; [by intros [= <- _]|].
  assert (Hrd' : reader_ok st') by by eapply reader_advances.
  destruct Hprog as [|Hlt]; [done|].
  apply (IH s1 k1 p'); try done; change (rx_stream k1) with st'; [|lia].
  intros Hw. by rewrite eos_of_window in He by (done || apply Hrd').
Qed.
End ClientStream.

(** * Properties *)

(** C11: a response to the request under way reaches the owner, recovered as it was sent; the request is
    taken back, its timer is killed, and the connection is ready for the next receive. *)
Theorem client_response_received `{LA : AprLaws} `{Sa : Sockaddr} {R : Type} {Hash : AprHash (mrcp_resource_t R)}
    {Table : AprHash addr} (f : mrcp_resource_factory_t R) (s : mrcp_connection_agent_t) (c ch t : addr)
    (k : mrcp_connection_t) (x : mrcp_control_channel_t) (m req : mrcp_message_t R) (r : mrcp_resource_t R) (n : Z) :
  client_ok s -> receiving f s c k -> st_pos (rx_stream k) = 0%nat ->
  sendable f m r -> 0 <= n < 2 ^ 63 -> plain (str_text (body m)) ->
  (length (message_wire m n) <= rx_buffer_size k)%nat ->
  apr_hash_get (channel_table k) (client_key m) = Some ch -> channels s !! ch = Some x ->
  message_type (start_line m) = MRCP_MESSAGE_TYPE_RESPONSE ->
  active_request x = Some req -> request_id (start_line req) = request_id (start_line m) -> request_timer x = Some t ->
  exists s' m' k', mrcp_client_poller_signal_process c (message_wire m n) s = Some (true, s') /\
    message_same m m' /\ str_text (body m') = str_text (body m) /\
    agent_out s' = agent_out s ++ [ON_RECEIVE ch m'] /\
    channels s' = <[ch := x <| active_request := None |>]> (channels s) /\
    ~ (t ∈ ring (timer_queue s')) /\ client_ok s' /\ receiving f s' c k' /\ st_pos (rx_stream k') = 0%nat.
Proof.
  intros Hok Hrecv Hp0 Hm Hn Hb Hfit Hk Hx Hty Hreq Hid Ht.
  destruct (signal_one_message f s c k m r n Hrecv Hp0 Hfit Hm Hn Hb) as (k2 & m' & Hsame & Hbody & Hto & Hrest).
  destruct (same_line m m' Hsame) as (E1 & _ & E3 & _).
  assert (Hok2 : client_ok (with_conn c k2 s)).
  { pose proof (client_keeps_set_conn c (fun _ => k2)) as Hw. destruct Hrecv as (E & _).
    assert (Hg : forall (k' : mrcp_connection_t) g, (forall g, conn_generator k = Some g -> mrcp_generator_ok g) ->
      conn_generator k2 = Some g -> mrcp_generator_ok g).
    { intros k' g Hg. destruct Hto as (_ & _ & _ & _ & _ & _ & _ & _ & _ & _ & Hgen & _). rewrite Hgen. apply Hg. }
    assert (Hall : forall g, conn_generator k = Some g -> mrcp_generator_ok g) by (intros g; by apply (co_generators s Hok c)).
    specialize (Hw ltac:(intros k' g _; by apply Hg) s s (conj Hok (fun _ => eq_refl))).
    unfold wp in Hw. rewrite (set_conn_some s c k) in Hw by done. apply Hw. }
  destruct (handler_expected (with_conn c k2 s) c k2 ch x req m' t Hok2) as (q' & Eh & Hnr); try done.
  { apply with_conn_lookup. }
  { destruct Hto as (_ & -> & _). rewrite (client_key_same m m'); [done|apply (send_channel f m r Hm)|done]. }
  { congruence. }
  { congruence. }
  destruct (Hrest _ Eh (with_conn_lookup s c k2)) as (k3 & Er & Hrecv3 & Hp3 & _).
  eexists _, m', k3. split; [exact Er|]. split_and!; try done.
  pose proof (keeps_signal c (message_wire m n) s s (conj Hok (fun _ => eq_refl))) as Hw. unfold wp in Hw. rewrite Er in Hw. apply Hw.
Qed.

(** C34: a response that no request waits for, as one that comes after its time was over, stops the
    connection for good: the agent returns without scrolling the stream, so that the response stays
    in front of whatever arrives later, is parsed again on every receive and refused again.
    Nothing that arrives from then on, up to the size of the buffer, reaches the owner, nor does
    the owner learn of it. *)
Theorem client_unexpected_response_sticks `{LA : AprLaws} `{Sa : Sockaddr} {R : Type} {Hash : AprHash (mrcp_resource_t R)}
    {Table : AprHash addr} (f : mrcp_resource_factory_t R) (s : mrcp_connection_agent_t) (c : addr)
    (k : mrcp_connection_t) (m : mrcp_message_t R) (r : mrcp_resource_t R) (n : Z) (rest : bytes) (l : list bytes) :
  receiving f s c k -> st_pos (rx_stream k) = 0%nat ->
  sendable f m r -> 0 <= n < 2 ^ 63 -> plain (str_text (body m)) -> plain rest -> unexpected s k m ->
  (length (message_wire m n ++ rest) <= rx_buffer_size k)%nat ->
  Forall (fun d => d <> [] /\ plain d /\ (length (message_wire m n) + length d <= rx_buffer_size k)%nat) l ->
  exists k', receives c ((message_wire m n ++ rest) :: l) s
      = Some (false :: map (fun _ => false) l, with_conn c k' s) /\
    sock k' = true.
Proof.
  intros H Hp0 Hm Hn Hb Hr Hu Hfit Hall.
  assert (Hne : message_wire m n ++ rest <> []).
  { unfold message_wire, start_line_words. rewrite (send_version f m r Hm). by destruct (message_type (start_line m)). }
  assert (Hl : left_over k = []) by (unfold left_over; by rewrite Hp0).
  destruct (receive_unexpected f s c k (message_wire m n ++ rest) rest m r n H Hne) as (k2 & E & Hto); try done.
  { lia. }
  { by rewrite Hl. }
  cbn [receives]. rewrite (bind_eq _ _ _ _ _ E).
  destruct Hto as (Hs2 & Ht2 & Hsz2 & Hbuf2 & Hp2 & Hl2 & Hpos2 & _).
  destruct (receives_stuck f c l (with_conn c k2 s) k2 m r n) as (k' & E' & Hk'); try done.
  - split; [apply with_conn_lookup|]. done.
  - destruct Hu as (ch & x & Hk & Hx & Hu). exists ch, x. by rewrite Ht2.
  - by rewrite Hsz2.
  - rewrite (bind_eq _ _ _ _ _ E'). exists k'. by rewrite with_conn_twice.
Qed.

(** Whatever arrives on a connection, the loop that parses it comes to its end: as many runs of the
    parser as there are bytes, and one more, are enough. *)
Theorem client_receive_loop_terminates `{LA : AprLaws} `{Sa : Sockaddr} {R : Type} {Hash : AprHash (mrcp_resource_t R)}
    {Table : AprHash addr} (f : mrcp_resource_factory_t R) (s s' : mrcp_connection_agent_t) (c : addr)
    (k : mrcp_connection_t) (b : option bool) :
  segment_waiting f s c k ->
  message_receive_loop (S (length (window (rx_stream k)))) c s = Some (b, s') -> b <> None.
Proof. intros [p E Ep Hp Hrd Hw]. eapply client_loop_ends; try done. lia. Qed.

(** ** The sample connection *)

#[local] Existing Instance apr_reference.
#[local] Existing Instance apr_reference_laws.
#[local] Existing Instance apr_hash_reference.
#[local] Existing Instance sockaddr_reference.

Definition sample_response (id : Z) : mrcp_message_t unit :=
  set_start_line (fun sl => sl <| request_id := id |>) (mrcp_response_create (Some sample_sent)).

Lemma sample_response_sendable id : 0 <= id < 2 ^ 32 -> sendable sample_factory (sample_response id) sample_resource.
Proof.
  intros Hid. assert (Ef : message_fields (sample_response id) = []) by reflexivity.
  split.
  - split; try done.
  - done.
  - intros H. by destruct H.
  - left. done.
  - split; [done|done|decide_now|unfold nul_free; decide_now|].
    split; [split; decide_now|]. intros c r [= <- _]. done.
  - by rewrite Ef.
  - unfold length_announced. rewrite Ef. change (str_len (body (sample_response id)) =? 0)%nat with true. apply Forall_nil.
  - done.
  - done.
  - done.
  - eexists. split; [reflexivity|]. split; [done|apply Forall_nil].
Qed.

(** A channel, number 0, is on an open connection, number 1, and a request is under way. *)
Definition sample_client_conn : mrcp_connection_t :=
  mk_connection true (Some (lit "10.0.0.2", 1544)) 1 true
    (apr_hash_set apr_hash_make (client_key (sample_response 0)) 0%nat)
    (apt_text_stream_init (apr_palloc 1025) 1024) 1024 (Some (mrcp_parser_create sample_factory))
    (apr_palloc 1025) 1024 (Some (mrcp_generator_create sample_factory)).
Definition sample_client_created : mrcp_connection_agent_t :=
  match mrcp_client_control_channel_create (client_start sample_factory true 3000) with
  | Some (_, s) => with_conn 1%nat sample_client_conn s
  | None => client_start sample_factory true 3000
  end.
Definition sample_client_waiting : mrcp_connection_agent_t :=
  match request_activate 0%nat sample_sent sample_client_created with
  | Some (_, s) => s
  | None => sample_client_created
  end.
Definition sample_client_chan : mrcp_control_channel_t :=
  mk_channel None (Some sample_sent) (Some 0%nat) false apt_string_reset.

Lemma sample_client_created_ok : client_ok sample_client_created.
Proof.
  assert (Hs : client_ok (client_start sample_factory true 3000)) by (apply client_start_ok; lia).
  pose proof (keeps_control_channel_create _ _ (conj Hs (fun _ => eq_refl))) as Hw. unfold wp in Hw.
  unfold sample_client_created. destruct (mrcp_client_control_channel_create _) as [[ch s]|]; [|done].
  apply (kept_same _ s (with_conn 1%nat sample_client_conn s) Hw); try done.
  intros c k g. unfold with_conn. cbn [field_set connections]. destruct (decide (c = 1%nat)) as [->|Hc].
  - rewrite lookup_insert_eq. intros [= <-] [= <-]. done.
  - rewrite lookup_insert_ne by done. apply (co_generators s (proj1 Hw)).
Qed.

Lemma sample_client_ok : client_ok sample_client_waiting.
Proof.
  pose proof (request_activate_ok sample_client_created sample_client_created 0%nat
    (mk_channel None None (Some 0%nat) false apt_string_reset) sample_sent sample_sent
    (conj sample_client_created_ok (fun _ => eq_refl)) eq_refl eq_refl eq_refl) as Hw.
  unfold wp in Hw. unfold sample_client_waiting. destruct (request_activate _ _ _) as [[u s]|]; [apply Hw|done].
Qed.

Lemma sample_client_receiving : receiving sample_factory sample_client_waiting 1%nat sample_client_conn.
Proof.
  split; [reflexivity|]. split; [reflexivity|]. split.
  - split; [reflexivity|reflexivity|vm_compute; lia|reflexivity].
  - eexists. split; [reflexivity|]. exists None. split; reflexivity.
Qed.

Lemma client_response_received_witness :
  exists s' m', mrcp_client_poller_signal_process 1%nat (message_wire (sample_response 0) 60) sample_client_waiting = Some (true, s') /\
    message_same (sample_response 0) m' /\ agent_out s' = agent_out sample_client_waiting ++ [ON_RECEIVE 0%nat m'].
Proof.
  destruct (client_response_received sample_factory sample_client_waiting 1%nat 0%nat 0%nat sample_client_conn sample_client_chan
    (sample_response 0) (default sample_sent (active_request sample_client_chan)) sample_resource 60)
    as (s' & m' & k' & E & Hs & _ & Ho & _).
  - exact sample_client_ok.
  - exact sample_client_receiving.
  - reflexivity.
  - apply sample_response_sendable. lia.
  - lia.
  - reflexivity.
  - vm_compute. lia.
  - reflexivity.
  - reflexivity.
  - reflexivity.
  - reflexivity.
  - reflexivity.
  - reflexivity.
  - exists s', m'. split; [exact E|]. split; [exact Hs|exact Ho].
Defined.

(** A late response to request 9 and then the response to the request under way. *)
Lemma client_unexpected_response_sticks_witness :
  exists k', receives 1%nat [message_wire (sample_response 9) 60; message_wire (sample_response 0) 60] sample_client_waiting
    = Some ([false; false], with_conn 1%nat k' sample_client_waiting) /\ sock k' = true.
Proof.
  apply (client_unexpected_response_sticks sample_factory sample_client_waiting 1%nat sample_client_conn (sample_response 9)
    sample_resource 60 [] [message_wire (sample_response 0) 60]).
  - exact sample_client_receiving.
  - reflexivity.
  - apply sample_response_sendable. lia.
  - lia.
  - reflexivity.
  - reflexivity.
  - exists 0%nat, sample_client_chan. split; [reflexivity|]. split; [reflexivity|].
    split; [reflexivity|reflexivity].
  - vm_compute. lia.
  - constructor; [|constructor]. split; [vm_compute; discriminate|]. split; [vm_compute; reflexivity|vm_compute; lia].
Defined.

Lemma client_receive_loop_terminates_witness :
  exists b s', message_receive_loop 2 1%nat
    (with_conn 1%nat (sample_client_conn <| rx_stream := apt_text_stream_init [CR; NUL] 1 |>) sample_client_waiting) = Some (b, s') /\ b <> None.
Proof.
  set (k := sample_client_conn <| rx_stream := apt_text_stream_init [CR; NUL] 1 |>).
  destruct (message_receive_loop 2 1%nat (with_conn 1%nat k sample_client_waiting)) as [[b s']|] eqn:E.
  - exists b, s'. split; [reflexivity|].
    apply (client_receive_loop_terminates sample_factory (with_conn 1%nat k sample_client_waiting) s' 1%nat k
      b); [|exact E].
    exists (mrcp_parser_create sample_factory); [apply with_conn_lookup|reflexivity| | |discriminate].
    + by exists None.
    + split; [vm_compute; lia|vm_compute; reflexivity|reflexivity].
  - exfalso. assert (H : match message_receive_loop 2 1%nat (with_conn 1%nat k sample_client_waiting) with Some _ => true | None => false end = true)
      by (vm_compute; reflexivity). rewrite E in H. discriminate.
Defined.
