(* ===== verification/CodecDescriptor.v ===== *)
(** Codec descriptors, lists of them and codec capabilities ([mpf/src/mpf_codec_descriptor.c],
    [mpf/include/mpf_codec_descriptor.h]), named events ([mpf/src/mpf_named_event.c]) and media frames
    ([mpf/include/mpf_frame.h]).  A pointer to a descriptor of a list is its index in the list. *)

From S2P Require Import Prelude AptString.

(** Octets of media, as numbers below 256. *)
Abbreviation octets := (list Z).

Definition CODEC_FRAME_TIME_BASE : Z := 10.
Definition BYTES_PER_SAMPLE : Z := 2.

Definition MPF_SAMPLE_RATE_NONE : Z := 0x00.
Definition MPF_SAMPLE_RATE_8000 : Z := 0x01.
Definition MPF_SAMPLE_RATE_16000 : Z := 0x02.
Definition MPF_SAMPLE_RATE_32000 : Z := 0x04.
Definition MPF_SAMPLE_RATE_48000 : Z := 0x08.

Definition RTP_PT_PCMU : Z := 0.
Definition RTP_PT_PCMA : Z := 8.
Definition RTP_PT_CN : Z := 13.
Definition RTP_PT_RESERVED : Z := 19.
Definition RTP_PT_DYNAMIC : Z := 96.
Definition RTP_PT_DYNAMIC_MAX : Z := 127.
Definition RTP_PT_UNKNOWN : Z := 128.

Record mpf_codec_descriptor_t := mk_codec_descriptor {
  payload_type : Z;
  cd_name : apt_str_t;
  sampling_rate : Z;
  channel_count : Z;
  cd_format : apt_str_t;
  enabled : bool
}.
#[global] Instance eta_codec_descriptor : Eta mpf_codec_descriptor_t := fun d =>
  mk_codec_descriptor (payload_type d) (cd_name d) (sampling_rate d) (channel_count d) (cd_format d) (enabled d).

Record mpf_codec_list_t := mk_codec_list {
  descriptor_arr : option (list mpf_codec_descriptor_t);
  primary_descriptor : option nat;
  event_descriptor : option nat
}.
#[global] Instance eta_codec_list : Eta mpf_codec_list_t := fun l =>
  mk_codec_list (descriptor_arr l) (primary_descriptor l) (event_descriptor l).

Record mpf_codec_attribs_t := mk_codec_attribs {
  ca_name : apt_str_t;
  bits_per_sample : Z;
  sample_rates : Z
}.

Record mpf_codec_capabilities_t := mk_codec_capabilities {
  attrib_arr : list mpf_codec_attribs_t;
  allow_named_events : bool
}.
#[global] Instance eta_codec_capabilities : Eta mpf_codec_capabilities_t := fun c =>
  mk_codec_capabilities (attrib_arr c) (allow_named_events c).

(** ** Named events *)

Record mpf_named_event_frame_t := mk_named_event {
  event_id : Z;
  volume : Z;
  reserved : Z;
  edge : Z;
  duration : Z
}.
#[global] Instance eta_named_event : Eta mpf_named_event_frame_t := fun e =>
  mk_named_event (event_id e) (volume e) (reserved e) (edge e) (duration e).

Definition mpf_dtmf_char_to_event_id (c : char) : Z :=
  if in_range (code "0") (code c) (code "9") then code c - code "0"
  else if char_eqb c "*" then 10
  else if char_eqb c "#" then 11
  else if in_range (code "A") (code c) (code "D") then 12 + code c - code "A"
  else 255.

Definition mpf_event_id_to_dtmf_char (id : Z) : char :=
  if id <=? 9 then char_of (code "0" + id)
  else if id =? 10 then "*"%char
  else if id =? 11 then "#"%char
  else if id <=? 15 then char_of (code "A" + id - 12)
  else NUL.

(** ** Media frames *)

Definition MEDIA_FRAME_TYPE_NONE : Z := 0x0.
Definition MEDIA_FRAME_TYPE_AUDIO : Z := 0x1.
Definition MEDIA_FRAME_TYPE_VIDEO : Z := 0x2.
Definition MEDIA_FRAME_TYPE_EVENT : Z := 0x4.

Inductive mpf_frame_marker_e :=
  MPF_MARKER_NONE | MPF_MARKER_START_OF_EVENT | MPF_MARKER_END_OF_EVENT | MPF_MARKER_NEW_SEGMENT.

(** The buffer is the memory the pointer leads to; [cf_size] octets of it are in use. *)
Record mpf_codec_frame_t := mk_codec_frame { cf_buffer : octets; cf_size : nat }.
#[global] Instance eta_codec_frame : Eta mpf_codec_frame_t := fun f => mk_codec_frame (cf_buffer f) (cf_size f).

Record mpf_frame_t := mk_frame {
  fr_type : Z;
  fr_marker : mpf_frame_marker_e;
  codec_frame : mpf_codec_frame_t;
  event_frame : mpf_named_event_frame_t
}.
#[global] Instance eta_frame : Eta mpf_frame_t := fun f =>
  mk_frame (fr_type f) (fr_marker f) (codec_frame f) (event_frame f).

(** [type & flag] as a condition. *)
Definition has_type (type flag : Z) : bool := negb (Z.land type flag =? 0).

(** [memcpy] to offset [off] of a buffer. *)
Definition mem_write (buffer : octets) (off : nat) (data : octets) : option octets :=
  if (off + length data <=? length buffer)%nat
  then Some (take off buffer ++ data ++ drop (off + length data) buffer) else None.
(** [n] octets from offset [off]. *)
Definition mem_read (buffer : octets) (off n : nat) : option octets :=
  if (off + n <=? length buffer)%nat then Some (take n (drop off buffer)) else None.

(** ** Descriptors *)

Definition mpf_codec_descriptor_init : mpf_codec_descriptor_t :=
  mk_codec_descriptor 0 apt_string_reset 0 0 apt_string_reset true.

(** The product is computed in [int]; an overflow is undefined. *)
Definition mpf_codec_frame_size_calculate (d : mpf_codec_descriptor_t) (a : mpf_codec_attribs_t) : option Z :=
  let n := channel_count d * bits_per_sample a * CODEC_FRAME_TIME_BASE * sampling_rate d in
  if n <? 2 ^ 31 then Some (n / 1000 / 8) else None.

Definition mpf_codec_frame_samples_calculate (d : mpf_codec_descriptor_t) : Z :=
  channel_count d * CODEC_FRAME_TIME_BASE * sampling_rate d / 1000.

Definition mpf_codec_linear_frame_size_calculate (rate channels : Z) : Z :=
  channels * BYTES_PER_SAMPLE * CODEC_FRAME_TIME_BASE * rate / 1000.

Definition mpf_event_descriptor_create (rate : Z) : mpf_codec_descriptor_t :=
  mpf_codec_descriptor_init <| payload_type := 101 |> <| cd_name := str_lit "telephone-event" |>
    <| sampling_rate := rate |> <| channel_count := 1 |> <| cd_format := str_lit "0-15" |>.

Definition mpf_event_descriptor_check (d : mpf_codec_descriptor_t) : bool :=
  apt_string_compare (cd_name d) (str_lit "telephone-event").

Definition lpcm_attribs : mpf_codec_attribs_t :=
  mk_codec_attribs (str_lit "LPCM") 16
    (Z.lor (Z.lor MPF_SAMPLE_RATE_8000 MPF_SAMPLE_RATE_16000) (Z.lor MPF_SAMPLE_RATE_32000 MPF_SAMPLE_RATE_48000)).

Definition mpf_sample_rate_mask_get (rate : Z) : Z :=
  if rate =? 8000 then MPF_SAMPLE_RATE_8000
  else if rate =? 16000 then MPF_SAMPLE_RATE_16000
  else if rate =? 32000 then MPF_SAMPLE_RATE_32000
  else if rate =? 48000 then MPF_SAMPLE_RATE_48000
  else MPF_SAMPLE_RATE_NONE.

Definition mpf_sampling_rate_check (rate mask : Z) : bool :=
  negb (Z.land (mpf_sample_rate_mask_get rate) mask =? 0).

Definition mpf_codec_lpcm_descriptor_create (rate channels : Z) : mpf_codec_descriptor_t :=
  mpf_codec_descriptor_init <| payload_type := RTP_PT_UNKNOWN |> <| cd_name := ca_name lpcm_attribs |>
    <| sampling_rate := rate |> <| channel_count := channels |>.

Definition mpf_codec_descriptors_match (d1 d2 : mpf_codec_descriptor_t) : bool :=
  if (payload_type d1 <? RTP_PT_DYNAMIC) && (payload_type d2 <? RTP_PT_DYNAMIC)
  then payload_type d1 =? payload_type d2
  else apt_string_compare (cd_name d1) (cd_name d2) &&
    ((sampling_rate d1 =? sampling_rate d2) && (channel_count d1 =? channel_count d2)).

Definition mpf_codec_lpcm_descriptor_match (d : mpf_codec_descriptor_t) : bool :=
  apt_string_compare (cd_name d) (ca_name lpcm_attribs).

(** A static payload type takes the attributes of the static descriptor. *)
Definition mpf_codec_descriptor_match_by_attribs (d : mpf_codec_descriptor_t)
    (static_descriptor : option mpf_codec_descriptor_t) (a : mpf_codec_attribs_t) : bool * mpf_codec_descriptor_t :=
  if payload_type d <? RTP_PT_DYNAMIC then
    match static_descriptor with
    | Some sd =>
        if payload_type sd =? payload_type d
        then (true, d <| cd_name := cd_name sd |> <| sampling_rate := sampling_rate sd |>
                      <| channel_count := channel_count sd |>)
        else (false, d)
    | None => (false, d)
    end
  else (apt_string_compare (ca_name a) (cd_name d) && mpf_sampling_rate_check (sampling_rate d) (sample_rates a), d).

(** ** Capabilities *)

Definition mpf_codec_capabilities_init : mpf_codec_capabilities_t := mk_codec_capabilities [] true.

Definition mpf_codec_capabilities_clone (src : mpf_codec_capabilities_t) : mpf_codec_capabilities_t :=
  mk_codec_capabilities (attrib_arr src) (allow_named_events src).

Definition mpf_codec_capabilities_merge (c src : mpf_codec_capabilities_t) : bool * mpf_codec_capabilities_t :=
  let c := if negb (allow_named_events c) && allow_named_events src
           then c <| allow_named_events := allow_named_events src |> else c in
  (true, c <| attrib_arr := attrib_arr c ++ attrib_arr src |>).

Definition mpf_codec_capabilities_add (c : mpf_codec_capabilities_t) (rates : Z) (name : apt_str_t)
    : bool * mpf_codec_capabilities_t :=
  (true, c <| attrib_arr := attrib_arr c ++ [mk_codec_attribs name 0 rates] |>).

Definition mpf_codec_default_capabilities_add (c : mpf_codec_capabilities_t) : bool * mpf_codec_capabilities_t :=
  mpf_codec_capabilities_add c MPF_SAMPLE_RATE_8000 (ca_name lpcm_attribs).

Definition mpf_codec_capabilities_validate (c : mpf_codec_capabilities_t) : bool * mpf_codec_capabilities_t :=
  match attrib_arr c with
  | [] => (true, snd (mpf_codec_default_capabilities_add c))
  | _ => (true, c)
  end.

Definition mpf_codec_capabilities_attribs_find (c : mpf_codec_capabilities_t) (d : mpf_codec_descriptor_t)
    : option mpf_codec_attribs_t :=
  List.find (fun a => mpf_sampling_rate_check (sampling_rate d) (sample_rates a)) (attrib_arr c).

Definition mpf_codec_descriptor_create_by_capabilities (capabilities : option mpf_codec_capabilities_t)
    (peer : option mpf_codec_descriptor_t) : mpf_codec_descriptor_t :=
  let attribs := match capabilities, peer with
                 | Some c, Some d => mpf_codec_capabilities_attribs_find c d
                 | _, _ => None
                 end in
  match attribs, peer with
  | Some a, Some d =>
      if apt_string_compare (cd_name d) (ca_name a) then d
      else d <| payload_type := RTP_PT_UNKNOWN |> <| cd_name := ca_name a |>
  | _, _ => mpf_codec_lpcm_descriptor_create 8000 1
  end.

(** ** Lists *)

Definition mpf_codec_list_reset : mpf_codec_list_t := mk_codec_list None None None.

Definition mpf_codec_list_init : mpf_codec_list_t := mk_codec_list (Some []) None None.

(** The index is that of the descriptor to be filled. *)
Definition mpf_codec_list_add (l : mpf_codec_list_t) : option (nat * mpf_codec_list_t) :=
  let? arr := descriptor_arr l in
  Some (length arr, l <| descriptor_arr := Some (arr ++ [mpf_codec_descriptor_init]) |>).

Definition mpf_codec_list_is_empty (l : mpf_codec_list_t) : bool :=
  match descriptor_arr l with None | Some [] => true | _ => false end.

Definition mpf_codec_list_descriptor_get (l : mpf_codec_list_t) (id : nat) : option (option nat) :=
  let? arr := descriptor_arr l in Some (if (length arr <=? id)%nat then None else Some id).

(** A write through the pointer to a descriptor. *)
Definition descriptor_update (i : nat) (f : mpf_codec_descriptor_t -> mpf_codec_descriptor_t)
    (l : mpf_codec_list_t) : mpf_codec_list_t := l <| descriptor_arr := alter f i <$> descriptor_arr l |>.

Fixpoint descriptor_search (arr : list mpf_codec_descriptor_t) (i : nat) (d : mpf_codec_descriptor_t) : option nat :=
  match arr with
  | [] => None
  | x :: arr' => if mpf_codec_descriptors_match d x then Some i else descriptor_search arr' (S i) d
  end.

Definition mpf_codec_list_descriptor_find (l : mpf_codec_list_t) (d : mpf_codec_descriptor_t) : option (option nat) :=
  let? arr := descriptor_arr l in Some (descriptor_search arr 0 d).

Definition mpf_codec_list_match (l : mpf_codec_list_t) (capabilities : option mpf_codec_capabilities_t)
    : option (bool * mpf_codec_list_t) :=
  match capabilities with
  | None => Some (false, l)
  | Some c =>
      let? arr := descriptor_arr l in
      let step (acc : bool * list mpf_codec_descriptor_t) d :=
        let '(status, out) := acc in
        if negb (enabled d) then (status, out ++ [d])
        else match mpf_codec_capabilities_attribs_find c d with
             | Some _ => (true, out ++ [d])
             | None => (status, out ++ [d <| enabled := false |>])
             end in
      let '(status, arr) := fold_left step arr (false, []) in
      Some (status, l <| descriptor_arr := Some arr |>)
  end.

(** The match of descriptor [d] in the other list, when it is enabled there. *)
Definition enabled_match (l2 : mpf_codec_list_t) (d : mpf_codec_descriptor_t) : option (option nat) :=
  let? j := mpf_codec_list_descriptor_find l2 d in
  match j with
  | None => Some None
  | Some j => let? arr := descriptor_arr l2 in let? d2 := arr !! j in Some (if enabled d2 then Some j else None)
  end.

Definition intersect_step (i : nat) (l1 l2 : mpf_codec_list_t) : option (mpf_codec_list_t * mpf_codec_list_t) :=
  let? arr := descriptor_arr l1 in
  let? d1 := arr !! i in
  let disabled := descriptor_update i (fun d => d <| enabled := false |>) l1 in
  let kept := descriptor_update i (fun d => d <| enabled := true |>) l1 in
  if negb (enabled d1) then Some (l1, l2)
  else if mpf_event_descriptor_check d1 then
    match event_descriptor l1 with
    | Some _ => Some (disabled, l2)
    | None =>
        let? d2 := enabled_match l2 d1 in
        match d2 with
        | Some j => Some (kept <| event_descriptor := Some i |>, l2 <| event_descriptor := Some j |>)
        | None => Some (disabled, l2)
        end
    end
  else
    match primary_descriptor l1 with
    | Some _ => Some (disabled, l2)
    | None =>
        let? d2 := enabled_match l2 d1 in
        match d2 with
        | Some j => Some (kept <| primary_descriptor := Some i |>, l2 <| primary_descriptor := Some j |>)
        | None => Some (disabled, l2)
        end
    end.

Fixpoint intersect_loop (order : list nat) (l1 l2 : mpf_codec_list_t) : option (mpf_codec_list_t * mpf_codec_list_t) :=
  match order with
  | [] => Some (l1, l2)
  | i :: order => let? (l1, l2) := intersect_step i l1 l2 in intersect_loop order l1 l2
  end.

(** Is the descriptor the one the pointer leads to? *)
Definition points_to (p : option nat) (i : nat) : bool := match p with Some j => (i =? j)%nat | None => false end.

Definition mpf_codec_lists_intersect (l1 l2 : mpf_codec_list_t) : option (bool * mpf_codec_list_t * mpf_codec_list_t) :=
  let l1 := l1 <| primary_descriptor := None |> <| event_descriptor := None |> in
  let l2 := l2 <| primary_descriptor := None |> <| event_descriptor := None |> in
  let? arr1 := descriptor_arr l1 in
  let? (l1, l2) := intersect_loop (seq 0 (length arr1)) l1 l2 in
  let? arr2 := descriptor_arr l2 in
  let l2 := l2 <| descriptor_arr := Some (imap (fun i d =>
              d <| enabled := points_to (primary_descriptor l2) i || points_to (event_descriptor l2) i |>) arr2) |> in
  match primary_descriptor l1 with
  | None => Some (false, l1, l2)
  | Some i =>
      let? arr1 := descriptor_arr l1 in
      let? d := arr1 !! i in Some (enabled d, l1, l2)
  end.

(** * What the negotiation selects *)

(** The first descriptor that matches, when it is enabled: a match behind a disabled one is not found. *)
Definition agreed (a2 : list mpf_codec_descriptor_t) (d : mpf_codec_descriptor_t) : option nat :=
  match descriptor_search a2 0 d with
  | Some j => match a2 !! j with Some d2 => if enabled d2 then Some j else None | None => None end
  | None => None
  end.

(** The first enabled descriptor, of named events or not, that is agreed upon, with its match. *)
Fixpoint pick (event : bool) (a2 arr : list mpf_codec_descriptor_t) (i : nat) : option (nat * nat) :=
  match arr with
  | [] => None
  | d :: arr' =>
      if enabled d && Bool.eqb (mpf_event_descriptor_check d) event then
        match agreed a2 d with Some j => Some (i, j) | None => pick event a2 arr' (S i) end
      else pick event a2 arr' (S i)
  end.

(** The first [n] descriptors are enabled when a pointer leads to them. *)
Definition selected (p e : option nat) (n : nat) (arr : list mpf_codec_descriptor_t) : list mpf_codec_descriptor_t :=
  imap (fun i d => if (i <? n)%nat then d <| enabled := points_to p i || points_to e i |> else d) arr.

Definition selected_list (p e : option nat) (arr : list mpf_codec_descriptor_t) : mpf_codec_list_t :=
  mk_codec_list (Some (imap (fun i d => d <| enabled := points_to p i || points_to e i |>) arr)) p e.

Lemma pick_app ev a2 l d : forall i,
  pick ev a2 (l ++ [d]) i =
  match pick ev a2 l i with Some x => Some x | None => pick ev a2 [d] (i + length l)%nat end.
Proof.
  induction l as [|x l IH]; intros i; cbn [app length].
  - by rewrite Nat.add_0_r.
  - cbn [pick]. rewrite !IH. replace (S i + length l)%nat with (i + S (length l))%nat by lia.
    destruct (enabled x && _); [|done]. by destruct (agreed a2 x).
Qed.

Lemma pick_range ev a2 l : forall i x y, pick ev a2 l i = Some (x, y) -> (i <= x < i + length l)%nat.
Proof.
  induction l as [|d l IH]; intros i x y; [done|]. cbn [pick length].
  destruct (enabled d && _); [destruct (agreed a2 d)|]; intros H; simplify_eq; try lia; apply IH in H; lia.
Qed.

Lemma search_match d : forall a2 k j, descriptor_search a2 k d = Some j ->
  exists d2, (k <= j)%nat /\ a2 !! (j - k)%nat = Some d2 /\ mpf_codec_descriptors_match d d2 = true.
Proof.
  induction a2 as [|x a2 IH]; intros k j; [done|]. cbn [descriptor_search].
  destruct (mpf_codec_descriptors_match d x) eqn:E.
  - intros [= <-]. exists x. by rewrite Nat.sub_diag.
  - intros (d2 & Hk & E2 & Hm)%IH. exists d2. split; [lia|]. by replace (j - k)%nat with (S (j - S k)) by lia.
Qed.

Lemma pick_spec ev a2 l : forall k i j, pick ev a2 l k = Some (i, j) ->
  exists d1 d2, l !! (i - k)%nat = Some d1 /\ a2 !! j = Some d2 /\ enabled d1 = true /\ enabled d2 = true /\
    mpf_event_descriptor_check d1 = ev /\ mpf_codec_descriptors_match d1 d2 = true.
Proof.
  induction l as [|d l IH]; intros k i j; [done|]. cbn [pick].
  assert (Hrec : pick ev a2 l (S k) = Some (i, j) ->
    exists d1 d2, (d :: l) !! (i - k)%nat = Some d1 /\ a2 !! j = Some d2 /\ enabled d1 = true /\ enabled d2 = true /\
    mpf_event_descriptor_check d1 = ev /\ mpf_codec_descriptors_match d1 d2 = true).
  { intros H. pose proof (pick_range _ _ _ _ _ _ H). apply IH in H.
    by replace (i - k)%nat with (S (i - S k)) by lia. }
  destruct (enabled d && _) eqn:E; [|done]. destruct (agreed a2 d) as [j'|] eqn:Ea; [|done].
  intros [= <- <-]. apply andb_true_iff in E as [E1 E2%eqb_prop]. unfold agreed in Ea.
  destruct (descriptor_search a2 0 d) as [j2|] eqn:Es; [|done].
  destruct (search_match d a2 0 j2 Es) as (d2 & _ & E3 & Hm). rewrite Nat.sub_0_r in E3. rewrite E3 in Ea.
  destruct (enabled d2) eqn:E4; [|done]. injection Ea as ->. exists d, d2. by rewrite Nat.sub_diag.
Qed.

(** One more descriptor is passed. *)
Lemma selected_step p e p' e' n arr d (f : mpf_codec_descriptor_t -> mpf_codec_descriptor_t) :
  arr !! n = Some d -> f d = d <| enabled := points_to p' n || points_to e' n |> ->
  (forall i, (i < n)%nat -> points_to p' i || points_to e' i = points_to p i || points_to e i) ->
  alter f n (selected p e n arr) = selected p' e' (S n) arr.
Proof.
  intros Ed Hf Hlt. apply list_eq. intros i. unfold selected.
  destruct (decide (n = i)) as [<-|Hne].
  - rewrite list_lookup_alter_eq, !list_lookup_imap, Ed.
    destruct (Nat.ltb_spec n n), (Nat.ltb_spec n (S n)); try lia. cbn. by rewrite Hf.
  - rewrite list_lookup_alter_ne, !list_lookup_imap by done. destruct (arr !! i); [|done].
    destruct (Nat.ltb_spec i n), (Nat.ltb_spec i (S n)); try lia; cbn; [by rewrite Hlt|done].
Qed.

(** The lists when the first [n] descriptors of the first were passed. *)
Definition passed (n : nat) (a1 a2 : list mpf_codec_descriptor_t) : mpf_codec_list_t * mpf_codec_list_t :=
  let p := pick false a2 (take n a1) 0 in
  let e := pick true a2 (take n a1) 0 in
  (mk_codec_list (Some (selected (fst <$> p) (fst <$> e) n a1)) (fst <$> p) (fst <$> e),
   mk_codec_list (Some a2) (snd <$> p) (snd <$> e)).

Lemma enabled_match_agreed a2 p e d : enabled_match (mk_codec_list (Some a2) p e) d = Some (agreed a2 d).
Proof.
  unfold enabled_match, agreed, mpf_codec_list_descriptor_find. cbn.
  destruct (descriptor_search a2 0 d) as [j|] eqn:E; [|done].
  destruct (search_match d a2 0 j E) as (d2 & _ & E2 & _). rewrite Nat.sub_0_r in E2. by rewrite E2.
Qed.

Lemma points_out (ev : bool) a2 l n : (length l <= n)%nat -> points_to (fst <$> pick ev a2 l 0) n = false.
Proof.
  intros Hn. destruct (pick ev a2 l 0) as [[i j]|] eqn:E; [|done]. apply pick_range in E. cbn.
  apply Nat.eqb_neq. lia.
Qed.

Lemma enabled_same (d : mpf_codec_descriptor_t) : d <| enabled := enabled d |> = d.
Proof. by destruct d. Qed.

Lemma passed_step n a1 a2 : (n < length a1)%nat ->
  intersect_step n (fst (passed n a1 a2)) (snd (passed n a1 a2)) = Some (passed (S n) a1 a2).
Proof.
  intros Hn. destruct (lookup_lt_is_Some_2 a1 n Hn) as [d Ed].
  assert (Hsel : forall p e, selected p e n a1 !! n = Some d).
  { intros p e. unfold selected. rewrite list_lookup_imap, Ed. cbn [fmap option_fmap option_map].
    by destruct (Nat.ltb_spec n n); [lia|]. }
  assert (Hl : length (take n a1) = n) by (rewrite length_take; lia).
  pose proof (points_out false a2 (take n a1) n) as Hop. pose proof (points_out true a2 (take n a1) n) as Hoe.
  rewrite Hl in Hop, Hoe. specialize (Hop ltac:(lia)). specialize (Hoe ltac:(lia)).
  unfold intersect_step, passed, descriptor_update. rewrite (take_S_r a1 n d Ed), !pick_app, Hl. cbn [Nat.add].
  set (p := pick false a2 (take n a1) 0) in *. set (e := pick true a2 (take n a1) 0) in *.
  cbn [fst snd descriptor_arr event_descriptor primary_descriptor]. rewrite Hsel, !enabled_match_agreed. cbn [pick].
  assert (Hlt : forall x j i, (i < n)%nat -> points_to (fst <$> match x with Some y => Some y | None => Some (n, j) end) i
    = points_to (fst <$> (x : option (nat * nat))) i).
  { intros [y|] j i Hi; [done|]. cbn. apply Nat.eqb_neq. lia. }
  assert (Hid : forall p' e', enabled d = points_to p' n || points_to e' n ->
    (forall i, (i < n)%nat -> points_to p' i || points_to e' i = points_to (fst <$> p) i || points_to (fst <$> e) i) ->
    selected (fst <$> p) (fst <$> e) n a1 = selected p' e' (S n) a1).
  { intros p' e' Hd Hi. rewrite <-(selected_step (fst <$> p) (fst <$> e) p' e' n a1 d id Ed); [|by rewrite <-Hd, enabled_same|done].
    symmetry. by apply list_alter_id. }
  pose proof (fun f p' e' => selected_step (fst <$> p) (fst <$> e) p' e' n a1 d f Ed) as Hstep.
  assert (Hopt : forall x : option (nat * nat), match x with Some y => Some y | None => None end = x) by (by intros []).
  unfold field_set. destruct (enabled d) eqn:En; cbn [negb andb].
  - destruct (mpf_event_descriptor_check d) eqn:Ec; cbn [Bool.eqb]; rewrite Hopt.
    + destruct e as [[i j]|] eqn:Ee; cbn.
      * rewrite (Hstep _ (fst <$> p) (Some i)); [done|cbn|done]. cbn in Hoe. by rewrite Hop, Hoe.
      * destruct (agreed a2 d) as [j|]; cbn.
        -- rewrite (Hstep _ (fst <$> p) (Some n)); [done|cbn|].
           ++ by rewrite Nat.eqb_refl, orb_true_r.
           ++ intros i Hi. f_equal. apply (Hlt None j i Hi).
        -- rewrite (Hstep _ (fst <$> p) None); [done|cbn|done]. by rewrite Hop.
    + destruct p as [[i j]|] eqn:Ep; cbn.
      * rewrite (Hstep _ (Some i) (fst <$> e)); [done|cbn|done]. cbn in Hop. by rewrite Hop, Hoe.
      * destruct (agreed a2 d) as [j|]; cbn.
        -- rewrite (Hstep _ (Some n) (fst <$> e)); [done|cbn|].
           ++ by rewrite Nat.eqb_refl.
           ++ intros i Hi. f_equal. apply (Hlt None j i Hi).
        -- rewrite (Hstep _ None (fst <$> e)); [done|cbn|done]. by rewrite Hoe.
  - rewrite !Hopt, <-(Hid (fst <$> p) (fst <$> e)); [done|by rewrite Hop, Hoe|done].
Qed.

Lemma passed_loop a1 a2 : forall m n, (n + m <= length a1)%nat ->
  intersect_loop (seq n m) (fst (passed n a1 a2)) (snd (passed n a1 a2)) = Some (passed (n + m) a1 a2).
Proof.
  induction m as [|m IH]; intros n Hn; cbn [seq intersect_loop].
  - rewrite Nat.add_0_r. by destruct (passed n a1 a2).
  - rewrite passed_step by lia. rewrite (surjective_pairing (passed (S n) a1 a2)), IH by lia.
    by replace (S n + m)%nat with (n + S m)%nat by lia.
Qed.

Lemma selected_none p e arr : selected p e 0 arr = arr.
Proof.
  apply list_eq. intros i. unfold selected. rewrite list_lookup_imap. by destruct (arr !! i).
Qed.

Lemma selected_all p e arr :
  selected p e (length arr) arr = imap (fun i d => d <| enabled := points_to p i || points_to e i |>) arr.
Proof.
  apply list_eq. intros i. unfold selected. rewrite !list_lookup_imap.
  destruct (arr !! i) eqn:E; [|done]. apply lookup_lt_Some in E. cbn [fmap option_fmap option_map].
  by destruct (Nat.ltb_spec i (length arr)); [|lia].
Qed.

(** C28: lists are negotiated as they should be: the first enabled descriptor of the first list that is
    agreed upon becomes the primary descriptor of both, and likewise for named events; both sides
    hold descriptors that match and that both had enabled, all the others are disabled, and the
    answer tells whether there is a primary descriptor. *)
Theorem codec_lists_intersect_correct (l1 l2 : mpf_codec_list_t) (a1 a2 : list mpf_codec_descriptor_t) :
  descriptor_arr l1 = Some a1 -> descriptor_arr l2 = Some a2 ->
  let p := pick false a2 a1 0 in
  let e := pick true a2 a1 0 in
  mpf_codec_lists_intersect l1 l2 =
    Some (bool_decide (is_Some p), selected_list (fst <$> p) (fst <$> e) a1, selected_list (snd <$> p) (snd <$> e) a2) /\
  forall ev i j, pick ev a2 a1 0 = Some (i, j) ->
    exists d1 d2, a1 !! i = Some d1 /\ a2 !! j = Some d2 /\ enabled d1 = true /\ enabled d2 = true /\
      mpf_event_descriptor_check d1 = ev /\ mpf_codec_descriptors_match d1 d2 = true.
Proof.
  intros E1 E2 p e. split.
  - destruct l1 as [x1 p1 e1], l2 as [x2 p2 e2]. cbn in E1, E2. subst x1 x2.
    unfold mpf_codec_lists_intersect, field_set. cbn [descriptor_arr primary_descriptor event_descriptor].
    assert (H0 : passed 0 a1 a2 = (mk_codec_list (Some a1) None None, mk_codec_list (Some a2) None None)).
    { unfold passed. by rewrite take_0, selected_none. }
    pose proof (passed_loop a1 a2 (length a1) 0 ltac:(lia)) as Hloop. rewrite H0 in Hloop. cbn [fst snd] in Hloop.
    rewrite Hloop. cbn [Nat.add]. unfold passed. rewrite firstn_all, selected_all. fold p e.
    cbn [descriptor_arr primary_descriptor event_descriptor]. unfold selected_list.
    destruct p as [[i j]|] eqn:Ep; cbn [fmap option_fmap option_map fst snd]; [|done].
    destruct (pick_spec _ _ _ _ _ _ Ep) as (d1 & d2 & Ed & _). rewrite Nat.sub_0_r in Ed.
    rewrite list_lookup_imap, Ed. cbn. by rewrite Nat.eqb_refl.
  - intros ev i j H. destruct (pick_spec _ _ _ _ _ _ H) as (d1 & d2 & Ed & Hr). rewrite Nat.sub_0_r in Ed. by exists d1, d2.
Qed.

(** An offer of PCMA, PCMU and named events, answered with PCMU, L16 and named events. *)
Definition sample_codec (pt : Z) (name : string) : mpf_codec_descriptor_t :=
  mk_codec_descriptor pt (str_lit name) 8000 1 apt_string_reset true.
Definition sample_offer : list mpf_codec_descriptor_t :=
  [sample_codec 8 "PCMA"; sample_codec 0 "PCMU"; mpf_event_descriptor_create 8000].
Definition sample_answer_codecs : list mpf_codec_descriptor_t :=
  [sample_codec 96 "L16"; sample_codec 0 "PCMU"; mpf_event_descriptor_create 8000].

Lemma codec_lists_intersect_correct_witness :
  exists l1 l2, mpf_codec_lists_intersect (mk_codec_list (Some sample_offer) None None)
      (mk_codec_list (Some sample_answer_codecs) None None) = Some (true, l1, l2) /\
    primary_descriptor l1 = Some 1%nat /\ primary_descriptor l2 = Some 1%nat /\
    event_descriptor l1 = Some 2%nat /\ event_descriptor l2 = Some 2%nat.
Proof.
  eexists _, _. split; [|split; [|split; [|split]]].
  - apply (codec_lists_intersect_correct (mk_codec_list (Some sample_offer) None None)
      (mk_codec_list (Some sample_answer_codecs) None None) sample_offer sample_answer_codecs); reflexivity.
  - reflexivity.
  - reflexivity.
  - reflexivity.
  - reflexivity.
Defined.

(** ** Named events *)

Lemma dtmf_roundtrip (id : Z) : 0 <= id < 16 -> mpf_dtmf_char_to_event_id (mpf_event_id_to_dtmf_char id) = id.
Proof.
  intros H. assert (Hall : Forall (fun n => mpf_dtmf_char_to_event_id (mpf_event_id_to_dtmf_char (Z.of_nat n)) = Z.of_nat n)
    (seq 0 16)) by (vm_compute; repeat constructor).
  rewrite List.Forall_forall in Hall. specialize (Hall (Z.to_nat id)). rewrite Z2Nat.id in Hall by lia.
  apply Hall, in_seq. lia.
Qed.

Lemma dtmf_char_range (c : char) : mpf_dtmf_char_to_event_id c = 255 \/ 0 <= mpf_dtmf_char_to_event_id c < 16.
Proof.
  unfold mpf_dtmf_char_to_event_id, in_range. change (code "0") with 48. change (code "9") with 57.
  change (code "A") with 65. change (code "D") with 68. repeat case_match; blia.
Qed.
