(* ===== verification/G711.v ===== *)
(** The transcoding of linear samples to u-law and A-law octets and back
    ([mpf/codecs/g711/g711.h]), and from one law to the other ([mpf/codecs/g711/g711.c]).  Samples are
    16-bit integers in a C [int], octets numbers below 256.  The search of the highest bit is the
    portable variant; the others are one machine instruction. *)

From S2P Require Import Prelude.

(** Reinterpretation of a 16-bit pattern as [apr_int16_t]. *)
Definition s16 (z : Z) : Z := let w := z mod 2 ^ 16 in if w <? 2 ^ 15 then w else w - 2 ^ 16.
Definition byte_of (z : Z) : Z := Z.land z 0xFF.

Definition top_bit_step (mask n : Z) (p : Z * Z) : Z * Z :=
  let '(i, bits) := p in
  if Z.land bits mask =? 0 then (i, bits) else (i + n, Z.land bits mask).

Definition top_bit (bits : Z) : Z :=
  if bits =? 0 then -1
  else fst (top_bit_step 0xAAAAAAAA 1 (top_bit_step 0xCCCCCCCC 2 (top_bit_step 0xF0F0F0F0 4
         (top_bit_step 0xFF00FF00 8 (top_bit_step 0xFFFF0000 16 (0, bits)))))).

Definition ULAW_BIAS : Z := 0x84.

Definition linear_to_ulaw (linear : Z) : Z :=
  let '(linear, mask) := if linear <? 0 then (ULAW_BIAS - linear - 1, 0x7F) else (ULAW_BIAS + linear, 0xFF) in
  let seg := top_bit (u32 (Z.lor linear 0xFF)) - 7 in
  if 8 <=? seg then byte_of (Z.lxor 0x7F mask)
  else byte_of (Z.lxor (Z.lor (Z.shiftl seg 4) (Z.land (Z.shiftr linear (seg + 3)) 0xF)) mask).

Definition ulaw_to_linear (ulaw : Z) : Z :=
  let ulaw := byte_of (Z.lnot ulaw) in
  let t := Z.shiftl (Z.shiftl (Z.land ulaw 0x0F) 3 + ULAW_BIAS) (Z.shiftr (Z.land ulaw 0x70) 4) in
  s16 (if Z.land ulaw 0x80 =? 0 then t - ULAW_BIAS else ULAW_BIAS - t).

Definition ALAW_AMI_MASK : Z := 0x55.

Definition linear_to_alaw (linear : Z) : Z :=
  let '(linear, mask) := if 0 <=? linear then (linear, Z.lor ALAW_AMI_MASK 0x80) else (- linear - 1, ALAW_AMI_MASK) in
  let seg := top_bit (u32 (Z.lor linear 0xFF)) - 7 in
  if 8 <=? seg then
    if 0 <=? linear then byte_of (Z.lxor 0x7F mask) else byte_of (Z.lxor 0x00 mask)
  else
    byte_of (Z.lxor (Z.lor (Z.shiftl seg 4) (Z.land (Z.shiftr linear (if seg =? 0 then 4 else seg + 3)) 0x0F)) mask).

Definition alaw_to_linear (alaw : Z) : Z :=
  let alaw := Z.lxor alaw ALAW_AMI_MASK in
  let i := Z.shiftl (Z.land alaw 0x0F) 4 in
  let seg := Z.shiftr (Z.land alaw 0x70) 4 in
  let i := if seg =? 0 then i + 8 else Z.shiftl (i + 0x108) (seg - 1) in
  s16 (if Z.land alaw 0x80 =? 0 then - i else i).

Definition ulaw_to_alaw_table : list Z := [
  42; 43; 40; 41; 46; 47; 44; 45; 34; 35; 32; 33; 38; 39; 36; 37;
  58; 59; 56; 57; 62; 63; 60; 61; 50; 51; 48; 49; 54; 55; 52; 53;
  10; 11; 8; 9; 14; 15; 12; 13; 2; 3; 0; 1; 6; 7; 4; 26;
  27; 24; 25; 30; 31; 28; 29; 18; 19; 16; 17; 22; 23; 20; 21; 106;
  104; 105; 110; 111; 108; 109; 98; 99; 96; 97; 102; 103; 100; 101; 122; 120;
  126; 127; 124; 125; 114; 115; 112; 113; 118; 119; 116; 117; 75; 73; 79; 77;
  66; 67; 64; 65; 70; 71; 68; 69; 90; 91; 88; 89; 94; 95; 92; 93;
  82; 82; 83; 83; 80; 80; 81; 81; 86; 86; 87; 87; 84; 84; 85; 85;
  170; 171; 168; 169; 174; 175; 172; 173; 162; 163; 160; 161; 166; 167; 164; 165;
  186; 187; 184; 185; 190; 191; 188; 189; 178; 179; 176; 177; 182; 183; 180; 181;
  138; 139; 136; 137; 142; 143; 140; 141; 130; 131; 128; 129; 134; 135; 132; 154;
  155; 152; 153; 158; 159; 156; 157; 146; 147; 144; 145; 150; 151; 148; 149; 234;
  232; 233; 238; 239; 236; 237; 226; 227; 224; 225; 230; 231; 228; 229; 250; 248;
  254; 255; 252; 253; 242; 243; 240; 241; 246; 247; 244; 245; 203; 201; 207; 205;
  194; 195; 192; 193; 198; 199; 196; 197; 218; 219; 216; 217; 222; 223; 220; 221;
  210; 210; 211; 211; 208; 208; 209; 209; 214; 214; 215; 215; 212; 212; 213; 213].
Definition alaw_to_ulaw_table : list Z := [
  42; 43; 40; 41; 46; 47; 44; 45; 34; 35; 32; 33; 38; 39; 36; 37;
  57; 58; 55; 56; 61; 62; 59; 60; 49; 50; 47; 48; 53; 54; 51; 52;
  10; 11; 8; 9; 14; 15; 12; 13; 2; 3; 0; 1; 6; 7; 4; 5;
  26; 27; 24; 25; 30; 31; 28; 29; 18; 19; 16; 17; 22; 23; 20; 21;
  98; 99; 96; 97; 102; 103; 100; 101; 93; 93; 92; 92; 95; 95; 94; 94;
  116; 118; 112; 114; 124; 126; 120; 122; 106; 107; 104; 105; 110; 111; 108; 109;
  72; 73; 70; 71; 76; 77; 74; 75; 64; 65; 63; 63; 68; 69; 66; 67;
  86; 87; 84; 85; 90; 91; 88; 89; 79; 79; 78; 78; 82; 83; 80; 81;
  170; 171; 168; 169; 174; 175; 172; 173; 162; 163; 160; 161; 166; 167; 164; 165;
  185; 186; 183; 184; 189; 190; 187; 188; 177; 178; 175; 176; 181; 182; 179; 180;
  138; 139; 136; 137; 142; 143; 140; 141; 130; 131; 128; 129; 134; 135; 132; 133;
  154; 155; 152; 153; 158; 159; 156; 157; 146; 147; 144; 145; 150; 151; 148; 149;
  226; 227; 224; 225; 230; 231; 228; 229; 221; 221; 220; 220; 223; 223; 222; 222;
  244; 246; 240; 242; 252; 254; 248; 250; 234; 235; 232; 233; 238; 239; 236; 237;
  200; 201; 198; 199; 204; 205; 202; 203; 192; 193; 191; 191; 196; 197; 194; 195;
  214; 215; 212; 213; 218; 219; 216; 217; 207; 207; 206; 206; 210; 211; 208; 209].

Definition alaw_to_ulaw (alaw : Z) : option Z := alaw_to_ulaw_table !! Z.to_nat alaw.
Definition ulaw_to_alaw (ulaw : Z) : option Z := ulaw_to_alaw_table !! Z.to_nat ulaw.

(** * Checks over ranges of integers *)

(** [f] on the [2 ^ k] integers from [lo]. *)
Fixpoint all_from (f : Z -> bool) (k : nat) (lo : Z) : bool :=
  match k with
  | O => f lo
  | S k => all_from f k lo && all_from f k (lo + 2 ^ Z.of_nat k)
  end.

Lemma all_from_spec f : forall k lo z, all_from f k lo = true -> lo <= z < lo + 2 ^ Z.of_nat k -> f z = true.
Proof.
  induction k as [|k IH]; intros lo z H Hz; cbn [all_from] in H.
  - change (2 ^ Z.of_nat 0) with 1 in Hz. by replace z with lo by lia.
  - apply andb_true_iff in H as [H1 H2]. rewrite Nat2Z.inj_succ, Z.pow_succ_r in Hz by lia.
    destruct (Z.lt_ge_cases z (lo + 2 ^ Z.of_nat k)); [apply (IH lo)|apply (IH (lo + 2 ^ Z.of_nat k))]; try done; lia.
Qed.

(** A goal on octets is a check of all of them. *)
Lemma octet_check f z : all_from f 8 0 = true -> 0 <= z < 256 -> f z = true.
Proof. intros H Hz. by apply (all_from_spec f 8 0). Qed.

(** * The highest bit *)

(** The bits [r] with [n <= r mod (2 * n)] of a word of 32. *)
Definition mask_ok (mask n : Z) : Prop :=
  forall i, 0 <= i < 32 -> Z.testbit mask i = (n <=? i mod (2 * n)).

Lemma mask_ok_check mask n : all_from (fun i => Bool.eqb (Z.testbit mask i) (n <=? i mod (2 * n))) 5 0 = true -> mask_ok mask n.
Proof. intros H i Hi. apply eqb_prop, (all_from_spec _ 5 0 i H Hi). Qed.

(** [bits] lies in the block of [w] bits from bit [b]. *)
Definition block (b w bits : Z) : Prop := exists x, bits = x * 2 ^ b /\ 0 < x < 2 ^ w.

Lemma top_bit_step_block mask n b bits :
  mask_ok mask n -> 0 < n -> 0 <= b -> (2 * n | b) -> b + 2 * n <= 32 -> block b (2 * n) bits ->
  let '(b', bits') := top_bit_step mask n (b, bits) in
  (b' = b \/ b' = b + n) /\ block b' n bits' /\ Z.log2 bits' = Z.log2 bits.
Proof.
  intros Hm Hn Hb [q Hq] Hle (x & -> & Hx). set (hi := x / 2 ^ n).
  assert (Hland : Z.land (x * 2 ^ b) mask = hi * 2 ^ (b + n)).
  { apply Z.bits_inj'. intros i Hi. rewrite Z.land_spec, !Z.mul_pow2_bits by lia.
    unfold hi. destruct (Z.lt_ge_cases i b) as [H1|H1].
    { rewrite (Z.testbit_neg_r x), (Z.testbit_neg_r (x / 2 ^ n)) by lia. done. }
    destruct (Z.lt_ge_cases i (b + n)) as [H2|H2].
    { rewrite (Z.testbit_neg_r (x / 2 ^ n)) by lia. rewrite Hm by lia.
      replace (i mod (2 * n)) with (i - b); [destruct (Z.leb_spec n (i - b)); [lia|by rewrite andb_false_r]|].
      apply (Z.mod_unique_pos _ _ q); lia. }
    rewrite Z.div_pow2_bits by lia. replace (i - (b + n) + n) with (i - b) by lia.
    destruct (Z.lt_ge_cases i (b + 2 * n)) as [H3|H3].
    { rewrite Hm by lia. replace (i mod (2 * n)) with (i - b); [|apply (Z.mod_unique_pos _ _ q); lia].
      destruct (Z.leb_spec n (i - b)); [by rewrite andb_true_r|lia]. }
    rewrite Z.bits_above_log2; [done|lia|]. apply Z.log2_lt_pow2; [lia|].
    apply (Z.lt_le_trans _ _ _ (proj2 Hx)), Z.pow_le_mono_r; lia. }
  assert (Hp : 0 < 2 ^ n) by (apply Z.pow_pos_nonneg; lia).
  assert (Hpn : 0 < 2 ^ (b + n)) by (apply Z.pow_pos_nonneg; lia).
  unfold top_bit_step. rewrite Hland. destruct (Z.eqb_spec (hi * 2 ^ (b + n)) 0) as [E|E].
  - split; [by left|]. split; [|done]. exists x. split; [done|].
    assert (H : x / 2 ^ n = 0) by (apply Z.mul_eq_0 in E as [E|E]; [done|lia]). apply Z.div_small_iff in H; [|lia]. destruct H; lia.
  - split; [by right|]. assert (Hhi : 0 < hi).
    { assert (0 <= hi) by (apply Z.div_pos; lia). assert (hi <> 0) by (intros E0; by rewrite E0 in E). lia. }
    split.
    + exists hi. split; [done|]. split; [done|]. unfold hi. apply Z.div_lt_upper_bound; [done|].
      rewrite <-Z.pow_add_r by lia. replace (n + n) with (2 * n) by lia. apply Hx.
    + rewrite !Z.log2_mul_pow2 by lia. unfold hi. rewrite <-Z.shiftr_div_pow2, Z.log2_shiftr by lia.
      assert (n <= Z.log2 x); [|lia]. apply Z.log2_le_pow2; [lia|]. unfold hi in Hhi.
      destruct (Z.lt_ge_cases x (2 ^ n)); [|done]. rewrite Z.div_small in Hhi; lia.
Qed.

Lemma top_bit_log2 bits : 0 < bits < 2 ^ 32 -> top_bit bits = Z.log2 bits.
Proof.
  intros H. unfold top_bit. destruct (Z.eqb_spec bits 0) as [|_]; [lia|].
  assert (Hb : block 0 (2 * 16) bits) by (exists bits; rewrite Z.mul_1_r; auto).
  assert (Hstep : forall mask n p, mask_ok mask n -> 0 < n -> 0 <= fst p -> (2 * n | fst p) -> fst p + 2 * n <= 32 ->
    block (fst p) (2 * n) (snd p) -> let p' := top_bit_step mask n p in
    (0 <= fst p' /\ (n | fst p') /\ fst p' + n <= 32) /\ block (fst p') n (snd p') /\ Z.log2 (snd p') = Z.log2 (snd p)).
  { intros mask n [b x] Hm Hn Hb0 Hd Hle Hx. cbn [fst snd] in *. pose proof (top_bit_step_block mask n b x Hm Hn Hb0 Hd Hle Hx) as Hs.
    destruct (top_bit_step mask n (b, x)) as [b' x']. destruct Hs as (Hb' & Hx' & Hl). cbn [fst snd]. split; [|done].
    destruct Hd as [q ->]. destruct Hb' as [->| ->]; (split; [lia|split; [|lia]]); [exists (2 * q)|exists (2 * q + 1)]; lia. }
  destruct (Hstep 0xFFFF0000 16 (0, bits)) as ((H1 & D1 & L1) & B1 & G1); try done; [by apply mask_ok_check|by exists 0|].
  destruct (Hstep 0xFF00FF00 8 _ (mask_ok_check 0xFF00FF00 8 eq_refl) ltac:(lia) H1 D1 L1 B1) as ((H2 & D2 & L2) & B2 & G2).
  destruct (Hstep 0xF0F0F0F0 4 _ (mask_ok_check 0xF0F0F0F0 4 eq_refl) ltac:(lia) H2 D2 L2 B2) as ((H3 & D3 & L3) & B3 & G3).
  destruct (Hstep 0xCCCCCCCC 2 _ (mask_ok_check 0xCCCCCCCC 2 eq_refl) ltac:(lia) H3 D3 L3 B3) as ((H4 & D4 & L4) & B4 & G4).
  destruct (Hstep 0xAAAAAAAA 1 _ (mask_ok_check 0xAAAAAAAA 1 eq_refl) ltac:(lia) H4 D4 L4 B4) as ((H5 & D5 & L5) & B5 & G5).
  rewrite <-G5 in G4. set (r := top_bit_step 0xAAAAAAAA 1 _) in *.
  change (snd (0, bits)) with bits in G1. rewrite <-G1, <-G2, <-G3, <-G4. destruct B5 as (x & -> & Hx).
  replace x with 1 by lia. rewrite Z.mul_1_l, Z.log2_pow2 by lia. done.
Qed.

(** * Properties *)

Definition is_octet (z : Z) : bool := (0 <=? z) && (z <? 256).

(** A law codes the magnitude of a sample, with a bias, and its sign; magnitudes of the same cell of
    [w] are coded alike.  [bound] is the error allowed on a sample, by its absolute value. *)
Section Law.
Context (encode decode pos neg bound : Z -> Z) (bias w : Z).
Context (Hw : 0 < w) (Hbias : 0 <= bias).
Context (Hbound : forall a b, 0 <= a <= b -> bound a <= bound b).
Context (Hencode : forall s, encode s = if s <? 0 then neg (bias - s - 1) else pos (bias + s)).
Context (Hpos : forall m, 0 <= m < 2 ^ 31 -> pos m = pos (w * (m / w))).
Context (Hneg : forall m, 0 <= m < 2 ^ 31 -> neg m = neg (w * (m / w))).

(** Both ends of cell [c], for both signs, and the next cell. *)
Definition cell_ok (c : Z) : bool :=
  let lo := Z.max 0 (w * c - bias) in
  let hi := w * c + w - 1 - bias in
  let p := pos (w * c) in
  let n := neg (w * c) in
  is_octet p && is_octet n &&
  ((0 <=? decode p) && (decode n <=? 0) &&
   ((Z.abs (decode p - lo) <=? bound lo) && (Z.abs (decode p - hi) <=? bound lo) &&
    ((Z.abs (decode n + lo + 1) <=? bound (lo + 1)) && (Z.abs (decode n + hi + 1) <=? bound (lo + 1)))) &&
   ((decode p <=? decode (pos (w * (c + 1)))) && (decode (neg (w * (c + 1))) <=? decode n))).

Context (Hcells : forall c, bias / w <= c <= (bias + 2 ^ 15 - 1) / w -> cell_ok c = true).

(** The cell of a magnitude. *)
Lemma cell_of m : bias <= m < bias + 2 ^ 15 ->
  bias / w <= m / w <= (bias + 2 ^ 15 - 1) / w /\ w * (m / w) <= m <= w * (m / w) + w - 1.
Proof.
  intros Hm. split; [split; apply Z.div_le_mono; lia|]. pose proof (Z.div_mod m w) as E.
  pose proof (Z.mod_pos_bound m w Hw). lia.
Qed.

Lemma cells_monotone c : forall k, bias / w <= c -> c + Z.of_nat k <= (bias + 2 ^ 15 - 1) / w ->
  decode (pos (w * c)) <= decode (pos (w * (c + Z.of_nat k))) /\
  decode (neg (w * (c + Z.of_nat k))) <= decode (neg (w * c)).
Proof.
  induction k as [|k IH]; intros Hc Hk.
  - by rewrite Z.add_0_r.
  - pose proof (Hcells (c + Z.of_nat k) ltac:(lia)) as H. unfold cell_ok in H.
    replace (c + Z.of_nat (S k)) with (c + Z.of_nat k + 1) by lia. specialize (IH Hc ltac:(lia)). blia.
Qed.

Lemma law_spec s : bias + 2 ^ 15 < 2 ^ 31 -> - 2 ^ 15 <= s < 2 ^ 15 ->
  0 <= encode s < 256 /\ Z.abs (decode (encode s) - s) <= bound (Z.abs s) /\ (decode (encode s) <= 0 \/ 0 <= s) /\
  (0 <= decode (encode s) \/ s < 0).
Proof.
  intros Hb Hs. rewrite Hencode. destruct (Z.ltb_spec s 0).
  - rewrite Hneg by lia. destruct (cell_of (bias - s - 1) ltac:(lia)) as [Hc Hm].
    pose proof (Hcells _ Hc) as H1. unfold cell_ok, is_octet in H1.
    pose proof (Hbound (Z.max 0 (w * ((bias - s - 1) / w) - bias) + 1) (Z.abs s)). blia.
  - rewrite Hpos by lia. destruct (cell_of (bias + s) ltac:(lia)) as [Hc Hm].
    pose proof (Hcells _ Hc) as H1. unfold cell_ok, is_octet in H1.
    pose proof (Hbound (Z.max 0 (w * ((bias + s) / w) - bias)) (Z.abs s)). blia.
Qed.

Lemma law_monotone s t : bias + 2 ^ 15 < 2 ^ 31 -> - 2 ^ 15 <= s <= t -> t < 2 ^ 15 ->
  decode (encode s) <= decode (encode t).
Proof.
  intros Hb Hs Ht. destruct (law_spec s Hb ltac:(lia)) as (_ & _ & Hs1 & _), (law_spec t Hb ltac:(lia)) as (_ & _ & _ & Ht1).
  assert (s < 0 /\ 0 <= t \/ t < 0 \/ 0 <= s) as [Hm|[Hn|Hp]] by lia; [lia|..].
  - rewrite !Hencode. destruct (Z.ltb_spec s 0), (Z.ltb_spec t 0); try lia. rewrite (Hneg (bias - s - 1)), (Hneg (bias - t - 1)) by lia.
    assert (Hle : (bias - t - 1) / w <= (bias - s - 1) / w) by (apply Z.div_le_mono; lia).
    destruct (cell_of (bias - t - 1) ltac:(lia)) as [Hc1 _], (cell_of (bias - s - 1) ltac:(lia)) as [Hc2 _].
    pose proof (cells_monotone ((bias - t - 1) / w) (Z.to_nat ((bias - s - 1) / w - (bias - t - 1) / w))) as H2.
    rewrite Z2Nat.id in H2 by lia. rewrite Zplus_minus in H2. apply H2; lia.
  - rewrite !Hencode. destruct (Z.ltb_spec s 0), (Z.ltb_spec t 0); try lia. rewrite (Hpos (bias + s)), (Hpos (bias + t)) by lia.
    assert (Hle : (bias + s) / w <= (bias + t) / w) by (apply Z.div_le_mono; lia).
    destruct (cell_of (bias + s) ltac:(lia)) as [Hc1 _], (cell_of (bias + t) ltac:(lia)) as [Hc2 _].
    pose proof (cells_monotone ((bias + s) / w) (Z.to_nat ((bias + t) / w - (bias + s) / w))) as H2.
    rewrite Z2Nat.id in H2 by lia. rewrite Zplus_minus in H2. apply H2; lia.
Qed.
End Law.

(** The bits below the segment do not matter. *)
Lemma lor_low m k : 0 <= k <= 8 -> Z.lor (2 ^ k * (m / 2 ^ k)) 0xFF = Z.lor m 0xFF.
Proof.
  intros Hk. apply Z.bits_inj'. intros i Hi. rewrite !Z.lor_spec, Z.mul_comm. change 0xFF with (Z.ones 8).
  destruct (Z.lt_ge_cases i 8).
  - rewrite Z.ones_spec_low by lia. by rewrite !orb_true_r.
  - rewrite Z.ones_spec_high, Z.mul_pow2_bits, Z.div_pow2_bits by lia. by replace (i - k + k) with i by lia.
Qed.

Lemma shiftr_low m k n : 0 <= k <= n -> Z.shiftr (2 ^ k * (m / 2 ^ k)) n = Z.shiftr m n.
Proof.
  intros Hk. apply Z.bits_inj'. intros i Hi. rewrite !Z.shiftr_spec, Z.mul_comm, Z.mul_pow2_bits, Z.div_pow2_bits by lia.
  by replace (i + n - k + k) with (i + n) by lia.
Qed.

Lemma segment_nonneg m : 0 <= m < 2 ^ 31 -> 0 <= top_bit (u32 (Z.lor m 0xFF)) - 7.
Proof.
  intros Hm. assert (Hl : Z.log2 (Z.lor m 0xFF) = Z.max (Z.log2 m) 7) by (rewrite Z.log2_lor by lia; done).
  assert (H0 : 0 < Z.lor m 0xFF).
  { assert (0 <= Z.lor m 0xFF) by (apply Z.lor_nonneg; lia).
    assert (Z.lor m 0xFF <> 0); [|lia]. intros [_ E]%Z.lor_eq_0_iff. discriminate. }
  assert (H1 : Z.lor m 0xFF < 2 ^ 32).
  { apply Z.log2_lt_pow2; [done|]. rewrite Hl. destruct (Z.eq_dec m 0) as [->|]; [done|].
    assert (Z.log2 m < 31) by (apply Z.log2_lt_pow2; lia). lia. }
  unfold u32. rewrite Z.mod_small, top_bit_log2, Hl by lia. lia.
Qed.

Definition ulaw_code (mask m : Z) : Z :=
  let seg := top_bit (u32 (Z.lor m 0xFF)) - 7 in
  if 8 <=? seg then byte_of (Z.lxor 0x7F mask)
  else byte_of (Z.lxor (Z.lor (Z.shiftl seg 4) (Z.land (Z.shiftr m (seg + 3)) 0xF)) mask).

Definition alaw_code (mask m : Z) : Z :=
  let seg := top_bit (u32 (Z.lor m 0xFF)) - 7 in
  if 8 <=? seg then byte_of (Z.lxor 0x7F mask)
  else byte_of (Z.lxor (Z.lor (Z.shiftl seg 4) (Z.land (Z.shiftr m (if seg =? 0 then 4 else seg + 3)) 0x0F)) mask).

Lemma ulaw_encode s :
  linear_to_ulaw s = if s <? 0 then ulaw_code 0x7F (ULAW_BIAS - s - 1) else ulaw_code 0xFF (ULAW_BIAS + s).
Proof. unfold linear_to_ulaw. by destruct (s <? 0). Qed.

Lemma alaw_encode s :
  linear_to_alaw s = if s <? 0 then alaw_code 0x55 (0 - s - 1) else alaw_code 0xD5 (0 + s).
Proof.
  replace (0 + s) with s by lia. replace (0 - s - 1) with (- s - 1) by lia. unfold linear_to_alaw, alaw_code.
  destruct (Z.ltb_spec s 0), (Z.leb_spec 0 s); try lia; cbv beta iota zeta.
  - by destruct (Z.leb_spec 0 (- s - 1)); [|lia].
  - by destruct (Z.leb_spec 0 s); [|lia].
Qed.

Lemma ulaw_code_cell mask m : 0 <= m < 2 ^ 31 -> ulaw_code mask m = ulaw_code mask (8 * (m / 8)).
Proof.
  intros Hm. pose proof (segment_nonneg m Hm). unfold ulaw_code.
  pose proof (lor_low m 3 ltac:(lia)) as H1. change (2 ^ 3) with 8 in H1. rewrite H1.
  pose proof (shiftr_low m 3 (top_bit (u32 (Z.lor m 0xFF)) - 7 + 3) ltac:(lia)) as H2. change (2 ^ 3) with 8 in H2.
  by rewrite H2.
Qed.

Lemma alaw_code_cell mask m : 0 <= m < 2 ^ 31 -> alaw_code mask m = alaw_code mask (16 * (m / 16)).
Proof.
  intros Hm. pose proof (segment_nonneg m Hm). unfold alaw_code.
  pose proof (lor_low m 4 ltac:(lia)) as H1. change (2 ^ 4) with 16 in H1. rewrite H1.
  pose proof (fun n H => shiftr_low m 4 n H) as H2. change (2 ^ 4) with 16 in H2.
  rewrite H2; [done|]. destruct (Z.eqb_spec (top_bit (u32 (Z.lor m 0xFF)) - 7) 0); lia.
Qed.

Definition ulaw_bound (a : Z) : Z := (a + ULAW_BIAS) / 32.
Definition alaw_bound (a : Z) : Z := Z.max 8 (a / 32).

Lemma ulaw_cells c : ULAW_BIAS / 8 <= c <= (ULAW_BIAS + 2 ^ 15 - 1) / 8 ->
  cell_ok ulaw_to_linear (ulaw_code 0xFF) (ulaw_code 0x7F) ulaw_bound ULAW_BIAS 8 c = true.
Proof.
  set (f := cell_ok _ _ _ _ _ _). intros Hc. change (16 <= c <= 4112) in Hc.
  destruct (Z.eq_dec c 4112) as [->|]; [by vm_compute|].
  apply (all_from_spec f 12 16); [by vm_compute|]. change (16 <= c < 16 + 4096). lia.
Qed.

Lemma alaw_cells c : 0 / 16 <= c <= (0 + 2 ^ 15 - 1) / 16 ->
  cell_ok alaw_to_linear (alaw_code 0xD5) (alaw_code 0x55) alaw_bound 0 16 c = true.
Proof.
  set (f := cell_ok _ _ _ _ _ _). intros Hc. change (0 <= c <= 2047) in Hc.
  apply (all_from_spec f 11 0); [by vm_compute|]. change (0 <= c < 0 + 2048). lia.
Qed.

Lemma ulaw_bound_mono a b : 0 <= a <= b -> ulaw_bound a <= ulaw_bound b.
Proof. intros H. apply Z.div_le_mono; unfold ULAW_BIAS; lia. Qed.
Lemma alaw_bound_mono a b : 0 <= a <= b -> alaw_bound a <= alaw_bound b.
Proof. intros H. unfold alaw_bound. pose proof (Z.div_le_mono a b 32). lia. Qed.

Lemma ulaw_sample s : - 2 ^ 15 <= s < 2 ^ 15 ->
  0 <= linear_to_ulaw s < 256 /\ Z.abs (ulaw_to_linear (linear_to_ulaw s) - s) <= ulaw_bound (Z.abs s).
Proof.
  intros Hs. pose proof (law_spec linear_to_ulaw ulaw_to_linear _ _ ulaw_bound ULAW_BIAS 8 eq_refl ltac:(done)
    ulaw_bound_mono ulaw_encode (ulaw_code_cell 0xFF) (ulaw_code_cell 0x7F) ulaw_cells s ltac:(done) Hs). tauto.
Qed.

Lemma alaw_sample s : - 2 ^ 15 <= s < 2 ^ 15 ->
  0 <= linear_to_alaw s < 256 /\ Z.abs (alaw_to_linear (linear_to_alaw s) - s) <= alaw_bound (Z.abs s).
Proof.
  intros Hs. pose proof (law_spec linear_to_alaw alaw_to_linear _ _ alaw_bound 0 16 eq_refl ltac:(done)
    alaw_bound_mono alaw_encode (alaw_code_cell 0xD5) (alaw_code_cell 0x55) alaw_cells s ltac:(done) Hs). tauto.
Qed.

Lemma octet_samples c : 0 <= c < 256 ->
  (- 2 ^ 15 <= ulaw_to_linear c < 2 ^ 15) /\ (- 2 ^ 15 <= alaw_to_linear c < 2 ^ 15).
Proof.
  intros Hc. pose proof (octet_check (fun c => ((- 2 ^ 15 <=? ulaw_to_linear c) && (ulaw_to_linear c <? 2 ^ 15)) &&
    ((- 2 ^ 15 <=? alaw_to_linear c) && (alaw_to_linear c <? 2 ^ 15))) c ltac:(by vm_compute) Hc) as H.
  cbv beta in H. zify_bools. lia.
Qed.

(** C30: both laws code every sample s of 16 bits in an octet from which it is recovered with an error of at
    most (|s| + 132) / 32 for the u-law, and of at most 8 or |s| / 32, whichever is more, for the A-law, rounded down;
    and they keep the order of the samples. *)
Theorem g711_companding (s : Z) :
  - 2 ^ 15 <= s < 2 ^ 15 ->
  (0 <= linear_to_ulaw s < 256 /\ 0 <= linear_to_alaw s < 256) /\
  (Z.abs (ulaw_to_linear (linear_to_ulaw s) - s) <= (Z.abs s + ULAW_BIAS) / 32 /\
   Z.abs (alaw_to_linear (linear_to_alaw s) - s) <= Z.max 8 (Z.abs s / 32)) /\
  forall t, s <= t < 2 ^ 15 ->
    ulaw_to_linear (linear_to_ulaw s) <= ulaw_to_linear (linear_to_ulaw t) /\
    alaw_to_linear (linear_to_alaw s) <= alaw_to_linear (linear_to_alaw t).
Proof.
  intros Hs. destruct (ulaw_sample s Hs) as [U1 U2], (alaw_sample s Hs) as [A1 A2].
  split; [done|]. split; [done|]. intros t Ht. split.
  - apply (law_monotone linear_to_ulaw ulaw_to_linear _ _ ulaw_bound ULAW_BIAS 8 eq_refl ltac:(done) ulaw_bound_mono ulaw_encode
      (ulaw_code_cell 0xFF) (ulaw_code_cell 0x7F) ulaw_cells); [done|lia..].
  - apply (law_monotone linear_to_alaw alaw_to_linear _ _ alaw_bound 0 16 eq_refl ltac:(done) alaw_bound_mono alaw_encode
      (alaw_code_cell 0xD5) (alaw_code_cell 0x55) alaw_cells); [done|lia..].
Qed.

Lemma g711_companding_witness :
  (- 2 ^ 15 <= 1000 < 2 ^ 15) /\
  Z.abs (ulaw_to_linear (linear_to_ulaw 1000) - 1000) <= (Z.abs 1000 + ULAW_BIAS) / 32.
Proof. split; [lia|]. exact (proj1 (proj1 (proj2 (g711_companding 1000 ltac:(lia))))). Defined.

(** Octets survive decoding and encoding, except the negative zero of u-law, which becomes the
    positive one; what octets decode to are samples of 16 bits. *)
Theorem g711_octets_survive (c : Z) :
  0 <= c < 256 ->
  linear_to_ulaw (ulaw_to_linear c) = (if c =? 0x7F then 0xFF else c) /\
  linear_to_alaw (alaw_to_linear c) = c /\
  - 2 ^ 15 <= ulaw_to_linear c < 2 ^ 15 /\ - 2 ^ 15 <= alaw_to_linear c < 2 ^ 15.
Proof.
  intros Hc.
  pose proof (octet_check (fun c => (linear_to_ulaw (ulaw_to_linear c) =? (if c =? 0x7F then 0xFF else c)) &&
    (linear_to_alaw (alaw_to_linear c) =? c)) c ltac:(by vm_compute) Hc) as H.
  pose proof (octet_samples c Hc). cbv beta in H. zify_bools. intuition lia.
Qed.

Lemma g711_octets_survive_witness : linear_to_alaw (alaw_to_linear 0x2A) = 0x2A.
Proof. apply (g711_octets_survive 0x2A). lia. Defined.

(** The tables from one law to the other name octets that decode to nearly the same sample. *)
Lemma g711_transcoding (c : Z) : 0 <= c < 256 -> exists u a,
  alaw_to_ulaw c = Some u /\ Z.abs (ulaw_to_linear u - alaw_to_linear c) <= Z.max 8 (Z.abs (alaw_to_linear c) / 31) /\
  ulaw_to_alaw c = Some a /\ Z.abs (alaw_to_linear a - ulaw_to_linear c) <= Z.max 8 (Z.abs (ulaw_to_linear c) / 31).
Proof.
  intros Hc.
  pose proof (octet_check (fun c => match alaw_to_ulaw c, ulaw_to_alaw c with
    | Some u, Some a => (Z.abs (ulaw_to_linear u - alaw_to_linear c) <=? Z.max 8 (Z.abs (alaw_to_linear c) / 31)) &&
                        (Z.abs (alaw_to_linear a - ulaw_to_linear c) <=? Z.max 8 (Z.abs (ulaw_to_linear c) / 31))
    | _, _ => false end) c ltac:(by vm_compute) Hc) as H. cbv beta in H.
  destruct (alaw_to_ulaw c) as [u|]; [|done]. destruct (ulaw_to_alaw c) as [a|]; [|done].
  exists u, a. zify_bools. intuition.
Qed.
