(* ===== verification/Codec.v ===== *)
(** Codecs: the inline functions over their virtual tables ([mpf/include/mpf_codec.h]), the G.711 and
    linear codecs ([mpf/src/mpf_codec_g711.c], [mpf/src/mpf_codec_linear.c]) and the codec manager
    ([mpf/src/mpf_codec_manager.c]).  Samples are stored in the order of a little-endian host. *)

From S2P Require Import Prelude AptString CodecDescriptor G711.

(** ** Arrays in the buffer of a frame *)

Definition octet_store (b : octets) (i : nat) (v : Z) : option octets :=
  if (i <? length b)%nat then Some (<[i := v]> b) else None.

(** Element [i] of the buffer as an array of [apr_int16_t]. *)
Definition sample_load (b : octets) (i : nat) : option Z :=
  let? lo := b !! (2 * i)%nat in
  let? hi := b !! (2 * i + 1)%nat in
  Some (s16 (lo + 256 * hi)).
Definition sample_store (b : octets) (i : nat) (v : Z) : option octets :=
  let? b := octet_store b (2 * i) (v mod 256) in octet_store b (2 * i + 1) (v / 256 mod 256).

(** [for(i=0; i<n; i++)] over a state, from [i]. *)
Fixpoint for_loop {S} (n : nat) (step : nat -> S -> option S) (i : nat) (s : S) : option S :=
  match n with
  | O => Some s
  | Datatypes.S n => let? s := step i s in for_loop n step (Datatypes.S i) s
  end.

(** ** Codecs *)

Record mpf_codec_vtable_t := mk_codec_vtable {
  vt_open : option bool;
  vt_close : option bool;
  vt_encode : option (mpf_codec_frame_t -> mpf_codec_frame_t -> option (bool * mpf_codec_frame_t));
  vt_decode : option (mpf_codec_frame_t -> mpf_codec_frame_t -> option (bool * mpf_codec_frame_t));
  vt_dissect : option (octets -> nat -> mpf_codec_frame_t -> option (bool * octets * nat * mpf_codec_frame_t));
  vt_initialize : option (mpf_codec_frame_t -> option (bool * mpf_codec_frame_t))
}.

Record mpf_codec_t := mk_codec {
  vtable : mpf_codec_vtable_t;
  attribs : mpf_codec_attribs_t;
  static_descriptor : option mpf_codec_descriptor_t
}.

Definition mpf_codec_create (vt : mpf_codec_vtable_t) (a : mpf_codec_attribs_t) (d : option mpf_codec_descriptor_t) :
    mpf_codec_t := mk_codec vt a d.
Definition mpf_codec_clone (src : mpf_codec_t) : mpf_codec_t :=
  mk_codec (vtable src) (attribs src) (static_descriptor src).

Definition mpf_codec_open (c : mpf_codec_t) : bool := match vt_open (vtable c) with Some rv => rv | None => true end.
Definition mpf_codec_close (c : mpf_codec_t) : bool := match vt_close (vtable c) with Some rv => rv | None => true end.

Definition mpf_codec_encode (c : mpf_codec_t) (frame_in frame_out : mpf_codec_frame_t) : option (bool * mpf_codec_frame_t) :=
  match vt_encode (vtable c) with Some f => f frame_in frame_out | None => Some (true, frame_out) end.
Definition mpf_codec_decode (c : mpf_codec_t) (frame_in frame_out : mpf_codec_frame_t) : option (bool * mpf_codec_frame_t) :=
  match vt_decode (vtable c) with Some f => f frame_in frame_out | None => Some (true, frame_out) end.

(** One frame is taken off [size] octets at [buffer]. *)
Definition mpf_codec_dissect (c : mpf_codec_t) (buffer : octets) (size : nat) (frame : mpf_codec_frame_t)
    : option (bool * octets * nat * mpf_codec_frame_t) :=
  match vt_dissect (vtable c) with
  | Some f => f buffer size frame
  | None =>
      if (cf_size frame <=? size)%nat && negb (cf_size frame =? 0)%nat then
        let? data := mem_read buffer 0 (cf_size frame) in
        let? b := mem_write (cf_buffer frame) 0 data in
        Some (true, drop (cf_size frame) buffer, (size - cf_size frame)%nat, frame <| cf_buffer := b |>)
      else Some (false, buffer, size, frame)
  end.

Definition mpf_codec_initialize (c : mpf_codec_t) (frame_out : mpf_codec_frame_t) : option (bool * mpf_codec_frame_t) :=
  match vt_initialize (vtable c) with
  | Some f => f frame_out
  | None =>
      let? b := mem_write (cf_buffer frame_out) 0 (repeat 0 (cf_size frame_out)) in
      Some (true, frame_out <| cf_buffer := b |>)
  end.

(** ** G.711 *)

Definition g711_open : bool := true.
Definition g711_close : bool := true.

Definition g711u_encode (frame_in frame_out : mpf_codec_frame_t) : option (bool * mpf_codec_frame_t) :=
  let size := (cf_size frame_in / 2)%nat in
  let? b := for_loop size (fun i b =>
    let? v := sample_load (cf_buffer frame_in) i in octet_store b i (linear_to_ulaw v)) 0 (cf_buffer frame_out) in
  Some (true, mk_codec_frame b size).

Definition g711u_decode (frame_in frame_out : mpf_codec_frame_t) : option (bool * mpf_codec_frame_t) :=
  let? b := for_loop (cf_size frame_in) (fun i b =>
    let? v := cf_buffer frame_in !! i in sample_store b i (ulaw_to_linear v)) 0 (cf_buffer frame_out) in
  Some (true, mk_codec_frame b (cf_size frame_in * 2)).

Definition g711u_init (frame_out : mpf_codec_frame_t) : option (bool * mpf_codec_frame_t) :=
  let? b := for_loop (cf_size frame_out) (fun i b => octet_store b i (linear_to_ulaw 0)) 0 (cf_buffer frame_out) in
  Some (true, frame_out <| cf_buffer := b |>).

Definition g711a_encode (frame_in frame_out : mpf_codec_frame_t) : option (bool * mpf_codec_frame_t) :=
  let size := (cf_size frame_in / 2)%nat in
  let? b := for_loop size (fun i b =>
    let? v := sample_load (cf_buffer frame_in) i in octet_store b i (linear_to_alaw v)) 0 (cf_buffer frame_out) in
  Some (true, mk_codec_frame b size).

Definition g711a_decode (frame_in frame_out : mpf_codec_frame_t) : option (bool * mpf_codec_frame_t) :=
  let? b := for_loop (cf_size frame_in) (fun i b =>
    let? v := cf_buffer frame_in !! i in sample_store b i (alaw_to_linear v)) 0 (cf_buffer frame_out) in
  Some (true, mk_codec_frame b (cf_size frame_in * 2)).

Definition g711a_init (frame_out : mpf_codec_frame_t) : option (bool * mpf_codec_frame_t) :=
  let? b := for_loop (cf_size frame_out) (fun i b => octet_store b i (linear_to_alaw 0)) 0 (cf_buffer frame_out) in
  Some (true, frame_out <| cf_buffer := b |>).

Definition g711u_vtable : mpf_codec_vtable_t :=
  mk_codec_vtable (Some g711_open) (Some g711_close) (Some g711u_encode) (Some g711u_decode) None (Some g711u_init).
Definition g711a_vtable : mpf_codec_vtable_t :=
  mk_codec_vtable (Some g711_open) (Some g711_close) (Some g711a_encode) (Some g711a_decode) None (Some g711a_init).

Definition g711u_descriptor : mpf_codec_descriptor_t :=
  mk_codec_descriptor RTP_PT_PCMU (str_lit "PCMU") 8000 1 apt_string_reset true.
Definition g711a_descriptor : mpf_codec_descriptor_t :=
  mk_codec_descriptor RTP_PT_PCMA (str_lit "PCMA") 8000 1 apt_string_reset true.

Definition g711u_attribs : mpf_codec_attribs_t :=
  mk_codec_attribs (str_lit "PCMU") 8
    (Z.lor (Z.lor MPF_SAMPLE_RATE_8000 MPF_SAMPLE_RATE_16000) (Z.lor MPF_SAMPLE_RATE_32000 MPF_SAMPLE_RATE_48000)).
Definition g711a_attribs : mpf_codec_attribs_t :=
  mk_codec_attribs (str_lit "PCMA") 8
    (Z.lor (Z.lor MPF_SAMPLE_RATE_8000 MPF_SAMPLE_RATE_16000) (Z.lor MPF_SAMPLE_RATE_32000 MPF_SAMPLE_RATE_48000)).

Definition mpf_codec_g711u_create : mpf_codec_t := mpf_codec_create g711u_vtable g711u_attribs (Some g711u_descriptor).
Definition mpf_codec_g711a_create : mpf_codec_t := mpf_codec_create g711a_vtable g711a_attribs (Some g711a_descriptor).

(** ** Linear samples in network order *)

(** [htons] on a little-endian host: the octets are swapped. *)
Definition htons (v : Z) : Z := s16 (256 * (v mod 256) + v / 256 mod 256).

Definition l16_encode (frame_in frame_out : mpf_codec_frame_t) : option (bool * mpf_codec_frame_t) :=
  let? b := for_loop (cf_size frame_in / 2)%nat (fun i b =>
    let? v := sample_load (cf_buffer frame_in) i in sample_store b i (htons v)) 0 (cf_buffer frame_out) in
  Some (true, mk_codec_frame b (cf_size frame_in)).

Definition l16_decode (frame_in frame_out : mpf_codec_frame_t) : option (bool * mpf_codec_frame_t) :=
  let? b := for_loop (cf_size frame_in / 2)%nat (fun i b =>
    let? v := sample_load (cf_buffer frame_in) i in sample_store b i (htons v)) 0 (cf_buffer frame_out) in
  Some (true, mk_codec_frame b (cf_size frame_in)).

Definition l16_vtable : mpf_codec_vtable_t :=
  mk_codec_vtable (Some true) (Some true) (Some l16_encode) (Some l16_decode) None None.
Definition l16_attribs : mpf_codec_attribs_t :=
  mk_codec_attribs (str_lit "L16") 16
    (Z.lor (Z.lor MPF_SAMPLE_RATE_8000 MPF_SAMPLE_RATE_16000) (Z.lor MPF_SAMPLE_RATE_32000 MPF_SAMPLE_RATE_48000)).
Definition mpf_codec_l16_create : mpf_codec_t := mpf_codec_create l16_vtable l16_attribs None.

(** ** The codec manager *)

Record mpf_codec_manager_t := mk_codec_manager {
  codec_arr : list mpf_codec_t;
  cm_event_descriptor : option mpf_codec_descriptor_t
}.
#[global] Instance eta_codec_manager : Eta mpf_codec_manager_t := fun m =>
  mk_codec_manager (codec_arr m) (cm_event_descriptor m).

Definition mpf_codec_manager_create : mpf_codec_manager_t :=
  mk_codec_manager [] (Some (mpf_event_descriptor_create 8000)).

Definition mpf_codec_manager_codec_register (codec : option mpf_codec_t) (m : mpf_codec_manager_t)
    : bool * mpf_codec_manager_t :=
  match codec with
  | Some c => match str_buf (ca_name (attribs c)) with
              | Some _ => (true, m <| codec_arr := codec_arr m ++ [c] |>)
              | None => (false, m)
              end
  | None => (false, m)
  end.

(** The descriptor is given the attributes of the codec found. *)
Fixpoint codec_get (arr : list mpf_codec_t) (d : mpf_codec_descriptor_t) : option mpf_codec_t * mpf_codec_descriptor_t :=
  match arr with
  | [] => (None, d)
  | c :: arr' =>
      let '(match_, d) := mpf_codec_descriptor_match_by_attribs d (static_descriptor c) (attribs c) in
      if (match_ : bool) then (Some (mpf_codec_clone c), d) else codec_get arr' d
  end.

Definition mpf_codec_manager_codec_get (m : mpf_codec_manager_t) (descriptor : option mpf_codec_descriptor_t)
    : option mpf_codec_t * option mpf_codec_descriptor_t :=
  match descriptor with
  | None => (None, None)
  | Some d => let '(c, d) := codec_get (codec_arr m) d in (c, Some d)
  end.

(** The descriptors of the static payload types, and that of named events. *)
Definition mpf_codec_manager_codec_list_get (m : mpf_codec_manager_t) : bool * mpf_codec_list_t :=
  let arr := omap static_descriptor (codec_arr m) in
  (true, mpf_codec_list_init <| descriptor_arr :=
           Some (arr ++ match cm_event_descriptor m with Some e => [e] | None => [] end) |>).

Definition mpf_codec_manager_codec_find (m : mpf_codec_manager_t) (name : apt_str_t) : option mpf_codec_t :=
  List.find (fun c => apt_string_compare (ca_name (attribs c)) name) (codec_arr m).

(** [apr_strtok]: the tokens of a string between the separators, of the runtime. *)
Class AprStrtok := apr_strtok : bytes -> bytes -> list bytes.

Section Parse.
Context `{Tok : AprStrtok}.

Definition u8 (z : Z) : Z := z mod 2 ^ 8.
Definition u16 (z : Z) : Z := z mod 2 ^ 16.

(** What follows the name: payload type, sampling rate and channel count, as far as given. *)
Definition descriptor_override (tokens : list bytes) (d : mpf_codec_descriptor_t) : mpf_codec_descriptor_t :=
  match tokens with
  | [] => d
  | pt :: tokens =>
      let d := d <| payload_type := u8 (atol pt) |> in
      match tokens with
      | [] => d
      | rate :: tokens =>
          let d := d <| sampling_rate := u16 (atol rate) |> in
          match tokens with
          | [] => d
          | count :: _ => d <| channel_count := u8 (atol count) |>
          end
      end
  end.

Definition mpf_codec_manager_codec_parse (m : mpf_codec_manager_t) (l : mpf_codec_list_t) (desc : bytes)
    : option (bool * mpf_codec_list_t) :=
  match apr_strtok (lit "/") desc with
  | [] => Some (true, l)
  | str :: tokens =>
      let name := apt_string_assign (Some str) in
      let added (f : mpf_codec_descriptor_t -> mpf_codec_descriptor_t) :=
        let? (i, l) := mpf_codec_list_add l in
        Some (true, descriptor_update i (descriptor_override tokens) (descriptor_update i f l)) in
      match mpf_codec_manager_codec_find m name with
      | Some c =>
          added (fun d => let d := d <| cd_name := name |> in
            match static_descriptor c with
            | Some sd => d <| payload_type := payload_type sd |> <| sampling_rate := sampling_rate sd |>
                           <| channel_count := channel_count sd |>
            | None => d <| payload_type := RTP_PT_DYNAMIC |> <| sampling_rate := 8000 |> <| channel_count := 1 |>
            end)
      | None =>
          match cm_event_descriptor m with
          | Some e => if apt_string_compare (cd_name e) name then added (fun _ => e) else Some (false, l)
          | None => Some (false, l)
          end
      end
  end.

Fixpoint codec_list_load (m : mpf_codec_manager_t) (tokens : list bytes) (l : mpf_codec_list_t) : option mpf_codec_list_t :=
  match tokens with
  | [] => Some l
  | t :: tokens => let? (_, l) := mpf_codec_manager_codec_parse m l t in codec_list_load m tokens l
  end.

Definition mpf_codec_manager_codec_list_load (m : mpf_codec_manager_t) (l : mpf_codec_list_t) (str : bytes)
    : option (bool * mpf_codec_list_t) :=
  let? l := codec_list_load m (apr_strtok (lit " ") str) l in Some (true, l).
End Parse.

(** * Frames of samples *)

(** The octets of a sample in memory. *)
Definition sample_octets (v : Z) : octets := [v mod 256; v / 256 mod 256].
Definition is_sample (v : Z) : Prop := - 2 ^ 15 <= v < 2 ^ 15.

Lemma octet_store_split b i v : (i < length b)%nat -> octet_store b i v = Some (take i b ++ [v] ++ drop (i + 1) b).
Proof.
  intros Hi. unfold octet_store. rewrite (proj2 (Nat.ltb_lt _ _) Hi), insert_take_drop by done.
  by rewrite Nat.add_1_r.
Qed.

Lemma sample_store_split b i v : (2 * i + 2 <= length b)%nat ->
  sample_store b i v = Some (take (2 * i) b ++ sample_octets v ++ drop (2 * i + 2) b).
Proof.
  intros Hi. unfold sample_store. rewrite octet_store_split by lia.
  rewrite octet_store_split by (rewrite !length_app, length_take, length_drop; cbn; lia).
  f_equal. cbn [app]. rewrite take_app, drop_app, !length_take, !Nat.min_l by lia.
  replace (2 * i + 1 - 2 * i)%nat with 1%nat by lia. replace (2 * i + 1 + 1 - 2 * i)%nat with 2%nat by lia.
  rewrite take_take, Nat.min_r by lia. rewrite (drop_ge (take _ _)) by (rewrite length_take; lia).
  cbn [take drop app]. rewrite drop_drop, <-app_assoc. cbn [app]. unfold sample_octets. cbn [app].
  by replace (2 * i + 1 + 1)%nat with (2 * i + 2)%nat by lia.
Qed.

Section Loop.
Context (u : nat) (put : octets -> nat -> Z -> option octets) (enc : Z -> octets) (g : nat -> option Z).
Context (Hput : forall b i v, (u * i + u <= length b)%nat -> put b i v = Some (take (u * i) b ++ enc v ++ drop (u * i + u) b)).
Context (Henc : forall v, length (enc v) = u).

(** A loop that stores element by element stores them all. *)
Lemma store_loop : forall ws k b, (u * (k + length ws) <= length b)%nat ->
  (forall j w, ws !! j = Some w -> g (k + j)%nat = Some w) ->
  for_loop (length ws) (fun i b => let? v := g i in put b i v) k b =
    Some (take (u * k) b ++ flat_map enc ws ++ drop (u * (k + length ws)) b).
Proof.
  induction ws as [|w ws IH]; intros k b Hb Hg; cbn [length for_loop flat_map].
  - rewrite Nat.add_0_r. cbn [app]. by rewrite take_drop.
  - cbn [length] in Hb. pose proof (Hg 0%nat w eq_refl) as Hw. rewrite Nat.add_0_r in Hw. rewrite Hw.
    rewrite Hput by lia. rewrite IH.
    + f_equal. set (A := take (u * k) b). set (E := enc w). set (D := drop (u * k + u) b).
      assert (HA : length (A ++ E) = (u * S k)%nat) by (unfold A, E; rewrite length_app, length_take, Henc; lia).
      rewrite (app_assoc A E D), take_app_length', drop_app, HA, (drop_ge (A ++ E)) by lia.
      unfold D. rewrite drop_drop, <-!app_assoc. cbn [app]. do 4 f_equal. lia.
    + rewrite !length_app, length_take, length_drop, Henc. lia.
    + intros j w' Hj. rewrite Nat.add_succ_comm. apply (Hg (S j) w' Hj).
Qed.
End Loop.

Lemma sample_octets_length v : length (sample_octets v) = 2%nat.
Proof. done. Qed.

Lemma samples_length vs : length (flat_map sample_octets vs) = (2 * length vs)%nat.
Proof. induction vs as [|v vs IH]; [done|]. cbn [flat_map length]. rewrite length_app, IH. cbn. lia. Qed.

Lemma octets_length (f : Z -> Z) vs : flat_map (fun v => [f v]) vs = map f vs.
Proof. induction vs as [|v vs IH]; [done|]. cbn. by rewrite IH. Qed.

Lemma samples_map (f : Z -> Z) vs : flat_map (fun v => sample_octets (f v)) vs = flat_map sample_octets (map f vs).
Proof. induction vs as [|v vs IH]; [done|]. cbn [flat_map map]. by rewrite IH. Qed.

Lemma s16_octets v : is_sample v -> s16 (v mod 256 + 256 * (v / 256 mod 256)) = v.
Proof.
  intros Hv. unfold is_sample in Hv. unfold s16. change (2 ^ 16) with (256 * 256).
  rewrite <-Z.rem_mul_r by lia. rewrite Z.mod_mod by lia. change (2 ^ 15) with 32768 in *.
  destruct (Z.ltb_spec (v mod (256 * 256)) 32768) as [H|H]; Z.div_mod_to_equations; lia.
Qed.

Lemma sample_load_at vs rest : forall i v, Forall is_sample vs -> vs !! i = Some v ->
  sample_load (flat_map sample_octets vs ++ rest) i = Some v.
Proof.
  induction vs as [|w vs IH]; intros i v Hall Hi; [done|]. apply Forall_cons_iff in Hall as [Hw Hall].
  destruct i as [|i].
  - injection Hi as ->. unfold sample_load. cbn. f_equal. by apply s16_octets.
  - specialize (IH i v Hall Hi). unfold sample_load in *. cbn [flat_map app sample_octets].
    replace (2 * S i)%nat with (S (S (2 * i))) by lia. replace (S (S (2 * i)) + 1)%nat with (S (S (2 * i + 1))) by lia.
    exact IH.
Qed.

Section Frames.
Context (f : Z -> Z).
(** Samples become octets, octets samples, samples samples. *)
Lemma encode_loop vs rest out : Forall is_sample vs -> (length vs <= length out)%nat ->
  for_loop (length vs) (fun i b => let? v := sample_load (flat_map sample_octets vs ++ rest) i in octet_store b i (f v)) 0 out
  = Some (map f vs ++ drop (length vs) out).
Proof.
  intros Hall Hout.
  rewrite (store_loop 1 (fun b i v => octet_store b i (f v)) (fun v => [f v]) (sample_load (flat_map sample_octets vs ++ rest))).
  - cbn [Nat.mul Nat.add take app]. by rewrite octets_length, Nat.add_0_r.
  - intros b i v Hb. rewrite octet_store_split by lia. by rewrite Nat.mul_1_l.
  - done.
  - lia.
  - intros j w Hj. by apply sample_load_at.
Qed.

Lemma decode_loop cs rest out : (2 * length cs <= length out)%nat ->
  for_loop (length cs) (fun i b => let? v := (cs ++ rest) !! i in sample_store b i (f v)) 0 out
  = Some (flat_map sample_octets (map f cs) ++ drop (2 * length cs) out).
Proof.
  intros Hout.
  rewrite (store_loop 2 (fun b i v => sample_store b i (f v)) (fun v => sample_octets (f v)) (fun i => (cs ++ rest) !! i)).
  - cbn [Nat.mul Nat.add take app]. by rewrite samples_map.
  - intros b i v Hb. by apply sample_store_split.
  - done.
  - lia.
  - intros j w Hj. by apply lookup_app_l_Some.
Qed.

Lemma sample_loop vs rest out : Forall is_sample vs -> (2 * length vs <= length out)%nat ->
  for_loop (length vs) (fun i b => let? v := sample_load (flat_map sample_octets vs ++ rest) i in sample_store b i (f v)) 0 out
  = Some (flat_map sample_octets (map f vs) ++ drop (2 * length vs) out).
Proof.
  intros Hall Hout.
  rewrite (store_loop 2 (fun b i v => sample_store b i (f v)) (fun v => sample_octets (f v)) (sample_load (flat_map sample_octets vs ++ rest))).
  - cbn [Nat.mul Nat.add take app]. by rewrite samples_map.
  - intros b i v Hb. by apply sample_store_split.
  - done.
  - lia.
  - intros j w Hj. by apply sample_load_at.
Qed.
End Frames.

(** ** Round trips of frames *)

(** A frame of samples, and a buffer with room for as many. *)
Definition linear_frame (vs : list Z) (rest : octets) : mpf_codec_frame_t :=
  mk_codec_frame (flat_map sample_octets vs ++ rest) (2 * length vs).
Definition room (n : nat) (f : mpf_codec_frame_t) : Prop := (2 * n <= length (cf_buffer f))%nat.

(** What is encoded and then decoded is as many samples, each within [bound] of the one it was. *)
Definition carries (codec : mpf_codec_t) (bound : Z -> Z) : Prop :=
  forall vs rest fo fo', Forall is_sample vs -> room (length vs) fo -> room (length vs) fo' ->
  exists coded ws rest',
    mpf_codec_encode codec (linear_frame vs rest) fo = Some (true, coded) /\
    (cf_size coded * 8 = length vs * Z.to_nat (bits_per_sample (attribs codec)))%nat /\
    mpf_codec_decode codec coded fo' = Some (true, linear_frame ws rest') /\
    Forall2 (fun v w => is_sample w /\ Z.abs (w - v) <= bound (Z.abs v)) vs ws.

Lemma half_size n : (2 * n / 2 = n)%nat.
Proof. rewrite Nat.mul_comm. by apply Nat.div_mul. Qed.

Lemma companded_samples (encode decode bound : Z -> Z) vs :
  (forall v, is_sample v -> is_sample (decode (encode v)) /\ Z.abs (decode (encode v) - v) <= bound (Z.abs v)) ->
  Forall is_sample vs ->
  Forall2 (fun v w => is_sample w /\ Z.abs (w - v) <= bound (Z.abs v)) vs (map decode (map encode vs)).
Proof. intros H Hall. induction Hall; constructor; auto. Qed.

Lemma g711_carries (codec : mpf_codec_t) (encode decode bound : Z -> Z) :
  vt_encode (vtable codec) = Some (fun frame_in frame_out =>
    let size := (cf_size frame_in / 2)%nat in
    let? b := for_loop size (fun i b =>
      let? v := sample_load (cf_buffer frame_in) i in octet_store b i (encode v)) 0 (cf_buffer frame_out) in
    Some (true, mk_codec_frame b size)) ->
  vt_decode (vtable codec) = Some (fun frame_in frame_out =>
    let? b := for_loop (cf_size frame_in) (fun i b =>
      let? v := cf_buffer frame_in !! i in sample_store b i (decode v)) 0 (cf_buffer frame_out) in
    Some (true, mk_codec_frame b (cf_size frame_in * 2))) ->
  bits_per_sample (attribs codec) = 8 ->
  (forall v, is_sample v -> is_sample (decode (encode v)) /\ Z.abs (decode (encode v) - v) <= bound (Z.abs v)) ->
  carries codec bound.
Proof.
  intros He Hd Hbits Hlaw vs rest fo fo' Hvs Ho Ho'. unfold room in *.
  exists (mk_codec_frame (map encode vs ++ drop (length vs) (cf_buffer fo)) (length vs)), (map decode (map encode vs)),
    (drop (2 * length vs) (cf_buffer fo')).
  unfold mpf_codec_encode, mpf_codec_decode, linear_frame. rewrite He, Hd, Hbits. cbn [cf_size cf_buffer].
  split; [|split; [done|split; [|by apply companded_samples]]].
  - rewrite half_size, encode_loop by (done || lia). done.
  - pose proof (decode_loop decode (map encode vs) (drop (length vs) (cf_buffer fo)) (cf_buffer fo')) as H.
    rewrite !length_map in *. rewrite H by lia. by rewrite Nat.mul_comm.
Qed.

Lemma htons_sample v : is_sample v -> is_sample (htons v) /\ htons (htons v) = v.
Proof.
  unfold is_sample, htons, s16. intros Hv. change (2 ^ 16) with 65536. change (2 ^ 15) with 32768 in *.
  set (a := v mod 256). set (b := v / 256 mod 256).
  assert (Ha : 0 <= a < 256) by (apply Z.mod_pos_bound; lia).
  assert (Hb : 0 <= b < 256) by (apply Z.mod_pos_bound; lia).
  assert (Hab : v = a + 256 * b \/ v = a + 256 * b - 65536).
  { unfold a, b. Z.div_mod_to_equations. lia. }
  rewrite (Z.mod_small (256 * a + b)) by lia. destruct (Z.ltb_spec (256 * a + b) 32768) as [H|H].
  - split; [lia|]. replace ((256 * a + b) mod 256) with b by (apply (Z.mod_unique_pos _ _ a); lia).
    replace ((256 * a + b) / 256) with a by (apply (Z.div_unique_pos _ _ _ b); lia).
    rewrite (Z.mod_small a), (Z.mod_small (256 * b + a)) by lia. destruct (Z.ltb_spec (256 * b + a) 32768); lia.
  - split; [lia|]. replace ((256 * a + b - 65536) mod 256) with b by (apply (Z.mod_unique_pos _ _ (a - 256)); lia).
    replace ((256 * a + b - 65536) / 256) with (a - 256) by (apply (Z.div_unique_pos _ _ _ b); lia).
    replace ((a - 256) mod 256) with a by (apply (Z.mod_unique_pos _ _ (-1)); lia).
    rewrite (Z.mod_small (256 * b + a)) by lia. destruct (Z.ltb_spec (256 * b + a) 32768); lia.
Qed.

Lemma swapped_samples vs : Forall is_sample vs -> Forall is_sample (map htons vs) /\ map htons (map htons vs) = vs.
Proof.
  intros H. split.
  - apply List.Forall_map. eapply List.Forall_impl; [|exact H]. intros v Hv. by apply htons_sample.
  - rewrite map_map. rewrite <-(map_id vs) at 2. apply map_ext_in. intros v Hv.
    rewrite List.Forall_forall in H. by apply htons_sample, H.
Qed.

(** * Properties *)

(** C29: every codec carries frames of samples: what it encodes has the size its attributes announce and
    decodes to as many samples; those of L16 are the same, a sample s of G.711 differs by at most (|s| + 132) / 32
    for the u-law and by at most 8 or |s| / 32, whichever is more, for the A-law.  No buffer is left on the way. *)
Theorem codecs_carry_frames :
  carries mpf_codec_g711u_create ulaw_bound /\ carries mpf_codec_g711a_create alaw_bound /\
  carries mpf_codec_l16_create (fun _ => 0).
Proof.
  split; [|split].
  - apply (g711_carries _ linear_to_ulaw ulaw_to_linear); try done. intros v Hv.
    destruct (ulaw_sample v Hv) as [H1 H2]. split; [by apply octet_samples|done].
  - apply (g711_carries _ linear_to_alaw alaw_to_linear); try done. intros v Hv.
    destruct (alaw_sample v Hv) as [H1 H2]. split; [by apply octet_samples|done].
  - intros vs rest fo fo' Hvs Ho Ho'. destruct (swapped_samples vs Hvs) as [Hs1 Hs2]. unfold room in *.
    exists (linear_frame (map htons vs) (drop (2 * length vs) (cf_buffer fo))), vs, (drop (2 * length vs) (cf_buffer fo')).
    unfold mpf_codec_encode, mpf_codec_decode. cbn [vtable mpf_codec_l16_create mpf_codec_create l16_vtable vt_encode vt_decode].
    unfold l16_encode, l16_decode, linear_frame. cbn [cf_size cf_buffer]. rewrite !half_size, !length_map.
    split; [|split; [|split]].
    + rewrite sample_loop by (done || lia). done.
    + cbn. change (Z.to_nat 16) with 16%nat. lia.
    + pose proof (sample_loop htons (map htons vs) (drop (2 * length vs) (cf_buffer fo)) (cf_buffer fo') Hs1) as H.
      rewrite length_map in H. rewrite H by lia. by rewrite Hs2.
    + clear -Hvs. induction Hvs; constructor; [split; [done|lia]|done].
Qed.

(** ** The codec manager finds the first codec that matches *)

Lemma match_by_attribs_false d sd a d' :
  mpf_codec_descriptor_match_by_attribs d sd a = (false, d') -> d' = d.
Proof.
  unfold mpf_codec_descriptor_match_by_attribs. destruct (payload_type d <? RTP_PT_DYNAMIC).
  - destruct sd as [sd|]; [|by intros [= ->]]. destruct (payload_type sd =? payload_type d); by intros [= ->].
  - by intros [= _ ->].
Qed.

Lemma codec_get_spec arr d :
  match codec_get arr d with
  | (Some c, d') => exists c0 l l', arr = l ++ c0 :: l' /\ c = mpf_codec_clone c0 /\
      mpf_codec_descriptor_match_by_attribs d (static_descriptor c0) (attribs c0) = (true, d') /\
      Forall (fun x => fst (mpf_codec_descriptor_match_by_attribs d (static_descriptor x) (attribs x)) = false) l
  | (None, d') => d' = d /\
      Forall (fun x => fst (mpf_codec_descriptor_match_by_attribs d (static_descriptor x) (attribs x)) = false) arr
  end.
Proof.
  induction arr as [|x arr IH]; [by cbn|]. cbn [codec_get].
  destruct (mpf_codec_descriptor_match_by_attribs d (static_descriptor x) (attribs x)) as [[|] d1] eqn:E.
  - exists x, [], arr. auto.
  - pose proof (match_by_attribs_false _ _ _ _ E) as ->.
    destruct (codec_get arr d) as [[c|] d'].
    + destruct IH as (c0 & l & l' & -> & Hc & Hm & Hl). exists c0, (x :: l), l'. split; [done|]. split; [done|].
      split; [done|]. constructor; [by rewrite E|done].
    + destruct IH as [-> IH]. split; [done|]. constructor; [by rewrite E|done].
Qed.
