(* ===== verification/MediaBuffer.v ===== *)
(** The two buffers media flows through: the frame buffer ([mpf/src/mpf_frame_buffer.c]), a ring of a
    fixed number of frames, and the media buffer ([mpf/src/mpf_buffer.c]), a list of chunks read frame
    by frame.  The mutex that guards them makes each operation one step. *)

From S2P Require Import Prelude AptString CodecDescriptor.

Definition event_zero : mpf_named_event_frame_t := mk_named_event 0 0 0 0 0.

(** * The frame buffer *)

Module FrameBuffer.

(** Positions are of 64 bits, count frames since the start and wrap; memory of the frames is one array each. *)
Record mpf_frame_buffer_t := mk_frame_buffer {
  frames : list mpf_frame_t;
  frame_count : nat;
  frame_size : nat;
  write_pos : Z;
  read_pos : Z
}.
#[global] Instance eta_frame_buffer : Eta mpf_frame_buffer_t := fun b =>
  mk_frame_buffer (frames b) (frame_count b) (frame_size b) (write_pos b) (read_pos b).

Section Code.
(** What fresh memory holds. *)
Context (fresh_octets : nat -> octets) (fresh_event : mpf_named_event_frame_t) (fresh_size : nat).

Definition mpf_frame_buffer_create (size count : nat) : mpf_frame_buffer_t :=
  mk_frame_buffer
    (replicate count (mk_frame MEDIA_FRAME_TYPE_NONE MPF_MARKER_NONE
                        (mk_codec_frame (fresh_octets size) fresh_size) fresh_event))
    count size 0 0.
End Code.

Definition mpf_frame_buffer_restart (b : mpf_frame_buffer_t) : bool * mpf_frame_buffer_t :=
  (true, b <| write_pos := read_pos b |>).

(** The index of the frame; a buffer of no frames divides by zero. *)
Definition mpf_frame_buffer_frame_get (b : mpf_frame_buffer_t) (pos : Z) : option nat :=
  if (frame_count b =? 0)%nat then None else Some (Z.to_nat (pos mod Z.of_nat (frame_count b))).

(** The rest of the frame, from [data], of [size] octets, is written piece by piece. *)
Fixpoint write_loop (fuel : nat) (type : Z) (data : octets) (size : nat) (b : mpf_frame_buffer_t)
    : option (nat * mpf_frame_buffer_t) :=
  match fuel with
  | O => None
  | S fuel =>
      if (u64 (write_pos b - read_pos b) <? Z.of_nat (frame_count b)) && (frame_size b <=? size)%nat then
        let? i := mpf_frame_buffer_frame_get b (write_pos b) in
        let? fr := frames b !! i in
        let? piece := mem_read data 0 (frame_size b) in
        let? mem := mem_write (cf_buffer (codec_frame fr)) 0 piece in
        let fr := fr <| fr_type := type |> <| codec_frame := mk_codec_frame mem (frame_size b) |> in
        write_loop fuel type (drop (frame_size b) data) (size - frame_size b)
          (b <| frames := <[i := fr]> (frames b) |> <| write_pos := u64 (write_pos b + 1) |>)
      else Some (size, b)
  end.

(** Each turn fills one of the frames that are free. *)
Definition mpf_frame_buffer_write (b : mpf_frame_buffer_t) (frame : mpf_frame_t) : option (bool * mpf_frame_buffer_t) :=
  let? (size, b) := write_loop (S (frame_count b)) (fr_type frame) (cf_buffer (codec_frame frame))
                      (cf_size (codec_frame frame)) b in
  Some ((size =? 0)%nat, b).

Definition mpf_frame_buffer_read (b : mpf_frame_buffer_t) (media : mpf_frame_t)
    : option (mpf_frame_t * mpf_frame_buffer_t) :=
  if read_pos b <? write_pos b then
    let? i := mpf_frame_buffer_frame_get b (read_pos b) in
    let? src := frames b !! i in
    let media := media <| fr_type := fr_type src |> <| fr_marker := fr_marker src |> in
    let? media :=
      if has_type (fr_type media) MEDIA_FRAME_TYPE_AUDIO then
        let? data := mem_read (cf_buffer (codec_frame src)) 0 (cf_size (codec_frame src)) in
        let? mem := mem_write (cf_buffer (codec_frame media)) 0 data in
        Some (media <| codec_frame := mk_codec_frame mem (cf_size (codec_frame src)) |>)
      else Some media in
    let media := if has_type (fr_type media) MEDIA_FRAME_TYPE_EVENT
                 then media <| event_frame := event_frame src |> else media in
    let src := src <| fr_type := MEDIA_FRAME_TYPE_NONE |> <| fr_marker := MPF_MARKER_NONE |> in
    Some (media, b <| frames := <[i := src]> (frames b) |> <| read_pos := u64 (read_pos b + 1) |>)
  else
    Some (media <| fr_type := MEDIA_FRAME_TYPE_NONE |> <| fr_marker := MPF_MARKER_NONE |>, b).

(** ** The queue of frames it implements *)

Inductive fb_op := WRITE (frame : mpf_frame_t) | READ (media : mpf_frame_t) | RESTART.
Definition fb_result : Type := bool + mpf_frame_t.

Definition fb_exec (op : fb_op) (b : mpf_frame_buffer_t) : option (fb_result * mpf_frame_buffer_t) :=
  match op with
  | WRITE frame => let? (r, b) := mpf_frame_buffer_write b frame in Some (inl r, b)
  | READ media => let? (m, b) := mpf_frame_buffer_read b media in Some (inr m, b)
  | RESTART => let '(r, b) := mpf_frame_buffer_restart b in Some (inl r, b)
  end.

(** [k] pieces of [n] octets. *)
Fixpoint pieces (k n : nat) (data : octets) : list octets :=
  match k with O => [] | S k => take n data :: pieces k n (drop n data) end.

(** The contents are types and octets of the frames, oldest first; [ev] is what the memory of
    events held from the start. *)
Abbreviation contents := (list (Z * octets)).

Definition read_frame (size : nat) (ev : mpf_named_event_frame_t) (type : Z) (data : octets) (media : mpf_frame_t) : mpf_frame_t :=
  let media := media <| fr_type := type |> <| fr_marker := MPF_MARKER_NONE |> in
  let media := if has_type type MEDIA_FRAME_TYPE_AUDIO
               then media <| codec_frame := mk_codec_frame (data ++ drop size (cf_buffer (codec_frame media))) size |>
               else media in
  if has_type type MEDIA_FRAME_TYPE_EVENT then media <| event_frame := ev |> else media.

Definition fb_spec (count size : nat) (ev : mpf_named_event_frame_t) (op : fb_op) (l : contents) : fb_result * contents :=
  match op with
  | WRITE frame =>
      let n := cf_size (codec_frame frame) in
      let k := Nat.min (count - length l) (n / size) in
      (inl (n =? k * size)%nat, l ++ map (pair (fr_type frame)) (pieces k size (cf_buffer (codec_frame frame))))
  | READ media =>
      match l with
      | [] => (inr (media <| fr_type := MEDIA_FRAME_TYPE_NONE |> <| fr_marker := MPF_MARKER_NONE |>), [])
      | (type, data) :: l => (inr (read_frame size ev type data media), l)
      end
  | RESTART => (inl true, [])
  end.

(** A frame that is written has its octets, one that is read to has room. *)
Definition fb_op_ok (size : nat) (op : fb_op) : Prop :=
  match op with
  | WRITE frame => (cf_size (codec_frame frame) <= length (cf_buffer (codec_frame frame)))%nat
  | READ media => (size <= length (cf_buffer (codec_frame media)))%nat
  | RESTART => True
  end.

(** The frames that are offered to the buffer. *)
Definition fb_offered (size : nat) (ops : list fb_op) : nat :=
  list_sum (map (fun op => match op with WRITE frame => (cf_size (codec_frame frame) / size)%nat | _ => 0%nat end) ops).

Record stores (count size : nat) (ev : mpf_named_event_frame_t) (b : mpf_frame_buffer_t) (l : contents) : Prop := {
  st_count : frame_count b = count;
  st_size : frame_size b = size;
  st_frames : length (frames b) = count;
  st_positions : 0 <= read_pos b /\ write_pos b = read_pos b + Z.of_nat (length l) /\ write_pos b < 2 ^ 64;
  st_room : (length l <= count)%nat;
  st_frame : forall i fr, frames b !! i = Some fr ->
    fr_marker fr = MPF_MARKER_NONE /\ event_frame fr = ev /\ length (cf_buffer (codec_frame fr)) = size;
  st_item : forall j type data, l !! j = Some (type, data) -> exists fr,
    frames b !! ((Z.to_nat (read_pos b) + j) mod count)%nat = Some fr /\ fr_type fr = type /\ codec_frame fr = mk_codec_frame data size
}.

Lemma mod_distinct n a b : (a < b < a + n)%nat -> (a mod n <> b mod n)%nat.
Proof.
  intros H E. pose proof (Nat.div_mod a n ltac:(lia)). pose proof (Nat.div_mod b n ltac:(lia)).
  destruct (Nat.le_gt_cases (b / n) (a / n)) as [Hq|Hq].
  - apply (Nat.mul_le_mono_l _ _ n) in Hq. lia.
  - apply Nat.le_succ_l, (Nat.mul_le_mono_l _ _ n) in Hq. lia.
Qed.

Lemma mem_read_ok b n : (n <= length b)%nat -> mem_read b 0 n = Some (take n b).
Proof. intros H. unfold mem_read. cbn. by rewrite (proj2 (Nat.leb_le _ _) H), drop_0. Qed.
Lemma mem_write_ok b d : (length d <= length b)%nat -> mem_write b 0 d = Some (d ++ drop (length d) b).
Proof. intros H. unfold mem_write. cbn. by rewrite (proj2 (Nat.leb_le _ _) H). Qed.

Section Refinement.
Context (count size : nat) (ev : mpf_named_event_frame_t) (Hcount : (0 < count)%nat) (Hsize : (0 < size)%nat).
Abbreviation stored := (stores count size ev).

Lemma frame_get_ok b l pos : stored b l -> 0 <= pos -> mpf_frame_buffer_frame_get b pos = Some (Z.to_nat pos mod count)%nat.
Proof.
  intros H Hp. unfold mpf_frame_buffer_frame_get. rewrite (st_count _ _ _ _ _ H). destruct (Nat.eqb_spec count 0); [lia|].
  by rewrite Z2Nat.inj_mod, Nat2Z.id by lia.
Qed.

Lemma frame_at b l pos : stored b l -> exists fr, frames b !! (pos mod count)%nat = Some fr.
Proof.
  intros H. apply lookup_lt_is_Some_2. rewrite (st_frames _ _ _ _ _ H). apply Nat.mod_upper_bound. lia.
Qed.

(** A frame is stored behind the others. *)
Lemma push_stored b l type data fr : stored b l -> (length l < count)%nat -> length data = size -> write_pos b + 1 < 2 ^ 64 ->
  frames b !! (Z.to_nat (write_pos b) mod count)%nat = Some fr ->
  stored (b <| frames := <[(Z.to_nat (write_pos b) mod count)%nat := fr <| fr_type := type |> <| codec_frame := mk_codec_frame data size |>]> (frames b) |>
            <| write_pos := u64 (write_pos b + 1) |>) (l ++ [(type, data)]).
Proof.
  intros [H1 H2 H3 (H4r & H4 & H4w) H5 H6 H7] Hl Hd Hlim Hfr. pose proof (H6 _ _ Hfr) as (Hm & He & _).
  assert (Hw : Z.to_nat (write_pos b) = (Z.to_nat (read_pos b) + length l)%nat) by lia.
  split; unfold field_set; cbn -[Nat.modulo u64]; try done.
  - by rewrite length_insert.
  - rewrite length_app, u64_small by lia. cbn. lia.
  - rewrite length_app. cbn. lia.
  - intros i x. destruct (decide (i = Z.to_nat (write_pos b) mod count)%nat) as [->|Hne].
    + rewrite list_lookup_insert_eq by (by eapply lookup_lt_Some). by intros [= <-].
    + rewrite list_lookup_insert_ne by done. apply H6.
  - intros j type' data' Hj. destruct (decide (j = length l)) as [->|Hne].
    + rewrite lookup_app_r, Nat.sub_diag in Hj by done. injection Hj as <- <-.
      rewrite <-Hw, list_lookup_insert_eq by (by eapply lookup_lt_Some). eexists. by split.
    + assert (Hlt : (j < length l)%nat) by (apply lookup_lt_Some in Hj; rewrite length_app in Hj; cbn in Hj; lia).
      rewrite lookup_app_l in Hj by done. rewrite list_lookup_insert_ne; [by apply H7|].
      rewrite Hw. intros E. symmetry in E. revert E. apply mod_distinct. lia.
Qed.

(** The oldest frame is taken. *)
Lemma pop_stored b type data l fr : stored b ((type, data) :: l) ->
  frames b !! (Z.to_nat (read_pos b) mod count)%nat = Some fr ->
  stored (b <| frames := <[(Z.to_nat (read_pos b) mod count)%nat := fr <| fr_type := MEDIA_FRAME_TYPE_NONE |> <| fr_marker := MPF_MARKER_NONE |>]> (frames b) |>
            <| read_pos := u64 (read_pos b + 1) |>) l.
Proof.
  intros [H1 H2 H3 (H4r & H4 & H4w) H5 H6 H7] Hfr. pose proof (H6 _ _ Hfr) as (Hm & He & Hl). cbn [length] in H4, H5.
  assert (Hnext : u64 (read_pos b + 1) = read_pos b + 1) by (apply u64_small; lia).
  split; unfold field_set; cbn -[Nat.modulo u64]; try done.
  - by rewrite length_insert.
  - lia.
  - lia.
  - intros i x. destruct (decide (i = Z.to_nat (read_pos b) mod count)%nat) as [->|Hne].
    + rewrite list_lookup_insert_eq by (by eapply lookup_lt_Some). by intros [= <-].
    + rewrite list_lookup_insert_ne by done. apply H6.
  - intros j type' data' Hj. assert (j < length l)%nat by (by eapply lookup_lt_Some).
    destruct (H7 (S j) type' data' Hj) as (x & Hx & Hrest). exists x.
    replace (Z.to_nat (u64 (read_pos b + 1)) + j)%nat with (Z.to_nat (read_pos b) + S j)%nat by lia. rewrite list_lookup_insert_ne; [done|].
    apply mod_distinct. lia.
Qed.

Lemma write_loop_ok type : forall fuel data n b l, stored b l -> (n <= length data)%nat ->
  (count - length l < fuel)%nat -> write_pos b + Z.of_nat (n / size) < 2 ^ 64 ->
  let k := Nat.min (count - length l) (n / size) in
  exists b', write_loop fuel type data n b = Some ((n - k * size)%nat, b') /\
    stored b' (l ++ map (pair type) (pieces k size data)) /\ write_pos b' <= write_pos b + Z.of_nat (n / size).
Proof.
  induction fuel as [|fuel IH]; intros data n b l Hb Hn Hf Hlim k; [lia|]. cbn [write_loop].
  pose proof Hb as [H1 H2 H3 (H4r & H4 & H4w) H5 H6 H7]. replace (write_pos b - read_pos b) with (Z.of_nat (length l)) by lia.
  rewrite H1, H2, u64_small by lia. replace (Z.of_nat (length l) <? Z.of_nat count) with (length l <? count)%nat
    by (destruct (Nat.ltb_spec (length l) count), (Z.ltb_spec (Z.of_nat (length l)) (Z.of_nat count)); lia || done).
  destruct (Nat.ltb_spec (length l) count) as [Hl|Hl]; [destruct (Nat.leb_spec size n) as [Hs|Hs]|]; cbn [andb].
  - assert (Hdiv : (n / size = S ((n - size) / size))%nat).
    { replace n with (n - size + 1 * size)%nat at 1 by lia. rewrite Nat.div_add by lia. lia. }
    rewrite (frame_get_ok b l) by (done || lia). destruct (frame_at b l (Z.to_nat (write_pos b)) Hb) as [fr Hfr]. rewrite Hfr.
    destruct (H6 _ _ Hfr) as (_ & _ & Hlen). rewrite mem_read_ok by lia.
    assert (Hd : length (take size data) = size) by (rewrite length_take; lia).
    rewrite mem_write_ok, Hd, (drop_ge (cf_buffer (codec_frame fr))), app_nil_r by lia.
    pose proof (push_stored b l type _ fr Hb Hl Hd ltac:(lia) Hfr) as Hb'.
    destruct (IH (drop size data) (n - size)%nat _ _ Hb') as (b' & E & Hfin & Hle).
    + rewrite length_drop. lia.
    + rewrite length_app. cbn. lia.
    + cbn -[u64]. rewrite u64_small by lia. lia.
    + cbn -[u64 Nat.div write_loop] in Hle. rewrite u64_small in Hle by lia.
      rewrite length_app in E, Hfin. cbn [length] in E, Hfin.
      assert (Hk : k = S (Nat.min (count - (length l + 1)) ((n - size) / size))).
      { unfold k. rewrite Hdiv. lia. }
      rewrite Hk. exists b'. split.
      * rewrite E. do 2 f_equal. cbn [Nat.mul]. lia.
      * rewrite <-app_assoc in Hfin. split; [exact Hfin|lia].
  - assert (k = 0)%nat as -> by (unfold k; rewrite Nat.div_small by lia; lia).
    exists b. cbn. rewrite Nat.sub_0_r, app_nil_r. split; [done|]. split; [done|lia].
  - assert (k = 0)%nat as -> by (unfold k; lia).
    exists b. cbn. rewrite Nat.sub_0_r, app_nil_r. split; [done|]. split; [done|lia].
Qed.

Lemma offered_write frame : fb_offered size [WRITE frame] = (cf_size (codec_frame frame) / size)%nat.
Proof. cbn -[Nat.div]. lia. Qed.

Lemma fb_refines b l op : stored b l -> fb_op_ok size op -> write_pos b + Z.of_nat (fb_offered size [op]) < 2 ^ 64 ->
  exists b', fb_exec op b = Some (fst (fb_spec count size ev op l), b') /\ stored b' (snd (fb_spec count size ev op l)) /\
    write_pos b' <= write_pos b + Z.of_nat (fb_offered size [op]).
Proof.
  intros Hb Hop Hlim. pose proof Hb as [H1 H2 H3 (H4r & H4 & H4w) H5 H6 H7]. 
  destruct op as [frame|media|]; rewrite ?offered_write in *; cbn [fb_exec fb_spec fst snd fb_op_ok] in *.
  - unfold mpf_frame_buffer_write. rewrite H1.
    destruct (write_loop_ok (fr_type frame) (S count) _ _ b l Hb Hop) as (b' & E & Hfin & Hle); [lia|done|]. rewrite E. exists b'.
    split; [|done]. do 3 f_equal.
    set (k := Nat.min _ _). assert (k * size <= cf_size (codec_frame frame))%nat.
    { transitivity (cf_size (codec_frame frame) / size * size)%nat; [apply Nat.mul_le_mono_r; unfold k; lia|].
      rewrite Nat.mul_comm. apply Nat.Div0.mul_div_le. }
    destruct (Nat.eqb_spec (cf_size (codec_frame frame)) (k * size)), (Nat.eqb_spec (cf_size (codec_frame frame) - k * size) 0); lia || done.
  - unfold mpf_frame_buffer_read. destruct l as [|[type data] l]; cbn [length] in H4.
    + destruct (Z.ltb_spec (read_pos b) (write_pos b)); [lia|]. exists b. split; [done|]. split; [done|lia].
    + destruct (Z.ltb_spec (read_pos b) (write_pos b)); [|lia]. rewrite (frame_get_ok b ((type, data) :: l)) by done.
      destruct (H7 0%nat type data eq_refl) as (fr & Hfr & Ht & Hc). rewrite Nat.add_0_r in Hfr. rewrite Hfr.
      destruct (H6 _ _ Hfr) as (Hm & He & Hlen). rewrite Hc in Hlen. cbn [cf_buffer] in Hlen.
      pose proof (pop_stored b type data l fr Hb Hfr) as Hb'. unfold read_frame, field_set in *. cbn -[Nat.modulo u64] in *.
      rewrite Ht, Hm, He, Hc. rewrite He, Hc in Hb'. cbn [cf_buffer cf_size].
      rewrite mem_read_ok, <-Hlen, firstn_all, mem_write_ok by (rewrite ?firstn_all; lia). rewrite Hlen.
      destruct (has_type type MEDIA_FRAME_TYPE_AUDIO); cbn -[Nat.modulo u64];
        destruct (has_type type MEDIA_FRAME_TYPE_EVENT); cbn -[Nat.modulo u64];
        (eexists; split; [reflexivity|split; [done|cbn -[u64]; lia]]).
  - exists (b <| write_pos := read_pos b |>). split; [done|]. split; [split|]; cbn; try done; lia.
Qed.

Lemma create_stored fresh_octets fresh_size : (forall n, length (fresh_octets n) = n) ->
  stored (mpf_frame_buffer_create fresh_octets ev fresh_size size count) [].
Proof.
  intros Hf. split; cbn; try done; [by rewrite length_replicate|lia|].
  intros i fr H. apply list.lookup_replicate in H as [-> _]. cbn. auto.
Qed.

Fixpoint fb_run (ops : list fb_op) (b : mpf_frame_buffer_t) : option (list fb_result * mpf_frame_buffer_t) :=
  match ops with
  | [] => Some ([], b)
  | op :: ops => let? (r, b) := fb_exec op b in let? (rs, b) := fb_run ops b in Some (r :: rs, b)
  end.

Fixpoint fb_spec_run (ops : list fb_op) (l : contents) : list fb_result * contents :=
  match ops with
  | [] => ([], l)
  | op :: ops => let '(r, l) := fb_spec count size ev op l in let '(rs, l) := fb_spec_run ops l in (r :: rs, l)
  end.

Lemma fb_offered_cons op ops : fb_offered size (op :: ops) = (fb_offered size [op] + fb_offered size ops)%nat.
Proof. unfold fb_offered. destruct op; cbn -[Nat.div list_sum]; unfold list_sum; cbn -[Nat.div]; lia. Qed.

Lemma fb_run_refines ops : forall b l, stored b l -> Forall (fb_op_ok size) ops ->
  write_pos b + Z.of_nat (fb_offered size ops) < 2 ^ 64 ->
  exists b', fb_run ops b = Some (fst (fb_spec_run ops l), b') /\ stored b' (snd (fb_spec_run ops l)).
Proof.
  induction ops as [|op ops IH]; intros b l Hb Hok Hlim; [by exists b|]. apply Forall_cons_iff in Hok as [Hop Hok].
  rewrite fb_offered_cons in Hlim.
  destruct (fb_refines b l op Hb Hop ltac:(lia)) as (b1 & E & Hb1 & Hle). cbn [fb_run fb_spec_run]. rewrite E.
  destruct (fb_spec count size ev op l) as [r l1]. cbn [fst snd] in *. destruct (IH b1 l1 Hb1 Hok ltac:(lia)) as (b2 & E2 & Hb2).
  rewrite E2. destruct (fb_spec_run ops l1) as [rs l2]. by exists b2.
Qed.
End Refinement.

End FrameBuffer.

(** * The media buffer *)

Module MediaBuffer.

(** A chunk that was taken off the ring is read from its end backwards: [remaining_chunk_size]
    octets of it are left. *)
Record mpf_buffer_t := mk_buffer {
  head : list mpf_frame_t;
  cur_chunk : option mpf_frame_t;
  remaining_chunk_size : nat;
  size : Z
}.
#[global] Instance eta_buffer : Eta mpf_buffer_t := fun b =>
  mk_buffer (head b) (cur_chunk b) (remaining_chunk_size b) (size b).

Definition mpf_buffer_create : mpf_buffer_t := mk_buffer [] None 0 0.

Definition mpf_buffer_restart (b : mpf_buffer_t) : bool * mpf_buffer_t := (true, b <| head := [] |>).

Definition mpf_buffer_chunk_write (chunk : mpf_frame_t) (b : mpf_buffer_t) : bool * mpf_buffer_t :=
  (true, b <| head := head b ++ [chunk] |>).

Definition mpf_buffer_chunk_read (b : mpf_buffer_t) : option mpf_frame_t * mpf_buffer_t :=
  match head b with
  | [] => (None, b)
  | chunk :: l => (Some chunk, b <| head := l |>)
  end.

(** The marker and the event of a chunk are never set. *)
Definition mpf_buffer_audio_write (data : octets) (n : nat) (b : mpf_buffer_t) : option (bool * mpf_buffer_t) :=
  let? copy := mem_read data 0 n in
  let chunk := mk_frame MEDIA_FRAME_TYPE_AUDIO MPF_MARKER_NONE (mk_codec_frame copy n) event_zero in
  let '(status, b) := mpf_buffer_chunk_write chunk b in
  Some (status, b <| size := u64 (size b + Z.of_nat n) |>).

Definition mpf_buffer_event_write (event_type : Z) (b : mpf_buffer_t) : bool * mpf_buffer_t :=
  mpf_buffer_chunk_write (mk_frame event_type MPF_MARKER_NONE (mk_codec_frame [] 0) event_zero) b.

(** The current chunk, or the next one of the ring. *)
Definition chunk_current (b : mpf_buffer_t) : option mpf_frame_t * mpf_buffer_t :=
  match cur_chunk b with
  | Some c => (Some c, b)
  | None =>
      let '(c, b) := mpf_buffer_chunk_read b in
      match c with
      | Some c => (Some c, b <| cur_chunk := Some c |> <| remaining_chunk_size := cf_size (codec_frame c) |>)
      | None => (None, b)
      end
  end.

(** [memcpy] of [n] octets from the rest of the chunk to the rest of the frame. *)
Definition chunk_copy (media chunk : mpf_frame_t) (remaining_frame remaining_chunk n : nat) : option mpf_frame_t :=
  let dest := codec_frame media in
  let src := codec_frame chunk in
  let? data := mem_read (cf_buffer src) (cf_size src - remaining_chunk) n in
  let? mem := mem_write (cf_buffer dest) (cf_size dest - remaining_frame) data in
  Some (media <| codec_frame := dest <| cf_buffer := mem |> |>).

Fixpoint frame_read_loop (fuel : nat) (remaining : nat) (media : mpf_frame_t) (b : mpf_buffer_t)
    : option (nat * mpf_frame_t * mpf_buffer_t) :=
  match fuel with
  | O => None
  | S fuel =>
      let '(c, b) := chunk_current b in
      match c with
      | None => Some (remaining, media, b)
      | Some c =>
          let media := media <| fr_type := Z.lor (fr_type media) (fr_type c) |> in
          let left := remaining_chunk_size b in
          if (remaining <? left)%nat then
            let? media := chunk_copy media c remaining left remaining in
            Some (0%nat, media, b <| remaining_chunk_size := (left - remaining)%nat |>
                                  <| size := u64 (size b - Z.of_nat remaining) |>)
          else
            let? media := chunk_copy media c remaining left left in
            let b := b <| size := u64 (size b - Z.of_nat left) |> <| remaining_chunk_size := 0%nat |>
                       <| cur_chunk := None |> in
            if (remaining - left =? 0)%nat then Some (0%nat, media, b)
            else frame_read_loop fuel (remaining - left) media b
      end
  end.

(** Each turn but the last passes a chunk. *)
Definition mpf_buffer_frame_read (media : mpf_frame_t) (b : mpf_buffer_t) : option (mpf_frame_t * mpf_buffer_t) :=
  let? (remaining, media, b) := frame_read_loop (length (head b) + 2) (cf_size (codec_frame media)) media b in
  if (remaining =? 0)%nat then Some (media, b)
  else
    let cf := codec_frame media in
    let? mem := mem_write (cf_buffer cf) (cf_size cf - remaining) (repeat 0 remaining) in
    Some (media <| codec_frame := cf <| cf_buffer := mem |> |>, b).

Definition mpf_buffer_get_size (b : mpf_buffer_t) : Z := size b.

(** ** The stream of octets it implements *)

Definition chunk_wf (c : mpf_frame_t) : Prop := cf_size (codec_frame c) = length (cf_buffer (codec_frame c)).

(** The octets that wait to be read. *)
Definition current_octets (b : mpf_buffer_t) : octets :=
  match cur_chunk b with
  | Some c => drop (cf_size (codec_frame c) - remaining_chunk_size b) (cf_buffer (codec_frame c))
  | None => []
  end.
Definition pending (b : mpf_buffer_t) : octets :=
  current_octets b ++ flat_map (fun c => cf_buffer (codec_frame c)) (head b).

Record buffer_wf (b : mpf_buffer_t) : Prop := {
  bw_head : Forall chunk_wf (head b);
  bw_current : forall c, cur_chunk b = Some c -> chunk_wf c /\ (remaining_chunk_size b <= cf_size (codec_frame c))%nat;
  bw_size : size b = u64 (Z.of_nat (length (pending b)))
}.

(** [n] octets of a stream in a buffer, and silence after its end. *)
Definition padded (n : nat) (stream buf : octets) : octets :=
  take n stream ++ repeat 0 (n - length stream) ++ drop n buf.

(** The types of the chunks a read of [n] octets passes or enters. *)
Fixpoint types_passed (n : nat) (t : Z) (l : list (Z * octets)) : Z :=
  match l with
  | [] => t
  | (type, d) :: l =>
      if (n <=? length d)%nat then Z.lor t type else types_passed (n - length d) (Z.lor t type) l
  end.

Definition chunks (b : mpf_buffer_t) : list (Z * octets) :=
  match cur_chunk b with Some c => [(fr_type c, current_octets b)] | None => [] end ++
  map (fun c => (fr_type c, cf_buffer (codec_frame c))) (head b).

Lemma u64_sub a n : (n <= a)%nat -> u64 (u64 (Z.of_nat a) - Z.of_nat n) = u64 (Z.of_nat (a - n)).
Proof. intros H. unfold u64. rewrite Zminus_mod_idemp_l. f_equal. lia. Qed.

(** The next chunk becomes the current one, and nothing else changes. *)
Lemma chunk_current_ok b : buffer_wf b ->
  match chunk_current b with
  | (Some c, b') => buffer_wf b' /\ cur_chunk b' = Some c /\ pending b' = pending b /\ chunks b' = chunks b /\
      (length (head b') <= length (head b))%nat /\ (cur_chunk b = None -> (length (head b') < length (head b))%nat)
  | (None, b') => b' = b /\ pending b = [] /\ chunks b = []
  end.
Proof.
  intros Hb. pose proof Hb as [H1 H2 H3]. unfold chunk_current, mpf_buffer_chunk_read.
  destruct (cur_chunk b) as [c|] eqn:Ec; [done|].
  destruct (head b) as [|c l] eqn:Eh.
  - unfold pending, chunks, current_octets. by rewrite Ec, Eh.
  - apply Forall_cons_iff in H1 as [Hc Hl].
    assert (Hp : pending (mk_buffer l (Some c) (cf_size (codec_frame c)) (size b)) = pending b).
    { unfold pending, current_octets. rewrite Ec, Eh. cbn. by rewrite Nat.sub_diag, drop_0. }
    unfold field_set. cbn [head cur_chunk remaining_chunk_size size]. split; [|split; [done|split; [done|split; [|cbn; lia]]]].
    + split; [done| |by rewrite Hp]. cbn. intros c' [= <-]. split; [done|lia].
    + unfold chunks, current_octets. rewrite Ec, Eh. cbn. by rewrite Nat.sub_diag, drop_0.
Qed.

Lemma chunk_copy_ok media c remaining left n : chunk_wf c -> (left <= cf_size (codec_frame c))%nat ->
  (remaining <= cf_size (codec_frame media) <= length (cf_buffer (codec_frame media)))%nat ->
  (n <= left)%nat -> (n <= remaining)%nat ->
  chunk_copy media c remaining left n = Some (media <| codec_frame := (codec_frame media) <| cf_buffer :=
    take (cf_size (codec_frame media) - remaining) (cf_buffer (codec_frame media)) ++
    take n (drop (cf_size (codec_frame c) - left) (cf_buffer (codec_frame c))) ++
    drop (cf_size (codec_frame media) - remaining + n) (cf_buffer (codec_frame media)) |> |>).
Proof.
  intros Hc Hl Hm Hn1 Hn2. unfold chunk_copy, mem_read, mem_write. unfold chunk_wf in Hc.
  rewrite (proj2 (Nat.leb_le _ _)) by lia. rewrite length_take, length_drop, Nat.min_l by lia.
  by rewrite (proj2 (Nat.leb_le _ _)) by lia.
Qed.

(** [l] octets of [P] put into [buf] at [d]. *)
Lemma splice (buf P : octets) d l : (d + l <= length buf)%nat -> (l <= length P)%nat ->
  let buf' := take d buf ++ take l P ++ drop (d + l) buf in
  take (d + l) buf' = take d buf ++ take l P /\ (forall x, drop (d + l + x) buf' = drop (d + l + x) buf) /\
  length buf' = length buf.
Proof.
  intros Hb HP buf'. assert (Hl : length (take d buf ++ take l P) = (d + l)%nat) by (rewrite length_app, !length_take; lia).
  unfold buf'. rewrite app_assoc. split; [|split].
  - by rewrite take_app_length'.
  - intros x. rewrite <-drop_drop, drop_app_length', drop_drop by done. done.
  - rewrite length_app, Hl, length_drop. lia.
Qed.

(** Part of the current chunk is read. *)
Lemma read_part b c n : buffer_wf b -> cur_chunk b = Some c -> (n <= remaining_chunk_size b)%nat ->
  let b' := b <| remaining_chunk_size := (remaining_chunk_size b - n)%nat |> <| size := u64 (size b - Z.of_nat n) |> in
  pending b' = drop n (pending b) /\ buffer_wf b'.
Proof.
  intros [W1 W2 W3] Ec Hn b'. destruct (W2 c Ec) as [Hc Hl]. unfold chunk_wf in Hc.
  assert (Hp : pending b' = drop n (pending b)).
  { unfold b', field_set, pending, current_octets. cbn. rewrite Ec, drop_app_le by (rewrite length_drop; lia).
    rewrite drop_drop. do 2 f_equal. lia. }
  split; [done|]. split; [done| |].
  - unfold b'. cbn. intros c' E. rewrite Ec in E. injection E as <-. split; [done|lia].
  - rewrite Hp, length_drop. unfold b'. cbn. rewrite W3, u64_sub; [done|].
    unfold pending, current_octets. rewrite Ec, length_app, length_drop. lia.
Qed.

(** The current chunk is read to its end. *)
Lemma read_rest b c : buffer_wf b -> cur_chunk b = Some c ->
  let b' := b <| size := u64 (size b - Z.of_nat (remaining_chunk_size b)) |> <| remaining_chunk_size := 0%nat |>
              <| cur_chunk := None |> in
  pending b' = drop (remaining_chunk_size b) (pending b) /\ buffer_wf b'.
Proof.
  intros [W1 W2 W3] Ec b'. destruct (W2 c Ec) as [Hc Hl]. unfold chunk_wf in Hc.
  assert (Hlen : length (current_octets b) = remaining_chunk_size b) by (unfold current_octets; rewrite Ec, length_drop; lia).
  assert (Hp : pending b' = drop (remaining_chunk_size b) (pending b)).
  { unfold pending at 2. rewrite drop_app_length' by done. done. }
  split; [done|]. split; [done|done|]. rewrite Hp, length_drop. unfold b'. cbn. rewrite W3, u64_sub; [done|].
  unfold pending. rewrite length_app. lia.
Qed.

(** What the loop makes of a frame whose last [remaining] octets are still to be filled. *)
Lemma frame_read_loop_ok : forall fuel remaining media b, buffer_wf b ->
  (remaining <= cf_size (codec_frame media) <= length (cf_buffer (codec_frame media)))%nat ->
  (length (head b) + 1 < fuel \/ cur_chunk b = None /\ length (head b) < fuel)%nat ->
  exists b', let done_ := (cf_size (codec_frame media) - remaining)%nat in
    frame_read_loop fuel remaining media b = Some ((remaining - length (pending b))%nat,
      media <| fr_type := types_passed remaining (fr_type media) (chunks b) |>
            <| codec_frame := (codec_frame media) <| cf_buffer :=
                 take done_ (cf_buffer (codec_frame media)) ++ take remaining (pending b) ++
                 drop (done_ + Nat.min remaining (length (pending b))) (cf_buffer (codec_frame media)) |> |>, b') /\
    buffer_wf b' /\ pending b' = drop remaining (pending b).
Proof.
  induction fuel as [|fuel IH]; intros remaining media b Hb Hm Hf; [lia|]. cbn [frame_read_loop].
  pose proof (chunk_current_ok b Hb) as Hcur. destruct (chunk_current b) as [[c|] b1].
  - destruct Hcur as (Hb1 & Ec & Hp & Hch & Hh1 & Hh2). rewrite <-Hp, <-Hch. pose proof Hb1 as [W1 W2 W3].
    destruct (W2 c Ec) as [Hc Hl]. set (left := remaining_chunk_size b1) in *.
    assert (Hcur : length (current_octets b1) = left).
    { unfold current_octets. rewrite Ec, length_drop. unfold chunk_wf in Hc. fold left. lia. }
    assert (Hpl : (left <= length (pending b1))%nat) by (unfold pending; rewrite length_app; lia).
    assert (Hchunks : chunks b1 = (fr_type c, current_octets b1) :: map (fun c => (fr_type c, cf_buffer (codec_frame c))) (head b1))
      by (unfold chunks; by rewrite Ec).
    assert (Hcopy : forall n, (n <= left)%nat -> take n (drop (cf_size (codec_frame c) - left) (cf_buffer (codec_frame c))) = take n (pending b1)).
    { intros n Hn. unfold pending. rewrite take_app_le by lia. unfold current_octets. by rewrite Ec. }
    destruct (Nat.ltb_spec remaining left) as [Hlt|Hge].
    + rewrite (chunk_copy_ok _ c) by (done || cbn; lia). cbn [fr_type codec_frame field_set cf_size cf_buffer].
      rewrite Hcopy by lia. eexists. split; [|split].
      * f_equal. f_equal. f_equal; [lia|]. rewrite Hchunks. cbn [types_passed].
        rewrite (proj2 (Nat.leb_le _ _)) by lia. rewrite (Nat.min_l remaining) by lia. reflexivity.
      * by apply (read_part b1 c remaining); [|done|fold left; lia].
      * apply (read_part b1 c remaining); [done|done|fold left; lia].
    + rewrite (chunk_copy_ok _ c) by (done || cbn; lia). cbn [fr_type codec_frame field_set cf_size cf_buffer].
      rewrite Hcopy by lia. destruct (read_rest b1 c Hb1 Ec) as [Hp2 Hb2]. fold left in Hp2, Hb2. cbv zeta in Hp2, Hb2.
      set (b2 := b1 <| size := u64 (size b1 - Z.of_nat left) |> <| remaining_chunk_size := 0%nat |> <| cur_chunk := None |>) in *.
      change (eta_buffer _) with b1.
      destruct (Nat.eqb_spec (remaining - left) 0) as [E0|E0].
      * exists b2. replace remaining with left by lia. split; [|done]. f_equal. f_equal. f_equal; [lia|].
        rewrite Hchunks. cbn [types_passed]. rewrite (proj2 (Nat.leb_le _ _)), (Nat.min_l left) by lia. reflexivity.
      * set (d := (cf_size (codec_frame media) - remaining)%nat) in *.
        destruct (splice (cf_buffer (codec_frame media)) (pending b1) d left ltac:(lia) ltac:(lia)) as (S1 & S2 & S3).
        set (buf := take d _ ++ _) in *. cbv zeta in S1, S2, S3.
        match goal with |- exists _, frame_read_loop _ _ ?m _ = _ /\ _ => set (media1 := m) end.
        destruct (IH (remaining - left)%nat media1 b2 Hb2) as (b' & E & Hb' & Hpb').
        -- cbn. rewrite S3. lia.
        -- right. split; [done|]. change (head b2) with (head b1).
           destruct Hf as [Hf|[Hn Hf]]; [lia|specialize (Hh2 Hn); lia].
        -- exists b'. split; [|split; [done|]].
           ++ etransitivity; [exact E|]. cbn [media1 codec_frame cf_size cf_buffer fr_type].
              replace (cf_size (codec_frame media) - (remaining - left))%nat with (d + left)%nat by lia.
              rewrite S1, Hp2, length_drop, S2.
              assert (E1 : (remaining - left - (length (pending b1) - left) = remaining - length (pending b1))%nat) by lia.
              assert (E2 : types_passed remaining (fr_type media) (chunks b1) =
                types_passed (remaining - left) (Z.lor (fr_type media) (fr_type c)) (chunks b2)).
              { rewrite Hchunks. cbn [types_passed]. by rewrite (proj2 (Nat.leb_gt _ _)), Hcur by lia. }
              assert (E3 : take remaining (pending b1) = take left (pending b1) ++ take (remaining - left) (drop left (pending b1))).
              { rewrite <-(take_drop left (pending b1)) at 1. rewrite take_app, length_take, Nat.min_l, take_take, Nat.min_r by lia. done. }
              assert (E4 : (d + left + (remaining - left) `min` (length (pending b1) - left) = d + remaining `min` length (pending b1))%nat) by lia.
              rewrite E1, E2, E3, E4, <-!app_assoc. reflexivity.
           ++ rewrite Hpb', Hp2, drop_drop. f_equal. lia.
  - destruct Hcur as (-> & Hp & Hch). exists b. rewrite Hp, Hch. cbn [types_passed length take app].
    rewrite Nat.sub_0_r, take_nil, Nat.min_0_r, Nat.add_0_r, drop_nil. cbn [app]. rewrite take_drop.
    split; [|done]. do 2 f_equal. f_equal. destruct media as [? ? [? ?] ?]. reflexivity.
Qed.

Lemma frame_read_ok media b : buffer_wf b -> (cf_size (codec_frame media) <= length (cf_buffer (codec_frame media)))%nat ->
  let n := cf_size (codec_frame media) in
  exists b', mpf_buffer_frame_read media b = Some (
      media <| fr_type := types_passed n (fr_type media) (chunks b) |>
            <| codec_frame := mk_codec_frame (padded n (pending b) (cf_buffer (codec_frame media))) n |>, b') /\
    buffer_wf b' /\ pending b' = drop n (pending b).
Proof.
  intros Hb Hm n.
  destruct (frame_read_loop_ok (length (head b) + 2) n media b Hb) as (b' & E & Hb' & Hp); [lia|lia|].
  exists b'. split; [|done]. unfold mpf_buffer_frame_read. fold n. rewrite E. fold n. rewrite Nat.sub_diag, take_0, Nat.add_0_l. cbn [app].
  unfold padded. destruct (Nat.eqb_spec (n - length (pending b)) 0) as [E0|E0].
  - rewrite E0, Nat.min_l by lia. reflexivity.
  - rewrite Nat.min_r, take_ge by lia. unfold field_set. cbn [codec_frame cf_size cf_buffer].
    assert (Hw : mem_write (pending b ++ drop (length (pending b)) (cf_buffer (codec_frame media)))
        (n - (n - length (pending b))) (repeat 0 (n - length (pending b))) =
      Some (pending b ++ repeat 0 (n - length (pending b)) ++ drop n (cf_buffer (codec_frame media)))).
    { unfold mem_write. rewrite repeat_length, length_app, length_drop, (proj2 (Nat.leb_le _ _)) by (fold n in Hm; lia).
      replace (n - (n - length (pending b)))%nat with (length (pending b)) by lia.
      rewrite take_app_length, drop_app, drop_ge, drop_drop by lia. cbn [app]. do 4 f_equal. lia. }
    fold n. rewrite Hw. reflexivity.
Qed.

Inductive op := AUDIO_WRITE (data : octets) (n : nat) | EVENT_WRITE (event_type : Z) | FRAME_READ (media : mpf_frame_t).

Definition exec (o : op) (b : mpf_buffer_t) : option (list mpf_frame_t * mpf_buffer_t) :=
  match o with
  | AUDIO_WRITE data n => let? (_, b) := mpf_buffer_audio_write data n b in Some ([], b)
  | EVENT_WRITE ty => Some ([], snd (mpf_buffer_event_write ty b))
  | FRAME_READ media => let? (m, b) := mpf_buffer_frame_read media b in Some ([m], b)
  end.

(** What the operation makes of the stream: the octets written are appended, a frame read takes the
    first ones. *)
Definition stream_spec (o : op) (l : octets) : list mpf_codec_frame_t * octets :=
  match o with
  | AUDIO_WRITE data n => ([], l ++ take n data)
  | EVENT_WRITE _ => ([], l)
  | FRAME_READ media =>
      let n := cf_size (codec_frame media) in
      ([mk_codec_frame (padded n l (cf_buffer (codec_frame media))) n], drop n l)
  end.

Definition op_ok (o : op) : Prop :=
  match o with
  | AUDIO_WRITE data n => (n <= length data)%nat
  | EVENT_WRITE _ => True
  | FRAME_READ media => (cf_size (codec_frame media) <= length (cf_buffer (codec_frame media)))%nat
  end.

Fixpoint run (ops : list op) (b : mpf_buffer_t) : option (list mpf_frame_t * mpf_buffer_t) :=
  match ops with
  | [] => Some ([], b)
  | o :: ops => let? (r, b) := exec o b in let? (rs, b) := run ops b in Some (r ++ rs, b)
  end.

Fixpoint stream_run (ops : list op) (l : octets) : list mpf_codec_frame_t * octets :=
  match ops with
  | [] => ([], l)
  | o :: ops => let '(r, l) := stream_spec o l in let '(rs, l) := stream_run ops l in (r ++ rs, l)
  end.

Lemma chunk_write_ok c b : buffer_wf b -> chunk_wf c ->
  let b' := (snd (mpf_buffer_chunk_write c b)) <| size := u64 (size b + Z.of_nat (cf_size (codec_frame c))) |> in
  buffer_wf b' /\ pending b' = pending b ++ cf_buffer (codec_frame c).
Proof.
  intros [W1 W2 W3] Hc b'. unfold chunk_wf in Hc.
  assert (Hp : pending b' = pending b ++ cf_buffer (codec_frame c)).
  { unfold b', pending, current_octets. cbn. rewrite flat_map_app. cbn. by rewrite app_nil_r, app_assoc. }
  split; [|done]. split; [|done|].
  - unfold b'. cbn. apply Forall_app. split; [done|]. by constructor.
  - rewrite Hp, length_app. unfold b'. cbn. rewrite W3, Hc. unfold u64. rewrite Zplus_mod_idemp_l. f_equal. lia.
Qed.

Lemma exec_refines o b : buffer_wf b -> op_ok o ->
  exists r b', exec o b = Some (r, b') /\ map codec_frame r = fst (stream_spec o (pending b)) /\
    buffer_wf b' /\ pending b' = snd (stream_spec o (pending b)).
Proof.
  intros Hb Hok. destruct o as [data n|ty|media]; cbn [exec op_ok stream_spec fst snd] in *.
  - unfold mpf_buffer_audio_write. unfold mem_read. cbn [Nat.add]. rewrite (proj2 (Nat.leb_le _ _) Hok), drop_0.
    set (c := mk_frame _ _ (mk_codec_frame (take n data) n) _).
    assert (Hc : chunk_wf c) by (unfold chunk_wf, c; cbn; rewrite length_take; lia).
    destruct (chunk_write_ok c b Hb Hc) as [Hw Hp]. eexists _, _. split; [reflexivity|]. split; [done|]. by split.
  - set (c := mk_frame ty MPF_MARKER_NONE (mk_codec_frame [] 0) event_zero).
    destruct (chunk_write_ok c b Hb eq_refl) as [Hw Hp]. exists [], (snd (mpf_buffer_event_write ty b)).
    assert (Es : (snd (mpf_buffer_chunk_write c b)) <| size := u64 (size b + Z.of_nat (cf_size (codec_frame c))) |>
      = snd (mpf_buffer_event_write ty b)).
    { unfold c, mpf_buffer_event_write, mpf_buffer_chunk_write, field_set. cbn. f_equal.
      rewrite Z.add_0_r, (bw_size b Hb). unfold u64. by rewrite Zmod_mod. }
    rewrite Es in Hw, Hp. split; [done|]. split; [done|]. split; [done|]. rewrite Hp. by rewrite app_nil_r.
  - destruct (frame_read_ok media b Hb Hok) as (b' & E & Hb' & Hp). rewrite E. eexists _, b'. split; [reflexivity|]. by split.
Qed.

Lemma run_refines ops : forall b, buffer_wf b -> Forall op_ok ops ->
  exists rs b', run ops b = Some (rs, b') /\ map codec_frame rs = fst (stream_run ops (pending b)) /\
    buffer_wf b' /\ pending b' = snd (stream_run ops (pending b)).
Proof.
  induction ops as [|o ops IH]; intros b Hb Hok; [by exists [], b|]. apply Forall_cons_iff in Hok as [Ho Hok].
  destruct (exec_refines o b Hb Ho) as (r & b1 & E1 & Er & Hb1 & Hp1).
  destruct (IH b1 Hb1 Hok) as (rs & b2 & E2 & Ers & Hb2 & Hp2). cbn [run stream_run]. rewrite E1, E2. exists (r ++ rs), b2.
  rewrite Hp1 in Ers, Hp2. destruct (stream_spec o (pending b)) as [x l]. cbn [fst snd] in *.
  destruct (stream_run ops l) as [xs l']. cbn [fst snd] in *. split; [done|]. by rewrite map_app, Er, Ers.
Qed.

End MediaBuffer.

(** * Properties *)

(** C20: the frame buffer is a bounded queue: any sequence of operations that offers it less than 2^64 frames
    in all, so that its positions do not wrap, is defined and answers as the queue of the octets of the
    frames does, when the frames written have the octets they announce and those read to have room for a frame.  A frame
    written fills as many places as are free and it has octets for, and the write tells whether all of it was taken. *)
Theorem frame_buffer_refines (fresh_octets : nat -> octets) (fresh_size count size : nat) (ev : mpf_named_event_frame_t)
    (ops : list FrameBuffer.fb_op) :
  (forall n, length (fresh_octets n) = n) -> (0 < count)%nat -> (0 < size)%nat -> Forall (FrameBuffer.fb_op_ok size) ops ->
  Z.of_nat (FrameBuffer.fb_offered size ops) < 2 ^ 64 ->
  exists b, FrameBuffer.fb_run ops (FrameBuffer.mpf_frame_buffer_create fresh_octets ev fresh_size size count)
      = Some (fst (FrameBuffer.fb_spec_run count size ev ops []), b) /\
    FrameBuffer.stores count size ev b (snd (FrameBuffer.fb_spec_run count size ev ops [])).
Proof.
  intros Hf Hc Hs Hops Hlim. apply FrameBuffer.fb_run_refines; try done. by apply FrameBuffer.create_stored.
Qed.

Definition sample_frame (type : Z) (data : octets) : mpf_frame_t :=
  mk_frame type MPF_MARKER_NONE (mk_codec_frame data (length data)) event_zero.

Lemma frame_buffer_refines_witness :
  exists b, FrameBuffer.fb_run [FrameBuffer.WRITE (sample_frame 1 [1; 2; 3; 4; 5; 6]); FrameBuffer.READ (sample_frame 0 [0; 0])]
      (FrameBuffer.mpf_frame_buffer_create (repeat 7) event_zero 0 2 2)
      = Some ([inl false; inr (sample_frame 1 [1; 2])], b) /\
    FrameBuffer.stores 2 2 event_zero b [(1, [3; 4])].
Proof.
  apply (frame_buffer_refines (repeat 7) 0 2 2 event_zero [FrameBuffer.WRITE (sample_frame 1 [1; 2; 3; 4; 5; 6]);
    FrameBuffer.READ (sample_frame 0 [0; 0])]); [intros n; apply repeat_length|lia|lia| |reflexivity].
  repeat constructor; cbn; lia.
Defined.

(** C19: the media buffer is a stream of octets: however they are cut into chunks and whatever events are
    between, frames that are read hold them in order, silence when there are no more, and the size
    is the number of octets that wait. *)
Theorem media_buffer_streams (ops : list MediaBuffer.op) :
  Forall MediaBuffer.op_ok ops ->
  exists rs b, MediaBuffer.run ops MediaBuffer.mpf_buffer_create = Some (rs, b) /\
    map codec_frame rs = fst (MediaBuffer.stream_run ops []) /\
    MediaBuffer.pending b = snd (MediaBuffer.stream_run ops []) /\
    MediaBuffer.mpf_buffer_get_size b = u64 (Z.of_nat (length (MediaBuffer.pending b))).
Proof.
  intros Hops. destruct (MediaBuffer.run_refines ops MediaBuffer.mpf_buffer_create) as (rs & b & E & Hr & Hb & Hp); [|done|].
  - by split.
  - exists rs, b. split; [done|]. split; [done|]. split; [done|]. apply Hb.
Qed.

Lemma media_buffer_streams_witness :
  exists rs b, MediaBuffer.run [MediaBuffer.AUDIO_WRITE [1; 2; 3] 3; MediaBuffer.EVENT_WRITE 4; MediaBuffer.AUDIO_WRITE [4; 5] 2;
      MediaBuffer.FRAME_READ (sample_frame 0 [0; 0; 0; 0])] MediaBuffer.mpf_buffer_create = Some (rs, b) /\
    map codec_frame rs = [mk_codec_frame [1; 2; 3; 4] 4] /\ MediaBuffer.pending b = [5].
Proof.
  destruct (media_buffer_streams [MediaBuffer.AUDIO_WRITE [1; 2; 3] 3; MediaBuffer.EVENT_WRITE 4; MediaBuffer.AUDIO_WRITE [4; 5] 2;
    MediaBuffer.FRAME_READ (sample_frame 0 [0; 0; 0; 0])]) as (rs & b & E & Hr & Hp & _); [repeat constructor; cbn; lia|].
  exists rs, b. split; [exact E|]. split; [exact Hr|exact Hp].
Defined.

(** A restart forgets the chunks that wait but neither the rest of the current one nor the size:
    what is left of it is still read, and the size counts octets that are gone. *)
Theorem media_buffer_restart_keeps (b : MediaBuffer.mpf_buffer_t) :
  let b' := snd (MediaBuffer.mpf_buffer_restart b) in
  MediaBuffer.pending b' = MediaBuffer.current_octets b /\
  MediaBuffer.mpf_buffer_get_size b' = MediaBuffer.mpf_buffer_get_size b.
Proof. unfold MediaBuffer.pending. cbn. by rewrite app_nil_r. Qed.
