(* ===== verification/ActivityDetector.v ===== *)
(** The detector of voice activity ([mpf/src/mpf_activity_detector.c]): a state machine driven by the
    level of the frames that pass, and what it detects in a history of frames. *)

From S2P Require Import Prelude AptString CodecDescriptor G711 Codec.

(** * The code *)

Inductive mpf_detector_event_e :=
  MPF_DETECTOR_EVENT_NONE | MPF_DETECTOR_EVENT_ACTIVITY | MPF_DETECTOR_EVENT_INACTIVITY | MPF_DETECTOR_EVENT_NOINPUT.
#[global] Instance detector_event_eq_dec : EqDecision mpf_detector_event_e.
Proof. solve_decision. Defined.

Inductive mpf_detector_state_e :=
  DETECTOR_STATE_INACTIVITY | DETECTOR_STATE_ACTIVITY_TRANSITION | DETECTOR_STATE_ACTIVITY | DETECTOR_STATE_INACTIVITY_TRANSITION.

Record mpf_activity_detector_t := mk_detector {
  level_threshold : Z;
  speech_timeout : Z;
  silence_timeout : Z;
  noinput_timeout : Z;
  state : mpf_detector_state_e;
  duration : Z
}.
#[global] Instance eta_detector : Eta mpf_activity_detector_t := fun d =>
  mk_detector (level_threshold d) (speech_timeout d) (silence_timeout d) (noinput_timeout d) (state d) (duration d).

Definition mpf_activity_detector_create : mpf_activity_detector_t :=
  mk_detector 2 300 300 5000 DETECTOR_STATE_INACTIVITY 0.
Definition mpf_activity_detector_reset (d : mpf_activity_detector_t) : mpf_activity_detector_t :=
  d <| duration := 0 |> <| state := DETECTOR_STATE_INACTIVITY |>.
Definition mpf_activity_detector_level_set (level : Z) (d : mpf_activity_detector_t) : mpf_activity_detector_t :=
  d <| level_threshold := level |>.
Definition mpf_activity_detector_noinput_timeout_set (t : Z) (d : mpf_activity_detector_t) : mpf_activity_detector_t :=
  d <| noinput_timeout := t |>.
Definition mpf_activity_detector_speech_timeout_set (t : Z) (d : mpf_activity_detector_t) : mpf_activity_detector_t :=
  d <| speech_timeout := t |>.
Definition mpf_activity_detector_silence_timeout_set (t : Z) (d : mpf_activity_detector_t) : mpf_activity_detector_t :=
  d <| silence_timeout := t |>.

Definition mpf_activity_detector_state_change (st : mpf_detector_state_e) (d : mpf_activity_detector_t) : mpf_activity_detector_t :=
  d <| duration := 0 |> <| state := st |>.

(** The mean magnitude of the samples; a frame without samples divides by zero. *)
Definition mpf_activity_detector_level_calculate (frame : mpf_frame_t) : option Z :=
  let count := (cf_size (codec_frame frame) / 2)%nat in
  let? sum := for_loop count (fun i sum =>
    let? cur := sample_load (cf_buffer (codec_frame frame)) i in
    Some (if cur <? 0 then u64 (sum - cur) else u64 (sum + cur))) 0 0 in
  if (count =? 0)%nat then None else Some (sum / Z.of_nat count).

Definition mpf_activity_detector_process (d : mpf_activity_detector_t) (frame : mpf_frame_t)
    : option (mpf_detector_event_e * mpf_activity_detector_t) :=
  let? level := if Z.land (fr_type frame) MEDIA_FRAME_TYPE_AUDIO =? MEDIA_FRAME_TYPE_AUDIO
                then mpf_activity_detector_level_calculate frame else Some 0 in
  let active := level_threshold d <=? level in
  let longer := d <| duration := u64 (duration d + CODEC_FRAME_TIME_BASE) |> in
  Some
    match state d with
    | DETECTOR_STATE_INACTIVITY =>
        if active then (MPF_DETECTOR_EVENT_NONE, mpf_activity_detector_state_change DETECTOR_STATE_ACTIVITY_TRANSITION d)
        else ((if noinput_timeout d <=? duration longer then MPF_DETECTOR_EVENT_NOINPUT else MPF_DETECTOR_EVENT_NONE), longer)
    | DETECTOR_STATE_ACTIVITY_TRANSITION =>
        if active then
          if speech_timeout d <=? duration longer
          then (MPF_DETECTOR_EVENT_ACTIVITY, mpf_activity_detector_state_change DETECTOR_STATE_ACTIVITY longer)
          else (MPF_DETECTOR_EVENT_NONE, longer)
        else (MPF_DETECTOR_EVENT_NONE, mpf_activity_detector_state_change DETECTOR_STATE_INACTIVITY d)
    | DETECTOR_STATE_ACTIVITY =>
        if active then (MPF_DETECTOR_EVENT_NONE, longer)
        else (MPF_DETECTOR_EVENT_NONE, mpf_activity_detector_state_change DETECTOR_STATE_INACTIVITY_TRANSITION d)
    | DETECTOR_STATE_INACTIVITY_TRANSITION =>
        if active then (MPF_DETECTOR_EVENT_NONE, mpf_activity_detector_state_change DETECTOR_STATE_ACTIVITY d)
        else if silence_timeout d <=? duration longer
        then (MPF_DETECTOR_EVENT_INACTIVITY, mpf_activity_detector_state_change DETECTOR_STATE_INACTIVITY longer)
        else (MPF_DETECTOR_EVENT_NONE, longer)
    end.

(** * The level *)

Definition magnitude (vs : list Z) : Z := foldr (fun v n => Z.abs v + n) 0 vs.

Lemma magnitude_bound vs : Forall is_sample vs -> 0 <= magnitude vs <= 2 ^ 15 * Z.of_nat (length vs).
Proof.
  induction 1 as [|v vs Hv _ IH]; [done|]. unfold is_sample in Hv. cbn [magnitude foldr length] in *. fold (magnitude vs). lia.
Qed.

Lemma level_loop vs rest : forall n i acc, Forall is_sample vs -> (i + n <= length vs)%nat ->
  0 <= acc -> acc + 2 ^ 15 * Z.of_nat n < 2 ^ 64 ->
  for_loop n (fun i sum => let? cur := sample_load (flat_map sample_octets vs ++ rest) i in
    Some (if cur <? 0 then u64 (sum - cur) else u64 (sum + cur))) i acc = Some (acc + magnitude (take n (drop i vs))).
Proof.
  induction n as [|n IH]; intros i acc Hvs Hi Hacc Hmax; cbn [for_loop].
  - rewrite take_0. cbn. f_equal. lia.
  - destruct (lookup_lt_is_Some_2 vs i ltac:(lia)) as [v Hv]. rewrite (sample_load_at _ _ _ _ Hvs Hv).
    assert (Hs : is_sample v) by (eapply Forall_lookup_1; eauto). unfold is_sample in Hs.
    replace (if v <? 0 then u64 (acc - v) else u64 (acc + v)) with (acc + Z.abs v).
    + rewrite IH by (done || lia). rewrite (drop_S vs v i Hv). cbn [take magnitude foldr]. f_equal. unfold magnitude. lia.
    + unfold u64. destruct (Z.ltb_spec v 0); rewrite Z.mod_small by lia; lia.
Qed.

(** The level of a frame of samples is their mean magnitude, which no sum overflows. *)
Lemma level_of_samples vs rest type marker ev : Forall is_sample vs -> vs <> [] -> Z.of_nat (length vs) < 2 ^ 48 ->
  mpf_activity_detector_level_calculate (mk_frame type marker (linear_frame vs rest) ev)
  = Some (magnitude vs / Z.of_nat (length vs)).
Proof.
  intros Hvs Hne Hlen. unfold mpf_activity_detector_level_calculate, linear_frame. cbn [codec_frame cf_size cf_buffer].
  rewrite half_size, level_loop by (done || lia). rewrite drop_0, firstn_all, Z.add_0_l.
  destruct (Nat.eqb_spec (length vs) 0) as [E|_]; [by destruct vs|done].
Qed.

(** * What is detected in a history of frames *)

(** The newest frame comes first: is it active?  The length of the run of such frames. *)
Fixpoint newest_run (b : bool) (h : list bool) : nat :=
  match h with
  | [] => 0
  | x :: h => if Bool.eqb x b then S (newest_run b h) else 0
  end.

(** A run is detected when the time after its first frame reaches the timeout. *)
Definition detects (timeout : Z) (run : nat) : bool := (2 <=? run)%nat && (timeout <=? CODEC_FRAME_TIME_BASE * (Z.of_nat run - 1)).

(** Speech starts with a run of active frames and ends with a run of inactive ones. *)
Fixpoint speaking (speech silence : Z) (h : list bool) : bool :=
  match h with
  | [] => false
  | _ :: h' => if speaking speech silence h' then negb (detects silence (newest_run false h)) else detects speech (newest_run true h)
  end.

(** The event of the newest frame, up to [NOINPUT], which is raised in silence only. *)
Definition detected (speech silence : Z) (h : list bool) (e : mpf_detector_event_e) (noinput : Z) : Prop :=
  match speaking speech silence (tail h), speaking speech silence h with
  | false, true => e = MPF_DETECTOR_EVENT_ACTIVITY
  | true, false => e = MPF_DETECTOR_EVENT_INACTIVITY
  | true, true => e = MPF_DETECTOR_EVENT_NONE
  | false, false => e = MPF_DETECTOR_EVENT_NONE \/
      e = MPF_DETECTOR_EVENT_NOINPUT /\ noinput <= CODEC_FRAME_TIME_BASE * Z.of_nat (newest_run false h)
  end.

(** Is the frame active for the detector? *)
Definition frame_active (d : mpf_activity_detector_t) (frame : mpf_frame_t) : option bool :=
  let? level := if Z.land (fr_type frame) MEDIA_FRAME_TYPE_AUDIO =? MEDIA_FRAME_TYPE_AUDIO
                then mpf_activity_detector_level_calculate frame else Some 0 in
  Some (level_threshold d <=? level).

Section History.
Context (speech silence noinput : Z).

(** The detector after history [h]. *)
Record follows (h : list bool) (d : mpf_activity_detector_t) : Prop := {
  fo_speech : speech_timeout d = speech;
  fo_silence : silence_timeout d = silence;
  fo_noinput : noinput_timeout d = noinput;
  fo_state :
    match state d with
    | DETECTOR_STATE_INACTIVITY => speaking speech silence h = false /\ newest_run true h = 0%nat /\
        0 <= duration d <= CODEC_FRAME_TIME_BASE * Z.of_nat (newest_run false h)
    | DETECTOR_STATE_ACTIVITY_TRANSITION => speaking speech silence h = false /\ (0 < newest_run true h)%nat /\
        duration d = CODEC_FRAME_TIME_BASE * (Z.of_nat (newest_run true h) - 1)
    | DETECTOR_STATE_ACTIVITY => speaking speech silence h = true /\ newest_run false h = 0%nat
    | DETECTOR_STATE_INACTIVITY_TRANSITION => speaking speech silence h = true /\ (0 < newest_run false h)%nat /\
        duration d = CODEC_FRAME_TIME_BASE * (Z.of_nat (newest_run false h) - 1)
    end
}.

Lemma newest_run_length b h : (newest_run b h <= length h)%nat.
Proof. induction h as [|x h IH]; [done|]. cbn. destruct (Bool.eqb x b); lia. Qed.

(** The detector follows the history with the next frame. *)
Ltac follow S1 S2 :=
  split; [done..|]; cbn -[Z.mul Z.of_nat Nat.leb]; rewrite ?S1, ?S2; unfold detects, CODEC_FRAME_TIME_BASE;
  rewrite ?(proj2 (Nat.leb_le 2 _)) by lia; cbn [andb];
  try match goal with H : state _ = _ |- _ => rewrite H end; repeat split;
  first [done | lia | by apply Z.leb_le | by apply Z.leb_gt | by apply negb_false_iff, Z.leb_le | by apply negb_true_iff, Z.leb_gt].

Lemma process_follows h d frame a : follows h d -> CODEC_FRAME_TIME_BASE * (Z.of_nat (length h) + 1) < 2 ^ 64 ->
  frame_active d frame = Some a ->
  exists e d', mpf_activity_detector_process d frame = Some (e, d') /\ follows (a :: h) d' /\
    detected speech silence (a :: h) e noinput /\ level_threshold d' = level_threshold d.
Proof.
  intros [F1 F2 F3 F4] Hlen Ha. unfold frame_active in Ha. unfold mpf_activity_detector_process.
  pose proof (newest_run_length true h) as L1. pose proof (newest_run_length false h) as L2.
  destruct (if _ =? _ then _ else _) as [level|]; [|done]. injection Ha as <-. unfold CODEC_FRAME_TIME_BASE in *.
  assert (Hu : forall n, (n <= length h)%nat -> u64 (10 * Z.of_nat n + 10) = 10 * Z.of_nat n + 10)
    by (intros n Hn; unfold u64; apply Z.mod_small; lia).
  assert (Hd : forall r, (0 < r <= length h)%nat -> u64 (10 * (Z.of_nat r - 1) + 10) = 10 * (Z.of_nat (S r) - 1)).
  { intros r Hr. unfold u64. rewrite Z.mod_small by lia. lia. }
  unfold detected. cbn [tail speaking].
  destruct (state d) eqn:Es; destruct (level_threshold d <=? level); cbn [newest_run Bool.eqb].
  - destruct F4 as (S1 & S2 & S3). eexists _, _. split; [reflexivity|]. rewrite S1, S2. split; [|split; [by left|done]].
    follow S1 S2.
  - destruct F4 as (S1 & S2 & S3). eexists _, _. split; [reflexivity|]. rewrite S1. unfold field_set; cbn [duration].
    assert (Hn : u64 (duration d + 10) = duration d + 10) by (unfold u64; apply Z.mod_small; lia). rewrite Hn.
    split; [|split; [|done]].
    + split; try done. cbn. rewrite S1, Es. unfold CODEC_FRAME_TIME_BASE. cbn -[Z.mul Z.of_nat]. lia.
    + cbn -[Z.mul Z.of_nat]. destruct (Z.leb_spec (noinput_timeout d) (duration d + 10)); [right|by left].
      split; [done|]. unfold CODEC_FRAME_TIME_BASE. lia.
  - destruct F4 as (S1 & S2 & S3). rewrite S1. unfold field_set. cbn [duration]. rewrite S3, Hd by lia.
    unfold detects, CODEC_FRAME_TIME_BASE. rewrite (proj2 (Nat.leb_le 2 _)) by lia. cbn [andb]. rewrite F1.
    destruct (Z.leb_spec speech (10 * (Z.of_nat (S (newest_run true h)) - 1))) as [Hs|Hs]; eexists _, _; (split; [reflexivity|]).
    + split; [|split; [done|done]]. follow S1 S2.
    + split; [|split; [by left|done]]. follow S1 S2.
  - destruct F4 as (S1 & S2 & S3). rewrite S1. eexists _, _. split; [reflexivity|].
    split; [|split; [by left|done]]. follow S1 S2.
  - destruct F4 as (S1 & S2). rewrite S1. eexists _, _. split; [reflexivity|]. split; [|split; [done|done]].
    split; try done. cbn. by rewrite S1, Es.
  - destruct F4 as (S1 & S2). rewrite S1, S2. eexists _, _. split; [reflexivity|]. split; [|split; [done|done]].
    follow S1 S2.
  - destruct F4 as (S1 & S2 & S3). rewrite S1. eexists _, _. split; [reflexivity|]. split; [|split; [done|done]].
    follow S1 S2.
  - destruct F4 as (S1 & S2 & S3). rewrite S1. unfold field_set. cbn [duration]. rewrite S3, Hd by lia.
    unfold detects, CODEC_FRAME_TIME_BASE. rewrite (proj2 (Nat.leb_le 2 _)) by lia. cbn [andb]. rewrite F2.
    destruct (Z.leb_spec silence (10 * (Z.of_nat (S (newest_run false h)) - 1))) as [Hs|Hs]; eexists _, _; (split; [reflexivity|]).
    + split; [|split; [done|done]]. follow S1 S2.
    + split; [|split; [done|done]]. follow S1 S2.
Qed.
End History.

Fixpoint detector_run (frames : list mpf_frame_t) (d : mpf_activity_detector_t)
    : option (list mpf_detector_event_e * mpf_activity_detector_t) :=
  match frames with
  | [] => Some ([], d)
  | f :: frames =>
      let? (e, d) := mpf_activity_detector_process d f in
      let? (es, d) := detector_run frames d in Some (e :: es, d)
  end.

Lemma run_follows speech silence noinput frames : forall l h d,
  follows speech silence noinput h d -> Forall2 (fun f a => frame_active d f = Some a) frames l ->
  CODEC_FRAME_TIME_BASE * (Z.of_nat (length h + length l) + 1) < 2 ^ 64 ->
  exists es d', detector_run frames d = Some (es, d') /\ length es = length l /\
    forall i e, es !! i = Some e -> detected speech silence (rev (take (S i) l) ++ h) e noinput.
Proof.
  induction frames as [|f frames IH]; intros l h d Hd Hl Hlen; inversion Hl as [|? a ? l' Ha Hl']; subst.
  - by exists [], d.
  - cbn [length] in Hlen. unfold CODEC_FRAME_TIME_BASE in *.
    destruct (process_follows speech silence noinput h d f a Hd) as (e & d1 & E & Hd1 & He & Ht);
      [unfold CODEC_FRAME_TIME_BASE; lia|done|].
    assert (Hsame : Forall2 (fun f a => frame_active d1 f = Some a) frames l').
    { eapply Forall2_impl; [|exact Hl']. intros x y. unfold frame_active. by rewrite Ht. }
    destruct (IH l' (a :: h) d1 Hd1 Hsame) as (es & d2 & E2 & Hes & Hall); [cbn [length]; lia|].
    cbn [detector_run]. rewrite E, E2. exists (e :: es), d2. split; [done|]. split; [cbn; lia|].
    intros [|i] x Hx.
    + injection Hx as <-. done.
    + cbn [take rev]. rewrite <-app_assoc. by apply Hall.
Qed.

(** * Properties *)

(** C21: the detector of voice activity reports speech and its end when it should: after any frames since
    it was set up, as many as the 64 bits of its durations count, each of at least one sample and with its octets in memory if it
    holds audio (on an audio frame of less than two octets the code divides by zero),
    [ACTIVITY] is reported exactly at the frame that completes a run of active frames while there is silence,
    [INACTIVITY] exactly at the frame that completes a run of inactive ones during speech, and [NOINPUT] only during
    silence that has lasted for its timeout.  A run is complete when it has two frames at least and those after its first one
    take as long as the speech timeout, or the silence timeout: the first frame of a run is not counted. *)
Theorem activity_detector_correct (threshold speech silence noinput : Z) (frames : list mpf_frame_t) (l : list bool) :
  let d := mpf_activity_detector_level_set threshold (mpf_activity_detector_speech_timeout_set speech
    (mpf_activity_detector_silence_timeout_set silence (mpf_activity_detector_noinput_timeout_set noinput
      (mpf_activity_detector_reset mpf_activity_detector_create)))) in
  Forall2 (fun f a => frame_active d f = Some a) frames l ->
  CODEC_FRAME_TIME_BASE * (Z.of_nat (length l) + 1) < 2 ^ 64 ->
  exists es d', detector_run frames d = Some (es, d') /\ length es = length l /\
    forall i e, es !! i = Some e -> detected speech silence (rev (take (S i) l)) e noinput.
Proof.
  intros d Hl Hlen. destruct (run_follows speech silence noinput frames l [] d) as (es & d' & E & Hes & Hall);
    [split; try done; cbn; unfold CODEC_FRAME_TIME_BASE; lia|done|done|].
  exists es, d'. split; [done|]. split; [done|]. intros i e Hi. specialize (Hall i e Hi). by rewrite app_nil_r in Hall.
Qed.

(** Three loud frames after a quiet one, with a speech timeout of 20 ms. *)
Definition loud_frame : mpf_frame_t := mk_frame MEDIA_FRAME_TYPE_AUDIO MPF_MARKER_NONE (linear_frame [100; -100] []) (mk_named_event 0 0 0 0 0).
Definition quiet_frame : mpf_frame_t := loud_frame <| codec_frame := linear_frame [0; 1] [] |>.

Lemma activity_detector_correct_witness :
  exists es d', detector_run [quiet_frame; loud_frame; loud_frame; loud_frame]
    (mpf_activity_detector_level_set 2 (mpf_activity_detector_speech_timeout_set 20
      (mpf_activity_detector_silence_timeout_set 300 (mpf_activity_detector_noinput_timeout_set 5000
        (mpf_activity_detector_reset mpf_activity_detector_create))))) = Some (es, d') /\
    es !! 3%nat = Some MPF_DETECTOR_EVENT_ACTIVITY.
Proof.
  destruct (activity_detector_correct 2 20 300 5000 [quiet_frame; loud_frame; loud_frame; loud_frame] [false; true; true; true])
    as (es & d' & E & Hlen & Hall); [repeat constructor|vm_compute; reflexivity|].
  exists es, d'. split; [exact E|]. destruct es as [|e0 [|e1 [|e2 [|e3 [|? ?]]]]]; try discriminate Hlen.
  specialize (Hall 3%nat e3 eq_refl). cbn in Hall. by rewrite Hall.
Defined.
