(* ===== verification/JitterBuffer.v ===== *)
(** The jitter buffer ([mpf/src/mpf_jitter_buffer.c]): a ring of frames written by the time stamps of
    the packets that arrive and read frame by frame.  Time stamps are unsigned 32-bit numbers, the
    statistics signed ones; a conversion keeps the bits. *)

From S2P Require Import Prelude AptString CodecDescriptor G711 Codec MediaBuffer.

(** * The code *)

Inductive jb_result_t := JB_OK | JB_DISCARD_NOT_ALLIGNED | JB_DISCARD_TOO_LATE | JB_DISCARD_TOO_EARLY.

Record mpf_jb_config_t := mk_jb_config {
  min_playout_delay : Z;
  initial_playout_delay : Z;
  max_playout_delay : Z;
  adaptive : bool;
  time_skew_detection : bool
}.
#[global] Instance eta_jb_config : Eta mpf_jb_config_t := fun c =>
  mk_jb_config (min_playout_delay c) (initial_playout_delay c) (max_playout_delay c) (adaptive c) (time_skew_detection c).

Definition mpf_jb_config_init : mpf_jb_config_t := mk_jb_config 0 0 0 false true.

(** What the last update of an event is: the base event or the event of a frame. *)
Inductive event_ref := EVENT_BASE | EVENT_FRAME (i : nat).

Record mpf_jitter_buffer_t := mk_jitter_buffer {
  config : mpf_jb_config_t;
  codec : mpf_codec_t;
  frames : list mpf_frame_t;
  frame_count : nat;
  frame_ts : Z;
  frame_size : nat;
  playout_delay_ts : Z;
  max_playout_delay_ts : Z;
  write_sync : bool;
  write_ts_offset : Z;
  write_ts : Z;
  read_ts : Z;
  min_length_ts : Z;
  max_length_ts : Z;
  measurment_count : Z;
  event_write_base_ts : Z;
  event_write_base : mpf_named_event_frame_t;
  event_write_update : option event_ref
}.
#[global] Instance eta_jitter_buffer : Eta mpf_jitter_buffer_t := fun jb =>
  mk_jitter_buffer (config jb) (codec jb) (frames jb) (frame_count jb) (frame_ts jb) (frame_size jb)
    (playout_delay_ts jb) (max_playout_delay_ts jb) (write_sync jb) (write_ts_offset jb) (write_ts jb) (read_ts jb)
    (min_length_ts jb) (max_length_ts jb) (measurment_count jb) (event_write_base_ts jb) (event_write_base jb)
    (event_write_update jb).
Abbreviation act := (prog mpf_jitter_buffer_t).

Section Create.
(** What fresh memory holds. *)
Context (fresh_octets : nat -> octets) (fresh_event : mpf_named_event_frame_t) (fresh_size : nat).

Definition mpf_jitter_buffer_create (jb_config : option mpf_jb_config_t) (descriptor : mpf_codec_descriptor_t)
    (cdc : mpf_codec_t) : option mpf_jitter_buffer_t :=
  let c := match jb_config with Some c => c | None => mpf_jb_config_init end in
  let c := if initial_playout_delay c <? min_playout_delay c
           then c <| min_playout_delay := initial_playout_delay c |> else c in
  let c := if max_playout_delay c <? initial_playout_delay c
           then c <| max_playout_delay := u32 (2 * initial_playout_delay c) |> else c in
  let c := if max_playout_delay c =? 0 then c <| max_playout_delay := 600 |> else c in
  let fts := u32 (mpf_codec_frame_samples_calculate descriptor) in
  let? fsize := mpf_codec_frame_size_calculate descriptor (attribs cdc) in
  let fcount := Z.to_nat (max_playout_delay c / CODEC_FRAME_TIME_BASE) in
  let c := if negb (initial_playout_delay c mod CODEC_FRAME_TIME_BASE =? 0)
           then c <| initial_playout_delay := u32 (initial_playout_delay c +
                  (CODEC_FRAME_TIME_BASE - initial_playout_delay c mod CODEC_FRAME_TIME_BASE)) |> else c in
  Some (mk_jitter_buffer c cdc
    (replicate fcount (mk_frame MEDIA_FRAME_TYPE_NONE MPF_MARKER_NONE
                         (mk_codec_frame (fresh_octets (Z.to_nat fsize)) fresh_size) fresh_event))
    fcount fts (Z.to_nat fsize)
    (u32 (fts * initial_playout_delay c) / CODEC_FRAME_TIME_BASE)
    (u32 (fts * max_playout_delay c) / CODEC_FRAME_TIME_BASE)
    true 0 0 0 0 0 0 0 event_zero None).
End Create.

Definition mpf_jitter_buffer_restart (jb : mpf_jitter_buffer_t) : bool * mpf_jitter_buffer_t :=
  let jb := jb <| write_sync := true |> <| write_ts_offset := 0 |> <| write_ts := read_ts jb |>
              <| event_write_base_ts := 0 |> <| event_write_base := event_zero |> <| event_write_update := None |> in
  let jb := if adaptive (config jb) && (playout_delay_ts jb =? max_playout_delay_ts jb)
            then jb <| playout_delay_ts := u32 (frame_ts jb * initial_playout_delay (config jb)) / CODEC_FRAME_TIME_BASE |>
            else jb in
  (true, jb).

(** The index of the frame of a time stamp; a division by zero is undefined. *)
Definition mpf_jitter_buffer_frame_get (jb : mpf_jitter_buffer_t) (ts : Z) : option nat :=
  if (frame_ts jb =? 0) || (frame_count jb =? 0)%nat then None
  else Some (Z.to_nat ((ts / frame_ts jb) mod Z.of_nat (frame_count jb))).

Definition mpf_jitter_buffer_stat_update (jb : mpf_jitter_buffer_t) : mpf_jitter_buffer_t :=
  let jb := if measurment_count jb =? 50 then
              let mean := s32 (min_length_ts jb + Z.quot (s32 (max_length_ts jb - min_length_ts jb)) 2) in
              jb <| min_length_ts := mean |> <| max_length_ts := mean |> <| measurment_count := 0 |>
            else jb in
  let length_ts := s32 (write_ts jb - read_ts jb) in
  let jb := if max_length_ts jb <? length_ts then jb <| max_length_ts := length_ts |>
            else if length_ts <? min_length_ts jb then jb <| min_length_ts := length_ts |>
            else jb in
  jb <| measurment_count := u32 (measurment_count jb + 1) |>.

Definition mpf_jitter_buffer_frame_allign (jb : mpf_jitter_buffer_t) (ts : Z) : Z :=
  if negb (ts mod frame_ts jb =? 0) then ts - ts mod frame_ts jb else ts.

(** The position a time stamp is written at. *)
Definition write_position (jb : mpf_jitter_buffer_t) (ts : Z) : Z :=
  u32 (ts - write_ts_offset jb + playout_delay_ts jb).

Definition mpf_jitter_buffer_write_prepare (ts : Z) : act Z :=
  modify (fun jb =>
    if write_sync jb then
      let jb := jb <| write_ts_offset := s32 (ts - read_ts jb) |> <| write_sync := false |> in
      if time_skew_detection (config jb)
      then jb <| min_length_ts := s32 (playout_delay_ts jb) |> <| max_length_ts := s32 (playout_delay_ts jb) |>
              <| measurment_count := 0 |>
      else jb
    else jb) ;;;
  let* jb := gets (fun jb => jb) in
  if frame_ts jb =? 0 then crash
  else
    let wts := write_position jb ts in
    ret (if negb (wts mod frame_ts jb =? 0) then wts - wts mod frame_ts jb else wts).

(** A packet that is late by [delta_ts]: the adjustment that is needed by the statistics, and the
    position it is written at. *)
Definition skew_adjust (ts wts delta_ts : Z) : act (Z * Z) :=
  let* jb := gets (fun jb => jb) in
  if time_skew_detection (config jb) then
    let spread := u32 (max_length_ts jb - min_length_ts jb) in
    let delta_ts := if u32 (playout_delay_ts jb + delta_ts) <? spread
                    then mpf_jitter_buffer_frame_allign jb (u32 (spread - playout_delay_ts jb)) else delta_ts in
    if (0 <? max_length_ts jb) && (u32 (max_length_ts jb) <? playout_delay_ts jb) then
      let skew_ts := mpf_jitter_buffer_frame_allign jb (u32 (playout_delay_ts jb - max_length_ts jb)) in
      modify (fun jb => jb <| write_ts_offset := s32 (write_ts_offset jb - skew_ts) |>
                           <| min_length_ts := s32 (min_length_ts jb + skew_ts) |>
                           <| max_length_ts := s32 (max_length_ts jb + skew_ts) |>) ;;;
      let* jb := gets (fun jb => jb) in
      ret (write_position jb ts, if skew_ts <? delta_ts then delta_ts - skew_ts else 0)
    else ret (wts, delta_ts)
  else ret (wts, delta_ts).

(** The playout delay grows by [delta_ts], if that is allowed. *)
Definition delay_adjust (wts delta_ts : Z) : act (option Z) :=
  let* jb := gets (fun jb => jb) in
  if delta_ts =? 0 then ret (Some wts)
  else if negb (adaptive (config jb)) then ret None
  else if max_playout_delay_ts jb <? u32 (playout_delay_ts jb + delta_ts) then ret None
  else
    modify (fun jb => jb <| playout_delay_ts := u32 (playout_delay_ts jb + delta_ts) |>) ;;;
    modify (fun jb => if time_skew_detection (config jb)
                      then jb <| min_length_ts := s32 (min_length_ts jb + delta_ts) |>
                              <| max_length_ts := s32 (max_length_ts jb + delta_ts) |>
                      else jb) ;;;
    ret (Some (u32 (wts + delta_ts))).

Definition frame_update (i : nat) (f : mpf_frame_t -> mpf_frame_t) : act unit :=
  modify (fun jb => jb <| frames := alter f i (frames jb) |>).

(** Frames are filled while there are some, and octets; each takes one octet at least. *)
Fixpoint dissect_loop (fuel : nat) (wts available : Z) (buffer : octets) (size : nat) : act Z :=
  match fuel with
  | O => crash
  | S fuel =>
      if (available =? 0) || (size =? 0)%nat then ret wts
      else
        let* jb := gets (fun jb => jb) in
        let* i := deref_ptr (mpf_jitter_buffer_frame_get jb wts) in
        frame_update i (fun f => f <| codec_frame := (codec_frame f) <| cf_size := frame_size jb |> |>) ;;;
        let* jb := gets (fun jb => jb) in
        let* f := deref_ptr (frames jb !! i) in
        let* r := deref_ptr (mpf_codec_dissect (codec jb) buffer size (codec_frame f)) in
        let '(ok, buffer, size, cf) := r in
        frame_update i (fun f => f <| codec_frame := cf |>) ;;;
        if negb ok then ret wts
        else
          frame_update i (fun f => f <| fr_type := Z.lor (fr_type f) MEDIA_FRAME_TYPE_AUDIO |>) ;;;
          dissect_loop fuel (u32 (wts + frame_ts jb)) (available - 1) buffer size
  end.

Definition write_advance (wts : Z) : act unit :=
  modify (fun jb => if write_ts jb <? wts then jb <| write_ts := wts |> else jb).

(** The frames between the read position and [wts] are not available, in [apr_size_t]. *)
Definition available_frames (jb : mpf_jitter_buffer_t) (wts : Z) : Z :=
  u64 (Z.of_nat (frame_count jb) - u32 (wts - read_ts jb) / frame_ts jb).

Definition mpf_jitter_buffer_write (buffer : octets) (size : nat) (ts : Z) (marker : bool) : act jb_result_t :=
  modify (fun jb => if marker && (write_ts jb <=? read_ts jb) then jb <| write_sync := true |> else jb) ;;;
  let* wts := mpf_jitter_buffer_write_prepare ts in
  let* jb := gets (fun jb => jb) in
  let* placed :=
    if read_ts jb <=? wts then ret (Some wts)
    else if wts <? write_ts jb then ret None
    else
      let* p := skew_adjust ts wts (u32 (read_ts jb - wts)) in
      delay_adjust (fst p) (snd p) in
  match placed with
  | None => ret JB_DISCARD_TOO_LATE
  | Some wts =>
      let* jb := gets (fun jb => jb) in
      let available := available_frames jb wts in
      if available =? 0 then ret JB_DISCARD_TOO_EARLY
      else
        let* wts := dissect_loop (S size) wts available buffer size in
        write_advance wts ;;;
        ret JB_OK
  end.

(** The last update of the event. *)
Definition update_get (jb : mpf_jitter_buffer_t) : option mpf_named_event_frame_t :=
  match event_write_update jb with
  | None => None
  | Some EVENT_BASE => Some (event_write_base jb)
  | Some (EVENT_FRAME i) => event_frame <$> frames jb !! i
  end.

Definition event_begin (e : mpf_named_event_frame_t) (wts : Z) : act unit :=
  modify (fun jb => jb <| event_write_base := e |> <| event_write_update := Some EVENT_BASE |>
                       <| event_write_base_ts := wts |>).

(** Is the packet, which has no marker, the first of an event all the same?  A new segment of a long
    event becomes the base. *)
Definition event_marker (e : mpf_named_event_frame_t) (wts : Z) : act bool :=
  let* jb := gets (fun jb => jb) in
  match event_write_update jb with
  | None => ret true
  | Some _ =>
      if negb (event_id (event_write_base jb) =? event_id e) then ret true
      else if negb (event_write_base_ts jb =? wts) then
        let* u := deref_ptr (update_get jb) in
        if u32 (event_write_base_ts jb + duration u + 4 * frame_ts jb) <? wts then ret true
        else event_begin e wts ;;; ret false
      else ret false
  end.

(** Does the update bring nothing new? *)
Definition update_ignored (u e : mpf_named_event_frame_t) : bool :=
  (duration e <? duration u) || ((duration e =? duration u) && ((edge u =? 1) || (edge u =? edge e))).

(** The event is stored in the frame of its position. *)
Definition event_store (e : mpf_named_event_frame_t) (marker : bool) (wts : Z) : act jb_result_t :=
  let* jb := gets (fun jb => jb) in
  let* i := deref_ptr (mpf_jitter_buffer_frame_get jb wts) in
  let* _ := deref_ptr (frames jb !! i) in
  frame_update i (fun f =>
    f <| event_frame := e |> <| fr_type := Z.lor (fr_type f) MEDIA_FRAME_TYPE_EVENT |>
      <| fr_marker := if marker then MPF_MARKER_START_OF_EVENT
                      else if edge e =? 1 then MPF_MARKER_END_OF_EVENT else fr_marker f |>) ;;;
  modify (fun jb => jb <| event_write_update := Some (EVENT_FRAME i) |>) ;;;
  write_advance (u32 (wts + frame_ts jb)) ;;;
  ret JB_OK.

(** The position is before the one that is read next: the playout delay grows, if that is allowed. *)
Definition event_place_late (marker : bool) (wts : Z) : act (option Z) :=
  let* jb := gets (fun jb => jb) in
  let delta_ts := u32 (read_ts jb - wts) in
  if negb (adaptive (config jb)) then ret None
  else if max_playout_delay_ts jb <? u32 (playout_delay_ts jb + delta_ts) then ret None
  else
    let wts := u32 (wts + delta_ts) in
    modify (fun jb => jb <| playout_delay_ts := u32 (playout_delay_ts jb + delta_ts) |>) ;;;
    modify (fun jb => if marker then jb <| event_write_base_ts := wts |> else jb) ;;;
    ret (Some wts).

Definition mpf_jitter_buffer_event_write (named_event : mpf_named_event_frame_t) (ts : Z) (marker : bool) : act jb_result_t :=
  let* wts := mpf_jitter_buffer_write_prepare ts in
  let* marker := if marker then ret true else event_marker named_event wts in
  let* position :=
    if marker then event_begin named_event wts ;;; ret (Some wts)
    else
      let* jb := gets (fun jb => jb) in
      let* u := deref_ptr (update_get jb) in
      if update_ignored u named_event then ret None else ret (Some (u32 (wts + duration u))) in
  match position with
  | None => ret JB_OK
  | Some wts =>
      let* jb := gets (fun jb => jb) in
      if wts <? read_ts jb then
        let* placed := event_place_late marker wts in
        match placed with
        | None => ret JB_DISCARD_TOO_LATE
        | Some wts => event_store named_event marker wts
        end
      else if Z.of_nat (frame_count jb) <=? u32 (wts - read_ts jb) / frame_ts jb then ret JB_DISCARD_TOO_EARLY
      else event_store named_event marker wts
  end.

(** The frame at the read position, if it was written, is copied out; the position moves on. *)
Definition mpf_jitter_buffer_read (media : mpf_frame_t) : act mpf_frame_t :=
  let* jb := gets (fun jb => jb) in
  let* i := deref_ptr (mpf_jitter_buffer_frame_get jb (read_ts jb)) in
  let* src := deref_ptr (frames jb !! i) in
  let* media :=
    if read_ts jb <? write_ts jb then
      let media := media <| fr_type := fr_type src |> <| fr_marker := fr_marker src |> in
      let* media :=
        if has_type (fr_type media) MEDIA_FRAME_TYPE_AUDIO then
          let* data := deref_ptr (mem_read (cf_buffer (codec_frame src)) 0 (cf_size (codec_frame src))) in
          let* mem := deref_ptr (mem_write (cf_buffer (codec_frame media)) 0 data) in
          ret (media <| codec_frame := mk_codec_frame mem (cf_size (codec_frame src)) |>)
        else ret media in
      ret (if has_type (fr_type media) MEDIA_FRAME_TYPE_EVENT then media <| event_frame := event_frame src |> else media)
    else ret (media <| fr_type := MEDIA_FRAME_TYPE_NONE |> <| fr_marker := MPF_MARKER_NONE |>) in
  frame_update i (fun f => f <| fr_type := MEDIA_FRAME_TYPE_NONE |> <| fr_marker := MPF_MARKER_NONE |>) ;;;
  modify (fun jb => jb <| read_ts := u32 (read_ts jb + frame_ts jb) |>) ;;;
  modify (fun jb => if time_skew_detection (config jb) then mpf_jitter_buffer_stat_update jb else jb) ;;;
  ret media.

Definition mpf_jitter_buffer_playout_delay_get (jb : mpf_jitter_buffer_t) : option Z :=
  if negb (adaptive (config jb)) then Some (initial_playout_delay (config jb))
  else if frame_ts jb =? 0 then None
  else Some (u32 (playout_delay_ts jb * CODEC_FRAME_TIME_BASE) / frame_ts jb).

(** * The frames that wait to be read *)

Section Window.
(** The time stamps of a frame, the number of frames and of the octets of a frame, the delay. *)
Context (F : Z) (C : nat) (size : nat) (D : Z).
Context (HF : 0 < F) (HC : (0 < C)%nat) (Hsize : (0 < size)%nat).

(** The place of frame number [q] in the ring. *)
Definition place (q : Z) : nat := Z.to_nat (q mod Z.of_nat C).

(** A frame of the ring holds the octets of a slot, or nothing. *)
Definition holds_slot (fr : mpf_frame_t) (o : option octets) : Prop :=
  fr_marker fr = MPF_MARKER_NONE /\ length (cf_buffer (codec_frame fr)) = size /\
  match o with
  | Some d => fr_type fr = MEDIA_FRAME_TYPE_AUDIO /\ codec_frame fr = mk_codec_frame d size
  | None => fr_type fr = MEDIA_FRAME_TYPE_NONE
  end.

(** The ring shows the slots of frame numbers [n] to [n + C - 1]. *)
Record window (fs : list mpf_frame_t) (n : Z) (slots : gmap Z octets) : Prop := {
  wi_length : length fs = C;
  wi_slot : forall q, n <= q < n + Z.of_nat C -> exists fr, fs !! place q = Some fr /\ holds_slot fr (slots !! q);
  wi_keys : forall q d, slots !! q = Some d -> n <= q < n + Z.of_nat C
}.

Lemma place_bound q : (place q < C)%nat.
Proof using HC. clear Hsize HF. unfold place. pose proof (Z.mod_pos_bound q (Z.of_nat C)). lia. Qed.

Lemma place_distinct n p q : n <= p < n + Z.of_nat C -> n <= q < n + Z.of_nat C -> p <> q -> place p <> place q.
Proof.
  intros Hp Hq Hne E. unfold place in E.
  pose proof (Z.mod_pos_bound p (Z.of_nat C)) as Bp. pose proof (Z.mod_pos_bound q (Z.of_nat C)) as Bq.
  assert (Em : p mod Z.of_nat C = q mod Z.of_nat C) by lia.
  pose proof (Z.div_mod p (Z.of_nat C)) as Dp. pose proof (Z.div_mod q (Z.of_nat C)) as Dq.
  assert (Hk : p - q = Z.of_nat C * (p / Z.of_nat C - q / Z.of_nat C)) by lia.
  assert (p / Z.of_nat C - q / Z.of_nat C = 0) as E0; [|rewrite E0 in Hk; lia].
  destruct (Z.lt_trichotomy (p / Z.of_nat C - q / Z.of_nat C) 0) as [Hl|[Hl|Hl]]; [|done|].
  - pose proof (Z.mul_le_mono_nonneg_l (p / Z.of_nat C - q / Z.of_nat C) (-1) (Z.of_nat C) ltac:(lia) ltac:(lia)). lia.
  - pose proof (Z.mul_le_mono_nonneg_l 1 (p / Z.of_nat C - q / Z.of_nat C) (Z.of_nat C) ltac:(lia) ltac:(lia)). lia.
Qed.

(** A change of one frame is a change of its slot. *)
Lemma window_alter fs n slots q f o : window fs n slots -> n <= q < n + Z.of_nat C ->
  (forall fr, fs !! place q = Some fr -> holds_slot fr (slots !! q) -> holds_slot (f fr) o) ->
  window (alter f (place q) fs) n (partial_alter (fun _ => o) q slots).
Proof.
  intros [W1 W2 W3] Hq Hf. split.
  - by rewrite length_alter.
  - intros p Hp. destruct (decide (p = q)) as [->|Hne].
    + destruct (W2 q Hq) as (fr & E & Hs). exists (f fr). rewrite list_lookup_alter_eq, E, lookup_partial_alter_eq. split; [done|].
      by apply Hf.
    + destruct (W2 p Hp) as (fr & E & Hs). exists fr.
      rewrite list_lookup_alter_ne, lookup_partial_alter_ne by (done || by apply (place_distinct n)). done.
  - intros p d. destruct (decide (p = q)) as [->|Hne]; [done|]. rewrite lookup_partial_alter_ne by done. apply W3.
Qed.

Lemma partial_alter_same (slots : gmap Z octets) q : partial_alter (fun _ => slots !! q) q slots = slots.
Proof.
  apply map_eq. intros i. destruct (decide (i = q)) as [->|];
    [by rewrite lookup_partial_alter_eq|by rewrite lookup_partial_alter_ne].
Qed.

(** The oldest slot is read and becomes the place of the newest. *)
Lemma window_read fs n slots f : window fs n slots ->
  (forall fr o, holds_slot fr o -> holds_slot (f fr) None) ->
  window (alter f (place n) fs) (n + 1) (delete n slots).
Proof.
  intros W Hf. pose proof (window_alter fs n slots n f None W ltac:(lia) (fun fr _ H => Hf fr _ H)) as [V1 V2 V3].
  change (partial_alter (fun _ => None) n slots) with (delete n slots) in *. split; [done|..].
  - intros q Hq. destruct (decide (q = n + Z.of_nat C)) as [->|Hne].
    + destruct (V2 n ltac:(lia)) as (fr & E & Hs). exists fr.
      replace (place (n + Z.of_nat C)) with (place n)
        by (unfold place; rewrite <-(Z.mul_1_l (Z.of_nat C)) at 2; by rewrite Z.mod_add by lia).
      split; [done|]. rewrite lookup_delete_eq in Hs. destruct (delete n slots !! (n + Z.of_nat C)) eqn:Ed; [|done].
      apply V3 in Ed. lia.
    + destruct (V2 q ltac:(lia)) as (fr & E & Hs). by exists fr.
  - intros q d Hq. destruct (decide (q = n)) as [->|Hne]; [by rewrite lookup_delete_eq in Hq|].
    pose proof (V3 q d Hq). lia.
Qed.

(** ** What the operations make of the slots *)

(** A buffer that does not adapt, over a codec whose frames have the same size. *)
Record static (jb : mpf_jitter_buffer_t) : Prop := {
  sb_ts : frame_ts jb = F;
  sb_count : frame_count jb = C;
  sb_size : frame_size jb = size;
  sb_delay : playout_delay_ts jb = D;
  sb_adaptive : adaptive (config jb) = false;
  sb_skew : time_skew_detection (config jb) = false;
  sb_dissect : vt_dissect (vtable (codec jb)) = None
}.

Fixpoint put_slots (q : Z) (l : list octets) (slots : gmap Z octets) : gmap Z octets :=
  match l with
  | [] => slots
  | d :: l => put_slots (q + 1) l (<[q := d]> slots)
  end.

Lemma frame_get_place jb q : static jb -> mpf_jitter_buffer_frame_get jb (q * F) = Some (place q).
Proof.
  intros H. unfold mpf_jitter_buffer_frame_get, place. rewrite (sb_ts _ H), (sb_count _ H).
  destruct (Z.eqb_spec F 0); [lia|]. destruct (Nat.eqb_spec C 0); [lia|]. cbn [orb]. by rewrite Z.div_mul.
Qed.

Lemma static_frames jb fs : static jb -> static (jb <| frames := fs |>).
Proof. by intros []. Qed.

(** The memory of a frame takes the octets of a slot. *)
Lemma dissect_frame c fr o data n : vt_dissect (vtable c) = None -> holds_slot fr o -> (size <= n <= length data)%nat ->
  mpf_codec_dissect c data n ((codec_frame fr) <| cf_size := size |>) =
    Some (true, drop size data, (n - size)%nat, mk_codec_frame (take size data) size).
Proof.
  intros Hd (_ & Hl & _) Hn. unfold mpf_codec_dissect, field_set. rewrite Hd. cbn [cf_size cf_buffer].
  rewrite (proj2 (Nat.leb_le _ _)) by lia. destruct (Nat.eqb_spec size 0); [lia|]. cbn [andb negb].
  rewrite FrameBuffer.mem_read_ok by lia. assert (Ht : length (take size data) = size) by (rewrite length_take; lia).
  rewrite FrameBuffer.mem_write_ok by lia. by rewrite Ht, (drop_ge (cf_buffer (codec_frame fr))), app_nil_r by lia.
Qed.

Lemma dissect_short c cf data n : vt_dissect (vtable c) = None -> cf_size cf = size -> (n < size)%nat ->
  mpf_codec_dissect c data n cf = Some (false, data, n, cf).
Proof.
  intros Hd Hs Hn. unfold mpf_codec_dissect. rewrite Hd, Hs. by rewrite (proj2 (Nat.leb_gt _ _)) by lia.
Qed.

(** A frame that is filled. *)
Definition fill (d : octets) (fr : mpf_frame_t) : mpf_frame_t :=
  fr <| codec_frame := mk_codec_frame d size |> <| fr_type := Z.lor (fr_type fr) MEDIA_FRAME_TYPE_AUDIO |>.

Lemma fill_slot fr o d : holds_slot fr o -> length d = size -> holds_slot (fill d fr) (Some d).
Proof.
  intros (Hm & Hl & Ht) Hd. split; [done|]. split; [done|]. split; [|done]. unfold fill. cbn.
  destruct o; [by destruct Ht as [-> _]|by rewrite Ht].
Qed.

Lemma size_slot fr o : holds_slot fr o -> holds_slot (fr <| codec_frame := (codec_frame fr) <| cf_size := size |> |>) o.
Proof.
  intros (Hm & Hl & Ht). split; [done|]. split; [done|]. destruct o; [|done]. destruct Ht as [Ht Hc].
  split; [done|]. cbn. by rewrite Hc.
Qed.

Lemma dissect_step fuel q avail data n jb fr o : static jb -> avail <> 0 -> n <> 0%nat -> (n <= length data)%nat ->
  frames jb !! place q = Some fr -> holds_slot fr o ->
  dissect_loop (S fuel) (q * F) avail data n jb =
    if (size <=? n)%nat then
      dissect_loop fuel (u32 (q * F + F)) (avail - 1) (drop size data) (n - size)
        (jb <| frames := alter (fill (take size data)) (place q) (frames jb) |>)
    else Some (q * F, jb <| frames :=
      alter (fun fr => fr <| codec_frame := (codec_frame fr) <| cf_size := size |> |>) (place q) (frames jb) |>).
Proof.
  intros Hjb Ha Hn Hlen Efr Hs. cbn [dissect_loop]. destruct (Z.eqb_spec avail 0); [done|]. destruct (Nat.eqb_spec n 0); [done|].
  cbn [orb]. unfold frame_update, modify, gets, bind. cbn [deref_ptr]. rewrite frame_get_place by done. cbn [deref_ptr ret].
  pose proof Hjb as [H1 H2 H3 H4 H5 H6 H7]. rewrite H3.
  set (jb1 := jb <| frames := alter _ (place q) (frames jb) |>).
  assert (Efr1 : frames jb1 !! place q = Some (fr <| codec_frame := (codec_frame fr) <| cf_size := size |> |>))
    by (unfold jb1; cbn; by rewrite list_lookup_alter_eq, Efr).
  rewrite Efr1. cbn [deref_ptr ret codec_frame].
  change (codec jb1) with (codec jb). change (frame_ts jb1) with (frame_ts jb). rewrite H1.
  destruct (Nat.leb_spec size n) as [Hle|Hlt].
  - change (codec_frame (fr <| codec_frame := (codec_frame fr) <| cf_size := size |> |>)) with ((codec_frame fr) <| cf_size := size |>).
    rewrite (dissect_frame _ fr o) by (done || lia). cbn [deref_ptr ret negb]. f_equal.
    unfold jb1, field_set. cbn [frames]. f_equal. rewrite !list_alter_alter_eq. apply list_alter_ext; [|done].
    intros x Hx. done.
  - rewrite dissect_short by done. cbn [deref_ptr]. unfold ret. cbn [negb]. unfold jb1, field_set. cbn [frames]. do 3 f_equal.
    rewrite list_alter_alter_eq. apply list_alter_ext; [|done]. intros x Hx. rewrite Efr in Hx. injection Hx as <-. done.
Qed.

Lemma dissect_loop_ok : forall fuel q data n jb r slots,
  static jb -> window (frames jb) r slots -> r <= q <= r + Z.of_nat C -> 0 <= r -> (r + Z.of_nat C) * F < 2 ^ 32 ->
  (n <= length data)%nat -> (n < fuel)%nat ->
  let k := Nat.min (Z.to_nat (r + Z.of_nat C - q)) (n / size) in
  exists fs, dissect_loop fuel (q * F) (r + Z.of_nat C - q) data n jb = Some ((q + Z.of_nat k) * F, jb <| frames := fs |>) /\
    window fs r (put_slots q (FrameBuffer.pieces k size data) slots).
Proof.
  induction fuel as [|fuel IH]; intros q data n jb r slots Hjb W Hq Hr Hmax Hn Hf k; [lia|].
  assert (Hk0 : (Z.to_nat (r + Z.of_nat C - q) = 0 \/ n < size)%nat -> k = 0%nat).
  { intros [H|H]; unfold k; [lia|]. rewrite Nat.div_small by lia. lia. }
  assert (Hstop : k = 0%nat -> forall fs, window fs r slots -> exists fs',
    Some (q * F, jb <| frames := fs |>) = Some ((q + Z.of_nat k) * F, jb <| frames := fs' |>) /\
    window fs' r (put_slots q (FrameBuffer.pieces k size data) slots)).
  { intros -> fs Wf. exists fs. by rewrite Z.add_0_r. }
  assert (Hsame : jb <| frames := frames jb |> = jb) by (by destruct jb).
  destruct (Z.eq_dec (r + Z.of_nat C - q) 0) as [E|Eq].
  { pose proof (fun Hk => Hstop Hk (frames jb) W) as H0. rewrite Hsame in H0. cbn [dissect_loop]. rewrite E. apply H0, Hk0. lia. }
  destruct (Nat.eq_dec n 0) as [->|En].
  { pose proof (fun Hk => Hstop Hk (frames jb) W) as H0. rewrite Hsame in H0. cbn [dissect_loop]. rewrite orb_true_r. apply H0, Hk0. lia. }
  destruct (wi_slot _ _ _ W q ltac:(lia)) as (fr & Efr & Hs).
  rewrite (dissect_step fuel q _ data n jb fr (slots !! q)) by done. destruct (Nat.leb_spec size n) as [Hle|Hlt].
  - assert (Hd : length (take size data) = size) by (rewrite length_take; lia).
    set (jb1 := jb <| frames := alter (fill (take size data)) (place q) (frames jb) |>).
    assert (W1 : window (frames jb1) r (<[q := take size data]> slots)).
    { apply (window_alter (frames jb) r slots q (fill (take size data)) (Some (take size data)) W ltac:(lia)).
      intros x _ Hx. by apply (fill_slot x (slots !! q)). }
    assert (Hu : u32 (q * F + F) = (q + 1) * F) by (unfold u32; rewrite Z.mod_small by nia; lia).
    rewrite Hu. replace (r + Z.of_nat C - q - 1) with (r + Z.of_nat C - (q + 1)) by lia.
    destruct (IH (q + 1) (drop size data) (n - size)%nat jb1 r _ (static_frames _ _ Hjb) W1) as (fs & E & Wf);
      [lia|done|done|rewrite length_drop; lia|lia|]. exists fs.
    assert (Hk : k = S (Nat.min (Z.to_nat (r + Z.of_nat C - (q + 1))) ((n - size) / size))).
    { unfold k. replace n with (n - size + 1 * size)%nat at 1 by lia. rewrite Nat.div_add by lia. lia. }
    rewrite E, Hk. split; [|exact Wf]. do 2 f_equal. lia.
  - apply Hstop; [apply Hk0; lia|]. rewrite <-(partial_alter_same slots q).
    apply window_alter; [done|lia|]. intros x _ Hx. by apply size_slot.
Qed.

(** What a user of the buffer can tell: is the next write to be synchronised, the offset of the time
    stamps, the number of the frame that is read next and of the one after the last that was written,
    and the octets by frame number. *)
Record jb_view := mk_view {
  vw_sync : bool;
  vw_offset : Z;
  vw_read : Z;
  vw_write : Z;
  vw_slots : gmap Z octets
}.

Inductive jb_op := WRITE (data : octets) (n : nat) (ts : Z) (marker : bool) | READ (media : mpf_frame_t) | RESTART.
Inductive jb_answer := WRITTEN (r : jb_result_t) | FRAME (media : mpf_frame_t) | DONE.

Definition jb_exec (op : jb_op) : act jb_answer :=
  match op with
  | WRITE data n ts marker => let* r := mpf_jitter_buffer_write data n ts marker in ret (WRITTEN r)
  | READ media => let* m := mpf_jitter_buffer_read media in ret (FRAME m)
  | RESTART => modify (fun jb => snd (mpf_jitter_buffer_restart jb)) ;;; ret DONE
  end.

(** A packet is synchronised with the read position when it is the first, or starts a talk spurt and
    nothing waits. *)
Definition synchronised (ts : Z) (marker : bool) (v : jb_view) : jb_view :=
  let sync := vw_sync v || (marker && (vw_write v <=? vw_read v)) in
  mk_view false (if sync then s32 (ts - vw_read v * F) else vw_offset v) (vw_read v) (vw_write v) (vw_slots v).

(** The frame a time stamp belongs to, the playout delay later. *)
Definition frame_number (ts : Z) (v : jb_view) : Z := u32 (ts - vw_offset v + D) / F.

Definition write_spec (data : octets) (n : nat) (ts : Z) (marker : bool) (v : jb_view) : jb_result_t * jb_view :=
  let v := synchronised ts marker v in
  let q := frame_number ts v in
  if q <? vw_read v then (JB_DISCARD_TOO_LATE, v)
  else if q =? vw_read v + Z.of_nat C then (JB_DISCARD_TOO_EARLY, v)
  else
    let k := Nat.min (Z.to_nat (vw_read v + Z.of_nat C - q)) (n / size) in
    (JB_OK, mk_view false (vw_offset v) (vw_read v) (Z.max (vw_write v) (q + Z.of_nat k))
              (put_slots q (FrameBuffer.pieces k size data) (vw_slots v))).

(** A frame of audio, or nothing. *)
Definition played (o : option octets) (media : mpf_frame_t) : mpf_frame_t :=
  match o with
  | Some d => media <| fr_type := MEDIA_FRAME_TYPE_AUDIO |> <| fr_marker := MPF_MARKER_NONE |>
                    <| codec_frame := mk_codec_frame (d ++ drop size (cf_buffer (codec_frame media))) size |>
  | None => media <| fr_type := MEDIA_FRAME_TYPE_NONE |> <| fr_marker := MPF_MARKER_NONE |>
  end.

Definition jb_spec (op : jb_op) (v : jb_view) : jb_answer * jb_view :=
  match op with
  | WRITE data n ts marker => let '(r, v) := write_spec data n ts marker v in (WRITTEN r, v)
  | READ media =>
      (FRAME (played (if vw_read v <? vw_write v then vw_slots v !! vw_read v else None) media),
       mk_view (vw_sync v) (vw_offset v) (vw_read v + 1) (vw_write v) (delete (vw_read v) (vw_slots v)))
  | RESTART => (DONE, mk_view true 0 (vw_read v) (vw_read v) (vw_slots v))
  end.

(** The packet has its octets and is not more than a whole buffer ahead; the frame read to has room;
    time stamps do not wrap. *)
Definition jb_op_ok (op : jb_op) (v : jb_view) : Prop :=
  match op with
  | WRITE data n ts marker =>
      (n <= length data)%nat /\ (vw_read v + Z.of_nat C) * F < 2 ^ 32 /\
      frame_number ts (synchronised ts marker v) <= vw_read v + Z.of_nat C
  | READ media => (size <= length (cf_buffer (codec_frame media)))%nat /\ (vw_read v + 1) * F < 2 ^ 32
  | RESTART => True
  end.

Record shows (jb : mpf_jitter_buffer_t) (v : jb_view) : Prop := {
  sh_static : static jb;
  sh_sync : write_sync jb = vw_sync v;
  sh_offset : write_ts_offset jb = vw_offset v;
  sh_read : read_ts jb = vw_read v * F;
  sh_write : write_ts jb = vw_write v * F;
  sh_positive : 0 <= vw_read v;
  sh_window : window (frames jb) (vw_read v) (vw_slots v)
}.

(** The packet is synchronised and its position aligned. *)
Lemma prepare_ok jb v ts marker : shows jb v ->
  exists jb', (modify (fun jb => if marker && (write_ts jb <=? read_ts jb) then jb <| write_sync := true |> else jb) ;;;
     mpf_jitter_buffer_write_prepare ts) jb = Some (frame_number ts (synchronised ts marker v) * F, jb') /\
    shows jb' (synchronised ts marker v).
Proof.
  intros [Hs H1 H2 H3 H4 H5 H6]. pose proof Hs as [S1 S2 S3 S4 S5 S6 S7].
  unfold mpf_jitter_buffer_write_prepare, modify, gets, bind.
  set (jb1 := if marker && _ then _ else jb).
  assert (Hj : static jb1 /\ write_sync jb1 = vw_sync v || (marker && (vw_write v <=? vw_read v)) /\ write_ts_offset jb1 = vw_offset v /\
    read_ts jb1 = vw_read v * F /\ write_ts jb1 = vw_write v * F /\ frames jb1 = frames jb).
  { unfold jb1. rewrite H3, H4. assert ((vw_write v * F <=? vw_read v * F) = (vw_write v <=? vw_read v)) as ->.
    { destruct (Z.leb_spec (vw_write v) (vw_read v)), (Z.leb_spec (vw_write v * F) (vw_read v * F)); nia || done. }
    destruct (marker && (vw_write v <=? vw_read v)); [|by rewrite H1, orb_false_r]. rewrite orb_true_r. by split; [destruct Hs|]. }
  destruct Hj as (Hs1 & J1 & J2 & J3 & J4 & J5). clearbody jb1.
  set (jb2 := if write_sync jb1 then _ else jb1).
  assert (Hj2 : shows jb2 (synchronised ts marker v)).
  { assert (Ej : jb2 = if write_sync jb1 then jb1 <| write_ts_offset := s32 (ts - read_ts jb1) |> <| write_sync := false |> else jb1).
    { unfold jb2. destruct (write_sync jb1); [|done]. cbv zeta. set (x := jb1 <| write_ts_offset := _ |> <| write_sync := false |>).
      change (config x) with (config jb1). by rewrite (sb_skew _ Hs1). }
    rewrite Ej, J1. unfold synchronised.
    destruct (vw_sync v || _) eqn:E.
    - split; cbn; first [done | by rewrite J3 | by rewrite J5 | by destruct Hs1].
    - split; cbn; first [done | by rewrite J1 | by rewrite J5]. }
  clearbody jb2. pose proof Hj2 as [Hs2 K1 K2 K3 K4 K5 K6]. pose proof Hs2 as [T1 T2 T3 T4 T5 T6 T7].
  rewrite T1. destruct (Z.eqb_spec F 0); [lia|]. exists jb2. split; [|done]. unfold ret. do 2 f_equal.
  unfold write_position, frame_number. rewrite K2, T4. set (w := u32 _). pose proof (Z.div_mod w F). 
  destruct (Z.eqb_spec (w mod F) 0); cbn [negb]; lia.
Qed.

(** What follows the preparation of a write. *)
Definition place_packet (buffer : octets) (n : nat) (ts wts : Z) : act jb_result_t :=
  let* jb := gets (fun jb => jb) in
  let* placed :=
    if read_ts jb <=? wts then ret (Some wts)
    else if wts <? write_ts jb then ret None
    else
      let* p := skew_adjust ts wts (u32 (read_ts jb - wts)) in
      delay_adjust (fst p) (snd p) in
  match placed with
  | None => ret JB_DISCARD_TOO_LATE
  | Some wts =>
      let* jb := gets (fun jb => jb) in
      let available := available_frames jb wts in
      if available =? 0 then ret JB_DISCARD_TOO_EARLY
      else
        let* wts := dissect_loop (S n) wts available buffer n in
        write_advance wts ;;;
        ret JB_OK
  end.

Lemma write_split buffer n ts marker jb :
  mpf_jitter_buffer_write buffer n ts marker jb =
  bind (modify (fun jb => if marker && (write_ts jb <=? read_ts jb) then jb <| write_sync := true |> else jb) ;;;
        mpf_jitter_buffer_write_prepare ts) (place_packet buffer n ts) jb.
Proof. reflexivity. Qed.

(** A packet before the read position is late, whatever it is. *)
Lemma place_late buffer n ts q jb v : shows jb v -> 0 <= q < vw_read v -> vw_read v * F < 2 ^ 32 ->
  place_packet buffer n ts (q * F) jb = Some (JB_DISCARD_TOO_LATE, jb).
Proof.
  intros [Hs H1 H2 H3 H4 H5 H6] Hq Hmax. pose proof Hs as [S1 S2 S3 S4 S5 S6 S7].
  unfold place_packet, gets, bind. rewrite H3. destruct (Z.leb_spec (vw_read v * F) (q * F)); [nia|].
  destruct (q * F <? write_ts jb); [done|]. unfold skew_adjust, delay_adjust, gets, bind. rewrite S6. cbn [ret fst snd].
  unfold u32. rewrite Z.mod_small by nia. destruct (Z.eqb_spec (vw_read v * F - q * F) 0); [nia|]. by rewrite S5.
Qed.

Lemma available_ok jb v q : shows jb v -> vw_read v <= q <= vw_read v + Z.of_nat C ->
  (vw_read v + Z.of_nat C) * F < 2 ^ 32 -> available_frames jb (q * F) = vw_read v + Z.of_nat C - q.
Proof.
  intros [Hs H1 H2 H3 H4 H5 H6] Hq Hmax. pose proof Hs as [S1 S2 S3 S4 S5 S6 S7].
  unfold available_frames. rewrite S1, S2, H3, <-Z.mul_sub_distr_r. unfold u32, u64.
  assert (Hc : Z.of_nat C <= (vw_read v + Z.of_nat C) * F) by nia.
  assert (Hd : 0 <= (q - vw_read v) * F <= (vw_read v + Z.of_nat C) * F) by nia.
  rewrite (Z.mod_small ((q - vw_read v) * F)) by lia. rewrite Z.div_mul, Z.mod_small by lia. lia.
Qed.

Lemma write_refines jb v data n ts marker : shows jb v -> jb_op_ok (WRITE data n ts marker) v ->
  exists jb', mpf_jitter_buffer_write data n ts marker jb = Some (fst (write_spec data n ts marker v), jb') /\
    shows jb' (snd (write_spec data n ts marker v)).
Proof.
  intros Hv (Hn & Hmax & Hq). destruct (prepare_ok jb v ts marker Hv) as (jb1 & E & Hv1).
  rewrite write_split. unfold bind at 1. rewrite E. unfold write_spec.
  set (v1 := synchronised ts marker v) in *. set (q := frame_number ts v1) in *.
  change (vw_read v) with (vw_read v1) in *. clear E. pose proof Hv1 as [Hs H1 H2 H3 H4 H5 H6].
  assert (Hq0 : 0 <= q /\ q * F < 2 ^ 32).
  { unfold q, frame_number. pose proof (Z.mod_pos_bound (ts - vw_offset v1 + D) (2 ^ 32) ltac:(lia)) as Hb. fold (u32 (ts - vw_offset v1 + D)) in Hb.
    split; [apply Z.div_pos; lia|]. pose proof (Z.mul_div_le (u32 (ts - vw_offset v1 + D)) F). lia. }
  destruct (Z.ltb_spec q (vw_read v1)) as [Hlt|Hge].
  - rewrite (place_late _ _ _ _ _ v1) by (done || nia). by exists jb1.
  - unfold place_packet, gets, bind. rewrite H3. destruct (Z.leb_spec (vw_read v1 * F) (q * F)); [|nia]. cbn [ret].
    rewrite (available_ok _ v1) by (done || lia). destruct (Z.eqb_spec q (vw_read v1 + Z.of_nat C)) as [Ee|Ene].
    + destruct (Z.eqb_spec (vw_read v1 + Z.of_nat C - q) 0); [|lia]. exists jb1. by destruct v1.
    + destruct (Z.eqb_spec (vw_read v1 + Z.of_nat C - q) 0); [lia|].
      destruct (dissect_loop_ok (S n) q data n jb1 (vw_read v1) (vw_slots v1) Hs H6) as (fs & E & W); [lia..|]. rewrite E. cbn [fst snd].
      unfold write_advance, modify. set (k := Nat.min _ _) in *. eexists. split; [reflexivity|].
      change (write_ts (jb1 <| frames := fs |>)) with (write_ts jb1). rewrite H4.
      assert ((vw_write v1 * F <? (q + Z.of_nat k) * F) = (vw_write v1 <? q + Z.of_nat k)) as ->.
      { destruct (Z.ltb_spec (vw_write v1) (q + Z.of_nat k)), (Z.ltb_spec (vw_write v1 * F) ((q + Z.of_nat k) * F)); nia || done. }
      destruct (Z.ltb_spec (vw_write v1) (q + Z.of_nat k)).
      * rewrite Z.max_r by lia. split; try done. by destruct Hs.
      * rewrite Z.max_l by lia. split; try done. by destruct Hs.
Qed.

Lemma read_refines jb v media : shows jb v -> jb_op_ok (READ media) v ->
  exists jb', mpf_jitter_buffer_read media jb =
      Some (played (if vw_read v <? vw_write v then vw_slots v !! vw_read v else None) media, jb') /\
    shows jb' (snd (jb_spec (READ media) v)).
Proof.
  intros [Hs H1 H2 H3 H4 H5 H6] [Hm Hmax]. pose proof Hs as [S1 S2 S3 S4 S5 S6 S7].
  destruct (wi_slot _ _ _ H6 (vw_read v) ltac:(lia)) as (fr & Efr & Hfr).
  set (clear_ := fun f : mpf_frame_t => f <| fr_type := MEDIA_FRAME_TYPE_NONE |> <| fr_marker := MPF_MARKER_NONE |>).
  assert (W : window (alter clear_ (place (vw_read v)) (frames jb)) (vw_read v + 1) (delete (vw_read v) (vw_slots v))).
  { apply window_read; [done|]. intros x o (? & ? & ?). done. }
  set (jb' := jb <| frames := alter clear_ (place (vw_read v)) (frames jb) |> <| read_ts := u32 (read_ts jb + frame_ts jb) |>).
  exists jb'. split.
  - unfold mpf_jitter_buffer_read, gets, bind. rewrite H3, frame_get_place by done. cbn [deref_ptr ret]. rewrite Efr. cbn [deref_ptr ret].
    assert (Hlt : (vw_read v * F <? write_ts jb) = (vw_read v <? vw_write v)).
    { rewrite H4. destruct (Z.ltb_spec (vw_read v * F) (vw_write v * F)), (Z.ltb_spec (vw_read v) (vw_write v)); nia || done. }
    rewrite Hlt. destruct Hfr as (Hmk & Hl & Hslot).
    assert (Hfin : forall m : mpf_frame_t, (frame_update (place (vw_read v)) clear_ ;;;
       modify (fun jb => jb <| read_ts := u32 (read_ts jb + frame_ts jb) |>) ;;;
       modify (fun jb => if time_skew_detection (config jb) then mpf_jitter_buffer_stat_update jb else jb) ;;; ret m) jb
       = Some (m, jb')).
    { intros m. unfold frame_update, modify, bind, ret, field_set. cbn [config]. by rewrite S6. }
    destruct (vw_read v <? vw_write v); [|apply Hfin].
    destruct (vw_slots v !! vw_read v) as [d|].
    + destruct Hslot as [Ht Hc]. rewrite Hc in Hl. cbn [cf_buffer] in Hl. unfold field_set. cbn [fr_type]. rewrite Ht, Hc, Hmk.
      change (has_type MEDIA_FRAME_TYPE_AUDIO MEDIA_FRAME_TYPE_AUDIO) with true. cbn [cf_buffer cf_size codec_frame].
      rewrite FrameBuffer.mem_read_ok, <-Hl, firstn_all by lia. cbn [deref_ptr ret].
      rewrite FrameBuffer.mem_write_ok by lia. cbn [deref_ptr ret fr_type].
      change (has_type MEDIA_FRAME_TYPE_AUDIO MEDIA_FRAME_TYPE_EVENT) with false. cbn [ret]. unfold played. rewrite <-Hl. apply Hfin.
    + unfold field_set. cbn [fr_type]. rewrite Hslot, Hmk.
      change (has_type MEDIA_FRAME_TYPE_NONE MEDIA_FRAME_TYPE_AUDIO) with false. cbn [ret fr_type].
      change (has_type MEDIA_FRAME_TYPE_NONE MEDIA_FRAME_TYPE_EVENT) with false. cbn [ret]. apply Hfin.
  - unfold jb'. split; cbn; try done; try (by destruct Hs); try lia. rewrite H3, S1. unfold u32. rewrite Z.mod_small by nia. lia.
Qed.

Lemma restart_shows jb v : shows jb v ->
  shows (snd (mpf_jitter_buffer_restart jb)) (mk_view true 0 (vw_read v) (vw_read v) (vw_slots v)).
Proof.
  intros [Hs H1 H2 H3 H4 H5 H6]. pose proof Hs as [S1 S2 S3 S4 S5 S6 S7].
  assert (E : snd (mpf_jitter_buffer_restart jb) = jb <| write_sync := true |> <| write_ts_offset := 0 |>
    <| write_ts := read_ts jb |> <| event_write_base_ts := 0 |> <| event_write_base := event_zero |>
    <| event_write_update := None |>).
  { unfold mpf_jitter_buffer_restart. set (jb1 := jb <| write_sync := true |> <| write_ts_offset := 0 |> <| write_ts := _ |>
      <| event_write_base_ts := 0 |> <| event_write_base := event_zero |> <| event_write_update := None |>).
    cbv zeta. change (config jb1) with (config jb). by rewrite S5. }
  rewrite E. by split.
Qed.

Lemma jb_refines jb v op : shows jb v -> jb_op_ok op v ->
  exists jb', jb_exec op jb = Some (fst (jb_spec op v), jb') /\ shows jb' (snd (jb_spec op v)).
Proof.
  intros Hv Hok. destruct op as [data n ts marker|media|]; cbn [jb_exec jb_spec fst snd].
  - destruct (write_refines jb v data n ts marker Hv Hok) as (jb' & E & Hv'). unfold bind. rewrite E. exists jb'.
    by destruct (write_spec data n ts marker v).
  - destruct (read_refines jb v media Hv Hok) as (jb' & E & Hv'). unfold bind. rewrite E. by exists jb'.
  - exists (snd (mpf_jitter_buffer_restart jb)). split; [done|by apply restart_shows].
Qed.

Fixpoint jb_run (ops : list jb_op) : act (list jb_answer) :=
  match ops with
  | [] => ret []
  | op :: ops => let* r := jb_exec op in let* rs := jb_run ops in ret (r :: rs)
  end.

Fixpoint jb_spec_run (ops : list jb_op) (v : jb_view) : list jb_answer * jb_view :=
  match ops with
  | [] => ([], v)
  | op :: ops => let '(r, v) := jb_spec op v in let '(rs, v) := jb_spec_run ops v in (r :: rs, v)
  end.

Fixpoint jb_run_ok (ops : list jb_op) (v : jb_view) : Prop :=
  match ops with
  | [] => True
  | op :: ops => jb_op_ok op v /\ jb_run_ok ops (snd (jb_spec op v))
  end.

Lemma jb_run_refines ops : forall jb v, shows jb v -> jb_run_ok ops v ->
  exists jb', jb_run ops jb = Some (fst (jb_spec_run ops v), jb') /\ shows jb' (snd (jb_spec_run ops v)).
Proof.
  induction ops as [|op ops IH]; intros jb v Hv Hok; [by exists jb|]. destruct Hok as [Ho Hok].
  destruct (jb_refines jb v op Hv Ho) as (jb1 & E & Hv1). cbn [jb_run jb_spec_run]. unfold bind at 1. rewrite E.
  destruct (jb_spec op v) as [r v1]. cbn [fst snd] in *. destruct (IH jb1 v1 Hv1 Hok) as (jb2 & E2 & Hv2).
  unfold bind. rewrite E2. destruct (jb_spec_run ops v1) as [rs v2]. by exists jb2.
Qed.
End Window.

Lemma create_shows fresh_octets fresh_event fresh_size cfg descriptor cdc jb :
  (forall n, length (fresh_octets n) = n) -> vt_dissect (vtable cdc) = None ->
  adaptive cfg = false -> time_skew_detection cfg = false ->
  mpf_jitter_buffer_create fresh_octets fresh_event fresh_size (Some cfg) descriptor cdc = Some jb ->
  (0 < frame_count jb)%nat ->
  shows (frame_ts jb) (frame_count jb) (frame_size jb) (playout_delay_ts jb) jb (mk_view true 0 0 0 ∅).
Proof.
  intros Hf Hd Ha Hs. unfold mpf_jitter_buffer_create.
  set (c1 := if initial_playout_delay cfg <? _ then _ else cfg). assert (H1 : adaptive c1 = false /\ time_skew_detection c1 = false)
    by (unfold c1; by destruct (_ <? _)). clearbody c1.
  set (c2 := if max_playout_delay c1 <? _ then _ else c1). assert (H2 : adaptive c2 = false /\ time_skew_detection c2 = false)
    by (unfold c2; by destruct (_ <? _)). clearbody c2.
  set (c3 := if max_playout_delay c2 =? 0 then _ else c2). assert (H3 : adaptive c3 = false /\ time_skew_detection c3 = false)
    by (unfold c3; by destruct (_ =? _)). clearbody c3. cbv zeta.
  destruct (mpf_codec_frame_size_calculate descriptor (attribs cdc)) as [fsize|]; [|done].
  set (c4 := if negb _ then _ else c3). assert (H4 : adaptive c4 = false /\ time_skew_detection c4 = false)
    by (unfold c4; by destruct (negb _)). clearbody c4. intros [= <-] Hc. cbn [frame_count] in Hc. destruct H4 as [H41 H42].
  split; [split| | | | | |split]; cbn -[place]; try done.
  - by rewrite length_replicate.
  - intros q Hq. eexists. split; [apply lookup_replicate_2, place_bound, Hc|]. split; [done|]. split; [apply Hf|].
    by rewrite lookup_empty.
Qed.

(** * Properties *)

(** C18: a jitter buffer that does not adapt and does not look for a clock skew, for a codec that leaves the
    dissection of packets to it, plays packets of audio by their time stamps.  For any sequence of packets, reads and
    restarts from its creation in which no packet is more than a whole buffer ahead of the reader, as the code counts
    (modulo 2^32, so that a packet whose position would be negative is out as well), the
    time stamps of the positions do not wrap, packets have the octets they announce and frames read have room for one
    ([jb_run_ok]): every packet of audio is put, as far as the window of the buffer
    reaches, at the frames its time stamp and the playout delay give; every frame that is read is the one that is due,
    or nothing; a packet whose frame was played is refused as too late, and one exactly a whole buffer ahead as too
    early.  A packet further ahead is not refused (theorem [jitter_buffer_overrun]). *)
Theorem jitter_buffer_refines (fresh_octets : nat -> octets) (fresh_event : mpf_named_event_frame_t) (fresh_size : nat)
    (cfg : mpf_jb_config_t) (descriptor : mpf_codec_descriptor_t) (cdc : mpf_codec_t) (jb : mpf_jitter_buffer_t) (ops : list jb_op) :
  (forall n, length (fresh_octets n) = n) -> vt_dissect (vtable cdc) = None ->
  adaptive cfg = false -> time_skew_detection cfg = false ->
  mpf_jitter_buffer_create fresh_octets fresh_event fresh_size (Some cfg) descriptor cdc = Some jb ->
  0 < frame_ts jb -> (0 < frame_count jb)%nat -> (0 < frame_size jb)%nat ->
  let spec := jb_spec_run (frame_ts jb) (frame_count jb) (frame_size jb) (playout_delay_ts jb) ops (mk_view true 0 0 0 ∅) in
  jb_run_ok (frame_ts jb) (frame_count jb) (frame_size jb) (playout_delay_ts jb) ops (mk_view true 0 0 0 ∅) ->
  exists jb', jb_run ops jb = Some (fst spec, jb') /\
    shows (frame_ts jb) (frame_count jb) (frame_size jb) (playout_delay_ts jb) jb' (snd spec).
Proof.
  intros Hf Hd Ha Hs Ec HF HC HS spec Hok.
  apply (jb_run_refines (frame_ts jb) (frame_count jb) (frame_size jb) (playout_delay_ts jb)); try done.
  by apply (create_shows fresh_octets fresh_event fresh_size cfg descriptor cdc).
Qed.

(** A buffer of six frames of 10 ms, with a delay of 20 ms, for a codec of eight samples in a frame. *)
Definition sample_jb_config : mpf_jb_config_t := mk_jb_config 0 20 60 false false.
Definition sample_jb_descriptor : mpf_codec_descriptor_t :=
  g711u_descriptor <| sampling_rate := 800 |>.
Definition sample_jb : option mpf_jitter_buffer_t :=
  mpf_jitter_buffer_create (repeat 0) event_zero 0 (Some sample_jb_config) sample_jb_descriptor mpf_codec_g711u_create.
Definition sample_packet (x : Z) : octets := repeat x 8.
Definition sample_media : mpf_frame_t := mk_frame 0 MPF_MARKER_NONE (mk_codec_frame (repeat 0 8) 0) event_zero.

Lemma jitter_buffer_refines_witness :
  exists jb jb', sample_jb = Some jb /\
    jb_run [WRITE (sample_packet 1) 8 1000 true; WRITE (sample_packet 3) 8 1016 false; READ sample_media;
            WRITE (sample_packet 2) 8 1008 false; READ sample_media; READ sample_media; READ sample_media] jb =
    Some ([WRITTEN JB_OK; WRITTEN JB_OK; FRAME (played 8 None sample_media); WRITTEN JB_OK;
           FRAME (played 8 None sample_media); FRAME (played 8 (Some (sample_packet 1)) sample_media);
           FRAME (played 8 (Some (sample_packet 2)) sample_media)], jb').
Proof.
  destruct sample_jb as [jb|] eqn:E; [|discriminate].
  assert (Ev : frame_ts jb = 8 /\ frame_count jb = 6%nat /\ frame_size jb = 8%nat /\ playout_delay_ts jb = 16)
    by (injection E as <-; repeat split).
  destruct Ev as (E1 & E2 & E3 & E4).
  destruct (jitter_buffer_refines (repeat 0) event_zero 0 sample_jb_config sample_jb_descriptor mpf_codec_g711u_create jb
    [WRITE (sample_packet 1) 8 1000 true; WRITE (sample_packet 3) 8 1016 false; READ sample_media;
     WRITE (sample_packet 2) 8 1008 false; READ sample_media; READ sample_media; READ sample_media]) as (jb' & Er & _);
    try done; rewrite ?E1, ?E2, ?E3, ?E4; try lia.
  - intros n. apply repeat_length.
  - cbv beta zeta. repeat split; try (cbn; rewrite ?repeat_length; lia); vm_compute; try done; lia.
  - exists jb, jb'. split; [done|]. rewrite Er, E1, E2, E3, E4. reflexivity.
Defined.

(** C31: two packets without a marker, of one frame each, may arrive in either order: in a buffer that does
    not adapt, does not look for a clock skew, dissects packets itself and is synchronised (so not for the first packets of a talkspurt), whose
    positions do not wrap, and when their time stamps give two different frames of the window, both are taken and the buffer shows the same
    in the end. *)
Theorem jitter_buffer_order_irrelevant (F : Z) (C size : nat) (D : Z) (jb : mpf_jitter_buffer_t) (v : jb_view)
    (a b : octets) (ta tb : Z) :
  0 < F -> (0 < C)%nat -> (0 < size)%nat -> shows F C size D jb v -> vw_sync v = false ->
  (vw_read v + Z.of_nat C) * F < 2 ^ 32 -> length a = size -> length b = size ->
  vw_read v <= frame_number F D ta v < vw_read v + Z.of_nat C ->
  vw_read v <= frame_number F D tb v < vw_read v + Z.of_nat C ->
  frame_number F D ta v <> frame_number F D tb v ->
  exists v' jb1 jb2,
    jb_run [WRITE a size ta false; WRITE b size tb false] jb = Some ([WRITTEN JB_OK; WRITTEN JB_OK], jb1) /\
    jb_run [WRITE b size tb false; WRITE a size ta false] jb = Some ([WRITTEN JB_OK; WRITTEN JB_OK], jb2) /\
    shows F C size D jb1 v' /\ shows F C size D jb2 v' /\
    vw_slots v' !! frame_number F D ta v = Some a /\ vw_slots v' !! frame_number F D tb v = Some b.
Proof.
  intros HF HC Hsize Hv Hsync Hmax Ha Hb Hqa Hqb Hne.
  set (qa := frame_number F D ta v) in *. set (qb := frame_number F D tb v) in *.
  assert (Hone : forall d t q w slots, length d = size -> vw_read v <= q < vw_read v + Z.of_nat C -> frame_number F D t v = q ->
    let v1 := mk_view false (vw_offset v) (vw_read v) w slots in
    jb_op_ok F C size D (WRITE d size t false) v1 /\
    jb_spec F C size D (WRITE d size t false) v1 =
      (WRITTEN JB_OK, mk_view false (vw_offset v) (vw_read v) (Z.max w (q + 1)) (<[q := d]> slots))).
  { intros d t q w slots Hd Hq Eq v1. unfold v1. cbn [jb_op_ok jb_spec]. unfold write_spec, synchronised. cbn [vw_sync vw_read vw_write vw_offset vw_slots orb andb].
    change (frame_number F D t (mk_view false (vw_offset v) (vw_read v) w slots)) with (frame_number F D t v). rewrite Eq.
    split; [split; [lia|split; [done|lia]]|]. destruct (Z.ltb_spec q (vw_read v)); [lia|].
    destruct (Z.eqb_spec q (vw_read v + Z.of_nat C)); [lia|]. rewrite Nat.div_same, Nat.min_r by lia.
    cbn [FrameBuffer.pieces put_slots]. by rewrite take_ge by lia. }
  assert (Ev : v = mk_view false (vw_offset v) (vw_read v) (vw_write v) (vw_slots v)) by (rewrite <-Hsync; by destruct v).
  exists (mk_view false (vw_offset v) (vw_read v) (Z.max (Z.max (vw_write v) (qa + 1)) (qb + 1)) (<[qb := b]> (<[qa := a]> (vw_slots v)))).
  assert (Hrun : forall d t q d' t' q', length d = size -> length d' = size -> vw_read v <= q < vw_read v + Z.of_nat C ->
    vw_read v <= q' < vw_read v + Z.of_nat C -> frame_number F D t v = q -> frame_number F D t' v = q' ->
    exists jb', jb_run [WRITE d size t false; WRITE d' size t' false] jb = Some ([WRITTEN JB_OK; WRITTEN JB_OK], jb') /\
      shows F C size D jb' (mk_view false (vw_offset v) (vw_read v) (Z.max (Z.max (vw_write v) (q + 1)) (q' + 1)) (<[q' := d']> (<[q := d]> (vw_slots v))))).
  { intros d t q d' t' q' Hd Hd' Hq Hq' E E'. rewrite Ev in Hv.
    destruct (Hone d t q (vw_write v) (vw_slots v) Hd Hq E) as [O1 S1].
    destruct (Hone d' t' q' (Z.max (vw_write v) (q + 1)) (<[q := d]> (vw_slots v)) Hd' Hq' E') as [O2 S2]. cbv zeta in S1, S2.
    destruct (jb_run_refines F C size D HF HC Hsize [WRITE d size t false; WRITE d' size t' false] jb _ Hv) as (jb' & Er & Hr).
    - cbn [jb_run_ok]. rewrite S1. cbn [snd]. auto.
    - cbn [jb_spec_run] in Er, Hr. rewrite S1 in Er, Hr. rewrite S2 in Er, Hr. by exists jb'. }
  destruct (Hrun a ta qa b tb qb Ha Hb Hqa Hqb eq_refl eq_refl) as (jb1 & E1 & V1).
  destruct (Hrun b tb qb a ta qa Hb Ha Hqb Hqa eq_refl eq_refl) as (jb2 & E2 & V2).
  exists jb1, jb2. split; [done|]. split; [done|]. split; [done|]. split.
  - rewrite insert_insert_ne by congruence. replace (Z.max (Z.max (vw_write v) (qa + 1)) (qb + 1))
      with (Z.max (Z.max (vw_write v) (qb + 1)) (qa + 1)) by lia. exact V2.
  - cbn [vw_slots]. rewrite lookup_insert_ne, !lookup_insert_eq by congruence. done.
Qed.

Lemma sample_created : exists jb, sample_jb = Some jb /\ shows 8 6 8 16 jb (mk_view true 0 0 0 ∅).
Proof.
  destruct sample_jb as [jb|] eqn:E; [|discriminate]. exists jb. split; [done|].
  assert (Ev : frame_ts jb = 8 /\ frame_count jb = 6%nat /\ frame_size jb = 8%nat /\ playout_delay_ts jb = 16)
    by (injection E as <-; repeat split).
  destruct Ev as (E1 & E2 & E3 & E4).
  pose proof (create_shows (repeat 0) event_zero 0 sample_jb_config sample_jb_descriptor mpf_codec_g711u_create jb
    (repeat_length 0) eq_refl eq_refl eq_refl E) as H. rewrite E1, E2, E3, E4 in H. apply H. lia.
Qed.

(** The sample buffer after its first packet. *)
Lemma sample_synchronised : exists jb slots, shows 8 6 8 16 jb (mk_view false 1000 0 3 slots).
Proof.
  destruct sample_created as (jb & _ & Hv).
  destruct (jb_refines 8 6 8 16 ltac:(lia) ltac:(lia) ltac:(lia) jb _ (WRITE (sample_packet 1) 8 1000 true) Hv) as (jb' & _ & Hv').
  - split; [unfold sample_packet; rewrite repeat_length; lia|]. split; vm_compute; done.
  - eexists jb', _. exact Hv'.
Qed.

Lemma jitter_buffer_order_irrelevant_witness :
  exists jb jb1 jb2,
    jb_run [WRITE (sample_packet 2) 8 1008 false; WRITE (sample_packet 3) 8 1016 false] jb = Some ([WRITTEN JB_OK; WRITTEN JB_OK], jb1) /\
    jb_run [WRITE (sample_packet 3) 8 1016 false; WRITE (sample_packet 2) 8 1008 false] jb = Some ([WRITTEN JB_OK; WRITTEN JB_OK], jb2).
Proof.
  destruct sample_synchronised as (jb & slots & Hv).
  destruct (jitter_buffer_order_irrelevant 8 6 8 16 jb _ (sample_packet 2) (sample_packet 3) 1008 1016 ltac:(lia) ltac:(lia) ltac:(lia) Hv)
    as (v' & jb1 & jb2 & E1 & E2 & _).
  - reflexivity.
  - vm_compute. reflexivity.
  - apply repeat_length.
  - apply repeat_length.
  - vm_compute. split; [discriminate|reflexivity].
  - vm_compute. split; [discriminate|reflexivity].
  - vm_compute. discriminate.
  - by exists jb, jb1, jb2.
Defined.

(** C38: a packet that is more than a whole buffer ahead is not refused: the frames that are available are
    computed without a sign, and the packet takes the place of one that is due much earlier. *)
Theorem jitter_buffer_overrun (F : Z) (C size : nat) (D : Z) (jb : mpf_jitter_buffer_t) (v : jb_view) (data : octets) (ts : Z) (marker : bool) :
  0 < F -> (0 < C)%nat -> (0 < size)%nat -> shows F C size D jb v -> length data = size ->
  let q := frame_number F D ts (synchronised F ts marker v) in
  vw_read v + Z.of_nat C < q -> (q + 1) * F < 2 ^ 32 ->
  exists jb' fr, mpf_jitter_buffer_write data size ts marker jb = Some (JB_OK, jb') /\
    place C q = place C (vw_read v + (q - vw_read v) mod Z.of_nat C) /\
    frames jb' !! place C (vw_read v + (q - vw_read v) mod Z.of_nat C) = Some fr /\
    has_type (fr_type fr) MEDIA_FRAME_TYPE_AUDIO = true /\ codec_frame fr = mk_codec_frame data size.
Proof.
  intros HF HC Hsize Hv Hd q Hq Hmax. destruct (prepare_ok F C size D HF HC Hsize jb v ts marker Hv) as (jb1 & E & Hv1). fold q in E.
  rewrite write_split. unfold bind at 1. rewrite E. unfold place_packet, gets, bind.
  change (vw_read v) with (vw_read (synchronised F ts marker v)) in Hq |- *. set (v1 := synchronised F ts marker v) in *.
  pose proof Hv1 as [Hs H1 H2 H3 H4 H5 H6]. rewrite H3. destruct (Z.leb_spec (vw_read v1 * F) (q * F)); [|nia]. cbn [ret].
  assert (Hp : place C q = place C (vw_read v1 + (q - vw_read v1) mod Z.of_nat C)).
  { unfold place. rewrite Z.add_mod_idemp_r by lia. do 2 f_equal. lia. }
  assert (Hin : vw_read v1 <= vw_read v1 + (q - vw_read v1) mod Z.of_nat C < vw_read v1 + Z.of_nat C)
    by (pose proof (Z.mod_pos_bound (q - vw_read v1) (Z.of_nat C)); lia).
  destruct (wi_slot _ _ _ _ _ H6 _ Hin) as (fr & Efr & Hfr). rewrite <-Hp in Efr.
  assert (Ha : exists x, available_frames jb1 (q * F) = x /\ 1 < x).
  { exists (2 ^ 64 + Z.of_nat C - (q - vw_read v1)). unfold available_frames.
    rewrite (sb_ts _ _ _ _ _ Hs), (sb_count _ _ _ _ _ Hs), H3, <-Z.mul_sub_distr_r. unfold u32, u64.
    assert (0 <= (q - vw_read v1) * F < 2 ^ 32) by nia. assert (q - vw_read v1 < 2 ^ 32) by nia.
    rewrite (Z.mod_small ((q - vw_read v1) * F)), Z.div_mul by lia. split; [|lia].
    symmetry. apply (Z.mod_unique_pos _ _ (-1)); lia. }
  destruct Ha as (x & -> & Hx). destruct (Z.eqb_spec x 0); [lia|].
  rewrite (dissect_step F C size D HF HC Hsize size q x data size jb1 fr _ Hs ltac:(lia) ltac:(lia) ltac:(lia) Efr Hfr), Nat.leb_refl, Nat.sub_diag.
  destruct size as [|size']; [lia|]. cbn [dissect_loop]. rewrite orb_true_r. unfold ret, write_advance, modify. eexists _, (fill (S size') data fr).
  split; [reflexivity|]. split; [done|]. rewrite <-Hp.
  match goal with |- frames ?j !! _ = _ /\ _ => assert (Ef : frames j = alter (fill (S size') (take (S size') data)) (place C q) (frames jb1)) by (by destruct (_ <? _)) end.
  rewrite Ef, list_lookup_alter_eq, Efr, take_ge by lia. split; [done|]. split; [|done].
  destruct Hfr as (_ & _ & Ht). unfold fill. cbn. destruct (vw_slots v1 !! _); [destruct Ht as [Ht _]|]; by rewrite Ht.
Qed.

Lemma jitter_buffer_overrun_witness :
  exists jb jb', mpf_jitter_buffer_write (sample_packet 9) 8 1072 false jb = Some (JB_OK, jb').
Proof.
  destruct sample_synchronised as (jb & slots & Hv).
  destruct (jitter_buffer_overrun 8 6 8 16 jb _ (sample_packet 9) 1072 false ltac:(lia) ltac:(lia) ltac:(lia) Hv)
    as (jb' & fr & E & _).
  - apply repeat_length.
  - vm_compute. reflexivity.
  - vm_compute. reflexivity.
  - by exists jb, jb'.
Defined.

(** The position of a time stamp, aligned to frames. *)
Definition aligned_position (jb : mpf_jitter_buffer_t) (ts : Z) : Z :=
  write_position jb ts - write_position jb ts mod frame_ts jb.

(** The first packet of a new segment of a long event is never stored: the base it has just become
    makes it look like a retransmission of itself. *)
Theorem jitter_buffer_segment_dropped (jb : mpf_jitter_buffer_t) (e u : mpf_named_event_frame_t) (ts : Z) :
  write_sync jb = false -> 0 < frame_ts jb -> update_get jb = Some u ->
  event_id (event_write_base jb) = event_id e -> event_write_base_ts jb <> aligned_position jb ts ->
  aligned_position jb ts <= u32 (event_write_base_ts jb + duration u + 4 * frame_ts jb) ->
  mpf_jitter_buffer_event_write e ts false jb = Some (JB_OK,
    jb <| event_write_base := e |> <| event_write_update := Some EVENT_BASE |> <| event_write_base_ts := aligned_position jb ts |>).
Proof.
  intros Hsync HF Hu Hid Hts Hnear. unfold mpf_jitter_buffer_event_write.
  assert (Hprep : mpf_jitter_buffer_write_prepare ts jb = Some (aligned_position jb ts, jb)).
  { unfold mpf_jitter_buffer_write_prepare, modify, gets, bind. rewrite Hsync.
    destruct (Z.eqb_spec (frame_ts jb) 0); [lia|]. unfold ret, aligned_position. do 2 f_equal.
    destruct (Z.eqb_spec (write_position jb ts mod frame_ts jb) 0) as [E|_]; cbn [negb]; [|done]. rewrite E. lia. }
  assert (Hmark : event_marker e (aligned_position jb ts) jb = Some (false,
    jb <| event_write_base := e |> <| event_write_update := Some EVENT_BASE |> <| event_write_base_ts := aligned_position jb ts |>)).
  { unfold event_marker, gets, bind. unfold update_get in Hu |- *. destruct (event_write_update jb) as [r|]; [|done].
    rewrite Hid, Z.eqb_refl. cbn [negb]. destruct (Z.eqb_spec (event_write_base_ts jb) (aligned_position jb ts)); [done|]. cbn [negb].
    rewrite Hu. cbn [deref_ptr ret]. destruct (Z.ltb_spec (u32 (event_write_base_ts jb + duration u + 4 * frame_ts jb)) (aligned_position jb ts)); [lia|].
    reflexivity. }
  unfold bind at 1. rewrite Hprep. unfold bind at 1. rewrite Hmark.
  set (jb1 := jb <| event_write_base := e |> <| event_write_update := Some EVENT_BASE |> <| event_write_base_ts := _ |>).
  unfold bind, gets. change (update_get jb1) with (Some e). cbn [deref_ptr ret]. unfold update_ignored.
  by rewrite Z.ltb_irrefl, !Z.eqb_refl, orb_true_r.
Qed.

(** The sample buffer while an event is under way. *)
Definition sample_event (d : Z) : mpf_named_event_frame_t := mk_named_event 5 10 0 0 d.
Lemma sample_event_under_way : exists jb,
  write_sync jb = false /\ frame_ts jb = 8 /\ playout_delay_ts jb = 16 /\ write_ts_offset jb = 1000 /\
  event_write_base jb = sample_event 16 /\ event_write_update jb = Some EVENT_BASE /\ event_write_base_ts jb = 16.
Proof.
  destruct sample_jb as [jb|] eqn:E; [|discriminate].
  assert (Ev : frame_ts jb = 8 /\ playout_delay_ts jb = 16) by (injection E as <-; repeat split). destruct Ev as [E1 E2].
  exists (jb <| write_sync := false |> <| write_ts_offset := 1000 |> <| event_write_base := sample_event 16 |>
          <| event_write_update := Some EVENT_BASE |> <| event_write_base_ts := 16 |>). by repeat split.
Qed.

Lemma jitter_buffer_segment_dropped_witness :
  exists jb jb', event_write_base jb = sample_event 16 /\ event_write_base_ts jb = 16 /\
    mpf_jitter_buffer_event_write (sample_event 8) 1016 false jb = Some (JB_OK, jb').
Proof.
  destruct sample_event_under_way as (jb & E1 & E2 & E3 & E4 & E5 & E6 & E7).
  assert (Hp : aligned_position jb 1016 = 32) by (unfold aligned_position, write_position; rewrite E2, E3, E4; reflexivity).
  eexists jb, _. split; [done|]. split; [done|]. apply (jitter_buffer_segment_dropped jb (sample_event 8) (sample_event 16) 1016);
    rewrite ?Hp, ?E2, ?E5, ?E7; try done; try lia. unfold update_get. by rewrite E6, E5.
Defined.
