(* ===== verification/MediaDescriptor.v ===== *)
(** The descriptors media is negotiated with: stream capabilities ([mpf/include/mpf_stream_descriptor.h],
    [mpf/src/mpf_stream.c]), RTP media and terminations ([mpf/include/mpf_rtp_descriptor.h]) and the
    descriptor of a session ([mrcp-signaling/include/mrcp_session_descriptor.h],
    [mrcp_session_descriptor.c]).  A direction is a bit mask of two bits. *)

From S2P Require Import Prelude AptString Transport CodecDescriptor JitterBuffer.

(** * Streams *)

Definition STREAM_DIRECTION_NONE : Z := 0.
Definition STREAM_DIRECTION_SEND : Z := 1.
Definition STREAM_DIRECTION_RECEIVE : Z := 2.
Definition STREAM_DIRECTION_DUPLEX : Z := 3.

Record mpf_stream_capabilities_t := mk_stream_capabilities {
  cap_direction : Z;
  codecs : mpf_codec_capabilities_t
}.
#[global] Instance eta_stream_capabilities : Eta mpf_stream_capabilities_t := fun c =>
  mk_stream_capabilities (cap_direction c) (codecs c).

Definition mpf_stream_capabilities_create (direction : Z) : mpf_stream_capabilities_t :=
  mk_stream_capabilities direction mpf_codec_capabilities_init.
Definition mpf_source_stream_capabilities_create : mpf_stream_capabilities_t :=
  mpf_stream_capabilities_create STREAM_DIRECTION_RECEIVE.
Definition mpf_sink_stream_capabilities_create : mpf_stream_capabilities_t :=
  mpf_stream_capabilities_create STREAM_DIRECTION_SEND.

Definition mpf_stream_capabilities_clone (src : mpf_stream_capabilities_t) : mpf_stream_capabilities_t :=
  mk_stream_capabilities (cap_direction src) (mpf_codec_capabilities_clone (codecs src)).

Definition mpf_stream_capabilities_merge (c src : mpf_stream_capabilities_t) : bool * mpf_stream_capabilities_t :=
  let c := c <| cap_direction := Z.lor (cap_direction c) (cap_direction src) |> in
  let '(b, cs) := mpf_codec_capabilities_merge (codecs c) (codecs src) in
  (b, c <| codecs := cs |>).

Definition mpf_stream_reverse_direction_get (direction : Z) : Z :=
  if direction =? STREAM_DIRECTION_SEND then STREAM_DIRECTION_RECEIVE
  else if direction =? STREAM_DIRECTION_RECEIVE then STREAM_DIRECTION_SEND
  else direction.

(** Which methods the virtual table of an audio stream has. *)
Record mpf_audio_stream_vtable_t := mk_stream_vtable { has_read_frame : bool; has_write_frame : bool }.

Record mpf_audio_stream_t := mk_audio_stream {
  stream_vtable : mpf_audio_stream_vtable_t;
  stream_capabilities : option mpf_stream_capabilities_t;
  stream_direction : Z;
  rx_descriptor : option mpf_codec_descriptor_t;
  rx_event_descriptor : option mpf_codec_descriptor_t;
  tx_descriptor : option mpf_codec_descriptor_t;
  tx_event_descriptor : option mpf_codec_descriptor_t
}.
#[global] Instance eta_audio_stream : Eta mpf_audio_stream_t := fun s =>
  mk_audio_stream (stream_vtable s) (stream_capabilities s) (stream_direction s) (rx_descriptor s) (rx_event_descriptor s)
    (tx_descriptor s) (tx_event_descriptor s).

Definition mpf_audio_stream_create (vtable : option mpf_audio_stream_vtable_t)
    (capabilities : option mpf_stream_capabilities_t) : option mpf_audio_stream_t :=
  match vtable, capabilities with
  | Some v, Some c =>
      if has_type (cap_direction c) STREAM_DIRECTION_SEND && negb (has_write_frame v) then None
      else if has_type (cap_direction c) STREAM_DIRECTION_RECEIVE && negb (has_read_frame v) then None
      else Some (mk_audio_stream v (Some c) (cap_direction c) None None None None)
  | _, _ => None
  end.

Definition event_accepted (c : mpf_stream_capabilities_t) (current event : option mpf_codec_descriptor_t)
    : option mpf_codec_descriptor_t :=
  match current with
  | Some _ => current
  | None => if allow_named_events (codecs c) then event else None
  end.

Definition mpf_audio_stream_rx_validate (s : mpf_audio_stream_t) (descriptor event : option mpf_codec_descriptor_t)
    : bool * mpf_audio_stream_t :=
  match stream_capabilities s with
  | None => (false, s)
  | Some c =>
      let rx := match rx_descriptor s with
                | Some d => d
                | None => mpf_codec_descriptor_create_by_capabilities (Some (codecs c)) descriptor
                end in
      (true, s <| rx_descriptor := Some rx |> <| rx_event_descriptor := event_accepted c (rx_event_descriptor s) event |>)
  end.

Definition mpf_audio_stream_tx_validate (s : mpf_audio_stream_t) (descriptor event : option mpf_codec_descriptor_t)
    : bool * mpf_audio_stream_t :=
  match stream_capabilities s with
  | None => (false, s)
  | Some c =>
      let tx := match tx_descriptor s with
                | Some d => d
                | None => mpf_codec_descriptor_create_by_capabilities (Some (codecs c)) descriptor
                end in
      (true, s <| tx_descriptor := Some tx |> <| tx_event_descriptor := event_accepted c (tx_event_descriptor s) event |>)
  end.

(** * RTP *)

Inductive mpf_media_state_e := MPF_MEDIA_DISABLED | MPF_MEDIA_ENABLED.

Record mpf_rtp_media_descriptor_t := mk_media_descriptor {
  media_state : mpf_media_state_e;
  media_ip : apt_str_t;
  media_ext_ip : apt_str_t;
  media_port : Z;
  media_direction : Z;
  media_ptime : Z;
  media_codec_list : mpf_codec_list_t;
  mid : Z;
  media_id : nat
}.
#[global] Instance eta_media_descriptor : Eta mpf_rtp_media_descriptor_t := fun m =>
  mk_media_descriptor (media_state m) (media_ip m) (media_ext_ip m) (media_port m) (media_direction m) (media_ptime m)
    (media_codec_list m) (mid m) (media_id m).

Inductive rtcp_bye_policy_e := RTCP_BYE_DISABLE | RTCP_BYE_PER_SESSION | RTCP_BYE_PER_TALKSPURT.

Record mpf_rtp_settings_t := mk_rtp_settings {
  settings_ptime : Z;
  settings_codec_list : mpf_codec_list_t;
  own_preferrence : bool;
  rtcp : bool;
  rtcp_bye_policy : rtcp_bye_policy_e;
  rtcp_tx_interval : Z;
  rtcp_rx_resolution : Z;
  settings_jb_config : mpf_jb_config_t
}.

Record mpf_rtp_stream_descriptor_t := mk_rtp_stream_descriptor {
  rtp_capabilities : option mpf_stream_capabilities_t;
  local : option mpf_rtp_media_descriptor_t;
  remote : option mpf_rtp_media_descriptor_t;
  settings : option mpf_rtp_settings_t
}.
#[global] Instance eta_rtp_stream_descriptor : Eta mpf_rtp_stream_descriptor_t := fun d =>
  mk_rtp_stream_descriptor (rtp_capabilities d) (local d) (remote d) (settings d).

Record mpf_rtp_termination_descriptor_t := mk_rtp_termination_descriptor {
  audio : mpf_rtp_stream_descriptor_t;
  video : mpf_rtp_stream_descriptor_t
}.
#[global] Instance eta_rtp_termination_descriptor : Eta mpf_rtp_termination_descriptor_t := fun d =>
  mk_rtp_termination_descriptor (audio d) (video d).

Definition mpf_rtp_media_descriptor_init : mpf_rtp_media_descriptor_t :=
  mk_media_descriptor MPF_MEDIA_DISABLED apt_string_reset apt_string_reset 0 STREAM_DIRECTION_NONE 0
    mpf_codec_list_reset 0 0.
Definition mpf_rtp_stream_descriptor_init : mpf_rtp_stream_descriptor_t := mk_rtp_stream_descriptor None None None None.
Definition mpf_rtp_termination_descriptor_init : mpf_rtp_termination_descriptor_t :=
  mk_rtp_termination_descriptor mpf_rtp_stream_descriptor_init mpf_rtp_stream_descriptor_init.
Definition mpf_rtp_settings_alloc : mpf_rtp_settings_t :=
  mk_rtp_settings 0 mpf_codec_list_init false false RTCP_BYE_DISABLE 0 0 mpf_jb_config_init.

(** The array of a list that has none cannot be copied. *)
Definition mpf_codec_list_copy (l src : mpf_codec_list_t) : option mpf_codec_list_t :=
  let? arr := descriptor_arr src in Some (l <| descriptor_arr := Some arr |>).

(** * Sessions *)

Inductive mrcp_session_status_e :=
| MRCP_SESSION_STATUS_OK
| MRCP_SESSION_STATUS_NO_SUCH_RESOURCE
| MRCP_SESSION_STATUS_UNACCEPTABLE_RESOURCE
| MRCP_SESSION_STATUS_UNAVAILABLE_RESOURCE
| MRCP_SESSION_STATUS_ERROR.

#[global] Instance mrcp_session_status_e_eq_dec : EqDecision mrcp_session_status_e.
Proof. solve_decision. Defined.

(** Media are pointers, which may be NULL. *)
Record mrcp_session_descriptor_t := mk_session_descriptor {
  origin : apt_str_t;
  session_ip : apt_str_t;
  session_ext_ip : apt_str_t;
  session_resource_name : apt_str_t;
  resource_state : bool;
  session_status : mrcp_session_status_e;
  response_code : Z;
  control_media_arr : list (option mrcp_control_descriptor_t);
  audio_media_arr : list (option mpf_rtp_media_descriptor_t);
  video_media_arr : list (option mpf_rtp_media_descriptor_t)
}.
#[global] Instance eta_session_descriptor : Eta mrcp_session_descriptor_t := fun d =>
  mk_session_descriptor (origin d) (session_ip d) (session_ext_ip d) (session_resource_name d) (resource_state d)
    (session_status d) (response_code d) (control_media_arr d) (audio_media_arr d) (video_media_arr d).

Definition mrcp_session_descriptor_create : mrcp_session_descriptor_t :=
  mk_session_descriptor apt_string_reset apt_string_reset apt_string_reset apt_string_reset false
    MRCP_SESSION_STATUS_OK 0 [] [] [].

Definition mrcp_session_status_phrase_get (s : mrcp_session_status_e) : bytes :=
  lit match s with
      | MRCP_SESSION_STATUS_OK => "OK"
      | MRCP_SESSION_STATUS_NO_SUCH_RESOURCE => "Not Found"
      | MRCP_SESSION_STATUS_UNACCEPTABLE_RESOURCE => "Not Acceptable"
      | MRCP_SESSION_STATUS_UNAVAILABLE_RESOURCE => "Unavailable"
      | MRCP_SESSION_STATUS_ERROR => "Error"
      end.

Definition mrcp_session_media_count_get (d : mrcp_session_descriptor_t) : nat :=
  (length (control_media_arr d) + length (audio_media_arr d) + length (video_media_arr d))%nat.

(** The position of the new medium is that of all media. *)
Definition mrcp_session_control_media_add (d : mrcp_session_descriptor_t) (media : option mrcp_control_descriptor_t)
    : nat * mrcp_session_descriptor_t :=
  let d := d <| control_media_arr := control_media_arr d ++ [media] |> in
  ((mrcp_session_media_count_get d - 1)%nat, d).
Definition mrcp_session_audio_media_add (d : mrcp_session_descriptor_t) (media : option mpf_rtp_media_descriptor_t)
    : nat * mrcp_session_descriptor_t :=
  let d := d <| audio_media_arr := audio_media_arr d ++ [media] |> in
  ((mrcp_session_media_count_get d - 1)%nat, d).
Definition mrcp_session_video_media_add (d : mrcp_session_descriptor_t) (media : option mpf_rtp_media_descriptor_t)
    : nat * mrcp_session_descriptor_t :=
  let d := d <| video_media_arr := video_media_arr d ++ [media] |> in
  ((mrcp_session_media_count_get d - 1)%nat, d).

(** An element of an array, or NULL. *)
Definition media_get {A} (arr : list (option A)) (id : nat) : option A := match arr !! id with Some m => m | None => None end.

Definition mrcp_session_control_media_get (d : mrcp_session_descriptor_t) (id : nat) : option mrcp_control_descriptor_t :=
  media_get (control_media_arr d) id.
Definition mrcp_session_audio_media_get (d : mrcp_session_descriptor_t) (id : nat) : option mpf_rtp_media_descriptor_t :=
  media_get (audio_media_arr d) id.
Definition mrcp_session_video_media_get (d : mrcp_session_descriptor_t) (id : nat) : option mpf_rtp_media_descriptor_t :=
  media_get (video_media_arr d) id.

Definition mrcp_session_control_media_set (d : mrcp_session_descriptor_t) (id : nat) (media : option mrcp_control_descriptor_t)
    : bool * mrcp_session_descriptor_t :=
  if (length (control_media_arr d) <=? id)%nat then (false, d)
  else (true, d <| control_media_arr := <[id := media]> (control_media_arr d) |>).
Definition mrcp_session_audio_media_set (d : mrcp_session_descriptor_t) (id : nat) (media : option mpf_rtp_media_descriptor_t)
    : bool * mrcp_session_descriptor_t :=
  if (length (audio_media_arr d) <=? id)%nat then (false, d)
  else (true, d <| audio_media_arr := <[id := media]> (audio_media_arr d) |>).
Definition mrcp_session_video_media_set (d : mrcp_session_descriptor_t) (id : nat) (media : option mpf_rtp_media_descriptor_t)
    : bool * mrcp_session_descriptor_t :=
  if (length (video_media_arr d) <=? id)%nat then (false, d)
  else (true, d <| video_media_arr := <[id := media]> (video_media_arr d) |>).
