(* ===== verification/Engine.v ===== *)
(** MRCP engines and their channels ([mrcp-engine/include/mrcp_engine_types.h],
    [mrcp_engine_iface.h], [src/mrcp_engine_iface.c], [src/mrcp_engine_impl.c]), their factory
    ([src/mrcp_engine_factory.c]) and the state machines it gives them.

    What the methods of a plugin answer is an argument of the operations that call them. *)

From S2P Require Import Prelude AprHash AptString TextStream StartLine Message StateMachine Transport CodecDescriptor MediaDescriptor.

(** * State machines behind the table of their base

    The machines of a server are of one type; which resource a machine is for is its own matter.
    The update and the deactivation are given the owner. *)
Class StateMachines (R : Type) := {
  mrcp_state_machine_t : Type;
  machine_update : forall (W : Type), Dispatcher mrcp_state_machine_t W (mrcp_message_t R) ->
    mrcp_message_t R -> prog (mrcp_state_machine_t * W) bool;
  machine_deactivate : forall (W : Type), Dispatcher mrcp_state_machine_t W (mrcp_message_t R) ->
    prog (mrcp_state_machine_t * W) bool
}.
Arguments machine_update {R _ W} D m : rename.
Arguments machine_deactivate {R _ W} D : rename.

(** Two programs agree from the worlds that satisfy [P] and stay in them. *)
Definition agree {SM W A} (P : W -> Prop) (p1 p2 : prog (SM * W) A) : Prop :=
  forall sm w, P w -> p1 (sm, w) = p2 (sm, w) /\
    forall a sm' w', p1 (sm, w) = Some (a, (sm', w')) -> P w'.

(** A machine reaches the world of its owner through its callbacks only. *)
Class StateMachinesLaws {R} (S : StateMachines R) : Prop := {
  machine_update_agree : forall W (D1 D2 : Dispatcher mrcp_state_machine_t W (mrcp_message_t R)) (P : W -> Prop) m,
    (forall m, agree P (on_dispatch (Dispatcher := D1) m) (on_dispatch (Dispatcher := D2) m)) ->
    agree P (on_deactivate (Dispatcher := D1)) (on_deactivate (Dispatcher := D2)) ->
    agree P (machine_update D1 m) (machine_update D2 m);
  machine_deactivate_agree : forall W (D1 D2 : Dispatcher mrcp_state_machine_t W (mrcp_message_t R)) (P : W -> Prop),
    (forall m, agree P (on_dispatch (Dispatcher := D1) m) (on_dispatch (Dispatcher := D2) m)) ->
    agree P (on_deactivate (Dispatcher := D1)) (on_deactivate (Dispatcher := D2)) ->
    agree P (machine_deactivate D1) (machine_deactivate D2)
}.

(** * Engines *)

Section Engines.
Context {R : Type} {S : StateMachines R}.

Record mrcp_engine_config_t := mk_engine_config {
  max_channel_count : Z;
  params : list (bytes * bytes)
}.
Definition mrcp_engine_config_alloc : mrcp_engine_config_t := mk_engine_config 0 [].

Record mrcp_engine_t := mk_engine {
  engine_id : option bytes;
  engine_resource_id : Z;
  config : option mrcp_engine_config_t;
  cur_channel_count : Z;
  engine_is_open : bool;
  create_state_machine : option (mrcp_version_e -> option mrcp_state_machine_t)
}.
#[global] Instance eta_engine : Eta mrcp_engine_t := fun e =>
  mk_engine (engine_id e) (engine_resource_id e) (config e) (cur_channel_count e) (engine_is_open e) (create_state_machine e).

Definition mrcp_engine_create (id : Z) : mrcp_engine_t := mk_engine None id None 0 false None.

Definition mrcp_engine_config_get (e : mrcp_engine_t) : option mrcp_engine_config_t := config e.

(** The table of parameters compares names without regard to case. *)
Definition mrcp_engine_param_get (e : mrcp_engine_t) (n : bytes) : option bytes :=
  match config e with
  | None => None
  | Some c => snd <$> List.find (fun p => bool_decide (map tolower (fst p) = map tolower n)) (params c)
  end.

(** The methods return what the plugin answers. *)
Definition mrcp_engine_virtual_open (answer : bool) (e : mrcp_engine_t) : bool :=
  if engine_is_open e then false else answer.
Definition mrcp_engine_on_open (status : bool) (e : mrcp_engine_t) : mrcp_engine_t := e <| engine_is_open := status |>.
Definition mrcp_engine_virtual_close (answer : bool) (e : mrcp_engine_t) : bool * mrcp_engine_t :=
  if engine_is_open e then (answer, e <| engine_is_open := false |>) else (false, e).
Definition mrcp_engine_on_close (e : mrcp_engine_t) : mrcp_engine_t := e <| engine_is_open := false |>.

(** ** Channels *)

(** A channel refers to its engine by address; the termination has the audio stream. *)
Record mrcp_engine_channel_t := mk_engine_channel {
  ec_engine : addr;
  ec_termination : option (option mpf_audio_stream_t);
  ec_id : apt_str_t;
  ec_version : option mrcp_version_e;
  is_open : bool
}.
#[global] Instance eta_engine_channel : Eta mrcp_engine_channel_t := fun c =>
  mk_engine_channel (ec_engine c) (ec_termination c) (ec_id c) (ec_version c) (is_open c).

(** The version is left as allocated. *)
Definition mrcp_engine_channel_create (engine : addr) (termination : option (option mpf_audio_stream_t))
    : mrcp_engine_channel_t := mk_engine_channel engine termination apt_string_reset None false.

(** [created]: the channel the plugin makes, if any.  An engine in use has its configuration. *)
Definition mrcp_engine_channel_virtual_create (v : mrcp_version_e) (created : option mrcp_engine_channel_t) (e : mrcp_engine_t)
    : option (option mrcp_engine_channel_t * mrcp_engine_t) :=
  if negb (engine_is_open e) then Some (None, e)
  else
    let? c := config e in
    if negb (max_channel_count c =? 0) && (max_channel_count c <=? cur_channel_count e) then Some (None, e)
    else match created with
         | None => Some (None, e)
         | Some c => Some (Some (c <| ec_version := Some v |>), e <| cur_channel_count := u64 (cur_channel_count e + 1) |>)
         end.

Definition mrcp_engine_channel_virtual_destroy (e : mrcp_engine_t) : mrcp_engine_t :=
  if cur_channel_count e =? 0 then e else e <| cur_channel_count := cur_channel_count e - 1 |>.

Definition mrcp_engine_channel_virtual_open (answer : bool) (c : mrcp_engine_channel_t) : bool * mrcp_engine_channel_t :=
  if is_open c then (false, c) else (answer, c <| is_open := answer |>).
Definition mrcp_engine_channel_virtual_close (answer : bool) (c : mrcp_engine_channel_t) : bool * mrcp_engine_channel_t :=
  if is_open c then (answer, c <| is_open := false |>) else (false, c).

(** The termination of the channels that are made for a source or a sink of audio; a channel whose
    stream misses the method of its direction is not made. *)
Definition stream_channel_termination (capabilities : mpf_stream_capabilities_t)
    (vtable : option mpf_audio_stream_vtable_t) (d : option mpf_codec_descriptor_t) : option mpf_audio_stream_t :=
  let cs := match d with
            | Some d => snd (mpf_codec_capabilities_add (codecs capabilities) (mpf_sample_rate_mask_get (sampling_rate d)) (cd_name d))
            | None => snd (mpf_codec_default_capabilities_add (codecs capabilities))
            end in
  mpf_audio_stream_create vtable (Some (capabilities <| codecs := cs |>)).

Definition mrcp_engine_source_channel_create (engine : addr)
    (vtable : option mpf_audio_stream_vtable_t) (d : option mpf_codec_descriptor_t) : option mrcp_engine_channel_t :=
  let? s := stream_channel_termination mpf_source_stream_capabilities_create vtable d in
  Some (mrcp_engine_channel_create engine (Some (Some (s <| rx_descriptor := d |>)))).
Definition mrcp_engine_sink_channel_create (engine : addr)
    (vtable : option mpf_audio_stream_vtable_t) (d : option mpf_codec_descriptor_t) : option mrcp_engine_channel_t :=
  let? s := stream_channel_termination mpf_sink_stream_capabilities_create vtable d in
  Some (mrcp_engine_channel_create engine (Some (Some (s <| tx_descriptor := d |>)))).

Definition mrcp_engine_audio_termination_create (vtable : option mpf_audio_stream_vtable_t)
    (capabilities : option mpf_stream_capabilities_t) : option (option mpf_audio_stream_t) :=
  let? c := capabilities in
  let '(ok, cs) := mpf_codec_capabilities_validate (codecs c) in
  if negb ok then None
  else let? s := mpf_audio_stream_create vtable (Some (c <| codecs := cs |>)) in Some (Some s).

Definition channel_stream (c : option mrcp_engine_channel_t) : option mpf_audio_stream_t :=
  let? c := c in let? t := ec_termination c in t.
Definition mrcp_engine_source_stream_codec_get (c : option mrcp_engine_channel_t) : option mpf_codec_descriptor_t :=
  let? s := channel_stream c in rx_descriptor s.
Definition mrcp_engine_sink_stream_codec_get (c : option mrcp_engine_channel_t) : option mpf_codec_descriptor_t :=
  let? s := channel_stream c in tx_descriptor s.

(** ** The factory of engines *)

Context {Table : AprHash addr}.

(** The engines are objects in a store, the factory is a table of their addresses. *)
Record mrcp_engine_factory_t := mk_engine_factory { factory_engines : @apr_hash_t _ Table }.

Definition mrcp_engine_factory_create : mrcp_engine_factory_t := mk_engine_factory apr_hash_make.

Context (machines : Z -> option (mrcp_version_e -> option mrcp_state_machine_t)).

(** [machines]: the state machine of a resource identifier, none for an unknown one. *)
Definition mrcp_engine_factory_engine_register (f : mrcp_engine_factory_t) (p : option (addr * mrcp_engine_t))
    : bool * mrcp_engine_factory_t * option mrcp_engine_t :=
  match p with
  | None => (false, f, None)
  | Some (a, e) =>
      match engine_id e with
      | None => (false, f, Some e)
      | Some id =>
          let e := match machines (engine_resource_id e) with
                   | Some c => e <| create_state_machine := Some c |>
                   | None => e
                   end in
          match create_state_machine e with
          | None => (false, f, Some e)
          | Some _ => (true, mk_engine_factory (apr_hash_set (factory_engines f) id a), Some e)
          end
      end
  end.

Definition mrcp_engine_factory_engine_get (f : mrcp_engine_factory_t) (n : option bytes) : option addr :=
  let? n := n in apr_hash_get (factory_engines f) n.

(** The first engine of the resource, in the order of the table. *)
Definition mrcp_engine_factory_engine_find (store : gmap addr mrcp_engine_t) (f : mrcp_engine_factory_t) (id : Z)
    : option addr :=
  List.find (fun a => match store !! a with Some e => engine_resource_id e =? id | None => false end)
    (apr_hash_values (factory_engines f)).

(** Every engine of the table, in its order; [answer] is what each plugin returns. *)
Definition mrcp_engine_factory_close (answer : addr -> bool) (f : mrcp_engine_factory_t) (store : gmap addr mrcp_engine_t)
    : gmap addr mrcp_engine_t :=
  foldl (fun st a => alter (fun e => snd (mrcp_engine_virtual_close (answer a) e)) a st) store (apr_hash_values (factory_engines f)).
End Engines.
