(* ===== verification/SessionMachines.v ===== *)
(** The state machines of the four resources behind the interface of a session ([StateMachines] of
    [Engine]), with its law: a machine reaches the world of its owner through its callbacks only. *)

From S2P Require Import Prelude AprHash AptString TextStream StartLine MrcpHeader GenericHeader Message FloatValue SynthHeader RecogHeader RecorderHeader VerifierHeader StateMachine SynthStateMachine RecogStateMachine RecorderStateMachine VerifierStateMachine CodecDescriptor MediaDescriptor Engine.

(** * Programs that agree *)

Section Agree.
Context {SM W : Type} (P : W -> Prop).

Lemma agree_bind {A B} (p1 p2 : prog (SM * W) A) (k1 k2 : A -> prog (SM * W) B) :
  agree P p1 p2 -> (forall a, agree P (k1 a) (k2 a)) -> agree P (bind p1 k1) (bind p2 k2).
Proof.
  intros Hp Hk sm w HP. destruct (Hp sm w HP) as [E1 Q1]. unfold bind. rewrite <-E1.
  destruct (p1 (sm, w)) as [[a [sm' w']]|]; [|done]. apply Hk. by eapply Q1.
Qed.
Lemma agree_ret {A} (a : A) : agree (SM := SM) P (ret a) (ret a).
Proof. intros sm w HP. split; [done|]. by intros ??? [= <- <- <-]. Qed.
Lemma agree_get_sm {A} (f : SM -> A) : agree P (get_sm f) (get_sm f).
Proof. intros sm w HP. split; [done|]. by intros ??? [= <- <- <-]. Qed.
Lemma agree_set_sm (f : SM -> SM) : agree P (set_sm f) (set_sm f).
Proof. intros sm w HP. split; [done|]. by intros ??? [= <- <- <-]. Qed.
Lemma agree_deref {A} (o : option A) : agree (SM := SM) P (deref_ptr o) (deref_ptr o).
Proof. intros sm w HP. split; [done|]. destruct o; [|done]. by intros ??? [= <- <- <-]. Qed.
Lemma agree_crash {A} : agree (SM := SM) P (crash (A := A)) crash.
Proof. intros sm w HP. by split. Qed.
End Agree.

(** Take a program apart down to its callbacks. *)
Ltac agree_step :=
  lazymatch goal with
  | |- agree _ (bind _ _) _ => apply agree_bind; [|intros]
  | |- agree _ (ret _) _ => apply agree_ret
  | |- agree _ (get_sm _) _ => apply agree_get_sm
  | |- agree _ (set_sm _) _ => apply agree_set_sm
  | |- agree _ (deref_ptr _) _ => apply agree_deref
  | |- agree _ crash _ => apply agree_crash
  | |- agree _ (on_dispatch _) _ => solve [auto]
  | |- agree _ on_deactivate _ => solve [auto]
  | |- agree _ (match ?x with _ => _ end) _ => destruct x
  | |- agree _ ((match ?x with _ => _ end) _) _ => destruct x
  | |- agree _ (let '(_, _) := ?x in _) _ => destruct x
  | |- agree _ ?p _ => let rec head t := lazymatch t with ?f _ => head f | _ => t end in
                       let h := head p in unfold h; cbv beta
  end.
Ltac agrees := repeat agree_step.

Section Machines.
Context `{Apr} `{CFloat}.

Definition synth_machines : StateMachines mrcp_synth_header_t := {|
  mrcp_state_machine_t := mrcp_synth_state_machine_t;
  machine_update W D m := synth_update m;
  machine_deactivate W D := synth_deactivate
|}.
Definition recog_machines : StateMachines mrcp_recog_header_t := {|
  mrcp_state_machine_t := mrcp_recog_state_machine_t;
  machine_update W D m := recog_update m;
  machine_deactivate W D := recog_deactivate
|}.
Definition recorder_machines : StateMachines mrcp_recorder_header_t := {|
  mrcp_state_machine_t := mrcp_recorder_state_machine_t;
  machine_update W D m := recorder_update m;
  machine_deactivate W D := recorder_deactivate
|}.
Definition verifier_machines : StateMachines mrcp_verifier_header_t := {|
  mrcp_state_machine_t := mrcp_verifier_state_machine_t;
  machine_update W D m := verifier_update m;
  machine_deactivate W D := verifier_deactivate
|}.

Lemma synth_machines_laws : StateMachinesLaws synth_machines.
Proof. split; intros; cbn [machine_update machine_deactivate synth_machines]; agrees. Qed.
Lemma recog_machines_laws : StateMachinesLaws recog_machines.
Proof. split; intros; cbn [machine_update machine_deactivate recog_machines]; agrees. Qed.
Lemma recorder_machines_laws : StateMachinesLaws recorder_machines.
Proof. split; intros; cbn [machine_update machine_deactivate recorder_machines]; agrees. Qed.
Lemma verifier_machines_laws : StateMachinesLaws verifier_machines.
Proof. split; intros; cbn [machine_update machine_deactivate verifier_machines]; agrees. Qed.
End Machines.
