(* ===== verification/ServerSession.v ===== *)
(** The session of the server ([mrcp-server/include/mrcp_server_session.h],
    [src/mrcp_server_session.c]), the messages its task processes ([src/mrcp_server.c]) and those it
    collects for the media engine ([mpf/src/mpf_engine.c]).

    A session creates channels and terminations and never removes one, so that their positions in
    its arrays stand for their addresses.  What the session tells the signaling agent, the
    connection agent, the media engine and the plugins, in order, is the list [session_out] of its
    state; the answers of the plugins are functions of that list. *)

From S2P Require Import Prelude AprHash AptString TextStream TextValues HeaderField TextMessage StartLine MrcpHeader GenericHeader Message StateMachine ResourceFactory Transport CodecDescriptor MediaDescriptor Engine.

(** * Messages *)

Inductive mrcp_signaling_message_type_e :=
| SIGNALING_MESSAGE_OFFER
| SIGNALING_MESSAGE_CONTROL
| SIGNALING_MESSAGE_TERMINATE.

Inductive mrcp_server_session_state_e :=
| SESSION_STATE_NONE
| SESSION_STATE_GENERATING_ANSWER
| SESSION_STATE_INITIALIZING
| SESSION_STATE_DEACTIVATING
| SESSION_STATE_TERMINATING.

Inductive mpf_command_type_e :=
| MPF_ADD_TERMINATION
| MPF_MODIFY_TERMINATION
| MPF_SUBTRACT_TERMINATION
| MPF_ADD_ASSOCIATION
| MPF_REMOVE_ASSOCIATION
| MPF_RESET_ASSOCIATIONS
| MPF_APPLY_TOPOLOGY
| MPF_DESTROY_TOPOLOGY.

Inductive mpf_message_type_e := MPF_MESSAGE_TYPE_REQUEST | MPF_MESSAGE_TYPE_RESPONSE | MPF_MESSAGE_TYPE_EVENT.

#[global] Instance mpf_command_type_e_eq_dec : EqDecision mpf_command_type_e.
Proof. solve_decision. Defined.

(** A termination is known by the channel whose engine owns it or by its slot in the session. *)
Inductive mpf_termination_ref := ENGINE_TERMINATION (channel : nat) | RTP_TERMINATION (slot : nat).
#[global] Instance mpf_termination_ref_eq_dec : EqDecision mpf_termination_ref.
Proof. solve_decision. Defined.

Definition MAX_MPF_MESSAGE_COUNT : nat := 5.

Record mpf_message_t := mk_mpf_message {
  mpf_message_type : mpf_message_type_e;
  command_id : mpf_command_type_e;
  mpf_context : bool;
  mpf_termination : option mpf_termination_ref;
  assoc_termination : option mpf_termination_ref;
  mpf_descriptor : option mpf_rtp_termination_descriptor_t
}.

Section Types.
Context {R : Type} {SM : StateMachines R} {Hash : AprHash (mrcp_resource_t R)} {Table : AprHash addr}.
Abbreviation message := (mrcp_message_t R).

Record mrcp_signaling_message_t := mk_signaling_message {
  type : mrcp_signaling_message_type_e;
  descriptor : option mrcp_session_descriptor_t;
  sig_channel : option nat;
  sig_message : option message
}.

Record mrcp_channel_t := mk_session_channel {
  ch_resource : option (mrcp_resource_t R);
  control_channel : bool;
  engine_channel : option mrcp_engine_channel_t;
  state_machine : option mrcp_state_machine_t;
  ch_id : nat;
  ch_cmid_arr : option (list Z);
  waiting_for_channel : bool;
  waiting_for_termination : bool
}.
#[global] Instance eta_session_channel : Eta mrcp_channel_t := fun c =>
  mk_session_channel (ch_resource c) (control_channel c) (engine_channel c) (state_machine c) (ch_id c) (ch_cmid_arr c)
    (waiting_for_channel c) (waiting_for_termination c).

Record mrcp_termination_slot_t := mk_slot {
  slot_termination : option mpf_termination_ref;
  slot_id : nat;
  slot_mid : Z;
  slot_channels : option (list nat);
  waiting : bool
}.
#[global] Instance eta_slot : Eta mrcp_termination_slot_t := fun s =>
  mk_slot (slot_termination s) (slot_id s) (slot_mid s) (slot_channels s) (waiting s).

Record mrcp_profile_t := mk_profile {
  mrcp_version : mrcp_version_e;
  engine_table : @apr_hash_t _ Table;
  profile_resource_factory : mrcp_resource_factory_t R;
  rtp_settings : option mpf_rtp_settings_t
}.

(** What the session does to the others, in order; the log line of a dispatched message is kept
    with the message. *)
Inductive session_event :=
| DISPATCH_MESSAGE (m : mrcp_signaling_message_t)
| SESSION_ADD
| SESSION_REMOVE
| CONTROL_CHANNEL_ADD (channel : nat) (d : mrcp_control_descriptor_t)
| CONTROL_CHANNEL_MODIFY (channel : nat) (d : mrcp_control_descriptor_t)
| CONTROL_CHANNEL_REMOVE (channel : nat)
| CONTROL_CHANNEL_DESTROY (channel : nat)
| CONTROL_MESSAGE_SEND (channel : nat) (m : message)
| CONTROL_RESPONSE (m : message)
| ENGINE_CHANNEL_CREATE (engine : addr) (created : bool)
| ENGINE_CHANNEL_OPEN (channel : nat) (answer : bool)
| ENGINE_CHANNEL_CLOSE (channel : nat) (answer : bool)
| ENGINE_CHANNEL_DESTROY (channel : nat)
| ENGINE_REQUEST (channel : nat) (m : message)
| MPF_TASK_MESSAGE (l : list mpf_message_t)
| ANSWER (d : mrcp_session_descriptor_t)
| TERMINATE_RESPONSE.

Record mrcp_server_session_t := mk_session {
  base_id : apt_str_t;
  profile : mrcp_profile_t;
  context : bool;
  terminations : list mrcp_termination_slot_t;
  channels : list mrcp_channel_t;
  active_request : option mrcp_signaling_message_t;
  request_queue : list mrcp_signaling_message_t;
  offer : option mrcp_session_descriptor_t;
  answer : option mrcp_session_descriptor_t;
  mpf_task_msg : option (list mpf_message_t);
  state : mrcp_server_session_state_e;
  subrequest_count : nat;
  engines : gmap addr mrcp_engine_t;
  session_out : list session_event
}.
#[global] Instance eta_session : Eta mrcp_server_session_t := fun s =>
  mk_session (base_id s) (profile s) (context s) (terminations s) (channels s) (active_request s) (request_queue s)
    (offer s) (answer s) (mpf_task_msg s) (state s) (subrequest_count s) (engines s) (session_out s).

(** The engines are shared by the sessions of a server. *)
Definition mrcp_server_session_create (p : mrcp_profile_t) (es : gmap addr mrcp_engine_t) : mrcp_server_session_t :=
  mk_session apt_string_reset p false [] [] None [] None None None SESSION_STATE_NONE 0 es [].

(** The plugins, the identifier a session is given and memory that is left as allocated. *)
Class ServerWorld := {
  plugin_create_channel : list session_event -> addr -> option mrcp_engine_channel_t;
  plugin_channel_open : list session_event -> nat -> bool;
  plugin_channel_close : list session_event -> nat -> bool;
  generated_uuid : bytes;
  response_code_uninit : Z
}.
End Types.
Arguments mrcp_server_session_t R {SM Hash Table}.
Arguments mrcp_signaling_message_t R : clear implicits.
Arguments session_event R : clear implicits.
Arguments ServerWorld R : clear implicits.

Definition MRCP_SESSION_ID_HEX_STRING_LENGTH : nat := 16.

Section Session.
Context `{A : Apr} {R : Type} {SM : StateMachines R} {Hash : AprHash (mrcp_resource_t R)} {Table : AprHash addr}
  {World : ServerWorld R}.
Abbreviation message := (mrcp_message_t R).
Abbreviation session := (mrcp_server_session_t R).
Abbreviation act := (prog session).

Definition tell (e : session_event R) : act unit := modify (fun s => s <| session_out := session_out s ++ [e] |>).

(** Access to a channel, to a slot, to the offer and to the answer. *)
Definition get_channel (i : nat) : act mrcp_channel_t := let* s := gets (fun s => s) in deref_ptr (channels s !! i).
Definition set_channel (i : nat) (f : mrcp_channel_t -> mrcp_channel_t) : act unit :=
  modify (fun s => s <| channels := alter f i (channels s) |>).
Definition get_slot (i : nat) : act mrcp_termination_slot_t := let* s := gets (fun s => s) in deref_ptr (terminations s !! i).
Definition set_slot (i : nat) (f : mrcp_termination_slot_t -> mrcp_termination_slot_t) : act unit :=
  modify (fun s => s <| terminations := alter f i (terminations s) |>).
Definition set_answer (f : mrcp_session_descriptor_t -> mrcp_session_descriptor_t) : act unit :=
  let* a := gets answer in
  let* a := deref_ptr a in
  modify (fun s => s <| answer := Some (f a) |>).
Definition set_offer (f : mrcp_session_descriptor_t -> mrcp_session_descriptor_t) : act unit :=
  let* o := gets offer in
  let* o := deref_ptr o in
  modify (fun s => s <| offer := Some (f o) |>).
Definition get_offer : act mrcp_session_descriptor_t := let* o := gets offer in deref_ptr o.
Definition when (b : bool) (p : act unit) : act unit := if b then p else ret tt.
Fixpoint for_each {X} (l : list X) (f : X -> act unit) : act unit :=
  match l with [] => ret tt | x :: l => f x ;;; for_each l f end.

Definition mrcp_session_version_get : act mrcp_version_e := gets (fun s => mrcp_version (profile s)).

(** ** Messages to the media engine *)

(** A message that is full is sent and a new one begun. *)
Definition mpf_engine_message_send : act bool :=
  let* m := gets mpf_task_msg in
  match m with
  | None => ret false
  | Some l => tell (MPF_TASK_MESSAGE l) ;;; modify (fun s => s <| mpf_task_msg := None |>) ;;; ret true
  end.
Definition mpf_engine_message_get (m : mpf_message_t) : act bool :=
  let* t := gets mpf_task_msg in
  (match t with
   | Some l => if (MAX_MPF_MESSAGE_COUNT <=? length l)%nat then mpf_engine_message_send ;;; ret tt else ret tt
   | None => ret tt
   end) ;;;
  modify (fun s => s <| mpf_task_msg := Some (default [] (mpf_task_msg s) ++ [m]) |>) ;;;
  ret true.

Definition mpf_request (c : mpf_command_type_e) (t a : option mpf_termination_ref)
    (d : option mpf_rtp_termination_descriptor_t) (context : bool) : mpf_message_t :=
  mk_mpf_message MPF_MESSAGE_TYPE_REQUEST c context t a d.
Definition mpf_engine_termination_message_add (c : mpf_command_type_e) (t : mpf_termination_ref)
    (d : option mpf_rtp_termination_descriptor_t) : act bool :=
  let* x := gets context in mpf_engine_message_get (mpf_request c (Some t) None d x).
Definition mpf_engine_assoc_message_add (c : mpf_command_type_e) (t a : option mpf_termination_ref) : act bool :=
  let* x := gets context in mpf_engine_message_get (mpf_request c t a None x).
Definition mpf_engine_topology_message_add (c : mpf_command_type_e) : act bool :=
  let* x := gets context in mpf_engine_message_get (mpf_request c None None None x).

(** ** Sub-requests *)

Definition mrcp_server_session_state_set (st : mrcp_server_session_state_e) : act unit :=
  modify (fun s => if (subrequest_count s =? 0)%nat then s else s <| subrequest_count := 0%nat |>) ;;;
  modify (fun s => s <| state := st |>).
Definition mrcp_server_session_subrequest_add : act unit :=
  modify (fun s => s <| subrequest_count := S (subrequest_count s) |>).

(** ** Calls of the engine channels *)

Definition engine_termination (i : nat) (c : mrcp_channel_t) : option mpf_termination_ref :=
  let? e := engine_channel c in let? _ := ec_termination e in Some (ENGINE_TERMINATION i).

Definition engine_channel_open (i : nat) (e : mrcp_engine_channel_t) : act bool :=
  let* out := gets session_out in
  let a := plugin_channel_open out i in
  let '(b, e') := mrcp_engine_channel_virtual_open a e in
  when (negb (is_open e)) (tell (ENGINE_CHANNEL_OPEN i a)) ;;;
  set_channel i (fun c => c <| engine_channel := Some e' |>) ;;;
  ret b.
Definition engine_channel_close (i : nat) (e : mrcp_engine_channel_t) : act bool :=
  let* out := gets session_out in
  let a := plugin_channel_close out i in
  let '(b, e') := mrcp_engine_channel_virtual_close a e in
  when (is_open e) (tell (ENGINE_CHANNEL_CLOSE i a)) ;;;
  set_channel i (fun c => c <| engine_channel := Some e' |>) ;;;
  ret b.

(** ** Channels *)

(** The machine and the engine channel of a new channel. *)
Definition mrcp_server_engine_channel_create (n : apt_str_t) : act (option mrcp_state_machine_t * option mrcp_engine_channel_t) :=
  let* s := gets (fun s => s) in
  match apr_hash_get (engine_table (profile s)) (str_data n) with
  | None => ret (None, None)
  | Some a =>
      let* e := deref_ptr (engines s !! a) in
      let* create := deref_ptr (create_state_machine e) in
      let* v := mrcp_session_version_get in
      let* r := deref_ptr (mrcp_engine_channel_virtual_create v (plugin_create_channel (session_out s) a) e) in
      let '(c, e) := r in
      modify (fun s => s <| engines := <[a := e]> (engines s) |>) ;;;
      tell (ENGINE_CHANNEL_CREATE a (bool_decide (is_Some c))) ;;;
      ret (create v, c)
  end.

Definition answer_status (st : mrcp_session_status_e) : act unit := set_answer (fun a => a <| session_status := st |>).

Definition mrcp_server_channel_create (n : apt_str_t) (id : nat) (cmids : option (list Z)) : act mrcp_channel_t :=
  let c := mk_session_channel None false None None id cmids false false in
  match str_buf n with
  | None => answer_status MRCP_SESSION_STATUS_NO_SUCH_RESOURCE ;;; ret c
  | Some _ =>
      let* s := gets (fun s => s) in
      match mrcp_resource_find (profile_resource_factory (profile s)) n with
      | None => answer_status MRCP_SESSION_STATUS_NO_SUCH_RESOURCE ;;; ret c
      | Some r =>
          let c := c <| ch_resource := Some r |>
                     <| control_channel := bool_decide (mrcp_version (profile s) = MRCP_VERSION_2) |> in
          let* p := mrcp_server_engine_channel_create n in
          let c := c <| state_machine := fst p |> in
          match snd p with
          | Some e => ret (c <| engine_channel := Some (e <| ec_id := base_id s |>) |>)
          | None => answer_status MRCP_SESSION_STATUS_UNACCEPTABLE_RESOURCE ;;; ret c
          end
      end
  end.

(** The first channel of the name; a channel of the session has its resource. *)
Fixpoint channel_search (l : list mrcp_channel_t) (i : nat) (n : apt_str_t) : option (option nat) :=
  match l with
  | [] => Some None
  | c :: l => let? r := ch_resource c in
              if apt_string_compare (name r) n then Some (Some i) else channel_search l (S i) n
  end.
Definition mrcp_server_channel_find (n : apt_str_t) : act (option nat) :=
  let* s := gets (fun s => s) in deref_ptr (channel_search (channels s) 0 n).

(** The request to add the termination of an engine channel to the media context. *)
Definition engine_termination_add (i : nat) (c : mrcp_channel_t) : act unit :=
  match engine_termination i c with
  | None => ret tt
  | Some t =>
      let* ok := mpf_engine_termination_message_add MPF_ADD_TERMINATION t None in
      when ok (set_channel i (fun c => c <| waiting_for_termination := true |>) ;;; mrcp_server_session_subrequest_add)
  end.

(** ** Offers *)

Definition mrcp_session_answer_create (o : mrcp_session_descriptor_t) : mrcp_session_descriptor_t :=
  mk_session_descriptor apt_string_reset apt_string_reset apt_string_reset (session_resource_name o) (resource_state o)
    (session_status o) response_code_uninit (map (fun _ => None) (control_media_arr o)) (map (fun _ => None) (audio_media_arr o))
    (map (fun _ => None) (video_media_arr o)).

Definition mrcp_server_resource_offer_process : act bool :=
  let* d := get_offer in
  if resource_state d then
    let* count := gets (fun s => length (channels s)) in
    let* c := mrcp_server_channel_find (session_resource_name d) in
    match c with
    | Some _ => ret true
    | None =>
        let* c := mrcp_server_channel_create (session_resource_name d) count None in
        match ch_resource c with
        | None => ret false
        | Some _ =>
            modify (fun s => s <| channels := channels s ++ [c] |>) ;;;
            engine_termination_add count c ;;;
            ret true
        end
    end
  else ret true.

(** The answer to a control medium the connection agent is not asked about. *)
Definition control_media_refuse (i : nat) (d : mrcp_control_descriptor_t) : act unit :=
  let* c := get_channel i in
  if waiting_for_channel c then ret tt
  else
    let* s := gets (fun s => s) in
    let a := (mrcp_control_answer_create (Some d)) <| port := 0 |> <| desc_session_id := base_id s |> in
    set_answer (fun x => snd (mrcp_session_control_media_set x (ch_id c) (Some a))).

Definition control_channel_update (i : nat) : act unit :=
  set_channel i (fun c => c <| waiting_for_channel := false |>) ;;;
  let* o := get_offer in
  match mrcp_session_control_media_get o i with
  | None => ret tt
  | Some d =>
      let* c := get_channel i in
      when (control_channel c)
        (tell (CONTROL_CHANNEL_MODIFY i d) ;;; set_channel i (fun c => c <| waiting_for_channel := true |>) ;;;
         mrcp_server_session_subrequest_add) ;;;
      control_media_refuse i d
  end.

(** The new channel is put behind the others, wherever its medium is in the offer. *)
Definition control_channel_new (i : nat) : act unit :=
  let* o := get_offer in
  match mrcp_session_control_media_get o i with
  | None => ret tt
  | Some d =>
      let* c := mrcp_server_channel_create (desc_resource_name d) i (Some (cmid_arr d)) in
      match ch_resource c with
      | None => ret tt
      | Some _ =>
          let* s := gets (fun s => s) in
          let j := length (channels s) in
          let d := d <| desc_session_id := base_id s |> in
          set_offer (fun o => snd (mrcp_session_control_media_set o i (Some d))) ;;;
          modify (fun s => s <| channels := channels s ++ [c] |>) ;;;
          when (control_channel c)
            (tell (CONTROL_CHANNEL_ADD j d) ;;; set_channel j (fun c => c <| waiting_for_channel := true |>) ;;;
             mrcp_server_session_subrequest_add) ;;;
          control_media_refuse j d ;;;
          engine_termination_add j c
      end
  end.

Definition mrcp_server_control_media_offer_process : act bool :=
  let* o := get_offer in
  let media := length (control_media_arr o) in
  let* n := gets (fun s => length (channels s)) in
  let count := Nat.min n media in
  for_each (seq 0 count) control_channel_update ;;;
  for_each (seq count (media - count)) control_channel_new ;;;
  ret true.

(** ** Audio *)

(** The medium of an offer without SDP takes the codecs of the settings. *)
Definition media_implied (st : option mpf_rtp_settings_t) (direction : Z) (m : mpf_rtp_media_descriptor_t)
    : option mpf_rtp_media_descriptor_t :=
  let? m :=
    if (media_direction m =? STREAM_DIRECTION_NONE) && mpf_codec_list_is_empty (media_codec_list m) then
      let? st := st in
      if mpf_codec_list_is_empty (settings_codec_list st) then Some m
      else let? l := mpf_codec_list_copy (media_codec_list m) (settings_codec_list st) in Some (m <| media_codec_list := l |>)
    else Some m in
  Some (m <| media_direction := Z.lor (media_direction m) direction |>
          <| media_state := MPF_MEDIA_ENABLED |>).

(** Is the channel associated with the medium [m] of a slot, and what it adds to the capabilities
    and to the medium. *)
Definition channel_associated (s : session) (c : mrcp_channel_t) (m : Z) : bool :=
  (length (terminations s) =? 1)%nat ||
  match ch_cmid_arr c with None => true | Some l => mrcp_cmid_find l m end.

Definition association_step (s : session) (slot_m : Z)
    (acc : option (list nat * option mpf_stream_capabilities_t * mpf_rtp_media_descriptor_t)) (p : nat * mrcp_channel_t)
    : option (list nat * option mpf_stream_capabilities_t * mpf_rtp_media_descriptor_t) :=
  let? (l, caps, m) := acc in
  let '(i, c) := p in
  if negb (channel_associated s c slot_m) then Some (l, caps, m)
  else
    let l := l ++ [i] in
    match channel_stream (engine_channel c) with
    | None => Some (l, caps, m)
    | Some st =>
        let caps := match stream_capabilities st, caps with
                    | Some x, Some k => Some (snd (mpf_stream_capabilities_merge k x))
                    | Some x, None => Some (mpf_stream_capabilities_clone x)
                    | None, _ => caps
                    end in
        match mrcp_version (profile s) with
        | MRCP_VERSION_1 =>
            let? m := media_implied (rtp_settings (profile s)) (stream_direction st) m in Some (l, caps, m)
        | _ => Some (l, caps, m)
        end
    end.

Definition mrcp_server_associations_build (i : nat) : act (option mpf_rtp_termination_descriptor_t) :=
  let* slot := get_slot i in
  let* o := get_offer in
  match mrcp_session_audio_media_get o (slot_id slot) with
  | None => ret None
  | Some m =>
      let* s := gets (fun s => s) in
      let* r := deref_ptr (foldl (association_step s (mid m)) (Some ([], None, m)) (imap (fun j c => (j, c)) (channels s))) in
      let '(l, caps, m') := r in
      set_slot i (fun x => x <| slot_mid := mid m |> <| slot_channels := Some l |>) ;;;
      set_offer (fun o => snd (mrcp_session_audio_media_set o (slot_id slot) (Some m'))) ;;;
      let caps := (fun k => k <| cap_direction := mpf_stream_reverse_direction_get (cap_direction k) |>) <$> caps in
      ret (Some (mk_rtp_termination_descriptor
                   (mk_rtp_stream_descriptor caps None (Some m') (rtp_settings (profile s))) mpf_rtp_stream_descriptor_init))
  end.

Definition association_set (i j : nat) : act unit :=
  let* slot := get_slot i in
  let* c := get_channel j in
  match engine_channel c with
  | None => ret tt
  | Some _ =>
      let* ok := mpf_engine_assoc_message_add MPF_ADD_ASSOCIATION (slot_termination slot) (engine_termination j c) in
      when ok mrcp_server_session_subrequest_add
  end.
Definition mrcp_server_associations_set (i : nat) : act bool :=
  let* slot := get_slot i in
  let* l := deref_ptr (slot_channels slot) in
  for_each l (association_set i) ;;; ret true.

(** The request about the termination of a slot and its associations. *)
Definition slot_process (c : mpf_command_type_e) (i : nat) : act unit :=
  let* slot := get_slot i in
  match slot_termination slot with
  | None => ret tt
  | Some t =>
      let* d := mrcp_server_associations_build i in
      match d with
      | None => ret tt
      | Some d =>
          let* ok := mpf_engine_termination_message_add c t (Some d) in
          when ok (set_slot i (fun x => x <| waiting := true |>) ;;; mrcp_server_session_subrequest_add) ;;;
          mrcp_server_associations_set i ;;; ret tt
      end
  end.

(** The termination of a new slot is created by the factory of the profile. *)
Definition slot_new (i : nat) : act unit :=
  modify (fun s => s <| terminations := terminations s ++
    [mk_slot (Some (RTP_TERMINATION (length (terminations s)))) i 0 None false] |>) ;;;
  let* n := gets (fun s => length (terminations s)) in
  slot_process MPF_ADD_TERMINATION (n - 1).

Definition mrcp_server_av_media_offer_process : act bool :=
  let* o := get_offer in
  let media := length (audio_media_arr o) in
  if (media =? 0)%nat then ret true
  else
    let* n := gets (fun s => length (terminations s)) in
    let count := Nat.min n media in
    for_each (seq 0 count) (slot_process MPF_MODIFY_TERMINATION) ;;;
    for_each (seq count (media - count)) slot_new ;;;
    ret true.

(** ** The end of an exchange *)

(** The engine channel goes back to its engine. *)
Definition channel_destroy (i : nat) : act unit :=
  let* c := get_channel i in
  when (control_channel c) (tell (CONTROL_CHANNEL_DESTROY i) ;;; set_channel i (fun c => c <| control_channel := false |>)) ;;;
  match engine_channel c with
  | None => ret tt
  | Some e =>
      let* s := gets (fun s => s) in
      let* x := deref_ptr (engines s !! ec_engine e) in
      modify (fun s => s <| engines := <[ec_engine e := mrcp_engine_channel_virtual_destroy x]> (engines s) |>) ;;;
      tell (ENGINE_CHANNEL_DESTROY i) ;;;
      set_channel i (fun c => c <| engine_channel := None |>)
  end.
Definition all_channels : act (list nat) := gets (fun s => seq 0 (length (channels s))).

Definition mrcp_server_session_terminate_send : act bool :=
  let* l := all_channels in
  for_each l channel_destroy ;;;
  tell TERMINATE_RESPONSE ;;;
  ret true.

Definition channel_terminate (i : nat) : act unit :=
  let* c := get_channel i in
  deref_ptr (ch_resource c) ;;;
  when (control_channel c)
    (tell (CONTROL_CHANNEL_REMOVE i) ;;; set_channel i (fun c => c <| waiting_for_channel := true |>) ;;;
     mrcp_server_session_subrequest_add) ;;;
  match engine_channel c with
  | None => ret tt
  | Some e =>
      (match engine_termination i c with
       | None => ret tt
       | Some t =>
           let* ok := mpf_engine_termination_message_add MPF_SUBTRACT_TERMINATION t None in
           when ok (set_channel i (fun c => c <| waiting_for_termination := true |>) ;;; mrcp_server_session_subrequest_add)
       end) ;;;
      let* ok := engine_channel_close i e in
      when ok mrcp_server_session_subrequest_add
  end.

Definition slot_terminate (i : nat) : act unit :=
  let* slot := get_slot i in
  match slot_termination slot with
  | None => ret tt
  | Some t =>
      let* ok := mpf_engine_termination_message_add MPF_SUBTRACT_TERMINATION t None in
      when ok (set_slot i (fun x => x <| waiting := true |>) ;;; mrcp_server_session_subrequest_add)
  end.

(** The session has an identifier if it was ever added to the table. *)
Definition mrcp_server_session_add : act unit :=
  let* s := gets (fun s => s) in when (bool_decide (is_Some (str_buf (base_id s)))) (tell SESSION_ADD).
Definition mrcp_server_session_remove : act unit :=
  let* s := gets (fun s => s) in when (bool_decide (is_Some (str_buf (base_id s)))) (tell SESSION_REMOVE).

Definition mrcp_server_session_terminate_process : act bool :=
  mrcp_server_session_state_set SESSION_STATE_TERMINATING ;;;
  let* x := gets context in
  when x (let* ok := mpf_engine_topology_message_add MPF_RESET_ASSOCIATIONS in when ok mrcp_server_session_subrequest_add) ;;;
  let* l := all_channels in
  for_each l channel_terminate ;;;
  let* n := gets (fun s => length (terminations s)) in
  for_each (seq 0 n) slot_terminate ;;;
  when x (mpf_engine_message_send ;;; ret tt) ;;;
  mrcp_server_session_remove ;;;
  let* n := gets subrequest_count in
  when (n =? 0)%nat (mrcp_server_session_terminate_send ;;; ret tt) ;;;
  ret true.

(** ** What a dispatched message sets off

    The answer to a request dispatches the next one of the queue. *)
Section Body.
Context (dispatch : mrcp_signaling_message_t R -> act bool).

Definition next_request : act unit :=
  let* q := gets request_queue in
  let '(m, q) := apt_list_pop_front q in
  modify (fun s => s <| request_queue := q |> <| active_request := m |>) ;;;
  match m with Some m => dispatch m ;;; ret tt | None => ret tt end.

Definition mrcp_server_session_answer_send : act bool :=
  let* a := gets answer in
  let* a := deref_ptr a in
  tell (ANSWER a) ;;;
  modify (fun s => s <| offer := None |> <| answer := None |>) ;;;
  next_request ;;;
  ret true.

Definition answer_if_done : act unit :=
  let* n := gets subrequest_count in
  when (n =? 0)%nat (mrcp_server_session_answer_send ;;; ret tt).

Definition engine_channel_update (o : mrcp_session_descriptor_t) (i : nat) : act unit :=
  let* c := get_channel i in
  match engine_channel c, mrcp_session_control_media_get o i with
  | Some e, Some d =>
      let* ok := if port d =? 0 then engine_channel_close i e else engine_channel_open i e in
      when ok mrcp_server_session_subrequest_add
  | _, _ => ret tt
  end.

Definition mrcp_server_engine_channels_update : act bool :=
  let* o := gets offer in
  match o with
  | None => ret false
  | Some o =>
      mrcp_server_session_state_set SESSION_STATE_INITIALIZING ;;;
      let* v := mrcp_session_version_get in
      (match v with
       | MRCP_VERSION_1 =>
           let* i := mrcp_server_channel_find (session_resource_name o) in
           match i with
           | None => ret tt
           | Some i =>
               let* c := get_channel i in
               match engine_channel c with
               | None => ret tt
               | Some e => let* ok := engine_channel_open i e in when ok mrcp_server_session_subrequest_add
               end
           end
       | _ => let* l := all_channels in for_each l (engine_channel_update o)
       end) ;;;
      answer_if_done ;;;
      ret true
  end.

Definition mrcp_server_session_subrequest_remove : act unit :=
  let* n := gets subrequest_count in
  match n with
  | O => ret tt
  | S n =>
      modify (fun s => s <| subrequest_count := n |>) ;;;
      if (n =? 0)%nat then
        let* st := gets state in
        match st with
        | SESSION_STATE_GENERATING_ANSWER => mrcp_server_engine_channels_update ;;; ret tt
        | SESSION_STATE_INITIALIZING => mrcp_server_session_answer_send ;;; ret tt
        | SESSION_STATE_DEACTIVATING => mrcp_server_session_terminate_process ;;; ret tt
        | SESSION_STATE_TERMINATING => mrcp_server_session_terminate_send ;;; ret tt
        | SESSION_STATE_NONE => ret tt
        end
      else ret tt
  end.

(** ** The owner of the state machines *)

(** A message to the client: over the connection of the channel or, with MRCPv1, through the
    signaling agent. *)
Definition client_send (i : nat) (m : message) : act unit :=
  let* c := get_channel i in
  if control_channel c then tell (CONTROL_MESSAGE_SEND i m) else tell (CONTROL_RESPONSE m).

Definition state_machine_on_message_dispatch (i : nat) (m : message) : act bool :=
  match message_type (start_line m) with
  | MRCP_MESSAGE_TYPE_REQUEST =>
      let* c := get_channel i in
      match engine_channel c with Some _ => tell (ENGINE_REQUEST i m) | None => ret tt end ;;; ret true
  | MRCP_MESSAGE_TYPE_RESPONSE => client_send i m ;;; next_request ;;; ret true
  | _ => client_send i m ;;; ret true
  end.
Definition state_machine_on_deactivate : act bool := mrcp_server_session_subrequest_remove ;;; ret true.

(** The machine of channel [i] runs apart from the session; while its owner is called back it is in
    the channel, where the owner may find it. *)
Definition reenter {X} (i : nat) (p : act X) : prog (mrcp_state_machine_t * session) X :=
  fun '(m, s) =>
    let? (a, s') := (set_channel i (fun c => c <| state_machine := Some m |>) ;;; p) s in
    let? c := channels s' !! i in
    let? m' := state_machine c in
    Some (a, (m', s')).
Definition session_dispatcher (i : nat) : Dispatcher mrcp_state_machine_t session message := {|
  on_dispatch m := reenter i (state_machine_on_message_dispatch i m);
  on_deactivate := reenter i state_machine_on_deactivate
|}.
Definition with_machine {X} (i : nat) (p : prog (mrcp_state_machine_t * session) X) : act X :=
  fun s =>
    let? c := channels s !! i in
    let? m := state_machine c in
    let? (a, (m', s')) := p (m, s) in
    Some (a, s' <| channels := alter (fun c => c <| state_machine := Some m' |>) i (channels s') |>).

Definition channel_machine_update (i : nat) (m : message) : act bool :=
  with_machine i (machine_update (session_dispatcher i) m).

(** ** Signaling messages *)

Definition mrcp_server_session_offer_process (d : option mrcp_session_descriptor_t) : act bool :=
  let* x := gets context in
  when (negb x)
    (modify (fun s => if (str_len (base_id s) =? 0)%nat
                      then s <| base_id := apt_unique_id_generate generated_uuid MRCP_SESSION_ID_HEX_STRING_LENGTH |> else s) ;;;
     mrcp_server_session_add ;;;
     modify (fun s => s <| context := true |>)) ;;;
  let* d := deref_ptr d in
  modify (fun s => s <| offer := Some d |> <| answer := Some (mrcp_session_answer_create d) |>) ;;;
  mrcp_server_session_state_set SESSION_STATE_GENERATING_ANSWER ;;;
  let* ok := mpf_engine_topology_message_add MPF_RESET_ASSOCIATIONS in
  when ok mrcp_server_session_subrequest_add ;;;
  let* v := mrcp_session_version_get in
  (match v with
   | MRCP_VERSION_1 =>
       let* ok := mrcp_server_resource_offer_process in
       if ok then mrcp_server_av_media_offer_process ;;; ret tt
       else set_answer (fun a => a <| resource_state := false |>)
   | _ => mrcp_server_control_media_offer_process ;;; mrcp_server_av_media_offer_process ;;; ret tt
   end) ;;;
  let* ok := mpf_engine_topology_message_add MPF_APPLY_TOPOLOGY in
  when ok mrcp_server_session_subrequest_add ;;;
  mpf_engine_message_send ;;;
  answer_if_done ;;;
  ret true.

Definition channel_deactivate (i : nat) : act unit :=
  let* c := get_channel i in
  match state_machine c with
  | None => ret tt
  | Some _ =>
      let* ok := with_machine i (machine_deactivate (session_dispatcher i)) in
      when ok mrcp_server_session_subrequest_add
  end.

Definition mrcp_server_session_deactivate : act bool :=
  mrcp_server_session_state_set SESSION_STATE_DEACTIVATING ;;;
  let* l := all_channels in
  for_each l channel_deactivate ;;;
  let* n := gets subrequest_count in
  when (n =? 0)%nat (mrcp_server_session_terminate_process ;;; ret tt) ;;;
  ret true.

Definition mrcp_server_on_message_receive (i : option nat) (m : option message) : act bool :=
  let* i := match i with
            | Some i => ret (Some i)
            | None => let* m := deref_ptr m in mrcp_server_channel_find (resource_name (channel_id m))
            end in
  match i with
  | None => ret false
  | Some i =>
      let* c := get_channel i in
      deref_ptr (ch_resource c) ;;;
      match state_machine c with
      | None => ret false
      | Some _ => let* m := deref_ptr m in channel_machine_update i m
      end
  end.

Definition dispatch_body (m : mrcp_signaling_message_t R) : act bool :=
  tell (DISPATCH_MESSAGE m) ;;;
  (match type m with
   | SIGNALING_MESSAGE_OFFER => mrcp_server_session_offer_process (descriptor m)
   | SIGNALING_MESSAGE_CONTROL => mrcp_server_on_message_receive (sig_channel m) (sig_message m)
   | SIGNALING_MESSAGE_TERMINATE => mrcp_server_session_deactivate
   end) ;;;
  ret true.
End Body.

(** Every dispatch inside of another one takes a request off the queue; [out] is what is done when the fuel is
    used up. *)
Fixpoint dispatch_from (out : mrcp_signaling_message_t R -> act bool) (fuel : nat) (m : mrcp_signaling_message_t R) : act bool :=
  match fuel with
  | O => out m
  | S fuel => dispatch_body (dispatch_from out fuel) m
  end.
Definition dispatch_fuel : nat -> mrcp_signaling_message_t R -> act bool := dispatch_from (fun _ => crash).
Definition mrcp_server_signaling_message_dispatch (m : mrcp_signaling_message_t R) : act bool :=
  fun s => dispatch_fuel (S (length (request_queue s))) m s.

(** ** What the task of the server hands to a session *)

Abbreviation subrequest_remove := (mrcp_server_session_subrequest_remove mrcp_server_signaling_message_dispatch).

Definition mrcp_server_signaling_message_process (m : mrcp_signaling_message_t R) : act bool :=
  let* a := gets active_request in
  (match a with
   | Some _ => modify (fun s => s <| request_queue := apt_list_push_back (request_queue s) m |>)
   | None => modify (fun s => s <| active_request := Some m |>) ;;; mrcp_server_signaling_message_dispatch m ;;; ret tt
   end) ;;;
  ret true.

Definition mrcp_server_on_channel_modify (i : nat) (d : option mrcp_control_descriptor_t) (status : bool) : act bool :=
  let* c := get_channel i in
  deref_ptr (ch_resource c) ;;;
  match d with
  | None => ret false
  | Some d =>
      if negb (waiting_for_channel c) then ret false
      else
        set_channel i (fun c => c <| waiting_for_channel := false |>) ;;;
        let* s := gets (fun s => s) in
        set_answer (fun a => snd (mrcp_session_control_media_set a (ch_id c) (Some (d <| desc_session_id := base_id s |>)))) ;;;
        subrequest_remove ;;;
        ret true
  end.

Definition mrcp_server_on_channel_remove (i : nat) (status : bool) : act bool :=
  let* c := get_channel i in
  deref_ptr (ch_resource c) ;;;
  if negb (waiting_for_channel c) then ret false
  else
    set_channel i (fun c => c <| waiting_for_channel := false |>) ;;;
    subrequest_remove ;;;
    ret true.

Definition mrcp_server_on_channel_message (i : nat) (m : option message) : act bool :=
  mrcp_server_signaling_message_process (mk_signaling_message SIGNALING_MESSAGE_CONTROL None (Some i) m).

Definition mrcp_server_on_engine_channel_open (i : nat) (status : bool) : act bool :=
  let* c := get_channel i in
  deref_ptr (ch_resource c) ;;;
  when (negb status) (answer_status MRCP_SESSION_STATUS_UNAVAILABLE_RESOURCE) ;;;
  subrequest_remove ;;;
  ret true.
Definition mrcp_server_on_engine_channel_close (i : nat) : act bool :=
  let* c := get_channel i in
  deref_ptr (ch_resource c) ;;;
  subrequest_remove ;;;
  ret true.
Definition mrcp_server_on_engine_channel_message (i : nat) (m : message) : act bool :=
  let* c := get_channel i in
  match state_machine c with
  | None => ret false
  | Some _ => channel_machine_update mrcp_server_signaling_message_dispatch i m
  end.

(** *** Responses of the media engine *)

Definition find_index {X} (f : X -> bool) (l : list X) : option nat := fst <$> list_find (fun x => f x = true) l.
Definition mrcp_server_rtp_termination_find (s : session) (t : option mpf_termination_ref) : option nat :=
  find_index (fun x => bool_decide (slot_termination x = t)) (terminations s).
Definition mrcp_server_channel_termination_find (s : session) (t : option mpf_termination_ref) : option nat :=
  find_index (fun p => bool_decide (is_Some (engine_channel (snd p))) && bool_decide (engine_termination (fst p) (snd p) = t))
    (imap pair (channels s)).

Definition channel_termination_done (s : session) (t : option mpf_termination_ref) : act unit :=
  match mrcp_server_channel_termination_find s t with
  | None => ret tt
  | Some i =>
      let* c := get_channel i in
      when (waiting_for_termination c)
        (set_channel i (fun c => c <| waiting_for_termination := false |>) ;;; subrequest_remove)
  end.

(** A response without a context belongs to no session. *)
Definition mrcp_server_on_termination_modify (m : mpf_message_t) : act bool :=
  if negb (mpf_context m) then ret false
  else
    let* s := gets (fun s => s) in
    match mrcp_server_rtp_termination_find s (mpf_termination m) with
    | Some i =>
        let* x := get_slot i in
        if negb (waiting x) then ret false
        else
          set_slot i (fun x => x <| waiting := false |>) ;;;
          let* d := deref_ptr (mpf_descriptor m) in
          (match local (audio d) with
           | None => ret tt
           | Some l =>
               set_answer (fun a => snd (mrcp_session_audio_media_set
                 (a <| session_ip := media_ip l |> <| session_ext_ip := media_ext_ip l |>) (slot_id x) (Some l)))
           end) ;;;
          subrequest_remove ;;;
          ret true
    | None => channel_termination_done s (mpf_termination m) ;;; ret true
    end.

Definition mrcp_server_on_termination_subtract (m : mpf_message_t) : act bool :=
  if negb (mpf_context m) then ret false
  else
    let* s := gets (fun s => s) in
    match mrcp_server_rtp_termination_find s (mpf_termination m) with
    | Some i =>
        let* x := get_slot i in
        if negb (waiting x) then ret false
        else set_slot i (fun x => x <| waiting := false |>) ;;; subrequest_remove ;;; ret true
    | None => channel_termination_done s (mpf_termination m) ;;; ret true
    end.

(** The responses of one message of the media engine, which are those of one session. *)
Definition mpf_response_process (m : mpf_message_t) : act unit :=
  match mpf_message_type m with
  | MPF_MESSAGE_TYPE_RESPONSE =>
      match command_id m with
      | MPF_ADD_TERMINATION | MPF_MODIFY_TERMINATION => mrcp_server_on_termination_modify m ;;; ret tt
      | MPF_SUBTRACT_TERMINATION => mrcp_server_on_termination_subtract m ;;; ret tt
      | _ => if mpf_context m then subrequest_remove else crash
      end
  | _ => ret tt
  end.
Definition mrcp_server_mpf_message_process (l : list mpf_message_t) : act bool := for_each l mpf_response_process ;;; ret true.

(** *** The messages of the task *)

Inductive server_task_msg :=
| MRCP_SERVER_SIGNALING_TASK_MSG (m : mrcp_signaling_message_t R)
| CONNECTION_AGENT_TASK_MSG_ADD_CHANNEL (channel : nat) (d : option mrcp_control_descriptor_t) (status : bool)
| CONNECTION_AGENT_TASK_MSG_MODIFY_CHANNEL (channel : nat) (d : option mrcp_control_descriptor_t) (status : bool)
| CONNECTION_AGENT_TASK_MSG_REMOVE_CHANNEL (channel : nat) (status : bool)
| CONNECTION_AGENT_TASK_MSG_RECEIVE_MESSAGE (channel : nat) (m : option message)
| CONNECTION_AGENT_TASK_MSG_DISCONNECT (channel : nat) (m : option message)
| ENGINE_TASK_MSG_OPEN_ENGINE (engine : addr) (status : bool)
| ENGINE_TASK_MSG_CLOSE_ENGINE (engine : addr)
| ENGINE_TASK_MSG_OPEN_CHANNEL (channel : nat) (status : bool)
| ENGINE_TASK_MSG_CLOSE_CHANNEL (channel : nat)
| ENGINE_TASK_MSG_MESSAGE (channel : nat) (m : message)
| MRCP_SERVER_MEDIA_TASK_MSG (l : list mpf_message_t).

(** The engines tell when they are open; the task counts those it waits for when it starts and ends. *)
Definition engine_set (a : addr) (f : mrcp_engine_t -> mrcp_engine_t) : act bool :=
  let* s := gets (fun s => s) in
  let* e := deref_ptr (engines s !! a) in
  modify (fun s => s <| engines := <[a := f e]> (engines s) |>) ;;;
  ret true.

Definition mrcp_server_msg_process (x : server_task_msg) : act bool :=
  (match x with
   | MRCP_SERVER_SIGNALING_TASK_MSG m => mrcp_server_signaling_message_process m
   | CONNECTION_AGENT_TASK_MSG_ADD_CHANNEL i d st => mrcp_server_on_channel_modify i d st
   | CONNECTION_AGENT_TASK_MSG_MODIFY_CHANNEL i d st => mrcp_server_on_channel_modify i d st
   | CONNECTION_AGENT_TASK_MSG_REMOVE_CHANNEL i st => mrcp_server_on_channel_remove i st
   | CONNECTION_AGENT_TASK_MSG_RECEIVE_MESSAGE i m => mrcp_server_on_channel_message i m
   | CONNECTION_AGENT_TASK_MSG_DISCONNECT i m => mrcp_server_on_channel_message i m
   | ENGINE_TASK_MSG_OPEN_ENGINE a st => engine_set a (mrcp_engine_on_open st)
   | ENGINE_TASK_MSG_CLOSE_ENGINE a => engine_set a mrcp_engine_on_close
   | ENGINE_TASK_MSG_OPEN_CHANNEL i st => mrcp_server_on_engine_channel_open i st
   | ENGINE_TASK_MSG_CLOSE_CHANNEL i => mrcp_server_on_engine_channel_close i
   | ENGINE_TASK_MSG_MESSAGE i m => mrcp_server_on_engine_channel_message i m
   | MRCP_SERVER_MEDIA_TASK_MSG l => mrcp_server_mpf_message_process l
   end) ;;;
  ret true.

(** The task processes its messages one after another. *)
Fixpoint session_run (l : list server_task_msg) : act unit :=
  match l with [] => ret tt | x :: l => mrcp_server_msg_process x ;;; session_run l end.
End Session.
Arguments server_task_msg R : clear implicits.
