(* ===== verification/ServerSessionRaces.v ===== *)
(** A session of the server with the synthesizer machine: what becomes of requests that cross the
    answers of the engine. *)

From S2P Require Import Prelude AprHash AptString TextStream TextValues HeaderField TextMessage StartLine MrcpHeader GenericHeader Message FloatValue SynthHeader StateMachine SynthStateMachine ResourceFactory Transport CodecDescriptor MediaDescriptor Engine SessionMachines ServerSession.

#[local] Existing Instance apr_reference.
#[local] Existing Instance apr_reference_laws.
#[local] Existing Instance float_integers.
#[local] Existing Instance apr_hash_reference.
#[local] Existing Instance synth_machines.
#[local] Existing Instance synth_machines_laws.

(** ** A server with one engine for the synthesizer *)

Definition synth_name : apt_str_t := str_lit "speechsynth".
Definition sample_factory : mrcp_resource_factory_t mrcp_synth_header_t :=
  match mrcp_resource_factory_create 4 with
  | Some f => snd (mrcp_resource_register f (Some (resource_identify 0 synth_name mrcp_synth_resource_create)))
  | None => mk_factory [] apr_hash_make
  end.
Definition sample_engine : mrcp_engine_t :=
  mk_engine (Some (lit "Demo-Synth-1")) 0 (Some mrcp_engine_config_alloc) 0 true
    (Some (fun v => Some (mrcp_synth_state_machine_create v))).
Definition sample_stream : option mpf_audio_stream_t :=
  mpf_audio_stream_create (Some (mk_stream_vtable true false)) (Some mpf_source_stream_capabilities_create).

(** The plugin opens its channels. *)
Definition sample_world : ServerWorld mrcp_synth_header_t := {|
  plugin_create_channel _ a := Some (mrcp_engine_channel_create a (Some sample_stream));
  plugin_channel_open _ _ := true;
  plugin_channel_close _ _ := true;
  generated_uuid := repeat SP 16;
  response_code_uninit := 0
|}.
#[local] Existing Instance sample_world.
Definition sample_profile (v : mrcp_version_e) : mrcp_profile_t :=
  mk_profile v (apr_hash_set apr_hash_make (lit "speechsynth") 7%nat) sample_factory (Some mpf_rtp_settings_alloc).
Definition sample_session (v : mrcp_version_e) : mrcp_server_session_t mrcp_synth_header_t :=
  mrcp_server_session_create (sample_profile v) {[7%nat := sample_engine]}.

(** An offer of the channels of the given resources, each with its port, and one audio medium. *)
Definition control_medium (p : apt_str_t * Z) : option mrcp_control_descriptor_t :=
  Some (mrcp_control_offer_create <| desc_resource_name := fst p |> <| port := snd p |> <| cmid_arr := [1] |>).
Definition sample_medium : mpf_rtp_media_descriptor_t :=
  mpf_rtp_media_descriptor_init <| media_state := MPF_MEDIA_ENABLED |> <| media_port := 4000 |> <| mid := 1 |>.
Definition sample_offer (l : list (apt_str_t * Z)) : mrcp_session_descriptor_t :=
  mrcp_session_descriptor_create <| control_media_arr := map control_medium l |> <| audio_media_arr := [Some sample_medium] |>.
Definition offer_message (l : list (apt_str_t * Z)) : server_task_msg mrcp_synth_header_t :=
  MRCP_SERVER_SIGNALING_TASK_MSG (mk_signaling_message SIGNALING_MESSAGE_OFFER (Some (sample_offer l)) None None).
Definition terminate_message : server_task_msg mrcp_synth_header_t :=
  MRCP_SERVER_SIGNALING_TASK_MSG (mk_signaling_message SIGNALING_MESSAGE_TERMINATE None None None).

(** The media engine answers every message it was sent. *)
Definition media_answer (m : mpf_message_t) : mpf_message_t :=
  mk_mpf_message MPF_MESSAGE_TYPE_RESPONSE (command_id m) (mpf_context m) (mpf_termination m) (assoc_termination m)
    ((fun d => d <| audio := (audio d) <| local := Some sample_medium |> |>) <$> mpf_descriptor m).
Definition media_answers (out : list (session_event mrcp_synth_header_t)) : list (server_task_msg mrcp_synth_header_t) :=
  concat (map (fun e => match e with MPF_TASK_MESSAGE l => [MRCP_SERVER_MEDIA_TASK_MSG (map media_answer l)] | _ => [] end) out).

(** The session after an offer of one synthesizer was answered. *)
Definition offer_exchange : list (server_task_msg mrcp_synth_header_t) :=
  match session_run [offer_message [(synth_name, 9)]] (sample_session MRCP_VERSION_2) with
  | Some (_, s) =>
      [offer_message [(synth_name, 9)]; CONNECTION_AGENT_TASK_MSG_ADD_CHANNEL 0 (control_medium (synth_name, 1544)) true] ++
      media_answers (session_out s) ++ [ENGINE_TASK_MSG_OPEN_CHANNEL 0 true]
  | None => []
  end.

Definition brief_event (e : session_event mrcp_synth_header_t) : option (mrcp_message_type_e * Z * Z) :=
  match e with
  | ENGINE_REQUEST _ m | CONTROL_MESSAGE_SEND _ m =>
      Some (message_type (start_line m), method_id (start_line m), request_id (start_line m))
  | _ => None
  end.

(** What a run leaves to be seen of the session. *)
Definition outcome {X} (f : mrcp_server_session_t mrcp_synth_header_t -> X) (l : list (server_task_msg mrcp_synth_header_t))
    : option X :=
  match session_run l (sample_session MRCP_VERSION_2) with Some (_, s) => Some (f s) | None => None end.

(** ** Requests that cross the answers of the engine *)

Abbreviation from_client m := (CONNECTION_AGENT_TASK_MSG_RECEIVE_MESSAGE 0 (Some m)).
Abbreviation from_engine m := (ENGINE_TASK_MSG_MESSAGE 0 m).
Abbreviation speak := (sample_synth_request SYNTHESIZER_SPEAK).
Abbreviation get_params := (sample_synth_request SYNTHESIZER_GET_PARAMS).
(** STOP request 3, of request 1 only. *)
Definition stop_first : synth_message :=
  default (sample_synth_request SYNTHESIZER_STOP 3) (active_request_id_add 1 (sample_synth_request SYNTHESIZER_STOP 3)).

Definition stop_race : list (server_task_msg mrcp_synth_header_t) :=
  [from_client (speak 1); from_engine (engine_started (speak 1)); from_client (speak 2);
   from_client stop_first; from_client (get_params 4);
   from_engine (mrcp_response_create (Some stop_first));
   from_engine (mrcp_response_create (Some (get_params 4)));
   from_engine (engine_started (speak 2)); terminate_message].

(** A response that a machine sends before it is done with the answer of the engine lets the session
    dispatch the next request in between.  STOP request 3 ends SPEAK request 1 while request 2 is queued in the machine and a
    GET-PARAMS request 4 in the session: the response to STOP sends request 4 to the engine, and the machine then
    sends request 2 in its place.  The answer of the engine to request 4 is dropped, the client gets
    none, and the session waits for it for good: the request to terminate stays in the queue. *)
Example session_stop_race :
  outcome (fun s => (omap brief_event (session_out s), type <$> active_request s, map type (request_queue s))) (offer_exchange ++ stop_race) =
  Some ([(MRCP_MESSAGE_TYPE_REQUEST, method_num SYNTHESIZER_SPEAK, 1); (MRCP_MESSAGE_TYPE_RESPONSE, method_num SYNTHESIZER_SPEAK, 1);
         (MRCP_MESSAGE_TYPE_RESPONSE, method_num SYNTHESIZER_SPEAK, 2); (MRCP_MESSAGE_TYPE_REQUEST, method_num SYNTHESIZER_STOP, 3);
         (MRCP_MESSAGE_TYPE_RESPONSE, method_num SYNTHESIZER_STOP, 3); (MRCP_MESSAGE_TYPE_REQUEST, method_num SYNTHESIZER_GET_PARAMS, 4);
         (MRCP_MESSAGE_TYPE_REQUEST, method_num SYNTHESIZER_SPEAK, 2); (MRCP_MESSAGE_TYPE_EVENT, event_num SYNTHESIZER_SPEECH_MARKER, 2)],
        Some SIGNALING_MESSAGE_CONTROL, [SIGNALING_MESSAGE_TERMINATE]).
Proof. vm_compute. reflexivity. Qed.

(** ** Channels and media that do not line up *)

Definition unknown_name : apt_str_t := str_lit "unknown".
Definition mixed_offer : list (server_task_msg mrcp_synth_header_t) := [offer_message [(unknown_name, 0); (synth_name, 9)]].
Definition mixed_exchange : list (server_task_msg mrcp_synth_header_t) :=
  match session_run mixed_offer (sample_session MRCP_VERSION_2) with
  | Some (_, s) =>
      mixed_offer ++ [CONNECTION_AGENT_TASK_MSG_ADD_CHANNEL 0 (control_medium (synth_name, 1544)) true] ++ media_answers (session_out s)
  | None => []
  end.
Definition answered_ports (e : session_event mrcp_synth_header_t) : option (list (option Z)) :=
  match e with ANSWER a => Some (map (fun d => port <$> d) (control_media_arr a)) | _ => None end.
Definition modified (e : session_event mrcp_synth_header_t) : option (nat * apt_str_t) :=
  match e with CONTROL_CHANNEL_MODIFY i d => Some (i, desc_resource_name d) | _ => None end.

(** The position of a channel is taken for that of its medium: when the first medium of an offer has no
    channel, the channel of the second one is answered with its port but its engine channel is never opened, and
    the next offer modifies it by the first medium and makes another channel for the second. *)
Example session_channel_positions :
  outcome (fun s => (omap answered_ports (session_out s), map (fun c => (ch_id c, is_open <$> engine_channel c)) (channels s))) mixed_exchange =
    Some ([[None; Some 1544]], [(1%nat, Some false)]) /\
  outcome (fun s => (omap modified (session_out s), map ch_id (channels s))) (mixed_exchange ++ mixed_offer) =
    Some ([(0%nat, unknown_name)], [1%nat; 1%nat]).
Proof. split; vm_compute; reflexivity. Qed.
