(* ===== verification/ServerSessionRuns.v ===== *)
(** Runs of a session of the server: the requests are dispatched one at a time, in the order they
    came, the nesting of the calls between a session and its machines ends, and a control message
    without a channel stops the session for good. *)

From S2P Require Import Prelude AprHash AptString TextStream TextValues HeaderField TextMessage StartLine MrcpHeader GenericHeader Message FloatValue SynthHeader StateMachine SynthStateMachine ResourceFactory Transport CodecDescriptor MediaDescriptor Engine SessionMachines ServerSession ServerSessionRaces.

Section Runs.
Context `{A : Apr} {R : Type} {SM : StateMachines R} {Laws : StateMachinesLaws SM} {Hash : AprHash (mrcp_resource_t R)}
  {Table : AprHash addr} {World : ServerWorld R}.
Abbreviation message := (mrcp_message_t R).
Abbreviation session := (mrcp_server_session_t R).
Abbreviation act := (prog session).
Abbreviation request := (mrcp_signaling_message_t R).

(** * Programs that agree and keep a predicate *)

Definition alike {X} (P Q : session -> Prop) (p q : act X) : Prop :=
  forall s, P s -> p s = q s /\ forall a s', p s = Some (a, s') -> Q s'.

Lemma alike_bind {X Y} (P P' Q : session -> Prop) (p q : act X) (k k' : X -> act Y) :
  alike P P' p q -> (forall a, alike P' Q (k a) (k' a)) -> alike P Q (bind p k) (bind q k').
Proof.
  intros Hp Hk s HP. destruct (Hp s HP) as [E H]. unfold bind. rewrite <-E.
  destruct (p s) as [[a s']|]; [|done]. apply Hk. by eapply H.
Qed.
Lemma alike_ret {X} (P : session -> Prop) (a : X) : alike P P (ret a) (ret a).
Proof. intros s HP. split; [done|]. by intros ?? [= <- <-]. Qed.
Lemma alike_gets {X} (P : session -> Prop) (f : session -> X) : alike P P (gets f) (gets f).
Proof. intros s HP. split; [done|]. by intros ?? [= <- <-]. Qed.
Lemma alike_deref {X} (P : session -> Prop) (o : option X) : alike P P (deref_ptr o) (deref_ptr o).
Proof. intros s HP. split; [done|]. destruct o; [|done]. by intros ?? [= <- <-]. Qed.
Lemma alike_crash {X} (P Q : session -> Prop) : alike P Q (crash (A := X)) crash.
Proof. intros s HP. by split. Qed.
Lemma alike_modify (P Q : session -> Prop) (f : session -> session) :
  (forall s, P s -> Q (f s)) -> alike P Q (modify f) (modify f).
Proof. intros Hf s HP. split; [done|]. intros ?? [= <- <-]. auto. Qed.

(** * What a run does to the requests *)

Definition dispatch_of (e : session_event R) : list request := match e with DISPATCH_MESSAGE m => [m] | _ => [] end.
(** The requests that were dispatched. *)
Definition dispatched (out : list (session_event R)) : list request := concat (map dispatch_of out).

#[local] Arguments dispatched : simpl never.

Lemma dispatched_snoc out e : dispatched (out ++ [e]) = dispatched out ++ dispatch_of e.
Proof. unfold dispatched. rewrite map_app, concat_app. cbn. by rewrite app_nil_r. Qed.

(** The part of a session these properties are about. *)
Definition requests (s : session) : list request * list request * option request :=
  (dispatched (session_out s), request_queue s, active_request s).

(** Everything but the step to the next request leaves it alone. *)
Section Structure.
Context (P : session -> Prop) (d1 d2 : request -> act bool).
Hypothesis HP : forall s s', requests s = requests s' -> P s -> P s'.
Hypothesis Hnext : alike P P (next_request d1) (next_request d2).

Lemma alike_neutral (f : session -> session) :
  (forall s, requests (f s) = requests s) -> alike P P (modify f) (modify f).
Proof. intros Hf. apply alike_modify. intros s. by apply HP. Qed.

Lemma alike_tell e : dispatch_of e = [] -> alike P P (tell e) (tell e).
Proof.
  intros He. apply alike_neutral. intros s. unfold requests.
  change (dispatched (session_out s ++ [e]), request_queue s, active_request s)
    with (dispatched (session_out s ++ [e]), request_queue s, active_request s).
  cbn [session_out request_queue active_request field_set]. by rewrite dispatched_snoc, He, app_nil_r.
Qed.

Lemma alike_for_each {X} (l : list X) (f g : X -> act unit) :
  (forall x, alike P P (f x) (g x)) -> alike P P (for_each l f) (for_each l g).
Proof.
  intros Hf. induction l as [|x l IH]; cbn [for_each]; [apply alike_ret|]. eapply alike_bind; [apply Hf|auto].
Qed.

Lemma alike_when b (p q : act unit) : alike P P p q -> alike P P (when b p) (when b q).
Proof. destruct b; [done|]. intros _. apply alike_ret. Qed.

Lemma alike_reenter {X} i (p q : act X) : alike P P p q -> agree P (reenter i p) (reenter i q).
Proof.
  intros Hpq m s Hs. unfold reenter, bind, set_channel, modify.
  set (s1 := s <| channels := _ |>). destruct (Hpq s1) as [E H]; [by apply (HP s)|]. rewrite <-E. split; [done|].
  intros a m' s'. destruct (p s1) as [[a' s2]|]; [|done]. destruct (channels s2 !! i) as [c|]; [|done].
  destruct (state_machine c) as [m2|]; [|done]. intros [= <- <- <-]. by eapply H.
Qed.

Lemma alike_machine {X} i (p q : prog (mrcp_state_machine_t * session) X) :
  agree P p q -> alike P P (with_machine i p) (with_machine i q).
Proof.
  intros Hpq s Hs. unfold with_machine. destruct (channels s !! i) as [c|]; [|done].
  destruct (state_machine c) as [m|]; [|done]. destruct (Hpq m s Hs) as [E H]. rewrite <-E. split; [done|].
  intros a s'. destruct (p (m, s)) as [[a' [m' s2]]|]; [|done]. intros [= <- <-]. apply (HP s2); [done|]. by eapply H.
Qed.

Ltac alike_head p := lazymatch p with ?f _ => alike_head f | _ => p end.
Ltac alike_step :=
  lazymatch goal with
  | |- alike _ _ (bind _ _) _ => apply (alike_bind P P P); [|intros]
  | |- alike _ _ (ret _) _ => apply alike_ret
  | |- alike _ _ (gets _) _ => apply alike_gets
  | |- alike _ _ (deref_ptr _) _ => apply alike_deref
  | |- alike _ _ crash _ => apply alike_crash
  | |- alike _ _ (next_request _) _ => exact Hnext
  | |- alike _ _ (tell _) _ => apply alike_tell; reflexivity
  | |- alike _ _ (modify _) _ => apply alike_neutral; intros; try destruct (_ =? 0)%nat; reflexivity
  | |- alike _ _ (when _ _) _ => apply alike_when
  | |- alike _ _ (for_each _ _) _ => apply alike_for_each; intros
  | |- alike _ _ (with_machine _ _) _ => apply alike_machine
  | |- agree _ (machine_update _ _) _ => apply machine_update_agree; [intros|]; unfold on_dispatch, on_deactivate; cbv beta iota delta [session_dispatcher]
  | |- agree _ (machine_deactivate _) _ => apply machine_deactivate_agree; [intros|]; unfold on_dispatch, on_deactivate; cbv beta iota delta [session_dispatcher]
  | |- agree _ (reenter _ _) _ => apply alike_reenter
  | |- alike _ _ (match ?x with _ => _ end) _ => destruct x
  | |- alike _ _ ?p _ => let h := alike_head p in unfold h; cbv beta
  end.
Ltac alikes := repeat alike_step.

Lemma alike_subrequest_remove : alike P P (mrcp_server_session_subrequest_remove d1) (mrcp_server_session_subrequest_remove d2).
Proof. alikes. Qed.

Lemma alike_offer d : alike P P (mrcp_server_session_offer_process d1 d) (mrcp_server_session_offer_process d2 d).
Proof. alikes. Qed.

Lemma alike_receive i m : alike P P (mrcp_server_on_message_receive d1 i m) (mrcp_server_on_message_receive d2 i m).
Proof. alikes. Qed.

Lemma alike_deactivate : alike P P (mrcp_server_session_deactivate d1) (mrcp_server_session_deactivate d2).
Proof. alikes. Qed.

Lemma alike_body (Pre : session -> Prop) m :
  (forall s, Pre s -> P (s <| session_out := session_out s ++ [DISPATCH_MESSAGE m] |>)) ->
  alike Pre P (dispatch_body d1 m) (dispatch_body d2 m).
Proof.
  intros Hpre. unfold dispatch_body. apply (alike_bind Pre P); [apply alike_modify, Hpre|]. intros _.
  apply (alike_bind P P); [|intros; apply alike_ret].
  destruct (type m); [apply alike_offer|apply alike_receive|apply alike_deactivate].
Qed.

(** The messages the task hands to the session, once it may dispatch the one it gets. *)
Lemma alike_task_msg (x : server_task_msg R) :
  match x with
  | MRCP_SERVER_SIGNALING_TASK_MSG _ | CONNECTION_AGENT_TASK_MSG_RECEIVE_MESSAGE _ _
  | CONNECTION_AGENT_TASK_MSG_DISCONNECT _ _ => True
  | _ => d1 = mrcp_server_signaling_message_dispatch -> d2 = d1 -> alike P P (mrcp_server_msg_process x) (mrcp_server_msg_process x)
  end.
Proof. destruct x; try done; intros -> ->; alikes. Qed.
End Structure.

(** * Fuel *)

Lemma next_request_nested k (d1 d2 : request -> act bool) :
  (forall m, alike (fun s => length (request_queue s) < k)%nat (fun s => length (request_queue s) < k)%nat (d1 m) (d2 m)) ->
  alike (fun s => length (request_queue s) < S k)%nat (fun s => length (request_queue s) < S k)%nat (next_request d1) (next_request d2).
Proof.
  intros Hd s Hs. unfold next_request, bind, gets, modify. destruct (request_queue s) as [|m q] eqn:Eq; unfold apt_list_pop_front; cbv beta iota.
  - split; [done|]. intros ?? [= <- <-]. cbn. lia.
  - cbn [length] in Hs. match goal with |- context [d1 m ?x] => set (s1 := x) end.
    destruct (Hd m s1) as [E H]; [cbn; lia|]. rewrite <-E. split; [done|]. intros ??.
    destruct (d1 m s1) as [[b s2]|]; [|done]. intros [= <- <-]. specialize (H _ _ eq_refl). cbv beta in H. lia.
Qed.

Lemma dispatch_nested (out out' : request -> act bool) k : forall n n' m, (k < n)%nat -> (k < n')%nat ->
  alike (fun s => length (request_queue s) < S k)%nat (fun s => length (request_queue s) < S k)%nat (dispatch_from out n m) (dispatch_from out' n' m).
Proof.
  induction k as [|k IH]; intros [|n] [|n'] m Hn Hn'; try lia; cbn [dispatch_from]; apply alike_body;
    try (intros s s' [= _ E _]; cbv beta; by rewrite E); try done.
  - intros s Hs. unfold next_request, bind, gets, modify. destruct (request_queue s) as [|? ?] eqn:Eq; [|cbn in Hs; lia].
    split; [done|]. intros ?? [= <- <-]. cbn. lia.
  - apply next_request_nested. intros m'. apply IH; lia.
Qed.

(** C5: a request that is answered at once dispatches the next one, from inside of the state machine
    that answered; this nesting ends.  A dispatch that may nest more often than there are requests in the
    queue is never cut off: whatever were done in place of a dispatch that is nested too deep ([out], which may return
    anything or change anything), the dispatch is the one of the session, and does not come to it. *)
Theorem dispatch_nesting_ends (out : request -> act bool) (n : nat) (m : request) (s : session) :
  (length (request_queue s) < n)%nat ->
  dispatch_from out n m s = mrcp_server_signaling_message_dispatch m s.
Proof. intros Hn. apply (dispatch_nested out (fun _ => crash) (length (request_queue s)) n (S (length (request_queue s))) m); lia. Qed.

(** * The order of requests *)

(** What arrived for the session: signaling messages, and the messages of control channels. *)
Definition arrived (x : server_task_msg R) : list request :=
  match x with
  | MRCP_SERVER_SIGNALING_TASK_MSG m => [m]
  | CONNECTION_AGENT_TASK_MSG_RECEIVE_MESSAGE i m | CONNECTION_AGENT_TASK_MSG_DISCONNECT i m =>
      [mk_signaling_message SIGNALING_MESSAGE_CONTROL None (Some i) m]
  | _ => []
  end.

Definition in_order (l : list request) (s : session) : Prop :=
  dispatched (session_out s) ++ request_queue s = l /\ (active_request s = None -> request_queue s = []).

Lemma in_order_requests l s s' : requests s = requests s' -> in_order l s -> in_order l s'.
Proof. intros [= E1 E2 E3]. unfold in_order. by rewrite E1, E2, E3. Qed.

Definition about_to_dispatch (l : list request) (m : request) (s : session) : Prop :=
  dispatched (session_out s) ++ m :: request_queue s = l /\ is_Some (active_request s).

Lemma next_request_in_order l (d : request -> act bool) :
  (forall m, alike (about_to_dispatch l m) (in_order l) (d m) (d m)) -> alike (in_order l) (in_order l) (next_request d) (next_request d).
Proof.
  intros Hd s [Hl Ha]. unfold next_request, bind, gets, modify. split; [done|].
  destruct (request_queue s) as [|m q] eqn:Eq; unfold apt_list_pop_front; cbv beta iota.
  - intros ?? [= <- <-]. split; [|done]. cbn. exact Hl.
  - match goal with |- context [d m ?x] => set (s1 := x) end.
    destruct (Hd m s1) as [_ H]; [split; [exact Hl|by exists m]|]. intros ??.
    destruct (d m s1) as [[b s2]|]; [|done]. intros [= <- <-]. by eapply H.
Qed.

Lemma dispatch_fuel_in_order l n : forall m, alike (about_to_dispatch l m) (in_order l) (dispatch_fuel n m) (dispatch_fuel n m).
Proof.
  induction n as [|n IH]; intros m; unfold dispatch_fuel; cbn [dispatch_from]; [apply alike_crash|].
  apply alike_body; [apply in_order_requests|apply next_request_in_order, IH|].
  intros s [Hl [r Hr]]. split.
  - cbn [field_set session_out request_queue]. rewrite dispatched_snoc, <-app_assoc. exact Hl.
  - cbn. by rewrite Hr.
Qed.

Lemma dispatch_in_order l m :
  alike (about_to_dispatch l m) (in_order l) (mrcp_server_signaling_message_dispatch m) (mrcp_server_signaling_message_dispatch m).
Proof. intros s Hs. split; [done|]. intros a s'. by apply dispatch_fuel_in_order. Qed.

Lemma signaling_in_order l m :
  alike (in_order l) (in_order (l ++ [m])) (mrcp_server_signaling_message_process m) (mrcp_server_signaling_message_process m).
Proof.
  intros s [Hl Ha]. split; [done|]. intros a s'. unfold mrcp_server_signaling_message_process, bind at 1, gets at 1.
  destruct (active_request s) as [r|] eqn:Er.
  - unfold bind, modify, ret. intros [= <- <-]. split; cbn; [|by rewrite Er]. unfold apt_list_push_back. by rewrite app_assoc, Hl.
  - rewrite (Ha eq_refl), app_nil_r in Hl. unfold bind, modify, ret. cbv beta iota.
    match goal with |- context [mrcp_server_signaling_message_dispatch m ?x] => set (s1 := x) end.
    destruct (dispatch_in_order (l ++ [m]) m s1) as [_ H].
    { split; [cbn; by rewrite (Ha eq_refl), Hl|by exists m]. }
    destruct (mrcp_server_signaling_message_dispatch m s1) as [[b s2]|]; [|done]. intros [= <- <-]. by eapply H.
Qed.

Lemma task_msg_in_order l x : alike (in_order l) (in_order (l ++ arrived x)) (mrcp_server_msg_process x) (mrcp_server_msg_process x).
Proof.
  pose proof (alike_task_msg (in_order l) mrcp_server_signaling_message_dispatch mrcp_server_signaling_message_dispatch
    (in_order_requests l) (next_request_in_order l _ (dispatch_in_order l)) x) as H.
  destruct x; cbn [arrived]; rewrite ?app_nil_r; try (by apply H); clear H; unfold mrcp_server_msg_process;
    eapply alike_bind; try apply signaling_in_order; intros; apply alike_ret.
Qed.

(** C4: the requests to a session, of whatever kind, are dispatched in the order they arrive, none twice
    and none left out: those dispatched so far are the first ones that arrived, the others wait in the queue, and none
    waits while the session is idle. *)
Theorem session_requests_in_order (p : mrcp_profile_t) (es : gmap addr mrcp_engine_t) (l : list (server_task_msg R)) (s' : session) :
  session_run l (mrcp_server_session_create p es) = Some (tt, s') ->
  dispatched (session_out s') ++ request_queue s' = concat (map arrived l) /\
  (active_request s' = None -> request_queue s' = []).
Proof.
  assert (Hrun : forall l k s, in_order k s -> session_run l s = Some (tt, s') -> in_order (k ++ concat (map arrived l)) s').
  { clear l. induction l as [|x l IH]; intros k s Hs; cbn [session_run map concat].
    - intros [= <-]. by rewrite app_nil_r.
    - unfold bind. destruct (mrcp_server_msg_process x s) as [[b s1]|] eqn:E; [|done]. intros E'.
      rewrite app_assoc. eapply IH; [|done]. by eapply (task_msg_in_order k x s). }
  intros E. by apply (Hrun l [] (mrcp_server_session_create p es)).
Qed.

(** * A session that waits for good *)

(** A session whose request was given up waits for an answer: what arrives is queued. *)
Lemma requests_queued (l : list request) : forall s, is_Some (active_request s) ->
  session_run (map MRCP_SERVER_SIGNALING_TASK_MSG l) s = Some (tt, s <| request_queue := request_queue s ++ l |>).
Proof.
  induction l as [|m l IH]; intros s Hs; cbn [map session_run].
  - unfold ret. do 2 f_equal. destruct s. cbn. by rewrite app_nil_r.
  - destruct (active_request s) as [r|] eqn:Er; [|by destruct Hs].
    unfold bind at 1. unfold mrcp_server_msg_process, mrcp_server_signaling_message_process.
    unfold bind at 1, bind at 1, bind at 1, gets, bind at 1. rewrite Er. unfold modify, bind, ret. rewrite IH by (cbn; by rewrite Er).
    do 2 f_equal. unfold field_set, apt_list_push_back. cbn. by rewrite <-app_assoc.
Qed.

(** C35: a control message for a resource the session has no channel for is not answered, and nothing after it
    is served: the requests that follow, to terminate the session among them, stay in the queue. *)
Theorem session_stuck (s : session) (m : request) (x : message) (l : list request) :
  active_request s = None -> request_queue s = [] -> type m = SIGNALING_MESSAGE_CONTROL -> sig_channel m = None ->
  sig_message m = Some x -> channel_search (channels s) 0 (resource_name (channel_id x)) = Some None ->
  exists s', session_run (map MRCP_SERVER_SIGNALING_TASK_MSG (m :: l)) s = Some (tt, s') /\
    session_out s' = session_out s ++ [DISPATCH_MESSAGE m] /\ active_request s' = Some m /\ request_queue s' = l.
Proof.
  intros Ha Hq Ht Hc Hx Hfind. cbn [map session_run]. set (s1 := (s <| active_request := Some m |>)
    <| session_out := session_out s ++ [DISPATCH_MESSAGE m] |>).
  assert (E : mrcp_server_msg_process (MRCP_SERVER_SIGNALING_TASK_MSG m) s = Some (true, s1)).
  { unfold mrcp_server_msg_process, mrcp_server_signaling_message_process, bind, gets. rewrite Ha. unfold modify.
    unfold mrcp_server_signaling_message_dispatch. unfold dispatch_fuel; cbn [dispatch_from]. unfold dispatch_body, bind, tell, modify. rewrite Ht.
    unfold mrcp_server_on_message_receive, bind, mrcp_server_channel_find, gets. rewrite Hc, Hx. unfold deref_ptr, ret, bind. cbn [channels field_set].
    rewrite Hfind. reflexivity. }
  unfold bind. rewrite E. rewrite requests_queued by (by exists m). eexists. split; [reflexivity|].
  split; [done|]. split; [done|]. cbn. by rewrite Hq.
Qed.
End Runs.

(** * The theorems at concrete runs *)

#[local] Existing Instance apr_reference.
#[local] Existing Instance apr_reference_laws.
#[local] Existing Instance float_integers.
#[local] Existing Instance apr_hash_reference.
#[local] Existing Instance synth_machines.
#[local] Existing Instance synth_machines_laws.
#[local] Existing Instance sample_world.

Definition terminate_request : mrcp_signaling_message_t mrcp_synth_header_t :=
  mk_signaling_message SIGNALING_MESSAGE_TERMINATE None None None.
Definition stray_request : mrcp_signaling_message_t mrcp_synth_header_t :=
  mk_signaling_message SIGNALING_MESSAGE_CONTROL None None (Some (sample_synth_request SYNTHESIZER_SPEAK 1)).

Lemma dispatch_nesting_ends_witness :
  exists r, mrcp_server_signaling_message_dispatch terminate_request (sample_session MRCP_VERSION_1) = Some r /\
    forall out, dispatch_from out 9 terminate_request (sample_session MRCP_VERSION_1) = Some r.
Proof.
  assert (Hrun : (if mrcp_server_signaling_message_dispatch terminate_request (sample_session MRCP_VERSION_1) then true else false) = true)
    by (vm_compute; reflexivity).
  destruct (mrcp_server_signaling_message_dispatch _ _) as [r|] eqn:E; [|discriminate].
  exists r. split; [reflexivity|]. intros out. rewrite <-E.
  apply (dispatch_nesting_ends out 9 terminate_request (sample_session MRCP_VERSION_1)). apply Nat.ltb_lt. vm_compute. reflexivity.
Defined.

Lemma session_requests_in_order_witness :
  match session_run (offer_exchange ++ stop_race) (sample_session MRCP_VERSION_2) with
  | Some (_, s) => dispatched (session_out s) ++ request_queue s = concat (map arrived (offer_exchange ++ stop_race))
  | None => False
  end.
Proof.
  assert (Hrun : (if session_run (offer_exchange ++ stop_race) (sample_session MRCP_VERSION_2) then true else false) = true)
    by (vm_compute; reflexivity).
  destruct (session_run _ _) as [[[] s]|] eqn:E; [|discriminate].
  exact (proj1 (session_requests_in_order _ _ _ s E)).
Defined.

Lemma session_stuck_witness :
  exists s, session_run (map MRCP_SERVER_SIGNALING_TASK_MSG [stray_request; terminate_request]) (sample_session MRCP_VERSION_1) = Some (tt, s) /\
    request_queue s = [terminate_request].
Proof.
  destruct (session_stuck (sample_session MRCP_VERSION_1) stray_request (sample_synth_request SYNTHESIZER_SPEAK 1) [terminate_request])
    as (s & E & _ & _ & H); try reflexivity. by exists s.
Defined.
