(* ===== verification/ServerOffer.v ===== *)
(** The exchange of an offer and its answer in a session of the server: the session counts what it
    asked the connection agent, the media engine and the plugins for, and sends its answer when,
    and only when, everything it asked for was answered. *)

From S2P Require Import Prelude AprHash AptString TextStream TextValues HeaderField TextMessage StartLine MrcpHeader GenericHeader Message FloatValue SynthHeader StateMachine SynthStateMachine ResourceFactory Transport CodecDescriptor MediaDescriptor Engine SessionMachines ServerSession ServerSessionRaces.

(** * Sums over lists *)

Section Sums.
Context {X : Type} (f : X -> nat).
Definition total (l : list X) : nat := sum_list (map f l).

Lemma total_nil : total [] = 0%nat.
Proof. done. Qed.
Lemma total_app l l' : total (l ++ l') = (total l + total l')%nat.
Proof. unfold total. rewrite map_app. induction (map f l) as [|x k IH]; cbn; [done|]. rewrite IH. lia. Qed.
Lemma total_snoc l x : total (l ++ [x]) = (total l + f x)%nat.
Proof. rewrite total_app. unfold total. cbn. lia. Qed.
Lemma total_alter (g : X -> X) (i : nat) l x :
  l !! i = Some x -> (total (alter g i l) + f x = total l + f (g x))%nat.
Proof.
  revert i. induction l as [|y l IH]; intros [|i]; cbn; try done.
  - intros [= ->]. unfold total. cbn. lia.
  - intros Hx. specialize (IH i Hx). unfold total in *. change (alter g (S i) (y :: l)) with (y :: alter g i l). cbn. lia.
Qed.
Lemma total_alter_same (g : X -> X) (i : nat) l : (forall x, f (g x) = f x) -> total (alter g i l) = total l.
Proof.
  intros Hg. destruct (l !! i) as [x|] eqn:E; [pose proof (total_alter g i l x E); rewrite Hg in H; lia|].
  f_equal. clear Hg. revert i E. induction l as [|y l IH]; intros [|i] E; try done. cbn in E.
  change (alter g (S i) (y :: l)) with (y :: alter g i l). by rewrite IH.
Qed.
Lemma total_zero l x i : total l = 0%nat -> l !! i = Some x -> f x = 0%nat.
Proof.
  revert i. induction l as [|y l IH]; intros [|i] H E; try done; unfold total in H; cbn in H, E.
  - injection E as <-. lia.
  - apply (IH i); [unfold total; lia|done].
Qed.
End Sums.
#[local] Arguments total : simpl never.

Section Exchange.
Context `{A : Apr} {R : Type} {SM : StateMachines R} {Hash : AprHash (mrcp_resource_t R)} {Table : AprHash addr}
  {World : ServerWorld R}.
Abbreviation session := (mrcp_server_session_t R).
Abbreviation act := (prog session).
Abbreviation total_wp := (wp False).

(** * What is outstanding *)

(** The requests whose answers are counted but not awaited by a flag: associations and topology,
    and the opening and closing of engine channels. *)
Definition plain_message (m : mpf_message_t) : nat :=
  match command_id m with
  | MPF_ADD_TERMINATION | MPF_MODIFY_TERMINATION | MPF_SUBTRACT_TERMINATION => 0
  | _ => 1
  end.
Definition plain_event (e : session_event R) : nat :=
  match e with
  | ENGINE_CHANNEL_OPEN _ a | ENGINE_CHANNEL_CLOSE _ a => Nat.b2n a
  | MPF_TASK_MESSAGE l => total plain_message l
  | _ => 0
  end.
Definition asked (s : session) : nat :=
  (total plain_event (session_out s) + total plain_message (default [] (mpf_task_msg s)))%nat.

(** The flags of the channels and slots that wait. *)
Definition channel_flags (c : mrcp_channel_t) : nat := (Nat.b2n (waiting_for_channel c) + Nat.b2n (waiting_for_termination c))%nat.
Definition slot_flag (x : mrcp_termination_slot_t) : nat := Nat.b2n (waiting x).
Definition flags (s : session) : nat := (total channel_flags (channels s) + total slot_flag (terminations s))%nat.

Definition answer_event (e : session_event R) : nat := match e with ANSWER _ => 1 | _ => 0 end.
Definition answers (s : session) : nat := total answer_event (session_out s).

(** The engines of the profile are usable. *)
Definition engines_ok (s : session) : Prop :=
  forall n a, apr_hash_get (engine_table (profile s)) n = Some a ->
  exists e, engines s !! a = Some e /\ is_Some (create_state_machine e) /\ is_Some (config e).

(** An offer of a client. *)
Definition is_offer (m : mrcp_signaling_message_t R) : Prop := type m = SIGNALING_MESSAGE_OFFER /\ is_Some (descriptor m).

(** [b]: the plain requests answered so far; [k]: the offers so far, which were answered, are processed
    or wait in the queue, and a number of plain requests that were asked for. *)
Record exchange (b : Z) (k : nat * nat) (st : mrcp_server_session_state_e) (s : session) : Prop := {
  ex_count : Z.of_nat (subrequest_count s) + b = Z.of_nat (flags s) + Z.of_nat (asked s);
  ex_answers : S (answers s + length (request_queue s)) = fst k;
  ex_asked : (snd k <= asked s)%nat;
  ex_state : state s = st;
  ex_resources : Forall (fun c => is_Some (ch_resource c)) (channels s);
  ex_engines : engines_ok s;
  ex_offer : is_Some (offer s);
  ex_answer : is_Some (answer s);
  ex_active : is_Some (active_request s);
  ex_queue : Forall is_offer (request_queue s);
  ex_settings : is_Some (rtp_settings (profile s))
}.

(** * The steps of the session keep the account *)

Definition objects (s : session) := (profile s, engines s, active_request s, request_queue s).

Lemma exchange_move b b' k st s s' : exchange b k st s -> objects s = objects s' ->
  is_Some (offer s') -> is_Some (answer s') -> answers s' = answers s -> state s' = state s ->
  Forall (fun c => is_Some (ch_resource c)) (channels s') ->
  (asked s <= asked s')%nat /\ Z.of_nat (subrequest_count s') + b' = Z.of_nat (flags s') + Z.of_nat (asked s') -> exchange b' k st s'.
Proof.
  intros [H1 H2 H0 H3 H4 H5 H6 H7 H8 H9 H10] [= O1 O2 O5 O6] Ho Hn Ha Hs Hc [Hm Hb].
  split; rewrite ?Ha, ?Hs, <-?O1, <-?O5, <-?O6; try done; try lia.
  unfold engines_ok. by rewrite <-O1, <-O2.
Qed.

Lemma channel_resource b k st s i c : exchange b k st s -> channels s !! i = Some c -> is_Some (ch_resource c).
Proof. intros He Hc. exact (proj1 (Forall_lookup _ _) (ex_resources _ _ _ _ He) i c Hc). Qed.

(** The arrays of a session. *)
Definition same_arrays (s s' : session) : Prop := channels s' = channels s /\ terminations s' = terminations s.

Lemma tell_wp b k st e s :
  plain_event e = 0%nat -> answer_event e = 0%nat -> exchange b k st s ->
  total_wp (tell e) s (fun _ s' => exchange b k st s' /\ same_arrays s s').
Proof.
  intros H1 H2 He. apply wp_modify. split; [|done]. apply (exchange_move _ _ _ _ _ _ He); try done; try apply He.
  - unfold answers. cbn [session_out field_set]. rewrite total_snoc, H2. lia.
  - pose proof (ex_count _ _ _ _ He) as Hn. unfold flags, asked in *.
    cbn [subrequest_count channels terminations session_out mpf_task_msg field_set]. rewrite total_snoc, H1, Nat.add_0_r. by split.
Qed.

Lemma subrequest_add_wp b k st s : exchange b k st s ->
  total_wp mrcp_server_session_subrequest_add s (fun _ s' => exchange (b - 1) k st s' /\ same_arrays s s').
Proof.
  intros He. apply wp_modify. split; [|done]. apply (exchange_move _ _ _ _ _ _ He); try done; try apply He.
  pose proof (ex_count _ _ _ _ He) as Hn. unfold flags, asked in *.
  cbn [subrequest_count channels terminations session_out mpf_task_msg field_set]. split; lia.
Qed.

(** Flags of a channel or of a slot that change. *)
Lemma set_channel_wp b k st i c (f : mrcp_channel_t -> mrcp_channel_t) s :
  exchange b k st s -> channels s !! i = Some c -> is_Some (ch_resource (f c)) ->
  total_wp (set_channel i f) s (fun _ s' =>
    exchange (b + Z.of_nat (channel_flags (f c)) - Z.of_nat (channel_flags c)) k st s' /\
    channels s' = alter f i (channels s) /\ terminations s' = terminations s).
Proof.
  intros He Hc Hr. apply wp_modify. split; [|done]. apply (exchange_move _ _ _ _ _ _ He); try done; try apply He.
  - cbn [channels field_set]. apply Forall_lookup. intros j x Hx. pose proof (proj1 (Forall_lookup _ _) (ex_resources _ _ _ _ He)) as Hall.
    destruct (decide (i = j)) as [<-|Hne].
    + rewrite list_lookup_alter_eq, Hc in Hx. by injection Hx as <-.
    + rewrite list_lookup_alter_ne in Hx by done. by eapply Hall.
  - pose proof (ex_count _ _ _ _ He) as Hn. pose proof (total_alter channel_flags f i _ _ Hc). unfold flags, asked in *.
    cbn [subrequest_count channels terminations session_out mpf_task_msg field_set]. split; lia.
Qed.

Lemma set_slot_wp b k st i x (f : mrcp_termination_slot_t -> mrcp_termination_slot_t) s :
  exchange b k st s -> terminations s !! i = Some x ->
  total_wp (set_slot i f) s (fun _ s' =>
    exchange (b + Z.of_nat (slot_flag (f x)) - Z.of_nat (slot_flag x)) k st s' /\
    channels s' = channels s /\ terminations s' = alter f i (terminations s)).
Proof.
  intros He Hx. apply wp_modify. split; [|done]. apply (exchange_move _ _ _ _ _ _ He); try done; try apply He.
  pose proof (ex_count _ _ _ _ He) as Hn. pose proof (total_alter slot_flag f i _ _ Hx). unfold flags, asked in *.
  cbn [subrequest_count channels terminations session_out mpf_task_msg field_set]. split; lia.
Qed.

(** A message to the media engine. *)
Lemma message_get_wp m s :
  total_wp (mpf_engine_message_get m) s (fun ok s' => ok = true /\ asked s' = (asked s + plain_message m)%nat /\
    answers s' = answers s /\ s' = s <| session_out := session_out s' |> <| mpf_task_msg := mpf_task_msg s' |>).
Proof.
  unfold mpf_engine_message_get. apply wp_bind, wp_gets, wp_bind.
  assert (Hlast : forall s1 : session, asked s1 = asked s -> answers s1 = answers s ->
    s1 = s <| session_out := session_out s1 |> <| mpf_task_msg := mpf_task_msg s1 |> ->
    total_wp (modify (fun s : session => s <| mpf_task_msg := Some (default [] (mpf_task_msg s) ++ [m]) |>) ;;; ret true) s1
      (fun ok s' => ok = true /\ asked s' = (asked s + plain_message m)%nat /\ answers s' = answers s /\
        s' = s <| session_out := session_out s' |> <| mpf_task_msg := mpf_task_msg s' |>)).
  { intros s1 E1 E2 E3. apply wp_bind, wp_modify, wp_ret. split; [done|]. split; [|split; [exact E2|]].
    - rewrite <-E1. unfold asked. cbn [session_out mpf_task_msg field_set from_option]. unfold id. rewrite total_snoc. lia.
    - rewrite E3. done. }
  destruct (mpf_task_msg s) as [l|] eqn:El.
  - destruct (MAX_MPF_MESSAGE_COUNT <=? length l)%nat.
    + unfold mpf_engine_message_send. apply wp_bind, wp_bind, wp_gets. rewrite El. apply wp_bind, wp_modify, wp_bind, wp_modify, wp_ret, wp_ret.
      apply Hlast.
      * unfold asked. cbn [session_out mpf_task_msg field_set]. rewrite total_snoc, El. cbn. rewrite total_nil. lia.
      * unfold answers. cbn [session_out field_set]. rewrite total_snoc. cbn. lia.
      * done.
    + apply wp_ret. apply Hlast; try done. destruct s; done.
  - apply wp_ret. apply Hlast; try done. destruct s; done.
Qed.

Lemma message_wp b k st m s : exchange b k st s ->
  total_wp (mpf_engine_message_get m) s (fun ok s' => ok = true /\ exchange (b + Z.of_nat (plain_message m)) k st s' /\ same_arrays s s').
Proof.
  intros He. eapply wp_weaken; [apply message_get_wp|]. intros ok s' (Hok & Ha & Hk & Hs). split; [done|].
  assert (Hf : flags s' = flags s /\ subrequest_count s' = subrequest_count s /\ objects s = objects s' /\ state s' = state s /\
    offer s' = offer s /\ answer s' = answer s /\ same_arrays s s') by (rewrite Hs; done).
  destruct Hf as (Hf & Hc & Ho & Hst & Ho1 & Ho2 & Harr). split; [|done]. apply (exchange_move _ _ _ _ _ _ He); try done; try apply He.
  - rewrite Ho1. apply He.
  - rewrite Ho2. apply He.
  - destruct Harr as [-> _]. apply He.
  - rewrite Hf, Hc, Ha. pose proof (ex_count _ _ _ _ He). split; lia.
Qed.

(** Apply the rule of a step and take what it leaves. *)
Ltac wp_use L := eapply wp_weaken; [eapply L; eauto|]; cbv beta.

Lemma same_arrays_trans s1 s2 s3 : same_arrays s1 s2 -> same_arrays s2 s3 -> same_arrays s1 s3.
Proof. intros [? ?] [? ?]. split; congruence. Qed.

Definition plain_command (c : mpf_command_type_e) : nat :=
  match c with MPF_ADD_TERMINATION | MPF_MODIFY_TERMINATION | MPF_SUBTRACT_TERMINATION => 0 | _ => 1 end.

Lemma topology_ask_wp b k st c s : plain_command c = 1%nat -> exchange b k st s ->
  total_wp (let* ok := mpf_engine_topology_message_add c in when ok mrcp_server_session_subrequest_add) s
    (fun _ s' => exchange b k st s' /\ same_arrays s s').
Proof.
  intros Hc He. unfold mpf_engine_topology_message_add. apply wp_bind, wp_bind, wp_gets. wp_use message_wp.
  intros ok s1 (-> & He1 & Ha1). change (plain_message _) with (plain_command c) in He1. rewrite Hc in He1. cbn [when].
  wp_use subrequest_add_wp. intros _ s2 [He2 Ha2]. split; [|by eapply same_arrays_trans].
  by replace (b + Z.of_nat 1 - 1) with b in He2 by lia.
Qed.

(** ** Channels *)

(** Only channel [i] differs. *)
Definition only_channel (i : nat) (s s' : session) : Prop :=
  (forall j, j <> i -> channels s' !! j = channels s !! j) /\ length (channels s') = length (channels s) /\
  terminations s' = terminations s.

Lemma only_channel_refl i s : only_channel i s s.
Proof. done. Qed.
Lemma only_channel_trans i s1 s2 s3 : only_channel i s1 s2 -> only_channel i s2 s3 -> only_channel i s1 s3.
Proof. intros (H1 & H2 & H3) (K1 & K2 & K3). split; [|split; congruence]. intros j Hj. rewrite K1, H1; done. Qed.
Lemma only_channel_same i s s' : same_arrays s s' -> only_channel i s s'.
Proof. intros [E1 E2]. split; [|split]; try congruence. Qed.
Lemma only_channel_alter i f s s' : channels s' = alter f i (channels s) -> terminations s' = terminations s -> only_channel i s s'.
Proof.
  intros E1 E2. split; [|split; [by rewrite E1, length_alter|done]]. intros j Hj. rewrite E1. by apply list_lookup_alter_ne.
Qed.

(** A flag of channel [i] that is raised for a request. *)
Lemma flag_channel_wp b k st i c (f : mrcp_channel_t -> mrcp_channel_t) s :
  exchange b k st s -> channels s !! i = Some c -> channel_flags (f c) = S (channel_flags c) -> ch_resource (f c) = ch_resource c ->
  total_wp (set_channel i f ;;; mrcp_server_session_subrequest_add) s (fun _ s' =>
    exchange b k st s' /\ channels s' = alter f i (channels s) /\ terminations s' = terminations s).
Proof.
  intros He Hc Hf Hr. apply wp_bind. wp_use set_channel_wp.
  { rewrite Hr. by eapply channel_resource. }
  intros _ s1 (He1 & Hc1 & Ht1). wp_use subrequest_add_wp. intros _ s2 (He2 & Ha2 & Hb2).
  split; [|split; congruence]. rewrite Hf in He2.
  by replace (b + Z.of_nat (S (channel_flags c)) - Z.of_nat (channel_flags c) - 1) with b in He2 by lia.
Qed.

Lemma engine_termination_add_wp b k st i c c0 s :
  exchange b k st s -> channels s !! i = Some c -> waiting_for_termination c = false ->
  total_wp (engine_termination_add i c0) s (fun _ s' => exchange b k st s' /\ only_channel i s s').
Proof.
  intros He Hc Hw. unfold engine_termination_add. destruct (engine_termination i c0) as [t|]; [|by apply wp_ret].
  unfold mpf_engine_termination_message_add. apply wp_bind, wp_bind, wp_gets. wp_use message_wp.
  intros ok s1 (-> & He1 & Ha1 & Hb1). cbn [when plain_message mpf_request command_id] in *. rewrite Z.add_0_r in He1.
  eapply wp_weaken; [eapply (flag_channel_wp _ _ _ _ c); try done; [congruence|unfold channel_flags; cbn; rewrite Hw; cbn; lia]|].
  cbv beta. intros _ s2 (He2 & Hc2 & Ht2). split; [done|]. eapply only_channel_trans; [|by eapply only_channel_alter].
  by apply only_channel_same.
Qed.

(** The answer is written, the account stays. *)
Lemma set_answer_wp b k st f s : exchange b k st s ->
  total_wp (set_answer f) s (fun _ s' => exchange b k st s' /\ same_arrays s s').
Proof.
  intros He. destruct (ex_answer _ _ _ _ He) as [a Ha]. unfold set_answer. apply wp_bind, wp_gets. rewrite Ha.
  apply wp_bind, wp_deref, wp_modify. split; [|done]. apply (exchange_move _ _ _ _ _ _ He); try done; try apply He.
  split; [done|apply He].
Qed.
Lemma set_offer_wp b k st f s : exchange b k st s ->
  total_wp (set_offer f) s (fun _ s' => exchange b k st s' /\ same_arrays s s').
Proof.
  intros He. destruct (ex_offer _ _ _ _ He) as [a Ha]. unfold set_offer. apply wp_bind, wp_gets. rewrite Ha.
  apply wp_bind, wp_deref, wp_modify. split; [|done]. apply (exchange_move _ _ _ _ _ _ He); try done; try apply He.
  split; [done|apply He].
Qed.
Lemma get_offer_wp b k st s (Q : mrcp_session_descriptor_t -> session -> Prop) : exchange b k st s ->
  (forall o, offer s = Some o -> Q o s) -> total_wp get_offer s Q.
Proof.
  intros He HQ. destruct (ex_offer _ _ _ _ He) as [o Ho]. unfold get_offer. apply wp_bind, wp_gets, wp_deref. rewrite Ho. by apply HQ.
Qed.
Lemma get_channel_wp i c s (Q : mrcp_channel_t -> session -> Prop) : channels s !! i = Some c -> Q c s -> total_wp (get_channel i) s Q.
Proof. intros Hc HQ. unfold get_channel. apply wp_bind, wp_gets, wp_deref. by rewrite Hc. Qed.
Lemma get_slot_wp i x s (Q : mrcp_termination_slot_t -> session -> Prop) : terminations s !! i = Some x -> Q x s -> total_wp (get_slot i) s Q.
Proof. intros Hc HQ. unfold get_slot. apply wp_bind, wp_gets, wp_deref. by rewrite Hc. Qed.

Lemma control_media_refuse_wp b k st i c d s : exchange b k st s -> channels s !! i = Some c ->
  total_wp (control_media_refuse i d) s (fun _ s' => exchange b k st s' /\ same_arrays s s').
Proof.
  intros He Hc. unfold control_media_refuse. apply wp_bind. eapply get_channel_wp; [done|].
  destruct (waiting_for_channel c); [by apply wp_ret|]. apply wp_bind, wp_gets. by apply set_answer_wp.
Qed.

(** The request to the connection agent and the answer without one. *)
Lemma control_ask_wp b k st i c d e s :
  exchange b k st s -> channels s !! i = Some c -> waiting_for_channel c = false -> plain_event e = 0%nat -> answer_event e = 0%nat ->
  total_wp (when (control_channel c)
      (tell e ;;; set_channel i (fun c => c <| waiting_for_channel := true |>) ;;; mrcp_server_session_subrequest_add) ;;;
    control_media_refuse i d) s (fun _ s' => exchange b k st s' /\ only_channel i s s' /\
      exists c', channels s' !! i = Some c' /\ waiting_for_termination c' = waiting_for_termination c).
Proof.
  intros He Hc Hw Hp Hn. apply wp_bind. destruct (control_channel c); cbn [when].
  - apply wp_bind. wp_use tell_wp. intros _ s1 (He1 & Ha1 & Hb1).
    eapply wp_weaken; [eapply (flag_channel_wp _ _ _ _ c); try done; [congruence|unfold channel_flags; cbn; rewrite Hw; cbn; lia]|].
    cbv beta. intros _ s2 (He2 & Hc2 & Ht2).
    assert (Hl : channels s2 !! i = Some (c <| waiting_for_channel := true |>)) by (by rewrite Hc2, list_lookup_alter_eq, Ha1, Hc).
    wp_use control_media_refuse_wp. intros _ s3 (He3 & Ha3 & Hb3). split; [done|]. split.
    + eapply only_channel_trans; [by apply only_channel_same|]. eapply only_channel_trans; [by eapply only_channel_alter|by apply only_channel_same].
    + eexists. rewrite Ha3, Hl. by split.
  - apply wp_ret. wp_use control_media_refuse_wp. intros _ s3 (He3 & Ha3 & Hb3). split; [done|].
    split; [by apply only_channel_same|]. exists c. by rewrite Ha3.
Qed.

Lemma control_channel_update_wp b k st i c s :
  exchange b k st s -> channels s !! i = Some c -> waiting_for_channel c = false ->
  total_wp (control_channel_update i) s (fun _ s' => exchange b k st s' /\ only_channel i s s').
Proof.
  intros He Hc Hw. unfold control_channel_update. apply wp_bind.
  eapply wp_weaken; [eapply (set_channel_wp _ _ _ _ c); try done; exact (channel_resource _ _ _ _ _ _ He Hc)|].
  cbv beta. intros _ s1 (He1 & Hc1 & Ht1). set (c1 := c <| waiting_for_channel := false |>) in *.
  assert (E1 : channel_flags c1 = channel_flags c) by (unfold channel_flags; cbn; by rewrite Hw). rewrite E1 in He1.
  replace (b + Z.of_nat (channel_flags c) - Z.of_nat (channel_flags c)) with b in He1 by lia.
  assert (Hl : channels s1 !! i = Some c1) by (by rewrite Hc1, list_lookup_alter_eq, Hc).
  apply wp_bind. eapply get_offer_wp; [done|]. intros o Ho.
  destruct (mrcp_session_control_media_get o i) as [d|]; [|apply wp_ret; split; [done|by eapply only_channel_alter]].
  apply wp_bind. eapply get_channel_wp; [done|]. wp_use control_ask_wp.
  intros _ s2 (He2 & Ho2 & _). split; [done|]. eapply only_channel_trans; [by eapply only_channel_alter|done].
Qed.

Lemma wp_for_seq (I : nat -> session -> Prop) (f : nat -> act unit) n : forall a s, I a s ->
  (forall j s, (a <= j < a + n)%nat -> I j s -> total_wp (f j) s (fun _ s' => I (S j) s')) ->
  total_wp (for_each (seq a n) f) s (fun _ s' => I (a + n)%nat s').
Proof.
  induction n as [|n IH]; intros a s Hs Hf; cbn [seq for_each].
  - apply wp_ret. by rewrite Nat.add_0_r.
  - apply wp_bind. eapply wp_weaken; [apply Hf; [lia|done]|]. cbv beta. intros _ s1 H1.
    replace (a + S n)%nat with (S a + n)%nat by lia. apply IH; [done|]. intros j s2 Hj. apply Hf. lia.
Qed.

Lemma engine_channel_create_wp b k st n s : exchange b k st s ->
  total_wp (mrcp_server_engine_channel_create n) s (fun _ s' => exchange b k st s' /\ same_arrays s s').
Proof.
  intros He. unfold mrcp_server_engine_channel_create. apply wp_bind, wp_gets.
  destruct (apr_hash_get (engine_table (profile s)) (str_data n)) as [a|] eqn:Ea; [|by apply wp_ret].
  destruct (ex_engines _ _ _ _ He _ _ Ea) as (e & Ee & [mk Hmk] & [cfg Hcfg]).
  apply wp_bind, wp_deref. rewrite Ee. apply wp_bind, wp_deref. rewrite Hmk. apply wp_bind, wp_gets, wp_bind, wp_deref.
  set (created := plugin_create_channel _ _). set (v := mrcp_version _).
  assert (Hr : exists c e', mrcp_engine_channel_virtual_create v created e = Some (c, e') /\
    create_state_machine e' = create_state_machine e /\ config e' = config e).
  { unfold mrcp_engine_channel_virtual_create. destruct (engine_is_open e); cbn [negb]; [|by eexists _, _]. rewrite Hcfg.
    destruct (_ && _); [by eexists _, _|]. destruct created; by eexists _, _. }
  destruct Hr as (c & e' & -> & E1 & E2). cbv beta iota. apply wp_bind, wp_modify, wp_bind.
  set (s1 := s <| engines := _ |>).
  assert (He1 : exchange b k st s1).
  { destruct He as [H1 H2 H0 H3 H4 H5 H6 H7 H8 H9 H10]. split; try done. intros n' a' Ha'.
    destruct (decide (a' = a)) as [->|Hne].
    - exists e'. split; [by apply lookup_insert_eq|]. rewrite E1, E2, Hmk, Hcfg. split; by eexists.
    - destruct (H5 _ _ Ha') as (x & Hx & Hx'). exists x. split; [|done]. cbn. by rewrite lookup_insert_ne. }
  wp_use tell_wp; [done..|]. intros _ s2 (He2 & Ha2). by apply wp_ret.
Qed.

Lemma channel_create_wp b k st n id cm s : exchange b k st s ->
  total_wp (mrcp_server_channel_create n id cm) s (fun c s' => exchange b k st s' /\ same_arrays s s' /\
    waiting_for_channel c = false /\ waiting_for_termination c = false).
Proof.
  intros He. unfold mrcp_server_channel_create.
  assert (Hfail : forall st' (c : mrcp_channel_t) s, exchange b k st s -> waiting_for_channel c = false -> waiting_for_termination c = false ->
    total_wp (answer_status st' ;;; ret c) s (fun c s' => exchange b k st s' /\ same_arrays s s' /\
      waiting_for_channel c = false /\ waiting_for_termination c = false)).
  { intros st' c s0 He0 ??. apply wp_bind. unfold answer_status. wp_use set_answer_wp. intros _ s1 [He1 Ha1]. by apply wp_ret. }
  destruct (str_buf n); [|by apply Hfail]. apply wp_bind, wp_gets.
  destruct (mrcp_resource_find _ n) as [r|]; [|by apply Hfail]. apply wp_bind. wp_use engine_channel_create_wp.
  intros [m [e|]] s1 [He1 Ha1]; cbn [fst snd].
  - apply wp_ret. done.
  - eapply wp_weaken; [by apply Hfail|]. cbv beta. intros c s2 (He2 & Ha2 & ?). split; [done|]. split; [|done].
    by eapply same_arrays_trans.
Qed.

(** A new channel raises no flag. *)
Lemma channel_push_wp b k st c s : exchange b k st s -> is_Some (ch_resource c) -> channel_flags c = 0%nat ->
  total_wp (modify (fun s => s <| channels := channels s ++ [c] |>)) s (fun _ s' => exchange b k st s' /\
    channels s' = channels s ++ [c] /\ terminations s' = terminations s).
Proof.
  intros He Hr Hf. apply wp_modify. split; [|done]. apply (exchange_move _ _ _ _ _ _ He); try done; try apply He.
  - apply Forall_app. split; [apply He|]. by constructor.
  - pose proof (ex_count _ _ _ _ He) as Hn. unfold flags, asked in *.
    cbn [subrequest_count channels terminations session_out mpf_task_msg field_set]. rewrite total_snoc, Hf. split; lia.
Qed.

Lemma control_channel_new_wp b k st i s : exchange b k st s ->
  total_wp (control_channel_new i) s (fun _ s' => exchange b k st s' /\ terminations s' = terminations s).
Proof.
  intros He. unfold control_channel_new. apply wp_bind. eapply get_offer_wp; [done|]. intros o Ho.
  destruct (mrcp_session_control_media_get o i) as [d|]; [|by apply wp_ret].
  apply wp_bind. wp_use channel_create_wp. intros c s1 (He1 & [Ha1 Hb1] & W1 & W2).
  destruct (ch_resource c) as [r|] eqn:Er; [|by apply wp_ret]. apply wp_bind, wp_gets, wp_bind.
  wp_use set_offer_wp. intros _ s2 (He2 & Ha2 & Hb2). apply wp_bind.
  eapply wp_weaken; [apply (channel_push_wp _ _ _ c _ He2); [by rewrite Er|unfold channel_flags; by rewrite W1, W2]|]. cbv beta.
  intros _ s3 (He3 & Hc3 & Ht3).
  assert (Hl : channels s3 !! length (channels s1) = Some c) by (rewrite Hc3, Ha2; by apply list_lookup_middle).
  set (d' := d <| desc_session_id := base_id s1 |>).
  assert (Hask : forall p : act unit, (forall s4, exchange b k st s4 /\ only_channel (length (channels s1)) s3 s4 /\
      (exists c', channels s4 !! length (channels s1) = Some c' /\ waiting_for_termination c' = waiting_for_termination c) ->
      total_wp p s4 (fun _ s' => exchange b k st s' /\ terminations s' = terminations s)) ->
    total_wp (when (control_channel c) (tell (CONTROL_CHANNEL_ADD (length (channels s1)) d') ;;;
      set_channel (length (channels s1)) (fun c => c <| waiting_for_channel := true |>) ;;; mrcp_server_session_subrequest_add) ;;;
      control_media_refuse (length (channels s1)) d' ;;; p) s3 (fun _ s' => exchange b k st s' /\ terminations s' = terminations s)).
  { intros p Hp.
    pose proof (control_ask_wp b k st _ c d' (CONTROL_CHANNEL_ADD (length (channels s1)) d') s3 He3 Hl W1 eq_refl eq_refl) as H.
    unfold wp, bind in H |- *. destruct (when _ _ s3) as [[u s4]|]; [|done]. destruct (control_media_refuse _ _ s4) as [[u' s5]|]; [|done].
    by apply (Hp s5). }
  apply Hask. intros s4 (He4 & Ho4 & c' & Hc' & W'). rewrite W2 in W'.
  wp_use engine_termination_add_wp. intros _ s5 (He5 & Ho5). split; [done|].
  destruct Ho4 as (_ & _ & E4), Ho5 as (_ & _ & E5). congruence.
Qed.

Lemma control_media_offer_wp b k st s : exchange b k st s ->
  (forall i c, channels s !! i = Some c -> waiting_for_channel c = false) ->
  total_wp mrcp_server_control_media_offer_process s (fun _ s' => exchange b k st s' /\ terminations s' = terminations s).
Proof.
  intros He Hclear. unfold mrcp_server_control_media_offer_process. apply wp_bind. eapply get_offer_wp; [done|]. intros o Ho.
  apply wp_bind, wp_gets, wp_bind. set (n := length (channels s)). set (media := length (control_media_arr o)).
  eapply wp_weaken; [apply (wp_for_seq (fun j s' => exchange b k st s' /\ terminations s' = terminations s /\ length (channels s') = n /\
    forall i c, (j <= i)%nat -> channels s' !! i = Some c -> waiting_for_channel c = false))|].
  - split; [done|]. split; [done|]. split; [done|]. intros i c _. apply Hclear.
  - intros j s1 Hj (He1 & Ht1 & Hn1 & Hw1). destruct (lookup_lt_is_Some_2 (channels s1) j) as [c Hc]; [lia|].
    wp_use control_channel_update_wp. intros _ s2 (He2 & Ho2 & Hn2 & Ht2). split; [done|]. split; [congruence|]. split; [congruence|].
    intros i c' Hi Hc'. rewrite Ho2 in Hc' by lia. eapply (Hw1 i); [lia|done].
  - cbv beta. intros _ s1 (He1 & Ht1 & _). apply wp_bind.
    eapply wp_weaken; [apply (wp_for_seq (fun _ s' => exchange b k st s' /\ terminations s' = terminations s)); [done|]|].
    + intros j s2 _ [He2 Ht2]. wp_use control_channel_new_wp. intros _ s3 [He3 Ht3]. split; [done|congruence].
    + cbv beta. intros _ s2 H2. by apply wp_ret.
Qed.

(** ** Audio *)

Lemma media_implied_defined st dir m : is_Some st -> is_Some (media_implied st dir m).
Proof.
  intros [x ->]. unfold media_implied, mpf_codec_list_copy, mpf_codec_list_is_empty.
  destruct (_ && _); [|done]. by destruct (descriptor_arr (settings_codec_list x)) as [[|? ?]|].
Qed.

Lemma associations_fold s slot_m cs : is_Some (rtp_settings (profile s)) -> forall l caps m,
  exists l' caps' m', foldl (association_step s slot_m) (Some (l, caps, m)) cs = Some (l', caps', m') /\
    forall j, j ∈ l' -> j ∈ l \/ j ∈ map fst cs.
Proof.
  intros Hset. induction cs as [|[i c] cs IH]; intros l caps m; cbn [foldl].
  - eexists _, _, _. split; [done|]. auto.
  - assert (Hstep : exists l1 caps1 m1, association_step s slot_m (Some (l, caps, m)) (i, c) = Some (l1, caps1, m1) /\
      forall j, j ∈ l1 -> j ∈ l \/ j = i).
    { unfold association_step. destruct (negb _); [eexists _, _, _; split; [done|]; auto|].
      assert (Hin : forall j, j ∈ l ++ [i] -> j ∈ l \/ j = i) by (intros j [?|?%list_elem_of_singleton]%elem_of_app; auto).
      destruct (channel_stream (engine_channel c)) as [st|]; [|by eexists _, _, _].
      destruct (mrcp_version (profile s)); try (by eexists _, _, _).
      destruct (media_implied_defined (rtp_settings (profile s)) (stream_direction st) m Hset) as [m1 ->]. by eexists _, _, _. }
    destruct Hstep as (l1 & caps1 & m1 & -> & H1). destruct (IH l1 caps1 m1) as (l2 & caps2 & m2 & -> & H2).
    eexists _, _, _. split; [done|]. intros j [Hj|Hj]%H2; [destruct (H1 j Hj) as [?| ->]; [by left|]|]; right; cbn;
      apply elem_of_cons; auto.
Qed.

(** Only slot [i] differs. *)
Definition only_slot (i : nat) (s s' : session) : Prop :=
  channels s' = channels s /\ length (terminations s') = length (terminations s) /\
  forall j, j <> i -> terminations s' !! j = terminations s !! j.
Lemma only_slot_trans i s1 s2 s3 : only_slot i s1 s2 -> only_slot i s2 s3 -> only_slot i s1 s3.
Proof. intros (H1 & H2 & H3) (K1 & K2 & K3). split; [congruence|split; [congruence|]]. intros j Hj. rewrite K3, H3; done. Qed.
Lemma only_slot_same i s s' : same_arrays s s' -> only_slot i s s'.
Proof. intros [E1 E2]. split; [done|]. by rewrite E2. Qed.
Lemma only_slot_alter i f s s' : channels s' = channels s -> terminations s' = alter f i (terminations s) -> only_slot i s s'.
Proof. intros E1 E2. split; [done|]. rewrite E2, length_alter. split; [done|]. intros j Hj. by apply list_lookup_alter_ne. Qed.

Lemma associations_build_wp b k st i x s : exchange b k st s -> terminations s !! i = Some x ->
  total_wp (mrcp_server_associations_build i) s (fun d s' => exchange b k st s' /\ only_slot i s s' /\
    exists x', terminations s' !! i = Some x' /\ waiting x' = waiting x /\
      (is_Some d -> exists l, slot_channels x' = Some l /\ Forall (fun j => j < length (channels s))%nat l)).
Proof.
  intros He Hx. unfold mrcp_server_associations_build. apply wp_bind. eapply get_slot_wp; [done|].
  apply wp_bind. eapply get_offer_wp; [done|]. intros o Ho.
  destruct (mrcp_session_audio_media_get o (slot_id x)) as [m|].
  2:{ apply wp_ret. split; [done|]. split; [by apply only_slot_same|]. exists x. split; [done|]. split; [done|]. by intros [? ?]. }
  apply wp_bind, wp_gets, wp_bind, wp_deref.
  destruct (associations_fold s (mid m) (imap (fun j c => (j, c)) (channels s)) (ex_settings _ _ _ _ He) [] None m)
    as (l & caps & m' & -> & Hl). cbv beta iota. apply wp_bind.
  eapply wp_weaken; [eapply (set_slot_wp _ _ _ _ x); done|]. cbv beta. intros _ s1 (He1 & Hc1 & Ht1).
  match type of He1 with exchange ?z _ _ _ => replace z with b in He1 by (unfold slot_flag; cbn; lia) end.
  apply wp_bind. wp_use set_offer_wp. intros _ s2 (He2 & Hc2 & Ht2). apply wp_ret. split; [done|]. split.
  { eapply only_slot_trans; [by eapply only_slot_alter|by apply only_slot_same]. }
  eexists. split; [by rewrite Ht2, Ht1, list_lookup_alter_eq, Hx|]. split; [done|]. intros _. exists l. split; [done|].
  apply Forall_lookup. intros q j Hj%list_elem_of_lookup_2. destruct (Hl j Hj) as [Hn|Hj']; [by apply not_elem_of_nil in Hn|].
  apply list_elem_of_fmap in Hj' as ([j' c] & -> & Hj'). apply elem_of_lookup_imap in Hj' as (j1 & c1 & [= -> ->] & Hlk).
  cbn. by eapply lookup_lt_Some.
Qed.

Lemma associations_set_wp b k st i x l s : exchange b k st s -> terminations s !! i = Some x -> slot_channels x = Some l ->
  Forall (fun j => j < length (channels s))%nat l ->
  total_wp (mrcp_server_associations_set i) s (fun _ s' => exchange b k st s' /\ same_arrays s s').
Proof.
  intros He Hx Hl Hlen. unfold mrcp_server_associations_set. apply wp_bind. eapply get_slot_wp; [done|].
  apply wp_bind, wp_deref. rewrite Hl. apply wp_bind.
  eapply (wp_weaken _ _ _ (fun _ s' => exchange b k st s' /\ same_arrays s s')); [|intros; by apply wp_ret].
  assert (Hloop : forall l s1, Forall (fun j => j < length (channels s))%nat l -> exchange b k st s1 -> same_arrays s s1 ->
    total_wp (for_each l (association_set i)) s1 (fun _ s' => exchange b k st s' /\ same_arrays s s')).
  { clear Hl Hlen l. induction l as [|j l IH]; intros s1 Hall He1 Ha1; cbn [for_each]; [by apply wp_ret|].
    apply Forall_cons_1 in Hall as [Hj Hall]. apply wp_bind. unfold association_set. destruct Ha1 as [Hc1 Ht1].
    apply wp_bind. eapply (get_slot_wp i x); [by rewrite Ht1|]. destruct (lookup_lt_is_Some_2 (channels s1) j) as [c Hc]; [by rewrite Hc1|].
    apply wp_bind. eapply get_channel_wp; [done|]. destruct (engine_channel c); [|by apply wp_ret, IH].
    unfold mpf_engine_assoc_message_add. apply wp_bind, wp_bind, wp_gets. wp_use message_wp.
    intros ok s2 (-> & He2 & Ha2). cbn [when]. wp_use subrequest_add_wp. intros _ s3 [He3 Ha3]. apply IH; [done| |].
    - cbn [plain_message mpf_request command_id] in He3. by replace (b + Z.of_nat 1 - 1) with b in He3 by lia.
    - eapply same_arrays_trans; [|done]. by eapply same_arrays_trans. }
  by apply Hloop.
Qed.

Lemma slot_process_wp b k st c i x s : plain_command c = 0%nat -> exchange b k st s -> terminations s !! i = Some x -> waiting x = false ->
  total_wp (slot_process c i) s (fun _ s' => exchange b k st s' /\ only_slot i s s').
Proof.
  intros Hp He Hx Hw. unfold slot_process. apply wp_bind. eapply get_slot_wp; [done|].
  destruct (slot_termination x) as [t|]; [|by apply wp_ret]. apply wp_bind. wp_use associations_build_wp.
  intros [d|] s1 (He1 & Ho1 & x1 & Hx1 & Hw1 & Hl1); [|by apply wp_ret]. destruct (Hl1 (mk_is_Some _ _ eq_refl)) as (l & Hl & Hall).
  unfold mpf_engine_termination_message_add. apply wp_bind, wp_bind, wp_gets. wp_use message_wp.
  intros ok s2 (-> & He2 & Hc2 & Ht2). cbn [when].
  change (plain_message _) with (plain_command c) in He2. rewrite Hp, Z.add_0_r in He2. apply wp_bind, wp_bind.
  eapply wp_weaken; [eapply (set_slot_wp _ _ _ _ x1); [done|by rewrite Ht2]|]. cbv beta. intros _ s3 (He3 & Hc3 & Ht3).
  match type of He3 with exchange ?z _ _ _ => replace z with (b + 1) in He3 by (unfold slot_flag; cbn; rewrite Hw1, Hw; cbn; lia) end.
  wp_use subrequest_add_wp. intros _ s4 (He4 & Hc4 & Ht4). replace (b + 1 - 1) with b in He4 by lia.
  assert (Hx4 : terminations s4 !! i = Some (x1 <| waiting := true |>)) by (by rewrite Ht4, Ht3, list_lookup_alter_eq, Ht2, Hx1).
  apply wp_bind. eapply wp_weaken; [eapply (associations_set_wp b k st i _ l); [done|exact Hx4|exact Hl|by rewrite Hc4, Hc3, Hc2, (proj1 Ho1)]|].
  cbv beta. intros _ s5 (He5 & Ha5). apply wp_ret. split; [done|].
  eapply only_slot_trans; [done|]. eapply only_slot_trans; [by apply only_slot_same|].
  eapply only_slot_trans; [by eapply only_slot_alter|]. eapply only_slot_trans; [by apply only_slot_same|by apply only_slot_same].
Qed.

Lemma slot_new_wp b k st i s : exchange b k st s -> total_wp (slot_new i) s (fun _ s' => exchange b k st s').
Proof.
  intros He. unfold slot_new. apply wp_bind, wp_modify, wp_bind, wp_gets.
  set (x := mk_slot _ i 0 None false). set (s1 := s <| terminations := _ |>).
  assert (He1 : exchange b k st s1).
  { apply (exchange_move _ _ _ _ _ _ He); try done; try apply He. pose proof (ex_count _ _ _ _ He) as Hn. unfold flags, asked in *.
    cbn [s1 subrequest_count channels terminations session_out mpf_task_msg field_set]. rewrite total_snoc. cbn. split; lia. }
  assert (Hlen : (length (terminations s1) - 1 = length (terminations s))%nat) by (cbn; rewrite length_app; cbn; lia). rewrite Hlen.
  eapply wp_weaken; [apply (slot_process_wp b k st MPF_ADD_TERMINATION _ x s1); try done; by apply list_lookup_middle|].
  cbv beta. intros _ s2 H2. apply H2.
Qed.

Lemma av_media_offer_wp b k st s : exchange b k st s ->
  (forall i x, terminations s !! i = Some x -> waiting x = false) ->
  total_wp mrcp_server_av_media_offer_process s (fun _ s' => exchange b k st s').
Proof.
  intros He Hclear. unfold mrcp_server_av_media_offer_process. apply wp_bind. eapply get_offer_wp; [done|]. intros o Ho.
  destruct (length (audio_media_arr o) =? 0)%nat; [by apply wp_ret|].
  apply wp_bind, wp_gets, wp_bind. set (n := length (terminations s)). set (media := length (audio_media_arr o)).
  eapply wp_weaken; [apply (wp_for_seq (fun j s' => exchange b k st s' /\ length (terminations s') = n /\
    forall i x, (j <= i)%nat -> terminations s' !! i = Some x -> waiting x = false))|].
  - split; [done|]. split; [done|]. intros i c _. apply Hclear.
  - intros j s1 Hj (He1 & Hn1 & Hw1). destruct (lookup_lt_is_Some_2 (terminations s1) j) as [x Hx]; [lia|].
    wp_use slot_process_wp. intros _ s2 (He2 & Hc2 & Hn2 & Ho2). split; [done|]. split; [congruence|].
    intros i c' Hi Hc'. rewrite Ho2 in Hc' by lia. eapply (Hw1 i); [lia|done].
  - cbv beta. intros _ s1 (He1 & _). apply wp_bind.
    eapply wp_weaken; [apply (wp_for_seq (fun _ s' => exchange b k st s')); [done|]|].
    + intros j s2 _ He2. by apply slot_new_wp.
    + cbv beta. intros _ s2 H2. by apply wp_ret.
Qed.

(** ** Resources of an MRCPv1 offer *)

Lemma channel_search_defined (l : list mrcp_channel_t) n : Forall (fun c => is_Some (ch_resource c)) l -> forall i,
  exists r, channel_search l i n = Some r /\ forall j, r = Some j -> (i <= j < i + length l)%nat.
Proof.
  induction l as [|c l IH]; intros Hl i; cbn [channel_search]; [by eexists|].
  apply Forall_cons_1 in Hl as [[r Hr] Hl]. rewrite Hr. destruct (apt_string_compare _ _).
  - eexists. split; [done|]. intros j [= <-]. cbn. lia.
  - destruct (IH Hl (S i)) as (x & -> & Hx). eexists. split; [done|]. intros j Hj%Hx. cbn. lia.
Qed.

Lemma channel_find_wp b k st n s : exchange b k st s ->
  total_wp (mrcp_server_channel_find n) s (fun r s' => s' = s /\ forall j, r = Some j -> (j < length (channels s))%nat).
Proof.
  intros He. unfold mrcp_server_channel_find. apply wp_bind, wp_gets, wp_deref.
  destruct (channel_search_defined _ n (ex_resources _ _ _ _ He) 0) as (r & -> & Hr). split; [done|]. intros j Hj%Hr. lia.
Qed.

Lemma resource_offer_wp b k st s : exchange b k st s ->
  total_wp mrcp_server_resource_offer_process s (fun _ s' => exchange b k st s' /\ terminations s' = terminations s).
Proof.
  intros He. unfold mrcp_server_resource_offer_process. apply wp_bind. eapply get_offer_wp; [done|]. intros o Ho.
  destruct (resource_state o); [|by apply wp_ret]. apply wp_bind, wp_gets, wp_bind. wp_use channel_find_wp.
  intros r s0 [-> Hr]. destruct r as [j|]; [by apply wp_ret|]. apply wp_bind. wp_use channel_create_wp.
  intros c s1 (He1 & [Ha1 Hb1] & W1 & W2). destruct (ch_resource c) as [x|] eqn:Ex; [|by apply wp_ret].
  apply wp_bind. eapply wp_weaken; [apply (channel_push_wp _ _ _ c _ He1); [by rewrite Ex|unfold channel_flags; by rewrite W1, W2]|].
  cbv beta. intros _ s2 (He2 & Hc2 & Ht2). apply wp_bind.
  eapply wp_weaken; [apply (engine_termination_add_wp b k st _ c c s2 He2); [|done]|].
  { rewrite Hc2, Ha1. by apply list_lookup_middle. }
  cbv beta. intros _ s3 (He3 & _ & _ & Ht3). apply wp_ret. split; [done|congruence].
Qed.

(** ** Engine channels *)

(** A call of the plugin that asks for an answer. *)
Lemma engine_call_wp b k st i c (e' : mrcp_engine_channel_t) (called : bool) (ev : session_event R) (ok : bool) s :
  exchange b k st s -> channels s !! i = Some c -> answer_event ev = 0%nat ->
  (if called then plain_event ev else 0%nat) = Nat.b2n ok ->
  total_wp (when called (tell ev) ;;; set_channel i (fun c => c <| engine_channel := Some e' |>) ;;; ret ok) s
    (fun r s' => r = ok /\ exchange (b + Z.b2z ok) k st s' /\ only_channel i s s').
Proof.
  intros He Hc Ha Hp. apply wp_bind.
  eapply (wp_weaken _ _ _ (fun _ s' => exchange (b + Z.b2z ok) k st s' /\ same_arrays s s')).
  - destruct called; cbn [when].
    + apply wp_modify. split; [|done]. apply (exchange_move _ _ _ _ _ _ He); try done; try apply He.
      * unfold answers. cbn [session_out field_set]. rewrite total_snoc, Ha. lia.
      * pose proof (ex_count _ _ _ _ He) as Hn. unfold flags, asked in *.
        cbn [subrequest_count channels terminations session_out mpf_task_msg field_set]. rewrite total_snoc, Hp. destruct ok; cbn; split; lia.
    + apply wp_ret. split; [|done]. destruct ok; [done|]. by rewrite Z.add_0_r.
  - cbv beta. intros _ s1 [He1 [Hc1 Ht1]]. apply wp_bind. rewrite <-Hc1 in Hc.
    eapply wp_weaken; [eapply (set_channel_wp _ _ _ _ c); [exact He1|exact Hc|exact (channel_resource _ _ _ _ _ _ He1 Hc)]|].
    cbv beta. intros _ s2 (He2 & Hc2 & Ht2). apply wp_ret. split; [done|]. split.
    + match type of He2 with exchange ?z _ _ _ => by replace z with (b + Z.b2z ok) in He2 by (unfold channel_flags; cbn; lia) end.
    + eapply only_channel_alter; [by rewrite Hc2, Hc1|congruence].
Qed.

Lemma engine_channel_open_wp b k st i c e s : exchange b k st s -> channels s !! i = Some c ->
  total_wp (engine_channel_open i e) s (fun ok s' => exchange (b + Z.b2z ok) k st s' /\ only_channel i s s').
Proof.
  intros He Hc. unfold engine_channel_open, mrcp_engine_channel_virtual_open. apply wp_bind, wp_gets.
  destruct (is_open e); cbn [negb]; (eapply wp_weaken; [eapply engine_call_wp; try done|]); try done; cbv beta; by intros r s' (-> & H).
Qed.
Lemma engine_channel_close_wp b k st i c e s : exchange b k st s -> channels s !! i = Some c ->
  total_wp (engine_channel_close i e) s (fun ok s' => exchange (b + Z.b2z ok) k st s' /\ only_channel i s s').
Proof.
  intros He Hc. unfold engine_channel_close, mrcp_engine_channel_virtual_close. apply wp_bind, wp_gets.
  destruct (is_open e); (eapply wp_weaken; [eapply engine_call_wp; try done|]); try done; cbv beta; by intros r s' (-> & H).
Qed.

Lemma ask_engine_wp b k st (p : act bool) i s :
  total_wp p s (fun ok s' => exchange (b + Z.b2z ok) k st s' /\ only_channel i s s') ->
  total_wp (let* ok := p in when ok mrcp_server_session_subrequest_add) s (fun _ s' => exchange b k st s' /\ only_channel i s s').
Proof.
  intros Hp. apply wp_bind. eapply wp_weaken; [exact Hp|]. cbv beta. intros ok s1 [He1 Ho1]. destruct ok; cbn [when Z.b2z] in *.
  - wp_use subrequest_add_wp. intros _ s2 [He2 Ha2]. split; [by replace (b + 1 - 1) with b in He2 by lia|].
    eapply only_channel_trans; [done|by apply only_channel_same].
  - apply wp_ret. by rewrite Z.add_0_r in He1.
Qed.

Lemma engine_channel_update_wp b k st o i s : exchange b k st s -> (i < length (channels s))%nat ->
  total_wp (engine_channel_update o i) s (fun _ s' => exchange b k st s' /\ only_channel i s s').
Proof.
  intros He Hi. destruct (lookup_lt_is_Some_2 _ _ Hi) as [c Hc]. unfold engine_channel_update. apply wp_bind. eapply get_channel_wp; [done|].
  destruct (engine_channel c) as [e|]; [|by apply wp_ret]. destruct (mrcp_session_control_media_get o i) as [d|]; [|by apply wp_ret].
  apply ask_engine_wp. destruct (port d =? 0); [by eapply engine_channel_close_wp|by eapply engine_channel_open_wp].
Qed.

(** * The end of an exchange *)

(** The terminations of the slots. *)
Definition slot_terms (s : session) : list (option mpf_termination_ref) := map slot_termination (terminations s).

(** A session between two exchanges: everything was answered. *)
Record ready (b : nat) (k : nat) (a : option (mrcp_signaling_message_t R)) (s : session) : Prop := {
  rd_flags : flags s = 0%nat;
  rd_asked : asked s = b;
  rd_answers : (answers s + length (request_queue s) + (match a with Some _ => 1 | None => 0 end) = k)%nat;
  rd_resources : Forall (fun c => is_Some (ch_resource c)) (channels s);
  rd_engines : engines_ok s;
  rd_active : active_request s = a;
  rd_queue : Forall is_offer (request_queue s);
  rd_idle : a = None -> request_queue s = [];
  rd_settings : is_Some (rtp_settings (profile s))
}.

(** A session that waits for answers. *)
Definition working (b k : nat) (s : session) : Prop :=
  (exists st, (st = SESSION_STATE_GENERATING_ANSWER \/ st = SESSION_STATE_INITIALIZING) /\ exchange (Z.of_nat b) (k, b) st s) /\
  (0 < subrequest_count s)%nat.

(** It was answered or waits, and asked for [j] at least. *)
Definition progress (b k j : nat) (s : session) : Prop := (ready b k None s \/ working b k s) /\ (j <= asked s)%nat.

Lemma exchange_raise b k st s j : exchange b k st s -> (j <= asked s)%nat -> exchange b (fst k, j) st s.
Proof. intros [] ?. by split. Qed.

Lemma wp_and {X} (p : act X) s (Q Q' : X -> session -> Prop) : total_wp p s Q -> total_wp p s Q' -> total_wp p s (fun a s' => Q a s' /\ Q' a s').
Proof. unfold wp. destruct (p s) as [[a s']|]; [by split|done]. Qed.

Section Answers.
Context (dispatch : mrcp_signaling_message_t R -> act bool).

Context (dispatch_offer : forall b k m s, ready b k (Some m) s -> is_offer m -> total_wp (dispatch m) s (fun _ s' => working b k s')).

Lemma exchange_end b k j st s s' a : (b <= j)%nat -> exchange (Z.of_nat b) (k, j) st s -> subrequest_count s = 0%nat ->
  profile s' = profile s -> engines s' = engines s -> channels s' = channels s -> terminations s' = terminations s ->
  mpf_task_msg s' = mpf_task_msg s -> session_out s' = session_out s ++ [ANSWER a] ->
  active_request s' = head (request_queue s) -> request_queue s' = tail (request_queue s) ->
  ready b k (head (request_queue s)) s' /\ (j <= b)%nat.
Proof.
  intros Hj He Hn E1 E2 E3 E4 E5 E6 E7 E8. pose proof (ex_count _ _ _ _ He) as Hc. pose proof (ex_asked _ _ _ _ He) as Hl. cbn [snd] in Hl.
  destruct He as [H1 H2 H0 H3 H4 H5 H6 H7 H8 H9 H10]. cbn [fst] in H2.
  assert (Hf : flags s' = flags s) by (unfold flags; congruence).
  assert (Ha : asked s' = asked s) by (unfold asked; rewrite E6, E5, total_snoc; cbn [plain_event]; lia).
  assert (Hk : answers s' = S (answers s)) by (unfold answers; rewrite E6, total_snoc; cbn [answer_event]; lia).
  split; [|lia]. split; rewrite ?Hf, ?Ha, ?Hk, ?E1, ?E3, ?E8; try done; try lia.
  - destruct (request_queue s); cbn in *; lia.
  - intros n x. rewrite E1, E2. apply H5.
  - destruct H9; [by apply Forall_nil_2|done].
  - by destruct (request_queue s).
Qed.

Lemma answer_send_wp b k j st s : (b <= j)%nat -> exchange (Z.of_nat b) (k, j) st s -> subrequest_count s = 0%nat ->
  total_wp (mrcp_server_session_answer_send dispatch) s (fun _ s' => progress b k j s').
Proof.
  intros Hj He Hn. unfold mrcp_server_session_answer_send. destruct (ex_answer _ _ _ _ He) as [a Ha].
  apply wp_bind, wp_gets, wp_bind, wp_deref. rewrite Ha. apply wp_bind, wp_modify. set (s1 := s <| session_out := _ |>). apply wp_bind, wp_modify, wp_bind.
  set (s2 := s1 <| offer := None |> <| answer := None |>). unfold next_request. apply wp_bind, wp_gets.
  change (request_queue s2) with (request_queue s). pose proof (ex_queue _ _ _ _ He) as Hq.
  destruct (request_queue s) as [|m q] eqn:Eq; cbn [apt_list_pop_front]; apply wp_bind, wp_modify; set (s3 := s2 <| request_queue := _ |> <| active_request := _ |>).
  - destruct (exchange_end b k j st s s3 a Hj He Hn) as [Hr Hb]; try done; rewrite ?Eq; try done. rewrite Eq in Hr.
    apply wp_ret, wp_ret. split; [by left|]. rewrite (rd_asked _ _ _ _ Hr). lia.
  - destruct (exchange_end b k j st s s3 a Hj He Hn) as [Hr Hb]; try done; rewrite ?Eq; try done. rewrite Eq in Hr.
    inversion_clear Hq as [|? ? Hm _]. apply wp_bind. eapply wp_weaken; [by eapply dispatch_offer|]. cbv beta. intros _ s4 Hw.
    do 2 apply wp_ret. split; [by right|]. destruct Hw as [(st' & _ & He') _]. pose proof (ex_asked _ _ _ _ He'). cbn in *. lia.
Qed.

Lemma answer_if_done_wp b k j st s : (b <= j)%nat -> (st = SESSION_STATE_GENERATING_ANSWER \/ st = SESSION_STATE_INITIALIZING) ->
  exchange (Z.of_nat b) (k, j) st s ->
  total_wp (answer_if_done dispatch) s (fun _ s' => progress b k j s').
Proof.
  intros Hj Hst He. unfold answer_if_done. apply wp_bind, wp_gets. destruct (Nat.eqb_spec (subrequest_count s) 0) as [E|E]; cbn [when].
  - apply wp_bind. eapply wp_weaken; [by eapply answer_send_wp|]. cbv beta. intros _ s1 H1. by apply wp_ret.
  - apply wp_ret. split; [right; split; [|lia]|exact (ex_asked _ _ _ _ He)]. exists st. split; [done|].
    apply (exchange_raise _ _ _ _ b He). pose proof (ex_asked _ _ _ _ He). cbn in *. lia.
Qed.

Lemma state_set_wp b k st st' s : exchange b k st s -> subrequest_count s = 0%nat ->
  total_wp (mrcp_server_session_state_set st') s (fun _ s' => exchange b k st' s' /\ same_arrays s s').
Proof.
  intros He Hn. unfold mrcp_server_session_state_set. apply wp_bind, wp_modify, wp_modify. rewrite Hn. cbn [Nat.eqb].
  split; [|done]. by destruct He.
Qed.

Lemma engine_channels_update_wp b k j st s : (b <= j)%nat -> exchange (Z.of_nat b) (k, j) st s -> subrequest_count s = 0%nat ->
  total_wp (mrcp_server_engine_channels_update dispatch) s (fun _ s' => progress b k j s').
Proof.
  intros Hj He Hn. unfold mrcp_server_engine_channels_update. destruct (ex_offer _ _ _ _ He) as [o Ho]. apply wp_bind, wp_gets. rewrite Ho.
  apply wp_bind. wp_use state_set_wp. intros _ s1 (He1 & Hc1 & Ht1). apply wp_bind, wp_gets, wp_bind.
  eapply (wp_weaken _ _ _ (fun _ s' => exchange (Z.of_nat b) (k, j) SESSION_STATE_INITIALIZING s' /\ terminations s' = terminations s)).
  - set (loop := (let* l := all_channels in for_each l (engine_channel_update o)) : act unit).
    assert (Hloop : total_wp loop s1 (fun _ s' => exchange (Z.of_nat b) (k, j) SESSION_STATE_INITIALIZING s' /\ terminations s' = terminations s)).
    { apply wp_bind, wp_gets. eapply wp_weaken.
      - apply (wp_for_seq (fun _ s' => exchange (Z.of_nat b) (k, j) SESSION_STATE_INITIALIZING s' /\ terminations s' = terminations s /\
          length (channels s') = length (channels s1))); [by split|].
        intros n s2 Hn2 (He2 & Ht2 & Hl2). wp_use engine_channel_update_wp; [lia|]. intros _ s3 (He3 & _ & Hl3 & Ht3).
        split; [done|]. split; congruence.
      - cbv beta. intros _ s2 (He2 & Ht2 & _). by split. }
    destruct (mrcp_version (profile s1)); [exact Hloop| |exact Hloop]. clear loop Hloop.
    apply wp_bind. wp_use channel_find_wp. intros [i|] s2 [-> Hi]; [|by apply wp_ret].
    destruct (lookup_lt_is_Some_2 (channels s1) i (Hi i eq_refl)) as [c Hc]. apply wp_bind. eapply get_channel_wp; [done|].
    destruct (engine_channel c) as [e|]; [|by apply wp_ret].
    eapply wp_weaken; [apply (ask_engine_wp (Z.of_nat b) (k, j)); by eapply engine_channel_open_wp|].
    cbv beta. intros _ s3 (He3 & _ & _ & Ht3). split; [done|congruence].
  - cbv beta. intros _ s2 [He2 Ht2]. apply wp_bind. eapply wp_weaken; [eapply answer_if_done_wp; [done|by right|done]|]. cbv beta.
    intros _ s3 Hp. by apply wp_ret.
Qed.

(** An answer the session counts. *)
Lemma subrequest_remove_wp b k j st s : (b <= j)%nat -> (st = SESSION_STATE_GENERATING_ANSWER \/ st = SESSION_STATE_INITIALIZING) ->
  exchange (Z.of_nat b - 1) (k, j) st s -> (0 < subrequest_count s)%nat ->
  total_wp (mrcp_server_session_subrequest_remove dispatch) s (fun _ s' => progress b k j s').
Proof.
  intros Hj Hst He Hn. unfold mrcp_server_session_subrequest_remove. apply wp_bind, wp_gets.
  destruct (subrequest_count s) as [|n] eqn:En; [lia|]. apply wp_bind, wp_modify. set (s1 := s <| subrequest_count := n |>).
  assert (He1 : exchange (Z.of_nat b) (k, j) st s1).
  { destruct He as [H1 H2 H0 H3 H4 H5 H6 H7 H8 H9 H10]. split; try done. rewrite En in H1. unfold flags, asked in *. cbn. lia. }
  assert (Hn1 : subrequest_count s1 = n) by done. assert (Hs1 : state s1 = state s) by done.
  destruct n as [|n]; cbn [Nat.eqb].
  - apply wp_bind, wp_gets. rewrite (ex_state _ _ _ _ He1). destruct Hst as [-> | ->]; apply wp_bind.
    + eapply wp_weaken; [by apply (engine_channels_update_wp b k j _ _ Hj He1)|]. cbv beta. intros _ s2 H2. by apply wp_ret.
    + eapply wp_weaken; [by apply (answer_send_wp b k j _ _ Hj He1)|]. cbv beta. intros _ s2 H2. by apply wp_ret.
  - apply wp_ret. split; [right; split; [|lia]|exact (ex_asked _ _ _ _ He1)]. exists st. split; [done|].
    apply (exchange_raise _ _ _ _ b He1). pose proof (ex_asked _ _ _ _ He1). cbn in *. lia.
Qed.
End Answers.

(** * An offer *)

Lemma ready_tell_wp b k a e s : plain_event e = 0%nat -> answer_event e = 0%nat -> ready b k a s ->
  total_wp (tell e) s (fun _ s' => ready b k a s').
Proof.
  intros H1 H2 []. apply wp_modify. unfold flags, asked, answers in *.
  split; unfold flags, asked, answers; cbn [channels terminations session_out mpf_task_msg active_request request_queue profile field_set];
    rewrite ?total_snoc; try done; lia.
Qed.

(** What a session is like at the beginning of an exchange. *)
Lemma exchange_begin b k m s d a : ready b k (Some m) s ->
  total_wp (modify (fun s => s <| offer := Some d |> <| answer := Some a |>) ;;;
      mrcp_server_session_state_set SESSION_STATE_GENERATING_ANSWER) s
    (fun _ s' => exchange (Z.of_nat b) (k, b) SESSION_STATE_GENERATING_ANSWER s' /\ same_arrays s s').
Proof.
  intros []. apply wp_bind, wp_modify. unfold mrcp_server_session_state_set. apply wp_bind, wp_modify, wp_modify.
  set (s1 := s <| offer := _ |> <| answer := _ |>). change (subrequest_count s1) with (subrequest_count s).
  destruct (Nat.eqb_spec (subrequest_count s) 0) as [E|E]; (split; [|done]);
    unfold flags, asked, answers in *; (split; try done; unfold flags, asked, answers; cbn; try lia; by rewrite rd_active0).
Qed.

Lemma topology_ask_raise_wp b k st c s : plain_command c = 1%nat -> exchange b k st s ->
  total_wp (let* ok := mpf_engine_topology_message_add c in when ok mrcp_server_session_subrequest_add) s
    (fun _ s' => (exchange b (fst k, S (asked s)) st s') /\ same_arrays s s').
Proof.
  intros Hc He.
  assert (Hask : total_wp (let* ok := mpf_engine_topology_message_add c in when ok mrcp_server_session_subrequest_add) s
    (fun _ s' => (S (asked s) <= asked s')%nat)).
  { unfold mpf_engine_topology_message_add. apply wp_bind, wp_bind, wp_gets. eapply wp_weaken; [apply message_get_wp|]. cbv beta.
    intros ok s1 (-> & Ha & _). apply wp_modify. cbn [asked session_out mpf_task_msg field_set].
    unfold asked in *. cbn [session_out mpf_task_msg field_set]. change (plain_message _) with (plain_command c) in Ha. lia. }
  eapply wp_weaken; [exact (wp_and _ _ _ _ (topology_ask_wp b k st c s Hc He) Hask)|]. cbv beta.
  intros _ s1 [[He1 Ha1] H1]. split; [|done]. by apply exchange_raise.
Qed.

(** No flag is raised when nothing is outstanding. *)
Lemma flags_clear s : flags s = 0%nat ->
  (forall i c, channels s !! i = Some c -> waiting_for_channel c = false /\ waiting_for_termination c = false) /\
  (forall i x, terminations s !! i = Some x -> waiting x = false).
Proof.
  unfold flags. intros H. split.
  - intros i c Hc. pose proof (total_zero channel_flags (channels s) c i ltac:(lia) Hc) as E. unfold channel_flags in E.
    destruct (waiting_for_channel c), (waiting_for_termination c); try done.
  - intros i x Hx. pose proof (total_zero slot_flag (terminations s) x i ltac:(lia) Hx) as E. unfold slot_flag in E. by destruct (waiting x).
Qed.

Lemma message_send_wp b k st s : exchange b k st s ->
  total_wp mpf_engine_message_send s (fun _ s' => exchange b k st s' /\ same_arrays s s').
Proof.
  intros He. unfold mpf_engine_message_send. apply wp_bind, wp_gets. destruct (mpf_task_msg s) as [l|] eqn:El; [|by apply wp_ret].
  apply wp_bind, wp_modify, wp_bind, wp_modify, wp_ret. split; [|done].
  apply (exchange_move _ _ _ _ _ _ He); try done; try apply He.
  - unfold answers. cbn [session_out field_set]. rewrite total_snoc. cbn. lia.
  - pose proof (ex_count _ _ _ _ He) as Hn. unfold flags, asked in *.
    cbn [subrequest_count channels terminations session_out mpf_task_msg field_set]. rewrite El in Hn. rewrite total_snoc.
    cbn [plain_event from_option] in *. rewrite total_nil, ?El. unfold id in *. cbn [from_option]. split; lia.
Qed.

(** The media of an offer. *)
Definition offer_media : act unit :=
  let* v := mrcp_session_version_get in
  match v with
  | MRCP_VERSION_1 =>
      let* ok := mrcp_server_resource_offer_process in
      if ok then mrcp_server_av_media_offer_process ;;; ret tt
      else set_answer (fun a => a <| resource_state := false |>)
  | _ => mrcp_server_control_media_offer_process ;;; mrcp_server_av_media_offer_process ;;; ret tt
  end.

Lemma offer_media_wp b k st s : flags s = 0%nat -> exchange b k st s -> total_wp offer_media s (fun _ s' => exchange b k st s').
Proof.
  intros Hf He. destruct (flags_clear s Hf) as [Hc Ht]. unfold offer_media. apply wp_bind, wp_gets.
  assert (H2 : total_wp (mrcp_server_control_media_offer_process ;;; mrcp_server_av_media_offer_process ;;; ret tt) s
    (fun _ s' => exchange b k st s')).
  { apply wp_bind. eapply wp_weaken; [apply control_media_offer_wp; [done|]|]; [intros i c Hi; by apply (Hc i)|]. cbv beta.
    intros _ s1 [He1 Ht1]. apply wp_bind. eapply wp_weaken; [apply av_media_offer_wp; [done|by rewrite Ht1]|].
    cbv beta. intros _ s2 H2. by apply wp_ret. }
  destruct (mrcp_version (profile s)); [exact H2| |exact H2]. clear H2.
  apply wp_bind. wp_use resource_offer_wp. intros [|] s1 [He1 Ht1].
  - apply wp_bind. eapply wp_weaken; [apply av_media_offer_wp; [done|by rewrite Ht1]|]. cbv beta. intros _ s2 H2. by apply wp_ret.
  - wp_use set_answer_wp. by intros _ s2 [H2 _].
Qed.

Lemma wp_bind_assoc {X Y Z} (p : act X) (f : X -> act Y) (g : Y -> act Z) s (Q : Z -> session -> Prop) :
  total_wp (bind (bind p f) g) s Q -> total_wp (bind p (fun a => bind (f a) g)) s Q.
Proof. unfold wp, bind. by destruct (p s) as [[a s']|]. Qed.

Lemma offer_process_wp dispatch b k m d s : ready b k (Some m) s ->
  total_wp (mrcp_server_session_offer_process dispatch (Some d)) s (fun _ s' => working b k s').
Proof.
  intros Hr. unfold mrcp_server_session_offer_process. apply wp_bind, wp_gets, wp_bind.
  eapply (wp_weaken _ _ _ (fun _ s' => ready b k (Some m) s')).
  { destruct (context s); cbn [negb when]; [by apply wp_ret|]. apply wp_bind, wp_modify. apply wp_bind.
    set (s1 := if (_ =? 0)%nat then _ else s). assert (Hr1 : ready b k (Some m) s1) by (unfold s1; destruct (_ =? 0)%nat; [by destruct Hr|done]).
    unfold mrcp_server_session_add. apply wp_bind, wp_gets.
    eapply (wp_weaken _ _ _ (fun _ s' => ready b k (Some m) s')).
    - destruct (bool_decide _); cbn [when]; [by apply ready_tell_wp|by apply wp_ret].
    - cbv beta. intros _ s2 Hr2. apply wp_modify. by destruct Hr2. }
  cbv beta. clear s Hr. intros _ s Hr. apply wp_bind, wp_deref.
  apply wp_bind_assoc, wp_bind. eapply wp_weaken; [by eapply exchange_begin|]. cbv beta. intros _ s1 [He1 [Hc1 Ht1]].
  assert (Hf1 : flags s1 = 0%nat) by (unfold flags; rewrite Hc1, Ht1; apply Hr).
  pose proof (ex_asked _ _ _ _ He1) as Ha1. cbn [snd] in Ha1.
  apply wp_bind_assoc, wp_bind. eapply wp_weaken; [by apply topology_ask_raise_wp|]. cbv beta. intros _ s2 [He2 [Hc2 Ht2]].
  assert (Hf2 : flags s2 = 0%nat) by (unfold flags; rewrite Hc2, Ht2; apply Hf1). cbn [fst] in He2.
  apply wp_bind_assoc, wp_bind. eapply wp_weaken; [by apply offer_media_wp|]. cbv beta. intros _ s3 He3.
  apply wp_bind_assoc, wp_bind. eapply wp_weaken; [by apply topology_ask_wp|]. cbv beta. intros _ s4 [He4 _].
  apply wp_bind. wp_use message_send_wp. intros _ s5 [He5 _].
  pose proof (ex_count _ _ _ _ He5) as Hn. pose proof (ex_asked _ _ _ _ He5) as Hl. cbn [snd] in Hl.
  unfold answer_if_done. apply wp_bind, wp_bind, wp_gets. destruct (Nat.eqb_spec (subrequest_count s5) 0) as [E|E]; [lia|].
  apply wp_ret, wp_ret. split; [|lia]. exists SESSION_STATE_GENERATING_ANSWER. split; [by left|].
  exact (exchange_raise _ _ _ _ b He5 ltac:(lia)).
Qed.

(** * Answers *)

(** How many requests that no flag awaits a message answers. *)
Definition plain_reply (x : server_task_msg R) : nat :=
  match x with
  | ENGINE_TASK_MSG_OPEN_CHANNEL _ _ | ENGINE_TASK_MSG_CLOSE_CHANNEL _ => 1
  | MRCP_SERVER_MEDIA_TASK_MSG l => total plain_message l
  | _ => 0
  end.
Definition offers_of (x : server_task_msg R) : nat := match x with MRCP_SERVER_SIGNALING_TASK_MSG _ => 1 | _ => 0 end.

(** A response of the media engine: that about the termination of a slot has its descriptor. *)
Definition media_reply (s : session) (m : mpf_message_t) : bool :=
  match mpf_message_type m with MPF_MESSAGE_TYPE_RESPONSE => mpf_context m | _ => false end &&
  match command_id m with
  | MPF_ADD_TERMINATION | MPF_MODIFY_TERMINATION =>
      bool_decide (is_Some (mpf_descriptor m)) || bool_decide (Forall (fun t => t <> mpf_termination m) (slot_terms s))
  | MPF_SUBTRACT_TERMINATION => false
  | _ => true
  end.

(** Each response as the session is when its turn comes. *)
Fixpoint media_replies (s : session) (l : list mpf_message_t) : bool :=
  match l with
  | [] => true
  | m :: l => media_reply s m && match mpf_response_process m s with Some (_, s') => media_replies s' l | None => true end
  end.

(** What may reach a session of which [b] plain requests were answered: offers, and answers to what it asked for. *)
Definition legal (b : nat) (s : session) (x : server_task_msg R) : bool :=
  (b + plain_reply x <=? asked s)%nat &&
  match x with
  | MRCP_SERVER_SIGNALING_TASK_MSG m => match type m, descriptor m with SIGNALING_MESSAGE_OFFER, Some _ => true | _, _ => false end
  | CONNECTION_AGENT_TASK_MSG_ADD_CHANNEL i (Some _) _ | CONNECTION_AGENT_TASK_MSG_MODIFY_CHANNEL i (Some _) _ =>
      (i <? length (channels s))%nat
  | ENGINE_TASK_MSG_OPEN_CHANNEL i _ | ENGINE_TASK_MSG_CLOSE_CHANNEL i => (i <? length (channels s))%nat
  | MRCP_SERVER_MEDIA_TASK_MSG l => media_replies s l
  | _ => false
  end.

(** The session after [k] offers. *)
Definition session_ok (b k : nat) (s : session) : Prop := ready b k None s \/ working b k s.

(** What an answer leaves. *)
Definition after (b k : nat) (s s' : session) : Prop := session_ok b k s' /\ (asked s <= asked s')%nat.

(** An offer that is dispatched, whatever is dispatched inside of it. *)
Lemma dispatch_offer_wp b k m s : ready b k (Some m) s -> is_offer m ->
  total_wp (mrcp_server_signaling_message_dispatch m) s (fun _ s' => working b k s').
Proof.
  intros Hr [Et [d Ed]].
  match goal with |- wp _ _ _ ?Q => change (total_wp (dispatch_body (dispatch_fuel (length (request_queue s))) m) s Q) end.
  unfold dispatch_body. apply wp_bind. eapply wp_weaken; [eapply (ready_tell_wp _ _ _ (DISPATCH_MESSAGE m)); done|]. cbv beta. intros _ s2 Hr2.
  rewrite Et, Ed. apply wp_bind. eapply wp_weaken; [by eapply offer_process_wp|]. cbv beta. intros _ s3 Hw. by apply wp_ret.
Qed.

Lemma offer_message_wp b k m s : session_ok b k s -> is_offer m ->
  total_wp (mrcp_server_msg_process (MRCP_SERVER_SIGNALING_TASK_MSG m)) s (fun _ s' => session_ok b (S k) s').
Proof.
  intros Hok Hm. unfold mrcp_server_msg_process, mrcp_server_signaling_message_process. apply wp_bind, wp_bind, wp_gets.
  destruct Hok as [Hr|[(st & Hst & He) Hn]].
  - rewrite (rd_active _ _ _ _ Hr). apply wp_bind, wp_bind, wp_modify, wp_bind. set (s1 := s <| active_request := Some m |>).
    assert (Hr1 : ready b (S k) (Some m) s1).
    { destruct Hr as [H1 H2 H3 H4 H5 H6 H7 H8 H9]. split; try done. change (answers s1) with (answers s). change (request_queue s1) with (request_queue s). lia. }
    eapply wp_weaken; [by eapply dispatch_offer_wp|]. cbv beta. intros _ s2 Hw. do 3 apply wp_ret. by right.
  - destruct (ex_active _ _ _ _ He) as [r ->]. apply wp_bind, wp_modify. do 2 apply wp_ret. right. split; [|done]. exists st. split; [done|].
    destruct He as [H1 H2 H0 H3 H4 H5 H6 H7 H8 H9 H10]. split; try done.
    + cbn [fst] in *. cbn [request_queue field_set]. unfold apt_list_push_back. rewrite length_app. cbn [length].
      unfold answers in *. cbn [session_out field_set]. lia.
    + cbn [request_queue field_set]. unfold apt_list_push_back. apply Forall_app. split; [done|by apply Forall_singleton].
Qed.

(** An answer the session is about to count. *)
Definition counted (b k : nat) (st : mrcp_server_session_state_e) (s s' : session) : Prop :=
  exchange (Z.of_nat b - 1) (k, asked s) st s' /\ (0 < subrequest_count s')%nat /\ (b <= asked s)%nat.

Lemma counted_remove_wp b k st s s' : (st = SESSION_STATE_GENERATING_ANSWER \/ st = SESSION_STATE_INITIALIZING) -> counted b k st s s' ->
  total_wp (mrcp_server_session_subrequest_remove mrcp_server_signaling_message_dispatch) s' (fun _ s'' => after b k s s'').
Proof.
  intros Hst (He & Hn & Hb). eapply wp_weaken; [by eapply (subrequest_remove_wp _ dispatch_offer_wp)|]. cbv beta. intros _ s2 [H2 Hl]. by split.
Qed.

(** A plain answer. *)
Lemma plain_reply_wp b k s : session_ok b k s -> (b + 1 <= asked s)%nat ->
  total_wp (mrcp_server_session_subrequest_remove mrcp_server_signaling_message_dispatch) s (fun _ s' => after (b + 1) k s s').
Proof.
  intros [Hr|[(st & Hst & He) Hn]] Hl; [destruct Hr; lia|].
  eapply counted_remove_wp; [exact Hst|]. split; [|done]. replace (Z.of_nat (b + 1) - 1) with (Z.of_nat b) by lia.
  exact (exchange_raise _ _ _ _ (asked s) He (le_n _)).
Qed.

Lemma session_resource b k s i c : session_ok b k s -> channels s !! i = Some c -> is_Some (ch_resource c).
Proof.
  intros [Hr|[(st & _ & He) _]] Hc; [|by eapply channel_resource].
  exact (proj1 (Forall_lookup _ _) (rd_resources _ _ _ _ Hr) i c Hc).
Qed.

(** The answer to a request that a flag awaits lowers the flag. *)
Lemma flag_channel_lower b k i c (f : mrcp_channel_t -> mrcp_channel_t) s :
  session_ok b k s -> channels s !! i = Some c -> channel_flags c = S (channel_flags (f c)) -> ch_resource (f c) = ch_resource c ->
  exists st, (st = SESSION_STATE_GENERATING_ANSWER \/ st = SESSION_STATE_INITIALIZING) /\
    total_wp (set_channel i f) s (fun _ s' => counted b k st s s').
Proof.
  intros [Hr|[(st & Hst & He) Hn]] Hc Hf Hres.
  { pose proof (rd_flags _ _ _ _ Hr) as H0. unfold flags in H0. pose proof (total_zero channel_flags (channels s) c i ltac:(lia) Hc). lia. }
  exists st. split; [done|].
  assert (Hcount : total_wp (set_channel i f) s (fun _ s' => subrequest_count s' = subrequest_count s)) by done.
  eapply wp_weaken; [apply wp_and; [eapply (set_channel_wp _ (k, asked s) _ _ c f); [exact (exchange_raise _ _ _ _ (asked s) He (le_n _))|done|rewrite Hres; by eapply channel_resource]|exact Hcount]|].
  pose proof (ex_asked _ _ _ _ He) as Hb. cbv beta. intros _ s1 ((He1 & _ & Ht1) & Hn1). split; [|split; [lia|done]].
  by replace (Z.of_nat b - 1) with (Z.of_nat b + Z.of_nat (channel_flags (f c)) - Z.of_nat (channel_flags c)) by lia.
Qed.

Lemma flag_slot_lower b k i x s : session_ok b k s -> terminations s !! i = Some x -> waiting x = true ->
  exists st, (st = SESSION_STATE_GENERATING_ANSWER \/ st = SESSION_STATE_INITIALIZING) /\
    total_wp (set_slot i (fun x => x <| waiting := false |>)) s (fun _ s' => counted b k st s s').
Proof.
  intros [Hr|[(st & Hst & He) Hn]] Hx Hw.
  { pose proof (rd_flags _ _ _ _ Hr) as H0. unfold flags in H0. pose proof (total_zero slot_flag (terminations s) x i ltac:(lia) Hx) as E.
    unfold slot_flag in E. by rewrite Hw in E. }
  exists st. split; [done|]. set (f := fun x : mrcp_termination_slot_t => x <| waiting := false |>).
  assert (Hcount : total_wp (set_slot i f) s (fun _ s' => subrequest_count s' = subrequest_count s)) by done.
  eapply wp_weaken; [apply wp_and; [by apply (set_slot_wp _ (k, asked s) st _ x f _ (exchange_raise _ _ _ _ (asked s) He (le_n _)))|exact Hcount]|].
  pose proof (ex_asked _ _ _ _ He) as Hb. cbv beta. intros _ s1 ((He1 & _ & Ht1) & Hn1). split; [|split; [lia|done]].
  replace (Z.of_nat b - 1) with (Z.of_nat b + Z.of_nat (slot_flag (f x)) - Z.of_nat (slot_flag x)); [done|].
  unfold slot_flag. cbn. rewrite Hw. cbn. lia.
Qed.

Lemma counted_answer_wp b k st f s s' : counted b k st s s' -> total_wp (set_answer f) s' (fun _ s'' => counted b k st s s'').
Proof.
  intros (He & Hn & Hb). assert (Hcount : total_wp (set_answer f) s' (fun _ s'' => subrequest_count s'' = subrequest_count s')).
  { destruct (ex_answer _ _ _ _ He) as [a Ha]. unfold set_answer. apply wp_bind, wp_gets, wp_bind, wp_deref. rewrite Ha. by apply wp_modify. }
  eapply wp_weaken; [apply wp_and; [by eapply set_answer_wp|exact Hcount]|]. cbv beta. intros _ s2 ((He2 & _ & Ht2) & Hn2).
  split; [done|]. split; [lia|done].
Qed.

Lemma channel_modify_wp b k i d status s : session_ok b k s -> (i < length (channels s))%nat ->
  total_wp (mrcp_server_on_channel_modify i (Some d) status) s (fun _ s' => session_ok b k s').
Proof.
  intros Hok Hi. destruct (lookup_lt_is_Some_2 _ _ Hi) as [c Hc]. destruct (session_resource _ _ _ _ _ Hok Hc) as [r Hr].
  unfold mrcp_server_on_channel_modify. apply wp_bind. eapply get_channel_wp; [done|]. apply wp_bind, wp_deref. rewrite Hr.
  destruct (waiting_for_channel c) eqn:Ew; cbn [negb]; [|by apply wp_ret].
  destruct (flag_channel_lower b k i c (fun c => c <| waiting_for_channel := false |>) s Hok Hc) as (st & Hst & Hf);
    [unfold channel_flags; cbn; rewrite Ew; cbn; lia|done|].
  apply wp_bind. eapply wp_weaken; [exact Hf|]. cbv beta. intros _ s1 H1. apply wp_bind, wp_gets, wp_bind.
  eapply wp_weaken; [by eapply counted_answer_wp|]. cbv beta. intros _ s2 H2. apply wp_bind.
  eapply wp_weaken; [by eapply counted_remove_wp|]. cbv beta. intros _ s3 [H3 _]. by apply wp_ret.
Qed.

Lemma engine_open_wp b k i status s : session_ok b k s -> (i < length (channels s))%nat -> (b + 1 <= asked s)%nat ->
  total_wp (mrcp_server_on_engine_channel_open i status) s (fun _ s' => session_ok (b + 1) k s').
Proof.
  intros Hok Hi Hl. destruct (lookup_lt_is_Some_2 _ _ Hi) as [c Hc]. destruct (session_resource _ _ _ _ _ Hok Hc) as [r Hr].
  unfold mrcp_server_on_engine_channel_open. apply wp_bind. eapply get_channel_wp; [done|]. apply wp_bind, wp_deref. rewrite Hr. apply wp_bind.
  eapply (wp_weaken _ _ _ (fun _ s' => session_ok b k s' /\ (b + 1 <= asked s')%nat)).
  - destruct status; cbn [negb when]; [by apply wp_ret|]. unfold answer_status.
    destruct Hok as [Hr'|[(st & Hst & He) Hn]]; [destruct Hr'; lia|].
    assert (Hcount : total_wp (set_answer (fun a => a <| session_status := MRCP_SESSION_STATUS_UNAVAILABLE_RESOURCE |>)) s
      (fun _ s' => subrequest_count s' = subrequest_count s)).
    { destruct (ex_answer _ _ _ _ He) as [a Ha]. unfold set_answer. apply wp_bind, wp_gets, wp_bind, wp_deref. rewrite Ha. by apply wp_modify. }
    eapply wp_weaken; [apply wp_and; [eapply set_answer_wp; exact (exchange_raise _ _ _ _ _ He Hl)|exact Hcount]|]. cbv beta.
    intros _ s1 ((He1 & _) & Hn1). split; [|exact (ex_asked _ _ _ _ He1)]. right. split; [|lia].
    exists st. split; [done|]. refine (exchange_raise _ _ _ _ b He1 _). pose proof (ex_asked _ _ _ _ He1). cbn in *. lia.
  - cbv beta. intros _ s1 [H1 Hl1]. apply wp_bind. eapply wp_weaken; [by apply plain_reply_wp|]. cbv beta. intros _ s2 [H2 _]. by apply wp_ret.
Qed.

Lemma engine_close_wp b k i s : session_ok b k s -> (i < length (channels s))%nat -> (b + 1 <= asked s)%nat ->
  total_wp (mrcp_server_on_engine_channel_close i) s (fun _ s' => session_ok (b + 1) k s').
Proof.
  intros Hok Hi Hl. destruct (lookup_lt_is_Some_2 _ _ Hi) as [c Hc]. destruct (session_resource _ _ _ _ _ Hok Hc) as [r Hr].
  unfold mrcp_server_on_engine_channel_close. apply wp_bind. eapply get_channel_wp; [done|]. apply wp_bind, wp_deref. rewrite Hr. apply wp_bind.
  eapply wp_weaken; [by apply plain_reply_wp|]. cbv beta. intros _ s2 [H2 _]. by apply wp_ret.
Qed.

(** ** Responses of the media engine *)

Lemma find_index_some {X} (f : X -> bool) (l : list X) i : find_index f l = Some i -> exists x, l !! i = Some x /\ f x = true.
Proof.
  unfold find_index. destruct (list_find _ l) as [[j x]|] eqn:E; [|done]. intros [= <-].
  apply list_find_Some in E as (H1 & H2 & _). by exists x.
Qed.

Lemma channel_termination_done_wp b k s0 t s : s0 = s -> session_ok b k s ->
  total_wp (channel_termination_done s0 t) s (fun _ s' => after b k s s').
Proof.
  intros -> Hok. unfold channel_termination_done. destruct (mrcp_server_channel_termination_find s t) as [i|] eqn:E; [|by apply wp_ret].
  unfold mrcp_server_channel_termination_find in E. apply find_index_some in E as ((j & c) & E & _).
  rewrite list_lookup_imap in E. destruct (channels s !! i) as [c'|] eqn:Hc; [|done]. injection E as <- <-.
  apply wp_bind. eapply get_channel_wp; [done|]. destruct (waiting_for_termination c') eqn:Ew; cbn [when]; [|by apply wp_ret].
  destruct (flag_channel_lower b k i c' (fun c => c <| waiting_for_termination := false |>) s Hok Hc) as (st & Hst & Hf);
    [unfold channel_flags; cbn; rewrite Ew; cbn; lia|done|].
  apply wp_bind. eapply wp_weaken; [exact Hf|]. cbv beta. intros _ s1 H1. by eapply counted_remove_wp.
Qed.

Lemma termination_modify_wp b k m s : session_ok b k s ->
  bool_decide (is_Some (mpf_descriptor m)) || bool_decide (Forall (fun t => t <> mpf_termination m) (slot_terms s)) = true ->
  total_wp (mrcp_server_on_termination_modify m) s (fun _ s' => after b k s s').
Proof.
  intros Hok Hm. unfold mrcp_server_on_termination_modify. destruct (mpf_context m) eqn:Ex; cbn [negb]; [|by apply wp_ret].
  apply wp_bind, wp_gets. destruct (mrcp_server_rtp_termination_find s (mpf_termination m)) as [i|] eqn:E.
  - unfold mrcp_server_rtp_termination_find in E. apply find_index_some in E as (x & Hx & Et%bool_decide_eq_true).
    apply wp_bind. eapply get_slot_wp; [done|]. destruct (waiting x) eqn:Ew; cbn [negb]; [|by apply wp_ret].
    destruct (flag_slot_lower b k i x s Hok Hx Ew) as (st & Hst & Hf). apply wp_bind. eapply wp_weaken; [exact Hf|].
    cbv beta. intros _ s1 H1. apply wp_bind, wp_deref. apply orb_true_iff in Hm as [Hd|Hd].
    2:{ apply bool_decide_eq_true in Hd. pose proof (proj1 (Forall_lookup _ _) Hd i (slot_termination x)) as Hne.
      exfalso. apply Hne; [|done]. unfold slot_terms. by rewrite list_lookup_fmap, Hx. }
    apply bool_decide_eq_true in Hd as [d ->]. apply wp_bind. eapply (wp_weaken _ _ _ (fun _ s' => counted b k st s s')).
    + destruct (local (audio d)); [by eapply counted_answer_wp|by apply wp_ret].
    + cbv beta. intros _ s2 H2. apply wp_bind. eapply wp_weaken; [by eapply counted_remove_wp|]. cbv beta. intros _ s3 H3. by apply wp_ret.
  - apply wp_bind. eapply wp_weaken; [by eapply channel_termination_done_wp|]. cbv beta. intros _ s1 H1. by apply wp_ret.
Qed.

Lemma response_wp b k m s : session_ok b k s -> media_reply s m = true -> (b + plain_message m <= asked s)%nat ->
  total_wp (mpf_response_process m) s (fun _ s' => after (b + plain_message m) k s s').
Proof.
  intros Hok Hm Hl. pose proof Hm as Hm'. unfold media_reply in Hm'. unfold mpf_response_process.
  destruct (mpf_message_type m) eqn:Et; [done| |done]. apply andb_true_iff in Hm' as [Hx Hc]. rewrite Hx. unfold plain_message in *.
  destruct (command_id m) eqn:Ec; try done; rewrite ?Nat.add_0_r in *; try by apply plain_reply_wp.
  all: apply wp_bind; (eapply wp_weaken; [by apply termination_modify_wp|]); cbv beta; intros _ s1 H1; by apply wp_ret.
Qed.

Lemma responses_wp k (l : list mpf_message_t) : forall b s, session_ok b k s -> media_replies s l = true ->
  (b + total plain_message l <= asked s)%nat ->
  total_wp (for_each l mpf_response_process) s (fun _ s' => session_ok (b + total plain_message l) k s').
Proof.
  induction l as [|m l IH]; intros b s Hok Hm Hl; cbn [for_each].
  - apply wp_ret. by rewrite total_nil, Nat.add_0_r.
  - cbn [media_replies] in Hm. apply andb_true_iff in Hm as [Hm Hall].
    assert (E : total plain_message (m :: l) = (plain_message m + total plain_message l)%nat) by done. rewrite E in *.
    pose proof (response_wp b k m s Hok Hm ltac:(lia)) as Hr. apply wp_bind. unfold wp in Hr |- *.
    destruct (mpf_response_process m s) as [[r s1]|]; [|done]. destruct Hr as [H1 Ha]. rewrite Nat.add_assoc. apply IH; [done|done|lia].
Qed.

(** * Every message *)

Lemma legal_step b k x s : session_ok b k s -> legal b s x = true ->
  total_wp (mrcp_server_msg_process x) s (fun _ s' => session_ok (b + plain_reply x) (k + offers_of x) s').
Proof.
  intros Hok Hl. pose proof Hl as [Hn%Nat.leb_le Hx]%andb_true_iff.
  destruct x as [m|i [d|] st|i [d|] st| | | | | |i st|i| |l]; try done; cbn [plain_reply offers_of] in *; rewrite ?Nat.add_0_r in *.
  - rewrite (Nat.add_comm k 1). destruct (type m) eqn:Et; try done. destruct (descriptor m) as [d|] eqn:Ed; [|done].
    apply offer_message_wp; [done|]. split; [done|by exists d].
  - apply Nat.ltb_lt in Hx. unfold mrcp_server_msg_process. apply wp_bind.
    eapply wp_weaken; [by apply channel_modify_wp|]. cbv beta. intros _ s1 H1. by apply wp_ret.
  - apply Nat.ltb_lt in Hx. unfold mrcp_server_msg_process. apply wp_bind.
    eapply wp_weaken; [by apply channel_modify_wp|]. cbv beta. intros _ s1 H1. by apply wp_ret.
  - apply Nat.ltb_lt in Hx. unfold mrcp_server_msg_process. apply wp_bind.
    eapply wp_weaken; [by apply engine_open_wp|]. cbv beta. intros _ s1 H1. by apply wp_ret.
  - apply Nat.ltb_lt in Hx. unfold mrcp_server_msg_process. apply wp_bind.
    eapply wp_weaken; [by apply engine_close_wp|]. cbv beta. intros _ s1 H1. by apply wp_ret.
  - unfold mrcp_server_msg_process, mrcp_server_mpf_message_process. apply wp_bind, wp_bind.
    eapply wp_weaken; [by apply responses_wp|]. cbv beta. intros _ s1 H1. do 2 apply wp_ret. done.
Qed.

Fixpoint legal_run (b : nat) (s : session) (l : list (server_task_msg R)) : bool :=
  match l with
  | [] => true
  | x :: l => legal b s x && match mrcp_server_msg_process x s with Some (_, s') => legal_run (b + plain_reply x) s' l | None => true end
  end.

Lemma legal_run_ok (l : list (server_task_msg R)) : forall b k s, session_ok b k s -> legal_run b s l = true ->
  total_wp (session_run l) s (fun _ s' => session_ok (b + total plain_reply l) (k + total offers_of l) s').
Proof.
  induction l as [|x l IH]; intros b k s Hok Hl; cbn [session_run legal_run] in *.
  - apply wp_ret. by rewrite !total_nil, !Nat.add_0_r.
  - apply andb_true_iff in Hl as [Hx Hl]. apply wp_bind. pose proof (legal_step b k x s Hok Hx) as Hstep. unfold wp in Hstep |- *.
    destruct (mrcp_server_msg_process x s) as [[r s1]|]; [|done].
    assert (E : forall f : server_task_msg R -> nat, total f (x :: l) = (f x + total f l)%nat) by done.
    rewrite !E, !Nat.add_assoc. by apply IH.
Qed.

(** What is still outstanding of what a session asked for, when [b] of the requests no flag awaits were answered. *)
Definition outstanding (b : nat) (s : session) : nat := (flags s + asked s - b)%nat.

(** The offer that is being processed. *)
Definition pending (s : session) : nat := match active_request s with Some _ => 1 | None => 0 end.

(** C3: every offer to a session is answered, once, and as soon as all the session asked for was answered and not before: in a run of
    offers, which may arrive while another one is processed and then wait for their turn, and of the answers of the connection agent,
    of the media engine and of the plugins to the requests of the session, in whatever order they come, nothing is dereferenced
    that is not there, the answers sent are as many as the offers, but for the one that is being processed and those that
    wait, an offer waits only while another one is processed, and one is being processed exactly when something the session
    asked for is outstanding.  The other messages of the task, control messages and terminations of the session, are not part of such a run. *)
Theorem session_offers_answered (p : mrcp_profile_t) (es : gmap addr mrcp_engine_t) (l : list (server_task_msg R)) :
  engines_ok (mrcp_server_session_create p es) -> is_Some (rtp_settings p) ->
  legal_run 0 (mrcp_server_session_create p es) l = true ->
  exists s', session_run l (mrcp_server_session_create p es) = Some (tt, s') /\
    (answers s' + pending s' + length (request_queue s') = total offers_of l)%nat /\
    (active_request s' = None -> request_queue s' = []) /\
    (active_request s' = None <-> outstanding (total plain_reply l) s' = 0%nat).
Proof.
  intros He Hs Hl. assert (H0 : session_ok 0 0 (mrcp_server_session_create p es)) by (left; by split).
  destruct (wp_total _ _ _ (legal_run_ok l 0 0 _ H0 Hl)) as ([] & s' & E & Hok). exists s'. split; [exact E|]. cbn [Nat.add] in Hok. unfold outstanding, pending.
  destruct Hok as [Hr|[(st & Hst & Hx) Hn]].
  - pose proof (rd_answers _ _ _ _ Hr) as Ha. cbn in Ha. rewrite (rd_active _ _ _ _ Hr), (rd_flags _ _ _ _ Hr), (rd_asked _ _ _ _ Hr).
    split; [lia|]. split; [intros _; by apply (rd_idle _ _ _ _ Hr)|]. split; [lia|done].
  - pose proof (ex_answers _ _ _ _ Hx) as Ha. pose proof (ex_count _ _ _ _ Hx). cbn [fst] in Ha.
    destruct (ex_active _ _ _ _ Hx) as [r Hr]. rewrite Hr. split; [lia|]. split; [done|]. split; [done|lia].
Qed.
End Exchange.

(** * The theorem at a concrete run *)

#[local] Existing Instance apr_reference.
#[local] Existing Instance apr_reference_laws.
#[local] Existing Instance float_integers.
#[local] Existing Instance apr_hash_reference.
#[local] Existing Instance synth_machines.
#[local] Existing Instance synth_machines_laws.
#[local] Existing Instance sample_world.

(** A second offer that arrives before the first one is answered. *)
Definition two_offers : list (server_task_msg mrcp_synth_header_t) :=
  match offer_exchange with x :: l => x :: x :: l | [] => [] end.

Lemma session_offers_answered_witness :
  match session_run two_offers (sample_session MRCP_VERSION_2) with
  | Some (_, s) => answers s = 1%nat /\ (answers s + pending s + length (request_queue s) = 2)%nat
  | None => False
  end.
Proof.
  destruct (session_offers_answered (sample_profile MRCP_VERSION_2) {[7%nat := sample_engine]} two_offers) as (s & E & H & _).
  - intros n a Ha. assert (a = 7%nat) as ->.
    { change ((<[lit "speechsynth" := 7%nat]> ∅ : gmap bytes nat) !! n = Some a) in Ha.
      destruct (decide (lit "speechsynth" = n)) as [<-|Hne]; [rewrite lookup_insert_eq in Ha|rewrite lookup_insert_ne in Ha by done]; by simplify_eq. }
    exists sample_engine. split; [reflexivity|]. split; by eexists.
  - by eexists.
  - vm_compute. reflexivity.
  - unfold sample_session. rewrite E. split.
    + assert (Ho : option_map (fun r => answers (snd r)) (session_run two_offers (sample_session MRCP_VERSION_2)) = Some 1%nat) by (vm_compute; reflexivity).
      unfold sample_session in Ho. rewrite E in Ho. by injection Ho.
    + rewrite H. vm_compute. reflexivity.
Defined.
