(* ===== verification/RtspStartLine.v ===== *)
(** The start line of RTSP messages ([uni-rtsp/include/rtsp_start_line.h], [src/rtsp_start_line.c]):
    request and status lines parsed from and generated into text streams. *)

From S2P Require Import Prelude AptString TextStream TextValues StartLine.

(** * Data *)

Inductive rtsp_version_e := RTSP_VERSION_UNKNOWN | RTSP_VERSION_1.
Inductive rtsp_message_type_e := RTSP_MESSAGE_TYPE_UNKNOWN | RTSP_MESSAGE_TYPE_REQUEST | RTSP_MESSAGE_TYPE_RESPONSE.

(** Methods and reason phrases are positions in their tables. *)
Definition RTSP_METHOD_SETUP : Z := 0.
Definition RTSP_METHOD_ANNOUNCE : Z := 1.
Definition RTSP_METHOD_TEARDOWN : Z := 2.
Definition RTSP_METHOD_DESCRIBE : Z := 3.
Definition RTSP_METHOD_COUNT : Z := 4.
Definition RTSP_METHOD_UNKNOWN : Z := RTSP_METHOD_COUNT.
Definition RTSP_STATUS_CODE_OK : Z := 200.
Definition RTSP_REASON_PHRASE_OK : Z := 0.
Definition RTSP_REASON_PHRASE_NOT_FOUND : Z := 4.
Definition RTSP_REASON_PHRASE_COUNT : Z := 12.

Definition rtsp_version_number (v : rtsp_version_e) : Z := match v with RTSP_VERSION_UNKNOWN => 0 | RTSP_VERSION_1 => 1 end.

(** [resource_name] points to memory of the URL or to a string of its own. *)
Record rtsp_request_line_t := mk_request_line {
  rl_method_name : apt_str_t;
  rl_method_id : Z;
  rl_url : apt_str_t;
  rl_resource_name : option bytes;
  rl_version : rtsp_version_e
}.
Record rtsp_status_line_t := mk_status_line {
  sl_version : rtsp_version_e;
  sl_status_code : Z;
  sl_reason : apt_str_t
}.
#[global] Instance eta_request_line : Eta rtsp_request_line_t := fun l =>
  mk_request_line (rl_method_name l) (rl_method_id l) (rl_url l) (rl_resource_name l) (rl_version l).
#[global] Instance eta_status_line : Eta rtsp_status_line_t := fun l =>
  mk_status_line (sl_version l) (sl_status_code l) (sl_reason l).

(** The union of both lines, which a line of unknown type leaves as it was allocated. *)
Inductive rtsp_line := NO_LINE | REQUEST_LINE (l : rtsp_request_line_t) | STATUS_LINE (l : rtsp_status_line_t).
Record rtsp_start_line_t := mk_rtsp_start_line {
  rtsp_message_type : rtsp_message_type_e;
  common : rtsp_line
}.

Definition rtsp_request_line_init : rtsp_request_line_t :=
  mk_request_line apt_string_reset RTSP_METHOD_UNKNOWN apt_string_reset None RTSP_VERSION_1.
Definition rtsp_status_line_init : rtsp_status_line_t := mk_status_line RTSP_VERSION_1 RTSP_STATUS_CODE_OK apt_string_reset.
Definition rtsp_start_line_init (t : rtsp_message_type_e) : rtsp_start_line_t :=
  mk_rtsp_start_line t
    match t with
    | RTSP_MESSAGE_TYPE_REQUEST => REQUEST_LINE rtsp_request_line_init
    | RTSP_MESSAGE_TYPE_RESPONSE => STATUS_LINE rtsp_status_line_init
    | RTSP_MESSAGE_TYPE_UNKNOWN => NO_LINE
    end.

Definition RTSP_NAME : bytes := lit "RTSP".

Definition rtsp_method_string_table : list apt_str_table_item_t :=
  [ item "SETUP" 5 0; item "ANNOUNCE" 8 0; item "TEARDOWN" 8 0; item "DESCRIBE" 8 0 ].
Definition rtsp_reason_string_table : list apt_str_table_item_t :=
  [ item "OK" 2 0; item "Created" 7 0; item "Bad Request" 11 0; item "Unauthorized" 12 0; item "Not Found" 9 4;
    item "Method Not Allowed" 18 0; item "Not Acceptable" 14 4; item "Proxy Auth Required" 19 0; item "Request Timeout" 15 0;
    item "Session Not Found" 17 0; item "Internal Server Error" 21 0; item "Not Implemented" 15 4 ].

Definition rtsp_reason_phrase_get (reason : Z) : option apt_str_t :=
  apt_string_table_str_get rtsp_reason_string_table RTSP_REASON_PHRASE_COUNT reason.

(** * Parsing *)

(** libc [strrchr]: the last occurrence before the terminator. *)
Fixpoint strrchr (s : bytes) (c : char) : option nat :=
  match s with
  | [] => None
  | x :: s' =>
      if char_eqb x NUL then None
      else match strrchr s' c with
           | Some i => Some (S i)
           | None => if char_eqb x c then Some 0%nat else None
           end
  end.

(** The URL loses a slash at its end; the resource is what follows the last slash. *)
Definition rtsp_resource_uri_parse (field : apt_str_t) (l : rtsp_request_line_t) : bool * rtsp_request_line_t :=
  if (str_len field =? 0)%nat || bool_decide (str_buf field = None) then (false, l)
  else
    let url := apt_string_copy field in
    let n := (str_len url - 1)%nat in
    let url := if char_eqb (byte_at (str_mem url) n) "/"%char
               then mk_str (Some (overwrite (str_mem url) n [NUL])) n else url in
    (true, l <| rl_url := url |> <| rl_resource_name := (fun i => drop (S i) (str_mem url)) <$> strrchr (str_mem url) "/"%char |>).

Definition rtsp_version_parse (field : apt_str_t) : rtsp_version_e :=
  if (str_len field <=? length RTSP_NAME)%nat || negb (strncasecmp_eq (str_mem field) RTSP_NAME (length RTSP_NAME))
  then RTSP_VERSION_UNKNOWN
  else
    let pos := drop (length RTSP_NAME) (str_mem field) in
    if char_eqb (deref pos) "/"%char then
      if char_eqb (deref (tail pos)) "1"%char then RTSP_VERSION_1 else RTSP_VERSION_UNKNOWN
    else RTSP_VERSION_UNKNOWN.

(** The status code is an enumeration of 32 bits. *)
Definition rtsp_status_code_parse (field : apt_str_t) : Z := u32 (apt_size_value_parse field).

(** A line that cannot be parsed to its end is left as far as it was. *)
Definition rtsp_status_line_parse (field : apt_str_t) (line : apt_text_stream_t) : bool * rtsp_status_line_t :=
  let l := rtsp_status_line_init <| sl_version := rtsp_version_parse field |> in
  let '(ok, field, line) := field_sp line in
  if negb ok then (false, l) else
  let l := l <| sl_status_code := rtsp_status_code_parse field |> in
  let '(ok, field, line) := field_sp line in
  if negb ok then (false, l) else
  (true, l <| sl_reason := apt_string_copy field |>).

Definition rtsp_request_line_parse (field : apt_str_t) (line : apt_text_stream_t) : bool * rtsp_request_line_t :=
  let l := rtsp_request_line_init <| rl_method_name := apt_string_copy field |>
             <| rl_method_id := apt_string_table_id_find rtsp_method_string_table RTSP_METHOD_COUNT field |> in
  let '(ok, field, line) := field_sp line in
  if negb ok then (false, l) else
  let l := snd (rtsp_resource_uri_parse field l) in
  let '(ok, field, line) := field_sp line in
  if negb ok then (false, l) else
  (true, l <| rl_version := rtsp_version_parse field |>).

Definition rtsp_start_line_parse (sl : rtsp_start_line_t) (str : apt_str_t) : bool * rtsp_start_line_t :=
  let '(ok, field, line) := field_sp (stream_of_str str) in
  if negb ok then (false, sl) else
  if starts_with (str_mem field) RTSP_NAME then
    let '(ok, l) := rtsp_status_line_parse field line in
    (ok, mk_rtsp_start_line RTSP_MESSAGE_TYPE_RESPONSE (STATUS_LINE l))
  else
    let '(ok, l) := rtsp_request_line_parse field line in
    (ok, mk_rtsp_start_line RTSP_MESSAGE_TYPE_REQUEST (REQUEST_LINE l)).

(** * Generation *)

Section Generate.
Context `{Apr}.

(** Stop when an insertion fails. *)
Definition then_insert (p q : prog apt_text_stream_t bool) : prog apt_text_stream_t bool :=
  let* ok := p in if negb ok then ret false else q.

Definition rtsp_version_generate (v : rtsp_version_e) : prog apt_text_stream_t bool :=
  let* full := gets (no_room (length RTSP_NAME + 1)) in
  if full then ret false else
  put RTSP_NAME ;;;
  put ["/"%char] ;;;
  let* ok := apt_text_size_value_insert (rtsp_version_number v) in
  if negb ok then ret false else
  let* full := gets (no_room 2) in
  if full then ret false else
  put ["."%char] ;;; put ["0"%char] ;;; ret true.

Definition rtsp_status_code_generate (code : Z) : prog apt_text_stream_t bool := apt_text_size_value_insert code.

Definition rtsp_request_line_generate (l : rtsp_request_line_t) : prog apt_text_stream_t (bool * rtsp_request_line_t) :=
  match apt_string_table_str_get rtsp_method_string_table RTSP_METHOD_COUNT (rl_method_id l) with
  | None => ret (false, l)
  | Some name =>
      let l := l <| rl_method_name := name |> in
      let* ok := then_insert (apt_text_string_insert (rl_method_name l))
        (then_insert apt_text_space_insert
        (then_insert (apt_text_string_insert (rl_url l))
        (then_insert apt_text_space_insert (rtsp_version_generate (rl_version l))))) in
      ret (ok, l)
  end.

Definition rtsp_status_line_generate (l : rtsp_status_line_t) : prog apt_text_stream_t bool :=
  then_insert (rtsp_version_generate (sl_version l))
    (then_insert apt_text_space_insert
    (then_insert (rtsp_status_code_generate (sl_status_code l))
    (then_insert apt_text_space_insert (apt_text_string_insert (sl_reason l))))).

(** The line that is read is the one the type of the message says. *)
Definition rtsp_start_line_generate (sl : rtsp_start_line_t) : prog apt_text_stream_t (bool * rtsp_start_line_t) :=
  let* r :=
    match rtsp_message_type sl, common sl with
    | RTSP_MESSAGE_TYPE_REQUEST, REQUEST_LINE l =>
        let* r := rtsp_request_line_generate l in ret (fst r, mk_rtsp_start_line (rtsp_message_type sl) (REQUEST_LINE (snd r)))
    | RTSP_MESSAGE_TYPE_RESPONSE, STATUS_LINE l => let* ok := rtsp_status_line_generate l in ret (ok, sl)
    | RTSP_MESSAGE_TYPE_UNKNOWN, _ => ret (false, sl)
    | _, _ => crash
    end in
  let '(status, sl) := r in
  if negb status then ret (false, sl)
  else let* ok := apt_text_eol_insert in ret (ok, sl).
End Generate.

(** * What is generated *)

Definition rtsp_version_text (v : rtsp_version_e) : bytes := RTSP_NAME ++ ["/"%char] ++ dec (rtsp_version_number v) ++ ["."%char] ++ ["0"%char].
Definition rtsp_method_text (id : Z) : bytes :=
  match apt_string_table_str_get rtsp_method_string_table RTSP_METHOD_COUNT id with Some n => str_text n | None => [] end.

(** The words of a line; a reason phrase may have several. *)
Definition rtsp_words (sl : rtsp_start_line_t) (reason : list bytes) : list bytes :=
  match common sl with
  | REQUEST_LINE l => [rtsp_method_text (rl_method_id l); str_text (rl_url l); rtsp_version_text (rl_version l)]
  | STATUS_LINE l => rtsp_version_text (sl_version l) :: dec (sl_status_code l) :: reason
  | NO_LINE => []
  end.

(** A line that can be sent: its method is known, its URL is one word, its reason phrase words with single spaces. *)
Definition rtsp_line_ok (sl : rtsp_start_line_t) (reason : list bytes) : Prop :=
  match rtsp_message_type sl, common sl with
  | RTSP_MESSAGE_TYPE_REQUEST, REQUEST_LINE l =>
      0 <= rl_method_id l < RTSP_METHOD_COUNT /\ str_wf (rl_url l) /\ token (str_text (rl_url l)) /\
      no_eol (str_text (rl_url l)) /\ nul_free (str_text (rl_url l))
  | RTSP_MESSAGE_TYPE_RESPONSE, STATUS_LINE l =>
      0 <= sl_status_code l < 2 ^ 32 /\ str_wf (sl_reason l) /\ str_text (sl_reason l) = join reason /\
      reason <> [] /\ Forall token reason /\ Forall no_eol reason
  | _, _ => False
  end.

Section Writers.
Context `{L : AprLaws}.

Lemma rtsp_version_text_length v : length (rtsp_version_text v) = 8%nat.
Proof. by destruct v. Qed.
#[local] Hint Rewrite rtsp_version_text_length : mrcp.

Lemma rtsp_version_writes (v : rtsp_version_e) (n : nat) :
  (8 <= n)%nat -> writes (rtsp_version_generate v) true (rtsp_version_text v) n.
Proof.
  intros Hn. assert (Hd : length (dec (rtsp_version_number v)) = 1%nat) by (by destruct v).
  unfold rtsp_version_generate, apt_text_size_value_insert.
  writes_with ltac:(apply writes_snprintf; [apply dec_nonempty|]). all: rewrite ?Hd; simpl; lia.
Qed.

Lemma string_insert_writes (s : apt_str_t) (n : nat) :
  str_wf s -> (str_len s <= n)%nat -> writes (apt_text_string_insert s) true (str_text s) n.
Proof.
  intros W Hn. rewrite <-str_data_text by done. unfold apt_text_string_insert. apply writes_gets_room; [done|].
  destruct (Nat.eqb_spec (str_len s) 0) as [E|E].
  - eapply writes_text; [apply writes_ret|]. unfold str_data. by rewrite E.
  - writes_with ltac:(fail).
Qed.

Lemma char_insert_writes (c : char) (n : nat) : (1 <= n)%nat -> writes (apt_text_char_insert c) true [c] n.
Proof. intros Hn. unfold apt_text_char_insert. writes_with ltac:(fail). Qed.

Ltac rtsp_leaf :=
  first [ apply rtsp_version_writes; text_length
        | apply string_insert_writes; [done|]; unfold str_wf in *; text_length
        | apply char_insert_writes; text_length
        | apply writes_snprintf; [apply dec_nonempty|]; text_length
        | apply writes_eol; text_length ].

Lemma rtsp_request_line_writes (l : rtsp_request_line_t) (name : apt_str_t) (n : nat) :
  apt_string_table_str_get rtsp_method_string_table RTSP_METHOD_COUNT (rl_method_id l) = Some name ->
  str_wf name -> str_wf (rl_url l) -> (str_len name + str_len (rl_url l) + 10 <= n)%nat ->
  writes (rtsp_request_line_generate l) (true, l <| rl_method_name := name |>)
    (str_text name ++ [SP] ++ str_text (rl_url l) ++ [SP] ++ rtsp_version_text (rl_version l)) n.
Proof.
  intros E Wn Wu Hn. unfold rtsp_request_line_generate, then_insert, apt_text_space_insert. rewrite E.
  pose proof Wn as Wn'. pose proof Wu as Wu'. unfold str_wf in Wn', Wu'.
  cbn [rl_method_name rl_url rl_version field_set]. writes_with rtsp_leaf.
Qed.

Lemma rtsp_status_line_writes (l : rtsp_status_line_t) (n : nat) :
  str_wf (sl_reason l) -> (str_len (sl_reason l) + length (dec (sl_status_code l)) + 10 <= n)%nat ->
  writes (rtsp_status_line_generate l) true
    (rtsp_version_text (sl_version l) ++ [SP] ++ dec (sl_status_code l) ++ [SP] ++ str_text (sl_reason l)) n.
Proof.
  intros Wr Hn. unfold rtsp_status_line_generate, rtsp_status_code_generate, apt_text_size_value_insert, then_insert, apt_text_space_insert.
  pose proof Wr as Wr'. unfold str_wf in Wr'. writes_with rtsp_leaf.
Qed.

Lemma rtsp_method_named (id : Z) : 0 <= id < RTSP_METHOD_COUNT ->
  exists name, apt_string_table_str_get rtsp_method_string_table RTSP_METHOD_COUNT id = Some name /\ str_wf name /\
    rtsp_method_text id = str_text name.
Proof.
  unfold RTSP_METHOD_COUNT, rtsp_method_text. intros H.
  assert (Hid : id = 0 \/ id = 1 \/ id = 2 \/ id = 3) by lia.
  by destruct Hid as [->|[->|[->| ->]]]; eexists.
Qed.

Lemma rtsp_start_line_writes (sl : rtsp_start_line_t) (reason : list bytes) (n : nat) :
  rtsp_line_ok sl reason -> (length (join (rtsp_words sl reason)) + 2 <= n)%nat ->
  exists sl', writes (rtsp_start_line_generate sl) (true, sl') (join (rtsp_words sl reason) ++ [CR; LF]) n.
Proof.
  unfold rtsp_line_ok, rtsp_words, rtsp_start_line_generate. destruct sl as [t [|l|l]], t; try done; cbn [rtsp_message_type common].
  - intros (Hm & Wu & _) Hn. destruct (rtsp_method_named _ Hm) as (name & E & Wn & Et). rewrite Et in *. eexists.
    cbn [join] in *. rewrite !length_app in Hn. cbn [length] in Hn. rewrite !length_app in Hn. cbn [length] in Hn.
    rewrite rtsp_version_text_length in Hn. pose proof Wn as Wn'. pose proof Wu as Wu'. unfold str_wf in Wn', Wu'.
    assert (H1 : writes (let* r := rtsp_request_line_generate l in ret (fst r, mk_rtsp_start_line RTSP_MESSAGE_TYPE_REQUEST (REQUEST_LINE (snd r))))
      (true, mk_rtsp_start_line RTSP_MESSAGE_TYPE_REQUEST (REQUEST_LINE (l <| rl_method_name := name |>)))
      (str_text name ++ [SP] ++ str_text (rl_url l) ++ [SP] ++ rtsp_version_text (rl_version l)) n).
    { eapply writes_text; [eapply writes_bind; [apply (rtsp_request_line_writes l name n E Wn Wu); lia| |apply writes_ret]|apply app_nil_r].
      text_length. }
    eapply writes_text; [eapply writes_bind; [exact H1|text_length|cbv beta iota; cbn [negb]; writes_go rtsp_leaf]|].
    rewrite ?app_nil_r. reflexivity.
  - intros (Hc & Wr & Er & Hne & _) Hn. eexists. destruct reason as [|w ws]; [done|].
    change (join (rtsp_version_text (sl_version l) :: dec (sl_status_code l) :: w :: ws))
      with (rtsp_version_text (sl_version l) ++ SP :: dec (sl_status_code l) ++ SP :: join (w :: ws)) in *. rewrite <-Er in *.
    rewrite !length_app in Hn. cbn [length] in Hn. rewrite !length_app in Hn. cbn [length] in Hn.
    rewrite rtsp_version_text_length in Hn. pose proof Wr as Wr'. unfold str_wf in Wr'.
    assert (H1 : writes (let* ok := rtsp_status_line_generate l in ret (ok, mk_rtsp_start_line RTSP_MESSAGE_TYPE_RESPONSE (STATUS_LINE l)))
      (true, mk_rtsp_start_line RTSP_MESSAGE_TYPE_RESPONSE (STATUS_LINE l))
      (rtsp_version_text (sl_version l) ++ [SP] ++ dec (sl_status_code l) ++ [SP] ++ str_text (sl_reason l)) n).
    { eapply writes_text; [eapply writes_bind; [apply (rtsp_status_line_writes l n Wr); lia| |apply writes_ret]|apply app_nil_r].
      text_length. }
    eapply writes_text; [eapply writes_bind; [exact H1|text_length|cbv beta iota; cbn [negb]; writes_go rtsp_leaf]|].
    rewrite ?app_nil_r. reflexivity.
Qed.
End Writers.

(** * What is read back *)

(** A slash at the end of the URL is lost. *)
Definition url_stripped (u : bytes) : bytes :=
  if char_eqb (byte_at u (length u - 1)) "/"%char then take (length u - 1) u else u.

(** The resource is what follows the last slash. *)
Definition resource_at (u : bytes) (name : option bytes) : Prop :=
  match name with
  | Some m => exists pre r, u = pre ++ ("/"%char :: r) /\ ("/"%char ∉ r) /\ c_string m = r
  | None => "/"%char ∉ u
  end.

(** Of a reason phrase the first word is read. *)
Definition rtsp_line_same (sl : rtsp_start_line_t) (reason : list bytes) (sl' : rtsp_start_line_t) : Prop :=
  rtsp_message_type sl' = rtsp_message_type sl /\
  match common sl, common sl' with
  | REQUEST_LINE l, REQUEST_LINE l' =>
      str_text (rl_method_name l') = rtsp_method_text (rl_method_id l) /\ rl_method_id l' = rl_method_id l /\
      str_text (rl_url l') = url_stripped (str_text (rl_url l)) /\
      resource_at (url_stripped (str_text (rl_url l))) (rl_resource_name l') /\ (rl_version l' = rl_version l)
  | STATUS_LINE l, STATUS_LINE l' =>
      sl_version l' = sl_version l /\ sl_status_code l' = sl_status_code l /\ Some (str_text (sl_reason l')) = head reason
  | _, _ => False
  end.

Lemma strrchr_slash (s rest : bytes) : nul_free s ->
  match strrchr (s ++ NUL :: rest) "/"%char with
  | Some i => exists pre r, s = pre ++ ("/"%char :: r) /\ ("/"%char ∉ r) /\ i = length pre
  | None => "/"%char ∉ s
  end.
Proof.
  intros Hn. induction s as [|x s IH]; cbn [app strrchr].
  - rewrite char_eqb_refl. apply not_elem_of_nil.
  - unfold nul_free in *. apply not_elem_of_cons in Hn as [Hx Hn]. rewrite char_eqb_ne by done. specialize (IH Hn).
    destruct (strrchr _ _) as [i|].
    + destruct IH as (pre & r & -> & Hr & ->). exists (x :: pre), r. split_and!; done.
    + destruct (char_eqb x "/"%char) eqn:E.
      * apply bool_decide_eq_true in E as ->. exists [], s. split_and!; done.
      * apply bool_decide_eq_false in E. apply not_elem_of_cons. split; congruence.
Qed.

Lemma strrchr_end (s : bytes) (c : char) : strrchr (s ++ [NUL]) c = strrchr s c.
Proof.
  induction s as [|x s IH]; cbn [app strrchr]; [by rewrite char_eqb_refl|]. by rewrite IH.
Qed.

Lemma c_string_nul (r rest : bytes) : nul_free r -> c_string (r ++ NUL :: rest) = r /\ c_string r = r.
Proof.
  unfold c_string, nul_free. induction r as [|x r IH]; cbn [app strlen take]; [by rewrite char_eqb_refl|].
  intros [Hx Hr]%not_elem_of_cons. rewrite char_eqb_ne by done. cbn [take]. destruct (IH Hr) as [-> ->]. done.
Qed.

(** The resource in a memory that is a URL, with or without its terminator. *)
Lemma resource_found (s m : bytes) : nul_free s -> m = s \/ m = s ++ [NUL] ->
  resource_at s ((fun i => drop (S i) m) <$> strrchr m "/"%char).
Proof.
  intros Hs Hm. assert (Es : strrchr m "/"%char = strrchr (s ++ [NUL]) "/"%char) by (destruct Hm as [->| ->]; by rewrite ?strrchr_end).
  rewrite Es. pose proof (strrchr_slash s [] Hs) as H. destruct (strrchr (s ++ [NUL]) _) as [i|]; [|exact H]. cbn.
  destruct H as (pre & r & -> & Hr & ->). exists pre, r. split_and!; [done|done|].
  assert (Hn : nul_free r) by (unfold nul_free in *; rewrite not_elem_of_app, not_elem_of_cons in Hs; by destruct_and! Hs).
  assert (Ed : forall tl, drop (S (length pre)) ((pre ++ "/"%char :: r) ++ tl) = r ++ tl).
  { intros tl. rewrite <-app_assoc. change (S (length pre)) with (1 + length pre)%nat. rewrite Nat.add_comm, <-drop_drop, drop_app_length. done. }
  destruct (c_string_nul r [] Hn) as [E1 E2]. destruct Hm as [->| ->]; [|by rewrite Ed].
  rewrite <-(app_nil_r (pre ++ _)), Ed, app_nil_r. exact E2.
Qed.

Lemma uri_parse_text (f : apt_str_t) (u follow : bytes) (l : rtsp_request_line_t) :
  str_len f = length u -> str_buf f = Some (u ++ follow) -> u <> [] -> nul_free u ->
  exists url i, rtsp_resource_uri_parse f l = (true, l <| rl_url := url |> <| rl_resource_name := i |>) /\
    str_text url = url_stripped u /\ resource_at (url_stripped u) i.
Proof.
  intros Hl Hb Hne Hn. unfold rtsp_resource_uri_parse, apt_string_copy, apt_string_assign_n, str_mem, apr_pstrmemdup. rewrite Hb, Hl.
  destruct (Nat.eqb_spec (length u) 0) as [E|E]; [by destruct u|]. rewrite bool_decide_eq_false_2 by done. cbn [orb str_buf str_len].
  rewrite take_app_length. eexists _, _. split; [reflexivity|].
  unfold url_stripped. destruct (char_eqb _ _).
  - assert (Eo : overwrite u (length u - 1) [NUL] = take (length u - 1) u ++ [NUL]).
    { unfold overwrite. f_equal. rewrite drop_ge; [done|cbn; lia]. }
    unfold str_text, str_mem. cbn [str_buf str_len]. rewrite Eo. split.
    + rewrite take_app_le by (rewrite length_take; lia). by rewrite take_take, Nat.min_id.
    + apply resource_found; [|by right]. unfold nul_free in *. intros H. apply Hn. rewrite <-(take_drop (length u - 1) u). apply elem_of_app. by left.
  - unfold str_text, str_mem. cbn [str_buf str_len]. split; [apply firstn_all|]. apply resource_found; [done|by left].
Qed.

Lemma rtsp_version_parse_text (f : apt_str_t) (v : rtsp_version_e) (follow : bytes) :
  str_wf f -> str_text f = rtsp_version_text v -> str_buf f = Some (rtsp_version_text v ++ follow) -> rtsp_version_parse f = v.
Proof.
  intros Wf Hf Hb. unfold rtsp_version_parse, str_mem. rewrite Hb. unfold str_wf in Wf. rewrite <-Wf, Hf. by destruct v.
Qed.

Lemma rtsp_method_parse_text (f : apt_str_t) (id : Z) : str_wf f -> 0 <= id < RTSP_METHOD_COUNT -> str_text f = rtsp_method_text id ->
  apt_string_table_id_find rtsp_method_string_table RTSP_METHOD_COUNT f = id.
Proof.
  intros Wf Hid Hf. rewrite id_find_first_index by (done || by vm_compute). unfold first_index. rewrite Hf.
  unfold RTSP_METHOD_COUNT in Hid. assert (Hc : id = 0 \/ id = 1 \/ id = 2 \/ id = 3) by lia.
  by destruct Hc as [->|[->|[->| ->]]].
Qed.

Lemma rtsp_method_not_status (id : Z) (follow : bytes) : 0 <= id < RTSP_METHOD_COUNT -> deref follow = SP ->
  starts_with (rtsp_method_text id ++ follow) RTSP_NAME = false.
Proof.
  intros Hid Hf. destruct follow as [|c r]; [discriminate Hf|]. simpl in Hf. subst c. apply not_true_is_false. intros E.
  apply (starts_with_token _ _ RTSP_NAME ltac:(decide_now)) in E. unfold RTSP_METHOD_COUNT in Hid.
  assert (Hc : id = 0 \/ id = 1 \/ id = 2 \/ id = 3) by lia. by destruct Hc as [->|[->|[->| ->]]].
Qed.

Lemma rtsp_start_line_parse_words (sl sl0 : rtsp_start_line_t) (reason : list bytes) (str : apt_str_t) :
  rtsp_line_ok sl reason -> reads (stream_of_str str) (rtsp_words sl reason) ->
  exists sl', rtsp_start_line_parse sl0 str = (true, sl') /\ rtsp_line_same sl reason sl'.
Proof.
  unfold rtsp_line_ok, rtsp_words, rtsp_start_line_parse, rtsp_line_same. destruct sl as [t [|l|l]], t; try done; cbn [rtsp_message_type common].
  - intros (Hm & Wu & [Hne _] & _ & Hnul) Hr. read_word Hr f1 Ht1 W1 Hb1 Hs1 Hsp1.
    unfold str_mem at 1. rewrite Hb1, (rtsp_method_not_status _ _ Hm (Hsp1 ltac:(done))).
    unfold rtsp_request_line_parse. read_word Hr f2 Ht2 W2 Hb2 Hs2 Hsp2.
    destruct (uri_parse_text f2 (str_text (rl_url l)) follow0 (rtsp_request_line_init <| rl_method_name := apt_string_copy f1 |>
      <| rl_method_id := apt_string_table_id_find rtsp_method_string_table RTSP_METHOD_COUNT f1 |>)) as (url & i & -> & Hu & Hi);
      [unfold str_wf in W2; congruence|done|done|done|]. cbn [snd].
    read_word Hr f3 Ht3 W3 Hb3 Hs3 Hsp3. eexists. split; [reflexivity|]. split; [done|].
    cbn [rl_method_name rl_method_id rl_url rl_resource_name rl_version field_set].
    split_and!; [cbn [rl_method_name]; by rewrite apt_string_copy_text|by apply rtsp_method_parse_text|done|done|by eapply rtsp_version_parse_text].
  - intros (Hc & Wr & Er & Hne & Htok & _) Hr. read_word Hr f1 Ht1 W1 Hb1 Hs1 Hsp1.
    unfold str_mem at 1. rewrite Hb1. change (rtsp_version_text (sl_version l) ++ follow) with (RTSP_NAME ++ (["/"%char] ++ dec (rtsp_version_number (sl_version l)) ++ ["."%char] ++ ["0"%char]) ++ follow).
    rewrite starts_with_app. unfold rtsp_status_line_parse. read_word Hr f2 Ht2 W2 Hb2 Hs2 Hsp2.
    destruct reason as [|w ws]; [done|]. read_word Hr f3 Ht3 W3 Hb3 Hs3 Hsp3. eexists. split; [reflexivity|]. split; [done|].
    cbn [common rtsp_message_type]. cbn [sl_version sl_status_code sl_reason field_set head]. cbn [sl_version sl_status_code sl_reason]. rewrite apt_string_copy_text, Ht3.
    split_and!; [by eapply rtsp_version_parse_text| |done].
    unfold rtsp_status_code_parse. rewrite (size_parse_text f2 (sl_status_code l) follow0), u32_small; (done || lia).
Qed.

Lemma rtsp_words_tokens (sl : rtsp_start_line_t) (reason : list bytes) : rtsp_line_ok sl reason -> Forall token (rtsp_words sl reason).
Proof.
  assert (Hv : forall v, token (rtsp_version_text v)) by (intros []; (split; [done|decide_now])).
  unfold rtsp_line_ok, rtsp_words. destruct sl as [t [|l|l]], t; try done; cbn [rtsp_message_type common].
  - intros (Hm & _ & Ht & _). repeat apply Forall_cons; try apply Forall_nil; try done.
    unfold RTSP_METHOD_COUNT in Hm. assert (Hc : rl_method_id l = 0 \/ rl_method_id l = 1 \/ rl_method_id l = 2 \/ rl_method_id l = 3) by lia.
    destruct Hc as [->|[->|[->| ->]]]; (split; [done|decide_now]).
  - intros (Hc & _ & _ & _ & Ht & _). repeat apply Forall_cons; try done. apply dec_token. lia.
Qed.

Lemma rtsp_words_reads (sl : rtsp_start_line_t) (reason : list bytes) (follow : bytes) :
  rtsp_line_ok sl reason -> stops follow ->
  reads (stream_of_str (mk_str (Some (join (rtsp_words sl reason) ++ follow)) (length (join (rtsp_words sl reason))))) (rtsp_words sl reason).
Proof.
  intros Hok Hf. split.
  - apply stream_of_str_wf. unfold str_wf, str_text, str_mem. cbn [str_buf str_len]. by rewrite take_app_length.
  - rewrite stream_of_str_window. unfold str_text, str_mem. cbn [str_buf str_len]. apply take_app_length.
  - by apply rtsp_words_tokens.
  - unfold beyond. cbn -[join]. by rewrite drop_app_length.
Qed.

(** A start line generated into a stream with room for it is parsed back: the method, the version
    and the status code are the same, a slash at the end of the URL is lost and the resource is what
    follows the last slash, and of a reason phrase of several words only the first one is read. *)
Theorem rtsp_start_line_roundtrip `{L : AprLaws} (sl sl0 : rtsp_start_line_t) (reason : list bytes) (st : apt_text_stream_t) :
  rtsp_line_ok sl reason -> stream_wf st -> addressable st ->
  (st_pos st + (length (join (rtsp_words sl reason)) + 2) < st_end st)%nat ->
  exists sl1 st' line, rtsp_start_line_generate sl st = Some (true, sl1, st') /\ emitted st st' = line ++ [CR; LF] /\
    forall rest, exists sl', rtsp_start_line_parse sl0 (mk_str (Some (line ++ [CR; LF] ++ rest)) (length line)) = (true, sl') /\
      rtsp_line_same sl reason sl'.
Proof.
  intros Hok W Ad Hroom. destruct (rtsp_start_line_writes sl reason _ Hok (le_n _)) as (sl1 & Hw).
  destruct (Hw st W Ad Hroom) as (st' & E & Hem). exists sl1, st', (join (rtsp_words sl reason)). split; [exact E|].
  split; [by apply emits_emitted|]. intros rest. apply rtsp_start_line_parse_words; [done|].
  by apply rtsp_words_reads.
Qed.

Definition sample_request_line : rtsp_start_line_t :=
  mk_rtsp_start_line RTSP_MESSAGE_TYPE_REQUEST
    (REQUEST_LINE (mk_request_line apt_string_reset RTSP_METHOD_SETUP (str_lit "rtsp://host/media/") None RTSP_VERSION_1)).

Lemma rtsp_start_line_roundtrip_witness :
  exists sl1 st' line,
    @rtsp_start_line_generate apr_reference sample_request_line (apt_text_stream_init (replicate 64 NUL) 64) = Some (true, sl1, st') /\
    line = lit "SETUP rtsp://host/media/ RTSP/1.0" /\
    exists l', rtsp_start_line_parse (rtsp_start_line_init RTSP_MESSAGE_TYPE_UNKNOWN) (mk_str (Some (line ++ [CR; LF])) (length line))
      = (true, mk_rtsp_start_line RTSP_MESSAGE_TYPE_REQUEST (REQUEST_LINE l')) /\ str_text (rl_url l') = lit "rtsp://host/media".
Proof.
  destruct (@rtsp_start_line_roundtrip apr_reference apr_reference_laws sample_request_line
    (rtsp_start_line_init RTSP_MESSAGE_TYPE_UNKNOWN) [] (apt_text_stream_init (replicate 64 NUL) 64)) as (sl1 & st' & line & E & Hem & H).
  - cbn. unfold token, no_eol, nul_free. split_and!; first [done|decide_now].
  - unfold stream_wf. vm_compute. lia.
  - unfold addressable. vm_compute. reflexivity.
  - vm_compute. lia.
  - exists sl1, st', (lit "SETUP rtsp://host/media/ RTSP/1.0"). split; [exact E|]. split; [reflexivity|].
    assert (El : line = lit "SETUP rtsp://host/media/ RTSP/1.0").
    { apply (app_inv_tail [CR; LF]). rewrite <-Hem. revert E.
      set (g := rtsp_start_line_generate _ _). vm_compute in g. subst g. intros [= _ <-]. reflexivity. }
    subst line. destruct (H []) as ([t [|l'|l']] & E' & Ht & Hl); try done. cbn in Ht. subst t. destruct Hl as (_ & _ & Hu & _).
    exists l'. split; [exact E'|]. rewrite Hu. reflexivity.
Defined.
