(* ===== verification/RtspHeader.v ===== *)
(** The header of RTSP messages ([uni-rtsp/include/rtsp_header.h], [src/rtsp_header.c]): its fields,
    among them the description of a transport, parsed from and generated into the section of the
    header. *)

From S2P Require Import Prelude AptString TextStream TextValues HeaderField TextMessage StartLine RtspStartLine.

(** * Data *)

(** Enumerations are positions in their tables. *)
Definition RTSP_TRANSPORT_RTP : Z := 0.
Definition RTSP_TRANSPORT_COUNT : Z := 1.
Definition RTSP_PROFILE_AVP : Z := 0.
Definition RTSP_PROFILE_SAVP : Z := 1.
Definition RTSP_PROFILE_COUNT : Z := 2.
Definition RTSP_PROFILE_NONE : Z := RTSP_PROFILE_COUNT.
Definition RTSP_LOWER_TRANSPORT_UDP : Z := 0.
Definition RTSP_LOWER_TRANSPORT_TCP : Z := 1.
Definition RTSP_LOWER_TRANSPORT_COUNT : Z := 2.
Definition RTSP_LOWER_TRANSPORT_NONE : Z := RTSP_LOWER_TRANSPORT_COUNT.
Definition RTSP_TRANSPORT_ATTRIB_CLIENT_PORT : Z := 0.
Definition RTSP_TRANSPORT_ATTRIB_SERVER_PORT : Z := 1.
Definition RTSP_TRANSPORT_ATTRIB_SOURCE : Z := 2.
Definition RTSP_TRANSPORT_ATTRIB_DESTINATION : Z := 3.
Definition RTSP_TRANSPORT_ATTRIB_UNICAST : Z := 4.
Definition RTSP_TRANSPORT_ATTRIB_MULTICAST : Z := 5.
Definition RTSP_TRANSPORT_ATTRIB_MODE : Z := 6.
Definition RTSP_TRANSPORT_ATTRIB_COUNT : Z := 7.
Definition RTSP_TRANSPORT_ATTRIB_NONE : Z := RTSP_TRANSPORT_ATTRIB_COUNT.
Definition RTSP_DELIVERY_UNICAST : Z := 0.
Definition RTSP_DELIVERY_MULTICAST : Z := 1.
Definition RTSP_DELIVERY_COUNT : Z := 2.
Definition RTSP_DELIVERY_NONE : Z := RTSP_DELIVERY_COUNT.
Definition RTSP_HEADER_FIELD_CSEQ : Z := 0.
Definition RTSP_HEADER_FIELD_TRANSPORT : Z := 1.
Definition RTSP_HEADER_FIELD_SESSION_ID : Z := 2.
Definition RTSP_HEADER_FIELD_RTP_INFO : Z := 3.
Definition RTSP_HEADER_FIELD_CONTENT_TYPE : Z := 4.
Definition RTSP_HEADER_FIELD_CONTENT_LENGTH : Z := 5.
Definition RTSP_HEADER_FIELD_COUNT : Z := 6.
Definition RTSP_CONTENT_TYPE_SDP : Z := 0.
Definition RTSP_CONTENT_TYPE_MRCP : Z := 1.
Definition RTSP_CONTENT_TYPE_COUNT : Z := 2.
Definition RTSP_CONTENT_TYPE_NONE : Z := RTSP_CONTENT_TYPE_COUNT.

Record rtsp_port_range_t := mk_port_range { port_min : Z; port_max : Z }.

Record rtsp_transport_t := mk_transport {
  protocol : Z;
  profile : Z;
  lower_protocol : Z;
  delivery : Z;
  client_port_range : rtsp_port_range_t;
  server_port_range : rtsp_port_range_t;
  source : apt_str_t;
  destination : apt_str_t;
  mode : apt_str_t
}.
#[global] Instance eta_transport : Eta rtsp_transport_t := fun t =>
  mk_transport (protocol t) (profile t) (lower_protocol t) (delivery t) (client_port_range t) (server_port_range t)
    (source t) (destination t) (mode t).

Record rtsp_header_t := mk_rtsp_header {
  cseq : Z;
  transport : rtsp_transport_t;
  rtsp_session_id : apt_str_t;
  rtp_info : apt_str_t;
  rtsp_content_type : Z;
  rtsp_content_length : Z;
  rtsp_header_section : apt_header_section_t
}.
#[global] Instance eta_rtsp_header : Eta rtsp_header_t := fun h =>
  mk_rtsp_header (cseq h) (transport h) (rtsp_session_id h) (rtp_info h) (rtsp_content_type h) (rtsp_content_length h)
    (rtsp_header_section h).

Definition rtsp_port_range_init : rtsp_port_range_t := mk_port_range 0 0.
Definition rtsp_port_range_is_valid (r : rtsp_port_range_t) : bool := negb ((port_min r =? 0) && (port_max r =? 0)).

(** The delivery is left as it was allocated. *)
Definition rtsp_transport_init `{Apr} : rtsp_transport_t :=
  mk_transport RTSP_TRANSPORT_RTP RTSP_PROFILE_NONE RTSP_LOWER_TRANSPORT_NONE apr_uninit
    rtsp_port_range_init rtsp_port_range_init apt_string_reset apt_string_reset apt_string_reset.
Definition rtsp_header_init `{Apr} : rtsp_header_t :=
  mk_rtsp_header 0 rtsp_transport_init apt_string_reset apt_string_reset RTSP_CONTENT_TYPE_NONE 0
    (snd (apt_header_section_array_alloc apt_header_section_init RTSP_HEADER_FIELD_COUNT)).

Definition rtsp_header_string_table : list apt_str_table_item_t :=
  [ item "CSeq" 4 1; item "Transport" 9 0; item "Session" 7 0; item "RTP-Info" 8 0; item "Content-Type" 12 8;
    item "Content-Length" 14 8 ].
Definition rtsp_content_type_string_table : list apt_str_table_item_t :=
  [ item "application/sdp" 15 12; item "application/mrcp" 16 12 ].
Definition rtsp_transport_string_table : list apt_str_table_item_t := [ item "RTP" 3 0 ].
Definition rtsp_lower_transport_string_table : list apt_str_table_item_t := [ item "UDP" 3 0; item "TCP" 3 0 ].
Definition rtsp_profile_string_table : list apt_str_table_item_t := [ item "AVP" 3 0; item "SAVP" 4 0 ].
Definition rtsp_transport_attrib_string_table : list apt_str_table_item_t :=
  [ item "client_port" 11 0; item "server_port" 11 2; item "source" 6 2; item "destination" 11 0; item "unicast" 7 0;
    item "multicast" 9 1; item "mode" 4 2 ].

(** * Parsing *)

(** Ports are 16 bits wide. *)
Definition rtsp_port_parse (value : apt_str_t) : Z := apt_size_value_parse value mod 2 ^ 16.

Definition rtsp_port_range_parse (r : rtsp_port_range_t) (st : apt_text_stream_t) : bool * rtsp_port_range_t :=
  let '(ok, value, st) := apt_text_field_read st "-"%char true in
  if negb ok then (false, r)
  else
    let r := mk_port_range (rtsp_port_parse value) (port_max r) in
    let '(ok, value, st) := apt_text_field_read st ";"%char true in
    (true, if ok then mk_port_range (port_min r) (rtsp_port_parse value) else r).

Definition rtsp_transport_attrib_value_parse (value : apt_str_t) (st : apt_text_stream_t) : bool * apt_str_t :=
  let '(ok, field, _) := apt_text_field_read st ";"%char true in
  if negb ok then (false, value) else (true, apt_string_copy field).

(** The ports of the server are stored as those of the client. *)
Definition rtsp_transport_attrib_parse (t : rtsp_transport_t) (field : apt_str_t) : bool * rtsp_transport_t :=
  let '(ok, name, st) := apt_text_field_read (stream_of_str field) "="%char true in
  if negb ok then (false, t)
  else
    let attrib := apt_string_table_id_find rtsp_transport_attrib_string_table RTSP_TRANSPORT_ATTRIB_COUNT name in
    (true,
      if attrib =? RTSP_TRANSPORT_ATTRIB_CLIENT_PORT then
        t <| client_port_range := snd (rtsp_port_range_parse (client_port_range t) st) |>
      else if attrib =? RTSP_TRANSPORT_ATTRIB_SERVER_PORT then
        t <| client_port_range := snd (rtsp_port_range_parse (client_port_range t) st) |>
      else if attrib =? RTSP_TRANSPORT_ATTRIB_SOURCE then
        t <| source := snd (rtsp_transport_attrib_value_parse (source t) st) |>
      else if attrib =? RTSP_TRANSPORT_ATTRIB_DESTINATION then
        t <| destination := snd (rtsp_transport_attrib_value_parse (destination t) st) |>
      else if attrib =? RTSP_TRANSPORT_ATTRIB_UNICAST then t <| delivery := RTSP_DELIVERY_UNICAST |>
      else if attrib =? RTSP_TRANSPORT_ATTRIB_MULTICAST then t <| delivery := RTSP_DELIVERY_MULTICAST |>
      else if attrib =? RTSP_TRANSPORT_ATTRIB_MODE then
        t <| mode := snd (rtsp_transport_attrib_value_parse (mode t) st) |>
      else t).

(** Protocol, profile and, if it is there, lower transport. *)
Definition rtsp_transport_protocol_parse (t : rtsp_transport_t) (value : apt_str_t) : bool * rtsp_transport_t :=
  let t := t <| protocol := RTSP_TRANSPORT_RTP |> <| profile := RTSP_PROFILE_AVP |> <| lower_protocol := RTSP_LOWER_TRANSPORT_UDP |> in
  let '(ok, field, st) := apt_text_field_read (stream_of_str value) "/"%char true in
  if negb ok then (false, t) else
  let t := t <| protocol := apt_string_table_id_find rtsp_transport_string_table RTSP_TRANSPORT_COUNT field |> in
  if RTSP_TRANSPORT_COUNT <=? protocol t then (false, t) else
  let '(ok, field, st) := apt_text_field_read st "/"%char true in
  if negb ok then (false, t) else
  let t := t <| profile := apt_string_table_id_find rtsp_profile_string_table RTSP_PROFILE_COUNT field |> in
  if RTSP_PROFILE_COUNT <=? profile t then (false, t) else
  let '(ok, field, st) := apt_text_field_read st "/"%char true in
  if ok then
    let t := t <| lower_protocol := apt_string_table_id_find rtsp_lower_transport_string_table RTSP_LOWER_TRANSPORT_COUNT field |> in
    (negb (RTSP_LOWER_TRANSPORT_COUNT <=? lower_protocol t), t)
  else (true, t).

(** At most one attribute per byte. *)
Fixpoint transport_attribs_parse (fuel : nat) (t : rtsp_transport_t) (st : apt_text_stream_t) : rtsp_transport_t :=
  match fuel with
  | O => t
  | S n =>
      let '(ok, field, st) := apt_text_field_read st ";"%char true in
      if ok then transport_attribs_parse n (snd (rtsp_transport_attrib_parse t field)) st else t
  end.

Definition rtsp_transport_parse (t : rtsp_transport_t) (value : apt_str_t) : bool * rtsp_transport_t :=
  let '(ok, field, st) := apt_text_field_read (stream_of_str value) ";"%char true in
  if negb ok then (false, t)
  else
    let '(ok, t) := rtsp_transport_protocol_parse t field in
    if negb ok then (false, t) else (true, transport_attribs_parse (S (length (window st))) t st).

(** The identifier ends before its parameters; an empty copy is a NULL pointer. *)
Definition rtsp_session_id_parse (session_id value : apt_str_t) : option (bool * apt_str_t) :=
  match str_buf value with
  | None => Some (false, session_id)
  | Some _ =>
      let s := apt_string_copy value in
      let? m := str_buf s in
      Some (true, match strchr m ";"%char with
                  | Some i => mk_str (Some (overwrite m i [NUL])) i
                  | None => s
                  end)
  end.

Definition rtsp_header_field_value_parse (h : rtsp_header_t) (id : Z) (value : apt_str_t) : option (bool * rtsp_header_t) :=
  if id =? RTSP_HEADER_FIELD_CSEQ then Some (true, h <| cseq := apt_size_value_parse value |>)
  else if id =? RTSP_HEADER_FIELD_TRANSPORT then
    let '(ok, t) := rtsp_transport_parse (transport h) value in Some (ok, h <| transport := t |>)
  else if id =? RTSP_HEADER_FIELD_SESSION_ID then
    let? (ok, s) := rtsp_session_id_parse (rtsp_session_id h) value in Some (ok, h <| rtsp_session_id := s |>)
  else if id =? RTSP_HEADER_FIELD_RTP_INFO then Some (true, h <| rtp_info := value |>)
  else if id =? RTSP_HEADER_FIELD_CONTENT_TYPE then
    Some (true, h <| rtsp_content_type := apt_string_table_id_find rtsp_content_type_string_table RTSP_CONTENT_TYPE_COUNT value |>)
  else if id =? RTSP_HEADER_FIELD_CONTENT_LENGTH then Some (true, h <| rtsp_content_length := apt_size_value_parse value |>)
  else Some (false, h).

(** * Generation *)

Section Generate.
Context `{Apr}.

Definition rtsp_port_range_generate (attrib : Z) (r : rtsp_port_range_t) : prog apt_text_stream_t bool :=
  match apt_string_table_str_get rtsp_transport_attrib_string_table RTSP_TRANSPORT_ATTRIB_COUNT attrib with
  | None => ret false
  | Some str =>
      apt_text_string_insert str ;;;
      apt_text_char_insert "="%char ;;;
      apt_text_size_value_insert (port_min r) ;;;
      (if port_min r <? port_max r then
         apt_text_char_insert "-"%char ;;; apt_text_size_value_insert (port_max r) ;;; ret tt
       else ret tt) ;;;
      ret true
  end.

Definition delivery_attrib (d : Z) : Z :=
  if d =? RTSP_DELIVERY_UNICAST then RTSP_TRANSPORT_ATTRIB_UNICAST
  else if d =? RTSP_DELIVERY_MULTICAST then RTSP_TRANSPORT_ATTRIB_MULTICAST
  else RTSP_TRANSPORT_ATTRIB_NONE.

(** The results of the insertions are ignored. *)
Definition transport_write (t : rtsp_transport_t) (protocol_name profile_name : apt_str_t) : prog apt_text_stream_t bool :=
  apt_text_string_insert protocol_name ;;;
  apt_text_char_insert "/"%char ;;;
  apt_text_string_insert profile_name ;;;
  let* ok :=
    if delivery t =? RTSP_DELIVERY_NONE then ret true
    else
      match apt_string_table_str_get rtsp_transport_attrib_string_table RTSP_TRANSPORT_ATTRIB_COUNT (delivery_attrib (delivery t)) with
      | None => ret false
      | Some name => apt_text_char_insert ";"%char ;;; apt_text_string_insert name ;;; ret true
      end in
  if negb ok then ret false
  else
    (if rtsp_port_range_is_valid (client_port_range t) then
       apt_text_char_insert ";"%char ;;; rtsp_port_range_generate RTSP_TRANSPORT_ATTRIB_CLIENT_PORT (client_port_range t) ;;; ret tt
     else ret tt) ;;;
    (if rtsp_port_range_is_valid (server_port_range t) then
       apt_text_char_insert ";"%char ;;; rtsp_port_range_generate RTSP_TRANSPORT_ATTRIB_SERVER_PORT (server_port_range t) ;;; ret tt
     else ret tt) ;;;
    (if (str_len (mode t) =? 0)%nat then ret tt
     else
       match apt_string_table_str_get rtsp_transport_attrib_string_table RTSP_TRANSPORT_ATTRIB_COUNT RTSP_TRANSPORT_ATTRIB_MODE with
       | None => ret tt
       | Some str =>
           apt_text_char_insert ";"%char ;;; apt_text_string_insert str ;;; apt_text_char_insert "="%char ;;;
           apt_text_string_insert (mode t) ;;; ret tt
       end) ;;;
    ret true.

(** The text is put together in a local buffer and copied from it. *)
Definition TRANSPORT_BUFFER_SIZE : nat := 256.
Definition rtsp_transport_generate (t : rtsp_transport_t) (value : apt_str_t) : option (bool * apt_str_t) :=
  match apt_string_table_str_get rtsp_transport_string_table RTSP_TRANSPORT_COUNT (protocol t),
        apt_string_table_str_get rtsp_profile_string_table RTSP_PROFILE_COUNT (profile t) with
  | Some protocol_name, Some profile_name =>
      let st := apt_text_stream_init (apr_palloc TRANSPORT_BUFFER_SIZE) TRANSPORT_BUFFER_SIZE in
      let? (ok, st) := transport_write t protocol_name profile_name st in
      if negb ok then Some (false, value)
      else
        let n := (st_pos st - st_base st)%nat in
        Some (true, mk_str (Some (mread (drop (st_base st) (st_mem st)) n ++ [NUL])) n)
  | _, _ => Some (false, value)
  end.

(** The result of a value that cannot be generated is ignored: the value is left as it was. *)
Definition rtsp_header_field_value_generate (h : rtsp_header_t) (id : Z) (value : apt_str_t) : option (bool * apt_str_t) :=
  if id =? RTSP_HEADER_FIELD_CSEQ then Some (true, apt_size_value_generate (cseq h))
  else if id =? RTSP_HEADER_FIELD_TRANSPORT then let? (_, v) := rtsp_transport_generate (transport h) value in Some (true, v)
  else if id =? RTSP_HEADER_FIELD_SESSION_ID then Some (true, rtsp_session_id h)
  else if id =? RTSP_HEADER_FIELD_RTP_INFO then Some (true, rtp_info h)
  else if id =? RTSP_HEADER_FIELD_CONTENT_TYPE then
    Some (true, default value (apt_string_table_str_get rtsp_content_type_string_table RTSP_CONTENT_TYPE_COUNT (rtsp_content_type h)))
  else if id =? RTSP_HEADER_FIELD_CONTENT_LENGTH then Some (true, apt_size_value_generate (rtsp_content_length h))
  else Some (true, value).

(** * Fields of the section *)

(** The identifier and the value of a field. *)
Definition field_identify (h : rtsp_header_t) (f : apt_header_field_t) : option (rtsp_header_t * apt_header_field_t) :=
  let f := set_hf_id (apt_string_table_id_find rtsp_header_string_table RTSP_HEADER_FIELD_COUNT (hf_name f)) f in
  if apt_string_is_empty (hf_value f) then Some (h, f)
  else let? (_, h) := rtsp_header_field_value_parse h (hf_id f) (hf_value f) in Some (h, f).

Definition rtsp_header_field_add (h : rtsp_header_t) (f : apt_header_field_t) : option (bool * rtsp_header_t) :=
  let? (h, f) := field_identify h f in
  let '(ok, sec) := apt_header_section_field_add (rtsp_header_section h) f in
  Some (ok, h <| rtsp_header_section := sec |>).

Definition rtsp_field_parse_at (h : rtsp_header_t) (a : addr) : option rtsp_header_t :=
  let? f := field_at (rtsp_header_section h) a in
  let? (h, f) := field_identify h f in
  let sec := field_update (rtsp_header_section h) a (fun _ => f) in
  Some (h <| rtsp_header_section := snd (apt_header_section_field_set sec a f) |>).
Fixpoint rtsp_fields_parse_from (h : rtsp_header_t) (ring : list addr) : option rtsp_header_t :=
  match ring with
  | [] => Some h
  | a :: ring => let? h := rtsp_field_parse_at h a in rtsp_fields_parse_from h ring
  end.
Definition rtsp_header_fields_parse (h : rtsp_header_t) : option (bool * rtsp_header_t) :=
  let? h := rtsp_fields_parse_from h (map fst (sec_ring (rtsp_header_section h))) in Some (true, h).

(** A field that is there gets a new value. *)
Definition rtsp_header_property_add (h : rtsp_header_t) (id : Z) : option (bool * rtsp_header_t) :=
  match apt_header_section_field_get (rtsp_header_section h) id with
  | Some a =>
      let? f := field_at (rtsp_header_section h) a in
      let? (ok, v) := rtsp_header_field_value_generate h id (hf_value f) in
      Some (ok, h <| rtsp_header_section := field_update (rtsp_header_section h) a (set_hf_value v) |>)
  | None =>
      let? (ok, v) := rtsp_header_field_value_generate h id (hf_value apt_header_field_alloc) in
      match apt_string_table_str_get rtsp_header_string_table RTSP_HEADER_FIELD_COUNT id with
      | Some name =>
          let '(ok, sec) := apt_header_section_field_insert (rtsp_header_section h) (mk_field name v id) in
          Some (ok, h <| rtsp_header_section := sec |>)
      | None => Some (false, h)
      end
  end.

Definition rtsp_header_property_remove (h : rtsp_header_t) (id : Z) : option (bool * rtsp_header_t) :=
  match apt_header_section_field_get (rtsp_header_section h) id with
  | Some a =>
      let? f := field_at (rtsp_header_section h) a in
      let '(ok, sec) := apt_header_section_field_remove (rtsp_header_section h) a f in
      Some (ok, h <| rtsp_header_section := sec |>)
  | None => Some (false, h)
  end.
Definition rtsp_header_property_check (h : rtsp_header_t) (id : Z) : bool :=
  apt_header_section_field_check (rtsp_header_section h) id.
End Generate.

(** * Reading pieces of a value *)

(** A piece between separators: there is something in it, and it does not start with a space. *)
Definition piece (sep : char) (w : bytes) : Prop := w <> [] /\ (sep ∉ w) /\ deref w <> SP.

(** A stream on a value in memory; what follows the value does not continue a number. *)
Record value_stream (st : apt_text_stream_t) (w : bytes) : Prop := {
  vs_wf : stream_wf st;
  vs_window : window st = w;
  vs_stops : stops (beyond st)
}.

(** A string that was read from such a stream. *)
Record value_read (f : apt_str_t) (w : bytes) : Prop := {
  vr_wf : str_wf f;
  vr_text : str_text f = w;
  vr_buf : exists follow, str_buf f = Some (w ++ follow) /\ stops follow
}.

Lemma value_stream_of (f : apt_str_t) (w : bytes) : value_read f w -> value_stream (stream_of_str f) w.
Proof.
  intros [Wf Ht (fl & Hb & Hs)]. split; [by apply stream_of_str_wf|by rewrite stream_of_str_window|].
  assert (El : str_len f = length w) by (unfold str_wf in Wf; congruence).
  destruct f as [buf n]. cbn [str_buf str_len] in Hb, El. subst buf n. unfold beyond, str_mem. cbn. by rewrite drop_app_length.
Qed.

Lemma value_read_at (w follow : bytes) : stops follow -> value_read (mk_str (Some (w ++ follow)) (length w)) w.
Proof.
  intros Hs. assert (Ht : str_text (mk_str (Some (w ++ follow)) (length w)) = w) by apply take_app_length.
  split; [unfold str_wf; by rewrite Ht|done|by exists follow].
Qed.

Lemma field_read_piece (st : apt_text_stream_t) (sep : char) (w rest : bytes) :
  value_stream st (w ++ rest) -> piece sep w -> isdigit sep = false -> (forall c r, rest = c :: r -> c = sep) ->
  exists f st', apt_text_field_read st sep true = (true, f, st') /\ value_read f w /\ value_stream st' (tail rest).
Proof.
  intros [W Hw Hs] (Hne & Hsep & Hsp) Hd Hr.
  destruct (apt_text_field_read_eq st sep [] w rest) as (f & st' & E & Hf & Wf & Hb & Hw' & W' & Hby & _); try done.
  { intros c r Hc ->. by destruct w; [|injection Hc as -> _]. }
  rewrite (proj2 (Nat.eqb_neq (length w) 0)) in E by (by destruct w).
  exists f, st'. split; [exact E|]. split; [|split; [done|done|by rewrite Hby]].
  split; [done|done|]. eexists. split; [exact Hb|]. destruct rest as [|c r]; [exact Hs|]. rewrite (Hr c r eq_refl). exact Hd.
Qed.

Lemma field_read_none (st : apt_text_stream_t) (sep : char) : value_stream st [] ->
  exists f st', apt_text_field_read st sep true = (false, f, st') /\ value_stream st' [].
Proof.
  intros [W Hw Hs]. destruct (apt_text_field_read_eq st sep [] [] []) as (f & st' & E & _ & _ & _ & Hw' & W' & Hby & _); try done.
  { by apply not_elem_of_nil. }
  exists f, st'. split; [exact E|]. split; [done|done|by rewrite Hby].
Qed.

Lemma copy_read (f : apt_str_t) (w : bytes) : value_read f w -> apt_string_copy f = apt_string_copy (str_of w).
Proof.
  intros [Wf Ht (fl & Hb & _)]. assert (El : str_len f = length w) by (unfold str_wf in Wf; congruence).
  destruct f as [buf n]. cbn [str_buf str_len] in Hb, El. subst buf n.
  unfold apt_string_copy, apt_string_assign_n, apr_pstrmemdup, str_of, str_mem. cbn [str_buf str_len].
  by rewrite take_app_length, firstn_all.
Qed.

Lemma port_read (f : apt_str_t) (n : Z) : value_read f (dec n) -> 0 <= n < 2 ^ 16 -> rtsp_port_parse f = n.
Proof.
  intros [_ _ (fl & Hb & Hs)] Hn. unfold rtsp_port_parse. rewrite (size_parse_text f n fl) by (done || lia). by apply Z.mod_small.
Qed.

(** * Transports *)

Definition range_text (r : rtsp_port_range_t) : bytes :=
  dec (port_min r) ++ (if port_min r <? port_max r then "-"%char :: dec (port_max r) else []).

(** What an attribute writes and what reading it does to a transport. *)
Definition attribute : Type := bytes * (rtsp_transport_t -> rtsp_transport_t).
Definition delivery_attribute (t : rtsp_transport_t) : list attribute :=
  if delivery t =? RTSP_DELIVERY_UNICAST then [(lit "unicast", fun x => x <| delivery := RTSP_DELIVERY_UNICAST |>)]
  else if delivery t =? RTSP_DELIVERY_MULTICAST then [(lit "multicast", fun x => x <| delivery := RTSP_DELIVERY_MULTICAST |>)]
  else [].
Definition port_attribute (name : bytes) (r : rtsp_port_range_t) : list attribute :=
  if rtsp_port_range_is_valid r then [(name ++ "="%char :: range_text r, fun x => x <| client_port_range := r |>)] else [].
Definition mode_attribute (t : rtsp_transport_t) : list attribute :=
  if (str_len (mode t) =? 0)%nat then []
  else [(lit "mode" ++ "="%char :: str_text (mode t), fun x => x <| mode := apt_string_copy (str_of (str_text (mode t))) |>)].
Definition attributes (t : rtsp_transport_t) : list attribute :=
  delivery_attribute t ++ port_attribute (lit "client_port") (client_port_range t) ++
  port_attribute (lit "server_port") (server_port_range t) ++ mode_attribute t.

Definition profile_text (t : rtsp_transport_t) : bytes := if profile t =? RTSP_PROFILE_AVP then lit "AVP" else lit "SAVP".
Definition attributes_text (l : list attribute) : bytes := concat (map (fun a => ";"%char :: fst a) l).
Definition transport_text (t : rtsp_transport_t) : bytes := lit "RTP/" ++ profile_text t ++ attributes_text (attributes t).

(** Ranges are empty or have two ports; the mode is one word. *)
Definition range_ok (r : rtsp_port_range_t) : Prop :=
  (port_min r = 0 /\ port_max r = 0) \/ (0 <= port_min r < port_max r /\ port_max r < 2 ^ 16).
Record transport_ok (t : rtsp_transport_t) : Prop := {
  to_protocol : protocol t = RTSP_TRANSPORT_RTP;
  to_profile : profile t = RTSP_PROFILE_AVP \/ profile t = RTSP_PROFILE_SAVP;
  to_delivery : delivery t = RTSP_DELIVERY_UNICAST \/ delivery t = RTSP_DELIVERY_MULTICAST \/ delivery t = RTSP_DELIVERY_NONE;
  to_client : range_ok (client_port_range t);
  to_server : range_ok (server_port_range t);
  to_mode_wf : str_wf (mode t);
  to_mode : str_text (mode t) = [] \/ piece ";"%char (str_text (mode t))
}.

(** ** Reading *)

Definition attribute_ok (a : attribute) : Prop :=
  piece ";"%char (fst a) /\ forall f t, value_read f (fst a) -> rtsp_transport_attrib_parse t f = (true, snd a t).

Lemma attrib_name (f : apt_str_t) (name : bytes) (i : Z) : value_read f name ->
  first_index (fun it => str_ieq (str_text (item_value it)) name) rtsp_transport_attrib_string_table RTSP_TRANSPORT_ATTRIB_COUNT = i ->
  apt_string_table_id_find rtsp_transport_attrib_string_table RTSP_TRANSPORT_ATTRIB_COUNT f = i.
Proof.
  intros [Wf Ht _] E. rewrite id_find_first_index by (done || by vm_compute). rewrite Ht. exact E.
Qed.

Lemma digits_piece (sep : char) (n : Z) : 0 <= n -> isdigit sep = false -> piece sep (dec n).
Proof.
  intros Hn Hs. pose proof (dec_digits n Hn) as Hd. split; [apply dec_nonempty|]. split.
  - intros Hin%list_elem_of_In. rewrite Forall_forall in Hd. rewrite (Hd _ Hin) in Hs. done.
  - destruct (dec n) as [|c r] eqn:E; [by destruct (dec_nonempty n)|]. inversion_clear Hd. cbn. by intros ->.
Qed.

Lemma range_read (st : apt_text_stream_t) (r0 r : rtsp_port_range_t) :
  0 <= port_min r < port_max r -> port_max r < 2 ^ 16 -> value_stream st (range_text r) ->
  rtsp_port_range_parse r0 st = (true, r).
Proof.
  intros Hr Hmax Hst. unfold range_text in Hst. rewrite (proj2 (Z.ltb_lt _ _)) in Hst by lia. unfold rtsp_port_range_parse.
  destruct (field_read_piece st "-"%char _ _ Hst) as (f & st' & -> & Hf & Hst'); [by apply digits_piece; [lia|]|done|by intros c x [= <- _]|].
  cbn [negb tail] in *. rewrite <-(app_nil_r (dec (port_max r))) in Hst'.
  destruct (field_read_piece st' ";"%char _ _ Hst') as (g & st2 & -> & Hg & _); [by apply digits_piece; [lia|]|done|done|].
  cbn [port_min port_max]. rewrite (port_read f (port_min r)), (port_read g (port_max r)) by (done || lia). by destruct r.
Qed.

(** The name of an attribute is read up to its value. *)
Lemma attribute_name_read (f : apt_str_t) (name rest : bytes) (i : Z) :
  value_read f (name ++ rest) -> piece "="%char name -> (forall c r, rest = c :: r -> c = "="%char) ->
  first_index (fun it => str_ieq (str_text (item_value it)) name) rtsp_transport_attrib_string_table RTSP_TRANSPORT_ATTRIB_COUNT = i ->
  exists g st, apt_text_field_read (stream_of_str f) "="%char true = (true, g, st) /\ value_stream st (tail rest) /\
    apt_string_table_id_find rtsp_transport_attrib_string_table RTSP_TRANSPORT_ATTRIB_COUNT g = i.
Proof.
  intros Hf Hp Hr Hi. destruct (field_read_piece _ _ _ _ (value_stream_of _ _ Hf) Hp eq_refl Hr) as (g & st & E & Hg & Hst).
  exists g, st. split; [exact E|]. split; [exact Hst|]. by apply (attrib_name g name).
Qed.

Lemma delivery_attribute_ok (t : rtsp_transport_t) : Forall attribute_ok (delivery_attribute t).
Proof.
  assert (H : forall name i eff, piece ";"%char name -> piece "="%char name ->
    first_index (fun it => str_ieq (str_text (item_value it)) name) rtsp_transport_attrib_string_table RTSP_TRANSPORT_ATTRIB_COUNT = i ->
    (forall x f g st, apt_text_field_read (stream_of_str f) "="%char true = (true, g, st) ->
      apt_string_table_id_find rtsp_transport_attrib_string_table RTSP_TRANSPORT_ATTRIB_COUNT g = i ->
      rtsp_transport_attrib_parse x f = (true, eff x)) -> attribute_ok (name, eff)).
  { intros name i eff Hp Hp' Hi He. split; [done|]. cbn [fst snd]. intros f x Hf. rewrite <-(app_nil_r name) in Hf.
    destruct (attribute_name_read f name [] i Hf) as (g & st & E & _ & Hg); try done. by eapply He. }
  unfold delivery_attribute. destruct (_ =? RTSP_DELIVERY_UNICAST); [|destruct (_ =? RTSP_DELIVERY_MULTICAST)]; [| |done];
    (apply Forall_singleton; eapply H; [by repeat split; decide_now|by repeat split; decide_now|by vm_compute|]).
  all: intros x f g st E Hg; unfold rtsp_transport_attrib_parse; rewrite E, Hg; reflexivity.
Qed.

(** An attribute with a value. *)
Lemma valued_attribute_ok (name value : bytes) (i : Z) (eff : rtsp_transport_t -> rtsp_transport_t) :
  piece "="%char name -> (";"%char ∉ name) -> (";"%char ∉ value) ->
  first_index (fun it => str_ieq (str_text (item_value it)) name) rtsp_transport_attrib_string_table RTSP_TRANSPORT_ATTRIB_COUNT = i ->
  (forall x f g st, apt_text_field_read (stream_of_str f) "="%char true = (true, g, st) -> value_stream st value ->
    apt_string_table_id_find rtsp_transport_attrib_string_table RTSP_TRANSPORT_ATTRIB_COUNT g = i ->
    rtsp_transport_attrib_parse x f = (true, eff x)) -> attribute_ok (name ++ "="%char :: value, eff).
Proof.
  intros Hp Hn Hv Hi He. destruct Hp as (Hne & Heq & Hsp). split; cbn [fst snd].
  - split; [by destruct name|]. split; [|by destruct name]. rewrite not_elem_of_app, not_elem_of_cons. by split_and!.
  - intros f x Hf. destruct (attribute_name_read f name ("="%char :: value) i Hf) as (g & st & E & Hst & Hg); try done;
      [by intros c r [= <- _]|]. by eapply He.
Qed.

Lemma range_text_no_sep (r : rtsp_port_range_t) : 0 <= port_min r -> 0 <= port_max r -> ";"%char ∉ range_text r.
Proof.
  intros Hmin Hmax. unfold range_text. apply not_elem_of_app. split; [by apply (digits_piece ";"%char)|].
  destruct (_ <? _); [|apply not_elem_of_nil]. apply not_elem_of_cons. split; [done|by apply (digits_piece ";"%char)].
Qed.

Lemma port_attribute_ok (name : bytes) (r : rtsp_port_range_t) :
  name = lit "client_port" \/ name = lit "server_port" -> range_ok r -> Forall attribute_ok (port_attribute name r).
Proof.
  intros Hname [[E1 E2]|Hr]; unfold port_attribute, rtsp_port_range_is_valid.
  { rewrite E1, E2. apply Forall_nil_2. }
  rewrite (proj2 (Z.eqb_neq (port_max r) 0)) by lia. rewrite andb_false_r. cbn [negb]. apply Forall_singleton.
  destruct Hname as [->| ->];
    (eapply valued_attribute_ok; [by repeat split; decide_now|decide_now|by apply range_text_no_sep; lia|by vm_compute|]).
  all: intros x f g st E Hst Hg; unfold rtsp_transport_attrib_parse; rewrite E, Hg; cbn -[rtsp_port_range_parse].
  all: rewrite (range_read st _ r) by (done || lia); reflexivity.
Qed.

Lemma mode_attribute_ok (t : rtsp_transport_t) : str_wf (mode t) -> str_text (mode t) = [] \/ piece ";"%char (str_text (mode t)) ->
  Forall attribute_ok (mode_attribute t).
Proof.
  intros W Hm. unfold mode_attribute. destruct (Nat.eqb_spec (str_len (mode t)) 0) as [E|E]; [by apply Forall_nil_2|].
  destruct Hm as [Hm|Hm]; [unfold str_wf in W; by rewrite Hm in W|]. apply Forall_singleton.
  eapply (valued_attribute_ok (lit "mode")); [by repeat split; decide_now|decide_now|apply Hm|by vm_compute|].
  intros x f g st Er Hst Hg. unfold rtsp_transport_attrib_parse. rewrite Er, Hg. cbn -[rtsp_transport_attrib_value_parse].
  unfold rtsp_transport_attrib_value_parse. rewrite <-(app_nil_r (str_text _)) in Hst.
  destruct (field_read_piece st ";"%char _ _ Hst Hm eq_refl) as (v & st' & -> & Hv & _); [done|]. cbn. by rewrite (copy_read v _ Hv).
Qed.

Lemma attributes_ok (t : rtsp_transport_t) : transport_ok t -> Forall attribute_ok (attributes t).
Proof.
  intros []. unfold attributes. rewrite !Forall_app.
  split_and!; [apply delivery_attribute_ok|apply port_attribute_ok; auto|apply port_attribute_ok; auto|by apply mode_attribute_ok].
Qed.

Definition attributes_effect (l : list attribute) (t : rtsp_transport_t) : rtsp_transport_t :=
  fold_left (fun x a => snd a x) l t.

Lemma transport_attribs_read (l : list attribute) : Forall attribute_ok l -> forall fuel st t,
  value_stream st (tail (attributes_text l)) -> (length l < fuel)%nat ->
  transport_attribs_parse fuel t st = attributes_effect l t.
Proof.
  induction 1 as [|[w eff] l [Hp He] _ IH]; intros [|fuel] st t Hst Hf; [cbn in Hf; lia| |cbn in Hf; lia|]; cbn [transport_attribs_parse].
  - by destruct (field_read_none st ";"%char Hst) as (f & st' & -> & _).
  - cbn [fst snd] in *. change (tail (attributes_text _)) with (w ++ attributes_text l) in Hst.
    destruct (field_read_piece st ";"%char w _ Hst Hp eq_refl) as (f & st' & -> & Hv & Hst').
    { destruct l as [|a l]; [done|]. by intros c r [= <- _]. }
    rewrite (He f t Hv). cbn [snd]. rewrite (IH fuel st' (eff t)); [done|done|cbn in Hf; lia].
Qed.

Lemma protocol_read (t : rtsp_transport_t) (f : apt_str_t) (p : Z) (name : bytes) :
  (p = RTSP_PROFILE_AVP /\ name = lit "AVP") \/ (p = RTSP_PROFILE_SAVP /\ name = lit "SAVP") -> value_read f (lit "RTP/" ++ name) ->
  rtsp_transport_protocol_parse t f = (true, t <| protocol := RTSP_TRANSPORT_RTP |> <| profile := p |> <| lower_protocol := RTSP_LOWER_TRANSPORT_UDP |>).
Proof.
  intros Hp Hf. unfold rtsp_transport_protocol_parse. apply value_stream_of in Hf.
  change (lit "RTP/" ++ name) with (lit "RTP" ++ ("/"%char :: name)) in Hf.
  destruct (field_read_piece _ "/"%char _ _ Hf) as (a & st1 & -> & [Wa Ha _] & Hst1);
    [by repeat split; decide_now|done|by intros c r [= <- _]|]. cbn [negb tail] in *.
  rewrite id_find_first_index by (done || by vm_compute). rewrite Ha. rewrite <-(app_nil_r name) in Hst1.
  destruct (field_read_piece _ "/"%char name [] Hst1) as (b & st2 & -> & [Wb Hb _] & Hst2);
    [by destruct Hp as [[_ ->]|[_ ->]]; repeat split; decide_now|done|done|]. cbn [negb tail].
  rewrite id_find_first_index by (done || by vm_compute). rewrite Hb.
  destruct (field_read_none _ "/"%char Hst2) as (c & st3 & -> & _). by destruct Hp as [[-> ->]|[-> ->]].
Qed.

(** What is read into a transport from the text of [t]. *)
Definition transport_read (t t0 : rtsp_transport_t) : rtsp_transport_t :=
  attributes_effect (attributes t)
    (t0 <| protocol := protocol t |> <| profile := profile t |> <| lower_protocol := RTSP_LOWER_TRANSPORT_UDP |>).

Lemma attributes_text_length (l : list attribute) : Forall attribute_ok l -> (length l <= length (tail (attributes_text l)))%nat.
Proof.
  assert (H : forall l, (length l <= length (attributes_text l))%nat).
  { clear l. induction l as [|a l IH]; [done|].
    change (attributes_text (a :: l)) with ((";"%char :: fst a) ++ attributes_text l). rewrite length_app. cbn [length]. lia. }
  destruct 1 as [|a l [(Hne & _) _] _]; [done|]. change (tail (attributes_text (a :: l))) with (fst a ++ attributes_text l).
  rewrite length_app. specialize (H l). destruct (fst a); [done|]. cbn [length]. lia.
Qed.

Lemma transport_parse_text (t t0 : rtsp_transport_t) (f : apt_str_t) :
  transport_ok t -> value_read f (transport_text t) -> rtsp_transport_parse t0 f = (true, transport_read t t0).
Proof.
  intros Hok Hf. apply value_stream_of in Hf. unfold transport_text in Hf. rewrite app_assoc in Hf. unfold rtsp_transport_parse.
  assert (Hp : profile t = RTSP_PROFILE_AVP /\ profile_text t = lit "AVP" \/ profile t = RTSP_PROFILE_SAVP /\ profile_text t = lit "SAVP").
  { unfold profile_text. destruct (to_profile t Hok) as [->| ->]; auto. }
  destruct (field_read_piece _ ";"%char _ _ Hf) as (g & st & -> & Hg & Hst).
  { destruct Hp as [[_ ->]|[_ ->]]; by repeat split; decide_now. }
  { done. } { destruct (attributes t) as [|a l]; [done|]. by intros c r [= <- _]. }
  rewrite (protocol_read t0 g (profile t) _ Hp Hg). cbn [negb]. rewrite (transport_attribs_read (attributes t)); [|by apply attributes_ok|done|].
  - unfold transport_read. by rewrite (to_protocol t Hok).
  - rewrite (vs_window _ _ Hst). pose proof (attributes_text_length _ (attributes_ok t Hok)). lia.
Qed.

(** ** Writing *)

Section Writers.
Context `{L : AprLaws}.

Ltac rtsp_leaf :=
  first [ apply string_insert_writes; [done|]; cbn [str_len]; unfold str_wf in *; text_length
        | apply char_insert_writes; text_length
        | apply writes_snprintf; [apply dec_nonempty|]; text_length ].

(** The entry of a table at a known position. *)
Ltac table_entry :=
  match goal with |- context [apt_string_table_str_get ?a ?b ?c] =>
    let x := eval vm_compute in (apt_string_table_str_get a b c) in change (apt_string_table_str_get a b c) with x end;
  cbv beta iota.

Lemma port_range_writes (attrib : Z) (str : apt_str_t) (r : rtsp_port_range_t) (n : nat) :
  apt_string_table_str_get rtsp_transport_attrib_string_table RTSP_TRANSPORT_ATTRIB_COUNT attrib = Some str -> str_wf str ->
  (length (str_text str ++ "="%char :: range_text r) <= n)%nat ->
  writes (rtsp_port_range_generate attrib r) true (str_text str ++ "="%char :: range_text r) n.
Proof.
  intros E W Hn. pose proof W as W'. unfold str_wf in W'. unfold rtsp_port_range_generate, range_text, apt_text_size_value_insert in *. rewrite E.
  rewrite length_app in Hn. cbn [length] in Hn. rewrite length_app in Hn.
  destruct (_ <? _); cbn [length] in Hn; writes_with rtsp_leaf.
Qed.

Lemma attributes_text_app (l l' : list attribute) : attributes_text (l ++ l') = attributes_text l ++ attributes_text l'.
Proof. unfold attributes_text. by rewrite map_app, concat_app. Qed.

Lemma port_attribute_writes (attrib : Z) (str : apt_str_t) (name : bytes) (r : rtsp_port_range_t) (n : nat) :
  apt_string_table_str_get rtsp_transport_attrib_string_table RTSP_TRANSPORT_ATTRIB_COUNT attrib = Some str -> str_wf str ->
  str_text str = name -> (length (attributes_text (port_attribute name r)) <= n)%nat ->
  writes (if rtsp_port_range_is_valid r then apt_text_char_insert ";"%char ;;; rtsp_port_range_generate attrib r ;;; ret tt else ret tt)
    tt (attributes_text (port_attribute name r)) n.
Proof.
  intros E W <- Hn. unfold port_attribute in *. destruct (rtsp_port_range_is_valid r); [|by apply writes_ret].
  change (attributes_text [_]) with ((";"%char :: str_text str ++ "="%char :: range_text r) ++ []) in *. rewrite app_nil_r in *. cbn [length] in Hn.
  pose proof (port_range_writes attrib str r (n - 1) E W ltac:(lia)) as Hp. rewrite length_app in Hn. cbn [length] in Hn.
  writes_with ltac:(first [apply char_insert_writes; lia | exact Hp]).
Qed.

Lemma delivery_attribute_writes (t : rtsp_transport_t) (n : nat) :
  delivery t = RTSP_DELIVERY_UNICAST \/ delivery t = RTSP_DELIVERY_MULTICAST \/ delivery t = RTSP_DELIVERY_NONE ->
  (length (attributes_text (delivery_attribute t)) <= n)%nat ->
  writes (if delivery t =? RTSP_DELIVERY_NONE then ret true
    else
      match apt_string_table_str_get rtsp_transport_attrib_string_table RTSP_TRANSPORT_ATTRIB_COUNT (delivery_attrib (delivery t)) with
      | None => ret false
      | Some name => apt_text_char_insert ";"%char ;;; apt_text_string_insert name ;;; ret true
      end) true (attributes_text (delivery_attribute t)) n.
Proof.
  unfold delivery_attribute. intros [E|[E|E]] Hn; rewrite E in *; cbn [Z.eqb Pos.eqb RTSP_DELIVERY_UNICAST RTSP_DELIVERY_MULTICAST RTSP_DELIVERY_NONE RTSP_DELIVERY_COUNT] in *; [table_entry|table_entry|apply writes_ret]; cbn [length concat map fst app attributes_text lit] in Hn; cbn in Hn.
  all: writes_with rtsp_leaf. all: cbn; lia.
Qed.

Lemma mode_attribute_writes (t : rtsp_transport_t) (n : nat) :
  str_wf (mode t) -> (length (attributes_text (mode_attribute t)) <= n)%nat ->
  writes (if (str_len (mode t) =? 0)%nat then ret tt
     else
       match apt_string_table_str_get rtsp_transport_attrib_string_table RTSP_TRANSPORT_ATTRIB_COUNT RTSP_TRANSPORT_ATTRIB_MODE with
       | None => ret tt
       | Some str =>
           apt_text_char_insert ";"%char ;;; apt_text_string_insert str ;;; apt_text_char_insert "="%char ;;;
           apt_text_string_insert (mode t) ;;; ret tt
       end) tt (attributes_text (mode_attribute t)) n.
Proof.
  intros W Hn. pose proof W as W'. unfold str_wf in W'. unfold mode_attribute in *. destruct (str_len (mode t) =? 0)%nat; [by apply writes_ret|].
  change (attributes_text [_]) with ((";"%char :: lit "mode" ++ "="%char :: str_text (mode t)) ++ []) in *. rewrite app_nil_r in *.
  change (6 + length (str_text (mode t)) <= n)%nat in Hn. table_entry.
  writes_with rtsp_leaf. all: cbn; lia.
Qed.

Lemma transport_writes (t : rtsp_transport_t) (n : nat) :
  transport_ok t -> (length (transport_text t) <= n)%nat ->
  exists p q, apt_string_table_str_get rtsp_transport_string_table RTSP_TRANSPORT_COUNT (protocol t) = Some p /\
    apt_string_table_str_get rtsp_profile_string_table RTSP_PROFILE_COUNT (profile t) = Some q /\
    writes (transport_write t p q) true (transport_text t) n.
Proof.
  intros [Hp Hf Hd Hc Hs Wm Hm] Hn. rewrite Hp.
  assert (Hq : exists q, apt_string_table_str_get rtsp_profile_string_table RTSP_PROFILE_COUNT (profile t) = Some q /\ str_wf q /\ str_text q = profile_text t).
  { unfold profile_text. destruct Hf as [->| ->]; by eexists. }
  assert (Hr : exists p, apt_string_table_str_get rtsp_transport_string_table RTSP_TRANSPORT_COUNT RTSP_TRANSPORT_RTP = Some p /\ str_wf p /\ str_text p = lit "RTP")
    by by eexists.
  destruct Hq as (q & Eq & Wq & Tq), Hr as (p & Ep & Wp & Tp). exists p, q. split; [exact Ep|]. split; [exact Eq|].
  unfold transport_text, attributes in *. rewrite <-Tq in *. rewrite !attributes_text_app in *.
  change (lit "RTP/") with (lit "RTP" ++ ["/"%char]) in *. rewrite <-Tp in *.
  rewrite !length_app in Hn. cbn [length] in Hn. unfold transport_write. pose proof Wq as Wq'. pose proof Wp as Wp'. unfold str_wf in Wq', Wp'.
  writes_with ltac:(first
    [ apply delivery_attribute_writes; [done|text_length]
    | apply (port_attribute_writes _ (str_lit "client_port") (lit "client_port")); [done|done|done|text_length]
    | apply (port_attribute_writes _ (str_lit "server_port") (lit "server_port")); [done|done|done|text_length]
    | apply mode_attribute_writes; [done|text_length] | rtsp_leaf ]).
Qed.
End Writers.

(** ** The round trip *)

Lemma transport_generate_text `{L : AprLaws} (t : rtsp_transport_t) (value : apt_str_t) :
  transport_ok t -> (length (transport_text t) < TRANSPORT_BUFFER_SIZE)%nat ->
  rtsp_transport_generate t value = Some (true, mk_str (Some (transport_text t ++ [NUL])) (length (transport_text t))).
Proof.
  intros Hok Hlen. unfold rtsp_transport_generate.
  destruct (transport_writes t (length (transport_text t)) Hok (le_n _)) as (p & q & -> & -> & Hw).
  set (st := apt_text_stream_init (apr_palloc TRANSPORT_BUFFER_SIZE) TRANSPORT_BUFFER_SIZE).
  assert (Hm : length (st_mem st) = TRANSPORT_BUFFER_SIZE) by apply apr_palloc_length.
  assert (W : stream_wf st) by (unfold stream_wf; rewrite Hm; cbn; lia).
  destruct (Hw st W) as (st' & E & (Fr & Hp & Ht)); [unfold addressable; rewrite Hm; done|cbn; cbn in Hlen; lia|].
  rewrite E. cbn [negb]. destruct Fr as (W' & Hb & _). rewrite Hp, Hb.
  cbn [st apt_text_stream_init st_base st_pos] in *. cbn [Nat.add] in *. rewrite Nat.sub_0_r. f_equal. f_equal. f_equal. f_equal. f_equal.
  rewrite take_0, Hp in Ht. cbn [app] in Ht. rewrite drop_0. unfold mread. unfold stream_wf in W'. rewrite Hp in W'.
  rewrite take_app_le by lia. exact Ht.
Qed.

(** What a transport becomes that reads the text of [t]. *)
Definition transport_received (t t0 : rtsp_transport_t) : rtsp_transport_t :=
  mk_transport (protocol t) (profile t) RTSP_LOWER_TRANSPORT_UDP
    (if delivery t =? RTSP_DELIVERY_NONE then delivery t0 else delivery t)
    (if rtsp_port_range_is_valid (server_port_range t) then server_port_range t
     else if rtsp_port_range_is_valid (client_port_range t) then client_port_range t else client_port_range t0)
    (server_port_range t0) (source t0) (destination t0)
    (if (str_len (mode t) =? 0)%nat then mode t0 else apt_string_copy (str_of (str_text (mode t)))).

Lemma transport_read_received (t t0 : rtsp_transport_t) : transport_ok t -> transport_read t t0 = transport_received t t0.
Proof.
  intros Hok. unfold transport_read, transport_received, attributes, attributes_effect, delivery_attribute, port_attribute, mode_attribute.
  destruct (to_delivery t Hok) as [->|[->| ->]]; destruct (rtsp_port_range_is_valid (client_port_range t)), (rtsp_port_range_is_valid (server_port_range t)),
    (str_len (mode t) =? 0)%nat; reflexivity.
Qed.

(** C27: the description of a transport whose text fits the local buffer is read back: protocol,
    profile, delivery and mode are those that were sent and the lower transport is UDP, but the
    ports of the server arrive as the ports of the client, and source and destination are not sent. *)
Theorem rtsp_transport_roundtrip `{L : AprLaws} (t t0 : rtsp_transport_t) (value : apt_str_t) :
  transport_ok t -> (length (transport_text t) < TRANSPORT_BUFFER_SIZE)%nat ->
  exists v, rtsp_transport_generate t value = Some (true, v) /\ str_text v = transport_text t /\
    rtsp_transport_parse t0 v = (true, transport_received t t0).
Proof.
  intros Hok Hlen. eexists. split; [by apply transport_generate_text|].
  pose proof (value_read_at (transport_text t) [NUL] eq_refl) as Hv.
  split; [apply Hv|]. rewrite <-(transport_read_received t t0 Hok). by apply transport_parse_text.
Qed.

Definition sample_transport : rtsp_transport_t :=
  mk_transport RTSP_TRANSPORT_RTP RTSP_PROFILE_AVP RTSP_LOWER_TRANSPORT_NONE RTSP_DELIVERY_UNICAST
    (mk_port_range 4000 4001) (mk_port_range 5000 5001) apt_string_reset apt_string_reset (str_lit "PLAY").

Lemma rtsp_transport_roundtrip_witness : exists v, @rtsp_transport_generate apr_reference sample_transport apt_string_reset = Some (true, v) /\
  str_text v = lit "RTP/AVP;unicast;client_port=4000-4001;server_port=5000-5001;mode=PLAY" /\
  client_port_range (snd (rtsp_transport_parse (@rtsp_transport_init apr_reference) v)) = mk_port_range 5000 5001.
Proof.
  destruct (@rtsp_transport_roundtrip apr_reference apr_reference_laws sample_transport (@rtsp_transport_init apr_reference) apt_string_reset)
    as (v & E & Ht & Hp).
  - split; try done; [by left|by left|right; done|right; done|].
    right. split_and!; [done|decide_now|done].
  - vm_compute. lia.
  - exists v. split; [exact E|]. split; [exact Ht|]. by rewrite Hp.
Defined.
