(* ===== verification/RtspStream.v ===== *)
(** RTSP messages and their stream ([uni-rtsp/src/rtsp_message.c], [src/rtsp_stream.c]): requests
    and responses, the handlers that make the staged parser and generator of [MessageParser] parse
    and generate RTSP messages, and the round trip of a message. *)

From S2P Require Import Prelude AptString TextStream TextValues HeaderField TextMessage MessageParser StartLine MrcpHeader GenericHeader FieldsParse StreamRoundtrip RtspStartLine RtspHeader.

(** * Messages *)

Record rtsp_message_t := mk_rtsp_message {
  rm_start_line : rtsp_start_line_t;
  rm_header : rtsp_header_t;
  rm_body : apt_str_t
}.
#[global] Instance eta_rtsp_message : Eta rtsp_message_t := fun m =>
  mk_rtsp_message (rm_start_line m) (rm_header m) (rm_body m).

Section Messages.
Context `{Apr}.

Definition rtsp_message_init (t : rtsp_message_type_e) : rtsp_message_t :=
  mk_rtsp_message (rtsp_start_line_init t) rtsp_header_init apt_string_reset.
Definition rtsp_message_create (t : rtsp_message_type_e) : rtsp_message_t := rtsp_message_init t.

Definition rtsp_request_create : rtsp_message_t :=
  let m := rtsp_message_create RTSP_MESSAGE_TYPE_REQUEST in
  match common (rm_start_line m) with
  | REQUEST_LINE l => m <| rm_start_line := mk_rtsp_start_line (rtsp_message_type (rm_start_line m)) (REQUEST_LINE (l <| rl_version := RTSP_VERSION_1 |>)) |>
  | _ => m
  end.

(** A response repeats the version and the sequence number of its request and, when the request
    describes a transport, the mode; what is asked for must be a request. *)
Definition rtsp_response_create (request : rtsp_message_t) (status_code reason : Z) : option rtsp_message_t :=
  match common (rm_start_line request) with
  | REQUEST_LINE l =>
      let sl := mk_status_line (rl_version l) status_code
                  (match rtsp_reason_phrase_get reason with Some s => apt_string_copy s | None => apt_string_reset end) in
      let response := rtsp_message_create RTSP_MESSAGE_TYPE_RESPONSE in
      let response := response <| rm_start_line := mk_rtsp_start_line RTSP_MESSAGE_TYPE_RESPONSE (STATUS_LINE sl) |> in
      let? response :=
        if rtsp_header_property_check (rm_header request) RTSP_HEADER_FIELD_CSEQ then
          let? (_, h) := rtsp_header_property_add ((rm_header response) <| cseq := cseq (rm_header request) |>) RTSP_HEADER_FIELD_CSEQ in
          Some (response <| rm_header := h |>)
        else Some response in
      Some
        (if rtsp_header_property_check (rm_header request) RTSP_HEADER_FIELD_TRANSPORT then
           let req := transport (rm_header request) in
           if (str_len (mode req) =? 0)%nat then response
           else
             let h := rm_header response in
             response <| rm_header := h <| transport := (transport h) <| mode := apt_string_copy (mode req) |> |> |>
         else response)
  | _ => None
  end.

(** * Streams *)

#[global] Instance rtsp_message_context : MessageContext rtsp_message_t := {
  ctx_header m := rtsp_header_section (rm_header m);
  set_ctx_header h m := m <| rm_header := (rm_header m) <| rtsp_header_section := h |> |>;
  ctx_body := rm_body;
  set_ctx_body b m := m <| rm_body := b |>
}.

(** Create a message and read its start line. *)
Definition rtsp_parser_on_start (st : apt_text_stream_t) : option (option rtsp_message_t * apt_text_stream_t) :=
  let '(ok, line, st) := apt_text_line_read st in
  if negb ok then Some (None, st)
  else
    let m := rtsp_message_create RTSP_MESSAGE_TYPE_UNKNOWN in
    let '(ok, sl) := rtsp_start_line_parse (rm_start_line m) line in
    if negb ok then Some (None, st) else Some (Some (m <| rm_start_line := sl |>), st).

(** The length of the body is the one the header announces. *)
Definition rtsp_parser_on_header_complete (m : rtsp_message_t) : option (bool * rtsp_message_t) :=
  let? (_, h) := rtsp_header_fields_parse (rm_header m) in
  let m := m <| rm_header := h |> in
  Some (true,
    if rtsp_header_property_check h RTSP_HEADER_FIELD_CONTENT_LENGTH
    then m <| rm_body := mk_str (str_buf (rm_body m)) (Z.to_nat (rtsp_content_length h)) |> else m).

Definition rtsp_parser_vtable : apt_message_parser_vtable_t rtsp_message_t :=
  mk_parser_vtable rtsp_parser_on_start (Some rtsp_parser_on_header_complete) None.
Definition rtsp_parser_create : apt_message_parser_t rtsp_message_t := apt_message_parser_create rtsp_parser_vtable.
Definition rtsp_parser_run (p : apt_message_parser_t rtsp_message_t) (st : apt_text_stream_t) :=
  apt_message_parser_run p st.

Definition rtsp_generator_on_start (m : rtsp_message_t) : prog apt_text_stream_t (bool * rtsp_message_t) :=
  let* r := rtsp_start_line_generate (rm_start_line m) in
  ret (fst r, m <| rm_start_line := snd r |>).

Definition rtsp_generator_vtable : apt_message_generator_vtable_t rtsp_message_t :=
  mk_generator_vtable rtsp_generator_on_start None.
Definition rtsp_generator_create : apt_message_generator_t rtsp_message_t := apt_message_generator_create rtsp_generator_vtable.
Definition rtsp_generator_run (g : apt_message_generator_t rtsp_message_t) (a : addr) (m : rtsp_message_t) :=
  apt_message_generator_run g a m.
End Messages.

(** * Parsing the fields of a header *)

(** The field's identifier, from its name. *)
Definition rtsp_field_id (name : bytes) : Z :=
  first_index (fun it => str_ieq (str_text (item_value it)) name) rtsp_header_string_table RTSP_HEADER_FIELD_COUNT.

Lemma rtsp_field_id_find (f : apt_header_field_t) : str_wf (hf_name f) ->
  apt_string_table_id_find rtsp_header_string_table RTSP_HEADER_FIELD_COUNT (hf_name f) = rtsp_field_id (str_text (hf_name f)).
Proof. intros W. by rewrite id_find_first_index by (done || by vm_compute). Qed.

(** The numbers of a header. *)
Definition number_field (id : Z) (get : rtsp_header_t -> Z) : Prop :=
  (id = RTSP_HEADER_FIELD_CSEQ /\ get = cseq) \/ (id = RTSP_HEADER_FIELD_CONTENT_LENGTH /\ get = rtsp_content_length).

(** A field is identified and its value read whatever it is. *)
Lemma value_parse_defined (h : rtsp_header_t) (id : Z) (v : apt_str_t) : str_len v <> 0%nat ->
  exists ok h', rtsp_header_field_value_parse h id v = Some (ok, h') /\ rtsp_header_section h' = rtsp_header_section h /\
    forall k get, number_field k get -> k <> id -> get h' = get h.
Proof.
  intros Hv. unfold rtsp_header_field_value_parse.
  destruct (Z.eqb_spec id RTSP_HEADER_FIELD_CSEQ) as [->|_].
  { eexists _, _. split_and!; [done|done|]. by intros k get [[-> ->]|[-> ->]]. }
  destruct (Z.eqb_spec id RTSP_HEADER_FIELD_TRANSPORT) as [->|_].
  { destruct (rtsp_transport_parse _ v) as [ok t]. eexists _, _. split_and!; [done|done|]. by intros k get [[-> ->]|[-> ->]]. }
  destruct (Z.eqb_spec id RTSP_HEADER_FIELD_SESSION_ID) as [->|_].
  { unfold rtsp_session_id_parse, apt_string_copy, apt_string_assign_n. rewrite (proj2 (Nat.eqb_neq _ _)) by done.
    destruct (str_buf v); cbn [str_buf]; eexists _, _; (split_and!; [reflexivity|done|]); by intros k get [[-> ->]|[-> ->]]. }
  destruct (Z.eqb_spec id RTSP_HEADER_FIELD_RTP_INFO) as [->|_].
  { eexists _, _. split_and!; [done|done|]. by intros k get [[-> ->]|[-> ->]]. }
  destruct (Z.eqb_spec id RTSP_HEADER_FIELD_CONTENT_TYPE) as [->|_].
  { eexists _, _. split_and!; [done|done|]. by intros k get [[-> ->]|[-> ->]]. }
  destruct (Z.eqb_spec id RTSP_HEADER_FIELD_CONTENT_LENGTH) as [->|_].
  { eexists _, _. split_and!; [done|done|]. by intros k get [[-> ->]|[-> ->]]. }
  eexists _, _. split_and!; done.
Qed.

Lemma field_identify_defined (h : rtsp_header_t) (f : apt_header_field_t) :
  exists h', field_identify h f
    = Some (h', set_hf_id (apt_string_table_id_find rtsp_header_string_table RTSP_HEADER_FIELD_COUNT (hf_name f)) f) /\
    rtsp_header_section h' = rtsp_header_section h /\
    forall k get, number_field k get ->
      k <> apt_string_table_id_find rtsp_header_string_table RTSP_HEADER_FIELD_COUNT (hf_name f) -> get h' = get h.
Proof.
  unfold field_identify. set (id := apt_string_table_id_find _ _ _).
  change (hf_value (set_hf_id id f)) with (hf_value f). change (hf_id (set_hf_id id f)) with id. unfold apt_string_is_empty.
  destruct (Nat.eqb_spec (str_len (hf_value f)) 0) as [E|E]; [by exists h|].
  destruct (value_parse_defined h id (hf_value f) E) as (ok & h' & -> & Hs & Hk). by exists h'.
Qed.

(** The header with a field stored. *)
Definition header_stored (h : rtsp_header_t) ring (a : addr) (f : apt_header_field_t) : rtsp_header_t :=
  h <| rtsp_header_section := section_stored (rtsp_header_section h) ring true a f |>.

Lemma rtsp_field_step (h h' : rtsp_header_t) front (a : addr) f f' back :
  sec_ring (rtsp_header_section h) = front ++ (a, f) :: back -> NoDup (map fst (sec_ring (rtsp_header_section h))) ->
  field_identify h f = Some (h', f') -> rtsp_header_section h' = rtsp_header_section h ->
  rtsp_field_parse_at h a = Some (header_stored h' (front ++ (a, f') :: back) a f').
Proof.
  intros Hr Hnd E Es. rewrite Hr in Hnd. unfold rtsp_field_parse_at, field_at. rewrite Hr.
  rewrite (proj1 (ring_split front back a f id Hnd)). cbn [fmap option_fmap option_map snd]. rewrite E. cbv beta iota zeta.
  unfold header_stored, section_stored, field_update. rewrite Es, Hr.
  by rewrite (proj2 (ring_split front back a f (fun _ => f') Hnd)).
Qed.

(** What each field of a list keeps while it is read. *)
Definition rtsp_field_keeps (J : rtsp_header_t -> Prop) (f : apt_header_field_t) : Prop :=
  forall h h' f' ring a, J h -> field_identify h f = Some (h', f') -> rtsp_header_section h' = rtsp_header_section h ->
    J (header_stored h' ring a f').

Lemma rtsp_fields_loop (J : rtsp_header_t -> Prop) back front rest (h : rtsp_header_t) :
  sec_ring (rtsp_header_section h) = front ++ back ++ rest -> NoDup (map fst (sec_ring (rtsp_header_section h))) ->
  Forall (rtsp_field_keeps J) (map snd back) -> J h ->
  exists h' back', rtsp_fields_parse_from h (map fst back) = Some h' /\
    sec_ring (rtsp_header_section h') = front ++ back' ++ rest /\ map fst back' = map fst back /\
    map (fun p => field_texts (snd p)) back' = map (fun p => field_texts (snd p)) back /\ J h'.
Proof.
  revert front h. induction back as [|[a f] back IH]; intros front h Hr Hnd HJ Hj; [by exists h, []|].
  cbn [map snd] in HJ. apply Forall_cons_iff in HJ as [Hf HJ].
  destruct (field_identify_defined h f) as (h1 & E & Es & _). set (f1 := set_hf_id _ f) in E.
  pose proof (rtsp_field_step h h1 front a f f1 (back ++ rest) Hr Hnd E Es) as Hs.
  set (h2 := header_stored h1 _ a f1) in Hs.
  assert (Hr2 : sec_ring (rtsp_header_section h2) = (front ++ [(a, f1)]) ++ back ++ rest).
  { unfold h2, header_stored. cbn [rtsp_header_section field_set]. cbn [rtsp_header_section]. rewrite section_stored_ring. by rewrite <-app_assoc. }
  destruct (IH (front ++ [(a, f1)]) h2 Hr2) as (h' & back' & E' & Er & Ea & Et & Ej).
  { rewrite Hr2. rewrite Hr in Hnd. by rewrite <-app_assoc, !map_app in *. }
  { done. }
  { by apply (Hf h h1 f1). }
  exists h', ((a, f1) :: back'). split_and!.
  - cbn [map fst rtsp_fields_parse_from]. by rewrite Hs.
  - by rewrite Er, <-app_assoc.
  - cbn [map fst]. by rewrite Ea.
  - cbn [map snd]. by rewrite Et.
  - done.
Qed.

(** ** A number in the header *)

Definition number_is (id : Z) (get : rtsp_header_t -> Z) (n : Z) (x : option addr) (h : rtsp_header_t) : Prop :=
  get h = n /\ arr_at (rtsp_header_section h) id = x /\ arr_size (rtsp_header_section h) = RTSP_HEADER_FIELD_COUNT.

Lemma number_field_id (id : Z) (get : rtsp_header_t -> Z) : number_field id get -> 0 <= id < RTSP_HEADER_FIELD_COUNT.
Proof. by intros [[-> _]|[-> _]]. Qed.

Lemma number_get_stored (id : Z) (get : rtsp_header_t -> Z) (h : rtsp_header_t) ring (a : addr) f :
  number_field id get -> get (header_stored h ring a f) = get h.
Proof. by intros [[_ ->]|[_ ->]]. Qed.

Lemma other_field_number (id : Z) get n x (f : apt_header_field_t) :
  number_field id get -> str_wf (hf_name f) -> rtsp_field_id (str_text (hf_name f)) <> id -> rtsp_field_keeps (number_is id get n x) f.
Proof.
  intros Hid Wf Hne h h' f' ring a (Hg & Ha & Hs) E Es. pose proof (number_field_id id get Hid) as Hr.
  destruct (field_identify_defined h f) as (h1 & E1 & _ & Hk). rewrite E1 in E. injection E as <- <-.
  rewrite (rtsp_field_id_find f Wf) in *. split; [rewrite (number_get_stored id get) by done; by rewrite (Hk id get)|].
  unfold header_stored. cbn [rtsp_header_section field_set]. cbn [rtsp_header_section]. rewrite section_stored_size, Es. split; [|done].
  unfold section_stored, apt_header_section_field_set. destruct (_ <=? _); [done|].
  destruct (arr_at _ (hf_id _)); [done|]. cbn [snd]. rewrite arr_at_set_arr_ne; [done| |lia|done].
  cbn [hf_id set_hf_id]. rewrite <-rtsp_field_id_find by done. by apply id_find_nonneg.
Qed.

Lemma number_field_sets (id : Z) get n x m follow (h h' : rtsp_header_t) (f f' : apt_header_field_t) ring (a : addr) :
  number_field id get -> str_wf (hf_name f) -> rtsp_field_id (str_text (hf_name f)) = id ->
  str_buf (hf_value f) = Some (dec m ++ follow) -> stops follow -> str_len (hf_value f) <> 0%nat -> 0 <= m < 2 ^ 63 ->
  number_is id get n x h -> field_identify h f = Some (h', f') -> rtsp_header_section h' = rtsp_header_section h ->
  exists b, number_is id get m (Some b) (header_stored h' ring a f').
Proof.
  intros Hid Wf Hn Hb Hst Hl Hm (Hg & Ha & Hs) E Es. pose proof (number_field_id id get Hid) as Hr.
  assert (Eg : get h' = m /\ hf_id f' = id).
  { unfold field_identify in E. rewrite (rtsp_field_id_find f Wf), Hn in E.
    change (hf_value (set_hf_id id f)) with (hf_value f) in E. change (hf_id (set_hf_id id f)) with id in E.
    unfold apt_string_is_empty in E. rewrite (proj2 (Nat.eqb_neq _ _)) in E by done. unfold rtsp_header_field_value_parse in E.
    destruct Hid as [[-> ->]|[-> ->]]; cbn [Z.eqb Pos.eqb RTSP_HEADER_FIELD_CSEQ RTSP_HEADER_FIELD_TRANSPORT RTSP_HEADER_FIELD_SESSION_ID RTSP_HEADER_FIELD_RTP_INFO RTSP_HEADER_FIELD_CONTENT_TYPE RTSP_HEADER_FIELD_CONTENT_LENGTH] in E;
      rewrite (size_parse_text (hf_value f) m follow) in E by done; injection E as <- <-; done. }
  destruct Eg as [Eg Ef]. unfold number_is. rewrite (number_get_stored id get) by done.
  unfold header_stored. cbn [rtsp_header_section field_set]. cbn [rtsp_header_section]. rewrite section_stored_size, Es.
  unfold section_stored, apt_header_section_field_set. rewrite Ef.
  change (arr_size (mk_section ring (sec_arr ?s) (sec_next ?s))) with (arr_size s).
  change (arr_at (mk_section ring (sec_arr ?s) (sec_next ?s)) id) with (arr_at s id).
  rewrite Hs, (proj2 (Z.leb_gt _ _)) by lia. destruct (arr_at (rtsp_header_section h) id) as [b|] eqn:Eb; [exists b; done|].
  exists a. split; [done|]. split; [|done]. cbn [snd]. rewrite arr_at_set_arr_eq; [done|].
  change (0 <= id < arr_size (rtsp_header_section h)). lia.
Qed.

(** ** All fields *)

(** One field of the name says [n]. *)
Definition number_announced (id n : Z) (l : list (bytes * bytes)) : Prop :=
  exists l1 name l2, l = l1 ++ (name, dec n) :: l2 /\ rtsp_field_id name = id /\
    Forall (fun p => rtsp_field_id (fst p) <> id) l1 /\ Forall (fun p => rtsp_field_id (fst p) <> id) l2.
Definition number_absent (id : Z) (l : list (bytes * bytes)) : Prop := Forall (fun p => rtsp_field_id (fst p) <> id) l.

Lemma other_fields_number id get n x (l : list apt_header_field_t) :
  number_field id get -> Forall fresh_field l -> number_absent id (map field_texts l) ->
  Forall (rtsp_field_keeps (number_is id get n x)) l.
Proof.
  intros Hid Hf Ha. unfold number_absent in Ha. rewrite Forall_forall in *. intros f Hin.
  apply other_field_number; [done| |exact (Ha _ (in_map field_texts _ _ Hin))].
  rewrite (Hf f Hin). apply str_alloc_wf.
Qed.

Section AllFields.
Context (h : rtsp_header_t) (l : list (bytes * bytes)).
Context (Hnd : NoDup (map fst (sec_ring (rtsp_header_section h)))) (Hfr : Forall fresh_field (sec_fields (rtsp_header_section h)))
  (Hl : map field_texts (sec_fields (rtsp_header_section h)) = l).

Lemma rtsp_fields_absent id get n x : number_field id get -> number_is id get n x h -> number_absent id l ->
  exists h', rtsp_header_fields_parse h = Some (true, h') /\ map field_texts (sec_fields (rtsp_header_section h')) = l /\
    number_is id get n x h'.
Proof.
  intros Hid Hj Ha. rewrite <-Hl in Ha. unfold rtsp_header_fields_parse.
  destruct (rtsp_fields_loop (number_is id get n x) (sec_ring (rtsp_header_section h)) [] [] h) as (h' & b' & E & Er & _ & Et & Ej);
    [by rewrite app_nil_r|done|by apply other_fields_number|done|].
  exists h'. rewrite E. split_and!; [done| |done]. rewrite <-texts_fields, Er, app_nil_r; cbn [app]; rewrite Et, texts_fields. exact Hl.
Qed.

Lemma rtsp_fields_number id get n x m : number_field id get -> number_is id get n x h -> number_announced id m l -> 0 <= m < 2 ^ 63 ->
  exists h' b, rtsp_header_fields_parse h = Some (true, h') /\ map field_texts (sec_fields (rtsp_header_section h')) = l /\
    number_is id get m (Some b) h'.
Proof.
  intros Hid Hj (l1 & name & l2 & El & Hn & H1 & H2) Hm. pose proof Hl as Ht. rewrite El in Ht. unfold sec_fields in Ht, Hfr.
  apply map_eq_app in Ht as (g1 & g2 & Es & E1 & E2). apply map_eq_app in Es as (b1 & b2 & Hr & <- & <-).
  destruct b2 as [|[a f] b2]; [done|]. cbn [map snd] in E2. injection E2 as En Ev E2.
  rewrite Hr, map_app in Hfr. apply Forall_app in Hfr as [Hf1 [Hf Hf2]%Forall_cons_iff]. cbn [snd] in Hf.
  assert (Wf : str_wf (hf_name f)) by (rewrite Hf; apply str_alloc_wf).
  unfold rtsp_header_fields_parse. rewrite Hr, map_app. cbn [map fst].
  assert (Eapp : forall h0 l l', rtsp_fields_parse_from h0 (l ++ l') = let? h1 := rtsp_fields_parse_from h0 l in rtsp_fields_parse_from h1 l').
  { clear. intros h0 l. revert h0. induction l as [|a l IH]; intros h0 l'; [done|]. cbn [app rtsp_fields_parse_from].
    destruct (rtsp_field_parse_at h0 a) as [h1|]; [apply IH|done]. }
  rewrite Eapp. destruct (rtsp_fields_loop (number_is id get n x) b1 [] ((a, f) :: b2) h Hr Hnd) as (h1 & b1' & E & Er & Ea & Et & J1).
  { apply other_fields_number; [done|done|]. unfold number_absent. by rewrite E1. }
  { done. }
  rewrite E. cbn [rtsp_fields_parse_from app] in *.
  assert (Hnd1 : NoDup (map fst (sec_ring (rtsp_header_section h1)))).
  { rewrite Er, map_app, Ea, <-map_app. by rewrite Hr in Hnd. }
  destruct (field_identify_defined h1 f) as (h2 & Ei & Es & _). set (f1 := set_hf_id _ f) in Ei.
  rewrite (rtsp_field_step h1 h2 b1' a f f1 b2 Er Hnd1 Ei Es). set (ring := b1' ++ (a, f1) :: b2).
  destruct (number_field_sets id get n x m [NUL] h1 h2 f f1 ring a) as (b & J2); try done; [by rewrite En|by rewrite Hf, Ev| |].
  { rewrite Hf, Ev. cbn [hf_value str_alloc str_len]. pose proof (dec_nonempty m). by destruct (dec m). }
  assert (Er2 : sec_ring (rtsp_header_section (header_stored h2 ring a f1)) = (b1' ++ [(a, f1)]) ++ b2 ++ []).
  { unfold header_stored. cbn [rtsp_header_section field_set]. cbn [rtsp_header_section].
    rewrite section_stored_ring, app_nil_r. unfold ring. by rewrite <-app_assoc. }
  destruct (rtsp_fields_loop (number_is id get m (Some b)) b2 (b1' ++ [(a, f1)]) [] _ Er2) as (h3 & b2' & E3 & Er3 & _ & Et3 & J3).
  { rewrite Er2, app_nil_r, <-app_assoc. rewrite Er in Hnd1. by rewrite !map_app in *. }
  { apply other_fields_number; [done|done|]. unfold number_absent. by rewrite E2. }
  { done. }
  exists h3, b. rewrite E3. split_and!; [done| |done].
  rewrite <-Hl, <-!texts_fields, Er3, Hr, app_nil_r, !map_app, Et, Et3. cbn [map snd]. by rewrite <-app_assoc.
Qed.
End AllFields.

(** * The round trip of a message *)

Definition rtsp_fields (m : rtsp_message_t) : list apt_header_field_t := sec_fields (rtsp_header_section (rm_header m)).

(** A message that can be put on the wire: its header announces the length of its body, and no length
    when there is none. *)
Record rtsp_sendable (m : rtsp_message_t) (reason : list bytes) : Prop := {
  rs_line : rtsp_line_ok (rm_start_line m) reason;
  rs_no_eol : Forall no_eol (rtsp_words (rm_start_line m) reason);
  rs_fields : Forall field_ok (rtsp_fields m);
  rs_length : if (str_len (rm_body m) =? 0)%nat then number_absent RTSP_HEADER_FIELD_CONTENT_LENGTH (map field_texts (rtsp_fields m))
              else number_announced RTSP_HEADER_FIELD_CONTENT_LENGTH (Z.of_nat (str_len (rm_body m))) (map field_texts (rtsp_fields m));
  rs_body : str_wf (rm_body m);
  rs_body_size : Z.of_nat (str_len (rm_body m)) < 2 ^ 63
}.

(** The text of a message. *)
Definition rtsp_wire (m : rtsp_message_t) (reason : list bytes) : bytes :=
  join (rtsp_words (rm_start_line m) reason) ++ [CR; LF] ++ fields_text (rtsp_fields m) ++ [CR; LF] ++ str_text (rm_body m).

Section RtspParse.
Context `{LA : AprLaws} (m : rtsp_message_t) (reason : list bytes) (Hm : rtsp_sendable m reason).

Definition rtsp_parser_idle (p : apt_message_parser_t rtsp_message_t) : Prop :=
  parser_vtable p = rtsp_parser_vtable /\ parser_stage p = APT_MESSAGE_STAGE_START_LINE.

Lemma rtsp_line_read (rd : apt_text_stream_t) (rest : bytes) :
  window rd = join (rtsp_words (rm_start_line m) reason) ++ [CR; LF] ++ rest ->
  exists sl rd', rtsp_parser_on_start rd
    = Some (Some ((rtsp_message_create RTSP_MESSAGE_TYPE_UNKNOWN) <| rm_start_line := sl |>), rd') /\
    rtsp_line_same (rm_start_line m) reason sl /\ window rd' = rest /\ st_eos rd' = st_eos rd /\ advances rd rd'.
Proof.
  intros Hw. unfold rtsp_parser_on_start.
  destruct (line_read_crlf rd _ rest (join_no_eol _ (rs_no_eol m reason Hm)) Hw) as (rd' & -> & Hw' & He & Ha). cbn [negb].
  set (str := mk_str _ _).
  destruct (rtsp_start_line_parse_words (rm_start_line m) (rm_start_line (rtsp_message_create RTSP_MESSAGE_TYPE_UNKNOWN)) reason str (rs_line m reason Hm))
    as (sl & E & Hs).
  { unfold str. apply rtsp_words_reads; [apply (rs_line m reason Hm)|done]. }
  rewrite E. cbn [negb]. by exists sl, rd'.
Qed.

(** All fields and the length of the body. *)
Lemma rtsp_header_complete (m0 : rtsp_message_t) :
  NoDup (map fst (sec_ring (rtsp_header_section (rm_header m0)))) -> Forall fresh_field (rtsp_fields m0) ->
  map field_texts (rtsp_fields m0) = map field_texts (rtsp_fields m) ->
  sec_arr (rtsp_header_section (rm_header m0)) = replicate 6 None -> rm_body m0 = apt_string_reset ->
  exists h, rtsp_parser_on_header_complete m0 = Some (true, mk_rtsp_message (rm_start_line m0) h (mk_str None (str_len (rm_body m)))) /\
    map field_texts (sec_fields (rtsp_header_section h)) = map field_texts (rtsp_fields m) /\
    forall n, 0 <= n < 2 ^ 63 -> number_announced RTSP_HEADER_FIELD_CSEQ n (map field_texts (rtsp_fields m)) -> cseq h = n.
Proof.
  intros Hnd Hfr Ht Ha Hb. pose proof (rs_length m reason Hm) as Hl. pose proof (rs_body_size m reason Hm) as Hsz.
  assert (H0 : forall id get, 0 <= id < RTSP_HEADER_FIELD_COUNT -> number_is id get (get (rm_header m0)) None (rm_header m0)).
  { intros id get Hid. split; [done|]. unfold arr_at, arr_size. rewrite Ha. split; [|done].
    destruct (replicate 6 None !! _) as [o|] eqn:E; [|done]. by apply lookup_replicate in E as [-> _]. }
  unfold rtsp_parser_on_header_complete.
  assert (Hcs : forall h, rtsp_header_fields_parse (rm_header m0) = Some (true, h) ->
    forall n, 0 <= n < 2 ^ 63 -> number_announced RTSP_HEADER_FIELD_CSEQ n (map field_texts (rtsp_fields m)) -> cseq h = n).
  { intros h E n Hn Hann. destruct (rtsp_fields_number (rm_header m0) _ Hnd Hfr Ht RTSP_HEADER_FIELD_CSEQ cseq _ _ n
      ltac:(by left) (H0 RTSP_HEADER_FIELD_CSEQ cseq ltac:(done)) Hann Hn) as (h' & b & E' & _ & Hj & _). congruence. }
  destruct (Nat.eqb_spec (str_len (rm_body m)) 0) as [Hz|Hz].
  - destruct (rtsp_fields_absent (rm_header m0) _ Hnd Hfr Ht RTSP_HEADER_FIELD_CONTENT_LENGTH rtsp_content_length _ _
      ltac:(by right) (H0 RTSP_HEADER_FIELD_CONTENT_LENGTH rtsp_content_length ltac:(done)) Hl) as (h & E & Hts & _ & Hat & Hs).
    rewrite E. exists h. unfold rtsp_header_property_check, apt_header_section_field_check. rewrite Hat, Hs. split_and!; [|done|by apply Hcs].
    rewrite Hz. destruct m0. cbn in Hb. by subst.
  - destruct (rtsp_fields_number (rm_header m0) _ Hnd Hfr Ht RTSP_HEADER_FIELD_CONTENT_LENGTH rtsp_content_length _ _ _
      ltac:(by right) (H0 RTSP_HEADER_FIELD_CONTENT_LENGTH rtsp_content_length ltac:(done)) Hl ltac:(lia)) as (h & b & E & Hts & Hg & Hat & Hs).
    rewrite E. exists h. unfold rtsp_header_property_check, apt_header_section_field_check. rewrite Hat, Hs. split_and!; [|done|by apply Hcs].
    cbn. rewrite Hb, Hg, Nat2Z.id. done.
Qed.
End RtspParse.

Section RtspRun.
Context `{LA : AprLaws} (m : rtsp_message_t) (reason : list bytes) (Hm : rtsp_sendable m reason).

Lemma rtsp_wire_skips_lf (rd : apt_text_stream_t) (rest : bytes) :
  window rd = rtsp_wire m reason ++ rest -> apt_text_char_skip LF rd = rd.
Proof.
  intros Hw. unfold apt_text_char_skip. rewrite Hw. unfold rtsp_wire.
  pose proof (rs_no_eol m reason Hm) as Hn. apply join_no_eol in Hn as [_ Hn].
  destruct (join (rtsp_words (rm_start_line m) reason)) as [|c w]; [done|]. apply not_elem_of_cons in Hn as [Hc _].
  cbn [app]. by rewrite char_eqb_ne.
Qed.

(** The body of a message whose header is complete. *)
Lemma rtsp_body_read (p : apt_message_parser_t rtsp_message_t) (sl : rtsp_start_line_t) (h : rtsp_header_t) (rd : apt_text_stream_t) (rest : bytes) :
  parser_vtable p = rtsp_parser_vtable -> reader_ok rd -> window rd = str_text (rm_body m) ++ rest ->
  exists b body', message_body_alloc (mk_str None (str_len (rm_body m))) = Some b /\ str_text body' = str_text (rm_body m) /\
    parser_run_body (p <| parser_content_length := str_len (rm_body m) |>
                       <| parser_context := Some (mk_rtsp_message sl h b) |>
                       <| parser_stage := APT_MESSAGE_STAGE_BODY |>) rd
    = Some (APT_MESSAGE_STATUS_COMPLETE, Some (mk_rtsp_message sl h body'),
        p <| parser_content_length := str_len (rm_body m) |> <| parser_context := Some (mk_rtsp_message sl h body') |>
          <| parser_stage := APT_MESSAGE_STAGE_START_LINE |>, set_pos (st_pos rd + str_len (rm_body m)) rd).
Proof.
  intros Hvt Hrd Hw. pose proof (rs_body_size m reason Hm) as Hsz. pose proof (rs_body m reason Hm) as Wb. unfold str_wf in Wb.
  unfold message_body_alloc. cbn [str_len]. rewrite u64_small, apr_palloc_length by lia.
  destruct (Nat.ltb_spec (str_len (rm_body m)) (Z.to_nat (Z.of_nat (str_len (rm_body m)) + 1))); [|lia].
  set (mem := overwrite _ _ _).
  destruct (body_read_all (str_text (rm_body m)) mem rd rest Hrd Hw) as (body' & E & Ht & Hl).
  { unfold mem. rewrite overwrite_length; rewrite apr_palloc_length; simpl; lia. }
  exists (mk_str (Some mem) 0), body'. split; [done|]. split; [done|].
  unfold parser_run_body. cbn [field_set parser_context parser_content_length parser_vtable ctx_body rtsp_message_context rm_body].
  rewrite Wb in E. rewrite E. cbn [negb]. rewrite Hvt. reflexivity.
Qed.

Lemma rtsp_parser_run_message (p : apt_message_parser_t rtsp_message_t) (rd : apt_text_stream_t) (rest : bytes) :
  rtsp_parser_idle p -> reader_ok rd -> st_eos rd = false -> window rd = rtsp_wire m reason ++ rest ->
  apt_text_is_wsp (deref (str_text (rm_body m) ++ rest)) = false ->
  exists m' p' rd', rtsp_parser_run p rd = Some (APT_MESSAGE_STATUS_COMPLETE, Some m', p', rd') /\
    rtsp_line_same (rm_start_line m) reason (rm_start_line m') /\
    map field_texts (rtsp_fields m') = map field_texts (rtsp_fields m) /\
    (forall n, 0 <= n < 2 ^ 63 -> number_announced RTSP_HEADER_FIELD_CSEQ n (map field_texts (rtsp_fields m)) -> cseq (rm_header m') = n) /\
    str_text (rm_body m') = str_text (rm_body m) /\ rtsp_parser_idle p' /\ window rd' = rest /\ reader_ok rd' /\ st_eos rd' = false.
Proof.
  intros [Hvt Hst] Hrd He Hw Hwsp. unfold rtsp_parser_run, apt_message_parser_run.
  replace (if skip_lf p then apt_text_char_skip LF rd else rd) with rd
    by (rewrite (rtsp_wire_skips_lf rd rest Hw); by destruct (skip_lf _)).
  cbn [field_set parser_stage parser_vtable]. rewrite Hst, Hvt. cbn [on_start rtsp_parser_vtable].
  unfold rtsp_wire in Hw. rewrite <-!app_assoc in Hw.
  destruct (rtsp_line_read m reason Hm rd _ Hw) as (sl & rd1 & -> & Hsame & Hw1 & He1 & Ha1).
  assert (Hp1 : (0 < st_pos rd1)%nat).
  { apply (advances_pos rd rd1 Ha1). rewrite Hw, Hw1, !length_app. simpl. lia. }
  destruct (crlf_test_defined false rd1 Hp1) as [b1 Eb1].
  cbn [field_set skip_lf]. rewrite Eb1. unfold parser_run_header. cbn [parser_context].
  match goal with |- context [ctx_header ?x] =>
    change (ctx_header x) with (snd (apt_header_section_array_alloc apt_header_section_init RTSP_HEADER_FIELD_COUNT)) end.
  set (sec0 := snd (apt_header_section_array_alloc _ _)).
  pose proof (fields_text_length (rtsp_fields m)) as Hlen. unfold apt_header_section_parse.
  destruct (section_parse_fields (rtsp_fields m) (str_text (rm_body m) ++ rest) (S (length (window rd1))) sec0 rd1)
    as (gs & sec & rd2 & Es & Hs & Harr & Ht & Hfr & Hw2 & He2); try done.
  { apply (rs_fields m reason Hm). } { rewrite Hw1, length_app. lia. } { congruence. }
  rewrite Es.
  assert (W : section_wf sec).
  { pose proof (section_loop_wf (S (length (window rd1))) sec0 rd1 (section_alloc_wf _ _ section_init_wf)) as W. by rewrite Es in W. }
  pose proof (section_loop_advances (S (length (window rd1))) sec0 rd1) as Ha2. rewrite Es in Ha2. cbn [snd] in Ha2.
  cbn [negb field_set skip_lf parser_vtable on_header_complete rtsp_parser_vtable].
  assert (Ha : advances rd rd2) by (by etrans).
  destruct (crlf_test_defined b1 rd2) as [b2 ->].
  { apply (advances_pos rd rd2 Ha). rewrite Hw, Hw2, !length_app. simpl. lia. }
  set (m0 := set_ctx_header sec _).
  assert (Hf0 : rtsp_fields m0 = gs) by exact Hs.
  destruct (rtsp_header_complete m reason Hm m0) as (h & Eh & Hft & Hcs); [apply (wf_nodup _ W)|by rewrite Hf0|by rewrite Hf0|exact Harr|done|].
  rewrite Eh. change (rm_start_line m0) with sl in *.
  assert (Hrd2 : reader_ok rd2) by (by eapply reader_advances). cbn [negb].
  match goal with |- context [ctx_body ?x] => change (ctx_body x) with (mk_str None (str_len (rm_body m))) end.
  cbn [str_len]. destruct (Nat.eqb_spec (str_len (rm_body m)) 0) as [Hz|Hnz].
  - assert (Hnil : str_text (rm_body m) = []) by (apply nil_length_inv; by rewrite (rs_body m reason Hm)).
    eexists _, _, rd2. split; [reflexivity|]. rewrite Hnil in *. split_and!; try done. by rewrite Hz.
  - set (p1 := mk_parser _ _ _ _ _).
    destruct (rtsp_body_read p1 sl h rd2 rest) as (b & body' & -> & Ebt & Er); try done.
    match type of Er with ?l = _ => match goal with |- context [parser_run_body ?x ?s] => change (parser_run_body x s) with l end end.
    rewrite Er. eexists _, _, _. split; [reflexivity|].
    pose proof (rs_body m reason Hm) as Wb. unfold str_wf in Wb. split_and!; try done.
    + rewrite window_advance, Hw2, <-Wb. apply drop_app_length.
    + eapply reader_advances; [exact Hrd2|]. apply advances_set_pos. rewrite Hw2, length_app, Wb. lia.
Qed.
End RtspRun.

(** A generator that is not in the middle of the message at [a]. *)
Definition rtsp_generator_idle `{Apr} (g : apt_message_generator_t rtsp_message_t) (a : addr) : Prop :=
  generator_vtable g = rtsp_generator_vtable /\
  (generator_message g <> Some a \/ generator_stage g = APT_MESSAGE_STAGE_START_LINE).

Section RtspGenerate.
Context `{LA : AprLaws} (m : rtsp_message_t) (reason : list bytes) (Hm : rtsp_sendable m reason).

(** Start line and header are written when there is room for them. *)
Lemma rtsp_header_emits (st : apt_text_stream_t) :
  stream_wf st -> addressable st -> (st_pos st + length (rtsp_wire m reason) < st_end st)%nat ->
  exists sl st1 st2, rtsp_generator_on_start m st = Some ((true, m <| rm_start_line := sl |>), st1) /\
    apt_header_section_generate (rtsp_header_section (rm_header m)) st1 = Some (true, st2) /\
    emits ((join (rtsp_words (rm_start_line m) reason) ++ [CR; LF]) ++ fields_text (rtsp_fields m) ++ [CR; LF]) st st2.
Proof.
  intros W Ad Hr. unfold rtsp_wire in Hr. rewrite !length_app in Hr. cbn [length] in Hr.
  destruct (rtsp_start_line_writes (rm_start_line m) reason (length (join (rtsp_words (rm_start_line m) reason)) + 2)
    (rs_line m reason Hm) (le_n _)) as (sl & Hw).
  destruct (Hw st W Ad ltac:(lia)) as (st1 & E1 & M1).
  destruct (section_generate_writes (rtsp_header_section (rm_header m)) (length (fields_text (rtsp_fields m)) + 2) (le_n _) st1) as (st2 & E2 & M2).
  - eauto with mrcp.
  - eauto with mrcp.
  - rewrite (emits_pos _ _ _ M1), (emits_end _ _ _ M1), !length_app. cbn [length]. lia.
  - exists sl, st1, st2. split; [|split; [done|exact (emits_app _ _ _ _ _ M1 M2)]].
    unfold rtsp_generator_on_start, bind. by rewrite E1.
Qed.

Lemma rtsp_generator_run_message (g : apt_message_generator_t rtsp_message_t) (a : addr) (st : apt_text_stream_t) :
  rtsp_generator_idle g a -> stream_wf st -> addressable st -> st_base st = st_pos st ->
  st_end st = (st_base st + st_text_len st)%nat -> (st_pos st + length (rtsp_wire m reason) < st_end st)%nat ->
  exists g' m' st', rtsp_generator_run g a m st = Some ((APT_MESSAGE_STATUS_COMPLETE, g', m'), st') /\
    message_text st' = rtsp_wire m reason /\ rtsp_generator_idle g' a.
Proof.
  intros [Hvt Hidle] W Ad Hb He Hroom.
  destruct (rtsp_header_emits st W Ad Hroom) as (sl & st1 & st2 & E1 & E2 & M).
  set (gb := if decide (generator_message g = Some a) then g
             else g <| generator_stage := APT_MESSAGE_STAGE_START_LINE |> <| generator_message := Some a |>).
  assert (Hgb : generator_vtable gb = rtsp_generator_vtable /\ generator_stage gb = APT_MESSAGE_STAGE_START_LINE /\ generator_message gb = Some a).
  { unfold gb. case_decide; [|done]. by destruct Hidle. }
  destruct Hgb as (Hgv & Hgs & Hgm).
  unfold rtsp_generator_run, apt_message_generator_run. cbv zeta. fold gb. rewrite Hgs.
  unfold generator_run_start. rewrite Hgv. cbn [gen_on_start gen_on_header_complete rtsp_generator_vtable].
  unfold bind at 1. rewrite E1. cbn [negb]. unfold bind at 1.
  change (ctx_header (m <| rm_start_line := sl |>)) with (rtsp_header_section (rm_header m)). rewrite E2. cbn [negb].
  unfold bind at 1. unfold ret at 1. cbv beta iota zeta. cbn [snd].
  repeat match goal with |- context [ctx_body ?x] => change (ctx_body x) with (rm_body m) end.
  pose proof (rs_body m reason Hm) as Wb. pose proof Wb as Wb'. unfold str_wf in Wb'.
  assert (Ht2 : message_text st2 ++ str_text (rm_body m) = rtsp_wire m reason).
  { assert (Hbp0 : (st_base st <= st_pos st)%nat) by lia. rewrite (emits_message_text _ _ _ M W Hbp0).
    assert (Hnil : message_text st = []) by (unfold message_text; rewrite Hb; apply drop_ge; rewrite length_take; lia).
    rewrite Hnil. cbn [app]. unfold rtsp_wire. by rewrite <-!app_assoc. }
  destruct M as ((W2 & B2 & L2 & En2 & _ & Mm2 & _) & P2 & _).
  destruct (Nat.eqb_spec (str_len (rm_body m)) 0) as [Hz|Hz].
  - assert (Hnil : str_text (rm_body m) = []) by (apply nil_length_inv; lia). rewrite Hnil, app_nil_r in Ht2.
    eexists _, _, st2. split; [reflexivity|]. split; [exact Ht2|]. split; [done|by right].
  - unfold rtsp_wire in Hroom. rewrite !length_app in P2, Hroom. cbn [length app] in P2, Hroom.
    destruct (body_write_piece st2 (rm_body m) 0 W2) as (st4 & E4 & M4); [unfold addressable in *; by rewrite Mm2|done|lia|congruence|lia|].
    rewrite drop_0 in E4, M4. rewrite (take_ge (str_text _)) in E4, M4 by lia.
    unfold generator_run_body. cbn [field_set generator_content_length].
    match goal with |- context [ctx_body ?x] => change (ctx_body x) with (mk_str (str_buf (rm_body m)) 0) end.
    unfold bind. rewrite E4, (proj2 (Nat.leb_le _ _)) by lia. cbn [negb].
    assert (Hbp : (st_base st2 <= st_pos st2)%nat) by lia.
    pose proof (emits_message_text _ _ _ M4 W2 Hbp) as Ht4. rewrite Ht2 in Ht4.
    eexists _, _, st4. split; [reflexivity|]. split; [done|]. split; [done|by right].
Qed.
End RtspGenerate.

(** C25: an RTSP message is generated in one go into a stream with room for it, and a parser between two
    messages that is given the text, followed by anything that does not continue its header,
    completes with a message of the same method, version and status code, header fields, sequence
    number and body, and leaves the rest of the stream unread; a slash at the end of the URL and the
    words of a reason phrase after the first are lost. *)
Theorem rtsp_message_roundtrip `{LA : AprLaws} (m : rtsp_message_t) (reason : list bytes)
    (g : apt_message_generator_t rtsp_message_t) (a : addr) (st : apt_text_stream_t) :
  rtsp_sendable m reason -> rtsp_generator_idle g a -> stream_wf st -> addressable st -> st_base st = st_pos st ->
  st_end st = (st_base st + st_text_len st)%nat -> (st_pos st + length (rtsp_wire m reason) < st_end st)%nat ->
  exists g' m1 st', rtsp_generator_run g a m st = Some ((APT_MESSAGE_STATUS_COMPLETE, g', m1), st') /\ rtsp_generator_idle g' a /\
    forall p rd rest, rtsp_parser_idle p -> reader_ok rd -> st_eos rd = false -> window rd = message_text st' ++ rest ->
    apt_text_is_wsp (deref (str_text (rm_body m) ++ rest)) = false ->
    exists m' p' rd', rtsp_parser_run p rd = Some (APT_MESSAGE_STATUS_COMPLETE, Some m', p', rd') /\
      rtsp_line_same (rm_start_line m) reason (rm_start_line m') /\
      map field_texts (rtsp_fields m') = map field_texts (rtsp_fields m) /\
      (forall n, 0 <= n < 2 ^ 63 -> number_announced RTSP_HEADER_FIELD_CSEQ n (map field_texts (rtsp_fields m)) -> cseq (rm_header m') = n) /\
      str_text (rm_body m') = str_text (rm_body m) /\ rtsp_parser_idle p' /\ window rd' = rest /\ reader_ok rd' /\ st_eos rd' = false.
Proof.
  intros Hm Hg W Ad Hb He Hroom. destruct (rtsp_generator_run_message m reason Hm g a st) as (g' & m1 & st' & E & Ht & Hi); [done..|].
  exists g', m1, st'. split; [exact E|]. split; [exact Hi|]. intros p rd rest Hp Hrd Heos Hw Hwsp. rewrite Ht in Hw.
  by apply (rtsp_parser_run_message m reason Hm p rd rest).
Qed.

(** * The response to a request *)

Definition rtsp_phrase_words (reason : Z) : list bytes :=
  match reason with
  | 0 => [lit "OK"] | 1 => [lit "Created"] | 2 => [lit "Bad"; lit "Request"] | 3 => [lit "Unauthorized"] | 4 => [lit "Not"; lit "Found"]
  | 5 => [lit "Method"; lit "Not"; lit "Allowed"] | 6 => [lit "Not"; lit "Acceptable"] | 7 => [lit "Proxy"; lit "Auth"; lit "Required"]
  | 8 => [lit "Request"; lit "Timeout"] | 9 => [lit "Session"; lit "Not"; lit "Found"] | 10 => [lit "Internal"; lit "Server"; lit "Error"]
  | _ => [lit "Not"; lit "Implemented"]
  end.

Lemma rtsp_phrase (reason : Z) : 0 <= reason < RTSP_REASON_PHRASE_COUNT ->
  exists s, rtsp_reason_phrase_get reason = Some s /\ str_text (apt_string_copy s) = join (rtsp_phrase_words reason) /\
    rtsp_phrase_words reason <> [] /\ str_wf (apt_string_copy s) /\ Forall token (rtsp_phrase_words reason) /\ Forall no_eol (rtsp_phrase_words reason).
Proof.
  unfold RTSP_REASON_PHRASE_COUNT. intros H.
  assert (Hr : Forall (fun r => exists s, rtsp_reason_phrase_get r = Some s /\ str_text (apt_string_copy s) = join (rtsp_phrase_words r) /\
    rtsp_phrase_words r <> [] /\ str_wf (apt_string_copy s) /\ Forall token (rtsp_phrase_words r) /\ Forall no_eol (rtsp_phrase_words r))
    [0; 1; 2; 3; 4; 5; 6; 7; 8; 9; 10; 11]).
  { repeat (apply Forall_cons_2; [eexists; split; [reflexivity|]; split_and!; [reflexivity|done|reflexivity|..]|]); [..|by apply Forall_nil_2];
      repeat first [apply Forall_nil_2|apply Forall_cons_2]; split; first [done|decide_now]. }
  rewrite Forall_forall in Hr. apply Hr. assert (Hc : In reason (map Z.of_nat (seq 0 12))); [|exact Hc].
  apply in_map_iff. exists (Z.to_nat reason). split; [lia|]. apply in_seq. lia.
Qed.

Section Response.
Context `{LA : AprLaws}.

(** The sequence number of the request is the one field of the response. *)
Lemma rtsp_response_created (request : rtsp_message_t) (l : rtsp_request_line_t) (code reason : Z) (phrase : apt_str_t) :
  common (rm_start_line request) = REQUEST_LINE l ->
  rtsp_header_property_check (rm_header request) RTSP_HEADER_FIELD_CSEQ = true -> rtsp_reason_phrase_get reason = Some phrase ->
  exists response, rtsp_response_create request code reason = Some response /\
    rm_start_line response = mk_rtsp_start_line RTSP_MESSAGE_TYPE_RESPONSE (STATUS_LINE (mk_status_line (rl_version l) code (apt_string_copy phrase))) /\
    rtsp_fields response = [mk_field (str_lit "CSeq") (apt_size_value_generate (cseq (rm_header request))) RTSP_HEADER_FIELD_CSEQ] /\
    rm_body response = apt_string_reset /\ cseq (rm_header response) = cseq (rm_header request).
Proof.
  intros El Hc Ep. unfold rtsp_response_create. rewrite El, Hc, Ep.
  destruct (rtsp_header_property_check (rm_header request) RTSP_HEADER_FIELD_TRANSPORT), (str_len (mode (transport (rm_header request))) =? 0)%nat;
    eexists; (split; [reflexivity|]); done.
Qed.

Lemma size_value_text (n : Z) : 0 <= n -> apt_size_value_generate n = str_of (dec n).
Proof.
  intros Hn. unfold apt_size_value_generate, str_of. rewrite apr_psprintf_output.
  by rewrite strlen_nul_free by (apply dec_nul_free; lia).
Qed.

Lemma rtsp_response_sendable (request response : rtsp_message_t) (v : rtsp_version_e) (code reason : Z) (phrase : apt_str_t) :
  rm_start_line response = mk_rtsp_start_line RTSP_MESSAGE_TYPE_RESPONSE (STATUS_LINE (mk_status_line v code (apt_string_copy phrase))) ->
  rtsp_fields response = [mk_field (str_lit "CSeq") (apt_size_value_generate (cseq (rm_header request))) RTSP_HEADER_FIELD_CSEQ] ->
  rm_body response = apt_string_reset -> rtsp_reason_phrase_get reason = Some phrase -> 0 <= reason < RTSP_REASON_PHRASE_COUNT ->
  0 <= code < 2 ^ 32 -> 0 <= cseq (rm_header request) ->
  rtsp_sendable response (rtsp_phrase_words reason).
Proof.
  intros El Ef Eb Ep Hr Hc Hn. destruct (rtsp_phrase reason Hr) as (s & Es & Ht & Hne & Wf & Htok & Heol).
  rewrite Es in Ep. injection Ep as ->. pose proof (dec_digits _ Hn) as Hd. pose proof (digits_no_eol _ Hd) as Hde.
  split; rewrite ?El, ?Ef, ?Eb.
  - unfold rtsp_line_ok. cbn [rtsp_message_type common sl_status_code sl_reason]. split_and!; (done || lia).
  - unfold rtsp_words. cbn [common sl_version sl_status_code]. apply Forall_cons_2; [destruct v; split; decide_now|].
    apply Forall_cons_2; [|done]. apply digits_no_eol, dec_digits. lia.
  - apply Forall_singleton. rewrite (size_value_text _ Hn). unfold field_ok. cbn [hf_name hf_value]. rewrite str_of_text.
    split_and!; [done|apply str_of_wf| |].
    + unfold header_name_ok, no_eol. split_and!; first [done|decide_now].
    + split; [done|]. intros c r E. rewrite E in Hd. inversion_clear Hd as [|? ? Hc' _]. destruct (apt_text_is_wsp c) eqn:Ew; [|done].
      unfold apt_text_is_wsp in Ew. apply orb_true_iff in Ew as [->%bool_decide_eq_true| ->%bool_decide_eq_true]; discriminate.
  - cbn. apply Forall_singleton. by vm_compute.
  - done.
  - cbn. lia.
Qed.

Lemma rtsp_response_length (request response : rtsp_message_t) (v : rtsp_version_e) (code reason : Z) (phrase : apt_str_t) :
  rm_start_line response = mk_rtsp_start_line RTSP_MESSAGE_TYPE_RESPONSE (STATUS_LINE (mk_status_line v code (apt_string_copy phrase))) ->
  rtsp_fields response = [mk_field (str_lit "CSeq") (apt_size_value_generate (cseq (rm_header request))) RTSP_HEADER_FIELD_CSEQ] ->
  rm_body response = apt_string_reset -> rtsp_reason_phrase_get reason = Some phrase -> 0 <= reason < RTSP_REASON_PHRASE_COUNT ->
  0 <= code < 2 ^ 32 -> 0 <= cseq (rm_header request) < 2 ^ 63 -> (length (rtsp_wire response (rtsp_phrase_words reason)) <= 128)%nat.
Proof.
  intros El Ef Eb Ep Hr Hc Hn. unfold rtsp_wire, rtsp_words. rewrite El, Ef, Eb. cbn [common sl_version sl_status_code].
  pose proof (dec_length_le code 10 ltac:(lia) ltac:(lia)) as H1. pose proof (dec_length_le (cseq (rm_header request)) 19 ltac:(lia) ltac:(lia)) as H2.
  assert (Hp : (0 < length (join (rtsp_phrase_words reason)) <= 21)%nat).
  { assert (Hall : Forall (fun r => (0 < length (join (rtsp_phrase_words r)) <= 21)%nat) [0; 1; 2; 3; 4; 5; 6; 7; 8; 9; 10; 11])
      by (repeat (apply Forall_cons_2; [cbn; lia|]); by apply Forall_nil_2).
    rewrite Forall_forall in Hall. apply Hall. assert (Hin : In reason (map Z.of_nat (seq 0 12))); [|exact Hin].
    apply in_map_iff. exists (Z.to_nat reason). unfold RTSP_REASON_PHRASE_COUNT in Hr. split; [lia|]. apply in_seq. lia. }
  destruct (rtsp_phrase_words reason) as [|w ws]; [cbn in Hp; lia|].
  change (join (?x :: ?y :: w :: ws)) with (x ++ SP :: y ++ SP :: join (w :: ws)). unfold fields_text. cbn [map concat].
  rewrite (size_value_text _ (proj1 Hn)). rewrite !length_app. cbn [length]. rewrite !length_app, field_line_length, rtsp_version_text_length.
  cbn [hf_name hf_value length str_of str_len]. rewrite ?length_app. cbn -[join dec]. lia.
Qed.

(** C26: the response to a request that has a sequence number can be sent, and its receiver reads the
    status code, the version and the sequence number of the request. *)
Theorem rtsp_response_answers (request : rtsp_message_t) (l : rtsp_request_line_t) (code reason : Z)
    (g : apt_message_generator_t rtsp_message_t) (a : addr) (st : apt_text_stream_t) :
  common (rm_start_line request) = REQUEST_LINE l -> rtsp_header_property_check (rm_header request) RTSP_HEADER_FIELD_CSEQ = true ->
  0 <= cseq (rm_header request) < 2 ^ 63 -> 0 <= code < 2 ^ 32 -> 0 <= reason < RTSP_REASON_PHRASE_COUNT ->
  rtsp_generator_idle g a -> stream_wf st -> addressable st -> st_base st = st_pos st -> st_end st = (st_base st + st_text_len st)%nat ->
  (st_pos st + 128 < st_end st)%nat ->
  exists response g' m1 st', rtsp_response_create request code reason = Some response /\
    rtsp_generator_run g a response st = Some ((APT_MESSAGE_STATUS_COMPLETE, g', m1), st') /\
    forall p rd rest, rtsp_parser_idle p -> reader_ok rd -> st_eos rd = false -> window rd = message_text st' ++ rest ->
    apt_text_is_wsp (deref rest) = false ->
    exists m' p' rd' l', rtsp_parser_run p rd = Some (APT_MESSAGE_STATUS_COMPLETE, Some m', p', rd') /\
      rm_start_line m' = mk_rtsp_start_line RTSP_MESSAGE_TYPE_RESPONSE (STATUS_LINE l') /\
      sl_status_code l' = code /\ sl_version l' = rl_version l /\ cseq (rm_header m') = cseq (rm_header request) /\
      str_text (rm_body m') = [] /\ window rd' = rest.
Proof.
  intros El Hc Hn Hcode Hr Hg W Ad Hb He Hroom. destruct (rtsp_phrase reason Hr) as (s & Es & Hphrase).
  destruct (rtsp_response_created request l code reason s El Hc Es) as (m & Em & Eline & Ef & Ebody & _).
  pose proof (rtsp_response_sendable request m _ code reason s Eline Ef Ebody Es Hr Hcode ltac:(lia)) as Hm.
  destruct (rtsp_generator_run_message m _ Hm g a st) as (g' & m1 & st' & E & Ht & _); [done..| |].
  { pose proof (rtsp_response_length request m _ code reason s Eline Ef Ebody Es Hr Hcode Hn). lia. }
  exists m, g', m1, st'. split; [done|]. split; [done|]. intros p rd rest Hp Hrd Heos Hw Hwsp. rewrite Ht in Hw.
  destruct (rtsp_parser_run_message m _ Hm p rd rest Hp Hrd Heos Hw) as (m' & p' & rd' & Ep & Hline & Hft & Hcs & Hbt & _ & Hw' & _).
  { by rewrite Ebody. }
  rewrite Eline in Hline. destruct Hline as [Hty Hl]. destruct (rm_start_line m') as [t [|l'|l']] eqn:E'; try done.
  cbn in Hty. subst t. destruct Hl as (Hv & Hsc & _). exists m', p', rd', l'. split_and!; try done; [|by rewrite Hbt, Ebody].
  apply Hcs; [done|]. rewrite Ef, (size_value_text _ (proj1 Hn)). exists [], (lit "CSeq"), []. split_and!; try done.
  cbn [map app]. unfold field_texts. cbn [hf_name hf_value]. by rewrite str_of_text.
Qed.
End Response.

(** ** A request with a body *)

#[local] Existing Instance apr_reference.

Definition sample_rtsp_header : rtsp_header_t :=
  rtsp_header_init <| cseq := 7 |>
    <| rtsp_header_section := mk_section
         [(0%nat, mk_field (str_lit "CSeq") (str_lit "7") RTSP_HEADER_FIELD_CSEQ);
          (1%nat, mk_field (str_lit "Content-Length") (str_lit "5") RTSP_HEADER_FIELD_CONTENT_LENGTH)]
         [Some 0%nat; None; None; None; None; Some 1%nat] 2 |>.
Definition sample_rtsp_request : rtsp_message_t := mk_rtsp_message sample_request_line sample_rtsp_header (str_lit "hello").
Definition sample_rtsp_stream : apt_text_stream_t := apt_text_stream_init (replicate 256 NUL) 256.

Lemma sample_rtsp_sendable : rtsp_sendable sample_rtsp_request [].
Proof.
  split.
  - cbn. unfold token, no_eol, nul_free. split_and!; first [done|decide_now].
  - repeat (apply Forall_cons_2; [split; decide_now|]). by apply Forall_nil_2.
  - repeat (apply Forall_cons_2; [|]); [..|by apply Forall_nil_2]; unfold field_ok, header_name_ok, header_value_ok, no_eol;
      split_and!; try done; try decide_now; by intros c r [= <- _].
  - exists [(lit "CSeq", dec 7)], (lit "Content-Length"), []. split_and!; try done. by repeat constructor.
  - done.
  - done.
Qed.

Lemma rtsp_message_roundtrip_witness :
  exists g' m1 st', rtsp_generator_run rtsp_generator_create 0%nat sample_rtsp_request sample_rtsp_stream
      = Some ((APT_MESSAGE_STATUS_COMPLETE, g', m1), st') /\
    forall rd, reader_ok rd -> st_eos rd = false -> window rd = message_text st' ++ [] ->
    exists m' p' rd', rtsp_parser_run rtsp_parser_create rd = Some (APT_MESSAGE_STATUS_COMPLETE, Some m', p', rd') /\
      cseq (rm_header m') = 7 /\ str_text (rm_body m') = lit "hello".
Proof.
  destruct (@rtsp_message_roundtrip apr_reference apr_reference_laws sample_rtsp_request [] rtsp_generator_create 0%nat sample_rtsp_stream)
    as (g' & m1 & st' & E & _ & H).
  - exact sample_rtsp_sendable.
  - split; [reflexivity|]. left. discriminate.
  - unfold stream_wf. vm_compute. lia.
  - unfold addressable. vm_compute. reflexivity.
  - reflexivity.
  - reflexivity.
  - vm_compute. lia.
  - exists g', m1, st'. split; [exact E|]. intros rd Hrd He Hw.
    destruct (H rtsp_parser_create rd []) as (m' & p' & rd' & Ep & _ & _ & Hc & Hb & _); [split; reflexivity|exact Hrd|exact He|exact Hw|reflexivity|].
    exists m', p', rd'. split; [exact Ep|]. split; [|exact Hb]. apply Hc; [lia|].
    exists [], (lit "CSeq"), [(lit "Content-Length", dec 5)].
    split; [vm_compute; reflexivity|]. split; [vm_compute; reflexivity|]. split; [apply Forall_nil_2|].
    apply Forall_singleton. vm_compute. discriminate.
Defined.

Lemma rtsp_response_answers_witness :
  exists response g' m1 st', rtsp_response_create sample_rtsp_request 404 RTSP_REASON_PHRASE_NOT_FOUND = Some response /\
    rtsp_generator_run rtsp_generator_create 0%nat response sample_rtsp_stream = Some ((APT_MESSAGE_STATUS_COMPLETE, g', m1), st') /\
    forall rd, reader_ok rd -> st_eos rd = false -> window rd = message_text st' ++ [] ->
    exists m' p' rd', rtsp_parser_run rtsp_parser_create rd = Some (APT_MESSAGE_STATUS_COMPLETE, Some m', p', rd') /\ cseq (rm_header m') = 7.
Proof.
  destruct (@rtsp_response_answers apr_reference apr_reference_laws sample_rtsp_request
    (mk_request_line apt_string_reset RTSP_METHOD_SETUP (str_lit "rtsp://host/media/") None RTSP_VERSION_1) 404
    RTSP_REASON_PHRASE_NOT_FOUND rtsp_generator_create 0%nat sample_rtsp_stream) as (m & g' & m1 & st' & Em & E & H).
  - reflexivity.
  - reflexivity.
  - vm_compute. split; [discriminate|reflexivity].
  - lia.
  - vm_compute. split; [discriminate|reflexivity].
  - split; [reflexivity|]. left. discriminate.
  - unfold stream_wf. vm_compute. lia.
  - unfold addressable. vm_compute. reflexivity.
  - reflexivity.
  - reflexivity.
  - vm_compute. lia.
  - exists m, g', m1, st'. split; [exact Em|]. split; [exact E|]. intros rd Hrd He Hw.
    destruct (H rtsp_parser_create rd []) as (m' & p' & rd' & l' & Ep & _ & _ & _ & Hc & _); [split; reflexivity|exact Hrd|exact He|exact Hw|reflexivity|].
    exists m', p', rd'. split; [exact Ep|exact Hc].
Defined.
