(* ===== verification/RtspServer.v ===== *)
(** The RTSP server ([uni-rtsp/src/rtsp_server.c]): connections with their tables of sessions, the
    requests of a session one after another, and the messages of the owner to the task.

    Connections and sessions are objects in a store that refer to each other by address; the use of
    an address whose object was destroyed is undefined.  What the server tells its owner and the
    network, in order, is the list [server_out] of its state; their answers come from a class. *)

From S2P Require Import Prelude AprHash AptString TextStream TextValues HeaderField TextMessage MessageParser StateMachine Transport RtspStartLine RtspHeader RtspStream.

Definition RTSP_SESSION_ID_HEX_STRING_LENGTH : nat := 16.
Definition RTSP_STREAM_BUFFER_SIZE : nat := 1024.

(** Calls of the owner's handlers and of the network. *)
Inductive rtsp_server_event :=
| CREATE_SESSION (session : addr)
| TERMINATE_SESSION (session : addr)
| HANDLE_MESSAGE (session : addr) (m : rtsp_message_t)
| SOCKET_SEND (connection : addr) (data : bytes)
| SOCKET_CLOSE (connection : addr).

(** What handlers answer, whether a socket takes what it is given, and the identifiers that are
    generated, after the calls so far. *)
Class RtspServerWorld := {
  create_session : list rtsp_server_event -> addr -> bool;
  terminate_session : list rtsp_server_event -> addr -> bool;
  handle_message : list rtsp_server_event -> addr -> rtsp_message_t -> bool;
  socket_send : list rtsp_server_event -> addr -> bytes -> bool;
  session_uuid : list rtsp_server_event -> addr -> bytes
}.

(** Messages are known by their address when they are sent. *)
Inductive task_msg_data_t :=
| TASK_MSG_SEND_MESSAGE (session : addr) (a : addr) (m : rtsp_message_t)
| TASK_MSG_TERMINATE_SESSION (session : addr).

(** The outcome of accepting a socket: the address of the client, if it has one, and whether the
    connection was added to the poll set. *)
Inductive rtsp_accept_outcome :=
| RTSP_ACCEPT_FAILED
| RTSP_ACCEPT_NO_ADDRESS
| RTSP_ACCEPT_SOCKET (remote : option bytes) (polled : bool).

Section Server.
Context `{Apr} {Sessions : AprHash addr} {Resources : AprHash rtsp_message_t} {World : RtspServerWorld}.

(** * Connections, sessions and the server *)

(** [it]: the connection has an element in the list of the server. *)
Record rtsp_server_connection_t := mk_rtsp_connection {
  client_ip : option bytes;
  sock : bool;
  it : bool;
  session_table : @apr_hash_t _ Sessions;
  rx_stream : apt_text_stream_t;
  parser : apt_message_parser_t rtsp_message_t;
  tx_buffer : bytes;
  generator : apt_message_generator_t rtsp_message_t
}.
#[global] Instance eta_rtsp_connection : Eta rtsp_server_connection_t := fun s =>
  mk_rtsp_connection (client_ip s) (sock s) (it s) (session_table s) (rx_stream s) (parser s) (tx_buffer s) (generator s).

Record rtsp_server_session_t := mk_rtsp_session {
  connection : option addr;
  id : apt_str_t;
  last_cseq : Z;
  active_request : option rtsp_message_t;
  request_queue : list rtsp_message_t;
  resource_table : @apr_hash_t _ Resources;
  terminating : bool
}.
#[global] Instance eta_rtsp_session : Eta rtsp_server_session_t := fun s =>
  mk_rtsp_session (connection s) (id s) (last_cseq s) (active_request s) (request_queue s) (resource_table s) (terminating s).

Record rtsp_server_t := mk_rtsp_server {
  connection_list : option (list addr);
  connections : gmap addr rtsp_server_connection_t;
  sessions : gmap addr rtsp_server_session_t;
  next_address : addr;
  task_queue : list task_msg_data_t;
  server_out : list rtsp_server_event
}.
#[global] Instance eta_rtsp_server : Eta rtsp_server_t := fun s =>
  mk_rtsp_server (connection_list s) (connections s) (sessions s) (next_address s) (task_queue s) (server_out s).
Abbreviation act := (prog rtsp_server_t).

Definition rtsp_server_create : rtsp_server_t := mk_rtsp_server None empty empty 0 [] [].

(** Access through a pointer to a connection or to a session. *)
Definition get_conn (c : addr) : act rtsp_server_connection_t :=
  let* s := gets (fun s => s) in deref_ptr (connections s !! c).
Definition set_conn (c : addr) (f : rtsp_server_connection_t -> rtsp_server_connection_t) : act unit :=
  let* k := get_conn c in modify (fun s => s <| connections := <[c := f k]> (connections s) |>).
Definition get_session (i : addr) : act rtsp_server_session_t :=
  let* s := gets (fun s => s) in deref_ptr (sessions s !! i).
Definition set_session (i : addr) (f : rtsp_server_session_t -> rtsp_server_session_t) : act unit :=
  let* x := get_session i in modify (fun s => s <| sessions := <[i := f x]> (sessions s) |>).
Definition fresh_address : act addr :=
  let* a := gets next_address in modify (fun s => s <| next_address := S a |>) ;;; ret a.

(** A call of a handler or of the network, with its answer. *)
Definition tell (e : rtsp_server_event) : act unit := modify (fun s => s <| server_out := server_out s ++ [e] |>).
Definition call {A} (e : rtsp_server_event) (answer : list rtsp_server_event -> A) : act A :=
  let* out := gets server_out in tell e ;;; ret (answer out).

Definition rtsp_server_session_id_get (i : addr) : act apt_str_t := let* x := get_session i in ret (id x).
Definition rtsp_server_session_request_get (i : addr) : act (option rtsp_message_t) := let* x := get_session i in ret (active_request x).
Definition rtsp_server_session_destination_get (i : addr) : act (option bytes) :=
  let* x := get_session i in
  match connection x with Some c => let* k := get_conn c in ret (client_ip k) | None => ret None end.

(** ** The messages of the owner *)

Definition rtsp_server_control_message_signal (msg : task_msg_data_t) : act bool :=
  modify (fun s => s <| task_queue := task_queue s ++ [msg] |>) ;;; ret true.
Definition rtsp_server_session_respond (i a : addr) (m : rtsp_message_t) : act bool :=
  rtsp_server_control_message_signal (TASK_MSG_SEND_MESSAGE i a m).
Definition rtsp_server_session_terminate (i : addr) : act bool :=
  rtsp_server_control_message_signal (TASK_MSG_TERMINATE_SESSION i).

(** ** Sending *)

(** What the buffer of the connection takes of the message is generated and sent, as long as the
    message is incomplete; [fuel] bounds the number of pieces. *)
Fixpoint message_send_loop (fuel : nat) (c a : addr) (m : rtsp_message_t) (status : bool) : act bool :=
  match fuel with
  | O => crash
  | S fuel =>
      let* k := get_conn c in
      let* r := deref_ptr (rtsp_generator_run (generator k) a m
                             (apt_text_stream_init (tx_buffer k) (RTSP_STREAM_BUFFER_SIZE - 1))) in
      let '((result, g, m), stream) := r in
      set_conn c (fun x => x <| generator := g |> <| tx_buffer := st_mem stream |>) ;;;
      let* status :=
        match result with
        | APT_MESSAGE_STATUS_INVALID => ret status
        | _ =>
            let* z := deref_ptr (store [NUL] stream) in
            set_conn c (fun x => x <| tx_buffer := st_mem (snd z) |>) ;;;
            let* ok := call (SOCKET_SEND c (stream_text (snd z))) (fun out => socket_send out c (stream_text (snd z))) in
            ret (ok || status)
        end in
      match result with
      | APT_MESSAGE_STATUS_INCOMPLETE => message_send_loop fuel c a m status
      | _ => ret status
      end
  end.

(** Each piece but the first takes some of the body. *)
Definition rtsp_server_message_send (conn : option addr) (a : addr) (m : rtsp_message_t) : act bool :=
  match conn with
  | None => ret false
  | Some c =>
      let* k := get_conn c in
      if negb (sock k) then ret false else message_send_loop (str_len (rm_body m) + 2) c a m false
  end.

Definition rtsp_server_error_respond (conn : option addr) (request : rtsp_message_t) (status_code reason : Z) : act bool :=
  let* response := deref_ptr (rtsp_response_create request status_code reason) in
  let* a := fresh_address in
  rtsp_server_message_send conn a response.

(** ** Sessions *)

(** The memory of a session is freed with its pool. *)
Definition rtsp_server_session_destroy (i : addr) : act unit :=
  get_session i ;;; modify (fun s => s <| sessions := delete i (sessions s) |>).

Definition rtsp_server_session_create : act (option addr) :=
  let* i := fresh_address in
  let* out := gets server_out in
  modify (fun s => s <| sessions := <[i := mk_rtsp_session None (apt_unique_id_generate (session_uuid out i) RTSP_SESSION_ID_HEX_STRING_LENGTH)
                                             0 None [] apr_hash_make false]> (sessions s) |>) ;;;
  let* ok := call (CREATE_SESSION i) (fun out => create_session out i) in
  if negb ok then rtsp_server_session_destroy i ;;; ret None else ret (Some i).

Definition rtsp_server_connection_destroy (c : addr) : act unit :=
  get_conn c ;;; modify (fun s => s <| connections := delete c (connections s) |>).

(** A message that names the session. *)
Definition session_id_put (x : rtsp_server_session_t) (m : rtsp_message_t) : option rtsp_message_t :=
  match str_buf (id x) with
  | None => Some m
  | Some _ =>
      let? (_, h) := rtsp_header_property_add ((rm_header m) <| rtsp_session_id := id x |>) RTSP_HEADER_FIELD_SESSION_ID in
      Some (m <| rm_header := h |>)
  end.

Definition session_table_remove (c : addr) (x : rtsp_server_session_t) : act unit :=
  set_conn c (fun k => k <| session_table := apr_hash_unset (session_table k) (str_data (id x)) |>).

(** The request that ends the session is answered; the last session of a closed connection takes it along. *)
Definition rtsp_server_session_do_terminate (i : addr) : act bool :=
  let* x := get_session i in
  (match active_request x with
   | Some request =>
       let* response := deref_ptr (rtsp_response_create request RTSP_STATUS_CODE_OK RTSP_REASON_PHRASE_OK) in
       let* response := deref_ptr (session_id_put x response) in
       let* a := fresh_address in
       rtsp_server_message_send (connection x) a response ;;; ret tt
   | None => ret tt
   end) ;;;
  (match connection x with Some c => session_table_remove c x | None => ret tt end) ;;;
  rtsp_server_session_destroy i ;;;
  match connection x with
  | Some c =>
      let* k := get_conn c in
      if negb (it k) && (apr_hash_count (session_table k) =? 0) then rtsp_server_connection_destroy c ;;; ret true else ret true
  | None => ret true
  end.

Definition rtsp_server_session_terminate_request (i : addr) : act bool :=
  set_session i (fun x => x <| terminating := true |>) ;;;
  call (TERMINATE_SESSION i) (fun out => terminate_session out i).

(** The request line of a message that must be a request. *)
Definition request_line_of (m : rtsp_message_t) : option rtsp_request_line_t :=
  match common (rm_start_line m) with REQUEST_LINE l => Some l | _ => None end.
(** The key [APR_HASH_KEY_STRING] of a resource; there is none for NULL. *)
Definition resource_key (l : rtsp_request_line_t) : option bytes := c_string <$> rl_resource_name l.

Definition message_handle (i : addr) (m : rtsp_message_t) : act bool :=
  let* ok := call (HANDLE_MESSAGE i m) (fun out => handle_message out i m) in
  if negb ok then
    let* x := get_session i in
    rtsp_server_error_respond (connection x) m 500 10 ;;; ret false
  else ret true.

Definition rtsp_server_session_message_handle (i : addr) (m : rtsp_message_t) : act bool :=
  let* l := deref_ptr (request_line_of m) in
  if rl_method_id l =? RTSP_METHOD_TEARDOWN then
    let* key := deref_ptr (resource_key l) in
    set_session i (fun x => x <| resource_table := apr_hash_unset (resource_table x) key |>) ;;;
    let* x := get_session i in
    if apr_hash_count (resource_table x) =? 0 then rtsp_server_session_terminate_request i ;;; ret true
    else message_handle i m
  else message_handle i m.

(** * Requests in *)

Definition session_add (c i : addr) : act unit :=
  set_session i (fun x => x <| connection := Some c |>) ;;;
  let* x := get_session i in
  set_conn c (fun k => k <| session_table := apr_hash_set (session_table k) (str_data (id x)) i |>).

Definition rtsp_server_session_setup_process (c : addr) (m : rtsp_message_t) : act (option addr) :=
  let* l := deref_ptr (request_line_of m) in
  if (rl_method_id l =? RTSP_METHOD_SETUP) || (rl_method_id l =? RTSP_METHOD_DESCRIBE) then
    let* i := rtsp_server_session_create in
    match i with
    | None => ret None
    | Some i => session_add c i ;;; ret (Some i)
    end
  else
    rtsp_server_error_respond (Some c) m 400 2 ;;; ret None.

Definition rtsp_server_session_request_process (c : addr) (m : rtsp_message_t) : act bool :=
  match rtsp_message_type (rm_start_line m) with
  | RTSP_MESSAGE_TYPE_REQUEST =>
      if negb (rtsp_header_property_check (rm_header m) RTSP_HEADER_FIELD_SESSION_ID) then
        let* i := rtsp_server_session_setup_process c m in
        match i with
        | Some i =>
            set_session i (fun x => x <| active_request := Some m |>) ;;;
            let* ok := rtsp_server_session_message_handle i m in
            if negb ok then rtsp_server_session_destroy i ;;; ret true else ret true
        | None => rtsp_server_error_respond (Some c) m 406 6
        end
      else
        let* k := get_conn c in
        match apr_hash_get (session_table k) (str_data (rtsp_session_id (rm_header m))) with
        | None => rtsp_server_error_respond (Some c) m 404 RTSP_REASON_PHRASE_NOT_FOUND
        | Some i =>
            let* x := get_session i in
            if terminating x then rtsp_server_error_respond (Some c) m 406 6
            else
              match active_request x with
              | Some _ => set_session i (fun x => x <| request_queue := apt_list_push_back (request_queue x) m |>) ;;; ret true
              | None =>
                  set_session i (fun x => x <| active_request := Some m |>) ;;;
                  rtsp_server_session_message_handle i m ;;; ret true
              end
        end
  | _ => ret true
  end.

(** * Messages out *)

(** An event is for a resource of the session. *)
Definition session_announce (i a : addr) (m : rtsp_message_t) : act bool :=
  let* l := deref_ptr (request_line_of m) in
  let* x := get_session i in
  match (let? key := resource_key l in apr_hash_get (resource_table x) key) with
  | None => ret false
  | Some request =>
      let* rl := deref_ptr (request_line_of request) in
      let m := m <| rm_start_line := mk_rtsp_start_line (rtsp_message_type (rm_start_line m)) (REQUEST_LINE (l <| rl_url := rl_url rl |>)) |> in
      let* r := deref_ptr (rtsp_header_property_add ((rm_header m) <| cseq := last_cseq x |>) RTSP_HEADER_FIELD_CSEQ) in
      let* m := deref_ptr (session_id_put x (m <| rm_header := snd r |>)) in
      rtsp_server_message_send (connection x) a m ;;; ret true
  end.

(** The response to a SETUP adds the resource or, if there is none, ends the session. *)
Definition setup_answered (i : addr) (l : rtsp_request_line_t) (request m : rtsp_message_t) : act bool :=
  match common (rm_start_line m) with
  | STATUS_LINE sl =>
      if sl_status_code sl =? RTSP_STATUS_CODE_OK then
        let* key := deref_ptr (resource_key l) in
        set_session i (fun x => x <| resource_table := apr_hash_set (resource_table x) key request |>) ;;; ret false
      else
        let* x := get_session i in ret (apr_hash_count (resource_table x) =? 0)
  | _ => crash
  end.

(** The next request of the queue becomes the active one. *)
Definition rtsp_next_request (i : addr) : act unit :=
  let* x := get_session i in
  let '(next, q) := apt_list_pop_front (request_queue x) in
  set_session i (fun x => x <| request_queue := q |> <| active_request := next |>) ;;;
  match next with
  | Some m => rtsp_server_session_message_handle i m ;;; ret tt
  | None => ret tt
  end.

Definition rtsp_server_session_response_process (i a : addr) (m : rtsp_message_t) : act bool :=
  match rtsp_message_type (rm_start_line m) with
  | RTSP_MESSAGE_TYPE_REQUEST => session_announce i a m
  | _ =>
      let* x := get_session i in
      match active_request x with
      | None => ret false
      | Some request =>
          let* l := deref_ptr (request_line_of request) in
          let* r :=
            (if rl_method_id l =? RTSP_METHOD_DESCRIBE then ret (true, m)
             else
               let* m := deref_ptr (session_id_put x m) in
               if rl_method_id l =? RTSP_METHOD_SETUP then let* t := setup_answered i l request m in ret (t, m)
               else ret (false, m)) in
          let '(terminate, m) := r in
          set_session i (fun x => x <| last_cseq := cseq (rm_header m) |>) ;;;
          rtsp_server_message_send (connection x) a m ;;;
          if terminate : bool then
            set_session i (fun x => x <| active_request := None |>) ;;;
            rtsp_server_session_terminate_request i ;;; ret true
          else rtsp_next_request i ;;; ret true
      end
  end.

Definition rtsp_server_task_msg_process (msg : task_msg_data_t) : act bool :=
  (match msg with
   | TASK_MSG_SEND_MESSAGE i a m => rtsp_server_session_response_process i a m
   | TASK_MSG_TERMINATE_SESSION i => rtsp_server_session_do_terminate i
   end) ;;; ret true.

(** * Connections *)

Definition rtsp_server_connection_accept (outcome : rtsp_accept_outcome) : act bool :=
  match outcome with
  | RTSP_ACCEPT_FAILED => ret false
  | RTSP_ACCEPT_NO_ADDRESS => ret false
  | RTSP_ACCEPT_SOCKET remote polled =>
      let* c := fresh_address in
      if negb polled then tell (SOCKET_CLOSE c) ;;; ret false
      else
        modify (fun s => s <| connections := <[c :=
          mk_rtsp_connection remote true true apr_hash_make
            (apt_text_stream_init (apr_palloc RTSP_STREAM_BUFFER_SIZE) (RTSP_STREAM_BUFFER_SIZE - 1)) rtsp_parser_create
            (apr_palloc RTSP_STREAM_BUFFER_SIZE) rtsp_generator_create]> (connections s) |>
          <| connection_list := Some (default [] (connection_list s) ++ [c]) |>) ;;;
        ret true
  end.

(** Every session that is left is asked to end. *)
Fixpoint sessions_terminate (l : list addr) : act unit :=
  match l with
  | [] => ret tt
  | i :: l =>
      let* x := get_session i in
      (if terminating x then ret tt else rtsp_server_session_terminate_request i ;;; ret tt) ;;;
      sessions_terminate l
  end.

Definition rtsp_server_connection_close (c : addr) : act bool :=
  let* k := get_conn c in
  if negb (sock k) then ret false
  else
    tell (SOCKET_CLOSE c) ;;;
    let* l := gets connection_list in
    let* l := deref_ptr l in
    let l := List.filter (fun a => negb (a =? c)%nat) l in
    set_conn c (fun k => k <| sock := false |> <| it := false |>) ;;;
    modify (fun s => s <| connection_list := match l with [] => None | _ => Some l end |>) ;;;
    (if apr_hash_count (session_table k) =? 0 then rtsp_server_connection_destroy c
     else sessions_terminate (apr_hash_values (session_table k))) ;;;
    ret true.

(** ** Receiving *)

(** The destination of the transport is the client if the message does not say. *)
Definition destination_default (k : rtsp_server_connection_t) (m : rtsp_message_t) : rtsp_message_t :=
  let t := transport (rm_header m) in
  match str_buf (destination t), client_ip k with
  | None, Some ip => m <| rm_header := (rm_header m) <| transport := t <| destination := apt_string_assign (Some ip) |> |> |>
  | _, _ => m
  end.

Definition rtsp_server_message_handler (c : addr) (m : option rtsp_message_t) (status : apt_message_status_e) : act bool :=
  match status with
  | APT_MESSAGE_STATUS_COMPLETE =>
      let* m := deref_ptr m in
      let* k := get_conn c in
      let m := destination_default k m in
      rtsp_server_session_request_process c m ;;; ret true
  | APT_MESSAGE_STATUS_INVALID =>
      match m with
      | Some m => rtsp_server_error_respond (Some c) m 400 2 ;;; ret true
      | None => ret true
      end
  | APT_MESSAGE_STATUS_INCOMPLETE => ret true
  end.

(** The parser runs until the end of the stream; [false]: [fuel] was not enough. *)
Fixpoint message_receive_loop (fuel : nat) (c : addr) : act bool :=
  match fuel with
  | O => ret false
  | S fuel =>
      let* k := get_conn c in
      let* r := deref_ptr (rtsp_parser_run (parser k) (rx_stream k)) in
      let '(status, m, p, st) := r in
      set_conn c (fun x => x <| parser := p |> <| rx_stream := st |>) ;;;
      rtsp_server_message_handler c m status ;;;
      let* k := get_conn c in
      if apt_text_is_eos (rx_stream k) then ret true else message_receive_loop fuel c
  end.

(** What arrived is put after what the last receive left; nothing is the end of the connection. *)
Definition rtsp_server_poller_signal_process (c : addr) (data : bytes) : act bool :=
  let* k := get_conn c in
  if negb (sock k) then ret false
  else
    let st := rx_stream k in
    let available := (RTSP_STREAM_BUFFER_SIZE - 1 - (st_pos st - st_base st))%nat in
    let data := take available data in
    if (length data =? 0)%nat then rtsp_server_connection_close c
    else
      let* st := deref_ptr (stream_receive data st) in
      let st := apt_text_stream_reset st in
      set_conn c (fun x => x <| rx_stream := st |>) ;;;
      message_receive_loop (S (length (window st))) c ;;;
      let* k := get_conn c in
      let* r := deref_ptr (apt_text_stream_scroll (rx_stream k)) in
      set_conn c (fun x => x <| rx_stream := snd r |>) ;;;
      ret true.
End Server.
