(* ===== verification/RtspServerSend.v ===== *)
(** Sending by the RTSP server: a message whose start line is of its type is always generated inside
    of the buffer of the connection, and the loop over its pieces ends. *)

From S2P Require Import Prelude AprHash AptString TextStream TextValues HeaderField TextMessage MessageParser StateMachine Transport StartLine StreamRoundtrip RtspStartLine RtspHeader RtspStream RtspServer.

(** * Programs that stay inside of a stream

    [safe n m k]: with more than [n] bytes of room [m] is defined, and leaves more than [k]. *)

Definition safe {A} (n : nat) (m : prog apt_text_stream_t A) (k : nat) : Prop :=
  forall st, stream_wf st -> addressable st -> (st_pos st + n < st_end st)%nat ->
  exists a st', m st = Some (a, st') /\ frame st st' /\ (st_pos st' + k < st_end st')%nat.

Lemma safe_ret {A} (n k : nat) (a : A) : (k <= n)%nat -> safe n (ret a) k.
Proof. intros Hk st W _ Hr. exists a, st. split_and!; [done|by apply frame_refl|lia]. Qed.

Lemma safe_put (n : nat) (d : bytes) : (length d <= n)%nat -> safe n (put d) (n - length d).
Proof.
  intros Hd st W _ Hr. destruct (put_emits d st W ltac:(lia)) as (st' & E & M). exists tt, st'. split; [done|].
  split; [eauto with mrcp|]. rewrite (emits_pos _ _ _ M), (emits_end _ _ _ M). lia.
Qed.

Lemma safe_bind {A B} (n k j : nat) (m : prog apt_text_stream_t A) (f : A -> prog apt_text_stream_t B) :
  safe n m k -> (forall a, safe k (f a) j) -> safe n (bind m f) j.
Proof.
  intros Hm Hf st W Ad Hr. destruct (Hm st W Ad Hr) as (a & s1 & E1 & F1 & H1).
  destruct (Hf a s1) as (b & s2 & E2 & F2 & H2); [by destruct F1|by eapply frame_addressable|done|].
  exists b, s2. unfold bind. rewrite E1. split; [done|]. split; [by eapply frame_trans|done].
Qed.

Lemma safe_room {B} (n i j : nat) (f : bool -> prog apt_text_stream_t B) :
  safe n (f true) j -> safe i (f false) j -> safe n (bind (gets (no_room i)) f) j.
Proof.
  intros Ht Hf st W Ad Hr. unfold bind, gets. destruct (no_room i st) eqn:E; [by apply Ht|].
  apply no_room_false in E. by apply Hf.
Qed.

Lemma safe_weaken {A} (n n' k k' : nat) (m : prog apt_text_stream_t A) :
  safe n m k -> (n <= n')%nat -> (k' <= k)%nat -> safe n' m k'.
Proof.
  intros Hm Hn Hk st W Ad Hr. destruct (Hm st W Ad ltac:(lia)) as (a & st' & E & F & H). exists a, st'. split_and!; [done|done|lia].
Qed.

Section Inserters.
Context `{L : AprLaws}.

Lemma safe_snprintf (n : nat) (out : bytes) : safe n (snprintf_insert out) 0.
Proof.
  intros st W Ad Hr. destruct (snprintf_insert_bounds out st W Ad ltac:(lia)) as (b & st' & E & F).
  exists b, st'. split; [exact E|]. split; [exact F|]. destruct F as (_ & _ & _ & -> & _). rewrite Nat.add_0_r.
  revert E. unfold snprintf_insert, gets, bind at 1. rewrite snprintf_len by done. rewrite apr_snprintf_stored by lia.
  set (t := take _ out). assert (Ht : (length t < st_end st - st_pos st)%nat) by (unfold t; rewrite length_take; lia).
  unfold bind, store. destruct (_ <=? _)%nat; [|done]. destruct (_ <=? 0).
  - intros [= _ <-]. cbn. lia.
  - intros [= _ <-]. cbn. lia.
Qed.

Lemma safe_char (n : nat) (c : char) : safe n (apt_text_char_insert c) 0.
Proof.
  apply safe_room; [apply safe_ret; cbn; lia|].
  eapply safe_bind; [by apply safe_put|]. intros []. apply safe_ret; cbn; lia.
Qed.

Lemma safe_string (n : nat) (s : apt_str_t) : safe n (apt_text_string_insert s) 0.
Proof.
  apply safe_room; [apply safe_ret; cbn; lia|].
  destruct (_ =? _)%nat; [apply safe_ret; cbn; lia|].
  eapply safe_bind; [apply safe_put; by rewrite str_data_length|]. intros []. apply safe_ret; cbn; lia.
Qed.

Lemma safe_eol (n : nat) : safe n apt_text_eol_insert 0.
Proof.
  apply safe_room; [apply safe_ret; cbn; lia|].
  eapply safe_bind; [by apply safe_put|]. intros []. apply safe_ret; cbn; lia.
Qed.

Lemma safe_name_value (n : nat) (name value : apt_str_t) : safe n (apt_text_name_value_insert name value) 0.
Proof.
  apply safe_room; [apply safe_ret; cbn; lia|].
  eapply safe_bind; [apply safe_put; rewrite str_data_length; lia|]. intros []. rewrite str_data_length.
  eapply safe_bind; [apply safe_put; cbn; lia|]. intros [].
  eapply safe_bind; [apply safe_put; cbn; lia|]. intros []. cbn [length].
  apply (safe_bind _ 0); [|intros []; apply safe_eol].
  destruct (apt_string_is_empty value); [apply safe_ret; cbn; lia|].
  eapply safe_weaken; [apply (safe_put (str_len value)); by rewrite str_data_length|lia|lia].
Qed.

Lemma safe_then (n : nat) (p q : prog apt_text_stream_t bool) : safe n p 0 -> safe 0 q 0 -> safe n (then_insert p q) 0.
Proof. intros Hp Hq. apply (safe_bind _ 0); [done|]. intros []; [done|]. apply safe_ret; lia. Qed.

Lemma safe_version (n : nat) (v : rtsp_version_e) : safe n (rtsp_version_generate v) 0.
Proof.
  apply safe_room; [apply safe_ret; cbn; lia|].
  eapply safe_bind; [apply safe_put; cbn; lia|]. intros []. eapply safe_bind; [apply safe_put; cbn; lia|]. intros [].
  eapply safe_bind; [apply safe_snprintf|]. intros []; [|apply safe_ret; lia].
  apply safe_room; [apply safe_ret; lia|].
  eapply safe_bind; [apply safe_put; cbn; lia|]. intros []. eapply safe_bind; [apply safe_put; cbn; lia|]. intros [].
  apply safe_ret; cbn; lia.
Qed.

(** The line that is stored is the one the type of the message says. *)
Definition line_typed (sl : rtsp_start_line_t) : Prop :=
  match rtsp_message_type sl, common sl with
  | RTSP_MESSAGE_TYPE_REQUEST, REQUEST_LINE _ | RTSP_MESSAGE_TYPE_RESPONSE, STATUS_LINE _ | RTSP_MESSAGE_TYPE_UNKNOWN, _ => True
  | _, _ => False
  end.

Lemma safe_start_line (sl : rtsp_start_line_t) : line_typed sl -> safe 0 (rtsp_start_line_generate sl) 0.
Proof.
  intros Hl. unfold rtsp_start_line_generate. apply (safe_bind _ 0).
  - unfold line_typed in Hl. destruct (rtsp_message_type sl), (common sl) as [|l|l]; try done; try (apply safe_ret; lia).
    + apply (safe_bind _ 0); [|intros []; apply safe_ret; lia]. unfold rtsp_request_line_generate.
      destruct (apt_string_table_str_get _ _ _); [|apply safe_ret; lia]. apply (safe_bind _ 0); [|intros ?; apply safe_ret; lia].
      repeat (apply safe_then; [first [apply safe_string|apply safe_char]|]). apply safe_version.
    + apply (safe_bind _ 0); [|intros ?; apply safe_ret; lia]. unfold rtsp_status_line_generate, rtsp_status_code_generate, apt_text_size_value_insert.
      repeat (apply safe_then; [first [apply safe_version|apply safe_string|apply safe_char|apply safe_snprintf]|]). apply safe_string.
  - intros [[] sl']; cbn [negb]; [|apply safe_ret; lia]. apply (safe_bind _ 0); [apply safe_eol|]. intros b. apply safe_ret; lia.
Qed.

Lemma safe_section (h : apt_header_section_t) : safe 0 (apt_header_section_generate h) 0.
Proof.
  apply (safe_bind _ 0); [|intros []; apply safe_eol]. induction (sec_fields h) as [|f l IH]; [apply safe_ret; lia|]. cbn [fields_generate].
  eapply safe_bind; [apply safe_name_value|]. intros b. exact IH.
Qed.
End Inserters.

(** * The generator *)

Definition generator_ready `{Apr} (g : apt_message_generator_t rtsp_message_t) : Prop :=
  generator_vtable g = rtsp_generator_vtable /\ generator_stage g = APT_MESSAGE_STAGE_START_LINE.
(** The generator has written [j] of the [n] bytes of the body of the message at [a]. *)
Definition generating `{Apr} (g : apt_message_generator_t rtsp_message_t) (a : addr) (m : rtsp_message_t) (n j : nat) : Prop :=
  generator_vtable g = rtsp_generator_vtable /\ generator_stage g = APT_MESSAGE_STAGE_BODY /\ generator_message g = Some a /\
  generator_content_length g = n /\ str_len (rm_body m) = j /\ (j <= n)%nat.

(** The buffer of a connection, empty. *)
Record tx_stream_ok (st : apt_text_stream_t) : Prop := {
  tx_wf : stream_wf st;
  tx_addressable : addressable st;
  tx_room : (st_pos st < st_end st)%nat;
  tx_base : (st_base st <= st_pos st)%nat;
  tx_end : st_end st = (st_base st + st_text_len st)%nat;
  tx_eos : st_eos st = false
}.

Section Generator.
Context `{L : AprLaws}.
Implicit Types (g : apt_message_generator_t rtsp_message_t).

Definition run_result (a : addr) (n j : nat) (r : apt_message_status_e * apt_message_generator_t rtsp_message_t * rtsp_message_t) : Prop :=
  let '(res, g, m) := r in
  match res with
  | APT_MESSAGE_STATUS_INCOMPLETE => exists j', generating g a m n j' /\ (j < j')%nat
  | _ => generator_ready g
  end.

Lemma body_run g (a : addr) (m : rtsp_message_t) (n j : nat) (st : apt_text_stream_t) :
  generating g a m n j -> tx_stream_ok st ->
  exists r st', generator_run_body g m st = Some (r, st') /\ frame st st' /\ run_result a n j r.
Proof.
  intros (Hv & Hs & Ha & Hc & Hj & Hle) [W Ad Hr Hb He _]. unfold generator_run_body, apt_message_body_write. rewrite Hc.
  change (ctx_body m) with (rm_body m). rewrite Hj.
  destruct (Nat.ltb_spec j n) as [Hlt|Hge].
  - assert (Htl : text_left st = (st_end st - st_pos st)%nat).
    { unfold text_left. rewrite <-He. unfold stream_wf, addressable in *. rewrite u64_small by lia. lia. }
    unfold bind at 1. unfold bind at 1, gets at 1. rewrite Htl.
    destruct (Nat.ltb_spec (st_end st - st_pos st) (n - j)) as [Hfit|Hfit]; cbv beta iota zeta.
    + destruct (put_emits (mread (drop j (str_mem (rm_body m))) (st_end st - st_pos st)) st W) as (st' & E & M); [rewrite mread_length; lia|].
      unfold bind at 1. rewrite E. unfold ret at 1. cbn [negb]. unfold generator_break, bind, gets, ret.
      pose proof (emits_pos _ _ _ M) as Hp. rewrite mread_length in Hp. pose proof (emits_end _ _ _ M) as Hend.
      assert (Heos : apt_message_generator_break st' = APT_MESSAGE_STATUS_INCOMPLETE).
      { unfold apt_message_generator_break, apt_text_is_eos. rewrite (proj2 (Nat.leb_le _ _)) by lia. done. }
      rewrite Heos. eexists _, st'. split; [reflexivity|]. split; [eauto with mrcp|].
      exists (j + (st_end st - st_pos st))%nat. split; [|lia]. split_and!; try done. lia.
    + destruct (put_emits (mread (drop j (str_mem (rm_body m))) (n - j)) st W) as (st' & E & M); [rewrite mread_length; lia|].
      unfold bind at 1. rewrite E. eexists _, st'. split; [reflexivity|]. split; [eauto with mrcp|]. done.
  - eexists _, st. split; [reflexivity|]. split; [by apply frame_refl|]. done.
Qed.

Lemma start_run g (a : addr) (m : rtsp_message_t) (st : apt_text_stream_t) :
  generator_ready g -> line_typed (rm_start_line m) -> tx_stream_ok st ->
  exists r st', rtsp_generator_run g a m st = Some (r, st') /\ frame st st' /\ run_result a (str_len (rm_body m)) 0 r.
Proof.
  intros [Hv Hs] Hl [W Ad Hr Hb He Hns]. unfold rtsp_generator_run, apt_message_generator_run.
  set (g0 := if decide _ then g else _).
  assert (Hg0 : generator_vtable g0 = rtsp_generator_vtable /\ generator_stage g0 = APT_MESSAGE_STAGE_START_LINE /\ generator_message g0 = Some a)
    by (unfold g0; by case_decide).
  clearbody g0. destruct Hg0 as (Hv0 & Hs0 & Ha0). rewrite Hs0. unfold generator_run_start. rewrite Hv0.
  cbn [gen_on_start gen_on_header_complete rtsp_generator_vtable].
  assert (Hbreak : forall m' s1, frame st s1 -> (st_pos s1 < st_end s1)%nat ->
    exists r st', generator_break g0 m' s1 = Some (r, st') /\ frame st st' /\ run_result a (str_len (rm_body m)) 0 r).
  { intros m' s1 F H1. eexists _, s1. split; [reflexivity|]. split; [done|]. unfold run_result, apt_message_generator_break.
    destruct F as (_ & _ & _ & _ & O & _). unfold apt_text_is_eos. by rewrite O, Hns, (proj2 (Nat.leb_gt _ _)) by lia. }
  unfold rtsp_generator_on_start.
  destruct (safe_start_line (rm_start_line m) Hl st W Ad ltac:(lia)) as ([ok sl] & s1 & E1 & F1 & H1).
  unfold bind at 1. unfold bind at 1. rewrite E1. unfold ret at 1. cbn [fst snd].
  destruct ok; cbn [negb]; [|apply Hbreak; [done|lia]].
  destruct (safe_section (ctx_header (m <| rm_start_line := sl |>)) s1) as (ok & s2 & E2 & F2 & H2); [by destruct F1|by eapply frame_addressable|lia|].
  unfold bind at 1. rewrite E2. assert (F : frame st s2) by (by eapply frame_trans).
  destruct ok; cbn [negb]; [|apply Hbreak; [done|lia]].
  unfold bind, ret at 1. cbn [snd]. set (n := str_len (ctx_body _)).
  destruct (Nat.eqb_spec n 0) as [Hn|Hn].
  - eexists _, s2. split; [reflexivity|]. split; [done|]. done.
  - assert (Hs2 : tx_stream_ok s2).
    { destruct F as (W2 & B2 & L2 & E3 & O2 & M2 & P2 & _). split; unfold addressable in *; try congruence; try done; lia. }
    match goal with |- exists r st', generator_run_body ?g1 ?m1 s2 = _ /\ _ =>
      destruct (body_run g1 a m1 n 0 s2) as (r & st' & E & F3 & R) end.
    + split_and!; try done. lia.
    + done.
    + exists r, st'. split; [done|]. split; [by eapply frame_trans|done].
Qed.
End Generator.

(** * The loop over the pieces of a message *)

Section SendLoop.
Context `{L : AprLaws} {Sessions : AprHash addr} {Resources : AprHash rtsp_message_t} {World : RtspServerWorld}.
Abbreviation generator_t := (apt_message_generator_t rtsp_message_t).
Implicit Types (s : rtsp_server_t).

Definition sends (c : addr) (e : rtsp_server_event) : Prop := exists d, e = SOCKET_SEND c d.

(** Nothing but the generator and the buffer of the connection changed, and the socket was given data. *)
Definition sent_on (c : addr) (P : generator_t -> Prop) s s' : Prop :=
  exists k g b evs, connections s !! c = Some k /\ P g /\ length b = RTSP_STREAM_BUFFER_SIZE /\ Forall (sends c) evs /\
    s' = s <| connections := <[c := k <| generator := g |> <| tx_buffer := b |>]> (connections s) |> <| server_out := server_out s ++ evs |>.

Lemma sent_on_trans (c : addr) (P Q : generator_t -> Prop) s s1 s2 : sent_on c P s s1 -> sent_on c Q s1 s2 -> sent_on c Q s s2.
Proof.
  intros (k & g & b & evs & Ek & _ & _ & He & ->) (k1 & g1 & b1 & evs1 & Ek1 & Hg1 & Hb1 & He1 & ->). cbn in Ek1 |- *.
  rewrite lookup_insert_eq in Ek1. injection Ek1 as <-. exists k, g1, b1, (evs ++ evs1).
  split_and!; [done|done|done|by apply Forall_app|]. unfold field_set; cbn. by rewrite insert_insert_eq, app_assoc.
Qed.

Lemma get_conn_wp (c : addr) k s Q : connections s !! c = Some k -> Q k s -> wp False (get_conn c) s Q.
Proof. intros E HQ. unfold wp, get_conn, bind, gets. by rewrite E. Qed.
Lemma set_conn_wp (c : addr) k f s Q : connections s !! c = Some k ->
  Q tt (s <| connections := <[c := f k]> (connections s) |>) -> wp False (set_conn c f) s Q.
Proof. intros E HQ. unfold wp, set_conn, get_conn, bind, gets. by rewrite E. Qed.
Lemma get_session_wp (i : addr) x s Q : sessions s !! i = Some x -> Q x s -> wp False (get_session i) s Q.
Proof. intros E HQ. unfold wp, get_session, bind, gets. by rewrite E. Qed.
Lemma set_session_wp (i : addr) x f s Q : sessions s !! i = Some x ->
  Q tt (s <| sessions := <[i := f x]> (sessions s) |>) -> wp False (set_session i f) s Q.
Proof. intros E HQ. unfold wp, set_session, get_session, bind, gets. by rewrite E. Qed.
Lemma call_wp {B} e (answer : list rtsp_server_event -> B) s Q :
  Q (answer (server_out s)) (s <| server_out := server_out s ++ [e] |>) -> wp False (call e answer) s Q.
Proof. done. Qed.

Lemma tx_stream_init (b : bytes) : length b = RTSP_STREAM_BUFFER_SIZE -> tx_stream_ok (apt_text_stream_init b (RTSP_STREAM_BUFFER_SIZE - 1)).
Proof. intros Hb. unfold RTSP_STREAM_BUFFER_SIZE in *. split; unfold stream_wf, addressable; cbn; try done; lia. Qed.

(** One run of the generator and what it has to send. *)
Lemma piece_sent (n fuel : nat) (c a : addr) (m : rtsp_message_t) (status : bool) (j : nat) k g m' res st' s Q :
  connections s !! c = Some k -> length (tx_buffer k) = RTSP_STREAM_BUFFER_SIZE ->
  rtsp_generator_run (generator k) a m (apt_text_stream_init (tx_buffer k) (RTSP_STREAM_BUFFER_SIZE - 1)) = Some ((res, g, m'), st') ->
  frame (apt_text_stream_init (tx_buffer k) (RTSP_STREAM_BUFFER_SIZE - 1)) st' ->
  (forall status' s', sent_on c (eq g) s s' ->
     wp False (match res with APT_MESSAGE_STATUS_INCOMPLETE => message_send_loop fuel c a m' status' | _ => ret status' end) s' Q) ->
  wp False (message_send_loop (S fuel) c a m status) s Q.
Proof.
  intros Ek Hb E F HQ. cbn [message_send_loop]. apply wp_bind, (get_conn_wp _ k); [done|]. cbv beta.
  apply wp_bind, wp_deref. rewrite E. cbv beta iota zeta. apply wp_bind, (set_conn_wp _ k); [done|]. cbv beta.
  assert (Hm : length (st_mem st') = RTSP_STREAM_BUFFER_SIZE) by (destruct F as (_ & _ & _ & _ & _ & -> & _); exact Hb).
  assert (Hpiece : wp False (let* z := deref_ptr (store [NUL] st') in
      set_conn c (fun x => x <| tx_buffer := st_mem (snd z) |>) ;;;
      let* ok := call (SOCKET_SEND c (stream_text (snd z))) (fun out => socket_send out c (stream_text (snd z))) in
      ret (ok || status))
    (s <| connections := <[c := k <| generator := g |> <| tx_buffer := st_mem st' |>]> (connections s) |>)
    (fun status' s' => sent_on c (eq g) s s')).
  { apply wp_bind, wp_deref. unfold store. cbn [length].
    destruct (Nat.leb_spec (st_pos st' + 1) (length (st_mem st'))) as [Hfit|Hlong].
    - cbv beta iota. apply wp_bind, (set_conn_wp _ (k <| generator := g |> <| tx_buffer := st_mem st' |>)); [cbn; apply lookup_insert_eq|].
      cbv beta. apply wp_bind, call_wp. cbv beta. apply wp_ret. eexists k, g, _, [SOCKET_SEND c _]. split_and!; [done|done| |apply Forall_singleton; by eexists|].
      2: { unfold field_set; cbn. by rewrite insert_insert_eq. }
      rewrite <-Hm. change (length (overwrite (st_mem st') (st_pos st') [NUL]) = length (st_mem st')). by apply overwrite_length.
    - exfalso. destruct F as (W & _ & _ & He & _). unfold stream_wf in W. rewrite He in W. unfold RTSP_STREAM_BUFFER_SIZE in *. cbn in W. lia. }
  apply wp_bind. destruct res.
  - eapply wp_weaken; [exact Hpiece|]. cbv beta. intros status' s' Hs. exact (HQ status' s' Hs).
  - eapply wp_weaken; [exact Hpiece|]. cbv beta. intros status' s' Hs. exact (HQ status' s' Hs).
  - apply wp_ret. apply HQ. exists k, g, (st_mem st'), []. split_and!; try done. unfold field_set; cbn. by rewrite app_nil_r.
Qed.

Definition conn_ready (k : rtsp_server_connection_t) : Prop :=
  generator_ready (generator k) /\ length (tx_buffer k) = RTSP_STREAM_BUFFER_SIZE.

Lemma send_body (fuel : nat) : forall (c a : addr) (n j : nat) (m : rtsp_message_t) (status : bool) k s Q,
  connections s !! c = Some k -> length (tx_buffer k) = RTSP_STREAM_BUFFER_SIZE -> generating (generator k) a m n j ->
  (n - j < fuel)%nat -> (forall ok s', sent_on c generator_ready s s' -> Q ok s') -> wp False (message_send_loop fuel c a m status) s Q.
Proof.
  induction fuel as [|fuel IH]; [lia|]. intros c a n j m status k s Q Ek Hb Hg Hf HQ.
  pose proof (body_run _ _ _ _ _ _ Hg (tx_stream_init _ Hb)) as ([[res g] m'] & st' & E & F & R).
  eapply (piece_sent n fuel c a m status j k g m' res st'); [done|done| |done|].
  - unfold rtsp_generator_run, apt_message_generator_run. destruct Hg as (_ & Hs & Ha & _).
    rewrite (decide_True _ _ Ha), Hs. exact E.
  - intros status' s' Hsent. assert (Hready : generator_ready g -> sent_on c generator_ready s s').
    { destruct Hsent as (k0 & g0 & b & evs & H1 & <- & H2 & H3 & H4). intros Hr. by exists k0, g, b, evs. }
    destruct res; cbn [run_result] in R; [apply wp_ret; by apply HQ, Hready| |apply wp_ret; by apply HQ, Hready].
    destruct R as (j' & Hg' & Hj). destruct Hsent as (k0 & g0 & b & evs & H1 & <- & H2 & H3 & ->).
    eapply (IH c a n j'); [cbn; apply lookup_insert_eq|done|done|destruct Hg' as (_ & _ & _ & _ & _ & ?); lia|].
    intros ok s' Hs'. apply HQ. eapply (sent_on_trans c (eq g)); [|exact Hs']. by exists k0, g, b, evs.
Qed.

Lemma send_all (c a : addr) (m : rtsp_message_t) (status : bool) k s Q :
  connections s !! c = Some k -> conn_ready k -> line_typed (rm_start_line m) ->
  (forall ok s', sent_on c generator_ready s s' -> Q ok s') ->
  wp False (message_send_loop (str_len (rm_body m) + 2) c a m status) s Q.
Proof.
  intros Ek [Hg Hb] Hl HQ. pose proof (start_run _ a m _ Hg Hl (tx_stream_init _ Hb)) as ([[res g] m'] & st' & E & F & R).
  rewrite Nat.add_comm. cbn [Nat.add]. eapply (piece_sent 0 _ c a m status 0 k g m' res st'); [done|done|exact E|done|].
  intros status' s' Hsent. assert (Hready : generator_ready g -> sent_on c generator_ready s s').
  { destruct Hsent as (k0 & g0 & b & evs & H1 & <- & H2 & H3 & H4). intros Hr. by exists k0, g, b, evs. }
  destruct res; cbn [run_result] in R; [apply wp_ret; by apply HQ, Hready| |apply wp_ret; by apply HQ, Hready].
  destruct R as (j' & Hg' & Hj). destruct Hsent as (k0 & g0 & b & evs & H1 & <- & H2 & H3 & ->).
  eapply (send_body _ c a (str_len (rm_body m)) j'); [cbn; apply lookup_insert_eq|done|done|lia|].
  intros ok s' Hs'. apply HQ. eapply (sent_on_trans c (eq g)); [|exact Hs']. by exists k0, g, b, evs.
Qed.

(** * States that differ by what was sent *)

(** Connections that differ by the generator and the buffer. *)
Definition conn_alike (k k' : rtsp_server_connection_t) : Prop :=
  (exists g b, k' = k <| generator := g |> <| tx_buffer := b |>) /\ (conn_ready k -> conn_ready k').

Record quiet s s' : Prop := {
  quiet_sessions : sessions s' = sessions s;
  quiet_list : connection_list s' = connection_list s;
  quiet_tasks : task_queue s' = task_queue s;
  quiet_address : (next_address s <= next_address s')%nat;
  quiet_conns : forall c, option_Forall2 conn_alike (connections s !! c) (connections s' !! c);
  quiet_out : exists evs, server_out s' = server_out s ++ evs /\ Forall (fun e => exists c, sends c e) evs
}.

#[global] Instance conn_alike_preorder : PreOrder conn_alike.
Proof.
  split.
  - intros k. split; [|done]. exists (generator k), (tx_buffer k). by destruct k.
  - intros k1 k2 k3 [(g & b & ->) H1] [(g' & b' & ->) H2]. split; [by exists g', b'|auto].
Qed.

#[global] Instance quiet_preorder : PreOrder quiet.
Proof.
  split.
  - intros s. split; try done. exists []. by rewrite app_nil_r.
  - intros s1 s2 s3 [A1 B1 C1 D1 E1 (e1 & F1 & G1)] [A2 B2 C2 D2 E2 (e2 & F2 & G2)]. split; try congruence; try lia.
    + intros c. specialize (E1 c). specialize (E2 c). destruct E1 as [k1 k2 E1|]; [|done]. inversion_clear E2. constructor. by etransitivity.
    + exists (e1 ++ e2). rewrite F2, F1, app_assoc. split; [done|]. by apply Forall_app.
Qed.

Lemma sent_on_quiet (c : addr) s s' : sent_on c generator_ready s s' -> quiet s s'.
Proof.
  intros (k & g & b & evs & Ek & Hg & Hb & He & ->). split; try done.
  - intros c'. cbn. destruct (decide (c' = c)) as [->|Hne]; [rewrite lookup_insert_eq, Ek|by rewrite lookup_insert_ne by done].
    constructor. split; [by exists g, b|]. by intros _.
  - exists evs. split; [done|]. eapply Forall_impl; [|exact He]. intros e Hs. by exists c.
Qed.

Lemma fresh_address_wp s Q :
  (forall s', quiet s s' -> next_address s' = S (next_address s) -> connections s' = connections s -> Q (next_address s) s') ->
  wp False fresh_address s Q.
Proof.
  intros HQ. apply wp_bind, wp_gets, wp_bind, wp_modify, wp_ret. apply HQ; [|done|done].
  split; try done; [cbn; lia|]. exists []. by rewrite app_nil_r.
Qed.

(** A connection to send on. *)
Definition sendable_on (conn : option addr) s : Prop := forall c, conn = Some c -> exists k, connections s !! c = Some k /\ conn_ready k.

Lemma rtsp_send_wp (conn : option addr) (a : addr) (m : rtsp_message_t) s Q :
  sendable_on conn s -> line_typed (rm_start_line m) -> (forall ok s', quiet s s' -> Q ok s') ->
  wp False (rtsp_server_message_send conn a m) s Q.
Proof.
  intros Hc Hl HQ. unfold rtsp_server_message_send. destruct conn as [c|]; [|by apply wp_ret, HQ].
  destruct (Hc c eq_refl) as (k & Ek & Hk). apply wp_bind, (get_conn_wp _ k); [done|]. cbv beta.
  destruct (negb (sock k)); [by apply wp_ret, HQ|]. eapply send_all; [done|done|done|].
  intros ok s' Hs. by eapply HQ, sent_on_quiet.
Qed.

(** A message that fits into the buffer is sent as it is on the wire. *)
Definition delivered (conn : option addr) (m : rtsp_message_t) s s' : Prop := forall c k reason,
  conn = Some c -> connections s !! c = Some k -> sock k = true -> rtsp_sendable m reason ->
  (length (rtsp_wire m reason) < RTSP_STREAM_BUFFER_SIZE - 1)%nat ->
  server_out s' = server_out s ++ [SOCKET_SEND c (rtsp_wire m reason)].

Lemma stored_text st z : stream_wf st -> st_base st = 0%nat -> store [NUL] st = Some z -> stream_text (snd z) = message_text st.
Proof.
  intros W Hb. unfold store. destruct (Nat.leb_spec (st_pos st + length [NUL]) (length (st_mem st))) as [Hle|]; [|done]. intros [= <-].
  unfold stream_text, message_text, set_mem, mread. cbn [snd st_base st_pos st_mem]. rewrite Hb, Nat.sub_0_r, !drop_0.
  rewrite take_app_le by (rewrite overwrite_length by done; cbn in Hle; lia). cbn in Hle.
  unfold overwrite. rewrite take_app_le by (rewrite length_take; lia). by rewrite take_take, Nat.min_id.
Qed.

Lemma rtsp_send_whole (c a : addr) (m : rtsp_message_t) (reason : list bytes) k s :
  connections s !! c = Some k -> conn_ready k -> line_typed (rm_start_line m) -> sock k = true -> rtsp_sendable m reason ->
  (length (rtsp_wire m reason) < RTSP_STREAM_BUFFER_SIZE - 1)%nat ->
  wp False (rtsp_server_message_send (Some c) a m) s (fun _ s' => server_out s' = server_out s ++ [SOCKET_SEND c (rtsp_wire m reason)]).
Proof.
  intros Ek [Hg Hb] Hl Hk Hm Hfit. pose proof (tx_stream_init _ Hb) as Hst. destruct Hg as [Hgv Hgs].
  destruct (start_run (generator k) a m _ (conj Hgv Hgs) Hl Hst) as (r & st0 & E0 & F & _).
  destruct (rtsp_generator_run_message m reason Hm (generator k) a (apt_text_stream_init (tx_buffer k) (RTSP_STREAM_BUFFER_SIZE - 1)))
    as (g' & m' & st' & E & Ht & _); [split; auto|apply Hst|apply Hst|done|apply Hst|exact Hfit|].
  assert (st' = st0) as -> by congruence. destruct F as (W & Hbase & _ & Hend & _ & Hmem & _).
  unfold rtsp_server_message_send. apply wp_bind, (get_conn_wp _ k); [done|]. cbv beta. rewrite Hk. cbn [negb].
  rewrite Nat.add_comm. cbn [Nat.add message_send_loop]. apply wp_bind, (get_conn_wp _ k); [done|]. cbv beta.
  apply wp_bind, wp_deref. rewrite E. cbv beta iota zeta. apply wp_bind, (set_conn_wp _ k); [done|]. cbv beta.
  apply wp_bind, wp_bind, wp_deref. destruct (store [NUL] st0) as [z|] eqn:Ez.
  2: { unfold store in Ez. destruct (Nat.leb_spec (st_pos st0 + length [NUL]) (length (st_mem st0))) as [|Hlong]; [done|].
       unfold stream_wf in W. rewrite Hend in W. rewrite Hmem in Hlong. unfold RTSP_STREAM_BUFFER_SIZE in *. cbn in W, Hlong. lia. }
  apply wp_bind. eapply set_conn_wp; [cbn; apply lookup_insert_eq|]. cbv beta. apply wp_bind, call_wp. cbv beta. apply wp_ret, wp_ret.
  cbn [field_set server_out]. by rewrite (stored_text st0 z W Hbase Ez), Ht.
Qed.

Lemma rtsp_send_delivered_wp (conn : option addr) (a : addr) (m : rtsp_message_t) s Q :
  sendable_on conn s -> line_typed (rm_start_line m) -> (forall ok s', quiet s s' -> delivered conn m s s' -> Q ok s') ->
  wp False (rtsp_server_message_send conn a m) s Q.
Proof.
  intros Hc Hl HQ.
  destruct (wp_total _ _ _ (rtsp_send_wp conn a m s (fun _ s' => quiet s s') Hc Hl (fun _ _ H => H))) as (ok & s' & E & Hq).
  unfold wp. rewrite E. apply HQ; [done|]. intros c k reason -> Ek Hk Hm Hfit.
  destruct (Hc c eq_refl) as (k' & Ek' & Hready). assert (k' = k) as -> by congruence.
  destruct (wp_total _ _ _ (rtsp_send_whole c a m reason k s Ek Hready Hl Hk Hm Hfit)) as (ok' & s'' & E' & Ho). congruence.
Qed.

Lemma sendable_quiet (conn : option addr) s s' : quiet s s' -> sendable_on conn s -> sendable_on conn s'.
Proof.
  intros Hq Hc c ->. destruct (Hc c eq_refl) as (k & Ek & Hk). pose proof (quiet_conns _ _ Hq c) as H. rewrite Ek in H.
  inversion H as [? k' [_ Hk']|]; subst. exists k'. auto.
Qed.
End SendLoop.
