(* ===== verification/RtspServerSafety.v ===== *)
(** Safety of the RTSP server: an invariant that ties connections, tables of sessions, sessions and
    their requests together, and that every operation of the server is defined and preserves. *)

From S2P Require Import Prelude AprHash AptString TextStream TextValues HeaderField TextMessage MessageParser StartLine FieldsParse StateMachine Transport RtspStartLine RtspHeader RtspStream RtspServer RtspServerSend.

(** * Messages of the server *)

(** A value of a field that is there changes. *)
Lemma value_update_wf (h : apt_header_section_t) (a : addr) (v : apt_str_t) :
  section_wf h -> section_wf (field_update h a (set_hf_value v)).
Proof.
  intros [W1 W2 W3 W4].
  assert (Hin : forall b f, (b, f) ∈ sec_ring (field_update h a (set_hf_value v)) <->
    exists g, (b, g) ∈ sec_ring h /\ f = if (b =? a)%nat then set_hf_value v g else g).
  { intros b f. unfold field_update. cbn [sec_ring]. rewrite list_elem_of_fmap. split.
    - intros ([b' g] & E & Hg). cbn [fst snd] in E. exists g. destruct (b' =? a)%nat eqn:Eb; injection E as -> ->; by rewrite Eb.
    - intros (g & Hg & ->). exists (b, g). cbn [fst snd]. by destruct (b =? a)%nat. }
  split.
  - unfold field_update. cbn [sec_ring]. rewrite map_map. erewrite map_ext; [exact W1|]. intros [b f]. cbn. by destruct (b =? a)%nat.
  - intros b f (g & Hg & _)%Hin. by eapply W2.
  - intros b f (g & Hg & ->)%Hin. specialize (W3 b g Hg). by destruct (b =? a)%nat.
  - intros i b Hb. destruct (W4 i b Hb) as (f & Hf & E). eexists. split; [apply Hin; eauto|]. by destruct (b =? a)%nat.
Qed.

Section Messages.
Context `{L : AprLaws}.

(** Numbers and identifiers are always put. *)
Lemma property_add_defined (h : rtsp_header_t) (i : Z) : section_wf (rtsp_header_section h) ->
  i = RTSP_HEADER_FIELD_CSEQ \/ i = RTSP_HEADER_FIELD_SESSION_ID ->
  exists ok h', rtsp_header_property_add h i = Some (ok, h') /\ section_wf (rtsp_header_section h') /\ cseq h' = cseq h.
Proof.
  intros W Hi. assert (Hv : forall v, exists v', rtsp_header_field_value_generate h i v = Some (true, v')) by (intros v; destruct Hi as [->| ->]; by eexists).
  assert (Hid : 0 <= i < 2 ^ 64) by (destruct Hi as [->| ->]; done). unfold rtsp_header_property_add.
  destruct (apt_header_section_field_get _ i) as [a|] eqn:Ea.
  - destruct (field_get_spec _ _ _ W (proj1 Hid) Ea) as (f & _ & -> & _). destruct (Hv (hf_value f)) as [v' ->].
    eexists _, _. split; [done|]. split; [by apply value_update_wf|done].
  - destruct (Hv (hf_value apt_header_field_alloc)) as [v' ->].
    assert (Hn : exists name, apt_string_table_str_get rtsp_header_string_table RTSP_HEADER_FIELD_COUNT i = Some name) by (destruct Hi as [->| ->]; by eexists).
    destruct Hn as [name ->]. destruct (apt_header_section_field_insert _ _) as [ok sec] eqn:E. eexists _, _. split; [done|].
    split; [|done]. change sec with (snd (ok, sec)). rewrite <-E. by apply section_insert_wf.
Qed.

(** A message with a section to put fields to, and of the type of its line. *)
Definition message_ok (m : rtsp_message_t) : Prop := section_wf (rtsp_header_section (rm_header m)) /\ line_typed (rm_start_line m).

Lemma session_id_put_defined {Resources : AprHash rtsp_message_t} (x : rtsp_server_session_t) (m : rtsp_message_t) : message_ok m ->
  exists m', session_id_put x m = Some m' /\ message_ok m' /\ rm_start_line m' = rm_start_line m /\ cseq (rm_header m') = cseq (rm_header m).
Proof.
  intros [W Hl]. unfold session_id_put. destruct (str_buf (id x)); [|by exists m].
  set (h0 := (rm_header m) <| rtsp_session_id := id x |>). assert (W0 : section_wf (rtsp_header_section h0)) by exact W.
  destruct (property_add_defined h0 RTSP_HEADER_FIELD_SESSION_ID W0 (or_intror eq_refl)) as (ok & h & -> & Wh & Hq). eexists. split; [reflexivity|]. done.
Qed.

(** A request, with a resource where the server needs its name. *)
Definition request_ok (m : rtsp_message_t) : Prop := exists l, common (rm_start_line m) = REQUEST_LINE l /\
  (rl_method_id l = RTSP_METHOD_SETUP \/ rl_method_id l = RTSP_METHOD_TEARDOWN -> is_Some (resource_key l)).

Lemma response_create_defined (request : rtsp_message_t) (code reason : Z) : request_ok request ->
  exists response, rtsp_response_create request code reason = Some response /\ message_ok response.
Proof.
  intros (l & El & _). unfold rtsp_response_create. rewrite El.
  set (r := (rtsp_message_create RTSP_MESSAGE_TYPE_RESPONSE) <| rm_start_line := _ |>).
  assert (Hr : message_ok r) by (split; [apply section_alloc_wf, section_init_wf|done]).
  assert (Hq : exists r', (if rtsp_header_property_check (rm_header request) RTSP_HEADER_FIELD_CSEQ then
      let? (_, h) := rtsp_header_property_add ((rm_header r) <| cseq := cseq (rm_header request) |>) RTSP_HEADER_FIELD_CSEQ in
      Some (r <| rm_header := h |>) else Some r) = Some r' /\ message_ok r').
  { destruct (rtsp_header_property_check _ _); [|by exists r].
    set (h0 := (rm_header r) <| cseq := cseq (rm_header request) |>). assert (W0 : section_wf (rtsp_header_section h0)) by exact (proj1 Hr).
    destruct (property_add_defined h0 RTSP_HEADER_FIELD_CSEQ W0 (or_introl eq_refl)) as (ok & h & -> & Wh & _). eexists. split; [done|]. split; [exact Wh|apply Hr]. }
  destruct Hq as (r' & -> & Hr'). eexists. split; [reflexivity|].
  destruct (rtsp_header_property_check _ RTSP_HEADER_FIELD_TRANSPORT); [|done]. by destruct (str_len _ =? 0)%nat.
Qed.
End Messages.

(** * The invariant *)

Section Safety.
Context `{L : AprLaws} {Sessions : AprHash addr} {SessionLaws : AprHashLaws Sessions} {Resources : AprHash rtsp_message_t}
  {ResourceLaws : AprHashLaws Resources} {World : RtspServerWorld}.
Implicit Types (s : rtsp_server_t) (k : rtsp_server_connection_t) (x : rtsp_server_session_t) (c i : addr).

(** The requests of a session that were not answered yet, in the order of their arrival. *)
Definition pending x : list rtsp_message_t := option_list (active_request x) ++ request_queue x.

(** What a session keeps: requests, a queue that is served unless the session ends, resources by name. *)
Record session_ok x : Prop := {
  so_requests : Forall request_ok (pending x);
  so_served : active_request x = None -> request_queue x = [] \/ terminating x = true;
  so_resources : forall key m, apr_hash_get (resource_table x) key = Some m -> request_ok m
}.

(** A session is the one its connection has under its identifier. *)
Definition session_linked s i x : Prop := exists c k,
  connection x = Some c /\ connections s !! c = Some k /\ apr_hash_get (session_table k) (str_data (id x)) = Some i.

(** What a connection has under an identifier is a session of its own.  It is listed as long as it
    has a socket, and is kept without one for its sessions only. *)
Record connection_ok s c k : Prop := {
  co_ready : conn_ready k;
  co_sock : it k = sock k;
  co_listed : it k = true <-> exists l, connection_list s = Some l /\ c ∈ l;
  co_kept : it k = false -> apr_hash_count (session_table k) <> 0;
  co_sessions : forall key i, apr_hash_get (session_table k) key = Some i ->
    exists x, sessions s !! i = Some x /\ connection x = Some c /\ str_data (id x) = key
}.

Record server_ok s : Prop := {
  ok_sessions : forall i x, sessions s !! i = Some x -> (i < next_address s)%nat /\ session_ok x /\ session_linked s i x;
  ok_connections : forall c k, connections s !! c = Some k -> (c < next_address s)%nat /\ connection_ok s c k;
  ok_listed : forall l c, connection_list s = Some l -> c ∈ l -> is_Some (connections s !! c)
}.

Lemma server_create_ok : server_ok rtsp_server_create.
Proof. split; cbn; [intros i x; by rewrite lookup_empty|intros c k; by rewrite lookup_empty|done]. Qed.

(** A session changes, but neither its connection nor its identifier. *)
Lemma session_update_ok s i x x' : server_ok s -> sessions s !! i = Some x ->
  connection x' = connection x -> id x' = id x -> session_ok x' -> server_ok (s <| sessions := <[i := x']> (sessions s) |>).
Proof.
  intros [H1 H2 H3] Ex Ec Ei Hx'. split; cbn.
  - intros j y Ey. destruct (decide (j = i)) as [->|Hne].
    + rewrite lookup_insert_eq in Ey. injection Ey as <-. destruct (H1 i x Ex) as (Ha & _ & c & k & Hb).
      split_and!; [done|done|]. exists c, k. by rewrite Ec, Ei.
    + rewrite lookup_insert_ne in Ey by done. exact (H1 j y Ey).
  - intros c k Ek. destruct (H2 c k Ek) as (Ha & [B1 B2 B3 B4 B5]). split; [done|]. split; try done.
    intros key j Hj. destruct (B5 key j Hj) as (y & Ey & Hy). cbn. destruct (decide (j = i)) as [->|Hne].
    + rewrite lookup_insert_eq. exists x'. rewrite Ex in Ey. injection Ey as <-. by rewrite Ec, Ei.
    + rewrite lookup_insert_ne by done. by exists y.
  - exact H3.
Qed.

(** A state with the same sessions, and connections that are alike. *)
Lemma alike_ok s s' : server_ok s -> sessions s' = sessions s -> connection_list s' = connection_list s ->
  (next_address s <= next_address s')%nat -> (forall c, option_Forall2 conn_alike (connections s !! c) (connections s' !! c)) -> server_ok s'.
Proof.
  intros [H1 H2 H3] Es El Ea Hc.
  assert (Hto : forall c k, connections s !! c = Some k -> exists k', connections s' !! c = Some k' /\ conn_alike k k').
  { intros c k Ek. specialize (Hc c). rewrite Ek in Hc. inversion Hc; subst. eauto. }
  split.
  - intros i x Ex. rewrite Es in Ex. destruct (H1 i x Ex) as (Ha & Hb & c & k & C1 & C2 & C3). split_and!; [lia|done|].
    destruct (Hto c k C2) as (k' & Ek' & ((g & b & ->) & _)). by exists c, (k <| generator := g |> <| tx_buffer := b |>).
  - intros c k' Ek'. specialize (Hc c). rewrite Ek' in Hc. inversion Hc as [k ? [(g & b & ->) Hr] Ek|]; subst.
    destruct (H2 c k (eq_sym Ek)) as (Ha & [B1 B2 B3 B4 B5]). split; [lia|].
    split; cbn; rewrite ?Es, ?El; auto.
  - intros l c E Hin. rewrite El in E. destruct (H3 l c E Hin) as (k & Ek). destruct (Hto c k Ek) as (k' & Ek' & _). by exists k'.
Qed.

Lemma quiet_ok s s' : quiet s s' -> server_ok s -> server_ok s'.
Proof. intros [Ha Hb Hc Hd He Hf] H. by eapply alike_ok. Qed.

Lemma alike_refl s c : option_Forall2 conn_alike (connections s !! c) (connections s !! c).
Proof. destruct (connections s !! c); constructor. reflexivity. Qed.

Lemma out_ok s out : server_ok s -> server_ok (s <| server_out := out |>).
Proof. intros H. apply (alike_ok s); [exact H|done|done|done|]. intros c. exact (alike_refl s c). Qed.

(** A session has a connection to send on. *)
Lemma linked_sendable s i x : server_ok s -> sessions s !! i = Some x -> sendable_on (connection x) s.
Proof.
  intros [H1 H2 _] Ex c Ec. destruct (H1 i x Ex) as (_ & _ & c' & k & Ec' & Ek & _). rewrite Ec in Ec'. injection Ec' as <-.
  exists k. split; [done|]. by apply (H2 c k Ek).
Qed.
Lemma connection_sendable s c k : server_ok s -> connections s !! c = Some k -> sendable_on (Some c) s.
Proof. intros [_ H2 _] Ek c' [= <-]. exists k. split; [done|]. by apply (H2 c k Ek). Qed.

(** * Requests that are dispatched *)

(** A response of the server itself is sent. *)
Lemma error_respond_wp (conn : option addr) (m : rtsp_message_t) (code reason : Z) s Q :
  server_ok s -> sendable_on conn s -> request_ok m -> (forall ok s', server_ok s' -> quiet s s' -> Q ok s') ->
  wp False (rtsp_server_error_respond conn m code reason) s Q.
Proof.
  intros Hs Hc Hm HQ. destruct (response_create_defined m code reason Hm) as (r & Er & [_ Hr]).
  unfold rtsp_server_error_respond. apply wp_bind, wp_deref. rewrite Er. apply wp_bind, fresh_address_wp. intros s1 Hq _ _.
  apply rtsp_send_wp; [by eapply sendable_quiet|done|]. intros ok s2 Hq2. assert (Hq' : quiet s s2) by (by etransitivity).
  apply HQ; [by eapply quiet_ok|done].
Qed.

(** The calls of the owner's handlers and the sockets that were closed, without what was sent. *)
Definition is_call (e : rtsp_server_event) : bool := match e with SOCKET_SEND _ _ => false | _ => true end.
Definition calls s : list rtsp_server_event := List.filter is_call (server_out s).

Lemma quiet_calls s s' : quiet s s' -> calls s' = calls s.
Proof.
  intros Hq. destruct (quiet_out _ _ Hq) as (evs & E & He). unfold calls. rewrite E, filter_app.
  assert (Hnil : List.filter is_call evs = []); [|by rewrite Hnil, app_nil_r].
  clear E. induction He as [|e evs (c & d & ->) _ IH]; [done|]. exact IH.
Qed.
(** What was put out from [s] to [s'] has the calls [es]. *)
Definition grew s (es : list rtsp_server_event) s' : Prop :=
  exists rest, server_out s' = server_out s ++ rest /\ List.filter is_call rest = es.
Lemma grew_calls s es s' : grew s es s' -> calls s' = calls s ++ es.
Proof. intros (rest & E & <-). unfold calls. by rewrite E, filter_app. Qed.
Lemma grew_trans s es1 s1 es2 s2 : grew s es1 s1 -> grew s1 es2 s2 -> grew s (es1 ++ es2) s2.
Proof. intros (r1 & E1 & <-) (r2 & E2 & <-). exists (r1 ++ r2). by rewrite E2, E1, <-app_assoc, filter_app. Qed.
Lemma grew_same s s' : server_out s' = server_out s -> grew s [] s'.
Proof. intros E. exists []. by rewrite E, app_nil_r. Qed.
Lemma grew_tell s e s' : is_call e = true -> server_out s' = server_out s ++ [e] -> grew s [e] s'.
Proof. intros He E. exists [e]. cbn. by rewrite He. Qed.
Lemma quiet_grew s s' : quiet s s' -> grew s [] s'.
Proof.
  intros Hq. destruct (quiet_out _ _ Hq) as (evs & E & He). exists evs. split; [done|].
  clear E. induction He as [|e evs (c & d & ->) _ IH]; [done|]. exact IH.
Qed.

Lemma calls_tell s e : is_call e = true -> calls (s <| server_out := server_out s ++ [e] |>) = calls s ++ [e].
Proof. intros He. unfold calls. cbn. rewrite filter_app. cbn. by rewrite He. Qed.

(** A request is dispatched by a call of the owner: the request, or the end of the session it asks for. *)
Definition dispatch i (m : rtsp_message_t) (e : rtsp_server_event) : Prop :=
  e = HANDLE_MESSAGE i m \/
  e = TERMINATE_SESSION i /\ exists l, common (rm_start_line m) = REQUEST_LINE l /\ rl_method_id l = RTSP_METHOD_TEARDOWN.

(** The owner takes the request, or it is answered that there is an error. *)
Lemma message_handle_wp i x (m : rtsp_message_t) s Q :
  server_ok s -> sessions s !! i = Some x -> request_ok m ->
  (forall ok s', server_ok s' -> sessions s' = sessions s -> connection_list s' = connection_list s -> grew s [HANDLE_MESSAGE i m] s' ->
     ok = handle_message (server_out s) i m -> Q ok s') ->
  wp False (message_handle i m) s Q.
Proof.
  intros Hs Ex Hm HQ. unfold message_handle. apply wp_bind, call_wp. cbv beta.
  set (s1 := s <| server_out := _ |>). assert (Hs1 : server_ok s1) by (by apply out_ok).
  destruct (handle_message (server_out s) i m); cbn [negb].
  - apply wp_ret, HQ; [done|done|done|by apply grew_tell|done].
  - apply wp_bind, (get_session_wp _ x); [done|]. cbv beta. apply wp_bind, error_respond_wp; [done|by eapply linked_sendable|done|].
    intros _ s2 Hs2 Hq. apply wp_ret, HQ; [done|by rewrite (quiet_sessions _ _ Hq)|by rewrite (quiet_list _ _ Hq)| |done].
    apply (grew_trans s [HANDLE_MESSAGE i m] s1 []); [by apply grew_tell|by apply quiet_grew].
Qed.

Lemma session_ok_unset x key : session_ok x -> session_ok (x <| resource_table := apr_hash_unset (resource_table x) key |>).
Proof.
  intros [Ha Hb Hc]. split; try done. intros key' m. cbn. rewrite apr_hash_get_unset. case_decide; [done|]. apply Hc.
Qed.
Lemma session_ok_terminating x : session_ok x -> session_ok (x <| terminating := true |>).
Proof. intros [Ha Hb Hc]. split; try done. by right. Qed.

(** The owner is asked to end a session. *)
Lemma terminate_request_wp i x s Q : sessions s !! i = Some x -> server_ok (s <| sessions := <[i := x <| terminating := true |>]> (sessions s) |>) ->
  (forall ok s', server_ok s' -> sessions s' = <[i := x <| terminating := true |>]> (sessions s) -> connection_list s' = connection_list s ->
     grew s [TERMINATE_SESSION i] s' -> Q ok s') ->
  wp False (rtsp_server_session_terminate_request i) s Q.
Proof.
  intros Ex Hs HQ. unfold rtsp_server_session_terminate_request. apply wp_bind, (set_session_wp _ x); [done|]. cbv beta.
  apply call_wp. apply HQ; [by apply out_ok|done|done|].
  by apply grew_tell.
Qed.
Lemma terminating_ok i x s : server_ok s -> sessions s !! i = Some x -> server_ok (s <| sessions := <[i := x <| terminating := true |>]> (sessions s) |>).
Proof. intros Hs Ex. eapply session_update_ok; [done|done|done|done|]. apply session_ok_terminating. by apply (ok_sessions s Hs i x). Qed.

(** The session is the one it was, with the same requests. *)
Definition kept x s x' s' : Prop :=
  pending x' = pending x /\ connection x' = connection x /\ id x' = id x /\ connection_list s' = connection_list s.

(** A request is dispatched, whatever the owner answers; a request that is not a TEARDOWN is answered by the owner. *)
Lemma session_message_handle_wp i x (m : rtsp_message_t) l s Q :
  server_ok s -> sessions s !! i = Some x -> request_ok m -> common (rm_start_line m) = REQUEST_LINE l ->
  (forall ok s' x' e, server_ok s' -> sessions s' !! i = Some x' -> kept x s x' s' -> dispatch i m e -> grew s [e] s' ->
     (rl_method_id l <> RTSP_METHOD_TEARDOWN -> ok = handle_message (server_out s) i m) -> Q ok s') ->
  wp False (rtsp_server_session_message_handle i m) s Q.
Proof.
  intros Hs Ex Hm El HQ. unfold rtsp_server_session_message_handle, request_line_of. rewrite El.
  apply wp_bind, wp_deref. cbv beta iota. destruct (Z.eqb_spec (rl_method_id l) RTSP_METHOD_TEARDOWN) as [Et|Hne].
  - destruct Hm as (l' & El' & Hkey). rewrite El in El'. injection El' as <-. destruct Hkey as [key Ekey]; [by right|].
    apply wp_bind, wp_deref. rewrite Ekey. cbv beta iota. apply wp_bind, (set_session_wp _ x); [done|]. cbv beta.
    set (x1 := x <| resource_table := _ |>). set (s1 := s <| sessions := _ |>).
    assert (Ex1 : sessions s1 !! i = Some x1) by (cbn; apply lookup_insert_eq).
    assert (Hs1 : server_ok s1).
    { eapply session_update_ok; [done|done|done|done|]. apply session_ok_unset. by apply (ok_sessions s Hs i x). }
    apply wp_bind, (get_session_wp _ x1); [done|]. cbv beta. destruct (apr_hash_count _ =? 0).
    + apply wp_bind, (terminate_request_wp i x1); [done|by apply terminating_ok|]. intros ok s2 Hs2 Es Elist Ecalls.
      eapply wp_ret, HQ; [done|rewrite Es; apply lookup_insert_eq|by split_and!|right; eauto|exact Ecalls|done].
    + apply (message_handle_wp i x1); [done|done| |].
      * exists l. split; [done|]. by exists key.
      * intros ok s2 Hs2 Es Elist Ecalls _. eapply HQ; [done|by rewrite Es|by split_and!|by left|exact Ecalls|done].
  - apply (message_handle_wp i x); [done|done|done|]. intros ok s2 Hs2 Es Elist Ecalls E. eapply HQ; [done|by rewrite Es|by split_and!|by left|exact Ecalls|done].
Qed.

(** * Sessions that come and go *)

Lemma hash_get_count {V} {T : AprHash V} {TL : AprHashLaws T} (h : @apr_hash_t _ T) key v :
  apr_hash_get h key = Some v -> apr_hash_count h <> 0.
Proof. intros E Hz. by rewrite (proj1 (apr_hash_count_zero h) Hz) in E. Qed.

Lemma next_free s : server_ok s -> sessions s !! next_address s = None /\ connections s !! next_address s = None.
Proof.
  intros [H1 H2 _]. split; apply eq_None_not_Some; intros [y E].
  - destruct (H1 _ _ E). lia.
  - destruct (H2 _ _ E). lia.
Qed.

(** A new session gets an identifier that its connection does not know. *)
Lemma register_ok s s' c k i x : server_ok s -> connections s !! c = Some k -> i = next_address s ->
  connection x = Some c -> apr_hash_get (session_table k) (str_data (id x)) = None -> session_ok x ->
  next_address s' = S i -> connection_list s' = connection_list s -> sessions s' = <[i := x]> (sessions s) ->
  connections s' = <[c := k <| session_table := apr_hash_set (session_table k) (str_data (id x)) i |>]> (connections s) -> server_ok s'.
Proof.
  intros Hs Ek -> Ec Hfree Hx En El Es Ecs. destruct (next_free s Hs) as [Hfi _]. destruct Hs as [H1 H2 H3].
  split; rewrite ?Es, ?Ecs, ?En, ?El.
  - intros j y Ey. destruct (decide (j = next_address s)) as [->|Hne].
    + rewrite lookup_insert_eq in Ey. injection Ey as <-. split_and!; [lia|done|]. eexists c, _. split_and!; [done|by rewrite Ecs, lookup_insert_eq|].
      cbn. by rewrite apr_hash_get_set, decide_True.
    + rewrite lookup_insert_ne in Ey by done. destruct (H1 j y Ey) as (Ha & Hb & c' & k' & C1 & C2 & C3). split_and!; [lia|done|].
      destruct (decide (c' = c)) as [->|Hnc].
      * rewrite Ek in C2. injection C2 as <-. eexists c, _. split_and!; [done|by rewrite Ecs, lookup_insert_eq|]. cbn.
        rewrite apr_hash_get_set. case_decide as E; [|done]. rewrite E in C3. by rewrite Hfree in C3.
      * exists c', k'. by rewrite Ecs, lookup_insert_ne.
  - intros c' k' Ek'. destruct (decide (c' = c)) as [->|Hnc].
    + rewrite lookup_insert_eq in Ek'. injection Ek' as <-. destruct (H2 c k Ek) as (Ha & [B1 B2 B3 B4 B5]). split; [lia|]. split; cbn; rewrite ?El; try done.
      * intros _. rewrite apr_hash_count_set, Hfree. pose proof (apr_hash_count_nonneg (session_table k)). lia.
      * intros key j. rewrite Es, apr_hash_get_set. case_decide as E.
        -- intros [= <-]. exists x. by rewrite lookup_insert_eq, E.
        -- intros Hj. destruct (B5 key j Hj) as (y & Ey & Hy). exists y. rewrite lookup_insert_ne; [done|]. intros <-. by rewrite Hfi in Ey.
    + rewrite lookup_insert_ne in Ek' by done. destruct (H2 c' k' Ek') as (Ha & [B1 B2 B3 B4 B5]). split; [lia|]. split; rewrite ?El; try done.
      intros key j Hj. destruct (B5 key j Hj) as (y & Ey & Hy). exists y. rewrite Es, lookup_insert_ne; [done|]. intros <-. by rewrite Hfi in Ey.
  - intros l c' E Hin. destruct (decide (c' = c)) as [->|Hnc]; [by rewrite lookup_insert_eq|rewrite lookup_insert_ne by done; eauto].
Qed.

(** A session goes, and its connection forgets it: the connection is kept if it has a socket or other sessions. *)
Lemma unregister_ok s s' i x c k : server_ok s -> sessions s !! i = Some x -> connection x = Some c -> connections s !! c = Some k ->
  next_address s' = next_address s -> connection_list s' = connection_list s -> sessions s' = delete i (sessions s) ->
  (let t := apr_hash_unset (session_table k) (str_data (id x)) in
   if negb (it k) && (apr_hash_count t =? 0) then connections s' = delete c (connections s)
   else connections s' = <[c := k <| session_table := t |>]> (connections s)) -> server_ok s'.
Proof.
  intros Hs Ex Ec Ek En El Es Ecs. cbv zeta in Ecs. set (t := apr_hash_unset _ _) in *.
  destruct (ok_sessions s Hs i x Ex) as (_ & _ & c0 & k0 & Ec0 & Ek0 & Ht). rewrite Ec in Ec0. injection Ec0 as <-.
  rewrite Ek in Ek0. injection Ek0 as <-. destruct Hs as [H1 H2 H3].
  assert (Hk : forall c' k', connections s' !! c' = Some k' ->
    (c' <> c /\ connections s !! c' = Some k') \/ (c' = c /\ k' = k <| session_table := t |> /\ (it k = true \/ apr_hash_count t <> 0))).
  { intros c' k' E. destruct (negb (it k) && (apr_hash_count t =? 0)) eqn:Eb; rewrite Ecs in E.
    - destruct (decide (c' = c)) as [->|Hne]; [by rewrite lookup_delete_eq in E|]. rewrite lookup_delete_ne in E by done. by left.
    - destruct (decide (c' = c)) as [->|Hne]; [|rewrite lookup_insert_ne in E by done; by left]. rewrite lookup_insert_eq in E. injection E as <-.
      right. split_and!; [done|done|]. destruct (it k); [by left|]. right. cbn in Eb. by apply Z.eqb_neq. }
  assert (Hother : forall key j y, apr_hash_get (session_table k) key = Some j -> j <> i -> sessions s !! j = Some y -> str_data (id y) = key -> apr_hash_get t key = Some j).
  { intros key j y Hj Hne Ey Hid. unfold t. rewrite apr_hash_get_unset. case_decide as E; [|done]. rewrite E, Ht in Hj. by injection Hj as ->. }
  split; rewrite ?Es, ?En, ?El.
  - intros j y Ey. destruct (decide (j = i)) as [->|Hne]; [by rewrite lookup_delete_eq in Ey|]. rewrite lookup_delete_ne in Ey by done.
    destruct (H1 j y Ey) as (Ha & Hb & c' & k' & C1 & C2 & C3). split_and!; [done|done|].
    destruct (decide (c' = c)) as [->|Hnc].
    + rewrite Ek in C2. injection C2 as <-. pose proof (Hother _ _ _ C3 Hne Ey eq_refl) as C4. pose proof (hash_get_count _ _ _ C4) as C5.
      rewrite (proj2 (Z.eqb_neq _ _) C5), andb_false_r in Ecs. eexists c, _. split_and!; [done|by rewrite Ecs, lookup_insert_eq|done].
    + exists c', k'. split_and!; [done| |done]. destruct (negb (it k) && _); rewrite Ecs; [by rewrite lookup_delete_ne|by rewrite lookup_insert_ne].
  - intros c' k' E. destruct (Hk c' k' E) as [[Hne E']|(-> & -> & Hkeep)].
    + destruct (H2 c' k' E') as (Ha & [B1 B2 B3 B4 B5]). split; [done|]. split; rewrite ?El; try done.
      intros key j Hj. destruct (B5 key j Hj) as (y & Ey & Hc' & Hid). exists y. rewrite Es, lookup_delete_ne; [done|]. intros <-.
      rewrite Ex in Ey. injection Ey as <-. rewrite Ec in Hc'. by injection Hc' as ->.
    + destruct (H2 c k Ek) as (Ha & [B1 B2 B3 B4 B5]). split; [done|]. split; cbn; rewrite ?El; try done.
      * intros Hit. destruct Hkeep as [Hkeep|]; [by rewrite Hkeep in Hit|done].
      * intros key j. unfold t. rewrite apr_hash_get_unset. case_decide as E1; [done|]. intros Hj.
        destruct (B5 key j Hj) as (y & Ey & Hc' & Hid). exists y. rewrite Es, lookup_delete_ne; [done|]. intros <-.
        rewrite Ex in Ey. injection Ey as <-. done.
  - intros l c' E Hin. destruct (H3 l c' E Hin) as [k' E']. destruct (decide (c' = c)) as [->|Hnc].
    + rewrite Ek in E'. injection E' as <-. destruct (H2 c k Ek) as (_ & [_ _ B3 _ _]). assert (Hit : it k = true) by (apply B3; eauto).
      rewrite Hit in Ecs. rewrite Ecs, lookup_insert_eq. eauto.
    + exists k'. destruct (negb (it k) && _); rewrite Ecs; [by rewrite lookup_delete_ne|by rewrite lookup_insert_ne].
Qed.

(** * Requests in *)

(** The identifier of the next session. *)
Definition next_id s : apt_str_t :=
  apt_unique_id_generate (session_uuid (server_out s) (next_address s)) RTSP_SESSION_ID_HEX_STRING_LENGTH.

Lemma session_create_wp s Q : server_ok s ->
  (create_session (server_out s) (next_address s) = false -> forall s', server_ok s' -> connections s' = connections s -> Q None s') ->
  (create_session (server_out s) (next_address s) = true ->
   forall s', next_address s' = S (next_address s) -> connection_list s' = connection_list s -> connections s' = connections s ->
   sessions s' = <[next_address s := mk_rtsp_session None (next_id s) 0 None [] apr_hash_make false]> (sessions s) ->
   server_out s' = server_out s ++ [CREATE_SESSION (next_address s)] -> Q (Some (next_address s)) s') ->
  wp False rtsp_server_session_create s Q.
Proof.
  intros Hs HN HS. unfold rtsp_server_session_create. apply wp_bind, wp_bind, wp_gets, wp_bind, wp_modify, wp_ret.
  apply wp_bind, wp_gets, wp_bind, wp_modify, wp_bind, call_wp. cbv beta. cbn [server_out field_set].
  destruct (create_session (server_out s) (next_address s)) eqn:Ec; cbn [negb].
  - apply wp_ret. by apply HS.
  - apply wp_bind. unfold rtsp_server_session_destroy. apply wp_bind. eapply get_session_wp; [cbn; apply lookup_insert_eq|].
    apply wp_modify, wp_ret. apply HN; [done| |done]. apply (alike_ok s); [done| |done|cbn; lia|intros c; apply (alike_refl s)].
    cbn. rewrite delete_insert_id; [done|]. apply next_free, Hs.
Qed.

Lemma new_session_ok c s : session_ok (mk_rtsp_session (Some c) (next_id s) 0 None [] apr_hash_make false).
Proof. split; [apply Forall_nil_2|by left|]. intros key m. cbn. by rewrite apr_hash_get_make. Qed.

(** The conditions on the owner and on the identifiers for the first request of a session. *)
Definition first_allowed s k (m : rtsp_message_t) : Prop :=
  apr_hash_get (session_table k) (str_data (next_id s)) = None /\
  (create_session (server_out s) (next_address s) = true ->
   handle_message (server_out s ++ [CREATE_SESSION (next_address s)]) (next_address s) m = true).

Lemma setup_process_wp c k (m : rtsp_message_t) l s Q :
  server_ok s -> connections s !! c = Some k -> request_ok m -> common (rm_start_line m) = REQUEST_LINE l ->
  apr_hash_get (session_table k) (str_data (next_id s)) = None ->
  ((rl_method_id l = RTSP_METHOD_SETUP \/ rl_method_id l = RTSP_METHOD_DESCRIBE -> create_session (server_out s) (next_address s) = false) ->
   forall s', server_ok s' -> sendable_on (Some c) s' -> Q None s') ->
  (create_session (server_out s) (next_address s) = true -> rl_method_id l <> RTSP_METHOD_TEARDOWN -> forall s', server_ok s' ->
   sessions s' !! next_address s = Some (mk_rtsp_session (Some c) (next_id s) 0 None [] apr_hash_make false) ->
   connection_list s' = connection_list s -> server_out s' = server_out s ++ [CREATE_SESSION (next_address s)] -> Q (Some (next_address s)) s') ->
  wp False (rtsp_server_session_setup_process c m) s Q.
Proof.
  intros Hs Ek Hm El Hfree HN HS. unfold rtsp_server_session_setup_process, request_line_of. rewrite El.
  apply wp_bind, wp_deref. cbv beta iota. destruct (_ || _) eqn:Emethod.
  - apply wp_bind, session_create_wp; [done| |].
    + intros Hno s1 Hs1 Hc1. apply wp_ret, HN; [done|done|]. eapply connection_sendable; [done|by rewrite Hc1].
    + intros Hcreate s1 Hn1 Hl1 Hc1 Hx1 Ho1. apply wp_bind. unfold session_add.
      apply wp_bind. eapply set_session_wp; [rewrite Hx1; apply lookup_insert_eq|]. cbv beta.
      apply wp_bind. eapply get_session_wp; [cbn; apply lookup_insert_eq|]. cbv beta.
      eapply set_conn_wp; [cbn; by rewrite Hc1|]. apply wp_ret, HS; [done|by intros E; rewrite E in Emethod| |cbn; apply lookup_insert_eq|done|done].
      eapply (register_ok s _ c k (next_address s) (mk_rtsp_session (Some c) (next_id s) 0 None [] apr_hash_make false)); try done;
        [apply new_session_ok|cbn|cbn; by rewrite Hc1]. rewrite Hx1, insert_insert_eq. done.
  - apply wp_bind, error_respond_wp; [done|by eapply connection_sendable|done|]. intros ok s1 Hs1 Hq.
    apply wp_ret, HN; [|done|].
    { intros [E|E]; rewrite E in Emethod; discriminate. }
    eapply sendable_quiet; [done|by eapply connection_sendable].
Qed.

(** The first request of a session is dispatched. *)
Lemma first_dispatch_wp c i (m : rtsp_message_t) l j s Q :
  server_ok s -> sessions s !! i = Some (mk_rtsp_session (Some c) j 0 None [] apr_hash_make false) -> request_ok m ->
  common (rm_start_line m) = REQUEST_LINE l -> rl_method_id l <> RTSP_METHOD_TEARDOWN ->
  (forall s' x', server_ok s' -> sessions s' !! i = Some x' -> connection x' = Some c -> id x' = j -> connection_list s' = connection_list s ->
     Q (handle_message (server_out s) i m) s') ->
  wp False (set_session i (fun x => x <| active_request := Some m |>) ;;; rtsp_server_session_message_handle i m) s Q.
Proof.
  intros Hs Ex Hm El Hl HQ. apply wp_bind. eapply set_session_wp; [done|]. cbv beta.
  eapply (session_message_handle_wp i _ m l); [|cbn; apply lookup_insert_eq|done|done|].
  - eapply session_update_ok; [done|done|done|done|]. split; cbn; [by apply Forall_singleton|done|].
    intros key m'. by rewrite apr_hash_get_make.
  - intros ok s4 x4 e4 Hs4 Ex4 (_ & Ec & Ei & Elist) _ _ Hok. rewrite (Hok Hl). by apply (HQ s4 x4).
Qed.

Lemma bind_assoc {S X Y Z} (m : prog S X) (f : X -> prog S Y) (g : Y -> prog S Z) (s : S) R :
  wp False (bind (bind m f) g) s R -> wp False (bind m (fun a => bind (f a) g)) s R.
Proof. unfold wp, bind. by destruct (m s) as [[a s1]|]. Qed.

Lemma first_request_wp c k (m : rtsp_message_t) s Q :
  server_ok s -> connections s !! c = Some k -> request_ok m -> first_allowed s k m -> (forall ok s', server_ok s' -> Q ok s') ->
  wp False (let* r := rtsp_server_session_setup_process c m in
            match r with
            | Some i =>
                set_session i (fun x => x <| active_request := Some m |>) ;;;
                let* ok := rtsp_server_session_message_handle i m in
                if negb ok then rtsp_server_session_destroy i ;;; ret true else ret true
            | None => rtsp_server_error_respond (Some c) m 406 6
            end) s Q.
Proof.
  intros Hs Ek Hm [Hfree Howner] HQ. pose proof Hm as (l & El & _).
  apply wp_bind, (setup_process_wp c k m l); [done|done|done|done|done| |].
  - intros _ s1 Hs1 Hc. apply error_respond_wp; [done|done|done|eauto].
  - intros Hcreate Hl s1 Hs1 Ex1 _ Eo. apply bind_assoc, wp_bind, (first_dispatch_wp c _ m l (next_id s)); [done|done|done|done|done|].
    intros s2 x2 Hs2 _ _ _ _. rewrite Eo, (Howner Hcreate). by apply wp_ret, HQ.
Qed.

(** A request of a session waits for its turn, or is dispatched. *)
Lemma session_request_wp i x (m : rtsp_message_t) s Q :
  server_ok s -> sessions s !! i = Some x -> request_ok m -> terminating x = false ->
  (forall ok s' x', server_ok s' -> sessions s' !! i = Some x' -> pending x' = pending x ++ [m] ->
     (if pending x is [] then exists e, dispatch i m e /\ calls s' = calls s ++ [e] else calls s' = calls s) -> Q ok s') ->
  wp False (match active_request x with
            | Some _ => set_session i (fun x => x <| request_queue := apt_list_push_back (request_queue x) m |>) ;;; ret true
            | None => set_session i (fun x => x <| active_request := Some m |>) ;;; rtsp_server_session_message_handle i m ;;; ret true
            end) s Q.
Proof.
  intros Hs Ex Hm Ht HQ. pose proof (ok_sessions s Hs i x Ex) as (_ & [Hp Hq Hr] & _). pose proof Hm as (l & El & _).
  destruct (active_request x) as [m0|] eqn:Ea.
  - apply wp_bind. eapply set_session_wp; [done|]. eapply wp_ret, HQ; [|cbn; apply lookup_insert_eq|unfold pending; cbn; by rewrite Ea|unfold pending; by rewrite Ea].
    eapply session_update_ok; [done|done|done|done|]. split; cbn; [|by rewrite Ea|done]. unfold pending in *. rewrite Ea in *. cbn in *.
    inversion_clear Hp as [|? ? H0 H1]. constructor; [done|]. apply Forall_app. split; [done|by apply Forall_singleton].
  - destruct (Hq eq_refl) as [Eq|Eq]; [|by rewrite Eq in Ht]. assert (Ep : pending x = []) by (unfold pending; by rewrite Ea, Eq).
    apply wp_bind. eapply set_session_wp; [done|]. cbv beta. apply wp_bind.
    eapply (session_message_handle_wp i _ m l); [|cbn; apply lookup_insert_eq|done|done|].
    + eapply session_update_ok; [done|done|done|done|]. split; cbn; [|done|done]. unfold pending. cbn. rewrite Eq. by apply Forall_singleton.
    + intros ok s' x' e Hs' Ex' (Ep' & _) He Ecalls _. eapply wp_ret, HQ; [done|done|rewrite Ep', Ep; unfold pending; cbn; by rewrite Eq|]. rewrite Ep. exists e.
      split; [done|]. by apply grew_calls in Ecalls.
Qed.

Lemma request_process_wp c k (m : rtsp_message_t) s Q :
  server_ok s -> connections s !! c = Some k -> (rtsp_message_type (rm_start_line m) = RTSP_MESSAGE_TYPE_REQUEST -> request_ok m) ->
  (rtsp_header_property_check (rm_header m) RTSP_HEADER_FIELD_SESSION_ID = false -> first_allowed s k m) ->
  (forall ok s', server_ok s' -> Q ok s') -> wp False (rtsp_server_session_request_process c m) s Q.
Proof.
  intros Hs Ek Hm Hfirst HQ. unfold rtsp_server_session_request_process.
  destruct (rtsp_message_type (rm_start_line m)) eqn:Et; [by apply wp_ret, HQ| |by apply wp_ret, HQ]. specialize (Hm eq_refl).
  assert (Hc : sendable_on (Some c) s) by (by eapply connection_sendable).
  destruct (rtsp_header_property_check _ _) eqn:Eid; cbn [negb]; [|apply (first_request_wp c k); auto].
  apply wp_bind, (get_conn_wp _ k); [done|]. cbv beta. destruct (apr_hash_get _ _) as [i|] eqn:Ei; [|apply error_respond_wp; auto].
  destruct (ok_connections s Hs c k Ek) as (_ & [_ _ _ _ B5]). destruct (B5 _ _ Ei) as (x & Ex & _).
  apply wp_bind, (get_session_wp _ x); [done|]. cbv beta. destruct (terminating x) eqn:Ht; [apply error_respond_wp; auto|].
  apply (session_request_wp i x); eauto.
Qed.

(** * Messages out *)

(** The next request of the queue is dispatched. *)
Lemma next_request_wp i x s Q : server_ok s -> sessions s !! i = Some x ->
  (forall ok s' x', server_ok s' -> sessions s' !! i = Some x' -> pending x' = request_queue x ->
     (if request_queue x is m :: _ then exists e, dispatch i m e /\ grew s [e] s' else grew s [] s') -> Q ok s') ->
  wp False (rtsp_next_request i) s Q.
Proof.
  intros Hs Ex HQ. pose proof (ok_sessions s Hs i x Ex) as (_ & [Hp Hq Hr] & _). unfold rtsp_next_request.
  apply wp_bind, (get_session_wp _ x); [done|]. cbv beta. unfold pending in Hp. apply Forall_app in Hp as [_ Hp].
  destruct (request_queue x) as [|m q] eqn:Eq; cbn [apt_list_pop_front].
  - apply wp_bind. eapply set_session_wp; [done|]. eapply wp_ret, HQ; [|cbn; apply lookup_insert_eq|done|by apply grew_same].
    eapply session_update_ok; [done|done|done|done|]. split; cbn; [by apply Forall_nil_2|by left|done].
  - apply wp_bind. eapply set_session_wp; [done|]. cbv beta. inversion_clear Hp as [|? ? Hm Hq']. pose proof Hm as (l & El & _).
    apply wp_bind. eapply (session_message_handle_wp i _ m l); [|cbn; apply lookup_insert_eq|done|done|].
    + eapply session_update_ok; [done|done|done|done|]. split; cbn; [|done|done]. by constructor.
    + intros ok s' x' e Hs' Ex' (Ep' & _) He Ecalls _. eapply wp_ret, HQ; [done|done|by rewrite Ep'|by exists e].
Qed.

Lemma property_put_wp (h : rtsp_header_t) (j : Z) s (Q : bool * rtsp_header_t -> rtsp_server_t -> Prop) : section_wf (rtsp_header_section h) ->
  j = RTSP_HEADER_FIELD_CSEQ \/ j = RTSP_HEADER_FIELD_SESSION_ID -> (forall ok h', section_wf (rtsp_header_section h') -> Q (ok, h') s) ->
  wp False (deref_ptr (rtsp_header_property_add h j)) s Q.
Proof. intros W Hj HQ. destruct (property_add_defined h j W Hj) as (ok & h' & E & W' & _). apply wp_deref. rewrite E. by apply HQ. Qed.
Lemma session_id_put_wp x (m : rtsp_message_t) s Q : message_ok m ->
  (forall m', message_ok m' -> rm_start_line m' = rm_start_line m -> Q m' s) -> wp False (deref_ptr (session_id_put x m)) s Q.
Proof. intros Hm HQ. destruct (session_id_put_defined x m Hm) as (m' & E & Hm' & El & _). apply wp_deref. rewrite E. by apply HQ. Qed.

Lemma announce_wp i x a (m : rtsp_message_t) s Q : server_ok s -> sessions s !! i = Some x -> message_ok m ->
  rtsp_message_type (rm_start_line m) = RTSP_MESSAGE_TYPE_REQUEST -> (forall ok s', server_ok s' -> Q ok s') ->
  wp False (session_announce i a m) s Q.
Proof.
  intros Hs Ex [W Hl] Et HQ. unfold session_announce, request_line_of. pose proof Hl as Hl'. unfold line_typed in Hl'. rewrite Et in Hl'.
  destruct (common (rm_start_line m)) as [|l|] eqn:El; [done| |done]. apply wp_bind, wp_deref. cbv beta iota.
  apply wp_bind, (get_session_wp _ x); [done|]. cbv beta.
  destruct (resource_key l) as [key|]; [|by apply wp_ret, HQ]. destruct (apr_hash_get (resource_table x) key) as [request|] eqn:Er; [|by apply wp_ret, HQ].
  destruct (ok_sessions s Hs i x Ex) as (_ & [_ _ Hr] & _). destruct (Hr key request Er) as (rl & Erl & _).
  apply wp_bind, wp_deref. rewrite Erl. cbv beta iota zeta. apply wp_bind, property_put_wp; [exact W|by left|]. intros ok h Wh.
  apply wp_bind, session_id_put_wp.
  - split; [exact Wh|]. unfold line_typed. cbn. by rewrite Et.
  - intros m' [_ Hl2] _. apply wp_bind, rtsp_send_wp; [by eapply linked_sendable|done|]. intros ok' s' Hq. by eapply wp_ret, HQ, quiet_ok.
Qed.

(** The session is stored again, with a resource if the setup succeeded. *)
Lemma setup_answered_wp i x l (request m : rtsp_message_t) s Q : server_ok s -> sessions s !! i = Some x -> request_ok request ->
  common (rm_start_line request) = REQUEST_LINE l -> rl_method_id l = RTSP_METHOD_SETUP -> line_typed (rm_start_line m) ->
  rtsp_message_type (rm_start_line m) = RTSP_MESSAGE_TYPE_RESPONSE ->
  (forall ok s' x', server_ok s' -> sessions s' !! i = Some x' -> connection x' = connection x -> request_queue x' = request_queue x ->
     server_out s' = server_out s -> connections s' = connections s -> (ok = true -> forall sl, common (rm_start_line m) = STATUS_LINE sl -> sl_status_code sl <> RTSP_STATUS_CODE_OK) -> Q ok s') ->
  wp False (setup_answered i l request m) s Q.
Proof.
  intros Hs Ex Hreq El Es Hl Et HQ. unfold setup_answered. unfold line_typed in Hl. rewrite Et in Hl.
  destruct (common (rm_start_line m)) as [| |sl]; try done. destruct (Z.eqb_spec (sl_status_code sl) RTSP_STATUS_CODE_OK) as [Eok|Hok].
  - pose proof Hreq as (l' & El' & Hkey). rewrite El in El'. injection El' as <-. destruct Hkey as [key Ekey]; [by left|].
    apply wp_bind, wp_deref. rewrite Ekey. cbv beta iota. apply wp_bind. eapply set_session_wp; [done|]. eapply wp_ret, HQ; [|cbn; apply lookup_insert_eq|done|done|done|done|done].
    eapply session_update_ok; [done|done|done|done|]. destruct (ok_sessions s Hs i x Ex) as (_ & [Hp Hq Hr] & _). split; [done|done|].
    intros key' m'. cbn. rewrite apr_hash_get_set. case_decide; [by intros [= <-]|apply Hr].
  - apply wp_bind, (get_session_wp _ x); [done|]. cbv beta. eapply wp_ret, HQ; [done|done|done|done|done|done|]. by intros _ sl' [= <-].
Qed.

Lemma session_cleared_ok i x s : server_ok s -> sessions s !! i = Some x ->
  server_ok (s <| sessions := <[i := x <| active_request := None |> <| terminating := true |>]> (sessions s) |>).
Proof.
  intros Hs Ex. eapply session_update_ok; [done|done|done|done|]. destruct (ok_sessions s Hs i x Ex) as (_ & [Hp Hq Hr] & _).
  split; cbn; [|by right|done]. unfold pending in Hp. by apply Forall_app in Hp as [_ Hp].
Qed.

(** What is put out when the next request of a queue is dispatched after the response [m]. *)
Definition served conn i (m : rtsp_message_t) (queue : list rtsp_message_t) s s' : Prop :=
  exists s1, delivered conn m s s1 /\ grew s [] s1 /\
    (if queue is m' :: _ then exists e, dispatch i m' e /\ grew s1 [e] s' else grew s1 [] s').

Lemma answered_wp conn i x a (m : rtsp_message_t) (terminate : bool) s Q : server_ok s -> sessions s !! i = Some x -> connection x = conn ->
  line_typed (rm_start_line m) ->
  (forall ok s' x', server_ok s' -> sessions s' !! i = Some x' ->
     (terminate = false -> pending x' = request_queue x /\ served conn i m (request_queue x) s s') -> Q ok s') ->
  wp False (set_session i (fun x => x <| last_cseq := cseq (rm_header m) |>) ;;;
            rtsp_server_message_send conn a m ;;;
            if terminate then set_session i (fun x => x <| active_request := None |>) ;;; rtsp_server_session_terminate_request i ;;; ret true
            else rtsp_next_request i ;;; ret true) s Q.
Proof.
  intros Hs Ex <- Hl HQ. apply wp_bind. eapply set_session_wp; [done|]. cbv beta.
  match goal with |- wp _ _ ?s0 _ => set (s1 := s0) end. set (x1 := x <| last_cseq := cseq (rm_header m) |>).
  assert (Ex1 : sessions s1 !! i = Some x1) by (cbn; apply lookup_insert_eq).
  assert (Hs1 : server_ok s1).
  { eapply session_update_ok; [done|done|done|done|]. by destruct (ok_sessions s Hs i x Ex) as (_ & [Hp Hq Hr] & _). }
  apply wp_bind, rtsp_send_delivered_wp; [exact (linked_sendable s1 i x1 Hs1 Ex1)|done|]. intros _ s2 Hq Hsent.
  assert (Hs2 : server_ok s2) by (by eapply quiet_ok). rewrite <-(quiet_sessions _ _ Hq) in Ex1. destruct terminate.
  - apply wp_bind. eapply set_session_wp; [done|]. cbv beta. apply wp_bind. eapply terminate_request_wp; [cbn; apply lookup_insert_eq| |].
    + cbn. rewrite insert_insert_eq. exact (session_cleared_ok i x1 s2 Hs2 Ex1).
    + intros ok s3 Hs3 Es _ _. eapply wp_ret, HQ; [done|rewrite Es; apply lookup_insert_eq|done].
  - apply wp_bind. eapply next_request_wp; [done|done|]. intros _ s3 x3 Hs3 Ex3 Ep Ecalls. eapply wp_ret, HQ; [done|done|]. intros _.
    split; [done|]. exists s2. split; [exact Hsent|]. split; [exact (quiet_grew s1 s2 Hq)|done].
Qed.

(** What an answer from the owner does: an announcement, or nothing if there is no request, leaves the
    requests alone; else the response is sent under the identifier of the session, the request that is answered leaves and
    the next one is dispatched, unless the session ends with it: after a DESCRIBE, and after a SETUP that is refused. *)
Definition answered i x (m : rtsp_message_t) s s' : Prop := forall request,
  active_request x = Some request -> rtsp_message_type (rm_start_line m) = RTSP_MESSAGE_TYPE_RESPONSE ->
  (forall l, common (rm_start_line request) = REQUEST_LINE l -> rl_method_id l <> RTSP_METHOD_DESCRIBE /\
     (rl_method_id l = RTSP_METHOD_SETUP -> exists sl, common (rm_start_line m) = STATUS_LINE sl /\ sl_status_code sl = RTSP_STATUS_CODE_OK)) ->
  exists x' m1, sessions s' !! i = Some x' /\ pending x' = tail (pending x) /\ session_id_put x m = Some m1 /\
    served (connection x) i m1 (tail (pending x)) s s'.

Lemma response_process_wp i x a (m : rtsp_message_t) s Q : server_ok s -> sessions s !! i = Some x -> message_ok m ->
  rtsp_message_type (rm_start_line m) <> RTSP_MESSAGE_TYPE_UNKNOWN -> (forall ok s', server_ok s' -> answered i x m s s' -> Q ok s') ->
  wp False (rtsp_server_session_response_process i a m) s Q.
Proof.
  intros Hs Ex Hm Ht HQ. unfold rtsp_server_session_response_process.
  destruct (rtsp_message_type (rm_start_line m)) eqn:Et; [done|eapply announce_wp; try done|].
  { intros ok s' Hs'. apply HQ; [done|]. intros request _ E. by rewrite E in Et. }
  apply wp_bind, (get_session_wp _ x); [done|]. cbv beta. destruct (active_request x) as [request|] eqn:Ea.
  2: { apply wp_ret, HQ; [done|]. intros request E. by rewrite E in Ea. }
  destruct (ok_sessions s Hs i x Ex) as (_ & [Hp _ _] & _). unfold pending in Hp. rewrite Ea in Hp. inversion_clear Hp as [|? ? Hreq _].
  pose proof Hreq as (l & El & _). apply wp_bind, wp_deref. unfold request_line_of. rewrite El. cbv beta iota.
  assert (Hdone : forall terminate ok s1 s' x1 x' m1, server_ok s' -> sessions s' !! i = Some x' -> request_queue x1 = request_queue x ->
    server_out s1 = server_out s -> connections s1 = connections s ->
    (terminate = false -> pending x' = request_queue x1 /\ session_id_put x m = Some m1 /\ served (connection x) i m1 (request_queue x1) s1 s') ->
    (terminate = true -> rl_method_id l = RTSP_METHOD_DESCRIBE \/ rl_method_id l = RTSP_METHOD_SETUP /\ forall sl, common (rm_start_line m) = STATUS_LINE sl -> sl_status_code sl <> RTSP_STATUS_CODE_OK) -> Q ok s').
  { intros terminate ok s1 s' x1 x' m1 Hs' Ex' Eq Eout Econn Hnext Hend. apply HQ; [done|]. intros r Er _ Hok. rewrite Ea in Er. injection Er as <-.
    destruct (Hok l El) as [Hnd Hsetup]. destruct terminate.
    - destruct (Hend eq_refl) as [Hd|[Es Hne]]; [done|]. destruct (Hsetup Es) as (sl & Esl & E). by destruct (Hne sl Esl).
    - destruct (Hnext eq_refl) as (Ep & Em & Hd). rewrite Eq in *. exists x', m1. unfold pending at 2 3. rewrite Ea. cbn [option_list tail app].
      split_and!; [done|done|done|]. destruct Hd as (s2 & D1 & D2 & D3). exists s2. split_and!; [|by unfold grew in *; rewrite <-Eout|done].
      intros c k reason. rewrite <-Econn, <-Eout. apply D1. }
  apply wp_bind. destruct (Z.eqb_spec (rl_method_id l) RTSP_METHOD_DESCRIBE) as [Ed|_].
  - apply wp_ret, (answered_wp (connection x) i x a m true); [done|done|done|apply Hm|].
    intros ok s' x' Hs' Ex' Hn. apply (Hdone true ok s s' x x' m); auto. done.
  - destruct (session_id_put_defined x m Hm) as (m' & Em' & [_ Hl'] & El' & _). apply wp_bind, wp_deref. rewrite Em'.
    destruct (Z.eqb_spec (rl_method_id l) RTSP_METHOD_SETUP) as [Es|_].
    + apply wp_bind. eapply setup_answered_wp; [done|done|done|done|done|done|by rewrite El', Et|].
      intros t s1 x1 Hs1 Ex1 Ec1 Eq1 Eout1 Econn1 Hend. apply wp_ret, (answered_wp (connection x) i x1 a m' t); [done|done|done|done|].
      intros ok s' x' Hs' Ex' Hn. apply (Hdone t ok s1 s' x1 x' m'); try done.
      * intros E. destruct (Hn E) as [Hn1 Hn2]. done.
      * intros E. right. split; [done|]. rewrite <-El'. auto.
    + apply wp_ret, (answered_wp (connection x) i x a m' false); [done|done|done|done|].
      intros ok s' x' Hs' Ex' Hn. apply (Hdone false ok s s' x x' m'); try done. intros E. destruct (Hn E) as [Hn1 Hn2]. done.
Qed.

(** The answer to the request that ends a session. *)
Lemma last_response_wp i x s Q : server_ok s -> sessions s !! i = Some x -> (forall s', quiet s s' -> Q tt s') ->
  wp False (match active_request x with
            | Some request =>
                let* response := deref_ptr (rtsp_response_create request RTSP_STATUS_CODE_OK RTSP_REASON_PHRASE_OK) in
                let* response := deref_ptr (session_id_put x response) in
                let* b := fresh_address in
                rtsp_server_message_send (connection x) b response ;;; ret tt
            | None => ret tt
            end) s Q.
Proof.
  intros Hs Ex HQ. destruct (active_request x) as [request|] eqn:Ea; [|by apply wp_ret, HQ].
  destruct (ok_sessions s Hs i x Ex) as (_ & [Hp _ _] & _). unfold pending in Hp. rewrite Ea in Hp. inversion_clear Hp as [|? ? Hreq _].
  destruct (response_create_defined request RTSP_STATUS_CODE_OK RTSP_REASON_PHRASE_OK Hreq) as (r & Er & Hr).
  apply wp_bind, wp_deref. rewrite Er. apply wp_bind, session_id_put_wp; [done|]. intros r' [_ Hr'] _.
  apply wp_bind, fresh_address_wp. intros s1 Hq1 _ _. apply wp_bind, rtsp_send_wp; [|done|].
  - eapply sendable_quiet; [done|by eapply linked_sendable].
  - intros _ s2 Hq2. apply wp_ret, HQ. by etransitivity.
Qed.

(** The session ends, and a connection that was closed ends with its last session. *)
Lemma do_terminate_wp i x s Q : server_ok s -> sessions s !! i = Some x -> (forall ok s', server_ok s' -> sessions s' = delete i (sessions s) -> Q ok s') ->
  wp False (rtsp_server_session_do_terminate i) s Q.
Proof.
  intros Hs Ex HQ. unfold rtsp_server_session_do_terminate. apply wp_bind, (get_session_wp _ x); [done|]. cbv beta.
  apply wp_bind, (last_response_wp i x); [done|done|]. intros s1 Hq. assert (Hs1 : server_ok s1) by (by eapply quiet_ok).
  rewrite <-(quiet_sessions _ _ Hq) in Ex, HQ. clear Hq Hs. pose proof (ok_sessions s1 Hs1 i x Ex) as (_ & _ & c & k & Ec & Ek & _). rewrite Ec.
  apply wp_bind. unfold session_table_remove. eapply set_conn_wp; [done|]. cbv beta.
  apply wp_bind. unfold rtsp_server_session_destroy. apply wp_bind. eapply get_session_wp; [done|]. apply wp_modify.
  apply wp_bind. eapply get_conn_wp; [cbn; apply lookup_insert_eq|]. cbv beta. cbn [it session_table field_set].
  destruct (negb (it k) && (apr_hash_count (apr_hash_unset (session_table k) (str_data (id x))) =? 0)) eqn:Eb.
  - apply wp_bind. unfold rtsp_server_connection_destroy. apply wp_bind. eapply get_conn_wp; [cbn; apply lookup_insert_eq|].
    apply wp_modify, wp_ret, HQ; [|done]. eapply (unregister_ok s1 _ i x c k); try done. cbv zeta. rewrite Eb. cbn. by rewrite delete_insert_eq.
  - apply wp_ret, HQ; [|done]. eapply (unregister_ok s1 _ i x c k); try done. cbv zeta. by rewrite Eb.
Qed.

(** * Connections *)

Lemma accept_wp outcome s Q : server_ok s -> (forall ok s', server_ok s' -> Q ok s') -> wp False (rtsp_server_connection_accept outcome) s Q.
Proof.
  intros Hs HQ. destruct outcome as [| |remote polled]; [by apply wp_ret, HQ|by apply wp_ret, HQ|]. unfold rtsp_server_connection_accept.
  apply wp_bind, wp_bind, wp_gets, wp_bind, wp_modify, wp_ret. destruct polled; cbn [negb].
  - apply wp_bind, wp_modify, wp_ret, HQ. destruct (next_free s Hs) as [_ Hfree]. destruct Hs as [H1 H2 H3]. set (k := mk_rtsp_connection _ _ _ _ _ _ _ _).
    split; cbn.
    + intros i x Ex. destruct (H1 i x Ex) as (Ha & Hb & c & k' & C1 & C2 & C3). split_and!; [lia|done|].
      exists c, k'. split_and!; [done| |done]. cbn. rewrite lookup_insert_ne; [done|]. intros <-. by rewrite Hfree in C2.
    + intros c k' E. destruct (decide (c = next_address s)) as [->|Hne].
      * rewrite lookup_insert_eq in E. injection E as <-. split; [lia|]. split; cbn; try done.
        -- split; [by split|apply apr_palloc_length].
        -- split; [|done]. intros _. eexists. split; [reflexivity|]. rewrite elem_of_app. right. by apply list_elem_of_singleton.
        -- intros key i. by rewrite apr_hash_get_make.
      * rewrite lookup_insert_ne in E by done. destruct (H2 c k' E) as (Ha & [B1 B2 B3 B4 B5]). split; [lia|]. split; cbn; try done.
        rewrite B3. split.
        -- intros (l & El & Hin). rewrite El. eexists. split; [reflexivity|]. cbn. apply elem_of_app. by left.
        -- intros (l & [= <-] & Hin). apply elem_of_app in Hin as [Hin|Hin%list_elem_of_singleton]; [|by subst].
           destruct (connection_list s) as [l|]; [by exists l|by apply elem_of_nil in Hin].
    + intros l c [= <-] Hin. destruct (decide (c = next_address s)) as [->|Hne]; [rewrite lookup_insert_eq; eauto|]. rewrite lookup_insert_ne by done.
      apply elem_of_app in Hin as [Hin|Hin%list_elem_of_singleton]; [|by subst].
      destruct (connection_list s) as [l|] eqn:El; [by eapply H3|by apply elem_of_nil in Hin].
  - apply wp_bind, wp_modify, wp_ret, HQ. apply (alike_ok s); [done|done|done|cbn; lia|]. intros c. apply (alike_refl s).
Qed.

Lemma sessions_terminate_wp (l : list addr) : forall s Q, server_ok s -> Forall (fun i => is_Some (sessions s !! i)) l ->
  (forall s', server_ok s' -> Q tt s') -> wp False (sessions_terminate l) s Q.
Proof.
  induction l as [|i l IH]; intros s Q Hs Hl HQ; [by apply wp_ret, HQ|]. inversion_clear Hl as [|? ? [x Ex] Hl']. cbn [sessions_terminate].
  apply wp_bind, (get_session_wp _ x); [done|]. cbv beta. apply wp_bind. destruct (terminating x); [by apply wp_ret, IH|].
  apply wp_bind. eapply terminate_request_wp; [done|by apply terminating_ok|]. intros _ s' Hs' Es _ _. apply wp_ret, IH; [done| |done].
  rewrite Es. eapply Forall_impl; [|exact Hl']. intros j Hj. cbv beta. destruct (decide (j = i)) as [->|Hne]; [rewrite lookup_insert_eq; eauto|by rewrite lookup_insert_ne].
Qed.

(** A connection loses its socket and its place in the list. *)
Lemma closed_ok s s' c k l : server_ok s -> connections s !! c = Some k -> connection_list s = Some l ->
  sessions s' = sessions s -> next_address s' = next_address s ->
  connection_list s' = (let l' := List.filter (fun a => negb (a =? c)%nat) l in match l' with [] => None | _ => Some l' end) ->
  (if apr_hash_count (session_table k) =? 0 then connections s' = delete c (connections s)
   else connections s' = <[c := k <| sock := false |> <| it := false |>]> (connections s)) -> server_ok s'.
Proof.
  intros [H1 H2 H3] Ek El Es En El' Ecs.
  assert (Hl' : forall c', (exists l', connection_list s' = Some l' /\ c' ∈ l') <-> c' <> c /\ c' ∈ l).
  { intros c'. transitivity (c' ∈ List.filter (fun a => negb (a =? c)%nat) l).
    - rewrite El'. cbv zeta. destruct (List.filter _ l) as [|y l0]; split; [by intros (? & ? & _)|by intros ?%elem_of_nil|by intros (? & [= <-] & ?)|eauto].
    - rewrite !list_elem_of_In, filter_In, negb_true_iff, Nat.eqb_neq. tauto. }
  assert (Hnone : forall i x, sessions s !! i = Some x -> connection x = Some c -> apr_hash_count (session_table k) <> 0).
  { intros i x Ex Ec. destruct (H1 i x Ex) as (_ & _ & c' & k' & C1 & C2 & C3). rewrite Ec in C1. injection C1 as <-. rewrite Ek in C2. injection C2 as <-.
    by eapply hash_get_count. }
  split; rewrite ?Es, ?En.
  - intros i x Ex. destruct (H1 i x Ex) as (Ha & Hb & c' & k' & C1 & C2 & C3). split_and!; [done|done|].
    destruct (decide (c' = c)) as [->|Hne].
    + rewrite (proj2 (Z.eqb_neq _ _) (Hnone i x Ex C1)) in Ecs. rewrite Ek in C2. injection C2 as <-.
      eexists c, _. by rewrite Ecs, lookup_insert_eq.
    + exists c', k'. destruct (_ =? 0); rewrite Ecs; [by rewrite lookup_delete_ne|by rewrite lookup_insert_ne].
  - intros c' k' E. destruct (decide (c' = c)) as [->|Hne].
    + destruct (Z.eqb_spec (apr_hash_count (session_table k)) 0) as [_|Hz]; rewrite Ecs in E; [by rewrite lookup_delete_eq in E|].
      rewrite lookup_insert_eq in E. injection E as <-. destruct (H2 c k Ek) as (Ha & [B1 B2 B3 B4 B5]). split; [done|]. split; cbn; rewrite ?Es; try done.
      rewrite Hl'. split; [done|]. by intros [? _].
    + assert (E0 : connections s !! c' = Some k') by (destruct (_ =? 0); rewrite Ecs in E; [by rewrite lookup_delete_ne in E|by rewrite lookup_insert_ne in E]).
      destruct (H2 c' k' E0) as (Ha & [B1 B2 B3 B4 B5]). split; [done|]. split; rewrite ?Es; try done. rewrite Hl', B3, El. split.
      * by intros (? & [= <-] & ?).
      * intros [_ Hin]. eauto.
  - intros l0 c' E Hin. destruct (proj1 (Hl' c') (ex_intro _ l0 (conj E Hin))) as [Hne Hin']. destruct (H3 l c' El Hin') as [k' E']. exists k'.
    destruct (_ =? 0); rewrite Ecs; [by rewrite lookup_delete_ne|by rewrite lookup_insert_ne].
Qed.

Lemma close_wp c k s Q : server_ok s -> connections s !! c = Some k -> (forall ok s', server_ok s' -> Q ok s') ->
  wp False (rtsp_server_connection_close c) s Q.
Proof.
  intros Hs Ek HQ. unfold rtsp_server_connection_close. apply wp_bind, (get_conn_wp _ k); [done|]. cbv beta.
  destruct (ok_connections s Hs c k Ek) as (_ & [B1 B2 B3 B4 B5]). destruct (sock k) eqn:Esock; cbn [negb]; [|by apply wp_ret, HQ].
  destruct (proj1 B3 B2) as (l & El & _). apply wp_bind, wp_modify, wp_bind, wp_gets, wp_bind, wp_deref. cbn [connection_list field_set]. rewrite El.
  apply wp_bind. eapply set_conn_wp; [done|]. cbv beta. apply wp_bind, wp_modify, wp_bind.
  destruct (apr_hash_count (session_table k) =? 0) eqn:Ez.
  - unfold rtsp_server_connection_destroy. apply wp_bind. eapply get_conn_wp; [cbn; apply lookup_insert_eq|]. apply wp_modify, wp_ret, HQ.
    eapply (closed_ok s _ c k l); try done. rewrite Ez. cbn. by rewrite delete_insert_eq.
  - apply sessions_terminate_wp.
    + eapply (closed_ok s _ c k l); try done. by rewrite Ez.
    + destruct (apr_hash_values_entries (session_table k)) as (ks & _ & Hks & _). apply Forall_forall. intros i Hi%list_elem_of_In.
      apply list_elem_of_lookup in Hi as [n Hn]. destruct (Forall2_lookup_r _ _ _ _ _ Hks Hn) as (key & _ & Hkey).
      destruct (B5 key i Hkey) as (x & Ex & _). by exists x.
    + intros s' Hs'. by apply wp_ret, HQ.
Qed.

(** * Operations *)

(** What the task of the server does: connections are accepted and closed, messages arrive complete or
    broken, messages of the owner are processed. *)
Inductive server_op :=
| ACCEPT (outcome : rtsp_accept_outcome)
| RECEIVED (c : addr) (m : rtsp_message_t)
| BROKEN (c : addr) (m : option rtsp_message_t)
| CLOSE (c : addr)
| TASK (msg : task_msg_data_t).

Definition op_run (op : server_op) : prog rtsp_server_t bool :=
  match op with
  | ACCEPT outcome => rtsp_server_connection_accept outcome
  | RECEIVED c m => rtsp_server_message_handler c (Some m) APT_MESSAGE_STATUS_COMPLETE
  | BROKEN c m => rtsp_server_message_handler c m APT_MESSAGE_STATUS_INVALID
  | CLOSE c => rtsp_server_connection_close c
  | TASK msg => rtsp_server_task_msg_process msg
  end.

(** Connections and sessions are live; requests name a resource where the server needs one; the first
    request of a session gets an identifier of its own and is not refused by the owner; the messages of
    the owner are of the type of their lines. *)
Definition op_allowed (op : server_op) s : Prop :=
  match op with
  | ACCEPT _ => True
  | RECEIVED c m => exists k, connections s !! c = Some k /\
      (rtsp_message_type (rm_start_line m) = RTSP_MESSAGE_TYPE_REQUEST -> request_ok m) /\
      (rtsp_header_property_check (rm_header m) RTSP_HEADER_FIELD_SESSION_ID = false -> first_allowed s k (destination_default k m))
  | BROKEN c m => is_Some (connections s !! c) /\ forall r, m = Some r -> request_ok r
  | CLOSE c => is_Some (connections s !! c)
  | TASK (TASK_MSG_SEND_MESSAGE i _ m) => is_Some (sessions s !! i) /\ message_ok m /\ rtsp_message_type (rm_start_line m) <> RTSP_MESSAGE_TYPE_UNKNOWN
  | TASK (TASK_MSG_TERMINATE_SESSION i) => is_Some (sessions s !! i)
  end.

Inductive server_reaches : rtsp_server_t -> Prop :=
| reaches_start : server_reaches rtsp_server_create
| reaches_step op s b s' : server_reaches s -> op_allowed op s -> op_run op s = Some (b, s') -> server_reaches s'.

Lemma destination_default_same k (m : rtsp_message_t) :
  rm_start_line (destination_default k m) = rm_start_line m /\
  forall j, rtsp_header_property_check (rm_header (destination_default k m)) j = rtsp_header_property_check (rm_header m) j.
Proof. unfold destination_default. by destruct (str_buf _), (client_ip k). Qed.

Lemma op_wp op s Q : server_ok s -> op_allowed op s -> (forall b s', server_ok s' -> Q b s') -> wp False (op_run op) s Q.
Proof.
  intros Hs Ha HQ. destruct op as [outcome|c m|c m|c|[i a m|i]]; cbn [op_run op_allowed] in *.
  - by apply accept_wp.
  - destruct Ha as (k & Ek & Hm & Hf). destruct (destination_default_same k m) as [El Eh].
    apply wp_bind, wp_deref, wp_bind, (get_conn_wp _ k); [done|]. cbv beta zeta. apply wp_bind, (request_process_wp c k); [done|done| | |].
    + rewrite El. intros Et. unfold request_ok. rewrite El. by apply Hm.
    + by rewrite Eh.
    + intros b s' Hs'. by apply wp_ret, HQ.
  - destruct Ha as [[k Ek] Hr]. destruct m as [r|]; [|by apply wp_ret, HQ]. apply wp_bind, error_respond_wp; [done|by eapply connection_sendable|by apply Hr|].
    intros b s' Hs' _. by apply wp_ret, HQ.
  - destruct Ha as [k Ek]. by apply (close_wp c k).
  - destruct Ha as ([x Ex] & Hm & Ht). apply wp_bind, (response_process_wp i x); [done|done|done|done|]. intros b s' Hs' _. by apply wp_ret, HQ.
  - destruct Ha as [x Ex]. apply wp_bind, (do_terminate_wp i x); [done|done|]. intros b s' Hs' _. by apply wp_ret, HQ.
Qed.

Lemma server_reaches_ok s : server_reaches s -> server_ok s.
Proof.
  induction 1 as [|op s b s' _ IH Ha E]; [apply server_create_ok|].
  destruct (wp_total _ _ _ (op_wp op s (fun _ s' => server_ok s') IH Ha (fun _ _ H => H))) as (b0 & s0 & E0 & H). by simplify_eq.
Qed.

(** C22: in every state the server reaches, what it is allowed to be asked next is defined: no connection
    or session is used after it was destroyed, no message is sent beyond its buffer and every message is
    generated in finitely many pieces; a session is found under its identifier in the table of a live connection,
    what the tables name are live sessions, and a connection without a socket is kept for its sessions. *)
Theorem rtsp_server_safe s : server_reaches s ->
  (forall op, op_allowed op s -> exists b s', op_run op s = Some (b, s')) /\
  (forall i x, sessions s !! i = Some x -> exists c k, connection x = Some c /\ connections s !! c = Some k /\
     apr_hash_get (session_table k) (str_data (id x)) = Some i) /\
  (forall c k key i, connections s !! c = Some k -> apr_hash_get (session_table k) key = Some i ->
     exists x, sessions s !! i = Some x /\ connection x = Some c) /\
  (forall c k, connections s !! c = Some k -> sock k = false -> exists key i, apr_hash_get (session_table k) key = Some i).
Proof.
  intros Hs%server_reaches_ok. split_and!.
  - intros op Ha. destruct (wp_total _ _ _ (op_wp op s (fun _ _ => True) Hs Ha (fun _ _ _ => I))) as (b & s' & E & _). by exists b, s'.
  - intros i x Ex. by apply (ok_sessions s Hs i x).
  - intros c k key i Ek Hi. destruct (ok_connections s Hs c k Ek) as (_ & [_ _ _ _ B5]). destruct (B5 key i Hi) as (x & Ex & Ec & _). by exists x.
  - intros c k Ek Hk. destruct (ok_connections s Hs c k Ek) as (_ & [_ B2 _ B4 _]). rewrite Hk in B2.
    destruct (apr_hash_values_entries (session_table k)) as (ks & _ & Hks & Hall). specialize (B4 B2). destruct ks as [|key ks].
    + exfalso. apply B4, apr_hash_count_zero. intros key. apply eq_None_not_Some. intros Hsome%Hall. by apply elem_of_nil in Hsome.
    + inversion Hks; subst. eauto.
Qed.

(** C23: a request of a session that is not about to end is put behind the requests of the session that were not
    answered yet; the owner is called for it at once if there is none, and not called otherwise. *)
Theorem rtsp_request_waits c k i x (m : rtsp_message_t) s :
  server_reaches s -> connections s !! c = Some k -> rtsp_message_type (rm_start_line m) = RTSP_MESSAGE_TYPE_REQUEST -> request_ok m ->
  rtsp_header_property_check (rm_header m) RTSP_HEADER_FIELD_SESSION_ID = true ->
  apr_hash_get (session_table k) (str_data (rtsp_session_id (rm_header m))) = Some i -> sessions s !! i = Some x -> terminating x = false ->
  exists b s' x', rtsp_server_session_request_process c m s = Some (b, s') /\ sessions s' !! i = Some x' /\ pending x' = pending x ++ [m] /\
    (if pending x is [] then exists e, dispatch i m e /\ calls s' = calls s ++ [e] else calls s' = calls s).
Proof.
  intros Hs%server_reaches_ok Ek Et Hm Hid Ei Ex Hx.
  assert (H : wp False (rtsp_server_session_request_process c m) s (fun _ s' => exists x', sessions s' !! i = Some x' /\ pending x' = pending x ++ [m] /\
    (if pending x is [] then exists e, dispatch i m e /\ calls s' = calls s ++ [e] else calls s' = calls s))).
  { unfold rtsp_server_session_request_process. rewrite Et, Hid. cbn [negb]. apply wp_bind, (get_conn_wp _ k); [done|]. cbv beta. rewrite Ei.
    apply wp_bind, (get_session_wp _ x); [done|]. cbv beta. rewrite Hx. apply (session_request_wp i x); [done|done|done|done|]. eauto. }
  destruct (wp_total _ _ _ H) as (b & s' & E & x' & R). by exists b, s', x'.
Qed.

(** C24: the response to the active request of a session, under the identifier of the session, is sent on its open connection,
    whole if it is a response that can be generated and fits into the buffer of the connection; then the request leaves and the
    owner is called for the next one that waits, if there is one, and for nothing else: requests are answered one at a time,
    in the order of their arrival.  This is about the requests a session survives: a DESCRIBE and a SETUP that is refused end
    the session, and the requests that wait are then dropped. *)
Theorem rtsp_response_serves_next i x a (request m : rtsp_message_t) l s c k :
  server_reaches s -> sessions s !! i = Some x -> active_request x = Some request -> common (rm_start_line request) = REQUEST_LINE l ->
  rl_method_id l <> RTSP_METHOD_DESCRIBE ->
  (rl_method_id l = RTSP_METHOD_SETUP -> exists sl, common (rm_start_line m) = STATUS_LINE sl /\ sl_status_code sl = RTSP_STATUS_CODE_OK) ->
  message_ok m -> rtsp_message_type (rm_start_line m) = RTSP_MESSAGE_TYPE_RESPONSE ->
  connection x = Some c -> connections s !! c = Some k -> sock k = true ->
  exists b s' x' m1 sent rest, rtsp_server_session_response_process i a m s = Some (b, s') /\
    sessions s' !! i = Some x' /\ pending x' = tail (pending x) /\ session_id_put x m = Some m1 /\
    server_out s' = server_out s ++ sent ++ rest /\ List.filter is_call sent = [] /\
    (forall reason, rtsp_sendable m1 reason -> (length (rtsp_wire m1 reason) < RTSP_STREAM_BUFFER_SIZE - 1)%nat ->
       sent = [SOCKET_SEND c (rtsp_wire m1 reason)]) /\
    (if tail (pending x) is m' :: _ then exists e, dispatch i m' e /\ List.filter is_call rest = [e] else List.filter is_call rest = []).
Proof.
  intros Hs%server_reaches_ok Ex Ea El Hd Hsetup Hm Et Ec Ek Hk.
  assert (Hu : rtsp_message_type (rm_start_line m) <> RTSP_MESSAGE_TYPE_UNKNOWN) by (by rewrite Et).
  destruct (wp_total _ _ _ (response_process_wp i x a m s (fun _ s' => answered i x m s s') Hs Ex Hm Hu (fun _ _ _ H => H))) as (b & s' & E & H).
  destruct (H request Ea Et) as (x' & m1 & Ex' & Ep & Em1 & s1 & Hsent & (sent & Es1 & Hcalls) & Hrest).
  { intros l' El'. rewrite El in El'. by injection El' as <-. }
  assert (Hr : exists rest, server_out s' = server_out s1 ++ rest /\
    (if tail (pending x) is m' :: _ then exists e, dispatch i m' e /\ List.filter is_call rest = [e] else List.filter is_call rest = [])).
  { destruct (tail (pending x)) as [|m' q]; [exact Hrest|]. destruct Hrest as (e & He & rest & Er & Hf). exists rest. eauto. }
  destruct Hr as (rest & Er & Hf). exists b, s', x', m1, sent, rest. split_and!; try done; [by rewrite Er, Es1, app_assoc|].
  intros reason Hm1 Hfit. specialize (Hsent c k reason Ec Ek Hk Hm1 Hfit). rewrite Es1 in Hsent. by apply app_inv_head in Hsent.
Qed.

(** A session that is gone but still to be asked to end. *)
Lemma sessions_terminate_gone (l : list addr) : forall s i, i ∈ l -> sessions s !! i = None -> sessions_terminate l s = None.
Proof.
  induction l as [|j l IH]; intros s i Hin Hi; [by apply elem_of_nil in Hin|]. cbn [sessions_terminate]. unfold get_session, bind, gets, deref_ptr.
  destruct (sessions s !! j) as [x|] eqn:Ej; [|done]. assert (Hne : i <> j) by (intros ->; by rewrite Hi in Ej).
  apply elem_of_cons in Hin as [->|Hin]; [done|]. unfold ret at 1. destruct (terminating x); [by apply (IH s i)|].
  unfold rtsp_server_session_terminate_request, set_session, get_session, call, tell, bind, gets, modify, ret, deref_ptr. rewrite Ej.
  apply (IH _ i); [done|]. cbn. by rewrite lookup_insert_ne.
Qed.

(** C37: a first request the owner refuses destroys its session, but the connection keeps the session in
    its table: when the connection is closed, the session that was destroyed is used. *)
Theorem rtsp_first_request_refused c k (m : rtsp_message_t) l s : server_reaches s -> connections s !! c = Some k -> sock k = true ->
  rtsp_message_type (rm_start_line m) = RTSP_MESSAGE_TYPE_REQUEST -> request_ok m -> common (rm_start_line m) = REQUEST_LINE l ->
  rl_method_id l = RTSP_METHOD_SETUP \/ rl_method_id l = RTSP_METHOD_DESCRIBE ->
  rtsp_header_property_check (rm_header m) RTSP_HEADER_FIELD_SESSION_ID = false ->
  apr_hash_get (session_table k) (str_data (next_id s)) = None -> create_session (server_out s) (next_address s) = true ->
  handle_message (server_out s ++ [CREATE_SESSION (next_address s)]) (next_address s) m = false ->
  exists b s', rtsp_server_session_request_process c m s = Some (b, s') /\ sessions s' !! next_address s = None /\
    (exists k', connections s' !! c = Some k' /\ apr_hash_get (session_table k') (str_data (next_id s)) = Some (next_address s)) /\
    rtsp_server_connection_close c s' = None.
Proof.
  intros Hs%server_reaches_ok Ek Hsock Et Hm El Hmethod Hid Hfree Hcreate Hrefuse.
  apply wp_total. unfold rtsp_server_session_request_process. rewrite Et, Hid. cbn [negb].
  apply wp_bind, (setup_process_wp c k m l); [done|done|done|done|done| |].
  { intros Hno. rewrite Hno in Hcreate; [discriminate|by destruct Hmethod; [left|right]]. }
  intros _ Hl s1 Hs1 Ex1 Elist Eo. apply bind_assoc, wp_bind, (first_dispatch_wp c _ m l (next_id s)); [done|done|done|done|done|].
  intros s2 x2 Hs2 Ex2 Ec2 Ei2 Elist2. rewrite Eo, Hrefuse. cbn [negb].
  apply wp_bind. unfold rtsp_server_session_destroy. apply wp_bind, (get_session_wp _ x2); [done|]. apply wp_modify, wp_ret.
  destruct (ok_sessions s2 Hs2 _ x2 Ex2) as (_ & _ & c2 & k2 & Ec & Ek2 & Et2). rewrite Ec2 in Ec. injection Ec as <-. rewrite Ei2 in Et2.
  cbn [sessions connections field_set]. rewrite lookup_delete_eq. split; [done|]. split; [by exists k2|].
  destruct (ok_connections s Hs c k Ek) as (_ & [_ A2 A3 _ _]). destruct (proj1 A3 (eq_trans A2 Hsock)) as (q & Eq & Hin).
  destruct (ok_connections s2 Hs2 c k2 Ek2) as (_ & [_ B2 B3 _ _]). rewrite <-Elist, <-Elist2 in Eq.
  assert (Hs2k : sock k2 = true) by (rewrite <-B2; apply B3; by exists q).
  destruct (apr_hash_values_entries (session_table k2)) as (ks & _ & Hks & Hall).
  destruct (proj1 (list_elem_of_lookup _ _) (Hall _ (ex_intro _ _ Et2))) as [n Hn]. destruct (Forall2_lookup_l _ _ _ _ _ Hks Hn) as (j & Hj & Ej).
  rewrite Et2 in Ej. injection Ej as <-. apply list_elem_of_lookup_2 in Hj.
  unfold rtsp_server_connection_close, set_conn, get_conn, tell, bind, gets, modify, deref_ptr. cbn [connections connection_list sessions field_set].
  rewrite Ek2. unfold ret. cbn beta iota. rewrite Hs2k. cbn beta iota delta [negb]. cbn [connections connection_list sessions field_set]. rewrite Eq. cbn beta iota. cbn [connections connection_list sessions field_set]. rewrite Ek2. cbn beta iota.
  rewrite (proj2 (Z.eqb_neq _ _) (hash_get_count _ _ _ Et2)).
  rewrite (sessions_terminate_gone _ _ (next_address s)); [done|done|cbn; apply lookup_delete_eq].
Qed.
End Safety.

(** * Runs of a server *)

#[local] Existing Instance apr_reference.
#[local] Instance sample_sessions : AprHash addr := apr_hash_reference addr.
#[local] Instance sample_sessions_laws : AprHashLaws sample_sessions := apr_hash_reference_laws addr.
#[local] Instance sample_resources : AprHash rtsp_message_t := apr_hash_reference rtsp_message_t.
#[local] Instance sample_resources_laws : AprHashLaws sample_resources := apr_hash_reference_laws rtsp_message_t.

(** An owner that takes every request or none, and sockets that take everything. *)
Definition sample_world (takes : bool) : RtspServerWorld := {|
  create_session _ _ := true;
  terminate_session _ _ := true;
  handle_message _ _ _ := takes;
  socket_send _ _ _ := true;
  session_uuid _ i := replicate 8 (char_of (Z.of_nat i))
|}.

Definition sample_setup_line : rtsp_request_line_t :=
  mk_request_line (str_lit "SETUP") RTSP_METHOD_SETUP (str_lit "rtsp://host/media") (Some (lit "media" ++ [NUL])) RTSP_VERSION_1.
Definition sample_setup : rtsp_message_t :=
  mk_rtsp_message (mk_rtsp_start_line RTSP_MESSAGE_TYPE_REQUEST (REQUEST_LINE sample_setup_line))
    (rtsp_header_init <| cseq := 7 |>) apt_string_reset.
(** Another request, of the session that has the identifier of address 1. *)
Definition sample_next : rtsp_message_t :=
  sample_setup <| rm_header := rtsp_header_init <| rtsp_session_id := str_lit "0101010101010101" |>
    <| rtsp_header_section := mk_section [(0%nat, mk_field (str_lit "Session") (str_lit "0101010101010101") RTSP_HEADER_FIELD_SESSION_ID)]
                                [None; None; Some 0%nat; None; None; None] 1 |> |>.
Definition sample_answer : rtsp_message_t := default sample_setup (rtsp_response_create sample_setup RTSP_STATUS_CODE_OK RTSP_REASON_PHRASE_OK).

(** The state after an operation. *)
Definition after {takes : bool} (op : server_op) (s : rtsp_server_t) : rtsp_server_t :=
  match @op_run _ _ _ (sample_world takes) op s with Some (_, s') => s' | None => s end.
Definition sample_accepted (takes : bool) : rtsp_server_t := @after takes (ACCEPT (RTSP_ACCEPT_SOCKET None true)) rtsp_server_create.
Definition sample_running : rtsp_server_t := @after true (RECEIVED 0%nat sample_setup) (sample_accepted true).

Lemma sample_setup_ok : request_ok sample_setup.
Proof. eexists. split; [reflexivity|]. intros _. by eexists. Qed.

Lemma after_reached (takes : bool) (op : server_op) (s : rtsp_server_t) : @server_reaches _ _ _ (sample_world takes) s ->
  @op_allowed _ _ _ (sample_world takes) op s -> @server_reaches _ _ _ (sample_world takes) (@after takes op s).
Proof.
  intros Hr Ha. destruct (wp_total _ _ _ (@op_wp _ apr_reference_laws _ _ _ _ (sample_world takes) op s (fun _ _ => True)
    (@server_reaches_ok _ apr_reference_laws _ _ _ _ (sample_world takes) s Hr) Ha (fun _ _ _ => I))) as (b & s' & E & _).
  unfold after. rewrite E. by eapply reaches_step.
Qed.

(** A connection is there, and something is true of it. *)
Lemma find_connection (P : rtsp_server_connection_t -> bool) (c : addr) (s : rtsp_server_t) :
  match connections s !! c with Some k => P k | None => false end = true -> exists k, connections s !! c = Some k /\ P k = true.
Proof. destruct (connections s !! c) as [k|]; [eauto|done]. Qed.

Lemma sample_accepted_reached (takes : bool) : @server_reaches _ _ _ (sample_world takes) (sample_accepted takes).
Proof. apply after_reached; [apply reaches_start|exact I]. Qed.

Lemma sample_received_allowed : @op_allowed _ _ _ (sample_world true) (RECEIVED 0%nat sample_setup) (sample_accepted true).
Proof.
  destruct (find_connection (fun k => bool_decide (apr_hash_get (session_table k) (str_data (@next_id _ _ _ (sample_world true) (sample_accepted true))) = None))
    0%nat (sample_accepted true)) as (k & Ek & Hk); [vm_compute; reflexivity|].
  exists k. split; [exact Ek|]. split; [intros _; exact sample_setup_ok|]. intros _. split; [by apply bool_decide_eq_true in Hk|done].
Qed.

Lemma sample_running_reached : @server_reaches _ _ _ (sample_world true) sample_running.
Proof. apply after_reached; [apply sample_accepted_reached|exact sample_received_allowed]. Qed.

(** The first request of a session. *)
Lemma rtsp_server_safe_witness : exists b s', @op_run _ _ _ (sample_world true) (RECEIVED 0%nat sample_setup) (sample_accepted true) = Some (b, s').
Proof.
  destruct (@rtsp_server_safe _ apr_reference_laws _ _ _ _ (sample_world true) (sample_accepted true) (sample_accepted_reached true)) as [H _].
  exact (H _ sample_received_allowed).
Defined.

Definition sample_session : rtsp_server_session_t :=
  mk_rtsp_session (Some 0%nat) (apt_unique_id_generate (replicate 8 (char_of 1)) RTSP_SESSION_ID_HEX_STRING_LENGTH) 0 (Some sample_setup) [] apr_hash_make false.

Lemma sample_session_running : sessions sample_running !! 1%nat = Some sample_session.
Proof. vm_compute. reflexivity. Qed.

(** The second request waits for the answer to the first. *)
Lemma rtsp_request_waits_witness : exists b s' x', @rtsp_server_session_request_process _ _ _ (sample_world true) 0%nat sample_next sample_running = Some (b, s') /\
  sessions s' !! 1%nat = Some x' /\ pending x' = [sample_setup; sample_next].
Proof.
  destruct (find_connection (fun k => bool_decide (apr_hash_get (session_table k) (str_data (rtsp_session_id (rm_header sample_next))) = Some 1%nat))
    0%nat sample_running) as (k & Ek & Hk); [vm_compute; reflexivity|]. apply bool_decide_eq_true in Hk.
  destruct (@rtsp_request_waits _ apr_reference_laws _ _ _ _ (sample_world true) 0%nat k 1%nat sample_session sample_next sample_running)
    as (b & s' & x' & E & Ex & Ep & _).
  - exact sample_running_reached.
  - exact Ek.
  - reflexivity.
  - exact sample_setup_ok.
  - reflexivity.
  - exact Hk.
  - exact sample_session_running.
  - reflexivity.
  - exists b, s', x'. split; [exact E|]. split; [exact Ex|exact Ep].
Defined.

(** The server when the second request waits, and the answer to the first under the identifier of the session. *)
Definition sample_waits : rtsp_server_t := @after true (RECEIVED 0%nat sample_next) sample_running.
Definition sample_waiting_session : rtsp_server_session_t := sample_session <| request_queue := [sample_next] |>.
Definition sample_named : rtsp_message_t := default sample_answer (session_id_put sample_session sample_answer).

Lemma sample_waits_reached : @server_reaches _ _ _ (sample_world true) sample_waits.
Proof.
  apply after_reached; [exact sample_running_reached|].
  destruct (find_connection (fun _ => true) 0%nat sample_running) as (k & Ek & _); [vm_compute; reflexivity|].
  exists k. split; [exact Ek|]. split; [intros _; exact sample_setup_ok|]. intros E. discriminate E.
Qed.
Lemma sample_waiting_running : sessions sample_waits !! 1%nat = Some sample_waiting_session.
Proof. vm_compute. reflexivity. Qed.

Lemma sample_named_sendable : rtsp_sendable sample_named [lit "OK"].
Proof.
  split.
  - cbn. unfold token, no_eol, nul_free. split_and!; first [done|decide_now|repeat constructor; decide_now].
  - repeat (apply Forall_cons_2; [split; decide_now|]). by apply Forall_nil_2.
  - repeat (apply Forall_cons_2; [|]); [..|by apply Forall_nil_2]; unfold field_ok, header_name_ok, header_value_ok, no_eol;
      split_and!; try done; try decide_now; by intros c r [= <- _].
  - vm_compute. repeat constructor; discriminate.
  - done.
  - done.
Qed.

(** The answer to the setup is sent, and the request that waits is dispatched. *)
Lemma rtsp_response_serves_next_witness : exists b s' rest e,
  @rtsp_server_session_response_process _ _ _ (sample_world true) 1%nat 9%nat sample_answer sample_waits = Some (b, s') /\
  server_out s' = server_out sample_waits ++ [SOCKET_SEND 0%nat (rtsp_wire sample_named [lit "OK"])] ++ rest /\
  dispatch 1%nat sample_next e /\ List.filter is_call rest = [e].
Proof.
  destruct (find_connection sock 0%nat sample_waits) as (k & Ek & Hk); [vm_compute; reflexivity|].
  destruct (@rtsp_response_serves_next _ apr_reference_laws _ _ _ _ (sample_world true) 1%nat sample_waiting_session 9%nat
    sample_setup sample_answer sample_setup_line sample_waits 0%nat k) as (b & s' & x' & m1 & sent & rest & E & _ & _ & Em & Eo & _ & Hsent & e & He & Hr).
  - exact sample_waits_reached.
  - exact sample_waiting_running.
  - reflexivity.
  - reflexivity.
  - discriminate.
  - intros _. eexists. split; vm_compute; reflexivity.
  - destruct (response_create_defined sample_setup RTSP_STATUS_CODE_OK RTSP_REASON_PHRASE_OK sample_setup_ok) as (r & Er & Hr).
    unfold sample_answer. rewrite Er. exact Hr.
  - vm_compute. reflexivity.
  - reflexivity.
  - exact Ek.
  - exact Hk.
  - assert (Em1 : m1 = sample_named).
    { assert (En : session_id_put sample_waiting_session sample_answer = Some sample_named) by reflexivity. rewrite En in Em. by injection Em. }
    subst m1. rewrite (Hsent _ sample_named_sendable) in Eo by (apply Nat.ltb_lt; vm_compute; reflexivity).
    exists b, s', rest, e. split; [exact E|]. split; [exact Eo|]. split; [exact He|exact Hr].
Defined.

(** An owner that refuses the first request. *)
Lemma rtsp_first_request_refused_witness : exists b s', @rtsp_server_session_request_process _ _ _ (sample_world false) 0%nat sample_setup (sample_accepted false) = Some (b, s') /\
  @rtsp_server_connection_close _ _ (sample_world false) 0%nat s' = None.
Proof.
  destruct (find_connection (fun k => sock k && bool_decide (apr_hash_get (session_table k) (str_data (@next_id _ _ _ (sample_world false) (sample_accepted false))) = None))
    0%nat (sample_accepted false)) as (k & Ek & [Hk Hfree]%andb_true_iff); [vm_compute; reflexivity|]. apply bool_decide_eq_true in Hfree.
  destruct (@rtsp_first_request_refused _ apr_reference_laws _ _ _ _ (sample_world false) 0%nat k sample_setup sample_setup_line (sample_accepted false))
    as (b & s' & E & _ & _ & Ec).
  - exact (sample_accepted_reached false).
  - exact Ek.
  - exact Hk.
  - reflexivity.
  - exact sample_setup_ok.
  - reflexivity.
  - left. reflexivity.
  - reflexivity.
  - exact Hfree.
  - reflexivity.
  - reflexivity.
  - exists b, s'. split; [exact E|exact Ec].
Defined.
