(* ===== verification/RtspServerStream.v ===== *)
(** Receiving by the RTSP server: what the server does about a message leaves the streams and the parsers
    of its connections alone, so that the loop that parses what arrived comes to its end. *)

From S2P Require Import Prelude AprHash AptString TextStream TextValues HeaderField TextMessage MessageParser FieldsParse StreamRoundtrip ParserProgress StateMachine Transport RtspStartLine RtspHeader RtspStream RtspServer.

(** * Programs that leave the streams alone *)

Section Keeps.
Context `{Apr} {Sessions : AprHash addr} {Resources : AprHash rtsp_message_t} {World : RtspServerWorld}.

(** The connections are those there were, and read where they did. *)
Definition reading_kept (s s' : rtsp_server_t) : Prop := forall c k', connections s' !! c = Some k' ->
  exists k, connections s !! c = Some k /\ rx_stream k' = rx_stream k /\ parser k' = parser k.
Definition leaves {X} (m : prog rtsp_server_t X) : Prop := forall s x s', m s = Some (x, s') -> reading_kept s s'.

#[global] Instance reading_kept_preorder : PreOrder reading_kept.
Proof.
  split; [by intros s c k' E; exists k'|]. intros s1 s2 s3 H1 H2 c k3 E3.
  destruct (H2 c k3 E3) as (k2 & E2 & Hr2 & Hp2). destruct (H1 c k2 E2) as (k1 & E1 & Hr1 & Hp1). exists k1. split_and!; congruence.
Qed.

Lemma leaves_bind {X Y} (m : prog rtsp_server_t X) (f : X -> prog rtsp_server_t Y) : leaves m -> (forall x, leaves (f x)) -> leaves (bind m f).
Proof.
  intros Hm Hf s y s'. unfold bind. destruct (m s) as [[x s1]|] eqn:E; [|done]. intros E'. transitivity s1; [by eapply Hm|by eapply Hf].
Qed.
Lemma leaves_same {X} (m : prog rtsp_server_t X) : (forall s x s', m s = Some (x, s') -> connections s' = connections s) -> leaves m.
Proof. intros Hm s x s' E c k' Ek. rewrite (Hm _ _ _ E) in Ek. by exists k'. Qed.
Lemma leaves_ret {X} (x : X) : leaves (ret x).
Proof. apply leaves_same. by intros s y s' [= _ <-]. Qed.
Lemma leaves_crash {X} : leaves (crash : prog rtsp_server_t X).
Proof. by intros s x s'. Qed.
Lemma leaves_gets {X} (f : rtsp_server_t -> X) : leaves (gets f).
Proof. apply leaves_same. by intros s y s' [= _ <-]. Qed.
Lemma leaves_deref {X} (p : option X) : leaves (deref_ptr p).
Proof. destruct p; [apply leaves_ret|apply leaves_crash]. Qed.
Lemma leaves_modify (f : rtsp_server_t -> rtsp_server_t) : (forall s, connections (f s) = connections s) -> leaves (modify f).
Proof. intros Hf. apply leaves_same. by intros s y s' [= _ <-]. Qed.
Lemma leaves_delete (c : addr) : leaves (modify (fun s => s <| connections := delete c (connections s) |>)).
Proof.
  intros s x s' [= _ <-] c' k' E. cbn in E. apply lookup_delete_Some in E as [_ E]. by exists k'.
Qed.
Lemma leaves_set_conn (c : addr) f : (forall k, rx_stream (f k) = rx_stream k /\ parser (f k) = parser k) -> leaves (set_conn c f).
Proof.
  intros Hf s x s'. unfold set_conn, get_conn, bind, gets, deref_ptr. destruct (connections s !! c) as [k|] eqn:Ek; [|done].
  intros [= _ <-] c' k' E. cbn in E. destruct (decide (c' = c)) as [->|Hne].
  - rewrite lookup_insert_eq in E. injection E as <-. exists k. split; [done|]. apply Hf.
  - rewrite lookup_insert_ne in E by done. by exists k'.
Qed.
Lemma leaves_if {X} (b : bool) (p q : prog rtsp_server_t X) : leaves p -> leaves q -> leaves (if b then p else q).
Proof. by destruct b. Qed.
End Keeps.

Create HintDb keeping.
#[export] Hint Resolve leaves_ret leaves_crash leaves_gets leaves_deref leaves_delete : keeping.

(** Follow the structure of a program. *)
Ltac keeping :=
  repeat first
    [ progress eauto with keeping nocore
    | apply leaves_set_conn; intros ?; by split
    | apply leaves_bind; [|intros ?]
    | apply leaves_modify; intros ?; done
    | apply leaves_if
    | match goal with |- context [match ?x with _ => _ end] => destruct x end ].

Section Handlers.
Context `{Apr} {Sessions : AprHash addr} {Resources : AprHash rtsp_message_t} {World : RtspServerWorld}.

Lemma leaves_get_conn (c : addr) : leaves (get_conn c). Proof. unfold get_conn. keeping. Qed.
Lemma leaves_get_session (i : addr) : leaves (get_session i). Proof. unfold get_session. keeping. Qed.
Hint Resolve leaves_get_conn leaves_get_session : keeping.
Lemma leaves_set_session (i : addr) f : leaves (set_session i f). Proof. unfold set_session. keeping. Qed.
Lemma leaves_fresh : leaves fresh_address. Proof. unfold fresh_address. keeping. Qed.
Lemma leaves_tell e : leaves (tell e). Proof. unfold tell. keeping. Qed.
Hint Resolve leaves_set_session leaves_fresh leaves_tell : keeping.
Lemma leaves_call {X} e (answer : list rtsp_server_event -> X) : leaves (call e answer). Proof. unfold call. keeping. Qed.
Hint Resolve leaves_call : keeping.

Lemma leaves_send_loop (fuel : nat) (c a : addr) : forall m status, leaves (message_send_loop fuel c a m status).
Proof. induction fuel as [|fuel IH]; intros m status; cbn [message_send_loop]; keeping. Qed.
Hint Resolve leaves_send_loop : keeping.
Lemma leaves_send conn (a : addr) m : leaves (rtsp_server_message_send conn a m).
Proof. unfold rtsp_server_message_send. keeping. Qed.
Hint Resolve leaves_send : keeping.
Lemma leaves_error conn m code reason : leaves (rtsp_server_error_respond conn m code reason).
Proof. unfold rtsp_server_error_respond. keeping. Qed.
Hint Resolve leaves_error : keeping.
Lemma leaves_destroy (i : addr) : leaves (rtsp_server_session_destroy i).
Proof. unfold rtsp_server_session_destroy. keeping. Qed.
Hint Resolve leaves_destroy : keeping.
Lemma leaves_create : leaves rtsp_server_session_create.
Proof. unfold rtsp_server_session_create. keeping. Qed.
Lemma leaves_terminate (i : addr) : leaves (rtsp_server_session_terminate_request i).
Proof. unfold rtsp_server_session_terminate_request. keeping. Qed.
Hint Resolve leaves_create leaves_terminate : keeping.
Lemma leaves_message_handle (i : addr) m : leaves (message_handle i m).
Proof. unfold message_handle. keeping. Qed.
Hint Resolve leaves_message_handle : keeping.
Lemma leaves_session_message_handle (i : addr) m : leaves (rtsp_server_session_message_handle i m).
Proof. unfold rtsp_server_session_message_handle. keeping. Qed.
Hint Resolve leaves_session_message_handle : keeping.
Lemma leaves_setup (c : addr) m : leaves (rtsp_server_session_setup_process c m).
Proof. unfold rtsp_server_session_setup_process, session_add. keeping. Qed.
Hint Resolve leaves_setup : keeping.
Lemma leaves_request (c : addr) m : leaves (rtsp_server_session_request_process c m).
Proof. unfold rtsp_server_session_request_process. keeping. Qed.
Hint Resolve leaves_request : keeping.
Lemma leaves_handler (c : addr) m status : leaves (rtsp_server_message_handler c m status).
Proof. unfold rtsp_server_message_handler. keeping. Qed.
End Handlers.

(** * The loop of a receive *)

#[global] Instance rtsp_context_laws : MessageContextLaws rtsp_message_context.
Proof. by split. Qed.

Section Receive.
Context `{LA : AprLaws} {Sessions : AprHash addr} {Resources : AprHash rtsp_message_t} {World : RtspServerWorld}.

Lemma rtsp_start_progress (st : apt_text_stream_t) r st' : on_start rtsp_parser_vtable st = Some (r, st') -> progress st st'.
Proof.
  cbn [rtsp_parser_vtable on_start]. unfold rtsp_parser_on_start. pose proof (line_read_progress st) as Hp.
  destruct (apt_text_line_read st) as [[ok line] st1]. cbn [snd] in Hp. destruct ok; cbn [negb]; [|by intros [= _ <-]].
  destruct (rtsp_start_line_parse _ line) as [ok sl]. destruct ok; by intros [= _ <-].
Qed.

Lemma rtsp_created_fit : staged_fit rtsp_parser_vtable rtsp_parser_create.
Proof. by split. Qed.

Lemma rtsp_receive_ends (c : addr) (fuel : nat) : forall s k b s',
  connections s !! c = Some k -> staged_fit rtsp_parser_vtable (parser k) -> reader_ok (rx_stream k) -> window (rx_stream k) <> [] ->
  (length (window (rx_stream k)) < fuel)%nat -> message_receive_loop fuel c s = Some (b, s') -> b = true.
Proof.
  induction fuel as [|fuel IH]; intros s k b s' Ek Hp Hrd Hne Hf; [lia|]. cbn [message_receive_loop]. unfold bind at 1.
  unfold get_conn at 1. unfold bind at 1, gets at 1. rewrite Ek. unfold deref_ptr at 1. unfold ret at 1. unfold bind at 1.
  destruct (rtsp_parser_run (parser k) (rx_stream k)) as [[[[status m] p] st]|] eqn:Er; [|done]. unfold deref_ptr at 1. unfold ret at 1.
  destruct (staged_run_progress _ rtsp_start_progress _ _ _ _ _ _ Hp Hrd Hne Er) as [[Hadv Hprog] Hp'].
  unfold bind at 1. unfold set_conn, get_conn at 1. unfold bind at 1 2, gets at 1. rewrite Ek. unfold deref_ptr at 1. unfold ret at 1. unfold modify.
  set (s1 := _ <| connections := _ |>). set (k1 := k <| parser := p |> <| rx_stream := st |>) in s1.
  unfold bind at 1. destruct (rtsp_server_message_handler c m status s1) as [[b1 s2]|] eqn:Eh; [|done]. apply leaves_handler in Eh.
  unfold bind at 1. unfold get_conn at 1. unfold bind at 1, gets at 1. destruct (connections s2 !! c) as [k2|] eqn:Ek2; [|done].
  destruct (Eh c k2 Ek2) as (k1' & Ek1 & Hrx & Hpa). cbn in Ek1. rewrite lookup_insert_eq in Ek1. injection Ek1 as <-.
  unfold deref_ptr. unfold ret at 1. rewrite Hrx. change (rx_stream k1) with st. destruct (apt_text_is_eos st) eqn:He; [by intros [= <- _]|].
  assert (Hrd' : reader_ok st) by by eapply reader_advances. destruct Hprog as [|Hlt]; [done|].
  apply (IH s2 k2); rewrite ?Hrx, ?Hpa; try done.
  - intros Hw. by rewrite eos_of_window in He by (done || apply Hrd').
  - change (rx_stream k1) with st. lia.
Qed.
End Receive.

(** Whatever arrives on a connection, the loop that parses it comes to its end: as many runs of the parser
    as there are bytes, and one more, are enough. *)
Theorem rtsp_receive_loop_terminates `{LA : AprLaws} {Sessions : AprHash addr} {Resources : AprHash rtsp_message_t} {World : RtspServerWorld}
    (c : addr) (s s' : rtsp_server_t) (k : rtsp_server_connection_t) (b : bool) :
  connections s !! c = Some k -> staged_fit rtsp_parser_vtable (parser k) -> reader_ok (rx_stream k) -> window (rx_stream k) <> [] ->
  message_receive_loop (S (length (window (rx_stream k)))) c s = Some (b, s') -> b = true.
Proof. intros Ek Hp Hrd Hne. eapply rtsp_receive_ends; try done. lia. Qed.
